(* ===== verification/_CoqProject ===== *)
-Q . S2P
Prelude.v
Frames.v
Heap.v
HeapSpec.v
Phys.v
Paging.v
PagingInv.v
PagingOps.v
PagingLife.v
PagingFree.v
PagingSpec.v
Fat.v
FatBytes.v
FatDisk.v
FatChain.v
FatDir.v
FatFiles.v
FatWrite.v
FatSpec.v
FatProps.v
FatMount.v
Ring.v
Kernel.v
Sched.v
Syscall.v
KernelInv.v
KernelFiles.v
KernelTasks.v
KernelCreate.v
KernelSafe.v
RoundRobin.v
System.v
Toy.v
KernelProps.v
KernelSpec.v
SignalSpec.v
TaskSpec.v
Elf.v
ElfSpec.v
Board.v
Ata.v
AtaSpec.v
BoardSpec.v
Rig.v
RigSpec.v
Libc.v
Calloc.v
Screen.v
Tables.v
Faults.v
User.v
UserSpec.v
Shell.v
Words.v
ShellLogic.v
LineEdit.v
ShellSpec.v
