(* ===== verification/Prelude.v ===== *)
(** * TownOS: a verification of the kernel, its file system and its shell

    TownOS is a small x86-64 kernel with processes, signals, pipes, a FAT32
    file system and a ring-3 shell. This library models its C code as Rocq
    functions, state explicit and integers at their width, and proves what
    the parts promise to each other and to the programs.

    ** The parts and their files

    - Physical frames, [kernel/memory.c]: [Frames]. The bitmap, the Multiboot
      map walk, the identity map and the reservations.
    - Kernel heap, [kernel/heap.c], and the ring-3 copy of its algorithms,
      [libc/malloc.c]: [Heap] (the block lists, headers and footers in
      memory), [HeapSpec] (the set of live payloads they implement, over any
      source of slabs, [SlabSource]), [Calloc] ([calloc]).
    - Address spaces, [kernel/paging.c]: [Phys] (physical memory as bytes),
      [Paging] (the operations), [PagingInv], [PagingOps], [PagingLife],
      [PagingFree] (the trees of tables and their invariant), [PagingSpec]
      (reachable states, isolation, no leaks).
    - FAT32, [fs/fat32.c]: [Fat] (every operation, over the interface [FsEnv]
      of heap and disk), [FatBytes], [FatDisk], [FatChain], [FatDir],
      [FatFiles], [FatWrite] (integer fields, sectors, chains, directories,
      the map from names to contents), [FatSpec], [FatProps] (the operations
      refine that map), [FatMount] ([fat32_init]).
    - ELF loader, [kernel/elf.c]: [Elf], [ElfSpec].
    - Disk driver, [drivers/disk.c]: [Ata] (over the port instructions,
      [Ports], and a drive that follows the ATA protocol, [AtaDrive]; the
      driver sends a flush to a drive that may be busy, and that it is
      ignored then is the separate assumption [BusyIgnores]), [AtaSpec] (it
      is a block device).
    - Tasks and system calls: [Ring] (the keyboard's ring buffer), [Kernel]
      (the state, pipes of [kernel/pipe.c], files of [kernel/file.c], the
      keyboard driver, and the interface [Machine] to the parts above),
      [Sched] ([kernel/scheduler.c]), [Syscall] ([kernel/syscall.c],
      [kernel/signal.c], the timer and keyboard interrupts of
      [kernel/isr.c], [kernel/timer.c], and the start of the first program,
      [kernel/kernel.c], [kernel/usermode.c]).
    - Their correctness: [KernelInv] (the laws of [Machine] and the
      invariant), [KernelFiles], [KernelTasks], [KernelCreate], [KernelSafe]
      (every operation keeps it), [RoundRobin], [System] (runs of the whole
      system), [Toy] (a small machine on which the theorems are tried),
      [KernelProps], [KernelSpec], [SignalSpec], [TaskSpec] (the theorems).
    - The parts together: [Board] (the heap, the address spaces and a disk
      under the file system), [BoardSpec] ([elf_load_file] through all of
      them, tried on a simulated ATA drive), [Rig] (the interface [Machine]
      of the kernel implemented by the real parts, with its laws) and
      [RigSpec] (the safety of the whole system on them).
    - Screen and C library: [Libc] ([libc/mem.c], [libc/string.c]), [Screen]
      ([drivers/screen.c], which refines a terminal).
    - Entry to the kernel: [Tables] ([kernel/gdt.c], [kernel/idt.c], the
      vectors of [kernel/isr.c], the interrupt controllers and the frequency
      of [kernel/timer.c]), [Faults] (the reports of processor exceptions,
      [kernel/isr.c], on the screen).
    - Ring 3: [User] ([user/userlib.h], [libc/printf.c]: computations that
      call an environment [Env], the kernel and its signals), [UserSpec] (a
      program logic for them and the output functions), [Shell]
      ([user/shell.c]), [Words] (its tokens, names and numbers),
      [ShellLogic] (the rules the shell keeps towards the kernel, as an
      automaton), [LineEdit] ([read_line]), [ShellSpec] (all commands, the
      pipeline and the session).

    ** How the code is written here

    A C function is a function of the state it uses. A kernel function may
    have undefined behaviour (a store outside the memory it owns): its result
    is [UB] in the monad of [Kernel], [None] elsewhere, and the theorems show
    that this does not happen. Functions with loops that are not structural
    take their bound from the code (the number of frames, blocks, clusters,
    table entries); where the code has no bound, the number of blocks of the
    heap or the step bound of the caller is used, and the theorems show that
    it is enough, for the result never is the one of a loop that ran out.
    Addresses and machine integers are [Z] with [u8], [u16], [u32] and [u64]
    where the code converts or wraps.

    ** What is shown

    - Safety: from the start of the first program on, whatever ring 3
      computes and stores and whenever interrupts arrive, the kernel has no
      undefined behaviour, returns only to ring 3, with ring-3 selectors and,
      while the program has no I/O privilege, with interrupts on, and leaks
      no heap block ([KernelProps]). The machine may stop instead: when all
      tasks wait, or when a system call follows a ring-3 pointer that has no
      page behind it.
    - Allocation: frames, kernel heap, ring-3 malloc and address spaces hand
      out disjoint memory, take it back, and fail only when there is none;
      the routines of the block lists refine operations on the live set.
    - Isolation: no two user pages share a frame, and an operation on one
      address space changes no other.
    - Tasks: round robin, no starvation, exit and wait, signals, Ctrl-C,
      pipes and the console.
    - Files: read, write, delete and list refine a map from names to
      contents with exact accounting of clusters, in all copies of the FAT at
      once; a failure for want of memory is one of the same call, by a record
      of refusals that any environment can be given ([logged]); mounting sets
      the geometry they need; the optimised search of the FAT equals the
      plain one.
    - Programs: the loader reads nothing outside the file whatever its bytes
      and maps exactly its image; through the file system and the disk
      driver it loads the file that is on the disk.
    - Entry: the tables the processor reads open the system call and nothing
      else to ring 3, every hardware line reaches its own stub, and a fault
      report shows the registers and writes nothing but the display.
    - The whole: the kernel's safety holds with the interface to its parts
      filled by the modelled parts, down to the drive ([RigSpec]).
    - The shell: for every kernel that answers as documented and every
      arrival of interrupts it has no undefined behaviour, and its calls for
      descriptors, children and the foreground keep the rules; what they
      leave behind is exactly what the kernel refused; [read_line]
      refines a line editor, [printf] a formatter, [next_token] the splitting
      into words; pipelines always return and clean up.

    ** Not modelled

    Assembly ([boot], [kernel/isr_stubs.asm], the port instructions and the
    loading of the descriptor registers), TLB flushes, the messages of the
    kernel other than fault reports, and the debugging output of the heap.
    A ring-3 program is arbitrary in the theorems about the kernel, except
    that it uses no port instruction: without I/O privilege these fault, and
    a program that gave itself the privilege ([sigreturn_privilege]) could do
    anything to the devices with them. The
    kernel is any that keeps [AnswerLaws] in those about the shell; the
    nesting of a signal handler in itself is not modelled. The processor is
    a single one and enters the kernel with interrupts off, as the gates of
    [Tables] have it, so a handler is one step.

    The claims, in the order of their importance, carry the ids C1 to C40 in
    the comments of their theorems. *)

From stdpp Require Import base list gmap fin_maps.
From Stdlib Require Import ZArith Lia Bool.

#[global] Open Scope Z_scope.

(** ** Fixed-width integers

    The kernel is LP64: [uint8_t] to [uint64_t] wrap modulo a power of two,
    and a conversion to [int] is two's complement at 32 bits. *)

Definition u8 (z : Z) : Z := z mod 2 ^ 8.
Definition u16 (z : Z) : Z := z mod 2 ^ 16.
Definition u32 (z : Z) : Z := z mod 2 ^ 32.
Definition u64 (z : Z) : Z := z mod 2 ^ 64.
Definition i32 (z : Z) : Z := (z + 2 ^ 31) mod 2 ^ 32 - 2 ^ 31.

(** ** Arrays: C indexing on a list, with the index in [Z] *)

Definition znth {A} (d : A) (l : list A) (i : Z) : A :=
  if i <? 0 then d else default d (l !! Z.to_nat i).
Definition zset {A} (l : list A) (i : Z) (v : A) : list A :=
  if i <? 0 then l else <[Z.to_nat i := v]> l.
Definition zlen {A} (l : list A) : Z := Z.of_nat (length l).

(** ** Byte-addressed memory

    A total function from addresses to byte values, as RAM is; loads of
    wider integers are little-endian. *)

Definition mem : Type := Z -> Z.
Definition ld8 (m : mem) (a : Z) : Z := m a.
Definition ld32 (m : mem) (a : Z) : Z :=
  m a + 2 ^ 8 * m (a + 1) + 2 ^ 16 * m (a + 2) + 2 ^ 24 * m (a + 3).
Definition ld64 (m : mem) (a : Z) : Z := ld32 m a + 2 ^ 32 * ld32 m (a + 4).
Definition st8 (m : mem) (a v : Z) : mem := fun x => if x =? a then u8 v else m x.
Definition wf_mem (m : mem) : Prop := forall a, 0 <= m a < 256.

(** Little-endian words as bytes, and back. *)
Fixpoint le_bytes (n : nat) (v : Z) : list Z :=
  match n with O => [] | S n' => v mod 256 :: le_bytes n' (v / 256) end.
Fixpoint of_le (l : list Z) : Z :=
  match l with [] => 0 | b :: l' => b + 256 * of_le l' end.

(** ** Loops

    [for_range n i f s] is [for (k = i; k < i + n; k++) s = f(k, s)], and
    [scan p n i] is the search loop that returns the first [k] of that
    range with [p k]. *)

Fixpoint for_range {S} (n : nat) (i : Z) (f : Z -> S -> S) (s : S) : S :=
  match n with
  | O => s
  | S n' => for_range n' (i + 1) f (f i s)
  end.

Fixpoint scan (p : Z -> bool) (n : nat) (i : Z) : option Z :=
  match n with
  | O => None
  | S n' => if p i then Some i else scan p n' (i + 1)
  end.

(** How many [k] of the range satisfy [p]. *)
Fixpoint zcount (p : Z -> bool) (n : nat) (i : Z) : Z :=
  match n with
  | O => 0
  | S n' => (if p i then 1 else 0) + zcount p n' (i + 1)
  end.

(** ** Tactics *)

(** Turn the boolean comparisons of hypotheses into propositions. *)
Ltac zbool :=
  repeat match goal with
  | H : (_ && _) = true |- _ => apply andb_true_iff in H; destruct H
  | H : (_ && _) = false |- _ => apply andb_false_iff in H
  | H : (_ || _) = true |- _ => apply orb_true_iff in H
  | H : (_ || _) = false |- _ => apply orb_false_iff in H; destruct H
  | H : negb _ = true |- _ => apply negb_true_iff in H
  | H : negb _ = false |- _ => apply negb_false_iff in H
  | H : (_ <? _) = true |- _ => apply Z.ltb_lt in H
  | H : (_ <? _) = false |- _ => apply Z.ltb_ge in H
  | H : (_ <=? _) = true |- _ => apply Z.leb_le in H
  | H : (_ <=? _) = false |- _ => apply Z.leb_gt in H
  | H : (_ =? _) = true |- _ => apply Z.eqb_eq in H
  | H : (_ =? _) = false |- _ => apply Z.eqb_neq in H
  end.

(** Case analysis on every integer comparison the goal branches on. *)
Ltac zcases :=
  repeat match goal with
  | |- context [?a <? ?b] => destruct (Z.ltb_spec a b)
  | |- context [?a <=? ?b] => destruct (Z.leb_spec a b)
  | |- context [?a =? ?b] => destruct (Z.eqb_spec a b)
  end.

(** Linear arithmetic with division and modulo by constants. *)
Ltac mlia := Z.to_euclidean_division_equations; lia.

(** Destruct the conditions of the [if]s in a hypothesis. *)
Ltac zif_in H :=
  repeat match type of H with
  | context [if ?b then _ else _] => let E := fresh "E" in destruct b eqn:E
  end.

Create HintDb town.

(** ** Lemmas on the integer conversions *)

Lemma u8_range z : 0 <= u8 z < 2 ^ 8.
Proof. apply Z.mod_pos_bound. lia. Qed.
Lemma u32_range z : 0 <= u32 z < 2 ^ 32.
Proof. apply Z.mod_pos_bound. lia. Qed.
Lemma u64_range z : 0 <= u64 z < 2 ^ 64.
Proof. apply Z.mod_pos_bound. lia. Qed.
Lemma u8_small z : 0 <= z < 2 ^ 8 -> u8 z = z.
Proof. apply Z.mod_small. Qed.
Lemma u16_small z : 0 <= z < 2 ^ 16 -> u16 z = z.
Proof. apply Z.mod_small. Qed.
Lemma u32_small z : 0 <= z < 2 ^ 32 -> u32 z = z.
Proof. apply Z.mod_small. Qed.
Lemma u64_small z : 0 <= z < 2 ^ 64 -> u64 z = z.
Proof. apply Z.mod_small. Qed.
Lemma i32_small z : - 2 ^ 31 <= z < 2 ^ 31 -> i32 z = z.
Proof. intros. unfold i32. rewrite Z.mod_small; lia. Qed.

#[export] Hint Resolve u8_range u32_range u64_range : town.
#[export] Hint Rewrite u8_small u16_small u32_small u64_small using lia : town.

(** ** Lemmas on arrays *)

Lemma znth_nonneg {A} (d : A) l i :
  0 <= i -> znth d l i = default d (l !! Z.to_nat i).
Proof. intros. unfold znth. zcases; [lia | done]. Qed.

Lemma znth_cons_ne {A} (d : A) x l i : i <> 0 -> znth d (x :: l) i = znth d l (i - 1).
Proof.
  intros. unfold znth. zcases; try lia; [done |].
  replace (Z.to_nat i) with (S (Z.to_nat (i - 1))) by lia. done.
Qed.

Lemma zlen_zset {A} (l : list A) i v : zlen (zset l i v) = zlen l.
Proof. unfold zlen, zset. zcases; [done |]. by rewrite length_insert. Qed.

Lemma znth_zset_eq {A} (d : A) l i v :
  0 <= i < zlen l -> znth d (zset l i v) i = v.
Proof.
  intros. unfold znth, zset, zlen in *. zcases; [lia |].
  rewrite list_lookup_insert_eq; [done | lia].
Qed.

Lemma znth_zset_ne {A} (d : A) l i j v :
  i <> j -> znth d (zset l i v) j = znth d l j.
Proof.
  intros. unfold znth, zset. zcases; try done.
  rewrite list_lookup_insert_ne; [done | lia].
Qed.

Lemma znth_zset {A} (d : A) l i j v :
  0 <= i < zlen l ->
  znth d (zset l i v) j = if j =? i then v else znth d l j.
Proof.
  intros. destruct (Z.eqb_spec j i) as [-> | ]; [by apply znth_zset_eq |].
  apply znth_zset_ne. lia.
Qed.

Lemma zset_oob {A} (l : list A) i v : zlen l <= i -> zset l i v = l.
Proof.
  intros. unfold zset, zlen in *. zcases; [done |].
  apply list_insert_ge. lia.
Qed.

(** ** Lemmas on loops *)

(** The invariant rule for a counted loop. *)
Lemma for_range_ind {S} (P : Z -> S -> Prop) (f : Z -> S -> S) n i s :
  P i s ->
  (forall k s, i <= k < i + Z.of_nat n -> P k s -> P (k + 1) (f k s)) ->
  P (i + Z.of_nat n) (for_range n i f s).
Proof.
  revert i s. induction n as [|n IH]; intros i s H0 Hstep; simpl.
  - by replace (i + Z.of_nat 0) with i by lia.
  - replace (i + Z.of_nat (Datatypes.S n)) with ((i + 1) + Z.of_nat n) by lia.
    apply IH; [apply Hstep; [lia | done] |].
    intros k s' Hk. apply Hstep. lia.
Qed.

Lemma scan_Some p n i k :
  scan p n i = Some k ->
  i <= k < i + Z.of_nat n /\ p k = true /\ forall j, i <= j < k -> p j = false.
Proof.
  revert i. induction n as [|n IH]; intros i H; simpl in H; [done |].
  destruct (p i) eqn:E.
  - simplify_eq. split; [lia |]. split; [done |]. intros; lia.
  - apply IH in H as (Hr & Hp & Hlow). split; [lia |]. split; [done |].
    intros j Hj. destruct (decide (j = i)) as [-> | ]; [done |]. apply Hlow; lia.
Qed.

Lemma scan_None p n i :
  scan p n i = None -> forall j, i <= j < i + Z.of_nat n -> p j = false.
Proof.
  revert i. induction n as [|n IH]; intros i H j Hj; simpl in H; [lia |].
  destruct (p i) eqn:E; [done |].
  destruct (decide (j = i)) as [-> | ]; [done |]. apply (IH (i + 1)); [done | lia].
Qed.

Lemma scan_complete p n i k :
  i <= k < i + Z.of_nat n -> p k = true -> exists j, scan p n i = Some j.
Proof.
  intros Hk Hp. destruct (scan p n i) as [j|] eqn:E; [eauto |].
  pose proof (scan_None p n i E k Hk). congruence.
Qed.

(** [scan] is characterised by its least hit. *)
Lemma scan_least p n i k :
  i <= k < i + Z.of_nat n -> p k = true ->
  (forall j, i <= j < k -> p j = false) -> scan p n i = Some k.
Proof.
  intros Hk Hp Hlow. destruct (scan_complete p n i k Hk Hp) as [j Hj].
  apply scan_Some in Hj as Hj'. destruct Hj' as (Hr & Hpj & Hlowj).
  destruct (Z.lt_trichotomy j k) as [Hlt | [-> | Hgt]]; [| done |].
  - rewrite Hlow in Hpj; [done | lia].
  - rewrite Hlowj in Hp; [done | lia].
Qed.

Lemma scan_ext p q n i :
  (forall j, i <= j < i + Z.of_nat n -> p j = q j) -> scan p n i = scan q n i.
Proof.
  revert i. induction n as [|n IH]; intros i H; simpl; [done |].
  rewrite H by lia. destruct (q i); [done |]. apply IH. intros; apply H; lia.
Qed.

Lemma zcount_range p n i : 0 <= zcount p n i <= Z.of_nat n.
Proof.
  revert i. induction n as [|n IH]; intros i; simpl; [lia |].
  specialize (IH (i + 1)). destruct (p i); lia.
Qed.

Lemma zcount_ext p q n i :
  (forall j, i <= j < i + Z.of_nat n -> p j = q j) -> zcount p n i = zcount q n i.
Proof.
  revert i. induction n as [|n IH]; intros i H; simpl; [done |].
  rewrite H by lia. f_equal. apply IH. intros; apply H; lia.
Qed.

(** Raising one point of the predicate from false to true raises the
    count by one. *)
Lemma zcount_flip p q n i k :
  i <= k < i + Z.of_nat n -> p k = false -> q k = true ->
  (forall j, j <> k -> p j = q j) -> zcount q n i = zcount p n i + 1.
Proof.
  revert i. induction n as [|n IH]; intros i Hk Hp Hq Hne; simpl; [lia |].
  destruct (decide (i = k)) as [-> | Hik].
  - rewrite Hp, Hq. rewrite (zcount_ext q p); [lia |].
    intros j Hj. symmetry. apply Hne. lia.
  - rewrite (Hne i) by done. rewrite IH; [lia | lia | done..].
Qed.

(** ** Alignment by masking *)

Lemma testbit_above a k n : 0 <= a < 2 ^ k -> k <= n -> Z.testbit a n = false.
Proof.
  intros Ha Hn. destruct (Z.lt_ge_cases k 0).
  { rewrite Z.pow_neg_r in Ha by done. lia. }
  rewrite <- (Z.mod_small a (2 ^ k)) by done. apply Z.mod_pow2_bits_high. lia.
Qed.

(** [x & ~(2^k - 1)] on [uint64_t] rounds [x] down to a multiple of [2^k]. *)
Lemma land_align_down k a :
  0 <= a < 2 ^ 64 -> 0 <= k < 64 ->
  Z.land a (u64 (Z.lnot (2 ^ k - 1))) = a / 2 ^ k * 2 ^ k.
Proof.
  intros Ha Hk. rewrite <- Z.shiftr_div_pow2, <- Z.shiftl_mul_pow2 by lia.
  replace (2 ^ k - 1) with (Z.ones k) by (rewrite Z.ones_equiv; lia).
  apply Z.bits_inj'. intros n Hn. rewrite Z.land_spec. unfold u64.
  destruct (Z.lt_ge_cases n 64) as [H64 | H64].
  - rewrite Z.mod_pow2_bits_low, Z.lnot_spec, Z.testbit_ones_nonneg by lia.
    destruct (Z.ltb_spec n k); simpl.
    + rewrite Z.shiftl_spec_low by done. apply andb_false_r.
    + rewrite Z.shiftl_spec, Z.shiftr_spec by lia.
      rewrite andb_true_r. f_equal. lia.
  - rewrite (testbit_above a 64) by lia. simpl.
    rewrite Z.shiftl_spec, Z.shiftr_spec by lia.
    symmetry. apply (testbit_above a 64); lia.
Qed.

(** Or-ing flags into the clear low bits of an aligned value adds them. *)
Lemma lor_low_add a b k : 0 <= k -> 0 <= b < 2 ^ k -> Z.lor (a * 2 ^ k) b = a * 2 ^ k + b.
Proof.
  intros Hk Hb. rewrite <- Z.shiftl_mul_pow2 by lia.
  assert (Z.land (Z.shiftl a k) b = 0) as H0.
  { apply Z.bits_inj'. intros n Hn. rewrite Z.land_spec, Z.bits_0.
    destruct (Z.lt_ge_cases n k).
    - by rewrite Z.shiftl_spec_low by done.
    - rewrite (testbit_above b k) by lia. apply andb_false_r. }
  by rewrite Z.add_nocarry_lxor, Z.lxor_lor by done.
Qed.

(** ** Little-endian words *)

Lemma le_bytes_length n v : length (le_bytes n v) = n.
Proof. revert v. induction n as [|n IH]; intros v; simpl; [done |]. by rewrite IH. Qed.

Lemma le_bytes_range n v : Forall (fun b => 0 <= b < 256) (le_bytes n v).
Proof.
  revert v. induction n as [|n IH]; intros v; simpl; [done |]. constructor; [apply Z.mod_pos_bound; lia | apply IH].
Qed.

Lemma of_le_bytes n v : 0 <= v < 256 ^ Z.of_nat n -> of_le (le_bytes n v) = v.
Proof.
  revert v. induction n as [|n IH]; intros v Hv; simpl.
  { change (256 ^ Z.of_nat 0) with 1 in Hv. lia. }
  rewrite IH; [pose proof (Z.div_mod v 256); lia |].
  rewrite Nat2Z.inj_succ, Z.pow_succ_r in Hv by lia. split; [apply Z.div_pos; lia |].
  apply Z.div_lt_upper_bound; lia.
Qed.
