(* ===== verification/Frames.v ===== *)
(** * The physical frame allocator

    [kernel/memory.c]: the Multiboot memory-map walk, the extension of the
    boot identity map, the reservation of ranges, and the bitmap allocator
    ([alloc_frame], [alloc_frames_contiguous], [free_frame]).  The bitmap is
    the byte array of the source, one bit per frame; [used] reads it as a
    set of frames, and the theorems are stated on that view.  Also the
    ring-3 range check [user_range_ok] of [kernel/memory.h]. *)

From stdpp Require Import base list gmap fin_maps.
From Stdlib Require Import ZArith Lia Bool.
From S2P Require Import Prelude.

(** ** Constants of [kernel/memory.h], [include/usermem.h], [kernel/memory.c] *)

Definition FRAME_SIZE : Z := 4096.
Definition USER_CODE_BASE : Z := 0x400000.
Definition USER_STACK_LIMIT : Z := 0x800000.
Definition USER_HEAP_BASE : Z := 0x800000.
Definition USER_HEAP_LIMIT : Z := 0xA00000.
Definition USER_SPACE_END : Z := USER_HEAP_LIMIT.
Definition USER_REGION_START : Z := USER_CODE_BASE.
Definition MEMORY_START : Z := 0x400000.
Definition TWO_MB : Z := 0x200000.
Definition ONE_GB : Z := 0x40000000.
Definition PD_ENTRIES : Z := 512.
Definition BOOT_MAP_TOP : Z := 0x2000000.
Definition MAX_FRAMES : Z := (ONE_GB - MEMORY_START) / FRAME_SIZE.
Definition MULTIBOOT_INFO_MEM_MAP : Z := Z.shiftl 1 6.
Definition MULTIBOOT_MEMORY_AVAILABLE : Z := 1.
Definition PG_PRESENT : Z := Z.shiftl 1 0.
Definition PG_WRITABLE : Z := Z.shiftl 1 1.
Definition PG_USER : Z := Z.shiftl 1 2.
Definition PG_HUGE : Z := Z.shiftl 1 7.

(** [user_range_ok]: is the whole range [ptr, ptr + len) in ring-3 space? *)
Definition user_range_ok (ptr len : Z) : bool :=
  if (ptr <? USER_REGION_START) || (USER_SPACE_END <=? ptr) then false
  else len <=? USER_SPACE_END - ptr.

(** ** State *)

Record frames := mkFrames {
  frame_bitmap : list Z;   (* uint8_t[MAX_FRAMES / 8] *)
  num_frames : Z;          (* uint32_t *)
  pool_top : Z             (* uint64_t *)
}.

Definition set_bitmap (fs : frames) (b : list Z) : frames :=
  mkFrames b (num_frames fs) (pool_top fs).

Definition set_bit (fs : frames) (frame : Z) : frames :=
  let b := znth 0 (frame_bitmap fs) (frame / 8) in
  set_bitmap fs (zset (frame_bitmap fs) (frame / 8)
                   (u8 (Z.lor b (Z.shiftl 1 (frame mod 8))))).

Definition clear_bit (fs : frames) (frame : Z) : frames :=
  let b := znth 0 (frame_bitmap fs) (frame / 8) in
  set_bitmap fs (zset (frame_bitmap fs) (frame / 8)
                   (u8 (Z.land b (Z.lnot (Z.shiftl 1 (frame mod 8)))))).

Definition test_bit (fs : frames) (frame : Z) : Z :=
  Z.land (znth 0 (frame_bitmap fs) (frame / 8)) (Z.shiftl 1 (frame mod 8)).

(** The truth value of [test_bit] in a C condition. *)
Definition used (fs : frames) (frame : Z) : bool := negb (test_bit fs frame =? 0).

(** ** The Multiboot memory map *)

Record multiboot_info := mkMbi { mbi_flags : Z; mbi_mmap_length : Z; mbi_mmap_addr : Z }.

(** The packed 24-byte entry: [size] at 0, [base_addr] at 4, [length] at
    12, [type] at 20. *)
Record mmap_entry := mkEntry { e_size : Z; e_base_addr : Z; e_length : Z; e_type : Z }.

Definition read_mbi (m : mem) (a : Z) : multiboot_info :=
  mkMbi (ld32 m a) (ld32 m (a + 44)) (ld32 m (a + 48)).

Definition read_mmap_entry (m : mem) (a : Z) : mmap_entry :=
  mkEntry (ld32 m a) (ld64 m (a + 4)) (ld64 m (a + 12)) (ld32 m (a + 20)).

Definition has_map (mbi : multiboot_info) : bool :=
  negb (Z.land (mbi_flags mbi) MULTIBOOT_INFO_MEM_MAP =? 0).

(** The map walk shared by [mmap_top_of_ram] and [reserve_map_holes]: visit
    the entry at [addr], then step by [size + sizeof(size)]. [None] is a walk
    that ran out of fuel. *)
Fixpoint walk_map {S} (m : mem) (fuel : nat) (addr end_ : Z)
    (f : mmap_entry -> S -> S) (s : S) : option S :=
  match fuel with
  | O => None
  | S fuel' =>
      if addr <? end_ then
        let e := read_mmap_entry m addr in
        walk_map m fuel' (u64 (addr + (e_size e + 4))) end_ f (f e s)
      else Some s
  end.

(** The entries that walk visits, in order. *)
Fixpoint map_entries (m : mem) (fuel : nat) (addr end_ : Z) : list mmap_entry :=
  match fuel with
  | O => []
  | S fuel' =>
      if addr <? end_ then
        let e := read_mmap_entry m addr in
        e :: map_entries m fuel' (u64 (addr + (e_size e + 4))) end_
      else []
  end.

(** Every stride is at least four bytes, so a quarter of the map's length
    (and one more test of the loop condition) bounds the walk. *)
Definition map_fuel (mbi : multiboot_info) : nat :=
  Z.to_nat (mbi_mmap_length mbi / 4 + 2).

Definition boot_entries (m : mem) (mbi_addr : Z) : list mmap_entry :=
  let mbi := read_mbi m mbi_addr in
  map_entries m (map_fuel mbi) (mbi_mmap_addr mbi) (mbi_mmap_addr mbi + mbi_mmap_length mbi).

Definition top_step (e : mmap_entry) (top : Z) : Z :=
  if e_type e =? MULTIBOOT_MEMORY_AVAILABLE then
    let region_top := u64 (e_base_addr e + e_length e) in
    if top <? region_top then region_top else top
  else top.

(** [mmap_top_of_ram]: the pair of the returned value and [*have_map]. *)
Definition mmap_top_of_ram (m : mem) (mbi_addr : Z) : option (Z * bool) :=
  let mbi := read_mbi m mbi_addr in
  if negb (has_map mbi) then Some (0, false)
  else
    match walk_map m (map_fuel mbi) (mbi_mmap_addr mbi)
            (mbi_mmap_addr mbi + mbi_mmap_length mbi) top_step 0 with
    | Some top => Some (top, true)
    | None => None
    end.

(** [extend_identity_map]: fill the page directory entries from 32MB up. *)
Definition identity_entry (i : Z) : Z :=
  Z.lor (Z.lor (Z.lor (i * TWO_MB) PG_PRESENT) PG_WRITABLE) PG_HUGE.

Definition extend_identity_map (pd_table : list Z) (map_top : Z) : list Z :=
  let top := Z.land (u64 (map_top + (TWO_MB - 1))) (u64 (Z.lnot (TWO_MB - 1))) in
  let top := if ONE_GB <? top then ONE_GB else top in
  let first := BOOT_MAP_TOP / TWO_MB in
  let last := u32 (top / TWO_MB) in
  for_range (Z.to_nat (last - first)) first
    (fun i pd => zset pd i (identity_entry i)) pd_table.

(** [memory_detect_and_map]: the new pool top, the extended page
    directory and the returned top of RAM. *)
Definition memory_detect_and_map (m : mem) (mbi_addr : Z) (fs : frames) (pd_table : list Z)
    : option (frames * list Z * Z) :=
  match mmap_top_of_ram m mbi_addr with
  | None => None
  | Some (top, have_map) =>
      let top := if have_map then top else BOOT_MAP_TOP in
      let ptop := if ONE_GB <? top then ONE_GB else top in
      Some (mkFrames (frame_bitmap fs) (num_frames fs) ptop,
            extend_identity_map pd_table ptop,
            if have_map then top else 0)
  end.

(** ** Reservation and initialisation *)

Definition reserve_range (fs : frames) (start end_ : Z) : frames :=
  if (end_ <=? MEMORY_START) || (pool_top fs <=? start) then fs
  else
    let start := if start <? MEMORY_START then MEMORY_START else start in
    let end_ := if pool_top fs <? end_ then pool_top fs else end_ in
    let first := u32 ((start - MEMORY_START) / FRAME_SIZE) in
    let last := u32 (u64 (end_ - MEMORY_START + FRAME_SIZE - 1) / FRAME_SIZE) in
    for_range (Z.to_nat (Z.min last (num_frames fs) - first)) first
      (fun i fs => set_bit fs i) fs.

Definition hole_step (e : mmap_entry) (fs : frames) : frames :=
  if negb (e_type e =? MULTIBOOT_MEMORY_AVAILABLE) then
    reserve_range fs (e_base_addr e) (u64 (e_base_addr e + e_length e))
  else fs.

Definition reserve_map_holes (m : mem) (mbi_addr : Z) (fs : frames) : option frames :=
  let mbi := read_mbi m mbi_addr in
  if negb (has_map mbi) then Some fs
  else walk_map m (map_fuel mbi) (mbi_mmap_addr mbi)
         (mbi_mmap_addr mbi + mbi_mmap_length mbi) hole_step fs.

Definition memory_init (m : mem) (mbi_addr : Z) (fs : frames) : option frames :=
  let bitmap := replicate (Z.to_nat (MAX_FRAMES / 8)) 0 in
  let n := if MEMORY_START <? pool_top fs
           then u32 ((pool_top fs - MEMORY_START) / FRAME_SIZE) else 0 in
  let n := if MAX_FRAMES <? n then MAX_FRAMES else n in
  let fs := mkFrames bitmap n (pool_top fs) in
  let fs := reserve_range fs USER_REGION_START USER_HEAP_LIMIT in
  reserve_map_holes m mbi_addr fs.

(** ** Allocation *)

Definition frame_addr (i : Z) : Z := MEMORY_START + i * FRAME_SIZE.

Definition alloc_frame (fs : frames) : frames * Z :=
  match scan (fun i => negb (used fs i)) (Z.to_nat (num_frames fs)) 0 with
  | Some i => (set_bit fs i, frame_addr i)
  | None => (fs, 0)
  end.

(** The run-counting loop of [alloc_frames_contiguous]: the index [i] at
    which the run of free frames reaches [count]. *)
Fixpoint contiguous_scan (fs : frames) (count : Z) (n : nat) (i run : Z) : option Z :=
  match n with
  | O => None
  | S n' =>
      if negb (used fs i) then
        let run := u32 (run + 1) in
        if run =? count then Some i
        else contiguous_scan fs count n' (i + 1) run
      else contiguous_scan fs count n' (i + 1) 0
  end.

Definition alloc_frames_contiguous (fs : frames) (count : Z) : frames * Z :=
  if count =? 0 then (fs, 0)
  else
    match contiguous_scan fs count (Z.to_nat (num_frames fs)) 0 0 with
    | Some i =>
        let start := u32 (i - count + 1) in
        (for_range (Z.to_nat (i + 1 - start)) start (fun j fs => set_bit fs j) fs,
         frame_addr start)
    | None => (fs, 0)
    end.

Definition free_frame (fs : frames) (addr : Z) : frames :=
  if addr <? MEMORY_START then fs
  else
    let frame := u32 ((addr - MEMORY_START) / FRAME_SIZE) in
    if frame <? num_frames fs then clear_bit fs frame else fs.

Definition frames_used (fs : frames) : Z :=
  zcount (used fs) (Z.to_nat (num_frames fs)) 0.

Definition frame_free_count (fs : frames) : Z := num_frames fs - frames_used fs.

(** ** The invariant, and runs of the allocator *)

(** What [memory_init] establishes and every operation preserves: the
    bitmap is the static array, and the pool is inside it. *)
Definition frames_wf (fs : frames) : Prop :=
  zlen (frame_bitmap fs) = MAX_FRAMES / 8 /\
  (forall i, 0 <= znth 0 (frame_bitmap fs) i < 256) /\
  0 <= num_frames fs <= MAX_FRAMES /\
  0 <= pool_top fs <= ONE_GB.

Definition same_pool (fs fs' : frames) : Prop :=
  num_frames fs' = num_frames fs /\ pool_top fs' = pool_top fs.

Definition free_run (fs : frames) (start count : Z) : Prop :=
  forall j, start <= j < start + count -> used fs j = false.

(** What the run counter means: the [run] frames below [i] are free and the
    frame below those, if there is one, is not. *)
Definition run_inv (fs : frames) (count i run : Z) : Prop :=
  0 <= run < count /\ run <= i /\ free_run fs (i - run) run /\
  (run < i -> used fs (i - run - 1) = true).

(** The frame index a returned address stands for. *)
Definition frame_index (a : Z) : Z := (a - MEMORY_START) / FRAME_SIZE.

(** One successful call into the allocator by a client that frees only
    what it was given. [out] is the set of frame indices handed out and not
    yet returned. *)
Inductive frame_step : frames * gset Z -> frames * gset Z -> Prop :=
| step_alloc fs out fs' a :
    alloc_frame fs = (fs', a) -> a <> 0 ->
    frame_step (fs, out) (fs', {[frame_index a]} ∪ out)
| step_contiguous fs out count fs' a :
    0 <= count < 2 ^ 32 ->
    alloc_frames_contiguous fs count = (fs', a) -> a <> 0 ->
    frame_step (fs, out) (fs', list_to_set (seqZ (frame_index a) count) ∪ out)
| step_free fs out i :
    i ∈ out ->
    frame_step (fs, out) (free_frame fs (frame_addr i), out ∖ {[i]}).

Inductive frame_reach (fs0 : frames) : frames * gset Z -> Prop :=
| reach_init : frame_reach fs0 (fs0, ∅)
| reach_step s s' : frame_reach fs0 s -> frame_step s s' -> frame_reach fs0 s'.

(** ** The bitmap as a set of frames *)

Lemma land_pow2_zero b k : 0 <= k -> (Z.land b (Z.shiftl 1 k) =? 0) = negb (Z.testbit b k).
Proof.
  intros Hk. rewrite Z.shiftl_1_l. destruct (Z.testbit b k) eqn:E; simpl.
  - apply Z.eqb_neq. intros H0.
    assert (Z.testbit (Z.land b (2 ^ k)) k = false) as H by (by rewrite H0, Z.bits_0).
    rewrite Z.land_spec, E, Z.pow2_bits_true in H by done. done.
  - apply Z.eqb_eq. apply Z.bits_inj'. intros n Hn.
    rewrite Z.land_spec, Z.bits_0, Z.pow2_bits_eqb by done.
    destruct (Z.eqb_spec k n) as [-> | ]; [by rewrite E |]. by rewrite andb_false_r.
Qed.

Lemma used_testbit fs i :
  used fs i = Z.testbit (znth 0 (frame_bitmap fs) (i / 8)) (i mod 8).
Proof.
  unfold used, test_bit. rewrite land_pow2_zero by mlia. apply negb_involutive.
Qed.

Lemma testbit_u8 z k : 0 <= k < 8 -> Z.testbit (u8 z) k = Z.testbit z k.
Proof. intros. unfold u8. by rewrite Z.mod_pow2_bits_low by lia. Qed.

Lemma frame_split i j : i / 8 = j / 8 -> (i mod 8 =? j mod 8) = (i =? j).
Proof. intros. zcases; mlia. Qed.

Lemma used_set_bit fs i j :
  zlen (frame_bitmap fs) = MAX_FRAMES / 8 -> 0 <= i < MAX_FRAMES ->
  used (set_bit fs i) j = (j =? i) || used fs j.
Proof.
  intros Hlen Hi. rewrite !used_testbit. unfold set_bit; simpl.
  unfold MAX_FRAMES, ONE_GB, MEMORY_START, FRAME_SIZE in *.
  rewrite znth_zset by mlia. destruct (Z.eqb_spec (j / 8) (i / 8)) as [E | E].
  - rewrite E, testbit_u8, Z.lor_spec, Z.shiftl_1_l, Z.pow2_bits_eqb by mlia.
    rewrite Z.eqb_sym, (frame_split j i) by done. apply orb_comm.
  - destruct (Z.eqb_spec j i) as [-> | ]; [done |]. done.
Qed.

Lemma used_clear_bit fs i j :
  zlen (frame_bitmap fs) = MAX_FRAMES / 8 -> 0 <= i < MAX_FRAMES ->
  used (clear_bit fs i) j = negb (j =? i) && used fs j.
Proof.
  intros Hlen Hi. rewrite !used_testbit. unfold clear_bit; simpl.
  unfold MAX_FRAMES, ONE_GB, MEMORY_START, FRAME_SIZE in *.
  rewrite znth_zset by mlia. destruct (Z.eqb_spec (j / 8) (i / 8)) as [E | E].
  - rewrite E, testbit_u8, Z.land_spec, Z.lnot_spec, Z.shiftl_1_l, Z.pow2_bits_eqb by mlia.
    rewrite Z.eqb_sym, (frame_split j i) by done. apply andb_comm.
  - destruct (Z.eqb_spec j i) as [-> | ]; [done |]. done.
Qed.

(** ** The invariant is preserved *)

Lemma zset_bytes l i v :
  (forall j, 0 <= znth 0 l j < 256) -> forall j, 0 <= znth 0 (zset l i (u8 v)) j < 256.
Proof.
  intros Hl j. pose proof (u8_range v). unfold znth, zset in *.
  specialize (Hl j). zcases; try lia.
  destruct (decide (Z.to_nat i = Z.to_nat j)) as [-> | ].
  - destruct (decide (Z.to_nat j < length l)%nat).
    + rewrite list_lookup_insert_eq by done. simpl. lia.
    + rewrite list_insert_ge by lia. lia.
  - rewrite list_lookup_insert_ne by done. lia.
Qed.

Lemma set_bit_wf fs i : frames_wf fs -> frames_wf (set_bit fs i).
Proof.
  intros (Hl & Hb & Hn & Hp). unfold frames_wf, set_bit; simpl.
  rewrite zlen_zset. auto using zset_bytes.
Qed.

Lemma clear_bit_wf fs i : frames_wf fs -> frames_wf (clear_bit fs i).
Proof.
  intros (Hl & Hb & Hn & Hp). unfold frames_wf, clear_bit; simpl.
  rewrite zlen_zset. auto using zset_bytes.
Qed.

#[export] Hint Resolve set_bit_wf clear_bit_wf : town.

(** Setting a range of bits, the loop of [reserve_range] and of
    [alloc_frames_contiguous]. *)
Lemma set_bits_spec fs first n :
  frames_wf fs -> 0 <= first -> first + Z.of_nat n <= MAX_FRAMES ->
  let fs' := for_range n first (fun i fs => set_bit fs i) fs in
  frames_wf fs' /\ same_pool fs fs' /\
  forall j, used fs' j = (first <=? j) && (j <? first + Z.of_nat n) || used fs j.
Proof.
  intros Hwf Hf Hn.
  apply (for_range_ind (fun k s => frames_wf s /\ same_pool fs s /\
    forall j, used s j = (first <=? j) && (j <? k) || used fs j)).
  - split; [done |]. split; [done |]. intros j. zcases; simpl; done || lia.
  - intros k s Hk (Hw & [Hs1 Hs2] & Hu). split; [by apply set_bit_wf |].
    split; [done |]. intros j. destruct Hw as (Hl & _).
    rewrite used_set_bit by (done || lia). rewrite Hu.
    zcases; simpl; done || lia.
Qed.

(** ** Runs of free frames *)

Lemma run_inv_no_run fs count i run s :
  run_inv fs count i run -> run + 1 < count -> 0 <= s -> s + count - 1 = i ->
  ~ free_run fs s count.
Proof.
  intros (Hr & Hi & _ & Hu) Hlt Hs He Hf.
  specialize (Hf (i - run - 1) ltac:(lia)). rewrite Hu in Hf by lia. done.
Qed.

Lemma run_inv_free fs count i run :
  run_inv fs count i run -> run + 1 < count -> used fs i = false ->
  run_inv fs count (i + 1) (run + 1).
Proof.
  intros (Hr & Hi & Hf & Hu) Hlt Hi'. split; [lia |]. split; [lia |]. split.
  - intros j Hj. destruct (decide (j = i)) as [-> | ]; [done |]. apply Hf. lia.
  - intros. replace (i + 1 - (run + 1) - 1) with (i - run - 1) by lia. apply Hu. lia.
Qed.

Lemma run_inv_used fs count i run :
  run_inv fs count i run -> used fs i = true -> run_inv fs count (i + 1) 0.
Proof.
  intros (Hr & Hi & Hf & Hu) Hi'. split; [lia |]. split; [lia |]. split.
  - intros j Hj. lia.
  - intros. by replace (i + 1 - 0 - 1) with i by lia.
Qed.

Lemma contiguous_scan_Some fs count n i run r :
  0 < count < 2 ^ 32 -> run_inv fs count i run ->
  contiguous_scan fs count n i run = Some r ->
  0 <= r - count + 1 /\ i <= r < i + Z.of_nat n /\
  free_run fs (r - count + 1) count /\
  forall s, 0 <= s -> i <= s + count - 1 < r -> ~ free_run fs s count.
Proof.
  intros Hc. revert i run. induction n as [|n IH]; intros i run Hinv Hs; simpl in Hs; [done |].
  destruct (used fs i) eqn:E; simpl in Hs.
  - apply IH in Hs as (H0 & H1 & H2 & H3); [| by eapply run_inv_used].
    split; [done |]. split; [lia |]. split; [done |]. intros s Hs0 Hs1.
    destruct (decide (s + count - 1 = i)) as [He | ]; [| apply H3; lia].
    intros Hf. specialize (Hf i ltac:(lia)). congruence.
  - pose proof Hinv as (Hr & Hi & Hf & _). rewrite u32_small in Hs by lia.
    destruct (Z.eqb_spec (run + 1) count) as [Hrc | Hrc].
    + simplify_eq. split; [lia |]. split; [lia |]. split; [| intros; lia].
      intros j Hj. destruct (decide (j = r)) as [-> | ]; [done |]. apply Hf. lia.
    + apply IH in Hs as (H0 & H1 & H2 & H3); [| apply run_inv_free; [done | lia | done]].
      split; [done |]. split; [lia |]. split; [done |]. intros s Hs0 Hs1.
      destruct (decide (s + count - 1 = i)) as [He | ]; [| apply H3; lia].
      eapply run_inv_no_run; [done | lia..].
Qed.

Lemma contiguous_scan_None fs count n i run :
  0 < count < 2 ^ 32 -> run_inv fs count i run ->
  contiguous_scan fs count n i run = None ->
  forall s, 0 <= s -> i <= s + count - 1 < i + Z.of_nat n -> ~ free_run fs s count.
Proof.
  intros Hc. revert i run. induction n as [|n IH]; intros i run Hinv Hs s Hs0 Hs1; [lia |].
  simpl in Hs. destruct (used fs i) eqn:E; simpl in Hs.
  - destruct (decide (s + count - 1 = i)) as [He | ].
    + intros Hf. specialize (Hf i ltac:(lia)). congruence.
    + eapply (IH (i + 1) 0); [by eapply run_inv_used | done | lia | lia].
  - pose proof Hinv as (Hr & _). rewrite u32_small in Hs by lia.
    destruct (Z.eqb_spec (run + 1) count) as [Hrc | Hrc]; [done |].
    destruct (decide (s + count - 1 = i)) as [He | ].
    + eapply run_inv_no_run; [done | lia..].
    + eapply (IH (i + 1) (run + 1)); [apply run_inv_free; [done | lia | done] | done | lia | lia].
Qed.

Lemma run_inv_start fs count : 0 < count -> run_inv fs count 0 0.
Proof. intros. split; [lia |]. split; [lia |]. split; [intros j Hj; lia | lia]. Qed.

(** ** The memory-map walk *)

Lemma ld32_range m a : wf_mem m -> 0 <= ld32 m a < 2 ^ 32.
Proof.
  intros Hm. unfold ld32.
  pose proof (Hm a). pose proof (Hm (a + 1)). pose proof (Hm (a + 2)).
  pose proof (Hm (a + 3)). lia.
Qed.

Lemma walk_map_entries {S} m fuel addr end_ (f : mmap_entry -> S -> S) s :
  wf_mem m -> 0 <= addr -> addr < 2 ^ 63 -> end_ < 2 ^ 62 ->
  (end_ - addr) / 4 + 2 <= Z.of_nat fuel -> (0 < fuel)%nat ->
  walk_map m fuel addr end_ f s =
    Some (foldl (fun s e => f e s) s (map_entries m fuel addr end_)).
Proof.
  intros Hm. revert addr s. induction fuel as [|fuel IH]; intros addr s Ha Hb He Hf H0; [lia |].
  simpl. destruct (Z.ltb_spec addr end_) as [Hlt | ]; [| done].
  pose proof (ld32_range m addr Hm) as Hsz.
  rewrite (u64_small (addr + (ld32 m addr + 4))) by lia. simpl.
  apply IH; [lia | lia | lia | |]; mlia.
Qed.

Lemma map_fuel_enough mbi :
  0 <= mbi_mmap_length mbi ->
  (mbi_mmap_addr mbi + mbi_mmap_length mbi - mbi_mmap_addr mbi) / 4 + 2
    <= Z.of_nat (map_fuel mbi) /\ (0 < map_fuel mbi)%nat.
Proof. intros. unfold map_fuel. rewrite Z.add_simpl_l. mlia. Qed.

Lemma boot_walk {S} m mbi_addr (f : mmap_entry -> S -> S) s :
  wf_mem m ->
  let mbi := read_mbi m mbi_addr in
  walk_map m (map_fuel mbi) (mbi_mmap_addr mbi)
    (mbi_mmap_addr mbi + mbi_mmap_length mbi) f s
  = Some (foldl (fun s e => f e s) s (boot_entries m mbi_addr)).
Proof.
  intros Hm mbi. pose proof (ld32_range m (mbi_addr + 44) Hm).
  pose proof (ld32_range m (mbi_addr + 48) Hm).
  destruct (map_fuel_enough mbi) as [Hf1 Hf2]; [simpl; lia |].
  apply walk_map_entries; simpl in *; done || lia.
Qed.

(** What the accumulator of the top-of-RAM walk holds at the end. *)
Lemma foldl_top es top :
  let r := foldl (fun s e => top_step e s) top es in
  top <= r /\
  (forall e, In e es -> e_type e = MULTIBOOT_MEMORY_AVAILABLE ->
     u64 (e_base_addr e + e_length e) <= r) /\
  (r = top \/ exists e, In e es /\ e_type e = MULTIBOOT_MEMORY_AVAILABLE /\
     r = u64 (e_base_addr e + e_length e)).
Proof.
  revert top. induction es as [|e es IH]; intros top; simpl.
  - split; [lia |]. split; [done |]. by left.
  - destruct (IH (top_step e top)) as (H1 & H2 & H3).
    assert (top <= top_step e top) as Hmono by (unfold top_step; zcases; lia).
    split; [lia |]. split.
    + intros e' [<- | Hin] Ht; [| by apply H2].
      etransitivity; [| exact H1]. unfold top_step. rewrite Ht; simpl. zcases; lia.
    + destruct H3 as [H3 | (e' & Hin & Ht & He)]; [| right; exists e'; auto].
      rewrite H3. unfold top_step. destruct (Z.eqb_spec (e_type e) MULTIBOOT_MEMORY_AVAILABLE);
        [| by left]. zcases; [right; exists e; auto | by left].
Qed.

(** ** Reservation *)

(** [reserve_range] marks exactly the frames of the pool that the range
    touches, both ends rounded outwards to whole frames. *)
Lemma reserve_range_spec fs start end_ :
  frames_wf fs -> 0 <= start < 2 ^ 64 -> 0 <= end_ < 2 ^ 64 ->
  let fs' := reserve_range fs start end_ in
  frames_wf fs' /\ same_pool fs fs' /\
  forall i, 0 <= i < num_frames fs -> frame_addr i + FRAME_SIZE <= pool_top fs ->
    used fs' i = true <->
    used fs i = true \/ (start < frame_addr i + FRAME_SIZE /\ frame_addr i < end_).
Proof.
  intros Hwf Hs He. pose proof Hwf as (Hl & Hb & Hn & Hp). unfold reserve_range.
  unfold MAX_FRAMES, ONE_GB, frame_addr, MEMORY_START, FRAME_SIZE in *.
  destruct ((end_ <=? _) || _) eqn:E; zbool.
  - split; [done |]. split; [done |]. intros i Hi Htop. split; [by left |].
    intros [? | (H1 & H2)]; [done |]. zbool. exfalso. destruct E; zbool; lia.
  - match goal with |- context [for_range ?n ?f _ _] =>
      destruct (set_bits_spec fs f n) as (H1 & H2 & H3) end;
      [done | zcases; unfold u32; mlia | unfold u32, MAX_FRAMES, ONE_GB, MEMORY_START, FRAME_SIZE; zcases; mlia |].
    split; [done |]. split; [done |]. intros i Hi Htop. rewrite H3, orb_true_iff.
    rewrite !andb_true_iff, Z.leb_le, Z.ltb_lt. clear H1 H2 H3.
    assert (forall P Q R : Prop, (P <-> Q) -> (P \/ R <-> R \/ Q)) as Hswap by tauto.
    apply Hswap.
    destruct (Z.ltb_spec start 4194304), (Z.ltb_spec (pool_top fs) end_);
      unfold u32, u64; mlia.
Qed.

(** ** Allocation and release *)

Lemma frame_index_addr i : frame_index (frame_addr i) = i.
Proof. unfold frame_index, frame_addr, MEMORY_START, FRAME_SIZE. mlia. Qed.

Lemma frame_addr_nonzero i : 0 <= i -> frame_addr i <> 0.
Proof. unfold frame_addr, MEMORY_START, FRAME_SIZE. lia. Qed.

Lemma max_frames_small : MAX_FRAMES < 2 ^ 31.
Proof. reflexivity. Qed.

Lemma alloc_frame_cases fs :
  frames_wf fs ->
  (alloc_frame fs = (fs, 0) /\ forall i, 0 <= i < num_frames fs -> used fs i = true) \/
  (exists i, alloc_frame fs = (set_bit fs i, frame_addr i) /\
     0 <= i < num_frames fs /\ used fs i = false /\
     (forall j, 0 <= j < i -> used fs j = true) /\
     frames_wf (set_bit fs i) /\
     forall j, used (set_bit fs i) j = (j =? i) || used fs j).
Proof.
  intros Hwf. pose proof Hwf as (Hl & _ & Hn & _). unfold alloc_frame.
  destruct (scan _ _ _) as [i|] eqn:E.
  - apply scan_Some in E as (Hi & Hp & Hlow). zbool. right. exists i.
    split; [done |]. split; [lia |]. split; [done |]. split.
    + intros j Hj. specialize (Hlow j Hj). by zbool.
    + split; [by apply set_bit_wf |]. intros j. apply used_set_bit; [done | lia].
  - left. split; [done |]. intros i Hi.
    pose proof (scan_None _ _ _ E i ltac:(lia)) as Hu. by apply negb_false_iff in Hu.
Qed.

Lemma alloc_contiguous_cases fs count :
  frames_wf fs -> 0 <= count < 2 ^ 32 ->
  (alloc_frames_contiguous fs count = (fs, 0) /\
     (0 < count -> forall s, 0 <= s -> s + count <= num_frames fs -> ~ free_run fs s count)) \/
  (exists s fs', alloc_frames_contiguous fs count = (fs', frame_addr s) /\
     0 < count /\ 0 <= s /\ s + count <= num_frames fs /\ free_run fs s count /\
     (forall s', 0 <= s' < s -> ~ free_run fs s' count) /\
     frames_wf fs' /\ same_pool fs fs' /\
     forall j, used fs' j = (s <=? j) && (j <? s + count) || used fs j).
Proof.
  intros Hwf Hc. pose proof Hwf as (Hl & _ & Hn & _). unfold alloc_frames_contiguous.
  destruct (Z.eqb_spec count 0) as [-> | Hc0]; [left; split; [done | lia] |].
  pose proof (run_inv_start fs count ltac:(lia)) as Hinv.
  destruct (contiguous_scan _ _ _ _ _) as [r|] eqn:E.
  - apply contiguous_scan_Some in E as (H0 & H1 & H2 & H3); [| lia | done].
    pose proof max_frames_small. rewrite u32_small by lia.
    destruct (set_bits_spec fs (r - count + 1) (Z.to_nat (r + 1 - (r - count + 1))))
      as (G1 & G2 & G3); [done | lia | lia |].
    right. eexists _, _. split; [done |]. do 2 (split; [lia |]). split; [lia |].
    split; [done |]. split; [intros s' Hs'; apply H3; lia |].
    split; [done |]. split; [done |].
    intros j. rewrite G3. do 2 f_equal. f_equal. lia.
  - left. split; [done |]. intros _ s Hs0 Hs1.
    eapply contiguous_scan_None; [| done.. | lia]. lia.
Qed.

Lemma free_frame_addr fs i :
  frames_wf fs -> 0 <= i < num_frames fs ->
  free_frame fs (frame_addr i) = clear_bit fs i.
Proof.
  intros (_ & _ & Hn & _) Hi. pose proof max_frames_small.
  pose proof (frame_index_addr i) as Hx. unfold frame_index in Hx. unfold free_frame.
  rewrite Hx, u32_small by lia. unfold frame_addr, MEMORY_START, FRAME_SIZE in *.
  zcases; done || lia.
Qed.

(** [alloc_frame] is exact first fit over the bitmap: it either returns
    0 with every frame of the pool in use and nothing changed, or returns
    the address of the lowest free frame and marks that frame and no
    other. *)
Theorem alloc_frame_first_fit fs fs' a (Hwf : frames_wf fs) (Hrun : alloc_frame fs = (fs', a)) :
  (a = 0 /\ fs' = fs /\ forall i, 0 <= i < num_frames fs -> used fs i = true) \/
  (exists i, a = frame_addr i /\ 0 <= i < num_frames fs /\ used fs i = false /\
     (forall j, 0 <= j < i -> used fs j = true) /\
     forall j, used fs' j = (j =? i) || used fs j).
Proof.
  destruct (alloc_frame_cases fs Hwf) as [(H & Hu) | (i & H & Hi & Hf & Hlow & _ & Hu)];
    rewrite H in Hrun; simplify_eq; [left; done |].
  right. exists i. auto.
Qed.

(** [alloc_frames_contiguous] is exact first fit over runs: it returns
    0 only when the pool holds no run of [count] free frames, and otherwise
    returns the lowest such run and marks exactly its frames. *)
Theorem alloc_contiguous_first_fit fs fs' count a
    (Hwf : frames_wf fs) (Hc : 0 < count < 2 ^ 32)
    (Hrun : alloc_frames_contiguous fs count = (fs', a)) :
  (a = 0 /\ fs' = fs /\
     forall s, 0 <= s -> s + count <= num_frames fs -> ~ free_run fs s count) \/
  (exists s, a = frame_addr s /\ 0 <= s /\ s + count <= num_frames fs /\
     free_run fs s count /\ (forall s', 0 <= s' < s -> ~ free_run fs s' count) /\
     forall j, used fs' j = (s <=? j) && (j <? s + count) || used fs j).
Proof.
  destruct (alloc_contiguous_cases fs count Hwf ltac:(lia))
    as [(H & Hu) | (s & fs2 & H & _ & Hs & Hsc & Hf & Hlow & _ & _ & Hu)];
    rewrite H in Hrun; simplify_eq.
  - left. split; [done |]. split; [done |]. by apply Hu; lia.
  - right. exists s. auto 10.
Qed.

(** A frame that was allocated can be given back: the round trip
    [alloc_frame] then [free_frame] restores the used set bit for bit and
    the free count, and the next [alloc_frame] hands out the same frame. *)
Theorem alloc_free_roundtrip fs fs' a
    (Hwf : frames_wf fs) (Hrun : alloc_frame fs = (fs', a)) (Ha : a <> 0) :
  (forall j, used (free_frame fs' a) j = used fs j) /\
  frame_free_count fs' = frame_free_count fs - 1 /\
  frame_free_count (free_frame fs' a) = frame_free_count fs /\
  (alloc_frame (free_frame fs' a)).2 = a.
Proof.
  destruct (alloc_frame_cases fs Hwf) as [(H & _) | (i & H & Hi & Hf & Hlow & Hw & Hu)];
    rewrite H in Hrun; simplify_eq.
  rewrite free_frame_addr by (done || simpl; lia).
  pose proof Hw as (Hlw & _ & Hnw & _). simpl in Hnw.
  assert (forall j, used (clear_bit (set_bit fs i) i) j = used fs j) as Hback.
  { intros j. rewrite used_clear_bit, Hu by (done || lia).
    destruct (Z.eqb_spec j i) as [-> | ]; simpl; [by rewrite Hf | done]. }
  split; [done |]. split; [| split].
  - unfold frame_free_count, frames_used; simpl.
    rewrite (zcount_flip (used fs) _ _ 0 i); [lia | lia | done | |].
    + rewrite Hu, Z.eqb_refl. done.
    + intros j Hj. rewrite Hu. destruct (Z.eqb_spec j i); done.
  - unfold frame_free_count, frames_used; simpl. f_equal. by apply zcount_ext.
  - unfold alloc_frame; simpl. rewrite (scan_ext _ (fun i => negb (used fs i))).
    + rewrite (scan_least _ _ 0 i); [done | lia | by rewrite Hf |].
      intros j Hj. by rewrite Hlow.
    + intros j _. by rewrite Hback.
Qed.

(** ** Boot: sizing the pool and mapping it *)

Lemma ld64_range m a : wf_mem m -> 0 <= ld64 m a < 2 ^ 64.
Proof.
  intros Hm. unfold ld64. pose proof (ld32_range m a Hm).
  pose proof (ld32_range m (a + 4) Hm). lia.
Qed.

Lemma extend_identity_map_spec pd top :
  zlen pd = PD_ENTRIES -> 0 <= top <= ONE_GB ->
  let pd' := extend_identity_map pd top in
  zlen pd' = PD_ENTRIES /\
  (forall i, i < BOOT_MAP_TOP / TWO_MB -> znth 0 pd' i = znth 0 pd i) /\
  (forall i, BOOT_MAP_TOP / TWO_MB <= i -> i * TWO_MB < top -> znth 0 pd' i = identity_entry i).
Proof.
  intros Hl Ht. unfold extend_identity_map.
  unfold PD_ENTRIES, BOOT_MAP_TOP, TWO_MB, ONE_GB in *.
  change (2097152 - 1) with (2 ^ 21 - 1).
  rewrite (u64_small (top + _)), (land_align_down 21) by lia.
  set (last := u32 _).
  assert (last <= 512 /\ forall i, i * 2097152 < top -> i < last) as [Hlast Hcov].
  { unfold last, u32. split; [zcases; mlia |]. intros i Hi. zcases; mlia. }
  clearbody last.
  match goal with |- context [for_range ?n ?f ?g ?s] =>
    pose proof (for_range_ind (fun k pd' => zlen pd' = 512 /\
      (forall i, i < 16 -> znth 0 pd' i = znth 0 pd i) /\
      (forall i, 16 <= i < k -> znth 0 pd' i = identity_entry i)) g n f s) as H end.
  destruct H as (H1 & H2 & H3).
  - split; [done |]. split; [done |]. intros; mlia.
  - intros k s Hk (H1 & H2 & H3). rewrite zlen_zset. split; [done |].
    split; intros i Hi; rewrite znth_zset by mlia;
      destruct (Z.eqb_spec i k) as [-> | ]; try done; try mlia.
    + by apply H2.
    + apply H3. lia.
  - split; [done |]. split; [done |]. intros i Hi Htop. apply H3.
    specialize (Hcov i Htop). mlia.
Qed.

Lemma foldl_holes es fs :
  frames_wf fs ->
  Forall (fun e => 0 <= e_base_addr e < 2 ^ 64) es ->
  let fs' := foldl (fun fs e => hole_step e fs) fs es in
  frames_wf fs' /\ same_pool fs fs' /\
  forall i, 0 <= i < num_frames fs -> frame_addr i + FRAME_SIZE <= pool_top fs ->
    (used fs i = true -> used fs' i = true) /\
    (forall e, In e es -> e_type e <> MULTIBOOT_MEMORY_AVAILABLE ->
       e_base_addr e < frame_addr i + FRAME_SIZE ->
       frame_addr i < u64 (e_base_addr e + e_length e) -> used fs' i = true).
Proof.
  revert fs. induction es as [|e es IH]; intros fs Hwf Hes; simpl.
  - split; [done |]. split; [done |]. intros i _ _. split; [done |]. intros e [].
  - apply Forall_cons in Hes as [He Hes].
    destruct (reserve_range_spec fs (e_base_addr e) (u64 (e_base_addr e + e_length e)))
      as (R1 & [R2 R2'] & R3); [done | done | apply u64_range |].
    set (fs1 := hole_step e fs).
    assert (frames_wf fs1 /\ same_pool fs fs1) as [W1 [W2 W2']]
      by (unfold fs1, hole_step; destruct (negb _); done).
    destruct (IH fs1 W1 Hes) as (H1 & [H2 H2'] & H3). split; [done |].
    split; [split; congruence |]. intros i Hi Htop.
    destruct (H3 i) as [H4 H5]; [lia | lia |]. split.
    + intros Hu. apply H4. unfold fs1, hole_step. destruct (negb _); [| done].
      apply R3; [done | done | by left].
    + intros e' [<- | Hin] Ht Hb1 Hb2; [| by eapply H5].
      apply H4. unfold fs1, hole_step. apply Z.eqb_neq in Ht as ->. simpl.
      apply R3; [done | done | by right].
Qed.

Lemma zero_bitmap_wf n top :
  0 <= n <= MAX_FRAMES -> 0 <= top <= ONE_GB ->
  frames_wf (mkFrames (replicate (Z.to_nat (MAX_FRAMES / 8)) 0) n top).
Proof.
  intros Hn Ht. split; [cbn [frame_bitmap]; unfold zlen; rewrite length_replicate; by apply Z2Nat.id |].
  split; [| done]. intros i. cbn [frame_bitmap]. unfold znth. zcases; [lia |].
  destruct (_ !! _) eqn:E; cbn; [| lia].
  apply lookup_replicate in E as [-> _]. lia.
Qed.

(** [memory_init] always terminates, and what it leaves: an allocator in
    its invariant, whose pool ends at the detected top of RAM and whose used
    frames include the ring-3 slots and every hole of the memory map. *)
Lemma memory_init_spec m mbi_addr fs :
  wf_mem m -> 0 <= pool_top fs <= ONE_GB ->
  exists fs0, memory_init m mbi_addr fs = Some fs0 /\ frames_wf fs0 /\
    pool_top fs0 = pool_top fs /\
    num_frames fs0 = Z.max 0 (pool_top fs - MEMORY_START) / FRAME_SIZE /\
    forall i, 0 <= i < num_frames fs0 ->
      frame_addr i + FRAME_SIZE <= pool_top fs0 /\
      (frame_addr i < USER_HEAP_LIMIT -> used fs0 i = true) /\
      (forall e, has_map (read_mbi m mbi_addr) = true -> In e (boot_entries m mbi_addr) ->
         e_type e <> MULTIBOOT_MEMORY_AVAILABLE ->
         e_base_addr e < frame_addr i + FRAME_SIZE ->
         frame_addr i < u64 (e_base_addr e + e_length e) -> used fs0 i = true).
Proof.
  intros Hm Hp. unfold memory_init, reserve_map_holes. cbv zeta.
  set (n0 := if MEMORY_START <? _ then _ else _).
  assert (n0 = Z.max 0 (pool_top fs - MEMORY_START) / FRAME_SIZE /\ 0 <= n0 <= MAX_FRAMES)
    as [Hn0 Hn0'].
  { unfold n0, MAX_FRAMES, ONE_GB, MEMORY_START, FRAME_SIZE, u32 in *. zcases; mlia. }
  clearbody n0. replace (if MAX_FRAMES <? n0 then MAX_FRAMES else n0) with n0 by (zcases; lia).
  set (fs1 := mkFrames _ n0 _).
  assert (frames_wf fs1) as W1 by (apply zero_bitmap_wf; lia).
  assert (num_frames fs1 = n0 /\ pool_top fs1 = pool_top fs) as [N1 P1] by done.
  clearbody fs1.
  destruct (reserve_range_spec fs1 USER_REGION_START USER_HEAP_LIMIT)
    as (R1 & [R2 R2'] & R3); [done | done | done |].
  set (fs2 := reserve_range fs1 _ _) in *.
  assert (forall i, 0 <= i < n0 -> frame_addr i + FRAME_SIZE <= pool_top fs) as Htop.
  { intros i Hi. unfold frame_addr, MEMORY_START, FRAME_SIZE in *. mlia. }
  assert (forall i, 0 <= i < n0 -> frame_addr i < USER_HEAP_LIMIT -> used fs2 i = true) as Hru.
  { intros i Hi Hlt. apply R3; [lia | rewrite P1; by apply Htop |]. right. split; [| done].
    unfold frame_addr, USER_REGION_START, USER_CODE_BASE, MEMORY_START, FRAME_SIZE. lia. }
  destruct (has_map _) eqn:Emap; simpl.
  - rewrite boot_walk by done.
    destruct (foldl_holes (boot_entries m mbi_addr) fs2) as (H1 & [H2 H2'] & H3); [done | |].
    { unfold boot_entries. cbv zeta. generalize (map_fuel (read_mbi m mbi_addr)) as k.
      intros k. generalize (mbi_mmap_addr (read_mbi m mbi_addr) +
        mbi_mmap_length (read_mbi m mbi_addr)) as en.
      generalize (mbi_mmap_addr (read_mbi m mbi_addr)).
      induction k as [|k IH]; intros ad en; simpl; [constructor |].
      destruct (ad <? en); constructor; [apply ld64_range, Hm | apply IH]. }
    eexists. split; [done |]. split; [done |]. split; [congruence |].
    split; [congruence |].
    intros i Hi. rewrite H2, R2, N1 in Hi. rewrite H2', R2', P1.
    destruct (H3 i) as [H4 H5]; [lia | rewrite R2', P1; by apply Htop |].
    split; [by apply Htop |]. split; [intros; apply H4; by apply Hru |].
    intros e _ Hin. by apply H5.
  - eexists. split; [done |]. split; [done |]. split; [congruence |].
    split; [congruence |].
    intros i Hi. rewrite R2, N1 in Hi. rewrite R2', P1.
    split; [by apply Htop |]. split; [by apply Hru | done].
Qed.

(** ** Runs of the allocator *)

Lemma frame_reach_inv fs0 fs out :
  frames_wf fs0 -> frame_reach fs0 (fs, out) ->
  frames_wf fs /\ same_pool fs0 fs /\
  (forall i, used fs i = true <-> used fs0 i = true \/ i ∈ out) /\
  (forall i, i ∈ out -> 0 <= i < num_frames fs0 /\ used fs0 i = false).
Proof.
  intros Hwf H. remember (fs, out) as s eqn:Es. revert fs out Es.
  induction H as [| s s' Hr IH Hs]; intros fs out Es; simplify_eq.
  - split; [done |]. split; [done |]. split; [set_solver +| set_solver +].
  - inversion Hs as [fs1 out1 fs' a Ha Hn | fs1 out1 c fs' a Hc Ha Hn | fs1 out1 i Hi];
      simplify_eq; destruct (IH fs1 out1 eq_refl) as (W & [S1 S2] & Hu & Ho).
    + destruct (alloc_frame_cases fs1 W) as [(E & _) | (i & E & Hi & Hf & _ & Hw & Hu')];
        rewrite E in Ha; simplify_eq. rewrite frame_index_addr.
      split; [done |]. split; [done |]. split.
      * intros j. rewrite Hu', orb_true_iff, Z.eqb_eq, Hu, elem_of_union, elem_of_singleton.
        tauto.
      * intros j [->%elem_of_singleton | Hj]%elem_of_union; [| by apply Ho].
        split; [lia |]. destruct (used fs0 i) eqn:E0; [| done].
        assert (used fs1 i = true) by (apply Hu; by left). congruence.
    + destruct (alloc_contiguous_cases fs1 c W Hc)
        as [(E & _) | (s & fs2 & E & Hc0 & Hs0 & Hsc & Hf & _ & Hw & [T1 T2] & Hu')];
        rewrite E in Ha; simplify_eq. rewrite frame_index_addr.
      split; [done |]. split; [split; congruence |]. split.
      * intros j. rewrite Hu', orb_true_iff, andb_true_iff, Z.leb_le, Z.ltb_lt, Hu.
        rewrite elem_of_union, elem_of_list_to_set, elem_of_seqZ. tauto.
      * intros j [Hj%elem_of_list_to_set | Hj]%elem_of_union; [| by apply Ho].
        apply elem_of_seqZ in Hj. split; [lia |]. destruct (used fs0 j) eqn:E0; [| done].
        assert (used fs1 j = true) by (apply Hu; by left).
        rewrite Hf in *; [done | lia].
    + destruct (Ho i Hi) as [Hr0 Hu0]. rewrite free_frame_addr by (done || lia).
      pose proof W as (Wl & _ & Wn & _).
      split; [by apply clear_bit_wf |]. split; [done |]. split.
      * intros j. rewrite used_clear_bit by (done || lia).
        rewrite andb_true_iff, negb_true_iff, Z.eqb_neq, Hu.
        rewrite elem_of_difference, elem_of_singleton.
        split; [tauto |]. intros [H0 | [H0 H1]]; [| tauto].
        split; [intros -> |]; [congruence | tauto].
      * intros j [Hj _]%elem_of_difference. by apply Ho.
Qed.

(** C4: exact accounting over any run of the allocator. Whatever sequence
    of allocations, contiguous allocations and frees a client that frees
    only what it holds performs, a frame is marked used exactly when it was
    used at the start or is held now; so no frame is ever handed out twice,
    singly or inside a contiguous run. *)
Theorem frames_never_shared fs0 fs out
    (Hwf : frames_wf fs0) (Hr : frame_reach fs0 (fs, out)) :
  (forall i, used fs i = true <-> used fs0 i = true \/ i ∈ out) /\
  (forall i, i ∈ out -> 0 <= i < num_frames fs0 /\ used fs0 i = false) /\
  (forall fs' a, alloc_frame fs = (fs', a) -> a <> 0 -> frame_index a ∉ out) /\
  (forall fs' a count i, 0 <= count < 2 ^ 32 ->
     alloc_frames_contiguous fs count = (fs', a) -> a <> 0 ->
     frame_index a <= i < frame_index a + count -> i ∉ out).
Proof.
  destruct (frame_reach_inv fs0 fs out Hwf Hr) as (W & _ & Hu & Ho).
  assert (forall i, used fs i = false -> i ∉ out) as Hfree.
  { intros i Hi Hin. assert (used fs i = true) by (apply Hu; by right). congruence. }
  split; [done |]. split; [done |]. split.
  - intros fs' a Ha Hn.
    destruct (alloc_frame_cases fs W) as [(E & _) | (i & E & _ & Hf & _)];
      rewrite E in Ha; simplify_eq. rewrite frame_index_addr. by apply Hfree.
  - intros fs' a c i Hc Ha Hn Hi.
    destruct (alloc_contiguous_cases fs c W Hc) as [(E & _) | (s & fs2 & E & _ & _ & _ & Hf & _)];
      rewrite E in Ha; simplify_eq. rewrite frame_index_addr in Hi. by apply Hfree, Hf.
Qed.

(** The reservations made by [memory_init] hold for ever. In every run
    of the allocator it leaves, a frame that is handed out lies above the
    ring-3 slots (so above the private heap slot at 8-10M), below the
    detected top of RAM, and outside every range the Multiboot map reported
    as not usable. *)
Theorem reserved_frames_never_handed_out m mbi_addr fs fs0 fs' out i
    (Hm : wf_mem m) (Hp : 0 <= pool_top fs <= ONE_GB)
    (Hinit : memory_init m mbi_addr fs = Some fs0)
    (Hr : frame_reach fs0 (fs', out)) (Hi : i ∈ out) :
  USER_HEAP_LIMIT <= frame_addr i /\
  frame_addr i + FRAME_SIZE <= pool_top fs /\
  (forall e, has_map (read_mbi m mbi_addr) = true -> In e (boot_entries m mbi_addr) ->
     e_type e <> MULTIBOOT_MEMORY_AVAILABLE -> e_base_addr e + e_length e < 2 ^ 64 ->
     0 <= e_base_addr e + e_length e ->
     frame_addr i + FRAME_SIZE <= e_base_addr e \/ e_base_addr e + e_length e <= frame_addr i).
Proof.
  destruct (memory_init_spec m mbi_addr fs Hm Hp) as (fs1 & E & W & Ht & _ & Hres).
  rewrite E in Hinit. simplify_eq.
  destruct (frame_reach_inv fs0 fs' out W Hr) as (_ & _ & _ & Ho).
  destruct (Ho i Hi) as [Hb Hf]. destruct (Hres i Hb) as (H1 & H2 & H3).
  rewrite Ht in H1. split; [| split; [done |]].
  - destruct (Z.le_gt_cases USER_HEAP_LIMIT (frame_addr i)) as [| Hlt]; [done |].
    rewrite H2 in Hf by done. done.
  - intros e Hmap Hin Hty He He0.
    destruct (Z.le_gt_cases (frame_addr i + FRAME_SIZE) (e_base_addr e)) as [| G1]; [by left |].
    destruct (Z.le_gt_cases (e_base_addr e + e_length e) (frame_addr i)) as [| G2]; [by right |].
    rewrite (H3 e Hmap Hin Hty) in Hf; [done | lia |]. by rewrite u64_small by lia.
Qed.

(** The top-of-RAM walk terminates on any memory contents, and returns
    the greatest end address (modulo [2^64], as the code computes it) of the
    usable regions, or the no-map answer when the flag is clear. *)
Theorem mmap_top_of_ram_correct m mbi_addr (Hm : wf_mem m) :
  exists top have, mmap_top_of_ram m mbi_addr = Some (top, have) /\
    have = has_map (read_mbi m mbi_addr) /\
    (have = true ->
       (forall e, In e (boot_entries m mbi_addr) -> e_type e = MULTIBOOT_MEMORY_AVAILABLE ->
          u64 (e_base_addr e + e_length e) <= top) /\
       (top = 0 \/ exists e, In e (boot_entries m mbi_addr) /\
          e_type e = MULTIBOOT_MEMORY_AVAILABLE /\ top = u64 (e_base_addr e + e_length e))).
Proof.
  unfold mmap_top_of_ram. destruct (has_map _) eqn:E; simpl.
  - rewrite boot_walk by done. eexists _, _. split; [done |]. split; [done |]. intros _.
    destruct (foldl_top (boot_entries m mbi_addr) 0) as (_ & H1 & H2). auto.
  - eexists _, _. split; [done |]. split; [done |]. done.
Qed.

(** The identity map covers the pool. After [memory_detect_and_map]
    the pool ends at or below 1GB, every 2MB page from 32MB to the end of the
    pool is mapped to itself present, writable, huge and not ring-3
    accessible, and the page-directory entries under the running kernel are
    the ones boot wrote. *)
Theorem identity_map_covers_pool m mbi_addr fs pd fs' pd' r
    (Hm : wf_mem m) (Hpd : zlen pd = PD_ENTRIES)
    (Hrun : memory_detect_and_map m mbi_addr fs pd = Some (fs', pd', r)) :
  0 <= pool_top fs' <= ONE_GB /\
  (forall i, i < 16 -> znth 0 pd' i = znth 0 pd i) /\
  (forall addr, BOOT_MAP_TOP <= addr < pool_top fs' ->
     let e := znth 0 pd' (addr / TWO_MB) in
     Z.shiftr e 21 = addr / TWO_MB /\ e mod 2 ^ 21 = Z.lor (Z.lor PG_PRESENT PG_WRITABLE) PG_HUGE).
Proof.
  unfold memory_detect_and_map in Hrun.
  destruct (mmap_top_of_ram m mbi_addr) as [[top have]|] eqn:E; [| done].
  injection Hrun as <- <- _. cbn [pool_top].
  set (t := if have then top else BOOT_MAP_TOP).
  assert (0 <= t) as Ht0.
  { unfold t. destruct have; [| done]. unfold mmap_top_of_ram in E.
    destruct (has_map _); simpl in E; [| done]. rewrite boot_walk in E by done.
    injection E as <-. apply (foldl_top (boot_entries m mbi_addr) 0). }
  set (pt := if ONE_GB <? t then ONE_GB else t).
  assert (0 <= pt <= ONE_GB) as Hpt by (unfold pt, ONE_GB in *; zcases; lia).
  destruct (extend_identity_map_spec pd pt Hpd Hpt) as (_ & H1 & H2).
  split; [done |]. split; [exact H1 |]. intros addr Ha.
  rewrite H2 by (unfold BOOT_MAP_TOP, TWO_MB in *; mlia).
  assert (0 <= addr / TWO_MB < 512) as Hi
    by (unfold TWO_MB, BOOT_MAP_TOP, ONE_GB in *; mlia).
  generalize dependent (addr / TWO_MB). intros i Hi.
  assert (identity_entry i = i * 2 ^ 21 + 131) as ->.
  { unfold identity_entry. rewrite <- !Z.lor_assoc.
    change (Z.lor PG_PRESENT (Z.lor PG_WRITABLE PG_HUGE)) with 131.
    change (i * TWO_MB) with (i * 2 ^ 21). apply lor_low_add; lia. }
  rewrite Z.shiftr_div_pow2 by lia. split; [mlia |].
  change (Z.lor _ _) with 131. mlia.
Qed.

(** [user_range_ok] is the exact bounds check, on the full 64-bit range
    of a ring-3 argument: it accepts precisely when the mathematical range
    [ptr, ptr + len) lies in ring-3 space, so a length chosen to make
    [ptr + len] wrap is refused. *)
Theorem user_range_ok_exact ptr len (Hp : 0 <= ptr < 2 ^ 64) (Hl : 0 <= len < 2 ^ 64) :
  user_range_ok ptr len = true <->
  USER_CODE_BASE <= ptr < USER_SPACE_END /\ ptr + len <= USER_SPACE_END.
Proof.
  unfold user_range_ok, USER_REGION_START. destruct (_ || _) eqn:E; zbool.
  - split; [done |]. intros [H1 H2]. destruct E; zbool; lia.
  - rewrite Z.leb_le. lia.
Qed.

(** ** Witnesses: a two-frame pool, and a boot with no memory map *)

Definition demo_pool : frames :=
  mkFrames (replicate (Z.to_nat (MAX_FRAMES / 8)) 0) 2 (MEMORY_START + 2 * FRAME_SIZE).
Definition demo_boot : frames := mkFrames [] 0 (USER_HEAP_LIMIT + 2 * FRAME_SIZE).
Definition no_map_mem : mem := fun _ => 0.

Lemma demo_pool_wf : frames_wf demo_pool.
Proof. apply zero_bitmap_wf; unfold MEMORY_START, FRAME_SIZE, ONE_GB; [| lia]. by vm_compute. Qed.

Lemma alloc_frame_first_fit_witness :
  (alloc_frame demo_pool).2 = MEMORY_START /\
  ((alloc_frame demo_pool).2 = 0 /\ (alloc_frame demo_pool).1 = demo_pool /\
     (forall i, 0 <= i < num_frames demo_pool -> used demo_pool i = true) \/
   (exists i, (alloc_frame demo_pool).2 = frame_addr i /\ 0 <= i < num_frames demo_pool /\
      used demo_pool i = false /\ (forall j, 0 <= j < i -> used demo_pool j = true) /\
      forall j, used (alloc_frame demo_pool).1 j = (j =? i) || used demo_pool j)).
Proof.
  split; [by vm_compute |].
  apply (alloc_frame_first_fit demo_pool _ _ demo_pool_wf (surjective_pairing _)).
Defined.

Lemma alloc_contiguous_first_fit_witness :
  (alloc_frames_contiguous demo_pool 2).2 = MEMORY_START /\
  ((alloc_frames_contiguous demo_pool 3).2 = 0 /\
   (alloc_frames_contiguous demo_pool 3).1 = demo_pool /\
     (forall s, 0 <= s -> s + 3 <= num_frames demo_pool -> ~ free_run demo_pool s 3) \/
   (exists s, (alloc_frames_contiguous demo_pool 3).2 = frame_addr s /\ 0 <= s /\
      s + 3 <= num_frames demo_pool /\ free_run demo_pool s 3 /\
      (forall s', 0 <= s' < s -> ~ free_run demo_pool s' 3) /\
      forall j, used (alloc_frames_contiguous demo_pool 3).1 j
                = (s <=? j) && (j <? s + 3) || used demo_pool j)).
Proof.
  split; [by vm_compute |].
  apply (alloc_contiguous_first_fit demo_pool _ 3 _ demo_pool_wf ltac:(lia) (surjective_pairing _)).
Defined.

Lemma alloc_free_roundtrip_witness :
  (forall j, used (free_frame (alloc_frame demo_pool).1 MEMORY_START) j = used demo_pool j) /\
  frame_free_count (alloc_frame demo_pool).1 = frame_free_count demo_pool - 1 /\
  frame_free_count (free_frame (alloc_frame demo_pool).1 MEMORY_START) = frame_free_count demo_pool /\
  (alloc_frame (free_frame (alloc_frame demo_pool).1 MEMORY_START)).2 = MEMORY_START.
Proof.
  apply (alloc_free_roundtrip demo_pool (alloc_frame demo_pool).1 MEMORY_START demo_pool_wf);
    [| by vm_compute].
  rewrite (surjective_pairing (alloc_frame demo_pool)) at 1. f_equal.
Defined.

Lemma demo_reach_one fs :
  alloc_frame fs = ((alloc_frame fs).1, (alloc_frame fs).2) -> (alloc_frame fs).2 <> 0 ->
  frame_reach fs ((alloc_frame fs).1, {[frame_index (alloc_frame fs).2]} ∪ ∅).
Proof. intros. eapply reach_step; [apply reach_init |]. by constructor. Qed.

Lemma frames_never_shared_witness :
  frame_index (alloc_frame (alloc_frame demo_pool).1).2
    ∉ ({[frame_index (alloc_frame demo_pool).2]} ∪ ∅ : gset Z).
Proof.
  destruct (frames_never_shared demo_pool (alloc_frame demo_pool).1
    ({[frame_index (alloc_frame demo_pool).2]} ∪ ∅) demo_pool_wf
    (demo_reach_one demo_pool (surjective_pairing _) ltac:(by vm_compute)))
    as (_ & _ & H & _).
  apply (H (alloc_frame (alloc_frame demo_pool).1).1 _ (surjective_pairing _)). by vm_compute.
Defined.

Lemma reserved_frames_never_handed_out_witness :
  exists fs0, memory_init no_map_mem 0 demo_boot = Some fs0 /\
    (alloc_frame fs0).2 = USER_HEAP_LIMIT /\
    USER_HEAP_LIMIT <= frame_addr (frame_index (alloc_frame fs0).2).
Proof.
  assert ((fun f => (alloc_frame f).2) <$> memory_init no_map_mem 0 demo_boot
          = Some USER_HEAP_LIMIT) as Ha by (vm_compute; reflexivity).
  destruct (memory_init no_map_mem 0 demo_boot) as [fs0|] eqn:E; [| done].
  injection Ha as Ha. exists fs0. split; [done |]. split; [done |].
  apply (reserved_frames_never_handed_out no_map_mem 0 demo_boot fs0 (alloc_frame fs0).1
    ({[frame_index (alloc_frame fs0).2]} ∪ ∅)).
  - intros a. unfold no_map_mem. lia.
  - cbn [demo_boot pool_top]. unfold ONE_GB, USER_HEAP_LIMIT, FRAME_SIZE. lia.
  - exact E.
  - apply demo_reach_one; [apply surjective_pairing | rewrite Ha; by vm_compute].
  - apply elem_of_union_l, elem_of_singleton; reflexivity.
Defined.

Lemma mmap_top_of_ram_correct_witness :
  exists top have, mmap_top_of_ram no_map_mem 0 = Some (top, have) /\ have = false.
Proof.
  destruct (mmap_top_of_ram_correct no_map_mem 0) as (top & have & H1 & H2 & _).
  - intros a. unfold no_map_mem. lia.
  - exists top, have. split; [done |]. rewrite H2. by vm_compute.
Defined.

Lemma identity_map_covers_pool_witness :
  exists fs' pd' r,
    memory_detect_and_map no_map_mem 0 demo_boot (replicate 512 7) = Some (fs', pd', r) /\
    pool_top fs' = BOOT_MAP_TOP /\ znth 0 pd' 3 = 7.
Proof.
  destruct (memory_detect_and_map no_map_mem 0 demo_boot (replicate 512 7))
    as [[[fs' pd'] r]|] eqn:E; [| by vm_compute in E].
  exists fs', pd', r. split; [done |].
  destruct (identity_map_covers_pool no_map_mem 0 demo_boot (replicate 512 7) fs' pd' r)
    as (_ & H & _); [intros a; unfold no_map_mem; lia | by vm_compute | done |].
  split; [| rewrite H; [by vm_compute | lia]].
  vm_compute in E. by simplify_eq.
Defined.

Lemma user_range_ok_exact_witness :
  user_range_ok 0x400000 (2 ^ 64 - 1) = false /\
  (user_range_ok 0x9FFFFF 1 = true <->
   USER_CODE_BASE <= 0x9FFFFF < USER_SPACE_END /\ 0x9FFFFF + 1 <= USER_SPACE_END).
Proof.
  split; [by vm_compute |]. apply (user_range_ok_exact 0x9FFFFF 1); lia.
Defined.
