(* ===== verification/Heap.v ===== *)
(** * The boundary-tag allocator

    [kernel/heap.c], and [libc/malloc.c], which is the same allocator over a
    different source of slabs: an explicit free list of blocks with boundary
    tags, first-fit search, splitting, and coalescing on free.

    The block headers and footers in memory are five arrays indexed by
    address, one per field ([h_size], [h_state], [h_next], [h_prev] of
    [el_blockhead_t], [f_size] of [el_blockfoot_t]), total because memory
    holds something at every address.  The control block [el_ctl] is a
    record.  The operations are the pointer programs of the source; the
    theorems are stated on the list of blocks that tiles the slab
    ([heap_rep]).

    Where a slab comes from is the interface [SlabSource]: contiguous frames
    for the kernel, [SYS_MMAP] for ring 3. *)

From stdpp Require Import base list gmap fin_maps.
From Stdlib Require Import ZArith Lia Bool.
From S2P Require Import Prelude Frames.

(** ** Layout *)

Definition HEAD_BYTES : Z := 32.   (* sizeof(el_blockhead_t) *)
Definition FOOT_BYTES : Z := 8.    (* sizeof(el_blockfoot_t) *)
Definition EL_BLOCK_OVERHEAD : Z := HEAD_BYTES + FOOT_BYTES.
Definition EL_PAGE_BYTES : Z := FRAME_SIZE.
Definition HEAP_INITIAL_PAGES : Z := 16.
Definition HEAP_GROW_PAGES : Z := 16.
Definition EL_AVAILABLE : Z := 97.    (* 'a' *)
Definition EL_USED : Z := 117.        (* 'u' *)
Definition EL_BEGIN_BLOCK : Z := 66.  (* 'B' *)
Definition EL_END_BLOCK : Z := 69.    (* 'E' *)
Definition EL_UNINITIALIZED : Z := 0.
Definition NULL : Z := 0.

(** Assignment to one element of an array. *)
Definition upd (f : Z -> Z) (a v : Z) : Z -> Z := fun x => if x =? a then v else f x.

(** [el_blocklist_t]: the addresses of the two sentinel nodes and the two
    counters. *)
Record blocklist := mkList { l_beg : Z; l_end : Z; l_length : Z; l_bytes : Z }.

Record heap := mkHeap {
  h_size : Z -> Z; h_state : Z -> Z; h_next : Z -> Z; h_prev : Z -> Z;
  f_size : Z -> Z;
  heap_start : Z; heap_end : Z; heap_bytes : Z;
  avail : blocklist; in_use : blocklist
}.

Definition set_size h a v := mkHeap (upd (h_size h) a v) (h_state h) (h_next h) (h_prev h)
  (f_size h) (heap_start h) (heap_end h) (heap_bytes h) (avail h) (in_use h).
Definition set_state h a v := mkHeap (h_size h) (upd (h_state h) a v) (h_next h) (h_prev h)
  (f_size h) (heap_start h) (heap_end h) (heap_bytes h) (avail h) (in_use h).
Definition set_next h a v := mkHeap (h_size h) (h_state h) (upd (h_next h) a v) (h_prev h)
  (f_size h) (heap_start h) (heap_end h) (heap_bytes h) (avail h) (in_use h).
Definition set_prev h a v := mkHeap (h_size h) (h_state h) (h_next h) (upd (h_prev h) a v)
  (f_size h) (heap_start h) (heap_end h) (heap_bytes h) (avail h) (in_use h).
Definition set_foot h a v := mkHeap (h_size h) (h_state h) (h_next h) (h_prev h)
  (upd (f_size h) a v) (heap_start h) (heap_end h) (heap_bytes h) (avail h) (in_use h).
Definition set_bounds h s e n := mkHeap (h_size h) (h_state h) (h_next h) (h_prev h)
  (f_size h) s e n (avail h) (in_use h).

(** Which of the two lists an operation works on. *)
Inductive which := AVAIL | USED.
Definition get_list (h : heap) (w : which) : blocklist :=
  match w with AVAIL => avail h | USED => in_use h end.
Definition set_list (h : heap) (w : which) (l : blocklist) : heap :=
  match w with
  | AVAIL => mkHeap (h_size h) (h_state h) (h_next h) (h_prev h) (f_size h)
               (heap_start h) (heap_end h) (heap_bytes h) l (in_use h)
  | USED => mkHeap (h_size h) (h_state h) (h_next h) (h_prev h) (f_size h)
               (heap_start h) (heap_end h) (heap_bytes h) (avail h) l
  end.

(** ** Boundary tags *)

Definition el_get_footer (h : heap) (head : Z) : Z :=
  u64 (head + u64 (HEAD_BYTES + h_size h head)).

Definition el_get_header (h : heap) (foot : Z) : Z :=
  u64 (foot - u64 (HEAD_BYTES + f_size h foot)).

Definition el_block_above (h : heap) (block : Z) : Z :=
  let higher := u64 (block + u64 (h_size h block + EL_BLOCK_OVERHEAD)) in
  if heap_end h <=? higher then NULL else higher.

Definition el_block_below (h : heap) (block : Z) : Z :=
  if block <=? heap_start h then NULL
  else el_get_header h (u64 (block - FOOT_BYTES)).

(** ** List surgery *)

Definition el_init_blocklist (h : heap) (w : which) : heap :=
  let b := l_beg (get_list h w) in
  let e := l_end (get_list h w) in
  let h := set_state h b EL_BEGIN_BLOCK in
  let h := set_size h b EL_UNINITIALIZED in
  let h := set_state h e EL_END_BLOCK in
  let h := set_size h e EL_UNINITIALIZED in
  let h := set_next h b e in
  let h := set_prev h b NULL in
  let h := set_next h e NULL in
  let h := set_prev h e b in
  set_list h w (mkList b e 0 0).

Definition el_add_block_front (h : heap) (w : which) (block : Z) : heap :=
  let l := get_list h w in
  let start := l_beg l in
  let first := h_next h start in
  let h := set_next h block first in
  let h := set_prev h first block in
  let h := set_prev h block start in
  let h := set_next h start block in
  set_list h w (mkList (l_beg l) (l_end l) (u64 (l_length l + 1))
    (u64 (l_bytes l + u64 (h_size h block + EL_BLOCK_OVERHEAD)))).

Definition el_remove_block (h : heap) (w : which) (block : Z) : heap :=
  let l := get_list h w in
  let prev := h_prev h block in
  let next := h_next h block in
  let h := set_next h prev next in
  let h := set_prev h next prev in
  let h := set_list h w (mkList (l_beg l) (l_end l) (u64 (l_length l - 1))
    (u64 (l_bytes l - u64 (h_size h block + EL_BLOCK_OVERHEAD)))) in
  let h := set_next h block NULL in
  set_prev h block NULL.

(** ** Allocation *)

(** The search loop; [None] is a loop that ran out of fuel. *)
Fixpoint find_loop (h : heap) (size : Z) (fuel : nat) (f : Z) : option Z :=
  match fuel with
  | O => None
  | S fuel' =>
      if h_state h f =? EL_END_BLOCK then Some NULL
      else if (h_state h f =? EL_AVAILABLE) && (size <=? h_size h f) then Some f
      else find_loop h size fuel' (h_next h f)
  end.

(** One iteration per list node and one for the end sentinel. *)
Definition el_find_first_avail (h : heap) (size : Z) : option Z :=
  find_loop h size (Z.to_nat (l_length (avail h)) + 1) (h_next h (l_beg (avail h))).

Definition el_split_block (h : heap) (block new_size : Z) : heap * Z :=
  let olds := h_size h block in
  let oldf := el_get_footer h block in
  if olds <? u64 (new_size + EL_BLOCK_OVERHEAD) then (h, NULL)
  else
    let left := u64 (olds - new_size - EL_BLOCK_OVERHEAD) in
    let h := set_size h block new_size in
    let shrunkf := el_get_footer h block in
    let h := set_foot h shrunkf new_size in
    let h := set_foot h oldf left in
    let newb := el_get_header h oldf in
    (set_size h newb left, newb).

Definition el_malloc (h : heap) (nbytes : Z) : option (heap * Z) :=
  match el_find_first_avail h nbytes with
  | None => None
  | Some b =>
      if b =? NULL then Some (h, NULL)
      else
        let h := el_remove_block h AVAIL b in
        let '(h, newb) := el_split_block h b nbytes in
        let h := set_state h b EL_USED in
        let h := el_add_block_front h USED b in
        let h := if newb =? NULL then h
                 else el_add_block_front (set_state h newb EL_AVAILABLE) AVAIL newb in
        Some (h, u64 (b + HEAD_BYTES))
  end.

(** ** Free and coalesce *)

Definition el_merge_block_with_above (h : heap) (lower : Z) : heap :=
  if lower =? NULL then h
  else if negb (h_state h lower =? EL_AVAILABLE) then h
  else
    let up := el_block_above h lower in
    if up =? NULL then h
    else if negb (h_state h up =? EL_AVAILABLE) then h
    else
      let h := el_remove_block h AVAIL lower in
      let h := el_remove_block h AVAIL up in
      let h := set_size h lower (u64 (h_size h lower + EL_BLOCK_OVERHEAD + h_size h up)) in
      let newf := el_get_footer h lower in
      let h := set_foot h newf (h_size h lower) in
      el_add_block_front h AVAIL lower.

Definition el_free (h : heap) (ptr : Z) : heap :=
  if ptr =? NULL then h
  else
    let block := u64 (ptr - HEAD_BYTES) in
    if negb (h_state h block =? EL_USED) || (h_state h block =? 0) then h
    else
      let h := el_remove_block h USED block in
      let h := set_state h block EL_AVAILABLE in
      let h := el_add_block_front h AVAIL block in
      let h := el_merge_block_with_above h block in
      let lower := el_block_below h block in
      el_merge_block_with_above h lower.

(** ** Slabs *)

(** Where the allocator gets memory: ask for whole pages, and give a run
    back. [slab_fail] is the failure value of [slab_get]. *)
Class SlabSource (S : Type) := {
  slab_get : S -> Z -> S * Z;
  slab_fail : Z;
  slab_release : S -> Z -> Z -> S
}.

(** The kernel's source: [alloc_frames_contiguous], released a frame at a
    time. *)
#[export] Instance frame_slabs : SlabSource frames := {
  slab_get fs npages := alloc_frames_contiguous fs (u32 npages);
  slab_fail := NULL;
  slab_release fs base npages :=
    for_range (Z.to_nat npages) 0
      (fun k fs => free_frame fs (u64 (base + k * EL_PAGE_BYTES))) fs
}.

Section Slabs.
Context {S : Type} {src : SlabSource S}.

(** [el_init]: 0 on success, 1 on failure, as the source returns. *)
Definition el_init (s : S) (h : heap) (initial_heap_size : Z) : S * heap * Z :=
  let npages := u32 (initial_heap_size / EL_PAGE_BYTES) in
  let '(s, base) := slab_get s npages in
  if base =? slab_fail then (s, h, 1)
  else
    let h := set_bounds h base (u64 (base + initial_heap_size)) initial_heap_size in
    if heap_bytes h <? EL_BLOCK_OVERHEAD then (s, h, 1)
    else
      let h := el_init_blocklist h AVAIL in
      let h := el_init_blocklist h USED in
      let size := u64 (heap_bytes h - EL_BLOCK_OVERHEAD) in
      let ablock := heap_start h in
      let h := set_size h ablock size in
      let h := set_state h ablock EL_AVAILABLE in
      let h := set_foot h (el_get_footer h ablock) size in
      let h := set_prev h ablock (l_beg (avail h)) in
      let h := set_next h ablock (h_next h (l_beg (avail h))) in
      let h := set_next h (h_prev h ablock) ablock in
      let h := set_prev h (h_next h ablock) ablock in
      let l := avail h in
      (s, set_list h AVAIL (mkList (l_beg l) (l_end l) (u64 (l_length l + 1))
            (u64 (l_bytes l + u64 (h_size h ablock + EL_BLOCK_OVERHEAD)))), 0).

Definition el_append_pages_to_heap (s : S) (h : heap) (npages : Z) : S * heap * Z :=
  let nbytes := u64 (npages * EL_PAGE_BYTES) in
  let '(s, mapped) := slab_get s npages in
  if mapped =? slab_fail then (s, h, 1)
  else if negb (mapped =? heap_end h) then (slab_release s mapped npages, h, 1)
  else
    let b := heap_end h in
    let size := u64 (nbytes - EL_BLOCK_OVERHEAD) in
    let f := u64 (b + u64 (HEAD_BYTES + size)) in
    let h := set_size h b size in
    let h := set_foot h f size in
    let h := set_state h b EL_AVAILABLE in
    let h := set_prev h b NULL in
    let h := set_next h b NULL in
    let h := set_bounds h (heap_start h) (u64 (heap_end h + nbytes)) (u64 (heap_bytes h + nbytes)) in
    let h := el_add_block_front h AVAIL b in
    let below := el_block_below h b in
    (s, el_merge_block_with_above h below, 0).

Definition heap_init (s : S) (h : heap) : S * heap * Z :=
  el_init s h (HEAP_INITIAL_PAGES * EL_PAGE_BYTES).

(** The growth request of [kmalloc] and [malloc], with the conversion to
    [int] of the source. *)
Definition grow_pages (size : Z) : Z :=
  let need := u64 (size + EL_BLOCK_OVERHEAD) in
  let npages := i32 (u64 (need + EL_PAGE_BYTES - 1) / EL_PAGE_BYTES) in
  if npages <? HEAP_GROW_PAGES then HEAP_GROW_PAGES else npages.

Definition kmalloc (s : S) (h : heap) (size : Z) : option (S * heap * Z) :=
  match el_malloc h size with
  | None => None
  | Some (h, p) =>
      if p =? NULL then
        let '(s, h, rc) := el_append_pages_to_heap s h (grow_pages size) in
        if rc =? 0 then
          match el_malloc h size with
          | None => None
          | Some (h, p) => Some (s, h, p)
          end
        else Some (s, h, NULL)
      else Some (s, h, p)
  end.
End Slabs.

Definition kfree (h : heap) (ptr : Z) : heap := el_free h ptr.

Definition heap_avail_count (h : heap) : Z := l_length (avail h).
Definition heap_total_bytes (h : heap) : Z := heap_bytes h.

(** The walk of [heap_used_bytes]: [fuel] is what is left of [max_blocks],
    so an exhausted walk is the error sentinel of the source. *)
Fixpoint used_walk (h : heap) (fuel : nat) (cur used : Z) : Z :=
  if cur =? NULL then used
  else
    match fuel with
    | O => u64 (-1)
    | S fuel' =>
        let used := if h_state h cur =? EL_USED then u64 (used + h_size h cur) else used in
        used_walk h fuel' (el_block_above h cur) used
    end.

Definition heap_used_bytes (h : heap) : Z :=
  used_walk h (Z.to_nat (heap_bytes h / EL_BLOCK_OVERHEAD + 1)) (heap_start h) 0.

(** ** The representation predicate *)

(** A block as the theorems see it: where its header is, its payload size,
    and whether it is available. *)
Record blk := mkBlk { b_addr : Z; b_sz : Z; b_free : bool }.

(** The address just past a block. *)
Definition b_lim (b : blk) : Z := b_addr b + EL_BLOCK_OVERHEAD + b_sz b.

(** The blocks tile the slab from [a] to [e] with no gap. *)
Fixpoint tiles (a : Z) (bs : list blk) (e : Z) : Prop :=
  match bs with
  | [] => a = e
  | b :: bs' => b_addr b = a /\ 0 <= b_sz b /\ tiles (b_lim b) bs' e
  end.

(** Header and footer in memory agree with the block. *)
Definition block_ok (h : heap) (b : blk) : Prop :=
  h_size h (b_addr b) = b_sz b /\
  h_state h (b_addr b) = (if b_free b then EL_AVAILABLE else EL_USED) /\
  f_size h (b_addr b + HEAD_BYTES + b_sz b) = b_sz b.

(** Consecutive nodes point at each other. *)
Fixpoint linked (nx pv : Z -> Z) (l : list Z) : Prop :=
  match l with
  | p :: ((q :: _) as t) => nx p = q /\ pv q = p /\ linked nx pv t
  | _ => True
  end.

Definition path (l : blocklist) (xs : list Z) : list Z := l_beg l :: xs ++ [l_end l].

Definition frees (bs : list blk) : list blk := List.filter b_free bs.
Definition useds (bs : list blk) : list blk := List.filter (fun b => negb (b_free b)) bs.
Definition bytes_of (bs : list blk) : Z :=
  foldr (fun b n => b_sz b + EL_BLOCK_OVERHEAD + n) 0 bs.

(** One list of the control block: its nodes, in order, are [xs], which are
    the headers of the blocks [bs]; the counters are exact. *)
Definition list_rep (h : heap) (l : blocklist) (xs : list Z) (bs : list blk) : Prop :=
  linked (h_next h) (h_prev h) (path l xs) /\
  xs ≡ₚ map b_addr bs /\
  l_length l = Z.of_nat (length bs) /\
  l_bytes l = bytes_of bs /\
  h_state h (l_end l) = EL_END_BLOCK.

Definition sentinels (h : heap) : list Z :=
  [l_beg (avail h); l_end (avail h); l_beg (in_use h); l_end (in_use h)].

Record heap_rep (h : heap) (bs : list blk) (al ul : list Z) : Prop := {
  rep_tiles : tiles (heap_start h) bs (heap_end h);
  rep_bounds : 0 < heap_start h /\ heap_end h < 2 ^ 64 /\
               heap_end h = heap_start h + heap_bytes h;
  rep_blocks : Forall (block_ok h) bs;
  rep_avail : list_rep h (avail h) al (frees bs);
  rep_used : list_rep h (in_use h) ul (useds bs);
  rep_sent : NoDup (sentinels h) /\
             Forall (fun s => s < heap_start h \/ heap_end h <= s) (sentinels h)
}.

Definition other (w : which) : which := match w with AVAIL => USED | USED => AVAIL end.

(** Both lists at once, seen from one of them: list [w] holds the blocks
    [fs] and the other one [gs], and all their nodes are distinct. This is
    the part of [heap_rep] that list surgery changes, and it can be stated
    while a block is on neither list. *)
Definition lists_rep (h : heap) (w : which) xs fs ys gs : Prop :=
  list_rep h (get_list h w) xs fs /\
  list_rep h (get_list h (other w)) ys gs /\
  NoDup (path (get_list h w) xs ++ path (get_list h (other w)) ys).

(** No two neighbouring blocks are both available. *)
Fixpoint coalesced (bs : list blk) : Prop :=
  match bs with
  | b :: ((c :: _) as t) => b_free b && b_free c = false /\ coalesced t
  | _ => True
  end.

(** Two memories agree on every tag outside [lo, hi). *)
Definition same_outside (lo hi : Z) (h h' : heap) : Prop :=
  forall x, x < lo \/ hi <= x ->
    h_size h' x = h_size h x /\ h_state h' x = h_state h x /\ f_size h' x = f_size h x.

(** The slab bounds and the sentinels are where they were. *)
Definition same_slab (h h' : heap) : Prop :=
  heap_start h' = heap_start h /\ heap_end h' = heap_end h /\
  heap_bytes h' = heap_bytes h /\ sentinels h' = sentinels h.

(** What an allocation of [n] bytes makes of an available block: it is
    taken whole, or split when the rest can hold a block. *)
Definition alloc_blocks (b : blk) (n : Z) : list blk :=
  if b_sz b <? n + EL_BLOCK_OVERHEAD then [mkBlk (b_addr b) (b_sz b) false]
  else [mkBlk (b_addr b) n false;
        mkBlk (b_addr b + EL_BLOCK_OVERHEAD + n) (b_sz b - n - EL_BLOCK_OVERHEAD) true].

(** Two neighbouring blocks joined into one available block. *)
Definition join (b c : blk) : blk :=
  mkBlk (b_addr b) (b_sz b + EL_BLOCK_OVERHEAD + b_sz c) true.

(** What [el_merge_block_with_above] makes of a block and its followers. *)
Definition merge_up (b : blk) (bs : list blk) : list blk :=
  match bs with
  | c :: t => if b_free b && b_free c then join b c :: t else b :: bs
  | [] => [b]
  end.

(** What [el_free] makes of a used block between [bs1] and [bs2]. *)
Definition free_blocks (bs1 : list blk) (b : blk) (bs2 : list blk) : list blk :=
  let up := merge_up (mkBlk (b_addr b) (b_sz b) true) bs2 in
  match last bs1 with
  | None => up
  | Some c => removelast bs1 ++ merge_up c up
  end.

(** ** Linked lists *)

Lemma upd_eq f a v : upd f a v a = v.
Proof. unfold upd. by rewrite Z.eqb_refl. Qed.
Lemma upd_ne f a v x : x <> a -> upd f a v x = f x.
Proof. intros. unfold upd. by apply Z.eqb_neq in H as ->. Qed.
#[export] Hint Rewrite upd_eq : town.
#[export] Hint Rewrite upd_ne using congruence : town.

(** Simplify reads of updated arrays, given the distinctness facts of the
    context. *)
Ltac upds :=
  repeat first [rewrite upd_eq | rewrite upd_ne by (congruence || lia || done)].

Lemma linked_cons2 nx pv p q l :
  linked nx pv (p :: q :: l) <-> nx p = q /\ pv q = p /\ linked nx pv (q :: l).
Proof. reflexivity. Qed.

Lemma linked_frame nx pv nx' pv' l :
  (forall x, x ∈ removelast l -> nx' x = nx x) ->
  (forall x, x ∈ tail l -> pv' x = pv x) ->
  linked nx pv l -> linked nx' pv' l.
Proof.
  induction l as [|p [|q l] IH]; intros Hn Hp Hl; try done.
  destruct Hl as (H1 & H2 & H3). split; [| split].
  - rewrite Hn; [done |]. apply list_elem_of_here.
  - rewrite Hp; [done |]. apply list_elem_of_here.
  - apply IH; [| | done].
    + intros x Hx. apply Hn. by apply list_elem_of_further.
    + intros x Hx. apply Hp. simpl in *. by apply list_elem_of_further.
Qed.

Lemma linked_app nx pv l1 p l2 :
  linked nx pv (l1 ++ p :: l2) <-> linked nx pv (l1 ++ [p]) /\ linked nx pv (p :: l2).
Proof.
  induction l1 as [|x l1 IH]; [simpl; tauto |].
  destruct l1 as [|y l1]; [simpl in *; tauto |].
  change (linked nx pv ((x :: y :: l1) ++ p :: l2)) with
    (nx x = y /\ pv y = x /\ linked nx pv ((y :: l1) ++ p :: l2)).
  change (linked nx pv ((x :: y :: l1) ++ [p])) with
    (nx x = y /\ pv y = x /\ linked nx pv ((y :: l1) ++ [p])).
  rewrite IH. tauto.
Qed.

Lemma elem_of_removelast {A} (x : A) l : x ∈ removelast l -> x ∈ l.
Proof.
  destruct l as [|y l] using rev_ind; [done |].
  rewrite removelast_last. intros. apply elem_of_app. by left.
Qed.

Lemma elem_of_tail {A} (x : A) l : x ∈ tail l -> x ∈ l.
Proof. destruct l; [done |]. intros. by apply list_elem_of_further. Qed.

(** Pushing a node behind the first one, as [el_add_block_front] does. *)
Lemma linked_push nx pv s r b first :
  linked nx pv (s :: first :: r) -> NoDup (b :: s :: first :: r) ->
  linked (upd (upd nx b first) s b) (upd (upd pv first b) b s) (s :: b :: first :: r).
Proof.
  intros (H1 & H2 & H3) Hnd.
  apply NoDup_cons in Hnd as [Hb Hnd]. apply NoDup_cons in Hnd as [Hs Hnd].
  apply NoDup_cons in Hnd as [Hf Hnd].
  assert (b <> s /\ b <> first /\ s <> first) as (N1 & N2 & N3) by set_solver +Hb Hs.
  rewrite !linked_cons2. upds.
  split; [done |]. split; [done |]. split; [done |]. split; [done |].
  eapply linked_frame; [| | exact H3].
  - intros x Hx%elem_of_removelast. rewrite !upd_ne; [done | |]; intros ->;
      first [by apply Hs | apply Hb; set_solver +Hx].
  - intros x Hx. simpl in Hx. rewrite !upd_ne; [done | |]; intros ->;
      first [by apply Hf | apply Hb; set_solver +Hx].
Qed.

(** Unlinking an inner node, as [el_remove_block] does. *)
Lemma linked_unlink nx pv l1 p b q l2 :
  linked nx pv (l1 ++ p :: b :: q :: l2) -> NoDup (l1 ++ p :: b :: q :: l2) ->
  nx b = q /\ pv b = p /\
  linked (upd (upd nx p q) b NULL) (upd (upd pv q p) b NULL) (l1 ++ p :: q :: l2).
Proof.
  intros Hl Hnd. apply linked_app in Hl as [Ha (H1 & H2 & H3 & H4 & H5)].
  split; [done |]. split; [done |]. apply linked_app.
  apply NoDup_app in Hnd as (Hnd1 & Hd & Hnd2).
  assert (forall x, x ∈ l1 -> x <> p /\ x <> b /\ x <> q) as Hl1.
  { intros x Hx. specialize (Hd x Hx). set_solver +Hd. }
  apply NoDup_cons in Hnd2 as [Hp Hnd2]. apply NoDup_cons in Hnd2 as [Hb Hnd2].
  apply NoDup_cons in Hnd2 as [Hq Hnd2].
  assert (p <> b /\ p <> q /\ b <> q) as (N1 & N2 & N3) by set_solver +Hp Hb.
  split.
  - eapply linked_frame; [| | exact Ha].
    + intros x. rewrite removelast_last. intros Hx. destruct (Hl1 x Hx) as (? & ? & ?). by upds.
    + intros x Hx%elem_of_tail. apply elem_of_app in Hx as [Hx | ->%list_elem_of_singleton];
        [destruct (Hl1 x Hx) as (? & ? & ?) |]; by upds.
  - rewrite linked_cons2. upds. split; [done |]. split; [done |].
    eapply linked_frame; [| | exact H5].
    + intros x Hx%elem_of_removelast. rewrite !upd_ne; [done | |]; intros ->;
        first [by apply Hb | apply Hp; set_solver +Hx].
    + intros x Hx. simpl in Hx. rewrite !upd_ne; [done | |]; intros ->;
        first [by apply Hq | apply Hb; set_solver +Hx].
Qed.

(** ** Tilings *)

Lemma tiles_app a bs1 bs2 e :
  tiles a (bs1 ++ bs2) e <-> exists m, tiles a bs1 m /\ tiles m bs2 e.
Proof.
  revert a. induction bs1 as [|b bs1 IH]; intros a; simpl.
  - split; [intros H; eauto |]. by intros (m & -> & H).
  - setoid_rewrite IH. split.
    + intros (H1 & H2 & m & H3 & H4). eauto 6.
    + intros (m & (H1 & H2 & H3) & H4). eauto 6.
Qed.

Lemma tiles_le a bs e : tiles a bs e -> a <= e.
Proof.
  revert a. induction bs as [|b bs IH]; simpl; intros a H; [lia |].
  destruct H as (<- & H1 & H2%IH). unfold b_lim, EL_BLOCK_OVERHEAD, HEAD_BYTES, FOOT_BYTES in *. lia.
Qed.

Lemma tiles_in a bs e b :
  tiles a bs e -> b ∈ bs -> a <= b_addr b /\ 0 <= b_sz b /\ b_lim b <= e.
Proof.
  intros Ht (bs1 & bs2 & ->)%list_elem_of_split. apply tiles_app in Ht as (m & H1 & H2).
  destruct H2 as (<- & Hs & H3). apply tiles_le in H1, H3. done.
Qed.

(** Everything before a block ends before it, everything after starts
    after it. *)
Lemma tiles_sep a bs1 b bs2 e :
  tiles a (bs1 ++ b :: bs2) e ->
  (forall c, c ∈ bs1 -> b_lim c <= b_addr b) /\ (forall c, c ∈ bs2 -> b_lim b <= b_addr c).
Proof.
  intros Ht. apply tiles_app in Ht as (m & H1 & (<- & _ & H2)). split.
  - intros c Hc. by apply (tiles_in _ _ _ _ H1) in Hc as (_ & _ & ?).
  - intros c Hc. by apply (tiles_in _ _ _ _ H2) in Hc as (? & _ & _).
Qed.

Lemma b_lim_gt b : 0 <= b_sz b -> b_addr b + 40 <= b_lim b.
Proof. unfold b_lim, EL_BLOCK_OVERHEAD, HEAD_BYTES, FOOT_BYTES. lia. Qed.

Lemma tiles_nodup a bs e : tiles a bs e -> NoDup (map b_addr bs).
Proof.
  revert a. induction bs as [|b bs IH]; intros a Ht; simpl; [constructor |].
  constructor; [| destruct Ht as (_ & _ & Ht); by eapply IH].
  rewrite list_elem_of_In, in_map_iff. intros (c & Hc & Hin%list_elem_of_In).
  destruct (tiles_sep a [] b bs e Ht) as [_ Hsep]. specialize (Hsep c Hin).
  destruct Ht as (_ & Hs & _). pose proof (b_lim_gt b Hs). lia.
Qed.

Lemma frees_useds bs : frees bs ++ useds bs ≡ₚ bs.
Proof.
  induction bs as [|b bs IH]; simpl; [done |]. destruct (b_free b); simpl.
  - by rewrite IH.
  - by rewrite <- Permutation_middle, IH.
Qed.

Lemma bytes_of_perm bs bs' : bs ≡ₚ bs' -> bytes_of bs = bytes_of bs'.
Proof. induction 1; simpl; lia. Qed.

#[export] Instance bytes_of_proper : Proper (Permutation ==> eq) bytes_of.
Proof. intros x y. apply bytes_of_perm. Qed.

Lemma bytes_of_app bs bs' : bytes_of (bs ++ bs') = bytes_of bs + bytes_of bs'.
Proof. induction bs; simpl; lia. Qed.

Lemma tiles_bytes a bs e : tiles a bs e -> e = a + bytes_of bs.
Proof.
  revert a. induction bs as [|b bs IH]; simpl; intros a H; [lia |].
  destruct H as (<- & H1 & H2%IH). unfold b_lim in *. lia.
Qed.

Lemma bytes_of_length bs :
  Forall (fun b => 0 <= b_sz b) bs -> 40 * Z.of_nat (length bs) <= bytes_of bs.
Proof.
  induction 1; simpl; [lia |].
  unfold EL_BLOCK_OVERHEAD, HEAD_BYTES, FOOT_BYTES in *. lia.
Qed.

(** ** Surgery on the lists *)

Lemma lists_rep_swap h w xs fs ys gs :
  lists_rep h w xs fs ys gs -> lists_rep h (other w) ys gs xs fs.
Proof.
  intros (H1 & H2 & H3). split; [done |].
  assert (other (other w) = w) as -> by (by destruct w). split; [done |].
  by rewrite Permutation_app_comm.
Qed.

(** The node after the sentinel. *)
Lemma path_first l xs : exists first r, path l xs = l_beg l :: first :: r /\ xs ++ [l_end l] = first :: r.
Proof. destruct xs as [|x xs]; unfold path; simpl; eauto. Qed.

Lemma path_in l xs x : x ∈ xs -> x ∈ path l xs.
Proof. intros. unfold path. set_solver. Qed.

Lemma list_rep_frame h h' l xs fs :
  (forall x, x ∈ path l xs -> h_next h' x = h_next h x) ->
  (forall x, x ∈ path l xs -> h_prev h' x = h_prev h x) ->
  h_state h' (l_end l) = h_state h (l_end l) ->
  list_rep h l xs fs -> list_rep h' l xs fs.
Proof.
  intros Hn Hp Hs (H1 & H2 & H3 & H4 & H5). split; [| rewrite Hs; done].
  eapply linked_frame; [| | exact H1].
  - intros x Hx%elem_of_removelast. by apply Hn.
  - intros x Hx%elem_of_tail. by apply Hp.
Qed.

Lemma get_list_add h w b :
  get_list (el_add_block_front h w b) w =
  let l := get_list h w in
  mkList (l_beg l) (l_end l) (u64 (l_length l + 1))
    (u64 (l_bytes l + u64 (h_size h b + EL_BLOCK_OVERHEAD))).
Proof. by destruct w. Qed.

Lemma get_list_remove h w b :
  get_list (el_remove_block h w b) w =
  let l := get_list h w in
  mkList (l_beg l) (l_end l) (u64 (l_length l - 1))
    (u64 (l_bytes l - u64 (h_size h b + EL_BLOCK_OVERHEAD))).
Proof. by destruct w. Qed.

Lemma el_add_block_front_rep h w xs fs ys gs b :
  lists_rep h w xs fs ys gs ->
  b_addr b ∉ path (get_list h w) xs ++ path (get_list h (other w)) ys ->
  h_size h (b_addr b) = b_sz b -> 0 <= b_sz b ->
  Forall (fun b => 0 <= b_sz b) fs -> bytes_of (b :: fs) < 2 ^ 64 ->
  lists_rep (el_add_block_front h w (b_addr b)) w (b_addr b :: xs) (b :: fs) ys gs.
Proof.
  intros (H1 & H2 & Hnd) Hb Hsz Hsz0 Hfs Hby.
  destruct H1 as (L1 & L2 & L3 & L4 & L5).
  pose proof (bytes_of_length (b :: fs) ltac:(by constructor)) as Hlen. simpl in Hlen.
  pose proof (bytes_of_length fs Hfs) as Hlen'. simpl in Hby.
  destruct (path_first (get_list h w) xs) as (first & r & Hp & Hr).
  set (l := get_list h w) in *. set (l' := get_list h (other w)) in *.
  assert (h_next h (l_beg l) = first) as Hfirst.
  { rewrite Hp in L1. by destruct L1 as [-> _]. }
  assert (get_list (el_add_block_front h w (b_addr b)) w =
    mkList (l_beg l) (l_end l) (Z.of_nat (length (b :: fs))) (bytes_of (b :: fs))) as Eg.
  { rewrite get_list_add. cbv zeta. fold l. rewrite Hsz, L3, L4.
    cbn [length bytes_of foldr]. fold (bytes_of fs).
    unfold EL_BLOCK_OVERHEAD, HEAD_BYTES, FOOT_BYTES in *.
    rewrite (u64_small (b_sz b + _)) by lia. rewrite !u64_small by lia. f_equal; lia. }
  assert (get_list (el_add_block_front h w (b_addr b)) (other w) = l') as Eg' by (by destruct w).
  assert (h_next (el_add_block_front h w (b_addr b))
          = upd (upd (h_next h) (b_addr b) first) (l_beg l) (b_addr b)) as En
    by (rewrite <- Hfirst; by destruct w).
  assert (h_prev (el_add_block_front h w (b_addr b))
          = upd (upd (h_prev h) first (b_addr b)) (b_addr b) (l_beg l)) as Ep
    by (rewrite <- Hfirst; by destruct w).
  assert (h_state (el_add_block_front h w (b_addr b)) = h_state h) as Es by (by destruct w).
  split; [| split].
  - rewrite Eg. split; [| split; [by constructor | done || by rewrite Es]].
    unfold path; simpl. rewrite Hr, En, Ep. apply linked_push; [by rewrite <- Hp |].
    rewrite <- Hp. constructor; [set_solver +Hb |]. by apply NoDup_app in Hnd as (? & _ & _).
  - rewrite Eg'. eapply list_rep_frame; [| | | exact H2]; [| | by rewrite Es];
      intros x Hx; apply NoDup_app in Hnd as (_ & Hd & _);
      rewrite ?En, ?Ep, !upd_ne; try done; intros ->;
      try (apply Hb; set_solver +Hx); (eapply Hd; [| exact Hx]); rewrite Hp; set_solver +.
  - rewrite Eg, Eg'. unfold path; simpl. unfold path in Hnd, Hb; simpl in Hnd, Hb.
    rewrite (perm_swap (b_addr b) (l_beg l)). constructor; [| done].
    set_solver +Hb.
Qed.

Lemma el_remove_block_rep h w xs fs ys gs b :
  lists_rep h w xs (b :: fs) ys gs ->
  h_size h (b_addr b) = b_sz b -> 0 <= b_sz b ->
  Forall (fun b => 0 <= b_sz b) fs -> bytes_of (b :: fs) < 2 ^ 64 ->
  exists xs', xs ≡ₚ b_addr b :: xs' /\
    b_addr b ∉ path (get_list h w) xs' ++ path (get_list h (other w)) ys /\
    lists_rep (el_remove_block h w (b_addr b)) w xs' fs ys gs.
Proof.
  intros (H1 & H2 & Hnd) Hsz Hsz0 Hfs Hby. destruct H1 as (L1 & L2 & L3 & L4 & L5).
  assert (b_addr b ∈ xs) as Hin by (rewrite L2; left).
  apply list_elem_of_split in Hin as (x1 & x2 & ->).
  exists (x1 ++ x2). split; [by rewrite Permutation_middle |].
  pose proof (bytes_of_length (b :: fs) ltac:(by constructor)) as Hlen. simpl in Hlen.
  pose proof (bytes_of_length fs Hfs) as Hlen'. simpl in Hby, L3, L4.
  set (l := get_list h w) in *. set (l' := get_list h (other w)) in *.
  destruct (x2 ++ [l_end l]) as [|q r2] eqn:Eq; [by destruct x2 |].
  destruct (@exists_last _ (l_beg l :: x1)) as (r1 & p & Ep); [done |].
  assert (path l (x1 ++ b_addr b :: x2) = r1 ++ p :: b_addr b :: q :: r2) as Hpath.
  { unfold path. rewrite <- app_assoc. simpl. rewrite Eq, app_comm_cons, Ep, <- app_assoc. done. }
  assert (path l (x1 ++ x2) = r1 ++ p :: q :: r2) as Hpath'.
  { unfold path. rewrite <- app_assoc, Eq, app_comm_cons, Ep, <- app_assoc. done. }
  pose proof Hnd as Hnd0. apply NoDup_app in Hnd0 as (Hnd1 & Hd & _). rewrite Hpath in L1, Hnd1.
  destruct (linked_unlink _ _ _ _ _ _ _ L1 Hnd1) as (Enx & Epv & L1').
  split.
  { rewrite Hpath' in *. rewrite Hpath in Hd. intros [Hx | Hx]%elem_of_app.
    - rewrite cons_middle, app_assoc in Hnd1. apply NoDup_app in Hnd1 as (_ & Hd1 & Hnd1).
      apply NoDup_cons in Hnd1 as [Hnb _]. rewrite cons_middle, app_assoc in Hx.
      apply elem_of_app in Hx as [Hx | Hx]; [| done].
      apply (Hd1 _ Hx). left.
    - eapply Hd; [| exact Hx]. set_solver +. }
  set (h' := el_remove_block h w (b_addr b)).
  assert (get_list h' w =
    mkList (l_beg l) (l_end l) (Z.of_nat (length fs)) (bytes_of fs)) as Eg.
  { unfold h'. rewrite get_list_remove. cbv zeta. fold l. rewrite Hsz, L3, L4.
    unfold EL_BLOCK_OVERHEAD, HEAD_BYTES, FOOT_BYTES in *.
    rewrite (u64_small (b_sz b + _)) by lia. rewrite !u64_small by lia. f_equal; lia. }
  assert (get_list h' (other w) = l') as Eg' by (by destruct w).
  assert (h_next h' = upd (upd (h_next h) p q) (b_addr b) NULL) as En
    by (rewrite <- Enx, <- Epv; by destruct w).
  assert (h_prev h' = upd (upd (h_prev h) q p) (b_addr b) NULL) as Epr
    by (rewrite <- Enx, <- Epv; by destruct w).
  assert (h_state h' = h_state h) as Es by (by destruct w).
  split; [| split].
  - rewrite Eg. split; [| split; [| done || by rewrite Es]].
    + change (path (mkList _ _ _ _) ?x) with (path l x). by rewrite Hpath', En, Epr.
    + apply (Permutation_cons_inv (a := b_addr b)). by rewrite Permutation_middle.
  - rewrite Eg'. eapply list_rep_frame; [| | | exact H2]; [| | by rewrite Es];
      intros x Hx; rewrite ?En, ?Epr, !upd_ne; try done; intros ->;
      (eapply Hd; [rewrite Hpath | exact Hx]); set_solver +.
  - rewrite Eg, Eg'. change (path (mkList _ _ _ _) ?x) with (path l x).
    eapply sublist_NoDup; [exact Hnd |]. rewrite Hpath, Hpath'.
    apply sublist_app; [| done]. apply sublist_app; [done |].
    by apply sublist_skip, sublist_cons.
Qed.

(** ** From the representation to its parts and back *)

Lemma frees_in bs b : b ∈ frees bs <-> b ∈ bs /\ b_free b = true.
Proof. unfold frees. by rewrite !list_elem_of_In, filter_In. Qed.
Lemma useds_in bs b : b ∈ useds bs <-> b ∈ bs /\ b_free b = false.
Proof. unfold useds. by rewrite !list_elem_of_In, filter_In, negb_true_iff. Qed.
Lemma frees_app bs bs' : frees (bs ++ bs') = frees bs ++ frees bs'.
Proof. apply List.filter_app. Qed.
Lemma useds_app bs bs' : useds (bs ++ bs') = useds bs ++ useds bs'.
Proof. apply List.filter_app. Qed.

Lemma rep_nodes_nodup h bs al ul :
  heap_rep h bs al ul -> NoDup (path (avail h) al ++ path (in_use h) ul).
Proof.
  intros [Ht _ _ (_ & Ha & _) (_ & Hu & _) [Hs1 Hs2]].
  assert (al ++ ul ≡ₚ map b_addr bs) as Hp.
  { rewrite Ha, Hu, <- map_app. apply Permutation_map, frees_useds. }
  assert (path (avail h) al ++ path (in_use h) ul ≡ₚ sentinels h ++ (al ++ ul)) as ->.
  { unfold path, sentinels. simpl. constructor.
    rewrite (Permutation_app_comm al), (Permutation_app_comm ul). simpl. constructor.
    by rewrite <- !Permutation_middle. }
  apply NoDup_app. split; [done |]. split.
  - intros x Hx Hin. rewrite Hp in Hin. apply list_elem_of_In, in_map_iff in Hin as (b & <- & Hb).
    apply list_elem_of_In in Hb. apply (tiles_in _ _ _ _ Ht) in Hb as (H1 & H2 & H3).
    rewrite Forall_forall in Hs2. specialize (Hs2 _ Hx). pose proof (b_lim_gt b H2). lia.
  - rewrite Hp. by eapply tiles_nodup.
Qed.

Lemma rep_lists h bs al ul :
  heap_rep h bs al ul -> lists_rep h AVAIL al (frees bs) ul (useds bs).
Proof. intros H. split; [apply H |]. split; [apply H |]. by eapply rep_nodes_nodup. Qed.

Lemma list_rep_perm h l xs fs fs' : fs ≡ₚ fs' -> list_rep h l xs fs -> list_rep h l xs fs'.
Proof.
  intros Hp (H1 & H2 & H3 & H4 & H5). split; [done |].
  rewrite H2, H3, H4. split; [by apply Permutation_map | by rewrite Hp].
Qed.

Lemma lists_rep_perm h w xs fs fs' ys gs gs' :
  fs ≡ₚ fs' -> gs ≡ₚ gs' -> lists_rep h w xs fs ys gs -> lists_rep h w xs fs' ys gs'.
Proof. intros H1 H2 (L1 & L2 & L3). split; [| split]; eauto using list_rep_perm. Qed.

(** Tags may change anywhere but at the end sentinels without disturbing
    the lists. *)
Lemma lists_rep_tags h h' w xs fs ys gs :
  h_next h' = h_next h -> h_prev h' = h_prev h -> avail h' = avail h -> in_use h' = in_use h ->
  (forall x, x ∈ sentinels h -> h_state h' x = h_state h x) ->
  lists_rep h w xs fs ys gs -> lists_rep h' w xs fs ys gs.
Proof.
  intros Hn Hp Ha Hu Hs (L1 & L2 & L3).
  assert (forall w, get_list h' w = get_list h w) as Hg by (by intros []).
  assert (forall w, h_state h' (l_end (get_list h w)) = h_state h (l_end (get_list h w))) as Hst.
  { intros [|]; apply Hs; unfold sentinels; set_solver +. }
  unfold lists_rep, list_rep. rewrite !Hg, Hn, Hp, !Hst. done.
Qed.

Lemma rep_block h bs al ul b : heap_rep h bs al ul -> b ∈ bs -> block_ok h b.
Proof. intros H Hb. pose proof (rep_blocks _ _ _ _ H) as HF. rewrite Forall_forall in HF. auto. Qed.

Lemma rep_block_bounds h bs al ul b :
  heap_rep h bs al ul -> b ∈ bs ->
  0 < heap_start h <= b_addr b /\ 0 <= b_sz b /\ b_lim b <= heap_end h < 2 ^ 64.
Proof.
  intros H Hb. pose proof (rep_bounds _ _ _ _ H) as (? & ? & _).
  apply (tiles_in _ _ _ _ (rep_tiles _ _ _ _ H)) in Hb as (? & ? & ?). lia.
Qed.

Lemma rep_not_sentinel h bs al ul x :
  heap_rep h bs al ul -> heap_start h <= x < heap_end h -> x ∉ sentinels h.
Proof.
  intros H Hx Hin. destruct (rep_sent _ _ _ _ H) as [_ Hs].
  rewrite Forall_forall in Hs. specialize (Hs _ Hin). lia.
Qed.

(** Sizes are nonnegative and the lists' byte counts stay in range. *)
Lemma rep_sizes h bs al ul : heap_rep h bs al ul -> Forall (fun b => 0 <= b_sz b) bs.
Proof.
  intros H. apply Forall_forall. intros b Hb.
  by apply (tiles_in _ _ _ _ (rep_tiles _ _ _ _ H)) in Hb as (_ & ? & _).
Qed.

Lemma rep_total h bs al ul : heap_rep h bs al ul -> bytes_of bs = heap_bytes h /\ bytes_of bs < 2 ^ 64.
Proof.
  intros H. pose proof (rep_bounds _ _ _ _ H) as (? & ? & ?).
  pose proof (tiles_bytes _ _ _ (rep_tiles _ _ _ _ H)). lia.
Qed.

Lemma block_ok_frame h h' lo hi c :
  same_outside lo hi h h' -> b_lim c <= lo \/ hi <= b_addr c -> 0 <= b_sz c ->
  block_ok h c -> block_ok h' c.
Proof.
  intros Hs Hc Hsz (H1 & H2 & H3). pose proof (b_lim_gt c Hsz) as Hl.
  unfold b_lim, EL_BLOCK_OVERHEAD, HEAD_BYTES, FOOT_BYTES in *.
  destruct (Hs (b_addr c)) as (E1 & E2 & _); [lia |].
  destruct (Hs (b_addr c + 32 + b_sz c)) as (_ & _ & E3); [lia |].
  unfold block_ok, HEAD_BYTES. rewrite E1, E2, E3. done.
Qed.

(** Rebuild the representation after the blocks of one stretch [old] of the
    tiling were replaced by [new], which tile the same stretch. *)
Lemma rep_replace h h' bs1 old new bs2 al ul al' ul' fs us lo hi :
  heap_rep h (bs1 ++ old ++ bs2) al ul ->
  (forall a e, tiles a old e -> tiles a new e) ->
  (forall c, c ∈ bs1 -> b_lim c <= lo) -> (forall c, c ∈ bs2 -> hi <= b_addr c) ->
  same_outside lo hi h h' -> same_slab h h' -> Forall (block_ok h') new ->
  lists_rep h' AVAIL al' fs ul' us ->
  fs ≡ₚ frees bs1 ++ frees new ++ frees bs2 ->
  us ≡ₚ useds bs1 ++ useds new ++ useds bs2 ->
  heap_rep h' (bs1 ++ new ++ bs2) al' ul'.
Proof.
  intros H Htile Hb1 Hb2 Hout (S1 & S2 & S3 & S4) Hok Hl Hf Hu.
  rewrite <- !frees_app in Hf. rewrite <- !useds_app in Hu.
  assert (Forall (fun b => 0 <= b_sz b) (bs1 ++ old ++ bs2)) as Hsz by (by eapply rep_sizes).
  destruct H as [Ht Hb Hblk _ _ Hse].
  apply (lists_rep_perm _ _ _ _ _ _ _ _ Hf Hu) in Hl as (L1 & L2 & _).
  rewrite !Forall_app in Hblk. rewrite !Forall_app in Hsz.
  destruct Hblk as (K1 & K2 & K3), Hsz as (Z1 & Z2 & Z3).
  split; [| by rewrite S1, S2, S3 | | done | done | by rewrite S1, S2, S4].
  - rewrite S1, S2. apply tiles_app in Ht as (m & T1 & Ht).
    apply tiles_app in Ht as (m' & T2 & T3).
    apply tiles_app. exists m. split; [done |]. apply tiles_app. eauto.
  - rewrite !Forall_app. split; [| split; [done |]].
    + apply Forall_forall. intros c Hc. rewrite Forall_forall in K1, Z1.
      eapply block_ok_frame; eauto.
    + apply Forall_forall. intros c Hc. rewrite Forall_forall in K3, Z3.
      eapply block_ok_frame; eauto.
Qed.

(** ** Search *)

Lemma find_loop_spec h n xs e fuel f r :
  xs ++ [e] = f :: r -> linked (h_next h) (h_prev h) (xs ++ [e]) ->
  Forall (fun x => h_state h x = EL_AVAILABLE) xs -> h_state h e = EL_END_BLOCK ->
  (length xs < fuel)%nat ->
  (Forall (fun x => h_size h x < n) xs /\ find_loop h n fuel f = Some NULL) \/
  (exists x1 x x2, xs = x1 ++ x :: x2 /\ Forall (fun x => h_size h x < n) x1 /\
     n <= h_size h x /\ find_loop h n fuel f = Some x).
Proof.
  revert fuel f r. induction xs as [|x xs IH]; intros fuel f r Hf Hl Hst He Hfuel;
    destruct fuel as [|fuel]; try (simpl in *; lia); simpl in Hf; simplify_eq.
  - left. split; [constructor |]. simpl. by rewrite He.
  - apply Forall_cons in Hst as [Hx Hst]. simpl find_loop. rewrite Hx. simpl.
    destruct (Z.leb_spec n (h_size h f)) as [Hle | Hlt].
    + right. exists [], f, xs. auto.
    + destruct (xs ++ [e]) as [|g r'] eqn:Eg; [by destruct xs |].
      simpl in Hl. rewrite Eg in Hl. apply linked_cons2 in Hl as (E1 & _ & Hl).
      rewrite E1. destruct (IH fuel g r' eq_refl Hl Hst He) as [[H1 H2] | (x1 & x & x2 & -> & H2 & H3 & H4)].
      * simpl in Hfuel. lia.
      * left. split; [by constructor | done].
      * right. exists (f :: x1), x, x2. split; [done |]. split; [by constructor | done].
Qed.

Lemma rep_avail_states h bs al ul x :
  heap_rep h bs al ul -> x ∈ al ->
  exists b, b ∈ bs /\ b_free b = true /\ b_addr b = x /\
    h_state h x = EL_AVAILABLE /\ h_size h x = b_sz b.
Proof.
  intros H Hx. destruct (rep_avail _ _ _ _ H) as (_ & Hp & _). rewrite Hp in Hx.
  apply list_elem_of_In, in_map_iff in Hx as (b & <- & Hb). apply list_elem_of_In, frees_in in Hb as [Hb Hf].
  exists b. destruct (rep_block _ _ _ _ _ H Hb) as (H1 & H2 & _). rewrite Hf in H2. auto.
Qed.

(** [el_find_first_avail] terminates and returns the first node of the
    available list whose block is large enough. *)
Lemma el_find_first_avail_spec h bs al ul n :
  heap_rep h bs al ul ->
  (Forall (fun b => b_sz b < n) (frees bs) /\ el_find_first_avail h n = Some NULL) \/
  (exists x1 b x2, al = x1 ++ b_addr b :: x2 /\ Forall (fun x => h_size h x < n) x1 /\
     b ∈ bs /\ b_free b = true /\ n <= b_sz b /\ el_find_first_avail h n = Some (b_addr b)).
Proof.
  intros H. pose proof (rep_avail _ _ _ _ H) as (L1 & L2 & L3 & L4 & L5).
  destruct (path_first (avail h) al) as (first & r & Hp & Hr). rewrite Hp in L1.
  apply linked_cons2 in L1 as (E1 & _ & L1). unfold el_find_first_avail. rewrite E1.
  rewrite <- Hr in L1.
  destruct (find_loop_spec h n al (l_end (avail h)) (Z.to_nat (l_length (avail h)) + 1) first r)
    as [[H1 H2] | (x1 & x & x2 & -> & H2 & H3 & H4)]; [done | done | | done | | |].
  - apply Forall_forall. intros x Hx. by destruct (rep_avail_states _ _ _ _ _ H Hx) as (? & _ & _ & _ & ? & _).
  - rewrite L3, L2, length_map. lia.
  - left. split; [| done]. apply Forall_forall. intros b Hb. rewrite Forall_forall in H1.
    destruct (proj1 (frees_in bs b) Hb) as [Hb' _].
    destruct (rep_block _ _ _ _ _ H Hb') as (<- & _). apply H1. rewrite L2.
    apply list_elem_of_In, in_map, list_elem_of_In, Hb.
  - right. destruct (rep_avail_states _ _ _ _ x H) as (b & Hb & Hf & <- & _ & Hsz); [set_solver + |].
    exists x1, b, x2. rewrite Hsz in H3. auto 10.
Qed.

(** ** Split *)

Lemma el_split_block_small h b n :
  0 <= n <= h_size h b -> h_size h b < n + EL_BLOCK_OVERHEAD -> h_size h b + 40 < 2 ^ 64 ->
  el_split_block h b n = (h, NULL).
Proof.
  unfold EL_BLOCK_OVERHEAD, HEAD_BYTES, FOOT_BYTES. intros Hn Hs Hb. unfold el_split_block.
  unfold EL_BLOCK_OVERHEAD, HEAD_BYTES, FOOT_BYTES. rewrite u64_small by lia.
  destruct (Z.ltb_spec (h_size h b) (n + (32 + 8))); [done | lia].
Qed.

Lemma el_split_block_large h b sz n :
  h_size h b = sz -> 0 < b -> 0 <= n -> n + EL_BLOCK_OVERHEAD <= sz ->
  b + EL_BLOCK_OVERHEAD + sz < 2 ^ 64 ->
  let left := sz - n - EL_BLOCK_OVERHEAD in
  let newb := b + EL_BLOCK_OVERHEAD + n in
  el_split_block h b n =
    (set_size (set_foot (set_foot (set_size h b n) (b + HEAD_BYTES + n) n)
       (b + HEAD_BYTES + sz) left) newb left, newb).
Proof.
  intros Hsz Hb Hn Hs Hlim left newb.
  unfold el_split_block, el_get_footer, el_get_header; cbn [h_size f_size set_size set_foot].
  change EL_BLOCK_OVERHEAD with 40 in *. change HEAD_BYTES with 32 in *.
  rewrite Hsz, (u64_small (n + 40)) by lia.
  destruct (Z.ltb_spec sz (n + 40)) as [|_]; [lia |].
  rewrite (u64_small (sz - n - 40)) by lia. fold left. rewrite !upd_eq.
  rewrite (u64_small (32 + n)), (u64_small (32 + sz)), (u64_small (32 + left)) by lia.
  rewrite (u64_small (b + (32 + n))), (u64_small (b + (32 + sz))), u64_small by lia.
  replace (b + (32 + n)) with (b + 32 + n) by lia.
  replace (b + (32 + sz)) with (b + 32 + sz) by lia.
  replace (b + 32 + sz - (32 + left)) with newb by lia. done.
Qed.

(** ** Allocation *)

Lemma bytes_split bs : bytes_of bs = bytes_of (frees bs) + bytes_of (useds bs).
Proof. by rewrite <- bytes_of_app, frees_useds. Qed.

Lemma bytes_nonneg bs : Forall (fun b => 0 <= b_sz b) bs -> 0 <= bytes_of bs.
Proof. intros H. pose proof (bytes_of_length bs H). lia. Qed.

Lemma frees_sizes bs : Forall (fun b => 0 <= b_sz b) bs -> Forall (fun b => 0 <= b_sz b) (frees bs).
Proof. rewrite !Forall_forall. intros H b Hb. apply H. by apply frees_in in Hb as [? _]. Qed.
Lemma useds_sizes bs : Forall (fun b => 0 <= b_sz b) bs -> Forall (fun b => 0 <= b_sz b) (useds bs).
Proof. rewrite !Forall_forall. intros H b Hb. apply H. by apply useds_in in Hb as [? _]. Qed.
#[export] Hint Resolve frees_sizes useds_sizes bytes_nonneg : town.

Lemma same_slab_refl h : same_slab h h.
Proof. done. Qed.
Lemma same_slab_trans h1 h2 h3 : same_slab h1 h2 -> same_slab h2 h3 -> same_slab h1 h3.
Proof. unfold same_slab. intuition congruence. Qed.
Lemma add_same_slab h w b : same_slab h (el_add_block_front h w b).
Proof. by destruct w. Qed.
Lemma remove_same_slab h w b : same_slab h (el_remove_block h w b).
Proof. by destruct w. Qed.
#[export] Hint Resolve same_slab_refl add_same_slab remove_same_slab : town.

Lemma fresh_path h h' x xs ys :
  sentinels h' = sentinels h -> x ∉ sentinels h -> x ∉ xs -> x ∉ ys ->
  x ∉ path (avail h') xs ++ path (in_use h') ys.
Proof.
  intros Hs Hx Hxs Hys. rewrite <- Hs in Hx. unfold sentinels in Hx. unfold path.
  set_solver +Hx Hxs Hys.
Qed.

Lemma rep_inner_fresh h bs al ul b x :
  heap_rep h bs al ul -> b ∈ bs -> b_addr b < x < b_lim b -> x ∉ sentinels h /\ x ∉ al /\ x ∉ ul.
Proof.
  intros H Hb Hx. destruct (rep_block_bounds _ _ _ _ _ H Hb) as (H1 & H2 & H3).
  split; [eapply rep_not_sentinel; [done | lia] |].
  assert (forall c, c ∈ bs -> b_addr c <> x) as Hne.
  { intros c Hc. apply list_elem_of_split in Hb as (bs1 & bs2 & ->).
    destruct (tiles_sep _ _ _ _ _ (rep_tiles _ _ _ _ H)) as [T1 T2].
    destruct (rep_block_bounds _ _ _ _ _ H Hc) as (_ & C2 & _). pose proof (b_lim_gt c C2).
    apply elem_of_app in Hc as [Hc | Hc]; [specialize (T1 c Hc); lia |].
    apply elem_of_cons in Hc as [-> | Hc]; [lia | specialize (T2 c Hc); lia]. }
  destruct (rep_avail _ _ _ _ H) as (_ & Pa & _), (rep_used _ _ _ _ H) as (_ & Pu & _).
  rewrite Pa, Pu, !list_elem_of_In, !in_map_iff.
  split; intros (c & Hc & Hin%list_elem_of_In); [apply frees_in in Hin as [Hin _] | apply useds_in in Hin as [Hin _]];
    by apply (Hne c).
Qed.

(** The two ways a chosen block becomes a used one, after it has left the
    available list. *)
Lemma malloc_take_whole h bs1 b bs2 al ul al1 :
  heap_rep h (bs1 ++ [b] ++ bs2) al ul -> b_free b = true ->
  let h1 := el_remove_block h AVAIL (b_addr b) in
  lists_rep h1 AVAIL al1 (frees bs1 ++ frees bs2) ul (useds bs1 ++ useds bs2) ->
  b_addr b ∉ path (avail h) al1 ++ path (in_use h) ul ->
  let h' := el_add_block_front (set_state h1 (b_addr b) EL_USED) USED (b_addr b) in
  heap_rep h' (bs1 ++ [mkBlk (b_addr b) (b_sz b) false] ++ bs2) al1 (b_addr b :: ul).
Proof.
  intros H Hf h1 Hl Hfresh h'.
  assert (b ∈ bs1 ++ [b] ++ bs2) as Hb by set_solver +.
  destruct (rep_block_bounds _ _ _ _ _ H Hb) as (B1 & B2 & B3). pose proof (b_lim_gt b B2) as Blim.
  destruct (rep_block _ _ _ _ _ H Hb) as (K1 & K2 & K3).
  pose proof (rep_sizes _ _ _ _ H) as Hsz. destruct (rep_total _ _ _ _ H) as [_ Htot].
  rewrite !Forall_app in Hsz. destruct Hsz as (Z1 & _ & Z2).
  assert (lists_rep h' USED (b_addr b :: ul)
    (mkBlk (b_addr b) (b_sz b) false :: (useds bs1 ++ useds bs2)) al1 (frees bs1 ++ frees bs2)) as L'.
  { apply (el_add_block_front_rep _ USED ul _ al1 _ (mkBlk (b_addr b) (b_sz b) false));
      cbn [b_addr b_sz]; [| | done | done | |].
    - apply (lists_rep_swap _ AVAIL). apply (lists_rep_tags h1); [done.. | | exact Hl].
      intros x Hx. simpl. apply upd_ne. intros ->. by apply (rep_not_sentinel _ _ _ _ (b_addr b) H); [lia |].
    - rewrite elem_of_app in Hfresh |- *. simpl. tauto.
    - apply Forall_app; eauto with town.
    - rewrite !bytes_of_app in Htot. simpl in *. rewrite bytes_of_app.
      rewrite (bytes_split bs1), (bytes_split bs2) in Htot.
      pose proof (bytes_nonneg _ (frees_sizes _ Z1)). pose proof (bytes_nonneg _ (frees_sizes _ Z2)). lia. }
  apply lists_rep_swap in L'. simpl in L'.
  eapply (rep_replace h h' bs1 [b] _ bs2 _ _ _ _ _ _ (b_addr b) (b_lim b)); [done | | | | | | | exact L' | |].
  - intros a e (<- & _ & He). done.
  - by apply (tiles_sep _ _ _ _ _ (rep_tiles _ _ _ _ H)).
  - by apply (tiles_sep _ _ _ _ _ (rep_tiles _ _ _ _ H)).
  - intros x Hx. simpl. rewrite upd_ne; [done |]. lia.
  - eapply same_slab_trans; [| apply add_same_slab]. done.
  - constructor; [| done]. unfold block_ok; simpl. rewrite upd_eq. done.
  - done.
  - simpl. by rewrite Permutation_middle.
Qed.

Lemma malloc_take_split h bs1 b bs2 al ul al1 n :
  heap_rep h (bs1 ++ [b] ++ bs2) al ul -> b_free b = true ->
  0 <= n -> n + EL_BLOCK_OVERHEAD <= b_sz b ->
  let h1 := el_remove_block h AVAIL (b_addr b) in
  al ≡ₚ b_addr b :: al1 ->
  lists_rep h1 AVAIL al1 (frees bs1 ++ frees bs2) ul (useds bs1 ++ useds bs2) ->
  b_addr b ∉ path (avail h) al1 ++ path (in_use h) ul ->
  let left := b_sz b - n - EL_BLOCK_OVERHEAD in
  let newb := b_addr b + EL_BLOCK_OVERHEAD + n in
  let h2 := (el_split_block h1 (b_addr b) n).1 in
  let h3 := el_add_block_front (set_state h2 (b_addr b) EL_USED) USED (b_addr b) in
  let h' := el_add_block_front (set_state h3 newb EL_AVAILABLE) AVAIL newb in
  heap_rep h' (bs1 ++ [mkBlk (b_addr b) n false; mkBlk newb left true] ++ bs2)
    (newb :: al1) (b_addr b :: ul).
Proof.
  intros H Hf Hn Hfit h1 Hal Hl Hfresh left newb h2 h3 h'.
  assert (b ∈ bs1 ++ [b] ++ bs2) as Hb by set_solver +.
  destruct (rep_block_bounds _ _ _ _ _ H Hb) as (B1 & B2 & B3). pose proof (b_lim_gt b B2) as Blim.
  destruct (rep_block _ _ _ _ _ H Hb) as (K1 & K2 & K3).
  pose proof (rep_sizes _ _ _ _ H) as Hsz. destruct (rep_total _ _ _ _ H) as [_ Htot].
  rewrite !Forall_app in Hsz. destruct Hsz as (Z1 & _ & Z2).
  assert (b_lim b = b_addr b + EL_BLOCK_OVERHEAD + b_sz b) as Elim by done.
  change EL_BLOCK_OVERHEAD with 40 in *.
  pose proof (el_split_block_large h1 (b_addr b) (b_sz b) n K1 ltac:(lia) Hn Hfit ltac:(change EL_BLOCK_OVERHEAD with 40; lia)) as Es.
  cbv zeta in Es. change EL_BLOCK_OVERHEAD with 40 in Es. fold left newb in Es.
  assert (b_addr b < newb < b_lim b) as Hnew by lia.
  destruct (rep_inner_fresh _ _ _ _ _ newb H Hb Hnew) as (N1 & N2 & N3).
  assert (newb ∉ al1) as N2' by (intros Hx; apply N2; rewrite Hal; by right).
  rewrite !bytes_of_app in Htot. simpl in Htot. change EL_BLOCK_OVERHEAD with 40 in Htot.
  rewrite (bytes_split bs1), (bytes_split bs2) in Htot.
  pose proof (bytes_nonneg _ (frees_sizes _ Z1)). pose proof (bytes_nonneg _ (frees_sizes _ Z2)).
  pose proof (bytes_nonneg _ (useds_sizes _ Z1)). pose proof (bytes_nonneg _ (useds_sizes _ Z2)).
  assert (lists_rep h3 USED (b_addr b :: ul)
    (mkBlk (b_addr b) n false :: (useds bs1 ++ useds bs2)) al1 (frees bs1 ++ frees bs2)) as L3.
  { apply (el_add_block_front_rep _ USED ul _ al1 _ (mkBlk (b_addr b) n false));
      cbn [b_addr b_sz].
    - apply (lists_rep_swap _ AVAIL). unfold h2. rewrite Es. apply (lists_rep_tags h1); [done.. | | exact Hl].
      intros x Hx. simpl. apply upd_ne. intros ->. by apply (rep_not_sentinel _ _ _ _ (b_addr b) H); [lia |].
    - unfold h2. rewrite Es. rewrite elem_of_app in Hfresh |- *. simpl. tauto.
    - unfold h2. rewrite Es. simpl. rewrite upd_ne, upd_eq by lia. done.
    - done.
    - apply Forall_app; eauto with town.
    - simpl. change EL_BLOCK_OVERHEAD with 40. rewrite bytes_of_app. lia. }
  apply lists_rep_swap in L3. simpl in L3.
  assert (lists_rep h' AVAIL (newb :: al1) (mkBlk newb left true :: (frees bs1 ++ frees bs2))
    (b_addr b :: ul) (mkBlk (b_addr b) n false :: (useds bs1 ++ useds bs2))) as L'.
  { apply (el_add_block_front_rep _ AVAIL al1 _ (b_addr b :: ul) _ (mkBlk newb left true));
      cbn [b_addr b_sz].
    - apply (lists_rep_tags h3); [reflexivity.. | | exact L3].
      intros x Hx. simpl. apply upd_ne. intros ->. apply N1. unfold h3, h2 in Hx. by rewrite Es in Hx.
    - simpl. apply (fresh_path h); [unfold h3, h2; by rewrite Es | done | done |].
      intros [Hx | Hx]%elem_of_cons; [lia | done].
    - unfold h3, h2. rewrite Es. simpl. by rewrite upd_eq.
    - lia.
    - apply Forall_app; eauto with town.
    - simpl. change EL_BLOCK_OVERHEAD with 40. rewrite bytes_of_app. lia. }
  eapply (rep_replace h h' bs1 [b] _ bs2 _ _ _ _ _ _ (b_addr b) (b_lim b)); [done | | | | | | | exact L' | |].
  - intros a e (<- & _ & He). simpl in *. unfold b_lim in *; simpl.
    change EL_BLOCK_OVERHEAD with 40 in *. split; [done |]. split; [done |].
    split; [lia |]. split; [lia |]. replace (newb + 40 + left) with (b_addr b + 40 + b_sz b) by lia. done.
  - by apply (tiles_sep _ _ _ _ _ (rep_tiles _ _ _ _ H)).
  - by apply (tiles_sep _ _ _ _ _ (rep_tiles _ _ _ _ H)).
  - intros x Hx. unfold h', h3, h2. rewrite Es. simpl. change HEAD_BYTES with 32.
    rewrite !upd_ne by lia. done.
  - unfold h', h3, h2. by rewrite Es.
  - repeat constructor; unfold block_ok, h', h3, h2; rewrite Es; simpl; change HEAD_BYTES with 32.
    + by rewrite upd_ne, upd_eq by lia.
    + by rewrite upd_ne, upd_eq by lia.
    + by rewrite upd_ne, upd_eq by lia.
    + by rewrite upd_eq.
    + by rewrite upd_eq.
    + replace (newb + 32 + left) with (b_addr b + 32 + b_sz b) by lia. by rewrite upd_eq.
  - simpl. by rewrite Permutation_middle.
  - simpl. by rewrite Permutation_middle.
Qed.

(** [el_malloc] on a well-formed heap terminates. Either no available block
    is large enough and nothing changes, or the first node of the available
    list that is large enough is taken, whole or split. *)
Lemma el_malloc_rep h bs al ul n :
  heap_rep h bs al ul -> 0 <= n ->
  (Forall (fun b => b_sz b < n) (frees bs) /\ el_malloc h n = Some (h, NULL)) \/
  (exists bs1 b bs2 x1 x2 h' al' ul', bs = bs1 ++ [b] ++ bs2 /\ b_free b = true /\ n <= b_sz b /\
     al = x1 ++ b_addr b :: x2 /\ Forall (fun x => h_size h x < n) x1 /\
     el_malloc h n = Some (h', b_addr b + HEAD_BYTES) /\ same_slab h h' /\
     heap_rep h' (bs1 ++ alloc_blocks b n ++ bs2) al' ul').
Proof.
  intros H Hn. unfold el_malloc.
  destruct (el_find_first_avail_spec h bs al ul n H)
    as [[H1 ->] | (x1 & b & x2 & Hal & Hx1 & Hb & Hf & Hfit & ->)]; [by left |].
  right. destruct (rep_block_bounds _ _ _ _ _ H Hb) as (B1 & B2 & B3).
  destruct (rep_block _ _ _ _ _ H Hb) as (K1 & _ & _).
  assert (b_lim b = b_addr b + 40 + b_sz b) as Elim by done.
  replace (b_addr b =? NULL) with false by (symmetry; apply Z.eqb_neq; unfold NULL; lia).
  apply list_elem_of_split in Hb as (bs1 & bs2 & ->). change (b :: bs2) with ([b] ++ bs2) in *.
  pose proof (rep_sizes _ _ _ _ H) as Hsz. destruct (rep_total _ _ _ _ H) as [_ Htot].
  destruct (el_remove_block_rep h AVAIL al (frees bs1 ++ frees bs2) ul (useds bs1 ++ useds bs2) b)
    as (al1 & Pal & Hfresh & L1); [| done | done | | |].
  { eapply lists_rep_perm; [| | by eapply rep_lists]; rewrite ?frees_app, ?useds_app;
      simpl; rewrite Hf; simpl; by rewrite ?Permutation_middle. }
  { rewrite !Forall_app in Hsz. apply Forall_app; split; apply frees_sizes; tauto. }
  { rewrite (bytes_split (bs1 ++ [b] ++ bs2)), frees_app in Htot. simpl in Htot. rewrite Hf in Htot.
    simpl in Htot. rewrite bytes_of_app in Htot. simpl in *. rewrite bytes_of_app.
    pose proof (bytes_nonneg _ (useds_sizes _ Hsz)). lia. }
  change (u64 (b_addr b + HEAD_BYTES)) with (u64 (b_addr b + 32)).
  rewrite (u64_small (b_addr b + 32)) by lia. change HEAD_BYTES with 32.
  destruct (Z.ltb_spec (b_sz b) (n + EL_BLOCK_OVERHEAD)) as [Hs | Hs].
  - rewrite el_split_block_small by (simpl; change EL_BLOCK_OVERHEAD with 40 in *; lia).
    eexists bs1, b, bs2, x1, x2, _, _, _. repeat (split; [done |]).
    replace (alloc_blocks b n) with [mkBlk (b_addr b) (b_sz b) false]
      by (unfold alloc_blocks; apply Z.ltb_lt in Hs as ->; done).
    exact (malloc_take_whole h bs1 b bs2 al ul al1 H Hf L1 Hfresh).
  - pose proof (malloc_take_split h bs1 b bs2 al ul al1 n H Hf Hn Hs Pal L1 Hfresh) as HR.
    cbv zeta in HR.
    rewrite (el_split_block_large _ _ (b_sz b)) in HR |- *;
      [| done | lia | done | done | change EL_BLOCK_OVERHEAD with 40; lia
       | done | lia | done | done | change EL_BLOCK_OVERHEAD with 40; lia].
    cbv zeta in HR |- *. change EL_BLOCK_OVERHEAD with 40 in *. cbn [fst] in HR.
    replace (b_addr b + 40 + n =? NULL) with false by (symmetry; apply Z.eqb_neq; unfold NULL; lia).
    eexists bs1, b, bs2, x1, x2, _, _, _. repeat (split; [done |]).
    unfold alloc_blocks. change EL_BLOCK_OVERHEAD with 40.
    apply Z.ltb_ge in Hs as ->. exact HR.
Qed.

(** ** Coalescing *)

Lemma block_above_lim h bs al ul b :
  heap_rep h bs al ul -> b ∈ bs ->
  el_block_above h (b_addr b) = if heap_end h <=? b_lim b then NULL else b_lim b.
Proof.
  intros H Hb. destruct (rep_block_bounds _ _ _ _ _ H Hb) as (B1 & B2 & B3).
  destruct (rep_block _ _ _ _ _ H Hb) as (K1 & _ & _). unfold el_block_above. rewrite K1.
  unfold b_lim in *. change EL_BLOCK_OVERHEAD with 40 in *.
  rewrite (u64_small (b_sz b + 40)), u64_small by lia.
  by replace (b_addr b + (b_sz b + 40)) with (b_addr b + 40 + b_sz b) by lia.
Qed.

(** The block above is the next one of the tiling, or none. *)
Lemma block_above_next h bs1 b bs2 al ul :
  heap_rep h (bs1 ++ b :: bs2) al ul ->
  el_block_above h (b_addr b) = match bs2 with [] => NULL | c :: _ => b_addr c end.
Proof.
  intros H. rewrite (block_above_lim _ _ _ _ b H) by set_solver +.
  pose proof (rep_tiles _ _ _ _ H) as Ht. apply tiles_app in Ht as (m & _ & (_ & _ & Ht)).
  destruct bs2 as [|c bs2]; simpl in Ht.
  - rewrite Ht. zcases; [done | lia].
  - destruct Ht as (Hc & Hs & Ht%tiles_le). rewrite <- Hc.
    pose proof (b_lim_gt c Hs). zcases; [lia | done].
Qed.

(** The block below is the previous one of the tiling, found through its
    footer, or none. *)
Lemma block_below_prev h bs1 b bs2 al ul :
  heap_rep h (bs1 ++ b :: bs2) al ul ->
  el_block_below h (b_addr b) = match last bs1 with None => NULL | Some c => b_addr c end.
Proof.
  intros H. unfold el_block_below.
  pose proof (rep_tiles _ _ _ _ H) as Ht. apply tiles_app in Ht as (m & Ht & (Hm & _ & _)).
  destruct (rep_bounds _ _ _ _ H) as (G1 & G2 & _).
  destruct bs1 as [|c bs1 _] using rev_ind; simpl in Ht.
  - rewrite Hm, Ht. zcases; [done | lia].
  - rewrite last_snoc. apply tiles_app in Ht as (m' & Ht & (Hc & Hs & <-)).
    assert (c ∈ (bs1 ++ [c]) ++ b :: bs2) as Hin by set_solver +.
    destruct (rep_block _ _ _ _ _ H Hin) as (K1 & K2 & K3).
    destruct (rep_block_bounds _ _ _ _ _ H Hin) as (B1 & _ & B3).
    pose proof (b_lim_gt c Hs). destruct (Z.leb_spec (b_addr b) (heap_start h)); [lia |].
    unfold el_get_header. rewrite Hm. unfold b_lim in *. change EL_BLOCK_OVERHEAD with 40 in *.
    change HEAD_BYTES with 32 in *. change FOOT_BYTES with 8.
    rewrite (u64_small (b_addr c + 40 + b_sz c - 8)) by lia.
    replace (b_addr c + 40 + b_sz c - 8) with (b_addr c + 32 + b_sz c) by lia.
    rewrite K3, (u64_small (32 + _)), u64_small by lia. lia.
Qed.

Lemma el_merge_both_free h bs1 lo hi bs2 al ul :
  heap_rep h (bs1 ++ [lo; hi] ++ bs2) al ul -> b_free lo = true -> b_free hi = true ->
  exists al', heap_rep (el_merge_block_with_above h (b_addr lo))
    (bs1 ++ [mkBlk (b_addr lo) (b_sz lo + EL_BLOCK_OVERHEAD + b_sz hi) true] ++ bs2) al' ul /\
    same_slab h (el_merge_block_with_above h (b_addr lo)).
Proof.
  intros H Hfl Hfh. set (bs := bs1 ++ [lo; hi] ++ bs2) in *.
  assert (lo ∈ bs) as Hlo by set_solver +. assert (hi ∈ bs) as Hhi by set_solver +.
  destruct (rep_block_bounds _ _ _ _ _ H Hlo) as (B1 & B2 & B3).
  destruct (rep_block_bounds _ _ _ _ _ H Hhi) as (C1 & C2 & C3).
  destruct (rep_block _ _ _ _ _ H Hlo) as (K1 & K2 & K3). rewrite Hfl in K2.
  destruct (rep_block _ _ _ _ _ H Hhi) as (J1 & J2 & J3). rewrite Hfh in J2.
  pose proof (rep_tiles _ _ _ _ H) as Ht. apply tiles_app in Ht as (m & _ & (Hm & _ & (Hadj & _ & _))).
  pose proof (rep_sizes _ _ _ _ H) as Hsz. destruct (rep_total _ _ _ _ H) as [_ Htot].
  pose proof Hsz as Hsz'. unfold bs in Hsz'. rewrite !Forall_app in Hsz'. destruct Hsz' as (Z1 & _ & Z2).
  assert (b_lim lo = b_addr lo + 40 + b_sz lo /\ b_lim hi = b_addr hi + 40 + b_sz hi) as [El Eh] by done.
  unfold el_merge_block_with_above.
  rewrite (block_above_next h bs1 lo (hi :: bs2) al ul) by done. rewrite K2, J2.
  replace (b_addr lo =? NULL) with false by (symmetry; apply Z.eqb_neq; unfold NULL; lia).
  replace (b_addr hi =? NULL) with false by (symmetry; apply Z.eqb_neq; unfold NULL; lia).
  cbn [negb]. rewrite Z.eqb_refl. cbn [negb].
  assert (frees bs ≡ₚ lo :: hi :: (frees bs1 ++ frees bs2)) as Pf.
  { unfold bs. rewrite !frees_app. simpl. rewrite Hfl, Hfh. simpl. by rewrite <- !Permutation_middle. }
  assert (useds bs = useds bs1 ++ useds bs2) as Pu.
  { unfold bs. rewrite !useds_app. simpl. by rewrite Hfl, Hfh. }
  rewrite (bytes_split bs), Pf in Htot. simpl in Htot. change EL_BLOCK_OVERHEAD with 40 in *.
  pose proof (bytes_nonneg _ (useds_sizes _ Hsz)).
  assert (Forall (fun b => 0 <= b_sz b) (frees bs1 ++ frees bs2)) as Zf by (apply Forall_app; eauto with town).
  destruct (el_remove_block_rep h AVAIL al (hi :: (frees bs1 ++ frees bs2)) ul (useds bs) lo)
    as (al1 & _ & Hfr1 & L1); [| done | done | by constructor | simpl; change EL_BLOCK_OVERHEAD with 40; lia |].
  { eapply lists_rep_perm; [exact Pf | done | by apply rep_lists]. }
  set (h1 := el_remove_block h AVAIL (b_addr lo)) in *.
  destruct (el_remove_block_rep h1 AVAIL al1 (frees bs1 ++ frees bs2) ul (useds bs) hi)
    as (al2 & Pal2 & Hfr2 & L2); [done | done | done | done | simpl; change EL_BLOCK_OVERHEAD with 40; lia |].
  set (h2 := el_remove_block h1 AVAIL (b_addr hi)) in *.
  assert (h_size h2 = h_size h /\ h_state h2 = h_state h /\ f_size h2 = f_size h) as (E1 & E2 & E3) by done.
  assert (same_slab h h2) as Ss by done. clearbody h2. clear L1.
  set (total := b_sz lo + 40 + b_sz hi). rewrite E1, K1, J1, (u64_small (b_sz lo + _ + _)) by lia. fold total.
  unfold el_get_footer; cbn [h_size set_size]. rewrite upd_eq. change HEAD_BYTES with 32 in *.
  rewrite (u64_small (32 + total)), (u64_small (b_addr lo + _)) by lia.
  set (h3 := set_foot (set_size h2 (b_addr lo) total) _ _).
  assert (lists_rep (el_add_block_front h3 AVAIL (b_addr lo)) AVAIL (b_addr lo :: al2)
    (mkBlk (b_addr lo) total true :: (frees bs1 ++ frees bs2)) ul (useds bs)) as L'.
  { apply (el_add_block_front_rep _ AVAIL al2 _ ul _ (mkBlk (b_addr lo) total true)); cbn [b_addr b_sz].
    - by apply (lists_rep_tags h2).
    - apply (fresh_path h); [exact (proj2 (proj2 (proj2 Ss))) | | |].
      + eapply rep_not_sentinel; [done | lia].
      + intros Hx. apply Hfr1, elem_of_app. left. apply path_in. rewrite Pal2. by right.
      + intros Hx. apply Hfr1, elem_of_app. right. by apply path_in.
    - simpl. by rewrite upd_eq.
    - lia.
    - done.
    - simpl. change EL_BLOCK_OVERHEAD with 40. lia. }
  rewrite Pu in L'. exists (b_addr lo :: al2). split.
  - eapply (rep_replace h _ bs1 [lo; hi] _ bs2 _ _ _ _ _ _ (b_addr lo) (b_lim hi));
      [done | | | | | | | exact L' | |].
    + intros a e (<- & _ & (_ & _ & He)). simpl in *. split; [done |]. split; [lia |].
      unfold b_lim; simpl. change EL_BLOCK_OVERHEAD with 40.
      replace (b_addr lo + 40 + total) with (b_lim hi) by lia. done.
    + by apply (tiles_sep _ bs1 lo (hi :: bs2) _ (rep_tiles _ _ _ _ H)).
    + intros c Hc. pose proof (rep_tiles _ _ _ _ H) as Ht. unfold bs in Ht.
      rewrite (app_assoc bs1 [lo] (hi :: bs2) : bs1 ++ [lo; hi] ++ bs2 = _) in Ht.
      by apply (tiles_sep _ _ _ _ _ Ht).
    + intros x Hx. simpl. rewrite E1, E2, E3, !upd_ne by lia. done.
    + eapply same_slab_trans; [exact Ss |]. done.
    + constructor; [| done]. unfold block_ok; simpl. change HEAD_BYTES with 32.
      rewrite upd_eq, E2, K2. replace (b_addr lo + (32 + total)) with (b_addr lo + 32 + total) by lia.
      by rewrite upd_eq.
    + simpl. by rewrite Permutation_middle.
    + done.
  - eapply same_slab_trans; [exact Ss |]. done.
Qed.

Lemma el_merge_rep h bs1 b bs2 al ul :
  heap_rep h (bs1 ++ b :: bs2) al ul ->
  exists al', heap_rep (el_merge_block_with_above h (b_addr b)) (bs1 ++ merge_up b bs2) al' ul /\
    same_slab h (el_merge_block_with_above h (b_addr b)).
Proof.
  intros H. destruct (b_free b && match bs2 with c :: _ => b_free c | [] => false end) eqn:E.
  - destruct bs2 as [|c bs2]; [by rewrite andb_false_r in E |].
    unfold merge_up. rewrite E. apply andb_true_iff in E as [E1 E2]. exact (el_merge_both_free _ _ _ _ _ _ _ H E1 E2).
  - assert (merge_up b bs2 = b :: bs2) as ->.
    { unfold merge_up. destruct bs2 as [|c bs2]; [done |]. by rewrite E. }
    assert (el_merge_block_with_above h (b_addr b) = h) as ->; [| by exists al].
    unfold el_merge_block_with_above. destruct (b_addr b =? NULL); [done |].
    destruct (rep_block _ _ _ _ b H) as (_ & K2 & _); [set_solver + |]. rewrite K2.
    destruct (b_free b); [| done]. simpl in E |- *. rewrite (block_above_next _ _ _ _ _ _ H).
    destruct bs2 as [|c bs2]; [done |]. destruct (b_addr c =? NULL); [done |].
    destruct (rep_block _ _ _ _ c H) as (_ & J2 & _); [set_solver + |]. by rewrite J2, E.
Qed.

(** The first three steps of [el_free]: the block moves from the used list
    to the front of the available one. *)
Lemma free_moves_block h bs1 b bs2 al ul :
  heap_rep h (bs1 ++ b :: bs2) al ul -> b_free b = false ->
  let h1 := el_remove_block h USED (b_addr b) in
  let h' := el_add_block_front (set_state h1 (b_addr b) EL_AVAILABLE) AVAIL (b_addr b) in
  exists ul', heap_rep h' (bs1 ++ mkBlk (b_addr b) (b_sz b) true :: bs2) (b_addr b :: al) ul' /\
    same_slab h h'.
Proof.
  intros H Hf h1 h'. assert (b ∈ bs1 ++ b :: bs2) as Hb by set_solver +.
  destruct (rep_block_bounds _ _ _ _ _ H Hb) as (B1 & B2 & B3). pose proof (b_lim_gt b B2) as Blim.
  destruct (rep_block _ _ _ _ _ H Hb) as (K1 & K2 & K3).
  pose proof (rep_sizes _ _ _ _ H) as Hsz. destruct (rep_total _ _ _ _ H) as [_ Htot].
  pose proof Hsz as Hsz'. rewrite Forall_app, Forall_cons in Hsz'. destruct Hsz' as (Z1 & _ & Z2).
  assert (frees (bs1 ++ b :: bs2) = frees bs1 ++ frees bs2) as Pf.
  { rewrite frees_app. simpl. by rewrite Hf. }
  assert (useds (bs1 ++ b :: bs2) ≡ₚ b :: (useds bs1 ++ useds bs2)) as Pu.
  { rewrite useds_app. simpl. rewrite Hf. simpl. by rewrite Permutation_middle. }
  rewrite bytes_split, Pf, Pu in Htot. simpl in Htot.
  pose proof (bytes_nonneg _ (frees_sizes _ Hsz)) as Nf. rewrite Pf in Nf.
  assert (0 <= bytes_of (useds bs1 ++ useds bs2)) by (apply bytes_nonneg, Forall_app; eauto with town).
  destruct (el_remove_block_rep h USED ul (useds bs1 ++ useds bs2) al (frees bs1 ++ frees bs2) b)
    as (ul1 & Pul & Hfresh & L1); [| done | done | | simpl; lia |].
  { apply (lists_rep_swap _ AVAIL). eapply lists_rep_perm; [| exact Pu | by eapply rep_lists]. by rewrite Pf. }
  { apply Forall_app; eauto with town. }
  assert (lists_rep h' AVAIL (b_addr b :: al)
    (mkBlk (b_addr b) (b_sz b) true :: (frees bs1 ++ frees bs2)) ul1 (useds bs1 ++ useds bs2)) as L'.
  { apply (el_add_block_front_rep _ AVAIL al _ ul1 _ (mkBlk (b_addr b) (b_sz b) true));
      cbn [b_addr b_sz]; [| | done | done | apply Forall_app; eauto with town | simpl; lia].
    - apply (lists_rep_swap _ USED). apply (lists_rep_tags h1); [done.. | | exact L1].
      intros x Hx. simpl. apply upd_ne. intros ->. by apply (rep_not_sentinel _ _ _ _ (b_addr b) H); [lia |].
    - rewrite elem_of_app in Hfresh |- *. simpl. tauto. }
  exists ul1. split; [| done].
  eapply (rep_replace h h' bs1 [b] [_] bs2 _ _ _ _ _ _ (b_addr b) (b_lim b)); [done | | | | | done | | exact L' | |].
  - intros a e (<- & _ & He). done.
  - by apply (tiles_sep _ _ _ _ _ (rep_tiles _ _ _ _ H)).
  - by apply (tiles_sep _ _ _ _ _ (rep_tiles _ _ _ _ H)).
  - intros x Hx. simpl. rewrite upd_ne; [done |]. lia.
  - constructor; [| done]. unfold block_ok; simpl. rewrite upd_eq. done.
  - simpl. by rewrite Permutation_middle.
  - done.
Qed.

Lemma merge_up_head b bs : exists c t, merge_up b bs = c :: t /\ b_addr c = b_addr b.
Proof. unfold merge_up. destruct bs as [|c t]; [eauto |]. destruct (_ && _); eauto. Qed.

(** [el_free] of the payload of a used block. *)
Lemma el_free_rep h bs1 b bs2 al ul :
  heap_rep h (bs1 ++ b :: bs2) al ul -> b_free b = false ->
  exists al' ul', heap_rep (el_free h (b_addr b + HEAD_BYTES)) (free_blocks bs1 b bs2) al' ul' /\
    same_slab h (el_free h (b_addr b + HEAD_BYTES)).
Proof.
  intros H Hf. destruct (rep_block_bounds _ _ _ _ b H) as (B1 & B2 & B3); [set_solver + |].
  destruct (rep_block _ _ _ _ b H) as (_ & K2 & _); [set_solver + |]. rewrite Hf in K2.
  unfold el_free. change HEAD_BYTES with 32.
  replace (b_addr b + 32 =? NULL) with false by (symmetry; apply Z.eqb_neq; unfold NULL; lia).
  replace (b_addr b + 32 - 32) with (b_addr b) by lia. pose proof (b_lim_gt b B2).
  rewrite (u64_small (b_addr b)), K2 by lia. cbn [negb orb Z.eqb EL_USED Pos.eqb].
  destruct (free_moves_block h bs1 b bs2 al ul H Hf) as (ul1 & H1 & S1).
  set (h1 := el_add_block_front _ _ _) in *.
  destruct (el_merge_rep _ _ _ _ _ _ H1) as (al2 & H2 & S2). cbn [b_addr] in H2, S2.
  set (h2 := el_merge_block_with_above h1 (b_addr b)) in *.
  destruct (merge_up_head (mkBlk (b_addr b) (b_sz b) true) bs2) as (c & t & Ec & Ea).
  cbn [b_addr] in Ea. unfold free_blocks. rewrite Ec in H2 |- *. rewrite <- Ea, (block_below_prev _ _ _ _ _ _ H2).
  destruct bs1 as [|d bs1 _] using rev_ind; cbn [last].
  - exists al2, ul1. split; [done |]. by eapply same_slab_trans.
  - rewrite last_snoc, removelast_last. rewrite <- app_assoc in H2.
    destruct (el_merge_rep _ _ _ _ _ _ H2) as (al3 & H3 & S3).
    exists al3, ul1. split; [done |]. by do 2 (eapply same_slab_trans; [eassumption |]).
Qed.

(** A pointer whose block is not in use is refused and nothing changes. *)
Lemma el_free_refused h p :
  p = NULL \/ h_state h (u64 (p - HEAD_BYTES)) <> EL_USED -> el_free h p = h.
Proof.
  intros Hp. unfold el_free. destruct (Z.eqb_spec p NULL) as [| Hne]; [done |].
  destruct Hp as [| Hs%Z.eqb_neq]; [done |]. by rewrite Hs.
Qed.
