(* ===== verification/HeapSpec.v ===== *)
(** * What the allocator promises

    The contract of [kernel/heap.c] and [libc/malloc.c] in terms of the
    live allocations: [heap_live h L] says that the pointer structure of
    [Heap] is well formed, fully coalesced, and that its used payloads are
    exactly the pairs (address, size) of [L].  Clients of the allocator
    see only [L].

    - Allocation adds one pair that is disjoint from the others, or
      returns [NULL] and nothing changes; [el_free] removes one pair.
    - Growth ([el_append_pages_to_heap], [kmalloc]) is proved against the
      laws of the slab source ([SlabLaws]), which the frame allocator
      discharges.
    - [heap_used_bytes] is the sum of the live sizes.
    - The ring-3 front end ([malloc], [free]) is the same allocator behind
      a lazy initialisation and a rounding of the size. *)

From stdpp Require Import base list gmap fin_maps.
From Stdlib Require Import ZArith Lia Bool.
From S2P Require Import Prelude Frames Heap.

(** ** Live allocations *)

Definition payload (b : blk) : Z * Z := (b_addr b + HEAD_BYTES, b_sz b).
Definition live (bs : list blk) : list (Z * Z) := map payload (useds bs).

(** The slab is not empty and no two neighbours are both available. *)
Definition packed (h : heap) (bs : list blk) : Prop :=
  heap_start h < heap_end h /\ coalesced bs.

Definition heap_live (h : heap) (L : list (Z * Z)) : Prop :=
  exists bs al ul, heap_rep h bs al ul /\ packed h bs /\ L ≡ₚ live bs.

(** The sum of the live sizes. *)
Definition live_bytes (L : list (Z * Z)) : Z := foldr (fun x n => x.2 + n) 0 L.

(** Two payloads do not overlap, tags included: there is room for a footer
    and a header between them. *)
Definition apart (x y : Z * Z) : Prop :=
  x.1 + x.2 + EL_BLOCK_OVERHEAD <= y.1 \/ y.1 + y.2 + EL_BLOCK_OVERHEAD <= x.1.

(** ** Ring 3: [libc/malloc.c] *)

(** [initialised] and the control block. *)
Record uheap := mkUHeap { initialised : bool; u_heap : heap }.

Definition round8 (size : Z) : Z := Z.land (u64 (size + 7)) (u64 (Z.lnot 7)).

Section Libc.
Context {S : Type} {src : SlabSource S}.

(** [el_init] of [libc/malloc.c] sets [initialised] as soon as the slab is
    mapped. *)
Definition u_init (s : S) (u : uheap) : S * uheap * Z :=
  let mapped := (slab_get s HEAP_INITIAL_PAGES).2 in
  let '(s, h, rc) := el_init s (u_heap u) (HEAP_INITIAL_PAGES * EL_PAGE_BYTES) in
  (s, mkUHeap (if mapped =? slab_fail then initialised u else true) h, rc).

Definition malloc (s : S) (u : uheap) (size : Z) : option (S * uheap * Z) :=
  let '(s, u, rc) := if initialised u then (s, u, 0) else u_init s u in
  if negb (rc =? 0) then Some (s, u, NULL)
  else
    let size := round8 size in
    match kmalloc s (u_heap u) size with
    | None => None
    | Some (s, h, p) => Some (s, mkUHeap true h, p)
    end.

Definition free (u : uheap) (ptr : Z) : uheap :=
  if ptr =? NULL then u else mkUHeap (initialised u) (el_free (u_heap u) ptr).
End Libc.

(** ** Coalescing is maintained *)

Lemma coalesced_app bs1 b bs2 :
  coalesced (bs1 ++ b :: bs2) <-> coalesced (bs1 ++ [b]) /\ coalesced (b :: bs2).
Proof.
  induction bs1 as [|x bs1 IH]; [simpl; tauto |].
  destruct bs1 as [|y bs1]; [simpl in *; tauto |].
  change (coalesced ((x :: y :: bs1) ++ b :: bs2)) with
    (b_free x && b_free y = false /\ coalesced ((y :: bs1) ++ b :: bs2)).
  change (coalesced ((x :: y :: bs1) ++ [b])) with
    (b_free x && b_free y = false /\ coalesced ((y :: bs1) ++ [b])).
  rewrite IH. tauto.
Qed.

(** Only the availability of the blocks matters. *)
Lemma coalesced_map bs bs' :
  map b_free bs = map b_free bs' -> coalesced bs -> coalesced bs'.
Proof.
  revert bs'. induction bs as [|b bs IH]; intros [|b' bs'] E; try done.
  simpl in E. injection E as Eb E. destruct bs as [|c bs], bs' as [|c' bs']; try done.
  intros [H1 H2]. injection E as Ec E. split; [congruence |].
  apply IH; [simpl; congruence | done].
Qed.

Lemma coalesced_used bs1 b bs2 :
  b_free b = false -> coalesced bs1 -> coalesced bs2 -> coalesced (bs1 ++ b :: bs2).
Proof.
  intros Hb H1 H2. apply coalesced_app. split.
  - destruct bs1 as [|c bs1 _] using rev_ind; [done |]. rewrite <- app_assoc.
    apply coalesced_app. split; [done |]. simpl. by rewrite Hb, andb_false_r.
  - destruct bs2 as [|c bs2]; [done |]. simpl. by rewrite Hb.
Qed.

Lemma coalesced_l bs1 bs2 : coalesced (bs1 ++ bs2) -> coalesced bs1.
Proof.
  destruct bs1 as [|b bs1 _] using rev_ind; [done |]. rewrite <- app_assoc.
  intros H. by apply coalesced_app in H as [H _].
Qed.

Lemma coalesced_r bs1 bs2 : coalesced (bs1 ++ bs2) -> coalesced bs2.
Proof.
  destruct bs2 as [|b bs2]; [done |]. intros H. by apply coalesced_app in H as [_ H].
Qed.

Lemma coalesced_alloc bs1 b bs2 n :
  b_free b = true -> coalesced (bs1 ++ [b] ++ bs2) -> coalesced (bs1 ++ alloc_blocks b n ++ bs2).
Proof.
  intros Hb H. pose proof (coalesced_l _ _ H) as H1.
  apply coalesced_r in H. unfold alloc_blocks. destruct (_ <? _).
  - apply coalesced_used; [done | done |]. exact (coalesced_r [b] bs2 H).
  - apply coalesced_used; [done | done |].
    apply (coalesced_map ([b] ++ bs2)); [| done]. simpl. by rewrite Hb.
Qed.

Lemma coalesced_free bs1 b bs2 :
  coalesced (bs1 ++ b :: bs2) -> coalesced (free_blocks bs1 b bs2).
Proof.
  intros H. pose proof (coalesced_l _ _ H) as H1. apply coalesced_r, (coalesced_r [b] bs2) in H.
  unfold free_blocks. set (u := merge_up _ bs2).
  assert (exists f t, u = f :: t /\ b_free f = true /\ coalesced u) as (f & t & -> & Hf & Hu).
  { unfold u, merge_up. destruct bs2 as [|c bs2]; [exists (mkBlk (b_addr b) (b_sz b) true), []; done |]. simpl.
    destruct (b_free c) eqn:Ec; eexists _, _; (split; [reflexivity |]); (split; [done |]).
    - apply (coalesced_map (c :: bs2)); [simpl; by rewrite Ec | done].
    - split; [by simpl; rewrite Ec | exact H]. }
  destruct bs1 as [|c bs1 _] using rev_ind; [done |].
  rewrite last_snoc, removelast_last. unfold merge_up. destruct (b_free c) eqn:Ec; rewrite Hf; simpl.
  - pose proof (coalesced_l _ _ H1) as H0. apply coalesced_app. split.
    + apply (coalesced_map (bs1 ++ [c])); [| done]. rewrite !map_app. simpl. by rewrite Ec.
    + apply (coalesced_map (f :: t)); [simpl; by rewrite Hf | done].
  - apply coalesced_app. split; [done |]. split; [by rewrite Ec | exact Hu].
Qed.

(** ** The live set of the block list *)

Lemma useds_alloc bs1 b bs2 n :
  b_free b = true -> 0 <= n <= b_sz b -> exists sz, n <= sz /\ sz <= b_sz b /\
  live (bs1 ++ alloc_blocks b n ++ bs2) ≡ₚ (b_addr b + HEAD_BYTES, sz) :: live (bs1 ++ [b] ++ bs2).
Proof.
  intros Hb Hn. unfold live, alloc_blocks. exists (if b_sz b <? n + EL_BLOCK_OVERHEAD then b_sz b else n).
  destruct (_ <? _); (split; [lia |]); (split; [lia |]);
    rewrite !useds_app; simpl; rewrite Hb; simpl;
    rewrite !map_app; simpl; by rewrite <- Permutation_middle.
Qed.

Lemma useds_merge_up b bs : b_free b = true -> useds (merge_up b bs) = useds bs.
Proof.
  intros Hb. unfold merge_up. destruct bs as [|c bs]; simpl; rewrite Hb; simpl; [done |].
  destruct (b_free c) eqn:Ec; simpl; rewrite ?Hb, ?Ec; done.
Qed.

Lemma useds_free bs1 b bs2 : b_free b = false -> useds (free_blocks bs1 b bs2) = useds bs1 ++ useds bs2.
Proof.
  intros Hb. unfold free_blocks. destruct bs1 as [|c bs1 _] using rev_ind; [by cbn [last app]; rewrite useds_merge_up |].
  rewrite last_snoc, removelast_last, !useds_app, <- app_assoc. f_equal.
  unfold merge_up at 1. destruct (merge_up _ bs2) as [|d t] eqn:E.
  { by destruct (merge_up_head (mkBlk (b_addr b) (b_sz b) true) bs2) as (? & ? & ? & _); congruence. }
  assert (b_free d = true) as Hd.
  { unfold merge_up in E. destruct bs2 as [|x bs2]; [by simplify_eq |].
    simpl in E. destruct (b_free x); by simplify_eq. }
  assert (useds bs2 = useds (d :: t)) as -> by (by rewrite <- E, useds_merge_up).
  rewrite Hd, andb_true_r. destruct (b_free c) eqn:Ec; simpl; by rewrite ?Hd, ?Ec.
Qed.

Lemma live_in bs x : x ∈ live bs -> exists b, b ∈ bs /\ b_free b = false /\ x = payload b.
Proof. unfold live. intros (b & -> & [Hb Hf]%useds_in)%list_elem_of_fmap. by exists b. Qed.

Lemma sorted_apart a bs e : tiles a bs e -> forall b c bs1 bs2, bs = bs1 ++ b :: bs2 ->
  c ∈ bs1 ++ bs2 -> apart (payload b) (payload c).
Proof.
  intros Ht b c bs1 bs2 -> Hc. destruct (tiles_sep _ _ _ _ _ Ht) as [Hl Hr].
  unfold apart, payload, b_lim in *. cbn [fst snd]. change EL_BLOCK_OVERHEAD with 40 in *.
  apply elem_of_app in Hc as [Hc | Hc]; [specialize (Hl c Hc) | specialize (Hr c Hc)]; lia.
Qed.

(** The payloads of a live heap are pairwise apart and inside the slab. *)
Lemma heap_live_apart h x L : heap_live h (x :: L) -> forall y, y ∈ L -> apart x y.
Proof.
  intros (bs & al & ul & H & _ & HL) y Hy. unfold live in HL.
  assert (x ∈ map payload (useds bs)) as Hx by (rewrite <- HL; apply list_elem_of_here).
  apply list_elem_of_fmap in Hx as (b & -> & (Hb & Hbf)%useds_in).
  apply list_elem_of_split in Hb as (bs1 & bs2 & ->).
  assert (L ≡ₚ map payload (useds (bs1 ++ bs2))) as HL'.
  { apply (Permutation_cons_inv (a := payload b)). rewrite HL, !useds_app. simpl. rewrite Hbf. simpl.
    rewrite !map_app. simpl. by rewrite <- Permutation_middle. }
  rewrite HL' in Hy. apply list_elem_of_fmap in Hy as (c & -> & (Hc & _)%useds_in).
  by apply (sorted_apart _ _ _ (rep_tiles _ _ _ _ H) b c bs1 bs2).
Qed.

Lemma heap_live_inside h p sz L :
  heap_live h ((p, sz) :: L) ->
  heap_start h + HEAD_BYTES <= p /\ 0 <= sz /\ p + sz + FOOT_BYTES <= heap_end h.
Proof.
  intros (bs & al & ul & H & _ & HL).
  assert ((p, sz) ∈ live bs) as Hx by (rewrite <- HL; apply list_elem_of_here).
  apply live_in in Hx as (b & Hb & _ & E). destruct (rep_block_bounds _ _ _ _ _ H Hb) as (B1 & B2 & B3).
  injection E as -> ->. unfold b_lim in B3. change EL_BLOCK_OVERHEAD with 40 in B3.
  change HEAD_BYTES with 32. change FOOT_BYTES with 8. lia.
Qed.

Lemma heap_live_perm h L L' : L ≡ₚ L' -> heap_live h L -> heap_live h L'.
Proof. intros HP (bs & al & ul & H & Hc & HL). exists bs, al, ul. by rewrite <- HP. Qed.

#[export] Instance heap_live_proper h : Proper ((≡ₚ) ==> iff) (heap_live h).
Proof. intros L L' HP. split; apply heap_live_perm; by rewrite HP. Qed.

(** ** Allocation and free on the live set *)

Lemma packed_slab h h' bs :
  same_slab h h' -> heap_start h < heap_end h -> coalesced bs -> packed h' bs.
Proof. intros (E1 & E2 & _) Hne Hc. unfold packed. by rewrite E1, E2. Qed.

(** No available block has room for [n] bytes. *)
Definition no_room (h : heap) (n : Z) : Prop :=
  forall bs al ul, heap_rep h bs al ul -> Forall (fun b => b_sz b < n) (frees bs).

Lemma el_malloc_live h L n :
  heap_live h L -> 0 <= n -> exists h' p, el_malloc h n = Some (h', p) /\
  (p = NULL /\ h' = h /\ no_room h n \/
   p <> NULL /\ same_slab h h' /\ exists sz, n <= sz /\ heap_live h' ((p, sz) :: L)).
Proof.
  intros (bs & al & ul & H & Hc & HL) Hn.
  destruct (el_malloc_rep h bs al ul n H Hn) as
    [[Hno Em] | (bs1 & b & bs2 & x1 & x2 & h' & al' & ul' & -> & Hf & Hs & _ & _ & Em & Hsl & H')].
  - exists h, NULL. split; [done |]. left. split; [done |]. split; [done |].
    intros bs' al' ul' H'. destruct (el_malloc_rep h bs' al' ul' n H' Hn) as
      [[? _] | (bs1 & b & bs2 & x1 & x2 & h' & al'' & ul'' & -> & _ & _ & _ & _ & Em' & _)]; [done |].
    exfalso. rewrite Em in Em'. injection Em' as _ E.
    destruct (rep_block_bounds _ _ _ _ b H') as (B & _); [set_solver + |].
    change HEAD_BYTES with 32 in E. unfold NULL in E. lia.
  - exists h', (b_addr b + HEAD_BYTES). split; [done |]. right.
    destruct (rep_block_bounds _ _ _ _ b H) as (B & _); [set_solver + |].
    split; [change HEAD_BYTES with 32; unfold NULL; lia |]. split; [done |].
    destruct (useds_alloc bs1 b bs2 n Hf ltac:(lia)) as (sz & S1 & _ & S2).
    exists sz. split; [done |]. eexists _, al', ul'. split; [exact H' |].
    split; [| by rewrite S2, HL].
    destruct Hc. by eapply packed_slab, coalesced_alloc.
Qed.

Lemma heap_live_used h p sz L :
  heap_live h ((p, sz) :: L) -> exists bs1 b bs2 al ul,
    heap_rep h (bs1 ++ b :: bs2) al ul /\ packed h (bs1 ++ b :: bs2) /\
    b_free b = false /\ (p, sz) = payload b /\ L ≡ₚ live (bs1 ++ bs2).
Proof.
  intros (bs & al & ul & H & Hc & HL).
  assert ((p, sz) ∈ live bs) as Hx by (rewrite <- HL; apply list_elem_of_here).
  apply live_in in Hx as (b & Hb & Hf & E).
  apply list_elem_of_split in Hb as (bs1 & bs2 & ->).
  exists bs1, b, bs2, al, ul. do 4 (split; [done |]).
  apply (Permutation_cons_inv (a := payload b)). rewrite <- E, HL, E. unfold live.
  rewrite !useds_app, !map_app. simpl. rewrite Hf. simpl. by rewrite <- Permutation_middle.
Qed.

Lemma el_free_live h p sz L :
  heap_live h ((p, sz) :: L) -> heap_live (el_free h p) L /\ same_slab h (el_free h p).
Proof.
  intros (bs1 & b & bs2 & al & ul & H & Hc & Hf & E & HL)%heap_live_used. injection E as -> _.
  destruct (el_free_rep h bs1 b bs2 al ul H Hf) as (al' & ul' & H' & Hs). split; [| done].
  eexists _, al', ul'. split; [exact H' |]. split; [destruct Hc; by eapply packed_slab, coalesced_free |].
  unfold live. rewrite useds_free by done. by rewrite <- useds_app.
Qed.

(** ** Double free *)

Lemma merge_keeps_states h x : h_state (el_merge_block_with_above h x) = h_state h.
Proof. unfold el_merge_block_with_above. by repeat case_match. Qed.

(** The freed block's own header still says available, whatever was merged
    around it. *)
Lemma el_free_marks h p sz L :
  heap_live h ((p, sz) :: L) -> h_state (el_free h p) (u64 (p - HEAD_BYTES)) = EL_AVAILABLE.
Proof.
  intros (bs1 & b & bs2 & al & ul & H & _ & Hf & E & _)%heap_live_used. injection E as -> _.
  destruct (rep_block_bounds _ _ _ _ b H) as (B1 & B2 & B3); [set_solver + |].
  destruct (rep_block _ _ _ _ b H) as (_ & K2 & _); [set_solver + |]. rewrite Hf in K2.
  pose proof (b_lim_gt b B2). unfold el_free. change HEAD_BYTES with 32.
  replace (b_addr b + 32 =? NULL) with false by (symmetry; apply Z.eqb_neq; unfold NULL; lia).
  replace (b_addr b + 32 - 32) with (b_addr b) by lia.
  rewrite (u64_small (b_addr b)), K2 by lia. cbn [negb orb Z.eqb EL_USED Pos.eqb].
  rewrite !merge_keeps_states. simpl. by rewrite upd_eq.
Qed.

(** ** Accounting *)

Lemma live_bytes_perm L L' : L ≡ₚ L' -> live_bytes L = live_bytes L'.
Proof. induction 1; simpl; lia. Qed.

Lemma live_bytes_le bs : Forall (fun b => 0 <= b_sz b) bs -> 0 <= live_bytes (live bs) <= bytes_of bs.
Proof.
  induction 1 as [|b bs Hb _ IH]; [done |]. unfold live in *. simpl. change EL_BLOCK_OVERHEAD with 40.
  destruct (b_free b); simpl in *; lia.
Qed.

Lemma used_walk_rep h bs2 : forall bs1 al ul fuel acc,
  heap_rep h (bs1 ++ bs2) al ul -> (length bs2 <= fuel)%nat ->
  0 <= acc -> acc + bytes_of bs2 < 2 ^ 64 ->
  used_walk h fuel (match bs2 with [] => NULL | c :: _ => b_addr c end) acc =
  acc + live_bytes (live bs2).
Proof.
  induction bs2 as [|b bs2 IH]; intros bs1 al ul fuel acc H Hfuel Ha Hb.
  { destruct fuel; simpl; lia. }
  destruct fuel as [|fuel]; [simpl in Hfuel; lia |]. simpl used_walk.
  assert (b ∈ bs1 ++ b :: bs2) as Hin by set_solver +.
  destruct (rep_block_bounds _ _ _ _ _ H Hin) as (B1 & B2 & B3).
  destruct (rep_block _ _ _ _ _ H Hin) as (K1 & K2 & _).
  pose proof (rep_sizes _ _ _ _ H) as Hsz. rewrite Forall_app, Forall_cons in Hsz.
  destruct Hsz as (_ & _ & Hsz). pose proof (bytes_nonneg _ Hsz).
  simpl in Hb. change EL_BLOCK_OVERHEAD with 40 in Hb.
  replace (b_addr b =? NULL) with false by (symmetry; apply Z.eqb_neq; unfold NULL; lia).
  rewrite (block_above_next _ _ _ _ _ _ H), K1, K2.
  rewrite (app_assoc bs1 [b] bs2 : bs1 ++ b :: bs2 = _) in H. unfold live. simpl.
  destruct (b_free b); cbn [negb Z.eqb EL_AVAILABLE EL_USED Pos.eqb].
  - by rewrite (IH _ _ _ _ _ H) by (simpl in Hfuel; lia).
  - rewrite u64_small, (IH _ _ _ _ _ H) by (simpl in Hfuel; lia). simpl. unfold live. lia.
Qed.

Lemma heap_used_bytes_live h L : heap_live h L -> heap_used_bytes h = live_bytes L.
Proof.
  intros (bs & al & ul & H & [Hne _] & HL). unfold heap_used_bytes.
  pose proof (rep_tiles _ _ _ _ H) as Ht. destruct (rep_total _ _ _ _ H) as [Hb Htot].
  pose proof (bytes_of_length bs (rep_sizes _ _ _ _ H)) as Hlen. rewrite (live_bytes_perm _ _ HL).
  assert (length bs <= Z.to_nat (heap_bytes h / EL_BLOCK_OVERHEAD + 1))%nat as Hfuel.
  { change EL_BLOCK_OVERHEAD with 40. rewrite <- Hb. mlia. }
  pose proof (used_walk_rep h bs [] al ul _ 0 H Hfuel) as W. simpl in W.
  destruct bs as [|b bs].
  - simpl in Ht. lia.
  - destruct Ht as (<- & _). rewrite W; simpl in *; lia.
Qed.

(** ** Growth *)

(** Links may change at an address that is on neither list. *)
Lemma lists_rep_links h h' w xs fs ys gs x :
  (forall y, y <> x -> h_next h' y = h_next h y /\ h_prev h' y = h_prev h y) ->
  avail h' = avail h -> in_use h' = in_use h ->
  (forall y, y ∈ sentinels h -> h_state h' y = h_state h y) ->
  x ∉ path (get_list h w) xs ++ path (get_list h (other w)) ys ->
  lists_rep h w xs fs ys gs -> lists_rep h' w xs fs ys gs.
Proof.
  intros Hl Ha Hu Hs Hx (L1 & L2 & L3). rewrite not_elem_of_app in Hx. destruct Hx as [X1 X2].
  assert (forall w, get_list h' w = get_list h w) as Hg by (by intros []).
  assert (forall w, h_state h' (l_end (get_list h w)) = h_state h (l_end (get_list h w))) as Hst.
  { intros [|]; apply Hs; unfold sentinels; set_solver +. }
  unfold lists_rep. rewrite !Hg. split; [| split; [| done]].
  - eapply list_rep_frame; [| | apply Hst | exact L1]; intros y Hy; apply Hl; by intros ->.
  - eapply list_rep_frame; [| | apply Hst | exact L2]; intros y Hy; apply Hl; by intros ->.
Qed.

(** The tail of [el_append_pages_to_heap], once the new run is known to
    start at [heap_end]: the heap it installs. *)
Definition installed (h : heap) (nbytes : Z) : heap :=
  let b := heap_end h in
  let size := nbytes - EL_BLOCK_OVERHEAD in
  let h := set_size h b size in
  let h := set_foot h (b + HEAD_BYTES + size) size in
  let h := set_state h b EL_AVAILABLE in
  let h := set_prev h b NULL in
  let h := set_next h b NULL in
  let h := set_bounds h (heap_start h) (heap_end h + nbytes) (heap_bytes h + nbytes) in
  el_add_block_front h AVAIL b.

Lemma installed_rep h bs al ul nbytes :
  heap_rep h bs al ul -> EL_BLOCK_OVERHEAD <= nbytes -> heap_end h + nbytes < 2 ^ 64 ->
  Forall (fun s => s < heap_end h) (sentinels h) ->
  heap_rep (installed h nbytes)
    (bs ++ [mkBlk (heap_end h) (nbytes - EL_BLOCK_OVERHEAD) true]) (heap_end h :: al) ul.
Proof.
  intros H Hn Hlim Hse. pose proof (rep_lists _ _ _ _ H) as HL.
  pose proof (rep_sizes _ _ _ _ H) as Hsz. destruct (rep_total _ _ _ _ H) as [Htot _].
  destruct (rep_bounds _ _ _ _ H) as (G1 & G2 & G3). change EL_BLOCK_OVERHEAD with 40 in *.
  set (e := heap_end h) in *. set (nb := mkBlk e (nbytes - 40) true).
  assert (e ∉ sentinels h) as Hes. { intros Hx. rewrite Forall_forall in Hse. apply Hse in Hx. lia. }
  assert (forall x, x ∈ al \/ x ∈ ul -> x < e) as Hlt.
  { intros x Hx. destruct HL as ((_ & P1 & _) & (_ & P2 & _) & _). rewrite P1, P2 in Hx.
    assert (exists c, c ∈ bs /\ b_addr c = x) as (c & Hc & <-).
    { destruct Hx as [(c & -> & Hc)%list_elem_of_fmap | (c & -> & Hc)%list_elem_of_fmap]; exists c;
        (split; [| done]); [apply frees_in in Hc | apply useds_in in Hc]; tauto. }
    destruct (rep_block_bounds _ _ _ _ _ H Hc) as (_ & C2 & C3). pose proof (b_lim_gt c C2). lia. }
  assert (e ∉ path (avail h) al ++ path (in_use h) ul) as Hfresh.
  { apply (fresh_path h); [done | done | |]; intros Hx; [specialize (Hlt e (or_introl Hx)) |
      specialize (Hlt e (or_intror Hx))]; lia. }
  unfold installed. fold e. change EL_BLOCK_OVERHEAD with 40. cbv zeta.
  set (h1 := set_bounds _ _ _ _).
  assert (lists_rep (el_add_block_front h1 AVAIL e) AVAIL (e :: al) (nb :: frees bs) ul (useds bs)) as L'.
  { apply (el_add_block_front_rep h1 AVAIL al (frees bs) ul (useds bs) nb).
    - apply (lists_rep_links h h1 _ _ _ _ _ e); [| done | done | | exact Hfresh | exact HL].
      + intros y Hy. simpl. by rewrite !upd_ne.
      + intros y Hy. simpl. rewrite upd_ne; [done |]. by intros ->.
    - exact Hfresh.
    - simpl. by rewrite upd_eq.
    - simpl. lia.
    - eauto with town.
    - rewrite bytes_split in Htot. pose proof (bytes_nonneg _ (useds_sizes _ Hsz)).
      simpl. change EL_BLOCK_OVERHEAD with 40. lia. }
  assert (same_outside e (e + nbytes) h (el_add_block_front h1 AVAIL e)) as Hout.
  { intros x Hx. simpl. change HEAD_BYTES with 32. rewrite !upd_ne by lia. done. }
  destruct L' as (L1 & L2 & _). split; [| | | | |].
  - apply tiles_app. exists e. split; [exact (rep_tiles _ _ _ _ H) |]. simpl. fold e.
    change EL_BLOCK_OVERHEAD with 40. unfold b_lim; simpl. change EL_BLOCK_OVERHEAD with 40. lia.
  - simpl. fold e. lia.
  - apply Forall_app. split.
    + apply Forall_forall. intros c Hc. destruct (rep_block_bounds _ _ _ _ _ H Hc) as (_ & C2 & C3).
      eapply block_ok_frame; [exact Hout | left; unfold e; lia | done | by eapply rep_block].
    + constructor; [| done]. unfold block_ok; simpl. by rewrite !upd_eq.
  - eapply list_rep_perm; [| exact L1]. rewrite frees_app. simpl. by rewrite Permutation_app_comm.
  - eapply list_rep_perm; [| exact L2]. rewrite useds_app. simpl. by rewrite app_nil_r.
  - destruct (rep_sent _ _ _ _ H) as [Hnd _]. split; [exact Hnd |]. simpl. fold e.
    destruct (rep_sent _ _ _ _ H) as [_ Hs]. rewrite Forall_forall in Hs, Hse |- *.
    intros s Hin. destruct (Hs s Hin); [by left |]. specialize (Hse s Hin). unfold e in *. lia.
Qed.

Lemma merge_up_live c b : b_free b = true -> useds (merge_up c [b]) = useds [c].
Proof. intros Hb. unfold merge_up. rewrite Hb, andb_true_r. destruct (b_free c) eqn:E; simpl; by rewrite ?E, ?Hb. Qed.

(** After growth by [nbytes] nothing live changed and one available block
    holds at least the new bytes. *)
Lemma grow_live h L nbytes :
  heap_live h L -> EL_BLOCK_OVERHEAD <= nbytes -> heap_end h + nbytes < 2 ^ 64 ->
  Forall (fun s => s < heap_start h) (sentinels h) ->
  let h1 := installed h nbytes in
  let h' := el_merge_block_with_above h1 (el_block_below h1 (heap_end h)) in
  heap_live h' L /\ heap_end h' = heap_end h + nbytes /\ heap_start h' = heap_start h /\
  sentinels h' = sentinels h /\ ~ no_room h' (nbytes - EL_BLOCK_OVERHEAD).
Proof.
  intros (bs & al & ul & H & [Hne Hc] & HL) Hn Hlim Hse h1 h'.
  assert (Forall (fun s => s < heap_end h) (sentinels h)) as Hse'.
  { eapply Forall_impl; [exact Hse |]. simpl. lia. }
  pose proof (installed_rep h bs al ul nbytes H Hn Hlim Hse') as H1. fold h1 in H1.
  set (nb := mkBlk _ _ true) in H1.
  pose proof (block_below_prev h1 bs nb [] _ _ H1) as Hb. cbn [b_addr nb] in Hb.
  destruct bs as [|c bs _] using rev_ind.
  { pose proof (rep_tiles _ _ _ _ H) as Ht. simpl in Ht. lia. }
  rewrite last_snoc in Hb. subst h'. rewrite Hb. rewrite <- app_assoc in H1.
  destruct (el_merge_rep h1 bs c [nb] _ _ H1) as (al' & H' & (E1 & E2 & E3 & E4)).
  split; [| split; [done | split; [done | split; [done |]]]].
  - exists (bs ++ merge_up c [nb]), al', ul. split; [done |]. split.
    + split; [rewrite E1, E2; change (heap_start h < heap_end h + nbytes);
        change EL_BLOCK_OVERHEAD with 40 in Hn; lia |]. unfold merge_up. cbn [b_free nb]. rewrite andb_true_r.
      destruct (b_free c) eqn:Ec.
      * apply (coalesced_map (bs ++ [c])); [| done]. rewrite !map_app. simpl. by rewrite Ec.
      * apply coalesced_app. split; [done |]. simpl. by rewrite Ec.
    + rewrite HL. unfold live. by rewrite !useds_app, merge_up_live.
  - intros Hno. specialize (Hno _ _ _ H'). rewrite frees_app, Forall_app in Hno. destruct Hno as [_ Hno].
    destruct (rep_block_bounds _ _ _ _ c H) as (_ & C2 & _); [set_solver + |].
    unfold merge_up in Hno. cbn [b_free nb] in Hno. rewrite andb_true_r in Hno.
    destruct (b_free c) eqn:Ec; simpl in Hno; rewrite ?Ec in Hno; apply Forall_cons in Hno as [Hx _];
      simpl in Hx; change EL_BLOCK_OVERHEAD with 40 in *; lia.
Qed.

(** What the allocator relies on from its source of slabs. *)
Class SlabLaws (S : Type) {src : SlabSource S} := {
  slab_ok : S -> Prop;
  slab_same : S -> S -> Prop;
  slab_floor : Z;
  slab_get_ok : forall s n s' p, slab_ok s -> 0 < n < 2 ^ 31 -> slab_get s n = (s', p) ->
    slab_ok s' /\ (p = slab_fail -> slab_same s s') /\
    (p <> slab_fail -> 0 < p /\ slab_floor <= p /\ p + n * EL_PAGE_BYTES < 2 ^ 64);
  slab_release_ok : forall s n s' p, slab_ok s -> 0 < n < 2 ^ 31 -> slab_get s n = (s', p) ->
    p <> slab_fail -> slab_ok (slab_release s' p n) /\ slab_same s (slab_release s' p n)
}.

Lemma grow_pages_range size : HEAP_GROW_PAGES <= grow_pages size < 2 ^ 31.
Proof. unfold grow_pages, i32, HEAP_GROW_PAGES. zcases; mlia. Qed.

(** The request is large enough for the allocation it is made for. *)
Lemma grow_pages_enough size :
  0 <= size <= 2 ^ 42 -> size <= grow_pages size * EL_PAGE_BYTES - EL_BLOCK_OVERHEAD.
Proof.
  intros Hs. unfold grow_pages, HEAP_GROW_PAGES, EL_PAGE_BYTES, FRAME_SIZE. cbv zeta.
  change EL_BLOCK_OVERHEAD with 40. rewrite (u64_small (size + 40)), u64_small by lia.
  rewrite i32_small by mlia. zcases; mlia.
Qed.

Section Growth.
Context {S : Type} {src : SlabSource S} {laws : SlabLaws S}.

Lemma el_append_live s h L npages :
  heap_live h L -> slab_ok s -> HEAP_GROW_PAGES <= npages < 2 ^ 31 ->
  Forall (fun a => a < heap_start h) (sentinels h) ->
  exists s' h' rc, el_append_pages_to_heap s h npages = (s', h', rc) /\ slab_ok s' /\
    heap_live h' L /\ heap_start h' = heap_start h /\ sentinels h' = sentinels h /\
    (rc <> 0 /\ h' = h /\ slab_same s s' \/
     rc = 0 /\ heap_end h' = heap_end h + npages * EL_PAGE_BYTES /\
       ~ no_room h' (npages * EL_PAGE_BYTES - EL_BLOCK_OVERHEAD)).
Proof.
  intros H Hs Hn Hse. unfold el_append_pages_to_heap.
  destruct (slab_get s npages) as [s' p] eqn:E. unfold HEAP_GROW_PAGES in Hn.
  destruct (slab_get_ok s npages s' p Hs ltac:(lia) E) as (Hs' & Hfail & Hp).
  destruct (Z.eqb_spec p slab_fail) as [-> | Hne].
  { exists s', h, 1. do 5 (split; [done |]). left. split; [lia |]. split; [done |]. by apply Hfail. }
  destruct (Z.eqb_spec p (heap_end h)) as [-> | Hadj]; cbn [negb].
  - destruct (Hp Hne) as (Hp1 & _ & Hp2). set (nb := npages * EL_PAGE_BYTES) in *.
    assert (EL_BLOCK_OVERHEAD <= nb < 2 ^ 44) as Hnb.
    { unfold nb, EL_PAGE_BYTES, FRAME_SIZE. change EL_BLOCK_OVERHEAD with 40. lia. }
    pose proof (grow_live h L nb H ltac:(lia) Hp2 Hse) as (K1 & K2 & K3 & K4 & K5).
    assert (0 <= heap_bytes h < 2 ^ 64 /\ heap_bytes h + nb < 2 ^ 64) as [Hhb1 Hhb2].
    { destruct H as (bs & al & ul & HR & [? _] & _). destruct (rep_bounds _ _ _ _ HR). lia. }
    change EL_BLOCK_OVERHEAD with 40 in *. change HEAD_BYTES with 32.
    rewrite (u64_small nb), (u64_small (nb - 40)), (u64_small (32 + _)), (u64_small (heap_end h + _)) by lia.
    replace (heap_end h + (32 + (nb - 40))) with (heap_end h + 32 + (nb - 40)) by lia.
    set (hx := set_next _ (heap_end h) NULL).
    change (heap_end hx) with (heap_end h). change (heap_bytes hx) with (heap_bytes h).
    rewrite (u64_small (heap_end h + nb)), (u64_small (heap_bytes h + nb)) by lia.
    assert (el_add_block_front (set_bounds hx (heap_start hx) (heap_end h + nb) (heap_bytes h + nb))
      AVAIL (heap_end h) = installed h nb) as -> by reflexivity.
    clearbody nb hx. exists s', (el_merge_block_with_above (installed h nb)
      (el_block_below (installed h nb) (heap_end h))), 0.
    split; [reflexivity |]. split; [exact Hs' |]. split; [exact K1 |]. split; [exact K3 |].
    split; [exact K4 |]. right. split; [reflexivity |]. split; [exact K2 | exact K5].
  - destruct (slab_release_ok s npages s' p Hs ltac:(lia) E Hne) as [R1 R2].
    eexists _, h, 1. split; [reflexivity |]. do 4 (split; [done |]). left. done.
Qed.

Lemma kmalloc_live s h L size :
  heap_live h L -> slab_ok s -> 0 <= size < 2 ^ 64 ->
  Forall (fun a => a < heap_start h) (sentinels h) ->
  exists s' h' p, kmalloc s h size = Some (s', h', p) /\ slab_ok s' /\
    heap_start h' = heap_start h /\ sentinels h' = sentinels h /\
    (p <> NULL /\ (exists sz, size <= sz /\ heap_live h' ((p, sz) :: L)) \/
     p = NULL /\ heap_live h' L /\ no_room h' size /\
       (size <= 2 ^ 42 -> h' = h /\ slab_same s s')).
Proof.
  intros H Hs Hsz Hse. unfold kmalloc.
  destruct (el_malloc_live h L size H ltac:(lia)) as (h1 & p & -> & [(-> & -> & Hno) | (Hp & Hsl & Hlv)]).
  - cbn [NULL Z.eqb]. pose proof (grow_pages_range size) as Hg.
    destruct (el_append_live s h L (grow_pages size) H Hs Hg Hse)
      as (s2 & h2 & rc & -> & Hs2 & H2 & E1 & E2 & [(Hrc & -> & Hsame) | (-> & _ & Hroom)]).
    + apply Z.eqb_neq in Hrc as ->. exists s2, h, NULL. do 4 (split; [done |]). right. done.
    + rewrite Z.eqb_refl. destruct (el_malloc_live h2 L size H2 ltac:(lia))
        as (h3 & q & -> & [(-> & -> & Hno2) | (Hq & (S1 & _ & _ & S4) & Hlv)]).
      * exists s2, h2, NULL. do 4 (split; [done |]). right. do 3 (split; [done |]).
        intros Hle. exfalso. apply Hroom. intros bs al ul HR.
        eapply Forall_impl; [exact (Hno2 _ _ _ HR) |]. simpl. intros b Hb.
        pose proof (grow_pages_enough size ltac:(lia)). lia.
      * exists s2, h3, q. split; [done |]. split; [done |]. split; [congruence |]. split; [congruence |]. by left.
  - apply Z.eqb_neq in Hp as Hp'. rewrite Hp'. destruct Hsl as (S1 & _ & _ & S4).
    exists s, h1, p. do 4 (split; [done |]). by left.
Qed.
End Growth.

(** ** The frame allocator is a slab source *)

Lemma clear_bits_spec fs first n :
  frames_wf fs -> 0 <= first -> first + Z.of_nat n <= num_frames fs ->
  let fs' := for_range n 0 (fun k fs => free_frame fs (u64 (frame_addr first + k * EL_PAGE_BYTES))) fs in
  frames_wf fs' /\ same_pool fs fs' /\
  forall j, used fs' j = negb ((first <=? j) && (j <? first + Z.of_nat n)) && used fs j.
Proof.
  intros Hwf Hf Hn. pose proof Hwf as (_ & _ & Hnf & _). pose proof max_frames_small as Hmax.
  pose proof (for_range_ind (fun k s => frames_wf s /\ same_pool fs s /\
    forall j, used s j = negb ((first <=? j) && (j <? first + k)) && used fs j)
    (fun k s => free_frame s (u64 (frame_addr first + k * EL_PAGE_BYTES))) n 0 fs) as IH.
  apply IH; clear IH.
  - split; [done |]. split; [done |]. intros j. zcases; simpl; done || lia.
  - intros k s Hk (Hw & [Hs1 Hs2] & Hu).
    assert (u64 (frame_addr first + k * EL_PAGE_BYTES) = frame_addr (first + k)) as ->.
    { unfold frame_addr, EL_PAGE_BYTES, FRAME_SIZE, MEMORY_START. rewrite u64_small; lia. }
    rewrite free_frame_addr by (done || lia). split; [by apply clear_bit_wf |].
    split; [done |]. intros j. destruct Hw as (Hl & _).
    rewrite used_clear_bit by (done || lia). rewrite Hu. zcases; simpl; done || lia.
Qed.

#[export, program] Instance frame_slab_laws : SlabLaws frames := {
  slab_ok := frames_wf;
  slab_floor := MEMORY_START;
  slab_same fs fs' := same_pool fs fs' /\ forall j, used fs' j = used fs j
}.
Next Obligation.
  intros fs n fs' p Hwf Hn E. cbn [slab_get frame_slabs slab_fail] in *. rewrite u32_small in E by lia.
  pose proof Hwf as (_ & _ & Hnf & _). pose proof max_frames_small as Hmax.
  destruct (alloc_contiguous_cases fs n Hwf ltac:(lia))
    as [[E' _] | (s & fs2 & E' & _ & S1 & S2 & _ & _ & W & _ & _)]; rewrite E' in E; simplify_eq.
  - done.
  - pose proof (frame_addr_nonzero s S1). split; [done |]. split; [done |].
    intros _. unfold frame_addr, MEMORY_START, EL_PAGE_BYTES, FRAME_SIZE in *. lia.
Qed.
Next Obligation.
  intros fs n fs' p Hwf Hn E Hp. cbn [slab_get frame_slabs slab_fail slab_release] in *.
  rewrite u32_small in E by lia.
  destruct (alloc_contiguous_cases fs n Hwf ltac:(lia))
    as [[E' _] | (s & fs2 & E' & _ & S1 & S2 & Hrun & _ & W & [P1 P2] & Hu)]; rewrite E' in E; simplify_eq.
  destruct (clear_bits_spec fs' s (Z.to_nat n) W S1 ltac:(lia)) as (R1 & [Q1 Q2] & R3).
  split; [done |]. split; [split; congruence |].
  intros j. rewrite R3, Hu, Z2Nat.id by lia. specialize (Hrun j).
  zcases; simpl; try done; rewrite Hrun by lia; done.
Qed.

(** ** Initialisation *)

Section Init.
Context {S : Type} {src : SlabSource S} {laws : SlabLaws S}.

(** [el_init] with a mapped slab leaves one available block over the whole
    of it and nothing live. *)
Lemma el_init_live s s' h base npages :
  slab_ok s -> 0 < npages < 2 ^ 31 -> slab_get s npages = (s', base) -> base <> slab_fail ->
  NoDup (sentinels h) -> Forall (fun a => a < slab_floor) (sentinels h) ->
  exists h', el_init s h (npages * EL_PAGE_BYTES) = (s', h', 0) /\ heap_live h' [] /\
    heap_start h' = base /\ heap_end h' = base + npages * EL_PAGE_BYTES /\ sentinels h' = sentinels h.
Proof.
  intros Hs Hn E Hne Hnd Hse.
  destruct (slab_get_ok s npages s' base Hs Hn E) as (_ & _ & Hb). destruct (Hb Hne) as (B1 & B0 & B2).
  unfold el_init. unfold EL_PAGE_BYTES, FRAME_SIZE in *.
  rewrite Z.div_mul, u32_small, E by lia. apply Z.eqb_neq in Hne as ->.
  rewrite (u64_small (base + _)) by lia. set (nb := npages * 4096) in *.
  change EL_BLOCK_OVERHEAD with 40. cbv zeta. cbn [heap_bytes set_bounds].
  destruct (Z.ltb_spec nb 40); [unfold nb in *; lia |].
  eexists. split; [reflexivity |].
  assert (Forall (fun a => a < base) (sentinels h)) as Hse'.
  { eapply Forall_impl; [exact Hse |]. simpl. lia. }
  clear Hse. rename Hse' into Hse. unfold sentinels in Hnd, Hse. 
  destruct (avail h) as [ab ae al0 ay0] eqn:EA, (in_use h) as [ub ue ul0 uy0] eqn:EU.
  cbn [l_beg l_end] in Hnd, Hse.
  rewrite !Forall_cons in Hse. destruct Hse as (Z1 & Z2 & Z3 & Z4 & _).
  assert (ab <> ae /\ ab <> ub /\ ab <> ue /\ ae <> ub /\ ae <> ue /\ ub <> ue)
    as (N1 & N2 & N3 & N4 & N5 & N6) by (rewrite !NoDup_cons in Hnd; set_solver +Hnd).
  unfold el_get_footer. simpl. change HEAD_BYTES with 32. rewrite EA, EU. cbn [l_beg l_end].
  rewrite !(u64_small (nb - 40)), !upd_eq by (unfold nb; lia).
  rewrite (u64_small (32 + _)), (u64_small (base + (32 + (nb - 40)))), (u64_small (nb - 40 + 40)) by lia.
  split; [| by unfold sentinels; rewrite EA, EU].
  assert (base <> ab /\ base <> ae /\ base <> ub /\ base <> ue) as (M1 & M2 & M3 & M4) by lia.
  assert (upd (upd (upd (upd (h_next h) ab ae) ae NULL) ub ue) ue NULL ab = ae) as Hfirst by (by upds).
  rewrite Hfirst, (upd_ne _ ab base base), upd_eq by done.
  exists [mkBlk base (nb - 40) true], [base], []. split; [| split; [split; [simpl; lia | done] | done]].
  split; simpl; change EL_BLOCK_OVERHEAD with 40; change HEAD_BYTES with 32.
  - unfold b_lim; simpl. change EL_BLOCK_OVERHEAD with 40. lia.
  - lia.
  - constructor; [| done]. unfold block_ok; simpl. rewrite !upd_eq. split; [done |]. split; [done |].
    replace (base + (32 + (nb - 40))) with (base + 32 + (nb - 40)) by lia. apply upd_eq.
  - unfold list_rep; simpl. change EL_BLOCK_OVERHEAD with 40. upds.
    repeat split; try done; rewrite ?u64_small; upds; done || lia.
  - unfold list_rep; simpl. upds. done.
  - split; [done |]. unfold sentinels; simpl. rewrite !Forall_cons. do 4 (split; [left; lia |]). constructor.
Qed.
End Init.

(** ** The ring-3 front end *)

Lemma round8_spec size : 0 <= size -> size + 7 < 2 ^ 64 -> size <= round8 size < size + 8 /\ round8 size mod 8 = 0.
Proof.
  intros H1 H2. unfold round8. rewrite (u64_small (size + 7)) by lia.
  rewrite (land_align_down 3) by lia. change (2 ^ 3) with 8. split; [mlia |]. apply Z.mod_mul. lia.
Qed.

Section Front.
Context {S : Type} {src : SlabSource S} {laws : SlabLaws S}.

(** The state between two calls of ring 3: not initialised and nothing
    live, or a live heap; the control block is below every slab. *)
Definition uheap_ok (u : uheap) (L : list (Z * Z)) : Prop :=
  let h := u_heap u in
  if initialised u then heap_live h L /\ Forall (fun a => a < heap_start h) (sentinels h)
  else L = [] /\ NoDup (sentinels h) /\ Forall (fun a => a < slab_floor) (sentinels h).

Lemma u_init_ok s u :
  slab_ok s -> initialised u = false -> uheap_ok u [] ->
  exists s' u' rc, u_init s u = (s', u', rc) /\ slab_ok s' /\ uheap_ok u' [] /\
    (rc = 0 /\ initialised u' = true \/ rc <> 0 /\ initialised u' = false).
Proof.
  intros Hs Hi Hu. unfold uheap_ok in Hu. rewrite Hi in Hu. destruct Hu as (_ & Hnd & Hse).
  unfold u_init. destruct (slab_get s HEAP_INITIAL_PAGES) as [s' p] eqn:E. cbn [snd].
  assert (0 < HEAP_INITIAL_PAGES < 2 ^ 31) as Hn by (unfold HEAP_INITIAL_PAGES; lia).
  destruct (slab_get_ok _ _ _ _ Hs Hn E) as (Hs' & _ & Hp). destruct (Z.eqb_spec p slab_fail) as [-> | Hne].
  - unfold el_init. change (u32 _) with HEAP_INITIAL_PAGES. rewrite E, Z.eqb_refl.
    eexists _, _, 1. split; [reflexivity |]. split; [done |]. unfold uheap_ok. simpl. rewrite Hi.
    split; [done |]. right. done.
  - destruct (el_init_live s s' (u_heap u) p HEAP_INITIAL_PAGES Hs Hn E Hne Hnd Hse)
      as (h' & -> & Hl & E1 & E2 & E3).
    eexists _, _, 0. split; [reflexivity |]. split; [done |]. split; [| by left].
    unfold uheap_ok; simpl. split; [done |]. rewrite E1, E3.
    eapply Forall_impl; [exact Hse |]. simpl. specialize (Hp Hne). lia.
Qed.

Lemma malloc_ok s u L size :
  slab_ok s -> uheap_ok u L -> 0 <= size < 2 ^ 64 ->
  exists s' u' p, malloc s u size = Some (s', u', p) /\ slab_ok s' /\
    (p <> NULL /\ (exists sz, round8 size <= sz /\ uheap_ok u' ((p, sz) :: L)) \/
     p = NULL /\ uheap_ok u' L).
Proof.
  intros Hs Hu Hsz. unfold malloc.
  assert (exists s1 u1 rc, (if initialised u then (s, u, 0) else u_init s u) = (s1, u1, rc) /\
    slab_ok s1 /\ uheap_ok u1 L /\ (rc = 0 /\ initialised u1 = true \/ rc <> 0)) as (s1 & u1 & rc & -> & Hs1 & Hu1 & Hrc).
  { destruct (initialised u) eqn:Hi; [exists s, u, 0; auto 6 |].
    assert (L = []) as -> by (unfold uheap_ok in Hu; rewrite Hi in Hu; tauto).
    destruct (u_init_ok s u Hs Hi Hu) as (s' & u' & rc & -> & H1 & H2 & H3).
    exists s', u', rc. tauto. }
  destruct Hrc as [[-> Hi] | Hrc].
  - cbn [Z.eqb negb]. unfold uheap_ok in Hu1. rewrite Hi in Hu1. destruct Hu1 as [Hl Hse].
    assert (0 <= round8 size < 2 ^ 64) as Hr.
    { unfold round8. pose proof (u64_range (size + 7)). rewrite (land_align_down 3) by lia.
      change (2 ^ 3) with 8. mlia. }
    destruct (kmalloc_live s1 (u_heap u1) L (round8 size) Hl Hs1 Hr Hse)
      as (s2 & h2 & p & -> & Hs2 & E1 & E2 & [(Hp & sz & Hle & Hlv) | (-> & Hlv & _)]).
    + eexists s2, _, p. split; [reflexivity |]. split; [done |]. left. split; [done |].
      exists sz. split; [done |]. unfold uheap_ok; simpl. by rewrite E1, E2.
    + eexists s2, _, NULL. split; [reflexivity |]. split; [done |]. right. split; [done |].
      unfold uheap_ok; simpl. by rewrite E1, E2.
  - apply Z.eqb_neq in Hrc as ->. eexists s1, u1, NULL. split; [reflexivity |]. split; [done |]. by right.
Qed.

Lemma free_ok u p sz L :
  initialised u = true -> uheap_ok u ((p, sz) :: L) -> uheap_ok (free u p) L.
Proof.
  unfold uheap_ok, free. intros Hi Hu. rewrite Hi in Hu. destruct Hu as [Hl Hse].
  destruct (heap_live_inside _ _ _ _ Hl) as (H1 & _ & _).
  destruct (el_free_live _ _ _ _ Hl) as (Hl' & E1 & E2 & E3 & E4).
  assert (0 < heap_start (u_heap u)) by (destruct Hl as (? & ? & ? & HR & _); by destruct (rep_bounds _ _ _ _ HR)).
  replace (p =? NULL) with false by (symmetry; apply Z.eqb_neq; change HEAD_BYTES with 32 in H1; unfold NULL; lia).
  simpl. rewrite Hi, E1, E4. done.
Qed.
End Front.

(** ** Runs of the kernel heap *)

(** The states the kernel reaches: [heap_init] over a well-formed frame
    pool, then any interleaving of [kmalloc], [kfree] of something live (or
    of [NULL], or of something already freed) and other users of the frame
    pool. The third component is what the callers hold. *)
Inductive heap_reach : frames -> heap -> list (Z * Z) -> Prop :=
| HR_init fs h fs' h' :
    frames_wf fs -> NoDup (sentinels h) -> Forall (fun a => a < MEMORY_START) (sentinels h) ->
    heap_init fs h = (fs', h', 0) -> heap_reach fs' h' []
| HR_kmalloc fs h L size fs' h' p sz :
    heap_reach fs h L -> 0 <= size < 2 ^ 64 -> kmalloc fs h size = Some (fs', h', p) -> p <> NULL ->
    sz = h_size h' (p - HEAD_BYTES) -> heap_reach fs' h' ((p, sz) :: L)
| HR_kmalloc_fail fs h L size fs' h' :
    heap_reach fs h L -> 0 <= size < 2 ^ 64 -> kmalloc fs h size = Some (fs', h', NULL) ->
    heap_reach fs' h' L
| HR_kfree fs h L1 p sz L2 :
    heap_reach fs h (L1 ++ (p, sz) :: L2) -> heap_reach fs (kfree h p) (L1 ++ L2)
| HR_kfree_bad fs h L p :
    heap_reach fs h L -> p = NULL \/ h_state h (u64 (p - HEAD_BYTES)) <> EL_USED ->
    heap_reach fs (kfree h p) L
| HR_frames fs h L fs' : heap_reach fs h L -> frames_wf fs' -> heap_reach fs' h L.

Lemma heap_live_size h p sz L : heap_live h ((p, sz) :: L) -> h_size h (p - HEAD_BYTES) = sz.
Proof.
  intros (bs1 & b & bs2 & al & ul & H & _ & _ & E & _)%heap_live_used. injection E as -> ->.
  destruct (rep_block _ _ _ _ b H) as (K & _); [set_solver + |].
  by replace (b_addr b + HEAD_BYTES - HEAD_BYTES) with (b_addr b) by lia.
Qed.

Lemma heap_init_live fs h fs' h' :
  frames_wf fs -> NoDup (sentinels h) -> Forall (fun a => a < MEMORY_START) (sentinels h) ->
  heap_init fs h = (fs', h', 0) ->
  frames_wf fs' /\ heap_live h' [] /\ Forall (fun a => a < heap_start h') (sentinels h') /\
  heap_bytes h' = HEAP_INITIAL_PAGES * EL_PAGE_BYTES.
Proof.
  intros Hwf Hnd Hse E. unfold heap_init in E.
  destruct (slab_get fs HEAP_INITIAL_PAGES) as [fs2 p] eqn:Eg.
  assert (0 < HEAP_INITIAL_PAGES < 2 ^ 31) as Hn by (unfold HEAP_INITIAL_PAGES; lia).
  destruct (@slab_get_ok frames _ frame_slab_laws _ _ _ _ Hwf Hn Eg) as (Hs' & _ & Hp).
  destruct (decide (p = slab_fail)) as [-> | Hne].
  { unfold el_init in E. change (u32 _) with HEAP_INITIAL_PAGES in E. by rewrite Eg, Z.eqb_refl in E. }
  destruct (el_init_live (laws := frame_slab_laws) fs fs2 h p HEAP_INITIAL_PAGES Hwf Hn Eg Hne Hnd Hse)
    as (h2 & E2 & Hl & E3 & E4 & E5). rewrite E2 in E. injection E as <- <-.
  split; [done |]. split; [done |]. rewrite E5, E3. split.
  - eapply Forall_impl; [exact Hse |]. cbn. specialize (Hp Hne). cbn [slab_floor frame_slab_laws] in Hp. lia.
  - destruct Hl as (bs & al & ul & HR & _). destruct (rep_bounds _ _ _ _ HR) as (_ & _ & G).
    rewrite E3, E4 in G. lia.
Qed.

Lemma heap_reach_live fs h L :
  heap_reach fs h L ->
  frames_wf fs /\ heap_live h L /\ Forall (fun a => a < heap_start h) (sentinels h).
Proof.
  induction 1 as [fs h fs' h' Hwf Hnd Hse E | fs h L size fs' h' p sz _ IH Hsz E Hp ->
    | fs h L size fs' h' _ IH Hsz E | fs h L1 p sz L2 _ IH | fs h L p _ IH Hp | fs h L fs' _ IH Hwf].
  - destruct (heap_init_live _ _ _ _ Hwf Hnd Hse E) as (? & ? & ? & _). done.
  - destruct IH as (Hwf & Hl & Hse).
    destruct (kmalloc_live (laws := frame_slab_laws) fs h L size Hl Hwf Hsz Hse)
      as (s2 & h2 & q & E' & Hs2 & E1 & E2 & [(Hq & sz & Hle & Hlv) | (-> & _)]);
      rewrite E' in E; [| by injection E]. injection E as <- <- ->.
    rewrite (heap_live_size _ _ _ _ Hlv), E1, E2. done.
  - destruct IH as (Hwf & Hl & Hse).
    destruct (kmalloc_live (laws := frame_slab_laws) fs h L size Hl Hwf Hsz Hse)
      as (s2 & h2 & q & E' & Hs2 & E1 & E2 & [(Hq & _) | (-> & Hlv & _)]);
      rewrite E' in E; [by injection E |]. injection E as <- <-. rewrite E1, E2. done.
  - destruct IH as (Hwf & Hl & Hse). rewrite <- Permutation_middle in Hl.
    destruct (el_free_live _ _ _ _ Hl) as (Hl' & E1 & E2 & E3 & E4).
    unfold kfree. rewrite E1, E4. done.
  - unfold kfree. by rewrite el_free_refused.
  - tauto.
Qed.

(** ** Properties *)

(** C5: the kernel heap is safe over any run. From [heap_init], whatever
    sequence of [kmalloc] and [kfree] the callers perform, the payloads
    they hold lie inside the slab and are pairwise disjoint with room for
    a footer and a header between them, the slab stays tiled by tagged
    blocks on exactly one of the two lists, and no two neighbouring blocks
    are both available. *)
Theorem kernel_heap_safe fs h L (Hr : heap_reach fs h L) :
  heap_live h L /\
  (forall x, x ∈ L -> heap_start h + HEAD_BYTES <= x.1 /\ 0 <= x.2 /\
                      x.1 + x.2 + FOOT_BYTES <= heap_end h) /\
  (forall L1 x L2 y, L = L1 ++ x :: L2 -> y ∈ L1 ++ L2 -> apart x y).
Proof.
  destruct (heap_reach_live _ _ _ Hr) as (_ & Hl & _). split; [done |]. split.
  - intros [p sz] Hx. apply list_elem_of_split in Hx as (L1 & L2 & ->).
    rewrite <- Permutation_middle in Hl. by apply heap_live_inside in Hl.
  - intros L1 x L2 y -> Hy. rewrite <- Permutation_middle in Hl.
    by apply (heap_live_apart _ _ _ Hl).
Qed.

(** C13: [el_malloc] terminates and refines allocation on the live set: it
    returns [NULL] exactly when no available block has room, leaving the
    heap as it was, and otherwise adds one payload of at least the
    requested size, apart from every live one, without moving the slab. *)
Theorem el_malloc_correct h L n (Hl : heap_live h L) (Hn : 0 <= n) :
  exists h' p, el_malloc h n = Some (h', p) /\
    (p = NULL <-> no_room h n) /\ (p = NULL -> h' = h) /\
    (p <> NULL -> same_slab h h' /\
       exists sz, n <= sz /\ heap_live h' ((p, sz) :: L) /\ forall y, y ∈ L -> apart (p, sz) y).
Proof.
  destruct (el_malloc_live h L n Hl Hn) as (h' & p & E & [(-> & -> & Hno) | (Hp & Hs & sz & Hle & Hl')]).
  - exists h, NULL. done.
  - exists h', p. split; [done |]. split; [| split; [done |]].
    + split; [done |]. intros Hno. exfalso. apply Hp.
      destruct Hl as (bs & al & ul & HR & _).
      destruct (el_malloc_rep h bs al ul n HR Hn) as
        [[_ Em] | (bs1 & b & bs2 & x1 & x2 & h2 & al' & ul' & -> & Hf & Hs2 & _)]; [congruence |].
      specialize (Hno _ _ _ HR). rewrite Forall_forall in Hno. exfalso.
      assert (b ∈ frees (bs1 ++ [b] ++ bs2)) as Hb by (apply frees_in; set_solver +Hf).
      specialize (Hno b Hb). simpl in Hno. lia.
    + intros _. split; [done |]. exists sz. split; [done |]. split; [done |]. by apply heap_live_apart with h'.
Qed.

(** C14: [kfree] of a live payload removes exactly that payload from the
    live set, coalescing included, and does not move the slab; freeing it
    a second time, [NULL], or anything whose header is not that of a used
    block changes nothing at all. *)
Theorem kfree_correct h p sz L (Hl : heap_live h ((p, sz) :: L)) :
  heap_live (kfree h p) L /\ same_slab h (kfree h p) /\
  kfree (kfree h p) p = kfree h p /\ kfree h NULL = h /\
  (forall q, h_state h (u64 (q - HEAD_BYTES)) <> EL_USED -> kfree h q = h).
Proof.
  destruct (el_free_live _ _ _ _ Hl) as [Hf Hs]. unfold kfree.
  split; [done |]. split; [done |]. split; [| split; [done |]].
  - apply el_free_refused. right. by rewrite (el_free_marks _ _ _ _ Hl).
  - intros q Hq. apply el_free_refused. by right.
Qed.

(** [kmalloc] on the kernel's frame pool terminates for every request.
    It either returns a payload of at least the requested size on top of
    what was live, growing the slab when it has to, or returns [NULL] with
    everything live kept; and a request of up to 4 TB that fails has left
    the heap as it was and given every frame it tried back to the pool. *)
Theorem kmalloc_correct fs h L size
    (Hl : heap_live h L) (Hwf : frames_wf fs) (Hsz : 0 <= size < 2 ^ 64)
    (Hse : Forall (fun a => a < heap_start h) (sentinels h)) :
  exists fs' h' p, kmalloc fs h size = Some (fs', h', p) /\ frames_wf fs' /\
    (p <> NULL /\ (exists sz, size <= sz /\ heap_live h' ((p, sz) :: L)) \/
     p = NULL /\ heap_live h' L /\ no_room h' size /\
       (size <= 2 ^ 42 -> h' = h /\ same_pool fs fs' /\ forall j, used fs' j = used fs j)).
Proof.
  destruct (kmalloc_live (laws := frame_slab_laws) fs h L size Hl Hwf Hsz Hse) as (fs' & h' & p & E & W & _ & _ & H).
  exists fs', h', p. done.
Qed.

(** The statistics are exact. [heap_used_bytes] never reports its
    error value on a well-formed heap: its walk ends within [max_blocks]
    and returns the sum of the live sizes; the two byte counters add up to
    [heap_total_bytes]. *)
Theorem heap_accounting h L (Hl : heap_live h L) :
  heap_used_bytes h = live_bytes L /\
  l_bytes (avail h) + l_bytes (in_use h) = heap_total_bytes h /\
  l_length (in_use h) = Z.of_nat (length L) /\
  l_bytes (in_use h) = live_bytes L + EL_BLOCK_OVERHEAD * Z.of_nat (length L).
Proof.
  split; [by apply heap_used_bytes_live |].
  destruct Hl as (bs & al & ul & HR & _ & HP). destruct (rep_total _ _ _ _ HR) as [Ht _].
  destruct (rep_avail _ _ _ _ HR) as (_ & _ & A1 & A2 & _).
  destruct (rep_used _ _ _ _ HR) as (_ & _ & U1 & U2 & _).
  rewrite A2, U1, U2. split; [unfold heap_total_bytes; rewrite <- Ht; by rewrite <- bytes_split |].
  rewrite (live_bytes_perm _ _ HP), HP. unfold live. rewrite length_map. split; [done |].
  change EL_BLOCK_OVERHEAD with 40. generalize (useds bs). clear.
  induction l as [|b l IH]; [done |]. cbn [map live_bytes bytes_of foldr length payload snd] in *.
  unfold live_bytes, bytes_of in IH. rewrite IH. change EL_BLOCK_OVERHEAD with 40. lia.
Qed.

(** The ring-3 [malloc] and [free] keep the same contract over any
    source of slabs that obeys the laws: lazy initialisation, growth and
    failure included, a request of [size] bytes (short of the wrap of the
    rounding) yields a payload of at least [size] bytes apart from the live
    ones, or [NULL] with everything live kept; and [free] undoes it. *)
Theorem malloc_correct {S} {src : SlabSource S} {laws : SlabLaws S} (s : S) u L size
    (Hs : slab_ok s) (Hu : uheap_ok u L) (Hsz : 0 <= size < 2 ^ 64 - 7) :
  exists s' u' p, malloc s u size = Some (s', u', p) /\ slab_ok s' /\
    (p <> NULL /\ (exists sz, size <= sz /\ uheap_ok u' ((p, sz) :: L) /\ uheap_ok (free u' p) L /\
                     forall y, y ∈ L -> apart (p, sz) y) \/
     p = NULL /\ uheap_ok u' L).
Proof.
  destruct (malloc_ok s u L size Hs Hu ltac:(lia)) as (s' & u' & p & E & Hs' & [(Hp & sz & Hle & Hok) | H]).
  - exists s', u', p. split; [done |]. split; [done |]. left. split; [done |]. exists sz.
    destruct (round8_spec size ltac:(lia) ltac:(lia)) as [Hr _]. split; [lia |]. split; [done |].
    assert (initialised u' = true) as Hi.
    { unfold uheap_ok in Hok. destruct (initialised u'); [done |]. by destruct Hok. }
    split; [by apply (free_ok u' p sz) |]. unfold uheap_ok in Hok. rewrite Hi in Hok.
    destruct Hok as [Hok _]. by apply (heap_live_apart _ _ _ Hok).
  - exists s', u', p. split; [done |]. split; [done |]. by right.
Qed.

Lemma round8_wraps size : 2 ^ 64 - 7 <= size < 2 ^ 64 -> round8 size = round8 0.
Proof.
  intros Hsz. unfold round8. assert (u64 (size + 7) = size + 7 - 2 ^ 64) as ->.
  { unfold u64. symmetry. apply (Z.mod_unique _ _ 1); lia. }
  rewrite !(land_align_down 3) by (try apply u64_range; lia).
  rewrite (u64_small (0 + 7)) by lia. change (2 ^ 3) with 8. mlia.
Qed.

(** C21: the rounding of [malloc] wraps. A request within 7 bytes of
    [SIZE_MAX] is served as a request for 0 bytes, so where a request for
    0 bytes succeeds the caller gets a pointer to far less than it asked
    for instead of [NULL]. *)
Theorem malloc_rounding_wraps {S} {src : SlabSource S} (s : S) u size
    (Hsz : 2 ^ 64 - 7 <= size < 2 ^ 64) : malloc s u size = malloc s u 0.
Proof.
  unfold malloc. by rewrite round8_wraps.
Qed.

(** ** Witnesses: a 40-frame pool and a heap over its first 16 frames *)

Definition demo_fs : frames :=
  mkFrames (replicate (Z.to_nat (MAX_FRAMES / 8)) 0) 40 (MEMORY_START + 40 * FRAME_SIZE).
Definition demo_ctl : heap :=
  mkHeap (fun _ => 0) (fun _ => 0) (fun _ => 0) (fun _ => 0) (fun _ => 0) 0 0 0
    (mkList 16 48 0 0) (mkList 80 112 0 0).
Definition demo_frames : frames := (heap_init demo_fs demo_ctl).1.1.
Definition demo_heap : heap := (heap_init demo_fs demo_ctl).1.2.
Definition demo_one : heap * Z := default (demo_heap, NULL) (el_malloc demo_heap 100).

Lemma demo_fs_wf : frames_wf demo_fs.
Proof. apply zero_bitmap_wf; unfold MEMORY_START, FRAME_SIZE, ONE_GB; [| lia]. by vm_compute. Qed.

Lemma demo_ctl_sentinels :
  NoDup (sentinels demo_ctl) /\ Forall (fun a => a < MEMORY_START) (sentinels demo_ctl).
Proof.
  split; [apply NoDup_ListNoDup; unfold sentinels; repeat constructor; simpl; lia |].
  unfold sentinels, MEMORY_START; simpl. rewrite !Forall_cons. do 4 (split; [lia |]). constructor.
Qed.

Lemma demo_init_eq : heap_init demo_fs demo_ctl = (demo_frames, demo_heap, 0).
Proof.
  unfold demo_frames, demo_heap. destruct (heap_init demo_fs demo_ctl) as [[fs h] rc] eqn:E.
  assert ((heap_init demo_fs demo_ctl).2 = 0) as Hrc by (by vm_compute). rewrite E in Hrc.
  simpl in *. by rewrite Hrc.
Qed.

Lemma demo_init_live :
  frames_wf demo_frames /\ heap_live demo_heap [] /\
  Forall (fun a => a < heap_start demo_heap) (sentinels demo_heap).
Proof.
  destruct demo_ctl_sentinels as [S1 S2].
  destruct (heap_init_live _ _ _ _ demo_fs_wf S1 S2 demo_init_eq) as (H1 & H2 & H3 & _). done.
Qed.

Lemma demo_one_live : exists sz, 100 <= sz /\ heap_live demo_one.1 [(MEMORY_START + 32, sz)].
Proof.
  destruct demo_init_live as (_ & Hl & _). unfold demo_one.
  destruct (el_malloc_live demo_heap [] 100 Hl ltac:(lia)) as (h' & p & E & Hc).
  assert ((default (demo_heap, NULL) (el_malloc demo_heap 100)).2 = MEMORY_START + 32) as Hp by (by vm_compute).
  rewrite E in Hp |- *. cbn [default from_option id fst snd] in Hp |- *. subst p.
  destruct Hc as [(Hn & _) | (_ & _ & sz & Hle & Hlv)]; [clear -Hn; vm_compute in Hn; discriminate Hn |].
  exists sz. exact (conj Hle Hlv).
Qed.

Lemma kernel_heap_safe_witness :
  exists L, heap_reach demo_frames demo_heap L /\ heap_live demo_heap L /\
  (forall x, x ∈ L -> heap_start demo_heap + HEAD_BYTES <= x.1 /\ 0 <= x.2 /\
                      x.1 + x.2 + FOOT_BYTES <= heap_end demo_heap) /\
  (forall L1 x L2 y, L = L1 ++ x :: L2 -> y ∈ L1 ++ L2 -> apart x y).
Proof.
  destruct demo_ctl_sentinels as [S1 S2].
  pose proof (HR_init _ _ _ _ demo_fs_wf S1 S2 demo_init_eq) as Hr.
  exists []. split; [exact Hr |]. exact (kernel_heap_safe demo_frames demo_heap [] Hr).
Defined.

Lemma el_malloc_correct_witness :
  demo_one.2 = MEMORY_START + 32 /\
  exists h' p, el_malloc demo_heap 100 = Some (h', p) /\
    (p = NULL <-> no_room demo_heap 100) /\ (p = NULL -> h' = demo_heap) /\
    (p <> NULL -> same_slab demo_heap h' /\
       exists sz, 100 <= sz /\ heap_live h' [(p, sz)] /\ forall y, y ∈ [] -> apart (p, sz) y).
Proof.
  destruct demo_init_live as (_ & Hl & _). split; [by vm_compute |].
  exact (el_malloc_correct demo_heap [] 100 Hl ltac:(lia)).
Defined.

Lemma kfree_correct_witness :
  heap_live (kfree demo_one.1 (MEMORY_START + 32)) [] /\
  kfree (kfree demo_one.1 (MEMORY_START + 32)) (MEMORY_START + 32) = kfree demo_one.1 (MEMORY_START + 32).
Proof.
  destruct demo_one_live as (sz & _ & Hl).
  destruct (kfree_correct demo_one.1 (MEMORY_START + 32) sz [] Hl) as (H1 & _ & H2 & _). exact (conj H1 H2).
Defined.

Lemma kmalloc_correct_witness :
  exists fs' h' p, kmalloc demo_frames demo_heap 70000 = Some (fs', h', p) /\ frames_wf fs' /\
    (p <> NULL /\ (exists sz, 70000 <= sz /\ heap_live h' [(p, sz)]) \/
     p = NULL /\ heap_live h' [] /\ no_room h' 70000 /\
       (70000 <= 2 ^ 42 -> h' = demo_heap /\ same_pool demo_frames fs' /\
          forall j, used fs' j = used demo_frames j)).
Proof.
  destruct demo_init_live as (Hw & Hl & Hse).
  exact (kmalloc_correct demo_frames demo_heap [] 70000 Hl Hw ltac:(lia) Hse).
Defined.

(** The initial slab is too small for 70000 bytes, so this request grows
    it. *)
Example kmalloc_grows :
  match kmalloc demo_frames demo_heap 70000 with
  | Some (_, h', p) => p = MEMORY_START + 32 /\ heap_bytes h' = (16 + 18) * EL_PAGE_BYTES
  | None => False
  end.
Proof. by vm_compute. Qed.

Lemma heap_accounting_witness :
  heap_used_bytes demo_one.1 = 100 /\
  l_bytes (avail demo_one.1) + l_bytes (in_use demo_one.1) = heap_total_bytes demo_one.1.
Proof.
  destruct demo_one_live as (sz & _ & Hl). split; [by vm_compute |].
  destruct (heap_accounting demo_one.1 [(MEMORY_START + 32, sz)] Hl) as (_ & H & _). exact H.
Defined.

Lemma demo_uheap_ok : uheap_ok (S := frames) (mkUHeap false demo_ctl) [].
Proof. split; [done |]. exact demo_ctl_sentinels. Qed.

Lemma malloc_correct_witness :
  exists s' u' p, malloc demo_fs (mkUHeap false demo_ctl) 100 = Some (s', u', p) /\ frames_wf s' /\
    (p <> NULL /\ (exists sz, 100 <= sz /\ uheap_ok (S := frames) u' [(p, sz)] /\
                     uheap_ok (S := frames) (free u' p) [] /\ forall y, y ∈ [] -> apart (p, sz) y) \/
     p = NULL /\ uheap_ok (S := frames) u' []).
Proof.
  exact (malloc_correct (laws := frame_slab_laws) demo_fs (mkUHeap false demo_ctl) [] 100
    demo_fs_wf demo_uheap_ok ltac:(lia)).
Defined.

Lemma malloc_rounding_wraps_witness :
  malloc demo_fs (mkUHeap false demo_ctl) (2 ^ 64 - 1) = malloc demo_fs (mkUHeap false demo_ctl) 0 /\
  match malloc demo_fs (mkUHeap false demo_ctl) (2 ^ 64 - 1) with
  | Some (_, _, p) => p <> NULL
  | None => False
  end.
Proof.
  split; [exact (malloc_rounding_wraps demo_fs (mkUHeap false demo_ctl) (2 ^ 64 - 1) ltac:(lia)) |].
  by vm_compute.
Defined.
