(* ===== verification/Phys.v ===== *)
(** * Physical memory

    The RAM that the kernel reaches through its identity map: a finite map
    from physical addresses to bytes, with 0 where nothing was stored.
    [pstore] is [memcpy] into it, [pfill] is [memset], [pld64] and [pst64]
    are the aligned word accesses of the page-table code. *)

From stdpp Require Import base list gmap fin_maps.
From Stdlib Require Import ZArith Lia Bool.
From S2P Require Import Prelude.

Notation phys := (gmap Z Z).

Definition pld8 (m : phys) (a : Z) : Z := default 0 (m !! a).
Definition pst8 (m : phys) (a v : Z) : phys := <[a := u8 v]> m.

Fixpoint pstore (m : phys) (a : Z) (l : list Z) : phys :=
  match l with
  | [] => m
  | b :: l' => pstore (pst8 m a b) (a + 1) l'
  end.
Fixpoint pload (n : nat) (m : phys) (a : Z) : list Z :=
  match n with
  | O => []
  | S n' => pld8 m a :: pload n' m (a + 1)
  end.

Definition pfill (m : phys) (a n v : Z) : phys := pstore m a (replicate (Z.to_nat n) v).
Definition pld64 (m : phys) (a : Z) : Z := of_le (pload 8 m a).
Definition pst64 (m : phys) (a v : Z) : phys := pstore m a (le_bytes 8 v).

(** ** Lemmas *)

Lemma pld8_pst8 m a v x : pld8 (pst8 m a v) x = if x =? a then u8 v else pld8 m x.
Proof.
  unfold pld8, pst8. destruct (Z.eqb_spec x a) as [-> | Hne].
  - by rewrite lookup_insert_eq.
  - by rewrite lookup_insert_ne.
Qed.

Lemma pld8_pstore l : forall m a x,
  pld8 (pstore m a l) x =
  if (a <=? x) && (x <? a + zlen l) then u8 (znth 0 l (x - a)) else pld8 m x.
Proof.
  induction l as [|b l IH]; intros m a x; simpl.
  - unfold zlen. simpl. zcases; simpl; done || lia.
  - rewrite IH, pld8_pst8. unfold zlen. cbn [length]. rewrite Nat2Z.inj_succ.
    destruct (Z.eqb_spec x a) as [-> | Hne].
    + rewrite Z.sub_diag. zcases; simpl; done || lia.
    + rewrite znth_cons_ne by lia. replace (x - a - 1) with (x - (a + 1)) by lia.
      zcases; simpl; done || lia.
Qed.

Lemma pld8_pstore_out m a l x : x < a \/ a + zlen l <= x -> pld8 (pstore m a l) x = pld8 m x.
Proof. intros H. rewrite pld8_pstore. zcases; simpl; done || lia. Qed.

Lemma pload_ext n m m' a :
  (forall x, a <= x < a + Z.of_nat n -> pld8 m' x = pld8 m x) -> pload n m' a = pload n m a.
Proof.
  revert a. induction n as [|n IH]; intros a H; simpl; [done |].
  rewrite (H a) by lia. f_equal. apply IH. intros x Hx. apply H. lia.
Qed.

(** What was stored is read back, modulo the width of a byte. *)
Lemma pload_pstore m a l :
  Forall (fun b => 0 <= b < 256) l -> pload (length l) (pstore m a l) a = l.
Proof.
  revert m a. induction l as [|b l IH]; intros m a; simpl; [done |]. rewrite Forall_cons. intros [Hb Hl].
  rewrite IH by done. f_equal. rewrite pld8_pstore_out by (unfold zlen; lia).
  rewrite pld8_pst8, Z.eqb_refl. by apply u8_small.
Qed.

Lemma pld64_ext m m' a : (forall x, a <= x < a + 8 -> pld8 m' x = pld8 m x) -> pld64 m' a = pld64 m a.
Proof. intros H. unfold pld64. f_equal. by apply pload_ext. Qed.

Lemma pld64_pst64_eq m a v : 0 <= v < 2 ^ 64 -> pld64 (pst64 m a v) a = v.
Proof.
  intros Hv. unfold pld64, pst64. rewrite <- (le_bytes_length 8 v) at 1.
  rewrite pload_pstore by apply le_bytes_range. by apply of_le_bytes.
Qed.

Lemma pld8_pst64_out m a v x : x < a \/ a + 8 <= x -> pld8 (pst64 m a v) x = pld8 m x.
Proof. intros H. apply pld8_pstore_out. unfold zlen. rewrite le_bytes_length. lia. Qed.

Lemma pld64_pst64_ne m a b v : b + 8 <= a \/ a + 8 <= b -> pld64 (pst64 m a v) b = pld64 m b.
Proof. intros H. apply pld64_ext. intros x Hx. apply pld8_pst64_out. lia. Qed.

Lemma pld8_pfill m a n v x :
  0 <= n -> pld8 (pfill m a n v) x = if (a <=? x) && (x <? a + n) then u8 v else pld8 m x.
Proof.
  intros Hn. unfold pfill. rewrite pld8_pstore. unfold zlen. rewrite length_replicate, Z2Nat.id by done.
  destruct (Z.leb_spec a x), (Z.ltb_spec x (a + n)); simpl; try done. f_equal.
  rewrite znth_nonneg by lia. by rewrite lookup_replicate_2 by lia.
Qed.

Lemma pld64_pfill m a n x : 0 <= n -> a <= x -> x + 8 <= a + n -> pld64 (pfill m a n 0) x = 0.
Proof.
  intros Hn Ha Hx. unfold pld64. 
  assert (forall k y, a <= y -> y + Z.of_nat k <= a + n -> pload k (pfill m a n 0) y = replicate k 0) as H.
  { intros k. induction k as [|k IH]; intros y H1 H2; simpl; [done |].
    rewrite pld8_pfill by done. rewrite IH by lia. zcases; simpl; done || lia. }
  by rewrite H by lia.
Qed.

(** [m'] differs from [m] at most in the frame [f]. *)
Definition only_frame (f : Z) (m m' : phys) : Prop :=
  forall x, x < f \/ f + 4096 <= x -> pld8 m' x = pld8 m x.

Lemma only_frame_refl f m : only_frame f m m.
Proof. done. Qed.
Lemma only_frame_trans f m m' m'' : only_frame f m m' -> only_frame f m' m'' -> only_frame f m m''.
Proof. intros H1 H2 x Hx. by rewrite H2, H1. Qed.
Lemma only_frame_pst64 f m a v : f <= a -> a + 8 <= f + 4096 -> only_frame f m (pst64 m a v).
Proof. intros H1 H2 x Hx. apply pld8_pst64_out. lia. Qed.
Lemma only_frame_fill f m v : only_frame f m (pfill m f 4096 v).
Proof. intros x Hx. rewrite pld8_pfill by lia. zcases; simpl; done || lia. Qed.
Lemma only_frame_store f m a l : f <= a -> a + zlen l <= f + 4096 -> only_frame f m (pstore m a l).
Proof. intros H1 H2 x Hx. apply pld8_pstore_out. lia. Qed.

Lemma only_frame_pld64 f m m' a : only_frame f m m' -> a + 8 <= f \/ f + 4096 <= a -> pld64 m' a = pld64 m a.
Proof. intros H Ha. apply pld64_ext. intros x Hx. apply H. lia. Qed.
