(* ===== verification/Paging.v ===== *)
(** * Address spaces

    [kernel/paging.c]: per-task page-table trees. A tree is four levels of
    512-word tables in physical memory, reached through the kernel's
    identity map; the frames of its tables and of its user pages come from
    the frame allocator, the handle [address_space_t] from the kernel heap.

    [space] is the state these functions share: the frame allocator, the
    heap, physical memory, the handles (address to [pml4_phys]) and the boot
    page directory. [translate] is the page walk of the processor. TLB
    flushes have no counterpart: the model translates through memory. *)

From stdpp Require Import base list gmap fin_maps.
From Stdlib Require Import ZArith Lia Bool.
From S2P Require Import Prelude Frames Heap Phys.

(** ** Constants *)

Definition PT_ENTRIES : Z := 512.
Definition USER_PD_INDEX_CODE : Z := 2.
Definition USER_PD_INDEX_STACK : Z := 3.
Definition USER_PD_INDEX_HEAP : Z := 4.
Definition user_pd_slots : list Z := [USER_PD_INDEX_CODE; USER_PD_INDEX_STACK; USER_PD_INDEX_HEAP].
Definition USER_PD_SLOT_COUNT : Z := zlen user_pd_slots.
Definition PTE_ADDR_MASK : Z := 0x000FFFFFFFFFF000.
Definition USER_HEAP_PAGE_FLAGS : Z := Z.lor (Z.lor PG_PRESENT PG_WRITABLE) PG_USER.
Definition SIZEOF_ADDRESS_SPACE : Z := 8.

Definition PML4_INDEX (v : Z) : Z := Z.land (Z.shiftr v 39) 0x1FF.
Definition PDPT_INDEX (v : Z) : Z := Z.land (Z.shiftr v 30) 0x1FF.
Definition PD_INDEX (v : Z) : Z := Z.land (Z.shiftr v 21) 0x1FF.
Definition PT_INDEX (v : Z) : Z := Z.land (Z.shiftr v 12) 0x1FF.

Definition is_user_pd_slot (index : Z) : bool :=
  match scan (fun s => znth 0 user_pd_slots s =? index) (Z.to_nat USER_PD_SLOT_COUNT) 0 with
  | Some _ => true
  | None => false
  end.

(** ** State *)

Record space := mkSpace {
  sp_frames : frames;
  sp_heap : heap;
  sp_mem : phys;
  sp_as : gmap Z Z;        (* address_space_t objects: pml4_phys *)
  sp_pd : list Z           (* pd_table of boot.asm, as memory_detect_and_map left it *)
}.

Definition set_sframes v x := mkSpace x (sp_heap v) (sp_mem v) (sp_as v) (sp_pd v).
Definition set_sheap v x := mkSpace (sp_frames v) x (sp_mem v) (sp_as v) (sp_pd v).
Definition set_smem v x := mkSpace (sp_frames v) (sp_heap v) x (sp_as v) (sp_pd v).
Definition set_sas v x := mkSpace (sp_frames v) (sp_heap v) (sp_mem v) x (sp_pd v).

(** The calls into the other allocators. *)
Definition sp_alloc_frame (v : space) : space * Z :=
  let '(fs, f) := alloc_frame (sp_frames v) in (set_sframes v fs, f).
Definition sp_free_frame (v : space) (f : Z) : space := set_sframes v (free_frame (sp_frames v) f).
Definition sp_kmalloc (v : space) (n : Z) : space * Z :=
  match kmalloc (sp_frames v) (sp_heap v) n with
  | Some (fs, h, p) => (set_sheap (set_sframes v fs) h, p)
  | None => (v, NULL)
  end.
Definition sp_kfree (v : space) (p : Z) : space := set_sheap v (kfree (sp_heap v) p).

Definition load64 (v : space) (a : Z) : Z := pld64 (sp_mem v) a.
Definition store64 (v : space) (a x : Z) : space := set_smem v (pst64 (sp_mem v) a x).

(** [as->pml4_phys] *)
Definition pml4_phys (v : space) (a : Z) : Z := default 0 (sp_as v !! a).

(** A condition on flag bits, as C reads it. *)
Definition flag (e b : Z) : bool := negb (Z.land e b =? 0).

(** ** Operations *)

Definition alloc_table (v : space) : space * Z :=
  let '(v, frame) := sp_alloc_frame v in
  if frame =? 0 then (v, 0)
  else (set_smem v (pfill (sp_mem v) frame FRAME_SIZE 0), frame).

Definition next_table (v : space) (entry : Z) : space * Z :=
  if negb (flag (load64 v entry) PG_PRESENT) then
    let '(v, table) := alloc_table v in
    if table =? 0 then (v, 0)
    else
      let v := store64 v entry (Z.lor (Z.lor (Z.lor table PG_PRESENT) PG_WRITABLE) PG_USER) in
      (v, Z.land (load64 v entry) PTE_ADDR_MASK)
  else (v, Z.land (load64 v entry) PTE_ADDR_MASK).

(** The by-value copy of the kernel half. *)
Definition clone_kernel (v : space) (pd : Z) : space :=
  for_range (Z.to_nat PD_ENTRIES) 0 (fun i v =>
    if is_user_pd_slot i then v else store64 v (pd + 8 * i) (znth 0 (sp_pd v) i)) v.

Definition paging_create_address_space (v : space) : space * Z :=
  let '(v, as_) := sp_kmalloc v SIZEOF_ADDRESS_SPACE in
  if as_ =? NULL then (v, NULL)
  else
    let '(v, pml4) := alloc_table v in
    let '(v, pdpt) := alloc_table v in
    let '(v, pd) := alloc_table v in
    if (pml4 =? 0) || (pdpt =? 0) || (pd =? 0) then
      let v := if negb (pml4 =? 0) then sp_free_frame v pml4 else v in
      let v := if negb (pdpt =? 0) then sp_free_frame v pdpt else v in
      let v := if negb (pd =? 0) then sp_free_frame v pd else v in
      (sp_kfree v as_, NULL)
    else
      let v := clone_kernel v pd in
      let v := store64 v pdpt (Z.lor (Z.lor (Z.lor pd PG_PRESENT) PG_WRITABLE) PG_USER) in
      let v := store64 v pml4 (Z.lor (Z.lor (Z.lor pdpt PG_PRESENT) PG_WRITABLE) PG_USER) in
      (set_sas v (<[as_ := pml4]> (sp_as v)), as_).

Definition paging_map_page (v : space) (as_ virt phys flags : Z) : space * Z :=
  let pml4 := pml4_phys v as_ in
  let '(v, pdpt) := next_table v (pml4 + 8 * PML4_INDEX virt) in
  if pdpt =? 0 then (v, 1)
  else
    let '(v, pd) := next_table v (pdpt + 8 * PDPT_INDEX virt) in
    if pd =? 0 then (v, 1)
    else
      let '(v, pt) := next_table v (pd + 8 * PD_INDEX virt) in
      if pt =? 0 then (v, 1)
      else (store64 v (pt + 8 * PT_INDEX virt) (Z.lor (Z.land phys PTE_ADDR_MASK) flags), 0).

(** One turn of the leaf loop of [destroy_page_table]. *)
Definition free_leaf (pt i : Z) (v : space) : space :=
  let e := load64 v (pt + 8 * i) in
  if flag e PG_PRESENT then sp_free_frame v (Z.land e PTE_ADDR_MASK) else v.

Definition destroy_page_table (v : space) (pt : Z) : space :=
  sp_free_frame (for_range (Z.to_nat PT_ENTRIES) 0 (free_leaf pt) v) pt.

(** One turn of the slot loop of [paging_destroy_address_space]. *)
Definition destroy_slot (pd s : Z) (v : space) : space :=
  let idx := znth 0 user_pd_slots s in
  let entry := load64 v (pd + 8 * idx) in
  if negb (flag entry PG_PRESENT) || flag entry PG_HUGE then v
  else store64 (destroy_page_table v (Z.land entry PTE_ADDR_MASK)) (pd + 8 * idx) 0.

Definition paging_destroy_address_space (v : space) (as_ : Z) : space :=
  if as_ =? NULL then v
  else
    let pml4 := pml4_phys v as_ in
    let v :=
      if flag (load64 v pml4) PG_PRESENT then
        let pdpt := Z.land (load64 v pml4) PTE_ADDR_MASK in
        let v :=
          if flag (load64 v pdpt) PG_PRESENT then
            let pd := Z.land (load64 v pdpt) PTE_ADDR_MASK in
            sp_free_frame (for_range (Z.to_nat USER_PD_SLOT_COUNT) 0 (destroy_slot pd) v) pd
          else v in
        sp_free_frame v pdpt
      else v in
    let v := sp_free_frame v pml4 in
    let v := sp_kfree v as_ in
    set_sas v (delete as_ (sp_as v)).

(** [lookup_pte]: the address of the leaf entry, or 0. *)
Definition lookup_pte (v : space) (as_ virt : Z) : Z :=
  let e := load64 v (pml4_phys v as_ + 8 * PML4_INDEX virt) in
  if negb (flag e PG_PRESENT) then NULL
  else
    let e := load64 v (Z.land e PTE_ADDR_MASK + 8 * PDPT_INDEX virt) in
    if negb (flag e PG_PRESENT) then NULL
    else
      let e := load64 v (Z.land e PTE_ADDR_MASK + 8 * PD_INDEX virt) in
      if negb (flag e PG_PRESENT) || flag e PG_HUGE then NULL
      else Z.land e PTE_ADDR_MASK + 8 * PT_INDEX virt.

Definition unmap_page (v : space) (as_ va : Z) : space :=
  let pte := lookup_pte v as_ va in
  if (pte =? NULL) || negb (flag (load64 v pte) PG_PRESENT) then v
  else store64 (sp_free_frame v (Z.land (load64 v pte) PTE_ADDR_MASK)) pte 0.

(** The pages of [base, base + length), the sum wrapping as it does in C. *)
Definition pages (base length : Z) : nat :=
  Z.to_nat ((u64 (base + length) - base + FRAME_SIZE - 1) / FRAME_SIZE).

Definition paging_unmap_user_range (v : space) (as_ base length : Z) : space :=
  for_range (pages base length) 0 (fun k v => unmap_page v as_ (base + k * FRAME_SIZE)) v.

(** The loop of [paging_map_user_range], with the turns it has left. *)
Fixpoint map_range_loop (n : nat) (v : space) (as_ base done_ : Z) : space * Z :=
  match n with
  | O => (v, 0)
  | S n' =>
      let '(v, frame) := sp_alloc_frame v in
      if frame =? 0 then (paging_unmap_user_range v as_ base done_, -1)
      else
        let v := set_smem v (pfill (sp_mem v) frame FRAME_SIZE 0) in
        let '(v, rc) := paging_map_page v as_ (base + done_) frame USER_HEAP_PAGE_FLAGS in
        if negb (rc =? 0) then
          let v := sp_free_frame v frame in
          (paging_unmap_user_range v as_ base done_, -1)
        else map_range_loop n' v as_ base (done_ + FRAME_SIZE)
  end.

Definition paging_map_user_range (v : space) (as_ base length : Z) : space * Z :=
  map_range_loop (Z.to_nat ((length + FRAME_SIZE - 1) / FRAME_SIZE)) v as_ base 0.

(** ** The page walk of the processor *)

(** The leaf entry that maps [va] under a page-map level 4 at [cr3] and the
    size of the page it maps, if all levels are present. *)
Definition walk (m : phys) (cr3 va : Z) : option (Z * Z) :=
  let e := pld64 m (cr3 + 8 * PML4_INDEX va) in
  if negb (flag e PG_PRESENT) then None
  else
    let e := pld64 m (Z.land e PTE_ADDR_MASK + 8 * PDPT_INDEX va) in
    if negb (flag e PG_PRESENT) then None
    else
      let e := pld64 m (Z.land e PTE_ADDR_MASK + 8 * PD_INDEX va) in
      if negb (flag e PG_PRESENT) then None
      else if flag e PG_HUGE then Some (e, TWO_MB)
      else
        let e := pld64 m (Z.land e PTE_ADDR_MASK + 8 * PT_INDEX va) in
        if negb (flag e PG_PRESENT) then None else Some (e, FRAME_SIZE).

(** The physical address of [va]. *)
Definition translate (m : phys) (cr3 va : Z) : option Z :=
  match walk m cr3 va with
  | Some (e, size) => Some (Z.land e PTE_ADDR_MASK / size * size + va mod size)
  | None => None
  end.
