(* ===== verification/PagingInv.v ===== *)
(** * The trees behind the address spaces

    [tree] is the abstract content of one page-table tree: its three spine
    frames, the page tables of the user slots, and the leaf entries.
    [tree_rep] says that physical memory holds it. [trees_ok] is the
    invariant over all of them: every frame of every tree is in use, has one
    role in one tree, is not part of the kernel heap, and lies above ring-3
    space, where the kernel's identity map is the same in every tree.

    A frame that a function holds in a local variable is [spare]: in use and
    in no tree. The lemmas follow the functions of [kernel/paging.c]. *)

From stdpp Require Import base list gmap fin_maps.
From Stdlib Require Import ZArith Lia Bool.
From S2P Require Import Prelude Frames Heap Phys Paging.

(** ** Entries *)

Definition pte_addr (e : Z) : Z := Z.land e PTE_ADDR_MASK.
Definition link (f : Z) : Z := Z.lor (Z.lor (Z.lor f PG_PRESENT) PG_WRITABLE) PG_USER.

Lemma land_addr_mask e : Z.land e PTE_ADDR_MASK = (e / 4096 mod 2 ^ 40) * 4096.
Proof.
  change PTE_ADDR_MASK with (Z.shiftl (Z.ones 40) 12). change 4096 with (2 ^ 12) at 2.
  rewrite <- Z.shiftl_mul_pow2 by lia. apply Z.bits_inj'. intros n Hn. rewrite Z.land_spec.
  destruct (Z.lt_ge_cases n 12).
  - by rewrite !Z.shiftl_spec_low, andb_false_r by done.
  - rewrite !Z.shiftl_spec by lia. destruct (Z.lt_ge_cases (n - 12) 40).
    + rewrite Z.mod_pow2_bits_low by lia. change 4096 with (2 ^ 12).
      rewrite Z.div_pow2_bits, Z.ones_spec_low, andb_true_r by lia. f_equal. lia.
    + rewrite Z.mod_pow2_bits_high, Z.ones_spec_high by lia. apply andb_false_r.
Qed.

(** An aligned frame address with flags below it. *)
Lemma pte_addr_add f fl : f mod 4096 = 0 -> 0 <= f < 2 ^ 52 -> 0 <= fl < 4096 -> pte_addr (f + fl) = f.
Proof.
  intros Hf Hr Hfl. unfold pte_addr. rewrite land_addr_mask.
  assert ((f + fl) / 4096 = f / 4096) as -> by mlia.
  rewrite Z.mod_small by mlia. mlia.
Qed.

Lemma lor_frame f fl : f mod 4096 = 0 -> 0 <= fl < 4096 -> Z.lor f fl = f + fl.
Proof.
  intros Hf Hfl. replace f with (f / 2 ^ 12 * 2 ^ 12) at 1 by mlia.
  rewrite lor_low_add by lia. mlia.
Qed.

Lemma link_add f : f mod 4096 = 0 -> link f = f + 7.
Proof.
  intros Hf. unfold link. rewrite <- !Z.lor_assoc. by rewrite (lor_frame f) by done.
Qed.

Lemma flag_testbit e k : 0 <= k -> flag e (Z.shiftl 1 k) = Z.testbit e k.
Proof. intros. unfold flag. rewrite land_pow2_zero by done. apply negb_involutive. Qed.

Lemma flag_low f fl k : f mod 4096 = 0 -> 0 <= k < 12 -> flag (f + fl) (Z.shiftl 1 k) = flag fl (Z.shiftl 1 k).
Proof.
  intros Hf Hk. rewrite !flag_testbit by lia.
  rewrite <- (Z.mod_pow2_bits_low (f + fl) 12), <- (Z.mod_pow2_bits_low fl 12) by lia.
  f_equal. change (2 ^ 12) with 4096. rewrite Z.add_mod, Hf by lia. by rewrite Z.add_0_l, Z.mod_mod by lia.
Qed.

Lemma link_flags f : f mod 4096 = 0 ->
  flag (link f) PG_PRESENT = true /\ flag (link f) PG_HUGE = false.
Proof.
  intros Hf. rewrite link_add by done. unfold PG_PRESENT, PG_HUGE. by rewrite !flag_low by (done || lia).
Qed.

Lemma link_addr f : f mod 4096 = 0 -> 0 <= f < 2 ^ 52 -> Z.land (link f) PTE_ADDR_MASK = f.
Proof. intros Hf Hr. rewrite link_add by done. by apply pte_addr_add. Qed.

(** ** Indices *)

Lemma index_mod v k : 0 <= k -> Z.land (Z.shiftr v k) 0x1FF = (v / 2 ^ k) mod 512.
Proof. intros. change 0x1FF with (Z.ones 9). rewrite Z.land_ones, Z.shiftr_div_pow2 by lia. done. Qed.

Lemma PD_INDEX_eq v : PD_INDEX v = (v / TWO_MB) mod 512.
Proof. unfold PD_INDEX. by rewrite index_mod. Qed.
Lemma PT_INDEX_eq v : PT_INDEX v = (v / FRAME_SIZE) mod 512.
Proof. unfold PT_INDEX. by rewrite index_mod. Qed.

Lemma index_range v k : 0 <= k -> 0 <= Z.land (Z.shiftr v k) 0x1FF < 512.
Proof. intros. rewrite index_mod by done. apply Z.mod_pos_bound. lia. Qed.

Lemma PT_INDEX_range v : 0 <= PT_INDEX v < 512.
Proof. by apply index_range. Qed.

(** The slots of ring-3 space. *)
Definition user_slot (i : Z) : Prop := i = 2 \/ i = 3 \/ i = 4.

Lemma is_user_pd_slot_iff i : is_user_pd_slot i = true <-> user_slot i.
Proof.
  unfold user_slot. assert (is_user_pd_slot i = (2 =? i) || (3 =? i) || (4 =? i)) as ->.
  { unfold is_user_pd_slot. change (Z.to_nat USER_PD_SLOT_COUNT) with 3%nat. cbn [scan].
    change (znth 0 user_pd_slots 0) with 2. change (znth 0 user_pd_slots (0 + 1)) with 3.
    change (znth 0 user_pd_slots (0 + 1 + 1)) with 4. zcases; done. }
  rewrite !orb_true_iff, !Z.eqb_eq. lia.
Qed.

Lemma user_indices va :
  USER_REGION_START <= va < USER_SPACE_END ->
  PML4_INDEX va = 0 /\ PDPT_INDEX va = 0 /\ user_slot (PD_INDEX va).
Proof.
  intros Hva. unfold USER_REGION_START, USER_CODE_BASE, USER_SPACE_END, USER_HEAP_LIMIT in Hva.
  unfold PML4_INDEX, PDPT_INDEX, PD_INDEX, user_slot. rewrite !index_mod by lia.
  change (2 ^ 39) with 549755813888. change (2 ^ 30) with 1073741824. change (2 ^ 21) with 2097152.
  repeat split; mlia.
Qed.

(** The page of [va] is its slot and its index in the slot. *)
Lemma page_unique va va' :
  USER_REGION_START <= va < USER_SPACE_END -> USER_REGION_START <= va' < USER_SPACE_END ->
  PD_INDEX va = PD_INDEX va' -> PT_INDEX va = PT_INDEX va' -> va / FRAME_SIZE = va' / FRAME_SIZE.
Proof.
  rewrite !PD_INDEX_eq, !PT_INDEX_eq. unfold USER_REGION_START, USER_CODE_BASE, USER_SPACE_END, USER_HEAP_LIMIT, TWO_MB, FRAME_SIZE.
  intros H1 H2 H3 H4. mlia.
Qed.

(** ** Trees *)

Record tree := mkTree {
  tr_pml4 : Z; tr_pdpt : Z; tr_pd : Z;
  tr_pt : gmap Z Z;            (* user slot to page table *)
  tr_leaf : gmap (Z * Z) Z     (* (slot, index) to entry *)
}.

Inductive role := RPml4 | RPdpt | RPd | RPt (i : Z) | RLeaf (i j : Z).
#[export] Instance role_eq_dec : EqDecision role.
Proof. solve_decision. Defined.

(** [f] is the frame of [tr] with the role [r]. *)
Definition place (tr : tree) (r : role) (f : Z) : Prop :=
  match r with
  | RPml4 => f = tr_pml4 tr
  | RPdpt => f = tr_pdpt tr
  | RPd => f = tr_pd tr
  | RPt i => tr_pt tr !! i = Some f
  | RLeaf i j => exists e, tr_leaf tr !! (i, j) = Some e /\ pte_addr e = f
  end.

Definition is_table (r : role) : Prop := match r with RLeaf _ _ => False | _ => True end.

Record tree_wf (tr : tree) : Prop := {
  tw_slot : forall i pt, tr_pt tr !! i = Some pt -> user_slot i;
  tw_leaf : forall i j e, tr_leaf tr !! (i, j) = Some e ->
    is_Some (tr_pt tr !! i) /\ 0 <= j < 512 /\ 0 <= e < 2 ^ 64 /\ flag e PG_PRESENT = true
}.

(** The [i]th word of the table [t]. *)
Definition tbl (m : phys) (t i : Z) : Z := pld64 m (t + 8 * i).

Record tree_rep (pd0 : list Z) (m : phys) (tr : tree) : Prop := {
  rp_pml4 : forall i, 0 <= i < 512 -> tbl m (tr_pml4 tr) i = if i =? 0 then link (tr_pdpt tr) else 0;
  rp_pdpt : forall i, 0 <= i < 512 -> tbl m (tr_pdpt tr) i = if i =? 0 then link (tr_pd tr) else 0;
  rp_pd : forall i, 0 <= i < 512 -> tbl m (tr_pd tr) i =
    if is_user_pd_slot i then match tr_pt tr !! i with Some pt => link pt | None => 0 end
    else znth 0 pd0 i;
  rp_pt : forall i pt j, tr_pt tr !! i = Some pt -> 0 <= j < 512 ->
    tbl m pt j = default 0 (tr_leaf tr !! (i, j))
}.

(** ** The invariant *)

(** [f] is a frame of the pool that is in use, above ring-3 space. *)
Definition frame_at (fs : frames) (f : Z) : Prop :=
  exists i, f = frame_addr i /\ 0 <= i < num_frames fs /\ used fs i = true /\ USER_SPACE_END <= f.

Definition in_heap (h : heap) (f : Z) : Prop := heap_start h <= f < heap_end h.

Record trees_ok (T : gmap Z tree) (v : space) : Prop := {
  tk_wf : frames_wf (sp_frames v);
  tk_reserved : forall i, 0 <= i < num_frames (sp_frames v) -> frame_addr i < USER_SPACE_END ->
    used (sp_frames v) i = true;
  tk_heap : forall i, 0 <= i < num_frames (sp_frames v) -> in_heap (sp_heap v) (frame_addr i) ->
    used (sp_frames v) i = true;
  tk_pd : forall i, 0 <= znth 0 (sp_pd v) i < 2 ^ 64;
  tk_tree : forall a tr, T !! a = Some tr -> tree_wf tr /\ tree_rep (sp_pd v) (sp_mem v) tr;
  tk_place : forall a tr r f, T !! a = Some tr -> place tr r f ->
    frame_at (sp_frames v) f /\ ~ in_heap (sp_heap v) f;
  tk_inj : forall a tr r a' tr' r' f, T !! a = Some tr -> place tr r f ->
    T !! a' = Some tr' -> place tr' r' f -> a = a' /\ r = r'
}.

(** A frame held outside every tree. *)
Definition spare (T : gmap Z tree) (v : space) (f : Z) : Prop :=
  frame_at (sp_frames v) f /\ ~ in_heap (sp_heap v) f /\
  forall a tr r, T !! a = Some tr -> ~ place tr r f.

(** Every frame in use is reserved or otherwise known ([X]), part of the
    heap, or in a tree. *)
Definition accounted (T : gmap Z tree) (v : space) (X : Z -> Prop) : Prop :=
  forall i, 0 <= i < num_frames (sp_frames v) -> used (sp_frames v) i = true ->
    X (frame_addr i) \/ in_heap (sp_heap v) (frame_addr i) \/
    exists a tr r, T !! a = Some tr /\ place tr r (frame_addr i).

(** Frames that hold data: user pages and frames on their way there. *)
Definition data_frame (T : gmap Z tree) (v : space) (f : Z) : Prop :=
  spare T v f \/ exists a tr i j, T !! a = Some tr /\ place tr (RLeaf i j) f.

(** The table functions do not touch data. *)
Definition data_kept (T : gmap Z tree) (v v' : space) : Prop :=
  forall f x, data_frame T v f -> f <= x < f + 4096 -> pld8 (sp_mem v') x = pld8 (sp_mem v) x.

(** What the page-table functions leave alone. *)
Definition same_rest (v v' : space) : Prop :=
  sp_heap v' = sp_heap v /\ sp_as v' = sp_as v /\ sp_pd v' = sp_pd v /\ same_pool (sp_frames v) (sp_frames v').

Lemma same_rest_refl v : same_rest v v.
Proof. done. Qed.
Lemma same_rest_trans v v' v'' : same_rest v v' -> same_rest v' v'' -> same_rest v v''.
Proof. intros (H1 & H2 & H3 & [H4 H5]) (K1 & K2 & K3 & [K4 K5]). repeat split; congruence. Qed.

Lemma frame_at_bounds fs f : frames_wf fs -> frame_at fs f ->
  f mod 4096 = 0 /\ USER_SPACE_END <= f < 2 ^ 52 /\ f <> 0.
Proof.
  intros (_ & _ & Hn & _) (i & -> & Hi & _ & Hlo). pose proof max_frames_small.
  unfold frame_addr, MEMORY_START, FRAME_SIZE, USER_SPACE_END, USER_HEAP_LIMIT in *. repeat split; mlia.
Qed.

Lemma frame_at_apart fs f g : frames_wf fs -> frame_at fs f -> frame_at fs g -> f <> g ->
  f + 4096 <= g \/ g + 4096 <= f.
Proof.
  intros Hw Hf Hg Hne. destruct (frame_at_bounds _ _ Hw Hf) as [H1 _], (frame_at_bounds _ _ Hw Hg) as [H2 _]. mlia.
Qed.

Lemma frame_at_ext fs fs' f :
  same_pool fs fs' -> (forall i, f = frame_addr i -> used fs i = true -> used fs' i = true) ->
  frame_at fs f -> frame_at fs' f.
Proof. intros [E _] H (i & -> & Hi & Hu & Hlo). exists i. rewrite E. auto. Qed.

(** ** Changing the pool *)

Section Steps.
Implicit Types T : gmap Z tree.

Lemma trees_ok_frames T v fs' :
  trees_ok T v -> frames_wf fs' -> same_pool (sp_frames v) fs' ->
  (forall i, used (sp_frames v) i = true -> used fs' i = true \/ spare T v (frame_addr i)) ->
  trees_ok T (set_sframes v fs').
Proof.
  intros H Hw Hp Hu. pose proof Hp as [En _]. destruct H; split; simpl; try done.
  - intros i Hi Hlo. rewrite En in Hi. destruct (Hu i (tk_reserved0 i Hi Hlo)) as [| [(j & _ & _ & _ & Hj) _]]; [done | lia].
  - intros i Hi Hin. rewrite En in Hi. destruct (Hu i (tk_heap0 i Hi Hin)) as [| (_ & Hno & _)]; done.
  - intros a tr r f Ha Hf. destruct (tk_place0 _ _ _ _ Ha Hf) as [Hat Hno]. split; [| done].
    eapply frame_at_ext; [done | | done]. intros i -> Hi. destruct (Hu i Hi) as [| (_ & _ & Hn)]; [done |].
    destruct (Hn _ _ _ Ha Hf).
Qed.

Lemma spare_frames T v fs' g :
  same_pool (sp_frames v) fs' -> (forall i, g = frame_addr i -> used (sp_frames v) i = true -> used fs' i = true) ->
  spare T v g -> spare T (set_sframes v fs') g.
Proof. intros Hp Hu (H1 & H2 & H3). split; [by eapply frame_at_ext | done]. Qed.

Lemma set_sframes_id v : set_sframes v (sp_frames v) = v.
Proof. by destruct v. Qed.

Lemma frame_addr_inj i j : frame_addr i = frame_addr j -> i = j.
Proof. unfold frame_addr, FRAME_SIZE. lia. Qed.

Lemma frame_addr_eqb i j : (frame_addr i =? frame_addr j) = (i =? j).
Proof. unfold frame_addr, FRAME_SIZE. zcases; done || lia. Qed.

Lemma alloc_spare T v v' f :
  trees_ok T v -> sp_alloc_frame v = (v', f) ->
  f = 0 /\ v' = v \/
  f <> 0 /\ trees_ok T v' /\ spare T v' f /\ same_rest v v' /\ sp_mem v' = sp_mem v /\
  (forall g, spare T v g -> spare T v' g /\ g <> f) /\
  (forall i, used (sp_frames v') i = (frame_addr i =? f) || used (sp_frames v) i).
Proof.
  intros H E. unfold sp_alloc_frame in E. pose proof (tk_wf _ _ H) as Hw.
  destruct (alloc_frame_cases _ Hw) as [(E1 & _) | (i & E1 & Hi & Hf & _ & Hw' & Hu)]; rewrite E1 in E; simplify_eq.
  { left. split; [done |]. apply set_sframes_id. }
  right. split; [apply frame_addr_nonzero; lia |].
  assert (forall j, used (sp_frames v) j = true -> used (set_bit (sp_frames v) i) j = true) as Hmono.
  { intros j Hj. by rewrite Hu, Hj, orb_true_r. }
  assert (USER_SPACE_END <= frame_addr i) as Hlo.
  { destruct (Z.lt_ge_cases (frame_addr i) USER_SPACE_END); [| done]. rewrite (tk_reserved _ _ H) in Hf; [done | lia | done]. }
  split; [apply trees_ok_frames; auto; done |]. split; [| split; [done |]; split; [done |]; split].
  - split; [exists i; simpl; rewrite Hu, Z.eqb_refl; done |]. split.
    + simpl. intros Hin. by rewrite (tk_heap _ _ H i Hi Hin) in Hf.
    + intros a tr r Ha Hp. destruct (tk_place _ _ H _ _ _ _ Ha Hp) as [(j & Ej & _ & Hj & _) _].
      apply frame_addr_inj in Ej as <-. congruence.
  - intros g Hg. split; [by apply spare_frames; [| auto |] |]. intros ->.
    destruct Hg as ((j & Ej & _ & Hj & _) & _). apply frame_addr_inj in Ej as <-. congruence.
  - intros j. simpl. by rewrite Hu, frame_addr_eqb.
Qed.

Lemma free_frame_used fs f j :
  frames_wf fs -> frame_at fs f -> frames_wf (free_frame fs f) /\ same_pool fs (free_frame fs f) /\
  used (free_frame fs f) j = negb (frame_addr j =? f) && used fs j.
Proof.
  intros Hw (i & -> & Hi & Hu & _). rewrite free_frame_addr by done. pose proof Hw as (Hl & _ & Hn & _).
  split; [by apply clear_bit_wf |]. split; [done |]. rewrite used_clear_bit by (done || lia).
  by rewrite frame_addr_eqb.
Qed.

Lemma free_spare T v f :
  trees_ok T v -> spare T v f ->
  trees_ok T (sp_free_frame v f) /\ same_rest v (sp_free_frame v f) /\
  (forall g, g <> f -> spare T v g -> spare T (sp_free_frame v f) g) /\
  (forall i, used (sp_frames (sp_free_frame v f)) i = negb (frame_addr i =? f) && used (sp_frames v) i).
Proof.
  intros H Hs. pose proof (tk_wf _ _ H) as Hw.
  pose proof (fun j => free_frame_used _ f j Hw (proj1 Hs)) as Hfr.
  destruct (Hfr 0) as (Hw' & Hp & _). unfold sp_free_frame. split; [| split; [done |]; split].
  - apply trees_ok_frames; try done. intros i Hi. destruct (Hfr i) as (_ & _ & ->). rewrite Hi.
    destruct (Z.eqb_spec (frame_addr i) f) as [-> |]; [by right | by left].
  - intros g Hne Hg. apply spare_frames; [done | | done]. intros i -> Hi. destruct (Hfr i) as (_ & _ & ->).
    rewrite Hi. by apply Z.eqb_neq in Hne as ->.
  - intros i. apply Hfr.
Qed.

Lemma accounted_free T v f X :
  trees_ok T v -> spare T v f -> accounted T v (fun g => X g \/ g = f) -> accounted T (sp_free_frame v f) X.
Proof.
  intros H Hs HX i Hi Hu. destruct (free_spare T v f H Hs) as (_ & (_ & _ & _ & [En _]) & _ & F).
  rewrite En in Hi. rewrite F in Hu. apply andb_true_iff in Hu as [Hne%negb_true_iff%Z.eqb_neq Hu].
  destruct (HX i Hi Hu) as [[|] |]; [by left | done | by right].
Qed.

(** ** Changing memory *)

Lemma tree_rep_ext pd0 m m' tr :
  (forall r f i, is_table r -> place tr r f -> 0 <= i < 512 -> tbl m' f i = tbl m f i) ->
  tree_rep pd0 m tr -> tree_rep pd0 m' tr.
Proof.
  intros Hm [H1 H2 H3 H4]. split.
  - intros i Hi. by rewrite (Hm RPml4 (tr_pml4 tr)), H1.
  - intros i Hi. by rewrite (Hm RPdpt (tr_pdpt tr)), H2.
  - intros i Hi. by rewrite (Hm RPd (tr_pd tr)), H3.
  - intros i pt j Hi Hj. by rewrite (Hm (RPt i) pt), (H4 i).
Qed.

Lemma trees_ok_mem T v m' :
  trees_ok T v ->
  (forall a tr r f i, T !! a = Some tr -> is_table r -> place tr r f -> 0 <= i < 512 ->
     tbl m' f i = tbl (sp_mem v) f i) ->
  trees_ok T (set_smem v m').
Proof.
  intros H Hm. destruct H; split; simpl; try done. intros a tr Ha. destruct (tk_tree0 _ _ Ha) as [Hw Hr].
  split; [done |]. eapply tree_rep_ext; [| done]. eauto.
Qed.

Lemma only_frame_tbl fs f g i m m' :
  frames_wf fs -> frame_at fs f -> frame_at fs g -> f <> g -> only_frame f m m' -> 0 <= i < 512 ->
  tbl m' g i = tbl m g i.
Proof.
  intros Hw Hf Hg Hne Ho Hi. apply (only_frame_pld64 f); [done |].
  destruct (frame_at_apart _ _ _ Hw Hf Hg Hne); lia.
Qed.

Lemma write_spare T v f m' :
  trees_ok T v -> spare T v f -> only_frame f (sp_mem v) m' -> trees_ok T (set_smem v m').
Proof.
  intros H (Hf & _ & Hn) Ho. apply trees_ok_mem; [done |]. intros a tr r g i Ha _ Hg Hi.
  destruct (tk_place _ _ H _ _ _ _ Ha Hg) as [Hg' _].
  apply (only_frame_tbl _ f g i _ _ (tk_wf _ _ H)); try done. intros <-. by apply (Hn _ _ _ Ha Hg).
Qed.

(** Stores to user pages do not reach any table. *)
Lemma write_leaf T v a tr i j f m' :
  trees_ok T v -> T !! a = Some tr -> place tr (RLeaf i j) f -> only_frame f (sp_mem v) m' ->
  trees_ok T (set_smem v m').
Proof.
  intros H Ha Hf Ho. apply trees_ok_mem; [done |]. intros a' tr' r g k Ha' Ht Hg Hk.
  destruct (tk_place _ _ H _ _ _ _ Ha' Hg) as [Hg' _], (tk_place _ _ H _ _ _ _ Ha Hf) as [Hf' _].
  apply (only_frame_tbl _ f g k _ _ (tk_wf _ _ H)); try done. intros <-.
  destruct (tk_inj _ _ H _ _ _ _ _ _ _ Ha Hf Ha' Hg) as [_ <-]. done.
Qed.

Lemma tbl_store m t i x : 0 <= x < 2 ^ 64 -> tbl (pst64 m (t + 8 * i) x) t i = x.
Proof. apply pld64_pst64_eq. Qed.

Lemma tbl_store_ne m t i j x : i <> j -> tbl (pst64 m (t + 8 * i) x) t j = tbl m t j.
Proof. intros. apply pld64_pst64_ne. lia. Qed.

Lemma only_frame_entry m t i x : 0 <= i < 512 -> only_frame t m (pst64 m (t + 8 * i) x).
Proof. intros. apply only_frame_pst64; lia. Qed.

Lemma alloc_table_ok T v v' f :
  trees_ok T v -> alloc_table v = (v', f) ->
  f = 0 /\ v' = v \/
  f <> 0 /\ trees_ok T v' /\ spare T v' f /\ same_rest v v' /\ only_frame f (sp_mem v) (sp_mem v') /\
  (forall i, 0 <= i < 512 -> tbl (sp_mem v') f i = 0) /\ (forall g, spare T v g -> spare T v' g /\ g <> f) /\
  (forall i, used (sp_frames v') i = (frame_addr i =? f) || used (sp_frames v) i).
Proof.
  intros H E. unfold alloc_table in E. destruct (sp_alloc_frame v) as [v1 g] eqn:E1.
  destruct (alloc_spare T v v1 g H E1) as [[-> ->] | (Hz & H1 & Hs & Hr & Em & Hg & Hu)].
  { simpl in E. simplify_eq. by left. }
  apply Z.eqb_neq in Hz as Hz'. rewrite Hz' in E. simplify_eq. right. split; [done |].
  assert (only_frame f (sp_mem v1) (pfill (sp_mem v1) f FRAME_SIZE 0)) as Ho by apply only_frame_fill.
  split; [by apply (write_spare T v1 f) |]. split; [done |]. split; [done |]. simpl. rewrite <- Em.
  split; [done |]. split; [| done]. intros i Hi. apply pld64_pfill; unfold FRAME_SIZE; lia.
Qed.

(** ** Changing one tree *)

Lemma trees_ok_update T v a tr tr' r0 f0 m' :
  trees_ok T v -> T !! a = Some tr -> tree_wf tr' -> tree_rep (sp_pd v) m' tr' ->
  (forall r f, place tr' r f -> place tr r f \/ r = r0 /\ f = f0 /\ spare T v f0) ->
  (forall b tb r f i, b <> a -> T !! b = Some tb -> is_table r -> place tb r f -> 0 <= i < 512 ->
     tbl m' f i = tbl (sp_mem v) f i) ->
  trees_ok (<[a := tr']> T) (set_smem v m').
Proof.
  intros H Ha Hw Hr Hpl Hm. pose proof (tk_place _ _ H) as Hat. pose proof (tk_inj _ _ H) as Hinj.
  assert (forall b tb r f, <[a:=tr']> T !! b = Some tb -> place tb r f ->
    (exists tb', T !! b = Some tb' /\ place tb' r f) \/ b = a /\ r = r0 /\ f = f0 /\ spare T v f0) as Hold.
  { intros b tb r f Hb Hf. destruct (decide (b = a)) as [-> | Hne].
    - rewrite lookup_insert_eq in Hb. simplify_eq. destruct (Hpl r f Hf) as [| (-> & -> & Hs)]; eauto 6.
    - rewrite lookup_insert_ne in Hb by done. eauto. }
  destruct H; split; simpl; try done.
  - intros b tb Hb. destruct (decide (b = a)) as [-> | Hne].
    + rewrite lookup_insert_eq in Hb. by simplify_eq.
    + rewrite lookup_insert_ne in Hb by done. destruct (tk_tree0 _ _ Hb) as [Hw' Hr']. split; [done |].
      eapply tree_rep_ext; [| done]. eauto.
  - intros b tb r f Hb Hf. destruct (Hold _ _ _ _ Hb Hf) as [(tb' & Hb' & Hf') | (-> & -> & -> & Hs)].
    + by eapply Hat.
    + by destruct Hs as (S1 & S2 & _).
  - intros b tb r b' tb' r' f Hb Hf Hb' Hf'.
    destruct (Hold _ _ _ _ Hb Hf) as [(t1 & B1 & F1) | (-> & -> & -> & Hs)],
      (Hold _ _ _ _ Hb' Hf') as [(t2 & B2 & F2) | (-> & -> & E2 & Hs2)]; try done.
    + by eapply Hinj.
    + subst f. destruct Hs2 as (_ & _ & N). destruct (N _ _ _ B1 F1).
    + destruct Hs as (_ & _ & N). destruct (N _ _ _ B2 F2).
Qed.

Lemma spare_update T v a tr tr' r0 f0 m' g :
  T !! a = Some tr -> (forall r f, place tr' r f -> place tr r f \/ r = r0 /\ f = f0 /\ spare T v f0) ->
  spare T v g -> g <> f0 -> spare (<[a := tr']> T) (set_smem v m') g.
Proof.
  intros Ha Hpl (H1 & H2 & H3) Hne. split; [done |]. split; [done |]. intros b tb r Hb Hg.
  destruct (decide (b = a)) as [-> | Hab].
  - rewrite lookup_insert_eq in Hb. simplify_eq. destruct (Hpl r g Hg) as [Hg' | (_ & -> & _)]; [| done].
    by apply (H3 a tr r).
  - rewrite lookup_insert_ne in Hb by done. by apply (H3 b tb r).
Qed.

Lemma accounted_update T v a tr tr' m' X :
  T !! a = Some tr -> (forall r f, place tr r f -> X f \/ exists r', place tr' r' f) ->
  accounted T v X -> accounted (<[a := tr']> T) (set_smem v m') X.
Proof.
  intros Ha Hpl H i Hi Hu. destruct (H i Hi Hu) as [| [| (b & tb & r & Hb & Hr)]]; [by left | by right; left |].
  destruct (decide (b = a)) as [-> | Hab].
  - simplify_eq. destruct (Hpl _ _ Hr) as [| [r' Hr']]; [by left |]. right. right. exists a, tr', r'.
    by rewrite lookup_insert_eq.
  - right. right. exists b, tb, r. by rewrite lookup_insert_ne.
Qed.

(** A table of one tree is not a table of another. *)
Lemma other_tables T v a tr r f m' :
  trees_ok T v -> T !! a = Some tr -> place tr r f -> only_frame f (sp_mem v) m' ->
  forall b tb r' g i, b <> a -> T !! b = Some tb -> is_table r' -> place tb r' g -> 0 <= i < 512 ->
  tbl m' g i = tbl (sp_mem v) g i.
Proof.
  intros H Ha Hf Ho b tb r' g i Hne Hb _ Hg Hi.
  destruct (tk_place _ _ H _ _ _ _ Ha Hf) as [Hf' _], (tk_place _ _ H _ _ _ _ Hb Hg) as [Hg' _].
  apply (only_frame_tbl _ f g i _ _ (tk_wf _ _ H)); try done. intros <-.
  by destruct (tk_inj _ _ H _ _ _ _ _ _ _ Ha Hf Hb Hg).
Qed.

(** Within a tree, a store to one table leaves the others. *)
Lemma own_tables T v a tr r f m' :
  trees_ok T v -> T !! a = Some tr -> place tr r f -> only_frame f (sp_mem v) m' ->
  forall r' g i, r' <> r -> place tr r' g -> 0 <= i < 512 -> tbl m' g i = tbl (sp_mem v) g i.
Proof.
  intros H Ha Hf Ho r' g i Hne Hg Hi.
  destruct (tk_place _ _ H _ _ _ _ Ha Hf) as [Hf' _], (tk_place _ _ H _ _ _ _ Ha Hg) as [Hg' _].
  apply (only_frame_tbl _ f g i _ _ (tk_wf _ _ H)); try done. intros <-.
  by destruct (tk_inj _ _ H _ _ _ _ _ _ _ Ha Hf Ha Hg).
Qed.

Lemma place_bounds T v a tr r f :
  trees_ok T v -> T !! a = Some tr -> place tr r f -> f mod 4096 = 0 /\ USER_SPACE_END <= f < 2 ^ 52 /\ f <> 0.
Proof. intros H Ha Hf. eapply frame_at_bounds; [apply (tk_wf _ _ H) |]. by eapply tk_place. Qed.

Lemma link_range f : f mod 4096 = 0 -> 0 <= f < 2 ^ 52 -> 0 <= link f < 2 ^ 64.
Proof. intros. rewrite link_add by done. lia. Qed.

(** ** Mapping *)

Lemma next_table_link v entry t :
  t mod 4096 = 0 -> 0 <= t < 2 ^ 52 -> load64 v entry = link t -> next_table v entry = (v, t).
Proof.
  intros Ht Hr E. unfold next_table. rewrite E. destruct (link_flags t Ht) as [-> _]. simpl. by rewrite link_addr.
Qed.

(** A store to a table is no store to data. *)
Lemma table_write_data T v a tr r f m' :
  trees_ok T v -> T !! a = Some tr -> is_table r -> place tr r f -> only_frame f (sp_mem v) m' ->
  data_kept T v (set_smem v m').
Proof.
  intros H Ha Ht Hf Ho g x Hg Hx. destruct (tk_place _ _ H _ _ _ _ Ha Hf) as [Hf' _].
  assert (frame_at (sp_frames v) g /\ g <> f) as [Hg' Hne].
  { destruct Hg as [(S1 & _ & S3) | (b & tb & i & j & Hb & Hp)].
    - split; [done |]. intros ->. by apply (S3 a tr r).
    - split; [by destruct (tk_place _ _ H _ _ _ _ Hb Hp) |]. intros ->.
      destruct (tk_inj _ _ H _ _ _ _ _ _ _ Ha Hf Hb Hp) as [_ ->]. done. }
  apply Ho. destruct (frame_at_apart _ _ _ (tk_wf _ _ H) Hf' Hg' ltac:(done)); lia.
Qed.

(** The tree with a page table added in slot [i]. *)
Definition add_pt (tr : tree) (i f : Z) : tree :=
  mkTree (tr_pml4 tr) (tr_pdpt tr) (tr_pd tr) (<[i := f]> (tr_pt tr)) (tr_leaf tr).
(** The tree with its leaf [(i, j)] set. *)
Definition set_leaf (tr : tree) (i j e : Z) : tree :=
  mkTree (tr_pml4 tr) (tr_pdpt tr) (tr_pd tr) (tr_pt tr) (<[(i, j) := e]> (tr_leaf tr)).
Definition del_leaf (tr : tree) (i j : Z) : tree :=
  mkTree (tr_pml4 tr) (tr_pdpt tr) (tr_pd tr) (tr_pt tr) (delete (i, j) (tr_leaf tr)).

Lemma add_pt_ok T v a tr i f :
  trees_ok T v -> T !! a = Some tr -> user_slot i -> tr_pt tr !! i = None -> spare T v f ->
  (forall j, 0 <= j < 512 -> tbl (sp_mem v) f j = 0) ->
  trees_ok (<[a := add_pt tr i f]> T) (store64 v (tr_pd tr + 8 * i) (link f)) /\
  (forall g, spare T v g -> g <> f -> spare (<[a := add_pt tr i f]> T) (store64 v (tr_pd tr + 8 * i) (link f)) g) /\
  (forall X, accounted T v (fun g => X g \/ g = f) ->
     accounted (<[a := add_pt tr i f]> T) (store64 v (tr_pd tr + 8 * i) (link f)) X).
Proof.
  intros H Ha Hi Hnone Hs Hz.
  destruct (tk_tree _ _ H _ _ Ha) as [[W1 W2] [R1 R2 R3 R4]].
  assert (0 <= i < 512) as Hi' by (unfold user_slot in Hi; lia).
  assert (is_user_pd_slot i = true) as Hslot by (by apply is_user_pd_slot_iff).
  destruct (frame_at_bounds _ _ (tk_wf _ _ H) (proj1 Hs)) as (B1 & B2 & B3).
  assert (0 <= f < 2 ^ 52) as Hf by (unfold USER_SPACE_END, USER_HEAP_LIMIT in B2; lia).
  pose proof (link_range f B1 Hf) as Hl.
  pose proof (only_frame_entry (sp_mem v) (tr_pd tr) i (link f) Hi') as Ho.
  pose proof (own_tables T v a tr RPd (tr_pd tr) _ H Ha eq_refl Ho) as Hown.
  assert (forall r g, place (add_pt tr i f) r g -> place tr r g \/ r = RPt i /\ g = f /\ spare T v f) as Hpl.
  { intros [| | | k | k l] g; simpl; try by left. destruct (decide (k = i)) as [-> | Hne].
    - rewrite lookup_insert_eq. intros [= <-]. by right.
    - rewrite lookup_insert_ne by done. by left. }
  split; [| split].
  - unfold store64. apply (trees_ok_update T v a tr _ (RPt i) f); try done.
    + split; simpl.
      * intros k pt. destruct (decide (k = i)) as [-> | Hne]; [done |]. rewrite lookup_insert_ne by done. apply W1.
      * intros k j e Hk. destruct (W2 _ _ _ Hk) as (Hp & Hrest). split; [| done].
        destruct (decide (k = i)) as [-> | Hne]; [by rewrite lookup_insert_eq |]. by rewrite lookup_insert_ne.
    + split; cbn [add_pt tr_pml4 tr_pdpt tr_pd tr_pt tr_leaf].
      * intros k Hk. rewrite (Hown RPml4) by done. by apply R1.
      * intros k Hk. rewrite (Hown RPdpt) by done. by apply R2.
      * intros k Hk. destruct (decide (k = i)) as [-> | Hne].
        { rewrite Hslot, lookup_insert_eq. by apply tbl_store. }
        rewrite tbl_store_ne by done. rewrite lookup_insert_ne by done. by apply R3.
      * intros k pt j Hk Hj. destruct (decide (k = i)) as [-> | Hne].
        { rewrite lookup_insert_eq in Hk. simplify_eq.
          rewrite (only_frame_tbl (sp_frames v) (tr_pd tr) pt j (sp_mem v) (pst64 (sp_mem v) (tr_pd tr + 8 * i) (link pt))); [ | apply (tk_wf _ _ H) | | apply Hs | | exact Ho | done].
          - rewrite Hz by done. destruct (tr_leaf tr !! (i, j)) as [e|] eqn:El; [| done].
            destruct (W2 _ _ _ El) as [[? ?] _]. congruence.
          - by destruct (tk_place _ _ H a tr RPd (tr_pd tr) Ha eq_refl).
          - intros E. destruct Hs as (_ & _ & N). apply (N a tr RPd Ha). done. }
        rewrite lookup_insert_ne in Hk by done. rewrite (Hown (RPt k)) by done. by apply (R4 k).
    + by apply (other_tables T v a tr RPd (tr_pd tr)).
  - intros g Hg Hne. by apply (spare_update T v a tr _ (RPt i) f).
  - intros X HX j Hj Hu. destruct (decide (frame_addr j = f)) as [Ej | Hne].
    + right. right. exists a, (add_pt tr i f), (RPt i). rewrite lookup_insert_eq. split; [done |]. simpl.
      by rewrite lookup_insert_eq, Ej.
    + assert (accounted (<[a := add_pt tr i f]> T) (store64 v (tr_pd tr + 8 * i) (link f)) (fun g => X g \/ g = f)) as HX'.
      { apply (accounted_update T v a tr); try done. intros r g Hg. right. exists r.
        destruct r as [| | | k | k l]; simpl in *; try done. rewrite lookup_insert_ne; [done |]. intros <-. congruence. }
      destruct (HX' j Hj Hu) as [[|] |]; [by left | done | by right].
Qed.

Lemma next_table_slot T v a tr i v' t :
  trees_ok T v -> T !! a = Some tr -> user_slot i -> next_table v (tr_pd tr + 8 * i) = (v', t) ->
  t = 0 /\ v' = v /\ tr_pt tr !! i = None \/
  exists tr', trees_ok (<[a := tr']> T) v' /\ (tr' = tr \/ tr_pt tr !! i = None /\ tr' = add_pt tr i t) /\
    tr_pt tr' !! i = Some t /\ same_rest v v' /\ (forall g, spare T v g -> spare (<[a := tr']> T) v' g) /\
    (forall g, spare T v g -> g <> t) /\ (tr' = tr -> v' = v) /\ data_kept T v v' /\
    forall X, accounted T v X -> accounted (<[a := tr']> T) v' X.
Proof.
  intros H Ha Hi E. destruct (tk_tree _ _ H _ _ Ha) as [_ [_ _ R3 _]].
  assert (0 <= i < 512) as Hi' by (unfold user_slot in Hi; lia). specialize (R3 i Hi').
  assert (is_user_pd_slot i = true) as Hslot by (by apply is_user_pd_slot_iff). rewrite Hslot in R3.
  change (tbl (sp_mem v) (tr_pd tr) i) with (load64 v (tr_pd tr + 8 * i)) in R3.
  destruct (tr_pt tr !! i) as [pt|] eqn:Ept.
  - destruct (place_bounds T v a tr (RPt i) pt H Ha Ept) as (B1 & B2 & B3).
    rewrite (next_table_link v _ pt) in E; [| done | unfold USER_SPACE_END, USER_HEAP_LIMIT in B2; lia | done].
    simplify_eq. right. exists tr. rewrite insert_id by done. split; [done |]. split; [by left |]. split; [done |].
    split; [apply same_rest_refl |]. split; [done |]. split; [| done].
    intros g (_ & _ & N) ->. apply (N a tr (RPt i) Ha). exact Ept.
  - unfold next_table in E. rewrite R3 in E. change (flag 0 PG_PRESENT) with false in E. cbn [negb] in E.
    destruct (alloc_table v) as [v1 f] eqn:E1.
    destruct (alloc_table_ok T v v1 f H E1) as [[-> ->] | (Hz & H1 & Hs & Hr & Ho & Htab & Hsp & Hu)].
    { simpl in E. simplify_eq. by left. }
    apply Z.eqb_neq in Hz as Hz'. rewrite Hz' in E.
    destruct (frame_at_bounds _ _ (tk_wf _ _ H1) (proj1 Hs)) as (B1 & B2 & B3).
    assert (0 <= f < 2 ^ 52) as Hf by (unfold USER_SPACE_END, USER_HEAP_LIMIT in B2; lia).
    fold (link f) in E. 
    assert (Z.land (load64 (store64 v1 (tr_pd tr + 8 * i) (link f)) (tr_pd tr + 8 * i)) PTE_ADDR_MASK = f) as Ef.
    { unfold load64, store64. simpl. rewrite pld64_pst64_eq by (by apply link_range). by apply link_addr. }
    rewrite Ef in E. simplify_eq. clear Ef.
    destruct (add_pt_ok T v1 a tr i t H1 Ha Hi Ept Hs Htab) as (K1 & K2 & K3).
    right. exists (add_pt tr i t). split; [done |]. split; [by right |]. split; [simpl; apply lookup_insert_eq |].
    split; [done |]. split; [intros g Hg; destruct (Hsp g Hg); by apply K2 |]. split; [intros g Hg; by apply Hsp |].
    split.
    { intros E. pose proof (f_equal tr_pt E) as E2. simpl in E2. rewrite <- E2, lookup_insert_eq in Ept. done. }
    split.
    { intros g x Hg Hx.
      assert (data_frame T v1 g /\ g <> t /\ frame_at (sp_frames v1) g) as (Hg1 & Hgt & Hga).
      { destruct Hg as [Hg | (b & tb & k & j & Hb & Hp)].
        - destruct (Hsp g Hg) as [Hg1 ?]. split; [by left |]. split; [done |]. apply Hg1.
        - split; [right; eauto 6 |]. split; [intros ->; destruct Hs as (_ & _ & N); by apply (N b tb (RLeaf k j) Hb) |].
          by destruct (tk_place _ _ H1 _ _ _ _ Hb Hp). }
      rewrite <- (Ho x).
      - apply (table_write_data T v1 a tr RPd (tr_pd tr) _ H1 Ha I eq_refl (only_frame_entry _ _ _ _ Hi') g x Hg1 Hx).
      - destruct (frame_at_apart _ _ _ (tk_wf _ _ H1) (proj1 Hs) Hga ltac:(done)); lia. }
    intros X HX. apply K3. intros j Hj Hju. rewrite Hu in Hju. apply orb_true_iff in Hju as [Ej%Z.eqb_eq | Hju].
    + left. by right.
    + destruct Hr as (Eh & _ & _ & [En _]). rewrite En in Hj. rewrite Eh.
      destruct (HX j Hj Hju) as [| [|]]; [by left; left | by right; left | by right; right].
Qed.
End Steps.
