(* ===== verification/PagingOps.v ===== *)
(** * The address-space operations keep the trees

    Mapping, unmapping, creating and destroying, each with what it does to
    the abstract trees, to spare frames and to the account of used frames. *)

From stdpp Require Import base list gmap fin_maps.
From Stdlib Require Import ZArith Lia Bool.
From S2P Require Import Prelude Frames Heap Phys Paging PagingInv.

Section Ops.
Implicit Types T : gmap Z tree.

(** ** Leaf entries *)

(** A store to one entry of a page table. *)
Lemma leaf_store T v a tr tr' i j pt x f0 :
  trees_ok T v -> T !! a = Some tr -> tr_pt tr !! i = Some pt -> 0 <= j < 512 ->
  tr' = mkTree (tr_pml4 tr) (tr_pdpt tr) (tr_pd tr) (tr_pt tr) (tr_leaf tr') -> tree_wf tr' ->
  (forall k, k <> (i, j) -> tr_leaf tr' !! k = tr_leaf tr !! k) ->
  x = default 0 (tr_leaf tr' !! (i, j)) -> 0 <= x < 2 ^ 64 ->
  (forall r f, place tr' r f -> place tr r f \/ r = RLeaf i j /\ f = f0 /\ spare T v f0) ->
  trees_ok (<[a := tr']> T) (store64 v (pt + 8 * j) x) /\
  (forall g, spare T v g -> g <> f0 -> spare (<[a := tr']> T) (store64 v (pt + 8 * j) x) g).
Proof.
  intros H Ha Hpt Hj Etr Hw Hne Ex Hx Hpl.
  destruct (tk_tree _ _ H _ _ Ha) as [[W1 W2] [R1 R2 R3 R4]].
  pose proof (only_frame_entry (sp_mem v) pt j x Hj) as Ho.
  pose proof (own_tables T v a tr (RPt i) pt _ H Ha Hpt Ho) as Hown.
  split; [| intros g Hg Hgf; by apply (spare_update T v a tr _ (RLeaf i j) f0)].
  apply (trees_ok_update T v a tr tr' (RLeaf i j) f0); try done; [| by apply (other_tables T v a tr (RPt i) pt)].
  rewrite Etr. split; cbn [tr_pml4 tr_pdpt tr_pd tr_pt].
  - intros k Hk. rewrite (Hown RPml4) by done. by apply R1.
  - intros k Hk. rewrite (Hown RPdpt) by done. by apply R2.
  - intros k Hk. rewrite (Hown RPd) by done. by apply R3.
  - intros k q l Hk Hl. cbn [tr_leaf]. destruct (decide (k = i)) as [-> | Hki].
    + assert (q = pt) as -> by congruence. destruct (decide (l = j)) as [-> | Hlj].
      * rewrite <- Ex. by apply tbl_store.
      * rewrite tbl_store_ne by done. rewrite Hne by congruence. by apply R4.
    + rewrite (Hown (RPt k)); [| congruence | done | done]. rewrite Hne by congruence. by apply R4.
Qed.

Lemma set_leaf_ok T v a tr i j pt e :
  trees_ok T v -> T !! a = Some tr -> tr_pt tr !! i = Some pt -> 0 <= j < 512 ->
  spare T v (pte_addr e) -> 0 <= e < 2 ^ 64 -> flag e PG_PRESENT = true ->
  trees_ok (<[a := set_leaf tr i j e]> T) (store64 v (pt + 8 * j) e) /\
  (forall g, spare T v g -> g <> pte_addr e -> spare (<[a := set_leaf tr i j e]> T) (store64 v (pt + 8 * j) e) g) /\
  (forall X, tr_leaf tr !! (i, j) = None -> accounted T v (fun g => X g \/ g = pte_addr e) ->
     accounted (<[a := set_leaf tr i j e]> T) (store64 v (pt + 8 * j) e) X).
Proof.
  intros H Ha Hpt Hj Hs He Hf. destruct (tk_tree _ _ H _ _ Ha) as [[W1 W2] _].
  destruct (leaf_store T v a tr (set_leaf tr i j e) i j pt e (pte_addr e)) as [K1 K2]; try done.
  - split; [done |]. simpl. intros k l x. destruct (decide ((k, l) = (i, j))) as [[= -> ->] | Hne].
    + rewrite lookup_insert_eq. intros [= <-]. split; [by rewrite Hpt |]. done.
    + rewrite lookup_insert_ne by done. apply W2.
  - intros k Hk. simpl. by rewrite lookup_insert_ne.
  - simpl. by rewrite lookup_insert_eq.
  - intros [| | | k | k l] f; simpl; try by left. destruct (decide ((k, l) = (i, j))) as [[= -> ->] | Hne].
    + rewrite lookup_insert_eq. intros (x & [= <-] & <-). by right.
    + rewrite lookup_insert_ne by done. by left.
  - split; [done |]. split; [done |]. intros X Hnone HX k Hk Hu.
    destruct (decide (frame_addr k = pte_addr e)) as [Ek | Hne].
    + right. right. exists a, (set_leaf tr i j e), (RLeaf i j). rewrite lookup_insert_eq. split; [done |].
      simpl. exists e. by rewrite lookup_insert_eq.
    + assert (accounted (<[a := set_leaf tr i j e]> T) (store64 v (pt + 8 * j) e) (fun g => X g \/ g = pte_addr e)) as HX'.
      { apply (accounted_update T v a tr); try done. intros r g Hg. right. exists r.
        destruct r as [| | | |k' l]; simpl in *; try done. destruct Hg as (x & Hx & Eg). exists x.
        rewrite lookup_insert_ne; [done |]. intros [= -> ->]. congruence. }
      destruct (HX' k Hk Hu) as [[|] |]; [by left | done | by right].
Qed.

Lemma del_leaf_ok T v a tr i j pt e :
  trees_ok T v -> T !! a = Some tr -> tr_pt tr !! i = Some pt -> 0 <= j < 512 -> tr_leaf tr !! (i, j) = Some e ->
  trees_ok (<[a := del_leaf tr i j]> T) (store64 v (pt + 8 * j) 0) /\
  (forall g, spare T v g -> spare (<[a := del_leaf tr i j]> T) (store64 v (pt + 8 * j) 0) g) /\
  spare (<[a := del_leaf tr i j]> T) (store64 v (pt + 8 * j) 0) (pte_addr e) /\
  (forall X, accounted T v X ->
     accounted (<[a := del_leaf tr i j]> T) (store64 v (pt + 8 * j) 0) (fun g => X g \/ g = pte_addr e)).
Proof.
  intros H Ha Hpt Hj He. destruct (tk_tree _ _ H _ _ Ha) as [[W1 W2] _].
  assert (forall r f, place (del_leaf tr i j) r f -> place tr r f /\ r <> RLeaf i j) as Hpl.
  { intros [| | | k | k l] f; simpl; try done. intros (x & [Hne Hx]%lookup_delete_Some & Ex).
    split; [by exists x |]. congruence. }
  assert (place tr (RLeaf i j) (pte_addr e)) as Hold by (exists e; done).
  assert (forall f0, trees_ok (<[a := del_leaf tr i j]> T) (store64 v (pt + 8 * j) 0) /\
    (forall g, spare T v g -> g <> f0 -> spare (<[a := del_leaf tr i j]> T) (store64 v (pt + 8 * j) 0) g)) as Hst.
  { intros f0. apply (leaf_store T v a tr (del_leaf tr i j) i j pt 0 f0); try done.
    - split; [done |]. simpl. intros k l x [_ Hx]%lookup_delete_Some. by apply W2.
    - intros k Hk. simpl. by rewrite lookup_delete_ne.
    - simpl. by rewrite lookup_delete_eq.
    - intros r f Hf. left. by apply Hpl. }
  split; [apply (Hst 0) |]. split; [| split].
  - intros g Hg. apply (Hst (g + 1)); [done | lia].
  - destruct (tk_place _ _ H _ _ _ _ Ha Hold) as [P1 P2]. split; [done |]. split; [done |].
    intros b tb r Hb Hr. destruct (decide (b = a)) as [-> | Hab].
    + rewrite lookup_insert_eq in Hb. simplify_eq. destruct (Hpl _ _ Hr) as [Hr' Hne].
      by destruct (tk_inj _ _ H _ _ _ _ _ _ _ Ha Hold Ha Hr').
    + rewrite lookup_insert_ne in Hb by done. by destruct (tk_inj _ _ H _ _ _ _ _ _ _ Ha Hold Hb Hr).
  - intros X HX. apply (accounted_update T v a tr); [done | |].
    + intros r f Hf. destruct (decide (r = RLeaf i j)) as [-> | Hne].
      * left. right. destruct Hf as (x & Hx & <-). congruence.
      * right. exists r. destruct r as [| | | |k l]; simpl in *; try done. destruct Hf as (x & Hx & Ex). exists x.
        rewrite lookup_delete_ne; [done |]. congruence.
    + intros k Hk Hu. destruct (HX k Hk Hu) as [|]; [left; by left | by right].
Qed.

(** ** [paging_map_page] *)

(** The tree after a page of slot [i] was mapped, its table included. *)
Definition mapped (tr tr' : tree) (i j e : Z) : Prop :=
  exists pt, (tr_pt tr !! i = Some pt /\ tr' = set_leaf tr i j e \/
              tr_pt tr !! i = None /\ tr' = set_leaf (add_pt tr i pt) i j e).

Lemma spine_walk T v a tr :
  trees_ok T v -> T !! a = Some tr ->
  next_table v (tr_pml4 tr + 8 * 0) = (v, tr_pdpt tr) /\ next_table v (tr_pdpt tr + 8 * 0) = (v, tr_pd tr) /\
  tr_pdpt tr <> 0 /\ tr_pd tr <> 0.
Proof.
  intros H Ha. destruct (tk_tree _ _ H _ _ Ha) as [_ [R1 R2 _ _]].
  destruct (place_bounds T v a tr RPdpt _ H Ha eq_refl) as (A1 & A2 & A3).
  destruct (place_bounds T v a tr RPd _ H Ha eq_refl) as (B1 & B2 & B3).
  unfold USER_SPACE_END, USER_HEAP_LIMIT in *. specialize (R1 0 ltac:(lia)). specialize (R2 0 ltac:(lia)).
  split; [apply next_table_link; [done | lia | done] |]. split; [apply next_table_link; [done | lia | done] |]. done.
Qed.

Lemma map_page_ok T v a tr va f flags v' rc :
  trees_ok T v -> T !! a = Some tr -> sp_as v !! a = Some (tr_pml4 tr) ->
  USER_REGION_START <= va < USER_SPACE_END -> spare T v f -> 0 <= flags < 4096 -> flag flags PG_PRESENT = true ->
  paging_map_page v a va f flags = (v', rc) ->
  let i := PD_INDEX va in let j := PT_INDEX va in
  rc = 1 /\ v' = v /\ tr_pt tr !! i = None \/
  rc = 0 /\ same_rest v v' /\ data_kept T v v' /\ exists tr', mapped tr tr' i j (f + flags) /\ trees_ok (<[a := tr']> T) v' /\
    (forall g, spare T v g -> g <> f -> spare (<[a := tr']> T) v' g) /\
    (forall X, tr_leaf tr !! (i, j) = None -> accounted T v (fun g => X g \/ g = f) -> accounted (<[a := tr']> T) v' X).
Proof.
  intros H Ha Has Hva Hs Hfl Hp E i j. destruct (user_indices va Hva) as (I1 & I2 & I3). fold i in I3.
  destruct (spine_walk T v a tr H Ha) as (S1 & S2 & S3 & S4).
  unfold paging_map_page in E. unfold pml4_phys in E. rewrite Has in E. simpl default in E.
  apply Z.eqb_neq in S3, S4. rewrite I1, S1, S3, I2, S2, S4 in E.
  fold i j in E. destruct (next_table v (tr_pd tr + 8 * i)) as [v1 pt] eqn:E1.
  destruct (next_table_slot T v a tr i v1 pt H Ha I3 E1) as [(-> & -> & Hn) | (tr1 & H1 & Ht1 & Hpt & Hr & Hsp & Hne & _ & Hdk & Hacc)].
  { simpl in E. simplify_eq. by left. }
  assert (<[a := tr1]> T !! a = Some tr1) as Ha1 by apply lookup_insert_eq.
  destruct (place_bounds _ v1 a tr1 (RPt i) pt H1 Ha1 Hpt) as (_ & _ & Hz). apply Z.eqb_neq in Hz as Hz'.
  rewrite Hz' in E. simplify_eq.
  destruct (frame_at_bounds _ _ (tk_wf _ _ H) (proj1 Hs)) as (B1 & B2 & B3).
  assert (0 <= f < 2 ^ 52) as Hf by (unfold USER_SPACE_END, USER_HEAP_LIMIT in B2; lia).
  assert (pte_addr (f + flags) = f) as Ef by (by apply pte_addr_add).
  assert (Z.lor (Z.land f PTE_ADDR_MASK) flags = f + flags) as Ee.
  { assert (Z.land f PTE_ADDR_MASK = f) as ->.
    { pose proof (pte_addr_add f 0 B1 Hf ltac:(lia)) as E0. by rewrite Z.add_0_r in E0. }
    by apply lor_frame. }
  rewrite Ee in *. destruct (set_leaf_ok (<[a := tr1]> T) v1 a tr1 i j pt (f + flags)) as (K1 & K2 & K3); try done.
  - apply PT_INDEX_range.
  - rewrite Ef. auto.
  - lia.
  - unfold PG_PRESENT in *. by rewrite flag_low.
  - rewrite insert_insert_eq in K1, K2, K3. rewrite Ef in K2, K3. right. split; [done |]. split; [done |]. split.
    { intros g x Hg Hx. rewrite <- (Hdk g x Hg Hx).
      apply (table_write_data _ v1 a tr1 (RPt i) pt _ H1 Ha1 I Hpt (only_frame_entry _ _ _ _ (PT_INDEX_range va)) g x); [| done].
      destruct Hg as [Hg | (b & tb & k & l & Hb & Hp')]; [left; auto | right].
      destruct (decide (b = a)) as [-> | Hba].
      - exists a, tr1, k, l. split; [done |]. simplify_eq. by destruct Ht1 as [-> | [_ ->]].
      - exists b, tb, k, l. by rewrite lookup_insert_ne. }
    exists (set_leaf tr1 i j (f + flags)). split; [| split; [done |]; split; [eauto |]].
    + exists pt. destruct Ht1 as [-> | [? ->]]; [by left | by right].
    + intros X Hnone HX. apply K3; [by destruct Ht1 as [-> | [_ ->]] |]. by apply Hacc.
Qed.

(** ** The walk *)

(** What a user address maps to in a tree. *)
Definition leaf_of (tr : tree) (va : Z) : option Z := tr_leaf tr !! (PD_INDEX va, PT_INDEX va).

Lemma flag_zero b : flag 0 b = false.
Proof. unfold flag. by rewrite Z.land_0_l. Qed.

(** The two upper levels, read as [lookup_pte] and the processor do. *)
Lemma spine_entries T v a tr :
  trees_ok T v -> T !! a = Some tr ->
  pld64 (sp_mem v) (tr_pml4 tr + 8 * 0) = link (tr_pdpt tr) /\ flag (link (tr_pdpt tr)) PG_PRESENT = true /\
  Z.land (link (tr_pdpt tr)) PTE_ADDR_MASK = tr_pdpt tr /\
  pld64 (sp_mem v) (tr_pdpt tr + 8 * 0) = link (tr_pd tr) /\ flag (link (tr_pd tr)) PG_PRESENT = true /\
  Z.land (link (tr_pd tr)) PTE_ADDR_MASK = tr_pd tr.
Proof.
  intros H Ha. destruct (tk_tree _ _ H _ _ Ha) as [_ [R1 R2 _ _]].
  destruct (place_bounds T v a tr RPdpt _ H Ha eq_refl) as (A1 & A2 & A3).
  destruct (place_bounds T v a tr RPd _ H Ha eq_refl) as (B1 & B2 & B3).
  unfold USER_SPACE_END, USER_HEAP_LIMIT in *.
  split; [exact (R1 0 ltac:(lia)) |]. split; [by apply link_flags |]. split; [apply link_addr; [done | lia] |].
  split; [exact (R2 0 ltac:(lia)) |]. split; [by apply link_flags |]. apply link_addr; [done | lia].
Qed.

Lemma slot_entry T v a tr i :
  trees_ok T v -> T !! a = Some tr -> user_slot i ->
  pld64 (sp_mem v) (tr_pd tr + 8 * i) = match tr_pt tr !! i with Some pt => link pt | None => 0 end.
Proof.
  intros H Ha Hi. destruct (tk_tree _ _ H _ _ Ha) as [_ [_ _ R3 _]]. specialize (R3 i).
  unfold tbl in R3. rewrite R3 by (unfold user_slot in Hi; lia). apply is_user_pd_slot_iff in Hi. by rewrite Hi.
Qed.

Lemma walk_user T v a tr va :
  trees_ok T v -> T !! a = Some tr -> USER_REGION_START <= va < USER_SPACE_END ->
  walk (sp_mem v) (tr_pml4 tr) va = match leaf_of tr va with Some e => Some (e, FRAME_SIZE) | None => None end.
Proof.
  intros H Ha Hva. destruct (user_indices va Hva) as (I1 & I2 & I3).
  destruct (spine_entries T v a tr H Ha) as (E1 & F1 & A1 & E2 & F2 & A2).
  destruct (tk_tree _ _ H _ _ Ha) as [[_ W2] [_ _ _ R4]].
  unfold walk, leaf_of. rewrite I1, I2, E1, F1, A1, E2, F2, A2. simpl negb. cbv iota.
  rewrite (slot_entry T v a tr _ H Ha I3). destruct (tr_pt tr !! PD_INDEX va) as [pt|] eqn:Ept.
  - destruct (place_bounds T v a tr (RPt (PD_INDEX va)) pt H Ha Ept) as (B1 & B2 & _).
    destruct (link_flags pt B1) as [-> ->]. simpl negb. cbv iota.
    rewrite link_addr by (done || unfold USER_SPACE_END, USER_HEAP_LIMIT in B2; lia).
    fold (tbl (sp_mem v) pt (PT_INDEX va)). rewrite (R4 _ _ _ Ept (PT_INDEX_range va)).
    destruct (tr_leaf tr !! _) as [e|] eqn:El; simpl default; [| by rewrite flag_zero].
    by destruct (W2 _ _ _ El) as (_ & _ & _ & ->).
  - rewrite flag_zero. simpl. destruct (tr_leaf tr !! _) as [e|] eqn:El; [| done].
    destruct (W2 _ _ _ El) as [[? ?] _]. congruence.
Qed.

Lemma lookup_pte_user T v a tr va :
  trees_ok T v -> T !! a = Some tr -> sp_as v !! a = Some (tr_pml4 tr) -> USER_REGION_START <= va < USER_SPACE_END ->
  lookup_pte v a va = match tr_pt tr !! PD_INDEX va with Some pt => pt + 8 * PT_INDEX va | None => NULL end.
Proof.
  intros H Ha Has Hva. destruct (user_indices va Hva) as (I1 & I2 & I3).
  destruct (spine_entries T v a tr H Ha) as (E1 & F1 & A1 & E2 & F2 & A2).
  unfold lookup_pte, pml4_phys, load64. rewrite Has. simpl default.
  rewrite I1, I2, E1, F1, A1, E2, F2, A2. simpl negb. cbv iota.
  rewrite (slot_entry T v a tr _ H Ha I3). destruct (tr_pt tr !! PD_INDEX va) as [pt|] eqn:Ept.
  - destruct (place_bounds T v a tr (RPt (PD_INDEX va)) pt H Ha Ept) as (B1 & B2 & _).
    destruct (link_flags pt B1) as [-> ->]. simpl.
    by rewrite link_addr by (done || unfold USER_SPACE_END, USER_HEAP_LIMIT in B2; lia).
  - by rewrite flag_zero.
Qed.

(** ** Unmapping *)

Lemma del_leaf_none tr i j : tr_leaf tr !! (i, j) = None -> del_leaf tr i j = tr.
Proof. intros H. unfold del_leaf. rewrite delete_id by done. by destruct tr. Qed.

(** The relation between the states around an operation on the tree of [a]. *)
Record step_ok (T T' : gmap Z tree) (v v' : space) : Prop := {
  st_ok : trees_ok T' v';
  st_rest : same_rest v v';
  st_spare : forall g, spare T v g -> spare T' v' g;
  st_data : data_kept T v v'
}.

Lemma step_refl T v : trees_ok T v -> step_ok T T v v.
Proof. intros H. by split. Qed.

Lemma unmap_page_ok T v a tr va :
  trees_ok T v -> T !! a = Some tr -> sp_as v !! a = Some (tr_pml4 tr) -> USER_REGION_START <= va < USER_SPACE_END ->
  let T' := <[a := del_leaf tr (PD_INDEX va) (PT_INDEX va)]> T in
  step_ok T T' v (unmap_page v a va) /\ forall X, accounted T v X -> accounted T' (unmap_page v a va) X.
Proof.
  intros H Ha Has Hva. simpl. set (i := PD_INDEX va). set (j := PT_INDEX va).
  destruct (tk_tree _ _ H _ _ Ha) as [[_ W2] [_ _ _ R4]].
  unfold unmap_page. rewrite (lookup_pte_user T v a tr va H Ha Has Hva). fold i j.
  assert (tr_leaf tr !! (i, j) = None -> step_ok T (<[a := del_leaf tr i j]> T) v v /\
    forall X, accounted T v X -> accounted (<[a := del_leaf tr i j]> T) v X) as Hnop.
  { intros Hn. rewrite del_leaf_none, insert_id by done. split; [by apply step_refl | done]. }
  destruct (tr_pt tr !! i) as [pt|] eqn:Ept.
  2: { simpl. apply Hnop. destruct (tr_leaf tr !! (i, j)) as [e|] eqn:El; [| done].
       destruct (W2 _ _ _ El) as [[? ?] _]. congruence. }
  destruct (place_bounds T v a tr (RPt i) pt H Ha Ept) as (B1 & B2 & B3).
  pose proof (PT_INDEX_range va) as Hj. fold j in Hj.
  assert (pt + 8 * j <> NULL) as Hnn by (unfold NULL, USER_SPACE_END, USER_HEAP_LIMIT in *; lia).
  apply Z.eqb_neq in Hnn as ->. simpl orb. unfold load64. fold (tbl (sp_mem v) pt j). rewrite (R4 _ _ _ Ept Hj).
  destruct (tr_leaf tr !! (i, j)) as [e|] eqn:El; simpl default; [| rewrite flag_zero; simpl; by apply Hnop].
  destruct (W2 _ _ _ El) as (_ & _ & _ & ->). simpl negb. cbv iota. clear Hnop.
  destruct (del_leaf_ok T v a tr i j pt e H Ha Ept Hj El) as (K1 & K2 & K3 & K4).
  change (store64 (sp_free_frame v (Z.land e PTE_ADDR_MASK)) (pt + 8 * j) 0)
    with (sp_free_frame (store64 v (pt + 8 * j) 0) (pte_addr e)).
  destruct (free_spare _ _ _ K1 K3) as (F1 & F2 & F3 & F4). split.
  - split; [done | done | |].
    + intros g Hg. apply F3; [| by apply K2]. intros ->. destruct Hg as (_ & _ & N). apply (N a tr (RLeaf i j) Ha). by exists e.
    + exact (table_write_data T v a tr (RPt i) pt _ H Ha I Ept (only_frame_entry _ _ _ _ Hj)).
  - intros X HX. apply accounted_free; auto.
Qed.

(** Memory changes at most in the tables of [T]. *)
Definition tables_only (T : gmap Z tree) (v v' : space) : Prop :=
  forall x, (forall a tr r f, T !! a = Some tr -> is_table r -> place tr r f -> x < f \/ f + 4096 <= x) ->
    pld8 (sp_mem v') x = pld8 (sp_mem v) x.

Lemma tables_only_data T v v' : trees_ok T v -> tables_only T v v' -> data_kept T v v'.
Proof.
  intros H Ht f x Hf Hx. apply Ht. intros a tr r g Ha Hr Hg. destruct (tk_place _ _ H _ _ _ _ Ha Hg) as [Hg' _].
  assert (frame_at (sp_frames v) f /\ f <> g) as [Hf' Hne].
  { destruct Hf as [(S1 & _ & S3) | (b & tb & i & j & Hb & Hp)].
    - split; [done |]. intros ->. by apply (S3 a tr r).
    - split; [by destruct (tk_place _ _ H _ _ _ _ Hb Hp) |]. intros ->.
      destruct (tk_inj _ _ H _ _ _ _ _ _ _ Ha Hg Hb Hp) as [_ ->]. done. }
  destruct (frame_at_apart _ _ _ (tk_wf _ _ H) Hf' Hg' Hne); lia.
Qed.

(** Trees with the same tables. *)
Lemma tables_only_trans T a tr tr' v v1 v2 :
  T !! a = Some tr -> (forall r f, is_table r -> place tr' r f -> place tr r f) ->
  tables_only T v v1 -> tables_only (<[a := tr']> T) v1 v2 -> tables_only T v v2.
Proof.
  intros Ha Hp H1 H2 x Hx. rewrite <- (H1 x Hx). apply H2. intros b tb r f Hb Hr Hf.
  destruct (decide (b = a)) as [-> | Hne].
  - rewrite lookup_insert_eq in Hb. simplify_eq. apply (Hx a tr r f Ha Hr). auto.
  - rewrite lookup_insert_ne in Hb by done. by apply (Hx b tb r f).
Qed.

Lemma table_write T v a tr r f m' :
  T !! a = Some tr -> is_table r -> place tr r f -> only_frame f (sp_mem v) m' -> tables_only T v (set_smem v m').
Proof. intros Ha Hr Hf Ho x Hx. apply Ho. by apply (Hx a tr r f). Qed.

Lemma unmap_page_tables T v a tr va :
  trees_ok T v -> T !! a = Some tr -> sp_as v !! a = Some (tr_pml4 tr) -> USER_REGION_START <= va < USER_SPACE_END ->
  tables_only T v (unmap_page v a va).
Proof.
  intros H Ha Has Hva. unfold unmap_page. destruct (_ || _) eqn:E; [done |].
  revert E. rewrite (lookup_pte_user T v a tr va H Ha Has Hva).
  destruct (tr_pt tr !! PD_INDEX va) as [pt|] eqn:Ept; [intros _ | done].
  exact (table_write T v a tr (RPt (PD_INDEX va)) pt _ Ha I Ept (only_frame_entry _ _ _ _ (PT_INDEX_range va))).
Qed.

(** ** Ranges *)

(** [k] pages from [base] on, as positions in a tree. *)
Definition in_pages (base k : Z) (p : Z * Z) : Prop :=
  exists n, 0 <= n < k /\ p = (PD_INDEX (base + n * FRAME_SIZE), PT_INDEX (base + n * FRAME_SIZE)).

#[export] Instance in_pages_dec base k p : Decision (in_pages base k p).
Proof.
  refine (cast_if (decide (Exists (fun i => p = (PD_INDEX (base + i * FRAME_SIZE), PT_INDEX (base + i * FRAME_SIZE))) (seqZ 0 k))));
    rewrite Exists_exists in *.
  - destruct e as (i & Hi%elem_of_seqZ & E). exists i. split; [lia | done].
  - intros (i & Hi & E). apply n. exists i. split; [apply elem_of_seqZ; lia | done].
Defined.

Definition same_spine (tr tr' : tree) : Prop :=
  tr_pml4 tr' = tr_pml4 tr /\ tr_pdpt tr' = tr_pdpt tr /\ tr_pd tr' = tr_pd tr.

(** [tr'] is [tr] without the pages of the range. *)
Definition without (tr tr' : tree) (base k : Z) : Prop :=
  same_spine tr tr' /\ tr_pt tr' = tr_pt tr /\
  forall p, (in_pages base k p -> tr_leaf tr' !! p = None) /\ (~ in_pages base k p -> tr_leaf tr' !! p = tr_leaf tr !! p).

Lemma in_pages_succ base k p : 0 <= k ->
  in_pages base (k + 1) p <->
  in_pages base k p \/ p = (PD_INDEX (base + k * FRAME_SIZE), PT_INDEX (base + k * FRAME_SIZE)).
Proof.
  intros Hk. split.
  - intros (n & Hn & E). destruct (decide (n = k)) as [-> | Hne]; [by right |]. left. exists n. split; [lia | done].
  - intros [(n & Hn & E) | E]; [exists n | exists k]; split; try done; lia.
Qed.

Lemma without_succ tr tr1 base k : 0 <= k ->
  without tr tr1 base k ->
  without tr (del_leaf tr1 (PD_INDEX (base + k * FRAME_SIZE)) (PT_INDEX (base + k * FRAME_SIZE))) base (k + 1).
Proof.
  intros Hk (S & P & L). split; [done |]. split; [done |]. intros p. rewrite in_pages_succ by done. simpl.
  destruct (L p) as [L1 L2]. split.
  - intros [Hp | ->]; [| apply lookup_delete_eq]. destruct (decide (p = (PD_INDEX (base + k * FRAME_SIZE), PT_INDEX (base + k * FRAME_SIZE)))) as [-> |].
    + apply lookup_delete_eq.
    + rewrite lookup_delete_ne by done. auto.
  - intros Hp. rewrite lookup_delete_ne by (intros <-; tauto). apply L2. tauto.
Qed.

Lemma unmap_range_ok T v a tr base n :
  trees_ok T v -> T !! a = Some tr -> sp_as v !! a = Some (tr_pml4 tr) ->
  USER_REGION_START <= base -> base + Z.of_nat n * FRAME_SIZE <= USER_SPACE_END ->
  let v' := for_range n 0 (fun k v => unmap_page v a (base + k * FRAME_SIZE)) v in
  exists tr', without tr tr' base (Z.of_nat n) /\ trees_ok (<[a := tr']> T) v' /\ same_rest v v' /\
    (forall g, spare T v g -> spare (<[a := tr']> T) v' g) /\ tables_only T v v' /\
    (forall X, accounted T v X -> accounted (<[a := tr']> T) v' X).
Proof.
  intros H Ha Has Hlo Hhi.
  pose proof (for_range_ind (fun k s => exists tr', without tr tr' base k /\ trees_ok (<[a := tr']> T) s /\ same_rest v s /\
    (forall g, spare T v g -> spare (<[a := tr']> T) s g) /\ tables_only T v s /\
    (forall X, accounted T v X -> accounted (<[a := tr']> T) s X))
    (fun k v => unmap_page v a (base + k * FRAME_SIZE)) n 0 v) as Hind.
  apply Hind; clear Hind.
  - exists tr. rewrite insert_id by done. split; [| done]. split; [done |]. split; [done |].
    intros p. split; [intros (k & Hk & _); lia | done].
  - intros k s Hk (tr1 & W & H1 & R1 & S1 & M1 & A1). pose proof W as (Sp & Ep & _).
    assert (<[a := tr1]> T !! a = Some tr1) as Ha1 by apply lookup_insert_eq.
    pose proof R1 as (_ & Eas & _). destruct Sp as (Sp & _).
    assert (sp_as s !! a = Some (tr_pml4 tr1)) as Has1 by congruence.
    assert (USER_REGION_START <= base + k * FRAME_SIZE < USER_SPACE_END) as Hva by (unfold FRAME_SIZE in *; lia).
    destruct (unmap_page_ok _ s a tr1 _ H1 Ha1 Has1 Hva) as ([K1 K2 K3 K4] & K6).
    rewrite insert_insert_eq in K1, K3, K6. eexists. split; [apply without_succ; [lia | exact W] |].
    split; [exact K1 |]. split; [by eapply same_rest_trans |]. split; [auto |]. split; [| auto].
    apply (tables_only_trans T a tr tr1 v s); [done | | done |].
    + intros r f Hr Hf. destruct W as ((E1 & E2 & E3) & E4 & _). destruct r; simpl in *; congruence || done.
    + by apply (unmap_page_tables _ s a tr1).
Qed.

Lemma page_of_range base k n : 0 <= k < n -> base mod FRAME_SIZE = 0 ->
  USER_REGION_START <= base -> base + n * FRAME_SIZE <= USER_SPACE_END ->
  ~ in_pages base k (PD_INDEX (base + k * FRAME_SIZE), PT_INDEX (base + k * FRAME_SIZE)).
Proof.
  intros Hk Hal Hlo Hhi (j & Hj & [= E1 E2]).
  pose proof (page_unique (base + k * FRAME_SIZE) (base + j * FRAME_SIZE)) as Hu.
  unfold FRAME_SIZE in *. specialize (Hu ltac:(lia) ltac:(lia) E1 E2). revert Hu. mlia.
Qed.

Lemma mapped_spine tr tr' i j e : mapped tr tr' i j e ->
  same_spine tr tr' /\ tr_leaf tr' = <[(i, j) := e]> (tr_leaf tr).
Proof. intros (pt & [[_ ->] | [_ ->]]); done. Qed.

(** A page of zeroes. *)
Definition zeroed (v : space) (f : Z) : Prop := forall x, f <= x < f + 4096 -> pld8 (sp_mem v) x = 0.

Lemma data_kept_zeroed T v v' f : data_kept T v v' -> data_frame T v f -> zeroed v f -> zeroed v' f.
Proof. intros Hk Hf Hz x Hx. rewrite (Hk f x Hf Hx). by apply Hz. Qed.

(** Allocating a frame and zeroing it. *)
Lemma alloc_zero_ok T v v1 f :
  trees_ok T v -> sp_alloc_frame v = (v1, f) -> f <> 0 ->
  let v2 := set_smem v1 (pfill (sp_mem v1) f FRAME_SIZE 0) in
  trees_ok T v2 /\ same_rest v v2 /\ spare T v2 f /\ zeroed v2 f /\ data_kept T v v2 /\
  (forall g, spare T v g -> spare T v2 g /\ g <> f) /\
  (forall X, accounted T v X -> accounted T v2 (fun g => X g \/ g = f)).
Proof.
  intros H E Hz. destruct (alloc_spare T v v1 f H E) as [[-> _] | (_ & H1 & Hs & Hr & Em & Hg & Hu)]; [done |].
  assert (only_frame f (sp_mem v1) (pfill (sp_mem v1) f FRAME_SIZE 0)) as Ho by apply only_frame_fill.
  split; [by apply (write_spare T v1 f) |]. split; [done |]. split; [done |]. split; [| split; [| split; [done |]]].
  - intros x Hx. simpl. rewrite pld8_pfill by (unfold FRAME_SIZE; lia).
    by replace ((f <=? x) && (x <? f + FRAME_SIZE)) with true by (unfold FRAME_SIZE; zcases; simpl; done || lia).
  - intros g x Hgd Hx. rewrite <- Em. apply Ho.
    assert (frame_at (sp_frames v1) g /\ g <> f) as [Hga Hne].
    { destruct Hgd as [Hgs | (b & tb & i & j & Hb & Hp)].
      - destruct (Hg g Hgs) as [[? _] ?]. done.
      - split; [by destruct (tk_place _ _ H1 _ _ _ _ Hb Hp) |]. intros ->. destruct Hs as (_ & _ & N). by apply (N b tb _ Hb Hp). }
    destruct (frame_at_apart _ _ _ (tk_wf _ _ H1) Hga (proj1 Hs) Hne); lia.
  - intros X HX i Hi Hui. simpl in *. rewrite Hu in Hui. destruct Hr as (Eh & _ & _ & [En _]). rewrite En in Hi. rewrite Eh.
    apply orb_true_iff in Hui as [Ei%Z.eqb_eq | Hui]; [left; by right |].
    destruct (HX i Hi Hui) as [| [|]]; [left; by left | by right; left | by right; right].
Qed.

(** What the loop of [paging_map_user_range] establishes from the turn on
    at which [k] of its [k + n] pages are mapped. *)
Definition range_post T v a tr base (k n : Z) v' (rc : Z) : Prop :=
  exists tr', let T' := <[a := tr']> T in
    trees_ok T' v' /\ same_rest v v' /\ (forall g, spare T v g -> spare T' v' g) /\ same_spine tr tr' /\
    (forall p, ~ in_pages base (k + n) p -> tr_leaf tr' !! p = tr_leaf tr !! p) /\ (rc = 0 \/ rc = -1) /\
    ((forall p, in_pages base (k + n) p -> ~ in_pages base k p -> tr_leaf tr !! p = None) ->
       data_kept T v v' /\ (forall X, accounted T v X -> accounted T' v' X) /\
       (rc = -1 -> forall p, in_pages base (k + n) p -> tr_leaf tr' !! p = None) /\
       (rc = 0 -> (forall p, in_pages base k p -> tr_leaf tr' !! p = tr_leaf tr !! p) /\
          forall p, in_pages base (k + n) p -> ~ in_pages base k p -> exists f,
            tr_leaf tr' !! p = Some (f + USER_HEAP_PAGE_FLAGS) /\ f mod 4096 = 0 /\ 0 <= f < 2 ^ 52 /\ zeroed v' f)).

Lemma in_pages_mono base k n p : k <= n -> in_pages base k p -> in_pages base n p.
Proof. intros Hk (j & Hj & E). exists j. split; [lia | done]. Qed.

(** The loop gives up: the pages mapped so far are unmapped. *)
Lemma range_unwind T v0 v a tr base k n :
  trees_ok T v -> T !! a = Some tr -> sp_as v !! a = Some (tr_pml4 tr) -> 0 <= k <= n ->
  USER_REGION_START <= base -> base + n * FRAME_SIZE <= USER_SPACE_END -> base mod FRAME_SIZE = 0 ->
  same_rest v0 v -> (forall g, spare T v0 g -> spare T v g) -> data_kept T v0 v ->
  (forall f, data_frame T v0 f -> data_frame T v f) ->
  (forall X, accounted T v0 X -> accounted T v X) ->
  range_post T v0 a tr base k (n - k) (paging_unmap_user_range v a base (k * FRAME_SIZE)) (-1).
Proof.
  intros H Ha Has Hk Hlo Hhi Hal Hr Hsp Hdk Hdf Hacc.
  assert (pages base (k * FRAME_SIZE) = Z.to_nat k) as Epg.
  { unfold pages. unfold USER_REGION_START, USER_CODE_BASE, USER_SPACE_END, USER_HEAP_LIMIT in *.
    rewrite u64_small by (unfold FRAME_SIZE in *; lia). f_equal. unfold FRAME_SIZE. mlia. }
  unfold paging_unmap_user_range. rewrite Epg.
  destruct (unmap_range_ok T v a tr base (Z.to_nat k) H Ha Has Hlo) as (tr' & W & K1 & K2 & K3 & K4 & K5).
  { rewrite Z2Nat.id by lia. unfold FRAME_SIZE in *. lia. }
  rewrite Z2Nat.id in W by lia. destruct W as (Wsp & Wpt & Wl).
  exists tr'. simpl. replace (k + (n - k)) with n by lia. split; [done |]. split; [by eapply same_rest_trans |].
  split; [auto |]. split; [done |]. split; [| split; [by right |]].
  - intros p Hp. apply Wl. intros Hp'. apply Hp. apply (in_pages_mono base k); [lia | done].
  - intros Hfresh. split; [| split; [auto |]; split; [| done]].
    + intros f x Hf Hx. rewrite <- (Hdk f x Hf Hx). apply (tables_only_data T v _ H K4 f x); auto.
    + intros _ p Hp. destruct (Wl p) as [W1 W2].
      destruct (decide (in_pages base k p)) as [Hin | Hout]; [auto |]. rewrite W2 by done. auto.
Qed.

(** One page was mapped at turn [k]; the rest of the loop follows. *)
Lemma range_step T v v2 v3 a tr tr1 base k n f v' rc :
  trees_ok T v -> T !! a = Some tr -> 0 <= k -> 0 <= n -> base mod FRAME_SIZE = 0 ->
  USER_REGION_START <= base -> base + (k + 1 + n) * FRAME_SIZE <= USER_SPACE_END ->
  trees_ok T v2 -> same_rest v v2 -> spare T v2 f -> zeroed v2 f -> data_kept T v v2 -> (forall g, spare T v g -> spare T v2 g /\ g <> f) ->
  (forall X, accounted T v X -> accounted T v2 (fun g => X g \/ g = f)) ->
  let pos := (PD_INDEX (base + k * FRAME_SIZE), PT_INDEX (base + k * FRAME_SIZE)) in
  mapped tr tr1 pos.1 pos.2 (f + USER_HEAP_PAGE_FLAGS) -> same_rest v2 v3 -> data_kept T v2 v3 ->
  trees_ok (<[a := tr1]> T) v3 ->
  (forall g, spare T v2 g -> g <> f -> spare (<[a := tr1]> T) v3 g) ->
  (forall X, tr_leaf tr !! pos = None -> accounted T v2 (fun g => X g \/ g = f) -> accounted (<[a := tr1]> T) v3 X) ->
  range_post (<[a := tr1]> T) v3 a tr1 base (k + 1) n v' rc ->
  range_post T v a tr base k (1 + n) v' rc.
Proof.
  intros H Ha Hk Hn Hal Hlo Hhi H2 R2 Hs Hz Hd2 Hsp2 Hacc2 pos Hm R3 Hd3 H1 Hsp3 Hacc3 (tr' & K1 & K2 & K3 & K4 & K5 & Krc & K6).
  rewrite insert_insert_eq in K1, K3, K6. destruct (mapped_spine _ _ _ _ _ Hm) as [Hspine Hleaf].
  change (pos.1, pos.2) with pos in Hleaf. replace (k + 1 + n) with (k + (1 + n)) in * by lia.
  pose proof (page_of_range base k (k + (1 + n)) ltac:(lia) Hal Hlo Hhi) as Hnew. fold pos in Hnew.
  assert (in_pages base (k + (1 + n)) pos) as Hin by (exists k; split; [lia | done]).
  exists tr'. cbv zeta. split; [done |]. split; [by eapply same_rest_trans, same_rest_trans |].
  split; [intros g Hg; destruct (Hsp2 g Hg); auto |]. split.
  { destruct Hspine as (? & ? & ?), K4 as (? & ? & ?). repeat split; congruence. }
  split; [| split; [done |]].
  { intros p Hp. rewrite K5 by done. rewrite Hleaf, lookup_insert_ne by (by intros <-). done. }
  intros Hfresh. assert (tr_leaf tr !! pos = None) as Hnone by auto.
  destruct K6 as (D & A & F1 & F0).
  { intros p Hp Hp'. rewrite in_pages_succ in Hp' by lia. rewrite Hleaf, lookup_insert_ne; [auto |]. intros <-. tauto. }
  assert (forall g, data_frame T v g -> data_frame T v2 g /\ g <> f) as Hdf2.
  { intros g [Hg | Hg]; [destruct (Hsp2 g Hg); split; [by left | done] |]. split; [by right |]. intros ->.
    destruct Hg as (b & tb & i & j & Hb & Hp), Hs as (_ & _ & N). by apply (N b tb _ Hb Hp). }
  assert (forall g, data_frame T v2 g -> g <> f -> data_frame (<[a := tr1]> T) v3 g) as Hdf3.
  { intros g [Hg | (b & tb & i & j & Hb & e & He & Eg)] Hne; [left; auto | right].
    destruct (decide (b = a)) as [-> | Hba].
    - simplify_eq. exists a, tr1, i, j. rewrite lookup_insert_eq. split; [done |]. exists e.
      rewrite Hleaf, lookup_insert_ne; [done |]. intros Eq. rewrite Eq in Hnone. congruence.
    - exists b, tb, i, j. rewrite lookup_insert_ne by done. split; [done |]. by exists e. }
  split; [| split; [| split; [done |]]].
  - intros g x Hg Hx. destruct (Hdf2 g Hg) as [Hg2 Hne]. rewrite <- (Hd2 g x Hg Hx), <- (Hd3 g x Hg2 Hx). apply (D g x); auto.
  - intros X HX. apply A, Hacc3; auto.
  - intros Hrc. destruct (F0 Hrc) as [G1 G2]. split.
    + intros p Hp. rewrite G1 by (rewrite in_pages_succ by lia; by left). rewrite Hleaf, lookup_insert_ne; [done |]. by intros <-.
    + intros p Hp Hnp. destruct (decide (p = pos)) as [-> | Hne].
      * exists f. rewrite G1 by (rewrite in_pages_succ by lia; by right). rewrite Hleaf, lookup_insert_eq.
        destruct (frame_at_bounds _ _ (tk_wf _ _ H2) (proj1 Hs)) as (B1 & B2 & _).
        assert (0 <= f < 2 ^ 52) as Hf by (unfold USER_SPACE_END, USER_HEAP_LIMIT in B2; lia).
        do 3 (split; [done |]). apply (data_kept_zeroed _ _ _ _ D); [| apply (data_kept_zeroed _ _ _ _ Hd3); [by left | done]].
        right. exists a, tr1, pos.1, pos.2. rewrite lookup_insert_eq. split; [done |]. exists (f + USER_HEAP_PAGE_FLAGS).
        rewrite Hleaf, lookup_insert_eq. split; [done |]. by apply pte_addr_add.
      * apply G2; [done |]. rewrite in_pages_succ by lia. tauto.
Qed.

Lemma map_range_loop_ok n : forall T v a tr base k v' rc,
  trees_ok T v -> T !! a = Some tr -> sp_as v !! a = Some (tr_pml4 tr) -> 0 <= k -> base mod FRAME_SIZE = 0 ->
  USER_REGION_START <= base -> base + (k + Z.of_nat n) * FRAME_SIZE <= USER_SPACE_END ->
  map_range_loop n v a base (k * FRAME_SIZE) = (v', rc) -> range_post T v a tr base k (Z.of_nat n) v' rc.
Proof.
  induction n as [|n IH]; intros T v a tr base k v' rc H Ha Has Hk Hal Hlo Hhi E.
  { simpl in E. simplify_eq. exists tr. cbv zeta. rewrite insert_id by done. change (Z.of_nat 0) with 0. rewrite Z.add_0_r.
    do 3 (split; [done |]). split; [done |]. split; [done |]. split; [by left |]. intros _. done. }
  rewrite Nat2Z.inj_succ in *. replace (Z.succ (Z.of_nat n)) with (1 + Z.of_nat n) in * by lia.
  replace (1 + Z.of_nat n) with (k + (1 + Z.of_nat n) - k) at 1 by lia.
  cbn [map_range_loop] in E. destruct (sp_alloc_frame v) as [v1 f] eqn:E1.
  destruct (Z.eqb_spec f 0) as [-> | Hz].
  { destruct (alloc_spare T v v1 0 H E1) as [[_ ->] | [? _]]; [| done]. simplify_eq. apply range_unwind; try done. lia. }
  destruct (alloc_zero_ok T v v1 f H E1 Hz) as (H2 & R2 & Hs & Hzero & Hd2 & Hsp2 & Hacc2).
  set (v2 := set_smem v1 (pfill (sp_mem v1) f FRAME_SIZE 0)) in *. clearbody v2.
  destruct (paging_map_page v2 a (base + k * FRAME_SIZE) f USER_HEAP_PAGE_FLAGS) as [v3 rc1] eqn:E2.
  assert (sp_as v2 !! a = Some (tr_pml4 tr)) as Has2 by (destruct R2 as (_ & -> & _); done).
  assert (USER_REGION_START <= base + k * FRAME_SIZE < USER_SPACE_END) as Hva by (unfold FRAME_SIZE in *; lia).
  destruct (map_page_ok T v2 a tr _ f USER_HEAP_PAGE_FLAGS v3 rc1 H2 Ha Has2 Hva Hs ltac:(done) ltac:(done) E2)
    as [(-> & -> & _) | (-> & R3 & Hd3 & tr1 & Hm & H3 & Hsp3 & Hacc3)].
  - simpl in E. simplify_eq. destruct (free_spare T v2 f H2 Hs) as (F1 & F2 & F3 & _).
    apply range_unwind; try done; try lia.
    + by eapply same_rest_trans.
    + intros g Hg. destruct (Hsp2 g Hg). by apply F3.
    + intros g [Hg | Hg]; [left | by right]. destruct (Hsp2 g Hg). by apply F3.
    + intros X HX. apply accounted_free; auto.
  - simpl in E. replace (k * FRAME_SIZE + FRAME_SIZE) with ((k + 1) * FRAME_SIZE) in E by lia.
    replace (k + (1 + Z.of_nat n) - k) with (1 + Z.of_nat n) by lia.
    destruct (mapped_spine _ _ _ _ _ Hm) as [(Hsp & _) _].
    eapply (range_step T v v2 v3 a tr tr1 base k (Z.of_nat n) f); try done; try lia.
    apply (IH _ v3 a tr1); try done; try lia.
    + apply lookup_insert_eq.
    + destruct R3 as (_ & -> & _). by rewrite Hsp.
Qed.
End Ops.
