(* ===== verification/PagingLife.v ===== *)
(** * Creating and destroying address spaces

    The operations of [kernel/paging.c] that also use the kernel heap, over
    the whole state: [space_inv] adds to [trees_ok] that the heap is well
    formed with the payloads [L] live, that the handles are exactly the
    trees, and that every handle is one of the live payloads. *)

From stdpp Require Import base list gmap fin_maps.
From Stdlib Require Import ZArith Lia Bool.
From S2P Require Import Prelude Frames Heap HeapSpec Phys Paging PagingInv PagingOps.

Record space_inv (T : gmap Z tree) (L : list (Z * Z)) (v : space) : Prop := {
  si_trees : trees_ok T v;
  si_heap : heap_live (sp_heap v) L;
  si_sent : Forall (fun a => a < heap_start (sp_heap v)) (sentinels (sp_heap v));
  si_as : sp_as v = tr_pml4 <$> T;
  si_live : forall a tr, T !! a = Some tr -> a ∈ L.*1
}.

(** ** The heap's use of the pool *)

(** What [kmalloc] does to the pool: nothing, or it takes the free frames
    right above the heap. *)
Definition heap_grew (fs fs' : frames) (h h' : heap) : Prop :=
  heap_end h' = heap_end h /\ (forall j, used fs' j = used fs j) \/
  exists s n, heap_end h = frame_addr s /\ heap_end h' = heap_end h + n * FRAME_SIZE /\ 0 <= s /\ 0 < n /\
    s + n <= num_frames fs /\ free_run fs s n /\
    forall j, used fs' j = (s <=? j) && (j <? s + n) || used fs j.

Lemma el_append_frames fs h L npages fs' h' rc :
  heap_live h L -> frames_wf fs -> HEAP_GROW_PAGES <= npages < 2 ^ 31 ->
  Forall (fun a => a < heap_start h) (sentinels h) ->
  el_append_pages_to_heap fs h npages = (fs', h', rc) ->
  frames_wf fs' /\ same_pool fs fs' /\ heap_grew fs fs' h h'.
Proof.
  intros Hl Hw Hn Hse E.
  destruct (el_append_live (laws := frame_slab_laws) fs h L npages Hl Hw Hn Hse)
    as (fs1 & h1 & rc1 & E' & W & _ & _ & _ & Hcase). rewrite E in E'. simplify_eq. split; [done |].
  destruct Hcase as [(_ & -> & [Hp Hu]) | (-> & Hend & _)]; [split; [done |]; by left |].
  unfold el_append_pages_to_heap in E. unfold HEAP_GROW_PAGES in Hn.
  cbn [slab_get frame_slabs slab_fail slab_release] in E. rewrite u32_small in E by lia.
  destruct (alloc_contiguous_cases fs npages Hw ltac:(lia))
    as [[E2 _] | (s & fs2 & E2 & G1 & G2 & G3 & G4 & _ & G5 & G6 & G7)]; rewrite E2 in E; [done |].
  pose proof (frame_addr_nonzero s G2) as Hnz. apply Z.eqb_neq in Hnz. unfold NULL in E. rewrite Hnz in E.
  destruct (Z.eqb_spec (frame_addr s) (heap_end h)) as [Ea |]; cbn [negb] in E; [| done].
  injection E as -> _. split; [done |]. right. exists s, npages. done.
Qed.

Lemma kmalloc_frames fs h L size fs' h' p :
  heap_live h L -> frames_wf fs -> 0 <= size < 2 ^ 64 -> Forall (fun a => a < heap_start h) (sentinels h) ->
  kmalloc fs h size = Some (fs', h', p) ->
  frames_wf fs' /\ same_pool fs fs' /\ heap_start h' = heap_start h /\ heap_grew fs fs' h h'.
Proof.
  intros Hl Hw Hsz Hse E.
  destruct (kmalloc_live (laws := frame_slab_laws) fs h L size Hl Hw Hsz Hse) as (fs1 & h1 & p1 & E' & W & Es & _).
  rewrite E in E'. simplify_eq. split; [done |]. unfold kmalloc in E.
  destruct (el_malloc_live h L size Hl ltac:(lia)) as (h2 & q & Eq & Hc). rewrite Eq in E.
  destruct Hc as [(-> & -> & _) | (Hq & (_ & S2 & _) & _)].
  - cbn [NULL Z.eqb] in E. destruct (el_append_pages_to_heap fs h (grow_pages size)) as [[fs2 h2] rc] eqn:E2.
    destruct (el_append_frames fs h L _ _ _ _ Hl Hw (grow_pages_range size) Hse E2) as (W2 & P2 & G2).
    destruct (el_append_live (laws := frame_slab_laws) fs h L _ Hl Hw (grow_pages_range size) Hse)
      as (fs3 & h3 & rc3 & E3 & _ & H3 & _). rewrite E2 in E3. simplify_eq.
    destruct (rc3 =? 0); [| by simplify_eq].
    destruct (el_malloc_live h3 L size H3 ltac:(lia)) as (h4 & q & Eq4 & Hc). rewrite Eq4 in E. simplify_eq.
    split; [done |]. split; [done |].
    destruct Hc as [(_ & -> & _) | (_ & (_ & S2 & _) & _)]; [done |].
    unfold heap_grew in *. by rewrite S2.
  - apply Z.eqb_neq in Hq as Hq'. rewrite Hq' in E. simplify_eq. split; [done |]. split; [done |]. by left.
Qed.

Section Life.
Implicit Types T : gmap Z tree.

(** The heap may take free frames without disturbing the trees. *)
Lemma trees_ok_heap T v fs' h' :
  trees_ok T v -> heap_start (sp_heap v) <= heap_end (sp_heap v) ->
  frames_wf fs' -> same_pool (sp_frames v) fs' -> heap_start h' = heap_start (sp_heap v) ->
  heap_grew (sp_frames v) fs' (sp_heap v) h' ->
  let v' := set_sheap (set_sframes v fs') h' in
  trees_ok T v' /\ (forall g, spare T v g -> spare T v' g) /\ (forall X, accounted T v X -> accounted T v' X).
Proof.
  intros H Hse Hw Hp Es Hg. pose proof Hp as [En _].
  assert (forall j, used (sp_frames v) j = true -> used fs' j = true) as Hmono.
  { intros j Hj. destruct Hg as [[_ ->] | (s & n & _ & _ & _ & _ & _ & _ & ->)]; [done |]. by rewrite Hj, orb_true_r. }
  assert (forall f, in_heap h' f -> ~ in_heap (sp_heap v) f -> forall i, f = frame_addr i ->
    used (sp_frames v) i = false /\ used fs' i = true) as Hnew.
  { intros f Hin Hout i ->. unfold in_heap in *. rewrite Es in *.
    destruct Hg as [[E _] | (s & n & E1 & E2 & Hs & Hn & Hb & Hrun & Hu)]; [rewrite E in Hin; lia |].
    rewrite E2, E1 in Hin. rewrite E1 in Hout. assert (s <= i < s + n) as Hi by (unfold frame_addr, FRAME_SIZE in *; lia).
    split; [by apply Hrun |]. rewrite Hu. zcases; simpl; done || lia. }
  assert (forall f, frame_at (sp_frames v) f -> frame_at fs' f) as Hat.
  { intros f Hf. eapply frame_at_ext; [done | | done]. auto. }
  assert (forall f, frame_at (sp_frames v) f -> ~ in_heap (sp_heap v) f -> ~ in_heap h' f) as Hsep.
  { intros f (i & Ef & _ & Hu & _) Hout Hin. destruct (Hnew f Hin Hout i Ef). congruence. }
  split; [| split].
  - split; simpl; try apply H; try done.
    + intros i Hi Hlo. rewrite En in Hi. by apply Hmono, (tk_reserved _ _ H).
    + intros i Hi Hin. rewrite En in Hi.
      assert (Decision (in_heap (sp_heap v) (frame_addr i))) as Hd by (unfold in_heap; apply _).
      destruct (decide (in_heap (sp_heap v) (frame_addr i))); [by apply Hmono, (tk_heap _ _ H) |]. by apply (Hnew (frame_addr i)).
    + intros a tr r f Ha Hf. destruct (tk_place _ _ H _ _ _ _ Ha Hf). auto.
  - intros g (S1 & S2 & S3). split; [by apply Hat |]. split; [by apply Hsep | done].
  - intros X HX i Hi Hu. simpl in *. rewrite En in Hi.
    destruct Hg as [[E Hu'] | (s & n & E1 & E2 & Hs & Hn & Hb & Hrun & Hu')]; rewrite Hu' in Hu.
    + destruct (HX i Hi Hu) as [| [|]]; [by left | right; left; unfold in_heap in *; rewrite Es, E; done | by right; right].
    + unfold in_heap in *. rewrite Es, E2, E1. apply orb_true_iff in Hu as [Hu | Hu].
      * zbool. right. left. unfold frame_addr, FRAME_SIZE in *. lia.
      * destruct (HX i Hi Hu) as [| [Hin |]]; [by left | right; left; unfold in_heap in Hin; rewrite E1 in Hin; unfold FRAME_SIZE; lia | by right; right].
Qed.

Lemma heap_live_order h L : heap_live h L -> heap_start h <= heap_end h.
Proof. intros (bs & al & ul & _ & [Hlt _] & _). lia. Qed.

Lemma sp_kmalloc_ok T L v n v' p :
  space_inv T L v -> 0 <= n < 2 ^ 64 -> sp_kmalloc v n = (v', p) ->
  (p = NULL /\ space_inv T L v' \/ p <> NULL /\ exists sz, n <= sz /\ space_inv T ((p, sz) :: L) v') /\
  sp_as v' = sp_as v /\ sp_pd v' = sp_pd v /\ sp_mem v' = sp_mem v /\ same_pool (sp_frames v) (sp_frames v') /\
  (forall g, spare T v g -> spare T v' g) /\ (forall X, accounted T v X -> accounted T v' X).
Proof.
  intros [H1 H2 H3 H4 H5] Hn E. unfold sp_kmalloc in E. pose proof (tk_wf _ _ H1) as Hw.
  destruct (kmalloc_live (laws := frame_slab_laws) _ _ _ _ H2 Hw Hn H3) as (fs' & h' & q & E' & W & Es & Ese & Hcase).
  rewrite E' in E. injection E as <- <-.
  destruct (kmalloc_frames _ _ _ _ _ _ _ H2 Hw Hn H3 E') as (_ & P & _ & G).
  destruct (trees_ok_heap T v fs' h' H1 (heap_live_order _ _ H2) W P Es G) as (K1 & K2 & K3).
  assert (forall L', heap_live h' L' -> (forall a tr, T !! a = Some tr -> a ∈ L'.*1) ->
    space_inv T L' (set_sheap (set_sframes v fs') h')) as Hinv.
  { intros L' HL' Hsub. split; try done.
    change (Forall (fun a => a < heap_start h') (sentinels h')). by rewrite Ese, Es. }
  split; [| done]. destruct Hcase as [(Hp & sz & Hle & Hl) | (Hp & Hl & _)].
  - right. split; [done |]. exists sz. split; [done |]. apply Hinv; [done |]. intros a tr Ha. right. by apply (H5 a tr).
  - left. split; [done |]. by apply Hinv.
Qed.

Lemma sp_kfree_ok T L v p sz :
  space_inv T ((p, sz) :: L) v -> (forall a tr, T !! a = Some tr -> a ∈ L.*1) ->
  space_inv T L (sp_kfree v p) /\ same_slab (sp_heap v) (sp_heap (sp_kfree v p)).
Proof.
  intros [H1 H2 H3 H4 H5] Hsub. destruct (el_free_live _ _ _ _ H2) as [Hl Hs]. pose proof Hs as (S1 & S2 & _ & S4).
  split; [| done]. split; try done.
  - assert (forall f, in_heap (sp_heap (sp_kfree v p)) f <-> in_heap (sp_heap v) f) as Hin.
    { intros f. unfold in_heap. simpl. unfold kfree. by rewrite S1, S2. }
    destruct H1; split; simpl; try done.
    + intros i Hi Hx. apply tk_heap; [done |]. by apply Hin.
    + intros a tr r f Ha Hf. destruct (tk_place _ _ _ _ Ha Hf) as [? Hn]. split; [done |]. intros Hx. by apply Hn, Hin.
  - change (Forall (fun a => a < heap_start (el_free (sp_heap v) p)) (sentinels (el_free (sp_heap v) p))). by rewrite S1, S4.
Qed.

(** ** Creation *)

(** A table frame a function got, or the 0 of a failed allocation. *)
Definition held T v (f : Z) : Prop := f = 0 \/ spare T v f.

Lemma alloc_table_held T v v' f :
  trees_ok T v -> alloc_table v = (v', f) ->
  trees_ok T v' /\ same_rest v v' /\ held T v' f /\
  (forall g, held T v g -> held T v' g /\ (g <> 0 -> g <> f)) /\
  (f <> 0 -> forall i, 0 <= i < 512 -> tbl (sp_mem v') f i = 0) /\
  (forall g i, spare T v g -> 0 <= i < 512 -> tbl (sp_mem v') g i = tbl (sp_mem v) g i) /\
  data_kept T v v' /\
  (forall X, accounted T v X -> accounted T v' (fun g => X g \/ g = f)).
Proof.
  intros H E. destruct (alloc_table_ok T v v' f H E) as [[-> ->] | (Hz & H1 & Hs & Hr & Ho & Htab & Hsp & Hu)].
  - split; [done |]. split; [done |]. split; [by left |]. split; [intros g Hg; split; [done | auto] |].
    split; [done |]. split; [done |]. split; [done |].
    intros X HX i Hi Hui. destruct (HX i Hi Hui) as [| [|]]; [left; by left | by right; left | by right; right].
  - assert (forall g, frame_at (sp_frames v') g -> g <> f -> forall x, g <= x < g + 4096 ->
      pld8 (sp_mem v') x = pld8 (sp_mem v) x) as Hkeep.
    { intros g Hg Hne x Hx. apply Ho. destruct (frame_at_apart _ _ _ (tk_wf _ _ H1) Hg (proj1 Hs) Hne); lia. }
    split; [done |]. split; [done |]. split; [by right |]. split; [| split; [done |]; split; [| split]].
    + intros g [-> | Hg]; [split; [by left | done] |]. destruct (Hsp g Hg). split; [by right | done].
    + intros g i Hg Hi. destruct (Hsp g Hg) as [[Hg' _] Hne]. apply pld64_ext. intros x Hx. apply (Hkeep g); [done | done | lia].
    + intros g x Hg Hx. destruct Hg as [Hg | (b & tb & i & j & Hb & Hp)].
      * destruct (Hsp g Hg) as [[Hg' _] Hne]. by apply (Hkeep g).
      * destruct (tk_place _ _ H1 _ _ _ _ Hb Hp) as [Hg' _]. apply (Hkeep g); [done | | done].
        intros ->. destruct Hs as (_ & _ & N). by apply (N b tb _ Hb Hp).
    + intros X HX i Hi Hui. rewrite Hu in Hui. destruct Hr as (Eh & _ & _ & [En _]). rewrite En in Hi. rewrite Eh.
      apply orb_true_iff in Hui as [Ei%Z.eqb_eq | Hui]; [left; by right |].
      destruct (HX i Hi Hui) as [| [|]]; [left; by left | by right; left | by right; right].
Qed.

(** [if (f != NULL) free_frame(f)] *)
Lemma release_held T v f :
  trees_ok T v -> held T v f ->
  let v' := if negb (f =? 0) then sp_free_frame v f else v in
  trees_ok T v' /\ same_rest v v' /\ (forall g, (g <> 0 -> g <> f) -> held T v g -> held T v' g) /\ sp_mem v' = sp_mem v /\
  (forall X, accounted T v (fun g => X g \/ g = f) -> accounted T v' X).
Proof.
  intros H [-> | Hs].
  - simpl. split; [done |]. split; [done |]. split; [done |]. split; [done |]. intros X HX i Hi Hu.
    destruct (HX i Hi Hu) as [[| E] |]; [by left | | by right]. pose proof (tk_wf _ _ H) as (_ & _ & Hn & _).
    destruct (frame_addr_nonzero i ltac:(lia) E).
  - destruct (frame_at_bounds _ _ (tk_wf _ _ H) (proj1 Hs)) as (_ & _ & Hz). apply Z.eqb_neq in Hz as ->. simpl.
    destruct (free_spare T v f H Hs) as (F1 & F2 & F3 & _). split; [done |]. split; [done |]. split; [| split; [done |]].
    + intros g Hne [-> | Hg]; [by left |]. right. apply F3; [| done].
      apply Hne. by destruct (frame_at_bounds _ _ (tk_wf _ _ H) (proj1 Hg)) as (_ & _ & ?).
    + intros X. by apply accounted_free.
Qed.

(** The page directory after the copy of the kernel half. *)
Lemma clone_kernel_ok T v pd :
  trees_ok T v -> spare T v pd -> (forall i, 0 <= i < 512 -> tbl (sp_mem v) pd i = 0) ->
  let v' := clone_kernel v pd in
  (exists m', v' = set_smem v m' /\ only_frame pd (sp_mem v) m') /\
  forall i, 0 <= i < 512 -> tbl (sp_mem v') pd i = if is_user_pd_slot i then 0 else znth 0 (sp_pd v) i.
Proof.
  intros H Hs Hz. unfold clone_kernel. change (Z.to_nat PD_ENTRIES) with 512%nat.
  assert (let k := 0 + Z.of_nat 512 in let s := for_range 512 0 (fun i v =>
    if is_user_pd_slot i then v else store64 v (pd + 8 * i) (znth 0 (sp_pd v) i)) v in
    (exists m', s = set_smem v m' /\ only_frame pd (sp_mem v) m') /\
    forall i, 0 <= i < 512 -> tbl (sp_mem s) pd i =
      if i <? k then if is_user_pd_slot i then 0 else znth 0 (sp_pd v) i else 0) as [K1 K2].
  { apply (for_range_ind (fun k s => (exists m', s = set_smem v m' /\ only_frame pd (sp_mem v) m') /\
      forall i, 0 <= i < 512 -> tbl (sp_mem s) pd i =
        if i <? k then if is_user_pd_slot i then 0 else znth 0 (sp_pd v) i else 0)).
    - split; [exists (sp_mem v); split; [by destruct v | done] |]. intros i Hi. rewrite Hz by done. zcases; done || lia.
    - intros k s Hk [(m & -> & Ho) Ht]. destruct (is_user_pd_slot k) eqn:Ek.
      + split; [by exists m |]. intros i Hi. rewrite Ht by done. destruct (decide (i = k)) as [-> | Hne].
        * rewrite Ek. zcases; done || lia.
        * zcases; done || lia.
      + split.
        * exists (pst64 m (pd + 8 * k) (znth 0 (sp_pd v) k)). split; [done |].
          eapply only_frame_trans; [done |]. apply only_frame_entry. lia.
        * intros i Hi. destruct (decide (i = k)) as [-> | Hne].
          { simpl. rewrite tbl_store by apply (tk_pd _ _ H). rewrite Ek. zcases; done || lia. }
          simpl. rewrite tbl_store_ne by done. simpl in Ht. rewrite Ht by done. zcases; done || lia. }
  split; [done |]. intros i Hi. rewrite K2 by done. simpl. zcases; done || lia.
Qed.

Lemma trees_ok_add T v a tr :
  trees_ok T v -> tree_wf tr -> tree_rep (sp_pd v) (sp_mem v) tr ->
  (forall r f, place tr r f -> spare T v f) -> (forall r r' f, place tr r f -> place tr r' f -> r = r') ->
  T !! a = None -> trees_ok (<[a := tr]> T) v.
Proof.
  intros H Hw Hr Hsp Hinj Ha. pose proof (tk_inj _ _ H) as Hold. split; try apply H.
  - intros b tb Hb. destruct (decide (b = a)) as [-> | Hne].
    + rewrite lookup_insert_eq in Hb. by simplify_eq.
    + rewrite lookup_insert_ne in Hb by done. by apply (tk_tree _ _ H b).
  - intros b tb r f Hb Hf. destruct (decide (b = a)) as [-> | Hne].
    + rewrite lookup_insert_eq in Hb. simplify_eq. by destruct (Hsp r f Hf) as (S1 & S2 & _).
    + rewrite lookup_insert_ne in Hb by done. by apply (tk_place _ _ H b tb r).
  - intros b tb r b' tb' r' f Hb Hf Hb' Hf'.
    destruct (decide (b = a)) as [-> | Hne], (decide (b' = a)) as [-> | Hne'].
    + rewrite lookup_insert_eq in Hb, Hb'. simplify_eq. split; [done |]. by apply (Hinj r r' f).
    + rewrite lookup_insert_eq in Hb. rewrite lookup_insert_ne in Hb' by done. simplify_eq.
      destruct (Hsp r f Hf) as (_ & _ & N). destruct (N _ _ _ Hb' Hf').
    + rewrite lookup_insert_eq in Hb'. rewrite lookup_insert_ne in Hb by done. simplify_eq.
      destruct (Hsp r' f Hf') as (_ & _ & N). destruct (N _ _ _ Hb Hf).
    + rewrite lookup_insert_ne in Hb, Hb' by done. by apply (Hold b tb r b' tb' r' f).
Qed.

(** The tree of a new address space. *)
Definition new_tree (pml4 pdpt pd : Z) : tree := mkTree pml4 pdpt pd ∅ ∅.

Lemma new_tree_place pml4 pdpt pd r f :
  place (new_tree pml4 pdpt pd) r f -> r = RPml4 /\ f = pml4 \/ r = RPdpt /\ f = pdpt \/ r = RPd /\ f = pd.
Proof.
  destruct r as [| | | i | i j]; simpl; [tauto | tauto | tauto | by rewrite lookup_empty |].
  intros (e & He & _). by rewrite lookup_empty in He.
Qed.

(** From three zeroed tables to a linked tree. *)
Lemma link_tree_ok T v a pml4 pdpt pd :
  trees_ok T v -> T !! a = None -> spare T v pml4 -> spare T v pdpt -> spare T v pd ->
  pml4 <> pdpt -> pml4 <> pd -> pdpt <> pd ->
  (forall i, 0 <= i < 512 -> tbl (sp_mem v) pml4 i = 0) -> (forall i, 0 <= i < 512 -> tbl (sp_mem v) pdpt i = 0) ->
  (forall i, 0 <= i < 512 -> tbl (sp_mem v) pd i = 0) ->
  let v' := store64 (store64 (clone_kernel v pd) pdpt (link pd)) pml4 (link pdpt) in
  same_rest v v' /\ sp_frames v' = sp_frames v /\ trees_ok (<[a := new_tree pml4 pdpt pd]> T) v' /\
  (forall f x, frame_at (sp_frames v) f -> f <> pml4 -> f <> pdpt -> f <> pd -> f <= x < f + 4096 ->
     pld8 (sp_mem v') x = pld8 (sp_mem v) x).
Proof.
  intros H Ha S1 S2 S3 N1 N2 N3 Z1 Z2 Z3.
  destruct (clone_kernel_ok T v pd H S3 Z3) as [(m1 & -> & O1) T1].
  pose proof (tk_wf _ _ H) as Hw.
  destruct (frame_at_bounds _ _ Hw (proj1 S1)) as (A1 & A2 & _), (frame_at_bounds _ _ Hw (proj1 S2)) as (B1 & B2 & _),
    (frame_at_bounds _ _ Hw (proj1 S3)) as (C1 & C2 & _).
  unfold USER_SPACE_END, USER_HEAP_LIMIT in *.
  set (m2 := pst64 m1 (pdpt + 8 * 0) (link pd)). set (m3 := pst64 m2 (pml4 + 8 * 0) (link pdpt)).
  cbv zeta. assert (store64 (store64 (set_smem v m1) pdpt (link pd)) pml4 (link pdpt) = set_smem v m3) as ->.
  { unfold m3, m2. by rewrite !Z.mul_0_r, !Z.add_0_r. }
  simpl in T1.
  assert (only_frame pdpt m1 m2) as O2 by (apply only_frame_entry; lia).
  assert (only_frame pml4 m2 m3) as O3 by (apply only_frame_entry; lia).
  assert (forall f g m m' i, frame_at (sp_frames v) f -> frame_at (sp_frames v) g -> f <> g -> only_frame f m m' -> 0 <= i < 512 ->
    tbl m' g i = tbl m g i) as Hother by (intros f g m m' i Hf Hg Hne Ho Hi; exact (only_frame_tbl (sp_frames v) f g i m m' Hw Hf Hg Hne Ho Hi)).
  assert (trees_ok T (set_smem v m3)) as H3.
  { apply (write_spare T (set_smem v m2) pml4); [| done | done].
    apply (write_spare T (set_smem v m1) pdpt); [| done | done]. by apply (write_spare T v pd). }
  split; [done |]. split; [done |]. split.
  - apply trees_ok_add; try done.
    + split; cbn [new_tree tr_pml4 tr_pdpt tr_pd tr_pt tr_leaf sp_mem set_smem sp_pd].
      * intros i Hi. destruct (Z.eqb_spec i 0) as [-> | Hne].
        { apply tbl_store, link_range; [done | lia]. }
        unfold m3. rewrite tbl_store_ne by done. rewrite (Hother pdpt pml4 m1 m2) by (done || apply S1 || apply S2 || congruence).
        rewrite (Hother pd pml4 (sp_mem v) m1) by (done || apply S1 || apply S3 || congruence). by apply Z1.
      * intros i Hi. rewrite (Hother pml4 pdpt m2 m3) by (done || apply S1 || apply S2 || congruence).
        destruct (Z.eqb_spec i 0) as [-> | Hne].
        { apply tbl_store, link_range; [done | lia]. }
        unfold m2. rewrite tbl_store_ne by done.
        rewrite (Hother pd pdpt (sp_mem v) m1) by (done || apply S2 || apply S3 || congruence). by apply Z2.
      * intros i Hi. rewrite (Hother pml4 pd m2 m3) by (done || apply S1 || apply S3 || congruence).
        rewrite (Hother pdpt pd m1 m2) by (done || apply S2 || apply S3 || congruence). rewrite T1 by done. by rewrite lookup_empty.
      * intros i pt j. by rewrite lookup_empty.
    + intros r f [[_ ->] | [[_ ->] | [_ ->]]]%new_tree_place; done.
    + intros r r' f [[-> ->] | [[-> ->] | [-> ->]]]%new_tree_place [[-> E] | [[-> E] | [-> E]]]%new_tree_place; congruence.
  - intros f x Hf N4 N5 N6 Hx. simpl.
    assert (forall g m m', frame_at (sp_frames v) g -> f <> g -> only_frame g m m' -> pld8 m' x = pld8 m x) as Hx'.
    { intros g m m' Hg Hne Ho. apply Ho. destruct (frame_at_apart _ _ _ Hw Hf Hg Hne); lia. }
    rewrite (Hx' pml4 m2 m3 (proj1 S1)), (Hx' pdpt m1 m2 (proj1 S2)), (Hx' pd (sp_mem v) m1 (proj1 S3)); done.
Qed.

Lemma space_inv_rest T L v v' : space_inv T L v -> trees_ok T v' -> same_rest v v' -> space_inv T L v'.
Proof. intros [H1 H2 H3 H4 H5] H' (E1 & E2 & _). split; try done; [by rewrite E1 | by rewrite E1 | by rewrite E2]. Qed.

Lemma live_fresh h p sz L : heap_live h ((p, sz) :: L) -> p ∉ L.*1.
Proof.
  intros H Hp. apply list_elem_of_fmap in Hp as ([q sq] & Eq & Hq). simpl in Eq. subst q.
  pose proof (heap_live_apart _ _ _ H _ Hq) as Ha. destruct (heap_live_inside _ _ _ _ H) as (_ & Hz & _).
  apply list_elem_of_split in Hq as (L1 & L2 & ->).
  assert (heap_live h ((p, sq) :: (p, sz) :: L1 ++ L2)) as H'.
  { destruct H as (bs & al & ul & R & P & HP). exists bs, al, ul. split; [done |]. split; [done |]. rewrite <- HP.
    rewrite <- Permutation_middle. apply perm_swap. }
  destruct (heap_live_inside _ _ _ _ H') as (_ & Hz' & _). unfold apart, EL_BLOCK_OVERHEAD, HEAD_BYTES, FOOT_BYTES in Ha. simpl in Ha. lia.
Qed.

Lemma accounted_mono T v (X Y : Z -> Prop) : (forall g, X g -> Y g) -> accounted T v X -> accounted T v Y.
Proof. intros HXY HX i Hi Hu. destruct (HX i Hi Hu) as [|]; [left; auto | by right]. Qed.

(** Three allocations in a row. *)
Lemma three_tables T v v' pml4 pdpt pd :
  trees_ok T v ->
  (let '(v, a) := alloc_table v in let '(v, b) := alloc_table v in let '(v, c) := alloc_table v in (v, a, b, c))
    = (v', pml4, pdpt, pd) ->
  trees_ok T v' /\ same_rest v v' /\ held T v' pml4 /\ held T v' pdpt /\ held T v' pd /\
  (pml4 <> 0 -> pml4 <> pdpt /\ pml4 <> pd) /\ (pdpt <> 0 -> pdpt <> pd) /\
  (forall g, spare T v g -> spare T v' g /\ g <> pml4 /\ g <> pdpt /\ g <> pd) /\
  (pml4 <> 0 -> forall i, 0 <= i < 512 -> tbl (sp_mem v') pml4 i = 0) /\
  (pdpt <> 0 -> forall i, 0 <= i < 512 -> tbl (sp_mem v') pdpt i = 0) /\
  (pd <> 0 -> forall i, 0 <= i < 512 -> tbl (sp_mem v') pd i = 0) /\
  (forall X, accounted T v X -> accounted T v' (fun g => ((X g \/ g = pml4) \/ g = pdpt) \/ g = pd)).
Proof.
  intros H E. destruct (alloc_table v) as [v1 f1] eqn:E1, (alloc_table v1) as [v2 f2] eqn:E2, (alloc_table v2) as [v3 f3] eqn:E3.
  simplify_eq.
  destruct (alloc_table_held T v v1 _ H E1) as (A1 & A2 & A3 & A4 & A5 & A6 & _ & A8).
  destruct (alloc_table_held T v1 v2 _ A1 E2) as (B1 & B2 & B3 & B4 & B5 & B6 & _ & B8).
  destruct (alloc_table_held T v2 v' _ B1 E3) as (C1 & C2 & C3 & C4 & C5 & C6 & _ & C8).
  assert (forall g w, held T w g -> g <> 0 -> spare T w g) as Hs by (intros g w [-> |]; done).
  split; [done |]. split; [by eapply same_rest_trans, same_rest_trans |].
  split; [by apply C4, B4 |]. split; [by apply C4 |]. split; [done |].
  split; [intros Hz; split; [by apply (B4 pml4 A3) | by apply C4; [apply B4 |]] |]. split; [intros Hz; by apply (C4 pdpt B3) |].
  split.
  { intros g Hg. destruct (frame_at_bounds _ _ (tk_wf _ _ H) (proj1 Hg)) as (_ & _ & Hz).
    destruct (A4 g (or_intror Hg)) as [G1 G2], (B4 g G1) as [G3 G4], (C4 g G3) as [G5 G6]. auto 6. }
  split; [| split; [| split; [done | auto]]].
  - intros Hz i Hi. pose proof (Hs _ _ A3 Hz) as P1. pose proof (Hs _ _ (proj1 (B4 _ A3)) Hz) as P2.
    by rewrite C6, B6, A5.
  - intros Hz i Hi. pose proof (Hs _ _ B3 Hz) as P1. by rewrite C6, B5.
Qed.

Lemma create_ok T L v v' a :
  space_inv T L v -> paging_create_address_space v = (v', a) ->
  sp_pd v' = sp_pd v /\ same_pool (sp_frames v) (sp_frames v') /\
  (a = NULL /\ space_inv T L v' /\ (forall X, accounted T v X -> accounted T v' X) \/
   a <> NULL /\ a ∉ L.*1 /\ T !! a = None /\ exists sz pml4 pdpt pd, let T' := <[a := new_tree pml4 pdpt pd]> T in
     space_inv T' ((a, sz) :: L) v' /\ (forall X, accounted T v X -> accounted T' v' X)).
Proof.
  intros H E. unfold paging_create_address_space in E. destruct (sp_kmalloc v SIZEOF_ADDRESS_SPACE) as [v1 p] eqn:E1.
  destruct (sp_kmalloc_ok T L v SIZEOF_ADDRESS_SPACE v1 p H ltac:(done) E1) as (Hk & K1 & K2 & _ & K3 & _ & K5).
  destruct (Z.eqb_spec p NULL) as [-> | Hz].
  { simplify_eq. split; [done |]. split; [done |]. left. destruct Hk as [[_ Hk] | [? _]]; done. }
  destruct Hk as [[? _] | (_ & sz & _ & H1)]; [done |]. pose proof (live_fresh _ _ _ _ (si_heap _ _ _ H1)) as Hfresh.
  assert (T !! p = None) as HTp.
  { destruct (T !! p) as [tr|] eqn:Et; [| done]. destruct Hfresh. by apply (si_live _ _ _ H p tr). }
  destruct (alloc_table v1) as [v2 pml4] eqn:E2, (alloc_table v2) as [v3 pdpt] eqn:E3, (alloc_table v3) as [v4 pd] eqn:E4.
  destruct (three_tables T v1 v4 pml4 pdpt pd (si_trees _ _ _ H1)) as (A1 & A2 & A3 & A4 & A5 & N1 & N2 & _ & Z1 & Z2 & Z3 & Ac).
  { by rewrite E2, E3, E4. }
  destruct ((pml4 =? 0) || (pdpt =? 0) || (pd =? 0)) eqn:Ez.
  - destruct (release_held T v4 pml4 A1 A3) as (B1 & B2 & B3 & _ & B5). set (v5 := if negb (pml4 =? 0) then _ else v4) in *.
    assert (held T v5 pdpt) as H5 by (apply B3; [intros Hp Eq; rewrite <- Eq in *; destruct (N1 Hp); done | done]).
    assert (held T v5 pd) as H5' by (apply B3; [intros Hp Eq; rewrite <- Eq in *; destruct (N1 Hp); done | done]).
    destruct (release_held T v5 pdpt B1 H5) as (C1 & C2 & C3 & _ & C5). set (v6 := if negb (pdpt =? 0) then _ else v5) in *.
    assert (held T v6 pd) as H6 by (apply C3; [intros Hp Eq; rewrite <- Eq in *; by apply (N2 Hp) | done]).
    destruct (release_held T v6 pd C1 H6) as (D1 & D2 & D3 & _ & D5). set (v7 := if negb (pd =? 0) then _ else v6) in *.
    assert (same_rest v1 v7) as Hr by (by eapply same_rest_trans, same_rest_trans, same_rest_trans).
    pose proof (space_inv_rest _ _ _ _ H1 D1 Hr) as H7.
    destruct (sp_kfree_ok T L v7 p sz H7) as [F1 (F2 & F3 & _)]; [apply (si_live _ _ _ H) |].
    injection E as <- <-. destruct Hr as (_ & R2 & R3 & R4). clearbody v7 v6 v5.
    split; [change (sp_pd v7 = sp_pd v); congruence |].
    split; [change (same_pool (sp_frames v) (sp_frames v7)); destruct K3, R4; split; congruence |]. left. split; [done |]. split; [done |].
    intros X HX i Hi Hu. assert (accounted T v7 X) as HX7.
    { apply D5, C5, B5. eapply accounted_mono; [| by apply Ac, K5]. clear. intros g [[[|] |] |]; auto. }
    destruct (HX7 i Hi Hu) as [| [Hin |]]; [by left | | by right; right]. right. left. unfold in_heap in *. by rewrite F2, F3.
  - apply orb_false_iff in Ez as [[Y1%Z.eqb_neq Y2%Z.eqb_neq]%orb_false_iff Y3%Z.eqb_neq].
    destruct A3 as [| S1]; [done |]. destruct A4 as [| S2]; [done |]. destruct A5 as [| S3]; [done |].
    destruct (N1 Y1) as [M1 M2].
    destruct (link_tree_ok T v4 p pml4 pdpt pd A1 HTp S1 S2 S3 M1 M2 (N2 Y2) (Z1 Y1) (Z2 Y2) (Z3 Y3)) as (B1 & B2 & B3 & _).
    fold (link pd) in E. fold (link pdpt) in E. apply pair_eq in E as [<- <-].
    set (v5 := store64 _ pml4 _) in *. assert (same_rest v1 v5) as (R1 & R2 & R3 & R4) by (by eapply same_rest_trans).
    clearbody v5. split; [change (sp_pd v5 = sp_pd v); congruence |].
    split; [change (same_pool (sp_frames v) (sp_frames v5)); destruct K3, R4; split; congruence |]. right. split; [done |]. split; [done |].
    split; [done |]. exists sz, pml4, pdpt, pd. cbv zeta. split.
    + destruct H1 as [I1 I2 I3 I4 I5]. split.
      * destruct B3. by split.
      * simpl. by rewrite R1.
      * change (Forall (fun a => a < heap_start (sp_heap v5)) (sentinels (sp_heap v5))). by rewrite R1.
      * simpl. rewrite R2, I4. by rewrite fmap_insert.
      * intros b tb Hb. destruct (decide (b = p)) as [-> | Hne]; [left |]. right.
        rewrite lookup_insert_ne in Hb by done. by apply (si_live _ _ _ H b tb).
    + intros X HX i Hi Hu. simpl in *. rewrite B2 in Hi, Hu. destruct B1 as (B1 & _). rewrite B1.
      assert (forall r, place (new_tree pml4 pdpt pd) r (frame_addr i) -> exists b tb r',
        <[p:=new_tree pml4 pdpt pd]> T !! b = Some tb /\ place tb r' (frame_addr i)) as Hnew.
      { intros r Hr. exists p, (new_tree pml4 pdpt pd), r. by rewrite lookup_insert_eq. }
      destruct (Ac X (K5 X HX) i Hi Hu) as [[[[| Ei] | Ei] | Ei] | [| (b & tb & r & Hb & Hr)]]; [by left | | | | by right; left |].
      * right. right. by apply (Hnew RPml4).
      * right. right. by apply (Hnew RPdpt).
      * right. right. by apply (Hnew RPd).
      * right. right. exists b, tb, r. rewrite lookup_insert_ne; [done |]. intros <-. congruence.
Qed.
End Life.
