(* ===== verification/PagingFree.v ===== *)
(** * Tearing an address space down

    [paging_destroy_address_space] frees exactly the frames of its tree and
    leaves every other tree alone. *)

From stdpp Require Import base list gmap fin_maps.
From Stdlib Require Import ZArith Lia Bool.
From S2P Require Import Prelude Frames Heap HeapSpec Phys Paging PagingInv PagingOps PagingLife.

(** [fs'] is [fs] after the frames in [P] were freed. *)
Definition freed (fs fs' : frames) (P : Z -> Prop) : Prop :=
  frames_wf fs' /\ same_pool fs fs' /\
  forall j, 0 <= j -> used fs' j = true <-> used fs j = true /\ ~ P (frame_addr j).

(** A frame of the pool, in use or not. *)
Definition pool_frame (fs : frames) (f : Z) : Prop := exists i, f = frame_addr i /\ 0 <= i < num_frames fs.

Lemma freed_none fs P : frames_wf fs -> (forall f, ~ P f) -> freed fs fs P.
Proof. intros Hw HP. split; [done |]. split; [done |]. intros j _. split; [intros Hj; split; [done | apply HP] | tauto]. Qed.

Lemma freed_ext fs fs' P Q : (forall f, P f <-> Q f) -> freed fs fs' P -> freed fs fs' Q.
Proof. intros HPQ (H1 & H2 & H3). split; [done |]. split; [done |]. intros j Hj. by rewrite H3, HPQ. Qed.

Lemma freed_one fs fs' P f :
  freed fs fs' P -> pool_frame fs f -> freed fs (free_frame fs' f) (fun g => P g \/ g = f).
Proof.
  intros (Hw & [En Ep] & Hu) (i & -> & Hi). rewrite free_frame_addr by (done || congruence || lia).
  split; [by apply clear_bit_wf |]. split; [by split; simpl |]. intros j Hj. pose proof Hw as (Hl & _ & Hn & _).
  rewrite used_clear_bit by (done || lia). rewrite andb_true_iff, negb_true_iff, Z.eqb_neq, Hu by done.
  split; [intros (Hne & H1 & H2); split; [done |]; intros [| E%frame_addr_inj]; done | intros [H1 H2]].
  split; [intros ->; tauto | tauto].
Qed.

Section Destroy.
Implicit Types T : gmap Z tree.

(** The frames of [tr] below the slot [i]. *)
Definition slot_frame (tr : tree) (i : Z) (f : Z) : Prop :=
  tr_pt tr !! i = Some f \/ exists j, place tr (RLeaf i j) f.

Lemma destroy_page_table_ok tr v i pt fs :
  tr_pt tr !! i = Some pt -> tree_wf tr ->
  (forall j, 0 <= j < 512 -> tbl (sp_mem v) pt j = default 0 (tr_leaf tr !! (i, j))) ->
  (forall f, slot_frame tr i f -> pool_frame fs f) ->
  forall P, freed fs (sp_frames v) P ->
  exists fs', destroy_page_table v pt = set_sframes v fs' /\ freed fs fs' (fun f => P f \/ slot_frame tr i f).
Proof.
  intros Hpt [_ W2] Hm Hpool P HP. unfold destroy_page_table. change (Z.to_nat PT_ENTRIES) with 512%nat.
  pose proof (for_range_ind (fun k s => exists fs', s = set_sframes v fs' /\
    freed fs fs' (fun f => P f \/ exists j, 0 <= j < k /\ place tr (RLeaf i j) f))
    (free_leaf pt) 512 0 v) as Hind.
  destruct Hind as (fs1 & -> & F1).
  - exists (sp_frames v). split; [by destruct v |]. eapply freed_ext; [| exact HP]. intros f.
    split; [by left | intros [| (j & Hj & _)]; [done | lia]].
  - intros j s Hj (fs1 & -> & F). unfold free_leaf. cbv zeta.
    change (load64 (set_sframes v fs1) (pt + 8 * j)) with (tbl (sp_mem v) pt j). rewrite Hm by lia.
    destruct (tr_leaf tr !! (i, j)) as [e|] eqn:El; simpl default.
    + destruct (W2 _ _ _ El) as (_ & _ & _ & ->).
      exists (free_frame fs1 (pte_addr e)). split; [done |]. eapply freed_ext; [| apply freed_one; [exact F |]].
      * intros f. split.
        { intros [[| (k & Hk & Hp)] | ->]; [by left | right; exists k; split; [lia | done] |].
          right. exists j. split; [lia |]. by exists e. }
        intros [| (k & Hk & Hp)]; [left; by left |]. destruct (decide (k = j)) as [-> | Hne].
        { right. destruct Hp as (e' & He' & <-). congruence. }
        left. right. exists k. split; [lia | done].
      * apply Hpool. right. exists j, e. done.
    + rewrite flag_zero. exists fs1. split; [done |]. eapply freed_ext; [| exact F]. intros f.
      split; (intros [| (k & Hk & Hp)]; [by left |]; right; exists k).
      * split; [lia | done].
      * split; [| done]. destruct (decide (k = j)) as [-> |]; [| lia]. destruct Hp as (e & He & _). congruence.
  - exists (free_frame fs1 pt). split; [done |].
    eapply freed_ext; [| apply freed_one; [exact F1 | apply Hpool; by left]]. intros f. split.
    + intros [[| (j & _ & Hp)] | ->]; [by left | right; right; by exists j | right; by left].
    + intros [| [E | (j & Hp)]]; [left; by left | right; congruence |]. left. right. exists j. split; [| done].
      destruct Hp as (e & He & _). destruct (W2 _ _ _ He) as (_ & Hj & _). lia.
Qed.

(** One slot. The page directory is the only table written. *)
Lemma destroy_slot_ok tr v s fs :
  tree_wf tr -> 0 <= s < 3 -> let i := znth 0 user_pd_slots s in
  tbl (sp_mem v) (tr_pd tr) i = (match tr_pt tr !! i with Some pt => link pt | None => 0 end) ->
  (forall pt j, tr_pt tr !! i = Some pt -> 0 <= j < 512 -> tbl (sp_mem v) pt j = default 0 (tr_leaf tr !! (i, j))) ->
  (forall pt, tr_pt tr !! i = Some pt -> pt mod 4096 = 0 /\ 0 <= pt < 2 ^ 52) ->
  (forall f, slot_frame tr i f -> pool_frame fs f) ->
  forall P, freed fs (sp_frames v) P ->
  exists fs' m', destroy_slot (tr_pd tr) s v = set_smem (set_sframes v fs') m' /\
    freed fs fs' (fun f => P f \/ slot_frame tr i f) /\ only_frame (tr_pd tr) (sp_mem v) m' /\
    forall k, k <> i -> tbl m' (tr_pd tr) k = tbl (sp_mem v) (tr_pd tr) k.
Proof.
  intros Hw Hs i Hent Hm Hal Hpool P HP.
  assert (0 <= i < 512) as Hi.
  { unfold i. assert (s = 0 \/ s = 1 \/ s = 2) as [-> | [-> | ->]] by lia; vm_compute; split; congruence. }
  unfold destroy_slot. fold i. change (load64 v (tr_pd tr + 8 * i)) with (tbl (sp_mem v) (tr_pd tr) i). rewrite Hent.
  destruct (tr_pt tr !! i) as [pt|] eqn:Ept.
  - destruct (Hal pt eq_refl) as [A1 A2]. destruct (link_flags pt A1) as [-> ->]. cbn [negb orb].
    rewrite link_addr by done.
    destruct (destroy_page_table_ok tr v i pt fs Ept Hw (fun j => Hm pt j eq_refl) Hpool P HP) as (fs' & -> & F).
    exists fs', (pst64 (sp_mem v) (tr_pd tr + 8 * i) 0). split; [done |]. split; [done |].
    split; [by apply only_frame_entry |]. intros k Hk. by apply tbl_store_ne.
  - rewrite flag_zero. cbn [negb orb]. exists (sp_frames v), (sp_mem v). split; [by destruct v |]. split; [| done].
    eapply freed_ext; [| exact HP]. intros f. split; [by left |]. intros [| [E | (j & e & He & _)]]; [done | congruence |].
    destruct Hw as [_ W2]. destruct (W2 _ _ _ He) as [[? ?] _]. congruence.
Qed.

Lemma slots_value : znth 0 user_pd_slots 0 = 2 /\ znth 0 user_pd_slots 1 = 3 /\ znth 0 user_pd_slots 2 = 4.
Proof. done. Qed.

(** The three turns of the slot loop. *)
Lemma destroy_slots_ok T v a tr :
  trees_ok T v -> T !! a = Some tr ->
  exists fs' m', for_range (Z.to_nat USER_PD_SLOT_COUNT) 0 (destroy_slot (tr_pd tr)) v = set_smem (set_sframes v fs') m' /\
    freed (sp_frames v) fs' (fun f => (slot_frame tr 2 f \/ slot_frame tr 3 f) \/ slot_frame tr 4 f) /\
    only_frame (tr_pd tr) (sp_mem v) m'.
Proof.
  intros H Ha. destruct (tk_tree _ _ H _ _ Ha) as [Hw Hr]. pose proof (rp_pt _ _ _ Hr) as R4.
  destruct slots_value as (V0 & V1 & V2).
  assert (forall i f, slot_frame tr i f -> pool_frame (sp_frames v) f) as Hpool.
  { intros i f Hf. assert (exists r, place tr r f) as [r Hp] by (destruct Hf as [Hf | [j Hf]]; [by exists (RPt i) | by exists (RLeaf i j)]).
    destruct (tk_place _ _ H _ _ _ _ Ha Hp) as [(k & -> & Hk & _) _]. by exists k. }
  assert (forall i pt, tr_pt tr !! i = Some pt -> pt mod 4096 = 0 /\ 0 <= pt < 2 ^ 52) as Hal.
  { intros i pt Hi. destruct (place_bounds T v a tr (RPt i) pt H Ha Hi) as (B1 & B2 & _).
    unfold USER_SPACE_END, USER_HEAP_LIMIT in B2. split; [done | lia]. }
  assert (forall i, user_slot i -> tbl (sp_mem v) (tr_pd tr) i = match tr_pt tr !! i with Some pt => link pt | None => 0 end) as Hent
    by (intros i Hi; by apply (slot_entry T v a tr)).
  assert (forall m', only_frame (tr_pd tr) (sp_mem v) m' -> forall i pt j, tr_pt tr !! i = Some pt -> 0 <= j < 512 ->
    tbl m' pt j = default 0 (tr_leaf tr !! (i, j))) as Hpt.
  { intros m' Ho i pt j Hi Hj. rewrite <- (R4 i pt j Hi Hj).
    by apply (own_tables T v a tr RPd (tr_pd tr) m' H Ha eq_refl Ho (RPt i)). }
  change (Z.to_nat USER_PD_SLOT_COUNT) with 3%nat. cbn [for_range].
  destruct (destroy_slot_ok tr v 0 (sp_frames v) Hw ltac:(lia)) with (P := fun f : Z => False) as (f1 & m1 & -> & F1 & O1 & M1).
  { rewrite V0. apply Hent. by left. } { rewrite V0. intros pt j. apply (Hpt (sp_mem v) (only_frame_refl _ _)). } { rewrite V0. apply Hal. } { rewrite V0. apply Hpool. }
  { apply freed_none; [apply (tk_wf _ _ H) | tauto]. }
  rewrite V0 in *.
  destruct (destroy_slot_ok tr (set_smem (set_sframes v f1) m1) (0 + 1) (sp_frames v) Hw ltac:(lia) )
    with (P := fun f : Z => False \/ slot_frame tr 2 f) as (f2 & m2 & E2 & F2 & O2 & M2); change (0 + 1) with 1 in *; rewrite ?V1 in *; try done.
  { simpl. rewrite M1 by lia. apply Hent. by right; left. } { intros pt j. apply (Hpt m1 O1). } { apply Hal. } { apply Hpool. }
  rewrite E2. simpl in O2, M2.
  assert (only_frame (tr_pd tr) (sp_mem v) m2) as O12 by (by eapply only_frame_trans).
  destruct (destroy_slot_ok tr (set_smem (set_sframes (set_smem (set_sframes v f1) m1) f2) m2) (1 + 1) (sp_frames v) Hw ltac:(lia))
    with (P := fun f : Z => (False \/ slot_frame tr 2 f) \/ slot_frame tr 3 f) as (f3 & m3 & E3 & F3 & O3 & M3);
    change (1 + 1) with 2 in *; rewrite ?V2 in *; try done.
  { simpl. rewrite M2, M1 by lia. apply Hent. by right; right. } { intros pt j. apply (Hpt m2 O12). } { apply Hal. } { apply Hpool. }
  rewrite E3. exists f3, m3. split; [done |]. split; [| by eapply only_frame_trans].
  eapply freed_ext; [| exact F3]. intros f. tauto.
Qed.

Lemma tree_frames_slots tr f : tree_wf tr ->
  ((exists r, place tr r f) <->
   (((((slot_frame tr 2 f \/ slot_frame tr 3 f) \/ slot_frame tr 4 f) \/ f = tr_pd tr) \/ f = tr_pdpt tr) \/ f = tr_pml4 tr)).
Proof.
  intros [W1 W2]. unfold slot_frame. split.
  - intros [[| | | i | i j] Hp]; simpl in Hp; [tauto | tauto | tauto | |].
    + destruct (W1 _ _ Hp) as [-> | [-> | ->]]; tauto.
    + destruct Hp as (e & He & Ee). destruct (W2 _ _ _ He) as [[pt Hpt] _].
      assert (place tr (RLeaf i j) f) as Hp by (by exists e).
      destruct (W1 _ _ Hpt) as [-> | [-> | ->]]; eauto 9.
  - intros [[[[[[|[j ?]] | [|[j ?]]] | [|[j ?]]] | ->] | ->] | ->];
      [by exists (RPt 2) | by exists (RLeaf 2 j) | by exists (RPt 3) | by exists (RLeaf 3 j) | by exists (RPt 4)
      | by exists (RLeaf 4 j) | by exists RPd | by exists RPdpt | by exists RPml4].
Qed.

Lemma destroy_frames T v a tr :
  trees_ok T v -> T !! a = Some tr -> sp_as v !! a = Some (tr_pml4 tr) -> a <> NULL ->
  exists fs' m', paging_destroy_address_space v a =
      set_sas (sp_kfree (set_smem (set_sframes v fs') m') a) (delete a (sp_as v)) /\
    freed (sp_frames v) fs' (fun f => exists r, place tr r f) /\ only_frame (tr_pd tr) (sp_mem v) m'.
Proof.
  intros H Ha Has Hz. destruct (spine_entries T v a tr H Ha) as (E1 & F1 & A1 & E2 & F2 & A2).
  rewrite Z.mul_0_r, Z.add_0_r in E1, E2.
  assert (forall r f, place tr r f -> pool_frame (sp_frames v) f) as Hpool.
  { intros r f Hf. destruct (tk_place _ _ H _ _ _ _ Ha Hf) as [(k & -> & Hk & _) _]. by exists k. }
  unfold paging_destroy_address_space, pml4_phys. rewrite Has. simpl default. apply Z.eqb_neq in Hz as ->.
  unfold load64. rewrite E1, F1, A1, E2, F2, A2.
  destruct (destroy_slots_ok T v a tr H Ha) as (fs1 & m1 & -> & G1 & O1).
  pose proof (freed_one _ _ _ _ G1 (Hpool RPd _ eq_refl)) as G2.
  pose proof (freed_one _ _ _ _ G2 (Hpool RPdpt _ eq_refl)) as G3.
  pose proof (freed_one _ _ _ _ G3 (Hpool RPml4 _ eq_refl)) as G4.
  eexists _, m1. split; [reflexivity |]. split; [| done]. eapply freed_ext; [| exact G4].
  intros f. symmetry. apply tree_frames_slots. by apply (tk_tree _ _ H _ _ Ha).
Qed.

(** The other trees survive. *)
Lemma trees_ok_remove T v a tr fs' m' :
  trees_ok T v -> T !! a = Some tr -> freed (sp_frames v) fs' (fun f => exists r, place tr r f) ->
  only_frame (tr_pd tr) (sp_mem v) m' -> trees_ok (delete a T) (set_smem (set_sframes v fs') m').
Proof.
  intros H Ha (Hw & Hp & Hu) Ho. pose proof Hp as [En _].
  assert (forall f, frame_at (sp_frames v) f -> (forall r, ~ place tr r f) -> frame_at fs' f) as Hat.
  { intros f (i & -> & Hi & Hui & Hlo) Hn. exists i. rewrite En. split; [done |]. split; [done |]. split; [| done].
    apply Hu; [lia |]. split; [done |]. intros [r Hr]. by apply (Hn r). }
  assert (forall i, 0 <= i -> used (sp_frames v) i = true -> (forall r, ~ place tr r (frame_addr i)) -> used fs' i = true) as Hkeep.
  { intros i Hi Hui Hn. apply Hu; [done |]. split; [done |]. intros [r Hr]. by apply (Hn r). }
  split; simpl; try done.
  - intros i Hi Hlo. rewrite En in Hi. apply Hkeep; [lia | by apply (tk_reserved _ _ H) |]. intros r Hr.
    destruct (place_bounds T v a tr r _ H Ha Hr) as (_ & ? & _). lia.
  - intros i Hi Hin. rewrite En in Hi. apply Hkeep; [lia | by apply (tk_heap _ _ H) |]. intros r Hr.
    by destruct (tk_place _ _ H _ _ _ _ Ha Hr) as [_ []].
  - apply (tk_pd _ _ H).
  - intros b tb [Hne Hb]%lookup_delete_Some. destruct (tk_tree _ _ H _ _ Hb) as [Hw' Hr]. split; [done |].
    eapply tree_rep_ext; [| done]. intros r f i Hr' Hf Hi.
    by apply (other_tables T v a tr RPd (tr_pd tr) m' H Ha eq_refl Ho b tb r).
  - intros b tb r f [Hne Hb]%lookup_delete_Some Hf. destruct (tk_place _ _ H _ _ _ _ Hb Hf) as [Hf' Hh]. split; [| done].
    apply Hat; [done |]. intros r' Hr'. by destruct (tk_inj _ _ H _ _ _ _ _ _ _ Ha Hr' Hb Hf).
  - intros b tb r b' tb' r' f [_ Hb]%lookup_delete_Some Hf [_ Hb']%lookup_delete_Some Hf'. by apply (tk_inj _ _ H b tb r b' tb' r' f).
Qed.

Lemma destroy_ok T L v a tr :
  space_inv T L v -> T !! a = Some tr -> a <> NULL ->
  let v' := paging_destroy_address_space v a in
  exists sz L', L ≡ₚ (a, sz) :: L' /\ space_inv (delete a T) L' v' /\ sp_pd v' = sp_pd v /\
    same_pool (sp_frames v) (sp_frames v') /\
    (forall j, 0 <= j -> used (sp_frames v') j = true <-> used (sp_frames v) j = true /\ ~ exists r, place tr r (frame_addr j)) /\
    (forall X, accounted T v X -> accounted (delete a T) v' X).
Proof.
  intros [H1 H2 H3 H4 H5] Ha Hz. cbv zeta.
  assert (sp_as v !! a = Some (tr_pml4 tr)) as Has by (rewrite H4, lookup_fmap, Ha; done).
  destruct (destroy_frames T v a tr H1 Ha Has Hz) as (fs' & m' & -> & F & Ho).
  pose proof (trees_ok_remove T v a tr fs' m' H1 Ha F Ho) as Hrem. destruct F as (_ & Hp & Hu).
  destruct (proj1 (list_elem_of_fmap _ _ _) (H5 a tr Ha)) as ([p sz] & Ep & Hin). simpl in Ep. subst p.
  apply list_elem_of_split in Hin as (L1 & L2 & EL). exists sz, (L1 ++ L2).
  assert (L ≡ₚ (a, sz) :: L1 ++ L2) as HL by (rewrite EL; symmetry; apply Permutation_middle). split; [done |].
  assert (heap_live (sp_heap v) ((a, sz) :: L1 ++ L2)) as H2'.
  { destruct H2 as (bs & al & ul & R & P & HP). exists bs, al, ul. split; [done |]. split; [done |]. by rewrite <- HL. }
  assert (space_inv (delete a T) ((a, sz) :: L1 ++ L2) (set_sas (set_smem (set_sframes v fs') m') (delete a (sp_as v)))) as Hsp.
  { split.
    - destruct Hrem. by split.
    - done.
    - done.
    - simpl. by rewrite H4, fmap_delete.
    - intros b tb [_ Hb]%lookup_delete_Some. specialize (H5 b tb Hb). rewrite EL, fmap_app in H5. simpl in H5.
      rewrite elem_of_app, elem_of_cons in H5. simpl. rewrite elem_of_cons, fmap_app, elem_of_app. tauto. }
  destruct (sp_kfree_ok _ _ _ _ _ Hsp) as [Hk (S1 & S2 & _)].
  { intros b tb [Hne Hb]%lookup_delete_Some. specialize (H5 b tb Hb). rewrite EL, fmap_app in H5. simpl in H5.
    rewrite elem_of_app, elem_of_cons in H5. rewrite fmap_app, elem_of_app. destruct H5 as [| [|]]; [by left | done | by right]. }
  split; [exact Hk |]. split; [done |]. split; [done |]. split; [done |].
  intros X HX i Hi Hui. simpl in Hi, Hui. destruct Hp as [En _]. rewrite En in Hi. apply Hu in Hui as [Hui Hn]; [| lia].
  destruct (HX i Hi Hui) as [| [Hin | (b & tb & r & Hb & Hr)]]; [by left | |].
  - right. left. unfold in_heap in *. simpl in *. by rewrite S1, S2.
  - right. right. exists b, tb, r. split; [| done]. apply lookup_delete_Some. split; [| done]. intros <-. apply Hn. exists r. congruence.
Qed.
End Destroy.
