(* ===== verification/PagingSpec.v ===== *)
(** * What the address spaces promise

    [space_reach] is every state the paging code can be brought to: boot,
    then any sequence of creations, destructions, page mappings (as the
    loader and the stack mapper make them), [SYS_MMAP] and [SYS_MUNMAP]
    ranges, heap traffic and stores of ring-3 programs. A run is tidy when
    its single-page mappings succeed at addresses that were not mapped. *)

From stdpp Require Import base list gmap fin_maps.
From Stdlib Require Import ZArith Lia Bool.
From S2P Require Import Prelude Frames Heap HeapSpec Phys Paging PagingInv PagingOps PagingLife PagingFree.

Definition user_va (va : Z) : Prop := USER_REGION_START <= va < USER_SPACE_END.

(** The state the first task finds: [memory_init], then [heap_init]. *)
Inductive boot_space : space -> Prop :=
| boot_space_intro m mbi fs fs0 h fs1 h1 mem pd :
    wf_mem m -> 0 <= pool_top fs <= ONE_GB -> memory_init m mbi fs = Some fs0 ->
    NoDup (sentinels h) -> Forall (fun a => a < MEMORY_START) (sentinels h) ->
    heap_init fs0 h = (fs1, h1, 0) -> (forall i, 0 <= znth 0 pd i < 2 ^ 64) ->
    boot_space (mkSpace fs1 h1 mem ∅ pd).

Inductive space_reach (tidy : bool) (v0 : space) : space -> list (Z * Z) -> Prop :=
| SR_boot : boot_space v0 -> space_reach tidy v0 v0 []
| SR_create v L v' a :
    space_reach tidy v0 v L -> paging_create_address_space v = (v', a) ->
    space_reach tidy v0 v' (if a =? NULL then L else (a, h_size (sp_heap v') (a - HEAD_BYTES)) :: L)
| SR_destroy v L a sz L' :
    space_reach tidy v0 v L -> is_Some (sp_as v !! a) -> L ≡ₚ (a, sz) :: L' ->
    space_reach tidy v0 (paging_destroy_address_space v a) L'
| SR_page v L a va flags v1 f m v2 rc :
    space_reach tidy v0 v L -> is_Some (sp_as v !! a) -> user_va va -> 0 <= flags < 4096 ->
    flag flags PG_PRESENT = true -> sp_alloc_frame v = (v1, f) -> f <> 0 -> only_frame f (sp_mem v1) m ->
    paging_map_page (set_smem v1 m) a va f flags = (v2, rc) ->
    (tidy = true -> rc = 0 /\ walk (sp_mem v) (pml4_phys v a) va = None) ->
    space_reach tidy v0 v2 L
| SR_map_range v L a base n v' rc :
    space_reach tidy v0 v L -> is_Some (sp_as v !! a) -> 0 <= n -> USER_REGION_START <= base ->
    base + n * FRAME_SIZE <= USER_SPACE_END -> base mod FRAME_SIZE = 0 ->
    paging_map_user_range v a base (n * FRAME_SIZE) = (v', rc) ->
    (tidy = true -> forall va, base <= va < base + n * FRAME_SIZE -> walk (sp_mem v) (pml4_phys v a) va = None) ->
    space_reach tidy v0 v' L
| SR_unmap_range v L a base n :
    space_reach tidy v0 v L -> is_Some (sp_as v !! a) -> 0 <= n -> USER_REGION_START <= base ->
    base + n * FRAME_SIZE <= USER_SPACE_END -> base mod FRAME_SIZE = 0 ->
    space_reach tidy v0 (paging_unmap_user_range v a base (n * FRAME_SIZE)) L
| SR_kmalloc v L n v' p :
    space_reach tidy v0 v L -> 0 <= n < 2 ^ 64 -> sp_kmalloc v n = (v', p) ->
    space_reach tidy v0 v' (if p =? NULL then L else (p, h_size (sp_heap v') (p - HEAD_BYTES)) :: L)
| SR_kfree v L p sz L' :
    space_reach tidy v0 v L -> sp_as v !! p = None -> L ≡ₚ (p, sz) :: L' ->
    space_reach tidy v0 (sp_kfree v p) L'
| SR_store v L a va x b :
    space_reach tidy v0 v L -> is_Some (sp_as v !! a) -> user_va va ->
    translate (sp_mem v) (pml4_phys v a) va = Some x ->
    space_reach tidy v0 (set_smem v (pst8 (sp_mem v) x b)) L.

(** ** Boot *)

Lemma boot_space_inv v : boot_space v -> space_inv ∅ [] v.
Proof.
  intros [m mbi fs fs0 h fs1 h1 mem pd Hm Hp Hi Hnd Hse Hh Hpd].
  destruct (memory_init_spec m mbi fs Hm Hp) as (fs0' & Hi' & W0 & _ & _ & Hres). rewrite Hi in Hi'. simplify_eq.
  destruct (heap_init_live _ _ _ _ W0 Hnd Hse Hh) as (W1 & Hl & Hse1 & _).
  unfold heap_init, el_init in Hh. cbn [slab_get frame_slabs slab_fail] in Hh.
  change (u32 (u32 (HEAP_INITIAL_PAGES * EL_PAGE_BYTES / EL_PAGE_BYTES))) with 16 in Hh.
  destruct (alloc_contiguous_cases fs0' 16 W0 ltac:(lia)) as [[E _] | (s & fs2 & E & _ & S2 & S3 & _ & _ & _ & [En _] & Hu)];
    rewrite E in Hh; [done |].
  assert (fs1 = fs2 /\ heap_start h1 = frame_addr s /\ heap_end h1 = frame_addr s + 16 * FRAME_SIZE) as (-> & E1 & E2).
  { pose proof (frame_addr_nonzero s S2) as Hz%Z.eqb_neq. unfold NULL in Hh. rewrite Hz in Hh.
    cbn [heap_bytes set_bounds] in Hh. change (HEAP_INITIAL_PAGES * EL_PAGE_BYTES <? EL_BLOCK_OVERHEAD) with false in Hh.
    cbv beta iota zeta in Hh. injection Hh as -> Hh. split; [done |]. rewrite <- Hh. simpl.
    pose proof W0 as (_ & _ & Hn & _). pose proof max_frames_small. split; [done |].
    unfold frame_addr, HEAP_INITIAL_PAGES, EL_PAGE_BYTES, FRAME_SIZE, MEMORY_START in *. rewrite u64_small; lia. }
  split; try done.
  split; simpl; try done.
  - intros i Hi1 Hlo. rewrite En in Hi1. rewrite Hu. destruct (Hres i Hi1) as (_ & Hr & _). by rewrite Hr, orb_true_r.
  - intros i Hi1 [Hin1 Hin2]. simpl in *. rewrite E1 in Hin1. rewrite E2 in Hin2. rewrite Hu.
    unfold frame_addr, FRAME_SIZE in *. zcases; simpl; done || lia.
Qed.

(** ** Steps on the whole state *)

Section Steps.
Implicit Types T : gmap Z tree.

Lemma space_inv_perm T L L' v : L ≡ₚ L' -> space_inv T L v -> space_inv T L' v.
Proof.
  intros HP [H1 H2 H3 H4 H5]. split; try done; [by eapply heap_live_perm |].
  intros a tr Ha. rewrite <- HP. by apply (H5 a tr).
Qed.

Lemma space_handle T L v a pa :
  space_inv T L v -> sp_as v !! a = Some pa -> exists tr, T !! a = Some tr /\ tr_pml4 tr = pa /\ a <> NULL.
Proof.
  intros [_ H2 _ H4 H5] Ha. rewrite H4, lookup_fmap in Ha. destruct (T !! a) as [tr|] eqn:Et; [| done].
  exists tr. split; [done |]. simpl in Ha. split; [congruence |].
  destruct (proj1 (list_elem_of_fmap _ _ _) (H5 a tr Et)) as ([p sz] & Ep & Hin). simpl in Ep. subst p.
  apply list_elem_of_split in Hin as (L1 & L2 & ->). rewrite <- Permutation_middle in H2.
  destruct (heap_live_inside _ _ _ _ H2) as (Hlo & _). destruct H2 as (bs & al & ul & R & _).
  destruct (rep_bounds _ _ _ _ R) as (Hpos & _). unfold HEAD_BYTES, NULL in *. lia.
Qed.

Lemma space_inv_update T L v v' a tr tr' :
  space_inv T L v -> T !! a = Some tr -> tr_pml4 tr' = tr_pml4 tr -> same_rest v v' ->
  trees_ok (<[a := tr']> T) v' -> space_inv (<[a := tr']> T) L v'.
Proof.
  intros [H1 H2 H3 H4 H5] Ha Ep (E1 & E2 & _) Hok. split; [done | by rewrite E1 | by rewrite E1 | |].
  - rewrite E2, H4, fmap_insert. symmetry. apply insert_id. by rewrite lookup_fmap, Ha, Ep.
  - intros b tb Hb. destruct (decide (b = a)) as [-> | Hne]; [by apply (H5 a tr) |].
    rewrite lookup_insert_ne in Hb by done. by apply (H5 b tb).
Qed.

(** Allocating a frame, filling it and mapping it. *)
Lemma page_step T L v a tr va flags v1 f m v2 rc :
  space_inv T L v -> T !! a = Some tr -> user_va va -> 0 <= flags < 4096 -> flag flags PG_PRESENT = true ->
  sp_alloc_frame v = (v1, f) -> f <> 0 -> only_frame f (sp_mem v1) m ->
  paging_map_page (set_smem v1 m) a va f flags = (v2, rc) ->
  same_rest v v2 /\
  (rc = 1 /\ space_inv T L v2 /\ spare T v2 f /\ sp_mem v2 = m /\ (forall g, spare T v g -> spare T v2 g) \/
   rc = 0 /\ exists tr', mapped tr tr' (PD_INDEX va) (PT_INDEX va) (f + flags) /\ space_inv (<[a := tr']> T) L v2 /\
     (forall x, f <= x < f + 4096 -> pld8 (sp_mem v2) x = pld8 m x) /\
     (forall g, spare T v g -> spare (<[a := tr']> T) v2 g) /\
     (forall X, tr_leaf tr !! (PD_INDEX va, PT_INDEX va) = None -> accounted T v X -> accounted (<[a := tr']> T) v2 X)).
Proof.
  intros H Ha Hva Hfl Hp E1 Hz Ho E2.
  assert (sp_as v !! a = Some (tr_pml4 tr)) as Has by (rewrite (si_as _ _ _ H), lookup_fmap, Ha; done).
  destruct (alloc_spare T v v1 f (si_trees _ _ _ H) E1) as [[-> _] | (_ & H1 & Hs & R1 & _ & Hsp & Hu)]; [done |].
  pose proof (write_spare T v1 f m H1 Hs Ho) as H1m.
  assert (sp_as (set_smem v1 m) !! a = Some (tr_pml4 tr)) as Has1 by (simpl; destruct R1 as (_ & -> & _); done).
  destruct (map_page_ok T (set_smem v1 m) a tr va f flags v2 rc H1m Ha Has1 Hva Hs Hfl Hp E2)
    as [(-> & -> & _) | (-> & R2 & Hd & tr' & Hm & H2 & Hsp2 & Hacc)].
  - split; [done |]. left. split; [done |]. split; [by apply (space_inv_rest T L v) |]. split; [done |]. split; [done |].
    intros g Hg. by apply Hsp.
  - split; [by eapply same_rest_trans |]. right. split; [done |]. exists tr'. split; [done |].
    destruct (mapped_spine _ _ _ _ _ Hm) as [(Ep & _) _].
    split; [by apply (space_inv_update T L v v2 a tr); [..| by eapply same_rest_trans |] |].
    split; [intros x Hx; by apply (Hd f x); [left |] |].
    split; [intros g Hg; destruct (Hsp g Hg); by apply Hsp2 |].
    intros X Hnone HX. apply Hacc; [done |]. intros i Hi Hui. simpl in *. rewrite Hu in Hui.
    destruct R1 as (Eh & _ & _ & [En _]). rewrite En in Hi. rewrite Eh.
    apply orb_true_iff in Hui as [Ei%Z.eqb_eq | Hui]; [left; by right |].
    destruct (HX i Hi Hui) as [| [|]]; [left; by left | by right; left | by right; right].
Qed.

Lemma map_range_count n : 0 <= n -> Z.to_nat ((n * FRAME_SIZE + FRAME_SIZE - 1) / FRAME_SIZE) = Z.to_nat n.
Proof. intros. f_equal. unfold FRAME_SIZE. mlia. Qed.

Lemma map_range_step T L v a tr base n v' rc :
  space_inv T L v -> T !! a = Some tr -> 0 <= n -> USER_REGION_START <= base ->
  base + n * FRAME_SIZE <= USER_SPACE_END -> base mod FRAME_SIZE = 0 ->
  paging_map_user_range v a base (n * FRAME_SIZE) = (v', rc) ->
  range_post T v a tr base 0 n v' rc /\ exists tr', space_inv (<[a := tr']> T) L v'.
Proof.
  intros H Ha Hn Hlo Hhi Hal E. unfold paging_map_user_range in E. rewrite map_range_count in E by done.
  assert (sp_as v !! a = Some (tr_pml4 tr)) as Has by (rewrite (si_as _ _ _ H), lookup_fmap, Ha; done).
  assert (range_post T v a tr base 0 n v' rc) as Hpost.
  { rewrite <- (Z2Nat.id n) by done.
    apply map_range_loop_ok; try done; [apply (si_trees _ _ _ H) |]. rewrite Z2Nat.id by done. by rewrite Z.add_0_l. }
  split; [done |]. destruct Hpost as (tr' & K1 & K2 & _ & (Ep & _) & _). exists tr'. by apply (space_inv_update T L v v' a tr).
Qed.

Lemma unmap_range_step T L v a tr base n :
  space_inv T L v -> T !! a = Some tr -> 0 <= n -> USER_REGION_START <= base ->
  base + n * FRAME_SIZE <= USER_SPACE_END ->
  let v' := paging_unmap_user_range v a base (n * FRAME_SIZE) in
  same_rest v v' /\ exists tr', without tr tr' base n /\ space_inv (<[a := tr']> T) L v' /\
    (forall X, accounted T v X -> accounted (<[a := tr']> T) v' X).
Proof.
  intros H Ha Hn Hlo Hhi.
  assert (sp_as v !! a = Some (tr_pml4 tr)) as Has by (rewrite (si_as _ _ _ H), lookup_fmap, Ha; done).
  assert (pages base (n * FRAME_SIZE) = Z.to_nat n) as Epg.
  { unfold pages. unfold USER_REGION_START, USER_CODE_BASE, USER_SPACE_END, USER_HEAP_LIMIT in *.
    rewrite u64_small by (unfold FRAME_SIZE in *; lia). f_equal. unfold FRAME_SIZE. mlia. }
  unfold paging_unmap_user_range. rewrite Epg. cbv zeta.
  destruct (unmap_range_ok T v a tr base (Z.to_nat n) (si_trees _ _ _ H) Ha Has Hlo) as (tr' & W & K1 & K2 & _ & _ & K5).
  { by rewrite Z2Nat.id. }
  split; [done |]. exists tr'. rewrite Z2Nat.id in W by done. split; [done |]. split; [| done].
  destruct W as ((Ep & _) & _). by apply (space_inv_update T L v _ a tr).
Qed.

(** A store of ring 3, through the page walk. *)
Lemma user_store_step T L v a tr va x b :
  space_inv T L v -> T !! a = Some tr -> user_va va -> translate (sp_mem v) (tr_pml4 tr) va = Some x ->
  exists e, leaf_of tr va = Some e /\ x = pte_addr e + va mod FRAME_SIZE /\
    space_inv T L (set_smem v (pst8 (sp_mem v) x b)).
Proof.
  intros H Ha Hva E. unfold translate in E. rewrite (walk_user T v a tr va (si_trees _ _ _ H) Ha Hva) in E.
  destruct (leaf_of tr va) as [e|] eqn:El; [| done]. exists e. split; [done |]. injection E as E.
  assert (place tr (RLeaf (PD_INDEX va) (PT_INDEX va)) (pte_addr e)) as Hp by (exists e; done).
  destruct (place_bounds T v a tr _ _ (si_trees _ _ _ H) Ha Hp) as (B1 & _ & _).
  assert (Z.land e PTE_ADDR_MASK / FRAME_SIZE * FRAME_SIZE = pte_addr e) as Ed by (unfold pte_addr, FRAME_SIZE in *; mlia).
  rewrite Ed in E. split; [done |].
  assert (only_frame (pte_addr e) (sp_mem v) (pst8 (sp_mem v) x b)) as Ho.
  { intros y Hy. rewrite pld8_pst8. unfold FRAME_SIZE in *. destruct (Z.eqb_spec y x) as [-> |]; [| done].
    pose proof (Z.mod_pos_bound va 4096). lia. }
  apply (space_inv_rest T L v); [done | | done]. by apply (write_leaf T v a tr (PD_INDEX va) (PT_INDEX va) (pte_addr e) _ (si_trees _ _ _ H)).
Qed.
End Steps.

(** ** Every reachable state *)

(** In use when the first task was created. *)
Definition boot_frame (v0 : space) (f : Z) : Prop := exists i, f = frame_addr i /\ used (sp_frames v0) i = true.

Definition run_inv (tidy : bool) (v0 v : space) (L : list (Z * Z)) : Prop :=
  exists T, space_inv T L v /\ sp_pd v = sp_pd v0 /\ same_pool (sp_frames v0) (sp_frames v) /\
    (tidy = true -> accounted T v (boot_frame v0)).

Lemma same_pool_trans fs fs1 fs2 : same_pool fs fs1 -> same_pool fs1 fs2 -> same_pool fs fs2.
Proof. intros [] []. split; congruence. Qed.

Lemma run_inv_rest tidy v0 v v' L L' T T' :
  space_inv T L v -> sp_pd v = sp_pd v0 -> same_pool (sp_frames v0) (sp_frames v) ->
  (tidy = true -> accounted T v (boot_frame v0)) ->
  space_inv T' L' v' -> same_rest v v' ->
  (tidy = true -> accounted T v (boot_frame v0) -> accounted T' v' (boot_frame v0)) -> run_inv tidy v0 v' L'.
Proof.
  intros _ E1 P1 A1 H' (_ & _ & E2 & P2) HA. exists T'. split; [done |]. split; [congruence |].
  split; [by eapply same_pool_trans |]. auto.
Qed.

Lemma user_range_va base n va :
  USER_REGION_START <= base -> base + n * FRAME_SIZE <= USER_SPACE_END -> base <= va < base + n * FRAME_SIZE -> user_va va.
Proof. intros. unfold user_va. lia. Qed.

(** A range none of whose addresses is mapped. *)
Lemma range_fresh T L v a tr base n :
  space_inv T L v -> T !! a = Some tr -> USER_REGION_START <= base -> base + n * FRAME_SIZE <= USER_SPACE_END ->
  (forall va, base <= va < base + n * FRAME_SIZE -> walk (sp_mem v) (tr_pml4 tr) va = None) ->
  forall p, in_pages base (0 + n) p -> ~ in_pages base 0 p -> tr_leaf tr !! p = None.
Proof.
  intros H Ha Hlo Hhi Hnone p (k & Hk & ->) _. specialize (Hnone (base + k * FRAME_SIZE) ltac:(unfold FRAME_SIZE in *; lia)).
  rewrite (walk_user T v a tr _ (si_trees _ _ _ H) Ha) in Hnone by (unfold FRAME_SIZE in *; lia).
  unfold leaf_of in Hnone. by destruct (tr_leaf tr !! _).
Qed.

Lemma space_reach_inv tidy v0 v L : space_reach tidy v0 v L -> run_inv tidy v0 v L.
Proof.
  induction 1 as [Hb | v L v' a _ IH E | v L a sz L' _ IH [pa Hh] HP | v L a va flags v1 f m v2 rc _ IH [pa Hh] Hva Hfl Hp E1 Hz Ho E2 Ht
    | v L a base n v' rc _ IH [pa Hh] Hn Hlo Hhi Hal E Ht | v L a base n _ IH [pa Hh] Hn Hlo Hhi Hal
    | v L n v' p _ IH Hn E | v L p sz L' _ IH Hno HP | v L a va x b _ IH [pa Hh] Hva E].
  - exists ∅. split; [by apply boot_space_inv |]. split; [done |]. split; [done |]. intros _ i Hi Hu. left. by exists i.
  - destruct IH as (T & H & E1 & P1 & A1).
    destruct (create_ok T L v v' a H E) as (E2 & P2 & [(-> & H' & A2) | (Hz & _ & _ & sz & pml4 & pdpt & pd & H' & A2)]).
    + exists T. split; [done |]. split; [congruence |]. split; [by eapply same_pool_trans |]. auto.
    + apply Z.eqb_neq in Hz as ->. rewrite (heap_live_size _ _ _ _ (si_heap _ _ _ H')).
      exists (<[a := new_tree pml4 pdpt pd]> T). split; [done |]. split; [congruence |]. split; [by eapply same_pool_trans |]. auto.
  - destruct IH as (T & H & E1 & P1 & A1). destruct (space_handle T L v a pa H Hh) as (tr & Ha & _ & Hz).
    destruct (destroy_ok T L v a tr H Ha Hz) as (sz' & L2 & HP2 & H' & E2 & P2 & _ & A2).
    assert (L2 ≡ₚ L') as HL.
    { pose proof (heap_live_size _ _ _ _ (heap_live_perm _ _ _ HP (si_heap _ _ _ H))) as S1.
      pose proof (heap_live_size _ _ _ _ (heap_live_perm _ _ _ HP2 (si_heap _ _ _ H))) as S2.
      assert (sz' = sz) as -> by congruence. apply (Permutation_cons_inv (a := (a, sz))). by rewrite <- HP, <- HP2. }
    exists (delete a T). split; [by eapply space_inv_perm |]. split; [congruence |]. split; [by eapply same_pool_trans |]. auto.
  - destruct IH as (T & H & Epd & P1 & A1). destruct (space_handle T L v a pa H Hh) as (tr & Ha & Epa & _).
    destruct (page_step T L v a tr va flags v1 f m v2 rc H Ha Hva Hfl Hp E1 Hz Ho E2)
      as (R & [(-> & H' & _ & _) | (-> & tr' & Hm & H' & _ & _ & HA)]).
    + apply (run_inv_rest tidy v0 v v2 L L T T); try done. intros Hti. by destruct (Ht Hti).
    + apply (run_inv_rest tidy v0 v v2 L L T (<[a := tr']> T)); try done. intros Hti. apply HA.
      destruct (Ht Hti) as [_ Hw]. unfold pml4_phys in Hw. rewrite Hh in Hw. simpl in Hw. rewrite <- Epa in Hw.
      rewrite (walk_user T v a tr va (si_trees _ _ _ H) Ha Hva) in Hw. unfold leaf_of in Hw. by destruct (tr_leaf tr !! _).
  - destruct IH as (T & H & Epd & P1 & A1). destruct (space_handle T L v a pa H Hh) as (tr & Ha & Epa & _).
    destruct (map_range_step T L v a tr base n v' rc H Ha Hn Hlo Hhi Hal E) as [(tr' & K1 & K2 & _ & (Ep & _) & _ & _ & K) _].
    apply (run_inv_rest tidy v0 v v' L L T (<[a := tr']> T)); try done; [by apply (space_inv_update T L v v' a tr) |].
    intros Hti. apply K. apply (range_fresh T L v a tr base n H Ha Hlo Hhi). intros va Hva. specialize (Ht Hti va Hva).
    unfold pml4_phys in Ht. rewrite Hh in Ht. simpl in Ht. by rewrite Epa.
  - destruct IH as (T & H & Epd & P1 & A1). destruct (space_handle T L v a pa H Hh) as (tr & Ha & Epa & _).
    destruct (unmap_range_step T L v a tr base n H Ha Hn Hlo Hhi) as (R & tr' & _ & H' & HA).
    apply (run_inv_rest tidy v0 v _ L L T (<[a := tr']> T)); try done. auto.
  - destruct IH as (T & H & Epd & P1 & A1).
    destruct (sp_kmalloc_ok T L v n v' p H Hn E) as (Hc & E2 & E3 & _ & P2 & _ & A2). exists T.
    split; [| split; [congruence |]; split; [by eapply same_pool_trans | auto]].
    destruct Hc as [[-> H'] | (Hz & sz & _ & H')]; [done |]. apply Z.eqb_neq in Hz as ->.
    by rewrite (heap_live_size _ _ _ _ (si_heap _ _ _ H')).
  - destruct IH as (T & H & Epd & P1 & A1). pose proof (space_inv_perm _ _ _ _ HP H) as H2.
    destruct (sp_kfree_ok T L' v p sz H2) as [H' (S1 & S2 & _)].
    { intros b tb Hb. pose proof (si_live _ _ _ H2 b tb Hb) as Hin. simpl in Hin. apply elem_of_cons in Hin as [-> |]; [| done].
      rewrite (si_as _ _ _ H), lookup_fmap, Hb in Hno. done. }
    exists T. split; [done |]. split; [done |]. split; [done |]. intros Hti i Hi Hu.
    destruct (A1 Hti i Hi Hu) as [| [Hin |]]; [by left | | by right; right]. right. left. unfold in_heap in *. by rewrite S1, S2.
  - destruct IH as (T & H & Epd & P1 & A1). destruct (space_handle T L v a pa H Hh) as (tr & Ha & Epa & _).
    unfold pml4_phys in E. rewrite Hh in E. simpl in E. rewrite <- Epa in E.
    destruct (user_store_step T L v a tr va x b H Ha Hva E) as (e & _ & _ & H'). by exists T.
Qed.

(** ** The properties *)

Lemma walk_kernel T L v a tr va :
  space_inv T L v -> T !! a = Some tr -> 0 <= va < ONE_GB -> ~ user_va va ->
  let e := znth 0 (sp_pd v) (va / TWO_MB) in
  flag e PG_PRESENT = true -> flag e PG_HUGE = true -> walk (sp_mem v) (tr_pml4 tr) va = Some (e, TWO_MB).
Proof.
  intros H Ha Hva Hk e Hp Hh. destruct (spine_entries T v a tr (si_trees _ _ _ H) Ha) as (E1 & F1 & A1 & E2 & F2 & A2).
  destruct (tk_tree _ _ (si_trees _ _ _ H) _ _ Ha) as [_ [_ _ R3 _]].
  unfold ONE_GB in Hva. assert (PML4_INDEX va = 0 /\ PDPT_INDEX va = 0) as [I1 I2].
  { unfold PML4_INDEX, PDPT_INDEX. rewrite !index_mod by lia. change (2 ^ 39) with 549755813888. change (2 ^ 30) with 1073741824. mlia. }
  assert (PD_INDEX va = va / TWO_MB /\ 0 <= va / TWO_MB < 512 /\ is_user_pd_slot (va / TWO_MB) = false) as (I3 & Hi & Hs).
  { rewrite PD_INDEX_eq. split; [apply Z.mod_small; unfold TWO_MB; mlia |]. split; [unfold TWO_MB; mlia |].
    destruct (is_user_pd_slot (va / TWO_MB)) eqn:Es; [| done]. apply is_user_pd_slot_iff in Es. exfalso. apply Hk.
    unfold user_va, user_slot, USER_REGION_START, USER_CODE_BASE, USER_SPACE_END, USER_HEAP_LIMIT, TWO_MB in *. mlia. }
  unfold walk. rewrite I1, I2, I3, E1, F1, A1, E2, F2, A2. cbn [negb].
  fold (tbl (sp_mem v) (tr_pd tr) (va / TWO_MB)). rewrite R3, Hs by done. fold e. by rewrite Hp, Hh.
Qed.

(** No two user pages share a frame. *)
Lemma user_pages_apart T v a ta b tb va vb e e' s s' : trees_ok T v -> T !! a = Some ta -> T !! b = Some tb -> user_va va -> user_va vb ->
  walk (sp_mem v) (tr_pml4 ta) va = Some (e, s) -> walk (sp_mem v) (tr_pml4 tb) vb = Some (e', s') -> pte_addr e = pte_addr e' ->
  a = b /\ va / FRAME_SIZE = vb / FRAME_SIZE.
Proof.
  intros Ht Ta Tb Hva Hvb. rewrite (walk_user T v a ta va Ht Ta Hva), (walk_user T v b tb vb Ht Tb Hvb).
  unfold leaf_of. destruct (tr_leaf ta !! _) as [x|] eqn:Ex; [| done]. destruct (tr_leaf tb !! _) as [x'|] eqn:Ex'; [| done].
  intros [= -> _] [= -> _] Ee.
  destruct (tk_inj _ _ Ht a ta (RLeaf (PD_INDEX va) (PT_INDEX va)) b tb (RLeaf (PD_INDEX vb) (PT_INDEX vb)) (pte_addr e) Ta) as [-> [= E1 E2]];
    [by exists e | done | by exists e' |]. split; [done |]. by apply page_unique.
Qed.

(** An address of ring 3 as its processor sees it: the frame of its page and
    the offset in it. *)
Lemma translate_user T v a ta va x : trees_ok T v -> T !! a = Some ta -> user_va va -> translate (sp_mem v) (tr_pml4 ta) va = Some x ->
  exists e, walk (sp_mem v) (tr_pml4 ta) va = Some (e, FRAME_SIZE) /\ x = pte_addr e + va mod FRAME_SIZE /\ pte_addr e mod FRAME_SIZE = 0.
Proof.
  intros Ht Ta Hva E. unfold translate in E. rewrite (walk_user T v a ta va Ht Ta Hva) in *. unfold leaf_of in *.
  destruct (tr_leaf ta !! _) as [e|] eqn:Ee; [| done]. injection E as <-. exists e. split; [done |].
  assert (place ta (RLeaf (PD_INDEX va) (PT_INDEX va)) (pte_addr e)) as Hp by (exists e; done).
  destruct (place_bounds T v a ta _ _ Ht Ta Hp) as (B1 & _ & _).
  unfold pte_addr, FRAME_SIZE in *. split; [mlia | mlia].
Qed.

Lemma translate_inj T v a ta va vb x : trees_ok T v -> T !! a = Some ta -> user_va va -> user_va vb ->
  translate (sp_mem v) (tr_pml4 ta) va = Some x -> translate (sp_mem v) (tr_pml4 ta) vb = Some x -> va = vb.
Proof.
  intros Ht Ta Hva Hvb E1 E2. destruct (translate_user T v a ta va x Ht Ta Hva E1) as (e & W & -> & A), (translate_user T v a ta vb _ Ht Ta Hvb E2) as (e' & W' & Ex & A').
  assert (pte_addr e = pte_addr e' /\ va mod FRAME_SIZE = vb mod FRAME_SIZE) as [Ee Em] by (unfold FRAME_SIZE in *; mlia).
  destruct (user_pages_apart T v a ta a ta va vb e e' _ _ Ht Ta Ta Hva Hvb W W' Ee) as [_ Ed]. unfold FRAME_SIZE in *. mlia.
Qed.

(** C6: Address spaces are isolated. In every state the paging code can
    reach, two user pages that share a frame are the same page of the same
    address space; a user page lies above ring-3 space and outside the
    kernel heap; no store through a user mapping changes how any user
    address of any address space translates; and every address space maps
    the kernel below 1 GB as the boot page directory does. *)
Theorem address_spaces_isolated tidy v0 v L a pa b pb :
  space_reach tidy v0 v L -> sp_as v !! a = Some pa -> sp_as v !! b = Some pb ->
  (forall va vb e e' s s', user_va va -> user_va vb ->
     walk (sp_mem v) pa va = Some (e, s) -> walk (sp_mem v) pb vb = Some (e', s') -> pte_addr e = pte_addr e' ->
     a = b /\ va / FRAME_SIZE = vb / FRAME_SIZE) /\
  (forall va e s, user_va va -> walk (sp_mem v) pa va = Some (e, s) ->
     s = FRAME_SIZE /\ USER_SPACE_END <= pte_addr e /\ ~ in_heap (sp_heap v) (pte_addr e)) /\
  (forall va x y vb, user_va va -> user_va vb -> translate (sp_mem v) pa va = Some x ->
     walk (pst8 (sp_mem v) x y) pb vb = walk (sp_mem v) pb vb) /\
  (forall va, 0 <= va < ONE_GB -> ~ user_va va ->
     let e := znth 0 (sp_pd v0) (va / TWO_MB) in flag e PG_PRESENT = true -> flag e PG_HUGE = true ->
     walk (sp_mem v) pa va = Some (e, TWO_MB)).
Proof.
  intros Hr Ha Hb. destruct (space_reach_inv _ _ _ _ Hr) as (T & H & Epd & _ & _). pose proof (si_trees _ _ _ H) as Ht.
  destruct (space_handle _ _ _ _ _ H Ha) as (ta & Ta & <- & _), (space_handle _ _ _ _ _ H Hb) as (tb & Tb & <- & _).
  split; [| split; [| split]].
  - intros va vb e e' s s'. by apply (user_pages_apart T v).
  - intros va e s Hva. rewrite (walk_user T v a ta va Ht Ta Hva). unfold leaf_of. destruct (tr_leaf ta !! _) as [x|] eqn:Ex; [| done].
    intros [= -> <-]. split; [done |]. assert (place ta (RLeaf (PD_INDEX va) (PT_INDEX va)) (pte_addr e)) as Hp by (by exists e).
    destruct (place_bounds T v a ta _ _ Ht Ta Hp) as (_ & B & _). destruct (tk_place _ _ Ht _ _ _ _ Ta Hp). split; [lia | done].
  - intros va x y vb Hva Hvb E. destruct (user_store_step T L v a ta va x y H Ta Hva E) as (e & _ & _ & H').
    pose proof (walk_user T _ b tb vb (si_trees _ _ _ H') Tb Hvb) as W. simpl in W. by rewrite W, (walk_user T v b tb vb Ht Tb Hvb).
  - rewrite <- Epd. intros va Hva Hk e Hp Hh. by apply (walk_kernel T L v a ta va H Ta Hva Hk).
Qed.

(** C7: Mapping a page is updating one point of the address space. With a
    frame fresh from the allocator, filled with [m], [paging_map_page]
    either fails and no translation of any address space changes, or makes
    exactly the page of [va] translate to that frame with those flags and
    with the contents it was filled with; every other page and every other
    address space translates as before. *)
Theorem map_page_refines tidy v0 v L a pa va flags v1 f m v2 rc :
  space_reach tidy v0 v L -> sp_as v !! a = Some pa -> user_va va -> 0 <= flags < 4096 ->
  flag flags PG_PRESENT = true -> sp_alloc_frame v = (v1, f) -> f <> 0 -> only_frame f (sp_mem v1) m ->
  paging_map_page (set_smem v1 m) a va f flags = (v2, rc) ->
  sp_as v2 = sp_as v /\ (rc = 0 \/ rc = 1) /\
  (rc = 0 -> forall x, f <= x < f + FRAME_SIZE -> pld8 (sp_mem v2) x = pld8 m x) /\
  forall b pb vb, sp_as v !! b = Some pb -> user_va vb ->
    walk (sp_mem v2) pb vb =
      if (rc =? 0) && bool_decide (b = a /\ vb / FRAME_SIZE = va / FRAME_SIZE) then Some (f + flags, FRAME_SIZE)
      else walk (sp_mem v) pb vb.
Proof.
  intros Hr Ha Hva Hfl Hp E1 Hz Ho E2. destruct (space_reach_inv _ _ _ _ Hr) as (T & H & _).
  destruct (space_handle _ _ _ _ _ H Ha) as (ta & Ta & <- & _). pose proof (si_trees _ _ _ H) as Ht.
  destruct (page_step T L v a ta va flags v1 f m v2 rc H Ta Hva Hfl Hp E1 Hz Ho E2)
    as ((_ & Eas & _) & [(-> & H' & _) | (-> & tr' & Hm & H' & Hcont & _)]).
  - split; [done |]. split; [by right |]. split; [done |]. intros b pb vb Hb Hvb.
    destruct (space_handle _ _ _ _ _ H Hb) as (tb & Tb & <- & _). simpl.
    by rewrite (walk_user T v2 b tb vb (si_trees _ _ _ H') Tb Hvb), (walk_user T v b tb vb Ht Tb Hvb).
  - split; [done |]. split; [by left |]. split; [done |]. intros b pb vb Hb Hvb. simpl.
    destruct (mapped_spine _ _ _ _ _ Hm) as [(Ep & _) El].
    destruct (space_handle _ _ _ _ _ H Hb) as (tb & Tb & <- & _). rewrite (walk_user T v b tb vb Ht Tb Hvb).
    destruct (decide (b = a)) as [-> | Hne].
    + assert (tb = ta) as -> by congruence. rewrite <- Ep.
      rewrite (walk_user _ v2 a tr' vb (si_trees _ _ _ H') (lookup_insert_eq _ _ _) Hvb).
      unfold leaf_of. rewrite El. destruct (decide (vb / FRAME_SIZE = va / FRAME_SIZE)) as [Epg | Hpg].
      * rewrite bool_decide_true by done.
        assert (PD_INDEX vb = PD_INDEX va /\ PT_INDEX vb = PT_INDEX va) as [-> ->].
        { rewrite !PD_INDEX_eq, !PT_INDEX_eq, Epg. split; [| done]. f_equal. unfold TWO_MB, FRAME_SIZE in *. mlia. }
        by rewrite lookup_insert_eq.
      * rewrite bool_decide_false by tauto. rewrite lookup_insert_ne; [done |]. intros [= I1 I2]. apply Hpg. symmetry. by apply page_unique.
    + rewrite bool_decide_false by tauto.
      by rewrite (walk_user _ v2 b tb vb (si_trees _ _ _ H') ltac:(by rewrite lookup_insert_ne) Hvb).
Qed.

Lemma va_in_pages base n va : base mod FRAME_SIZE = 0 -> user_va va -> USER_REGION_START <= base ->
  base + n * FRAME_SIZE <= USER_SPACE_END ->
  in_pages base n (PD_INDEX va, PT_INDEX va) <-> base <= va < base + n * FRAME_SIZE.
Proof.
  intros Hal Hva Hlo Hhi. split.
  - intros (k & Hk & [= E1 E2]).
    assert (va / FRAME_SIZE = (base + k * FRAME_SIZE) / FRAME_SIZE) as E.
    { apply page_unique; try done. unfold FRAME_SIZE in *. lia. }
    unfold FRAME_SIZE in *. mlia.
  - intros Hr. exists ((va - base) / FRAME_SIZE). split; [unfold FRAME_SIZE in *; mlia |].
    rewrite !PD_INDEX_eq, !PT_INDEX_eq. unfold TWO_MB, FRAME_SIZE in *. f_equal; f_equal; mlia.
Qed.

(** An address the range does not cover, of any address space, keeps its
    translation and the byte it holds. *)
Lemma range_frame T L v a tr base n v' rc b tb vb :
  space_inv T L v -> T !! a = Some tr -> T !! b = Some tb -> user_va vb -> 0 <= n -> USER_REGION_START <= base ->
  base + n * FRAME_SIZE <= USER_SPACE_END -> base mod FRAME_SIZE = 0 ->
  (forall va, base <= va < base + n * FRAME_SIZE -> walk (sp_mem v) (tr_pml4 tr) va = None) ->
  range_post T v a tr base 0 n v' rc -> ~ (b = a /\ base <= vb < base + n * FRAME_SIZE) ->
  walk (sp_mem v') (tr_pml4 tb) vb = walk (sp_mem v) (tr_pml4 tb) vb /\
  forall x, translate (sp_mem v) (tr_pml4 tb) vb = Some x -> pld8 (sp_mem v') x = pld8 (sp_mem v) x.
Proof.
  intros H Ha Hb Hvb Hn Hlo Hhi Hal Hnone (tr' & K1 & K2 & _ & (Ep & _) & K5 & _ & K) Hout.
  pose proof (si_trees _ _ _ H) as Ht. split.
  - rewrite (walk_user T v b tb vb Ht Hb Hvb). destruct (decide (b = a)) as [-> | Hne].
    + assert (tb = tr) as -> by congruence. rewrite <- Ep.
      rewrite (walk_user _ v' a tr' vb K1 (lookup_insert_eq _ _ _) Hvb). unfold leaf_of. rewrite K5; [done |].
      rewrite Z.add_0_l, va_in_pages by done. tauto.
    + by rewrite (walk_user _ v' b tb vb K1 ltac:(by rewrite lookup_insert_ne) Hvb).
  - intros x E. destruct (user_store_step T L v b tb vb x 0 H Hb Hvb E) as (e & El & -> & _).
    destruct K as [D _]; [by apply (range_fresh T L v a tr base n H Ha Hlo Hhi) |].
    apply (D (pte_addr e)); [| unfold FRAME_SIZE; pose proof (Z.mod_pos_bound vb 4096); lia].
    right. exists b, tb, (PD_INDEX vb), (PT_INDEX vb). split; [done |]. by exists e.
Qed.

(** C9: [paging_map_user_range] on unmapped pages is all or nothing. It
    returns 0 with every page of the range mapped, writable from ring 3, to
    a frame of zeros, or -1 with no page of the range mapped; either way
    every other user address of every address space translates as before
    and holds the byte it held. *)
Theorem map_user_range_atomic tidy v0 v L a pa base n v' rc :
  space_reach tidy v0 v L -> sp_as v !! a = Some pa -> 0 <= n -> USER_REGION_START <= base ->
  base + n * FRAME_SIZE <= USER_SPACE_END -> base mod FRAME_SIZE = 0 ->
  (forall va, base <= va < base + n * FRAME_SIZE -> walk (sp_mem v) pa va = None) ->
  paging_map_user_range v a base (n * FRAME_SIZE) = (v', rc) ->
  (rc = 0 /\ (forall va, base <= va < base + n * FRAME_SIZE -> exists f,
     walk (sp_mem v') pa va = Some (f + USER_HEAP_PAGE_FLAGS, FRAME_SIZE) /\ f mod FRAME_SIZE = 0 /\
     forall x, f <= x < f + FRAME_SIZE -> pld8 (sp_mem v') x = 0) \/
   rc = -1 /\ (forall va, base <= va < base + n * FRAME_SIZE -> walk (sp_mem v') pa va = None)) /\
  sp_as v' = sp_as v /\
  forall b pb vb, sp_as v !! b = Some pb -> user_va vb -> ~ (b = a /\ base <= vb < base + n * FRAME_SIZE) ->
    walk (sp_mem v') pb vb = walk (sp_mem v) pb vb /\
    forall x, translate (sp_mem v) pb vb = Some x -> pld8 (sp_mem v') x = pld8 (sp_mem v) x.
Proof.
  intros Hr Ha Hn Hlo Hhi Hal Hnone E. destruct (space_reach_inv _ _ _ _ Hr) as (T & H & _).
  destruct (space_handle _ _ _ _ _ H Ha) as (ta & Ta & <- & _).
  destruct (map_range_step T L v a ta base n v' rc H Ta Hn Hlo Hhi Hal E) as [Hpost _].
  split; [| split].
  - destruct Hpost as (tr' & K1 & _ & _ & (Ep & _) & _ & Hrc & K).
    destruct K as (_ & _ & F1 & F0); [by apply (range_fresh T L v a ta base n H Ta Hlo Hhi) |]. rewrite Z.add_0_l in *.
    assert (forall va, base <= va < base + n * FRAME_SIZE -> in_pages base n (PD_INDEX va, PT_INDEX va) /\
      walk (sp_mem v') (tr_pml4 ta) va = (leaf_of tr' va) ≫= fun e => Some (e, FRAME_SIZE)) as Hw.
    { intros va Hva. assert (user_va va) as Hu by (by apply (user_range_va base n)).
      split; [by apply va_in_pages |]. rewrite <- Ep. rewrite (walk_user _ v' a tr' va K1 (lookup_insert_eq _ _ _) Hu).
      by destruct (leaf_of tr' va). }
    destruct Hrc as [-> | ->]; [left | right]; (split; [done |]); intros va Hva; destruct (Hw va Hva) as [Hin ->]; unfold leaf_of.
    + destruct (F0 eq_refl) as [_ F]. destruct (F _ Hin) as (f & -> & Hf & _ & Hz); [intros (k & Hk & _); lia |].
      exists f. split; [done |]. split; [done |]. apply Hz.
    + by rewrite F1.
  - by destruct Hpost as (tr' & _ & (_ & -> & _) & _).
  - intros b pb vb Hb Hvb Hout. destruct (space_handle _ _ _ _ _ H Hb) as (tb & Tb & <- & _).
    by apply (range_frame T L v a ta base n v' rc b tb vb).
Qed.

(** C8: Address spaces leak no frames. After any tidy run at whose end
    every address space has been destroyed, each frame in use was in use
    when the first task was created or belongs to the kernel heap. *)
Theorem address_spaces_leak_nothing v0 v L i :
  space_reach true v0 v L -> sp_as v = ∅ -> 0 <= i < num_frames (sp_frames v) -> used (sp_frames v) i = true ->
  used (sp_frames v0) i = true \/ in_heap (sp_heap v) (frame_addr i).
Proof.
  intros Hr Has Hi Hu. destruct (space_reach_inv _ _ _ _ Hr) as (T & H & _ & _ & A).
  destruct (A eq_refl i Hi Hu) as [(j & Ej & Hj) | [Hin | (a & tr & r & Ha & _)]].
  - left. assert (i = j) as -> by (unfold frame_addr, FRAME_SIZE in *; lia). done.
  - by right.
  - pose proof (si_as _ _ _ H) as E. rewrite Has in E. symmetry in E. apply fmap_empty_inv in E. subst T. done.
Qed.

(** ** Witnesses: two address spaces on a pool of 64 frames *)

Module Demo.

Definition pd : list Z := (fun i => i * TWO_MB + 0x83) <$> seqZ 0 512.
(** The space after boot with memory up to [top]. *)
Definition frames_to (top : Z) : frames := default (mkFrames [] 0 top) (memory_init no_map_mem 0 (mkFrames [] 0 top)).
Definition space_to (top : Z) : space := mkSpace (heap_init (frames_to top) demo_ctl).1.1 (heap_init (frames_to top) demo_ctl).1.2 ∅ ∅ pd.
Definition starts (top : Z) : Z :=
  match memory_init no_map_mem 0 (mkFrames [] 0 top) with Some _ => (heap_init (frames_to top) demo_ctl).2 | None => 1 end.
Definition top0 : Z := USER_HEAP_LIMIT + 64 * FRAME_SIZE.
Definition v0 : space := space_to top0.
Definition v1 : space := (paging_create_address_space v0).1.
Definition a : Z := (paging_create_address_space v0).2.
Definition v2 : space := (paging_create_address_space v1).1.
Definition b : Z := (paging_create_address_space v1).2.
Definition f : Z := (sp_alloc_frame v2).2.
Definition vf : space := (sp_alloc_frame v2).1.
Definition v3 : space := (paging_map_page (set_smem vf (sp_mem vf)) a USER_CODE_BASE f USER_HEAP_PAGE_FLAGS).1.
Definition v4 : space := (paging_map_user_range v3 b USER_HEAP_BASE (1 * FRAME_SIZE)).1.
Definition v5 : space := paging_destroy_address_space v4 a.
Definition v6 : space := paging_destroy_address_space v5 b.

(** The page directory entry of a slot is not present. *)
Definition slot_free (m : phys) (cr3 slot : Z) : bool :=
  negb (flag (pld64 m (pte_addr (pld64 m (pte_addr (pld64 m cr3))) + 8 * slot)) PG_PRESENT).

Lemma slot_free_walk m cr3 va : user_va va -> slot_free m cr3 (PD_INDEX va) = true -> walk m cr3 va = None.
Proof.
  intros Hva H. destruct (user_indices va Hva) as (E1 & E2 & _). unfold walk. rewrite E1, E2, !Z.mul_0_r, !Z.add_0_r.
  apply negb_true_iff in H. unfold pte_addr in H. rewrite H. by do 2 (case_match; [done |]).
Qed.

Lemma heap_slot va : USER_HEAP_BASE <= va < USER_HEAP_BASE + 1 * FRAME_SIZE -> user_va va /\ PD_INDEX va = 4.
Proof.
  intros H. rewrite PD_INDEX_eq. unfold user_va, USER_HEAP_BASE, USER_REGION_START, USER_CODE_BASE, USER_SPACE_END, USER_HEAP_LIMIT, TWO_MB, FRAME_SIZE in *. mlia.
Qed.

(** What the calls return and leave, evaluated once: the results, the roots
    of the two trees, free slots and frames. *)
Definition facts : list (option Z) :=
  [sp_as v2 !! 10485792; sp_as v2 !! 10485840; sp_as v3 !! 10485792; sp_as v3 !! 10485840; sp_as v4 !! 10485792; sp_as v4 !! 10485840;
   sp_as v5 !! 10485840; Some a; Some b; Some f;
   Some (paging_map_page (set_smem vf (sp_mem vf)) a USER_CODE_BASE f USER_HEAP_PAGE_FLAGS).2;
   Some (paging_map_user_range v3 b USER_HEAP_BASE (1 * FRAME_SIZE)).2;
   Some (Z.b2z (slot_free (sp_mem v2) 10551296 2)); Some (Z.b2z (slot_free (sp_mem v3) 10563584 4));
   Some (Z.b2z (used (sp_frames v4) 1552)); Some (Z.b2z (used (sp_frames v6) 1552)); Some (Z.b2z (used (sp_frames v6) 1536));
   Some (num_frames (sp_frames v6)); Some (zlen (map_to_list (sp_as v6)));
   Some (starts top0)].
Definition facts_value : list (option Z) :=
  [Some 10551296; Some 10563584; Some 10551296; Some 10563584; Some 10551296; Some 10563584;
   Some 10563584; Some 10485792; Some 10485840; Some 10575872; Some 0; Some 0; Some 1; Some 1; Some 1; Some 0; Some 1; Some 1600; Some 0;
   Some 0].
Lemma facts_eq : facts = facts_value.
Proof. vm_compute. reflexivity. Qed.

Lemma fact (k : nat) (x y : option Z) : facts !! k = Some x -> facts_value !! k = Some y -> x = y.
Proof. intros E1 E2. rewrite facts_eq, E2 in E1. by injection E1. Qed.
Lemma fact_z (k : nat) (x y : Z) : facts !! k = Some (Some x) -> facts_value !! k = Some (Some y) -> x = y.
Proof. intros E1 E2. by injection (fact k _ _ E1 E2). Qed.
Lemma b2z_true c : Z.b2z c = 1 -> c = true.
Proof. by destruct c. Qed.

Lemma a_eq : a = 10485792.
Proof. exact (fact_z 7 _ _ eq_refl eq_refl). Qed.
Lemma b_eq : b = 10485840.
Proof. exact (fact_z 8 _ _ eq_refl eq_refl). Qed.
Lemma f_nonzero : f <> 0.
Proof. assert (f = 10575872) as -> by exact (fact_z 9 _ _ eq_refl eq_refl). lia. Qed.

Lemma fresh_range va : USER_HEAP_BASE <= va < USER_HEAP_BASE + 1 * FRAME_SIZE -> walk (sp_mem v3) 10563584 va = None.
Proof. intros [Hva E]%heap_slot. apply slot_free_walk; [exact Hva |]. rewrite E. exact (b2z_true _ (fact_z 13 _ _ eq_refl eq_refl)). Qed.

Lemma space_to_booted top : 0 <= top <= ONE_GB -> starts top = 0 -> boot_space (space_to top).
Proof.
  destruct demo_ctl_sentinels as [S1 S2]. intros Ht Hs. unfold starts in Hs. destruct (memory_init no_map_mem 0 (mkFrames [] 0 top)) as [fs|] eqn:Em; [| done].
  apply (boot_space_intro no_map_mem 0 (mkFrames [] 0 top) (frames_to top) demo_ctl); [| exact Ht | | exact S1 | exact S2 | |].
  - intros x. unfold no_map_mem. lia.
  - unfold frames_to. by rewrite Em.
  - revert Hs. destruct (heap_init (frames_to top) demo_ctl) as [[x y] z]. simpl. by intros ->.
  - intros i. assert (forallb (fun e => (0 <=? e) && (e <? 2 ^ 64)) pd = true) as H by (vm_compute; reflexivity).
    rewrite forallb_forall in H. unfold znth. destruct (i <? 0); [lia |].
    destruct (pd !! Z.to_nat i) as [e|] eqn:E; simpl; [| lia].
    apply list_elem_of_lookup_2, list_elem_of_In, H in E. zbool. lia.
Qed.

Lemma booted : boot_space v0.
Proof. apply space_to_booted; [by vm_compute |]. exact (fact_z 19 _ _ eq_refl eq_refl). Qed.

Definition cell (v : space) (p : Z) : Z * Z := (p, h_size (sp_heap v) (p - HEAD_BYTES)).

Lemma reach1 : space_reach true v0 v1 [cell v1 a].
Proof.
  pose proof (SR_create true v0 v0 [] v1 a (SR_boot true v0 booted) (surjective_pairing _)) as H.
  assert ((a =? NULL) = false) as E by (rewrite a_eq; reflexivity). by rewrite E in H.
Qed.
Lemma reach2 : space_reach true v0 v2 [cell v2 b; cell v1 a].
Proof.
  pose proof (SR_create true v0 v1 _ v2 b reach1 (surjective_pairing _)) as H.
  assert ((b =? NULL) = false) as E by (rewrite b_eq; reflexivity). by rewrite E in H.
Qed.

Lemma user_code : user_va USER_CODE_BASE.
Proof. done. Qed.

Lemma reach3 : space_reach true v0 v3 [cell v2 b; cell v1 a].
Proof.
  apply (SR_page true v0 v2 _ a USER_CODE_BASE USER_HEAP_PAGE_FLAGS vf f (sp_mem vf) v3
    (paging_map_page (set_smem vf (sp_mem vf)) a USER_CODE_BASE f USER_HEAP_PAGE_FLAGS).2 reach2).
  - rewrite a_eq. eexists. by apply (fact 0).
  - exact user_code.
  - done.
  - done.
  - exact (surjective_pairing _).
  - exact f_nonzero.
  - by intros x Hx.
  - exact (surjective_pairing _).
  - intros _. split; [exact (fact_z 10 _ _ eq_refl eq_refl) |].
    unfold pml4_phys. rewrite a_eq, (fact 0 _ _ eq_refl eq_refl).
    exact (slot_free_walk (sp_mem v2) 10551296 USER_CODE_BASE user_code (b2z_true _ (fact_z 12 _ _ eq_refl eq_refl))).
Qed.
Lemma reach4 : space_reach true v0 v4 [cell v2 b; cell v1 a].
Proof.
  apply (SR_map_range true v0 v3 _ b USER_HEAP_BASE 1 v4 (paging_map_user_range v3 b USER_HEAP_BASE (1 * FRAME_SIZE)).2 reach3);
    [| lia | by vm_compute | by vm_compute | by vm_compute | |].
  - rewrite b_eq. eexists. by apply (fact 3).
  - exact (surjective_pairing _).
  - intros _. unfold pml4_phys. rewrite b_eq, (fact 3 _ _ eq_refl eq_refl). exact fresh_range.
Qed.
Lemma reach6 : space_reach true v0 v6 [].
Proof.
  apply (SR_destroy true v0 v5 [cell v2 b] b (h_size (sp_heap v2) (b - HEAD_BYTES))); [| | done].
  - apply (SR_destroy true v0 v4 [cell v2 b; cell v1 a] a (h_size (sp_heap v1) (a - HEAD_BYTES)) _ reach4); [| apply Permutation_swap].
    rewrite a_eq. eexists. by apply (fact 4).
  - rewrite b_eq. eexists. by apply (fact 6).
Qed.

End Demo.

Lemma address_spaces_isolated_witness :
  sp_as Demo.v4 !! 10485792 = Some 10551296 /\ sp_as Demo.v4 !! 10485840 = Some 10563584 /\
  forall va x y vb, user_va va -> user_va vb -> translate (sp_mem Demo.v4) 10551296 va = Some x ->
    walk (pst8 (sp_mem Demo.v4) x y) 10563584 vb = walk (sp_mem Demo.v4) 10563584 vb.
Proof.
  split; [exact (Demo.fact 4 _ _ eq_refl eq_refl) |]. split; [exact (Demo.fact 5 _ _ eq_refl eq_refl) |].
  exact (proj1 (proj2 (proj2 (address_spaces_isolated true Demo.v0 Demo.v4 _ 10485792 10551296 10485840 10563584 Demo.reach4
    (Demo.fact 4 _ _ eq_refl eq_refl) (Demo.fact 5 _ _ eq_refl eq_refl))))).
Defined.

Lemma map_page_refines_witness :
  walk (sp_mem Demo.v3) 10563584 USER_CODE_BASE = walk (sp_mem Demo.v2) 10563584 USER_CODE_BASE.
Proof.
  pose proof (map_page_refines true Demo.v0 Demo.v2 _ 10485792 10551296 USER_CODE_BASE USER_HEAP_PAGE_FLAGS
    Demo.vf Demo.f (sp_mem Demo.vf) (paging_map_page (set_smem Demo.vf (sp_mem Demo.vf)) 10485792 USER_CODE_BASE Demo.f USER_HEAP_PAGE_FLAGS).1
    (paging_map_page (set_smem Demo.vf (sp_mem Demo.vf)) 10485792 USER_CODE_BASE Demo.f USER_HEAP_PAGE_FLAGS).2
    Demo.reach2 (Demo.fact 0 _ _ eq_refl eq_refl) Demo.user_code ltac:(done) ltac:(done) (surjective_pairing _)
    Demo.f_nonzero ltac:(intros x Hx; reflexivity) (surjective_pairing _)) as (_ & _ & _ & H).
  specialize (H 10485840 10563584 USER_CODE_BASE (Demo.fact 1 _ _ eq_refl eq_refl) Demo.user_code).
  rewrite bool_decide_false, andb_false_r in H by (intros [? _]; lia).
  unfold Demo.v3. rewrite Demo.a_eq. exact H.
Defined.

Lemma map_user_range_atomic_witness :
  walk (sp_mem Demo.v3) 10563584 USER_HEAP_BASE = None /\
  exists f, walk (sp_mem Demo.v4) 10563584 USER_HEAP_BASE = Some (f + USER_HEAP_PAGE_FLAGS, FRAME_SIZE).
Proof.
  split; [apply Demo.fresh_range; unfold FRAME_SIZE; lia |].
  pose proof (map_user_range_atomic true Demo.v0 Demo.v3 _ 10485840 10563584 USER_HEAP_BASE 1
    (paging_map_user_range Demo.v3 10485840 USER_HEAP_BASE (1 * FRAME_SIZE)).1
    (paging_map_user_range Demo.v3 10485840 USER_HEAP_BASE (1 * FRAME_SIZE)).2
    Demo.reach3 (Demo.fact 3 _ _ eq_refl eq_refl) ltac:(lia) ltac:(by vm_compute) ltac:(by vm_compute) ltac:(by vm_compute)
    Demo.fresh_range (surjective_pairing _)) as [[[_ H] | [H _]] _].
  - destruct (H USER_HEAP_BASE ltac:(unfold FRAME_SIZE; lia)) as (f & E & _). exists f.
    unfold Demo.v4. rewrite Demo.b_eq. exact E.
  - exfalso. rewrite <- Demo.b_eq, (Demo.fact_z 11 _ _ eq_refl eq_refl) in H. lia.
Defined.

Lemma address_spaces_leak_nothing_witness :
  used (sp_frames Demo.v4) 1552 = true /\ Z.b2z (used (sp_frames Demo.v6) 1552) = 0 /\
  (used (sp_frames Demo.v0) 1536 = true \/ in_heap (sp_heap Demo.v6) (frame_addr 1536)).
Proof.
  split; [exact (Demo.b2z_true _ (Demo.fact_z 14 _ _ eq_refl eq_refl)) |]. split; [exact (Demo.fact_z 15 _ _ eq_refl eq_refl) |].
  apply (address_spaces_leak_nothing Demo.v0 Demo.v6 [] 1536 Demo.reach6).
  - apply map_to_list_empty_iff, length_zero_iff_nil. pose proof (Demo.fact_z 18 _ _ eq_refl eq_refl) as E. unfold zlen in E. lia.
  - rewrite (Demo.fact_z 17 _ _ eq_refl eq_refl). lia.
  - exact (Demo.b2z_true _ (Demo.fact_z 16 _ _ eq_refl eq_refl)).
Defined.
