(* ===== verification/Fat.v ===== *)
(** * The FAT32 file system

    [fs/fat32.c], over an environment that provides the kernel heap and the
    disk ([FsEnv]). The static variables of the file are the record
    [volume]; a function that uses them is a computation of type [F E A],
    which threads them and the environment. [None] stands for the -1 of a
    function that otherwise returns through a pointer.

    A sector or cluster buffer is the list of its bytes; a directory entry
    ([struct fat32_dirent], packed) is its 32 bytes with the fields at their
    offsets. A file name is the list of its characters, without the final
    NUL. Messages are not part of the state. *)

From stdpp Require Import base list.
From Stdlib Require Import ZArith Lia Bool.
From S2P Require Import Prelude.

(** ** Constants *)

Definition DISK_SECTOR_SIZE : Z := 512.
Definition FAT32_BOOT_BLOCK : Z := 0.
Definition FAT32_SIGNATURE_OFFSET : Z := 510.
Definition FAT32_SIGNATURE : Z := 0xAA55.
Definition FAT32_FIRST_DATA_CLUSTER : Z := 2.
Definition FAT32_ENTRY_BYTES : Z := 4.
Definition FAT32_ENTRY_MASK : Z := 0x0FFFFFFF.
Definition FAT32_CLUSTER_FREE : Z := 0.
Definition FAT32_CLUSTER_BAD : Z := 0x0FFFFFF7.
Definition FAT32_CLUSTER_END : Z := 0x0FFFFFF8.
Definition FAT32_DIRENT_BYTES : Z := 32.
Definition FAT32_DIRENT_FREE : Z := 0.
Definition FAT32_DIRENT_DELETED : Z := 0xE5.
Definition FAT32_ATTR_VOLUME_ID : Z := 0x08.
Definition FAT32_ATTR_DIRECTORY : Z := 0x10.
Definition FAT32_ATTR_ARCHIVE : Z := 0x20.
Definition FAT32_ATTR_LONG_NAME : Z := 0x0F.
Definition FAT32_NAME_LENGTH : Z := 11.
Definition FAT32_BASE_LENGTH : Z := 8.
Definition FAT32_EXT_LENGTH : Z := 3.
Definition FAT32_FSINFO_LEAD_SIG_OFFSET : Z := 0.
Definition FAT32_FSINFO_LEAD_SIG : Z := 0x41615252.
Definition FAT32_FSINFO_STRUCT_SIG_OFFSET : Z := 484.
Definition FAT32_FSINFO_STRUCT_SIG : Z := 0x61417272.
Definition FAT32_FSINFO_TRAIL_SIG_OFFSET : Z := 508.
Definition FAT32_FSINFO_TRAIL_SIG : Z := 0xAA550000.
Definition FAT32_FSINFO_FREE_COUNT_OFFSET : Z := 488.
Definition FAT32_DIR_NOT_FOUND : Z := 1.

(** ** Byte buffers *)

(** The 16- and 32-bit loads, assembled from bytes as the source does. *)
Definition get16 (bs : list Z) (o : Z) : Z := Z.lor (znth 0 bs o) (Z.shiftl (znth 0 bs (o + 1)) 8).
Definition get32 (bs : list Z) (o : Z) : Z :=
  Z.lor (Z.lor (Z.lor (znth 0 bs o) (Z.shiftl (znth 0 bs (o + 1)) 8))
               (Z.shiftl (znth 0 bs (o + 2)) 16))
        (Z.shiftl (znth 0 bs (o + 3)) 24).
Definition put32 (bs : list Z) (o v : Z) : list Z :=
  let bs := zset bs o (u8 (Z.land v 0xFF)) in
  let bs := zset bs (o + 1) (u8 (Z.land (Z.shiftr v 8) 0xFF)) in
  let bs := zset bs (o + 2) (u8 (Z.land (Z.shiftr v 16) 0xFF)) in
  zset bs (o + 3) (u8 (Z.land (Z.shiftr v 24) 0xFF)).

(** [memcpy(bs + o, l, sizeof l)] *)
Definition patch (bs : list Z) (o : Z) (l : list Z) : list Z :=
  take (Z.to_nat o) bs ++ l ++ drop (Z.to_nat o + length l) bs.
(** The [n] bytes at [bs + o]. *)
Definition part (bs : list Z) (o n : Z) : list Z := take (Z.to_nat n) (drop (Z.to_nat o) bs).

(** ** 8.3 names *)

Definition to_upper (c : Z) : Z := if (97 <=? c) && (c <=? 122) then c - 97 + 65 else c.

(** The loop over the base; what is left of the name starts at its dot. *)
Fixpoint base_83 (name : list Z) (written : Z) (out : list Z) : option (list Z * Z * list Z) :=
  match name with
  | [] => Some ([], written, out)
  | c :: rest =>
      if c =? 46 then Some (name, written, out)
      else if FAT32_BASE_LENGTH <=? written then None
      else base_83 rest (written + 1) (zset out written (to_upper c))
  end.

Fixpoint ext_83 (name : list Z) (written : Z) (out : list Z) : option (list Z) :=
  match name with
  | [] => Some out
  | c :: rest =>
      if FAT32_EXT_LENGTH <=? written then None
      else ext_83 rest (written + 1) (zset out (FAT32_BASE_LENGTH + written) (to_upper c))
  end.

Definition name_to_83 (name : list Z) : option (list Z) :=
  match base_83 name 0 (replicate (Z.to_nat FAT32_NAME_LENGTH) 32) with
  | None => None
  | Some (rest, written, out) =>
      if written =? 0 then None
      else match rest with
           | [] => Some out
           | _ :: ext => ext_83 ext 0 out
           end
  end.

(** The copy loops of [name_from_83], which stop at a space. *)
Fixpoint until_space (raw : list Z) : list Z :=
  match raw with
  | [] => []
  | c :: rest => if c =? 32 then [] else c :: until_space rest
  end.

Definition name_from_83 (raw : list Z) : list Z :=
  until_space (part raw 0 FAT32_BASE_LENGTH) ++
  (if negb (znth 0 raw FAT32_BASE_LENGTH =? 32)
   then 46 :: until_space (part raw FAT32_BASE_LENGTH FAT32_EXT_LENGTH) else []).

Definition name_equals_83 (raw wanted : list Z) : bool := bool_decide (raw = wanted).

(** ** Directory entries *)

Notation dirent := (list Z) (only parsing).
Definition d_name (e : dirent) : list Z := part e 0 FAT32_NAME_LENGTH.
Definition d_attr (e : dirent) : Z := znth 0 e 11.
Definition d_size (e : dirent) : Z := get32 e 28.

Definition dirent_first_cluster (e : dirent) : Z := Z.lor (Z.shiftl (get16 e 20) 16) (get16 e 26).

Definition dirent_is_usable (e : dirent) : bool :=
  if d_attr e =? FAT32_ATTR_LONG_NAME then false
  else if negb (Z.land (d_attr e) FAT32_ATTR_VOLUME_ID =? 0) then false
  else true.

Definition is_directory (e : dirent) : bool := negb (Z.land (d_attr e) FAT32_ATTR_DIRECTORY =? 0).

(** The entry [fat32_write_file] builds. *)
Definition new_dirent (name83 : list Z) (new_start len : Z) : dirent :=
  let entry := replicate (Z.to_nat FAT32_DIRENT_BYTES) 0 in
  let entry := patch entry 0 name83 in
  let entry := zset entry 11 FAT32_ATTR_ARCHIVE in
  let entry := patch entry 20 (le_bytes 2 (u16 (Z.shiftr new_start 16))) in
  let entry := patch entry 26 (le_bytes 2 (u16 (Z.land new_start 0xFFFF))) in
  patch entry 28 (le_bytes 4 len).

(** ** The listing buffer *)

(** The first [sk_used] bytes of the buffer; a NUL follows them. *)
Record name_sink := mkSink { sk_bytes : list Z; sk_size : Z; sk_used : Z; sk_count : Z }.

(** [name] up to its NUL: the loop that computes [len]. *)
Fixpoint until_nul (name : list Z) : list Z :=
  match name with
  | [] => []
  | c :: rest => if c =? 0 then [] else c :: until_nul rest
  end.

Definition fat32_name_sink_add (sink : name_sink) (name : list Z) : name_sink :=
  let name := until_nul name in
  let len := zlen name in
  if sk_size sink <? u32 (sk_used sink + len + 2) then sink
  else mkSink (sk_bytes sink ++ name ++ [10]) (sk_size sink) (u32 (sk_used sink + len + 1)) (u32 (sk_count sink + 1)).

(** ** The loop over the entries of a directory cluster *)

(** The variables of [walk_directory] that the loop assigns. *)
Record walk_state := mkWalk { w_done : bool; w_result : Z; w_found : dirent; w_sink : option name_sink }.

Definition entry_at (buf : list Z) (i : Z) : dirent := part buf (i * FAT32_DIRENT_BYTES) FAT32_DIRENT_BYTES.

Fixpoint walk_entries (n : nat) (buf : list Z) (i : Z) (wanted : option (list Z)) (w : walk_state) : walk_state :=
  match n with
  | O => w
  | S n' =>
      let entry := entry_at buf i in
      if znth 0 entry 0 =? FAT32_DIRENT_FREE then mkWalk true (w_result w) (w_found w) (w_sink w)
      else if znth 0 entry 0 =? FAT32_DIRENT_DELETED then walk_entries n' buf (i + 1) wanted w
      else if negb (dirent_is_usable entry) then walk_entries n' buf (i + 1) wanted w
      else match wanted with
           | Some name =>
               if name_equals_83 (d_name entry) name then mkWalk true 0 entry (w_sink w)
               else walk_entries n' buf (i + 1) wanted w
           | None =>
               let display := name_from_83 (d_name entry) in
               walk_entries n' buf (i + 1) wanted
                 (mkWalk (w_done w) (w_result w) (w_found w)
                         (match w_sink w with Some k => Some (fat32_name_sink_add k display) | None => None end))
           end
  end.

(** The loop of [locate_root_entry]: whether the directory ended, and the
    index of the entry. *)
Fixpoint locate_entries (n : nat) (buf : list Z) (i : Z) (wanted : list Z) : bool * option Z :=
  match n with
  | O => (false, None)
  | S n' =>
      let entry := entry_at buf i in
      if znth 0 entry 0 =? FAT32_DIRENT_FREE then (true, None)
      else if (znth 0 entry 0 =? FAT32_DIRENT_DELETED) || negb (dirent_is_usable entry) then locate_entries n' buf (i + 1) wanted
      else if name_equals_83 (d_name entry) wanted then (true, Some i)
      else locate_entries n' buf (i + 1) wanted
  end.

(** The loop of [find_free_dirent]. *)
Definition free_entry (buf : list Z) (entries : Z) : option Z :=
  scan (fun i => let first := znth 0 buf (i * FAT32_DIRENT_BYTES) in
                 (first =? FAT32_DIRENT_FREE) || (first =? FAT32_DIRENT_DELETED)) (Z.to_nat entries) 0.

(** ** State *)

(** What the file system uses of the rest of the kernel: the heap, and the
    sectors of the disk ([disk_read] gives the bytes read, or [None] for
    its -1). *)
Class FsEnv (E : Type) := {
  e_kmalloc : E -> Z -> E * Z;
  e_kfree : E -> Z -> E;
  e_disk_read : E -> Z -> Z -> E * option (list Z);
  e_disk_write : E -> Z -> Z -> list Z -> E * Z
}.

Record volume := mkVolume {
  fs_bytes_per_sector : Z; fs_sectors_per_cluster : Z; fs_bytes_per_cluster : Z; fs_first_fat_block : Z;
  fs_sectors_per_fat : Z; fs_num_fats : Z; fs_first_data_block : Z; fs_root_cluster : Z; fs_total_clusters : Z;
  fs_fsinfo_block : Z; fs_ready : bool; fs_next_free_hint : Z
}.

Definition set_ready (v : volume) (b : bool) : volume :=
  mkVolume (fs_bytes_per_sector v) (fs_sectors_per_cluster v) (fs_bytes_per_cluster v) (fs_first_fat_block v)
    (fs_sectors_per_fat v) (fs_num_fats v) (fs_first_data_block v) (fs_root_cluster v) (fs_total_clusters v)
    (fs_fsinfo_block v) b (fs_next_free_hint v).
Definition set_hint (v : volume) (h : Z) : volume :=
  mkVolume (fs_bytes_per_sector v) (fs_sectors_per_cluster v) (fs_bytes_per_cluster v) (fs_first_fat_block v)
    (fs_sectors_per_fat v) (fs_num_fats v) (fs_first_data_block v) (fs_root_cluster v) (fs_total_clusters v)
    (fs_fsinfo_block v) (fs_ready v) h.

Record fat32 (E : Type) := mkFat32 { f_vol : volume; f_env : E }.
Arguments mkFat32 {E}. Arguments f_vol {E}. Arguments f_env {E}.

Definition F (E A : Type) : Type := fat32 E -> fat32 E * A.
#[export] Instance F_ret E : MRet (F E) := fun A a s => (s, a).
#[export] Instance F_bind E : MBind (F E) := fun A B f m s => let '(s, a) := m s in f a s.

Section Fat.
Context {E : Type} {env : FsEnv E}.
Notation F := (F E).

Definition vol : F volume := fun s => (s, f_vol s).
Definition upd_vol (f : volume -> volume) : F unit := fun s => (mkFat32 (f (f_vol s)) (f_env s), tt).
Definition fs_kmalloc (n : Z) : F Z := fun s => let '(e, p) := e_kmalloc (f_env s) n in (mkFat32 (f_vol s) e, p).
Definition fs_kfree (p : Z) : F unit := fun s => (mkFat32 (f_vol s) (e_kfree (f_env s) p), tt).
Definition disk_read (lba count : Z) : F (option (list Z)) := fun s =>
  let '(e, r) := e_disk_read (f_env s) lba (u8 count) in (mkFat32 (f_vol s) e, r).
Definition disk_write (lba count : Z) (bs : list Z) : F Z := fun s =>
  let '(e, r) := e_disk_write (f_env s) lba (u8 count) bs in (mkFat32 (f_vol s) e, r).

(** ** Mounting *)

Definition is_power_of_two (n : Z) : bool := negb (n =? 0) && (Z.land n (u32 (n - 1)) =? 0).

(** The checks and the geometry, from the boot sector; the fields of
    [struct fat32_bpb] at their packed offsets. *)
Definition parse_bpb (block : list Z) (hint : Z) (old : volume) : volume * Z :=
  let bytes_per_sector := get16 block 11 in
  let sectors_per_cluster := znth 0 block 13 in
  let reserved_sector_count := get16 block 14 in
  let num_fats := znth 0 block 16 in
  let total_sectors_32 := get32 block 32 in
  let sectors_per_fat_32 := get32 block 36 in
  let root_cluster := get32 block 44 in
  let fs_info := get16 block 48 in
  if negb (bytes_per_sector =? DISK_SECTOR_SIZE) then (old, -1)
  else if negb (is_power_of_two sectors_per_cluster) then (old, -1)
  else if (num_fats =? 0) || (reserved_sector_count =? 0) then (old, -1)
  else if sectors_per_fat_32 =? 0 then (old, -1)
  else if root_cluster <? FAT32_FIRST_DATA_CLUSTER then (old, -1)
  else
    let bpc := u32 (bytes_per_sector * sectors_per_cluster) in
    let first_data := u32 (reserved_sector_count + u32 (num_fats * sectors_per_fat_32)) in
    let v total ready := mkVolume bytes_per_sector sectors_per_cluster bpc reserved_sector_count sectors_per_fat_32
                           num_fats first_data root_cluster total fs_info ready hint in
    if total_sectors_32 <=? first_data then (v (fs_total_clusters old) false, -1)
    else (v (u32 (total_sectors_32 - first_data) / sectors_per_cluster) true, 0).

Definition fat32_init : F Z :=
  upd_vol (fun v => set_ready v false) ;;
  r ← disk_read FAT32_BOOT_BLOCK 1 ;
  match r with
  | None => mret (-1)
  | Some block =>
      let signature := u16 (get16 block FAT32_SIGNATURE_OFFSET) in
      if negb (signature =? FAT32_SIGNATURE) then mret (-1)
      else
        v ← vol ;
        let '(v', rc) := parse_bpb block (fs_next_free_hint v) v in
        upd_vol (fun _ => v') ;; mret rc
  end.

(** ** Clusters and the FAT *)

Definition cluster_to_block (v : volume) (cluster : Z) : Z :=
  u32 (fs_first_data_block v + u32 (u32 (cluster - FAT32_FIRST_DATA_CLUSTER) * fs_sectors_per_cluster v)).

Definition cluster_in_range (v : volume) (cluster : Z) : bool :=
  (FAT32_FIRST_DATA_CLUSTER <=? cluster) && (cluster <? u32 (fs_total_clusters v + FAT32_FIRST_DATA_CLUSTER)).

Definition entries_per_block (v : volume) : Z := fs_bytes_per_sector v / FAT32_ENTRY_BYTES.

Definition fat32_get_entry (cluster : Z) : F (option Z) :=
  v ← vol ;
  let epb := entries_per_block v in
  let block := u32 (fs_first_fat_block v + cluster / epb) in
  let offset := u32 (cluster mod epb * FAT32_ENTRY_BYTES) in
  r ← disk_read block 1 ;
  mret (match r with
        | None => None
        | Some block_buf => Some (Z.land (get32 block_buf offset) FAT32_ENTRY_MASK)
        end).

Inductive chain_step := CHAIN_NEXT (next : Z) | CHAIN_END | CHAIN_ERROR.

Definition fat32_next_cluster (cluster : Z) : F chain_step :=
  r ← fat32_get_entry cluster ;
  v ← vol ;
  mret (match r with
        | None => CHAIN_ERROR
        | Some entry =>
            if FAT32_CLUSTER_END <=? entry then CHAIN_END
            else if (entry =? FAT32_CLUSTER_FREE) || (entry =? FAT32_CLUSTER_BAD) || negb (cluster_in_range v entry)
            then CHAIN_ERROR
            else CHAIN_NEXT entry
        end).

(** The loop over the copies of the FAT. *)
Fixpoint set_copies (n : nat) (copy block_in_fat offset value : Z) : F Z :=
  match n with
  | O => mret 0
  | S n' =>
      v ← vol ;
      let block := u32 (u32 (fs_first_fat_block v + u32 (copy * fs_sectors_per_fat v)) + block_in_fat) in
      r ← disk_read block 1 ;
      match r with
      | None => mret (-1)
      | Some block_buf =>
          let old := get32 block_buf offset in
          let merged := Z.lor (Z.land old (u32 (Z.lnot FAT32_ENTRY_MASK))) (Z.land value FAT32_ENTRY_MASK) in
          rc ← disk_write block 1 (put32 block_buf offset merged) ;
          if negb (rc =? 0) then mret (-1) else set_copies n' (copy + 1) block_in_fat offset value
      end
  end.

Definition fat32_set_entry (cluster value : Z) : F Z :=
  v ← vol ;
  let epb := entries_per_block v in
  set_copies (Z.to_nat (fs_num_fats v)) 0 (cluster / epb) (u32 (cluster mod epb * FAT32_ENTRY_BYTES)) value.

Definition read_cluster (cluster : Z) : F (option (list Z)) :=
  v ← vol ;
  if negb (cluster_in_range v cluster) then mret None
  else disk_read (cluster_to_block v cluster) (fs_sectors_per_cluster v).

(** ** Free clusters *)

(** The inner loop of the two scans of the FAT: [inl] the free cluster it
    stops at, or [inr] the cluster the next block starts with. *)
Fixpoint free_in_block (n : nat) (block_buf : list Z) (epb idx cluster hi : Z) : Z + Z :=
  match n with
  | O => inr cluster
  | S n' =>
      if (idx <? epb) && (cluster <? hi) then
        if Z.land (get32 block_buf (idx * FAT32_ENTRY_BYTES)) FAT32_ENTRY_MASK =? FAT32_CLUSTER_FREE then inl cluster
        else free_in_block n' block_buf epb (idx + 1) (u32 (cluster + 1)) hi
      else inr cluster
  end.

Inductive pass_result := PassFound (cluster : Z) | PassError | PassDone.

(** One pass of [find_free_cluster] over the clusters in [cluster, hi). *)
Fixpoint free_pass (n : nat) (cluster hi : Z) : F pass_result :=
  match n with
  | O => mret PassDone
  | S n' =>
      if cluster <? hi then
        v ← vol ;
        let epb := entries_per_block v in
        r ← disk_read (u32 (fs_first_fat_block v + cluster / epb)) 1 ;
        match r with
        | None => mret PassError
        | Some block_buf =>
            match free_in_block (Z.to_nat epb) block_buf epb (cluster mod epb) cluster hi with
            | inl c => mret (PassFound c)
            | inr c => free_pass n' c hi
            end
        end
      else mret PassDone
  end.

Definition take_cluster (v : volume) (cluster : Z) : F (option Z) :=
  let first := FAT32_FIRST_DATA_CLUSTER in
  let limit := u32 (fs_total_clusters v + FAT32_FIRST_DATA_CLUSTER) in
  upd_vol (fun v => set_hint v (if u32 (cluster + 1) <? limit then u32 (cluster + 1) else first)) ;;
  mret (Some cluster).

Definition find_free_cluster : F (option Z) :=
  v ← vol ;
  let first := FAT32_FIRST_DATA_CLUSTER in
  let limit := u32 (fs_total_clusters v + FAT32_FIRST_DATA_CLUSTER) in
  let start := fs_next_free_hint v in
  let start := if (start <? first) || (limit <=? start) then first else start in
  r ← free_pass (Z.to_nat (limit - start)) start limit ;
  match r with
  | PassFound c => take_cluster v c
  | PassError => mret None
  | PassDone =>
      r ← free_pass (Z.to_nat (start - first)) first start ;
      match r with
      | PassFound c => take_cluster v c
      | _ => mret None
      end
  end.

(** The counting loops of [fat32_free_count]. *)
Fixpoint count_in_block (n : nat) (block_buf : list Z) (epb idx cluster limit free : Z) : Z * Z :=
  match n with
  | O => (cluster, free)
  | S n' =>
      if (idx <? epb) && (cluster <? limit) then
        let free := if Z.land (get32 block_buf (idx * FAT32_ENTRY_BYTES)) FAT32_ENTRY_MASK =? FAT32_CLUSTER_FREE
                    then u32 (free + 1) else free in
        count_in_block n' block_buf epb (idx + 1) (u32 (cluster + 1)) limit free
      else (cluster, free)
  end.

Fixpoint count_loop (n : nat) (cluster limit free : Z) : F Z :=
  match n with
  | O => mret free
  | S n' =>
      if cluster <? limit then
        v ← vol ;
        let epb := entries_per_block v in
        r ← disk_read (u32 (fs_first_fat_block v + cluster / epb)) 1 ;
        match r with
        | None => mret free
        | Some block_buf =>
            let '(cluster, free) := count_in_block (Z.to_nat epb) block_buf epb (cluster mod epb) cluster limit free in
            count_loop n' cluster limit free
        end
      else mret free
  end.

Definition fat32_free_count : F Z :=
  v ← vol ;
  if negb (fs_ready v) then mret 0
  else
    let first := FAT32_FIRST_DATA_CLUSTER in
    let limit := u32 (fs_total_clusters v + FAT32_FIRST_DATA_CLUSTER) in
    count_loop (Z.to_nat (limit - first)) first limit 0.

(** ** Chains *)

(** The loop of [free_chain], with the turns it has left. The result is
    [None] for a disk error, else whether the turns ran out, and the lowest
    cluster freed. *)
Fixpoint free_loop (n : nat) (cluster : Z) (lowest : option Z) : F (option (bool * option Z)) :=
  match n with
  | O => mret (Some (true, lowest))
  | S n' =>
      v ← vol ;
      if negb (cluster_in_range v cluster) then mret (Some (false, lowest))
      else
        r ← fat32_get_entry cluster ;
        match r with
        | None => mret None
        | Some next =>
            rc ← fat32_set_entry cluster FAT32_CLUSTER_FREE ;
            if negb (rc =? 0) then mret None
            else
              let lowest := match lowest with
                            | Some l => if cluster <? l then Some cluster else lowest
                            | None => Some cluster
                            end in
              free_loop n' next lowest
        end
  end.

Definition free_chain (first_cluster : Z) : F Z :=
  v ← vol ;
  r ← free_loop (Z.to_nat (fs_total_clusters v + 1)) first_cluster None ;
  match r with
  | None => mret (-1)
  | Some (true, _) => mret (-1)
  | Some (false, Some lowest) => upd_vol (fun v => set_hint v lowest) ;; mret 0
  | Some (false, None) => mret 0
  end.

Fixpoint alloc_loop (n : nat) (first prev : Z) : F (option Z) :=
  match n with
  | O => mret (Some first)
  | S n' =>
      r ← find_free_cluster ;
      match r with
      | None => (if negb (first =? 0) then free_chain first else mret 0) ;; mret None
      | Some cluster =>
          rc ← fat32_set_entry cluster FAT32_CLUSTER_END ;
          if negb (rc =? 0) then (if negb (first =? 0) then free_chain first else mret 0) ;; mret None
          else if negb (prev =? 0) then
            rc ← fat32_set_entry prev cluster ;
            if negb (rc =? 0) then free_chain first ;; mret None
            else alloc_loop n' first cluster
          else alloc_loop n' cluster cluster
      end
  end.

Definition alloc_chain (bytes : Z) : F (option Z) :=
  if bytes =? 0 then mret None
  else
    v ← vol ;
    let needed := u32 (u32 (bytes + fs_bytes_per_cluster v) - 1) / fs_bytes_per_cluster v in
    alloc_loop (Z.to_nat needed) 0 0.

(** ** Directories *)

Definition dir_entries (v : volume) : Z := fs_bytes_per_cluster v / FAT32_DIRENT_BYTES.

(** The loop of [walk_directory] over the clusters of the directory, with
    the turns it has left. *)
Fixpoint walk_loop (n : nat) (cluster : Z) (wanted : option (list Z)) (w : walk_state) : F walk_state :=
  match n with
  | O => mret (mkWalk (w_done w) (-1) (w_found w) (w_sink w))
  | S n' =>
      r ← read_cluster cluster ;
      match r with
      | None => mret (mkWalk (w_done w) (-1) (w_found w) (w_sink w))
      | Some cluster_buf =>
          v ← vol ;
          let w := walk_entries (Z.to_nat (dir_entries v)) cluster_buf 0 wanted w in
          if w_done w then mret w
          else
            step ← fat32_next_cluster cluster ;
            match step with
            | CHAIN_END => mret w
            | CHAIN_ERROR => mret (mkWalk (w_done w) (-1) (w_found w) (w_sink w))
            | CHAIN_NEXT next => walk_loop n' next wanted w
            end
      end
  end.

Definition walk_directory (dir_cluster : Z) (wanted : option (list Z)) (sink : option name_sink) : F walk_state :=
  v ← vol ;
  cluster_buf ← fs_kmalloc (fs_bytes_per_cluster v) ;
  if cluster_buf =? 0 then mret (mkWalk false (-1) [] sink)
  else
    let result := match wanted with Some _ => FAT32_DIR_NOT_FOUND | None => 0 end in
    w ← walk_loop (Z.to_nat (fs_total_clusters v + 1)) dir_cluster wanted (mkWalk false result [] sink) ;
    fs_kfree cluster_buf ;; mret w.

Definition fat32_list_root : F Z :=
  v ← vol ;
  if negb (fs_ready v) then mret (-1)
  else w ← walk_directory (fs_root_cluster v) None None ; mret (w_result w).

(** The return code, the bytes of the buffer that were written, and the
    count stored through [out_count] on success. *)
Definition fat32_list_names (bufsize : Z) : F (Z * list Z * Z) :=
  v ← vol ;
  if negb (fs_ready v) || (bufsize =? 0) then mret (-1, [], 0)
  else
    w ← walk_directory (fs_root_cluster v) None (Some (mkSink [] bufsize 0 0)) ;
    let bytes := match w_sink w with Some k => sk_bytes k ++ [0] | None => [] end in
    let count := match w_sink w with Some k => sk_count k | None => 0 end in
    if negb (w_result w =? 0) then mret (-1, bytes, 0) else mret (0, bytes, count).

Definition lookup_root_file (name : list Z) : F (option dirent) :=
  v ← vol ;
  if negb (fs_ready v) then mret None
  else match name_to_83 name with
       | None => mret None
       | Some wanted =>
           w ← walk_directory (fs_root_cluster v) (Some wanted) None ;
           if negb (w_result w =? 0) then mret None
           else if is_directory (w_found w) then mret None
           else mret (Some (w_found w))
       end.

Definition fat32_stat (name : list Z) : F (Z * Z) :=
  r ← lookup_root_file name ;
  match r with
  | None => mret (-1, 0)
  | Some entry => mret (0, d_size entry)
  end.

(** The copy loop of [fat32_read_file]: the code and the bytes stored. *)
Fixpoint read_loop (n : nat) (cluster remaining : Z) (out : list Z) : F (Z * list Z) :=
  match n with
  | O => mret (-1, out)
  | S n' =>
      r ← read_cluster cluster ;
      match r with
      | None => mret (-1, out)
      | Some cluster_buf =>
          v ← vol ;
          let chunk := if remaining <? fs_bytes_per_cluster v then remaining else fs_bytes_per_cluster v in
          let out := out ++ take (Z.to_nat chunk) cluster_buf in
          let remaining := remaining - chunk in
          if remaining =? 0 then mret (0, out)
          else
            step ← fat32_next_cluster cluster ;
            match step with
            | CHAIN_NEXT next => read_loop n' next remaining out
            | _ => mret (-1, out)
            end
      end
  end.

(** The return code, the bytes stored in the buffer, and the size stored
    through [out_size] (0 where it is not stored). *)
Definition fat32_read_file (name : list Z) (bufsize : Z) : F (Z * list Z * Z) :=
  r ← lookup_root_file name ;
  match r with
  | None => mret (-1, [], 0)
  | Some entry =>
      let size := d_size entry in
      if bufsize <? size then mret (-1, [], 0)
      else if size =? 0 then mret (0, [], size)
      else
        v ← vol ;
        let cluster := dirent_first_cluster entry in
        if negb (cluster_in_range v cluster) then mret (-1, [], size)
        else
          cluster_buf ← fs_kmalloc (fs_bytes_per_cluster v) ;
          if cluster_buf =? 0 then mret (-1, [], size)
          else
            '(result, out) ← read_loop (Z.to_nat (fs_total_clusters v + 1)) cluster size [] ;
            fs_kfree cluster_buf ;; mret (result, out, size)
  end.

(** ** Writing *)

(** The position of entry [i] of a directory cluster. *)
Definition entry_block (v : volume) (cluster i : Z) : Z :=
  u32 (cluster_to_block v cluster + i * FAT32_DIRENT_BYTES / fs_bytes_per_sector v).
Definition entry_offset (v : volume) (i : Z) : Z := i * FAT32_DIRENT_BYTES mod fs_bytes_per_sector v.

(** [FAT32_DIR_NOT_FOUND] is [Loc_none], 0 is [Loc_at]. *)
Inductive location := Loc_at (entry : dirent) (block offset : Z) | Loc_none | Loc_error.

Fixpoint locate_loop (n : nat) (cluster : Z) (wanted : list Z) : F location :=
  match n with
  | O => mret Loc_error
  | S n' =>
      r ← read_cluster cluster ;
      match r with
      | None => mret Loc_error
      | Some cluster_buf =>
          v ← vol ;
          match locate_entries (Z.to_nat (dir_entries v)) cluster_buf 0 wanted with
          | (_, Some i) => mret (Loc_at (entry_at cluster_buf i) (entry_block v cluster i) (entry_offset v i))
          | (true, None) => mret Loc_none
          | (false, None) =>
              step ← fat32_next_cluster cluster ;
              match step with
              | CHAIN_END => mret Loc_none
              | CHAIN_ERROR => mret Loc_error
              | CHAIN_NEXT next => locate_loop n' next wanted
              end
          end
      end
  end.

Definition locate_root_entry (wanted : list Z) : F location :=
  v ← vol ;
  cluster_buf ← fs_kmalloc (fs_bytes_per_cluster v) ;
  if cluster_buf =? 0 then mret Loc_error
  else
    r ← locate_loop (Z.to_nat (fs_total_clusters v + 1)) (fs_root_cluster v) wanted ;
    fs_kfree cluster_buf ;; mret r.

(** The search of [find_free_dirent]: a position, the last cluster of a full
    directory, or an error. *)
Inductive free_slot := Slot_at (block offset : Z) | Slot_grow (last_cluster : Z) | Slot_error.

Fixpoint slot_loop (n : nat) (cluster : Z) : F free_slot :=
  match n with
  | O => mret Slot_error
  | S n' =>
      r ← read_cluster cluster ;
      match r with
      | None => mret Slot_error
      | Some cluster_buf =>
          v ← vol ;
          match free_entry cluster_buf (dir_entries v) with
          | Some i => mret (Slot_at (entry_block v cluster i) (entry_offset v i))
          | None =>
              step ← fat32_next_cluster cluster ;
              match step with
              | CHAIN_END => mret (Slot_grow cluster)
              | CHAIN_ERROR => mret Slot_error
              | CHAIN_NEXT next => slot_loop n' next
              end
          end
      end
  end.

(** The growth of a full directory by one zeroed cluster. *)
Definition grow_directory (last_cluster : Z) : F (option (Z * Z)) :=
  v ← vol ;
  r ← alloc_chain (fs_bytes_per_cluster v) ;
  match r with
  | None => mret None
  | Some new_cluster =>
      zero ← fs_kmalloc (fs_bytes_per_cluster v) ;
      if zero =? 0 then free_chain new_cluster ;; mret None
      else
        rc ← disk_write (cluster_to_block v new_cluster) (fs_sectors_per_cluster v)
               (replicate (Z.to_nat (fs_bytes_per_cluster v)) 0) ;
        if negb (rc =? 0) then fs_kfree zero ;; free_chain new_cluster ;; mret None
        else
          fs_kfree zero ;;
          rc ← fat32_set_entry last_cluster new_cluster ;
          if negb (rc =? 0) then free_chain new_cluster ;; mret None
          else mret (Some (cluster_to_block v new_cluster, 0))
  end.

Definition find_free_dirent : F (option (Z * Z)) :=
  v ← vol ;
  cluster_buf ← fs_kmalloc (fs_bytes_per_cluster v) ;
  if cluster_buf =? 0 then mret None
  else
    r ← slot_loop (Z.to_nat (fs_total_clusters v + 1)) (fs_root_cluster v) ;
    fs_kfree cluster_buf ;;
    match r with
    | Slot_at block offset => mret (Some (block, offset))
    | Slot_error => mret None
    | Slot_grow last_cluster => grow_directory last_cluster
    end.

Definition write_dirent_at (block offset : Z) (entry : dirent) : F Z :=
  r ← disk_read block 1 ;
  match r with
  | None => mret (-1)
  | Some block_buf =>
      rc ← disk_write block 1 (patch block_buf offset entry) ;
      if negb (rc =? 0) then mret (-1) else mret 0
  end.

Definition fat32_fsinfo_invalidate : F unit :=
  v ← vol ;
  if (fs_fsinfo_block v =? 0) || (fs_fsinfo_block v =? 0xFFFF) then mret tt
  else
    r ← disk_read (fs_fsinfo_block v) 1 ;
    match r with
    | None => mret tt
    | Some block_buf =>
        let lead := get32 block_buf FAT32_FSINFO_LEAD_SIG_OFFSET in
        let struc := get32 block_buf FAT32_FSINFO_STRUCT_SIG_OFFSET in
        let trail := get32 block_buf FAT32_FSINFO_TRAIL_SIG_OFFSET in
        if negb (lead =? FAT32_FSINFO_LEAD_SIG) || negb (struc =? FAT32_FSINFO_STRUCT_SIG)
           || negb (trail =? FAT32_FSINFO_TRAIL_SIG) then mret tt
        else
          disk_write (fs_fsinfo_block v) 1 (patch block_buf FAT32_FSINFO_FREE_COUNT_OFFSET (replicate 8 0xFF)) ;;
          mret tt
    end.

Definition fat32_delete (name : list Z) : F Z :=
  v ← vol ;
  if negb (fs_ready v) then mret (-1)
  else match name_to_83 name with
  | None => mret (-1)
  | Some wanted =>
      r ← locate_root_entry wanted ;
      match r with
      | Loc_at entry block offset =>
          if is_directory entry then mret (-1)
          else
            let start := dirent_first_cluster entry in
            rc ← (if negb (start =? 0) then free_chain start else mret 0) ;
            if negb (rc =? 0) then mret (-1)
            else
              rc ← write_dirent_at block offset (zset entry 0 FAT32_DIRENT_DELETED) ;
              if negb (rc =? 0) then mret (-1)
              else fat32_fsinfo_invalidate ;; mret 0
      | _ => mret (-1)
      end
  end.

(** The loop of [fat32_write_file] over the clusters of the new chain: 0, or
    1 for [failed]. *)
Fixpoint write_loop (n : nat) (cluster : Z) (src : list Z) : F Z :=
  match n with
  | O => mret 0
  | S n' =>
      v ← vol ;
      let bpc := Z.to_nat (fs_bytes_per_cluster v) in
      let chunk := take bpc src in
      let cluster_buf := chunk ++ replicate (bpc - length chunk) 0 in
      rc ← disk_write (cluster_to_block v cluster) (fs_sectors_per_cluster v) cluster_buf ;
      if negb (rc =? 0) then mret 1
      else
        let src := drop bpc src in
        if zlen src =? 0 then mret 0
        else
          step ← fat32_next_cluster cluster ;
          match step with
          | CHAIN_NEXT next => write_loop n' next src
          | _ => mret 1
          end
  end.

(** The data of the new chain, before the entry refers to it. *)
Definition write_data (new_start : Z) (buf : list Z) : F Z :=
  v ← vol ;
  cluster_buf ← fs_kmalloc (fs_bytes_per_cluster v) ;
  if cluster_buf =? 0 then free_chain new_start ;; mret (-1)
  else
    failed ← write_loop (length buf) new_start buf ;
    fs_kfree cluster_buf ;;
    if negb (failed =? 0) then free_chain new_start ;; mret (-1) else mret 0.

(** What follows once the data is on the disk. *)
Definition commit_entry (slot : option (Z * Z)) (old_start new_start : Z) (entry : dirent) : F Z :=
  pos ← (match slot with Some p => mret (Some p) | None => find_free_dirent end) ;
  match pos with
  | None => (if negb (new_start =? 0) then free_chain new_start else mret 0) ;; mret (-1)
  | Some (block, offset) =>
      rc ← write_dirent_at block offset entry ;
      if negb (rc =? 0) then (if negb (new_start =? 0) then free_chain new_start else mret 0) ;; mret (-1)
      else
        (if bool_decide (is_Some slot) && negb (old_start =? 0) then free_chain old_start else mret 0) ;;
        fat32_fsinfo_invalidate ;; mret 0
  end.

(** The new chain, its data and the entry, for a name that has the entry at
    [slot] with the chain [old_start], or none. *)
Definition replace_file (name83 buf : list Z) (slot : option (Z * Z)) (old_start : Z) : F Z :=
  let len := zlen buf in
  r ← (if 0 <? len then alloc_chain len else mret (Some 0)) ;
  match r with
  | None => mret (-1)
  | Some new_start =>
      rc ← (if 0 <? len then write_data new_start buf else mret 0) ;
      if negb (rc =? 0) then mret (-1)
      else commit_entry slot old_start new_start (new_dirent name83 new_start len)
  end.

Definition fat32_write_file (name buf : list Z) : F Z :=
  v ← vol ;
  if negb (fs_ready v) then mret (-1)
  else match name_to_83 name with
  | None => mret (-1)
  | Some name83 =>
      found ← locate_root_entry name83 ;
      match found with
      | Loc_at existing block offset =>
          if is_directory existing then mret (-1)
          else replace_file name83 buf (Some (block, offset)) (dirent_first_cluster existing)
      | Loc_none => replace_file name83 buf None 0
      | Loc_error => mret (-1)
      end
  end.
End Fat.
