(* ===== verification/FatBytes.v ===== *)
(** * Bytes, entries and names of the FAT32 file system

    The integer fields assembled from bytes, the update of a part of a
    buffer, the fields of a directory entry, and the two name forms. *)

From stdpp Require Import base list.
From Stdlib Require Import ZArith Lia Bool.
From S2P Require Import Prelude Fat.

Notation byte b := (0 <= b < 256).
Notation bytes := (Forall (fun b => 0 <= b < 256)).

(** Two lookups at the same index. *)
Ltac same_index := match goal with |- default _ (_ !! ?a) = default _ (_ !! ?b) => replace a with b by lia; done end.

(** ** Indexing *)

Lemma znth_byte bs i : bytes bs -> byte (znth 0 bs i).
Proof.
  intros H. unfold znth. destruct (i <? 0); [lia |]. destruct (bs !! Z.to_nat i) as [b|] eqn:E; simpl; [| lia].
  by eapply Forall_lookup_1 in H.
Qed.

Lemma zset_bytes_ok bs i b : bytes bs -> byte b -> bytes (zset bs i b).
Proof. intros H Hb. unfold zset. destruct (i <? 0); [done |]. by apply Forall_insert. Qed.

Lemma length_zset {A} (l : list A) i v : length (zset l i v) = length l.
Proof. pose proof (zlen_zset l i v). unfold zlen in *. lia. Qed.

Lemma zlen_app {A} (l k : list A) : zlen (l ++ k) = zlen l + zlen k.
Proof. unfold zlen. rewrite length_app. lia. Qed.

Lemma znth_app_l {A} (d : A) l k i : 0 <= i < zlen l -> znth d (l ++ k) i = znth d l i.
Proof. intros H. unfold zlen in H. rewrite !znth_nonneg by lia. by rewrite lookup_app_l by lia. Qed.

Lemma znth_app_r {A} (d : A) l k i : zlen l <= i -> znth d (l ++ k) i = znth d k (i - zlen l).
Proof. unfold zlen. intros H. rewrite !znth_nonneg by lia. rewrite lookup_app_r by lia. same_index. Qed.

Lemma znth_part bs o n i : 0 <= o -> 0 <= i < n -> znth 0 (part bs o n) i = znth 0 bs (o + i).
Proof.
  intros Ho Hi. unfold part. rewrite !znth_nonneg by lia. rewrite lookup_take_lt by lia. rewrite lookup_drop. same_index.
Qed.

Lemma part_length bs o n : 0 <= o -> 0 <= n -> o + n <= zlen bs -> length (part bs o n) = Z.to_nat n.
Proof. unfold zlen. intros. unfold part. rewrite length_take, length_drop. lia. Qed.

Lemma part_bytes bs o n : bytes bs -> bytes (part bs o n).
Proof. intros. unfold part. by apply Forall_take, Forall_drop. Qed.

Lemma part_all bs n : n = zlen bs -> part bs 0 n = bs.
Proof. intros ->. unfold part, zlen. rewrite Nat2Z.id. simpl. rewrite drop_0. by rewrite take_ge. Qed.

Lemma patch_length bs o l : 0 <= o -> o + zlen l <= zlen bs -> length (patch bs o l) = length bs.
Proof. unfold zlen, patch. intros. rewrite !length_app, length_take, length_drop. lia. Qed.

Lemma patch_bytes bs o l : bytes bs -> bytes l -> bytes (patch bs o l).
Proof. intros. unfold patch. rewrite !Forall_app. split; [by apply Forall_take |]. split; [done | by apply Forall_drop]. Qed.

(** Inside and outside the patch. *)
Lemma znth_patch bs o l i : 0 <= o -> o + zlen l <= zlen bs -> 0 <= i ->
  znth 0 (patch bs o l) i = if (o <=? i) && (i <? o + zlen l) then znth 0 l (i - o) else znth 0 bs i.
Proof.
  unfold zlen. intros Ho Hl Hi. unfold patch. rewrite !znth_nonneg by lia.
  destruct (Z.leb_spec o i), (Z.ltb_spec i (o + Z.of_nat (length l))); simpl; try lia.
  - rewrite lookup_app_r by (rewrite length_take; lia). rewrite lookup_app_l by (rewrite length_take; lia).
    rewrite znth_nonneg by lia. rewrite length_take. same_index.
  - rewrite !lookup_app_r by (rewrite length_take; lia). rewrite lookup_drop, length_take. rewrite (znth_nonneg 0 bs) by lia. same_index.
  - rewrite lookup_app_l by (rewrite length_take; lia). rewrite lookup_take_lt by lia. by rewrite znth_nonneg.
Qed.

Lemma list_ext_znth (a b : list Z) : length a = length b -> (forall i, 0 <= i < zlen a -> znth 0 a i = znth 0 b i) -> a = b.
Proof.
  intros Hl H. apply list_eq_same_length with (length a); [done | done |].
  intros i x y Hi Hx Hy. specialize (H (Z.of_nat i) ltac:(unfold zlen; lia)).
  rewrite !znth_nonneg, Nat2Z.id, Hx, Hy in H by lia. done.
Qed.

(** ** Integer fields *)

Lemma get16_val bs o : bytes bs -> get16 bs o = znth 0 bs o + 256 * znth 0 bs (o + 1).
Proof.
  intros H. unfold get16. pose proof (znth_byte bs o H). rewrite Z.lor_comm, Z.shiftl_mul_pow2, lor_low_add by lia. lia.
Qed.

Lemma get32_val bs o : bytes bs ->
  get32 bs o = znth 0 bs o + 256 * znth 0 bs (o + 1) + 65536 * znth 0 bs (o + 2) + 16777216 * znth 0 bs (o + 3).
Proof.
  intros H. unfold get32. pose proof (znth_byte bs o H). pose proof (znth_byte bs (o + 1) H). pose proof (znth_byte bs (o + 2) H).
  rewrite (Z.lor_comm (znth 0 bs o)), !Z.shiftl_mul_pow2, lor_low_add by lia.
  rewrite (Z.lor_comm _ (znth 0 bs (o + 2) * 2 ^ 16)), lor_low_add by lia.
  rewrite (Z.lor_comm _ (znth 0 bs (o + 3) * 2 ^ 24)), lor_low_add by lia. lia.
Qed.

Lemma get32_range bs o : bytes bs -> 0 <= get32 bs o < 2 ^ 32.
Proof.
  intros H. rewrite get32_val by done. pose proof (znth_byte bs o H). pose proof (znth_byte bs (o + 1) H).
  pose proof (znth_byte bs (o + 2) H). pose proof (znth_byte bs (o + 3) H). lia.
Qed.

Lemma get32_ext bs bs' o : (forall i, o <= i < o + 4 -> znth 0 bs' i = znth 0 bs i) -> get32 bs' o = get32 bs o.
Proof. intros H. unfold get32. by rewrite !H by lia. Qed.

Lemma byte_of v k : 0 <= k -> u8 (Z.land (Z.shiftr v k) 0xFF) = v / 2 ^ k mod 256.
Proof.
  intros Hk. change 0xFF with (Z.ones 8). rewrite Z.land_ones, Z.shiftr_div_pow2 by lia. unfold u8.
  change (2 ^ 8) with 256. by rewrite Z.mod_mod.
Qed.

Lemma put32_length bs o v : length (put32 bs o v) = length bs.
Proof. unfold put32. by rewrite !length_zset. Qed.

Lemma put32_bytes bs o v : bytes bs -> bytes (put32 bs o v).
Proof. intros H. unfold put32. repeat apply zset_bytes_ok; try done; apply u8_range. Qed.

Lemma znth_put32 bs o v i : 0 <= o -> o + 4 <= zlen bs ->
  znth 0 (put32 bs o v) i = if (o <=? i) && (i <? o + 4) then v / 2 ^ (8 * (i - o)) mod 256 else znth 0 bs i.
Proof.
  intros Ho Hl. unfold put32. rewrite !znth_zset by (rewrite ?zlen_zset; lia).
  pose proof (byte_of v 0 ltac:(lia)) as B0. rewrite Z.shiftr_0_r in B0. rewrite B0, !byte_of by lia.
  destruct (Z.leb_spec o i), (Z.ltb_spec i (o + 4)); simpl; zcases; try lia; subst; f_equal; f_equal; try (f_equal; lia); done.
Qed.

Lemma get32_put32_eq bs o v : bytes bs -> 0 <= o -> o + 4 <= zlen bs -> 0 <= v < 2 ^ 32 -> get32 (put32 bs o v) o = v.
Proof.
  intros Hb Ho Hl Hv. rewrite get32_val by (by apply put32_bytes). rewrite !znth_put32 by done.
  zcases; try lia. simpl.
  replace (o - o) with 0 by lia. replace (o + 1 - o) with 1 by lia. replace (o + 2 - o) with 2 by lia. replace (o + 3 - o) with 3 by lia.
  change (2 ^ (8 * 0)) with 1. change (2 ^ (8 * 1)) with 256. change (2 ^ (8 * 2)) with 65536. change (2 ^ (8 * 3)) with 16777216.
  change (2 ^ 32) with 4294967296 in Hv. mlia.
Qed.

Lemma get32_put32_ne bs o o' v : 0 <= o -> o + 4 <= zlen bs -> o' + 4 <= o \/ o + 4 <= o' -> get32 (put32 bs o v) o' = get32 bs o'.
Proof. intros Ho Hl Hne. apply get32_ext. intros i Hi. rewrite znth_put32 by done. zcases; simpl; done || lia. Qed.

(** The masked store keeps the top four bits and sets the rest. *)
Lemma masked_store old value : 0 <= old < 2 ^ 32 -> 0 <= value ->
  let merged := Z.lor (Z.land old (u32 (Z.lnot FAT32_ENTRY_MASK))) (Z.land value FAT32_ENTRY_MASK) in
  0 <= merged < 2 ^ 32 /\ Z.land merged FAT32_ENTRY_MASK = Z.land value FAT32_ENTRY_MASK.
Proof.
  intros Ho Hv merged. change FAT32_ENTRY_MASK with (Z.ones 28) in *. change (u32 (Z.lnot (Z.ones 28))) with 0xF0000000 in merged.
  split.
  - assert (0 <= merged) as H0.
    { apply Z.lor_nonneg. rewrite !Z.land_nonneg. split; right; done. }
    split; [done |]. destruct (Z.eq_dec merged 0) as [-> | Hne]; [lia |].
    apply Z.log2_lt_pow2; [lia |]. unfold merged. rewrite Z.log2_lor by (apply Z.land_nonneg; right; done).
    apply Z.max_lub_lt.
    + eapply Z.le_lt_trans; [apply Z.log2_land; lia |]. apply Z.min_lt_iff. right. reflexivity.
    + eapply Z.le_lt_trans; [apply Z.log2_land; [lia | done] |]. apply Z.min_lt_iff. right. reflexivity.
  - unfold merged. rewrite Z.land_lor_distr_l, <- !Z.land_assoc, Z.land_diag.
    change (Z.land 0xF0000000 (Z.ones 28)) with 0. by rewrite Z.land_0_r, Z.lor_0_l.
Qed.

(** ** Runs of sectors *)

(** A buffer cut into pieces of [k] bytes and put together again. *)
Lemma concat_parts k n lba bs : 0 <= k -> length bs = Z.to_nat (k * Z.of_nat n) ->
  concat ((fun b => part bs (k * (b - lba)) k) <$> seqZ lba (Z.of_nat n)) = bs.
Proof.
  intros Hk. revert bs lba. induction n as [|n IH]; intros bs lba Hl.
  { simpl. destruct bs; [done |]. simpl in Hl. lia. }
  rewrite seqZ_cons by lia. replace (Z.pred (Z.of_nat (S n))) with (Z.of_nat n) by lia. cbn [fmap list_fmap concat].
  transitivity (take (Z.to_nat k) bs ++ drop (Z.to_nat k) bs); [| apply take_drop]. f_equal.
  - unfold part. by replace (Z.to_nat (k * (lba - lba))) with 0%nat by lia.
  - rewrite <- (IH (drop (Z.to_nat k) bs) (Z.succ lba)) by (rewrite length_drop; lia). f_equal. apply list_fmap_ext.
    intros i b Hb%list_elem_of_lookup_2%elem_of_seqZ. unfold part. rewrite drop_drop. do 2 f_equal. nia.
Qed.

Lemma concat_length (k : nat) (ls : list (list Z)) : Forall (fun l => length l = k) ls -> length (concat ls) = (k * length ls)%nat.
Proof. induction 1 as [|l ls Hl _ IH]; simpl; [lia |]. rewrite length_app, IH, Hl. lia. Qed.

Lemma concat_bytes (ls : list (list Z)) : Forall (fun l => bytes l) ls -> bytes (concat ls).
Proof. induction 1; simpl; [done |]. by apply Forall_app. Qed.

(** Patching one piece patches the whole. *)
Lemma concat_patch (k : nat) (ls : list (list Z)) i l o new : Forall (fun l => length l = k) ls -> ls !! i = Some l ->
  0 <= o -> o + zlen new <= Z.of_nat k ->
  concat (<[i := patch l o new]> ls) = patch (concat ls) (Z.of_nat (k * i) + o) new.
Proof.
  intros Hk. revert i. induction Hk as [|x ls Hx Hk IH]; intros i Hi Ho Hn; [done |].
  destruct i as [|i]; simpl in Hi |- *.
  - injection Hi as ->. rewrite Nat.mul_0_r. simpl. unfold patch, zlen in *.
    rewrite take_app_le by lia. rewrite drop_app_le by lia. by rewrite <- !app_assoc.
  - rewrite IH by done. unfold patch, zlen in *.
    replace (Z.to_nat (Z.of_nat (k * S i) + o)) with (length x + Z.to_nat (Z.of_nat (k * i) + o))%nat by lia.
    rewrite take_app_add', <- Nat.add_assoc, drop_app_add' by done. by rewrite <- app_assoc.
Qed.

(** ** Directory entries *)

Lemma dirent_length (e : dirent) : length e = 32%nat -> zlen e = 32.
Proof. unfold zlen. lia. Qed.

Lemma le4_at v : znth 0 (le_bytes 4 v) 0 = v mod 256 /\ znth 0 (le_bytes 4 v) 1 = v / 256 mod 256 /\
  znth 0 (le_bytes 4 v) 2 = v / 256 / 256 mod 256 /\ znth 0 (le_bytes 4 v) 3 = v / 256 / 256 / 256 mod 256.
Proof. done. Qed.
Lemma le2_at v : znth 0 (le_bytes 2 v) 0 = v mod 256 /\ znth 0 (le_bytes 2 v) 1 = v / 256 mod 256.
Proof. done. Qed.

Section NewDirent.
Context (n : list Z) (start len : Z).
Context (Hn : length n = 11%nat) (Hb : bytes n) (Hs : 0 <= start < 2 ^ 32) (Hl : 0 <= len < 2 ^ 32).

Let e1 := zset (patch (replicate (Z.to_nat FAT32_DIRENT_BYTES) 0) 0 n) 11 FAT32_ATTR_ARCHIVE.
Let e2 := patch e1 20 (le_bytes 2 (u16 (Z.shiftr start 16))).
Let e3 := patch e2 26 (le_bytes 2 (u16 (Z.land start 0xFFFF))).

Lemma new_lengths : length e1 = 32%nat /\ length e2 = 32%nat /\ length e3 = 32%nat /\ length (new_dirent n start len) = 32%nat.
Proof.
  assert (length e1 = 32%nat) as E1 by (unfold e1; rewrite length_zset, patch_length; [done | lia | unfold zlen; rewrite Hn; done]).
  assert (length e2 = 32%nat) as E2 by (unfold e2; rewrite patch_length; [done | lia | unfold zlen; rewrite le_bytes_length, E1; lia]).
  assert (length e3 = 32%nat) as E3 by (unfold e3; rewrite patch_length; [done | lia | unfold zlen; rewrite le_bytes_length, E2; lia]).
  do 3 (split; [done |]). change (new_dirent n start len) with (patch e3 28 (le_bytes 4 len)).
  rewrite patch_length; [done | lia | unfold zlen; rewrite le_bytes_length, E3; lia].
Qed.

Lemma new_bytes : bytes (new_dirent n start len).
Proof.
  unfold new_dirent. repeat (apply patch_bytes; [| try apply le_bytes_range]). apply zset_bytes_ok; [| done].
  apply patch_bytes; [| done]. by apply Forall_replicate.
Qed.

Lemma new_at i : 0 <= i -> znth 0 (new_dirent n start len) i =
  if (28 <=? i) && (i <? 32) then znth 0 (le_bytes 4 len) (i - 28)
  else if (26 <=? i) && (i <? 28) then znth 0 (le_bytes 2 (u16 (Z.land start 0xFFFF))) (i - 26)
  else if (20 <=? i) && (i <? 22) then znth 0 (le_bytes 2 (u16 (Z.shiftr start 16))) (i - 20)
  else if i =? 11 then 0x20 else if i <? 11 then znth 0 n i else znth 0 (replicate 32 0) i.
Proof.
  intros Hi. destruct new_lengths as (E1 & E2 & E3 & _). change (new_dirent n start len) with (patch e3 28 (le_bytes 4 len)).
  assert (forall k v, zlen (le_bytes k v) = Z.of_nat k) as Hz by (intros; unfold zlen; by rewrite le_bytes_length).
  rewrite znth_patch by (rewrite ?Hz; unfold zlen; lia). rewrite Hz. change (28 + Z.of_nat 4) with 32. destruct (_ && _); [done |].
  unfold e3. rewrite znth_patch by (rewrite ?Hz; unfold zlen; lia). rewrite Hz. change (26 + Z.of_nat 2) with 28. destruct (_ && _); [done |].
  unfold e2. rewrite znth_patch by (rewrite ?Hz; unfold zlen; lia). rewrite Hz. change (20 + Z.of_nat 2) with 22. destruct (_ && _); [done |].
  unfold e1. assert (zlen n = 11) as Hzn by (unfold zlen; lia).
  rewrite znth_zset by (unfold zlen; rewrite patch_length; [done | lia | rewrite Hzn; done]). destruct (i =? 11); [done |].
  rewrite znth_patch by (rewrite ?Hzn; done || lia). rewrite Hzn, Z.sub_0_r, Z.add_0_l. zcases; simpl; done || lia.
Qed.

Lemma new_name : d_name (new_dirent n start len) = n.
Proof.
  destruct new_lengths as (_ & _ & _ & E). apply list_ext_znth.
  - unfold d_name. rewrite part_length; [done | done | done |]. unfold zlen. rewrite E. done.
  - intros i Hi. unfold zlen, d_name in Hi. rewrite part_length in Hi by (done || (unfold zlen; rewrite E; done)). change (Z.of_nat (Z.to_nat FAT32_NAME_LENGTH)) with 11 in Hi.
    unfold d_name. rewrite znth_part by (unfold FAT32_NAME_LENGTH; lia). rewrite Z.add_0_l, new_at by lia. zcases; simpl; done || lia.
Qed.

Lemma new_head : znth 0 (new_dirent n start len) 0 = znth 0 n 0.
Proof. by rewrite new_at. Qed.

Lemma new_attr : d_attr (new_dirent n start len) = 0x20.
Proof. unfold d_attr. by rewrite new_at. Qed.

Lemma new_size : d_size (new_dirent n start len) = len.
Proof.
  unfold d_size. rewrite get32_val by apply new_bytes. rewrite !new_at by lia.
  destruct (le4_at len) as (B0 & B1 & B2 & B3).
  change (znth 0 (le_bytes 4 len) 0 + 256 * znth 0 (le_bytes 4 len) 1 + 65536 * znth 0 (le_bytes 4 len) 2 + 16777216 * znth 0 (le_bytes 4 len) 3 = len).
  rewrite B0, B1, B2, B3. change (2 ^ 32) with 4294967296 in Hl. mlia.
Qed.

Lemma new_start : dirent_first_cluster (new_dirent n start len) = start.
Proof.
  unfold dirent_first_cluster. rewrite !get16_val by apply new_bytes. rewrite !new_at by lia.
  set (hi := u16 (Z.shiftr start 16)). set (lo := u16 (Z.land start 0xFFFF)). destruct (le2_at hi) as [H0 H1], (le2_at lo) as [K0 K1].
  change (Z.lor (Z.shiftl (znth 0 (le_bytes 2 hi) 0 + 256 * znth 0 (le_bytes 2 hi) 1) 16) (znth 0 (le_bytes 2 lo) 0 + 256 * znth 0 (le_bytes 2 lo) 1) = start).
  rewrite H0, H1, K0, K1. unfold hi, lo.
  change 0xFFFF with (Z.ones 16). rewrite Z.land_ones, Z.shiftr_div_pow2 by lia. unfold u16. change (2 ^ 16) with 65536. change (2 ^ 32) with 4294967296 in Hs.
  rewrite Z.shiftl_mul_pow2 by lia. rewrite lor_low_add by (change (2 ^ 16) with 65536; mlia). change (2 ^ 16) with 65536. mlia.
Qed.

Lemma new_usable : dirent_is_usable (new_dirent n start len) = true /\ is_directory (new_dirent n start len) = false.
Proof. unfold dirent_is_usable, is_directory. by rewrite new_attr. Qed.
End NewDirent.

Lemma part_part_name (e : dirent) i : 0 <= i < 11 -> znth 0 (d_name e) i = znth 0 e i.
Proof. intros Hi. unfold d_name. by rewrite znth_part by (unfold FAT32_NAME_LENGTH; lia). Qed.

(** ** 8.3 names *)

Lemma to_upper_byte c : byte c -> byte (to_upper c).
Proof. unfold to_upper. zcases; simpl; lia. Qed.
Lemma to_upper_ne c x : c <> x -> (x < 65 \/ 90 < x) -> to_upper c <> x.
Proof. unfold to_upper. zcases; simpl; lia. Qed.

Lemma base_83_shape name : forall w out rest w' out', base_83 name w out = Some (rest, w', out') -> bytes name -> bytes out -> 0 <= w ->
  length out' = length out /\ bytes out' /\ bytes rest /\ w <= w' /\ (0 < w -> znth 0 out' 0 = znth 0 out 0).
Proof.
  induction name as [|c name IH]; intros w out rest w' out' H Hn Ho Hw; simpl in H.
  { injection H as <- <- <-. done. }
  apply Forall_cons in Hn as Hn'. destruct Hn' as [Hc Hn']. destruct (c =? 46); [injection H as <- <- <-; done |].
  destruct (Z.leb_spec FAT32_BASE_LENGTH w) as [|Hlt]; [done |].
  apply IH in H as (H1 & H2 & H3 & H4 & H5); [| done | by apply zset_bytes_ok; [| apply to_upper_byte] | lia].
  rewrite length_zset in H1. do 3 (split; [done |]). split; [lia |]. intros H0. rewrite H5 by lia.
  unfold znth, zset. destruct (Z.ltb_spec w 0); [lia |]. simpl. by rewrite list_lookup_insert_ne by lia.
Qed.

Lemma ext_83_shape name : forall w out out', ext_83 name w out = Some out' -> bytes name -> bytes out -> 0 <= w ->
  length out' = length out /\ bytes out' /\ znth 0 out' 0 = znth 0 out 0.
Proof.
  induction name as [|c name IH]; intros w out out' H Hn Ho Hw; simpl in H; [by injection H as <- |].
  apply Forall_cons in Hn as [Hc Hn]. destruct (FAT32_EXT_LENGTH <=? w); [done |].
  apply IH in H as (H1 & H2 & H3); [| done | by apply zset_bytes_ok; [| apply to_upper_byte] | lia].
  rewrite length_zset in H1. do 2 (split; [done |]). rewrite H3. unfold znth, zset, FAT32_BASE_LENGTH. destruct (Z.ltb_spec (8 + w) 0); [lia |]. simpl.
  by rewrite list_lookup_insert_ne by lia.
Qed.

(** Characters of a name, which ends at its NUL. *)
Notation chars := (Forall (fun c => 1 <= c < 256)).

Lemma name_to_83_first name n : name_to_83 name = Some n -> chars name ->
  length n = 11%nat /\ bytes n /\ exists c, head name = Some c /\ 1 <= c < 256 /\ znth 0 n 0 = to_upper c.
Proof.
  intros H Hc. assert (bytes name) as Hb by (eapply Forall_impl; [exact Hc |]; simpl; lia). unfold name_to_83 in H.
  set (blank := replicate (Z.to_nat FAT32_NAME_LENGTH) 32) in H. assert (bytes blank) as Hbl by (by apply Forall_replicate).
  destruct (base_83 name 0 blank) as [[[rest w] out]|] eqn:E; [| done]. destruct (Z.eqb_spec w 0) as [|Hw]; [done |].
  destruct name as [|c name]; [injection E as <- <- <-; lia |]. simpl in E. apply Forall_cons in Hc as [Hc _]. apply Forall_cons in Hb as [Hbc Hb].
  destruct (c =? 46); [injection E as <- <- <-; lia |].
  apply base_83_shape in E as (L1 & B1 & B2 & _ & Z1); [| done | by apply zset_bytes_ok; [| apply to_upper_byte] | lia].
  specialize (Z1 ltac:(lia)). rewrite length_zset in L1. rewrite znth_zset in Z1 by done. simpl in Z1.
  destruct rest as [|d ext]; [injection H as <-; split; [done |]; split; [done |]; by exists c |]. apply Forall_cons in B2 as [_ B2].
  apply ext_83_shape in H as (L2 & B3 & Z2); [| done | done | lia]. rewrite L2, Z2. split; [done |]. split; [done |]. by exists c.
Qed.

Lemma name_to_83_shape name n : name_to_83 name = Some n -> chars name -> head name <> Some FAT32_DIRENT_DELETED ->
  length n = 11%nat /\ bytes n /\ znth 0 n 0 <> 0 /\ znth 0 n 0 <> FAT32_DIRENT_DELETED.
Proof.
  intros H Hc He. destruct (name_to_83_first name n H Hc) as (H1 & H2 & c & Hh & Hr & ->). do 2 (split; [done |]).
  split; apply to_upper_ne; try (left; lia) || (right; unfold FAT32_DIRENT_DELETED; lia); [lia |]. intros ->. by apply He.
Qed.

Lemma name_to_83_deleted name n : name_to_83 name = Some n -> chars name -> head name = Some FAT32_DIRENT_DELETED ->
  length n = 11%nat /\ bytes n /\ znth 0 n 0 = FAT32_DIRENT_DELETED.
Proof. intros H Hc He. destruct (name_to_83_first name n H Hc) as (H1 & H2 & c & Hh & _ & ->). rewrite He in Hh. by injection Hh as <-. Qed.

(** The loops as updates of the blank name. *)
Lemma patch_zset bs w c l : 0 <= w -> w + zlen (c :: l) <= zlen bs -> patch (zset bs w c) (w + 1) l = patch bs w (c :: l).
Proof.
  unfold zlen. cbn [length]. intros Hw Hl. apply list_ext_znth.
  - rewrite !patch_length by (rewrite ?zlen_zset; unfold zlen; simpl; lia). by rewrite length_zset.
  - intros i Hi. rewrite !znth_patch by (rewrite ?zlen_zset; unfold zlen; simpl; lia). rewrite znth_zset by (unfold zlen; lia). unfold zlen. cbn [length].
    destruct (Z.eqb_spec i w) as [-> | Hne].
    + zcases; simpl; try lia. by rewrite Z.sub_diag.
    + zcases; simpl; try lia; try done. rewrite !znth_nonneg by lia. replace (Z.to_nat (i - w)) with (S (Z.to_nat (i - (w + 1)))) by lia. done.
Qed.

Lemma patch_nil bs o : patch bs o [] = bs.
Proof. unfold patch. simpl. rewrite Nat.add_0_r. apply take_drop. Qed.

Lemma base_83_run b : forall rest w out, Forall (fun c => c <> 46) b -> match rest with [] => True | c :: _ => c = 46 end ->
  0 <= w -> w + zlen b <= 8 -> length out = 11%nat -> base_83 (b ++ rest) w out = Some (rest, w + zlen b, patch out w (to_upper <$> b)).
Proof.
  induction b as [|c b IH]; intros rest w out Hb Hr Hw Hl Ho.
  - cbn [app fmap list_fmap]. rewrite patch_nil, Z.add_0_r. destruct rest as [|c rest]; [done |]. subst c. done.
  - apply Forall_cons in Hb as [Hc Hb]. unfold zlen in Hl. cbn [length] in Hl. cbn [app base_83]. apply Z.eqb_neq in Hc as ->.
    destruct (Z.leb_spec FAT32_BASE_LENGTH w) as [Hge |]; [unfold FAT32_BASE_LENGTH in Hge; lia |].
    rewrite IH; [| done | done | lia | unfold zlen; lia | by rewrite length_zset].
    rewrite patch_zset by (unfold zlen; cbn [length]; rewrite ?length_fmap, ?Ho; lia). do 3 f_equal. unfold zlen. simpl. lia.
Qed.

Lemma ext_83_run x : forall w out, 0 <= w -> w + zlen x <= 3 -> length out = 11%nat -> ext_83 x w out = Some (patch out (8 + w) (to_upper <$> x)).
Proof.
  induction x as [|c x IH]; intros w out Hw Hl Ho; cbn [ext_83 fmap list_fmap]; [by rewrite patch_nil |].
  unfold zlen in Hl. cbn [length] in Hl. destruct (Z.leb_spec FAT32_EXT_LENGTH w) as [Hge |]; [unfold FAT32_EXT_LENGTH in Hge; lia |].
  rewrite IH; [| lia | unfold zlen; lia | by rewrite length_zset]. rewrite Z.add_assoc.
  by rewrite patch_zset by (unfold zlen; cbn [length]; rewrite ?length_fmap, ?Ho; lia).
Qed.

Lemma until_space_run a b : Forall (fun c => c <> 32) a -> until_space (a ++ replicate b 32) = a.
Proof. induction 1 as [|c a Hc _ IH]; [by destruct b |]. simpl. apply Z.eqb_neq in Hc as ->. by f_equal. Qed.
