(* ===== verification/FatDisk.v ===== *)
(** * The FAT and the clusters on the disk

    What the file system assumes of its environment, and what it makes of
    the sectors: [holds s L fat data] says that in state [s] the volume has
    the geometry of the section, the blocks [L] of the heap are live, entry
    [c] is [fat c] in every copy of the FAT and cluster [c] contains
    [data c]. The lemmas give each primitive as a change of these two
    functions. *)

From stdpp Require Import base list gmap fin_maps functions.
From Stdlib Require Import ZArith Lia Bool.
From S2P Require Import Prelude Fat FatBytes.

(** ** What the environment promises *)

(** [e_ok e L]: the environment is consistent and [L] are the live blocks
    of the heap that [kfree] may be given. *)
Class EnvLaws (E : Type) {env : FsEnv E} := {
  e_ok : E -> gset Z -> Prop;
  law_e_kmalloc : forall e L n e' p, e_ok e L -> 0 <= n < 2 ^ 32 -> e_kmalloc e n = (e', p) ->
    p = 0 /\ e_ok e' L \/ p <> 0 /\ p ∉ L /\ e_ok e' ({[p]} ∪ L);
  law_e_kfree : forall e L p, e_ok e L -> p ∈ L -> e_ok (e_kfree e p) (L ∖ {[p]})
}.

(** On a disk that works: reads return what was written last. *)
Class DiskLaws (E : Type) {env : FsEnv E} {laws : EnvLaws E} := {
  disk_blocks : Z;
  e_sector : E -> Z -> list Z;
  law_sector : forall e L b, e_ok e L -> length (e_sector e b) = 512%nat /\ bytes (e_sector e b);
  law_kmalloc_sector : forall e L n b, e_ok e L -> 0 <= n < 2 ^ 32 -> e_sector (e_kmalloc e n).1 b = e_sector e b;
  law_kfree_sector : forall e L p b, e_ok e L -> p ∈ L -> e_sector (e_kfree e p) b = e_sector e b;
  law_read : forall e L lba n, e_ok e L -> 0 <= lba -> 0 < n < 256 -> lba + n <= disk_blocks ->
    exists e', e_disk_read e lba n = (e', Some (concat (e_sector e <$> seqZ lba n))) /\ e_ok e' L /\ forall b, e_sector e' b = e_sector e b;
  law_write : forall e L lba n bs, e_ok e L -> 0 <= lba -> 0 < n < 256 -> lba + n <= disk_blocks ->
    length bs = Z.to_nat (512 * n) -> bytes bs ->
    exists e', e_disk_write e lba n bs = (e', 0) /\ e_ok e' L /\
      forall b, e_sector e' b = if (lba <=? b) && (b <? lba + n) then part bs (512 * (b - lba)) 512 else e_sector e b
}.

(** A mark that a refused request for memory leaves on the environment and
    that nothing removes. *)
Class Marks (E : Type) {env : FsEnv E} := {
  e_refused : E -> Prop;
  mark_set : forall e n e', e_kmalloc e n = (e', 0) -> e_refused e';
  mark_kmalloc : forall e n, e_refused e -> e_refused (e_kmalloc e n).1;
  mark_kfree : forall e p, e_refused e -> e_refused (e_kfree e p);
  mark_read : forall e lba n, e_refused e -> e_refused (e_disk_read e lba n).1;
  mark_write : forall e lba n bs, e_refused e -> e_refused (e_disk_write e lba n bs).1
}.

(** An environment that records whether a request for memory was refused:
    the record is set by a refusal and by nothing else. *)
Class Refusals (E : Type) {env : FsEnv E} := {
  refused : E -> bool;
  refused_kmalloc : forall e n e' p, e_kmalloc e n = (e', p) -> refused e' = refused e || (p =? 0);
  refused_kfree : forall e p, refused (e_kfree e p) = refused e;
  refused_read : forall e lba n, refused (e_disk_read e lba n).1 = refused e;
  refused_write : forall e lba n bs, refused (e_disk_write e lba n bs).1 = refused e
}.

#[export, refine] Instance refusals_marks {E} {env : FsEnv E} {rf : Refusals E} : Marks E := {| e_refused e := refused e = true |}.
Proof.
  - intros e n e' Ek. rewrite (refused_kmalloc e n e' 0 Ek). apply orb_true_r.
  - intros e n He. destruct (e_kmalloc e n) as [e' p] eqn:Ek. simpl. by rewrite (refused_kmalloc e n e' p Ek), He.
  - intros e p He. by rewrite refused_kfree.
  - intros e lba n He. by rewrite refused_read.
  - intros e lba n bs He. by rewrite refused_write.
Defined.

(** A request for memory was refused on the way from [s] to [s']. *)
Definition refused_during {E} {env : FsEnv E} {rf : Refusals E} (s s' : fat32 E) : Prop :=
  refused (f_env s) = false -> refused (f_env s') = true.

(** The computation from [s] returns [a] in a state with [Q a], and takes no
    mark away. *)
Definition fwp {E} {env : FsEnv E} {mk : Marks E} {A} (m : F E A) (Q : A -> fat32 E -> Prop) (s : fat32 E) : Prop :=
  let '(s', a) := m s in Q a s' /\ (e_refused (f_env s) -> e_refused (f_env s')).

Section Wp.
Context {E : Type} {env : FsEnv E} {mk : Marks E}.
Implicit Types s : fat32 E.

Lemma fwp_ret {A} (a : A) Q s : Q a s -> fwp (mret a) Q s.
Proof. done. Qed.
Lemma fwp_bind {A B} (m : F E A) (f : A -> F E B) Q s : fwp m (fun a s' => fwp (f a) Q s') s -> fwp (x ← m ; f x) Q s.
Proof. unfold fwp, mbind, F_bind. destruct (m s) as [s' a]. destruct (f a s') as [s'' b]. intros [[HQ H2] H1]. auto. Qed.
Lemma fwp_mono {A} (m : F E A) (Q Q' : A -> fat32 E -> Prop) s : fwp m Q s -> (forall a s', Q a s' -> Q' a s') -> fwp m Q' s.
Proof. unfold fwp. destruct (m s) as [s' a]. intros [HQ Hk] H. auto. Qed.
Lemma fwp_then {A B} (m : F E A) (f : A -> F E B) (P : A -> fat32 E -> Prop) Q s :
  fwp m P s -> (forall a s', P a s' -> fwp (f a) Q s') -> fwp (x ← m ; f x) Q s.
Proof. intros H1 H2. apply fwp_bind. eapply fwp_mono; [exact H1 | done]. Qed.
Lemma fwp_upd f Q s : Q tt (mkFat32 (f (f_vol s)) (f_env s)) -> fwp (upd_vol f) Q s.
Proof. done. Qed.

(** The same with the marks at hand. *)
Lemma fwp_marks {A} (m : F E A) (Q Q' : A -> fat32 E -> Prop) s : fwp m Q s ->
  (forall a s', (e_refused (f_env s) -> e_refused (f_env s')) -> Q a s' -> Q' a s') -> fwp m Q' s.
Proof. unfold fwp. destruct (m s) as [s' a]. intros [HQ Hk] H. auto. Qed.
Lemma fwp_then_marks {A B} (m : F E A) (f : A -> F E B) (P : A -> fat32 E -> Prop) Q s :
  fwp m P s -> (forall a s', (e_refused (f_env s) -> e_refused (f_env s')) -> P a s' -> fwp (f a) Q s') -> fwp (x ← m ; f x) Q s.
Proof. intros H1 H2. apply fwp_bind. eapply fwp_marks; [exact H1 | done]. Qed.
Lemma fwp_vol {B} (f : volume -> F E B) Q s : fwp (f (f_vol s)) Q s -> fwp (v ← vol ; f v) Q s.
Proof. done. Qed.
Lemma fwp_inv {A} (m : F E A) Q s s' a : fwp m Q s -> m s = (s', a) -> Q a s'.
Proof. unfold fwp. intros H Hm. rewrite Hm in H. by destruct H. Qed.
End Wp.

(** ** Geometry *)

(** A volume whose parts follow each other, inside the disk: the FAT has
    room for every cluster, cluster numbers are below the marks. *)
Record geometry {E} {env : FsEnv E} {laws : EnvLaws E} {disk : DiskLaws E} (v : volume) : Prop := {
  g_bps : fs_bytes_per_sector v = 512;
  g_spc : 1 <= fs_sectors_per_cluster v <= 128;
  g_bpc : fs_bytes_per_cluster v = 512 * fs_sectors_per_cluster v;
  g_fat : 1 <= fs_first_fat_block v;
  g_spf : 1 <= fs_sectors_per_fat v;
  g_copies : 1 <= fs_num_fats v;
  g_data : fs_first_data_block v = fs_first_fat_block v + fs_num_fats v * fs_sectors_per_fat v;
  g_total : 1 <= fs_total_clusters v;
  g_room : fs_total_clusters v + 2 <= 128 * fs_sectors_per_fat v;
  g_marks : fs_total_clusters v + 2 <= FAT32_CLUSTER_BAD;
  g_disk : fs_first_data_block v + fs_total_clusters v * fs_sectors_per_cluster v <= disk_blocks;
  g_lba : disk_blocks < 2 ^ 32;
  g_info : fs_fsinfo_block v = 0 \/ fs_fsinfo_block v = 0xFFFF \/ 1 <= fs_fsinfo_block v < fs_first_fat_block v;
  g_root : 2 <= fs_root_cluster v < fs_total_clusters v + 2;
  g_ready : fs_ready v = true
}.

Section Disk.
Context {E : Type} {env : FsEnv E} {mk : Marks E} {laws : EnvLaws E} {disk : DiskLaws E}.
Context (g : volume) (Hg : geometry g).
Implicit Types s : fat32 E.
Implicit Types L : gset Z.

Definition in_range (c : Z) : Prop := 2 <= c < fs_total_clusters g + 2.

(** The sector of copy [k] that holds the entry of [c], and the entry. *)
Definition fat_sector (k c : Z) : Z := fs_first_fat_block g + k * fs_sectors_per_fat g + c / 128.
Definition fat_at (k : Z) (e : E) (c : Z) : Z := Z.land (get32 (e_sector e (fat_sector k c)) (c mod 128 * 4)) FAT32_ENTRY_MASK.
Definition block_of (c : Z) : Z := fs_first_data_block g + (c - 2) * fs_sectors_per_cluster g.
Definition data_at (e : E) (c : Z) : list Z := concat (e_sector e <$> seqZ (block_of c) (fs_sectors_per_cluster g)).

Record holds (s : fat32 E) (L : gset Z) (fat : Z -> Z) (data : Z -> list Z) : Prop := {
  h_ok : e_ok (f_env s) L;
  h_vol : exists h, f_vol s = set_hint g h;
  h_fat : forall k c, 0 <= k < fs_num_fats g -> in_range c -> fat_at k (f_env s) c = fat c;
  h_data : forall c, in_range c -> data_at (f_env s) c = data c
}.

(** ** Facts about the geometry *)

Lemma in_range_small c : in_range c -> 2 <= c < 0x0FFFFFF7.
Proof. pose proof (g_marks _ Hg). unfold in_range, FAT32_CLUSTER_BAD in *. lia. Qed.

Lemma vol_range h c : cluster_in_range (set_hint g h) c = true <-> in_range c.
Proof.
  pose proof (g_marks _ Hg). pose proof (g_total _ Hg). unfold cluster_in_range, in_range, FAT32_CLUSTER_BAD, FAT32_FIRST_DATA_CLUSTER in *.
  simpl. rewrite u32_small by lia. rewrite andb_true_iff, Z.leb_le, Z.ltb_lt. lia.
Qed.

Lemma limit_eq : u32 (fs_total_clusters g + FAT32_FIRST_DATA_CLUSTER) = fs_total_clusters g + 2.
Proof.
  pose proof (g_marks _ Hg). pose proof (g_total _ Hg). unfold FAT32_FIRST_DATA_CLUSTER, FAT32_CLUSTER_BAD in *. by rewrite u32_small by lia.
Qed.

Lemma block_bounds c : in_range c -> fs_first_data_block g <= block_of c /\ block_of c + fs_sectors_per_cluster g <= disk_blocks.
Proof. intros [H1 H2]. pose proof (g_disk _ Hg). pose proof (g_spc _ Hg). unfold block_of. nia. Qed.

Lemma cluster_block h c : in_range c -> cluster_to_block (set_hint g h) c = block_of c.
Proof.
  intros Hc. pose proof (block_bounds c Hc) as [B1 B2]. pose proof (g_lba _ Hg). pose proof (g_spc _ Hg). pose proof (in_range_small c Hc).
  pose proof (g_data _ Hg). pose proof (g_fat _ Hg). pose proof (g_copies _ Hg). pose proof (g_spf _ Hg).
  unfold cluster_to_block, block_of, FAT32_FIRST_DATA_CLUSTER in *. simpl.
  assert (0 <= (c - 2) * fs_sectors_per_cluster g) by nia. assert (0 <= fs_first_data_block g) by nia.
  rewrite (u32_small (c - 2)) by lia. rewrite (u32_small (_ * _)) by lia. by rewrite u32_small by lia.
Qed.

(** The FAT block of a cluster, in copy [k]. *)
Lemma fat_block c : 0 <= c < fs_total_clusters g + 2 -> 0 <= c / 128 < fs_sectors_per_fat g.
Proof. intros Hc. pose proof (g_room _ Hg). split; [apply Z.div_pos; lia |]. apply Z.div_lt_upper_bound; lia. Qed.

Lemma fat_copies k b : 0 <= k < fs_num_fats g -> 0 <= b < fs_sectors_per_fat g ->
  0 <= k * fs_sectors_per_fat g /\
  fs_first_fat_block g + k * fs_sectors_per_fat g + b < fs_first_data_block g /\ fs_first_data_block g < disk_blocks.
Proof.
  intros Hk Hb. pose proof (g_data _ Hg). pose proof (g_disk _ Hg). pose proof (g_spc _ Hg). pose proof (g_total _ Hg). nia.
Qed.

Lemma fat_sector_range k c : 0 <= k < fs_num_fats g -> in_range c ->
  fs_first_fat_block g <= fat_sector k c < fs_first_data_block g /\ fs_first_data_block g < disk_blocks.
Proof.
  intros Hk Hc. pose proof (fat_block c ltac:(unfold in_range in Hc; lia)) as Hb. pose proof (fat_copies k (c / 128) Hk Hb). unfold fat_sector. lia.
Qed.

(** A sector of the FAT belongs to one copy. *)
Lemma fat_sector_inj k c k' c' : in_range c -> in_range c' -> fat_sector k c = fat_sector k' c' -> k = k' /\ c / 128 = c' / 128.
Proof.
  intros Hc Hc' Hs. pose proof (fat_block c ltac:(unfold in_range in Hc; lia)). pose proof (fat_block c' ltac:(unfold in_range in Hc'; lia)).
  unfold fat_sector in Hs. destruct (Z.lt_trichotomy k k') as [Hl | [-> | Hl]]; [exfalso; nia | lia | exfalso; nia].
Qed.

(** Blocks of different clusters are apart. *)
Lemma block_apart c c' : in_range c -> in_range c' -> c <> c' ->
  block_of c + fs_sectors_per_cluster g <= block_of c' \/ block_of c' + fs_sectors_per_cluster g <= block_of c.
Proof. intros H1 H2 Hne. pose proof (g_spc _ Hg). unfold block_of. nia. Qed.

(** ** The view after a change of sectors *)

Lemma data_at_ext e e' c :
  (forall b, block_of c <= b < block_of c + fs_sectors_per_cluster g -> e_sector e' b = e_sector e b) -> data_at e' c = data_at e c.
Proof. intros H. unfold data_at. f_equal. apply list_fmap_ext. intros i b Hb%list_elem_of_lookup_2%elem_of_seqZ. apply H. lia. Qed.

(** Reads, the heap, and writes below the FAT change nothing in the view. *)
Lemma holds_same s L fat data e' L' :
  holds s L fat data -> e_ok e' L' ->
  (forall b, fs_first_fat_block g <= b -> e_sector e' b = e_sector (f_env s) b) -> holds (mkFat32 (f_vol s) e') L' fat data.
Proof.
  intros [H1 H3 H4 H5] Ho Hs. split; simpl; try done.
  - intros k c Hk Hc. rewrite <- (H4 k) by done. unfold fat_at. rewrite Hs; [done |].
    pose proof (fat_sector_range k c Hk Hc). lia.
  - intros c Hc. rewrite <- H5 by done. apply data_at_ext. intros b Hb. apply Hs.
    pose proof (block_bounds c Hc). pose proof (g_data _ Hg). pose proof (g_copies _ Hg). pose proof (g_spf _ Hg). nia.
Qed.

Lemma holds_ext s L fat data fat' data' :
  holds s L fat data -> (forall c, in_range c -> fat' c = fat c) -> (forall c, in_range c -> data' c = data c) -> holds s L fat' data'.
Proof. intros [H1 H3 H4 H5] Hf Hd. split; try done; intros *; intros; rewrite ?Hf, ?Hd by done; auto. Qed.

Lemma holds_hint s L fat data f : holds s L fat data -> (exists h, f (f_vol s) = set_hint g h) -> holds (mkFat32 (f (f_vol s)) (f_env s)) L fat data.
Proof. intros [H1 H3 H4 H5] Hf. by split. Qed.

(** ** The heap and single sectors *)

Lemma kmalloc_any s L fat data n : holds s L fat data -> 0 <= n < 2 ^ 32 ->
  fwp (fs_kmalloc n) (fun p s' => (p = 0 /\ e_refused (f_env s')) /\ holds s' L fat data \/ p <> 0 /\ p ∉ L /\ holds s' ({[p]} ∪ L) fat data) s.
Proof.
  intros H Hn. unfold fwp, fs_kmalloc. destruct (e_kmalloc (f_env s) n) as [e' p] eqn:Ek.
  split; [| intros Hm; simpl; pose proof (mark_kmalloc (f_env s) n Hm) as Hk; by rewrite Ek in Hk].
  assert (forall b, e_sector e' b = e_sector (f_env s) b) as Hs.
  { intros b. pose proof (law_kmalloc_sector (f_env s) L n b (h_ok _ _ _ _ H) Hn) as Es. by rewrite Ek in Es. }
  destruct (law_e_kmalloc _ _ _ _ _ (h_ok _ _ _ _ H) Hn Ek) as [[-> Ho] | (Hp & Hnot & Ho)].
  - left. split; [split; [done |] |]; [by eapply mark_set | by apply (holds_same s L)].
  - right. do 2 (split; [done |]). by apply (holds_same s L).
Qed.

Lemma kmalloc_holds s L fat data : holds s L fat data ->
  fwp (fs_kmalloc (fs_bytes_per_cluster g)) (fun p s' => (p = 0 /\ e_refused (f_env s')) /\ holds s' L fat data \/
    p <> 0 /\ p ∉ L /\ holds s' ({[p]} ∪ L) fat data) s.
Proof. intros H. apply kmalloc_any; [done |]. pose proof (g_bpc _ Hg). pose proof (g_spc _ Hg). lia. Qed.

Lemma kfree_holds s L fat data p : p ∉ L -> holds s ({[p]} ∪ L) fat data -> fwp (fs_kfree p) (fun _ s' => holds s' L fat data) s.
Proof.
  intros Hp H. unfold fwp, fs_kfree. split; [| apply mark_kfree]. assert (p ∈ {[p]} ∪ L) as Hin by set_solver.
  pose proof (law_e_kfree _ _ _ (h_ok _ _ _ _ H) Hin) as Ho. replace (({[p]} ∪ L) ∖ {[p]}) with L in Ho by set_solver.
  eapply holds_same; [done | done |]. intros b _. by rewrite (law_kfree_sector _ ({[p]} ∪ L)) by (done || apply (h_ok _ _ _ _ H)).
Qed.

(** [s'] is [s] with the sectors [sec]. *)
Definition sectors (L : gset Z) (s s' : fat32 E) (sec : Z -> list Z) : Prop :=
  f_vol s' = f_vol s /\ e_ok (f_env s') L /\ forall b, e_sector (f_env s') b = sec b.

Lemma holds_sectors s s' L fat data : holds s L fat data -> sectors L s s' (e_sector (f_env s)) -> holds s' L fat data.
Proof.
  intros H (E1 & E2 & E4). destruct s' as [v' e']; simpl in *. subst v'. apply (holds_same s L); [done | done |]. intros; apply E4.
Qed.

Lemma read_sectors s L lba n : e_ok (f_env s) L -> 0 <= lba -> 0 < n < 256 -> lba + n <= disk_blocks ->
  fwp (disk_read lba n) (fun r s' => r = Some (concat (e_sector (f_env s) <$> seqZ lba n)) /\ sectors L s s' (e_sector (f_env s))) s.
Proof.
  intros Ho Hl Hn Hb. unfold fwp, disk_read. rewrite u8_small by lia.
  pose proof (mark_read (f_env s) lba n) as Hm.
  destruct (law_read (f_env s) L lba n Ho Hl Hn Hb) as (e' & Ee & Ho' & Hs). rewrite Ee in Hm |- *. done.
Qed.

Lemma read_sector s L b : e_ok (f_env s) L -> 0 <= b < disk_blocks ->
  fwp (disk_read b 1) (fun r s' => r = Some (e_sector (f_env s) b) /\ sectors L s s' (e_sector (f_env s))) s.
Proof.
  intros Ho Hb. eapply fwp_mono; [apply (read_sectors s L); lia || done |]. intros r s' [-> Hs]. split; [| done]. simpl.
  by rewrite app_nil_r.
Qed.

Lemma write_sectors s L lba n bs : e_ok (f_env s) L -> 0 <= lba -> 0 < n < 256 -> lba + n <= disk_blocks ->
  length bs = Z.to_nat (512 * n) -> bytes bs ->
  fwp (disk_write lba n bs) (fun rc s' => rc = 0 /\ sectors L s s' (fun b =>
    if (lba <=? b) && (b <? lba + n) then part bs (512 * (b - lba)) 512 else e_sector (f_env s) b)) s.
Proof.
  intros Ho Hl Hn Hb Hlen Hbs. unfold fwp, disk_write. rewrite u8_small by lia.
  pose proof (mark_write (f_env s) lba n bs) as Hm.
  destruct (law_write (f_env s) L lba n bs Ho Hl Hn Hb Hlen Hbs) as (e' & Ee & Ho' & Hs). rewrite Ee in Hm |- *. done.
Qed.

Lemma write_sector s L b bs : e_ok (f_env s) L -> 0 <= b < disk_blocks -> length bs = 512%nat -> bytes bs ->
  fwp (disk_write b 1 bs) (fun rc s' => rc = 0 /\ sectors L s s' (fun x => if x =? b then bs else e_sector (f_env s) x)) s.
Proof.
  intros Ho Hb Hlen Hbs. eapply fwp_mono; [apply (write_sectors s L); lia || done |].
  intros rc s' [-> (E1 & E2 & E4)]. split; [done |]. do 2 (split; [done |]). intros x. rewrite E4.
  zcases; simpl; try lia; try done. subst. apply part_all || (replace (512 * (b - b)) with 0 by lia; apply part_all; unfold zlen; lia).
Qed.

(** ** Entries of the FAT *)

Lemma fat_block_lo c : in_range c -> 1 <= fs_first_fat_block g + c / 128 < disk_blocks /\ fs_first_fat_block g + c / 128 = fat_sector 0 c.
Proof.
  intros Hc. pose proof (fat_block c ltac:(unfold in_range in Hc; lia)) as Hb. pose proof (g_fat _ Hg). pose proof (g_copies _ Hg).
  pose proof (fat_copies 0 (c / 128) ltac:(lia) Hb). unfold fat_sector. lia.
Qed.

Lemma get_entry_holds s L fat data c : holds s L fat data -> in_range c ->
  fwp (fat32_get_entry c) (fun r s' => r = Some (fat c) /\ holds s' L fat data) s.
Proof.
  intros H Hc. destruct (h_vol _ _ _ _ H) as [h Ev]. apply fwp_vol. rewrite Ev. unfold entries_per_block. cbn [fs_bytes_per_sector set_hint].
  rewrite (g_bps _ Hg). change (512 / FAT32_ENTRY_BYTES) with 128. cbn [fs_first_fat_block set_hint].
  pose proof (fat_block_lo c Hc). pose proof (g_lba _ Hg). rewrite (u32_small (_ + _)) by lia.
  pose proof (Z.mod_pos_bound c 128 ltac:(lia)). unfold FAT32_ENTRY_BYTES. rewrite (u32_small (_ * _)) by lia.
  eapply fwp_then; [apply (read_sector _ L); [apply (h_ok _ _ _ _ H) | lia] |]. intros r s' [-> Hs]. apply fwp_ret.
  split; [| by eapply holds_sectors]. f_equal. rewrite (proj2 (fat_block_lo c Hc)). apply (h_fat _ _ _ _ H 0); [| done].
  pose proof (g_copies _ Hg). lia.
Qed.

(** What [fat32_next_cluster] makes of an entry. *)
Definition step_of (x : Z) : chain_step :=
  if FAT32_CLUSTER_END <=? x then CHAIN_END
  else if (2 <=? x) && (x <? fs_total_clusters g + 2) then CHAIN_NEXT x else CHAIN_ERROR.

Lemma next_cluster_holds s L fat data c : holds s L fat data -> in_range c ->
  fwp (fat32_next_cluster c) (fun r s' => r = step_of (fat c) /\ holds s' L fat data) s.
Proof.
  intros H Hc. eapply fwp_then; [by apply get_entry_holds |]. intros r s' [-> H']. apply fwp_vol, fwp_ret. split; [| done].
  destruct (h_vol _ _ _ _ H') as [h ->]. unfold step_of. destruct (FAT32_CLUSTER_END <=? fat c); [done |].
  destruct ((2 <=? fat c) && (fat c <? fs_total_clusters g + 2)) eqn:Er; zbool.
  - assert (in_range (fat c)) as Hr by (unfold in_range; lia). rewrite (proj2 (vol_range h (fat c)) Hr).
    pose proof (in_range_small _ Hr). unfold FAT32_CLUSTER_FREE, FAT32_CLUSTER_BAD. zcases; simpl; done || lia.
  - destruct (cluster_in_range (set_hint g h) (fat c)) eqn:Ec; [| by rewrite orb_true_r].
    apply vol_range in Ec. unfold in_range in Ec. lia.
Qed.

(** What an entry becomes: the reserved bits stay. *)
Definition merged (old value : Z) : Z := Z.lor (Z.land old (u32 (Z.lnot FAT32_ENTRY_MASK))) (Z.land value FAT32_ENTRY_MASK).
Definition merge_in (buf : list Z) (c value : Z) : list Z := put32 buf (c mod 128 * 4) (merged (get32 buf (c mod 128 * 4)) value).

(** The loop writes the entry in copy [k] and in every later one, and
    nothing else. *)
Lemma set_copies_sectors n : forall s L k c value, e_ok (f_env s) L -> (exists h, f_vol s = set_hint g h) -> in_range c -> 0 <= k ->
  k + Z.of_nat n = fs_num_fats g -> 0 <= value ->
  fwp (set_copies n k (c / 128) (c mod 128 * 4) value) (fun rc s' => rc = 0 /\ exists sec, sectors L s s' sec /\
    (forall j, k <= j < fs_num_fats g -> sec (fat_sector j c) = merge_in (e_sector (f_env s) (fat_sector j c)) c value) /\
    (forall x, (forall j, k <= j < fs_num_fats g -> x <> fat_sector j c) -> sec x = e_sector (f_env s) x)) s.
Proof.
  induction n as [|n IH]; intros s L k c value Ho [h Ev] Hc Hk Hn Hv; cbn [set_copies].
  { apply fwp_ret. split; [done |]. exists (e_sector (f_env s)). split; [done |]. split; [lia | done]. }
  apply fwp_vol. rewrite Ev. cbn [fs_first_fat_block fs_sectors_per_fat set_hint].
  pose proof (fat_block c ltac:(unfold in_range in Hc; lia)) as Hb. pose proof (Z.mod_pos_bound c 128 ltac:(lia)) as Hm.
  pose proof (fat_copies k (c / 128) ltac:(lia) Hb) as (C1 & C2 & C3). pose proof (g_lba _ Hg). pose proof (g_fat _ Hg).
  rewrite (u32_small (k * _)), (u32_small (_ + k * _)), u32_small by lia. assert (0 <= fat_sector k c < disk_blocks) as Hblk by (unfold fat_sector; lia).
  fold (fat_sector k c) in *. set (blk := fat_sector k c) in *.
  eapply fwp_then; [apply (read_sector _ L); [done | lia] |]. intros r s1 (-> & R1 & R2 & R4).
  destruct (law_sector (f_env s) L blk Ho) as [Hlen Hby].
  eapply fwp_then; [apply (write_sector s1 L blk); [done | lia | by rewrite put32_length | by apply put32_bytes] |].
  intros rc s2 (-> & W1 & W2 & W4). simpl negb. cbv iota.
  eapply fwp_mono; [apply (IH s2 L); try done; try lia; exists h; congruence |].
  intros rc s3 (-> & sec & (T1 & T2 & T4) & Hin & Hout). split; [done |]. exists sec. split; [split; [congruence |]; split; done |].
  assert (forall j, k + 1 <= j < fs_num_fats g -> fat_sector j c <> blk) as Hne.
  { intros j Hj Eq. destruct (fat_sector_inj j c k c Hc Hc Eq). lia. }
  split.
  - intros j Hj. destruct (decide (j = k)) as [-> | Hjk].
    + rewrite Hout by (intros i Hi Eq; by apply (Hne i Hi)). rewrite W4. fold blk. by rewrite Z.eqb_refl.
    + rewrite Hin by lia. rewrite W4, R4. pose proof (Hne j ltac:(lia)). by rewrite (proj2 (Z.eqb_neq _ _)).
  - intros x Hx. rewrite Hout by (intros j Hj; apply Hx; lia). rewrite W4, R4. pose proof (Hx k ltac:(lia)).
    by rewrite (proj2 (Z.eqb_neq _ _)).
Qed.

(** Entry [c'] of a FAT block in which entry [c] was replaced. *)
Lemma merge_in_entry buf c c' value : length buf = 512%nat -> bytes buf -> 0 <= value -> c' / 128 = c / 128 ->
  Z.land (get32 (merge_in buf c value) (c' mod 128 * 4)) FAT32_ENTRY_MASK =
  if c' =? c then Z.land value FAT32_ENTRY_MASK else Z.land (get32 buf (c' mod 128 * 4)) FAT32_ENTRY_MASK.
Proof.
  intros Hlen Hby Hv Hd. unfold merge_in. destruct (masked_store (get32 buf (c mod 128 * 4)) value (get32_range _ _ Hby) Hv) as [M1 M2].
  fold (merged (get32 buf (c mod 128 * 4)) value) in *. pose proof (Z.mod_pos_bound c 128 ltac:(lia)). pose proof (Z.mod_pos_bound c' 128 ltac:(lia)).
  destruct (Z.eqb_spec c' c) as [-> | Hne].
  - rewrite get32_put32_eq; [done | done | lia | unfold zlen; lia | done].
  - rewrite get32_put32_ne; [done | lia | unfold zlen; lia |]. pose proof (Z.div_mod c 128). pose proof (Z.div_mod c' 128). lia.
Qed.

Lemma set_entry_holds s L fat data c value : holds s L fat data -> in_range c -> 0 <= value ->
  fwp (fat32_set_entry c value) (fun rc s' => rc = 0 /\ holds s' L (<[c := Z.land value FAT32_ENTRY_MASK]> fat) data) s.
Proof.
  intros H Hc Hv. destruct (h_vol _ _ _ _ H) as [h Ev]. pose proof (h_ok _ _ _ _ H) as Ho.
  apply fwp_vol. rewrite Ev. unfold entries_per_block. cbn [fs_bytes_per_sector set_hint]. rewrite (g_bps _ Hg).
  change (512 / FAT32_ENTRY_BYTES) with 128. cbn [fs_num_fats set_hint]. pose proof (g_copies _ Hg).
  pose proof (Z.mod_pos_bound c 128 ltac:(lia)) as Hm. unfold FAT32_ENTRY_BYTES. rewrite (u32_small (_ * 4)) by lia.
  eapply fwp_mono; [apply (set_copies_sectors _ s L 0 c value); try done; [by exists h | lia] |].
  intros rc s' (-> & sec & (T1 & T2 & T4) & Hin & Hout). split; [done |].
  split; [done | exists h; congruence | |].
  - intros k c' Hk Hc'. unfold fat_at. rewrite T4. destruct (Z.eq_dec (c' / 128) (c / 128)) as [Ed | Ed].
    + assert (fat_sector k c' = fat_sector k c) as -> by (unfold fat_sector; lia). rewrite Hin by done.
      destruct (law_sector (f_env s) L (fat_sector k c) Ho) as [Hlen Hby]. rewrite merge_in_entry by done.
      destruct (Z.eqb_spec c' c) as [-> | Hne]; [by rewrite fn_lookup_insert |]. rewrite fn_lookup_insert_ne by done.
      rewrite <- (h_fat _ _ _ _ H k c') by done. unfold fat_at. by assert (fat_sector k c' = fat_sector k c) as -> by (unfold fat_sector; lia).
    + rewrite Hout by (intros j _ Eq; by destruct (fat_sector_inj k c' j c Hc' Hc Eq)).
      rewrite fn_lookup_insert_ne by (intros ->; done). by apply (h_fat _ _ _ _ H k).
  - intros c' Hc'. rewrite <- (h_data _ _ _ _ H) by done. apply data_at_ext. intros x Hx. pose proof (block_bounds c' Hc').
    rewrite T4. apply Hout. intros j Hj. pose proof (fat_sector_range j c Hj Hc). lia.
Qed.

(** ** Clusters *)

Lemma data_at_pieces e L c : e_ok e L -> Forall (fun l => length l = 512%nat) (e_sector e <$> seqZ (block_of c) (fs_sectors_per_cluster g)).
Proof. intros Ho. apply Forall_fmap, Forall_true. intros b. apply (law_sector e L b Ho). Qed.

Lemma holds_data s L fat data c : holds s L fat data -> in_range c ->
  length (data c) = Z.to_nat (fs_bytes_per_cluster g) /\ bytes (data c).
Proof.
  intros H Hc. rewrite <- (h_data _ _ _ _ H c Hc). pose proof (h_ok _ _ _ _ H) as Ho. pose proof (g_spc _ Hg). split.
  - unfold data_at. rewrite (concat_length 512) by (by apply (data_at_pieces _ L)). rewrite length_fmap, length_seqZ, (g_bpc _ Hg). lia.
  - apply concat_bytes, Forall_fmap, Forall_true. intros b. apply (law_sector _ L b Ho).
Qed.

Lemma read_cluster_holds s L fat data c : holds s L fat data -> in_range c ->
  fwp (read_cluster c) (fun r s' => r = Some (data c) /\ holds s' L fat data) s.
Proof.
  intros H Hc. destruct (h_vol _ _ _ _ H) as [h Ev]. apply fwp_vol. rewrite Ev. rewrite (proj2 (vol_range h c) Hc). simpl negb. cbv iota.
  rewrite cluster_block by done. cbn [fs_sectors_per_cluster set_hint]. pose proof (block_bounds c Hc). pose proof (g_spc _ Hg).
  pose proof (g_data _ Hg). pose proof (g_fat _ Hg). pose proof (g_copies _ Hg). pose proof (g_spf _ Hg).
  eapply fwp_mono; [apply (read_sectors _ L); [apply (h_ok _ _ _ _ H) | nia | lia | lia] |].
  intros r s' [-> Hs]. split; [| by eapply holds_sectors]. f_equal. by apply (h_data _ _ _ _ H).
Qed.

(** A change of the sectors of one cluster. *)
Lemma holds_write s s' L fat data c sec bs : holds s L fat data -> in_range c -> sectors L s s' sec ->
  (forall b, b < block_of c \/ block_of c + fs_sectors_per_cluster g <= b -> sec b = e_sector (f_env s) b) ->
  data_at (f_env s') c = bs -> holds s' L fat (<[c := bs]> data).
Proof.
  intros H Hc (E1 & E2 & E4) Hout Hd. pose proof (block_bounds c Hc). split; try done.
  - rewrite E1. apply (h_vol _ _ _ _ H).
  - intros k c' Hk Hc'. rewrite <- (h_fat _ _ _ _ H k) by done. unfold fat_at. rewrite E4, Hout; [done |]. pose proof (fat_sector_range k c' Hk Hc'). lia.
  - intros c' Hc'. destruct (decide (c' = c)) as [-> | Hne]; [by rewrite fn_lookup_insert |].
    rewrite fn_lookup_insert_ne by done. rewrite <- (h_data _ _ _ _ H) by done. apply data_at_ext. intros b Hb. rewrite E4. apply Hout.
    pose proof (block_apart c c' Hc Hc' ltac:(done)). lia.
Qed.

Lemma write_cluster_holds s L fat data c bs h : holds s L fat data -> in_range c ->
  length bs = Z.to_nat (fs_bytes_per_cluster g) -> bytes bs ->
  fwp (disk_write (cluster_to_block (set_hint g h) c) (fs_sectors_per_cluster g) bs)
    (fun rc s' => rc = 0 /\ holds s' L fat (<[c := bs]> data)) s.
Proof.
  intros H Hc Hl Hb. rewrite cluster_block by done. pose proof (block_bounds c Hc). pose proof (g_spc _ Hg). rewrite (g_bpc _ Hg) in Hl.
  pose proof (g_data _ Hg). pose proof (g_fat _ Hg). pose proof (g_copies _ Hg). pose proof (g_spf _ Hg).
  eapply fwp_mono; [apply (write_sectors _ L); [apply (h_ok _ _ _ _ H) | nia | lia | lia | done | done] |].
  intros rc s' [-> Hs]. split; [done |]. apply (holds_write s s' L fat data c _ bs H Hc Hs).
  - intros b Hb'. simpl. zcases; simpl; done || lia.
  - destruct Hs as (_ & _ & E4). unfold data_at.
    rewrite <- (concat_parts 512 (Z.to_nat (fs_sectors_per_cluster g)) (block_of c) bs) by (rewrite ?Z2Nat.id by lia; lia).
    rewrite Z2Nat.id by lia. f_equal. apply list_fmap_ext. intros i b Hib%list_elem_of_lookup_2%elem_of_seqZ. rewrite E4. zcases; simpl; done || lia.
Qed.

(** One directory entry of a cluster. *)
Lemma write_dirent_holds s L fat data c i entry h : holds s L fat data -> in_range c -> 0 <= i < fs_bytes_per_cluster g / 32 ->
  length entry = 32%nat -> bytes entry ->
  fwp (write_dirent_at (entry_block (set_hint g h) c i) (entry_offset (set_hint g h) i) entry)
    (fun rc s' => rc = 0 /\ holds s' L fat (<[c := patch (data c) (i * 32) entry]> data)) s.
Proof.
  intros H Hc Hi Hl Hb. unfold entry_block, entry_offset. rewrite cluster_block by done. cbn [fs_bytes_per_sector set_hint].
  rewrite (g_bps _ Hg). unfold FAT32_DIRENT_BYTES. pose proof (block_bounds c Hc) as [B1 B2]. pose proof (g_lba _ Hg). pose proof (g_spc _ Hg).
  pose proof (g_data _ Hg). pose proof (g_fat _ Hg). pose proof (g_copies _ Hg). pose proof (g_spf _ Hg). rewrite (g_bpc _ Hg) in Hi.
  set (k := i * 32 / 512) in *. set (o := i * 32 mod 512) in *.
  assert (0 <= k < fs_sectors_per_cluster g /\ 0 <= o <= 480 /\ i * 32 = 512 * k + o) as (Hk & Hob & Hio).
  { unfold k, o. mlia. }
  assert (0 <= block_of c) by nia. rewrite u32_small by lia. set (b := block_of c + k) in *. pose proof (h_ok _ _ _ _ H) as Ho.
  unfold write_dirent_at. eapply fwp_then; [apply (read_sector _ L); [done | lia] |]. intros r s1 (-> & R1 & R2 & R4).
  destruct (law_sector (f_env s) L b Ho) as [Hlen Hby].
  eapply fwp_then; [apply (write_sector s1 L b); [done | lia | rewrite patch_length; [done | lia | unfold zlen; lia] | by apply patch_bytes] |].
  intros rc s2 (-> & W1 & W2 & W4). simpl negb. cbv iota. apply fwp_ret. split; [done |].
  assert (sectors L s s2 (fun x => if x =? b then patch (e_sector (f_env s) b) o entry else e_sector (f_env s) x)) as Hs.
  { split; [congruence |]. split; [done |]. intros x. rewrite W4, R4. done. }
  apply (holds_write s s2 L fat data c _ _ H Hc Hs).
  - intros x Hx. simpl. zcases; [lia | done].
  - rewrite <- (h_data _ _ _ _ H) by done. unfold data_at. destruct Hs as (_ & _ & E4).
    assert ((e_sector (f_env s) <$> seqZ (block_of c) (fs_sectors_per_cluster g)) !! Z.to_nat k = Some (e_sector (f_env s) b)) as Hlk.
    { rewrite list_lookup_fmap, lookup_seqZ_lt by lia. simpl. do 2 f_equal. unfold b. lia. }
    replace (i * 32) with (Z.of_nat (512 * Z.to_nat k) + o) by lia.
    rewrite <- (concat_patch 512 _ (Z.to_nat k) _ o entry (data_at_pieces _ L c Ho) Hlk) by (unfold zlen; lia). f_equal.
    apply list_eq. intros j. destruct (decide (j = Z.to_nat k)) as [-> | Hne].
    + rewrite list_lookup_insert_eq by (rewrite length_fmap, length_seqZ; lia). rewrite list_lookup_fmap, lookup_seqZ_lt by lia. simpl.
      rewrite E4. replace (block_of c + Z.of_nat (Z.to_nat k)) with b by (unfold b; lia). by rewrite Z.eqb_refl.
    + rewrite list_lookup_insert_ne by done. rewrite !list_lookup_fmap.
      destruct (seqZ (block_of c) (fs_sectors_per_cluster g) !! j) as [x|] eqn:Ex; [| done]. simpl. rewrite E4.
      apply lookup_seqZ in Ex as [-> Hj]. zcases; [unfold b in *; lia | done].
Qed.

Lemma fsinfo_holds s L fat data : holds s L fat data -> fwp fat32_fsinfo_invalidate (fun _ s' => holds s' L fat data) s.
Proof.
  intros H. destruct (h_vol _ _ _ _ H) as [h Ev]. unfold fat32_fsinfo_invalidate. apply fwp_vol. rewrite Ev. cbn [fs_fsinfo_block set_hint].
  destruct (_ || _) eqn:Ei; [by apply fwp_ret |]. zbool. pose proof (g_info _ Hg) as [? | [? | Hi]]; [lia.. |].
  pose proof (fat_copies 0 0 ltac:(pose proof (g_copies _ Hg); lia) ltac:(pose proof (g_spf _ Hg); lia)).
  pose proof (h_ok _ _ _ _ H) as Ho. set (b := fs_fsinfo_block g) in *.
  eapply fwp_then; [apply (read_sector _ L); [done | lia] |]. intros r s1 (-> & R1 & R2 & R4).
  destruct (law_sector (f_env s) L b Ho) as [Hlen Hby].
  assert (holds s1 L fat data) as Hs1 by (by apply (holds_sectors s)).
  destruct (_ || _); [by apply fwp_ret |].
  eapply fwp_then; [apply (write_sector s1 L b); [done | lia | |] |].
  - rewrite patch_length; [done | done |]. unfold zlen. rewrite Hlen. done.
  - apply patch_bytes; [done |]. by repeat constructor.
  - intros rc s2 (-> & W1 & W2 & W4). apply fwp_ret. destruct s2 as [v2 e2]; simpl in *. rewrite W1.
    apply (holds_same s1 L); [done | done |]. intros x Hx. rewrite W4. zcases; [lia | done].
Qed.
End Disk.

(** ** Recording refusals *)

(** Any environment, the kernel's own included, with a record of refusals
    beside it. *)
Record logged (E : Type) := mkLogged { lg_env : E; lg_refused : bool }.
Arguments mkLogged {E}. Arguments lg_env {E}. Arguments lg_refused {E}.

Section Logged.
Context {E : Type} {env : FsEnv E}.

#[export] Instance logged_env : FsEnv (logged E) := {|
  e_kmalloc e n := let '(e', p) := e_kmalloc (lg_env e) n in (mkLogged e' (lg_refused e || (p =? 0)), p);
  e_kfree e p := mkLogged (e_kfree (lg_env e) p) (lg_refused e);
  e_disk_read e lba n := let '(e', r) := e_disk_read (lg_env e) lba n in (mkLogged e' (lg_refused e), r);
  e_disk_write e lba n bs := let '(e', r) := e_disk_write (lg_env e) lba n bs in (mkLogged e' (lg_refused e), r)
|}.

#[export, refine] Instance logged_refusals : Refusals (logged E) := {| refused := lg_refused |}.
Proof.
  - intros e n e' p. simpl. destruct (e_kmalloc (lg_env e) n). by intros [= <- <-].
  - done.
  - intros e lba n. simpl. by destruct (e_disk_read (lg_env e) lba n).
  - intros e lba n bs. simpl. by destruct (e_disk_write (lg_env e) lba n bs).
Defined.

Context {laws : EnvLaws E}.

#[export, refine] Instance logged_laws : EnvLaws (logged E) := {| e_ok e L := e_ok (lg_env e) L |}.
Proof.
  - intros e L n e' p He Hn. simpl. destruct (e_kmalloc (lg_env e) n) as [e1 p1] eqn:Ek. intros [= <- <-].
    exact (law_e_kmalloc _ _ _ _ _ He Hn Ek).
  - intros e L p He Hp. by apply law_e_kfree.
Defined.

Context {disk : DiskLaws E}.

#[export, refine] Instance logged_disk : DiskLaws (logged E) := {| disk_blocks := disk_blocks (E := E); e_sector e := e_sector (lg_env e) |}.
Proof.
  - intros e L b He. exact (law_sector (lg_env e) L b He).
  - intros e L n b He Hn. simpl. pose proof (law_kmalloc_sector (lg_env e) L n b He Hn) as H. by destruct (e_kmalloc (lg_env e) n).
  - intros e L p b He Hp. exact (law_kfree_sector (lg_env e) L p b He Hp).
  - intros e L lba n He Hl Hn Hb. destruct (law_read (lg_env e) L lba n He Hl Hn Hb) as (e' & Er & Ho & Hs). simpl. rewrite Er.
    exists (mkLogged e' (lg_refused e)). done.
  - intros e L lba n bs He Hl Hn Hb Hlen Hby. destruct (law_write (lg_env e) L lba n bs He Hl Hn Hb Hlen Hby) as (e' & Er & Ho & Hs). simpl. rewrite Er.
    exists (mkLogged e' (lg_refused e)). done.
Defined.
End Logged.
