(* ===== verification/FatChain.v ===== *)
(** * Cluster chains

    [chain fat start cs]: following the FAT from [start] visits the
    clusters [cs] and ends. Freeing a chain clears its entries;
    [find_free_cluster] is a cyclic first-fit search from the hint;
    allocating links free clusters into a new chain and touches no other
    entry, and gives everything back when the volume is full. *)

From Stdlib Require Import ZArith Lia Bool.
From stdpp Require Import base gmap fin_maps functions list.
From S2P Require Import Prelude Fat FatBytes FatDisk.

(** ** Searching and counting in two parts *)

Lemma scan_app p a b i : scan p (a + b) i = match scan p a i with Some k => Some k | None => scan p b (i + Z.of_nat a) end.
Proof.
  revert i. induction a as [|a IH]; intros i; simpl; [by rewrite Z.add_0_r |].
  destruct (p i); [done |]. rewrite IH. destruct (scan p a (i + 1)); [done |]. f_equal. lia.
Qed.

Lemma zcount_app p a b i : zcount p (a + b) i = zcount p a i + zcount p b (i + Z.of_nat a).
Proof.
  revert i. induction a as [|a IH]; intros i; simpl; [by rewrite Z.add_0_r |].
  rewrite IH. replace (i + 1 + Z.of_nat a) with (i + Z.of_nat (S a)) by lia. lia.
Qed.

Section Chain.
Context {E : Type} {env : FsEnv E} {mk : Marks E} {laws : EnvLaws E} {disk : DiskLaws E}.
Context (g : volume) (Hg : geometry g).
Implicit Types s : fat32 E.
Implicit Types L : gset Z.
Implicit Types fat : Z -> Z.
Notation in_range := (in_range g).
Notation holds := (holds g).

Fixpoint chained fat (cs : list Z) : Prop :=
  match cs with
  | [] => True
  | c :: r => match r with [] => FAT32_CLUSTER_END <= fat c | c' :: _ => fat c = c' /\ chained fat r end
  end.

Record chain fat (start : Z) (cs : list Z) : Prop := {
  c_links : chained fat cs;
  c_range : Forall in_range cs;
  c_nodup : NoDup cs;
  c_start : start = match cs with [] => 0 | c :: _ => c end
}.

Lemma chained_ext fat fat' cs : (forall c, c ∈ cs -> fat' c = fat c) -> chained fat cs -> chained fat' cs.
Proof.
  induction cs as [|c [|c' r] IH]; intros He H; [done | simpl in *; rewrite He by set_solver; done |].
  destruct H as [H1 H2]. split; [rewrite He by set_solver; done |]. apply IH; [| done]. intros x Hx. apply He. set_solver.
Qed.

Lemma chain_ext fat fat' start cs : (forall c, c ∈ cs -> fat' c = fat c) -> chain fat start cs -> chain fat' start cs.
Proof. intros He [H1 H2 H3 H4]. split; try done. by eapply chained_ext. Qed.

Lemma chained_nonzero fat cs c : chained fat cs -> Forall in_range cs -> c ∈ cs -> fat c <> 0.
Proof.
  induction cs as [|x [|y r] IH]; intros H Hr Hc; [by apply not_elem_of_nil in Hc | |].
  - apply list_elem_of_singleton in Hc as ->. simpl in H. unfold FAT32_CLUSTER_END in H. lia.
  - destruct H as [H1 H2]. apply Forall_cons in Hr as [Hx Hr']. apply elem_of_cons in Hc as [-> | Hc]; [| by apply IH].
    apply Forall_cons in Hr' as [Hy _]. unfold FatDisk.in_range in Hy. lia.
Qed.

(** A chain has at most as many clusters as the volume. *)
Lemma range_length cs : NoDup cs -> Forall in_range cs -> Z.of_nat (length cs) <= fs_total_clusters g.
Proof.
  intros Hn Hr. pose proof (g_total _ Hg).
  assert (length cs <= length (seqZ 2 (fs_total_clusters g)))%nat as Hl.
  { apply submseteq_length, NoDup_submseteq; [done |]. intros c Hc. rewrite Forall_forall in Hr. specialize (Hr c Hc).
    apply elem_of_seqZ. unfold FatDisk.in_range in Hr. lia. }
  rewrite length_seqZ in Hl. lia.
Qed.

(** ** Freeing *)

Definition clear fat (cs : list Z) : Z -> Z := fun c => if bool_decide (c ∈ cs) then 0 else fat c.

Lemma clear_in fat cs c : c ∈ cs -> clear fat cs c = 0.
Proof. intros. unfold clear. by rewrite bool_decide_true. Qed.
Lemma clear_out fat cs c : c ∉ cs -> clear fat cs c = fat c.
Proof. intros. unfold clear. by rewrite bool_decide_false. Qed.

Lemma end_not_range x : FAT32_CLUSTER_END <= x -> ~ in_range x.
Proof. intros H Hr. pose proof (in_range_small g Hg x Hr). unfold FAT32_CLUSTER_END in H. lia. Qed.

Lemma out_of_range h c : ~ in_range c -> cluster_in_range (set_hint g h) c = false.
Proof. intros H. destruct (cluster_in_range _ _) eqn:Er; [| done]. by apply (vol_range g Hg) in Er. Qed.

Lemma free_loop_holds data cs : forall n s L fat cluster lowest, holds s L fat data ->
  chained fat cs -> Forall in_range cs -> NoDup cs -> (length cs < n)%nat ->
  match cs with [] => ~ in_range cluster | c :: _ => cluster = c end ->
  fwp (free_loop n cluster lowest) (fun r s' => (exists l, r = Some (false, l)) /\ holds s' L (clear fat cs) data) s.
Proof.
  induction cs as [|c r IH]; intros [|n] s L fat cluster lowest H Hc Hr Hn Hlen Hs; cbn [length free_loop] in *; try lia.
  - destruct (h_vol _ _ _ _ _ H) as [h Ev]. apply fwp_vol. rewrite Ev, out_of_range by done. simpl negb. cbv iota. apply fwp_ret.
    split; [eauto |]. apply (holds_ext g s L fat data); [done | | done]. intros c _. by apply clear_out, not_elem_of_nil.
  - subst cluster. apply Forall_cons in Hr as [Hc1 Hr1]. apply NoDup_cons in Hn as [Hn1 Hn2].
    destruct (h_vol _ _ _ _ _ H) as [h Ev]. apply fwp_vol. rewrite Ev. rewrite (proj2 (vol_range g Hg h c) Hc1). simpl negb. cbv iota.
    eapply fwp_then; [by apply (get_entry_holds g Hg) |]. intros e s1 [-> H1].
    eapply fwp_then; [by apply (set_entry_holds g Hg) |]. intros rc s2 [-> H2]. simpl negb. cbv iota.
    change (Z.land FAT32_CLUSTER_FREE FAT32_ENTRY_MASK) with 0 in H2.
    eapply fwp_mono; [apply (IH n s2 L (<[c := 0]> fat)); try done; try lia |].
    + destruct r as [|c' r]; [done |]. destruct Hc as [_ Hc]. apply (chained_ext fat); [| done].
      intros x Hx. rewrite fn_lookup_insert_ne; [done |]. by intros ->.
    + destruct r as [|c' r]; [by apply end_not_range | by destruct Hc].
    + intros res s' [Hres H']. split; [done |]. apply (holds_ext g s' L _ data _ data H'); [| done]. intros x _.
      destruct (decide (x = c)) as [-> | Hxc].
      * rewrite clear_in by set_solver. by rewrite clear_out, fn_lookup_insert.
      * destruct (decide (x ∈ r)); [rewrite !clear_in by set_solver; done |].
        rewrite !clear_out, fn_lookup_insert_ne by set_solver. done.
Qed.

Lemma free_chain_holds s L fat data start cs : holds s L fat data -> chain fat start cs ->
  fwp (free_chain start) (fun rc s' => rc = 0 /\ holds s' L (clear fat cs) data) s.
Proof.
  intros H [C1 C2 C3 C4]. destruct (h_vol _ _ _ _ _ H) as [h Ev]. unfold free_chain. apply fwp_vol. rewrite Ev. cbn [fs_total_clusters set_hint].
  pose proof (range_length cs C3 C2) as Hl.
  eapply fwp_then; [apply (free_loop_holds data cs _ s L fat); try done; [lia |] |].
  - destruct cs; [subst start; unfold FatDisk.in_range; lia | done].
  - intros r s' [[l ->] H']. destruct l as [l|]; [| by apply fwp_ret].
    apply fwp_bind, fwp_upd, fwp_ret. split; [done |]. apply (holds_hint g _ _ _ _ (fun v => set_hint v l) H').
    destruct (h_vol _ _ _ _ _ H') as [h' ->]. by exists l.
Qed.

(** ** The scans of the FAT, block by block *)

Definition is_free fat (c : Z) : bool := fat c =? 0.

(** The entry of [c] in the buffer that holds its block. *)
Definition in_buf (buf : list Z) (c : Z) : Z := Z.land (get32 buf (c mod 128 * FAT32_ENTRY_BYTES)) FAT32_ENTRY_MASK.

(** Where the block of [c], or the range, ends. *)
Definition block_stop (c hi : Z) : Z := Z.min hi (128 * (c / 128 + 1)).

Lemma block_stop_gt c hi : c < hi -> c < block_stop c hi <= hi.
Proof. intros H. unfold block_stop. pose proof (Z.div_mod c 128 ltac:(lia)). pose proof (Z.mod_pos_bound c 128 ltac:(lia)). lia. Qed.

Lemma block_step c : c mod 128 + 1 < 128 -> (c + 1) mod 128 = c mod 128 + 1 /\ (c + 1) / 128 = c / 128.
Proof. intros H. mlia. Qed.

Lemma free_in_block_eq hi buf : forall n c, 0 <= c < hi -> hi < 2 ^ 32 -> (Z.to_nat (128 - c mod 128) <= n)%nat ->
  free_in_block n buf 128 (c mod 128) c hi =
  match scan (fun c => in_buf buf c =? 0) (Z.to_nat (block_stop c hi - c)) c with
  | Some k => inl k
  | None => inr (block_stop c hi)
  end.
Proof.
  induction n as [|n IH]; intros c Hc Hhi Hn; pose proof (Z.mod_pos_bound c 128 ltac:(lia)) as Hm; [lia |].
  cbn [free_in_block]. rewrite (proj2 (Z.ltb_lt (c mod 128) 128)), (proj2 (Z.ltb_lt c hi)) by lia. simpl andb. cbv iota.
  pose proof (block_stop_gt c hi ltac:(lia)) as Hs.
  replace (Z.to_nat (block_stop c hi - c)) with (S (Z.to_nat (block_stop c hi - (c + 1)))) by lia. cbn [scan].
  fold (in_buf buf c). change FAT32_CLUSTER_FREE with 0. destruct (in_buf buf c =? 0); [done |]. rewrite u32_small by lia.
  destruct (Z.lt_ge_cases (c mod 128 + 1) 128) as [Hlt | Hge], (Z.lt_ge_cases (c + 1) hi) as [Hlt' | Hge'].
  - destruct (block_step c Hlt) as [Em Hd]. rewrite <- Em, IH by lia. unfold block_stop. by rewrite Hd.
  - assert (block_stop c hi = c + 1) as -> by lia. rewrite Z.sub_diag. simpl.
    destruct n as [|n]; cbn [free_in_block]; [done |]. rewrite (proj2 (Z.ltb_ge (c + 1) hi)) by lia. by rewrite andb_false_r.
  - assert (block_stop c hi = c + 1) as ->.
    { unfold block_stop. pose proof (Z.div_mod c 128 ltac:(lia)). lia. }
    rewrite Z.sub_diag. simpl. destruct n as [|n]; cbn [free_in_block]; [done |]. by rewrite (proj2 (Z.ltb_ge (c mod 128 + 1) 128)) by lia.
  - assert (block_stop c hi = c + 1) as -> by lia. rewrite Z.sub_diag. simpl.
    destruct n as [|n]; cbn [free_in_block]; [done |]. by rewrite (proj2 (Z.ltb_ge (c mod 128 + 1) 128)) by lia.
Qed.

Lemma count_in_block_eq hi buf : forall n c free, 0 <= c < hi -> hi < 2 ^ 32 -> 0 <= free -> free + (hi - c) < 2 ^ 32 ->
  (Z.to_nat (128 - c mod 128) <= n)%nat ->
  count_in_block n buf 128 (c mod 128) c hi free =
  (block_stop c hi, free + zcount (fun c => in_buf buf c =? 0) (Z.to_nat (block_stop c hi - c)) c).
Proof.
  induction n as [|n IH]; intros c free Hc Hhi Hf Hfs Hn; pose proof (Z.mod_pos_bound c 128 ltac:(lia)) as Hm; [lia |].
  cbn [count_in_block]. rewrite (proj2 (Z.ltb_lt (c mod 128) 128)), (proj2 (Z.ltb_lt c hi)) by lia. simpl andb. cbv iota.
  pose proof (block_stop_gt c hi ltac:(lia)) as Hs.
  replace (Z.to_nat (block_stop c hi - c)) with (S (Z.to_nat (block_stop c hi - (c + 1)))) by lia. cbn [zcount].
  fold (in_buf buf c). change FAT32_CLUSTER_FREE with 0. rewrite (u32_small (c + 1)) by lia.
  set (free' := if in_buf buf c =? 0 then u32 (free + 1) else free).
  assert (free' = free + (if in_buf buf c =? 0 then 1 else 0) /\ free <= free' <= free + 1) as [Ef Ef2].
  { unfold free'. destruct (in_buf buf c =? 0); [rewrite u32_small by lia |]; lia. }
  rewrite Z.add_assoc, <- Ef. clearbody free'.
  destruct (Z.lt_ge_cases (c mod 128 + 1) 128) as [Hlt | Hge], (Z.lt_ge_cases (c + 1) hi) as [Hlt' | Hge'].
  - destruct (block_step c Hlt) as [Em Hd]. rewrite <- Em, IH by lia. unfold block_stop. by rewrite Hd.
  - assert (block_stop c hi = c + 1) as -> by lia. rewrite Z.sub_diag. simpl. rewrite Z.add_0_r.
    destruct n as [|n]; cbn [count_in_block]; [done |]. rewrite (proj2 (Z.ltb_ge (c + 1) hi)) by lia. by rewrite andb_false_r.
  - assert (block_stop c hi = c + 1) as ->.
    { unfold block_stop. pose proof (Z.div_mod c 128 ltac:(lia)). lia. }
    rewrite Z.sub_diag. simpl. rewrite Z.add_0_r. destruct n as [|n]; cbn [count_in_block]; [done |].
    by rewrite (proj2 (Z.ltb_ge (c mod 128 + 1) 128)) by lia.
  - assert (block_stop c hi = c + 1) as -> by lia. rewrite Z.sub_diag. simpl. rewrite Z.add_0_r.
    destruct n as [|n]; cbn [count_in_block]; [done |]. by rewrite (proj2 (Z.ltb_ge (c mod 128 + 1) 128)) by lia.
Qed.

(** The block read for [c] holds the entries up to [block_stop]. *)
Lemma block_entries s L fat data c hi : holds s L fat data -> 2 <= c -> c < hi <= fs_total_clusters g + 2 ->
  fwp (disk_read (u32 (fs_first_fat_block g + c / 128)) 1)
    (fun r s' => (exists buf, r = Some buf /\ forall k, c <= k < block_stop c hi -> in_buf buf k = fat k) /\ holds s' L fat data) s.
Proof.
  intros H Hc Hhi. assert (in_range c) as Hr by (unfold FatDisk.in_range; lia). pose proof (fat_block_lo g Hg c Hr). pose proof (g_lba _ Hg).
  rewrite u32_small by lia. eapply fwp_mono; [apply read_sector; [apply (h_ok _ _ _ _ _ H) | lia] |].
  intros r s' [-> Hs]. split; [| by apply (holds_sectors g Hg s)]. eexists. split; [done |]. intros k Hk.
  pose proof (block_stop_gt c hi ltac:(lia)). pose proof (g_copies _ Hg). rewrite <- (h_fat _ _ _ _ _ H 0 k) by (unfold FatDisk.in_range; lia).
  unfold in_buf, fat_at. assert (k / 128 = c / 128) as Ek; [| unfold fat_sector; rewrite Ek; do 3 f_equal; lia].
  unfold block_stop in Hk. pose proof (Z.div_mod c 128 ltac:(lia)). pose proof (Z.mod_pos_bound c 128 ltac:(lia)). mlia.
Qed.

Lemma free_pass_holds data n : forall s L fat c hi, holds s L fat data -> 2 <= c -> hi <= fs_total_clusters g + 2 -> (Z.to_nat (hi - c) <= n)%nat ->
  fwp (free_pass n c hi) (fun r s' => holds s' L fat data /\
    r = match scan (is_free fat) (Z.to_nat (hi - c)) c with Some k => PassFound k | None => PassDone end) s.
Proof.
  pose proof (g_marks _ Hg) as Hmarks. unfold FAT32_CLUSTER_BAD in Hmarks.
  induction n as [|n IH]; intros s L fat c hi H Hc Hhi Hn; cbn [free_pass].
  { apply fwp_ret. split; [done |]. replace (Z.to_nat (hi - c)) with 0%nat by lia. done. }
  destruct (Z.ltb_spec c hi) as [Hlt | Hge]; [| apply fwp_ret; split; [done |]; by replace (Z.to_nat (hi - c)) with 0%nat by lia].
  destruct (h_vol _ _ _ _ _ H) as [h Ev]. apply fwp_vol. rewrite Ev. unfold entries_per_block. cbn [fs_bytes_per_sector fs_first_fat_block set_hint].
  rewrite (g_bps _ Hg). change (512 / FAT32_ENTRY_BYTES) with 128.
  eapply fwp_then; [by apply (block_entries s L fat data c hi) |]. intros r s' [(buf & -> & Hbuf) H'].
  pose proof (Z.mod_pos_bound c 128 ltac:(lia)). rewrite free_in_block_eq by lia. pose proof (block_stop_gt c hi Hlt) as Hs.
  rewrite (scan_ext _ (is_free fat)) by (intros k Hk; unfold is_free; by rewrite Hbuf by lia).
  replace (Z.to_nat (hi - c)) with (Z.to_nat (block_stop c hi - c) + Z.to_nat (hi - block_stop c hi))%nat by lia. rewrite scan_app.
  destruct (scan (is_free fat) (Z.to_nat (block_stop c hi - c)) c) as [k|]; [by apply fwp_ret |].
  replace (c + Z.of_nat (Z.to_nat (block_stop c hi - c))) with (block_stop c hi) by lia. apply IH; try done; lia.
Qed.

Lemma count_loop_holds data n : forall s L fat c hi free, holds s L fat data -> 2 <= c -> hi <= fs_total_clusters g + 2 ->
  0 <= free -> free + (hi - c) < 2 ^ 32 -> (Z.to_nat (hi - c) <= n)%nat ->
  fwp (count_loop n c hi free) (fun r s' => holds s' L fat data /\ r = free + zcount (is_free fat) (Z.to_nat (hi - c)) c) s.
Proof.
  pose proof (g_marks _ Hg) as Hmarks. unfold FAT32_CLUSTER_BAD in Hmarks.
  induction n as [|n IH]; intros s L fat c hi free H Hc Hhi Hf Hfs Hn; cbn [count_loop].
  { apply fwp_ret. split; [done |]. replace (Z.to_nat (hi - c)) with 0%nat by lia. simpl. lia. }
  destruct (Z.ltb_spec c hi) as [Hlt | Hge].
  2: { apply fwp_ret. split; [done |]. replace (Z.to_nat (hi - c)) with 0%nat by lia. simpl. lia. }
  destruct (h_vol _ _ _ _ _ H) as [h Ev]. apply fwp_vol. rewrite Ev. unfold entries_per_block. cbn [fs_bytes_per_sector fs_first_fat_block set_hint].
  rewrite (g_bps _ Hg). change (512 / FAT32_ENTRY_BYTES) with 128.
  eapply fwp_then; [by apply (block_entries s L fat data c hi) |]. intros r s' [(buf & -> & Hbuf) H'].
  pose proof (Z.mod_pos_bound c 128 ltac:(lia)). rewrite count_in_block_eq by lia. pose proof (block_stop_gt c hi Hlt) as Hs.
  rewrite (zcount_ext _ (is_free fat)) by (intros k Hk; unfold is_free; by rewrite Hbuf by lia).
  replace (Z.to_nat (hi - c)) with (Z.to_nat (block_stop c hi - c) + Z.to_nat (hi - block_stop c hi))%nat by lia. rewrite zcount_app.
  pose proof (zcount_range (is_free fat) (Z.to_nat (block_stop c hi - c)) c).
  replace (c + Z.of_nat (Z.to_nat (block_stop c hi - c))) with (block_stop c hi) by lia.
  eapply fwp_mono; [apply (IH s' L fat); try done; lia |]. intros r s'' [H'' ->]. split; [done |]. lia.
Qed.

(** ** Finding and counting free clusters *)

(** The reference: a first-fit search of the clusters one by one, from
    [start] to the end and then from the first cluster to [start]. *)
Definition search_start (hint : Z) : Z := if (hint <? 2) || (fs_total_clusters g + 2 <=? hint) then 2 else hint.
Definition free_from fat (start : Z) : option Z :=
  match scan (is_free fat) (Z.to_nat (fs_total_clusters g + 2 - start)) start with
  | Some c => Some c
  | None => scan (is_free fat) (Z.to_nat (start - 2)) 2
  end.

Lemma search_start_range hint : 2 <= search_start hint < fs_total_clusters g + 2.
Proof. pose proof (g_total _ Hg). unfold search_start. zcases; simpl; lia. Qed.

Lemma free_from_Some fat hint c : free_from fat (search_start hint) = Some c -> in_range c /\ fat c = 0.
Proof.
  pose proof (search_start_range hint). unfold free_from, FatDisk.in_range, is_free.
  destruct (scan _ _ (search_start hint)) as [k|] eqn:E1; intros Es.
  - injection Es as <-. apply scan_Some in E1 as (H1 & H2 & _). zbool. lia.
  - apply scan_Some in Es as (H1 & H2 & _). zbool. lia.
Qed.

Lemma free_from_None fat hint : free_from fat (search_start hint) = None -> forall c, in_range c -> fat c <> 0.
Proof.
  pose proof (search_start_range hint). unfold free_from, FatDisk.in_range.
  destruct (scan _ _ (search_start hint)) as [k|] eqn:E1; intros Es; [done |]. intros c Hc Hf.
  assert (is_free fat c = true) as Hfree by (unfold is_free; by rewrite Hf).
  destruct (Z.lt_ge_cases c (search_start hint)).
  - rewrite (scan_None _ _ _ Es c) in Hfree by lia. done.
  - rewrite (scan_None _ _ _ E1 c) in Hfree by lia. done.
Qed.

Lemma take_cluster_holds s L fat data h v c : holds s L fat data -> v = set_hint g h ->
  fwp (take_cluster v c) (fun r s' => holds s' L fat data /\ r = Some c) s.
Proof.
  intros H ->. unfold take_cluster. apply fwp_bind, fwp_upd, fwp_ret. split; [| done].
  apply (holds_hint g _ _ _ _ (fun v => set_hint v _) H). destruct (h_vol _ _ _ _ _ H) as [h' ->]. by eexists.
Qed.

Lemma find_free_holds s L fat data h : holds s L fat data -> f_vol s = set_hint g h ->
  fwp find_free_cluster (fun r s' => holds s' L fat data /\ r = free_from fat (search_start h)) s.
Proof.
  intros H Ev. unfold find_free_cluster. apply fwp_vol. rewrite Ev. cbn [fs_total_clusters fs_next_free_hint set_hint].
  rewrite (limit_eq g Hg). change FAT32_FIRST_DATA_CLUSTER with 2. fold (search_start h). pose proof (search_start_range h) as Hs.
  eapply fwp_then; [apply (free_pass_holds data _ s L fat); try done; lia |]. intros r s1 [H1 ->]. unfold free_from.
  destruct (scan (is_free fat) (Z.to_nat (fs_total_clusters g + 2 - search_start h)) (search_start h)) as [c|].
  { by apply (take_cluster_holds s1 L fat data h). }
  eapply fwp_then; [apply (free_pass_holds data _ s1 L fat); try done; lia |]. intros r s2 [H2 ->].
  destruct (scan (is_free fat) (Z.to_nat (search_start h - 2)) 2) as [c|]; [| by apply fwp_ret].
  by apply (take_cluster_holds s2 L fat data h).
Qed.

Lemma free_count_holds s L fat data : holds s L fat data ->
  fwp fat32_free_count (fun r s' => holds s' L fat data /\ r = zcount (is_free fat) (Z.to_nat (fs_total_clusters g)) 2) s.
Proof.
  intros H. destruct (h_vol _ _ _ _ _ H) as [h Ev]. unfold fat32_free_count. apply fwp_vol. rewrite Ev. cbn [fs_ready fs_total_clusters set_hint].
  rewrite (g_ready _ Hg), (limit_eq g Hg). simpl negb. cbv iota. change FAT32_FIRST_DATA_CLUSTER with 2.
  pose proof (g_marks _ Hg) as Hm. unfold FAT32_CLUSTER_BAD in Hm. pose proof (g_total _ Hg).
  eapply fwp_mono; [apply (count_loop_holds data _ s L fat); try done; lia |]. intros r s' [H' ->]. split; [done |].
  by replace (fs_total_clusters g + 2 - 2) with (fs_total_clusters g) by lia.
Qed.

(** ** Allocating *)

Lemma chained_snoc fat cs prev c : chained fat (cs ++ [prev]) -> NoDup (cs ++ [prev; c]) ->
  chained (<[prev := c]> (<[c := FAT32_CLUSTER_END]> fat)) (cs ++ [prev; c]).
Proof.
  induction cs as [|x cs IH]; intros H Hn; cbn [app] in *.
  - apply NoDup_cons in Hn as [Hn _]. cbn [chained]. rewrite fn_lookup_insert. split; [done |].
    rewrite fn_lookup_insert_ne by set_solver. by rewrite fn_lookup_insert.
  - apply NoDup_cons in Hn as [Hx Hn]. destruct cs as [|y cs]; cbn [app chained] in *.
    + destruct H as [H1 H2]. split; [| by apply IH]. rewrite !fn_lookup_insert_ne by set_solver. done.
    + destruct H as [H1 H2]. split; [| by apply IH]. rewrite !fn_lookup_insert_ne by set_solver. done.
Qed.

(** [cs] is a new chain of clusters that were free in [fat]. *)
Record fresh_chain fat fat' (cs : list Z) : Prop := {
  fc_links : chained fat' cs;
  fc_range : Forall in_range cs;
  fc_nodup : NoDup cs;
  fc_free : forall c, c ∈ cs -> fat c = 0;
  fc_rest : forall c, c ∉ cs -> fat' c = fat c
}.

Lemma fresh_chain_nil fat : fresh_chain fat fat [].
Proof. split; try done; [constructor |]. by intros c ?%not_elem_of_nil. Qed.

Lemma fresh_chain_chain fat fat' c cs : fresh_chain fat fat' (c :: cs) -> chain fat' c (c :: cs).
Proof. intros [H1 H2 H3 H4 H5]. by split. Qed.

Lemma fresh_chain_clear fat fat' cs c : fresh_chain fat fat' cs -> clear fat' cs c = fat c.
Proof.
  intros [_ _ _ H4 H5]. destruct (decide (c ∈ cs)) as [Hin | Hout]; [by rewrite clear_in, H4 | by rewrite clear_out, H5].
Qed.

Lemma fresh_chain_new fat fat' cs c : fresh_chain fat fat' cs -> in_range c -> fat' c = 0 -> c ∉ cs /\ fat c = 0.
Proof.
  intros [H1 H2 H3 H4 H5] Hc Hf. assert (c ∉ cs) as Hn by (intros Hin; by apply (chained_nonzero fat' cs c)).
  split; [done |]. by rewrite <- H5.
Qed.

Lemma fresh_chain_one fat c : in_range c -> fat c = 0 -> fresh_chain fat (<[c := FAT32_CLUSTER_END]> fat) [c].
Proof.
  intros Hc Hf. split.
  - cbn [chained]. rewrite fn_lookup_insert. lia.
  - by constructor.
  - apply NoDup_singleton.
  - by intros x ->%list_elem_of_singleton.
  - intros x Hx. rewrite fn_lookup_insert_ne by set_solver. done.
Qed.

Lemma fresh_chain_snoc fat fat' cs prev c : fresh_chain fat fat' (cs ++ [prev]) -> in_range c -> fat' c = 0 ->
  fresh_chain fat (<[prev := c]> (<[c := FAT32_CLUSTER_END]> fat')) (cs ++ [prev; c]).
Proof.
  intros Hfc Hc Hf. destruct (fresh_chain_new _ _ _ _ Hfc Hc Hf) as [Hn Hf0]. destruct Hfc as [H1 H2 H3 H4 H5].
  replace (cs ++ [prev; c]) with ((cs ++ [prev]) ++ [c]) by (by rewrite <- app_assoc).
  assert (NoDup ((cs ++ [prev]) ++ [c])) as Hnd.
  { apply NoDup_app. split; [done |]. split; [| apply NoDup_singleton]. intros x Hx ->%list_elem_of_singleton. done. }
  split; [| by apply Forall_app; split; [| by constructor] | done | |].
  - rewrite <- app_assoc in Hnd |- *. by apply chained_snoc.
  - intros x [Hx | ->%list_elem_of_singleton]%elem_of_app; auto.
  - intros x Hx. rewrite !fn_lookup_insert_ne by set_solver. apply H5. set_solver.
Qed.

Lemma land_cluster c : in_range c -> Z.land c FAT32_ENTRY_MASK = c.
Proof.
  intros Hc. pose proof (in_range_small g Hg c Hc). change FAT32_ENTRY_MASK with (Z.ones 28). rewrite Z.land_ones by lia.
  apply Z.mod_small. lia.
Qed.

(** ** The number of free clusters *)

Definition free_clusters fat : Z := zcount (is_free fat) (Z.to_nat (fs_total_clusters g)) 2.

Lemma free_clusters_ext fat fat' : (forall c, in_range c -> fat' c = fat c) -> free_clusters fat' = free_clusters fat.
Proof.
  intros H. pose proof (g_total _ Hg). apply zcount_ext. intros c Hc. unfold is_free. rewrite H; [done |]. unfold FatDisk.in_range. lia.
Qed.

(** Relinking a cluster in use. *)
Lemma free_clusters_link fat c x : fat c <> 0 -> x <> 0 -> free_clusters (<[c := x]> fat) = free_clusters fat.
Proof.
  intros Hc Hx. apply zcount_ext. intros y _. unfold is_free. destruct (decide (y = c)) as [-> | Hne].
  - rewrite fn_lookup_insert. zcases; lia || done.
  - by rewrite fn_lookup_insert_ne.
Qed.

Lemma free_clusters_clear fat cs : Forall in_range cs -> NoDup cs -> (forall c, c ∈ cs -> fat c <> 0) ->
  free_clusters (clear fat cs) = free_clusters fat + Z.of_nat (length cs).
Proof.
  induction cs as [|c cs IH]; intros Hr Hn Hz.
  { simpl. rewrite Z.add_0_r. apply free_clusters_ext. intros c _. by apply clear_out, not_elem_of_nil. }
  apply Forall_cons in Hr as [Hc Hr]. apply NoDup_cons in Hn as [Hn1 Hn]. cbn [length]. rewrite Nat2Z.inj_succ.
  rewrite <- Z.add_1_r, Z.add_assoc. rewrite <- IH by (done || (intros; apply Hz; set_solver)).
  unfold free_clusters. apply (zcount_flip _ _ _ _ c).
  - unfold FatDisk.in_range in Hc. lia.
  - unfold is_free. rewrite clear_out by done. apply Z.eqb_neq, Hz. set_solver.
  - unfold is_free. by rewrite clear_in by set_solver.
  - intros x Hx. unfold is_free, clear. destruct (decide (x ∈ cs)); [rewrite !bool_decide_true by set_solver | rewrite !bool_decide_false by set_solver]; done.
Qed.

Lemma free_clusters_fresh fat fat' cs : fresh_chain fat fat' cs -> free_clusters fat' = free_clusters fat - Z.of_nat (length cs).
Proof.
  intros Hf. rewrite <- (free_clusters_ext fat (clear fat' cs)) by (intros c _; by apply fresh_chain_clear).
  rewrite free_clusters_clear; [lia | apply Hf | apply Hf |]. intros c Hc. apply (chained_nonzero fat' cs); [apply Hf.. | done].
Qed.

(** Nothing is free: the new chain took every cluster that was. *)
Lemma free_clusters_none fat fat' cs : fresh_chain fat fat' cs -> (forall c, in_range c -> fat' c <> 0) ->
  free_clusters fat = Z.of_nat (length cs).
Proof.
  intros Hf Hn. pose proof (free_clusters_fresh _ _ _ Hf) as Hc. assert (free_clusters fat' = 0) as H0; [| lia].
  unfold free_clusters. rewrite (zcount_ext _ (fun _ => false)).
  - generalize (Z.to_nat (fs_total_clusters g)) 2. clear. intros n. induction n as [|n IH]; intros i; simpl; [done |]. apply IH.
  - intros c Hr. apply Z.eqb_neq, Hn. unfold FatDisk.in_range. lia.
Qed.
(** The state of [alloc_chain] after some turns. *)
Definition built (cs : list Z) (first prev : Z) : Prop :=
  match cs with [] => first = 0 /\ prev = 0 | c :: _ => first = c /\ exists r, cs = r ++ [prev] end.

Lemma alloc_loop_holds data n : forall s L fat fat' cs first prev, holds s L fat' data -> fresh_chain fat fat' cs -> built cs first prev ->
  fwp (alloc_loop n first prev) (fun r s' =>
    match r with
    | None => holds s' L fat data /\ free_clusters fat < Z.of_nat (length cs + n)
    | Some c => exists fat2 cs2, holds s' L fat2 data /\ fresh_chain fat fat2 cs2 /\ length cs2 = (length cs + n)%nat /\
                  c = match cs2 with [] => 0 | x :: _ => x end
    end) s.
Proof.
  induction n as [|n IH]; intros s L fat fat' cs first prev H Hfc Hb; cbn [alloc_loop].
  { apply fwp_ret. exists fat', cs. do 2 (split; [done |]). split; [lia |]. destruct cs; by destruct Hb. }
  destruct (h_vol _ _ _ _ _ H) as [h Ev].
  eapply fwp_then; [by apply (find_free_holds s L fat' data h) |]. intros r s1 [H1 ->].
  destruct (free_from fat' (search_start h)) as [c|] eqn:Ef.
  - apply free_from_Some in Ef as [Hc Hf].
    eapply fwp_then; [by apply (set_entry_holds g Hg) |]. intros rc s2 [-> H2]. simpl negb. cbv iota.
    change (Z.land FAT32_CLUSTER_END FAT32_ENTRY_MASK) with FAT32_CLUSTER_END in H2.
    destruct cs as [|x cs].
    + destruct Hb as [-> ->]. simpl. assert (fat c = 0) as Hf0 by (destruct (fresh_chain_new _ _ _ _ Hfc Hc Hf); done).
      eapply fwp_mono; [apply (IH s2 L fat (<[c := FAT32_CLUSTER_END]> fat) [c] c c) |].
      * apply (holds_ext g s2 L _ data _ data H2); [| done]. intros y _. destruct (decide (y = c)) as [-> |]; [by rewrite !fn_lookup_insert |].
        rewrite !fn_lookup_insert_ne by done. symmetry. apply (fc_rest _ _ _ Hfc). set_solver.
      * by apply fresh_chain_one.
      * split; [done |]. by exists [].
      * intros a s' Ha. destruct a as [a|]; exact Ha.
    + destruct Hb as [-> [r Er]]. assert (prev ∈ x :: cs) as Hprev by (rewrite Er; set_solver).
      assert (in_range prev) as Hpr by (by apply (Forall_forall in_range (x :: cs)); [apply Hfc |]).
      destruct (Z.eqb_spec prev 0) as [-> | _]; [unfold FatDisk.in_range in Hpr; lia |]. simpl negb. cbv iota.
      eapply fwp_then; [apply (set_entry_holds g Hg s2 L _ data prev c H2 Hpr); unfold FatDisk.in_range in Hc; lia |].
      intros rc s3 [-> H3]. simpl negb. cbv iota. rewrite land_cluster in H3 by done.
      rewrite Er in Hfc. eapply fwp_mono; [apply (IH s3 L fat _ (r ++ [prev; c]) x c H3) |].
      * by apply fresh_chain_snoc.
      * destruct r as [|y r]; simpl in *; [injection Er as -> _ | injection Er as -> _].
        -- split; [done |]. by exists [prev].
        -- split; [done |]. exists (y :: r ++ [prev]). simpl. by rewrite <- app_assoc.
      * intros a s' Ha. assert (length (r ++ [prev; c]) = S (length (x :: cs))) as El by (rewrite Er, !length_app; simpl; lia).
        destruct a as [a|]; [| destruct Ha; split; [done | lia]]. destruct Ha as (fat2 & cs2 & A1 & A2 & A3 & A4).
        exists fat2, cs2. do 2 (split; [done |]). split; [lia | done].
  - pose proof (free_clusters_none fat fat' cs Hfc (free_from_None _ _ Ef)) as Hcount. destruct cs as [|x cs].
    + destruct Hb as [-> ->]. simpl. apply fwp_bind, fwp_ret, fwp_ret. split; [| simpl in Hcount; lia]. apply (holds_ext g s1 L fat' data); [done | | done].
      intros c _. symmetry. apply (fc_rest _ _ _ Hfc). set_solver.
    + destruct Hb as [-> _]. destruct (Z.eqb_spec x 0) as [-> | _].
      { pose proof (fc_range _ _ _ Hfc) as Hr. apply Forall_cons in Hr as [Hr _]. unfold FatDisk.in_range in Hr. lia. }
      simpl negb. cbv iota. eapply fwp_then; [apply (free_chain_holds s1 L fat' data x (x :: cs) H1); by eapply fresh_chain_chain |].
      intros rc s2 [-> H2]. apply fwp_ret. split; [| lia]. apply (holds_ext g s2 L _ data _ data H2); [| done]. intros c _. symmetry. by apply fresh_chain_clear.
Qed.

(** The number of clusters for [n] bytes. *)
Definition clusters_for (n : Z) : Z := (n + fs_bytes_per_cluster g - 1) / fs_bytes_per_cluster g.

Lemma alloc_chain_holds s L fat data n : holds s L fat data -> 0 < n -> n + fs_bytes_per_cluster g < 2 ^ 32 ->
  fwp (alloc_chain n) (fun r s' =>
    match r with
    | None => holds s' L fat data /\ free_clusters fat < clusters_for n
    | Some c => exists fat' cs, holds s' L fat' data /\ fresh_chain fat fat' (c :: cs) /\ Z.of_nat (length (c :: cs)) = clusters_for n
    end) s.
Proof.
  intros H Hn Hmax. unfold alloc_chain. destruct (Z.eqb_spec n 0); [lia |]. apply fwp_vol. destruct (h_vol _ _ _ _ _ H) as [h ->].
  cbn [fs_bytes_per_cluster set_hint]. pose proof (g_spc _ Hg). pose proof (g_bpc _ Hg).
  rewrite (u32_small (n + _)), u32_small by lia. fold (clusters_for n).
  assert (1 <= clusters_for n) as Hc by (unfold clusters_for; apply Z.div_le_lower_bound; lia).
  eapply fwp_mono; [apply (alloc_loop_holds data _ s L fat fat [] 0 0 H); [apply fresh_chain_nil | done] |].
  intros [c|] s' Hr; [| destruct Hr; split; [done | simpl in *; lia]]. destruct Hr as (fat2 & cs2 & A1 & A2 & A3 & A4). simpl in A3.
  destruct cs2 as [|x cs2]; [simpl in A3; lia |]. subst x. exists fat2, cs2. do 2 (split; [done |]). lia.
Qed.
End Chain.
