(* ===== verification/FatDir.v ===== *)
(** * The root directory as a list of entries

    [slots data cs] are the 32-byte entries of a directory whose clusters
    are [cs]. The loops of [walk_directory], [locate_root_entry] and
    [find_free_dirent] over clusters and entries are searches of this list
    ([dir_scan], [live]); storing an entry at the position they report
    updates one element of it. *)

From Stdlib Require Import ZArith Lia Bool.
From stdpp Require Import base gmap fin_maps functions list.
From S2P Require Import Prelude Fat FatBytes FatDisk FatChain.

(** ** Searching a list of entries *)

Definition head_byte (e : dirent) : Z := znth 0 e 0.

(** An entry that names a file or directory. *)
Definition active (e : dirent) : bool :=
  negb (head_byte e =? FAT32_DIRENT_FREE) && negb (head_byte e =? FAT32_DIRENT_DELETED) && dirent_is_usable e.

(** Whether the end mark was met, and the index of the entry. *)
Fixpoint dir_scan (wanted : list Z) (l : list dirent) (i : Z) : bool * option Z :=
  match l with
  | [] => (false, None)
  | e :: r =>
      if head_byte e =? FAT32_DIRENT_FREE then (true, None)
      else if active e && bool_decide (d_name e = wanted) then (true, Some i)
      else dir_scan wanted r (i + 1)
  end.

(** The active entries before the end mark. *)
Fixpoint live (l : list dirent) : list dirent :=
  match l with
  | [] => []
  | e :: r => if head_byte e =? FAT32_DIRENT_FREE then [] else if active e then e :: live r else live r
  end.
Definition ended (l : list dirent) : bool := existsb (fun e => head_byte e =? FAT32_DIRENT_FREE) l.

Lemma dir_scan_app w l1 l2 i : dir_scan w (l1 ++ l2) i =
  match dir_scan w l1 i with (false, None) => dir_scan w l2 (i + zlen l1) | r => r end.
Proof.
  revert i. induction l1 as [|e l1 IH]; intros i; simpl; [by rewrite Z.add_0_r |].
  destruct (head_byte e =? _); [done |]. destruct (active e && _); [done |]. rewrite IH.
  replace (i + 1 + zlen l1) with (i + zlen (e :: l1)) by (unfold zlen; simpl; lia). done.
Qed.

Lemma dir_scan_shift w l i j : dir_scan w l (i + j) = ((dir_scan w l i).1, (fun k => k + j) <$> (dir_scan w l i).2).
Proof.
  revert i. induction l as [|e l IH]; intros i; simpl; [done |].
  destruct (head_byte e =? _); [done |]. destruct (active e && _); [done |]. rewrite <- IH. f_equal. lia.
Qed.

Lemma dir_scan_Some w l i b k : dir_scan w l i = (b, Some k) ->
  b = true /\ exists l1 e l2, l = l1 ++ e :: l2 /\ k = i + zlen l1 /\ active e = true /\ d_name e = w /\ Forall (fun x => head_byte x <> 0) l1.
Proof.
  revert i. induction l as [|e l IH]; intros i; simpl; [done |]. destruct (Z.eqb_spec (head_byte e) FAT32_DIRENT_FREE) as [|Hh]; [done |].
  destruct (active e && bool_decide (d_name e = w)) eqn:Em.
  - intros [= <- <-]. zbool. split; [done |]. exists [], e, l. split; [done |]. split; [unfold zlen; simpl; lia |].
    split; [done |]. split; [by eapply bool_decide_eq_true_1 | done].
  - intros (-> & l1 & x & l2 & -> & -> & Ha & Hn & Hf)%IH. split; [done |]. exists (e :: l1), x, l2. split; [done |].
    split; [unfold zlen; simpl; lia |]. do 2 (split; [done |]). by constructor.
Qed.

(** Entries after the end mark are all free. *)
Fixpoint tail_ok (l : list dirent) : Prop :=
  match l with
  | [] => True
  | e :: r => if head_byte e =? FAT32_DIRENT_FREE then Forall (fun x => head_byte x = 0) r else tail_ok r
  end.

Lemma free_inactive e : head_byte e = 0 -> active e = false.
Proof. intros H. unfold active. by rewrite H. Qed.
Lemma deleted_inactive e : head_byte e = FAT32_DIRENT_DELETED -> active e = false.
Proof. intros H. unfold active. rewrite H. done. Qed.
Lemma active_not_deleted e : active e = true -> head_byte e <> FAT32_DIRENT_DELETED.
Proof. intros Ha H. by rewrite deleted_inactive in Ha. Qed.
Lemma active_head e : active e = true -> head_byte e <> 0.
Proof. intros Ha H. by rewrite free_inactive in Ha. Qed.

Lemma filter_none l : Forall (fun x => head_byte x = 0) l -> filter (fun e => active e = true) l = [].
Proof.
  induction 1 as [|e l He _ IH]; [done |]. rewrite filter_cons. rewrite decide_False; [done |]. by rewrite free_inactive.
Qed.

Lemma live_filter l : tail_ok l -> live l = filter (fun e => active e = true) l.
Proof.
  induction l as [|e l IH]; [done |]. simpl. rewrite filter_cons.
  destruct (Z.eqb_spec (head_byte e) FAT32_DIRENT_FREE) as [He|He]; intros H.
  - rewrite decide_False by (by rewrite free_inactive). by rewrite filter_none.
  - destruct (active e); [rewrite decide_True by done | rewrite decide_False by done]; by rewrite IH.
Qed.

Lemma dir_scan_None w l i b : tail_ok l -> dir_scan w l i = (b, None) -> forall e, e ∈ l -> active e = true -> d_name e <> w.
Proof.
  revert i. induction l as [|x l IH]; intros i Ht Hs e He Ha; [by apply not_elem_of_nil in He |]. simpl in Ht, Hs.
  destruct (Z.eqb_spec (head_byte x) FAT32_DIRENT_FREE) as [Hx|Hx].
  - apply elem_of_cons in He as [-> | He]; [by apply active_head in Ha |].
    rewrite Forall_forall in Ht. specialize (Ht e He). by apply active_head in Ha.
  - destruct (active x && bool_decide (d_name x = w)) eqn:Em; [done |].
    apply elem_of_cons in He as [-> | He]; [| by eapply IH]. intros Hn. rewrite Ha in Em. by rewrite bool_decide_true in Em.
Qed.

(** Storing an entry where every entry before is in use. *)
Lemma tail_ok_app l1 l2 : Forall (fun x => head_byte x <> 0) l1 -> tail_ok (l1 ++ l2) <-> tail_ok l2.
Proof.
  induction 1 as [|e l1 He _ IH]; [done |]. simpl. destruct (Z.eqb_spec (head_byte e) FAT32_DIRENT_FREE) as [Hf|]; [by rewrite Hf in He | done].
Qed.
Lemma tail_ok_set l1 e e' l2 : Forall (fun x => head_byte x <> 0) l1 -> head_byte e' <> 0 -> tail_ok (l1 ++ e :: l2) -> tail_ok (l1 ++ e' :: l2).
Proof.
  intros H1 He'. rewrite !tail_ok_app by done. simpl. destruct (Z.eqb_spec (head_byte e') FAT32_DIRENT_FREE) as [Hf|]; [by rewrite Hf in He' |].
  destruct (head_byte e =? FAT32_DIRENT_FREE); [| done]. intros Hz. clear -Hz. induction Hz as [|x l Hx Hl IH]; [done |]. simpl. by rewrite Hx.
Qed.

Section Dir.
Context {E : Type} {env : FsEnv E} {mk : Marks E} {laws : EnvLaws E} {disk : DiskLaws E}.
Context (g : volume) (Hg : geometry g).
Implicit Types s : fat32 E.
Implicit Types L : gset Z.
Implicit Types fat : Z -> Z.
Implicit Types data : Z -> list Z.
Notation in_range := (in_range g).
Notation holds := (holds g).

(** ** Entries in clusters *)

Definition epc : Z := fs_bytes_per_cluster g / 32.
Lemma epc_eq : fs_bytes_per_cluster g = 32 * epc /\ 16 <= epc.
Proof. pose proof (g_bpc _ Hg). pose proof (g_spc _ Hg). unfold epc. mlia. Qed.

Definition slots_of (buf : list Z) : list dirent := entry_at buf <$> seqZ 0 epc.
Definition slots data (cs : list Z) : list dirent := concat ((fun c => slots_of (data c)) <$> cs).

Lemma slots_of_length buf : zlen (slots_of buf) = epc.
Proof. pose proof epc_eq. unfold slots_of, zlen. rewrite length_fmap, length_seqZ. lia. Qed.

Lemma slots_cons data c cs : slots data (c :: cs) = slots_of (data c) ++ slots data cs.
Proof. done. Qed.
Lemma slots_app data cs cs' : slots data (cs ++ cs') = slots data cs ++ slots data cs'.
Proof. unfold slots. by rewrite fmap_app, concat_app. Qed.

Lemma slots_ext data data' cs : (forall c, c ∈ cs -> data' c = data c) -> slots data' cs = slots data cs.
Proof. intros H. unfold slots. f_equal. apply list_fmap_ext. intros i c Hc%list_elem_of_lookup_2. simpl. by rewrite H. Qed.

Lemma lookup_slots_of buf i : 0 <= i < epc -> slots_of buf !! Z.to_nat i = Some (entry_at buf i).
Proof. intros Hi. unfold slots_of. rewrite list_lookup_fmap, lookup_seqZ_lt by lia. simpl. do 2 f_equal. lia. Qed.

(** Patching an entry of a cluster. *)
Lemma slots_of_patch buf i entry : 0 <= i < epc -> length buf = Z.to_nat (fs_bytes_per_cluster g) -> length entry = 32%nat ->
  slots_of (patch buf (i * 32) entry) = <[Z.to_nat i := entry]> (slots_of buf).
Proof.
  intros Hi Hl He. destruct epc_eq as [Eb _]. rewrite Eb in Hl.
  assert (zlen entry = 32) as Hze by (unfold zlen; lia). assert (zlen buf = 32 * epc) as Hzb by (unfold zlen; lia).
  apply list_eq. intros j. destruct (decide (j < Z.to_nat epc)%nat) as [Hj | Hj].
  2: { unfold slots_of. rewrite list_lookup_insert_ne by lia. by rewrite !lookup_ge_None_2 by (rewrite length_fmap, length_seqZ; lia). }
  replace j with (Z.to_nat (Z.of_nat j)) by lia. rewrite lookup_slots_of by lia.
  assert (entry_at (patch buf (i * 32) entry) (Z.of_nat j) = if decide (Z.of_nat j = i) then entry else entry_at buf (Z.of_nat j)) as ->.
  { unfold entry_at. change FAT32_DIRENT_BYTES with 32. apply list_ext_znth.
    - rewrite part_length by (unfold zlen; rewrite ?patch_length by lia; unfold zlen in *; lia).
      destruct (decide _); [lia |]. by rewrite part_length by lia.
    - intros x Hx. unfold zlen in Hx. rewrite part_length in Hx by (unfold zlen; rewrite ?patch_length by lia; unfold zlen in *; lia).
      rewrite znth_part, znth_patch by lia. destruct (decide (Z.of_nat j = i)) as [<- |].
      + zcases; simpl; try lia. f_equal. lia.
      + rewrite znth_part by lia. zcases; simpl; done || lia. }
  destruct (decide (Z.of_nat j = i)) as [<- | Hne].
  - rewrite list_lookup_insert_eq; [done |]. pose proof (slots_of_length buf). unfold zlen in *. lia.
  - rewrite list_lookup_insert_ne by lia. by rewrite lookup_slots_of by lia.
Qed.

(** The position of entry [k] of the directory. *)
Definition slot_pos (cs : list Z) (k b o : Z) (c i : Z) : Prop :=
  exists j, cs !! j = Some c /\ 0 <= i < epc /\ k = Z.of_nat j * epc + i /\ b = entry_block g c i /\ o = entry_offset g i.

Lemma slot_pos_cons c0 cs k b o c i : slot_pos cs k b o c i -> slot_pos (c0 :: cs) (k + epc) b o c i.
Proof. intros (j & Hj & Hi & -> & -> & ->). exists (S j). split; [done |]. split; [done |]. split; [lia | done]. Qed.

(** Storing an entry at the position of entry [k]. *)
Lemma slots_set data cs k b o c i entry : NoDup cs -> Forall in_range cs -> slot_pos cs k b o c i ->
  (forall x, in_range x -> length (data x) = Z.to_nat (fs_bytes_per_cluster g)) -> length entry = 32%nat ->
  slots (<[c := patch (data c) (i * 32) entry]> data) cs = <[Z.to_nat k := entry]> (slots data cs).
Proof.
  intros Hnd Hr (j & Hj & Hi & -> & _ & _) Hl He. revert j Hj. induction cs as [|x cs IH]; intros j Hj; [done |].
  apply NoDup_cons in Hnd as [Hx Hnd]. apply Forall_cons in Hr as [Hx' Hr]. rewrite !slots_cons.
  pose proof (slots_of_length (data x)) as Hsl. unfold zlen in Hsl. destruct epc_eq as [_ He16].
  destruct j as [|j]; simpl in Hj.
  - injection Hj as ->. rewrite fn_lookup_insert, slots_of_patch by auto. rewrite (slots_ext data) by (intros y Hy; rewrite fn_lookup_insert_ne; [done | by intros ->]).
    rewrite insert_app_l by lia. done.
  - assert (c ∈ cs) as Hc by (by eapply list_elem_of_lookup_2). rewrite fn_lookup_insert_ne by (by intros ->). rewrite (IH Hnd Hr j Hj).
    rewrite insert_app_r_alt by lia. do 2 f_equal. lia.
Qed.

(** ** The loops over one cluster *)

Lemma entries_cons buf i n : 0 < n -> entry_at buf <$> seqZ i n = entry_at buf i :: (entry_at buf <$> seqZ (i + 1) (n - 1)).
Proof. intros Hn. rewrite seqZ_cons by done. simpl. do 3 f_equal; lia. Qed.

Lemma locate_entries_eq buf w n : forall i, locate_entries n buf i w = dir_scan w (entry_at buf <$> seqZ i (Z.of_nat n)) i.
Proof.
  induction n as [|n IH]; intros i; [done |]. rewrite entries_cons by lia. cbn [locate_entries dir_scan].
  replace (Z.of_nat (S n) - 1) with (Z.of_nat n) by lia. unfold active, name_equals_83. fold (head_byte (entry_at buf i)).
  destruct (head_byte _ =? FAT32_DIRENT_FREE); [done |].
  destruct (head_byte _ =? FAT32_DIRENT_DELETED), (dirent_is_usable _); simpl; try apply IH.
  destruct (bool_decide _); [done | apply IH].
Qed.

Lemma walk_entries_wanted buf w n : forall i ws, walk_entries n buf i (Some w) ws =
  match dir_scan w (entry_at buf <$> seqZ i (Z.of_nat n)) i with
  | (_, Some k) => mkWalk true 0 (entry_at buf k) (w_sink ws)
  | (true, None) => mkWalk true (w_result ws) (w_found ws) (w_sink ws)
  | (false, None) => ws
  end.
Proof.
  induction n as [|n IH]; intros i ws; [done |]. rewrite entries_cons by lia. cbn [walk_entries dir_scan].
  replace (Z.of_nat (S n) - 1) with (Z.of_nat n) by lia. unfold active, name_equals_83. fold (head_byte (entry_at buf i)).
  destruct (head_byte _ =? FAT32_DIRENT_FREE); [done |].
  destruct (head_byte _ =? FAT32_DIRENT_DELETED), (dirent_is_usable _); simpl; try apply IH.
  destruct (bool_decide _); [done | apply IH].
Qed.

(** An entry that cannot be given to a new file. *)
Definition taken (e : dirent) : Prop := head_byte e <> 0 /\ head_byte e <> FAT32_DIRENT_DELETED.

Lemma taken_head l : Forall taken l -> Forall (fun e => head_byte e <> 0) l.
Proof. intros H. eapply Forall_impl; [exact H |]. by intros e [? _]. Qed.

(** The directory has no place for another entry, and the clusters a new
    entry costs it. *)
Definition full data (rc : list Z) : Prop := Forall taken (slots data rc).
Definition grows data (rc : list Z) (d : Z) : Prop := d = 1 /\ full data rc \/ d = 0 /\ ~ full data rc.

Lemma grows_ex data rc : exists d, grows data rc d /\ 0 <= d <= 1.
Proof.
  assert (full data rc \/ ~ full data rc) as [Hf | Hf].
  { unfold full. destruct (decide (Forall (fun e => head_byte e <> 0 /\ head_byte e <> FAT32_DIRENT_DELETED) (slots data rc))); [by left | by right]. }
  - exists 1. split; [by left | lia].
  - exists 0. split; [by right | lia].
Qed.

Lemma grows_range data rc d : grows data rc d -> 0 <= d <= 1.
Proof. intros [[-> _] | [-> _]]; lia. Qed.

Lemma grows_ext data data' rc d : slots data' rc = slots data rc -> grows data' rc d -> grows data rc d.
Proof. intros E1. unfold grows, full. by rewrite E1. Qed.

(** The names a listing shows. *)
Definition shown (l : list dirent) : list (list Z) := (fun e => name_from_83 (d_name e)) <$> live l.

Lemma walk_entries_list buf n : forall i ws k, w_sink ws = Some k ->
  walk_entries n buf i None ws =
  let l := entry_at buf <$> seqZ i (Z.of_nat n) in
  mkWalk (w_done ws || ended l) (w_result ws) (w_found ws) (Some (foldl fat32_name_sink_add k (shown l))).
Proof.
  induction n as [|n IH]; intros i ws k Hk.
  { simpl. rewrite orb_false_r, <- Hk. by destruct ws. }
  rewrite entries_cons by lia. cbn [walk_entries]. replace (Z.of_nat (S n) - 1) with (Z.of_nat n) by lia.
  unfold shown, ended. cbn [live existsb]. fold (head_byte (entry_at buf i)). unfold active.
  destruct (head_byte _ =? FAT32_DIRENT_FREE); [by rewrite Hk, orb_true_r |].
  destruct (head_byte _ =? FAT32_DIRENT_DELETED), (dirent_is_usable _); simpl; try (by apply IH).
  rewrite (IH (i + 1) _ (fat32_name_sink_add k (name_from_83 (d_name (entry_at buf i))))) by (simpl; by rewrite Hk). done.
Qed.

Lemma free_entry_spec buf :
  match free_entry buf epc with
  | Some i => 0 <= i < epc /\ (head_byte (entry_at buf i) = 0 \/ head_byte (entry_at buf i) = FAT32_DIRENT_DELETED) /\
              Forall (fun e => head_byte e <> 0) (take (Z.to_nat i) (slots_of buf))
  | None => Forall taken (slots_of buf)
  end.
Proof.
  assert (forall i, 0 <= i -> znth 0 buf (i * FAT32_DIRENT_BYTES) = head_byte (entry_at buf i)) as Hh.
  { intros i Hi. unfold head_byte, entry_at. change FAT32_DIRENT_BYTES with 32. rewrite znth_part by lia. by rewrite Z.add_0_r. }
  pose proof epc_eq as [_ He]. unfold free_entry. destruct (scan _ _ 0) as [i|] eqn:Es.
  - apply scan_Some in Es as (H1 & H2 & H3). rewrite Hh in H2 by lia. split; [lia |]. split.
    { apply orb_true_iff in H2 as [H2 | H2]; zbool; [by left | by right]. }
    apply Forall_lookup. intros j e Hj. apply lookup_take_Some in Hj as [Hj Hlt]. unfold slots_of in Hj.
    apply list_lookup_fmap_Some in Hj as (x & -> & Hx). apply lookup_seqZ in Hx as [-> Hx].
    specialize (H3 (0 + Z.of_nat j) ltac:(lia)). simpl in H3. rewrite Hh in H3 by lia. zbool. done.
  - apply Forall_lookup. intros j e Hj. unfold slots_of in Hj.
    apply list_lookup_fmap_Some in Hj as (x & -> & Hx). apply lookup_seqZ in Hx as [-> Hx].
    pose proof (scan_None _ _ _ Es (0 + Z.of_nat j) ltac:(lia)) as H3. simpl in H3. rewrite Hh in H3 by lia. zbool. by split.
Qed.

(** ** The loops over the clusters *)

Lemma step_chain fat c r : chained fat (c :: r) -> Forall in_range r ->
  step_of g (fat c) = match r with [] => CHAIN_END | c' :: _ => CHAIN_NEXT c' end.
Proof.
  intros H Hr. unfold step_of. destruct r as [|c' r]; simpl in H.
  - by rewrite (proj2 (Z.leb_le _ _) H).
  - destruct H as [-> _]. apply Forall_cons in Hr as [Hc' _]. pose proof (in_range_small g Hg c' Hc'). unfold FatDisk.in_range, FAT32_CLUSTER_END in *.
    zcases; simpl; done || lia.
Qed.

Lemma chained_tail fat c r : chained fat (c :: r) -> chained fat r.
Proof. destruct r; [done | by intros [_ ?]]. Qed.

Definition dir_entries_eq h : Z.of_nat (Z.to_nat (dir_entries (set_hint g h))) = epc.
Proof. pose proof epc_eq as [E1 E2]. unfold dir_entries. cbn [fs_bytes_per_cluster set_hint]. change FAT32_DIRENT_BYTES with 32. fold epc. lia. Qed.

Lemma locate_loop_holds data w r : forall n s L fat c, holds s L fat data -> chained fat (c :: r) -> Forall in_range (c :: r) -> (length r < n)%nat ->
  fwp (locate_loop n c w) (fun res s' => holds s' L fat data /\
    match res with
    | Loc_at e b o => exists k c' i, (dir_scan w (slots data (c :: r)) 0).2 = Some k /\ slot_pos (c :: r) k b o c' i /\ e = entry_at (data c') i
    | Loc_none => (dir_scan w (slots data (c :: r)) 0).2 = None
    | Loc_error => False
    end) s.
Proof.
  pose proof epc_eq as [_ He16].
  induction r as [|c' r IH]; intros [|n] s L fat c H Hch Hr Hn; simpl in Hn; try lia; cbn [locate_loop]; apply Forall_cons in Hr as [Hc Hr].
  all: eapply fwp_then; [by apply (read_cluster_holds g Hg) |]; intros b0 s1 [-> H1]; apply fwp_vol; destruct (h_vol _ _ _ _ _ H1) as [h Ev];
    rewrite Ev, locate_entries_eq, dir_entries_eq, slots_cons, dir_scan_app; fold (slots_of (data c)).
  all: destruct (dir_scan w (slots_of (data c)) 0) as [b [k|]] eqn:Es; [| destruct b; [by apply fwp_ret |]].
  1,3: apply dir_scan_Some in Es as (-> & l1 & e & l2 & El & -> & _); apply fwp_ret; split; [done |];
    exists (0 + zlen l1), c, (0 + zlen l1); split; [done |]; split; [| done]; exists 0%nat; split; [done |];
    pose proof (slots_of_length (data c)) as Hsl; rewrite El, zlen_app in Hsl; unfold zlen in *; simpl in Hsl;
    split; [lia |]; split; [lia | done].
  all: eapply fwp_then; [by apply (next_cluster_holds g Hg) |]; intros st s2 [-> H2].
  - rewrite (step_chain fat c []) by done. apply fwp_ret. split; [done |]. done.
  - rewrite (step_chain fat c (c' :: r)) by done. destruct Hch as [Ec Hch]. eapply fwp_mono; [apply (IH n s2 L fat c'); try done; lia |]. intros res s3 [H3 Hres]. split; [done |].
    rewrite slots_of_length, (dir_scan_shift w _ 0 epc). destruct res; [| by rewrite Hres | done]. simpl.
    destruct Hres as (k & c1 & i & -> & Hp & He). exists (k + epc), c1, i. split; [done |]. split; [| done]. by apply slot_pos_cons.
Qed.

Lemma slot_loop_holds data r : forall n s L fat c, holds s L fat data -> chained fat (c :: r) -> Forall in_range (c :: r) -> (length r < n)%nat ->
  fwp (slot_loop n c) (fun res s' => holds s' L fat data /\
    match res with
    | Slot_at b o => exists k c' i e, slot_pos (c :: r) k b o c' i /\ slots data (c :: r) !! Z.to_nat k = Some e /\
        (head_byte e = 0 \/ head_byte e = FAT32_DIRENT_DELETED) /\ Forall (fun e => head_byte e <> 0) (take (Z.to_nat k) (slots data (c :: r)))
    | Slot_grow last_cluster => last (c :: r) = Some last_cluster /\ Forall taken (slots data (c :: r))
    | Slot_error => False
    end) s.
Proof.
  pose proof epc_eq as [_ He16].
  induction r as [|c' r IH]; intros [|n] s L fat c H Hch Hr Hn; simpl in Hn; try lia; cbn [slot_loop]; apply Forall_cons in Hr as [Hc Hr].
  all: eapply fwp_then; [by apply (read_cluster_holds g Hg) |]; intros b0 s1 [-> H1]; apply fwp_vol; destruct (h_vol _ _ _ _ _ H1) as [h Ev];
    rewrite Ev; unfold dir_entries; cbn [fs_bytes_per_cluster set_hint]; change FAT32_DIRENT_BYTES with 32; fold epc.
  all: pose proof (free_entry_spec (data c)) as Hf; pose proof (slots_of_length (data c)) as Hsl; unfold zlen in Hsl;
    destruct (free_entry (data c) epc) as [i|].
  1,3: apply fwp_ret; split; [done |]; destruct Hf as (Hi & Hh & Hf); exists i, c, i, (entry_at (data c) i);
    split; [exists 0%nat; split; [done |]; split; [done |]; split; [lia | done] |];
    rewrite slots_cons, lookup_app_l, lookup_slots_of, take_app_le by lia; done.
  all: eapply fwp_then; [by apply (next_cluster_holds g Hg) |]; intros st s2 [-> H2].
  - rewrite (step_chain fat c []) by done. apply fwp_ret. split; [done |]. split; [done |]. rewrite slots_cons. by apply Forall_app.
  - rewrite (step_chain fat c (c' :: r)) by done. destruct Hch as [Ec Hch]. eapply fwp_mono; [apply (IH n s2 L fat c'); try done; lia |]. intros res s3 [H3 Hres]. split; [done |].
    destruct res as [b o | lc |]; [| | done].
    + destruct Hres as (k & c1 & i & e & Hp & Hk & Hh & Ht). exists (k + epc), c1, i, e.
      assert (0 <= k) as Hk0 by (destruct Hp as (j & _ & Hi & -> & _); lia).
      split; [by apply slot_pos_cons |]. rewrite (slots_cons data c). replace (Z.to_nat (k + epc)) with (length (slots_of (data c)) + Z.to_nat k)%nat by lia.
      rewrite lookup_app_r by lia. rewrite take_app_add. split; [by rewrite Nat.add_comm, Nat.add_sub |]. split; [done |]. apply Forall_app. split; [by apply taken_head | done].
    + destruct Hres as [Hl Hf2]. split; [done |]. rewrite slots_cons. by apply Forall_app.
Qed.

Lemma walk_loop_wanted data w sk r : forall n s L fat c fnd, holds s L fat data -> chained fat (c :: r) -> Forall in_range (c :: r) -> (length r < n)%nat ->
  fwp (walk_loop n c (Some w) (mkWalk false FAT32_DIR_NOT_FOUND fnd sk)) (fun res s' => holds s' L fat data /\
    match (dir_scan w (slots data (c :: r)) 0).2 with
    | Some k => w_result res = 0 /\ slots data (c :: r) !! Z.to_nat k = Some (w_found res)
    | None => w_result res = FAT32_DIR_NOT_FOUND
    end) s.
Proof.
  pose proof epc_eq as [_ He16].
  induction r as [|c' r IH]; intros [|n] s L fat c fnd H Hch Hr Hn; simpl in Hn; try lia; cbn [walk_loop]; apply Forall_cons in Hr as [Hc Hr].
  all: eapply fwp_then; [by apply (read_cluster_holds g Hg) |]; intros b0 s1 [-> H1]; apply fwp_vol; destruct (h_vol _ _ _ _ _ H1) as [h Ev];
    rewrite Ev, walk_entries_wanted, dir_entries_eq, slots_cons, dir_scan_app; fold (slots_of (data c)).
  all: destruct (dir_scan w (slots_of (data c)) 0) as [b [k|]] eqn:Es; [| destruct b; [by apply fwp_ret |]].
  1,3: apply dir_scan_Some in Es as (-> & l1 & e & l2 & El & -> & _); apply fwp_ret; split; [done |]; split; [done |];
    pose proof (slots_of_length (data c)) as Hsl; rewrite El, zlen_app in Hsl; unfold zlen in *; simpl in Hsl;
    rewrite lookup_app_l, lookup_slots_of by (rewrite ?El, ?length_app; simpl; lia); done.
  all: simpl w_done; cbv iota; eapply fwp_then; [by apply (next_cluster_holds g Hg) |]; intros st s2 [-> H2].
  - rewrite (step_chain fat c []) by done. apply fwp_ret. split; [done |]. done.
  - rewrite (step_chain fat c (c' :: r)) by done. destruct Hch as [Ec Hch]. eapply fwp_mono; [apply (IH n s2 L fat c'); try done; lia |]. intros res s3 [H3 Hres]. split; [done |].
    rewrite slots_of_length, (dir_scan_shift w _ 0 epc). cbn [snd].
    destruct (dir_scan w (slots data (c' :: r)) 0) as [b' [k|]] eqn:Ek; cbn [snd fmap option_fmap option_map] in *; [| done].
    destruct Hres as [Hr1 Hr2]. split; [done |]. apply dir_scan_Some in Ek as (_ & l1 & e & l2 & _ & -> & _).
    pose proof (slots_of_length (data c)) as Hsl. unfold zlen in *.
    rewrite lookup_app_r by lia. rewrite <- Hr2. f_equal. lia.
Qed.

Lemma live_app l1 l2 : live (l1 ++ l2) = if ended l1 then live l1 else live l1 ++ live l2.
Proof.
  induction l1 as [|e l1 IH]; [done |]. unfold ended. cbn [app live existsb]. fold (ended l1).
  destruct (head_byte e =? FAT32_DIRENT_FREE); [done |]. rewrite IH. simpl. by destruct (active e), (ended l1).
Qed.

Lemma walk_loop_list data r : forall n s L fat c res fnd k, holds s L fat data -> chained fat (c :: r) -> Forall in_range (c :: r) -> (length r < n)%nat ->
  fwp (walk_loop n c None (mkWalk false res fnd (Some k))) (fun w s' => holds s' L fat data /\
    w_result w = res /\ w_sink w = Some (foldl fat32_name_sink_add k (shown (slots data (c :: r))))) s.
Proof.
  induction r as [|c' r IH]; intros [|n] s L fat c res fnd k H Hch Hr Hn; simpl in Hn; try lia; cbn [walk_loop]; apply Forall_cons in Hr as [Hc Hr].
  all: eapply fwp_then; [by apply (read_cluster_holds g Hg) |]; intros b0 s1 [-> H1]; apply fwp_vol; destruct (h_vol _ _ _ _ _ H1) as [h Ev];
    rewrite Ev, (walk_entries_list _ _ _ (mkWalk false res fnd (Some k)) k eq_refl), dir_entries_eq, slots_cons; fold (slots_of (data c)); cbn [w_done w_result w_found w_sink orb];
    unfold shown; rewrite live_app.
  all: destruct (ended (slots_of (data c))); [by apply fwp_ret |].
  all: eapply fwp_then; [by apply (next_cluster_holds g Hg) |]; intros st s2 [-> H2].
  - rewrite (step_chain fat c []) by done. apply fwp_ret. by rewrite app_nil_r.
  - rewrite (step_chain fat c (c' :: r)) by done. destruct Hch as [Ec Hch]. eapply fwp_mono; [apply (IH n s2 L fat c'); try done; lia |].
    intros w s3 (H3 & E1 & E2). do 2 (split; [done |]). rewrite E2. unfold shown. by rewrite fmap_app, foldl_app.
Qed.
End Dir.
