(* ===== verification/FatFiles.v ===== *)
(** * Files

    [fs_state s L files free]: the volume of [s] is a consistent file
    system. Its root directory is a chain of clusters; the entries in use
    have distinct names and own chains of the length their size needs; the
    chains are disjoint, also from the directory; [files] gives the contents
    of the files by their 8.3 name and [free] is the number of free
    clusters. Every operation of [fs/fat32.c] keeps it, and is an operation
    on [files]. *)

From Stdlib Require Import ZArith Lia Bool.
From stdpp Require Import base gmap fin_maps functions list.
From S2P Require Import Prelude Fat FatBytes FatDisk FatChain FatDir.

Lemma list_elem_of_concat (c : Z) (ls : list (list Z)) : c ∈ concat ls <-> exists cs, c ∈ cs /\ cs ∈ ls.
Proof.
  induction ls as [|l ls IH]; simpl.
  - split; [by intros ?%not_elem_of_nil | by intros (? & _ & ?%not_elem_of_nil)].
  - rewrite elem_of_app, IH. split.
    + intros [H | (cs & H1 & H2)]; eexists; (split; [done |]); set_solver.
    + intros (cs & H1 & [-> | H2]%elem_of_cons); [by left | right; eauto].
Qed.

Notation is_active := (fun e => active e = true).

Section Files.
Context {E : Type} {env : FsEnv E} {mk : Marks E} {laws : EnvLaws E} {disk : DiskLaws E}.
Context (g : volume) (Hg : geometry g).
Implicit Types s : fat32 E.
Implicit Types L : gset Z.
Implicit Types fat : Z -> Z.
Implicit Types data : Z -> list Z.
Implicit Types acts : list (dirent * list Z).
Notation in_range := (in_range g).
Notation holds := (holds g).
Notation chain := (chain g).
Notation slots := (slots g).
Notation clusters_for := (clusters_for g).
Notation bpc := (fs_bytes_per_cluster g).

(** ** The invariant *)

Definition content data (p : dirent * list Z) : list Z := take (Z.to_nat (d_size p.1)) (concat (data <$> p.2)).
Definition named data (p : dirent * list Z) : option (list Z * list Z) :=
  if is_directory p.1 then None else Some (d_name p.1, content data p).
Definition files_of data acts : gmap (list Z) (list Z) := list_to_map (omap (named data) acts).

Definition entry_chain fat (p : dirent * list Z) : Prop :=
  chain fat (dirent_first_cluster p.1) p.2 /\
  (is_directory p.1 = false -> Z.of_nat (length p.2) = clusters_for (d_size p.1)).

Definition owned (rc : list Z) acts (extra : list (list Z)) : list Z := rc ++ concat extra ++ concat acts.*2.

(** [extra] are chains that no entry refers to yet, or any more. *)
Record repr fat data (rc : list Z) acts (extra : list (list Z)) : Prop := {
  r_root : chain fat (fs_root_cluster g) rc;
  r_dir : acts.*1 = filter is_active (slots data rc);
  r_tail : tail_ok (slots data rc);
  r_names : NoDup (d_name <$> acts.*1);
  r_chains : Forall (entry_chain fat) acts;
  r_extra : Forall (fun cs => chained fat cs /\ Forall in_range cs) extra;
  r_apart : NoDup (owned rc acts extra)
}.

Lemma elem_of_chains c acts : c ∈ concat acts.*2 <-> exists p, p ∈ acts /\ c ∈ p.2.
Proof.
  rewrite list_elem_of_concat. split.
  - intros (cs & Hc & Hin). apply list_elem_of_fmap in Hin as (p & -> & Hp). eauto.
  - intros (p & Hp & Hc). exists p.2. split; [done |]. apply list_elem_of_fmap. eauto.
Qed.

Lemma owned_used fat data rc acts extra c : repr fat data rc acts extra -> c ∈ owned rc acts extra -> in_range c /\ fat c <> 0.
Proof.
  intros [H1 _ _ _ H5 H6 _] Hc. rewrite Forall_forall in H5. rewrite Forall_forall in H6.
  assert (forall cs, c ∈ cs -> chained fat cs -> Forall in_range cs -> in_range c /\ fat c <> 0) as Hcs.
  { intros cs Hin Hl Hr. split; [by apply (Forall_forall in_range cs) | by apply (chained_nonzero g fat cs)]. }
  unfold owned in Hc. rewrite !elem_of_app in Hc. destruct Hc as [Hc | [Hc | Hc]].
  - apply (Hcs rc); [done | apply H1..].
  - apply list_elem_of_concat in Hc as (cs & Hc & Hin). destruct (H6 cs Hin). by apply (Hcs cs).
  - apply elem_of_chains in Hc as (p & Hp & Hc). destruct (H5 p Hp) as [Hch _]. apply (Hcs p.2); [done | apply Hch..].
Qed.

Lemma entry_chain_ext fat fat' p : (forall c, c ∈ p.2 -> fat' c = fat c) -> entry_chain fat p -> entry_chain fat' p.
Proof. intros He [H1 H2]. split; [| done]. by apply (chain_ext g Hg fat). Qed.

(** A change of the FAT outside the clusters in use. *)
Lemma repr_fat fat fat' data rc acts extra : repr fat data rc acts extra ->
  (forall c, c ∈ owned rc acts extra -> fat' c = fat c) -> repr fat' data rc acts extra.
Proof.
  intros [H1 H2 H3 H4 H5 H6 H7] He. unfold owned in He. split; try done.
  - apply (chain_ext g Hg fat); [| done]. intros c Hc. apply He. set_solver.
  - rewrite Forall_forall in H5 |- *. intros p Hp. apply (entry_chain_ext fat); [| auto]. intros c Hc. apply He.
    rewrite !elem_of_app. right. right. apply elem_of_chains. eauto.
  - rewrite Forall_forall in H6 |- *. intros cs Hcs. destruct (H6 cs Hcs). split; [| done]. apply (chained_ext g Hg fat); [| done].
    intros c Hc. apply He. rewrite !elem_of_app. right. left. apply list_elem_of_concat. eauto.
Qed.

(** A new chain. *)
Lemma repr_alloc fat fat' data rc acts extra cs : repr fat data rc acts extra -> fresh_chain g fat fat' cs -> repr fat' data rc acts (cs :: extra).
Proof.
  intros H Hf.
  assert (forall c, c ∈ owned rc acts extra -> c ∉ cs) as Hd.
  { intros c Hc Hin. destruct (owned_used _ _ _ _ _ _ H Hc) as [_ Hn]. apply Hn, (fc_free _ _ _ _ Hf c Hin). }
  assert (repr fat' data rc acts extra) as [H1 H2 H3 H4 H5 H6 H7].
  { apply (repr_fat fat); [done |]. intros c Hc. apply (fc_rest _ _ _ _ Hf). auto. }
  split; try done.
  - constructor; [| done]. split; apply Hf.
  - unfold owned. cbn [concat]. rewrite <- app_assoc, Permutation_app_swap_app. apply NoDup_app. split; [apply Hf |].
    split; [| done]. intros c Hc Ho. by apply (Hd c).
Qed.

(** A chain given back. *)
Lemma repr_drop fat data rc acts extra cs : repr fat data rc acts (cs :: extra) -> repr (clear fat cs) data rc acts extra.
Proof.
  intros H. pose proof (r_apart _ _ _ _ _ H) as Hn. unfold owned in Hn. cbn [concat] in Hn.
  rewrite <- app_assoc, Permutation_app_swap_app in Hn. apply NoDup_app in Hn as (_ & Hd & Hn).
  apply (repr_fat fat).
  - destruct H as [H1 H2 H3 H4 H5 H6 H7]. split; try done. by apply Forall_cons in H6 as [_ H6].
  - intros c Hc. apply clear_out. intros Hin. by apply (Hd c).
Qed.

(** Contents written to clusters of extra chains. *)
Lemma content_ext data data' p : (forall c, c ∈ p.2 -> data' c = data c) -> content data' p = content data p.
Proof. intros H. unfold content. do 2 f_equal. apply list_fmap_ext. intros i c Hc%list_elem_of_lookup_2. auto. Qed.

Lemma files_of_ext data data' acts : (forall c, c ∈ concat acts.*2 -> data' c = data c) -> files_of data' acts = files_of data acts.
Proof.
  intros H. unfold files_of. f_equal. induction acts as [|p acts IH]; [done |]. cbn [omap list_omap].
  assert (named data' p = named data p) as ->.
  { unfold named. destruct (is_directory p.1); [done |]. do 2 f_equal. apply content_ext. intros c Hc. apply H. simpl. set_solver. }
  rewrite IH; [done |]. intros c Hc. apply H. simpl. set_solver.
Qed.

Lemma repr_data fat data data' rc acts extra : repr fat data rc acts extra ->
  (forall c, c ∈ rc -> data' c = data c) -> repr fat data' rc acts extra.
Proof. intros [H1 H2 H3 H4 H5 H6 H7] He. split; try done; by rewrite (slots_ext g data). Qed.

(** ** One entry changes *)

Lemma files_middle data a1 p a2 : NoDup (d_name <$> (a1 ++ p :: a2).*1) ->
  files_of data (a1 ++ p :: a2) = match named data p with Some (n, bs) => <[n := bs]> (files_of data (a1 ++ a2)) | None => files_of data (a1 ++ a2) end.
Proof.
  intros Hn. unfold files_of. rewrite !omap_app. cbn [omap list_omap]. destruct (named data p) as [[n bs]|] eqn:Ep; [| done].
  assert (forall acts, (omap (named data) acts).*1 `sublist_of` (d_name <$> acts.*1)) as Hsub.
  { induction acts as [|q acts IH]; [done |]. simpl. unfold named at 1. destruct (is_directory q.1); simpl; by constructor. }
  rewrite <- list_to_map_cons. apply list_to_map_proper; [| by rewrite Permutation_middle].
  assert ((omap (named data) a1 ++ (n, bs) :: omap (named data) a2).*1 `sublist_of` (d_name <$> (a1 ++ p :: a2).*1)) as Hs.
  { rewrite !fmap_app. apply sublist_app; [apply Hsub |]. unfold named in Ep. destruct (is_directory p.1); [done |]. injection Ep as <- _.
    simpl. constructor. apply Hsub. }
  by eapply sublist_NoDup.
Qed.

Lemma files_no_name data acts n : n ∉ (d_name <$> acts.*1) -> files_of data acts !! n = None.
Proof.
  intros Hn. apply not_elem_of_list_to_map_1. intros Hin. apply Hn. clear Hn. induction acts as [|p acts IH]; [by apply not_elem_of_nil in Hin |].
  simpl in *. unfold named in Hin at 1. destruct (is_directory p.1); [set_solver |]. simpl in Hin. set_solver.
Qed.

(** The entry between [l1] and [l2] of the directory is replaced; the chains
    it no longer refers to become extra. *)
Lemma repr_swap fat data data' rc l1 old new l2 a1 o o' a2 extra :
  repr fat data rc (a1 ++ o ++ a2) (o'.*2 ++ extra) ->
  slots data rc = l1 ++ old :: l2 -> slots data' rc = l1 ++ new :: l2 ->
  a1.*1 = filter is_active l1 -> o.*1 = filter is_active [old] -> o'.*1 = filter is_active [new] ->
  tail_ok (l1 ++ new :: l2) -> NoDup (d_name <$> (a1 ++ o' ++ a2).*1) -> Forall (entry_chain fat) o' ->
  repr fat data' rc (a1 ++ o' ++ a2) (o.*2 ++ extra).
Proof.
  intros [H1 H2 H3 H4 H5 H6 H7] Es Es' E1 Eo Eo' Ht Hn Hch. rewrite !Forall_app in H5. destruct H5 as (C1 & Co & C2).
  split; try done.
  - rewrite Es', filter_app. rewrite (filter_app _ [new] l2 : filter is_active (new :: l2) = _).
    rewrite Es, filter_app, (filter_app _ [old] l2 : filter is_active (old :: l2) = _), <- E1, <- Eo, !fmap_app in H2.
    apply app_inv_head, app_inv_head in H2. by rewrite !fmap_app, Eo', H2, E1.
  - by rewrite Es'.
  - by rewrite !Forall_app.
  - apply Forall_app in H6 as [_ H6]. apply Forall_app. split; [| done]. apply Forall_fmap. eapply Forall_impl; [exact Co |].
    intros p [Hp _]. simpl. split; apply Hp.
  - revert H7. unfold owned. rewrite !fmap_app, !concat_app. apply NoDup_Permutation_proper. solve_Permutation.
Qed.

(** ** The loops over the data of a file *)

Lemma bpc_pos : 0 < bpc.
Proof. pose proof (g_bpc _ Hg). pose proof (g_spc _ Hg). lia. Qed.

Lemma clusters_bounds n k : 0 < n -> Z.of_nat (S k) = clusters_for n -> Z.of_nat k * bpc < n <= (Z.of_nat k + 1) * bpc.
Proof.
  intros Hn Hk. pose proof bpc_pos. unfold FatChain.clusters_for in Hk.
  pose proof (Z.div_mod (n + bpc - 1) bpc ltac:(lia)). pose proof (Z.mod_pos_bound (n + bpc - 1) bpc ltac:(lia)). nia.
Qed.

Lemma clusters_zero : clusters_for 0 = 0.
Proof. pose proof bpc_pos. unfold FatChain.clusters_for. apply Z.div_small. lia. Qed.
Lemma clusters_pos n : 0 < n -> 0 < clusters_for n.
Proof. pose proof bpc_pos. intros Hn. unfold FatChain.clusters_for. apply Z.div_str_pos. lia. Qed.

Lemma read_loop_holds data r : forall n s L fat c R out, holds s L fat data -> chained fat (c :: r) -> Forall in_range (c :: r) -> (length r < n)%nat ->
  Z.of_nat (length r) * bpc < R <= (Z.of_nat (length r) + 1) * bpc ->
  fwp (read_loop n c R out) (fun res s' => res = (0, out ++ take (Z.to_nat R) (concat (data <$> (c :: r)))) /\ holds s' L fat data) s.
Proof.
  pose proof bpc_pos as Hbpc.
  induction r as [|c' r IH]; intros [|n] s L fat c R out H Hch Hr Hn HR; simpl in Hn; try lia; cbn [read_loop]; apply Forall_cons in Hr as [Hc Hr].
  all: eapply fwp_then; [by apply (read_cluster_holds g Hg) |]; intros b0 s1 [-> H1]; apply fwp_vol; destruct (h_vol _ _ _ _ _ H1) as [h Ev];
    rewrite Ev; cbn [fs_bytes_per_cluster set_hint]; destruct (holds_data g Hg _ _ _ _ c H1 Hc) as [Hlen _]; cbn [fmap list_fmap concat].
  - cbn [length] in HR. rewrite app_nil_r. replace (if R <? bpc then R else bpc) with R by (zcases; lia). rewrite Z.sub_diag. by apply fwp_ret.
  - cbn [length] in HR. rewrite Nat2Z.inj_succ in HR.
    replace (if R <? bpc then R else bpc) with bpc by (zcases; nia). destruct (Z.eqb_spec (R - bpc) 0); [nia |].
    eapply fwp_then; [by apply (next_cluster_holds g Hg) |]. intros st s2 [-> H2]. rewrite (step_chain g Hg fat c (c' :: r)) by done.
    destruct Hch as [_ Hch]. eapply fwp_mono; [apply (IH n s2 L fat c' (R - bpc)); try done; [lia | nia] |].
    intros res s3 [-> H3]. split; [| done]. f_equal. rewrite <- app_assoc. f_equal. rewrite take_ge by lia.
    rewrite take_app, (take_ge (data c)) by lia. f_equal. cbn [fmap list_fmap concat]. f_equal. lia.
Qed.

Lemma write_loop_holds r : forall n s L fat data c src, holds s L fat data -> chained fat (c :: r) -> Forall in_range (c :: r) -> NoDup (c :: r) ->
  (length r < n)%nat -> Z.of_nat (length r) * bpc < zlen src <= (Z.of_nat (length r) + 1) * bpc -> bytes src ->
  fwp (write_loop n c src) (fun rc s' => rc = 0 /\ exists data', holds s' L fat data' /\
    (forall x, x ∉ c :: r -> data' x = data x) /\ take (length src) (concat (data' <$> (c :: r))) = src) s.
Proof.
  pose proof bpc_pos as Hbpc.
  induction r as [|c' r IH]; intros [|n] s L fat data c src H Hch Hr Hnd Hn HR Hby; simpl in Hn; try lia; cbn [write_loop];
    apply Forall_cons in Hr as [Hc Hr]; apply NoDup_cons in Hnd as [Hnc Hnd].
  all: apply fwp_vol; destruct (h_vol _ _ _ _ _ H) as [h Ev]; rewrite Ev; cbn [fs_bytes_per_cluster fs_sectors_per_cluster set_hint];
    set (buf := take (Z.to_nat bpc) src ++ replicate (Z.to_nat bpc - length (take (Z.to_nat bpc) src)) 0);
    assert (length buf = Z.to_nat bpc) as Hbl by (unfold buf; rewrite length_app, length_replicate, length_take; lia);
    assert (bytes buf) as Hbb by (unfold buf; apply Forall_app; split; [by apply Forall_take | by apply Forall_replicate]);
    (eapply fwp_then; [by apply (write_cluster_holds g Hg) |]); intros rc s1 [-> H1]; simpl negb; cbv iota; unfold zlen in *.
  - cbn [length] in HR. rewrite length_drop. destruct (Z.eqb_spec (Z.of_nat (length src - Z.to_nat bpc)) 0); [| lia].
    apply fwp_ret. split; [done |]. exists (<[c := buf]> data). split; [done |]. split.
    + intros x Hx. rewrite fn_lookup_insert_ne; [done |]. intros ->. apply Hx. set_solver.
    + cbn [fmap list_fmap concat]. rewrite fn_lookup_insert, app_nil_r. unfold buf. rewrite (take_ge src) by lia. by rewrite take_app_length.
  - cbn [length] in HR. rewrite Nat2Z.inj_succ in HR.
    rewrite length_drop. destruct (Z.eqb_spec (Z.of_nat (length src - Z.to_nat bpc)) 0); [nia |].
    eapply fwp_then; [by apply (next_cluster_holds g Hg) |]. intros st s2 [-> H2]. rewrite (step_chain g Hg fat c (c' :: r)) by done.
    destruct Hch as [_ Hch].
    eapply fwp_mono; [apply (IH n s2 L fat (<[c := buf]> data) c' (drop (Z.to_nat bpc) src)); try done; [lia | rewrite length_drop; nia | by apply Forall_drop] |].
    intros rc s3 (-> & data' & H3 & Hout & Htk). split; [done |]. exists data'. split; [done |]. split.
    + intros x Hx. rewrite Hout by set_solver. rewrite fn_lookup_insert_ne; [done |]. intros ->. apply Hx. set_solver.
    + rewrite fmap_cons. cbn [concat]. rewrite (Hout c) by done. rewrite fn_lookup_insert. rewrite length_drop in Htk.
      rewrite take_app, (take_ge buf) by lia. rewrite Hbl, Htk. unfold buf.
      replace (Z.to_nat bpc - length (take (Z.to_nat bpc) src))%nat with 0%nat by (rewrite length_take; lia). simpl. rewrite app_nil_r.
      apply take_drop.
Qed.

(** ** The state of a mounted volume *)

Definition dirs_of acts : gset (list Z) := list_to_set (d_name <$> filter (fun e => is_directory e = true) acts.*1).

Record fs_state s L (files : gmap (list Z) (list Z)) (dirs : gset (list Z)) (free : Z) : Prop := mkFsState {
  fs_view : exists fat data rc acts, holds s L fat data /\ repr fat data rc acts [] /\
    files = files_of data acts /\ dirs = dirs_of acts /\ free = free_clusters g fat
}.

(** The root directory of the volume has no place for another entry. *)
Definition dir_full s : Prop := exists L fat data rc, holds s L fat data /\ chain fat (fs_root_cluster g) rc /\ full g data rc.

(** The clusters the directory grows by when a file is written whose old
    contents are [old]: none for a file that exists, and one for a new file
    exactly when the directory is full. *)
Definition growth s (old : option (list Z)) (d : Z) : Prop :=
  match old with Some _ => d = 0 | None => d = 1 /\ dir_full s \/ d = 0 /\ ~ dir_full s end.

(** The view of a state is determined by it. *)
Lemma holds_unique s L fat data L' fat' data' : holds s L fat data -> holds s L' fat' data' ->
  forall c, in_range c -> fat' c = fat c /\ data' c = data c.
Proof.
  intros [_ _ F1 D1] [_ _ F2 D2] c Hc. pose proof (g_copies _ Hg).
  by rewrite <- (F1 0 c), <- (F2 0 c), <- D1, <- D2 by (done || lia).
Qed.

Lemma chained_unique fat fat' : forall cs cs', chained fat cs -> chained fat' cs' -> Forall in_range cs -> Forall in_range cs' ->
  (forall c, in_range c -> fat' c = fat c) -> hd 0 cs = hd 0 cs' -> cs = cs'.
Proof.
  induction cs as [|c cs IH]; intros cs' H H' Hr Hr' Hf Hh.
  { destruct cs' as [|c' cs']; [done |]. apply Forall_cons in Hr' as [Hc' _]. simpl in Hh. unfold FatDisk.in_range in Hc'. lia. }
  apply Forall_cons in Hr as [Hc Hr]. destruct cs' as [|c' cs']; [simpl in Hh; unfold FatDisk.in_range in Hc; lia |].
  apply Forall_cons in Hr' as [_ Hr']. simpl in Hh. subst c'. f_equal. pose proof (Hf c Hc) as Ec.
  pose proof (in_range_small g Hg) as Hs. unfold FAT32_CLUSTER_END in *.
  destruct cs as [|x cs], cs' as [|y cs']; [done | | |]; cbn [chained] in H, H'.
  - destruct H' as [H' _]. apply Forall_cons in Hr' as [Hy _]. specialize (Hs y Hy). unfold FAT32_CLUSTER_END in H. lia.
  - destruct H as [H _]. apply Forall_cons in Hr as [Hx _]. specialize (Hs x Hx). unfold FAT32_CLUSTER_END in H'. lia.
  - destruct H as [Ex H], H' as [Ey H']. apply IH; try done. simpl. congruence.
Qed.

Lemma dir_full_eq s L fat data rc : holds s L fat data -> chain fat (fs_root_cluster g) rc -> dir_full s <-> full g data rc.
Proof.
  intros H [C1 C2 C3 C4]. split; [| intros Hf; by exists L, fat, data, rc].
  intros (L' & fat' & data' & rc' & H' & [C1' C2' C3' C4'] & Hf). pose proof (holds_unique _ _ _ _ _ _ _ H H') as Hu.
  assert (rc = rc') as ->.
  { apply (chained_unique fat fat'); try done; [intros c Hc; by apply Hu |]. destruct rc, rc'; simpl in *; congruence. }
  unfold full in *. rewrite <- (slots_ext g data data'); [done |]. intros c Hc. apply Hu. by apply (Forall_forall in_range rc').
Qed.

Lemma growth_new s L fat data rc d : holds s L fat data -> chain fat (fs_root_cluster g) rc -> grows g data rc d -> growth s None d.
Proof. intros H Hch Hd. unfold growth. by rewrite (dir_full_eq s L fat data rc H Hch). Qed.

Lemma root_cons fat data rc acts extra : repr fat data rc acts extra -> exists r, rc = fs_root_cluster g :: r /\
  chained fat rc /\ Forall in_range rc /\ NoDup rc /\ (length r < Z.to_nat (fs_total_clusters g + 1))%nat.
Proof.
  intros H. destruct (r_root _ _ _ _ _ H) as [C1 C2 C3 C4]. pose proof (range_length g Hg rc C3 C2) as Hl. pose proof (g_root _ Hg).
  destruct rc as [|c r]; [lia |]. subst c. exists r. do 4 (split; [done |]). simpl in Hl. lia.
Qed.

(** An entry found by name is one of the active ones. *)
Lemma found_entry fat data rc acts extra w k : repr fat data rc acts extra -> (dir_scan w (slots data rc) 0).2 = Some k ->
  exists l1 e l2 a1 cs a2, slots data rc = l1 ++ e :: l2 /\ k = zlen l1 /\ acts = a1 ++ (e, cs) :: a2 /\ a1.*1 = filter is_active l1 /\
    active e = true /\ d_name e = w /\ Forall (fun x => head_byte x <> 0) l1.
Proof.
  intros H Hs. destruct (dir_scan w (slots data rc) 0) as [b o] eqn:Ed. simpl in Hs. subst o.
  apply dir_scan_Some in Ed as (_ & l1 & e & l2 & El & -> & Ha & Hn & Hf).
  pose proof (r_dir _ _ _ _ _ H) as Hd. rewrite El, filter_app, filter_cons, decide_True in Hd by done.
  apply fmap_app_inv in Hd as (a1 & b1 & E1 & E2 & ->). symmetry in E2. apply fmap_cons_inv in E2 as ([e' cs] & a2 & E3 & E4 & ->).
  simpl in E3. subst e'. exists l1, e, l2, a1, cs, a2. split; [done |]. split; [lia |]. done.
Qed.

Lemma names_in_dir fat data rc acts extra n : repr fat data rc acts extra ->
  n ∈ (d_name <$> acts.*1) <-> exists e, e ∈ slots data rc /\ active e = true /\ d_name e = n.
Proof.
  intros H. rewrite (r_dir _ _ _ _ _ H), list_elem_of_fmap. split.
  - intros (e & -> & He). apply list_elem_of_filter in He as [Ha He]. eauto.
  - intros (e & He & Ha & <-). exists e. split; [done |]. by apply list_elem_of_filter.
Qed.

Lemma not_found fat data rc acts extra w : repr fat data rc acts extra -> (dir_scan w (slots data rc) 0).2 = None ->
  w ∉ (d_name <$> acts.*1).
Proof.
  intros H Hs Hin. destruct (dir_scan w (slots data rc) 0) as [b o] eqn:Ed. simpl in Hs. subst o.
  apply (names_in_dir _ _ _ _ _ _ H) in Hin as (e & He & Ha & Hn). by eapply (dir_scan_None w _ 0 b (r_tail _ _ _ _ _ H) Ed e).
Qed.

(** The contents of a file have the size of its entry. *)
Lemma content_length s L fat data p : holds s L fat data -> entry_chain fat p -> is_directory p.1 = false -> 0 <= d_size p.1 ->
  zlen (content data p) = d_size p.1.
Proof.
  intros H [Hch Hk] Hd Hs. specialize (Hk Hd). unfold content, zlen. rewrite length_take.
  assert (length (concat (data <$> p.2)) = (Z.to_nat bpc * length p.2)%nat) as ->.
  { rewrite (concat_length (Z.to_nat bpc)); [by rewrite length_fmap |]. apply Forall_fmap, Forall_forall. intros c Hc. simpl.
    apply (holds_data g Hg s L fat data); [done |]. by apply (Forall_forall in_range p.2); [apply Hch |]. }
  pose proof bpc_pos. destruct (Z.eq_dec (d_size p.1) 0) as [-> | Hne]; [lia |].
  destruct p.2 as [|c r]; [pose proof (clusters_pos (d_size p.1)); simpl in *; lia |].
  simpl in Hk. pose proof (clusters_bounds (d_size p.1) (length r) ltac:(lia) Hk). simpl. nia.
Qed.

Lemma slots_entry s L fat data rc e : holds s L fat data -> Forall in_range rc -> e ∈ slots data rc -> length e = 32%nat /\ bytes e.
Proof.
  intros H Hr He. unfold FatDir.slots in He. induction rc as [|c rc IH]; [by apply not_elem_of_nil in He |].
  apply Forall_cons in Hr as [Hc Hr]. cbn [fmap list_fmap concat] in He. apply elem_of_app in He as [He | He]; [| by apply IH].
  apply list_elem_of_fmap in He as (i & -> & Hi%elem_of_seqZ). destruct (holds_data g Hg s L fat data c H Hc) as [Hl Hb].
  destruct (epc_eq g Hg) as [Eb _]. unfold entry_at. change FAT32_DIRENT_BYTES with 32. split; [| by apply part_bytes].
  rewrite part_length; [done | lia | lia |]. unfold zlen. lia.
Qed.

Lemma acts_entry s L fat data rc acts extra p : holds s L fat data -> repr fat data rc acts extra -> p ∈ acts ->
  length p.1 = 32%nat /\ bytes p.1 /\ 0 <= d_size p.1 < 2 ^ 32.
Proof.
  intros H Hr Hp. destruct (root_cons _ _ _ _ _ Hr) as (r & _ & _ & Hrange & _).
  assert (p.1 ∈ slots data rc) as He.
  { assert (p.1 ∈ acts.*1) as Hin by (apply list_elem_of_fmap; eauto). rewrite (r_dir _ _ _ _ _ Hr) in Hin. by apply list_elem_of_filter in Hin as [_ Hin]. }
  destruct (slots_entry s L fat data rc p.1 H Hrange He). do 2 (split; [done |]). by apply get32_range.
Qed.

Lemma names_middle acts a1 p a2 : acts = a1 ++ p :: a2 -> NoDup (d_name <$> acts.*1) -> d_name p.1 ∉ (d_name <$> (a1 ++ a2).*1).
Proof.
  intros -> Hn. rewrite !fmap_app in *. cbn [fmap list_fmap] in Hn. rewrite <- Permutation_middle in Hn. apply NoDup_cons in Hn as [Hn _]. done.
Qed.

Lemma files_lookup data acts a1 p a2 : acts = a1 ++ p :: a2 -> NoDup (d_name <$> acts.*1) ->
  files_of data acts !! d_name p.1 = if is_directory p.1 then None else Some (content data p).
Proof.
  intros -> Hn. rewrite files_middle by done. pose proof (names_middle _ _ _ _ eq_refl Hn) as Hnot. unfold named.
  destruct (is_directory p.1); [by apply files_no_name | by rewrite lookup_insert_eq].
Qed.

(** ** Looking a file up *)

Lemma lookup_holds s L fat data rc acts name : holds s L fat data -> repr fat data rc acts [] ->
  fwp (lookup_root_file name) (fun r s' => holds s' L fat data /\
    match r with
    | Some e => exists n cs a1 a2, name_to_83 name = Some n /\ acts = a1 ++ (e, cs) :: a2 /\ d_name e = n /\ is_directory e = false
    | None => e_refused (f_env s') \/ name_to_83 name = None \/ exists n, name_to_83 name = Some n /\ files_of data acts !! n = None
    end) s.
Proof.
  intros H Hr. destruct (h_vol _ _ _ _ _ H) as [h Ev]. unfold lookup_root_file. apply fwp_vol. rewrite Ev. cbn [fs_ready fs_root_cluster set_hint].
  rewrite (g_ready _ Hg). simpl negb. cbv iota. destruct (name_to_83 name) as [n|] eqn:En; [| apply fwp_ret; split; [done | by right; left]].
  apply fwp_bind. unfold walk_directory. apply fwp_vol. rewrite Ev. cbn [fs_bytes_per_cluster fs_total_clusters set_hint].
  eapply fwp_then; [by apply (kmalloc_holds g Hg) |]. intros p s1 [[[-> Href] H1] | (Hp & HpL & H1)].
  { apply fwp_ret. simpl. apply fwp_ret. split; [done | by left]. }
  apply Z.eqb_neq in Hp as ->. destruct (root_cons _ _ _ _ _ Hr) as (r & -> & Hch & Hrange & _ & Hlen).
  eapply fwp_then; [by apply (walk_loop_wanted g Hg data n None r) |]. intros w s2 [H2 Hw].
  eapply fwp_then; [by apply (kfree_holds g Hg) |]. intros [] s3 H3. apply fwp_ret.
  destruct (dir_scan n (slots data (fs_root_cluster g :: r)) 0).2 as [k|] eqn:Es.
  - destruct Hw as [-> Hw]. destruct (found_entry _ _ _ _ _ _ _ Hr Es) as (l1 & e & l2 & a1 & cs & a2 & El & -> & -> & _ & _ & Hn & _).
    rewrite El in Hw. unfold zlen in Hw. rewrite Nat2Z.id in Hw. rewrite list_lookup_middle in Hw by done. injection Hw as <-.
    simpl. destruct (is_directory e) eqn:Ed; apply fwp_ret; (split; [done |]).
    + right. right. exists n. split; [done |]. rewrite <- Hn. pose proof (files_lookup data _ a1 (e, cs) a2 eq_refl (r_names _ _ _ _ _ Hr)) as Hf.
      simpl in Hf. by rewrite Ed in Hf.
    + exists n, cs, a1, a2. done.
  - rewrite Hw. apply fwp_ret. split; [done |]. right. right. exists n. split; [done |]. apply files_no_name. by eapply not_found.
Qed.

Lemma read_file_state s L files dirs free name bufsize : fs_state s L files dirs free ->
  fwp (fat32_read_file name bufsize) (fun '(rc, bs, size) s' => fs_state s' L files dirs free /\
    (rc = 0 /\ (exists n, name_to_83 name = Some n /\ files !! n = Some bs) /\ size = zlen bs /\ zlen bs <= bufsize \/
     rc = -1 /\ bs = [] /\ (e_refused (f_env s') \/ forall n bs', name_to_83 name = Some n -> files !! n = Some bs' -> bufsize < zlen bs'))) s.
Proof.
  intros [(fat & data & rc & acts & H & Hr & Ef & Edir & Efree)].
  assert (forall s', holds s' L fat data -> fs_state s' L files dirs free) as Hst by (intros s' H'; split; exists fat, data, rc, acts; done).
  unfold fat32_read_file. eapply fwp_then; [by apply (lookup_holds s L fat data rc acts name) |]. intros r s1 [H1 Hres].
  destruct r as [e|].
  2: { apply fwp_ret. split; [by apply Hst |]. right. do 2 (split; [done |]). destruct Hres as [? | [Hn | (n & Hn & Hf)]]; [by left | right | right].
       - intros n bs' Hn'. congruence.
       - intros n' bs' Hn' Hf'. rewrite Hn in Hn'. injection Hn' as <-. congruence. }
  destruct Hres as (n & cs & a1 & a2 & Hn & Eacts & Hname & Hdir).
  assert (e ∈ acts.*1 /\ (e, cs) ∈ acts) as [_ Hin] by (rewrite Eacts, fmap_app; set_solver).
  destruct (acts_entry _ _ _ _ _ _ _ _ H Hr Hin) as (_ & _ & Hsz). simpl in Hsz.
  pose proof (proj1 (Forall_forall _ _) (r_chains _ _ _ _ _ Hr) _ Hin) as Hec.
  pose proof (content_length s L fat data (e, cs) H Hec Hdir ltac:(simpl; lia)) as Hcl. simpl in Hcl.
  pose proof (files_lookup data acts a1 (e, cs) a2 Eacts (r_names _ _ _ _ _ Hr)) as Hf. simpl in Hf. rewrite Hname, Hdir, <- Ef in Hf.
  assert (forall n' bs', name_to_83 name = Some n' -> files !! n' = Some bs' -> bs' = content data (e, cs)) as Huniq by (intros; congruence).
  destruct (Z.ltb_spec bufsize (d_size e)) as [Hlt | Hge].
  { apply fwp_ret. split; [by apply Hst |]. right. do 2 (split; [done |]). right. intros n' bs' Hn' Hf'. rewrite (Huniq n' bs' Hn' Hf'). lia. }
  destruct (Z.eqb_spec (d_size e) 0) as [Hz | Hnz].
  { apply fwp_ret. split; [by apply Hst |]. left. split; [done |]. assert (content data (e, cs) = []) as Hnil.
    { apply length_zero_iff_nil. unfold zlen in Hcl. lia. }
    split; [exists n; split; [done | by rewrite Hf, Hnil] |]. unfold zlen. simpl. lia. }
  destruct Hec as [Hch Hk]. specialize (Hk Hdir). simpl in Hch, Hk. destruct cs as [|c r].
  { pose proof (clusters_pos (d_size e)). simpl in Hk. lia. }
  pose proof (c_start _ _ _ _ Hch) as Est. simpl in Est. pose proof (c_range _ _ _ _ Hch) as Hrange. apply Forall_cons in Hrange as Hr1. destruct Hr1 as [Hc _].
  apply fwp_vol. destruct (h_vol _ _ _ _ _ H1) as [h Ev]. rewrite Ev, Est, (proj2 (vol_range g Hg h c) Hc). simpl negb. cbv iota.
  cbn [fs_bytes_per_cluster fs_total_clusters set_hint].
  eapply fwp_then; [by apply (kmalloc_holds g Hg) |]. intros p s2 [[[-> Href] H2] | (Hp & HpL & H2)].
  { apply fwp_ret. split; [by apply Hst |]. right. do 2 (split; [done |]). by left. }
  apply Z.eqb_neq in Hp as ->. cbn [length] in Hk. pose proof (clusters_bounds (d_size e) (length r) ltac:(lia) Hk) as Hb.
  pose proof (range_length g Hg (c :: r) (c_nodup _ _ _ _ Hch) Hrange) as Hlen. cbn [length] in Hlen.
  eapply fwp_then; [apply (read_loop_holds data r _ s2 _ fat c (d_size e) [] H2 (c_links _ _ _ _ Hch) Hrange); [lia | done] |].
  intros res s3 [-> H3]. change ([] ++ take _ _) with (content data (e, c :: r)).
  eapply fwp_then; [by apply (kfree_holds g Hg) |]. intros [] s4 H4. apply fwp_ret. split; [by apply Hst |].
  left. split; [done |].
  split; [exists n; done |]. lia.
Qed.
End Files.
