(* ===== verification/FatWrite.v ===== *)
(** * Creating, replacing and deleting files

    The operations of [fs/fat32.c] that change the volume keep the invariant
    of [FatFiles] and change the map of files at one name; a failure gives
    every cluster back and leaves the map as it was. *)

From Stdlib Require Import ZArith Lia Bool.
From stdpp Require Import base gmap fin_maps functions list.
From S2P Require Import Prelude Fat FatBytes FatDisk FatChain FatDir FatFiles.

Section Write.
Context {E : Type} {env : FsEnv E} {mk : Marks E} {laws : EnvLaws E} {disk : DiskLaws E}.
Context (g : volume) (Hg : geometry g).
Implicit Types s : fat32 E.
Implicit Types L : gset Z.
Implicit Types fat : Z -> Z.
Implicit Types data : Z -> list Z.
Implicit Types acts : list (dirent * list Z).
Notation in_range := (in_range g).
Notation holds := (holds g).
Notation chain := (chain g).
Notation slots := (slots g).
Notation clusters_for := (clusters_for g).
Notation free_clusters := (free_clusters g).
Notation repr := (repr g).
Notation bpc := (fs_bytes_per_cluster g).

Lemma repr_nil fat data rc acts extra : repr fat data rc acts extra -> repr fat data rc acts ([] :: extra).
Proof. intros [H1 H2 H3 H4 H5 H6 H7]. split; try done. by constructor. Qed.

(** ** The data of the new chain *)

Lemma write_data_holds s L fat data c r buf : holds s L fat data -> chain fat c (c :: r) -> 0 < zlen buf -> bytes buf ->
  Z.of_nat (length (c :: r)) = clusters_for (zlen buf) ->
  fwp (write_data c buf) (fun rc s' =>
    (rc = 0 /\ exists data', holds s' L fat data' /\ (forall x, x ∉ c :: r -> data' x = data x) /\
       take (length buf) (concat (data' <$> (c :: r))) = buf) \/
    (rc = -1 /\ e_refused (f_env s') /\ holds s' L (clear fat (c :: r)) data)) s.
Proof.
  intros H Hch Hpos Hby Hk. unfold write_data. apply fwp_vol. destruct (h_vol _ _ _ _ _ H) as [h Ev]. rewrite Ev. cbn [fs_bytes_per_cluster set_hint].
  eapply fwp_then; [by apply (kmalloc_holds g Hg) |]. intros p s1 [[[-> Href] H1] | (Hp & HpL & H1)].
  { eapply fwp_then_marks; [by apply (free_chain_holds g Hg s1 L fat data c (c :: r)) |]. intros rc s2 Hmk [-> H2]. apply fwp_ret. right. auto. }
  apply Z.eqb_neq in Hp as ->. cbn [length] in Hk. pose proof (clusters_bounds g Hg (zlen buf) (length r) Hpos Hk) as Hb. pose proof (bpc_pos g Hg).
  eapply fwp_then.
  { apply (write_loop_holds g Hg r _ s1 _ fat data c buf H1); [apply Hch | apply Hch | apply Hch | | done | done]. unfold zlen in *. nia. }
  intros rc s2 (-> & data' & H2 & Hout & Htk). eapply fwp_then; [by apply (kfree_holds g Hg) |]. intros [] s3 H3. apply fwp_ret.
  left. split; [done |]. exists data'. done.
Qed.

(** ** A place for the entry *)

Lemma chained_link fat cs prev c : chained fat (cs ++ [prev]) -> FAT32_CLUSTER_END <= fat c -> NoDup (cs ++ [prev; c]) ->
  chained (<[prev := c]> fat) (cs ++ [prev; c]).
Proof.
  induction cs as [|x cs IH]; intros H He Hn; cbn [app] in *.
  - apply NoDup_cons in Hn as [Hn _]. cbn [chained]. rewrite fn_lookup_insert. split; [done |]. by rewrite fn_lookup_insert_ne by set_solver.
  - apply NoDup_cons in Hn as [Hx Hn].
    destruct cs as [|y cs]; cbn [app chained] in *; destruct H as [H1 H2]; (split; [| by apply IH]); by rewrite fn_lookup_insert_ne by set_solver.
Qed.

Lemma zero_slots : slots_of g (replicate (Z.to_nat bpc) 0) = replicate (Z.to_nat (epc g)) (replicate 32 0).
Proof.
  destruct (epc_eq g Hg) as [Eb He]. apply list_eq. intros j. destruct (decide (j < Z.to_nat (epc g))%nat) as [Hj | Hj].
  - rewrite lookup_replicate_2 by done. replace j with (Z.to_nat (Z.of_nat j)) by lia. rewrite (lookup_slots_of g) by lia. f_equal.
    unfold entry_at, part. rewrite drop_replicate, take_replicate. change (Z.to_nat FAT32_DIRENT_BYTES) with 32%nat. f_equal. unfold FAT32_DIRENT_BYTES. lia.
  - rewrite !lookup_ge_None_2; [done | by rewrite length_replicate; lia |]. pose proof (slots_of_length g Hg (replicate (Z.to_nat bpc) 0)). unfold zlen in *. lia.
Qed.

Lemma tail_ok_zeros n : tail_ok (replicate n (replicate 32 0)).
Proof. destruct n as [|n]; [done |]. cbn [replicate tail_ok]. change (head_byte _ =? _) with true. by apply Forall_replicate. Qed.

(** The directory grows by a zeroed cluster. *)
Lemma repr_grow fat fat' data rc acts extra r0 prev c : repr fat data rc acts extra -> fresh_chain g fat fat' [c] -> rc = r0 ++ [prev] ->
  Forall (fun e => head_byte e <> 0) (slots data rc) ->
  repr (<[prev := c]> fat') (<[c := replicate (Z.to_nat bpc) 0]> data) (rc ++ [c]) acts extra /\
  slots (<[c := replicate (Z.to_nat bpc) 0]> data) (rc ++ [c]) = slots data rc ++ replicate (Z.to_nat (epc g)) (replicate 32 0) /\
  (forall x, x ∈ concat extra ++ concat acts.*2 -> (<[c := replicate (Z.to_nat bpc) 0]> data) x = data x).
Proof.
  intros H Hf Erc Hfull.
  assert (forall x, x ∈ owned rc acts extra -> x <> c) as Hnew.
  { intros x Hx ->. destruct (owned_used g _ _ _ _ _ _ H Hx) as [_ Hn]. apply Hn, (fc_free _ _ _ _ Hf). set_solver. }
  assert (forall x, x ∈ owned rc acts extra -> fat' x = fat x) as Hsame.
  { intros x Hx. apply (fc_rest _ _ _ _ Hf). intros ->%list_elem_of_singleton. by apply (Hnew c). }
  pose proof (r_apart _ _ _ _ _ _ H) as Hap. unfold owned in Hap. apply NoDup_app in Hap as (Hn1 & Hd & Hn2).
  assert (slots (<[c := replicate (Z.to_nat bpc) 0]> data) (rc ++ [c]) = slots data rc ++ replicate (Z.to_nat (epc g)) (replicate 32 0)) as Es.
  { rewrite slots_app. f_equal.
    - apply (slots_ext g). intros x Hx. rewrite fn_lookup_insert_ne; [done |]. apply not_eq_sym, Hnew. unfold owned. set_solver.
    - unfold FatDir.slots. cbn [fmap list_fmap concat]. by rewrite fn_lookup_insert, app_nil_r, zero_slots. }
  split; [| split; [done |]].
  2: { intros x Hx. rewrite fn_lookup_insert_ne; [done |]. apply not_eq_sym, Hnew. unfold owned. set_solver. }
  assert (prev ∈ rc) as Hprev by (rewrite Erc; set_solver).
  assert (NoDup (rc ++ [c])) as Hnd.
  { apply NoDup_app. split; [done |]. split; [| apply NoDup_singleton]. intros x Hx ->%list_elem_of_singleton.
    apply (Hnew c); [unfold owned; set_solver | done]. }
  assert (repr fat' data rc acts extra) as [H1 H2 H3 H4 H5 H6 H7] by (by apply (repr_fat g Hg fat)).
  split.
  - destruct H1 as [C1 C2 C3 C4]. split; [| by apply Forall_app; split; [| apply Hf] | done |].
    + rewrite Erc in Hnd, C1 |- *. rewrite <- app_assoc in Hnd |- *. apply chained_link; [done | | done]. pose proof (fc_links _ _ _ _ Hf) as Hl. done.
    + destruct rc; [by destruct r0 | done].
  - rewrite Es, filter_app, H2. rewrite (filter_none (replicate _ _)) by (by apply Forall_replicate). by rewrite app_nil_r.
  - rewrite Es. apply tail_ok_app; [done |]. apply tail_ok_zeros.
  - done.
  - rewrite Forall_forall in H5 |- *. intros p Hp. apply (entry_chain_ext g Hg fat'); [| auto]. intros x Hx. apply fn_lookup_insert_ne. intros ->.
    apply (Hd x Hprev). rewrite elem_of_app. right. apply elem_of_chains. eauto.
  - rewrite Forall_forall in H6 |- *. intros cs Hcs. destruct (H6 cs Hcs) as [K1 K2]. split; [| done]. apply (chained_ext g Hg fat'); [| done].
    intros x Hx. apply fn_lookup_insert_ne. intros ->. apply (Hd x Hprev). rewrite elem_of_app. left. apply list_elem_of_concat. eauto.
  - unfold owned. rewrite <- app_assoc. apply NoDup_app. split; [done |]. split.
    + intros x Hx. cbn [app]. rewrite elem_of_cons. intros [-> | Hx']; [| by apply (Hd x)]. apply (Hnew c); [unfold owned; set_solver | done].
    + cbn [app]. apply NoDup_cons. split; [| done]. intros Hx. apply (Hnew c); [unfold owned; set_solver | done].
Qed.

(** The position [b], [o] is entry [k], an unused one with only used ones
    before it. *)
Definition vacant data (rc : list Z) (b o : Z) : Prop :=
  exists k c i old, slot_pos g rc k b o c i /\ slots data rc !! Z.to_nat k = Some old /\ active old = false /\
    Forall (fun e => head_byte e <> 0) (take (Z.to_nat k) (slots data rc)).

Lemma slots_length data rc : length (slots data rc) = (length rc * Z.to_nat (epc g))%nat.
Proof.
  unfold FatDir.slots. induction rc as [|c rc IH]; [done |]. cbn [fmap list_fmap concat length]. rewrite length_app, IH.
  pose proof (slots_of_length g Hg (data c)). unfold zlen in *. lia.
Qed.

Lemma find_free_dirent_holds s L fat data rc acts extra : holds s L fat data -> repr fat data rc acts extra -> 2 * bpc < 2 ^ 32 ->
  fwp find_free_dirent (fun r s' =>
    match r with
    | Some (b, o) => exists fat' data' rc' d, holds s' L fat' data' /\ repr fat' data' rc' acts extra /\
        (forall x, x ∈ concat extra ++ concat acts.*2 -> data' x = data x /\ fat' x = fat x) /\
        vacant data' rc' b o /\ grows g data rc d /\ free_clusters fat' = free_clusters fat - d
    | None => holds s' L fat data /\ (e_refused (f_env s') \/ full g data rc /\ free_clusters fat < 1)
    end) s.
Proof.
  intros H Hr Hsmall. unfold find_free_dirent. apply fwp_vol. destruct (h_vol _ _ _ _ _ H) as [h Ev]. rewrite Ev.
  cbn [fs_bytes_per_cluster fs_total_clusters fs_root_cluster set_hint].
  eapply fwp_then; [by apply (kmalloc_holds g Hg) |]. intros p s1 [[[-> Href] H1] | (Hp & HpL & H1)].
  { apply fwp_ret. split; [done | by left]. }
  apply Z.eqb_neq in Hp as ->. destruct (root_cons g Hg _ _ _ _ _ Hr) as (r & Erc & Hch & Hrange & Hnd & Hlen). rewrite Erc in Hch, Hrange.
  eapply fwp_then; [by apply (slot_loop_holds g Hg data r) |]. intros res s2 [H2 Hres]. rewrite <- Erc in *.
  eapply fwp_then; [by apply (kfree_holds g Hg) |]. intros [] s3 H3. clear H1 H2 s1 s2. destruct res as [b o | prev |]; [| | done].
  - apply fwp_ret. exists fat, data, rc, 0. do 2 (split; [done |]). split; [done |].
    destruct Hres as (k & c & i & e & Hp & Hk & Hh & Ht). split.
    2: { split; [| lia]. right. split; [done |]. intros Hfull. destruct (Forall_lookup_1 _ _ _ _ Hfull Hk). by destruct Hh. }
    exists k, c, i, e. do 2 (split; [done |]). split; [| done].
    destruct Hh; [by apply free_inactive | by apply deleted_inactive].
  - destruct Hres as [Hlast Htaken]. pose proof (taken_head _ Htaken) as Hfull. apply last_Some in Hlast as [r0 Er0].
    unfold grow_directory. apply fwp_vol. destruct (h_vol _ _ _ _ _ H3) as [h3 Ev3]. rewrite Ev3. cbn [fs_bytes_per_cluster fs_sectors_per_cluster set_hint].
    pose proof (bpc_pos g Hg) as Hbpc. assert (clusters_for bpc = 1) as Hc1.
    { unfold FatChain.clusters_for. replace (bpc + bpc - 1) with (1 * bpc + (bpc - 1)) by lia. rewrite Z.div_add_l by lia. rewrite Z.div_small by lia. lia. }
    eapply fwp_then; [apply (alloc_chain_holds g Hg s3 L fat data bpc H3); lia |]. intros [c|] s4 Ha.
    2: { destruct Ha as [H4 Hlt]. apply fwp_ret. split; [done |]. right. split; [done | lia]. }
    destruct Ha as (fat' & cs & H4 & Hf & Hl). rewrite Hc1 in Hl. destruct cs as [|c' cs]; [| simpl in Hl; lia]. clear Hl.
    pose proof (fresh_chain_chain g fat fat' c [] Hf) as Hchain.
    assert (in_range c) as Hc by (pose proof (fc_range _ _ _ _ Hf) as Hfr; by apply Forall_cons in Hfr as [? _]).
    assert (forall s', holds s' L (clear fat' [c]) data -> holds s' L fat data) as Hundo.
    { intros s' H'. apply (holds_ext g s' L _ data _ data H'); [| done]. intros x _. symmetry. by apply (fresh_chain_clear g). }
    eapply fwp_then; [by apply (kmalloc_holds g Hg) |]. intros z s5 [[[-> Href] H5] | (Hz & HzL & H5)].
    { simpl. eapply fwp_then_marks; [by apply (free_chain_holds g Hg s5 L fat' data c [c]) |]. intros rc' s6 Hmk [-> H6]. apply fwp_ret. split; [auto | left; auto]. }
    apply Z.eqb_neq in Hz as ->.
    eapply fwp_then; [apply (write_cluster_holds g Hg s5 _ fat' data c _ h3 H5 Hc); [by rewrite length_replicate | by apply Forall_replicate] |].
    intros rc1 s6 [-> H6]. simpl negb. cbv iota. eapply fwp_then; [by apply (kfree_holds g Hg) |]. intros [] s7 H7.
    assert (in_range prev) as Hpr by (apply (Forall_forall in_range rc); [done | rewrite Er0; set_solver]).
    eapply fwp_then; [apply (set_entry_holds g Hg s7 L fat' _ prev c H7 Hpr); unfold FatDisk.in_range in Hc; lia |].
    intros rc2 s8 [-> H8]. simpl negb. cbv iota. apply fwp_ret. rewrite (land_cluster g Hg c Hc) in H8.
    destruct (repr_grow fat fat' data rc acts extra r0 prev c Hr Hf Er0 Hfull) as (Hr' & Es & Hout).
    pose proof (r_apart _ _ _ _ _ _ Hr) as Hap. unfold owned in Hap. apply NoDup_app in Hap as (_ & Hd & _).
    assert (prev ∈ rc) as Hprc by (rewrite Er0; set_solver).
    eexists _, _, _, 1. split; [exact H8 |]. split; [exact Hr' |]. split; [| split; [| split; [by left |]]].
    + intros x Hx. split; [auto |]. rewrite fn_lookup_insert_ne by (intros ->; by apply (Hd x)). apply (fc_rest _ _ _ _ Hf).
      intros ->%list_elem_of_singleton. destruct (owned_used g _ _ _ _ _ c Hr) as [_ Hn]; [unfold owned; set_solver |].
      apply Hn, (fc_free _ _ _ _ Hf). set_solver.
    + destruct (epc_eq g Hg) as [Eb He16]. exists (Z.of_nat (length rc) * epc g), c, 0, (replicate 32 0). split; [| split; [| split; [done |]]].
      * exists (length rc). split; [rewrite lookup_app_r by lia; by rewrite Nat.sub_diag |]. split; [lia |]. split; [lia |].
        pose proof (cluster_block g Hg h3 c Hc) as Eblk. pose proof (block_bounds g Hg c Hc). pose proof (g_lba _ Hg).
        unfold entry_block, entry_offset. rewrite (g_bps _ Hg). change (0 * FAT32_DIRENT_BYTES / 512) with 0. rewrite Z.add_0_r. split; [| done].
        change (cluster_to_block g c) with (cluster_to_block (set_hint g h3) c). rewrite Eblk, u32_small; [done |].
        pose proof (g_data _ Hg). pose proof (g_fat _ Hg). pose proof (g_copies _ Hg). pose proof (g_spf _ Hg). pose proof (g_spc _ Hg). nia.
      * rewrite Es, lookup_app_r by (rewrite slots_length; lia). apply lookup_replicate_2 with (n := Z.to_nat (epc g)). rewrite slots_length. lia.
      * rewrite Es. rewrite take_app_le by (rewrite slots_length; lia). rewrite take_ge by (rewrite slots_length; lia). done.
    + rewrite (free_clusters_link g); [| | unfold FatDisk.in_range in Hc; lia].
      * rewrite (free_clusters_fresh g Hg fat fat' [c] Hf). simpl. lia.
      * destruct (owned_used g _ _ _ _ _ prev Hr) as [_ Hn]; [unfold owned; set_solver |].
        rewrite (fc_rest _ _ _ _ Hf); [done |]. intros ->%list_elem_of_singleton. apply Hn, (fc_free _ _ _ _ Hf). set_solver.
Qed.

(** ** Storing an entry *)

Lemma slot_pos_lookup data rc k b o c i : slot_pos g rc k b o c i -> slots data rc !! Z.to_nat k = Some (entry_at (data c) i).
Proof.
  intros (j & Hj & Hi & -> & _ & _). revert j Hj. induction rc as [|x rc IH]; intros j Hj; [done |].
  rewrite slots_cons. pose proof (slots_of_length g Hg (data x)) as Hl. unfold zlen in Hl. destruct j as [|j]; simpl in Hj.
  - injection Hj as ->. rewrite lookup_app_l by lia. rewrite <- (lookup_slots_of g) by done. f_equal.
  - rewrite lookup_app_r by lia. rewrite <- (IH j Hj). f_equal. lia.
Qed.

Lemma store_entry s L fat data rc l1 old l2 k b o c i new : holds s L fat data -> NoDup rc -> Forall in_range rc ->
  slot_pos g rc k b o c i -> slots data rc = l1 ++ old :: l2 -> k = zlen l1 -> length new = 32%nat -> bytes new ->
  fwp (write_dirent_at b o new) (fun r s' => r = 0 /\ exists data', holds s' L fat data' /\
    slots data' rc = l1 ++ new :: l2 /\ forall x, x ∉ rc -> data' x = data x) s.
Proof.
  intros H Hnd Hr Hp Es Hk Hl Hb. pose proof Hp as (j & Hj & Hi & _ & Eb & Eo). apply list_elem_of_lookup_2 in Hj as Hc.
  assert (in_range c) as Hcr by (by apply (Forall_forall in_range rc)). destruct (epc_eq g Hg) as [Ebpc _].
  rewrite Eb, Eo. change (entry_block g c i) with (entry_block (set_hint g 0) c i). change (entry_offset g i) with (entry_offset (set_hint g 0) i).
  eapply fwp_mono; [apply (write_dirent_holds g Hg s L fat data c i new 0 H Hcr); [done | done | done] |].
  intros r s' [-> H']. split; [done |]. eexists. split; [exact H' |]. split.
  - rewrite (slots_set g Hg data rc k b o c i new Hnd Hr Hp); [| | done].
    + rewrite Es, Hk. unfold zlen. rewrite Nat2Z.id. by rewrite insert_app_r_alt, Nat.sub_diag.
    + intros x Hx. by apply (holds_data g Hg s L fat data).
  - intros x Hx. rewrite fn_lookup_insert_ne; [done |]. by intros ->.
Qed.

(** The chains of the entries are not part of the directory. *)
Lemma outside_dir fat data rc acts extra x : repr fat data rc acts extra -> x ∈ concat extra ++ concat acts.*2 -> x ∉ rc.
Proof. intros H Hx Hin. pose proof (r_apart _ _ _ _ _ _ H) as Hap. unfold owned in Hap. apply NoDup_app in Hap as (_ & Hd & _). by apply (Hd x). Qed.

Lemma dirs_of_app a1 a2 : dirs_of (a1 ++ a2) = dirs_of a1 ∪ dirs_of a2.
Proof. unfold dirs_of. by rewrite fmap_app, filter_app, fmap_app, list_to_set_app_L. Qed.
Lemma dirs_of_file p : is_directory p.1 = false -> dirs_of [p] = ∅.
Proof. intros Hd. unfold dirs_of. cbn [fmap list_fmap]. rewrite filter_cons, decide_False; [done |]. by rewrite Hd. Qed.

(** One entry of the directory replaced by another, or by none. *)
Lemma swap_entry s L fat data rc l1 old new l2 a1 o o' a2 extra k b off c i :
  holds s L fat data -> repr fat data rc (a1 ++ o ++ a2) (o'.*2 ++ extra) -> slot_pos g rc k b off c i ->
  slots data rc = l1 ++ old :: l2 -> k = zlen l1 -> Forall (fun x => head_byte x <> 0) l1 ->
  a1.*1 = filter is_active l1 -> o.*1 = filter is_active [old] -> o'.*1 = filter is_active [new] ->
  length new = 32%nat -> bytes new -> head_byte new <> 0 -> NoDup (d_name <$> (a1 ++ o' ++ a2).*1) -> Forall (entry_chain g fat) o' ->
  fwp (write_dirent_at b off new) (fun r s' => r = 0 /\ exists data', holds s' L fat data' /\
    repr fat data' rc (a1 ++ o' ++ a2) (o.*2 ++ extra) /\ forall x, x ∈ concat (o'.*2 ++ extra) ++ concat (a1 ++ o ++ a2).*2 -> data' x = data x) s.
Proof.
  intros H Hr Hp Es Hk Hf E1 Eo Eo' Hl Hb Hh Hn Hch. destruct (root_cons g Hg _ _ _ _ _ Hr) as (r & _ & _ & Hrange & Hnd & _).
  eapply fwp_mono; [by apply (store_entry s L fat data rc l1 old l2 k b off c i new) |]. intros rc' s' (-> & data' & H' & Es' & Hout).
  split; [done |]. exists data'. split; [done |]. split.
  - apply (repr_swap g fat data data' rc l1 old new l2); try done. apply (tail_ok_set l1 old new l2); [done | done |]. rewrite <- Es. apply Hr.
  - intros x Hx. apply Hout. by eapply outside_dir.
Qed.

(** An entry for a new file: [n], not yet in the directory. *)
Record file_entry fat (n : list Z) (new : dirent) (cs : list Z) : Prop := {
  fe_length : length new = 32%nat;
  fe_bytes : bytes new;
  fe_active : active new = true;
  fe_name : d_name new = n;
  fe_file : is_directory new = false;
  fe_chain : entry_chain g fat (new, cs)
}.

Lemma active_singleton e : active e = true -> filter is_active [e] = [e].
Proof. intros H. by rewrite filter_cons, decide_True. Qed.
Lemma inactive_singleton e : active e = false -> filter is_active [e] = [].
Proof. intros H. rewrite filter_cons, decide_False; [done |]. by rewrite H. Qed.

(** Writing [new] into a free slot, for [o'] the entry it adds and [extra]
    what is left of the new chain [cs] beside it. *)
Lemma commit_slot s L fat data rc acts new start cs o' extra : holds s L fat data -> repr fat data rc acts [cs] -> 2 * bpc < 2 ^ 32 ->
  chain fat start cs -> length new = 32%nat -> bytes new -> head_byte new <> 0 ->
  o'.*1 = filter is_active [new] -> o'.*2 ++ extra = [cs] -> NoDup (d_name <$> o'.*1) -> (forall p, p ∈ o' -> d_name p.1 ∉ (d_name <$> acts.*1)) ->
  Forall (entry_chain g fat) o' ->
  fwp (commit_entry None 0 start new) (fun r s' =>
    (r = 0 /\ exists fat' data' rc' a1 a2 d, acts = a1 ++ a2 /\ holds s' L fat' data' /\ repr fat' data' rc' (a1 ++ o' ++ a2) extra /\
       (forall x, x ∈ cs ++ concat acts.*2 -> data' x = data x) /\ grows g data rc d /\ free_clusters fat' = free_clusters fat - d) \/
    (r = -1 /\ holds s' L (clear fat cs) data /\ (e_refused (f_env s') \/ full g data rc /\ free_clusters fat < 1))) s.
Proof.
  intros H Hr Hsmall Hch F1 F2 Hhd Eo Ex Hdn Hn Hec. unfold commit_entry.
  eapply fwp_then; [by apply (find_free_dirent_holds s L fat data rc acts [cs]) |]. intros [[b o]|] s1 Hres.
  2: { destruct Hres as [H1 Hwhy]. apply fwp_bind. destruct (Z.eqb_spec start 0) as [Hz | Hz]; simpl.
       - apply fwp_ret, fwp_ret. right. split; [done |]. split; [| done]. destruct cs as [|c cs].
         + apply (holds_ext g s1 L fat data); [done | | done]. intros x _. by apply clear_out, not_elem_of_nil.
         + pose proof (c_start _ _ _ _ Hch) as Est. simpl in Est. pose proof (c_range _ _ _ _ Hch) as Hrg. apply Forall_cons in Hrg as [Hc _].
           unfold FatDisk.in_range in Hc. lia.
       - eapply fwp_marks; [by apply (free_chain_holds g Hg s1 L fat data start cs) |]. intros rc' s2 Hmk [-> H2]. apply fwp_ret. right.
         split; [done |]. split; [done |]. destruct Hwhy; [left; auto | by right]. }
  destruct Hres as (fat' & data' & rc' & d & H1 & Hr1 & Hout & (k & c & i & old & Hp & Hk & Hold & Hfull) & Hd & Hcount).
  assert (0 <= k) as Hk0 by (destruct Hp as (j & _ & Hi & -> & _); destruct (epc_eq g Hg); nia).
  apply list_elem_of_split_length in Hk as (l1 & l2 & Es & Hl1). rewrite Es, Hl1, take_app_length in Hfull.
  pose proof (r_dir _ _ _ _ _ _ Hr1) as Hdir. rewrite Es, filter_app in Hdir. rewrite (filter_app _ [old] l2 : filter is_active (old :: l2) = _), inactive_singleton in Hdir by done.
  apply fmap_app_inv in Hdir as (a1 & a2 & E1 & _ & Eacts). cbn [concat] in Hout. rewrite app_nil_r in Hout.
  assert (Forall (entry_chain g fat') o') as Hec'.
  { rewrite Forall_forall in Hec |- *. intros p Hp'. apply (entry_chain_ext g Hg fat); [| by apply Hec]. intros x Hx. apply Hout.
    assert (p.2 ∈ [cs]) as Hin by (rewrite <- Ex; apply elem_of_app; left; by apply list_elem_of_fmap_2). apply list_elem_of_singleton in Hin. rewrite <- Hin. set_solver. }
  assert (acts = a1 ++ [] ++ a2) as Ea by done.
  assert (NoDup (d_name <$> (a1 ++ o' ++ a2).*1)) as Hnd.
  { rewrite !fmap_app, Permutation_app_swap_app. apply NoDup_app. split; [done |].
    pose proof (r_names _ _ _ _ _ _ Hr1) as Hnm. rewrite Eacts, !fmap_app in Hnm. split; [| done].
    intros x Hx. apply list_elem_of_fmap in Hx as (e & -> & Hx). apply list_elem_of_fmap in Hx as (p & -> & Hx). specialize (Hn p Hx). by rewrite Eacts, !fmap_app in Hn. }
  eapply fwp_then.
  { apply (swap_entry s1 L fat' data' rc' l1 old new l2 a1 [] o' a2 extra k b o c i); try done.
    - rewrite <- Ea, Ex. done.
    - unfold zlen. lia.
    - by rewrite inactive_singleton. }
  intros rc2 s2 (-> & data2 & H2 & Hr2 & Hsame). rewrite Ex, <- Ea in Hsame. cbn [fmap list_fmap app concat] in Hsame. rewrite app_nil_r in Hsame. simpl negb. cbv iota.
  rewrite bool_decide_false by (by intros [? ?]). simpl andb. cbv iota. apply fwp_bind, fwp_ret.
  eapply fwp_then; [by apply (fsinfo_holds g Hg) |]. intros [] s3 H3. apply fwp_ret. left. split; [done |].
  exists fat', data2, rc', a1, a2, d. do 3 (split; [done |]). split; [| done].
  intros x Hx. rewrite Hsame by done. by apply Hout.
Qed.

Lemma commit_new s L fat data rc acts n new start cs : holds s L fat data -> repr fat data rc acts [cs] -> 2 * bpc < 2 ^ 32 ->
  file_entry fat n new cs -> n ∉ (d_name <$> acts.*1) -> chain fat start cs ->
  fwp (commit_entry None 0 start new) (fun r s' =>
    (r = 0 /\ exists fat' data' rc' acts' d, holds s' L fat' data' /\ repr fat' data' rc' acts' [] /\
       files_of data' acts' = <[n := content data (new, cs)]> (files_of data acts) /\ dirs_of acts' = dirs_of acts /\
       grows g data rc d /\ free_clusters fat' = free_clusters fat - d) \/
    (r = -1 /\ holds s' L (clear fat cs) data /\ (e_refused (f_env s') \/ full g data rc /\ free_clusters fat < 1))) s.
Proof.
  intros H Hr Hsmall [F1 F2 F3 F4 F5 F6] Hn Hch. eapply fwp_mono.
  { apply (commit_slot s L fat data rc acts new start cs [(new, cs)] [] H Hr Hsmall Hch F1 F2); [by apply active_head | by rewrite active_singleton | done | apply NoDup_singleton | | by constructor].
    intros p ->%list_elem_of_singleton. simpl. by rewrite F4. }
  intros r s' [(-> & fat' & data' & rc' & a1 & a2 & d & Eacts & H2 & Hr2 & Hall & Hd) | (-> & H2 & Hwhy)]; [left | by right]. split; [done |].
  exists fat', data', rc', (a1 ++ (new, cs) :: a2), d. do 2 (split; [done |]). split; [| split; [| done]].
  - rewrite files_middle by apply (r_names _ _ _ _ _ _ Hr2). unfold named. simpl is_directory. rewrite F5. simpl d_name. rewrite F4, <- Eacts.
    rewrite (files_of_ext g Hg data) by (intros x Hx; apply Hall; set_solver).
    by rewrite (content_ext data) by (intros x Hx; apply Hall; simpl in Hx; set_solver).
  - rewrite (dirs_of_app a1 ([(new, cs)] ++ a2) : dirs_of (a1 ++ (new, cs) :: a2) = _), dirs_of_app, dirs_of_file by done.
    rewrite Eacts, dirs_of_app. set_solver.
Qed.

(** Chains that no entry names can be forgotten. *)
Lemma repr_forget fat data rc acts cs : repr fat data rc acts [cs] -> repr fat data rc acts [].
Proof.
  intros [H1 H2 H3 H4 H5 H6 H7]. split; try done. unfold owned in *. cbn [concat] in *. rewrite app_nil_r in H7.
  eapply sublist_NoDup; [exact H7 |]. apply sublist_app; [done |]. by apply sublist_inserts_l.
Qed.

(** An entry that is written with the mark of a deleted one is lost, with
    the clusters of its chain. *)
Lemma commit_lost s L fat data rc acts new start cs : holds s L fat data -> repr fat data rc acts [cs] -> 2 * bpc < 2 ^ 32 ->
  chain fat start cs -> length new = 32%nat -> bytes new -> head_byte new <> 0 -> active new = false ->
  fwp (commit_entry None 0 start new) (fun r s' =>
    (r = 0 /\ exists fat' data' rc' d, holds s' L fat' data' /\ repr fat' data' rc' acts [] /\ files_of data' acts = files_of data acts /\
       grows g data rc d /\ free_clusters fat' = free_clusters fat - d) \/
    (r = -1 /\ holds s' L (clear fat cs) data /\ (e_refused (f_env s') \/ full g data rc /\ free_clusters fat < 1))) s.
Proof.
  intros H Hr Hsmall Hch F1 F2 Hhd Hin. eapply fwp_mono.
  { apply (commit_slot s L fat data rc acts new start cs [] [cs] H Hr Hsmall Hch F1 F2 Hhd); [by rewrite inactive_singleton | done | apply NoDup_nil_2 | | done].
    intros p Hp%not_elem_of_nil. done. }
  intros r s' [(-> & fat' & data' & rc' & a1 & a2 & d & Eacts & H2 & Hr2 & Hall & Hd) | (-> & H2 & Hwhy)]; [left | by right]. split; [done |].
  cbn [app] in Hr2. rewrite <- Eacts in Hr2. exists fat', data', rc', d. split; [done |]. split; [by eapply repr_forget |]. split; [| done].
  apply (files_of_ext g Hg). intros x Hx. apply Hall. set_solver.
Qed.
End Write.
