(* ===== verification/FatSpec.v ===== *)
(** * What the file system promises

    [fat32_write_file], [fat32_delete], [fat32_read_file] and the listing as
    operations on the map from 8.3 names to contents, the cost of each in
    clusters, and the 8.3 names themselves. *)

From Stdlib Require Import ZArith Lia Bool.
From stdpp Require Import base gmap fin_maps functions list.
From S2P Require Import Prelude Fat FatBytes FatDisk FatChain FatDir FatFiles FatWrite.

Section Spec.
Context {E : Type} {env : FsEnv E} {mk : Marks E} {laws : EnvLaws E} {disk : DiskLaws E}.
Context (g : volume) (Hg : geometry g).
Implicit Types s : fat32 E.
Implicit Types L : gset Z.
Implicit Types fat : Z -> Z.
Implicit Types data : Z -> list Z.
Implicit Types acts : list (dirent * list Z).
Notation in_range := (in_range g).
Notation holds := (holds g).
Notation chain := (chain g).
Notation slots := (slots g).
Notation clusters_for := (clusters_for g).
Notation free_clusters := (free_clusters g).
Notation repr := (repr g).
Notation bpc := (fs_bytes_per_cluster g).

(** ** Freeing a chain by its first cluster *)

Lemma free_start s L fat data start cs : holds s L fat data -> chain fat start cs ->
  fwp (if negb (start =? 0) then free_chain start else mret 0) (fun r s' => r = 0 /\ holds s' L (clear fat cs) data) s.
Proof.
  intros H Hch. destruct (Z.eqb_spec start 0) as [Hz | Hz]; simpl; [| by apply (free_chain_holds g Hg)].
  apply fwp_ret. split; [done |]. destruct cs as [|c cs].
  - apply (holds_ext g s L fat data); [done | | done]. intros x _. by apply clear_out, not_elem_of_nil.
  - pose proof (c_start _ _ _ _ Hch) as Est. simpl in Est. pose proof (c_range _ _ _ _ Hch) as Hrg. apply Forall_cons in Hrg as [Hc _].
    unfold FatDisk.in_range in Hc. lia.
Qed.

Lemma chain_count fat start cs : chain fat start cs -> free_clusters (clear fat cs) = free_clusters fat + Z.of_nat (length cs).
Proof.
  intros [C1 C2 C3 C4]. apply (free_clusters_clear g Hg); [done | done |]. intros c Hc. by apply (chained_nonzero g fat cs).
Qed.

(** ** Replacing the entry of a file *)

Lemma commit_existing s L fat data rc l1 e l2 a1 cs0 a2 n new cs k b o c i :
  holds s L fat data -> repr fat data rc (a1 ++ (e, cs0) :: a2) [cs] -> slot_pos g rc k b o c i ->
  slots data rc = l1 ++ e :: l2 -> k = zlen l1 -> Forall (fun x => head_byte x <> 0) l1 -> a1.*1 = filter is_active l1 ->
  active e = true -> d_name e = n -> is_directory e = false -> file_entry g fat n new cs ->
  fwp (commit_entry (Some (b, o)) (dirent_first_cluster e) (dirent_first_cluster new) new) (fun r s' =>
    r = 0 /\ exists fat' data', holds s' L fat' data' /\ repr fat' data' rc (a1 ++ (new, cs) :: a2) [] /\
       files_of data' (a1 ++ (new, cs) :: a2) = <[n := content data (new, cs)]> (files_of data (a1 ++ (e, cs0) :: a2)) /\
       dirs_of (a1 ++ (new, cs) :: a2) = dirs_of (a1 ++ (e, cs0) :: a2) /\
       free_clusters fat' = free_clusters fat + clusters_for (d_size e)) s.
Proof.
  intros H Hr Hp Es Hk Hf E1 Ha Hn Hfile [F1 F2 F3 F4 F5 F6]. unfold commit_entry. apply fwp_bind, fwp_ret.
  pose proof (r_names _ _ _ _ _ _ Hr) as Hnm. pose proof (r_chains _ _ _ _ _ _ Hr) as Hchs.
  apply Forall_app in Hchs as [_ Hchs]. apply Forall_cons in Hchs as [[Hch0 Hk0] _]. simpl in Hch0, Hk0. specialize (Hk0 Hfile).
  assert (NoDup (d_name <$> (a1 ++ [(new, cs)] ++ a2).*1)) as Hnd.
  { rewrite !fmap_app in *. simpl in *. by rewrite F4, <- Hn. }
  eapply fwp_then.
  { apply (swap_entry g Hg s L fat data rc l1 e new l2 a1 [(e, cs0)] [(new, cs)] a2 [] k b o c i); try done.
    - by rewrite active_singleton.
    - by rewrite active_singleton.
    - by apply active_head.
    - by constructor. }
  intros r s1 (-> & data' & H1 & Hr1 & Hsame). simpl negb. cbv iota. rewrite bool_decide_true by done. simpl andb.
  eapply fwp_then; [by apply (free_start s1 L fat data' _ cs0) |]. intros r s2 [-> H2].
  eapply fwp_then; [by apply (fsinfo_holds g Hg) |]. intros [] s3 H3. apply fwp_ret. split; [done |].
  exists (clear fat cs0), data'. split; [done |]. split; [by apply (repr_drop g Hg) |].
  cbn [fmap list_fmap app] in *. rewrite fmap_app in Hsame. cbn [fmap list_fmap concat] in Hsame. rewrite concat_app in Hsame. cbn [concat snd] in Hsame.
  split; [| split].
  - rewrite !files_middle by done. unfold named. simpl fst. rewrite F5, F4, Hn, Hfile, insert_insert_eq. f_equal.
    + apply content_ext. intros x Hx. apply Hsame. simpl in Hx. set_solver.
    + apply (files_of_ext g Hg). intros x Hx. apply Hsame. rewrite fmap_app, concat_app in Hx. set_solver.
  - rewrite (dirs_of_app a1 ([(new, cs)] ++ a2) : dirs_of (a1 ++ (new, cs) :: a2) = _),
      (dirs_of_app a1 ([(e, cs0)] ++ a2) : dirs_of (a1 ++ (e, cs0) :: a2) = _), !dirs_of_app, !dirs_of_file by done. done.
  - rewrite (chain_count fat _ cs0 Hch0). by rewrite Hk0.
Qed.

(** ** Finding the entry of a file *)

Lemma locate_holds s L fat data rc acts extra w : holds s L fat data -> repr fat data rc acts extra ->
  fwp (locate_root_entry w) (fun r s' => holds s' L fat data /\
    match r with
    | Loc_at e b o => exists k c i l1 l2 a1 cs a2, slot_pos g rc k b o c i /\ slots data rc = l1 ++ e :: l2 /\ k = zlen l1 /\
        Forall (fun x => head_byte x <> 0) l1 /\ a1.*1 = filter is_active l1 /\ acts = a1 ++ (e, cs) :: a2 /\ active e = true /\ d_name e = w
    | Loc_none => w ∉ (d_name <$> acts.*1)
    | Loc_error => e_refused (f_env s')
    end) s.
Proof.
  intros H Hr. unfold locate_root_entry. apply fwp_vol. destruct (h_vol _ _ _ _ _ H) as [h Ev]. rewrite Ev.
  cbn [fs_bytes_per_cluster fs_total_clusters fs_root_cluster set_hint].
  eapply fwp_then; [by apply (kmalloc_holds g Hg) |]. intros p s1 [[[-> Href] H1] | (Hp & HpL & H1)]; [by apply fwp_ret |].
  apply Z.eqb_neq in Hp as ->. destruct (root_cons g Hg _ _ _ _ _ Hr) as (r & Erc & Hch & Hrange & Hnd & Hlen). rewrite Erc in Hch, Hrange.
  eapply fwp_then; [by apply (locate_loop_holds g Hg data w r) |]. intros res s2 [H2 Hres]. rewrite <- Erc in *.
  eapply fwp_then; [by apply (kfree_holds g Hg) |]. intros [] s3 H3. apply fwp_ret. split; [done |].
  destruct res as [e b o | |]; [| by eapply (not_found g) | done].
  destruct Hres as (k & c & i & Hs & Hp & ->). destruct (found_entry g _ _ _ _ _ _ _ Hr Hs) as (l1 & e & l2 & a1 & cs & a2 & El & Hk & Ea & E1 & Hact & Hn & Hf).
  pose proof (slot_pos_lookup g Hg data rc k b o c i Hp) as Hl. rewrite El, Hk in Hl. unfold zlen in Hl. rewrite Nat2Z.id in Hl.
  rewrite list_lookup_middle in Hl by done. injection Hl as <-. exists k, c, i, l1, l2, a1, cs, a2. done.
Qed.

(** ** The new chain and its data *)

Lemma fresh_apart fat fat' data rc acts cs x : repr fat data rc acts [] -> fresh_chain g fat fat' cs -> x ∈ owned rc acts [] -> x ∉ cs.
Proof. intros Hr Hf Hx Hin. destruct (owned_used g _ _ _ _ _ _ Hr Hx) as [_ Hn]. by apply Hn, (fc_free _ _ _ _ Hf). Qed.

(** What [replace_file] has done when it comes to the directory entry. *)
Record prepared fat data fat' data' (buf : list Z) (start : Z) (cs : list Z) : Prop := {
  p_fresh : fresh_chain g fat fat' cs;
  p_chain : chain fat' start cs;
  p_count : Z.of_nat (length cs) = clusters_for (zlen buf);
  p_other : forall x, x ∉ cs -> data' x = data x;
  p_data : take (length buf) (concat (data' <$> cs)) = buf
}.

Lemma replace_prepares s L fat data name83 buf slot old (Q : Z -> fat32 E -> Prop) :
  holds s L fat data -> bytes buf -> zlen buf + bpc < 2 ^ 32 ->
  (forall s', holds s' L fat data -> e_refused (f_env s') \/ free_clusters fat < clusters_for (zlen buf) -> Q (-1) s') ->
  (forall s' fat' data' start cs, holds s' L fat' data' -> prepared fat data fat' data' buf start cs ->
     fwp (commit_entry slot old start (new_dirent name83 start (zlen buf))) Q s') ->
  fwp (replace_file name83 buf slot old) Q s.
Proof.
  intros H Hb Hl Hfail Hgo. unfold replace_file. destruct (Z.ltb_spec 0 (zlen buf)) as [Hpos | Hz].
  - eapply fwp_then; [by apply (alloc_chain_holds g Hg) |]. intros [c|] s1 Ha; [| destruct Ha; apply fwp_ret; auto].
    destruct Ha as (fat' & cs & H1 & Hf & Hk). pose proof (fresh_chain_chain g _ _ _ _ Hf) as Hch.
    eapply fwp_then; [by apply (write_data_holds g Hg s1 L fat' data c cs buf) |].
    intros r s2 [(-> & data' & H2 & Hout & Hd) | (-> & Href & H2)]; simpl negb; cbv iota.
    + apply (Hgo s2 fat' data' c (c :: cs) H2). by split.
    + apply fwp_ret, Hfail; [| by left]. apply (holds_ext g s2 L _ data _ data H2); [| done]. intros x _. symmetry. by apply (fresh_chain_clear g).
  - assert (buf = []) as -> by (destruct buf; [done | unfold zlen in Hz; simpl in Hz; lia]).
    apply fwp_bind, fwp_ret, fwp_bind, fwp_ret. simpl negb. cbv iota. apply (Hgo s fat data 0 [] H). split; try done.
    + apply (fresh_chain_nil g).
    + split; try done. constructor.
    + change (zlen []) with 0. by rewrite (clusters_zero g Hg).
Qed.

(** The directory and the files are as they were. *)
Lemma prepared_repr fat data fat' data' rc acts buf start cs : repr fat data rc acts [] -> prepared fat data fat' data' buf start cs ->
  repr fat' data' rc acts [cs] /\ slots data' rc = slots data rc /\ files_of data' acts = files_of data acts /\
  free_clusters fat' = free_clusters fat - clusters_for (zlen buf).
Proof.
  intros Hr [P1 P2 P3 P4 P5].
  assert (forall x, x ∈ owned rc acts [] -> data' x = data x) as Hsame by (intros x Hx; apply P4; by eapply fresh_apart).
  unfold owned in Hsame. split; [| split; [| split]].
  - apply (repr_data g fat' data); [by apply (repr_alloc g Hg fat) |]. intros x Hx. apply Hsame. set_solver.
  - apply (slots_ext g). intros x Hx. apply Hsame. set_solver.
  - apply (files_of_ext g Hg). intros x Hx. apply Hsame. set_solver.
  - by rewrite (free_clusters_fresh g Hg fat fat' cs P1), P3.
Qed.

Lemma prepared_entry fat data fat' data' n buf start cs : prepared fat data fat' data' buf start cs ->
  length n = 11%nat -> bytes n -> znth 0 n 0 <> 0 -> znth 0 n 0 <> FAT32_DIRENT_DELETED -> zlen buf + bpc < 2 ^ 32 ->
  let new := new_dirent n start (zlen buf) in
  file_entry g fat' n new cs /\ content data' (new, cs) = buf /\ dirent_first_cluster new = start.
Proof.
  intros [P1 P2 P3 P4 P5] Hn Hb H0 H5 Hl new. pose proof (bpc_pos g Hg). assert (0 <= zlen buf < 2 ^ 32) as Hlen by (unfold zlen in *; lia).
  assert (0 <= start < 2 ^ 32) as Hs.
  { rewrite (c_start _ _ _ _ P2). destruct cs as [|c cs]; [lia |]. pose proof (c_range _ _ _ _ P2) as Hr. apply Forall_cons in Hr as [Hc _].
    pose proof (in_range_small g Hg c Hc). lia. }
  destruct (new_lengths n start (zlen buf) Hn) as (_ & _ & _ & Hnl). destruct (new_usable n start (zlen buf) Hn) as [U1 U2].
  pose proof (new_start n start (zlen buf) Hn Hb Hs Hlen) as Est. pose proof (new_size n start (zlen buf) Hn Hb Hs Hlen) as Esz.
  split; [| split; [| done]].
  - split; [done | by apply new_bytes | | by apply new_name | done |].
    + unfold active, head_byte, new. rewrite new_head, U1 by done. unfold FAT32_DIRENT_FREE. zcases; done.
    + split; simpl; unfold new; [by rewrite Est | by rewrite Esz].
  - unfold content, new. simpl. rewrite Esz. unfold zlen. by rewrite Nat2Z.id.
Qed.

(** ** Writing a file *)

Lemma dirs_of_entry a1 e cs a2 : is_directory e = true -> d_name e ∈ dirs_of (a1 ++ (e, cs) :: a2).
Proof.
  intros Hd. unfold dirs_of. rewrite fmap_app, filter_app, fmap_app, list_to_set_app_L. cbn [fmap list_fmap]. simpl.
  rewrite filter_cons, decide_True by done. set_solver.
Qed.

Lemma dirs_of_named acts n : n ∈ dirs_of acts -> n ∈ (d_name <$> acts.*1).
Proof.
  unfold dirs_of. rewrite elem_of_list_to_set, !list_elem_of_fmap. intros (e & -> & He). apply list_elem_of_filter in He as [_ He]. eauto.
Qed.

(** A name of the map is not one of a directory. *)
Lemma dirs_of_not data acts a1 e cs a2 : acts = a1 ++ (e, cs) :: a2 -> NoDup (d_name <$> acts.*1) -> is_directory e = false -> d_name e ∉ dirs_of acts.
Proof.
  intros -> Hn Hd Hin. pose proof (names_middle _ _ _ _ eq_refl Hn) as Hnot. apply Hnot, dirs_of_named.
  rewrite (dirs_of_app a1 ([(e, cs)] ++ a2) : dirs_of (a1 ++ (e, cs) :: a2) = _), dirs_of_app, dirs_of_file in Hin by done.
  rewrite dirs_of_app. set_solver.
Qed.

Lemma write_existing s L fat data rc l1 e l2 a1 cs0 a2 n buf k b o c i :
  holds s L fat data -> repr fat data rc (a1 ++ (e, cs0) :: a2) [] -> slot_pos g rc k b o c i ->
  slots data rc = l1 ++ e :: l2 -> k = zlen l1 -> Forall (fun x => head_byte x <> 0) l1 -> a1.*1 = filter is_active l1 ->
  active e = true -> d_name e = n -> is_directory e = false ->
  length n = 11%nat -> bytes n -> znth 0 n 0 <> 0 -> znth 0 n 0 <> FAT32_DIRENT_DELETED -> bytes buf -> zlen buf + bpc < 2 ^ 32 ->
  fwp (replace_file n buf (Some (b, o)) (dirent_first_cluster e)) (fun r s' =>
    (r = 0 /\ fs_state g s' L (<[n := buf]> (files_of data (a1 ++ (e, cs0) :: a2))) (dirs_of (a1 ++ (e, cs0) :: a2))
       (free_clusters fat + clusters_for (d_size e) - clusters_for (zlen buf))) \/
    (r = -1 /\ holds s' L fat data /\ (e_refused (f_env s') \/ free_clusters fat < clusters_for (zlen buf)))) s.
Proof.
  intros H Hr Hp Es Hk Hf E1 Ha Hname Hfile Hn Hb H0 H5 Hbuf Hl. apply (replace_prepares s L fat data); [done | done | done | |].
  { intros s' H' Hwhy. by right. }
  intros s' fat' data' start cs H' HP. destruct (prepared_entry fat data fat' data' n buf start cs HP) as (Hfe & Hcont & Hst); try done.
  destruct (prepared_repr fat data fat' data' rc _ buf start cs Hr HP) as (Hr' & Es' & Ef & Efree). rewrite <- Hst at 1.
  eapply fwp_mono.
  { apply (commit_existing s' L fat' data' rc l1 e l2 a1 cs0 a2 n _ cs k b o c i H' Hr'); try done. by rewrite Es'. }
  intros r s2 (-> & fat2 & data2 & H2 & Hr2 & Ef2 & Ed2 & Efree2). left. split; [done |]. split.
  exists fat2, data2, rc, (a1 ++ (new_dirent n start (zlen buf), cs) :: a2). do 2 (split; [done |]). split; [by rewrite Ef2, Hcont, Ef |]. split; [by rewrite Ed2 |]. lia.
Qed.

(** Too few free clusters for the contents are too few in any case. *)
Lemma short_of s data rc fat n : e_refused (f_env s) \/ free_clusters fat < n ->
  e_refused (f_env s) \/ exists d, grows g data rc d /\ free_clusters fat < n + d.
Proof.
  intros [? | Hlt]; [by left | right]. destruct (grows_ex g data rc) as (d & Hd & Hr). exists d. split; [done | lia].
Qed.

Lemma write_new s L fat data rc acts n buf :
  holds s L fat data -> repr fat data rc acts [] -> n ∉ (d_name <$> acts.*1) ->
  length n = 11%nat -> bytes n -> znth 0 n 0 <> 0 -> znth 0 n 0 <> FAT32_DIRENT_DELETED -> bytes buf -> zlen buf + bpc < 2 ^ 32 ->
  fwp (replace_file n buf None 0) (fun r s' =>
    (r = 0 /\ exists d, grows g data rc d /\ fs_state g s' L (<[n := buf]> (files_of data acts)) (dirs_of acts) (free_clusters fat - clusters_for (zlen buf) - d)) \/
    (r = -1 /\ fs_state g s' L (files_of data acts) (dirs_of acts) (free_clusters fat) /\
       (e_refused (f_env s') \/ exists d, grows g data rc d /\ free_clusters fat < clusters_for (zlen buf) + d))) s.
Proof.
  intros H Hr Hnot Hn Hb H0 H5 Hbuf Hl. apply (replace_prepares s L fat data); [done | done | done | |].
  { intros s' H' Hwhy. right. split; [done |]. split; [split; by exists fat, data, rc, acts |]. by apply short_of. }
  intros s' fat' data' start cs H' HP. destruct (prepared_entry fat data fat' data' n buf start cs HP) as (Hfe & Hcont & Hst); try done.
  destruct (prepared_repr fat data fat' data' rc _ buf start cs Hr HP) as (Hr' & Es' & Ef & Efree).
  assert (2 * bpc < 2 ^ 32) as Hsmall by (pose proof (g_bpc _ Hg); pose proof (g_spc _ Hg); lia).
  eapply fwp_mono; [apply (commit_new g Hg s' L fat' data' rc acts n _ start cs H' Hr'); try done; apply HP |].
  intros r s2 [(-> & fat2 & data2 & rc2 & acts2 & d & H2 & Hr2 & Ef2 & Ed2 & Hd & Efree2) | (-> & H2 & Hwhy)].
  - left. split; [done |]. exists d. split; [by apply (grows_ext g data data') |]. split. exists fat2, data2, rc2, acts2. do 2 (split; [done |]).
    split; [by rewrite Ef2, Hcont, Ef |]. split; [by rewrite Ed2 |]. lia.
  - right. split; [done |]. split.
    2: { destruct Hwhy as [? | [Hfull Hlt]]; [by left | right]. exists 1. split; [left; split; [done |]; unfold full in *; by rewrite <- Es' | lia]. }
    split. exists fat, data', rc, acts. split.
    + apply (holds_ext g s2 L _ data' _ data' H2); [| done]. intros x _. symmetry. apply (fresh_chain_clear g). apply HP.
    + split; [| by rewrite Ef]. apply (repr_data g fat data); [done |]. intros x Hx. apply (p_other _ _ _ _ _ _ _ HP).
      eapply fresh_apart; [done | apply HP |]. unfold owned. set_solver.
Qed.

(** The size of a file of the map. *)
Lemma files_size s L fat data rc acts a1 e cs a2 : holds s L fat data -> repr fat data rc acts [] -> acts = a1 ++ (e, cs) :: a2 -> is_directory e = false ->
  files_of data acts !! d_name e = Some (content data (e, cs)) /\ zlen (content data (e, cs)) = d_size e.
Proof.
  intros H Hr Eacts Hd. assert ((e, cs) ∈ acts) as Hin by (rewrite Eacts; set_solver).
  pose proof (files_lookup g Hg data acts a1 (e, cs) a2 Eacts (r_names _ _ _ _ _ _ Hr)) as Hf. simpl in Hf. rewrite Hd in Hf. split; [done |].
  destruct (acts_entry g Hg _ _ _ _ _ _ _ _ H Hr Hin) as (_ & _ & Hsz). simpl in Hsz.
  apply (content_length g Hg s L fat data (e, cs)); [done | by apply (proj1 (Forall_forall _ _) (r_chains _ _ _ _ _ _ Hr)) | done | simpl; lia].
Qed.

Lemma entry_usable s L fat data rc acts e cs : holds s L fat data -> repr fat data rc acts [] -> (e, cs) ∈ acts ->
  length (d_name e) = 11%nat /\ bytes (d_name e).
Proof.
  intros H Hr Hin. destruct (acts_entry g Hg _ _ _ _ _ _ _ _ H Hr Hin) as (Hl & Hb & _). simpl in *. unfold d_name. split; [| by apply part_bytes].
  rewrite part_length; [done | done | done |]. unfold zlen. by rewrite Hl.
Qed.

(** The result of [fat32_write_file] from [s]. *)
Definition written s files dirs free (name buf : list Z) (L : gset Z) (r : Z) (s' : fat32 E) : Prop :=
  (r = 0 /\ exists n d, name_to_83 name = Some n /\ n ∉ dirs /\ growth g s (files !! n) d /\
     fs_state g s' L (<[n := buf]> files) dirs (free + clusters_for (zlen (default [] (files !! n))) - clusters_for (zlen buf) - d)) \/
  (r = -1 /\ fs_state g s' L files dirs free /\
     (name_to_83 name = None \/ (exists n, name_to_83 name = Some n /\ n ∈ dirs) \/ e_refused (f_env s') \/
      exists n d, name_to_83 name = Some n /\ growth g s (files !! n) d /\ free < clusters_for (zlen buf) + d)).

Lemma write_file_state s L files dirs free name buf : fs_state g s L files dirs free ->
  chars name -> head name <> Some FAT32_DIRENT_DELETED -> bytes buf -> zlen buf + bpc < 2 ^ 32 ->
  fwp (fat32_write_file name buf) (written s files dirs free name buf L) s.
Proof.
  intros Hfs Hc He Hbuf Hl. pose proof Hfs as [(fat & data & rc & acts & H & Hr & -> & -> & ->)].
  unfold fat32_write_file. apply fwp_vol. destruct (h_vol _ _ _ _ _ H) as [h Ev]. rewrite Ev. cbn [fs_ready set_hint]. rewrite (g_ready _ Hg). simpl negb. cbv iota.
  destruct (name_to_83 name) as [n|] eqn:En; [| apply fwp_ret; right; split; [done |]; split; [done | by left]].
  destruct (name_to_83_shape name n En Hc He) as (N1 & N2 & N3 & N4).
  eapply fwp_then; [by apply (locate_holds s L fat data rc acts [] n) |]. intros r s1 [H1 Hres].
  assert (fs_state g s1 L (files_of data acts) (dirs_of acts) (free_clusters fat)) as Hs1 by (split; by exists fat, data, rc, acts).
  destruct r as [e b o | |].
  - destruct Hres as (k & c & i & l1 & l2 & a1 & cs & a2 & Hp & Es & Hk & Hf & E1 & Ea & Ha & Hn). destruct (is_directory e) eqn:Ed.
    { apply fwp_ret. right. split; [done |]. split; [done |]. right. left. exists n. split; [done |]. rewrite Ea, <- Hn. by apply dirs_of_entry. }
    destruct (files_size s L fat data rc acts a1 e cs a2 H Hr Ea Ed) as [Hfl Hsz].
    pose proof (dirs_of_not data acts a1 e cs a2 Ea (r_names _ _ _ _ _ _ Hr) Ed) as Hnd. rewrite Hn in Hfl, Hnd.
    rewrite Ea in Hr. eapply fwp_mono; [by apply (write_existing s1 L fat data rc l1 e l2 a1 cs a2 n buf k b o c i) |].
    rewrite <- Ea in *. intros r s2 [[-> H2] | (-> & H2 & Hwhy)]; [left | right]; (split; [done |]).
    + exists n, 0. do 2 (split; [done |]). rewrite Hfl. split; [done |]. simpl default. by rewrite Hsz, Z.sub_0_r.
    + split; [split; by exists fat, data, rc, acts |]. right. right. destruct Hwhy; [by left | right]. exists n, 0. rewrite Hfl. split; [done |]. split; [done | lia].
  - eapply fwp_mono; [by apply (write_new s1 L fat data rc acts n buf) |]. intros r s2 [(-> & d & Hd & H2) | (-> & H2 & Hwhy)]; [left | right]; (split; [done |]).
    + exists n, d. split; [done |]. split; [intros ?%dirs_of_named; done |].
      rewrite (files_no_name g Hg data acts n) by done. split; [by apply (growth_new g Hg s L fat data rc); [| apply Hr |] |]. simpl default. change (zlen []) with 0.
      by rewrite (clusters_zero g Hg), Z.add_0_r.
    + split; [done |]. right. right. destruct Hwhy as [? | (d & Hd & Hlt)]; [by left | right]. exists n, d.
      rewrite (files_no_name g Hg data acts n) by done. split; [done |]. split; [by apply (growth_new g Hg s L fat data rc); [| apply Hr |] | done].
  - apply fwp_ret. right. split; [done |]. split; [done |]. right. right. by left.
Qed.

(** A name that starts with the mark of a deleted entry. *)
Lemma write_lost s L fat data rc acts n buf :
  holds s L fat data -> repr fat data rc acts [] -> length n = 11%nat -> bytes n -> znth 0 n 0 = FAT32_DIRENT_DELETED -> bytes buf -> zlen buf + bpc < 2 ^ 32 ->
  fwp (replace_file n buf None 0) (fun r s' =>
    (r = 0 /\ exists d, grows g data rc d /\ fs_state g s' L (files_of data acts) (dirs_of acts) (free_clusters fat - clusters_for (zlen buf) - d)) \/
    (r = -1 /\ fs_state g s' L (files_of data acts) (dirs_of acts) (free_clusters fat) /\
       (e_refused (f_env s') \/ exists d, grows g data rc d /\ free_clusters fat < clusters_for (zlen buf) + d))) s.
Proof.
  intros H Hr Hn Hb H5 Hbuf Hl. apply (replace_prepares s L fat data); [done | done | done | |].
  { intros s' H' Hwhy. right. split; [done |]. split; [split; by exists fat, data, rc, acts |]. by apply short_of. }
  intros s' fat' data' start cs H' HP. destruct (prepared_repr fat data fat' data' rc _ buf start cs Hr HP) as (Hr' & Es' & Ef & Efree).
  assert (2 * bpc < 2 ^ 32) as Hsmall by (pose proof (g_bpc _ Hg); pose proof (g_spc _ Hg); lia).
  set (new := new_dirent n start (zlen buf)). destruct (new_lengths n start (zlen buf) Hn) as (_ & _ & _ & Hnl).
  assert (head_byte new = FAT32_DIRENT_DELETED) as Hhd.
  { unfold head_byte, new. rewrite (new_head n start (zlen buf) Hn). done. }
  eapply fwp_mono.
  { apply (commit_lost g Hg s' L fat' data' rc acts new start cs H' Hr' Hsmall); [apply HP | done | by apply new_bytes | by rewrite Hhd | by apply deleted_inactive]. }
  intros r s2 [(-> & fat2 & data2 & rc2 & d & H2 & Hr2 & Ef2 & Hd & Efree2) | (-> & H2 & Hwhy)].
  - left. split; [done |]. exists d. split; [by apply (grows_ext g data data') |]. split. exists fat2, data2, rc2, acts. do 2 (split; [done |]). split; [by rewrite Ef2, Ef |]. split; [done |]. lia.
  - right. split; [done |]. split.
    2: { destruct Hwhy as [? | [Hfull Hlt]]; [by left | right]. exists 1. split; [left; split; [done |]; unfold full in *; by rewrite <- Es' | lia]. }
    split. exists fat, data', rc, acts. split.
    + apply (holds_ext g s2 L _ data' _ data' H2); [| done]. intros x _. symmetry. apply (fresh_chain_clear g). apply HP.
    + split; [| by rewrite Ef]. apply (repr_data g fat data); [done |]. intros x Hx. apply (p_other _ _ _ _ _ _ _ HP).
      eapply fresh_apart; [done | apply HP |]. unfold owned. set_solver.
Qed.

(** [fat32_write_file] with such a name reports success for a file that is
    not there afterwards. *)
Lemma write_lost_state s L files dirs free name buf : fs_state g s L files dirs free ->
  chars name -> head name = Some FAT32_DIRENT_DELETED -> bytes buf -> zlen buf + bpc < 2 ^ 32 ->
  fwp (fat32_write_file name buf) (fun r s' =>
    (r = 0 /\ exists d, growth g s None d /\ fs_state g s' L files dirs (free - clusters_for (zlen buf) - d)) \/
    (r = -1 /\ fs_state g s' L files dirs free /\ (name_to_83 name = None \/ e_refused (f_env s') \/
       exists d, growth g s None d /\ free < clusters_for (zlen buf) + d))) s.
Proof.
  intros Hfs Hc He Hbuf Hl. pose proof Hfs as [(fat & data & rc & acts & H & Hr & -> & -> & ->)].
  unfold fat32_write_file. apply fwp_vol. destruct (h_vol _ _ _ _ _ H) as [h Ev]. rewrite Ev. cbn [fs_ready set_hint]. rewrite (g_ready _ Hg). simpl negb. cbv iota.
  destruct (name_to_83 name) as [n|] eqn:En; [| apply fwp_ret; right; split; [done |]; split; [done | by left]].
  destruct (name_to_83_deleted name n En Hc He) as (N1 & N2 & N3).
  eapply fwp_then; [by apply (locate_holds s L fat data rc acts [] n) |]. intros r s1 [H1 Hres].
  assert (fs_state g s1 L (files_of data acts) (dirs_of acts) (free_clusters fat)) as Hs1 by (split; by exists fat, data, rc, acts).
  destruct r as [e b o | |].
  - exfalso. destruct Hres as (k & c & i & l1 & l2 & a1 & cs & a2 & _ & _ & _ & _ & _ & _ & Ha & Hn).
    apply active_not_deleted in Ha. apply Ha. unfold head_byte. rewrite <- (part_part_name e 0) by lia. by rewrite Hn.
  - eapply fwp_mono; [by apply (write_lost s1 L fat data rc acts n buf) |]. pose proof (growth_new g Hg s L fat data rc) as Hgr.
    intros r s2 [(-> & d & Hd & H2) | (-> & H2 & Hwhy)]; [left | right]; (split; [done |]).
    + exists d. split; [by apply Hgr; [| apply Hr |] | done].
    + split; [done |]. right. destruct Hwhy as [? | (d & Hd & Hlt)]; [by left | right]. exists d. split; [by apply Hgr; [| apply Hr |] | done].
  - apply fwp_ret. right. split; [done |]. split; [done |]. right. by left.
Qed.

(** Whatever the name, a file system is left. *)
Lemma write_any_state s L files dirs free name buf : fs_state g s L files dirs free -> chars name -> bytes buf -> zlen buf + bpc < 2 ^ 32 ->
  fwp (fat32_write_file name buf) (fun _ s' => exists files' free', fs_state g s' L files' dirs free') s.
Proof.
  intros Hfs Hc Hbuf Hl. destruct (decide (head name = Some FAT32_DIRENT_DELETED)) as [He | He].
  - eapply fwp_mono; [by apply write_lost_state |]. intros r s' [(_ & d & _ & ?) | (_ & ? & _)]; eauto.
  - eapply fwp_mono; [by apply write_file_state |]. intros r s' [(_ & n & d & _ & _ & _ & ?) | (_ & ? & _)]; eauto.
Qed.

(** ** Deleting a file *)

Lemma deleted_entry e : length e = 32%nat -> bytes e ->
  length (zset e 0 FAT32_DIRENT_DELETED) = 32%nat /\ bytes (zset e 0 FAT32_DIRENT_DELETED) /\ head_byte (zset e 0 FAT32_DIRENT_DELETED) = FAT32_DIRENT_DELETED.
Proof.
  intros Hl Hb. split; [by rewrite length_zset |]. split; [by apply zset_bytes_ok |].
  unfold head_byte. rewrite znth_zset; [done |]. unfold zlen. lia.
Qed.

Definition deleted files dirs free (name : list Z) (L : gset Z) (r : Z) (s' : fat32 E) : Prop :=
  (r = 0 /\ exists n bs, name_to_83 name = Some n /\ files !! n = Some bs /\ fs_state g s' L (delete n files) dirs (free + clusters_for (zlen bs))) \/
  (r = -1 /\ fs_state g s' L files dirs free /\
     (e_refused (f_env s') \/ forall n, name_to_83 name = Some n -> files !! n = None)).

Lemma delete_state s L files dirs free name : fs_state g s L files dirs free ->
  fwp (fat32_delete name) (deleted files dirs free name L) s.
Proof.
  intros Hfs. pose proof Hfs as [(fat & data & rc & acts & H & Hr & -> & -> & ->)].
  unfold fat32_delete. apply fwp_vol. destruct (h_vol _ _ _ _ _ H) as [h Ev]. rewrite Ev. cbn [fs_ready set_hint]. rewrite (g_ready _ Hg). simpl negb. cbv iota.
  destruct (name_to_83 name) as [n|] eqn:En; [| apply fwp_ret; right; split; [done |]; split; [done | right; intros ? Hx; congruence]].
  eapply fwp_then; [by apply (locate_holds s L fat data rc acts [] n) |]. intros r s1 [H1 Hres].
  assert (fs_state g s1 L (files_of data acts) (dirs_of acts) (free_clusters fat)) as Hs1 by (split; by exists fat, data, rc, acts).
  assert (forall (P : Prop), (files_of data acts !! n = None) -> P \/ forall n', name_to_83 name = Some n' -> files_of data acts !! n' = None) as Hno.
  { intros P Hx. right. intros n' Hn'. congruence. }
  destruct r as [e b o | |].
  2: { apply fwp_ret. right. split; [done |]. split; [done |]. by apply Hno, (files_no_name g Hg). }
  2: { apply fwp_ret. right. split; [done |]. split; [done |]. by left. }
  destruct Hres as (k & c & i & l1 & l2 & a1 & cs & a2 & Hp & Es & Hk & Hf & E1 & Ea & Ha & Hn). destruct (is_directory e) eqn:Ed.
  { apply fwp_ret. right. split; [done |]. split; [done |]. apply Hno.
    pose proof (files_lookup g Hg data acts a1 (e, cs) a2 Ea (r_names _ _ _ _ _ _ Hr)) as Hl. simpl in Hl. by rewrite Ed, Hn in Hl. }
  destruct (files_size s L fat data rc acts a1 e cs a2 H Hr Ea Ed) as [Hfl Hsz]. rewrite Hn in Hfl.
  assert ((e, cs) ∈ acts) as Hin by (rewrite Ea; set_solver).
  destruct (acts_entry g Hg _ _ _ _ _ _ _ _ H Hr Hin) as (Le & Be & _). simpl in Le, Be. destruct (deleted_entry e Le Be) as (D1 & D2 & D3).
  pose proof (proj1 (Forall_forall _ _) (r_chains _ _ _ _ _ _ Hr) _ Hin) as [Hch Hcount]. simpl in Hch, Hcount. specialize (Hcount Ed).
  eapply fwp_then; [by apply (free_start s1 L fat data _ cs) |]. intros r s2 [-> H2]. simpl negb. cbv iota.
  destruct (root_cons g Hg _ _ _ _ _ Hr) as (r & _ & _ & Hrange & Hnd & _).
  eapply fwp_then; [by apply (store_entry g Hg s2 L (clear fat cs) data rc l1 e l2 k b o c i) |]. intros r2 s3 (-> & data' & H3 & Es' & Hout). simpl negb. cbv iota.
  eapply fwp_then; [by apply (fsinfo_holds g Hg) |]. intros [] s4 H4. apply fwp_ret. left. split; [done |].
  assert (forall x, x ∈ concat acts.*2 -> data' x = data x) as Hsame.
  { intros x Hx. apply Hout. eapply outside_dir; [exact Hr |]. set_solver. }
  exists n, (content data (e, cs)). do 2 (split; [done |]). split. exists (clear fat cs), data', rc, (a1 ++ a2). split; [done |].
  pose proof (names_middle _ _ _ _ Ea (r_names _ _ _ _ _ _ Hr)) as Hnot. simpl in Hnot. rewrite Hn in Hnot.
  assert (NoDup (d_name <$> (a1 ++ a2).*1)) as Hnd2.
  { pose proof (r_names _ _ _ _ _ _ Hr) as Hx. rewrite Ea, !fmap_app in Hx. cbn [fmap list_fmap] in Hx. rewrite <- Permutation_middle in Hx.
    apply NoDup_cons in Hx as [_ Hx]. by rewrite !fmap_app. }
  split; [| split; [| split]].
  - apply (repr_drop g Hg fat). apply (repr_swap g fat data data' rc l1 e (zset e 0 FAT32_DIRENT_DELETED) l2 a1 [(e, cs)] [] a2 []); try done.
    + change (repr fat data rc (a1 ++ (e, cs) :: a2) []). by rewrite <- Ea.
    + by rewrite active_singleton.
    + by rewrite inactive_singleton by (by apply deleted_inactive).
    + apply (tail_ok_set l1 e _ l2); [done | by rewrite D3 |]. rewrite <- Es. apply Hr.
  - rewrite (files_of_ext g Hg data data') by (intros x Hx; apply Hsame; rewrite Ea, fmap_app, concat_app; rewrite fmap_app, concat_app in Hx; simpl; set_solver).
    rewrite Ea, files_middle by (rewrite <- Ea; apply Hr). unfold named. simpl fst. rewrite Ed, Hn, delete_insert_id; [done |]. by apply (files_no_name g Hg).
  - rewrite Ea, (dirs_of_app a1 ([(e, cs)] ++ a2) : dirs_of (a1 ++ (e, cs) :: a2) = _), !dirs_of_app, dirs_of_file by done. set_solver.
  - rewrite (chain_count fat _ cs Hch), Hcount, Hsz. done.
Qed.

(** ** Sizes, and blocks of the heap *)

Lemma stat_state s L files dirs free name : fs_state g s L files dirs free ->
  fwp (fat32_stat name) (fun '(rc, size) s' => fs_state g s' L files dirs free /\
    (rc = 0 /\ (exists n bs, name_to_83 name = Some n /\ files !! n = Some bs /\ size = zlen bs) \/
     rc = -1 /\ (e_refused (f_env s') \/ forall n, name_to_83 name = Some n -> files !! n = None))) s.
Proof.
  intros [(fat & data & rc & acts & H & Hr & -> & -> & ->)]. unfold fat32_stat.
  eapply fwp_then; [by apply (lookup_holds g Hg s L fat data rc acts name) |]. intros r s1 [H1 Hres].
  assert (fs_state g s1 L (files_of data acts) (dirs_of acts) (free_clusters fat)) as Hs1 by (split; by exists fat, data, rc, acts).
  destruct r as [e|]; apply fwp_ret; (split; [done |]).
  - left. split; [done |]. destruct Hres as (n & cs & a1 & a2 & Hn & Ea & Hname & Hd). exists n, (content data (e, cs)).
    destruct (files_size s L fat data rc acts a1 e cs a2 H Hr Ea Hd) as [Hf Hsz]. rewrite Hname in Hf. done.
  - right. split; [done |]. destruct Hres as [? | [Hn | (n & Hn & Hf)]]; [by left | right; intros; congruence | right; intros; congruence].
Qed.

(** Contents are bytes, and their size is a 32-bit number. *)
Lemma files_bytes s L files dirs free n bs : fs_state g s L files dirs free -> files !! n = Some bs -> bytes bs /\ zlen bs < 2 ^ 32.
Proof.
  intros [(fat & data & rc & acts & H & Hr & -> & _ & _)] Hl. apply elem_of_list_to_map_2 in Hl. apply list_elem_of_omap in Hl as (p & Hp & Hn).
  unfold named in Hn. destruct (is_directory p.1) eqn:Ed; [done |]. injection Hn as _ <-.
  pose proof (proj1 (Forall_forall _ _) (r_chains _ _ _ _ _ _ Hr) p Hp) as Hec.
  destruct (acts_entry g Hg _ _ _ _ _ _ _ _ H Hr Hp) as (_ & _ & Hsz).
  pose proof (content_length g Hg s L fat data p H Hec Ed ltac:(lia)) as El. split; [| lia].
  unfold content. apply Forall_take, concat_bytes, Forall_fmap, Forall_forall. intros c Hc. simpl. apply (holds_data g Hg s L fat data c H).
    destruct Hec as [Hch _]. by apply (Forall_forall in_range p.2); [apply Hch |].
Qed.

Lemma kmalloc_state s L files dirs free n : fs_state g s L files dirs free -> 0 <= n < 2 ^ 32 ->
  fwp (fs_kmalloc n) (fun p s' => p = 0 /\ fs_state g s' L files dirs free \/ p <> 0 /\ p ∉ L /\ fs_state g s' ({[p]} ∪ L) files dirs free) s.
Proof.
  intros [(fat & data & rc & acts & H & Hr & E1 & E2 & E3)] Hn. eapply fwp_mono; [by apply (kmalloc_any g Hg s L fat data n) |].
  intros p s' [[[-> _] H'] | (Hp & HpL & H')]; [left | right]; (split; [done |]); [| split; [done |]]; split; by exists fat, data, rc, acts.
Qed.

Lemma kfree_state s L files dirs free p : p ∉ L -> fs_state g s ({[p]} ∪ L) files dirs free -> fwp (fs_kfree p) (fun _ s' => fs_state g s' L files dirs free) s.
Proof.
  intros Hp [(fat & data & rc & acts & H & Hr & E1 & E2 & E3)]. eapply fwp_mono; [by apply (kfree_holds g Hg s L fat data p) |].
  intros [] s' H'. split. by exists fat, data, rc, acts.
Qed.
End Spec.
