(* ===== verification/FatProps.v ===== *)
(** * The promises of the FAT32 file system

    The theorems about [fs/fat32.c], each with a run on a small formatted
    disk that meets its hypotheses ([Demo]). *)

From Stdlib Require Import ZArith Lia Bool.
From stdpp Require Import base gmap fin_maps functions list.
From S2P Require Import Prelude Fat FatBytes FatDisk FatChain FatDir FatFiles FatWrite FatSpec.

(** ** A disk of eight sectors in memory *)

Module Demo.
Definition blocks : Z := 9.
Record ram := mkRam { t_next : Z; t_live : gset Z; t_sector : Z -> list Z }.

Definition is_byte (b : Z) : bool := (0 <=? b) && (b <? 256).

(** A heap that serves requests up to 4096 bytes, and a disk that checks its
    arguments. *)
#[export] Instance ram_env : FsEnv ram := {
  e_kmalloc e n := if 4096 <? n then (e, 0) else (mkRam (t_next e + 1) ({[t_next e]} ∪ t_live e) (t_sector e), t_next e);
  e_kfree e p := mkRam (t_next e) (t_live e ∖ {[p]}) (t_sector e);
  e_disk_read e lba n := (e, if (0 <=? lba) && (0 <? n) && (lba + n <=? blocks) then Some (concat (t_sector e <$> seqZ lba n)) else None);
  e_disk_write e lba n bs :=
    if (0 <=? lba) && (0 <? n) && (lba + n <=? blocks) && (Z.of_nat (length bs) =? 512 * n) && forallb is_byte bs
    then (mkRam (t_next e) (t_live e) (fun b => if (lba <=? b) && (b <? lba + n) then part bs (512 * (b - lba)) 512 else t_sector e b), 0)
    else (e, -1)
}.

Record ram_ok (e : ram) (L : gset Z) : Prop := {
  ok_next : 0 < t_next e;
  ok_live : t_live e = L;
  ok_below : forall p, p ∈ L -> p < t_next e;
  ok_sector : forall b, length (t_sector e b) = 512%nat /\ bytes (t_sector e b)
}.

Lemma forallb_bytes bs : forallb is_byte bs = true -> bytes bs.
Proof.
  induction bs as [|b bs IH]; [done |]. simpl. intros H. apply andb_true_iff in H as [Hb H]. unfold is_byte in Hb. zbool. constructor; [lia | auto].
Qed.

Lemma ram_write e L lba n bs : ram_ok e L -> length bs = Z.to_nat (512 * n) -> bytes bs ->
  ram_ok (mkRam (t_next e) (t_live e) (fun b => if (lba <=? b) && (b <? lba + n) then part bs (512 * (b - lba)) 512 else t_sector e b)) L.
Proof.
  intros [H1 H2 H3 H4] Hl Hb. split; simpl; try done.
  intros b. destruct (Z.leb_spec lba b), (Z.ltb_spec b (lba + n)); simpl; try apply H4.
  split; [| by apply part_bytes]. rewrite part_length; [done | lia | lia |]. unfold zlen. lia.
Qed.

#[export, program] Instance ram_laws : EnvLaws ram := { e_ok := ram_ok }.
Next Obligation.
  intros e L n e' p [H1 H2 H3 H4] Hn. simpl. destruct (4096 <? n); intros [= <- <-]; [by left |]. right.
  split; [lia |]. split; [intros Hx; specialize (H3 _ Hx); lia |]. split; simpl; [lia | by rewrite H2 | | done].
  intros x [-> %elem_of_singleton | Hx]%elem_of_union; [lia |]. specialize (H3 x Hx). lia.
Qed.
Next Obligation. intros e L p [H1 H2 H3 H4] Hp. split; simpl; [done | by rewrite H2 | set_solver | done]. Qed.

#[export, program] Instance ram_disk : DiskLaws ram := { disk_blocks := blocks; e_sector := t_sector }.
Next Obligation. intros e L b H. apply (ok_sector _ _ H). Qed.
Next Obligation. intros e L n b H Hn. simpl. by destruct (4096 <? n). Qed.
Next Obligation. intros e L p b H Hp. done. Qed.
Next Obligation.
  intros e L lba n H Hl Hn Hb. simpl. destruct (Z.leb_spec 0 lba), (Z.ltb_spec 0 n), (Z.leb_spec (lba + n) blocks); try lia. by exists e.
Qed.
Next Obligation.
  intros e L lba n bs H Hl Hn Hb Hlen Hby. cbn [e_disk_write ram_env].
  destruct (Z.leb_spec 0 lba), (Z.ltb_spec 0 n), (Z.leb_spec (lba + n) blocks), (Z.eqb_spec (Z.of_nat (length bs)) (512 * n)); try lia. simpl andb.
  assert (forallb is_byte bs = true) as ->.
  { clear - Hby. induction Hby as [|b bs Hb _ IH]; [done |]. simpl. rewrite IH. unfold is_byte. zcases; simpl; lia || done. }
  eexists. split; [reflexivity |]. split; [by apply ram_write | done].
Qed.

(** A volume of six one-sector clusters with two copies of the FAT, as
    [fat32_init] leaves it. *)
Definition geo : volume := mkVolume 512 1 512 1 1 2 3 2 6 0 true 2.

Lemma geo_ok : geometry (E := logged ram) geo.
Proof. split; cbn; unfold blocks, FAT32_CLUSTER_BAD; try lia; try done. Qed.

(** The file A.B with the bytes 7 8 9 in cluster 3, and the directory D in
    cluster 4. *)
Definition raw (b x : Z) : list Z := [b; 32; 32; 32; 32; 32; 32; 32; x; 32; 32].
Definition name_A : list Z := raw 65 66.
Definition dirent_A : dirent := new_dirent name_A 3 3.
Definition dirent_D : dirent := zset (new_dirent (raw 68 32) 4 0) 11 FAT32_ATTR_DIRECTORY.
Definition pad (l : list Z) : list Z := l ++ replicate (512 - length l) 0.
Definition fat_block0 : list Z := pad (concat (le_bytes 4 <$> [0x0FFFFFF8; 0x0FFFFFFF; 0x0FFFFFF8; 0x0FFFFFF8; 0x0FFFFFF8])).
Definition ram0 : ram := mkRam 1000 ∅ (fun b =>
  if (b =? 1) || (b =? 2) then fat_block0 else if b =? 3 then pad (dirent_A ++ dirent_D) else if b =? 4 then pad [7; 8; 9] else pad []).
(** Nothing was refused yet. *)
Definition s0 : fat32 (logged ram) := mkFat32 geo (mkLogged ram0 false).
Definition files0 : gmap (list Z) (list Z) := {[ name_A := [7; 8; 9] ]}.
Definition dirs0 : gset (list Z) := {[ raw 68 32 ]}.

Definition rest0 : list dirent := replicate 14 (replicate 32 0).
Definition data0 : Z -> list Z := data_at geo ram0.
Definition fat0 : Z -> Z := fat_at geo 0 ram0.

Lemma sectors_ok : Forall (fun l => length l = 512%nat /\ forallb is_byte l = true) [fat_block0; pad (dirent_A ++ dirent_D); pad [7; 8; 9]; pad []].
Proof. repeat constructor; vm_compute; reflexivity. Qed.

Lemma ram0_ok : ram_ok ram0 ∅.
Proof.
  pose proof sectors_ok as H. rewrite !Forall_cons in H. destruct H as ([A1 A2] & [B1 B2] & [C1 C2] & [D1 D2] & _).
  split; [done | done | by intros p Hp%not_elem_of_empty |]. intros b. cbn [t_sector ram0].
  destruct (_ || _); [split; [done | by apply forallb_bytes] |]. destruct (b =? 3); [split; [done | by apply forallb_bytes] |].
  destruct (b =? 4); (split; [done | by apply forallb_bytes]).
Qed.

Lemma holds0 : holds geo s0 ∅ fat0 data0.
Proof.
  split; [apply ram0_ok | by exists 2 | | done]. intros k c Hk Hc.
  assert (k = 0 \/ k = 1) as [-> | ->] by (simpl in Hk; lia); [done |]. unfold in_range in Hc. simpl in Hc.
  assert (c / 128 = 0) as Ed by (apply Z.div_small; lia). unfold fat0, fat_at, fat_sector. by rewrite Ed.
Qed.

Lemma slots0 : slots geo data0 [2] = dirent_A :: dirent_D :: rest0.
Proof. vm_compute. reflexivity. Qed.

Lemma fats0 : fat0 2 = 0x0FFFFFF8 /\ fat0 3 = 0x0FFFFFF8 /\ fat0 4 = 0x0FFFFFF8.
Proof. repeat split; vm_compute; reflexivity. Qed.

Definition acts0 : list (dirent * list Z) := [(dirent_A, [3]); (dirent_D, [4])].

(** The entries: name, first cluster, size, kind. *)
Lemma entry_A : active dirent_A = true /\ d_name dirent_A = name_A /\ dirent_first_cluster dirent_A = 3 /\ d_size dirent_A = 3 /\ is_directory dirent_A = false.
Proof. repeat split; vm_compute; reflexivity. Qed.
Lemma entry_D : active dirent_D = true /\ d_name dirent_D = raw 68 32 /\ dirent_first_cluster dirent_D = 4 /\ is_directory dirent_D = true.
Proof. repeat split; vm_compute; reflexivity. Qed.

Lemma one_cluster c : 2 <= c < 8 -> fat0 c = 0x0FFFFFF8 -> chain geo fat0 c [c].
Proof.
  intros Hc Hf. split; [cbn [chained]; rewrite Hf; done | constructor; [| done]; unfold in_range; simpl; lia | apply NoDup_singleton | done].
Qed.

Lemma repr0 : repr geo fat0 data0 [2] acts0 [].
Proof.
  destruct fats0 as (F2 & F3 & F4), entry_A as (A1 & A2 & A3 & A4 & A5), entry_D as (D1 & D2 & D3 & D4). split.
  - by apply one_cluster.
  - rewrite slots0. cbn [fmap list_fmap]. simpl fst. rewrite !filter_cons, !decide_True by done. rewrite filter_none; [done |]. by apply Forall_replicate.
  - rewrite slots0. vm_compute. repeat constructor.
  - change (NoDup [d_name dirent_A; d_name dirent_D]). rewrite A2, D2. apply NoDup_cons. split; [| apply NoDup_singleton]. intros Hx%list_elem_of_singleton. discriminate.
  - constructor; [| constructor; [| done]]; (split; simpl fst; simpl snd); rewrite ?A3, ?D3, ?A4; try by apply one_cluster.
    + done.
    + rewrite D4. done.
  - done.
  - apply (bool_decide_unpack (NoDup [2; 3; 4])). vm_compute. exact I.
Qed.

Lemma fs0 : fs_state geo s0 ∅ files0 dirs0 3.
Proof.
  split. exists fat0, data0, [2], acts0. split; [apply holds0 |]. split; [apply repr0 |]. split; [| split].
  - vm_compute. reflexivity.
  - vm_compute. reflexivity.
  - vm_compute. reflexivity.
Qed.

Notation name_B := [98; 46; 99] (only parsing).
End Demo.

(** ** Names *)

Section Names.
Context (ub ux : list Z) (Hb : (length ub <= 8)%nat) (Hx : (length ux <= 3)%nat).
Context (Nb : Forall (fun c => c <> 32) ub) (Nx : Forall (fun c => c <> 32) ux).

(** The stored form of a base and an extension. *)
Definition stored : list Z := ub ++ replicate (8 - length ub) 32 ++ ux ++ replicate (3 - length ux) 32.

Lemma stored_length : length stored = 11%nat.
Proof. unfold stored. rewrite !length_app, !length_replicate. lia. Qed.

Lemma stored_patch : patch (patch (replicate (Z.to_nat FAT32_NAME_LENGTH) 32) 0 ub) 8 ux = stored.
Proof.
  assert (patch (replicate (Z.to_nat FAT32_NAME_LENGTH) 32) 0 ub = ub ++ replicate (11 - length ub) 32) as ->.
  { unfold patch. change (Z.to_nat 0) with 0%nat. by rewrite drop_replicate. }
  unfold patch, stored. change (Z.to_nat 8) with 8%nat. rewrite take_app_ge, drop_app_ge by lia. rewrite take_replicate, drop_replicate, <- app_assoc.
  f_equal. f_equal; [f_equal; lia |]. f_equal. f_equal. lia.
Qed.

Lemma stored_from : name_from_83 stored = ub ++ match ux with [] => [] | _ => 46 :: ux end.
Proof.
  unfold name_from_83. assert (length (ub ++ replicate (8 - length ub) 32) = 8%nat) as H8 by (rewrite length_app, length_replicate; lia).
  assert (part stored 0 FAT32_BASE_LENGTH = ub ++ replicate (8 - length ub) 32) as ->.
  { unfold part, stored. change (Z.to_nat 0) with 0%nat. rewrite drop_0, app_assoc. by apply take_app_length'. }
  assert (part stored FAT32_BASE_LENGTH FAT32_EXT_LENGTH = ux ++ replicate (3 - length ux) 32) as ->.
  { unfold part, stored. rewrite app_assoc, drop_app_length' by done. apply take_ge. rewrite length_app, length_replicate. unfold FAT32_EXT_LENGTH. lia. }
  rewrite !until_space_run by done. f_equal. unfold stored. rewrite app_assoc, znth_app_r by (unfold zlen; rewrite H8; done).
  unfold zlen. rewrite H8. change (FAT32_BASE_LENGTH - Z.of_nat 8) with 0. destruct ux as [|c x]; [done |]. apply Forall_cons in Nx as [Nc _].
  change (znth 0 _ 0) with c. by apply Z.eqb_neq in Nc as ->.
Qed.
End Names.

(** A file name of one to eight characters, and up to three after a dot,
    is stored in upper case and padded to eleven bytes, and the stored form
    reads back as the name in upper case: two names with the same stored form
    differ at most in case. *)
Theorem name_83_roundtrip base ext : 1 <= zlen base <= 8 -> zlen ext <= 3 ->
  Forall (fun c => c <> 46 /\ c <> 32) base -> Forall (fun c => c <> 32) ext ->
  let name := base ++ match ext with [] => [] | _ => 46 :: ext end in
  exists raw, length raw = 11%nat /\ name_to_83 name = Some raw /\ name_from_83 raw = to_upper <$> name.
Proof.
  intros Hb Hx Fb Fx name. unfold zlen in Hb, Hx. set (ub := to_upper <$> base). set (ux := to_upper <$> ext).
  assert (forall l, Forall (fun c => c <> 32) l -> Forall (fun c => c <> 32) (to_upper <$> l)) as Hup.
  { intros l Hl. apply Forall_fmap. eapply Forall_impl; [exact Hl |]. intros c Hc. apply to_upper_ne; [done | lia]. }
  assert (Forall (fun c => c <> 32) ub) as Nb by (apply Hup; eapply Forall_impl; [exact Fb |]; by intros ? [_ ?]).
  assert (length ub = length base /\ length ux = length ext) as [Lb Lx] by (split; apply length_fmap).
  exists (stored ub ux). split; [apply stored_length; lia |]. split.
  - unfold name_to_83, name. rewrite base_83_run; [| by eapply Forall_impl; [exact Fb |]; intros ? [? _] | by destruct ext | lia | unfold zlen; lia | done].
    fold ub. rewrite Z.add_0_l. unfold zlen. destruct (Z.eqb_spec (Z.of_nat (length base)) 0); [lia |]. rewrite <- stored_patch by lia.
    destruct ext as [|c ext]; [by unfold ux; rewrite patch_nil |]. rewrite ext_83_run; [by rewrite Z.add_0_r | lia | unfold zlen; lia |].
    rewrite patch_length; [done | lia |]. unfold zlen. rewrite length_replicate. unfold FAT32_NAME_LENGTH. lia.
  - rewrite stored_from; [| lia | lia | done | by apply Hup]. unfold name, ux. rewrite fmap_app. f_equal. by destruct ext.
Qed.

Lemma name_83_roundtrip_witness : exists raw, length raw = 11%nat /\ name_to_83 [104; 105; 46; 116] = Some raw /\ name_from_83 raw = [72; 73; 46; 84].
Proof. apply (name_83_roundtrip [104; 105] [116]); [done | done | repeat constructor; done | repeat constructor; done]. Defined.

(** ** Listing *)

(** The bytes a listing writes for [names]. *)
Definition listing (names : list (list Z)) : list Z := concat ((fun n => until_nul n ++ [10]) <$> names).

Lemma until_nul_length l : zlen (until_nul l) <= zlen l.
Proof. unfold zlen. induction l as [|c l IH]; [done |]. cbn [until_nul]. destruct (c =? 0); cbn [length]; lia. Qed.

Record sink_ok (k : name_sink) : Prop := {
  k_used : sk_used k = zlen (sk_bytes k);
  k_room : sk_used k + 1 <= sk_size k;
  k_count : 0 <= sk_count k <= sk_used k;
  k_size : sk_size k + 16 < 2 ^ 32
}.

Lemma sink_add k n : sink_ok k -> zlen n <= 12 ->
  sink_ok (fat32_name_sink_add k n) /\ sk_size (fat32_name_sink_add k n) = sk_size k /\
  (sk_used k + zlen (until_nul n) + 2 <= sk_size k ->
    sk_bytes (fat32_name_sink_add k n) = sk_bytes k ++ until_nul n ++ [10] /\ sk_count (fat32_name_sink_add k n) = sk_count k + 1).
Proof.
  intros [H1 H2 H3 H4] Hn. pose proof (until_nul_length n) as Hl. unfold fat32_name_sink_add. clear - H1 H2 H3 H4 Hn Hl. set (m := until_nul n) in *. clearbody m.
  assert (0 <= zlen m /\ 0 <= zlen (sk_bytes k)) as [Hp Hp'] by (unfold zlen; lia). rewrite u32_small by lia. destruct (Z.ltb_spec (sk_size k) (sk_used k + zlen m + 2)); [split; [done | split; [done | lia]] |].
  simpl. rewrite !u32_small by lia. split; [| done]. split; simpl; try lia. rewrite H1, !zlen_app. unfold zlen. simpl. lia.
Qed.

Lemma sink_fold names : forall k, sink_ok k -> Forall (fun n => zlen n <= 12) names ->
  let k' := foldl fat32_name_sink_add k names in
  sink_ok k' /\ sk_size k' = sk_size k /\
  (sk_used k + zlen (listing names) + 1 <= sk_size k -> sk_bytes k' = sk_bytes k ++ listing names /\ sk_count k' = sk_count k + zlen names).
Proof.
  induction names as [|n names IH]; intros k Hk Hn k'.
  { subst k'. simpl. do 2 (split; [done |]). intros _. unfold listing. simpl. rewrite app_nil_r. unfold zlen. simpl. split; [done | lia]. }
  apply Forall_cons in Hn as [Hn Hr]. destruct (sink_add k n Hk Hn) as (S1 & S2 & S3). destruct (IH _ S1 Hr) as (I1 & I2 & I3). subst k'. cbn [foldl].
  split; [done |]. split; [congruence |]. unfold listing. cbn [fmap list_fmap concat]. fold (listing names). rewrite !zlen_app. change (zlen [10]) with 1. intros Hfit.
  assert (0 <= zlen (listing names)) by (unfold zlen; lia).
  destruct S3 as [E1 E2]; [lia |]. destruct I3 as [E3 E4].
  - rewrite (k_used _ S1), E1, !zlen_app, S2, <- (k_used _ Hk). change (zlen [10]) with 1. lia.
  - rewrite E3, E1, E4, E2, <- !app_assoc. split; [done |]. unfold zlen. cbn [length]. lia.
Qed.

Lemma until_space_length l : (length (until_space l) <= length l)%nat.
Proof. induction l as [|c l IH]; [done |]. simpl. destruct (c =? 32); simpl; lia. Qed.

Lemma name_from_83_length raw : zlen (name_from_83 raw) <= 12.
Proof.
  unfold name_from_83, zlen. rewrite length_app. pose proof (until_space_length (part raw 0 FAT32_BASE_LENGTH)) as H1.
  pose proof (until_space_length (part raw FAT32_BASE_LENGTH FAT32_EXT_LENGTH)) as H2. unfold part in *. rewrite length_take in H1, H2.
  unfold FAT32_BASE_LENGTH, FAT32_EXT_LENGTH in *. destruct (negb _); simpl length in *; lia.
Qed.

Section Listing.
Context {E : Type} {env : FsEnv E} {mk : Marks E} {laws : EnvLaws E} {disk : DiskLaws E}.
Context (g : volume) (Hg : geometry g).
Implicit Types s : fat32 E.
Implicit Types L : gset Z.
Notation bpc := (fs_bytes_per_cluster g).

Lemma names_all data acts : NoDup (d_name <$> acts.*1) -> dom (files_of data acts) ∪ dirs_of acts = list_to_set (d_name <$> acts.*1).
Proof.
  intros Hn. induction acts as [|p acts IH]; [done |]. pose proof (files_middle data [] p acts Hn) as Ef. cbn [app] in Ef. rewrite Ef.
  rewrite (dirs_of_app [p] acts : dirs_of (p :: acts) = _). cbn [fmap list_fmap list_to_set]. simpl list_to_set. simpl in Hn. apply NoDup_cons in Hn as [_ Hn].
  rewrite <- (IH Hn). unfold named. destruct (is_directory p.1) eqn:Ed.
  - assert (dirs_of [p] = {[ d_name p.1 ]}) as -> by (unfold dirs_of; cbn [fmap list_fmap]; rewrite filter_cons, decide_True by done; set_solver). set_solver.
  - rewrite dirs_of_file, dom_insert_L by done. set_solver.
Qed.

Lemma list_names_state s L files dirs free bufsize : fs_state g s L files dirs free -> 0 < bufsize -> bufsize + 16 < 2 ^ 32 ->
  fwp (fat32_list_names bufsize) (fun '(rc, bs, count) s' => fs_state g s' L files dirs free /\
    zlen bs <= bufsize /\
    (rc = -1 /\ e_refused (f_env s') \/
     rc = 0 /\ exists ns, NoDup ns /\ list_to_set ns = dom files ∪ dirs /\
       let text := listing (name_from_83 <$> ns) in
       (zlen text < bufsize -> bs = text ++ [0] /\ count = zlen ns))) s.
Proof.
  intros [(fat & data & rc & acts & H & Hr & -> & -> & ->)] Hpos Hmax.
  assert (forall s', holds g s' L fat data -> fs_state g s' L (files_of data acts) (dirs_of acts) (free_clusters g fat)) as Hst
    by (intros s' H'; split; by exists fat, data, rc, acts).
  unfold fat32_list_names. apply fwp_vol. destruct (h_vol _ _ _ _ _ H) as [h Ev]. rewrite Ev. cbn [fs_ready fs_root_cluster set_hint].
  rewrite (g_ready _ Hg). simpl negb. destruct (Z.eqb_spec bufsize 0); [lia |]. simpl orb. cbv iota. apply fwp_bind.
  unfold walk_directory. apply fwp_vol. rewrite Ev. cbn [fs_bytes_per_cluster fs_total_clusters set_hint].
  eapply fwp_then; [by apply (kmalloc_holds g Hg) |]. intros p s1 [[[-> Href] H1] | (Hp & HpL & H1)].
  { apply fwp_ret. simpl. apply fwp_ret. split; [by apply Hst |]. split; [change (zlen [0]) with 1; lia | by left]. }
  apply Z.eqb_neq in Hp as ->. destruct (root_cons g Hg _ _ _ _ _ Hr) as (r & Erc & Hch & Hrange & _ & Hlen). rewrite Erc in Hch, Hrange.
  eapply fwp_then; [by apply (walk_loop_list g Hg data r) |]. intros w s2 (H2 & Ew & Es). rewrite <- Erc in Es.
  eapply fwp_then; [by apply (kfree_holds g Hg) |]. intros [] s3 H3. apply fwp_ret. rewrite Ew, Es. simpl negb. cbv iota. apply fwp_ret.
  split; [by apply Hst |]. unfold shown. rewrite (live_filter _ (r_tail _ _ _ _ _ _ Hr)), <- (r_dir _ _ _ _ _ _ Hr).
  destruct (sink_fold (name_from_83 <$> (d_name <$> acts.*1)) (mkSink [] bufsize 0 0)) as (S1 & S2 & S3).
  { split; simpl; unfold zlen; simpl; lia. }
  { apply Forall_fmap, Forall_forall. intros x _. simpl. apply name_from_83_length. }
  rewrite <- list_fmap_compose in S1, S2, S3. change (name_from_83 ∘ d_name) with (fun e => name_from_83 (d_name e)) in *.
  set (k := foldl _ _ _) in *. pose proof (k_room _ S1). pose proof (k_used _ S1). simpl in S2. split; [rewrite zlen_app; change (zlen [0]) with 1; lia |]. right. split; [done |].
  exists (d_name <$> acts.*1). split; [apply Hr |]. split; [symmetry; by apply names_all, Hr |]. rewrite <- list_fmap_compose.
  change (name_from_83 ∘ d_name) with (fun e => name_from_83 (d_name e)). cbv zeta. intros Hfit. simpl in S3. destruct S3 as [-> ->]; [lia |].
  split; [done |]. unfold zlen. by rewrite !length_fmap.
Qed.

End Listing.

(** ** The theorems *)

(** The environment records whether a request for memory was refused, so
    that a failure can be traced to this call. *)
Section Props.
Context {E : Type} {env : FsEnv E} {rf : Refusals E} {laws : EnvLaws E} {disk : DiskLaws E}.
Context (g : volume) (Hg : geometry g).
Implicit Types s : fat32 E.
Implicit Types L : gset Z.
Notation bpc := (fs_bytes_per_cluster g).

Lemma marked s s' : e_refused (f_env s') -> refused_during s s'.
Proof. by intros H _. Qed.

(** C24: [fat32_write_file] is the update of one point of the map from stored
    names to contents, in every copy of the FAT, for a name that does not
    start with 0xE5, the mark of a deleted entry. On success the name has
    the new contents, every other file and every directory is as it was, and
    the free clusters are exactly what they were, plus those of the old
    contents, less those of the new, less one if the name is new and the
    directory was full. On failure nothing has changed and no cluster is
    lost; the name has no stored form or is a directory's, the heap refused
    a request of this call, or there are not enough free clusters for the
    new contents and the growth of the directory. *)
Theorem fat32_write_file_refines s L files dirs free name buf : fs_state g s L files dirs free ->
  chars name -> head name <> Some FAT32_DIRENT_DELETED -> bytes buf -> zlen buf + bpc < 2 ^ 32 ->
  fwp (fat32_write_file name buf) (fun rc s' =>
    (rc = 0 /\ exists n d, name_to_83 name = Some n /\ n ∉ dirs /\ growth g s (files !! n) d /\
       fs_state g s' L (<[n := buf]> files) dirs
         (free + clusters_for g (zlen (default [] (files !! n))) - clusters_for g (zlen buf) - d)) \/
    (rc = -1 /\ fs_state g s' L files dirs free /\
       (name_to_83 name = None \/ (exists n, name_to_83 name = Some n /\ n ∈ dirs) \/ refused_during s s' \/
        exists n d, name_to_83 name = Some n /\ growth g s (files !! n) d /\ free < clusters_for g (zlen buf) + d))) s.
Proof.
  intros Hfs Hc He Hb Hl. eapply fwp_mono; [by apply (write_file_state g Hg s L files dirs free name buf) |].
  intros rc s' [? | (-> & H & Hwhy)]; [by left | right]. do 2 (split; [done |]).
  destruct Hwhy as [? | [? | [? | ?]]]; [by left | by right; left | right; right; left; by apply marked | by right; right; right].
Qed.

(** C25: [fat32_delete] removes one file from the map and gives its clusters
    back; it fails without effect when there is no such file or the heap
    refused a request of this call. *)
Theorem fat32_delete_removes s L files dirs free name : fs_state g s L files dirs free ->
  fwp (fat32_delete name) (fun rc s' =>
    (rc = 0 /\ exists n bs, name_to_83 name = Some n /\ files !! n = Some bs /\
       fs_state g s' L (delete n files) dirs (free + clusters_for g (zlen bs))) \/
    (rc = -1 /\ fs_state g s' L files dirs free /\ (refused_during s s' \/ forall n, name_to_83 name = Some n -> files !! n = None))) s.
Proof.
  intros Hfs. eapply fwp_mono; [by apply (delete_state g Hg s L files dirs free name) |].
  intros rc s' [? | (-> & H & Hwhy)]; [by left | right]. do 2 (split; [done |]). destruct Hwhy; [left; by apply marked | by right].
Qed.

(** C26: [fat32_read_file] returns exactly the contents and the size of the
    file; it fails only when there is no such file, the buffer is too small
    or the heap refused a request of this call, and never changes the
    volume. *)
Theorem fat32_read_file_contents s L files dirs free name bufsize : fs_state g s L files dirs free ->
  fwp (fat32_read_file name bufsize) (fun '(rc, bs, size) s' => fs_state g s' L files dirs free /\
    (rc = 0 /\ (exists n, name_to_83 name = Some n /\ files !! n = Some bs) /\ size = zlen bs /\ zlen bs <= bufsize \/
     rc = -1 /\ bs = [] /\ (refused_during s s' \/ forall n bs', name_to_83 name = Some n -> files !! n = Some bs' -> bufsize < zlen bs'))) s.
Proof.
  intros Hfs. eapply fwp_mono; [by apply (read_file_state g Hg s L files dirs free name bufsize) |].
  intros [[rc bs] size] s' [H [? | (-> & -> & Hwhy)]]; (split; [done |]); [by left | right]. do 2 (split; [done |]).
  destruct Hwhy; [left; by apply marked | by right].
Qed.

(** C39: a name that starts with the byte 0xE5, the mark of a deleted entry,
    is accepted by [fat32_write_file]: it reports success, but no file is
    added, no file of that name can be read, and the clusters of the
    contents are gone. *)
Theorem fat32_write_deleted_mark s L files dirs free name buf : fs_state g s L files dirs free ->
  chars name -> head name = Some FAT32_DIRENT_DELETED -> bytes buf -> zlen buf + bpc < 2 ^ 32 ->
  fwp (fat32_write_file name buf) (fun rc s' =>
    (rc = 0 /\ exists d, growth g s None d /\ fs_state g s' L files dirs (free - clusters_for g (zlen buf) - d)) \/
    (rc = -1 /\ fs_state g s' L files dirs free /\ (name_to_83 name = None \/ refused_during s s' \/
       exists d, growth g s None d /\ free < clusters_for g (zlen buf) + d))) s.
Proof.
  intros Hfs Hc He Hb Hl. eapply fwp_mono; [by apply (write_lost_state g Hg s L files dirs free name buf) |].
  intros rc s' [? | (-> & H & Hwhy)]; [by left | right]. do 2 (split; [done |]).
  destruct Hwhy as [? | [? | ?]]; [by left | right; left; by apply marked | by right; right].
Qed.

(** [fat32_list_names] never writes more than the buffer holds, and in a
    buffer with room for all of them stores the name of every file and
    directory once, a newline after each, and a final NUL. *)
Theorem fat32_list_names_bounded s L files dirs free bufsize : fs_state g s L files dirs free -> 0 < bufsize -> bufsize + 16 < 2 ^ 32 ->
  fwp (fat32_list_names bufsize) (fun '(rc, bs, count) s' => fs_state g s' L files dirs free /\
    zlen bs <= bufsize /\
    (rc = -1 /\ refused_during s s' \/
     rc = 0 /\ exists ns, NoDup ns /\ list_to_set ns = dom files ∪ dirs /\
       let text := listing (name_from_83 <$> ns) in
       (zlen text < bufsize -> bs = text ++ [0] /\ count = zlen ns))) s.
Proof.
  intros Hfs H1 H2. eapply fwp_mono; [by apply (list_names_state g Hg s L files dirs free bufsize) |].
  intros [[rc bs] count] s' (H & Hl & [[-> ?] | ?]); (do 2 (split; [done |])); [left | by right]. split; [done | by apply marked].
Qed.

(** C27: The two passes of [find_free_cluster] over the sectors of the FAT, with
    their buffered inner loop, find the same cluster as a search of the
    entries one by one from the hint around to it; there is none exactly when
    no cluster is free, and [fat32_free_count] is the number of free ones. *)
Theorem find_free_cluster_equiv s L fat data h : holds g s L fat data -> f_vol s = set_hint g h ->
  fwp find_free_cluster (fun r s' => holds g s' L fat data /\ r = free_from g fat (search_start g h) /\
    (r = None <-> forall c, in_range g c -> fat c <> 0)) s /\
  fwp fat32_free_count (fun r s' => holds g s' L fat data /\ r = free_clusters g fat) s.
Proof.
  intros H Ev. split; [| by apply (free_count_holds g Hg)].
  eapply fwp_mono; [by apply (find_free_holds g Hg s L fat data h) |]. intros r s' [H' ->]. do 2 (split; [done |]). split.
  - apply (free_from_None g Hg).
  - intros Hall. destruct (free_from g fat (search_start g h)) as [c|] eqn:Ef; [| done]. apply (free_from_Some g Hg) in Ef as [Hc Hz]. by apply Hall in Hz.
Qed.
End Props.

(** ** Runs *)

Section Runs.
Import Demo.

(** What the operations return on the small disk. *)
Lemma runs0 : (fat32_write_file name_B [1; 2] s0).2 = 0 /\ (fat32_delete [97; 46; 98] s0).2 = 0 /\
  (fat32_read_file [97; 46; 98] 10 s0).2 = (0, [7; 8; 9], 3) /\ (fat32_list_names 100 s0).2 = (0, [65; 46; 66; 10; 68; 10; 0], 2) /\
  (find_free_cluster s0).2 = Some 5.
Proof. repeat split; vm_compute; reflexivity. Qed.

(** Fourteen entries of its directory are free. *)
Lemma not_full0 : ~ dir_full geo s0.
Proof.
  rewrite (dir_full_eq geo geo_ok s0 ∅ fat0 data0 [2] holds0 (r_root _ _ _ _ _ _ repr0)). unfold full. rewrite slots0.
  intros Hf. assert (head_byte (replicate 32 0) <> 0) as H; [| by apply H]. apply (proj1 (Forall_forall _ _) Hf). vm_compute. by right; right; left.
Qed.

Lemma fat32_write_file_refines_witness : (fat32_write_file name_B [1; 2] s0).2 = 0 /\
  fs_state geo (fat32_write_file name_B [1; 2] s0).1 ∅ (<[raw 66 67 := [1; 2]]> files0) dirs0 2.
Proof.
  pose proof (fat32_write_file_refines geo geo_ok s0 ∅ files0 dirs0 3 name_B [1; 2] fs0 ltac:(repeat constructor; done) ltac:(done) ltac:(repeat constructor; done) ltac:(done)) as H.
  destruct runs0 as (Hrc & _). unfold fwp in H.
  destruct (fat32_write_file name_B [1; 2] s0) as [s' rc]. simpl in Hrc |- *. split; [done |]. subst rc.
  destruct H as [[(_ & n & d & Hn & _ & Hd & Hs) | [? _]] _]; [| done]. assert (n = raw 66 67) as -> by (injection Hn as <-; reflexivity).
  assert (files0 !! raw 66 67 = None) as Hnew by (vm_compute; reflexivity). rewrite Hnew in Hd. destruct Hd as [[_ Hf] | [-> _]]; [by destruct not_full0 |].
  assert (3 + clusters_for geo (zlen (default [] (files0 !! raw 66 67))) - clusters_for geo (zlen [1; 2]) - 0 = 2) as Hc by (vm_compute; reflexivity).
  rewrite Hc in Hs. exact Hs.
Defined.

Lemma fat32_delete_removes_witness : (fat32_delete [97; 46; 98] s0).2 = 0 /\ fs_state geo (fat32_delete [97; 46; 98] s0).1 ∅ ∅ dirs0 4.
Proof.
  pose proof (fat32_delete_removes geo geo_ok s0 ∅ files0 dirs0 3 [97; 46; 98] fs0) as H. destruct runs0 as (_ & Hrc & _). unfold fwp in H.
  destruct (fat32_delete [97; 46; 98] s0) as [s' rc]. simpl in Hrc |- *. split; [done |]. subst rc.
  destruct H as [[(_ & n & bs & Hn & Hf & Hs) | [? _]] _]; [| done]. assert (n = name_A) as -> by (injection Hn as <-; reflexivity).
  assert (files0 !! name_A = Some [7; 8; 9] /\ delete name_A files0 = ∅) as [Hl Hd] by (split; vm_compute; reflexivity).
  rewrite Hl in Hf. injection Hf as <-. rewrite Hd in Hs. exact Hs.
Defined.

Lemma fat32_read_file_contents_witness : (fat32_read_file [97; 46; 98] 10 s0).2 = (0, [7; 8; 9], 3) /\
  fs_state geo (fat32_read_file [97; 46; 98] 10 s0).1 ∅ files0 dirs0 3 /\ exists n, name_to_83 [97; 46; 98] = Some n /\ files0 !! n = Some [7; 8; 9].
Proof.
  pose proof (fat32_read_file_contents geo geo_ok s0 ∅ files0 dirs0 3 [97; 46; 98] 10 fs0) as H. destruct runs0 as (_ & _ & Hrc & _). unfold fwp in H.
  destruct (fat32_read_file [97; 46; 98] 10 s0) as [s' r]. simpl in Hrc |- *. subst r. destruct H as [[Hs [(_ & Hf & _) | [? _]]] _]; done.
Defined.

Lemma fat32_write_deleted_mark_witness : (fat32_write_file [0xE5; 46; 99] [1; 2] s0).2 = 0 /\
  fs_state geo (fat32_write_file [0xE5; 46; 99] [1; 2] s0).1 ∅ files0 dirs0 2.
Proof.
  pose proof (fat32_write_deleted_mark geo geo_ok s0 ∅ files0 dirs0 3 [0xE5; 46; 99] [1; 2] fs0 ltac:(repeat constructor; done) ltac:(done) ltac:(repeat constructor; done) ltac:(done)) as H.
  assert ((fat32_write_file [0xE5; 46; 99] [1; 2] s0).2 = 0) as Hrc by (vm_compute; reflexivity). unfold fwp in H.
  destruct (fat32_write_file [0xE5; 46; 99] [1; 2] s0) as [s' rc]. simpl in Hrc |- *. split; [done |]. subst rc.
  destruct H as [[(_ & d & Hd & Hs) | [? _]] _]; [| done]. destruct Hd as [[_ Hf] | [-> _]]; [by destruct not_full0 | exact Hs].
Defined.

Lemma fat32_list_names_bounded_witness : (fat32_list_names 100 s0).2 = (0, [65; 46; 66; 10; 68; 10; 0], 2) /\
  fs_state geo (fat32_list_names 100 s0).1 ∅ files0 dirs0 3.
Proof.
  pose proof (fat32_list_names_bounded geo geo_ok s0 ∅ files0 dirs0 3 100 fs0 ltac:(done) ltac:(done)) as H. destruct runs0 as (_ & _ & _ & Hrc & _). unfold fwp in H.
  destruct (fat32_list_names 100 s0) as [s' r]. simpl in Hrc |- *. subst r. destruct H as [[Hs _] _]. done.
Defined.

Lemma find_free_cluster_equiv_witness : Some 5 = free_from geo fat0 2 /\ ~ forall c, in_range geo c -> fat0 c <> 0.
Proof.
  destruct (find_free_cluster_equiv geo geo_ok s0 ∅ fat0 data0 2 holds0 ltac:(done)) as [H _]. destruct runs0 as (_ & _ & _ & _ & Hrc). unfold fwp in H.
  destruct (find_free_cluster s0) as [s' r]. simpl in Hrc. subst r. destruct H as [(_ & Hr & Hn) _]. split; [exact Hr |]. intros Hall. by apply Hn in Hall.
Defined.
End Runs.
