(* ===== verification/FatMount.v ===== *)
(** * Mounting a volume

    [fat32_init] accepts a boot sector when it describes a FAT32 volume of
    512-byte sectors ([bpb_ok]), and also when the size of its metadata
    exceeds 32 bits and what is left of it is smaller than the volume
    ([bpb_wraps]); it accepts no other. What it then stores is the geometry
    the other operations need, for a volume whose FAT and data fit the disk
    ([bpb_fits]; the code takes that from the formatter). *)

From Stdlib Require Import ZArith Lia Bool.
From stdpp Require Import base gmap fin_maps functions list.
From S2P Require Import Prelude Fat FatBytes FatDisk FatProps.

Lemma power_of_two_byte n : byte n -> is_power_of_two n = true <-> n ∈ [1; 2; 4; 8; 16; 32; 64; 128].
Proof.
  intros Hn. assert (forallb (fun n => bool_decide (is_power_of_two n = true <-> n ∈ [1; 2; 4; 8; 16; 32; 64; 128])) (seqZ 0 256) = true) as H by (vm_compute; reflexivity).
  rewrite forallb_forall in H. specialize (H n). rewrite <- list_elem_of_In in H. rewrite elem_of_seqZ in H. specialize (H ltac:(lia)).
  by apply bool_decide_eq_true_1 in H.
Qed.

(** Fields of the boot sector. *)
Definition b_spc (b : list Z) : Z := znth 0 b 13.
Definition b_reserved (b : list Z) : Z := get16 b 14.
Definition b_fats (b : list Z) : Z := znth 0 b 16.
Definition b_total (b : list Z) : Z := get32 b 32.
Definition b_spf (b : list Z) : Z := get32 b 36.
Definition b_root (b : list Z) : Z := get32 b 44.
Definition b_info (b : list Z) : Z := get16 b 48.
Definition b_data (b : list Z) : Z := b_reserved b + b_fats b * b_spf b.
Definition b_clusters (b : list Z) : Z := (b_total b - b_data b) / b_spc b.

(** The fields one by one. *)
Record bpb_fields (b : list Z) : Prop := {
  b_signature : get16 b 510 = 0xAA55;
  b_sector : get16 b 11 = 512;
  b_power : b_spc b ∈ [1; 2; 4; 8; 16; 32; 64; 128];
  b_has_fats : 0 < b_fats b;
  b_has_reserved : 0 < b_reserved b;
  b_has_spf : 0 < b_spf b;
  b_root_lo : 2 <= b_root b
}.

(** A FAT32 boot sector: the reserved sectors and the FATs leave room for
    data. *)
Definition bpb_ok (b : list Z) : Prop := bpb_fields b /\ b_data b < b_total b.

(** Reserved sectors and FATs that are larger than any volume, but whose
    number in 32 bits looks small enough. *)
Definition bpb_wraps (b : list Z) : Prop := bpb_fields b /\ 2 ^ 32 <= b_data b /\ u32 (b_data b) < b_total b.

(** The test of the code. *)
Lemma room_cases b : 0 <= b_data b -> b_total b < 2 ^ 32 ->
  bpb_fields b /\ u32 (b_data b) < b_total b <-> bpb_ok b \/ bpb_wraps b.
Proof.
  intros H0 Ht. unfold bpb_ok, bpb_wraps. destruct (Z.lt_ge_cases (b_data b) (2 ^ 32)) as [Hs | Hl].
  - rewrite u32_small by lia. split; [tauto | intros [? | (_ & ? & _)]; [done | lia]].
  - split; [intros []; by right | intros [[_ ?] | (? & _ & ?)]; [lia | done]].
Qed.

Section Mount.
Context {E : Type} {env : FsEnv E} {mk : Marks E} {laws : EnvLaws E} {disk : DiskLaws E}.
Implicit Types s : fat32 E.

(** What [fat32_init] does not check. *)
Record bpb_fits (b : list Z) : Prop := {
  b_on_disk : b_total b <= disk_blocks;
  b_disk_lba : disk_blocks < 2 ^ 32;
  b_data_lo : b_data b < 2 ^ 32;
  b_some : 1 <= b_clusters b;
  b_fat_room : b_clusters b + 2 <= 128 * b_spf b;
  b_marks : b_clusters b + 2 <= FAT32_CLUSTER_BAD;
  b_root_hi : b_root b < b_clusters b + 2;
  b_info_ok : b_info b = 0 \/ b_info b = 0xFFFF \/ 1 <= b_info b < b_reserved b
}.

Lemma get16_range bs o : bytes bs -> 0 <= get16 bs o < 65536.
Proof. intros H. rewrite get16_val by done. pose proof (znth_byte bs o H). pose proof (znth_byte bs (o + 1) H). lia. Qed.

Lemma parse_ok b h old : bytes b -> get16 b 510 = 0xAA55 ->
  let '(v, rc) := parse_bpb b h old in
  ((bpb_fields b /\ u32 (b_data b) < b_total b) /\ rc = 0 /\ fs_ready v = true /\ (bpb_fits b -> geometry v)) \/
  (~ (bpb_fields b /\ u32 (b_data b) < b_total b) /\ rc = -1 /\ (fs_ready old = false -> fs_ready v = false)).
Proof.
  intros Hb Hsig. unfold parse_bpb. pose proof (znth_byte b 13 Hb) as Rspc. pose proof (znth_byte b 16 Hb) as Rfats.
  pose proof (get16_range b 14 Hb) as Rres. pose proof (get32_range b 36 Hb) as Rspf. pose proof (get32_range b 32 Hb) as Rtot. pose proof (get32_range b 44 Hb) as Rroot.
  fold (b_spc b) (b_reserved b) (b_fats b) (b_total b) (b_spf b) (b_root b) (b_info b). unfold DISK_SECTOR_SIZE, FAT32_FIRST_DATA_CLUSTER.
  destruct (Z.eqb_spec (get16 b 11) 512) as [E1 |]; [| right; split; [by intros [[] _] | done]]. simpl negb. cbv iota.
  destruct (is_power_of_two (b_spc b)) eqn:E2; [| right; split; [intros [[] _]; by apply power_of_two_byte in b_power0; [congruence |] | done]].
  apply power_of_two_byte in E2; [| done]. simpl negb. cbv iota. destruct (Z.eqb_spec (b_fats b) 0); [right; split; [intros [[] ?]; lia | done] |].
  destruct (Z.eqb_spec (b_reserved b) 0); [right; split; [intros [[] ?]; lia | done] |]. simpl orb. cbv iota.
  destruct (Z.eqb_spec (b_spf b) 0); [right; split; [intros [[] ?]; lia | done] |]. destruct (Z.ltb_spec (b_root b) 2); [right; split; [intros [[] ?]; lia | done] |].
  assert (u32 (b_reserved b + u32 (b_fats b * b_spf b)) = u32 (b_data b)) as -> by (unfold u32, b_data; by rewrite Zplus_mod_idemp_r).
  destruct (Z.leb_spec (b_total b) (u32 (b_data b))) as [| Hroom]; [right; split; [intros [[] ?]; lia | done] |].
  assert (1 <= b_spc b <= 128) as Hspc by (rewrite !elem_of_cons, elem_of_nil in E2; lia).
  fold (b_spc b) in Rspc. fold (b_reserved b) in Rres. fold (b_fats b) in Rfats. fold (b_spf b) in Rspf. fold (b_total b) in Rtot. fold (b_root b) in Rroot.
  left. split; [split; [split; done || lia | done] |]. split; [done |]. split; [done |]. intros [F1 F2 F3 F4 F5 F6 F7 F8].
  assert (u32 (b_data b) = b_data b) as Hd by (apply u32_small; unfold b_data in *; nia). rewrite Hd in *.
  assert (0 <= b_data b) as Hd0 by (unfold b_data; nia).
  rewrite (u32_small (_ - _)) by lia. fold (b_clusters b). rewrite (u32_small (get16 b 11 * b_spc b)) by (rewrite E1; lia).
  split; cbn [fs_bytes_per_sector fs_sectors_per_cluster fs_bytes_per_cluster fs_first_fat_block fs_sectors_per_fat fs_num_fats
    fs_first_data_block fs_root_cluster fs_total_clusters fs_fsinfo_block fs_ready]; try done; try lia; try (rewrite E1; done).
  pose proof (Z.mul_div_le (b_total b - b_data b) (b_spc b) ltac:(lia)) as Hdiv. fold (b_clusters b) in Hdiv. lia.
Qed.

(** C28: [fat32_init] returns 0 exactly when the boot sector describes a FAT32
    volume of 512-byte sectors whose reserved sectors and FATs leave room for
    data, or one whose reserved sectors and FATs are so many that their
    number wraps at 32 bits to one that seems to; on a volume that fits its FAT and its disk the
    variables it sets then are a geometry for every other operation, and
    after a failure the file system is not ready. The disk and the heap are
    unchanged. *)
Theorem fat32_init_geometry s L : e_ok (f_env s) L -> 1 <= disk_blocks ->
  fwp fat32_init (fun rc s' =>
    (forall b, e_sector (f_env s') b = e_sector (f_env s) b) /\ e_ok (f_env s') L /\
    let boot := e_sector (f_env s) 0 in
    ((bpb_ok boot \/ bpb_wraps boot) /\ rc = 0 /\ fs_ready (f_vol s') = true /\ (bpb_fits boot -> geometry (f_vol s')) \/
     ~ bpb_ok boot /\ ~ bpb_wraps boot /\ rc = -1 /\ fs_ready (f_vol s') = false)) s.
Proof.
  intros Hok Hd. unfold fat32_init. apply fwp_bind, fwp_upd. set (s1 := mkFat32 _ _).
  eapply fwp_then; [apply (read_sector s1 L FAT32_BOOT_BLOCK); [done | unfold FAT32_BOOT_BLOCK; lia] |]. intros r s2 (-> & V2 & O2 & S2).
  change (f_env s1) with (f_env s) in *. change FAT32_BOOT_BLOCK with 0. destruct (law_sector (f_env s) L 0 Hok) as [_ Hb].
  set (boot := e_sector (f_env s) 0) in *. change FAT32_SIGNATURE_OFFSET with 510. pose proof (get16_range boot 510 Hb) as R. unfold u16. rewrite Z.mod_small by lia.
  assert (fs_ready (f_vol s2) = false) as Hnr by (by rewrite V2).
  destruct (Z.eqb_spec (get16 boot 510) FAT32_SIGNATURE) as [Hsig | Hsig]; simpl negb; cbv iota.
  2: { apply fwp_ret. split; [done |]. split; [done |]. right. split; [by intros [[] _] | split; [by intros [[] _] | done]]. }
  apply fwp_vol. pose proof (parse_ok boot (fs_next_free_hint (f_vol s2)) (f_vol s2) Hb Hsig) as Hp.
  destruct (parse_bpb _ _ _) as [v rc]. apply fwp_bind, fwp_upd, fwp_ret. cbn [f_env f_vol]. split; [done |]. split; [done |].
  assert (0 <= b_data boot /\ b_total boot < 2 ^ 32) as [D0 T0].
  { pose proof (get32_range boot 32 Hb). pose proof (get32_range boot 36 Hb). pose proof (get16_range boot 14 Hb). pose proof (znth_byte boot 16 Hb).
    unfold b_data, b_total, b_reserved, b_fats, b_spf. nia. }
  rewrite (room_cases boot D0 T0) in Hp.
  destruct Hp as [(P1 & P2 & P3 & P4) | (P1 & P2 & P3)]; [by left | right]. apply Decidable.not_or in P1 as [? ?]. auto.
Qed.
End Mount.

(** ** A boot sector *)

Module Boot.
Import Demo.

(** 512-byte sectors, one per cluster, one reserved, two FATs of one sector,
    nine sectors in all, the root directory in cluster 2. *)
Definition boot : list Z :=
  let b := pad [] in
  let b := patch b 11 (le_bytes 2 512) in
  let b := patch b 13 [1; 1; 0; 2] in
  let b := patch b 32 (le_bytes 4 9) in
  let b := patch b 36 (le_bytes 4 1) in
  let b := patch b 44 (le_bytes 4 2) in
  patch b 510 [0x55; 0xAA].
Definition ram1 : ram := mkRam 1000 ∅ (fun b => if b =? 0 then boot else t_sector ram0 b).
Definition start : fat32 (logged ram) := mkFat32 (mkVolume 0 0 0 0 0 0 0 0 0 0 false 2) (mkLogged ram1 false).

Lemma ram1_ok : ram_ok ram1 ∅.
Proof.
  destruct ram0_ok as [H1 H2 H3 H4]. split; [done | done | done |]. intros b. cbn [t_sector ram1]. destruct (b =? 0); [| apply H4].
  assert (length boot = 512%nat /\ forallb is_byte boot = true) as [Hl Hb] by (split; vm_compute; reflexivity). split; [done | by apply forallb_bytes].
Qed.

Lemma boot_fits : bpb_fits (E := logged ram) boot.
Proof. split; try (vm_compute; done). left. vm_compute. reflexivity. Qed.

(** Two FATs of 2^31 sectors each on a volume of nine sectors: the metadata
    wraps to one sector. *)
Definition wrapped : list Z := patch boot 36 (le_bytes 4 (2 ^ 31)).
Definition ram2 : ram := mkRam 1000 ∅ (fun b => if b =? 0 then wrapped else t_sector ram0 b).

Lemma wrapped_mounts : bpb_wraps wrapped /\ b_total wrapped < b_data wrapped /\
  (fat32_init (mkFat32 (mkVolume 0 0 0 0 0 0 0 0 0 0 false 2) (mkLogged ram2 false))).2 = 0.
Proof.
  split; [| split; vm_compute; reflexivity]. split; [split; try (vm_compute; done) | split; vm_compute; done].
  apply (bool_decide_unpack _). vm_compute. exact I.
Qed.
End Boot.

Section MountRun.
Import Demo Boot.

Lemma fat32_init_geometry_witness : (fat32_init start).2 = 0 /\ geometry (E := logged ram) (f_vol (fat32_init start).1).
Proof.
  pose proof (fat32_init_geometry start ∅ ram1_ok ltac:(done)) as H. assert ((fat32_init start).2 = 0) as Hrc by (vm_compute; reflexivity).
  unfold fwp in H. destruct (fat32_init start) as [s' rc]. simpl in Hrc |- *. split; [done |]. subst rc.
  destruct H as [(_ & _ & [(_ & _ & _ & Hgeo) | (_ & _ & ? & _)]) _]; [| done]. apply Hgeo, boot_fits.
Defined.
End MountRun.
