(* ===== verification/Ring.v ===== *)
(** * Ring buffers

    The kernel has two: the byte buffer of a pipe ([kernel/pipe.c],
    [PIPE_SIZE] = 4096) and the keyboard buffer ([drivers/keyboard.c],
    [KBD_BUFFER_SIZE] = 128).  Both keep one slot free to tell full from
    empty.  [ring_list] reads a ring as the FIFO queue it implements; the
    lemmas say that the index arithmetic of the source implements it. *)

From stdpp Require Import base list list_numbers.
From Stdlib Require Import ZArith Lia Bool.
From S2P Require Import Prelude.

(** Bytes queued between the indices of a ring of [size] slots. *)
Definition ring_used (size ri wi : Z) : Z := u32 (wi + size - ri) mod size.

(** The [n] bytes from index [ri] on. *)
Fixpoint ring_read (size : Z) (buf : list Z) (n : nat) (ri : Z) : list Z :=
  match n with
  | O => []
  | S n' => znth 0 buf ri :: ring_read size buf n' ((ri + 1) mod size)
  end.

Definition ring_list (size : Z) (buf : list Z) (ri wi : Z) : list Z :=
  ring_read size buf (Z.to_nat (ring_used size ri wi)) ri.

Definition ring_ok (size : Z) (buf : list Z) (ri wi : Z) : Prop :=
  zlen buf = size /\ 0 <= ri < size /\ 0 <= wi < size.

(** ** The pipe object *)

Definition PIPE_SIZE : Z := 4096.

Record pipe := mkPipe {
  p_buf : list Z; read_index : Z; write_index : Z; readers : Z; writers : Z }.

Definition pipe_used (p : pipe) : Z := ring_used PIPE_SIZE (read_index p) (write_index p).
Definition pipe_space (p : pipe) : Z := PIPE_SIZE - 1 - pipe_used p.

(** The copy loop of [pipe_read]: [n] bytes out. *)
Definition pipe_take (n : Z) (p : pipe) : list Z * pipe :=
  for_range (Z.to_nat n) 0 (fun _ '(out, p) =>
    (out ++ [znth 0 (p_buf p) (read_index p)],
     mkPipe (p_buf p) ((read_index p + 1) mod PIPE_SIZE) (write_index p) (readers p) (writers p)))
    ([], p).

(** The copy loop of [pipe_write]: [buf[0..n)] in. *)
Definition pipe_put (n : Z) (buf : list Z) (p : pipe) : pipe :=
  for_range (Z.to_nat n) 0 (fun i p =>
    mkPipe (zset (p_buf p) (write_index p) (znth 0 buf i)) (read_index p)
      ((write_index p + 1) mod PIPE_SIZE) (readers p) (writers p)) p.

(** What is queued in a pipe. *)
Definition pipe_list (p : pipe) : list Z := ring_list PIPE_SIZE (p_buf p) (read_index p) (write_index p).
Definition pipe_ok (p : pipe) : Prop := ring_ok PIPE_SIZE (p_buf p) (read_index p) (write_index p).

(** ** The keyboard buffer *)

Definition KBD_BUFFER_SIZE : Z := 128.

Record kbd := mkKbd {
  kbd_buffer : list Z; kbd_write_index : Z; kbd_read_index : Z;
  shift_held : bool; caps_on : bool; ctrl_held : bool; console_eof : bool }.

Definition kbd_buffer_push (b : kbd) (c : Z) : kbd :=
  let next := (kbd_write_index b + 1) mod KBD_BUFFER_SIZE in
  if next =? kbd_read_index b then b
  else mkKbd (zset (kbd_buffer b) (kbd_write_index b) c) next (kbd_read_index b)
         (shift_held b) (caps_on b) (ctrl_held b) (console_eof b).

(** [keyboard_getchar]: 0 when the buffer is empty. *)
Definition keyboard_getchar (b : kbd) : kbd * Z :=
  if kbd_read_index b =? kbd_write_index b then (b, 0)
  else
    (mkKbd (kbd_buffer b) (kbd_write_index b) ((kbd_read_index b + 1) mod KBD_BUFFER_SIZE)
       (shift_held b) (caps_on b) (ctrl_held b) (console_eof b),
     u8 (znth 0 (kbd_buffer b) (kbd_read_index b))).

(** [keyboard_console_eof]: report and consume the pending end of input. *)
Definition keyboard_console_eof (b : kbd) : kbd * bool :=
  if console_eof b then
    (mkKbd (kbd_buffer b) (kbd_write_index b) (kbd_read_index b)
       (shift_held b) (caps_on b) (ctrl_held b) false, true)
  else (b, false).

Definition kbd_list (b : kbd) : list Z :=
  ring_list KBD_BUFFER_SIZE (kbd_buffer b) (kbd_read_index b) (kbd_write_index b).
Definition kbd_ok (b : kbd) : Prop :=
  ring_ok KBD_BUFFER_SIZE (kbd_buffer b) (kbd_read_index b) (kbd_write_index b) /\
  Forall (fun c => 0 <= c < 256) (kbd_buffer b).

(** ** Ring arithmetic *)

Section Ring.
Context (size : Z) (Hsize : 1 < size <= 4096).

Lemma ring_used_range buf ri wi : ring_ok size buf ri wi -> 0 <= ring_used size ri wi < size.
Proof. intros. unfold ring_used. apply Z.mod_pos_bound. lia. Qed.

Lemma ring_used_eq buf ri wi :
  ring_ok size buf ri wi -> ring_used size ri wi = if ri <=? wi then wi - ri else wi + size - ri.
Proof.
  intros (_ & H1 & H2). unfold ring_used. rewrite u32_small by lia. zcases.
  - symmetry. apply (Z.mod_unique _ _ 1); lia.
  - apply Z.mod_small. lia.
Qed.

Lemma ring_step x : 0 <= x < size -> (x + 1) mod size = if x + 1 =? size then 0 else x + 1.
Proof.
  intros. destruct (Z.eqb_spec (x + 1) size) as [-> | ]; [apply Z.mod_same; lia | apply Z.mod_small; lia].
Qed.

Lemma ring_read_length buf n ri : length (ring_read size buf n ri) = n.
Proof. revert ri. induction n as [|n IH]; intros ri; simpl; [done |]. by rewrite IH. Qed.

Lemma ring_list_length buf ri wi :
  ring_ok size buf ri wi -> zlen (ring_list size buf ri wi) = ring_used size ri wi.
Proof.
  intros H%ring_used_range. unfold ring_list, zlen. rewrite ring_read_length. lia.
Qed.

Lemma ring_read_snoc buf n ri :
  0 <= ri < size ->
  ring_read size buf (S n) ri = ring_read size buf n ri ++ [znth 0 buf ((ri + Z.of_nat n) mod size)].
Proof.
  revert ri. induction n as [|n IH]; intros ri Hri.
  - simpl. rewrite Z.add_0_r, Z.mod_small by lia. done.
  - change (ring_read size buf (S (S n)) ri) with
      (znth 0 buf ri :: ring_read size buf (S n) ((ri + 1) mod size)).
    rewrite IH by (apply Z.mod_pos_bound; lia). simpl. do 3 f_equal.
    rewrite Zplus_mod_idemp_l. f_equal. f_equal. lia.
Qed.

(** Writing a slot that is not among those read changes nothing. *)
Lemma ring_read_frame buf n ri w c :
  0 <= ri < size -> (forall i, 0 <= i < Z.of_nat n -> (ri + i) mod size <> w) ->
  ring_read size (zset buf w c) n ri = ring_read size buf n ri.
Proof.
  revert ri. induction n as [|n IH]; intros ri Hri Hw; simpl; [done |]. f_equal.
  - apply znth_zset_ne. intros ->. apply (Hw 0); [lia |]. rewrite Z.add_0_r. by apply Z.mod_small.
  - apply IH; [apply Z.mod_pos_bound; lia |]. intros i Hi. rewrite Zplus_mod_idemp_l.
    replace (ri + 1 + i) with (ri + (i + 1)) by lia. apply Hw. lia.
Qed.

(** Taking from a nonempty ring takes the head of the queue. *)
Lemma ring_pop buf ri wi :
  ring_ok size buf ri wi -> 0 < ring_used size ri wi ->
  ring_ok size buf ((ri + 1) mod size) wi /\
  ring_used size ((ri + 1) mod size) wi = ring_used size ri wi - 1 /\
  ring_list size buf ri wi = znth 0 buf ri :: ring_list size buf ((ri + 1) mod size) wi.
Proof.
  intros Hok Hu. pose proof Hok as (Hl & H1 & H2).
  assert (ring_ok size buf ((ri + 1) mod size) wi) as Hok'.
  { split; [done |]. split; [apply Z.mod_pos_bound; lia | done]. }
  assert (ring_used size ((ri + 1) mod size) wi = ring_used size ri wi - 1) as E.
  { revert Hu. rewrite (ring_used_eq _ _ _ Hok), (ring_used_eq _ _ _ Hok'), ring_step by done. zcases; lia. }
  split; [done |]. split; [done |]. unfold ring_list. rewrite E.
  by replace (Z.to_nat (ring_used size ri wi)) with (S (Z.to_nat (ring_used size ri wi - 1))) by lia.
Qed.

(** Putting into a ring that is not full appends to the queue. *)
Lemma ring_push buf ri wi c :
  ring_ok size buf ri wi -> ring_used size ri wi < size - 1 ->
  ring_ok size (zset buf wi c) ri ((wi + 1) mod size) /\
  ring_used size ri ((wi + 1) mod size) = ring_used size ri wi + 1 /\
  ring_list size (zset buf wi c) ri ((wi + 1) mod size) = ring_list size buf ri wi ++ [c].
Proof.
  intros Hok Hu. pose proof Hok as (Hl & H1 & H2). pose proof (ring_used_range _ _ _ Hok) as Hr.
  assert (ring_ok size (zset buf wi c) ri ((wi + 1) mod size)) as Hok'.
  { split; [by rewrite zlen_zset |]. split; [done |]. apply Z.mod_pos_bound; lia. }
  assert (ring_used size ri ((wi + 1) mod size) = ring_used size ri wi + 1) as E.
  { revert Hu. rewrite (ring_used_eq _ _ _ Hok), (ring_used_eq _ _ _ Hok'), ring_step by done. zcases; lia. }
  split; [done |]. split; [done |]. unfold ring_list. rewrite E.
  replace (Z.to_nat (ring_used size ri wi + 1)) with (S (Z.to_nat (ring_used size ri wi))) by lia.
  assert (forall i, 0 <= i < ring_used size ri wi -> (ri + i) mod size <> wi) as Hne.
  { intros i Hi. revert Hi Hr Hu. rewrite (ring_used_eq _ _ _ Hok). intros.
    destruct (Z.lt_ge_cases (ri + i) size) as [Hlt | Hge].
    - rewrite Z.mod_small by lia. revert Hi. zcases; lia.
    - rewrite <- (Z.mod_unique (ri + i) size 1 (ri + i - size)) by lia. revert Hi. zcases; lia. }
  rewrite ring_read_snoc by done. rewrite Z2Nat.id by lia. f_equal.
  - apply ring_read_frame; [done |]. intros i Hi. apply Hne. lia.
  - assert ((ri + ring_used size ri wi) mod size = wi) as ->.
    { rewrite (ring_used_eq _ _ _ Hok). zcases.
      - rewrite Z.mod_small; lia.
      - symmetry. apply (Z.mod_unique _ _ 1); lia. }
    by rewrite znth_zset_eq by lia.
Qed.

Lemma ring_used_empty buf ri wi : ring_ok size buf ri wi -> (ring_used size ri wi = 0 <-> ri = wi).
Proof. intros Hok. rewrite (ring_used_eq _ _ _ Hok). destruct Hok as (_ & H1 & H2). zcases; lia. Qed.

Lemma ring_used_full buf ri wi :
  ring_ok size buf ri wi -> (ring_used size ri wi = size - 1 <-> (wi + 1) mod size = ri).
Proof.
  intros Hok. rewrite (ring_used_eq _ _ _ Hok). destruct Hok as (_ & H1 & H2).
  rewrite ring_step by done. zcases; lia.
Qed.
End Ring.

(** ** The pipe loops *)

Lemma pipe_used_range p : pipe_ok p -> 0 <= pipe_used p < PIPE_SIZE.
Proof. apply ring_used_range. unfold PIPE_SIZE. lia. Qed.

Lemma pipe_list_length p : pipe_ok p -> zlen (pipe_list p) = pipe_used p.
Proof. apply ring_list_length. unfold PIPE_SIZE. lia. Qed.

Lemma pipe_take_loop n p out :
  pipe_ok p -> Z.of_nat n <= pipe_used p ->
  exists q, for_range n 0 (fun _ '(out, p) =>
    (out ++ [znth 0 (p_buf p) (read_index p)],
     mkPipe (p_buf p) ((read_index p + 1) mod PIPE_SIZE) (write_index p) (readers p) (writers p)))
    (out, p) = (out ++ take n (pipe_list p), q) /\
  pipe_ok q /\ pipe_list q = drop n (pipe_list p) /\ readers q = readers p /\ writers q = writers p.
Proof.
  generalize 0 at 1. revert p out. induction n as [|n IH]; intros p out i Hok Hn.
  - exists p. simpl. rewrite app_nil_r. done.
  - destruct (ring_pop PIPE_SIZE ltac:(unfold PIPE_SIZE; lia) _ _ _ Hok) as (Hok' & Hu & Hl);
      [unfold pipe_used in Hn; lia |].
    set (p' := mkPipe (p_buf p) ((read_index p + 1) mod PIPE_SIZE) (write_index p) (readers p) (writers p)).
    destruct (IH p' (out ++ [znth 0 (p_buf p) (read_index p)]) (i + 1)) as (q & E & Q1 & Q2 & Q3 & Q4);
      [done | unfold pipe_used in *; simpl; lia |].
    exists q. cbn [for_range]. fold p'. rewrite E.
    change (pipe_list p) with (ring_list PIPE_SIZE (p_buf p) (read_index p) (write_index p)). rewrite Hl.
    rewrite <- app_assoc. split; [done |]. split; [done |]. split; [exact Q2 |]. done.
Qed.

(** Reading dequeues the first [n] bytes in order. *)
Lemma pipe_take_spec n p :
  pipe_ok p -> 0 <= n <= pipe_used p ->
  exists q, pipe_take n p = (take (Z.to_nat n) (pipe_list p), q) /\ pipe_ok q /\
    pipe_list q = drop (Z.to_nat n) (pipe_list p) /\ readers q = readers p /\ writers q = writers p.
Proof. intros Hok Hn. apply (pipe_take_loop (Z.to_nat n) p []); [done | lia]. Qed.

(** Writing enqueues the first [n] bytes of [buf] in order. *)
Lemma pipe_put_spec n buf p :
  pipe_ok p -> 0 <= n <= pipe_space p -> n <= zlen buf ->
  let q := pipe_put n buf p in
  pipe_ok q /\ pipe_list q = pipe_list p ++ take (Z.to_nat n) buf /\
  readers q = readers p /\ writers q = writers p.
Proof.
  intros Hok Hn Hb. unfold pipe_put.
  pose proof (for_range_ind (fun k q => pipe_ok q /\ pipe_used q = pipe_used p + k /\
    pipe_list q = pipe_list p ++ take (Z.to_nat k) buf /\ readers q = readers p /\ writers q = writers p)
    (fun i p => mkPipe (zset (p_buf p) (write_index p) (znth 0 buf i)) (read_index p)
      ((write_index p + 1) mod PIPE_SIZE) (readers p) (writers p)) (Z.to_nat n) 0 p) as IH.
  rewrite Z.add_0_l, Z2Nat.id in IH by lia.
  destruct IH as (H1 & _ & H2 & H3 & H4); [| | done].
  - rewrite app_nil_r, Z.add_0_r. done.
  - intros k q Hk (Q1 & Q2 & Q3 & Q4 & Q5). unfold pipe_space in Hn.
    destruct (ring_push PIPE_SIZE ltac:(unfold PIPE_SIZE; lia) _ _ _ (znth 0 buf k) Q1) as (R1 & R2 & R3);
      [unfold pipe_used in *; lia |].
    split; [done |]. split; [unfold pipe_used in *; simpl; lia |]. split; [| done].
    unfold pipe_list in *; simpl. rewrite R3, Q3, <- app_assoc. f_equal.
    replace (Z.to_nat (k + 1)) with (S (Z.to_nat k)) by lia.
    unfold zlen in Hb. destruct (lookup_lt_is_Some_2 buf (Z.to_nat k)) as [c Hc]; [lia |].
    rewrite (take_S_r _ _ _ Hc), znth_nonneg, Hc by lia. done.
Qed.

(** ** The keyboard buffer *)

Lemma zset_Forall {A} (P : A -> Prop) l i v : Forall P l -> P v -> Forall P (zset l i v).
Proof. intros. unfold zset. zcases; [done |]. by apply Forall_insert. Qed.

(** A push appends, or drops the character when 127 are queued. *)
Lemma kbd_push_spec b c :
  kbd_ok b -> 0 <= c < 256 -> let b' := kbd_buffer_push b c in
  kbd_ok b' /\
  kbd_list b' = (if zlen (kbd_list b) =? KBD_BUFFER_SIZE - 1 then kbd_list b else kbd_list b ++ [c]).
Proof.
  intros [Hok Hb] Hc. assert (1 < KBD_BUFFER_SIZE <= 4096) as Hs by (unfold KBD_BUFFER_SIZE; lia).
  unfold kbd_buffer_push. unfold kbd_list at 2. rewrite ring_list_length by done.
  destruct (Z.eqb_spec ((kbd_write_index b + 1) mod KBD_BUFFER_SIZE) (kbd_read_index b)) as [E | E].
  - apply (ring_used_full _ Hs _ _ _ Hok) in E. rewrite E, Z.eqb_refl. done.
  - rewrite <- (ring_used_full _ Hs _ _ _ Hok) in E. pose proof (ring_used_range _ Hs _ _ _ Hok).
    destruct (ring_push _ Hs _ _ _ c Hok) as (R1 & R2 & R3); [lia |].
    apply Z.eqb_neq in E as ->. split; [| done]. split; [done |]. by apply zset_Forall.
Qed.

Lemma znth_Forall (P : Z -> Prop) l i : Forall P l -> 0 <= i < zlen l -> P (znth 0 l i).
Proof.
  intros HP Hi. rewrite znth_nonneg by lia. unfold zlen in Hi.
  destruct (lookup_lt_is_Some_2 l (Z.to_nat i)) as [c Hc]; [lia |]. rewrite Hc.
  by eapply Forall_lookup_1.
Qed.

(** [keyboard_getchar] dequeues, and returns 0 exactly on an empty buffer
    or a queued 0. *)
Lemma keyboard_getchar_spec b :
  kbd_ok b -> let '(b', c) := keyboard_getchar b in
  kbd_ok b' /\ match kbd_list b with [] => b' = b /\ c = 0 | x :: l => c = x /\ kbd_list b' = l end.
Proof.
  intros [Hok Hb]. assert (1 < KBD_BUFFER_SIZE <= 4096) as Hs by (unfold KBD_BUFFER_SIZE; lia).
  unfold keyboard_getchar. pose proof (ring_used_range _ Hs _ _ _ Hok) as Hr.
  pose proof (ring_used_empty _ Hs _ _ _ Hok) as He.
  destruct (Z.eqb_spec (kbd_read_index b) (kbd_write_index b)) as [E | E].
  - split; [done |]. apply He in E. unfold kbd_list, ring_list. by rewrite E.
  - destruct (ring_pop _ Hs _ _ _ Hok) as (R1 & R2 & R3); [lia |].
    split; [done |]. unfold kbd_list. rewrite R3. split; [| done].
    apply u8_small. destruct Hok as (Hl & Hri & _).
    apply (znth_Forall (fun c => 0 <= c < 256)); [done | lia].
Qed.
