(* ===== verification/Kernel.v ===== *)
(** * The kernel state and the monad its code runs in

    The state that [kernel/scheduler.c], [kernel/file.c], [kernel/pipe.c],
    [kernel/signal.c], [kernel/syscall.c] and [drivers/keyboard.c] share:
    the task table, the heap objects it points to (tasks, open files,
    pipes), the keyboard and the machine below.

    A C function that works on this state is a computation of type [K M A].
    Its outcome is a value and the new state ([Ret]), a machine that never
    returns to ring 3 ([Stop]: a page fault in ring 0, which the kernel
    answers by halting, or an idle loop with no further interrupt), or
    undefined behaviour ([UB]: a null or dangling pointer, an array index
    out of range, a copy to or from ring 3 that touches kernel memory).  [UB] is a value of the model so that its absence is a
    theorem.

    Heap objects are kept in one map per type, keyed by address: [kmalloc]
    adds nothing by itself, the initialising stores add the object, [kfree]
    removes it, and a later access through the old pointer is [UB].  That
    objects at different addresses do not overlap is the allocator's
    contract.

    What the rest of the system provides to this code is the interface
    [Machine]: the kernel heap, the frame allocator, address spaces, the
    program loader, ring-3 memory and the file system. *)

From stdpp Require Import base list gmap fin_maps.
From Stdlib Require Import ZArith Lia Bool.
From S2P Require Import Prelude Frames Ring.

(** ** Constants *)

Definition MAX_TASKS_LIMIT : Z := 64.
Definition MAX_FDS : Z := 8.
Definition MAX_REGIONS : Z := 8.
Definition MAX_SIGS : Z := 32.
Definition SIG_INT : Z := 2.
Definition SIG_KILL : Z := 9.
Definition SIG_SEGV : Z := 11.
Definition SIG_PIPE : Z := 13.
Definition SIG_EXIT_STATUS (sig : Z) : Z := 128 + sig.
Definition TASK_NO_PARENT : Z := 0xFFFFFFFF.
Definition TASK_PGID_INHERIT : Z := 0.
Definition TASK_PGID_NEW : Z := 0xFFFFFFFF.
Definition GDT_SELECTOR_USER_CODE : Z := 0x1B.
Definition GDT_SELECTOR_USER_DATA : Z := 0x23.
Definition USER_MODE_RFLAGS : Z := 0x202.
Definition USER_STACK_TOP : Z := 0x800000.
Definition USER_STACK_SIZE : Z := 0x40000.
Definition USER_STACK_BASE : Z := USER_STACK_TOP - USER_STACK_SIZE.
Definition INT_INSTR_LEN : Z := 2.
Definition SYSCALL_ERROR : Z := 2 ^ 64 - 1.
Definition FILE_BLOCKED : Z := -2.
Definition FILE_ERR : Z := -1.
Definition TASK_BLOCK_INTERRUPTED : Z := -1.
Definition SIZEOF_TASK : Z := 696.
Definition SIZEOF_FILE : Z := 24.
Definition SIZEOF_PIPE : Z := 4112.
Definition SIZEOF_REGISTERS : Z := 176.

(** ** Data *)

(** [registers_t], in the order of its fields. *)
Record registers := mkRegs {
  rdi : Z; rsi : Z; rbp : Z; rbx : Z; rdx : Z; rcx : Z; rax : Z;
  r8 : Z; r9 : Z; r10 : Z; r11 : Z; r12 : Z; r13 : Z; r14 : Z; r15 : Z;
  int_no : Z; err_code : Z; rip : Z; cs : Z; rflags : Z; user_rsp : Z; ss : Z }.

Definition set_rax (r : registers) (v : Z) : registers :=
  mkRegs (rdi r) (rsi r) (rbp r) (rbx r) (rdx r) (rcx r) v (r8 r) (r9 r) (r10 r) (r11 r) (r12 r)
    (r13 r) (r14 r) (r15 r) (int_no r) (err_code r) (rip r) (cs r) (rflags r) (user_rsp r) (ss r).
Definition set_rip (r : registers) (v : Z) : registers :=
  mkRegs (rdi r) (rsi r) (rbp r) (rbx r) (rdx r) (rcx r) (rax r) (r8 r) (r9 r) (r10 r) (r11 r) (r12 r)
    (r13 r) (r14 r) (r15 r) (int_no r) (err_code r) v (cs r) (rflags r) (user_rsp r) (ss r).
(** Point execution at a signal handler: [rip], [rdi] and [user_rsp]. *)
Definition set_entry (r : registers) (ip di sp : Z) : registers :=
  mkRegs di (rsi r) (rbp r) (rbx r) (rdx r) (rcx r) (rax r) (r8 r) (r9 r) (r10 r) (r11 r) (r12 r)
    (r13 r) (r14 r) (r15 r) (int_no r) (err_code r) ip (cs r) (rflags r) sp (ss r).
(** The privileged part of the frame: [cs], [ss] and [rflags]. *)
Definition set_priv (r : registers) (c s f : Z) : registers :=
  mkRegs (rdi r) (rsi r) (rbp r) (rbx r) (rdx r) (rcx r) (rax r) (r8 r) (r9 r) (r10 r) (r11 r) (r12 r)
    (r13 r) (r14 r) (r15 r) (int_no r) (err_code r) (rip r) c f (user_rsp r) s.

Definition zero_regs : registers := mkRegs 0 0 0 0 0 0 0 0 0 0 0 0 0 0 0 0 0 0 0 0 0 0.

(** The struct as its 22 words in memory order, and back. *)
Definition regs_words (r : registers) : list Z :=
  [rdi r; rsi r; rbp r; rbx r; rdx r; rcx r; rax r; r8 r; r9 r; r10 r; r11 r; r12 r; r13 r; r14 r;
   r15 r; int_no r; err_code r; rip r; cs r; rflags r; user_rsp r; ss r].
Definition words_regs (w : list Z) : registers :=
  let g := znth 0 w in
  mkRegs (g 0) (g 1) (g 2) (g 3) (g 4) (g 5) (g 6) (g 7) (g 8) (g 9) (g 10) (g 11) (g 12) (g 13)
    (g 14) (g 15) (g 16) (g 17) (g 18) (g 19) (g 20) (g 21).

Inductive task_state := TASK_UNUSED | TASK_READY | TASK_RUNNING | TASK_BLOCKED | TASK_ZOMBIE.
Inductive wait_reason := WAIT_NONE | WAIT_KEY | WAIT_CHILD | WAIT_PIPE_READ | WAIT_PIPE_WRITE.
Inductive fd_kind := FD_CONSOLE | FD_PIPE.

#[export] Instance task_state_eq_dec : EqDecision task_state.
Proof. solve_decision. Defined.
#[export] Instance wait_reason_eq_dec : EqDecision wait_reason.
Proof. solve_decision. Defined.
#[export] Instance fd_kind_eq_dec : EqDecision fd_kind.
Proof. solve_decision. Defined.

(** [file_t]: one open end. *)
Record file := mkFile { f_kind : fd_kind; f_pipe : Z; f_writable : bool }.

(** [region_t]: a mapped part of the ring-3 heap slot; length 0 is free. *)
Record region := mkRegion { reg_base : Z; reg_length : Z }.

Record task := mkTask {
  t_regs : registers; t_aspace : Z; t_cr3 : Z;
  t_state : task_state; t_wait : wait_reason;
  t_id : Z; t_parent : Z; t_exit : Z; t_pgid : Z;
  t_pending : Z; t_handlers : list Z; t_trampoline : Z;
  t_active : bool; t_interrupted : bool; t_ctx : Z;
  t_fds : list Z; t_regions : list region }.

Definition set_regs t v := mkTask v (t_aspace t) (t_cr3 t) (t_state t) (t_wait t) (t_id t) (t_parent t)
  (t_exit t) (t_pgid t) (t_pending t) (t_handlers t) (t_trampoline t) (t_active t) (t_interrupted t)
  (t_ctx t) (t_fds t) (t_regions t).
Definition set_aspace t a c := mkTask (t_regs t) a c (t_state t) (t_wait t) (t_id t) (t_parent t)
  (t_exit t) (t_pgid t) (t_pending t) (t_handlers t) (t_trampoline t) (t_active t) (t_interrupted t)
  (t_ctx t) (t_fds t) (t_regions t).
Definition set_tstate t s w := mkTask (t_regs t) (t_aspace t) (t_cr3 t) s w (t_id t) (t_parent t)
  (t_exit t) (t_pgid t) (t_pending t) (t_handlers t) (t_trampoline t) (t_active t) (t_interrupted t)
  (t_ctx t) (t_fds t) (t_regions t).
Definition set_exit t v := mkTask (t_regs t) (t_aspace t) (t_cr3 t) (t_state t) (t_wait t) (t_id t)
  (t_parent t) v (t_pgid t) (t_pending t) (t_handlers t) (t_trampoline t) (t_active t) (t_interrupted t)
  (t_ctx t) (t_fds t) (t_regions t).
Definition set_pending t v := mkTask (t_regs t) (t_aspace t) (t_cr3 t) (t_state t) (t_wait t) (t_id t)
  (t_parent t) (t_exit t) (t_pgid t) v (t_handlers t) (t_trampoline t) (t_active t) (t_interrupted t)
  (t_ctx t) (t_fds t) (t_regions t).
Definition set_handlers t hs tr := mkTask (t_regs t) (t_aspace t) (t_cr3 t) (t_state t) (t_wait t) (t_id t)
  (t_parent t) (t_exit t) (t_pgid t) (t_pending t) hs tr (t_active t) (t_interrupted t)
  (t_ctx t) (t_fds t) (t_regions t).
Definition set_active t b c := mkTask (t_regs t) (t_aspace t) (t_cr3 t) (t_state t) (t_wait t) (t_id t)
  (t_parent t) (t_exit t) (t_pgid t) (t_pending t) (t_handlers t) (t_trampoline t) b (t_interrupted t)
  c (t_fds t) (t_regions t).
Definition set_interrupted t b := mkTask (t_regs t) (t_aspace t) (t_cr3 t) (t_state t) (t_wait t) (t_id t)
  (t_parent t) (t_exit t) (t_pgid t) (t_pending t) (t_handlers t) (t_trampoline t) (t_active t) b
  (t_ctx t) (t_fds t) (t_regions t).
Definition set_fds t v := mkTask (t_regs t) (t_aspace t) (t_cr3 t) (t_state t) (t_wait t) (t_id t)
  (t_parent t) (t_exit t) (t_pgid t) (t_pending t) (t_handlers t) (t_trampoline t) (t_active t)
  (t_interrupted t) (t_ctx t) v (t_regions t).
Definition set_regions t v := mkTask (t_regs t) (t_aspace t) (t_cr3 t) (t_state t) (t_wait t) (t_id t)
  (t_parent t) (t_exit t) (t_pgid t) (t_pending t) (t_handlers t) (t_trampoline t) (t_active t)
  (t_interrupted t) (t_ctx t) (t_fds t) v.

(** ** The interface to the rest of the system *)

(** Address spaces are named by the address of their [address_space_t];
    ring-3 memory is addressed under a [CR3] value. Names and file contents
    are lists of bytes. A return code is 0 on success. [m_elf_load_file]
    gives a code and an entry point, or nothing when the loader ran into
    undefined behaviour. *)
Class Machine (M : Type) := {
  m_kmalloc : M -> Z -> M * Z;
  m_kfree : M -> Z -> M;
  m_alloc_frame : M -> M * Z;
  m_create_as : M -> M * Z;
  m_pml4 : M -> Z -> Z;
  m_destroy_as : M -> Z -> M;
  m_map_page : M -> Z -> Z -> Z -> Z -> M * Z;
  m_map_range : M -> Z -> Z -> Z -> M * Z;
  m_unmap_range : M -> Z -> Z -> Z -> M;
  m_elf_load_file : M -> list Z -> Z -> M * option (Z * Z);
  m_load : M -> Z -> Z -> option Z;
  m_store : M -> Z -> Z -> Z -> option M;
  m_list_names : M -> Z -> M * Z * list Z * Z;
  m_read_file : M -> list Z -> Z -> M * Z * list Z * Z;
  m_write_file : M -> list Z -> list Z -> M * Z;
  m_delete : M -> list Z -> M * Z;
  m_free_count : M -> M * Z;
  m_stat : M -> list Z -> M * Z * Z
}.

(** ** The state *)

Record kernel (M : Type) := mkKernel {
  k_tab : list Z;             (* tasks[MAX_TASKS_LIMIT], as pointers *)
  k_tasks : gmap Z task;
  k_files : gmap Z file;
  k_pipes : gmap Z pipe;
  k_current : Z;
  k_num : Z;                  (* num_tasks *)
  k_fg : Z;                   (* foreground_pgid *)
  k_idling : bool;
  k_running : bool;
  k_kbd : kbd;
  k_cr3 : Z;
  k_console : list Z;         (* bytes printed for ring 3, oldest first *)
  k_events : list Z;          (* scancodes the hardware has yet to deliver *)
  k_tick : Z;
  k_mach : M
}.
Arguments mkKernel {M}.
Arguments k_tab {M}. Arguments k_tasks {M}. Arguments k_files {M}. Arguments k_pipes {M}.
Arguments k_current {M}. Arguments k_num {M}. Arguments k_fg {M}. Arguments k_idling {M}.
Arguments k_running {M}. Arguments k_kbd {M}. Arguments k_cr3 {M}. Arguments k_console {M}.
Arguments k_events {M}. Arguments k_tick {M}. Arguments k_mach {M}.

Section Setters.
Context {M : Type}.
Implicit Types k : kernel M.
Definition set_tab k v := mkKernel v (k_tasks k) (k_files k) (k_pipes k) (k_current k) (k_num k) (k_fg k)
  (k_idling k) (k_running k) (k_kbd k) (k_cr3 k) (k_console k) (k_events k) (k_tick k) (k_mach k).
Definition set_tasks k v := mkKernel (k_tab k) v (k_files k) (k_pipes k) (k_current k) (k_num k) (k_fg k)
  (k_idling k) (k_running k) (k_kbd k) (k_cr3 k) (k_console k) (k_events k) (k_tick k) (k_mach k).
Definition set_files k v := mkKernel (k_tab k) (k_tasks k) v (k_pipes k) (k_current k) (k_num k) (k_fg k)
  (k_idling k) (k_running k) (k_kbd k) (k_cr3 k) (k_console k) (k_events k) (k_tick k) (k_mach k).
Definition set_pipes k v := mkKernel (k_tab k) (k_tasks k) (k_files k) v (k_current k) (k_num k) (k_fg k)
  (k_idling k) (k_running k) (k_kbd k) (k_cr3 k) (k_console k) (k_events k) (k_tick k) (k_mach k).
Definition set_current k v := mkKernel (k_tab k) (k_tasks k) (k_files k) (k_pipes k) v (k_num k) (k_fg k)
  (k_idling k) (k_running k) (k_kbd k) (k_cr3 k) (k_console k) (k_events k) (k_tick k) (k_mach k).
Definition set_num k v := mkKernel (k_tab k) (k_tasks k) (k_files k) (k_pipes k) (k_current k) v (k_fg k)
  (k_idling k) (k_running k) (k_kbd k) (k_cr3 k) (k_console k) (k_events k) (k_tick k) (k_mach k).
Definition set_fg k v := mkKernel (k_tab k) (k_tasks k) (k_files k) (k_pipes k) (k_current k) (k_num k) v
  (k_idling k) (k_running k) (k_kbd k) (k_cr3 k) (k_console k) (k_events k) (k_tick k) (k_mach k).
Definition set_idling k v := mkKernel (k_tab k) (k_tasks k) (k_files k) (k_pipes k) (k_current k) (k_num k)
  (k_fg k) v (k_running k) (k_kbd k) (k_cr3 k) (k_console k) (k_events k) (k_tick k) (k_mach k).
Definition set_running k v := mkKernel (k_tab k) (k_tasks k) (k_files k) (k_pipes k) (k_current k) (k_num k)
  (k_fg k) (k_idling k) v (k_kbd k) (k_cr3 k) (k_console k) (k_events k) (k_tick k) (k_mach k).
Definition set_kbd k v := mkKernel (k_tab k) (k_tasks k) (k_files k) (k_pipes k) (k_current k) (k_num k)
  (k_fg k) (k_idling k) (k_running k) v (k_cr3 k) (k_console k) (k_events k) (k_tick k) (k_mach k).
Definition set_cr3 k v := mkKernel (k_tab k) (k_tasks k) (k_files k) (k_pipes k) (k_current k) (k_num k)
  (k_fg k) (k_idling k) (k_running k) (k_kbd k) v (k_console k) (k_events k) (k_tick k) (k_mach k).
Definition set_console k v := mkKernel (k_tab k) (k_tasks k) (k_files k) (k_pipes k) (k_current k) (k_num k)
  (k_fg k) (k_idling k) (k_running k) (k_kbd k) (k_cr3 k) v (k_events k) (k_tick k) (k_mach k).
Definition set_events k v := mkKernel (k_tab k) (k_tasks k) (k_files k) (k_pipes k) (k_current k) (k_num k)
  (k_fg k) (k_idling k) (k_running k) (k_kbd k) (k_cr3 k) (k_console k) v (k_tick k) (k_mach k).
Definition set_tick k v := mkKernel (k_tab k) (k_tasks k) (k_files k) (k_pipes k) (k_current k) (k_num k)
  (k_fg k) (k_idling k) (k_running k) (k_kbd k) (k_cr3 k) (k_console k) (k_events k) v (k_mach k).
Definition set_mach k (v : M) := mkKernel (k_tab k) (k_tasks k) (k_files k) (k_pipes k) (k_current k) (k_num k)
  (k_fg k) (k_idling k) (k_running k) (k_kbd k) (k_cr3 k) (k_console k) (k_events k) (k_tick k) v.
End Setters.

(** ** The monad *)

Inductive outcome (M A : Type) :=
| Ret (a : A) (k : kernel M)
| Stop
| UB.
Arguments Ret {M A}. Arguments Stop {M A}. Arguments UB {M A}.

Definition K (M A : Type) : Type := kernel M -> outcome M A.

#[export] Instance K_ret M : MRet (K M) := fun A a k => Ret a k.
#[export] Instance K_bind M : MBind (K M) := fun A B f m k =>
  match m k with Ret a k' => f a k' | Stop => Stop | UB => UB end.

Section Primitives.
Context {M : Type} {mach : Machine M}.

Definition gets {A} (f : kernel M -> A) : K M A := fun k => Ret (f k) k.
Definition modify (f : kernel M -> kernel M) : K M unit := fun k => Ret tt (f k).
Definition undefined {A} : K M A := fun _ => UB.
Definition halt {A} : K M A := fun _ => Stop.

(** [for (k = i; k < i + n; k++) body(k)] *)
Fixpoint kfor (n : nat) (i : Z) (body : Z -> K M unit) : K M unit :=
  match n with
  | O => mret tt
  | S n' => body i ;; kfor n' (i + 1) body
  end.

(** Dereferencing a pointer to a heap object, and storing through it. *)
Definition get_task (p : Z) : K M task := fun k =>
  match k_tasks k !! p with Some t => Ret t k | None => UB end.
Definition put_task (p : Z) (t : task) : K M unit := modify (fun k => set_tasks k (<[p := t]> (k_tasks k))).
Definition get_file (p : Z) : K M file := fun k =>
  match k_files k !! p with Some f => Ret f k | None => UB end.
Definition put_file (p : Z) (f : file) : K M unit := modify (fun k => set_files k (<[p := f]> (k_files k))).
Definition get_pipe (p : Z) : K M pipe := fun k =>
  match k_pipes k !! p with Some x => Ret x k | None => UB end.
Definition put_pipe (p : Z) (x : pipe) : K M unit := modify (fun k => set_pipes k (<[p := x]> (k_pipes k))).

(** [tasks[i]] and [tasks[i] = p]. *)
Definition tab_get (i : Z) : K M Z := fun k =>
  if (0 <=? i) && (i <? MAX_TASKS_LIMIT) then Ret (znth 0 (k_tab k) i) k else UB.
Definition tab_set (i p : Z) : K M unit := fun k =>
  if (0 <=? i) && (i <? MAX_TASKS_LIMIT) then Ret tt (set_tab k (zset (k_tab k) i p)) else UB.

(** [t->fds[i]] and [t->fds[i] = f]. *)
Definition fds_get (t : Z) (i : Z) : K M Z :=
  x ← get_task t ;
  if (0 <=? i) && (i <? MAX_FDS) then mret (znth 0 (t_fds x) i) else undefined.
Definition fds_set (t : Z) (i f : Z) : K M unit :=
  x ← get_task t ;
  if (0 <=? i) && (i <? MAX_FDS) then put_task t (set_fds x (zset (t_fds x) i f)) else undefined.

(** The heap. [kfree] of an object also ends its life in its map. *)
Definition kmalloc (n : Z) : K M Z := fun k =>
  let '(m, p) := m_kmalloc (k_mach k) n in Ret p (set_mach k m).
Definition kfree_raw (p : Z) : K M unit := modify (fun k => set_mach k (m_kfree (k_mach k) p)).
Definition kfree_task (p : Z) : K M unit :=
  modify (fun k => set_tasks k (delete p (k_tasks k))) ;; kfree_raw p.
Definition kfree_file (p : Z) : K M unit :=
  modify (fun k => set_files k (delete p (k_files k))) ;; kfree_raw p.
Definition kfree_pipe (p : Z) : K M unit :=
  modify (fun k => set_pipes k (delete p (k_pipes k))) ;; kfree_raw p.

(** A machine operation that returns a code. *)
Definition m_op (f : M -> M * Z) : K M Z := fun k =>
  let '(m, rc) := f (k_mach k) in Ret rc (set_mach k m).
Definition m_upd (f : M -> M) : K M unit := modify (fun k => set_mach k (f (k_mach k))).

(** Ring-3 memory, under the loaded [CR3]. An unmapped page is a fault in
    ring 0, which halts; an address outside ring-3 space would read or
    overwrite the kernel's own memory, which is undefined here. *)
Definition ring3_addr (va : Z) : bool := (USER_REGION_START <=? va) && (va <? USER_SPACE_END).
Definition u_load (va : Z) : K M Z := fun k =>
  if ring3_addr va then
    match m_load (k_mach k) (k_cr3 k) va with Some b => Ret b k | None => Stop end
  else UB.
Definition u_store (va b : Z) : K M unit := fun k =>
  if ring3_addr va then
    match m_store (k_mach k) (k_cr3 k) va b with Some m => Ret tt (set_mach k m) | None => Stop end
  else UB.

(** [memcpy] out of and into ring 3, in address order. *)
Fixpoint u_load_bytes (n : nat) (va : Z) : K M (list Z) :=
  match n with
  | O => mret []
  | S n' => b ← u_load va ; l ← u_load_bytes n' (va + 1) ; mret (b :: l)
  end.
Fixpoint u_store_bytes (va : Z) (l : list Z) : K M unit :=
  match l with
  | [] => mret tt
  | b :: l' => u_store va b ;; u_store_bytes (va + 1) l'
  end.
End Primitives.

(** A frame of words as bytes, and back. *)
Definition words_bytes (w : list Z) : list Z := mjoin (map (le_bytes 8) w).
Fixpoint bytes_words (n : nat) (l : list Z) : list Z :=
  match n with O => [] | S n' => of_le (take 8 l) :: bytes_words n' (drop 8 l) end.

(** ** Reasoning about outcomes *)

(** The computation returns, and its value and state satisfy [Q]; or the
    machine stops. It never has undefined behaviour. *)
Definition wp {M A} (m : K M A) (Q : A -> kernel M -> Prop) (k : kernel M) : Prop :=
  match m k with Ret a k' => Q a k' | Stop => True | UB => False end.

(** The same, and the machine does not stop either. *)
Definition twp {M A} (m : K M A) (Q : A -> kernel M -> Prop) (k : kernel M) : Prop :=
  match m k with Ret a k' => Q a k' | Stop => False | UB => False end.

Section Wp.
Context {M : Type} {mach : Machine M}.

Lemma wp_bind {A B} (m : K M A) (f : A -> K M B) Q k :
  wp m (fun a k' => wp (f a) Q k') k -> wp (m ≫= f) Q k.
Proof. unfold wp, mbind, K_bind. by destruct (m k). Qed.
Lemma wp_ret {A} (a : A) Q k : Q a k -> wp (mret a : K M A) Q k.
Proof. done. Qed.
Lemma wp_mono {A} (m : K M A) (P Q : A -> kernel M -> Prop) k :
  wp m P k -> (forall a k', P a k' -> Q a k') -> wp m Q k.
Proof. unfold wp. destruct (m k); auto. Qed.
Lemma wp_assoc {A B C} (m : K M A) (f : A -> K M B) (g : B -> K M C) Q k :
  wp ((x ← m ; f x) ≫= g) Q k -> wp (x ← m ; y ← f x ; g y) Q k.
Proof. unfold wp, mbind, K_bind. by destruct (m k). Qed.
Lemma twp_assoc {A B C} (m : K M A) (f : A -> K M B) (g : B -> K M C) Q k :
  twp ((x ← m ; f x) ≫= g) Q k -> twp (x ← m ; y ← f x ; g y) Q k.
Proof. unfold twp, mbind, K_bind. by destruct (m k). Qed.
Lemma twp_wp {A} (m : K M A) Q k : twp m Q k -> wp m Q k.
Proof. unfold twp, wp. by destruct (m k). Qed.
Lemma twp_bind {A B} (m : K M A) (f : A -> K M B) Q k :
  twp m (fun a k' => twp (f a) Q k') k -> twp (m ≫= f) Q k.
Proof. unfold twp, mbind, K_bind. by destruct (m k). Qed.
Lemma twp_mono {A} (m : K M A) (P Q : A -> kernel M -> Prop) k :
  twp m P k -> (forall a k', P a k' -> Q a k') -> twp m Q k.
Proof. unfold twp. destruct (m k); auto. Qed.

(** The invariant rule for [kfor]. *)
Lemma wp_kfor (I : Z -> kernel M -> Prop) n i body (Q : unit -> kernel M -> Prop) k :
  I i k ->
  (forall j k', i <= j < i + Z.of_nat n -> I j k' -> wp (body j) (fun _ k'' => I (j + 1) k'') k') ->
  (forall k', I (i + Z.of_nat n) k' -> Q tt k') ->
  wp (kfor n i body) Q k.
Proof.
  revert i k. induction n as [|n IH]; intros i k Hi Hstep Hq; simpl.
  - apply Hq. by replace (i + Z.of_nat 0) with i by lia.
  - apply wp_bind. eapply wp_mono; [apply (Hstep i); [lia | done] |].
    intros [] k' Hi'. apply IH; [done | |].
    + intros j k'' Hj. apply Hstep. lia.
    + intros k''. replace (i + 1 + Z.of_nat n) with (i + Z.of_nat (S n)) by lia. apply Hq.
Qed.
End Wp.
