(* ===== verification/Sched.v ===== *)
(** * Tasks, files, pipes and the keyboard

    The pointer-level code of [kernel/scheduler.c], [kernel/file.c],
    [kernel/pipe.c], [drivers/keyboard.c] and the raising half of
    [kernel/signal.c], as computations over the kernel state of [Kernel].
    They are in one file because they call each other: closing a pipe end
    wakes tasks, a switch may idle until a key wakes one, a key may raise a
    signal.

    A [registers_t *r] argument is the frame passed in and returned. The
    console's diagnostic messages are not part of the state. *)

From stdpp Require Import base list gmap fin_maps.
From Stdlib Require Import ZArith Lia Bool.
From S2P Require Import Prelude Frames Ring Kernel.

Section Sched.
Context {M : Type} {mach : Machine M}.
Notation K := (K M).

(** ** Wake-ups and signals *)

(** The loop body of [scheduler_wake]. *)
Definition wake_one (reason : wait_reason) (i : Z) : K unit :=
  p ← tab_get i ;
  if p =? 0 then mret tt
  else
    t ← get_task p ;
    if decide (t_state t = TASK_BLOCKED /\ t_wait t = reason)
    then put_task p (set_tstate t TASK_READY WAIT_NONE)
    else mret tt.

Definition scheduler_wake (reason : wait_reason) : K unit :=
  n ← gets k_num ; kfor (Z.to_nat n) 0 (wake_one reason).

Definition scheduler_task_by_id (id : Z) : K Z :=
  n ← gets k_num ;
  if n <=? id then mret 0 else tab_get id.

Definition scheduler_current_task : K Z := c ← gets k_current ; tab_get c.

Definition signal_raise (id sig : Z) : K unit :=
  if (sig <=? 0) || (MAX_SIGS <=? sig) then mret tt
  else
    p ← scheduler_task_by_id id ;
    if p =? 0 then mret tt
    else
      t ← get_task p ;
      if decide (t_state t = TASK_ZOMBIE) then mret tt
      else
        let t := set_pending t (Z.lor (t_pending t) (Z.shiftl 1 sig)) in
        if decide (t_state t = TASK_BLOCKED)
        then put_task p (set_interrupted (set_tstate t TASK_READY WAIT_NONE) true)
        else put_task p t.

Definition signal_raise_group (pgid sig : Z) : K unit :=
  n ← gets k_num ;
  kfor (Z.to_nat n) 0 (fun id =>
    p ← scheduler_task_by_id id ;
    if p =? 0 then mret tt
    else
      t ← get_task p ;
      if negb (t_pgid t =? pgid) then mret tt else signal_raise id sig).

(** ** The keyboard driver *)

Definition KEY_RELEASE_MASK : Z := 0x80.
Definition KEY_CODE_MASK : Z := 0x7F.
Definition KEY_LSHIFT : Z := 0x2A.
Definition KEY_RSHIFT : Z := 0x36.
Definition KEY_CAPSLOCK : Z := 0x3A.
Definition KEY_LCTRL : Z := 0x1D.
Definition KEY_C : Z := 0x2E.
Definition KEY_D : Z := 0x20.

Definition scancode_to_ascii : list Z :=
  [0; 0; 49; 50; 51; 52; 53; 54;
   55; 56; 57; 48; 45; 61; 8; 9;
   113; 119; 101; 114; 116; 121; 117; 105;
   111; 112; 91; 93; 10; 0; 97; 115;
   100; 102; 103; 104; 106; 107; 108; 59;
   39; 96; 0; 92; 122; 120; 99; 118;
   98; 110; 109; 44; 46; 47; 0; 42;
   0; 32; 0; 0; 0; 0; 0; 0] ++ replicate 64 0.

Definition scancode_to_ascii_shift : list Z :=
  [0; 0; 33; 64; 35; 36; 37; 94;
   38; 42; 40; 41; 95; 43; 8; 9;
   81; 87; 69; 82; 84; 89; 85; 73;
   79; 80; 123; 125; 10; 0; 65; 83;
   68; 70; 71; 72; 74; 75; 76; 58;
   34; 126; 0; 124; 90; 88; 67; 86;
   66; 78; 77; 60; 62; 63; 0; 42;
   0; 32; 0; 0; 0; 0; 0; 0] ++ replicate 64 0.

Definition table_for (b : kbd) (scancode : Z) : list Z :=
  let plain := znth 0 scancode_to_ascii scancode in
  let is_letter := (97 <=? plain) && (plain <=? 122) in
  let use_shifted := if is_letter then xorb (shift_held b) (caps_on b) else shift_held b in
  if use_shifted then scancode_to_ascii_shift else scancode_to_ascii.

Definition set_shift (b : kbd) v := mkKbd (kbd_buffer b) (kbd_write_index b) (kbd_read_index b) v
  (caps_on b) (ctrl_held b) (console_eof b).
Definition set_caps (b : kbd) v := mkKbd (kbd_buffer b) (kbd_write_index b) (kbd_read_index b)
  (shift_held b) v (ctrl_held b) (console_eof b).
Definition set_ctrl (b : kbd) v := mkKbd (kbd_buffer b) (kbd_write_index b) (kbd_read_index b)
  (shift_held b) (caps_on b) v (console_eof b).
Definition set_eof (b : kbd) v := mkKbd (kbd_buffer b) (kbd_write_index b) (kbd_read_index b)
  (shift_held b) (caps_on b) (ctrl_held b) v.

(** [keyboard_callback], given the scancode it reads from the port. *)
Definition keyboard_callback (scancode : Z) : K unit :=
  b ← gets k_kbd ;
  if negb (Z.land scancode KEY_RELEASE_MASK =? 0) then
    let released := Z.land scancode KEY_CODE_MASK in
    let b := if (released =? KEY_LSHIFT) || (released =? KEY_RSHIFT) then set_shift b false else b in
    let b := if released =? KEY_LCTRL then set_ctrl b false else b in
    modify (fun k => set_kbd k b)
  else if (scancode =? KEY_LSHIFT) || (scancode =? KEY_RSHIFT) then
    modify (fun k => set_kbd k (set_shift b true))
  else if scancode =? KEY_CAPSLOCK then
    modify (fun k => set_kbd k (set_caps b (negb (caps_on b))))
  else if scancode =? KEY_LCTRL then
    modify (fun k => set_kbd k (set_ctrl b true))
  else if ctrl_held b then
    if scancode =? KEY_C then
      fg ← gets k_fg ; signal_raise_group fg SIG_INT
    else if scancode =? KEY_D then
      modify (fun k => set_kbd k (set_eof b true)) ;; scheduler_wake WAIT_KEY
    else mret tt
  else
    let c := znth 0 (table_for b scancode) scancode in
    if c =? 0 then mret tt
    else modify (fun k => set_kbd k (kbd_buffer_push b c)) ;; scheduler_wake WAIT_KEY.

(** ** Open files *)

Definition file_alloc_console (writable : bool) : K Z :=
  f ← kmalloc SIZEOF_FILE ;
  if f =? 0 then mret 0
  else put_file f (mkFile FD_CONSOLE 0 writable) ;; mret f.

(** Bumping an end count of a pipe by [d]. *)
Definition count_end (p : pipe) (writable : bool) (d : Z) : pipe :=
  if writable then mkPipe (p_buf p) (read_index p) (write_index p) (readers p) (writers p + d)
  else mkPipe (p_buf p) (read_index p) (write_index p) (readers p + d) (writers p).

Definition file_alloc_pipe (p : Z) (writable : bool) : K Z :=
  f ← kmalloc SIZEOF_FILE ;
  if f =? 0 then mret 0
  else
    put_file f (mkFile FD_PIPE p writable) ;;
    x ← get_pipe p ;
    put_pipe p (count_end x writable 1) ;;
    mret f.

Definition file_dup (src : Z) : K Z :=
  f ← kmalloc SIZEOF_FILE ;
  if f =? 0 then mret 0
  else
    s ← get_file src ;
    put_file f s ;;
    (if decide (f_kind s = FD_PIPE) then
       x ← get_pipe (f_pipe s) ;
       put_pipe (f_pipe s) (count_end x (f_writable s) 1)
     else mret tt) ;;
    mret f.

Definition file_close (f : Z) : K unit :=
  x ← get_file f ;
  (if decide (f_kind x = FD_PIPE) then
     let p := f_pipe x in
     q ← get_pipe p ;
     let q := count_end q (f_writable x) (-1) in
     put_pipe p q ;;
     (if f_writable x
      then (if writers q =? 0 then scheduler_wake WAIT_PIPE_READ else mret tt)
      else (if readers q =? 0 then scheduler_wake WAIT_PIPE_WRITE else mret tt)) ;;
     (if (readers q =? 0) && (writers q =? 0) then kfree_pipe p else mret tt)
   else mret tt) ;;
  kfree_file f.

(** [close_fd] on the descriptor table of the task at [t]. *)
Definition close_fd (t fd : Z) : K unit :=
  f ← fds_get t fd ;
  if f =? 0 then mret tt
  else fds_set t fd 0 ;; file_close f.

Definition alloc_fd (t : Z) : K Z :=
  x ← get_task t ;
  mret (match scan (fun i => znth 0 (t_fds x) i =? 0) (Z.to_nat MAX_FDS) 0 with
        | Some i => i
        | None => -1
        end).

Definition pipe_create : K Z :=
  p ← kmalloc SIZEOF_PIPE ;
  if p =? 0 then mret 0
  else put_pipe p (mkPipe (replicate (Z.to_nat PIPE_SIZE) 0) 0 0 0 0) ;; mret p.

(** ** Groups and queries *)

(** The loop of [may_use_group]: a live child of the caller in [pgid]. *)
Fixpoint group_child (n : nat) (i caller_id pgid : Z) : K bool :=
  match n with
  | O => mret false
  | S n' =>
      p ← tab_get i ;
      if p =? 0 then group_child n' (i + 1) caller_id pgid
      else
        t ← get_task p ;
        if decide (t_state t = TASK_ZOMBIE) then group_child n' (i + 1) caller_id pgid
        else if (t_parent t =? caller_id) && (t_pgid t =? pgid) then mret true
        else group_child n' (i + 1) caller_id pgid
  end.

Definition may_use_group (caller_id pgid : Z) : K bool :=
  n ← gets k_num ;
  p ← (if caller_id <? n then tab_get caller_id else mret 0) ;
  if p =? 0 then mret false
  else
    t ← get_task p ;
    if t_pgid t =? pgid then mret true else group_child (Z.to_nat n) 0 caller_id pgid.

Definition scheduler_set_foreground (caller_id pgid : Z) : K Z :=
  ok ← may_use_group caller_id pgid ;
  if negb ok then mret (-1) else modify (fun k => set_fg k pgid) ;; mret 0.

Fixpoint ready_from (n : nat) (i : Z) : K bool :=
  match n with
  | O => mret false
  | S n' =>
      p ← tab_get i ;
      if p =? 0 then ready_from n' (i + 1)
      else
        t ← get_task p ;
        if decide (t_state t = TASK_READY) then mret true else ready_from n' (i + 1)
  end.

Definition any_task_ready : K bool := n ← gets k_num ; ready_from (Z.to_nat n) 0.

(** The round-robin scan: [from + i], [from + i + 1], ... modulo
    [num_tasks], [n] candidates. *)
Fixpoint next_ready (n : nat) (i from : Z) : K Z :=
  match n with
  | O => mret (-1)
  | S n' =>
      num ← gets k_num ;
      let cand := u32 (from + i) mod num in
      p ← tab_get cand ;
      if p =? 0 then next_ready n' (i + 1) from
      else
        t ← get_task p ;
        if decide (t_state t = TASK_READY) then mret cand else next_ready n' (i + 1) from
  end.

Definition find_next_ready (from : Z) : K Z := n ← gets k_num ; next_ready (Z.to_nat n) 1 from.

(** [sti; hlt; cli] until a task is ready: every interrupt that arrives
    runs its handler. With no interrupt to come the machine sleeps for
    ever. (A timer tick returns at once while [scheduler_idling] is set.) *)
Fixpoint idle_loop (events : list Z) : K unit :=
  ok ← any_task_ready ;
  if (ok : bool) then mret tt
  else
    match events with
    | [] => halt
    | e :: events' =>
        modify (fun k => set_events k events') ;; keyboard_callback e ;; idle_loop events'
    end.

Definition idle_until_runnable : K unit :=
  modify (fun k => set_idling k true) ;;
  ev ← gets k_events ;
  idle_loop ev ;;
  modify (fun k => set_idling k false).

Definition parent_alive (parent_id : Z) : K bool :=
  if parent_id =? TASK_NO_PARENT then mret false
  else
    n ← gets k_num ;
    if n <=? parent_id then mret false
    else
      p ← tab_get parent_id ;
      if p =? 0 then mret false
      else t ← get_task p ; mret (bool_decide (t_state t <> TASK_ZOMBIE)).

(** ** The dead *)

(** Freeing the address space of the task at [p], if it still has one. *)
Definition drop_aspace (p : Z) : K unit :=
  t ← get_task p ;
  if t_aspace t =? 0 then mret tt
  else
    m_upd (fun m => m_destroy_as m (t_aspace t)) ;;
    put_task p (set_aspace t 0 0).

Definition reap_sweep : K unit :=
  n ← gets k_num ;
  kfor (Z.to_nat n) 0 (fun i =>
    p ← tab_get i ;
    if p =? 0 then mret tt
    else
      t ← get_task p ;
      if decide (t_state t <> TASK_ZOMBIE) then mret tt
      else
        cur ← gets k_current ;
        if i =? cur then mret tt
        else
          drop_aspace p ;;
          alive ← parent_alive (t_parent t) ;
          if negb alive then kfree_task p ;; tab_set i 0 else mret tt).

(** ** The switch *)

Definition schedule (r : registers) : K registers :=
  running ← gets k_running ;
  if negb running then mret r
  else
    idling ← gets k_idling ;
    if (idling : bool) then mret r
    else
      reap_sweep ;;
      cur ← gets k_current ;
      p ← tab_get cur ;
      if p =? 0 then mret r
      else
        t ← get_task p ;
        put_task p (set_regs t r) ;;
        t ← get_task p ;
        (if decide (t_state t = TASK_RUNNING)
         then put_task p (set_tstate t TASK_READY (t_wait t)) else mret tt) ;;
        picked ← find_next_ready cur ;
        picked ← (if picked <? 0 then idle_until_runnable ;; find_next_ready cur else mret picked) ;
        let next := u32 picked in
        q ← tab_get next ;
        t ← get_task q ;
        put_task q (set_tstate t TASK_RUNNING (t_wait t)) ;;
        if next =? cur then mret r
        else
          modify (fun k => set_current k next) ;;
          t ← get_task q ;
          modify (fun k => set_cr3 k (t_cr3 t)) ;;
          mret (t_regs t).

(** The return value, and the frame. *)
Definition task_block (r : registers) (reason : wait_reason) : K (Z * registers) :=
  p ← scheduler_current_task ;
  t ← get_task p ;
  if t_interrupted t then
    put_task p (set_interrupted t false) ;; mret (TASK_BLOCK_INTERRUPTED, r)
  else
    put_task p (set_tstate t TASK_BLOCKED reason) ;;
    r ← schedule (set_rip r (u64 (rip r - INT_INSTR_LEN))) ;
    mret (0, r).

(** Waking a parent that waits for a child. *)
Definition wake_parent (parent_id : Z) : K unit :=
  alive ← parent_alive parent_id ;
  if (alive : bool) then
    q ← tab_get parent_id ;
    pt ← get_task q ;
    if decide (t_state pt = TASK_BLOCKED /\ t_wait pt = WAIT_CHILD)
    then put_task q (set_tstate pt TASK_READY WAIT_NONE) else mret tt
  else mret tt.

Definition task_exit (r : registers) (status : Z) : K registers :=
  p ← scheduler_current_task ;
  kfor (Z.to_nat MAX_FDS) 0 (fun i =>
    f ← fds_get p i ;
    if f =? 0 then mret tt else close_fd p i) ;;
  t ← get_task p ;
  put_task p (set_tstate (set_exit t (Z.land status 0xFF)) TASK_ZOMBIE WAIT_NONE) ;;
  wake_parent (t_parent t) ;;
  schedule r.

(** The scan of [task_wait]: the first zombie child is reaped and reported,
    otherwise whether there is a child at all. *)
Fixpoint wait_scan (n : nat) (i : Z) (r : registers) (have_child : bool) : K (registers + bool) :=
  match n with
  | O => mret (inr have_child)
  | S n' =>
      p ← tab_get i ;
      if p =? 0 then wait_scan n' (i + 1) r have_child
      else
        t ← get_task p ;
        cur ← gets k_current ;
        if negb (t_parent t =? cur) then wait_scan n' (i + 1) r have_child
        else if decide (t_state t <> TASK_ZOMBIE) then wait_scan n' (i + 1) r true
        else
          drop_aspace p ;;
          kfree_task p ;;
          tab_set i 0 ;;
          (if rdi r =? 0 then mret tt else u_store_bytes (rdi r) (le_bytes 8 (t_id t))) ;;
          mret (inl (set_rax r (u64 (t_exit t))))
  end.

Definition task_wait (r : registers) : K registers :=
  n ← gets k_num ;
  x ← wait_scan (Z.to_nat n) 0 r false ;
  match x with
  | inl r' => mret r'
  | inr have_child =>
      if negb have_child then mret (set_rax r SYSCALL_ERROR)
      else
        b ← task_block r WAIT_CHILD ;
        mret (if b.1 =? TASK_BLOCK_INTERRUPTED then set_rax b.2 (u64 (-1)) else b.2)
  end.

(** ** Reading and writing *)

(** The result of a read or write: the count or code, the bytes read, the
    frame. *)
Definition pipe_read (p len : Z) (r : registers) : K (Z * list Z * registers) :=
  x ← get_pipe p ;
  let used := pipe_used x in
  if 0 <? used then
    let n := if used <? len then used else len in
    let '(out, x) := pipe_take n x in
    put_pipe p x ;;
    scheduler_wake WAIT_PIPE_WRITE ;;
    mret (n, out, r)
  else if 0 <? writers x then
    b ← task_block r WAIT_PIPE_READ ;
    mret ((if b.1 =? TASK_BLOCK_INTERRUPTED then FILE_ERR else FILE_BLOCKED), [], b.2)
  else mret (0, [], r).

Definition pipe_write (p : Z) (buf : list Z) (len : Z) (r : registers) : K (Z * registers) :=
  x ← get_pipe p ;
  if readers x =? 0 then
    cur ← gets k_current ;
    signal_raise cur SIG_PIPE ;; mret (FILE_ERR, r)
  else
    let space := pipe_space x in
    if space =? 0 then
      b ← task_block r WAIT_PIPE_WRITE ;
      mret ((if b.1 =? TASK_BLOCK_INTERRUPTED then FILE_ERR else FILE_BLOCKED), b.2)
    else
      let n := if space <? len then space else len in
      put_pipe p (pipe_put n buf x) ;;
      scheduler_wake WAIT_PIPE_READ ;;
      mret (n, r).

Definition file_write (f : Z) (buf : list Z) (len : Z) (r : registers) : K (Z * registers) :=
  x ← get_file f ;
  if decide (f_kind x = FD_CONSOLE) then
    modify (fun k => set_console k (k_console k ++ take (Z.to_nat len) buf)) ;; mret (len, r)
  else pipe_write (f_pipe x) buf len r.

(** The loop of the console read: up to [n] queued characters. *)
Fixpoint console_drain (n : nat) : K (list Z) :=
  match n with
  | O => mret []
  | S n' =>
      b ← gets k_kbd ;
      let '(b, c) := keyboard_getchar b in
      modify (fun k => set_kbd k b) ;;
      if c =? 0 then mret [] else l ← console_drain n' ; mret (c :: l)
  end.

Definition file_read (f len : Z) (r : registers) : K (Z * list Z * registers) :=
  x ← get_file f ;
  if decide (f_kind x = FD_CONSOLE) then
    out ← console_drain (Z.to_nat len) ;
    if 0 <? zlen out then mret (zlen out, out, r)
    else
      b ← gets k_kbd ;
      let '(b, eof) := keyboard_console_eof b in
      modify (fun k => set_kbd k b) ;;
      if (eof : bool) then mret (0, [], r)
      else
        b ← task_block r WAIT_KEY ;
        mret ((if b.1 =? TASK_BLOCK_INTERRUPTED then FILE_ERR else FILE_BLOCKED), [], b.2)
  else pipe_read (f_pipe x) len r.

(** ** Creation *)

Definition USER_PAGE_FLAGS : Z := Z.lor (Z.lor PG_PRESENT PG_WRITABLE) PG_USER.

Fixpoint map_stack_pages (n : nat) (as_ va : Z) : K Z :=
  match n with
  | O => mret 0
  | S n' =>
      frame ← m_op m_alloc_frame ;
      if frame =? 0 then mret (-1)
      else
        rc ← m_op (fun m => m_map_page m as_ va frame USER_PAGE_FLAGS) ;
        if negb (rc =? 0) then mret (-1) else map_stack_pages n' as_ (va + FRAME_SIZE)
  end.

Definition map_user_stack (as_ : Z) : K Z :=
  map_stack_pages (Z.to_nat (USER_STACK_SIZE / FRAME_SIZE)) as_ USER_STACK_BASE.

Definition task_register (as_ entry parent_id pgid_req : Z) : K Z :=
  n ← gets k_num ;
  if MAX_TASKS_LIMIT <=? n then mret (-1)
  else
    t ← kmalloc SIZEOF_TASK ;
    if t =? 0 then mret (-1)
    else
      fd_in ← file_alloc_console false ;
      fd_out ← file_alloc_console true ;
      if (fd_in =? 0) || (fd_out =? 0) then
        (if fd_in =? 0 then mret tt else kfree_file fd_in) ;;
        (if fd_out =? 0 then mret tt else kfree_file fd_out) ;;
        kfree_raw t ;;
        mret (-1)
      else
        id ← gets k_num ;
        modify (fun k => set_num k (u32 (id + 1))) ;;
        tab_set id t ;;
        cr3 ← gets (fun k => m_pml4 (k_mach k) as_) ;
        pgid ← (if pgid_req =? TASK_PGID_NEW then mret id
                else if pgid_req =? TASK_PGID_INHERIT then
                  if parent_id =? TASK_NO_PARENT then mret 0
                  else q ← tab_get parent_id ; pt ← get_task q ; mret (t_pgid pt)
                else mret pgid_req) ;
        put_task t (mkTask
          (mkRegs 0 0 0 0 0 0 0 0 0 0 0 0 0 0 0 0 0 entry GDT_SELECTOR_USER_CODE USER_MODE_RFLAGS
             USER_STACK_TOP GDT_SELECTOR_USER_DATA)
          as_ cr3 TASK_READY WAIT_NONE id parent_id 0 pgid 0 (replicate (Z.to_nat MAX_SIGS) 0) 0
          false false 0
          (fd_in :: fd_out :: replicate (Z.to_nat (MAX_FDS - 2)) 0)
          (replicate (Z.to_nat MAX_REGIONS) (mkRegion 0 0))) ;;
        mret id.

(** The check of one requested descriptor: [inl] rejects, [inr] is the
    source file or 0 when none was asked for. *)
Definition source_fd (fd : Z) (writable : bool) : K (unit + Z) :=
  if fd =? -1 then mret (inr 0)
  else
    caller ← scheduler_current_task ;
    if (fd <? 0) || (MAX_FDS <=? fd) then mret (inl tt)
    else
      f ← fds_get caller fd ;
      if f =? 0 then mret (inl tt)
      else
        x ← get_file f ;
        if Bool.eqb (f_writable x) writable then mret (inr f) else mret (inl tt).

(** Duplicate [src] when there is one; [None] is out of memory. *)
Definition dup_source (src : Z) : K (option Z) :=
  if src =? 0 then mret (Some 0)
  else d ← file_dup src ; mret (if d =? 0 then None else Some d).

Definition close_dup (d : Z) : K unit := if d =? 0 then mret tt else file_close d.

(** Put the duplicate in place of the console descriptor [fd]. *)
Definition install_dup (id fd d : Z) : K unit :=
  if d =? 0 then mret tt
  else p ← tab_get id ; close_fd p fd ;; p ← tab_get id ; fds_set p fd d.

(** From the duplication of the descriptors on, with the address space
    ready. *)
Definition task_attach (as_ entry parent_id in_src out_src pgid_req : Z) : K Z :=
  in_dup ← dup_source in_src ;
  match in_dup with
  | None => m_upd (fun m => m_destroy_as m as_) ;; mret (-1)
  | Some in_dup =>
      out_dup ← dup_source out_src ;
      match out_dup with
      | None => close_dup in_dup ;; m_upd (fun m => m_destroy_as m as_) ;; mret (-1)
      | Some out_dup =>
          id ← task_register as_ entry parent_id pgid_req ;
          if id <? 0 then
            close_dup in_dup ;; close_dup out_dup ;;
            m_upd (fun m => m_destroy_as m as_) ;; mret (-1)
          else
            install_dup id 0 in_dup ;; install_dup id 1 out_dup ;; mret id
      end
  end.

Definition task_create_from_file (name : list Z) (parent_id in_fd out_fd pgid_req : Z) : K Z :=
  ok ← (if (pgid_req =? TASK_PGID_INHERIT) || (pgid_req =? TASK_PGID_NEW) then mret true
        else may_use_group parent_id pgid_req) ;
  if negb ok then mret (-1)
  else
    in_src ← source_fd in_fd false ;
    match in_src with
    | inl _ => mret (-1)
    | inr in_src =>
        out_src ← source_fd out_fd true ;
        match out_src with
        | inl _ => mret (-1)
        | inr out_src =>
            as_ ← m_op m_create_as ;
            if as_ =? 0 then mret (-1)
            else
              le ← (fun k => let '(m, r) := m_elf_load_file (k_mach k) name as_ in
                             match r with Some x => Ret x (set_mach k m) | None => UB end) ;
              if negb (le.1 =? 0) then m_upd (fun m => m_destroy_as m as_) ;; mret (-1)
              else
                rc ← map_user_stack as_ ;
                if negb (rc =? 0) then m_upd (fun m => m_destroy_as m as_) ;; mret (-1)
                else task_attach as_ le.2 parent_id in_src out_src pgid_req
        end
    end.

(** [scheduler_start]: the entry point and stack pointer ring 3 is entered
    with. *)
Definition scheduler_start : K (Z * Z) :=
  modify (fun k => set_current k 0) ;;
  p ← tab_get 0 ;
  t ← get_task p ;
  put_task p (set_tstate t TASK_RUNNING (t_wait t)) ;;
  modify (fun k => set_running k true) ;;
  modify (fun k => set_cr3 k (m_pml4 (k_mach k) (t_aspace t))) ;;
  mret (rip (t_regs t), user_rsp (t_regs t)).
End Sched.
