(* ===== verification/Syscall.v ===== *)
(** * Signals and system calls

    [kernel/signal.c] (delivery and return), [kernel/syscall.c] (every
    handler and the dispatcher), [kernel/timer.c] and the interrupt entry of
    [kernel/isr.c], over the computations of [Sched].

    The staging buffer of [sys_read] and [sys_write] is the list of bytes
    passed between them and the file layer. [sys_writefile] takes its
    buffer in one read before the file system runs. *)

From stdpp Require Import base list gmap fin_maps.
From Stdlib Require Import ZArith Lia Bool.
From S2P Require Import Prelude Frames Ring Kernel Sched.

Definition RED_ZONE_BYTES : Z := 128.
Definition SYSCALL_IO_MAX : Z := 4096.
Definition SYSCALL_NAME_MAX : Z := 16.
Definition SIZEOF_TASK_INFO : Z := 20.
Definition USER_PAGE_SIZE : Z := 4096.

Definition SYS_EXIT : Z := 0.
Definition SYS_WRITE : Z := 1.
Definition SYS_READKEY : Z := 2.
Definition SYS_LIST : Z := 3.
Definition SYS_RUN : Z := 4.
Definition SYS_READFILE : Z := 5.
Definition SYS_WAIT : Z := 6.
Definition SYS_WRITEFILE : Z := 7.
Definition SYS_DELETE : Z := 8.
Definition SYS_FREECOUNT : Z := 9.
Definition SYS_STAT : Z := 10.
Definition SYS_READ : Z := 11.
Definition SYS_CLOSE : Z := 12.
Definition SYS_PIPE : Z := 13.
Definition SYS_SIGNAL : Z := 14.
Definition SYS_KILL : Z := 15.
Definition SYS_SIGRETURN : Z := 16.
Definition SYS_SETFG : Z := 17.
Definition SYS_TASKS : Z := 18.
Definition SYS_MMAP : Z := 19.
Definition SYS_MUNMAP : Z := 20.

(** ** Pure parts *)

(** Where [deliver_to_handler] puts the saved context, from the
    interrupted stack pointer: past the red zone, aligned, below. *)
Definition signal_frame (rsp : Z) : Z :=
  let sp := u64 (rsp - RED_ZONE_BYTES) in
  let sp := Z.land sp (u64 (Z.lnot 0xF)) in
  u64 (sp - SIZEOF_REGISTERS).

(** The lowest pending signal, by the scan of [check_signals]. *)
Definition lowest_pending (pending : Z) : option Z :=
  scan (fun i => negb (Z.land pending (Z.shiftl 1 i) =? 0)) (Z.to_nat (MAX_SIGS - 1)) 1.

Definition clear_pending (pending sig : Z) : Z := Z.land pending (u32 (Z.lnot (Z.shiftl 1 sig))).

Definition round_up_to_page (n : Z) : Z :=
  Z.land (u64 (n + USER_PAGE_SIZE - 1)) (u64 (Z.lnot (USER_PAGE_SIZE - 1))).

(** The scan of [sys_mmap] over the region table: the first free slot (-1
    for none), the first address above every region, and the total. *)
Definition region_scan (rs : list region) : Z * Z * Z :=
  for_range (Z.to_nat MAX_REGIONS) 0 (fun i '(slot, next, total) =>
    let g := znth (mkRegion 0 0) rs i in
    if reg_length g =? 0 then ((if slot <? 0 then i else slot), next, total)
    else
      let end_ := u64 (reg_base g + reg_length g) in
      (slot, (if next <? end_ then end_ else next), u64 (total + reg_length g)))
    (-1, USER_HEAP_BASE, 0).

(** The slot of the region that [sys_munmap] is asked for. *)
Definition region_find (rs : list region) (addr length : Z) : option Z :=
  scan (fun i =>
    let g := znth (mkRegion 0 0) rs i in
    negb (reg_length g =? 0) && ((reg_base g =? addr) && (reg_length g =? length)))
    (Z.to_nat MAX_REGIONS) 0.

Definition task_state_for_ring3 (s : task_state) : Z :=
  match s with
  | TASK_READY => 1 | TASK_RUNNING => 2 | TASK_BLOCKED => 3 | TASK_ZOMBIE => 4
  | TASK_UNUSED => 0
  end.

(** One [task_info_t] in memory. *)
Definition task_info (t : task) : list Z :=
  le_bytes 4 (t_id t) ++ le_bytes 4 (t_parent t) ++ le_bytes 4 (t_pgid t) ++
  le_bytes 4 (task_state_for_ring3 (t_state t)) ++
  le_bytes 4 (if decide (t_state t = TASK_ZOMBIE) then t_exit t else 0).

Section Syscalls.
Context {M : Type} {mach : Machine M}.
Notation K := (K M).

(** ** Signals *)

Definition deliver_to_handler (r : registers) (p sig : Z) : K registers :=
  let sp := signal_frame (user_rsp r) in
  if negb (user_range_ok sp (SIZEOF_REGISTERS + 8)) then task_exit r (SIG_EXIT_STATUS SIG_SEGV)
  else
    u_store_bytes sp (words_bytes (regs_words r)) ;;
    let ctx := sp in
    let sp := u64 (sp - 8) in
    t ← get_task p ;
    u_store_bytes sp (le_bytes 8 (t_trampoline t)) ;;
    put_task p (set_active (set_pending t (clear_pending (t_pending t) sig)) true ctx) ;;
    mret (set_entry r (znth 0 (t_handlers t) sig) sig sp).

Definition check_signals (r : registers) : K registers :=
  if negb (Z.land (cs r) 3 =? 3) then mret r
  else
    p ← scheduler_current_task ;
    if p =? 0 then mret r
    else
      t ← get_task p ;
      if decide (t_state t = TASK_ZOMBIE) then mret r
      else if t_active t then mret r
      else if t_pending t =? 0 then mret r
      else
        match lowest_pending (t_pending t) with
        | None => mret r
        | Some sig =>
            if (znth 0 (t_handlers t) sig =? 0) || (sig =? SIG_KILL) then
              put_task p (set_pending t (clear_pending (t_pending t) sig)) ;;
              task_exit r (SIG_EXIT_STATUS sig)
            else deliver_to_handler r p sig
        end.

Definition signal_install_handler (p sig handler trampoline : Z) : K Z :=
  if (sig <=? 0) || (MAX_SIGS <=? sig) || (sig =? SIG_KILL) then mret (-1)
  else if negb (handler =? 0) && negb (user_range_ok handler 1) then mret (-1)
  else if negb (user_range_ok trampoline 1) then mret (-1)
  else
    t ← get_task p ;
    put_task p (set_handlers t (zset (t_handlers t) sig handler) trampoline) ;;
    mret 0.

Definition signal_sigreturn (r : registers) : K registers :=
  p ← scheduler_current_task ;
  t ← get_task p ;
  if negb (t_active t) then task_exit r (SIG_EXIT_STATUS SIG_SEGV)
  else if negb (user_range_ok (t_ctx t) SIZEOF_REGISTERS) then task_exit r (SIG_EXIT_STATUS SIG_SEGV)
  else
    bs ← u_load_bytes (Z.to_nat SIZEOF_REGISTERS) (t_ctx t) ;
    let r := words_regs (bytes_words 22 bs) in
    let r := set_priv r GDT_SELECTOR_USER_CODE GDT_SELECTOR_USER_DATA
               (Z.lor (rflags r) USER_MODE_RFLAGS) in
    put_task p (set_active t false 0) ;;
    mret r.

(** ** Copying a name in *)

Fixpoint copy_string_loop (n : nat) (addr : Z) : K (option (list Z)) :=
  match n with
  | O => mret None
  | S n' =>
      if USER_SPACE_END <=? addr then mret None
      else
        c ← u_load addr ;
        if c =? 0 then mret (Some [])
        else rest ← copy_string_loop n' (addr + 1) ; mret (option_map (cons c) rest)
  end.

(** The string without its terminator, or [None] when it is refused. *)
Definition copy_user_string (user_ptr dst_size : Z) : K (option (list Z)) :=
  if dst_size =? 0 then mret None
  else if (user_ptr <? USER_REGION_START) || (USER_SPACE_END <=? user_ptr) then mret None
  else copy_string_loop (Z.to_nat dst_size) user_ptr.

(** ** The handlers *)

Definition sys_write (r : registers) : K registers :=
  let fd := rdi r in let user_buf := rsi r in let len := rdx r in
  p ← scheduler_current_task ;
  if MAX_FDS <=? fd then mret (set_rax r SYSCALL_ERROR)
  else
    f ← fds_get p fd ;
    if f =? 0 then mret (set_rax r SYSCALL_ERROR)
    else
      x ← get_file f ;
      if negb (f_writable x) then mret (set_rax r SYSCALL_ERROR)
      else if len =? 0 then mret (set_rax r 0)
      else
        let n := if len <? SYSCALL_IO_MAX then len else SYSCALL_IO_MAX in
        if negb (user_range_ok user_buf n) then mret (set_rax r SYSCALL_ERROR)
        else
          bs ← u_load_bytes (Z.to_nat n) user_buf ;
          w ← file_write f bs n r ;
          if w.1 =? FILE_BLOCKED then mret w.2
          else if w.1 <? 0 then mret (set_rax w.2 SYSCALL_ERROR)
          else mret (set_rax w.2 w.1).

Definition sys_read (r : registers) : K registers :=
  let fd := rdi r in let user_buf := rsi r in let len := rdx r in
  p ← scheduler_current_task ;
  if MAX_FDS <=? fd then mret (set_rax r SYSCALL_ERROR)
  else
    f ← fds_get p fd ;
    if f =? 0 then mret (set_rax r SYSCALL_ERROR)
    else
      x ← get_file f ;
      if f_writable x then mret (set_rax r SYSCALL_ERROR)
      else if len =? 0 then mret (set_rax r 0)
      else
        let n := if len <? SYSCALL_IO_MAX then len else SYSCALL_IO_MAX in
        if negb (user_range_ok user_buf n) then mret (set_rax r SYSCALL_ERROR)
        else
          g ← file_read f n r ;
          if g.1.1 =? FILE_BLOCKED then mret g.2
          else if g.1.1 <? 0 then mret (set_rax g.2 SYSCALL_ERROR)
          else
            (if 0 <? g.1.1 then u_store_bytes user_buf g.1.2 else mret tt) ;;
            mret (set_rax g.2 g.1.1).

Definition sys_close (fd : Z) : K Z :=
  p ← scheduler_current_task ;
  if MAX_FDS <=? fd then mret SYSCALL_ERROR
  else
    f ← fds_get p fd ;
    if f =? 0 then mret SYSCALL_ERROR else close_fd p fd ;; mret 0.

Definition sys_pipe (user_out : Z) : K Z :=
  if negb (user_range_ok user_out 8) then mret SYSCALL_ERROR
  else
    t ← scheduler_current_task ;
    p ← pipe_create ;
    if p =? 0 then mret SYSCALL_ERROR
    else
      rfd ← alloc_fd t ;
      if rfd <? 0 then kfree_pipe p ;; mret SYSCALL_ERROR
      else
        rend ← file_alloc_pipe p false ;
        if rend =? 0 then kfree_pipe p ;; mret SYSCALL_ERROR
        else
          fds_set t rfd rend ;;
          wfd ← alloc_fd t ;
          if wfd <? 0 then close_fd t rfd ;; mret SYSCALL_ERROR
          else
            wend ← file_alloc_pipe p true ;
            if wend =? 0 then close_fd t rfd ;; mret SYSCALL_ERROR
            else
              fds_set t wfd wend ;;
              u_store_bytes user_out (le_bytes 4 rfd) ;;
              u_store_bytes (user_out + 4) (le_bytes 4 wfd) ;;
              mret 0.

Definition sys_readkey (r : registers) : K registers :=
  b ← gets k_kbd ;
  let '(b, c) := keyboard_getchar b in
  modify (fun k => set_kbd k b) ;;
  if negb (c =? 0) then mret (set_rax r c)
  else
    x ← task_block r WAIT_KEY ;
    mret (if x.1 =? TASK_BLOCK_INTERRUPTED then set_rax x.2 SYSCALL_ERROR else x.2).

Definition sys_list (user_buf bufsize : Z) : K Z :=
  if negb (user_range_ok user_buf bufsize) then mret SYSCALL_ERROR
  else
    x ← (fun k => let '(m, rc, bs, count) := m_list_names (k_mach k) (u32 bufsize) in
                  Ret (rc, bs, count) (set_mach k m)) ;
    u_store_bytes user_buf x.1.2 ;;
    mret (if negb (x.1.1 =? 0) then SYSCALL_ERROR else x.2).

Definition sys_run (user_name in_fd out_fd pgid_req : Z) : K Z :=
  name ← copy_user_string user_name SYSCALL_NAME_MAX ;
  match name with
  | None => mret SYSCALL_ERROR
  | Some name =>
      cur ← gets k_current ;
      id ← task_create_from_file name cur (i32 in_fd) (i32 out_fd) (u32 pgid_req) ;
      mret (if id <? 0 then SYSCALL_ERROR else id)
  end.

Definition sys_readfile (user_name user_buf bufsize : Z) : K Z :=
  name ← copy_user_string user_name SYSCALL_NAME_MAX ;
  match name with
  | None => mret SYSCALL_ERROR
  | Some name =>
      if negb (user_range_ok user_buf bufsize) then mret SYSCALL_ERROR
      else
        x ← (fun k => let '(m, rc, bs, size) := m_read_file (k_mach k) name (u32 bufsize) in
                      Ret (rc, bs, size) (set_mach k m)) ;
        u_store_bytes user_buf x.1.2 ;;
        mret (if negb (x.1.1 =? 0) then SYSCALL_ERROR else x.2)
  end.

Definition sys_writefile (user_name user_buf len : Z) : K Z :=
  name ← copy_user_string user_name SYSCALL_NAME_MAX ;
  match name with
  | None => mret SYSCALL_ERROR
  | Some name =>
      if negb (user_range_ok user_buf len) then mret SYSCALL_ERROR
      else
        bs ← u_load_bytes (Z.to_nat (u32 len)) user_buf ;
        rc ← m_op (fun m => m_write_file m name bs) ;
        mret (if negb (rc =? 0) then SYSCALL_ERROR else 0)
  end.

Definition sys_delete (user_name : Z) : K Z :=
  name ← copy_user_string user_name SYSCALL_NAME_MAX ;
  match name with
  | None => mret SYSCALL_ERROR
  | Some name =>
      rc ← m_op (fun m => m_delete m name) ;
      mret (if negb (rc =? 0) then SYSCALL_ERROR else 0)
  end.

Definition sys_freecount : K Z := m_op m_free_count.

Definition sys_stat (user_name user_size : Z) : K Z :=
  name ← copy_user_string user_name SYSCALL_NAME_MAX ;
  match name with
  | None => mret SYSCALL_ERROR
  | Some name =>
      if negb (user_range_ok user_size 8) then mret SYSCALL_ERROR
      else
        x ← (fun k => let '(m, rc, size) := m_stat (k_mach k) name in Ret (rc, size) (set_mach k m)) ;
        if negb (x.1 =? 0) then mret SYSCALL_ERROR
        else u_store_bytes user_size (le_bytes 8 x.2) ;; mret 0
  end.

Definition sys_exit (r : registers) : K registers := task_exit r (i32 (rdi r)).

Definition sys_wait (r : registers) : K registers :=
  if negb (rdi r =? 0) && negb (user_range_ok (rdi r) 8) then mret (set_rax r SYSCALL_ERROR)
  else task_wait r.

Definition sys_setfg (pgid : Z) : K Z :=
  cur ← gets k_current ;
  rc ← scheduler_set_foreground cur (u32 pgid) ;
  mret (if negb (rc =? 0) then SYSCALL_ERROR else 0).

Definition sys_signal (sig handler trampoline : Z) : K Z :=
  p ← scheduler_current_task ;
  rc ← signal_install_handler p (i32 sig) handler trampoline ;
  mret (if negb (rc =? 0) then SYSCALL_ERROR else 0).

Definition sys_kill (id sig : Z) : K Z :=
  p ← scheduler_task_by_id (u32 id) ;
  if p =? 0 then mret SYSCALL_ERROR
  else
    t ← get_task p ;
    if decide (t_state t = TASK_ZOMBIE) then mret SYSCALL_ERROR
    else if (i32 sig <=? 0) || (MAX_SIGS <=? i32 sig) then mret SYSCALL_ERROR
    else signal_raise (u32 id) (i32 sig) ;; mret 0.

Definition sys_mmap (length : Z) : K Z :=
  p ← scheduler_current_task ;
  let slot_bytes := USER_HEAP_LIMIT - USER_HEAP_BASE in
  if (length =? 0) || (slot_bytes <? length) then mret SYSCALL_ERROR
  else
    let length := round_up_to_page length in
    t ← get_task p ;
    let '(slot, next, total) := region_scan (t_regions t) in
    if slot <? 0 then mret SYSCALL_ERROR
    else if u64 (USER_HEAP_LIMIT - next) <? length then mret SYSCALL_ERROR
    else if slot_bytes <? u64 (total + length) then mret SYSCALL_ERROR
    else
      rc ← m_op (fun m => m_map_range m (t_aspace t) next length) ;
      if negb (rc =? 0) then mret SYSCALL_ERROR
      else
        put_task p (set_regions t (zset (t_regions t) slot (mkRegion next length))) ;;
        mret next.

Definition sys_munmap (addr length : Z) : K Z :=
  p ← scheduler_current_task ;
  if (length =? 0) || (USER_HEAP_LIMIT - USER_HEAP_BASE <? length) then mret SYSCALL_ERROR
  else
    let length := round_up_to_page length in
    t ← get_task p ;
    match region_find (t_regions t) addr length with
    | None => mret SYSCALL_ERROR
    | Some i =>
        m_upd (fun m => m_unmap_range m (t_aspace t) addr length) ;;
        put_task p (set_regions t (zset (t_regions t) i (mkRegion 0 0))) ;;
        mret 0
    end.

(** The loop of [sys_tasks]: [n] records written so far. *)
Fixpoint tasks_loop (fuel : nat) (id n capacity user_buf : Z) : K Z :=
  match fuel with
  | O => mret n
  | S fuel' =>
      if n <? capacity then
        p ← scheduler_task_by_id id ;
        if p =? 0 then tasks_loop fuel' (id + 1) n capacity user_buf
        else
          t ← get_task p ;
          u_store_bytes (user_buf + n * SIZEOF_TASK_INFO) (task_info t) ;;
          tasks_loop fuel' (id + 1) (n + 1) capacity user_buf
      else mret n
  end.

Definition sys_tasks (user_buf bufsize : Z) : K Z :=
  if negb (user_range_ok user_buf bufsize) then mret SYSCALL_ERROR
  else
    limit ← gets k_num ;
    tasks_loop (Z.to_nat limit) 0 0 (bufsize / SIZEOF_TASK_INFO) user_buf.

(** ** Entry points *)

(** A handler that returns the value of [rax]. *)
Definition returning (r : registers) (m : K Z) : K registers := v ← m ; mret (set_rax r v).

Definition dispatch (r : registers) : K registers :=
  let n := rax r in
  if n =? SYS_EXIT then sys_exit r
  else if n =? SYS_WRITE then sys_write r
  else if n =? SYS_READKEY then sys_readkey r
  else if n =? SYS_LIST then returning r (sys_list (rdi r) (rsi r))
  else if n =? SYS_RUN then returning r (sys_run (rdi r) (rsi r) (rdx r) (rcx r))
  else if n =? SYS_READFILE then returning r (sys_readfile (rdi r) (rsi r) (rdx r))
  else if n =? SYS_WRITEFILE then returning r (sys_writefile (rdi r) (rsi r) (rdx r))
  else if n =? SYS_DELETE then returning r (sys_delete (rdi r))
  else if n =? SYS_FREECOUNT then returning r sys_freecount
  else if n =? SYS_STAT then returning r (sys_stat (rdi r) (rsi r))
  else if n =? SYS_READ then sys_read r
  else if n =? SYS_CLOSE then returning r (sys_close (rdi r))
  else if n =? SYS_PIPE then returning r (sys_pipe (rdi r))
  else if n =? SYS_WAIT then sys_wait r
  else if n =? SYS_SETFG then returning r (sys_setfg (rdi r))
  else if n =? SYS_SIGNAL then returning r (sys_signal (rdi r) (rsi r) (rdx r))
  else if n =? SYS_KILL then returning r (sys_kill (rdi r) (rsi r))
  else if n =? SYS_TASKS then returning r (sys_tasks (rdi r) (rsi r))
  else if n =? SYS_SIGRETURN then signal_sigreturn r
  else if n =? SYS_MMAP then returning r (sys_mmap (rdi r))
  else if n =? SYS_MUNMAP then returning r (sys_munmap (rdi r) (rsi r))
  else mret (set_rax r SYSCALL_ERROR).

Definition syscall_handler (r : registers) : K registers := r ← dispatch r ; check_signals r.

Definition timer_callback (r : registers) : K registers :=
  modify (fun k => set_tick k (u32 (k_tick k + 1))) ;; schedule r.

(** [irq_handler] for the two interrupts the kernel installs handlers
    for. *)
Definition timer_irq (r : registers) : K registers := r ← timer_callback r ; check_signals r.
Definition keyboard_irq (scancode : Z) (r : registers) : K registers :=
  keyboard_callback scancode ;; check_signals r.
End Syscalls.
