(* ===== verification/KernelInv.v ===== *)
(** * The kernel invariant

    [kinv z k] says that the pointer structure of the kernel is sound:

    - every entry of the task table is [NULL] or points to a live task that
      knows its own index, and every live task is in the table;
    - every open file is in exactly one descriptor slot;
    - the [readers] and [writers] counts of every pipe are the number of
      open ends of each kind, and a pipe with no end left is gone;
    - address spaces belong to at most one task, and every task that is not
      a zombie has one;
    - the heap's live objects are exactly the tasks, files, pipes and
      address spaces above, all at different addresses, so nothing leaks;
    - at most the current task is running, a task waits for something
      exactly when it is blocked, and every saved frame returns to ring 3
      with interrupts on.

    [z] holds what a C function owns in local variables between two stores:
    a block, file, pipe or address space that is allocated but not linked
    yet.  It is empty at every entry to and exit from the kernel.

    The lemmas of this file are the steps; [KernelSafe] composes them into
    the handlers. *)

From stdpp Require Import base list gmap fin_maps fin_map_dom.
From Stdlib Require Import ZArith Lia Bool.
From S2P Require Import Prelude Frames Ring Kernel Sched.

(** ** What the machine promises *)

Section Laws.
Context {M : Type} {mach : Machine M}.

(** What every operation that does not concern the kernel heap or the set
    of address spaces leaves alone. *)
Definition quiet_on (ok : M -> Prop) (live as_ : M -> gset Z) (m m' : M) : Prop :=
  ok m' /\ live m' = live m /\ as_ m' = as_ m /\ forall a, a ∈ as_ m -> m_pml4 m' a = m_pml4 m a.
End Laws.

Class MachineLaws (M : Type) {mach : Machine M} := {
  m_ok : M -> Prop;
  m_live : M -> gset Z;    (* the live blocks of the kernel heap *)
  m_as : M -> gset Z;      (* those that are address spaces *)
  law_nonzero : forall m, m_ok m -> 0 ∉ m_live m;
  law_as_live : forall m, m_ok m -> m_as m ⊆ m_live m;
  law_kmalloc : forall m n m' p, m_ok m -> 0 <= n < 2 ^ 32 -> m_kmalloc m n = (m', p) ->
    m_ok m' /\ m_as m' = m_as m /\ (forall a, a ∈ m_as m -> m_pml4 m' a = m_pml4 m a) /\
    (p = 0 /\ m_live m' = m_live m \/ p <> 0 /\ p ∉ m_live m /\ m_live m' = {[p]} ∪ m_live m);
  law_kfree : forall m p, m_ok m -> p ∈ m_live m -> p ∉ m_as m ->
    let m' := m_kfree m p in
    m_ok m' /\ m_as m' = m_as m /\ (forall a, a ∈ m_as m -> m_pml4 m' a = m_pml4 m a) /\
    m_live m' = m_live m ∖ {[p]};
  law_create : forall m m' p, m_ok m -> m_create_as m = (m', p) ->
    m_ok m' /\ (forall a, a ∈ m_as m -> m_pml4 m' a = m_pml4 m a) /\
    (p = 0 /\ m_live m' = m_live m /\ m_as m' = m_as m \/
     p <> 0 /\ p ∉ m_live m /\ m_live m' = {[p]} ∪ m_live m /\ m_as m' = {[p]} ∪ m_as m);
  law_destroy : forall m p, m_ok m -> p ∈ m_as m ->
    let m' := m_destroy_as m p in
    m_ok m' /\ (forall a, a ∈ m_as m -> a <> p -> m_pml4 m' a = m_pml4 m a) /\
    m_live m' = m_live m ∖ {[p]} /\ m_as m' = m_as m ∖ {[p]};
  law_stack_none : forall m m', m_ok m -> m_alloc_frame m = (m', 0) -> quiet_on m_ok m_live m_as m m';
  law_stack_page : forall m m1 m2 a va f rc, m_ok m -> a ∈ m_as m ->
    USER_STACK_BASE <= va < USER_STACK_TOP -> va mod FRAME_SIZE = 0 ->
    m_alloc_frame m = (m1, f) -> f <> 0 -> m_map_page m1 a va f USER_PAGE_FLAGS = (m2, rc) ->
    quiet_on m_ok m_live m_as m m2;
  law_map_range : forall m a base len m' rc, m_ok m -> a ∈ m_as m ->
    USER_HEAP_BASE <= base -> 0 <= len -> base + len <= USER_HEAP_LIMIT -> base mod FRAME_SIZE = 0 -> len mod FRAME_SIZE = 0 ->
    m_map_range m a base len = (m', rc) -> quiet_on m_ok m_live m_as m m';
  law_unmap_range : forall m a base len, m_ok m -> a ∈ m_as m ->
    USER_HEAP_BASE <= base -> 0 <= len -> base + len <= USER_HEAP_LIMIT -> base mod FRAME_SIZE = 0 -> len mod FRAME_SIZE = 0 ->
    quiet_on m_ok m_live m_as m (m_unmap_range m a base len);
  law_elf : forall m name a m' r, m_ok m -> a ∈ m_as m ->
    m_elf_load_file m name a = (m', r) -> quiet_on m_ok m_live m_as m m' /\ exists rc e, r = Some (rc, e);
  law_load : forall m c va b, m_load m c va = Some b -> 0 <= b < 256;
  law_store : forall m a va b m', m_ok m -> a ∈ m_as m -> ring3_addr va = true ->
    m_store m (m_pml4 m a) va b = Some m' -> quiet_on m_ok m_live m_as m m';
  law_list : forall m n m' rc bs c, m_ok m -> 0 <= n <= USER_SPACE_END -> m_list_names m n = (m', rc, bs, c) ->
    quiet_on m_ok m_live m_as m m' /\ zlen bs <= n;
  law_read : forall m name n m' rc bs c, m_ok m -> 0 <= n <= USER_SPACE_END -> m_read_file m name n = (m', rc, bs, c) ->
    quiet_on m_ok m_live m_as m m' /\ zlen bs <= n;
  law_write : forall m name bs m' rc, m_ok m -> Forall (fun c => 1 <= c < 256) name -> Forall (fun b => 0 <= b < 256) bs -> zlen bs <= USER_SPACE_END ->
    m_write_file m name bs = (m', rc) ->
    quiet_on m_ok m_live m_as m m';
  law_delete : forall m name m' rc, m_ok m -> m_delete m name = (m', rc) ->
    quiet_on m_ok m_live m_as m m';
  law_free_count : forall m m' c, m_ok m -> m_free_count m = (m', c) -> quiet_on m_ok m_live m_as m m';
  law_stat : forall m name m' rc s, m_ok m -> m_stat m name = (m', rc, s) ->
    quiet_on m_ok m_live m_as m m'
}.

Notation quiet := (quiet_on m_ok m_live m_as).

(** ** The invariant *)

Record loose := mkLoose { lo_raw : gset Z; lo_file : gset Z; lo_pipe : gset Z; lo_as : gset Z }.
Definition none : loose := mkLoose ∅ ∅ ∅ ∅.

(** The I/O privilege level of the frame, bits 12 and 13 of its flags, is
    below 3: in ring 3 [cli], [sti], [in] and [out] fault and [popf] leaves
    the interrupt flag alone. *)
Definition io_closed (r : registers) : Prop := Z.land (rflags r) 0x3000 <> 0x3000.

(** A frame that [iretq] returns to ring 3, with interrupts on unless the
    frame has I/O privilege. *)
Definition user_frame (r : registers) : Prop :=
  cs r = GDT_SELECTOR_USER_CODE /\ ss r = GDT_SELECTOR_USER_DATA /\ (io_closed r -> Z.testbit (rflags r) 9 = true).

(** A region of the ring-3 heap slot: free, or whole pages inside it. *)
Definition region_ok (g : region) : Prop :=
  reg_length g = 0 \/
  USER_HEAP_BASE <= reg_base g /\ 0 < reg_length g /\ reg_base g + reg_length g <= USER_HEAP_LIMIT /\
  reg_base g mod FRAME_SIZE = 0 /\ reg_length g mod FRAME_SIZE = 0.

Definition region_apart (g g' : region) : Prop :=
  reg_length g = 0 \/ reg_length g' = 0 \/
  reg_base g + reg_length g <= reg_base g' \/ reg_base g' + reg_length g' <= reg_base g.

Definition regions_ok (rs : list region) : Prop :=
  zlen rs = MAX_REGIONS /\ Forall region_ok rs /\
  forall i j g g', rs !! i = Some g -> rs !! j = Some g' -> i <> j -> region_apart g g'.

(** The part of a task that does not depend on the others. *)
Record task_ok (t : task) : Prop := {
  to_regs : user_frame (t_regs t);
  to_fds : zlen (t_fds t) = MAX_FDS;
  to_handlers : zlen (t_handlers t) = MAX_SIGS;
  to_regions : regions_ok (t_regions t);
  to_state : t_state t <> TASK_UNUSED;
  to_wait : t_wait t <> WAIT_NONE <-> t_state t = TASK_BLOCKED;
  to_parent : 0 <= t_parent t < 2 ^ 32;
  to_aspace : t_aspace t = 0 -> t_state t = TASK_ZOMBIE;
  to_zombie : t_state t = TASK_ZOMBIE -> Forall (eq 0) (t_fds t)
}.

Section Inv.
Context {M : Type} {mach : Machine M} {laws : MachineLaws M}.
Implicit Types k : kernel M.

(** File [f] is in slot [i] of the task at [p]. *)
Definition owns k (p i f : Z) : Prop :=
  exists t, k_tasks k !! p = Some t /\ 0 <= i < MAX_FDS /\ znth 0 (t_fds t) i = f /\ f <> 0.

(** The open ends of pipe [q] of one kind. *)
Definition is_end (q : Z) (w : bool) (x : Z * file) : Prop :=
  f_kind x.2 = FD_PIPE /\ f_pipe x.2 = q /\ f_writable x.2 = w.
#[export] Instance is_end_dec q w x : Decision (is_end q w x).
Proof. unfold is_end. apply _. Defined.
Definition ends (fs : gmap Z file) (q : Z) (w : bool) : Z := Z.of_nat (size (filter (is_end q w) fs)).

Definition pipe_sound (fs : gmap Z file) (q : Z) (x : pipe) : Prop :=
  pipe_ok x /\ readers x = ends fs q false /\ writers x = ends fs q true.

Record kinv (z : loose) (k : kernel M) : Prop := {
  ki_num : 0 <= k_num k <= MAX_TASKS_LIMIT /\ zlen (k_tab k) = MAX_TASKS_LIMIT;
  ki_tab : forall i, 0 <= i < MAX_TASKS_LIMIT -> znth 0 (k_tab k) i <> 0 ->
    i < k_num k /\ exists t, k_tasks k !! znth 0 (k_tab k) i = Some t /\ t_id t = i;
  ki_tasks : forall p t, k_tasks k !! p = Some t ->
    0 <= t_id t < k_num k /\ znth 0 (k_tab k) (t_id t) = p /\ task_ok t;
  ki_own : forall p i f, owns k p i f -> f ∈ dom (k_files k) /\ f ∉ lo_file z;
  ki_own_uniq : forall p i p' i' f, owns k p i f -> owns k p' i' f -> p = p' /\ i = i';
  ki_own_all : forall f, f ∈ dom (k_files k) -> f ∈ lo_file z \/ exists p i, owns k p i f;
  ki_loose_file : lo_file z ⊆ dom (k_files k);
  ki_fpipe : forall a f, k_files k !! a = Some f -> f_kind f = FD_PIPE -> f_pipe f ∈ dom (k_pipes k);
  ki_pipes : forall q x, k_pipes k !! q = Some x -> pipe_sound (k_files k) q x /\
    (q ∈ lo_pipe z \/ 0 < readers x + writers x);
  ki_loose_pipe : lo_pipe z ⊆ dom (k_pipes k);
  ki_ok : m_ok (k_mach k);
  ki_live : m_live (k_mach k) =
    dom (k_tasks k) ∪ dom (k_files k) ∪ dom (k_pipes k) ∪ m_as (k_mach k) ∪ lo_raw z;
  ki_apart : dom (k_tasks k) ## dom (k_files k) /\ dom (k_tasks k) ## dom (k_pipes k) /\
    dom (k_files k) ## dom (k_pipes k) /\
    dom (k_tasks k) ∪ dom (k_files k) ∪ dom (k_pipes k) ## m_as (k_mach k) ∪ lo_raw z /\
    m_as (k_mach k) ## lo_raw z;
  ki_as : forall p t, k_tasks k !! p = Some t -> t_aspace t <> 0 ->
    t_aspace t ∈ m_as (k_mach k) /\ t_aspace t ∉ lo_as z /\
    t_cr3 t = m_pml4 (k_mach k) (t_aspace t);
  ki_as_uniq : forall p t p' t', k_tasks k !! p = Some t -> k_tasks k !! p' = Some t' ->
    t_aspace t = t_aspace t' -> t_aspace t <> 0 -> p = p';
  ki_as_all : forall a, a ∈ m_as (k_mach k) -> a ∈ lo_as z \/
    exists p t, k_tasks k !! p = Some t /\ t_aspace t = a;
  ki_loose_as : lo_as z ⊆ m_as (k_mach k);
  ki_run : forall p t, k_tasks k !! p = Some t -> t_state t = TASK_RUNNING ->
    k_running k = true /\ t_id t = k_current k;
  ki_cur : k_running k = true -> 0 <= k_current k < k_num k /\
    exists t, k_tasks k !! znth 0 (k_tab k) (k_current k) = Some t /\
      t_aspace t <> 0 /\ k_cr3 k = t_cr3 t;
  ki_kbd : kbd_ok (k_kbd k)
}.

(** The current task, in ring 3. *)
Definition in_user k : Prop :=
  k_running k = true /\
  exists t, k_tasks k !! znth 0 (k_tab k) (k_current k) = Some t /\ t_state t = TASK_RUNNING.

(** ** Reading the invariant *)

Lemma kinv_nonzero z k p : kinv z k -> p ∈ m_live (k_mach k) -> p <> 0.
Proof. intros H Hp ->. by apply (law_nonzero _ (ki_ok _ _ H)). Qed.

Lemma kinv_task_nonzero z k p t : kinv z k -> k_tasks k !! p = Some t -> p <> 0.
Proof.
  intros H Hp. apply (kinv_nonzero z k); [done |]. rewrite (ki_live _ _ H).
  apply elem_of_dom_2 in Hp. set_solver +Hp.
Qed.

Lemma kinv_file_nonzero z k f x : kinv z k -> k_files k !! f = Some x -> f <> 0.
Proof.
  intros H Hp. apply (kinv_nonzero z k); [done |]. rewrite (ki_live _ _ H).
  apply elem_of_dom_2 in Hp. set_solver +Hp.
Qed.

Lemma kinv_pipe_nonzero z k f x : kinv z k -> k_pipes k !! f = Some x -> f <> 0.
Proof.
  intros H Hp. apply (kinv_nonzero z k); [done |]. rewrite (ki_live _ _ H).
  apply elem_of_dom_2 in Hp. set_solver +Hp.
Qed.

(** A table entry that is not [NULL] is a task of that index. *)
Lemma kinv_entry z k i :
  kinv z k -> 0 <= i < MAX_TASKS_LIMIT -> znth 0 (k_tab k) i <> 0 ->
  exists t, k_tasks k !! znth 0 (k_tab k) i = Some t /\ t_id t = i /\ i < k_num k /\ task_ok t.
Proof.
  intros H Hi Hz. destruct (ki_tab _ _ H i Hi Hz) as (Hn & t & Ht & E).
  destruct (ki_tasks _ _ H _ _ Ht) as (_ & _ & Hok). by exists t.
Qed.

(** ** Steps that keep the invariant *)

(** Replacing a task by one with the same identity, descriptors and
    address space. *)
Lemma kinv_put_task z k p t t' :
  kinv z k -> k_tasks k !! p = Some t -> task_ok t' ->
  t_id t' = t_id t -> t_fds t' = t_fds t -> t_aspace t' = t_aspace t -> t_cr3 t' = t_cr3 t ->
  (t_state t' = TASK_RUNNING -> k_running k = true /\ t_id t = k_current k) ->
  kinv z (set_tasks k (<[p := t']> (k_tasks k))).
Proof.
  intros H Hp Hok Eid Efd Eas Ecr Hrun.
  assert (forall q x, <[p := t']> (k_tasks k) !! q = Some x ->
    exists y, k_tasks k !! q = Some y /\ t_id x = t_id y /\ t_fds x = t_fds y /\
      t_aspace x = t_aspace y /\ t_cr3 x = t_cr3 y /\ (x = y \/ q = p /\ x = t')) as Hlk.
  { intros q x. destruct (decide (q = p)) as [-> | Hne].
    - rewrite lookup_insert_eq. intros [= <-]. exists t. eauto 10.
    - rewrite lookup_insert_ne by done. intros. exists x. eauto 10. }
  assert (forall q y, k_tasks k !! q = Some y -> exists x, <[p := t']> (k_tasks k) !! q = Some x /\
      t_id x = t_id y /\ t_fds x = t_fds y /\ t_aspace x = t_aspace y /\ t_cr3 x = t_cr3 y) as Hlk2.
  { intros q y Hq. destruct (decide (q = p)) as [-> | Hne].
    - rewrite lookup_insert_eq. simplify_eq. eauto 10.
    - rewrite lookup_insert_ne by done. eauto 10. }
  assert (forall q i f, owns (set_tasks k (<[p := t']> (k_tasks k))) q i f <-> owns k q i f) as Hown.
  { intros q i f. unfold owns; simpl. split.
    - intros (x & (y & Hy & _ & E & _)%Hlk & Hi & Hf & Hz). exists y. rewrite <- E. done.
    - intros (y & (x & Hx & _ & E & _)%Hlk2 & Hi & Hf & Hz). exists x. rewrite E. done. }
  assert (dom (<[p := t']> (k_tasks k)) = dom (k_tasks k)) as Hdom.
  { apply dom_insert_lookup_L. by eexists. }
  destruct H; split; simpl; rewrite ?Hdom; try done.
  - intros i Hi Hz. destruct (ki_tab0 i Hi Hz) as (Hn & y & Hy & E).
    destruct (Hlk2 _ _ Hy) as (x & Hx & Ex & _). split; [done |]. exists x. split; [done | congruence].
  - intros q x (y & Hy & E & _ & _ & _ & Hc)%Hlk. rewrite E.
    destruct (ki_tasks0 _ _ Hy) as (H1 & H2 & H3). split; [done |]. split; [done |].
    destruct Hc as [-> | [_ ->]]; done.
  - intros q i f Ho%Hown. eauto.
  - intros q i q' i' f Ho%Hown Ho'%Hown. eauto.
  - intros f Hf. destruct (ki_own_all0 f Hf) as [| (q & i & Ho)]; [by left |]. right. exists q, i. by apply Hown.
  - intros q x (y & Hy & _ & _ & E & Ec & _)%Hlk. rewrite E, Ec. eauto.
  - intros q x q' x' (y & Hy & _ & _ & E & _)%Hlk (y' & Hy' & _ & _ & E' & _)%Hlk. rewrite E, E'. eauto.
  - intros a Ha. destruct (ki_as_all0 a Ha) as [| (q & y & Hy & E)]; [by left |]. right.
    destruct (Hlk2 _ _ Hy) as (x & Hx & _ & _ & Ex & _). exists q, x. split; [done | congruence].
  - intros q x Hx Hst. destruct (Hlk _ _ Hx) as (y & Hy & E & _ & _ & _ & Hc). rewrite E.
    destruct Hc as [-> | [-> ->]]; [by eapply ki_run0 |]. simplify_eq. auto.
  - intros Hr. destruct (ki_cur0 Hr) as (Hc & y & Hy & Hz & E). split; [done |].
    destruct (Hlk2 _ _ Hy) as (x & Hx & _ & _ & Ea & Ec). exists x. rewrite Ea, Ec. done.
Qed.

(** Parts of the state the invariant does not look at. *)
Lemma kinv_console z k v : kinv z k -> kinv z (set_console k v).
Proof. by destruct 1; split. Qed.
Lemma kinv_events z k v : kinv z k -> kinv z (set_events k v).
Proof. by destruct 1; split. Qed.
Lemma kinv_idling z k v : kinv z k -> kinv z (set_idling k v).
Proof. by destruct 1; split. Qed.
Lemma kinv_tick z k v : kinv z k -> kinv z (set_tick k v).
Proof. by destruct 1; split. Qed.
Lemma kinv_fg z k v : kinv z k -> kinv z (set_fg k v).
Proof. by destruct 1; split. Qed.
Lemma kinv_set_kbd z k v : kinv z k -> kbd_ok v -> kinv z (set_kbd k v).
Proof. by destruct 1; split. Qed.

(** A quiet operation of the machine. *)
Lemma kinv_quiet z k m : kinv z k -> quiet (k_mach k) m -> kinv z (set_mach k m).
Proof.
  intros H (Q1 & Q2 & Q3 & Q4). destruct H; split; simpl; rewrite ?Q2, ?Q3; try done.
  intros p t Hp Hz. destruct (ki_as0 p t Hp Hz) as (A1 & A2 & A3).
  split; [done |]. split; [done |]. by rewrite Q4.
Qed.

(** ** Steps of the program logic *)

Lemma wp_gets {A} (f : kernel M -> A) Q k : Q (f k) k -> wp (gets f) Q k.
Proof. done. Qed.
Lemma wp_modify f (Q : unit -> kernel M -> Prop) k : Q tt (f k) -> wp (modify f) Q k.
Proof. done. Qed.
Lemma wp_put_task p t (Q : unit -> kernel M -> Prop) k :
  Q tt (set_tasks k (<[p := t]> (k_tasks k))) -> wp (put_task p t) Q k.
Proof. done. Qed.
Lemma wp_get_task p t Q k : k_tasks k !! p = Some t -> Q t k -> wp (get_task p) Q k.
Proof. intros H. unfold wp, get_task. by rewrite H. Qed.
Lemma wp_get_file p t Q k : k_files k !! p = Some t -> Q t k -> wp (get_file p) Q k.
Proof. intros H. unfold wp, get_file. by rewrite H. Qed.
Lemma wp_get_pipe p t Q k : k_pipes k !! p = Some t -> Q t k -> wp (get_pipe p) Q k.
Proof. intros H. unfold wp, get_pipe. by rewrite H. Qed.
Lemma wp_tab_get i Q k : 0 <= i < MAX_TASKS_LIMIT -> Q (znth 0 (k_tab k) i) k -> wp (tab_get i) Q k.
Proof. intros H. unfold wp, tab_get. zcases; simpl; lia || done. Qed.
Lemma wp_tab_set i p (Q : unit -> kernel M -> Prop) k :
  0 <= i < MAX_TASKS_LIMIT -> Q tt (set_tab k (zset (k_tab k) i p)) -> wp (tab_set i p) Q k.
Proof. intros H. unfold wp, tab_set. zcases; simpl; lia || done. Qed.
Lemma wp_fds_get p t i Q k :
  k_tasks k !! p = Some t -> 0 <= i < MAX_FDS -> Q (znth 0 (t_fds t) i) k -> wp (fds_get p i) Q k.
Proof.
  intros H Hi HQ. unfold fds_get. apply wp_bind. eapply wp_get_task; [done |].
  replace ((0 <=? i) && (i <? MAX_FDS)) with true by (zcases; simpl; lia || done). done.
Qed.
Lemma wp_fds_set p t i f (Q : unit -> kernel M -> Prop) k :
  k_tasks k !! p = Some t -> 0 <= i < MAX_FDS ->
  Q tt (set_tasks k (<[p := set_fds t (zset (t_fds t) i f)]> (k_tasks k))) -> wp (fds_set p i f) Q k.
Proof.
  intros H Hi HQ. unfold fds_set. apply wp_bind. eapply wp_get_task; [done |].
  replace ((0 <=? i) && (i <? MAX_FDS)) with true by (zcases; simpl; lia || done). done.
Qed.

(** ** Wake-ups *)

(** What waking, signalling and typing may do to a task: change its signal
    bits, and make it ready if it was blocked. *)
Definition task_sim (t t' : task) : Prop :=
  t' = set_interrupted (set_pending (set_tstate t (t_state t') (t_wait t')) (t_pending t')) (t_interrupted t') /\
  (t_state t' = t_state t /\ t_wait t' = t_wait t \/
   t_state t = TASK_BLOCKED /\ t_state t' = TASK_READY /\ t_wait t' = WAIT_NONE).

Definition steady k k' : Prop :=
  k' = set_events (set_kbd (set_tasks k (k_tasks k')) (k_kbd k')) (k_events k') /\
  (forall p, option_Forall2 task_sim (k_tasks k !! p) (k_tasks k' !! p)).

Lemma task_sim_refl t : task_sim t t.
Proof. split; [by destruct t | by left]. Qed.

Lemma task_sim_trans t1 t2 t3 : task_sim t1 t2 -> task_sim t2 t3 -> task_sim t1 t3.
Proof.
  intros [E1 H1] [E2 H2]. split; [rewrite E2, E1; done |].
  destruct H1 as [(A1 & A2) | (A1 & A2 & A3)], H2 as [(B1 & B2) | (B1 & B2 & B3)];
    rewrite ?B1, ?B2, ?B3; [left; split; congruence | right; split; [congruence | done] |
    right; split; [done | split; congruence] | congruence].
Qed.

Lemma steady_refl k : steady k k.
Proof. split; [by destruct k |]. intros p. destruct (k_tasks k !! p); constructor. apply task_sim_refl. Qed.

Lemma steady_trans k1 k2 k3 : steady k1 k2 -> steady k2 k3 -> steady k1 k3.
Proof.
  intros [E1 H1] [E2 H2]. split; [rewrite E2, E1; done |].
  intros p. specialize (H1 p). specialize (H2 p).
  destruct H1 as [x y H1 |]; inversion H2; subst; constructor. by eapply task_sim_trans.
Qed.

Lemma steady_put k p t t' :
  k_tasks k !! p = Some t -> task_sim t t' -> steady k (set_tasks k (<[p := t']> (k_tasks k))).
Proof.
  intros Hp Hs. split; [by destruct k |]. intros q. simpl. destruct (decide (q = p)) as [-> | Hne].
  - rewrite lookup_insert_eq, Hp. by constructor.
  - rewrite lookup_insert_ne by done. destruct (k_tasks k !! q); constructor. apply task_sim_refl.
Qed.

Lemma steady_kbd k b : steady k (set_kbd k b).
Proof. split; [by destruct k |]. apply (steady_refl k). Qed.
Lemma steady_events k b : steady k (set_events k b).
Proof. split; [by destruct k |]. apply (steady_refl k). Qed.

(** The tasks before and after. *)
Lemma steady_fwd k k' p t :
  steady k k' -> k_tasks k !! p = Some t -> exists t', k_tasks k' !! p = Some t' /\ task_sim t t'.
Proof. intros [_ H] Hp. specialize (H p). rewrite Hp in H. inversion H; subst; eauto. Qed.
Lemma steady_bwd k k' p t' :
  steady k k' -> k_tasks k' !! p = Some t' -> exists t, k_tasks k !! p = Some t /\ task_sim t t'.
Proof. intros [_ H] Hp. specialize (H p). rewrite Hp in H. inversion H; subst; eauto. Qed.

Lemma steady_env k k' : steady k k' ->
  k_tab k' = k_tab k /\ k_num k' = k_num k /\ k_current k' = k_current k /\ k_running k' = k_running k /\
  k_idling k' = k_idling k /\ k_cr3 k' = k_cr3 k /\ k_files k' = k_files k /\ k_pipes k' = k_pipes k /\
  k_mach k' = k_mach k.
Proof. intros [-> _]. done. Qed.

Lemma task_sim_same t t' : task_sim t t' ->
  t_id t' = t_id t /\ t_fds t' = t_fds t /\ t_aspace t' = t_aspace t /\ t_cr3 t' = t_cr3 t /\
  t_regs t' = t_regs t /\ t_parent t' = t_parent t /\ (t_state t' = TASK_RUNNING <-> t_state t = TASK_RUNNING).
Proof. intros [E H]. do 6 (split; [by rewrite E |]). clear E. destruct H as [(H & _) | (H & H' & _)]; split; congruence. Qed.

Lemma task_sim_ok t t' : task_sim t t' -> task_ok t -> task_ok t'.
Proof.
  intros [E Hc] [O1 O2 O3 O4 O5 O6 O7 O8 O9].
  assert (t_regs t' = t_regs t /\ t_fds t' = t_fds t /\ t_handlers t' = t_handlers t /\
    t_regions t' = t_regions t /\ t_parent t' = t_parent t /\ t_aspace t' = t_aspace t)
    as (E1 & E2 & E3 & E4 & E5 & E6) by (rewrite E; done).
  split; rewrite ?E1, ?E2, ?E3, ?E4, ?E5, ?E6; try done.
  - destruct Hc as [(-> & _) | (_ & -> & _)]; done.
  - destruct Hc as [(-> & ->) | (_ & -> & ->)]; done.
  - intros Hz. specialize (O8 Hz). destruct Hc as [(-> & _) | (Hb & _)]; congruence.
  - intros Hz. apply O9. destruct Hc as [(<- & _) | (_ & Hb & _)]; congruence.
Qed.

Lemma kinv_put_sim z k p t t' :
  kinv z k -> k_tasks k !! p = Some t -> task_sim t t' -> kinv z (set_tasks k (<[p := t']> (k_tasks k))).
Proof.
  intros H Hp Hs. destruct (task_sim_same _ _ Hs) as (E1 & E2 & E3 & E4 & _ & _ & E5).
  destruct (ki_tasks _ _ H _ _ Hp) as (_ & _ & Hok).
  eapply kinv_put_task; try done; [by eapply task_sim_ok |].
  intros Hr%E5. by apply (ki_run _ _ H _ _ Hp).
Qed.

Lemma scheduler_wake_ok z k reason :
  kinv z k -> wp (scheduler_wake reason) (fun _ k' => kinv z k' /\ steady k k') k.
Proof.
  intros H. unfold scheduler_wake. apply wp_bind, wp_gets. destruct (ki_num _ _ H) as [Hn _].
  apply (wp_kfor (fun _ k' => kinv z k' /\ steady k k')); [split; [done | apply steady_refl] | | done].
  intros i k' Hi [H' Hs]. unfold wake_one. apply wp_bind, wp_tab_get; [lia |].
  destruct (Z.eqb_spec (znth 0 (k_tab k') i) 0) as [| Hz]; [done |].
  destruct (kinv_entry z k' i H' ltac:(lia) Hz) as (t & Ht & _).
  apply wp_bind. eapply wp_get_task; [done |]. destruct (decide _) as [[Hb Hw] |]; [| done].
  assert (task_sim t (set_tstate t TASK_READY WAIT_NONE)) as Hsim by (split; [by destruct t | by right]).
  apply wp_put_task. split; [by eapply kinv_put_sim |].
  eapply steady_trans; [done |]. by eapply steady_put.
Qed.

Lemma task_by_id_ok z k id Q :
  kinv z k -> 0 <= id ->
  Q 0 k -> (forall t, id < k_num k -> k_tasks k !! znth 0 (k_tab k) id = Some t -> task_ok t -> t_id t = id ->
     Q (znth 0 (k_tab k) id) k) ->
  wp (scheduler_task_by_id id) Q k.
Proof.
  intros H Hid H0 H1. unfold scheduler_task_by_id. apply wp_bind, wp_gets.
  destruct (Z.leb_spec (k_num k) id); [done |]. destruct (ki_num _ _ H) as [Hn _].
  apply wp_tab_get; [lia |]. destruct (decide (znth 0 (k_tab k) id = 0)) as [-> | Hz]; [done |].
  destruct (kinv_entry z k id H ltac:(lia) Hz) as (t & Ht & Hi & Hl & Hok). by eapply H1.
Qed.

Lemma signal_raise_ok z k id sig :
  kinv z k -> 0 <= id -> wp (signal_raise id sig) (fun _ k' => kinv z k' /\ steady k k') k.
Proof.
  intros H Hid. unfold signal_raise. destruct (_ || _); [split; [done | apply steady_refl] |].
  apply wp_bind, (task_by_id_ok z); [done | done | split; [done | apply steady_refl] |].
  intros t Hl Ht Hok _. destruct (Z.eqb_spec (znth 0 (k_tab k) id) 0) as [E |].
  { by pose proof (kinv_task_nonzero _ _ _ _ H Ht). }
  apply wp_bind. eapply wp_get_task; [done |]. destruct (decide _); [split; [done | apply steady_refl] |].
  cbv zeta. destruct (decide _) as [Hb |]; apply wp_put_task.
  - set (t' := set_interrupted _ true). assert (task_sim t t') as Hs by (split; [by destruct t | by right]).
    split; [by eapply kinv_put_sim | by eapply steady_put].
  - set (t' := set_pending _ _). assert (task_sim t t') as Hs by (split; [by destruct t | by left]).
    split; [by eapply kinv_put_sim | by eapply steady_put].
Qed.

Lemma signal_raise_group_ok z k pgid sig :
  kinv z k -> wp (signal_raise_group pgid sig) (fun _ k' => kinv z k' /\ steady k k') k.
Proof.
  intros H. unfold signal_raise_group. apply wp_bind, wp_gets. destruct (ki_num _ _ H) as [Hn _].
  apply (wp_kfor (fun _ k' => kinv z k' /\ steady k k')); [split; [done | apply steady_refl] | | done].
  intros i k' Hi [H' Hs]. apply wp_bind, (task_by_id_ok z); [done | lia | done |].
  intros t Hl Ht Hok _. destruct (Z.eqb_spec (znth 0 (k_tab k') i) 0); [done |].
  apply wp_bind. eapply wp_get_task; [done |]. destruct (negb _); [done |].
  eapply wp_mono; [apply (signal_raise_ok z); [done | lia] |]. intros [] k'' [H'' Hs'].
  split; [done |]. by eapply steady_trans.
Qed.

(** ** The keyboard *)

Lemma table_bytes b sc : 0 <= znth 0 (table_for b sc) sc < 256.
Proof.
  assert (forall l i, Forall (fun c => 0 <= c < 256) l -> 0 <= znth 0 l i < 256) as Hl.
  { intros l i Hl. unfold znth. zcases; [lia |]. destruct (l !! _) eqn:E; simpl; [| lia].
    by apply (Forall_lookup_1 _ _ _ _ Hl E). }
  apply Hl. unfold table_for. cbv zeta.
  match goal with |- Forall _ (if ?b then _ else _) => destruct b end.
  - apply Forall_app. split; [repeat constructor; lia | apply Forall_replicate; lia].
  - apply Forall_app. split; [repeat constructor; lia | apply Forall_replicate; lia].
Qed.

Lemma kbd_modify_ok z k b :
  kinv z k -> kbd_ok b -> wp (modify (fun k => set_kbd k b)) (fun _ k' => kinv z k' /\ steady k k') k.
Proof. intros H Hb. apply wp_modify. split; [by apply kinv_set_kbd | apply steady_kbd]. Qed.

Lemma keyboard_callback_ok z k sc :
  kinv z k -> wp (keyboard_callback sc) (fun _ k' => kinv z k' /\ steady k k') k.
Proof.
  intros H. unfold keyboard_callback. apply wp_bind, wp_gets. pose proof (ki_kbd _ _ H) as Hk.
  assert (forall (m : K M unit) b, kbd_ok b ->
    (forall k', kinv z k' -> wp m (fun _ k'' => kinv z k'' /\ steady k' k'') k') ->
    wp ((modify (fun k => set_kbd k b) : K M unit) ≫= (fun _ => m)) (fun _ k' => kinv z k' /\ steady k k') k) as Hseq.
  { intros m b Hb Hm. apply wp_bind. eapply wp_mono; [by apply (kbd_modify_ok z) |].
    intros [] k1 [H1 S1]. eapply wp_mono; [by apply Hm |]. intros [] k2 [H2 S2].
    split; [done |]. by eapply steady_trans. }
  assert (wp (mret tt : K M unit) (fun _ k' => kinv z k' /\ steady k k') k) as Hid by (split; [done | apply steady_refl]).
  destruct (negb _). { apply (kbd_modify_ok z); [done |]. by do 2 case_match. }
  destruct (_ || _); [by apply (kbd_modify_ok z) |]. destruct (_ =? KEY_CAPSLOCK); [by apply (kbd_modify_ok z) |].
  destruct (_ =? KEY_LCTRL); [by apply (kbd_modify_ok z) |]. destruct (ctrl_held _).
  - destruct (_ =? KEY_C); [apply wp_bind, wp_gets; by apply signal_raise_group_ok |].
    destruct (_ =? KEY_D); [| done]. apply Hseq; [done |]. intros. by apply scheduler_wake_ok.
  - cbv zeta. destruct (_ =? 0); [done |]. apply Hseq; [| intros; by apply scheduler_wake_ok].
    apply kbd_push_spec; [done |]. apply table_bytes.
Qed.

(** ** Looking for a task to run *)

Definition ready_at k (i : Z) : Prop :=
  0 <= i < k_num k /\ exists t, k_tasks k !! znth 0 (k_tab k) i = Some t /\ t_state t = TASK_READY.

Lemma entry_not_ready z k i :
  kinv z k -> znth 0 (k_tab k) i = 0 -> ~ ready_at k i.
Proof. intros H E (_ & t & Ht & _). rewrite E in Ht. by apply (kinv_task_nonzero _ _ _ _ H Ht). Qed.

Lemma ready_from_ok z k n i :
  kinv z k -> 0 <= i -> i + Z.of_nat n = k_num k ->
  wp (ready_from n i) (fun b k' => k' = k /\ (b = true <-> exists j, i <= j /\ ready_at k j)) k.
Proof.
  intros H. revert i. destruct (ki_num _ _ H) as [Hn _]. induction n as [|n IH]; intros i Hi E; simpl.
  - split; [done |]. split; [done |]. intros (j & Hj & ((?&?) & _)). lia.
  - apply wp_bind, wp_tab_get; [lia |].
    assert (forall b, (b = true <-> exists j, i + 1 <= j /\ ready_at k j) -> ~ ready_at k i ->
      b = true <-> exists j, i <= j /\ ready_at k j) as Hext.
    { intros b Hb Hnr. rewrite Hb. split; intros (j & Hj & Hr); exists j; (split; [| done]); [lia |].
      destruct (decide (j = i)) as [-> |]; [done | lia]. }
    destruct (Z.eqb_spec (znth 0 (k_tab k) i) 0) as [Hz | Hz].
    + eapply wp_mono; [apply IH; lia |]. intros b k' [-> Hb]. split; [done |].
      apply Hext; [done |]. by eapply entry_not_ready.
    + destruct (kinv_entry z k i H ltac:(lia) Hz) as (t & Ht & _ & Hl & _).
      apply wp_bind. eapply wp_get_task; [done |]. destruct (decide _) as [Hr | Hr].
      * split; [done |]. split; [| done]. intros _. exists i. split; [lia |]. split; [lia | eauto].
      * eapply wp_mono; [apply IH; lia |]. intros b k' [-> Hb]. split; [done |].
        apply Hext; [done |]. intros (_ & t' & Ht' & Hr'). simplify_eq.
Qed.

Lemma any_task_ready_ok z k :
  kinv z k -> wp any_task_ready (fun b k' => k' = k /\ (b = true <-> exists j, ready_at k j)) k.
Proof.
  intros H. unfold any_task_ready. apply wp_bind, wp_gets. destruct (ki_num _ _ H) as [Hn _].
  eapply wp_mono; [apply (ready_from_ok z k _ 0 H); lia |]. intros b k' [-> Hb]. split; [done |].
  rewrite Hb. split; [intros (j & _ & Hj); by exists j |]. intros (j & Hj). exists j. split; [| done].
  destruct Hj as [Hj _]. lia.
Qed.

(** [next_ready] returns the first ready candidate in cyclic order. *)
Lemma next_ready_ok z k n i from :
  kinv z k -> 0 <= from < k_num k -> 0 <= i -> i + Z.of_nat n <= k_num k + 1 ->
  wp (next_ready n i from) (fun c k' => k' = k /\
    (c = -1 /\ (forall j, i <= j < i + Z.of_nat n -> ~ ready_at k ((from + j) mod k_num k)) \/
     exists j, i <= j < i + Z.of_nat n /\ c = (from + j) mod k_num k /\ ready_at k c /\
       forall j', i <= j' < j -> ~ ready_at k ((from + j') mod k_num k))) k.
Proof.
  intros H Hf. revert i. destruct (ki_num _ _ H) as [Hn _]. unfold MAX_TASKS_LIMIT in Hn.
  induction n as [|n IH]; intros i Hi Hl; simpl.
  - split; [done |]. left. split; [done |]. intros; lia.
  - apply wp_bind, wp_gets. rewrite u32_small by lia.
    set (c := (from + i) mod k_num k). assert (0 <= c < k_num k) as Hc by (apply Z.mod_pos_bound; lia).
    apply wp_bind, wp_tab_get; [unfold MAX_TASKS_LIMIT; lia |].
    assert (~ ready_at k c -> wp (next_ready n (i + 1) from) (fun c k' => k' = k /\
      (c = -1 /\ (forall j, i <= j < i + Z.of_nat (S n) -> ~ ready_at k ((from + j) mod k_num k)) \/
       exists j, i <= j < i + Z.of_nat (S n) /\ c = (from + j) mod k_num k /\ ready_at k c /\
         forall j', i <= j' < j -> ~ ready_at k ((from + j') mod k_num k))) k) as Hnext.
    { intros Hnr. eapply wp_mono; [apply (IH (i + 1)); lia |]. intros x k' [-> Hx]. split; [done |].
      destruct Hx as [(-> & Hno) | (j & Hj & -> & Hr & Hlow)].
      - left. split; [done |]. intros j Hj. destruct (decide (j = i)) as [-> |]; [done |]. apply Hno. lia.
      - right. exists j. split; [lia |]. split; [done |]. split; [done |].
        intros j' Hj'. destruct (decide (j' = i)) as [-> |]; [done |]. apply Hlow. lia. }
    destruct (Z.eqb_spec (znth 0 (k_tab k) c) 0) as [Hz | Hz].
    { apply Hnext. by eapply entry_not_ready. }
    destruct (kinv_entry z k c H ltac:(unfold MAX_TASKS_LIMIT; lia) Hz) as (t & Ht & _).
    apply wp_bind. eapply wp_get_task; [done |]. destruct (decide _) as [Hr | Hr].
    + split; [done |]. right. exists i. split; [lia |]. split; [done |]. split; [split; [lia | eauto] |].
      intros; lia.
    + apply Hnext. intros (_ & t' & Ht' & Hr'). simplify_eq.
Qed.

(** Every index is some candidate of the scan. *)
Lemma cyclic_cover n from i : 0 <= from < n -> 0 <= i < n -> exists j, 1 <= j < 1 + n /\ (from + j) mod n = i.
Proof.
  intros Hf Hi. destruct (Z.lt_ge_cases from i).
  - exists (i - from). split; [lia |]. rewrite Z.mod_small; lia.
  - exists (i + n - from). split; [lia |]. symmetry. apply (Z.mod_unique _ _ 1); lia.
Qed.

Lemma find_next_ready_ok z k from :
  kinv z k -> 0 <= from < k_num k ->
  wp (find_next_ready from) (fun c k' => k' = k /\
    (c = -1 /\ (forall i, ~ ready_at k i) \/
     exists j, 1 <= j <= k_num k /\ c = (from + j) mod k_num k /\ ready_at k c /\
       forall j', 1 <= j' < j -> ~ ready_at k ((from + j') mod k_num k))) k.
Proof.
  intros H Hf. unfold find_next_ready. apply wp_bind, wp_gets. destruct (ki_num _ _ H) as [Hn _].
  eapply wp_mono; [apply (next_ready_ok z k); [done | done | lia | lia] |].
  intros c k' [-> Hc]. split; [done |]. rewrite Z2Nat.id in Hc by lia.
  destruct Hc as [(-> & Hno) | (j & Hj & Hc)].
  - left. split; [done |]. intros i Hr. destruct (cyclic_cover (k_num k) from i Hf) as (j & Hj & E).
    { by destruct Hr. } rewrite <- E in Hr. by apply (Hno j Hj).
  - right. exists j. split; [lia | done].
Qed.

Lemma idle_loop_ok z ev : forall k,
  kinv z k -> wp (idle_loop ev) (fun _ k' => kinv z k' /\ steady k k' /\ exists i, ready_at k' i) k.
Proof.
  induction ev as [|e ev IH]; intros k H; simpl; apply wp_bind;
    (eapply wp_mono; [by apply (any_task_ready_ok z) |]); intros [] k' [-> Hb].
  - split; [done |]. split; [apply steady_refl |]. by apply Hb.
  - done.
  - split; [done |]. split; [apply steady_refl |]. by apply Hb.
  - apply wp_bind, wp_modify. apply wp_bind.
    eapply wp_mono; [apply (keyboard_callback_ok z); by apply kinv_events |].
    intros [] k1 [H1 S1]. eapply wp_mono; [by apply IH |]. intros [] k2 (H2 & S2 & Hr).
    split; [done |]. split; [| done]. eapply steady_trans; [apply steady_events |]. by eapply steady_trans.
Qed.

Lemma idle_until_runnable_ok z k :
  kinv z k -> k_idling k = false ->
  wp idle_until_runnable (fun _ k' => kinv z k' /\ steady k k' /\ exists i, ready_at k' i) k.
Proof.
  intros H Hi. unfold idle_until_runnable. apply wp_bind, wp_modify. apply wp_bind, wp_gets.
  apply wp_bind. eapply wp_mono; [apply idle_loop_ok; by apply (kinv_idling z) |].
  intros [] k1 (H1 & [E1 S1] & Hr). apply wp_modify. split; [by apply kinv_idling |]. split; [| done].
  split; [| exact S1]. simpl. rewrite E1. destruct k; simpl in *. by subst.
Qed.

(** ** Reaping *)

Lemma parent_alive_ok z k id :
  kinv z k -> 0 <= id ->
  wp (parent_alive id) (fun b k' => k' = k /\ (b = true -> 0 <= id < k_num k /\
    exists t, k_tasks k !! znth 0 (k_tab k) id = Some t /\ t_state t <> TASK_ZOMBIE)) k.
Proof.
  intros H Hid. unfold parent_alive. destruct (_ =? TASK_NO_PARENT); [done |].
  apply wp_bind, wp_gets. destruct (Z.leb_spec (k_num k) id); [done |]. destruct (ki_num _ _ H) as [Hn _].
  apply wp_bind, wp_tab_get; [lia |]. destruct (Z.eqb_spec (znth 0 (k_tab k) id) 0) as [| Hz]; [done |].
  destruct (kinv_entry z k id H ltac:(lia) Hz) as (t & Ht & _).
  apply wp_bind. eapply wp_get_task; [done |]. split; [done |]. intros Hb%bool_decide_eq_true. eauto.
Qed.

Lemma kinv_drop_aspace z k p t :
  kinv z k -> k_tasks k !! p = Some t -> t_state t = TASK_ZOMBIE -> t_aspace t <> 0 ->
  (k_running k = true -> p <> znth 0 (k_tab k) (k_current k)) ->
  kinv z (set_tasks (set_mach k (m_destroy_as (k_mach k) (t_aspace t)))
            (<[p := set_aspace t 0 0]> (k_tasks k))).
Proof.
  intros H Hp Hst Ha Hcur. destruct (ki_as _ _ H _ _ Hp Ha) as (A1 & A2 & A3).
  destruct (law_destroy _ _ (ki_ok _ _ H) A1) as (D1 & D2 & D3 & D4).
  set (a := t_aspace t) in *. set (m' := m_destroy_as (k_mach k) a) in *. clearbody m'.
  assert (dom (<[p := set_aspace t 0 0]> (k_tasks k)) = dom (k_tasks k)) as Hdom.
  { apply dom_insert_lookup_L. by eexists. }
  assert (forall q x, <[p := set_aspace t 0 0]> (k_tasks k) !! q = Some x ->
    (q = p /\ x = set_aspace t 0 0) \/ (q <> p /\ k_tasks k !! q = Some x)) as Hlk.
  { intros q x. destruct (decide (q = p)) as [-> | Hne].
    - rewrite lookup_insert_eq. intros [= <-]. by left.
    - rewrite lookup_insert_ne by done. by right. }
  assert (forall q i f, owns (set_tasks (set_mach k m') (<[p := set_aspace t 0 0]> (k_tasks k))) q i f
            <-> owns k q i f) as Hown.
  { intros q i f. unfold owns; simpl. split.
    - intros (x & [[-> ->] | [Hne Hx]]%Hlk & Hr); [by exists t | by exists x].
    - intros (x & Hx & Hr). destruct (decide (q = p)) as [-> | Hne].
      + rewrite lookup_insert_eq. simplify_eq. by eexists.
      + rewrite lookup_insert_ne by done. by exists x. }
  pose proof (ki_as_uniq _ _ H p t) as Huniq.
  destruct H; split; simpl; rewrite ?Hdom; try done.
  - intros i Hi Hz. destruct (ki_tab0 i Hi Hz) as (Hn & y & Hy & E). split; [done |].
    destruct (decide (znth 0 (k_tab k) i = p)) as [E' | Hne].
    + rewrite E' in *. simplify_eq. rewrite lookup_insert_eq. by eexists.
    + rewrite lookup_insert_ne by done. by exists y.
  - intros q x [[-> ->] | [Hne Hx]]%Hlk; [| eauto].
    destruct (ki_tasks0 _ _ Hp) as (T1 & T2 & T3). split; [done |]. split; [done |].
    destruct T3; split; try done.
  - intros q i f Ho%Hown. eauto.
  - intros q i q' i' f Ho%Hown Ho'%Hown. eauto.
  - intros f Hf. destruct (ki_own_all0 f Hf) as [| (q & i & Ho)]; [by left |]. right. exists q, i. by apply Hown.
  - rewrite D3, D4, ki_live0. destruct ki_apart0 as (_ & _ & _ & P1 & P2). set_solver +P1 P2 A1.
  - rewrite D4. destruct ki_apart0 as (P0 & P1 & P2 & P3 & P4). set_solver +P0 P1 P2 P3 P4.
  - intros q x [[-> ->] | [Hne Hx]]%Hlk; [done |]. intros Hz. destruct (ki_as0 _ _ Hx Hz) as (X1 & X2 & X3).
    assert (t_aspace x <> a) as Hxa. { intros E. apply Hne. symmetry. by apply (Huniq q x). }
    rewrite D4, D2 by done. split; [set_solver +X1 Hxa | done].
  - intros q x q' x' [[-> ->] | [Hne Hx]]%Hlk [[-> ->] | [Hne' Hx']]%Hlk; simpl; intros Ex Ez; try congruence. eauto.
  - intros b Hb. rewrite D4 in Hb. destruct (ki_as_all0 b ltac:(set_solver +Hb)) as [| (q & x & Hq & E)]; [by left |].
    right. assert (q <> p) by (intros ->; simplify_eq; set_solver +Hb). exists q, x. by rewrite lookup_insert_ne.
  - rewrite D4. set_solver +ki_loose_as0 A2.
  - intros q x [[-> ->] | [Hne Hx]]%Hlk; simpl; [congruence | eauto].
  - intros Hr. destruct (ki_cur0 Hr) as (Hc & y & Hy & Hz & E). split; [done |]. exists y.
    rewrite lookup_insert_ne; [done |]. by apply Hcur.
Qed.

(** What every step but a switch keeps. *)
Definition same_cpu k k' : Prop :=
  k_num k' = k_num k /\ k_current k' = k_current k /\ k_running k' = k_running k /\ k_idling k' = k_idling k.

Lemma same_cpu_refl k : same_cpu k k.
Proof. done. Qed.
Lemma same_cpu_trans k1 k2 k3 : same_cpu k1 k2 -> same_cpu k2 k3 -> same_cpu k1 k3.
Proof. unfold same_cpu. intros (? & ? & ? & ?) (? & ? & ? & ?). repeat split; congruence. Qed.
Lemma steady_same_cpu k k' : steady k k' -> same_cpu k k'.
Proof. intros (_ & E1 & E2 & E3 & E4 & _)%steady_env. done. Qed.

Lemma task_entry z k p t :
  kinv z k -> k_tasks k !! p = Some t ->
  0 <= t_id t < MAX_TASKS_LIMIT /\ znth 0 (k_tab k) (t_id t) = p /\ task_ok t.
Proof.
  intros H Hp. destruct (ki_tasks _ _ H _ _ Hp) as (H1 & H2 & H3). destruct (ki_num _ _ H). split; [lia | done].
Qed.

(** Two tasks with the same index are the same. *)
Lemma task_id_inj z k p t p' t' :
  kinv z k -> k_tasks k !! p = Some t -> k_tasks k !! p' = Some t' -> t_id t = t_id t' -> p = p'.
Proof.
  intros H Hp Hp' E. destruct (task_entry _ _ _ _ H Hp) as (_ & E1 & _).
  destruct (task_entry _ _ _ _ H Hp') as (_ & E2 & _). congruence.
Qed.

(** A dead task with nothing left leaves the table. *)
Lemma kinv_remove_task z k p t :
  kinv z k -> k_tasks k !! p = Some t -> t_state t = TASK_ZOMBIE -> t_aspace t = 0 ->
  (k_running k = true -> p <> znth 0 (k_tab k) (k_current k)) ->
  kinv z (set_tab (set_mach (set_tasks k (delete p (k_tasks k))) (m_kfree (k_mach k) p))
            (zset (k_tab k) (t_id t) 0)).
Proof.
  intros H Hp Hst Ha Hcur. destruct (task_entry _ _ _ _ H Hp) as (Hid & Htab & Hok).
  assert (p ∈ dom (k_tasks k)) as Hpd by (apply elem_of_dom; by eexists).
  assert (p ∉ m_as (k_mach k)) as Hpa.
  { destruct (ki_apart _ _ H) as (_ & _ & _ & P & _). set_solver +P Hpd. }
  assert (p ∈ m_live (k_mach k)) as Hpl by (rewrite (ki_live _ _ H); set_solver +Hpd).
  destruct (law_kfree _ _ (ki_ok _ _ H) Hpl Hpa) as (D1 & D2 & D3 & D4).
  set (m' := m_kfree (k_mach k) p) in *. clearbody m'.
  assert (forall q x, delete p (k_tasks k) !! q = Some x -> q <> p /\ k_tasks k !! q = Some x) as Hlk.
  { intros q x. rewrite lookup_delete_Some. naive_solver. }
  assert (forall q x, k_tasks k !! q = Some x -> q <> p -> t_id x <> t_id t) as Hids.
  { intros q x Hx Hne E. by apply Hne, (task_id_inj z k q x p t). }
  assert (forall q i f, owns (set_tab (set_mach (set_tasks k (delete p (k_tasks k))) m')
            (zset (k_tab k) (t_id t) 0)) q i f <-> owns k q i f) as Hown.
  { intros q i f. unfold owns; simpl. split.
    - intros (x & [Hne Hx]%Hlk & Hr). by exists x.
    - intros (x & Hx & Hi & Hf & Hz). exists x. split; [| done]. apply lookup_delete_Some. split; [| done].
      intros <-. simplify_eq. apply Hz. pose proof (to_zombie _ Hok Hst) as Hzero.
      symmetry. apply (znth_Forall (eq 0)); [done |]. rewrite (to_fds _ Hok). done. }
  destruct (ki_num _ _ H) as [Hn Hlen].
  assert (forall i, i <> t_id t -> znth 0 (zset (k_tab k) (t_id t) 0) i = znth 0 (k_tab k) i) as Htn.
  { intros i Hi. apply znth_zset_ne. done. }
  destruct H; split; simpl; rewrite ?dom_delete_L, ?zlen_zset; try done.
  - intros i Hi Hz. destruct (decide (i = t_id t)) as [-> | Hne].
    { rewrite znth_zset_eq in Hz by lia. done. }
    rewrite Htn in Hz |- * by done. destruct (ki_tab0 i Hi Hz) as (Hl & y & Hy & E). split; [done |].
    exists y. split; [| done]. apply lookup_delete_Some. split; [| done].
    intros Ep. rewrite <- Ep in Hy. simplify_eq.
  - intros q x [Hne Hx]%Hlk. destruct (ki_tasks0 _ _ Hx) as (T1 & T2 & T3).
    rewrite Htn by (by eapply Hids). done.
  - intros q i f Ho%Hown. eauto.
  - intros q i q' i' f Ho%Hown Ho'%Hown. eauto.
  - intros f Hf. destruct (ki_own_all0 f Hf) as [| (q & i & Ho)]; [by left |]. right. exists q, i. by apply Hown.
  - rewrite D4, D2, ki_live0. destruct ki_apart0 as (P0 & P1 & _ & P3 & _). set_solver +P0 P1 P3 Hpd.
  - rewrite D2. destruct ki_apart0 as (P0 & P1 & P2 & P3 & P4). set_solver +P0 P1 P2 P3 P4.
  - intros q x [Hne Hx]%Hlk Hz. destruct (ki_as0 _ _ Hx Hz) as (X1 & X2 & X3). rewrite D2, D3 by done. done.
  - intros q x q' x' [Hne Hx]%Hlk [Hne' Hx']%Hlk. eauto.
  - rewrite D2. intros b Hb. destruct (ki_as_all0 b Hb) as [| (q & x & Hq & E)]; [by left |]. right.
    exists q, x. split; [| done]. apply lookup_delete_Some. split; [| done]. intros <-. simplify_eq.
    apply (law_nonzero _ ki_ok0). apply law_as_live; [done |]. by rewrite <- Ha.
  - by rewrite D2.
  - intros q x [Hne Hx]%Hlk. eauto.
  - intros Hr. destruct (ki_cur0 Hr) as (Hc & y & Hy & Hz & E). split; [done |]. exists y.
    assert (k_current k <> t_id t) as Hct. { intros E'. apply (Hcur Hr). by rewrite E'. }
    rewrite Htn by done. split; [| done]. apply lookup_delete_Some. split; [| done]. by apply Hcur.
Qed.

(** Only dead tasks differ. *)
Definition same_living k k' : Prop :=
  forall p t, t_state t <> TASK_ZOMBIE -> k_tasks k !! p = Some t <-> k_tasks k' !! p = Some t.

Lemma same_living_trans k1 k2 k3 : same_living k1 k2 -> same_living k2 k3 -> same_living k1 k3.
Proof. intros H1 H2 p t Hs. rewrite (H1 p t Hs). by apply H2. Qed.

Lemma same_living_insert k p t t' :
  k_tasks k !! p = Some t -> t_state t = TASK_ZOMBIE -> t_state t' = TASK_ZOMBIE ->
  forall q x, t_state x <> TASK_ZOMBIE -> k_tasks k !! q = Some x <-> <[p := t']> (k_tasks k) !! q = Some x.
Proof.
  intros Hp Hs Hs' q x Hx. destruct (decide (q = p)) as [-> | Hne]; [| by rewrite lookup_insert_ne].
  rewrite lookup_insert_eq, Hp. split; intros; simplify_eq.
Qed.

Lemma same_living_delete k p t :
  k_tasks k !! p = Some t -> t_state t = TASK_ZOMBIE ->
  forall q x, t_state x <> TASK_ZOMBIE -> k_tasks k !! q = Some x <-> delete p (k_tasks k) !! q = Some x.
Proof.
  intros Hp Hs q x Hx. rewrite lookup_delete_Some. split; [| tauto]. intros Hq. split; [| done].
  intros <-. simplify_eq.
Qed.

Lemma drop_aspace_ok z k p t :
  kinv z k -> k_tasks k !! p = Some t -> t_state t = TASK_ZOMBIE ->
  (k_running k = true -> p <> znth 0 (k_tab k) (k_current k)) ->
  wp (drop_aspace p) (fun _ k' => kinv z k' /\ same_cpu k k' /\ k_tab k' = k_tab k /\ same_living k k' /\
    (forall q, q <> p -> k_tasks k' !! q = k_tasks k !! q) /\ exists t', k_tasks k' !! p = Some t' /\ t_state t' = TASK_ZOMBIE /\ t_aspace t' = 0 /\
      t_id t' = t_id t /\ t_parent t' = t_parent t) k.
Proof.
  intros H Hp Hst Hcur. unfold drop_aspace. apply wp_bind. eapply wp_get_task; [done |].
  destruct (Z.eqb_spec (t_aspace t) 0) as [Ez | Ez]; [do 5 (split; [done |]); by exists t |].
  apply wp_bind. unfold m_upd. apply wp_modify, wp_put_task.
  split; [exact (kinv_drop_aspace z k p t H Hp Hst Ez Hcur) |]. split; [done |]. split; [done |].
  split; [exact (same_living_insert k p t (set_aspace t 0 0) Hp Hst Hst) |].
  split; [intros q Hq; simpl; by rewrite lookup_insert_ne |].
  exists (set_aspace t 0 0). simpl. by rewrite lookup_insert_eq.
Qed.

(** The current task is not one of the others. *)
Lemma not_current z k i :
  kinv z k -> 0 <= i < MAX_TASKS_LIMIT -> znth 0 (k_tab k) i <> 0 -> i <> k_current k ->
  k_running k = true -> znth 0 (k_tab k) i <> znth 0 (k_tab k) (k_current k).
Proof.
  intros H Hi Hz Hne Hr E. destruct (kinv_entry z k i H Hi Hz) as (t & Ht & E1 & _).
  destruct (ki_cur _ _ H Hr) as (Hc & t2 & Ht2 & _). destruct (ki_num _ _ H) as [Hn _].
  assert (znth 0 (k_tab k) (k_current k) <> 0) as Hz2 by congruence.
  destruct (kinv_entry z k (k_current k) H ltac:(lia) Hz2) as (t3 & Ht3 & E3 & _).
  apply Hne. rewrite E in Ht. congruence.
Qed.

(** The current task, dead or alive, is left alone. *)
Definition current_kept k k' : Prop :=
  znth 0 (k_tab k') (k_current k) = znth 0 (k_tab k) (k_current k) /\
  k_tasks k' !! znth 0 (k_tab k) (k_current k) = k_tasks k !! znth 0 (k_tab k) (k_current k).

Lemma reap_sweep_ok z k :
  kinv z k -> k_running k = true ->
  wp reap_sweep (fun _ k' => kinv z k' /\ same_cpu k k' /\ same_living k k' /\ current_kept k k') k.
Proof.
  intros H Hr. unfold reap_sweep. apply wp_bind, wp_gets. destruct (ki_num _ _ H) as [Hn _].
  apply (wp_kfor (fun _ k' => kinv z k' /\ same_cpu k k' /\ same_living k k' /\ current_kept k k')); [done | | done].
  intros i k' Hi (H' & (C1 & C2 & C3 & C4) & L' & (K1 & K2)). apply wp_bind, wp_tab_get; [lia |].
  destruct (Z.eqb_spec (znth 0 (k_tab k') i) 0) as [| Hz]; [done |].
  destruct (kinv_entry z k' i H' ltac:(lia) Hz) as (t & Ht & Eid & _ & Hok).
  apply wp_bind. eapply wp_get_task; [done |]. destruct (decide _) as [| Hst%dec_stable]; [done |].
  apply wp_bind, wp_gets. destruct (Z.eqb_spec i (k_current k')) as [| Hic]; [done |].
  assert (k_running k' = true) as Hr' by congruence.
  pose proof (not_current z k' i H' ltac:(lia) Hz Hic Hr') as Hnc.
  apply wp_bind. eapply wp_mono; [by apply (drop_aspace_ok z k' _ t) |].
  intros [] k1 (H1 & C' & Etab & L1 & O1 & t1 & Ht1 & Hst1 & Ha1 & Ei1 & Ep1).
  pose proof (same_living_trans _ _ _ L' L1) as Lk1. rewrite C2, K1 in Hnc.
  assert (current_kept k k1) as Kk1 by (split; [by rewrite Etab | by rewrite O1]).
  assert (same_cpu k k1) as Ck1 by (by eapply same_cpu_trans).
  apply wp_bind. eapply wp_mono; [apply (parent_alive_ok z); [done | apply (to_parent _ Hok)] |].
  intros [] k2 [-> _]; [done |]. cbn [negb].
  apply wp_bind. unfold kfree_task. apply wp_bind, wp_modify. unfold kfree_raw. apply wp_modify.
  apply wp_tab_set; [lia |]. split; [| split; [done |]].
  2:{ split; [eapply same_living_trans; [exact Lk1 |]; exact (same_living_delete k1 _ t1 Ht1 Hst1) |].
      destruct Kk1 as [J1 J2]. split; simpl; [rewrite znth_zset_ne by congruence; done |].
      by rewrite lookup_delete_ne. }
  destruct C' as (_ & CC & CR & _).
  pose proof (kinv_remove_task z k1 _ t1 H1 Ht1 Hst1 Ha1) as HK. rewrite Ei1, Eid in HK.
  apply HK. intros _. rewrite Etab, CC, C2, K1. done.
Qed.

(** ** The switch *)

Lemma set_regs_ok t r : task_ok t -> user_frame r -> task_ok (set_regs t r).
Proof. by destruct 1; split. Qed.

Lemma ready_state_ok t s :
  task_ok t -> t_state t = TASK_READY \/ t_state t = TASK_RUNNING ->
  s = TASK_READY \/ s = TASK_RUNNING -> task_ok (set_tstate t s (t_wait t)).
Proof.
  intros [O1 O2 O3 O4 O5 O6 O7 O8 O9] Hst Hs.
  assert (t_wait t = WAIT_NONE) as Hw.
  { destruct (decide (t_wait t = WAIT_NONE)) as [| Hw%O6]; [done |]. destruct Hst; congruence. }
  split; simpl; try done.
  - destruct Hs; subst; done.
  - rewrite Hw. split; [done |]. destruct Hs; subst; done.
  - intros Hz%O8. destruct Hst; congruence.
  - destruct Hs; subst; done.
Qed.

(** Making the ready task at [i] the current one, when none is running. *)
Lemma kinv_switch z k i t :
  kinv z k -> k_running k = true -> (forall p t, k_tasks k !! p = Some t -> t_state t <> TASK_RUNNING) ->
  0 <= i < k_num k -> k_tasks k !! znth 0 (k_tab k) i = Some t -> t_state t = TASK_READY ->
  let t' := set_tstate t TASK_RUNNING (t_wait t) in
  let k' := set_cr3 (set_current (set_tasks k (<[znth 0 (k_tab k) i := t']> (k_tasks k))) i) (t_cr3 t') in
  kinv z k' /\ in_user k'.
Proof.
  intros H Hr Hnone Hi Ht Hst t' k'. set (q := znth 0 (k_tab k) i) in *.
  destruct (task_entry _ _ _ _ H Ht) as (_ & Hq & Hok).
  assert (t_id t = i) as Hid.
  { destruct (ki_num _ _ H) as [Hn _].
    destruct (kinv_entry z k i H ltac:(lia)) as (t2 & Ht2 & E & _); [| fold q in Ht2; congruence].
    by apply (kinv_task_nonzero _ _ _ _ H Ht). }
  pose (k0 := set_current k i).
  assert (kinv z (set_tasks (set_cr3 k0 (t_cr3 t)) (<[q := t']> (k_tasks k)))) as HK; [| split; [exact HK |]].
  - apply (kinv_put_task z (set_cr3 k0 (t_cr3 t)) q t t'); try done; [| by apply ready_state_ok; auto].
    destruct H; split; try done.
    + intros p x Hx Hrun. exfalso. by apply (Hnone _ _ Hx).
    + intros _. split; [done |]. exists t. split; [done |]. split; [| done].
      intros Hz%(to_aspace _ Hok). congruence.
  - split; [done |]. exists t'. simpl. fold q. by rewrite lookup_insert_eq.
Qed.

(** The current task as [schedule] parks it. *)
Definition parked (t : task) (r : registers) : task :=
  let t := set_regs t r in
  if decide (t_state t = TASK_RUNNING) then set_tstate t TASK_READY (t_wait t) else t.

Lemma park_eq {A} p t r (rest : K M A) k :
  k_tasks k !! p = Some t ->
  (put_task p (set_regs t r) ;;
   t ← get_task p ;
   (if decide (t_state t = TASK_RUNNING) then put_task p (set_tstate t TASK_READY (t_wait t)) else mret tt) ;;
   rest) k = rest (set_tasks k (<[p := parked t r]> (k_tasks k))).
Proof.
  intros Hp. unfold mbind, K_bind at 1, put_task at 1, modify.
  unfold mbind, K_bind, get_task; simpl. rewrite lookup_insert_eq. unfold parked. cbv zeta.
  destruct (decide _); [| done]. unfold put_task, modify, set_tasks; simpl. by rewrite insert_insert_eq.
Qed.

Lemma kinv_park z k t r :
  kinv z k -> k_running k = true -> k_tasks k !! znth 0 (k_tab k) (k_current k) = Some t -> user_frame r ->
  let k' := set_tasks k (<[znth 0 (k_tab k) (k_current k) := parked t r]> (k_tasks k)) in
  kinv z k' /\ forall q x, k_tasks k' !! q = Some x -> t_state x <> TASK_RUNNING.
Proof.
  intros H Hr Ht Hu k'. set (p := znth 0 (k_tab k) (k_current k)) in *.
  destruct (task_entry _ _ _ _ H Ht) as (_ & Hp & Hok). pose proof (set_regs_ok t r Hok Hu) as Hok1.
  assert (t_state (parked t r) <> TASK_RUNNING) as Hnr.
  { unfold parked. cbv zeta. by destruct (decide _). }
  split.
  - eapply kinv_put_task; try done; unfold parked; cbv zeta; destruct (decide _); try done.
    apply ready_state_ok; [done | by right | by left].
  - intros q x. unfold k'; simpl. destruct (decide (q = p)) as [-> | Hne].
    + rewrite lookup_insert_eq. by intros [= <-].
    + rewrite lookup_insert_ne by done. intros Hx Hrun. destruct (ki_run _ _ H _ _ Hx Hrun) as [_ E].
      destruct (task_entry _ _ _ _ H Hx) as (_ & <- & _). apply Hne. unfold p. by rewrite E.
Qed.

(** Picking a task, idling when none is ready. *)
Lemma pick_ok z k :
  kinv z k -> 0 <= k_current k < k_num k -> k_idling k = false ->
  wp (c ← find_next_ready (k_current k) ;
      if c <? 0 then idle_until_runnable ;; find_next_ready (k_current k) else mret c)
    (fun c k' => kinv z k' /\ steady k k' /\ ready_at k' c) k.
Proof.
  intros H Hc Hid. apply wp_bind. eapply wp_mono; [by apply (find_next_ready_ok z) |]. intros c k' [-> Hcase].
  destruct Hcase as [(-> & _) | (j & _ & -> & Hrdy & _)].
  - cbn. apply wp_bind. eapply wp_mono; [by apply (idle_until_runnable_ok z) |].
    intros [] k3 (H3 & S3 & Hex). destruct (steady_env _ _ S3) as (S4 & S5 & S6 & _).
    eapply wp_mono; [apply (find_next_ready_ok z); [done |]; rewrite S5; done |].
    intros c k' [-> Hcase]. split; [done |]. split; [done |].
    destruct Hcase as [(_ & Hno) | (j & _ & _ & Hrdy & _)]; [| done]. destruct Hex as [i Hi]. by destruct (Hno i).
  - destruct (Z.ltb_spec ((k_current k + j) mod k_num k) 0) as [Hneg |].
    { pose proof (Z.mod_pos_bound (k_current k + j) (k_num k) ltac:(lia)). lia. }
    split; [done |]. split; [apply steady_refl | done].
Qed.

(** Entering the picked task. *)
Definition entered k (c : Z) (t : task) : kernel M :=
  set_cr3 (set_current (set_tasks k (<[znth 0 (k_tab k) c := set_tstate t TASK_RUNNING (t_wait t)]> (k_tasks k))) c)
    (t_cr3 t).

Lemma enter_eq z k c t r :
  kinv z k -> k_running k = true -> 0 <= c < k_num k -> k_tasks k !! znth 0 (k_tab k) c = Some t ->
  (q ← tab_get (u32 c) ;
   t ← get_task q ;
   put_task q (set_tstate t TASK_RUNNING (t_wait t)) ;;
   if u32 c =? k_current k then mret r
   else
     modify (fun k => set_current k (u32 c)) ;;
     t ← get_task q ;
     modify (fun k => set_cr3 k (t_cr3 t)) ;;
     mret (t_regs t)) k = Ret (if c =? k_current k then r else t_regs t) (entered k c t).
Proof.
  intros H Hr Hc Ht. destruct (ki_num _ _ H) as [Hn _]. unfold MAX_TASKS_LIMIT in Hn. rewrite u32_small by lia.
  unfold mbind, K_bind, tab_get. replace ((0 <=? c) && (c <? MAX_TASKS_LIMIT)) with true
    by (unfold MAX_TASKS_LIMIT; zcases; simpl; lia || done).
  unfold get_task. rewrite Ht. unfold put_task, modify. simpl.
  destruct (Z.eqb_spec c (k_current k)) as [-> | Hne]; [| simpl; by rewrite lookup_insert_eq].
  destruct (ki_cur _ _ H Hr) as (_ & ty & Hty & _ & Hcy). assert (ty = t) as -> by congruence.
  unfold entered, mret, K_ret, set_cr3, set_current, set_tasks; simpl. by rewrite <- Hcy.
Qed.

Lemma schedule_ok z k r :
  kinv z k -> k_running k = true -> k_idling k = false -> user_frame r ->
  wp (schedule r) (fun r' k' => kinv z k' /\ user_frame r' /\ in_user k' /\ k_idling k' = false /\
    k_num k' = k_num k) k.
Proof.
  intros H Hr Hid Hu. unfold schedule. apply wp_bind, wp_gets. rewrite Hr. cbn [negb].
  apply wp_bind, wp_gets. rewrite Hid. apply wp_bind.
  eapply wp_mono; [by apply (reap_sweep_ok z) |]. intros [] k1 (H1 & (C1 & C2 & C3 & C4) & _ & _).
  apply wp_bind, wp_gets. assert (k_running k1 = true) as Hr1 by congruence.
  destruct (ki_cur _ _ H1 Hr1) as (Hc & t & Ht & Hta & Hcr). destruct (ki_num _ _ H1) as [Hn _].
  apply wp_bind, wp_tab_get; [lia |].
  destruct (Z.eqb_spec (znth 0 (k_tab k1) (k_current k1)) 0) as [E | _]; [by apply (kinv_task_nonzero _ _ _ _ H1) in Ht |].
  apply wp_bind. eapply wp_get_task; [done |]. unfold wp. rewrite park_eq by done.
  destruct (kinv_park z k1 t r H1 Hr1 Ht Hu) as [H2 Hnone]. cbv zeta in H2, Hnone.
  set (k2 := set_tasks k1 _) in *.
  pose proof (pick_ok z k2 H2 Hc ltac:(unfold k2; simpl; congruence)) as Hpick.
  change (k_current k1) with (k_current k2).
  match goal with |- match ?m k2 with _ => _ end => change (wp m (fun r' k' => kinv z k' /\ user_frame r' /\
    in_user k' /\ k_idling k' = false /\ k_num k' = k_num k) k2) end.
  apply wp_assoc, wp_bind. eapply wp_mono; [exact Hpick |]. clear Hpick. intros c k3 (H3 & S3 & (Hcr3 & tq & Htq & Hrdy)).
  destruct (steady_env _ _ S3) as (S4 & S5 & S6 & S7 & S8 & _).
  assert (k_running k3 = true) as Hr3 by (rewrite S7; done).
  assert (forall q x, k_tasks k3 !! q = Some x -> t_state x <> TASK_RUNNING) as Hnone3.
  { intros q x Hx Hrun. destruct (steady_bwd _ _ _ _ S3 Hx) as (y & Hy & Hs).
    apply (Hnone _ _ Hy). by apply (task_sim_same _ _ Hs). }
  destruct (kinv_switch z k3 c tq H3 Hr3 Hnone3 Hcr3 Htq Hrdy) as [HK HU].
  destruct (task_entry _ _ _ _ H3 Htq) as (_ & _ & Hokq).
  cbv zeta. rewrite <- S6. unfold wp. rewrite (enter_eq z) with (t := tq) by done.
  split; [exact HK |]. split; [destruct (c =? _); [done | exact (to_regs _ Hokq)] |]. split; [exact HU |].
  unfold entered; simpl. rewrite S8, S5. unfold k2; simpl. split; congruence.
Qed.
End Inv.
