(* ===== verification/KernelFiles.v ===== *)
(** * The life of heap objects

    Allocation, linking, unlinking and freeing of files, pipes and tasks
    keep the invariant of [KernelInv]: the end counts of pipes, the
    ownership of descriptors, the exact live set of the heap. *)

From stdpp Require Import base list gmap fin_maps fin_map_dom.
From Stdlib Require Import ZArith Lia Bool.
From S2P Require Import Prelude Frames Ring Kernel Sched KernelInv.

Definition add_raw (p : Z) (z : loose) := mkLoose ({[p]} ∪ lo_raw z) (lo_file z) (lo_pipe z) (lo_as z).
Definition add_file (p : Z) (z : loose) := mkLoose (lo_raw z) ({[p]} ∪ lo_file z) (lo_pipe z) (lo_as z).
Definition add_pipe (p : Z) (z : loose) := mkLoose (lo_raw z) (lo_file z) ({[p]} ∪ lo_pipe z) (lo_as z).
Definition add_as (p : Z) (z : loose) := mkLoose (lo_raw z) (lo_file z) (lo_pipe z) ({[p]} ∪ lo_as z).

(** ** Counting ends *)

Lemma ends_insert_new fs a f q w :
  fs !! a = None -> ends (<[a := f]> fs) q w = ends fs q w + (if decide (is_end q w (a, f)) then 1 else 0).
Proof.
  intros Ha. unfold ends. destruct (decide (is_end q w (a, f))) as [He | He].
  - rewrite map_filter_insert_True by done. rewrite map_size_insert_None; [lia |].
    apply map_lookup_filter_None. by left.
  - rewrite map_filter_insert_False, delete_id by done. lia.
Qed.

Lemma ends_delete fs a f q w :
  fs !! a = Some f -> ends (delete a fs) q w = ends fs q w - (if decide (is_end q w (a, f)) then 1 else 0).
Proof.
  intros Ha. rewrite <- (insert_delete_id fs a f Ha) at 2.
  rewrite ends_insert_new by apply lookup_delete_eq. lia.
Qed.

Lemma ends_nonneg fs q w : 0 <= ends fs q w.
Proof. unfold ends. lia. Qed.

Lemma ends_pos fs a f q w : fs !! a = Some f -> is_end q w (a, f) -> 0 < ends fs q w.
Proof.
  intros Ha He. pose proof (ends_delete fs a f q w Ha) as E. rewrite decide_True in E by done.
  pose proof (ends_nonneg (delete a fs) q w). lia.
Qed.

Lemma ends_none fs q w : (forall a f, fs !! a = Some f -> f_kind f = FD_PIPE -> f_pipe f <> q) -> ends fs q w = 0.
Proof.
  intros H. unfold ends. replace (filter (is_end q w) fs) with (∅ : gmap Z file); [done |].
  symmetry. apply map_empty_filter_2. intros a f Hf (H1 & H2 & _). by apply (H a f).
Qed.

Section Files.
Context {M : Type} {mach : Machine M} {laws : MachineLaws M}.
Implicit Types k : kernel M.

(** ** The heap *)

(** Only the machine changed. *)
Definition mach_only k k' : Prop := k' = set_mach k (k_mach k').

Lemma kmalloc_ok z k n :
  kinv z k -> 0 <= n < 2 ^ 32 ->
  wp (kmalloc n) (fun p k' => mach_only k k' /\
    (p = 0 /\ kinv z k' \/ p <> 0 /\ p ∉ m_live (k_mach k) /\ kinv (add_raw p z) k')) k.
Proof.
  intros H Hn. unfold kmalloc, wp. destruct (m_kmalloc (k_mach k) n) as [m p] eqn:E.
  destruct (law_kmalloc _ _ _ _ (ki_ok _ _ H) Hn E) as (A1 & A2 & A3 & [(-> & A4) | (Hp & Hfr & A4)]).
  - split; [done |]. left. split; [done |]. apply kinv_quiet; [done |]. by repeat split.
  - split; [done |]. right. split; [done |]. split; [done |].
    pose proof (ki_live _ _ H) as Hl. pose proof (law_as_live _ (ki_ok _ _ H)) as Hasl.
    destruct H; split; simpl; rewrite ?A2; try done.
    + rewrite A4, ki_live. set_solver +.
    + rewrite Hl in Hfr. destruct ki_apart as (P0 & P1 & P2 & P3 & P4). set_solver +P0 P1 P2 P3 P4 Hfr.
    + intros q t Hq Hz. destruct (ki_as q t Hq Hz) as (X1 & X2 & X3). split; [done |]. split; [done |].
      by rewrite A3.
Qed.

(** Giving back a block that holds no object. *)
Lemma kfree_raw_ok z k p :
  kinv (add_raw p z) k -> p ∉ lo_raw z -> wp (kfree_raw p) (fun _ k' => kinv z k' /\ mach_only k k') k.
Proof.
  intros H Hp. unfold kfree_raw. apply wp_modify. split; [| done].
  destruct (law_kfree (k_mach k) p (ki_ok _ _ H)) as (D1 & D2 & D3 & D4).
  { rewrite (ki_live _ _ H). set_solver +. }
  { destruct (ki_apart _ _ H) as (_ & _ & _ & _ & P). set_solver +P. }
  destruct H; split; simpl in *; rewrite ?D2; try done.
  - rewrite D4, ki_live. destruct ki_apart as (_ & _ & _ & P & P'). set_solver +P P' Hp.
  - destruct ki_apart as (P0 & P1 & P2 & P3 & P4). set_solver +P0 P1 P2 P3 P4.
  - intros q t Hq Hz. destruct (ki_as q t Hq Hz) as (X1 & X2 & X3). split; [done |]. split; [done |].
    by rewrite D3.
Qed.

(** A raw block becomes an open file that is on no descriptor yet. *)
Lemma kinv_new_console z k p x :
  kinv (add_raw p z) k -> p ∉ lo_raw z -> f_kind x = FD_CONSOLE ->
  kinv (add_file p z) (set_files k (<[p := x]> (k_files k))).
Proof.
  intros H Hp Hx.
  assert (p ∉ dom (k_tasks k) /\ p ∉ dom (k_files k) /\ p ∉ dom (k_pipes k) /\ p ∉ m_as (k_mach k))
    as (N1 & N2 & N3 & N4).
  { destruct (ki_apart _ _ H) as (_ & _ & _ & P & P'). set_solver +P P'. }
  assert (forall q w', ends (<[p := x]> (k_files k)) q w' = ends (k_files k) q w') as Hends.
  { intros q w'. rewrite ends_insert_new by (by apply not_elem_of_dom). rewrite decide_False; [lia |].
    intros (Hk & _). simpl in Hk. congruence. }
  destruct H; split; simpl in *; rewrite ?dom_insert_L; try done.
  - intros q i f Ho. destruct (ki_own q i f Ho) as [O1 O2]. split; [set_solver +O1 |].
    set_solver +O1 O2 N2.
  - intros f Hf. destruct (decide (f = p)) as [-> | Hne]; [left; set_solver + |].
    destruct (ki_own_all f) as [| Ho]; [set_solver +Hf Hne | left; set_solver +H | by right].
  - set_solver +ki_loose_file.
  - intros a f. destruct (decide (a = p)) as [-> | Hne].
    + rewrite lookup_insert_eq. intros [= <-]. congruence.
    + rewrite lookup_insert_ne by done. eauto.
  - intros q y Hy. destruct (ki_pipes q y Hy) as [(S1 & S2 & S3) S4]. split; [| done].
    unfold pipe_sound. rewrite !Hends. done.
  - rewrite ki_live. set_solver +.
  - destruct ki_apart as (P0 & P1 & P2 & P3 & P4). set_solver +P0 P1 P2 P3 P4 N1 N2 N3 N4 Hp.
Qed.

Lemma file_alloc_console_ok z k w :
  kinv z k -> wp (file_alloc_console w) (fun f k' => mach_only k (set_files k' (k_files k)) /\
    (f = 0 /\ kinv z k' /\ k_files k' = k_files k \/
     f <> 0 /\ f ∉ lo_file z /\ f ∉ lo_raw z /\ kinv (add_file f z) k' /\
       k_files k' = <[f := mkFile FD_CONSOLE 0 w]> (k_files k))) k.
Proof.
  intros H. unfold file_alloc_console. apply wp_bind. eapply wp_mono; [apply (kmalloc_ok z); done |].
  intros p k1 [E [[-> H1] | (Hp & Hfr & H1)]].
  { split; [rewrite E; by destruct k |]. left. split; [done |]. split; [done |]. by rewrite E. }
  assert (p ∉ lo_raw z /\ p ∉ lo_file z) as [Hr Hd].
  { pose proof (ki_loose_file _ _ H) as Hl. rewrite (ki_live _ _ H) in Hfr. set_solver +Hfr Hl. }
  apply Z.eqb_neq in Hp as Hp'. rewrite Hp'. apply wp_bind. unfold put_file. apply wp_modify.
  pose proof (kinv_new_console z k1 p (mkFile FD_CONSOLE 0 w) H1 Hr eq_refl) as HK. rewrite E in HK |- *.
  split; [by destruct k |]. right. do 3 (split; [done |]). split; [exact HK | done].
Qed.

(** ** Pipe ends *)

Lemma count_end_ok y w d : pipe_ok y -> pipe_ok (count_end y w d).
Proof. by destruct w. Qed.
Lemma count_end_counts y w d :
  readers (count_end y w d) = readers y + (if w then 0 else d) /\
  writers (count_end y w d) = writers y + (if w then d else 0).
Proof. destruct w; simpl; lia. Qed.

(** Which counts a new or closed end of [q] changes. *)
Lemma is_end_iff q w q' w' a :
  is_end q' w' (a, mkFile FD_PIPE q w) <-> q' = q /\ w' = w.
Proof. unfold is_end; simpl. naive_solver. Qed.

Definition drop_pipe (q : Z) (z : loose) := mkLoose (lo_raw z) (lo_file z) (lo_pipe z ∖ {[q]}) (lo_as z).

Lemma kinv_new_end z k p q y w :
  kinv (add_raw p z) k -> p ∉ lo_raw z -> k_pipes k !! q = Some y ->
  kinv (add_file p (drop_pipe q z))
    (set_pipes (set_files k (<[p := mkFile FD_PIPE q w]> (k_files k))) (<[q := count_end y w 1]> (k_pipes k))).
Proof.
  intros H Hp Hq. set (x := mkFile FD_PIPE q w).
  assert (p ∉ dom (k_tasks k) /\ p ∉ dom (k_files k) /\ p ∉ dom (k_pipes k) /\ p ∉ m_as (k_mach k))
    as (N1 & N2 & N3 & N4).
  { destruct (ki_apart _ _ H) as (_ & _ & _ & P & P'). set_solver +P P'. }
  assert (forall q' w', ends (<[p := x]> (k_files k)) q' w' =
    ends (k_files k) q' w' + (if decide (q' = q /\ w' = w) then 1 else 0)) as Hends.
  { intros q' w'. rewrite ends_insert_new by (by apply not_elem_of_dom). f_equal.
    destruct (decide (is_end _ _ _)) as [E | E]; unfold x in E; rewrite is_end_iff in E; by destruct (decide _). }
  assert (dom (<[q := count_end y w 1]> (k_pipes k)) = dom (k_pipes k)) as Hdp.
  { apply dom_insert_lookup_L. by eexists. }
  destruct H; split; simpl in *; rewrite ?Hdp, ?dom_insert_L; try done.
  - intros r i f Ho. destruct (ki_own r i f Ho) as [O1 O2]. split; [set_solver +O1 |]. set_solver +O1 O2 N2.
  - intros f Hf. destruct (decide (f = p)) as [-> | Hne]; [left; set_solver + |].
    destruct (ki_own_all f) as [Hl | Ho]; [set_solver +Hf Hne | left; set_solver +Hl | by right].
  - set_solver +ki_loose_file.
  - intros a f. destruct (decide (a = p)) as [-> | Hne].
    + rewrite lookup_insert_eq. intros [= <-] _. apply elem_of_dom. by eexists.
    + rewrite lookup_insert_ne by done. eauto.
  - intros q' y'. destruct (decide (q' = q)) as [-> | Hne].
    + rewrite lookup_insert_eq. intros [= <-]. destruct (ki_pipes q y Hq) as [(S1 & S2 & S3) _].
      destruct (count_end_counts y w 1) as [E1 E2]. unfold pipe_sound. rewrite !Hends, E1, E2.
      pose proof (ends_nonneg (k_files k) q false). pose proof (ends_nonneg (k_files k) q true).
      assert ((if decide (q = q /\ false = w) then 1 else 0) = (if w then 0 else 1) /\
              (if decide (q = q /\ true = w) then 1 else 0) = (if w then 1 else 0)) as [-> ->].
      { clear. destruct w; split; case_decide as Hd; try done; by destruct Hd. }
      clear - S1 S2 S3 H0 H. split; [split; [by apply count_end_ok |] |]; destruct w; try lia; right; lia.
    + rewrite lookup_insert_ne by done. intros Hy. destruct (ki_pipes q' y' Hy) as [(S1 & S2 & S3) S4].
      split; [| set_solver +S4 Hne]. unfold pipe_sound. rewrite !Hends.
      rewrite !decide_False by (intros [? _]; done). split; [done |]. lia.
  - set_solver +ki_loose_pipe.
  - rewrite ki_live. set_solver +.
  - destruct ki_apart as (P0 & P1 & P2 & P3 & P4). set_solver +P0 P1 P2 P3 P4 N1 N2 N3 N4 Hp.
Qed.

(** What allocation of a file leaves alone. *)
Definition same_tasks k k' : Prop := same_cpu k k' /\ k_tab k' = k_tab k /\ k_tasks k' = k_tasks k /\ k_cr3 k' = k_cr3 k.

Lemma mach_only_same_tasks k k' : mach_only k k' -> same_tasks k k'.
Proof. intros ->. done. Qed.

(** A fresh address is in no map and no loose set. *)
Lemma fresh_everywhere z k p :
  kinv z k -> p ∉ m_live (k_mach k) ->
  p ∉ lo_raw z /\ p ∉ dom (k_tasks k) /\ p ∉ dom (k_files k) /\ p ∉ dom (k_pipes k) /\ p ∉ m_as (k_mach k) /\
  p ∉ lo_file z.
Proof.
  intros H Hp. rewrite (ki_live _ _ H) in Hp. pose proof (ki_loose_file _ _ H) as Hl. set_solver +Hp Hl.
Qed.

Lemma file_alloc_pipe_ok z k q y w :
  kinv z k -> k_pipes k !! q = Some y ->
  wp (file_alloc_pipe q w) (fun f k' => same_tasks k k' /\
    (f = 0 /\ kinv z k' /\ k_pipes k' = k_pipes k \/
     f <> 0 /\ f ∉ lo_file z /\ kinv (add_file f (drop_pipe q z)) k' /\
       k_pipes k' !! q = Some (count_end y w 1))) k.
Proof.
  intros H Hq. unfold file_alloc_pipe. apply wp_bind. eapply wp_mono; [apply (kmalloc_ok z); done |].
  intros p k1 [E [[-> H1] | (Hp & Hfr & H1)]].
  { split; [by apply mach_only_same_tasks |]. left. split; [done |]. split; [done |]. by rewrite E. }
  destruct (fresh_everywhere _ _ _ H Hfr) as (F1 & _ & _ & _ & _ & F6).
  apply Z.eqb_neq in Hp as Hp'. rewrite Hp'. apply wp_bind. unfold put_file. apply wp_modify.
  apply wp_bind. eapply wp_get_pipe; [simpl; rewrite E; exact Hq |].
  apply wp_bind. unfold put_pipe. apply wp_modify.
  assert (k_pipes k1 !! q = Some y) as Hq1 by (by rewrite E).
  pose proof (kinv_new_end z k1 p q y w H1 F1 Hq1) as HK.
  split; [by rewrite E |]. right. split; [done |]. split; [done |]. split; [exact HK |].
  simpl. apply lookup_insert_eq.
Qed.

(** The console case and the pipe case of [file_dup] at once. *)
Lemma file_dup_ok z k src s :
  kinv z k -> lo_pipe z = ∅ -> k_files k !! src = Some s ->
  wp (file_dup src) (fun f k' => same_tasks k k' /\
    (f = 0 /\ kinv z k' /\ k_files k' = k_files k \/ f <> 0 /\ f ∉ lo_file z /\ kinv (add_file f z) k' /\
       k_files k' = <[f := s]> (k_files k))) k.
Proof.
  intros H Hlp Hs. unfold file_dup. apply wp_bind. eapply wp_mono; [apply (kmalloc_ok z); done |].
  intros p k1 [E [[-> H1] | (Hp & Hfr & H1)]].
  { split; [by apply mach_only_same_tasks |]. left. split; [done |]. split; [done |]. by rewrite E. }
  destruct (fresh_everywhere _ _ _ H Hfr) as (F1 & _ & _ & _ & _ & F6).
  apply Z.eqb_neq in Hp as Hp'. rewrite Hp'. apply wp_bind.
  eapply wp_get_file; [rewrite E; exact Hs |]. apply wp_bind. unfold put_file. apply wp_modify. apply wp_bind.
  destruct (decide (f_kind s = FD_PIPE)) as [Hk | Hk].
  - pose proof (ki_fpipe _ _ H _ _ Hs Hk) as [y Hy]%elem_of_dom.
    assert (k_pipes k1 !! f_pipe s = Some y) as Hy1 by (by rewrite E).
    apply wp_bind. eapply wp_get_pipe; [simpl; exact Hy1 |]. unfold put_pipe. apply wp_modify.
    pose proof (kinv_new_end z k1 p (f_pipe s) y (f_writable s) H1 F1 Hy1) as HK.
    replace (drop_pipe (f_pipe s) z) with z in HK.
    2:{ destruct z as [zr zf zp za]. unfold drop_pipe; simpl in *. subst. f_equal. set_solver +. }
    replace (mkFile FD_PIPE (f_pipe s) (f_writable s)) with s in HK by (destruct s; simpl in *; by subst).
    split; [by rewrite E |]. right. split; [done |]. split; [done |]. split; [exact HK |]. simpl. by rewrite E.
  - apply wp_ret. split; [by rewrite E |]. right. split; [done |]. split; [done |].
    split; [| simpl; by rewrite E].
    assert (f_kind s = FD_CONSOLE) as Hc by (by destruct (f_kind s)).
    exact (kinv_new_console z k1 p s H1 F1 Hc).
Qed.

(** ** Descriptors *)

(** The slot [i] of the task at [p] now holds [f]. *)
Definition with_fd k (p : Z) (t : task) (i f : Z) : kernel M :=
  set_tasks k (<[p := set_fds t (zset (t_fds t) i f)]> (k_tasks k)).

Lemma owns_with_fd k p t i f q j g :
  k_tasks k !! p = Some t -> zlen (t_fds t) = MAX_FDS -> 0 <= i < MAX_FDS ->
  owns (with_fd k p t i f) q j g <->
  (q = p /\ j = i /\ g = f /\ f <> 0) \/ (~ (q = p /\ j = i) /\ owns k q j g).
Proof.
  intros Hp Hl Hi. unfold owns, with_fd; simpl. destruct (decide (q = p)) as [-> | Hne].
  - rewrite lookup_insert_eq. destruct (decide (j = i)) as [-> | Hji].
    + split.
      * intros (x & [= <-] & _ & E & Hz). simpl in E. rewrite znth_zset_eq in E by lia. subst. by left.
      * intros [(_ & _ & -> & Hz) | [Hn _]]; [| by destruct Hn]. eexists. split; [reflexivity |].
        simpl. rewrite znth_zset_eq by lia. done.
    + split.
      * intros (x & [= <-] & Hj & E & Hz). simpl in E. rewrite znth_zset_ne in E by done.
        right. split; [by intros [_ ?] |]. by exists t.
      * intros [(_ & ? & _) | [_ (x & Hx & Hj & E & Hz)]]; [done |]. simplify_eq. eexists. split; [reflexivity |].
        simpl. rewrite znth_zset_ne by done. done.
  - rewrite lookup_insert_ne by done. split.
    + intros Hx. right. split; [by intros [? _] | done].
    + intros [(? & _) | [_ Hx]]; done.
Qed.

Lemma kinv_with_fd z lf k p t i f :
  kinv z k -> k_tasks k !! p = Some t -> 0 <= i < MAX_FDS ->
  (t_state t = TASK_ZOMBIE -> f = 0) ->
  let k' := with_fd k p t i f in
  (forall q j g, owns k' q j g -> g ∈ dom (k_files k) /\ g ∉ lf) ->
  (forall q j q' j' g, owns k' q j g -> owns k' q' j' g -> q = q' /\ j = j') ->
  (forall g, g ∈ dom (k_files k) -> g ∈ lf \/ exists q j, owns k' q j g) ->
  lf ⊆ dom (k_files k) ->
  kinv (mkLoose (lo_raw z) lf (lo_pipe z) (lo_as z)) k'.
Proof.
  intros H Hp Hi Hzb k' O1 O2 O3 O4. destruct (task_entry _ _ _ _ H Hp) as (_ & _ & Hok).
  assert (task_ok (set_fds t (zset (t_fds t) i f))) as Hok'.
  { destruct Hok; split; simpl; rewrite ?zlen_zset; try done. intros Hst. rewrite (Hzb Hst).
    apply zset_Forall; auto. }
  set (t' := set_fds t (zset (t_fds t) i f)) in *.
  assert (dom (<[p := t']> (k_tasks k)) = dom (k_tasks k)) as Hdom.
  { apply dom_insert_lookup_L. by eexists. }
  assert (forall q x, <[p := t']> (k_tasks k) !! q = Some x ->
    exists y, k_tasks k !! q = Some y /\ t_id x = t_id y /\ t_aspace x = t_aspace y /\ t_cr3 x = t_cr3 y /\
      t_state x = t_state y /\ (task_ok y -> task_ok x)) as Hlk.
  { intros q x. destruct (decide (q = p)) as [-> | Hne].
    - rewrite lookup_insert_eq. intros [= <-]. exists t. auto 10.
    - rewrite lookup_insert_ne by done. intros. exists x. auto 10. }
  assert (forall q y, k_tasks k !! q = Some y -> exists x, <[p := t']> (k_tasks k) !! q = Some x /\
    t_id x = t_id y /\ t_aspace x = t_aspace y /\ t_cr3 x = t_cr3 y) as Hlk2.
  { intros q y Hq. destruct (decide (q = p)) as [-> | Hne].
    - rewrite lookup_insert_eq. simplify_eq. eauto 10.
    - rewrite lookup_insert_ne by done. eauto 10. }
  unfold k', with_fd in *. fold t' in O1, O2, O3 |- *. destruct H; split; simpl in *; rewrite ?Hdom; try done.
  - intros j Hj Hz. destruct (ki_tab j Hj Hz) as (Hn & y & Hy & E).
    destruct (Hlk2 _ _ Hy) as (x & Hx & Ex & _). split; [done |]. exists x. split; [done | congruence].
  - intros q x (y & Hy & E & _ & _ & _ & Ho)%Hlk. rewrite E. destruct (ki_tasks _ _ Hy) as (? & ? & ?). auto.
  - intros q x (y & Hy & _ & E & Ec & _)%Hlk. rewrite E, Ec. eauto.
  - intros q x q' x' (y & Hy & _ & E & _)%Hlk (y' & Hy' & _ & E' & _)%Hlk. rewrite E, E'. eauto.
  - intros a Ha. destruct (ki_as_all a Ha) as [| (q & y & Hy & E)]; [by left |]. right.
    destruct (Hlk2 _ _ Hy) as (x & Hx & _ & Ex & _). exists q, x. split; [done | congruence].
  - intros q x (y & Hy & E & _ & _ & Es & _)%Hlk. rewrite E, Es. eauto.
  - intros Hr. destruct (ki_cur Hr) as (Hc & y & Hy & Hz & E). split; [done |].
    destruct (Hlk2 _ _ Hy) as (x & Hx & _ & Ea & Ec). exists x. rewrite Ea, Ec. done.
Qed.

(** Taking a file off its slot. *)
Lemma kinv_fd_clear z k p t i f :
  kinv z k -> k_tasks k !! p = Some t -> 0 <= i < MAX_FDS -> znth 0 (t_fds t) i = f -> f <> 0 ->
  kinv (add_file f z) (with_fd k p t i 0) /\ f ∉ lo_file z /\ f ∈ dom (k_files k).
Proof.
  intros H Hp Hi Hf Hz. destruct (task_entry _ _ _ _ H Hp) as (_ & _ & Hok).
  assert (owns k p i f) as Ho by (by exists t).
  destruct (ki_own _ _ H _ _ _ Ho) as [Hd Hnl]. split; [| done].
  pose proof (fun q j g => owns_with_fd k p t i 0 q j g Hp (to_fds _ Hok) Hi) as Hown.
  apply (kinv_with_fd z _ k p t i 0 H Hp Hi); [done | | | |].
  - intros q j g [(_ & _ & _ & ?) | [Hne Hg]]%Hown; [done |]. destruct (ki_own _ _ H _ _ _ Hg) as [G1 G2].
    split; [done |]. simpl. apply not_elem_of_union. split; [| done]. intros ->%elem_of_singleton.
    apply Hne. by apply (ki_own_uniq _ _ H q j p i f).
  - intros q j q' j' g [(_ & _ & _ & ?) | [Hne Hg]]%Hown [(_ & _ & _ & ?) | [Hne' Hg']]%Hown; try done.
    by apply (ki_own_uniq _ _ H q j q' j' g).
  - intros g Hg. destruct (decide (g = f)) as [-> | Hgf]; [left; set_solver + |].
    destruct (ki_own_all _ _ H g Hg) as [Hl | (q & j & Hq)]; [left; set_solver +Hl |]. right. exists q, j.
    apply Hown. right. split; [| done]. intros [-> ->]. destruct Hq as (x & Hx & _ & E & _). simplify_eq.
  - pose proof (ki_loose_file _ _ H). set_solver.
Qed.

(** Putting a loose file on an empty slot. *)
Lemma kinv_fd_set z k p t i f :
  kinv (add_file f z) k -> f ∉ lo_file z -> f <> 0 -> k_tasks k !! p = Some t -> 0 <= i < MAX_FDS ->
  znth 0 (t_fds t) i = 0 -> t_state t <> TASK_ZOMBIE -> kinv z (with_fd k p t i f).
Proof.
  intros H Hfl Hfz Hp Hi Hz Hst. destruct (task_entry _ _ _ _ H Hp) as (_ & _ & Hok).
  assert (f ∈ dom (k_files k)) as Hfd by (apply (ki_loose_file _ _ H); simpl; set_solver +).
  pose proof (fun q j g => owns_with_fd k p t i f q j g Hp (to_fds _ Hok) Hi) as Hown.
  assert (forall q j g, owns k q j g -> g ∈ dom (k_files k) /\ g <> f /\ g ∉ lo_file z) as Hk.
  { intros q j g Hg. destruct (ki_own _ _ H _ _ _ Hg) as [G1 G2]. simpl in G2. set_solver +G1 G2. }
  pose proof (kinv_with_fd (add_file f z) (lo_file z) k p t i f H Hp Hi) as HK.
  destruct z as [zr zf zp za]; simpl in *. apply HK; clear HK.
  - done.
  - intros q j g [(-> & -> & -> & _) | [Hne Hg]]%Hown; [done |]. destruct (Hk _ _ _ Hg) as (? & _ & ?). done.
  - intros q j q' j' g [(-> & -> & -> & _) | [Hne Hg]]%Hown [(-> & -> & E & _) | [Hne' Hg']]%Hown; try done.
    + by destruct (Hk _ _ _ Hg') as (_ & ? & _).
    + subst g. by destruct (Hk _ _ _ Hg) as (_ & ? & _).
    + by apply (ki_own_uniq _ _ H q j q' j' g).
  - intros g Hg. destruct (decide (g = f)) as [-> | Hgf].
    { right. exists p, i. apply Hown. by left. }
    destruct (ki_own_all _ _ H g Hg) as [Hl | (q & j & Hq)]; [left; simpl in Hl; set_solver +Hl Hgf |].
    right. exists q, j. apply Hown. right. split; [| done].
    intros [-> ->]. destruct Hq as (x & Hx & _ & E & Hnz). simplify_eq.
  - pose proof (ki_loose_file _ _ H) as Hl. simpl in Hl. set_solver +Hl.
Qed.

(** ** Closing *)

(** A loose file leaves the map; its block is raw again. *)
Lemma kinv_drop_console z k f x :
  kinv (add_file f z) k -> f ∉ lo_file z -> k_files k !! f = Some x -> f_kind x = FD_CONSOLE ->
  kinv (add_raw f z) (set_files k (delete f (k_files k))).
Proof.
  intros H Hfl Hf Hx. assert (f ∈ dom (k_files k)) as Hfd by (apply elem_of_dom; by eexists).
  assert (forall q w, ends (delete f (k_files k)) q w = ends (k_files k) q w) as Hends.
  { intros q w. rewrite (ends_delete _ _ _ _ _ Hf), decide_False; [lia |]. intros (Hk & _). simpl in Hk. congruence. }
  destruct H; split; simpl in *; rewrite ?dom_delete_L; try done.
  - intros q i g Ho. destruct (ki_own q i g Ho) as [O1 O2]. set_solver +O1 O2.
  - intros g Hg. destruct (ki_own_all g) as [Hl | Ho]; [set_solver +Hg | left; set_solver +Hl Hg | by right].
  - set_solver +ki_loose_file Hfl.
  - intros a g [_ Hg]%lookup_delete_Some. eauto.
  - intros q y Hy. unfold pipe_sound. rewrite !Hends. exact (ki_pipes q y Hy).
  - rewrite ki_live. apply set_eq. intros a. destruct (decide (a = f)) as [-> | n]; [set_solver +Hfd | set_solver +n].
  - destruct ki_apart as (P0 & P1 & P2 & P3 & P4). set_solver +P0 P1 P2 P3 P4 Hfd.
Qed.

(** The same for a pipe end, with the count of its kind. *)
Lemma kinv_drop_end z k f x y :
  kinv (add_file f z) k -> f ∉ lo_file z -> k_files k !! f = Some x -> f_kind x = FD_PIPE ->
  k_pipes k !! f_pipe x = Some y ->
  let y' := count_end y (f_writable x) (-1) in
  kinv (add_raw f (if (readers y' =? 0) && (writers y' =? 0) then add_pipe (f_pipe x) z else z))
    (set_pipes (set_files k (delete f (k_files k))) (<[f_pipe x := y']> (k_pipes k))) /\
  (forall w : bool, (if w then writers y' else readers y') = ends (delete f (k_files k)) (f_pipe x) w).
Proof.
  intros H Hfl Hf Hx Hy y'. set (q := f_pipe x) in *. set (v := f_writable x) in *.
  assert (f ∈ dom (k_files k)) as Hfd by (apply elem_of_dom; by eexists).
  assert (forall q' w, ends (delete f (k_files k)) q' w =
    ends (k_files k) q' w - (if decide (q' = q /\ w = v) then 1 else 0)) as Hends.
  { intros q' w. rewrite (ends_delete _ _ _ _ _ Hf). f_equal.
    destruct (decide (is_end _ _ _)) as [E | E]; destruct (decide (_ /\ _)) as [E' | E']; try done; exfalso.
    - apply E'. destruct E as (_ & ? & ?). done.
    - apply E. destruct E' as (-> & ->). done. }
  destruct (ki_pipes _ _ H q y Hy) as [(S1 & S2 & S3) _].
  destruct (count_end_counts y v (-1)) as [E1 E2]. fold y' in E1, E2.
  assert (forall w : bool, (if w then writers y' else readers y') = ends (delete f (k_files k)) q w) as Hcount.
  { intros w. rewrite Hends. destruct w.
    - rewrite E2, S3. destruct v, (decide (q = q /\ _)) as [D | D]; try lia; by destruct D.
    - rewrite E1, S2. destruct v, (decide (q = q /\ _)) as [D | D]; try lia; by destruct D. }
  split; [| done]. set (z' := if (readers y' =? 0) && (writers y' =? 0) then add_pipe q z else z).
  assert (lo_raw z' = lo_raw z /\ lo_file z' = lo_file z /\ lo_as z' = lo_as z /\ lo_pipe z ⊆ lo_pipe z' /\
    lo_pipe z' ⊆ {[q]} ∪ lo_pipe z) as (L1 & L2 & L3 & L4 & L5).
  { unfold z'. destruct (_ && _); simpl; set_solver +. }
  assert (q ∈ lo_pipe z' \/ 0 < readers y' + writers y') as Hleft.
  { pose proof (Hcount true) as C1. pose proof (Hcount false) as C2. simpl in C1, C2.
    pose proof (ends_nonneg (delete f (k_files k)) q true). pose proof (ends_nonneg (delete f (k_files k)) q false).
    unfold z'. destruct (Z.eqb_spec (readers y') 0), (Z.eqb_spec (writers y') 0); simpl; try (right; lia).
    left. set_solver +. }
  assert (dom (<[q := y']> (k_pipes k)) = dom (k_pipes k)) as Hdp.
  { apply dom_insert_lookup_L. by eexists. }
  assert (q ∈ dom (k_pipes k)) as Hqd by (apply elem_of_dom; by eexists). clearbody z'.
  destruct H; split; simpl in *; rewrite ?Hdp, ?dom_delete_L, ?L1, ?L2, ?L3; try done.
  - intros r i g Ho. destruct (ki_own r i g Ho) as [O1 O2]. set_solver +O1 O2.
  - intros g Hg. destruct (ki_own_all g) as [Hl | Ho]; [set_solver +Hg | left; set_solver +Hl Hg | by right].
  - set_solver +ki_loose_file Hfl.
  - intros a g [_ Hg]%lookup_delete_Some. eauto.
  - intros q' u. destruct (decide (q' = q)) as [-> | Hne].
    + rewrite lookup_insert_eq. intros [= <-]. split; [| done]. split; [by apply count_end_ok |].
      split; [exact (Hcount false) | exact (Hcount true)].
    + rewrite lookup_insert_ne by done. intros Hu. destruct (ki_pipes q' u Hu) as [(U1 & U2 & U3) U4].
      split; [| set_solver +U4 L4]. unfold pipe_sound. rewrite !Hends, !decide_False by (by intros [? _]).
      split; [done |]. lia.
  - set_solver +ki_loose_pipe L5 Hqd.
  - rewrite ki_live. apply set_eq. intros a. destruct (decide (a = f)) as [-> | n]; [set_solver +Hfd | set_solver +n].
  - destruct ki_apart as (P0 & P1 & P2 & P3 & P4). set_solver +P0 P1 P2 P3 P4 Hfd.
Qed.

(** A loose pipe with no end is freed. *)
Lemma kinv_free_pipe z k q :
  kinv (add_pipe q z) k -> q ∉ lo_pipe z -> ends (k_files k) q false = 0 -> ends (k_files k) q true = 0 ->
  kinv z (set_mach (set_pipes k (delete q (k_pipes k))) (m_kfree (k_mach k) q)).
Proof.
  intros H Hql E0 E1.
  assert (q ∈ dom (k_pipes k)) as Hqd by (apply (ki_loose_pipe _ _ H); simpl; set_solver +).
  destruct (law_kfree (k_mach k) q (ki_ok _ _ H)) as (D1 & D2 & D3 & D4).
  { rewrite (ki_live _ _ H). set_solver +Hqd. }
  { destruct (ki_apart _ _ H) as (_ & _ & _ & P & _). set_solver +P Hqd. }
  set (m' := m_kfree (k_mach k) q) in *. clearbody m'.
  destruct H; split; simpl in *; rewrite ?dom_delete_L, ?D2; try done.
  - intros a f Ha Hk. specialize (ki_fpipe a f Ha Hk). apply elem_of_difference. split; [done |].
    intros Eq%elem_of_singleton. destruct (f_writable f) eqn:Ew.
    + assert (0 < ends (k_files k) q true) by (by apply (ends_pos _ a f)). lia.
    + assert (0 < ends (k_files k) q false) by (by apply (ends_pos _ a f)). lia.
  - intros q' u [Hne Hu]%lookup_delete_Some. destruct (ki_pipes q' u Hu) as [U1 U2]. split; [done |].
    set_solver +U2 Hne.
  - set_solver +ki_loose_pipe Hql.
  - rewrite D4, ki_live. destruct ki_apart as (_ & P1 & P2 & P3 & _). set_solver +P1 P2 P3 Hqd.
  - destruct ki_apart as (P0 & P1 & P2 & P3 & P4). set_solver +P0 P1 P2 P3 P4.
  - intros p t Hp Hz. destruct (ki_as p t Hp Hz) as (X1 & X2 & X3). by rewrite D3.
Qed.

(** Waking looks only at tasks, so it commutes with a change of the pipes. *)
Lemma wake_one_set_pipes reason i k ps :
  wake_one reason i (set_pipes k ps) =
  match wake_one reason i k with Ret a k' => Ret a (set_pipes k' ps) | Stop => Stop | UB => UB end.
Proof.
  unfold wake_one, mbind, K_bind, mret, K_ret, tab_get, get_task; simpl.
  destruct ((0 <=? i) && (i <? MAX_TASKS_LIMIT)); [| done].
  destruct (znth 0 (k_tab k) i =? 0); [done |]. simpl.
  destruct (k_tasks k !! znth 0 (k_tab k) i) as [t|]; [| done].
  by destruct (decide (t_state t = TASK_BLOCKED /\ t_wait t = reason)).
Qed.

Lemma wake_set_pipes k ps reason Q :
  wp (scheduler_wake reason) (fun a k' => Q a (set_pipes k' ps)) k ->
  wp (scheduler_wake reason) Q (set_pipes k ps).
Proof.
  unfold scheduler_wake, wp, mbind, K_bind, gets; simpl.
  generalize (Z.to_nat (k_num k)) as n. generalize 0 as i. intros i n. revert i k.
  induction n as [|n IH]; intros i k; simpl; [done |]. unfold mbind, K_bind.
  rewrite wake_one_set_pipes. destruct (wake_one reason i k); [| done..]. apply IH.
Qed.

(** What closing a file may do to the tasks: wake them. *)
Definition sim_tasks k k' : Prop :=
  same_cpu k k' /\ k_tab k' = k_tab k /\ k_cr3 k' = k_cr3 k /\
  forall p, option_Forall2 task_sim (k_tasks k !! p) (k_tasks k' !! p).

Lemma steady_sim k k' : steady k k' -> sim_tasks k k'.
Proof.
  intros S. destruct (steady_env _ _ S) as (E1 & E2 & E3 & E4 & E5 & E6 & _).
  split; [done |]. split; [done |]. split; [done |]. by destruct S.
Qed.

Lemma sim_tasks_refl k : sim_tasks k k.
Proof. apply steady_sim, steady_refl. Qed.

Lemma same_tasks_sim k k' : same_tasks k k' -> sim_tasks k k'.
Proof.
  intros (C & E1 & E2 & E3). split; [done |]. split; [done |]. split; [done |].
  rewrite E2. apply (steady_refl k).
Qed.

Lemma sim_tasks_trans k1 k2 k3 : sim_tasks k1 k2 -> sim_tasks k2 k3 -> sim_tasks k1 k3.
Proof.
  intros (A1 & A2 & A3 & A4) (B1 & B2 & B3 & B4). split; [by eapply same_cpu_trans |].
  split; [congruence |]. split; [congruence |]. intros p. specialize (A4 p). specialize (B4 p).
  destruct A4 as [x y A4 |]; inversion B4; subst; constructor. by eapply task_sim_trans.
Qed.

Lemma sim_fwd k k' p t :
  sim_tasks k k' -> k_tasks k !! p = Some t -> exists t', k_tasks k' !! p = Some t' /\ task_sim t t'.
Proof. intros (_ & _ & _ & H) Hp. specialize (H p). rewrite Hp in H. inversion H; subst; eauto. Qed.

Lemma in_user_sim k k' : sim_tasks k k' -> in_user k -> in_user k'.
Proof.
  intros S (Hr & t & Ht & Hs). destruct (sim_fwd _ _ _ _ S Ht) as (t' & Ht' & Hsim).
  destruct S as ((_ & E1 & E2 & _) & E3 & _). split; [congruence |]. exists t'. rewrite E3, E1.
  split; [done |]. by apply (task_sim_same _ _ Hsim).
Qed.

Lemma file_close_ok z k f :
  kinv (add_file f z) k -> f ∉ lo_file z -> lo_pipe z = ∅ ->
  wp (file_close f) (fun _ k' => kinv z k' /\ sim_tasks k k') k.
Proof.
  intros H Hfl Hlp. assert (f ∈ dom (k_files k)) as [x Hx]%elem_of_dom.
  { apply (ki_loose_file _ _ H). simpl. set_solver +. }
  assert (f ∉ lo_raw z) as Hfr.
  { destruct (ki_apart _ _ H) as (_ & _ & _ & P & _). apply elem_of_dom_2 in Hx. simpl in P. set_solver +P Hx. }
  unfold file_close. apply wp_bind. eapply wp_get_file; [done |]. apply wp_bind.
  destruct (decide (f_kind x = FD_PIPE)) as [Hk | Hk].
  2:{ apply wp_ret. unfold kfree_file. apply wp_bind, wp_modify.
      assert (f_kind x = FD_CONSOLE) as Hc by (by destruct (f_kind x)).
      eapply wp_mono; [apply (kfree_raw_ok z); [by eapply kinv_drop_console | done] |].
      intros [] k' [H' E]. split; [done |]. rewrite E. exact (sim_tasks_refl k). }
  pose proof (ki_fpipe _ _ H _ _ Hx Hk) as [y Hy]%elem_of_dom.
  apply wp_bind. eapply wp_get_pipe; [done |]. cbv zeta.
  set (q := f_pipe x) in *. set (y' := count_end y (f_writable x) (-1)).
  apply wp_bind. unfold put_pipe. apply wp_modify. apply wp_bind.
  (* whichever wake-up runs, or none *)
  assert (forall (m : K M unit) (R : unit -> kernel M -> Prop),
    (m = mret tt \/ exists reason, m = scheduler_wake reason) ->
    (forall k1, kinv (add_file f z) k1 -> steady k k1 -> R tt (set_pipes k1 (<[q := y']> (k_pipes k)))) ->
    wp m R (set_pipes k (<[q := y']> (k_pipes k)))) as Hwake.
  { intros m R [-> | (reason & ->)] HR.
    - apply HR; [done | apply steady_refl].
    - apply wake_set_pipes. eapply wp_mono; [by apply (scheduler_wake_ok (add_file f z)) |].
      intros [] k1 [H1 S1]. by apply HR. }
  apply Hwake; clear Hwake.
  { destruct (f_writable x), (_ =? 0); try destruct (_ =? 0); eauto. }
  intros k1 H1 S1. destruct (steady_env _ _ S1) as (_ & _ & _ & _ & _ & _ & EF & EP & _).
  assert (k_files k1 !! f = Some x) as Hx1 by (by rewrite EF).
  assert (k_pipes k1 !! q = Some y) as Hy1 by (by rewrite EP).
  destruct (kinv_drop_end z k1 f x y H1 Hfl Hx1 Hk Hy1) as [HD Hcount]. fold q y' in HD, Hcount.
  rewrite <- EP. destruct ((readers y' =? 0) && (writers y' =? 0)) eqn:Ez.
  - zbool. unfold kfree_pipe. apply wp_bind, wp_modify. unfold kfree_raw at 1. apply wp_modify.
    unfold kfree_file. apply wp_bind, wp_modify.
    eapply wp_mono; [apply (kfree_raw_ok z); [| done] |].
    + refine (kinv_free_pipe (add_raw f z) _ q HD _ _ _).
      * simpl. rewrite Hlp. set_solver +.
      * transitivity (readers y'); [symmetry; exact (Hcount false) | done].
      * transitivity (writers y'); [symmetry; exact (Hcount true) | done].
    + intros [] k' [H' E]. split; [done |]. rewrite E.
      eapply sim_tasks_trans; [by apply steady_sim |]. exact (sim_tasks_refl k1).
  - apply wp_ret. unfold kfree_file. apply wp_bind, wp_modify.
    eapply wp_mono; [apply (kfree_raw_ok z); [exact HD | done] |].
    intros [] k' [H' E]. split; [done |]. rewrite E.
    eapply sim_tasks_trans; [by apply steady_sim |]. exact (sim_tasks_refl k1).
Qed.

(** The descriptors of a task after closing one. *)
Lemma close_fd_ok z k p t i :
  kinv z k -> lo_pipe z = ∅ -> k_tasks k !! p = Some t -> 0 <= i < MAX_FDS ->
  wp (close_fd p i) (fun _ k' => kinv z k' /\ sim_tasks (with_fd k p t i 0) k') k.
Proof.
  intros H Hlp Hp Hi. destruct (task_entry _ _ _ _ H Hp) as (_ & _ & Hok).
  unfold close_fd. apply wp_bind. eapply wp_fds_get; [done | done |].
  destruct (Z.eqb_spec (znth 0 (t_fds t) i) 0) as [Ez | Ez].
  - apply wp_ret. split; [done |].
    assert (zset (t_fds t) i 0 = t_fds t) as E.
    { unfold zset. destruct (Z.ltb_spec i 0); [done |]. apply list_insert_id.
      rewrite znth_nonneg in Ez by lia. pose proof (to_fds _ Hok) as Hl. unfold zlen in Hl.
      destruct (lookup_lt_is_Some_2 (t_fds t) (Z.to_nat i)) as [v Hv]; [lia |]. rewrite Hv in Ez. simpl in Ez. by subst. }
    unfold with_fd. rewrite E. replace (set_fds t (t_fds t)) with t by (by destruct t).
    rewrite insert_id by done. replace (set_tasks k (k_tasks k)) with k by (by destruct k). apply sim_tasks_refl.
  - destruct (kinv_fd_clear z k p t i _ H Hp Hi eq_refl Ez) as (HK & Hnl & _).
    apply wp_bind. eapply wp_fds_set; [done | done |]. by apply file_close_ok.
Qed.

(** ** Blocking *)

Lemma current_task_ok z k Q :
  kinv z k -> k_running k = true ->
  (forall t, k_tasks k !! znth 0 (k_tab k) (k_current k) = Some t -> task_ok t -> t_id t = k_current k ->
     t_aspace t <> 0 -> k_cr3 k = t_cr3 t -> Q (znth 0 (k_tab k) (k_current k)) k) ->
  wp scheduler_current_task Q k.
Proof.
  intros H Hr HQ. unfold scheduler_current_task. apply wp_bind, wp_gets.
  destruct (ki_cur _ _ H Hr) as (Hc & t & Ht & Hz & E). destruct (ki_num _ _ H) as [Hn _].
  apply wp_tab_get; [lia |].
  destruct (kinv_entry z k (k_current k) H ltac:(lia)) as (t' & Ht' & Eid & _ & Hok).
  { by apply (kinv_task_nonzero _ _ _ _ H Ht). }
  simplify_eq. eapply HQ; eassumption.
Qed.

(** The state between two entries to the kernel. *)
Definition at_rest k : Prop := kinv none k /\ in_user k /\ k_idling k = false.

(** Where a handler stands once it may have switched. *)
Definition resumed k (r : registers) : Prop := at_rest k /\ user_frame r.

Lemma task_block_ok k r reason :
  at_rest k -> user_frame r -> reason <> WAIT_NONE ->
  wp (task_block r reason) (fun x k' => resumed k' x.2 /\ (x.1 = TASK_BLOCK_INTERRUPTED \/ x.1 = 0)) k.
Proof.
  intros (H & HU & Hid) Hu Hw. destruct HU as (Hr & t0 & Ht0 & Hrun).
  unfold task_block. apply wp_bind, (current_task_ok none); [done | done |].
  intros t Ht Hok Eid Ha Hcr. assert (t0 = t) as -> by congruence.
  apply wp_bind. eapply wp_get_task; [done |]. destruct (t_interrupted t) eqn:Eint.
  - apply wp_bind, wp_put_task, wp_ret. split; [| by left]. split; [| done]. split; [| split; [| done]].
    + eapply kinv_put_task; try done; first [by destruct Hok | intros; by apply (ki_run _ _ H _ _ Ht)].
    + split; [done |]. eexists. simpl. rewrite lookup_insert_eq. split; [reflexivity | done].
  - apply wp_bind, wp_put_task, wp_bind.
    assert (kinv none (set_tasks k (<[znth 0 (k_tab k) (k_current k) := set_tstate t TASK_BLOCKED reason]> (k_tasks k)))) as HK.
    { eapply kinv_put_task; try done. destruct Hok; split; simpl; try done. }
    eapply wp_mono; [apply (schedule_ok none); [exact HK | done | done |] |].
    { destruct Hu as (? & ? & ?). done. }
    intros r' k' (H' & Hu' & HU' & Hid' & _). apply wp_ret. split; [| by right]. done.
Qed.
End Files.
