(* ===== verification/KernelTasks.v ===== *)
(** * The life of tasks

    Exit, wait and creation keep the invariant of [KernelInv], including
    every error path of [task_create_from_file]. *)

From stdpp Require Import base list gmap fin_maps fin_map_dom.
From Stdlib Require Import ZArith Lia Bool.
From S2P Require Import Prelude Frames Ring Kernel Sched KernelInv KernelFiles.

Lemma user_range_addr ptr len i :
  user_range_ok ptr len = true -> 0 <= i < len -> ring3_addr (ptr + i) = true.
Proof.
  unfold user_range_ok, ring3_addr. intros H Hi. destruct (_ || _) eqn:E; [done |]. zbool.
  apply andb_true_iff. rewrite Z.leb_le, Z.ltb_lt. lia.
Qed.


Section Tasks.
Context {M : Type} {mach : Machine M} {laws : MachineLaws M}.
Implicit Types k : kernel M.

(** ** Ring-3 memory *)

Lemma u_store_ok z k va b :
  kinv z k -> k_running k = true -> ring3_addr va = true ->
  wp (u_store va b) (fun _ k' => kinv z k' /\ mach_only k k') k.
Proof.
  intros H Hr Hva. unfold u_store, wp. rewrite Hva.
  destruct (ki_cur _ _ H Hr) as (_ & t & Ht & Hz & E). destruct (ki_as _ _ H _ _ Ht Hz) as (A1 & _ & A3).
  destruct (m_store _ _ _ _) as [m|] eqn:Es; [| done]. split; [| done]. apply kinv_quiet; [done |].
  eapply law_store; [apply (ki_ok _ _ H) | exact A1 | exact Hva |]. rewrite <- A3, <- E. done.
Qed.

Lemma u_store_bytes_ok z l : forall k va,
  kinv z k -> k_running k = true -> (forall i, 0 <= i < zlen l -> ring3_addr (va + i) = true) ->
  wp (u_store_bytes va l) (fun _ k' => kinv z k' /\ mach_only k k') k.
Proof.
  induction l as [|b l IH]; intros k va H Hr Hva; simpl; [by destruct k |].
  unfold zlen in Hva. simpl in Hva. apply wp_bind.
  eapply wp_mono; [apply (u_store_ok z); [done | done |] |].
  { replace va with (va + 0) by lia. apply Hva. lia. }
  intros [] k1 [H1 E1]. eapply wp_mono; [apply IH; [done | by rewrite E1 |] |].
  - intros i Hi. unfold zlen in Hi. replace (va + 1 + i) with (va + (i + 1)) by lia. apply Hva. lia.
  - intros [] k2 [H2 E2]. split; [done |]. unfold mach_only in *. rewrite E2, E1. done.
Qed.

Lemma u_load_bytes_ok n : forall k va,
  (forall i, 0 <= i < Z.of_nat n -> ring3_addr (va + i) = true) ->
  wp (u_load_bytes n va) (fun l k' => k' = k /\ length l = n /\ Forall (fun b => 0 <= b < 256) l) k.
Proof.
  induction n as [|n IH]; intros k va Hva; simpl; [done |]. apply wp_bind.
  assert (ring3_addr va = true) as Hv by (rewrite <- (Z.add_0_r va); apply Hva; lia).
  unfold u_load, wp at 1. rewrite Hv.
  destruct (m_load _ _ _) eqn:El; [| done]. apply law_load in El. apply wp_bind. eapply wp_mono; [apply IH |].
  - intros i Hi. replace (va + 1 + i) with (va + (i + 1)) by lia. apply Hva. lia.
  - intros l k' (-> & E & Hb). apply wp_ret. simpl. rewrite E. split; [done |]. split; [done |]. by constructor.
Qed.

Lemma mach_only_rest k k' : mach_only k k' -> kinv none k' -> at_rest k -> at_rest k'.
Proof. intros E H (_ & HU & Hi). rewrite E in H |- *. done. Qed.

(** ** Exit *)

Lemma wake_parent_ok z k id :
  kinv z k -> 0 <= id -> wp (wake_parent id) (fun _ k' => kinv z k' /\ steady k k') k.
Proof.
  intros H Hid. unfold wake_parent. apply wp_bind. eapply wp_mono; [by apply (parent_alive_ok z) |].
  intros [] k' [-> Hb]; [| split; [done | apply steady_refl]].
  destruct (Hb eq_refl) as (Hn & t & Ht & _). destruct (ki_num _ _ H) as [Hnum _].
  apply wp_bind, wp_tab_get; [lia |]. apply wp_bind. eapply wp_get_task; [done |].
  destruct (decide _) as [[Hst Hw] |]; [| split; [done | apply steady_refl]].
  assert (task_sim t (set_tstate t TASK_READY WAIT_NONE)) as Hsim by (split; [by destruct t | by right]).
  apply wp_put_task. split; [by eapply kinv_put_sim | by eapply steady_put].
Qed.

(** The descriptors below [i] of the task at [p] are closed. *)
Definition closed_below k (p i : Z) : Prop :=
  exists t, k_tasks k !! p = Some t /\ forall j, 0 <= j < i -> znth 0 (t_fds t) j = 0.

Lemma close_all_ok k p :
  at_rest k -> p = znth 0 (k_tab k) (k_current k) ->
  wp (kfor (Z.to_nat MAX_FDS) 0 (fun i => f ← fds_get p i ; if f =? 0 then mret tt else close_fd p i))
    (fun _ k' => at_rest k' /\ k_tab k' = k_tab k /\ same_cpu k k' /\ closed_below k' p MAX_FDS) k.
Proof.
  intros (H & HU & Hid) Ep.
  apply (wp_kfor (fun i k' => at_rest k' /\ k_tab k' = k_tab k /\ same_cpu k k' /\ closed_below k' p i)); [| | done].
  - split; [done |]. split; [done |]. split; [done |]. destruct HU as (_ & t & Ht & _). exists t.
    rewrite Ep. split; [done |]. intros; lia.
  - intros i k1 Hi ((H1 & HU1 & Hid1) & Etab & C & t & Ht & Hz).
    assert (0 <= i < MAX_FDS) as Hi' by (unfold MAX_FDS in *; lia).
    apply wp_bind. eapply wp_fds_get; [done | done |].
    destruct (Z.eqb_spec (znth 0 (t_fds t) i) 0) as [Ez | Ez].
    { apply wp_ret. split; [done |]. split; [done |]. split; [done |]. exists t. split; [done |].
      intros j Hj. destruct (decide (j = i)) as [-> |]; [done | apply Hz; lia]. }
    eapply wp_mono; [by apply (close_fd_ok none k1 p t) |]. intros [] k2 [H2 S2].
    assert (in_user (with_fd k1 p t i 0)) as HUw.
    { destruct HU1 as (Hr1 & t1 & Ht1 & Hs1). split; [done |]. unfold with_fd; simpl.
      destruct (decide (znth 0 (k_tab k1) (k_current k1) = p)) as [E | Hne].
      - rewrite E in *. simplify_eq. rewrite lookup_insert_eq. by eexists.
      - rewrite lookup_insert_ne by done. by exists t1. }
    pose proof S2 as (C2 & E2 & _). unfold with_fd in E2; simpl in E2. split; [split; [done |]; split; [by eapply in_user_sim |] |].
    { destruct C2 as (_ & _ & _ & ->). done. }
    split; [congruence |]. split; [by eapply same_cpu_trans |].
    destruct (sim_fwd _ _ p (set_fds t (zset (t_fds t) i 0)) S2) as (t2 & Ht2 & Hsim).
    { unfold with_fd; simpl. apply lookup_insert_eq. }
    exists t2. split; [done |]. intros j Hj. destruct (task_sim_same _ _ Hsim) as (_ & -> & _). simpl.
    destruct (task_entry _ _ _ _ H1 Ht) as (_ & _ & Hok). pose proof (to_fds _ Hok).
    rewrite znth_zset by lia. destruct (Z.eqb_spec j i); [done | apply Hz; lia].
Qed.

Lemma zeros_Forall l : (forall j, 0 <= j < zlen l -> znth 0 l j = 0) -> Forall (eq 0) l.
Proof.
  intros H. apply Forall_lookup_2. intros i x Hx. pose proof (lookup_lt_Some _ _ _ Hx) as Hl.
  specialize (H (Z.of_nat i)). unfold zlen in H. rewrite znth_nonneg, Nat2Z.id, Hx in H by lia.
  simpl in H. symmetry. apply H. lia.
Qed.

Lemma task_exit_ok k r status :
  at_rest k -> user_frame r -> wp (task_exit r status) (fun r' k' => resumed k' r') k.
Proof.
  intros HR Hu. pose proof HR as (H & (Hr & _) & Hid). unfold task_exit.
  apply wp_bind, (current_task_ok none); [done | done |]. intros t0 _ _ _ _ _.
  apply wp_bind. eapply wp_mono; [by apply close_all_ok |].
  intros [] k1 ((H1 & HU1 & Hid1) & Etab & (C1 & C2 & C3 & C4) & t & Ht & Hz).
  set (p := znth 0 (k_tab k) (k_current k)) in *.
  apply wp_bind. eapply wp_get_task; [done |]. apply wp_bind, wp_put_task.
  destruct (task_entry _ _ _ _ H1 Ht) as (_ & _ & Hok).
  set (t1 := set_tstate (set_exit t (Z.land status 255)) TASK_ZOMBIE WAIT_NONE).
  assert (kinv none (set_tasks k1 (<[p := t1]> (k_tasks k1)))) as HK.
  { eapply kinv_put_task; try done. pose proof (to_fds _ Hok) as Hl.
    destruct Hok; split; simpl; try done. intros _. apply zeros_Forall. rewrite Hl. done. }
  apply wp_bind. eapply wp_mono; [apply (wake_parent_ok none); [exact HK | apply (to_parent _ Hok)] |].
  intros [] k2 [H2 S2]. destruct (steady_env _ _ S2) as (_ & _ & _ & E1 & E2 & _). simpl in E1, E2.
  eapply wp_mono; [apply (schedule_ok none); [done | congruence | congruence | done] |].
  intros r' k' (H' & Hu' & HU' & Hid' & _). done.
Qed.

(** ** Wait *)

Lemma reap_child_ok z k i t :
  kinv z k -> in_user k -> 0 <= i < MAX_TASKS_LIMIT -> k_tasks k !! znth 0 (k_tab k) i = Some t ->
  t_state t = TASK_ZOMBIE ->
  let p := znth 0 (k_tab k) i in
  wp (drop_aspace p ;; kfree_task p ;; tab_set i 0)
    (fun _ k' => kinv z k' /\ same_cpu k k' /\ in_user k') k.
Proof.
  intros H HU Hi Ht Hst p. destruct HU as (Hr & tc & Htc & Hrun).
  assert (p <> znth 0 (k_tab k) (k_current k)) as Hne by (intros E; unfold p in E; rewrite E in Ht; congruence).
  assert (t_id t = i) as Eid.
  { destruct (kinv_entry z k i H Hi) as (t' & Ht' & E & _); [| congruence].
    by apply (kinv_task_nonzero _ _ _ _ H Ht). }
  assert (t_id tc = k_current k) as Ecur by (by apply (ki_run _ _ H _ _ Htc)).
  apply wp_bind. unfold drop_aspace. apply wp_bind. eapply wp_get_task; [done |].
  assert (forall k1 t1, kinv z k1 -> same_cpu k k1 -> k_tab k1 = k_tab k -> k_tasks k1 !! p = Some t1 ->
    t_state t1 = TASK_ZOMBIE -> t_aspace t1 = 0 -> t_id t1 = i ->
    k_tasks k1 !! znth 0 (k_tab k) (k_current k) = Some tc ->
    wp (kfree_task p ;; tab_set i 0) (fun _ k' => kinv z k' /\ same_cpu k k' /\ in_user k') k1) as Hfin.
  { intros k1 t1 H1 C1 E1 Ht1 Hs1 Ha1 Ei1 Hc1. unfold kfree_task. apply wp_bind, wp_bind, wp_modify.
    unfold kfree_raw. apply wp_modify, wp_tab_set; [done |].
    pose proof (kinv_remove_task z k1 p t1 H1 Ht1 Hs1 Ha1) as HK. rewrite Ei1 in HK.
    destruct C1 as (C1 & C2 & C3 & C4). split; [| split].
    - apply HK. intros _. rewrite E1, C2. done.
    - done.
    - split; [simpl; congruence |]. exists tc. simpl. rewrite C2, E1. split; [| done].
      rewrite znth_zset_ne; [by rewrite lookup_delete_ne |].
      intros E. apply Hne. unfold p. by rewrite E. }
  destruct (Z.eqb_spec (t_aspace t) 0) as [Ez | Ez]; [by apply (Hfin k t) |].
  apply wp_bind. unfold m_upd. apply wp_modify, wp_put_task.
  apply (Hfin _ (set_aspace t 0 0)); try done.
  - by apply (kinv_drop_aspace z k p t).
  - simpl. by rewrite lookup_insert_eq.
  - simpl. by rewrite lookup_insert_ne.
Qed.

Lemma wait_scan_ok k r n : forall i have,
  at_rest k -> user_frame r -> (rdi r = 0 \/ user_range_ok (rdi r) 8 = true) ->
  0 <= i -> i + Z.of_nat n = k_num k ->
  wp (wait_scan n i r have) (fun x k' => match x with inl r' => resumed k' r' | inr _ => k' = k end) k.
Proof.
  induction n as [|n IH]; intros i have HR Hu Hp Hi En; cbn [wait_scan]; [done |].
  pose proof HR as (H & HU & Hid). destruct (ki_num _ _ H) as [Hn _].
  apply wp_bind, wp_tab_get; [lia |].
  destruct (Z.eqb_spec (znth 0 (k_tab k) i) 0) as [| Hz]; [apply IH; done || lia |].
  destruct (kinv_entry none k i H ltac:(lia) Hz) as (t & Ht & Eid & _ & Hok).
  apply wp_bind. eapply wp_get_task; [done |]. apply wp_bind, wp_gets.
  destruct (negb _); [apply IH; done || lia |].
  destruct (decide _) as [| Hst%dec_stable]; [apply IH; done || lia |].
  pose proof (reap_child_ok none k i t H HU ltac:(lia) Ht Hst) as Hreap. cbv zeta in Hreap.
  revert Hreap. generalize (znth 0 (k_tab k) i). intros p Hreap.
  assert (forall B (f : K M B) Q, wp ((drop_aspace p ;; kfree_task p ;; tab_set i 0) ;; f) Q k ->
    wp (drop_aspace p ;; kfree_task p ;; tab_set i 0 ;; f) Q k) as Hassoc.
  { intros B f Q. unfold wp, mbind, K_bind. destruct (drop_aspace p k); [| done..].
    by destruct (kfree_task p k0). }
  apply Hassoc. apply wp_bind. eapply wp_mono; [exact Hreap |]. intros [] k1 (H1 & (C1 & C2 & C3 & C4) & HU1).
  assert (at_rest k1) as HR1 by (split; [done |]; split; [done | congruence]).
  apply wp_bind. destruct (Z.eqb_spec (rdi r) 0) as [| Hd].
  { apply wp_ret, wp_ret. split; [done |]. by destruct Hu as (? & ? & ?). }
  destruct Hp as [| Hp]; [done |].
  eapply wp_mono; [apply (u_store_bytes_ok none); [done | by destruct HU1 |] |].
  - intros j Hj. unfold zlen in Hj. rewrite le_bytes_length in Hj. by apply (user_range_addr _ 8).
  - intros [] k2 [H2 E2]. apply wp_ret. split; [by apply (mach_only_rest k1) |]. by destruct Hu as (? & ? & ?).
Qed.

Lemma task_wait_ok k r :
  at_rest k -> user_frame r -> (rdi r = 0 \/ user_range_ok (rdi r) 8 = true) ->
  wp (task_wait r) (fun r' k' => resumed k' r') k.
Proof.
  intros HR Hu Hp. pose proof HR as (H & _ & _). destruct (ki_num _ _ H) as [Hn _]. unfold task_wait.
  apply wp_bind, wp_gets. apply wp_bind. eapply wp_mono; [apply wait_scan_ok; done || lia |].
  intros [r' | have] k'; [done |]. intros ->. destruct have; cbn [negb].
  - apply wp_bind. eapply wp_mono; [by apply task_block_ok |]. intros [v r'] k' [[HR' Hu'] _].
    apply wp_ret. split; [done |]. simpl. destruct (_ =? _); [by destruct Hu' as (? & ? & ?) | done].
  - apply wp_ret. split; [done |]. by destruct Hu as (? & ? & ?).
Qed.

(** ** Creation *)

(** What creation leaves of the tasks that were there. *)
Definition grows k k' : Prop :=
  k_current k' = k_current k /\ k_running k' = k_running k /\ k_idling k' = k_idling k /\ k_cr3 k' = k_cr3 k /\
  k_num k <= k_num k' /\ (forall i, 0 <= i < k_num k -> znth 0 (k_tab k') i = znth 0 (k_tab k) i) /\
  forall p t, k_tasks k !! p = Some t -> exists t', k_tasks k' !! p = Some t' /\ task_sim t t'.

Lemma sim_grows k k' : sim_tasks k k' -> grows k k'.
Proof.
  intros S. pose proof S as ((C1 & C2 & C3 & C4) & E1 & E2 & _).
  do 4 (split; [done |]). split; [lia |]. split; [by rewrite E1 |]. intros p t. by apply sim_fwd.
Qed.

Lemma grows_refl k : grows k k.
Proof. apply sim_grows, sim_tasks_refl. Qed.

Lemma grows_trans k1 k2 k3 : grows k1 k2 -> grows k2 k3 -> grows k1 k3.
Proof.
  intros (A1 & A2 & A3 & A4 & A5 & A6 & A7) (B1 & B2 & B3 & B4 & B5 & B6 & B7).
  do 4 (split; [congruence |]). split; [lia |]. split.
  - intros i Hi. rewrite B6 by lia. by apply A6.
  - intros p t Hp. destruct (A7 p t Hp) as (t2 & H2 & S2). destruct (B7 p t2 H2) as (t3 & H3 & S3).
    exists t3. split; [done |]. by eapply task_sim_trans.
Qed.

Lemma grows_rest k k' : grows k k' -> kinv none k' -> at_rest k -> at_rest k'.
Proof.
  intros (A1 & A2 & A3 & A4 & A5 & A6 & A7) H' (H & (Hr & t & Ht & Hs) & Hid).
  split; [done |]. split; [| congruence]. split; [congruence |].
  destruct (ki_cur _ _ H Hr) as (Hc & _). rewrite A1, A6 by done.
  destruct (A7 _ _ Ht) as (t' & Ht' & Hsim). exists t'. split; [done |]. by apply (task_sim_same _ _ Hsim).
Qed.

(** The new task and its place in the table. *)
Definition new_task (as_ entry cr3 id parent_id pgid f1 f2 : Z) : task :=
  mkTask (mkRegs 0 0 0 0 0 0 0 0 0 0 0 0 0 0 0 0 0 entry GDT_SELECTOR_USER_CODE USER_MODE_RFLAGS
            USER_STACK_TOP GDT_SELECTOR_USER_DATA)
    as_ cr3 TASK_READY WAIT_NONE id parent_id 0 pgid 0 (replicate (Z.to_nat MAX_SIGS) 0) 0
    false false 0 (f1 :: f2 :: replicate (Z.to_nat (MAX_FDS - 2)) 0)
    (replicate (Z.to_nat MAX_REGIONS) (mkRegion 0 0)).

Lemma new_task_ok as_ entry cr3 id parent_id pgid f1 f2 :
  as_ <> 0 -> 0 <= parent_id < 2 ^ 32 -> task_ok (new_task as_ entry cr3 id parent_id pgid f1 f2).
Proof.
  intros Ha Hp. split; simpl; try done.
  split; [done |]. split; [repeat constructor |]. intros i j g g' Hi Hj _. left.
  change [mkRegion 0 0; mkRegion 0 0; mkRegion 0 0; mkRegion 0 0; mkRegion 0 0; mkRegion 0 0;
    mkRegion 0 0; mkRegion 0 0] with (replicate 8 (mkRegion 0 0)) in Hi.
  apply lookup_replicate in Hi as [-> _]. done.
Qed.

Lemma new_task_fds as_ entry cr3 id parent_id pgid f1 f2 i f :
  0 <= i < MAX_FDS -> znth 0 (t_fds (new_task as_ entry cr3 id parent_id pgid f1 f2)) i = f -> f <> 0 ->
  i = 0 /\ f = f1 \/ i = 1 /\ f = f2.
Proof.
  intros Hi E Hf. unfold MAX_FDS in Hi.
  assert (i = 0 \/ i = 1 \/ i = 2 \/ i = 3 \/ i = 4 \/ i = 5 \/ i = 6 \/ i = 7) as Hc by lia.
  destruct Hc as [-> | [-> | [-> | [-> | [-> | [-> | [-> | ->]]]]]]]; cbn in E; subst; auto; done.
Qed.

Lemma kinv_new_task z k p t a f1 f2 :
  kinv (add_raw p (add_file f1 (add_file f2 (add_as a z)))) k ->
  p ∉ lo_raw z -> f1 <> f2 -> f1 ∉ lo_file z -> f2 ∉ lo_file z -> a ∉ lo_as z -> p <> 0 -> a <> 0 ->
  k_num k < MAX_TASKS_LIMIT -> task_ok t -> t_id t = k_num k -> t_state t = TASK_READY ->
  t_aspace t = a -> t_cr3 t = m_pml4 (k_mach k) a ->
  (forall i f, 0 <= i < MAX_FDS -> znth 0 (t_fds t) i = f -> f <> 0 -> i = 0 /\ f = f1 \/ i = 1 /\ f = f2) ->
  znth 0 (t_fds t) 0 = f1 -> znth 0 (t_fds t) 1 = f2 -> f1 <> 0 -> f2 <> 0 ->
  kinv z (set_tasks (set_tab (set_num k (k_num k + 1)) (zset (k_tab k) (k_num k) p)) (<[p := t]> (k_tasks k))).
Proof.
  intros H Hpr Hff Hf1 Hf2 Hal Hpz Haz Hlim Hok Eid Hst Ea Ecr Hfds E1 E2 Hz1 Hz2.
  assert (p ∉ dom (k_tasks k) /\ p ∉ dom (k_files k) /\ p ∉ dom (k_pipes k) /\ p ∉ m_as (k_mach k))
    as (N1 & N2 & N3 & N4).
  { destruct (ki_apart _ _ H) as (_ & _ & _ & P & P'). simpl in P, P'. set_solver +P P'. }
  apply not_elem_of_dom in N1 as N1'. destruct (ki_num _ _ H) as [Hn Hlen].
  set (k' := set_tasks _ _).
  assert (forall q x, k_tasks k' !! q = Some x -> (q = p /\ x = t) \/ (q <> p /\ k_tasks k !! q = Some x)) as Hlk.
  { intros q x. unfold k'; simpl. destruct (decide (q = p)) as [-> | Hne].
    - rewrite lookup_insert_eq. intros [= <-]. by left.
    - rewrite lookup_insert_ne by done. by right. }
  assert (forall q x, k_tasks k !! q = Some x -> q <> p /\ k_tasks k' !! q = Some x) as Hlk2.
  { intros q x Hx. assert (q <> p) as Hne by congruence. split; [done |]. unfold k'; simpl. by rewrite lookup_insert_ne. }
  assert (forall q j g, owns k' q j g <->
    owns k q j g \/ (q = p /\ (j = 0 /\ g = f1 \/ j = 1 /\ g = f2))) as Hown.
  { intros q j g. unfold owns. split.
    - intros (x & [[-> ->] | [Hne Hx]]%Hlk & Hj & Hg & Hz); [right; split; [done |]; by apply Hfds | left; by exists x].
    - intros [(x & [Hne Hx]%Hlk2 & Hr) | [-> Hc]]; [by exists x |]. exists t. unfold k'; simpl.
      rewrite lookup_insert_eq. split; [done |]. unfold MAX_FDS.
      destruct Hc as [[-> ->] | [-> ->]]; (split; [lia |]); done. }
  assert (forall q j g, owns k q j g -> g ∈ dom (k_files k) /\ g <> f1 /\ g <> f2 /\ g ∉ lo_file z) as Hold.
  { intros q j g Ho. destruct (ki_own _ _ H _ _ _ Ho) as [O1 O2]. simpl in O2. set_solver +O1 O2. }
  assert (forall i, i <> k_num k -> znth 0 (zset (k_tab k) (k_num k) p) i = znth 0 (k_tab k) i) as Htn.
  { intros. by apply znth_zset_ne. }
  assert (znth 0 (zset (k_tab k) (k_num k) p) (k_num k) = p) as Hte by (apply znth_zset_eq; lia).
  assert (f1 ∈ dom (k_files k) /\ f2 ∈ dom (k_files k)) as [Hd1 Hd2].
  { pose proof (ki_loose_file _ _ H) as P. simpl in P. set_solver +P. }
  assert (forall q x, k_tasks k !! q = Some x -> t_aspace x <> a) as Hasn.
  { intros q x Hx Ex. destruct (ki_as _ _ H _ _ Hx) as (_ & X & _); [congruence |]. simpl in X. set_solver +X Ex. }
  destruct H; split; simpl in *; rewrite ?dom_insert_L, ?zlen_zset; try done.
  - lia.
  - intros i Hi Hz. destruct (decide (i = k_num k)) as [-> | Hne].
    + split; [lia |]. rewrite Hte. exists t. split; [apply lookup_insert_eq | done].
    + rewrite Htn in Hz |- * by done. destruct (ki_tab i Hi Hz) as (Hl & y & Hy & E). split; [lia |].
      exists y. split; [by apply Hlk2 | done].
  - intros q x [[-> ->] | [Hne Hx]]%Hlk.
    + rewrite Eid. split; [lia |]. done.
    + destruct (ki_tasks _ _ Hx) as (T1 & T2 & T3). split; [lia |]. rewrite Htn by lia. done.
  - intros q j g [Ho | [-> Hc]]%Hown.
    + destruct (Hold _ _ _ Ho) as (? & _ & _ & ?). done.
    + destruct Hc as [[_ ->] | [_ ->]]; done.
  - intros q j q' j' g [Ho | [-> Hc]]%Hown [Ho' | [-> Hc']]%Hown.
    + eauto.
    + destruct (Hold _ _ _ Ho) as (_ & ? & ? & _). destruct Hc' as [[_ ->] | [_ ->]]; done.
    + destruct (Hold _ _ _ Ho') as (_ & ? & ? & _). destruct Hc as [[_ ->] | [_ ->]]; done.
    + destruct Hc as [[-> ->] | [-> ->]], Hc' as [[-> E] | [-> E]]; done || congruence.
  - intros g Hg. destruct (ki_own_all g Hg) as [Hl | (q & j & Ho)].
    + assert (g = f1 \/ g = f2 \/ g ∈ lo_file z) as [-> | [-> | ?]] by set_solver +Hl; [| | by left];
        right; [exists p, 0 | exists p, 1]; apply Hown; right; auto.
    + right. exists q, j. apply Hown. by left.
  - set_solver +ki_loose_file.
  - rewrite ki_live. set_solver +.
  - destruct ki_apart as (P0 & P1 & P2 & P3 & P4). set_solver +P0 P1 P2 P3 P4 N1 N2 N3 N4 Hpr.
  - intros q x [[-> ->] | [Hne Hx]]%Hlk Hz.
    + rewrite Ea. split; [set_solver +ki_loose_as |]. done.
    + destruct (ki_as _ _ Hx Hz) as (X1 & X2 & X3). split; [done |]. split; [set_solver +X2 | done].
  - intros q x q' x' [[-> ->] | [Hne Hx]]%Hlk [[-> ->] | [Hne' Hx']]%Hlk Exx Hz; try done.
    + exfalso. apply (Hasn _ _ Hx'). congruence.
    + exfalso. apply (Hasn _ _ Hx). congruence.
    + eauto.
  - intros b Hb. destruct (ki_as_all b Hb) as [Hl | (q & x & Hq & E)].
    + assert (b = a \/ b ∈ lo_as z) as [-> | ?] by set_solver +Hl; [| by left].
      right. exists p, t. split; [apply lookup_insert_eq | done].
    + right. exists q, x. split; [by apply Hlk2 | done].
  - set_solver +ki_loose_as.
  - intros q x [[-> ->] | [Hne Hx]]%Hlk Hrun; [congruence | eauto].
  - intros Hr. destruct (ki_cur Hr) as (Hc & y & Hy & Hz & E). split; [lia |]. exists y.
    rewrite Htn by lia. split; [by apply Hlk2 | done].
Qed.

Lemma alloc_grows k k' : mach_only k (set_files k' (k_files k)) -> same_tasks k k'.
Proof. intros E. unfold mach_only in E. destruct k, k'; simpl in *. injection E. intros. subst. done. Qed.

Lemma same_tasks_trans k1 k2 k3 : same_tasks k1 k2 -> same_tasks k2 k3 -> same_tasks k1 k3.
Proof.
  intros (A1 & A2 & A3 & A4) (B1 & B2 & B3 & B4). split; [by eapply same_cpu_trans |].
  split; [congruence |]. split; congruence.
Qed.

Lemma same_tasks_grows k k' : same_tasks k k' -> grows k k'.
Proof. intros. by apply sim_grows, same_tasks_sim. Qed.

(** Freeing a loose console file by hand, as [task_register] does. *)
Lemma kfree_file_ok z k f w :
  kinv (add_file f z) k -> f ∉ lo_file z -> f ∉ lo_raw z -> k_files k !! f = Some (mkFile FD_CONSOLE 0 w) ->
  wp (kfree_file f) (fun _ k' => kinv z k' /\ same_tasks k k' /\ k_files k' = delete f (k_files k)) k.
Proof.
  intros H Hf Hr Hx. unfold kfree_file. apply wp_bind, wp_modify.
  eapply wp_mono; [apply (kfree_raw_ok z); [by eapply kinv_drop_console | done] |].
  intros [] k' [H' E]. split; [done |]. rewrite E. done.
Qed.

(** A parent that creation may consult. *)
Definition parent_ok k (id : Z) : Prop :=
  id = TASK_NO_PARENT \/ 0 <= id < k_num k /\ exists t, k_tasks k !! znth 0 (k_tab k) id = Some t.

Lemma register_undo_ok z k p f1 f2 w1 w2 :
  kinv (add_raw p (if f1 =? 0 then (if f2 =? 0 then z else add_file f2 z)
                   else if f2 =? 0 then add_file f1 z else add_file f2 (add_file f1 z))) k ->
  p ∉ lo_raw z -> (f1 <> 0 -> f1 ∉ lo_file z /\ f1 <> p /\ f1 ∉ lo_raw z /\ k_files k !! f1 = Some (mkFile FD_CONSOLE 0 w1)) ->
  (f2 <> 0 -> f2 ∉ lo_file z /\ f2 <> f1 /\ f2 <> p /\ f2 ∉ lo_raw z /\ k_files k !! f2 = Some (mkFile FD_CONSOLE 0 w2)) ->
  wp ((if f1 =? 0 then mret tt else kfree_file f1) ;; (if f2 =? 0 then mret tt else kfree_file f2) ;;
      kfree_raw p ;; mret (-1)) (fun id k' => id = -1 /\ kinv z k' /\ same_tasks k k') k.
Proof.
  intros H Hp H1 H2. apply wp_bind.
  assert (wp (if f1 =? 0 then mret tt else kfree_file f1) (fun _ k' =>
    kinv (add_raw p (if f2 =? 0 then z else add_file f2 z)) k' /\ same_tasks k k' /\
    (f2 <> 0 -> k_files k' !! f2 = Some (mkFile FD_CONSOLE 0 w2))) k) as Hstep.
  { destruct (Z.eqb_spec f1 0) as [-> | Hz1].
    - apply wp_ret. split; [done |]. split; [done |]. by intros (_ & _ & _ & _ & ?)%H2.
    - destruct (H1 Hz1) as (A1 & A2 & A3 & A4).
      assert (kinv (add_file f1 (add_raw p (if f2 =? 0 then z else add_file f2 z))) k) as H'.
      { destruct (f2 =? 0); [exact H |]. unfold add_raw, add_file in *; simpl in *.
        replace ({[f1]} ∪ ({[f2]} ∪ lo_file z)) with ({[f2]} ∪ ({[f1]} ∪ lo_file z)) by set_solver +. exact H. }
      eapply wp_mono; [apply (kfree_file_ok (add_raw p (if f2 =? 0 then z else add_file f2 z)) k f1 w1 H') |].
      + destruct (Z.eqb_spec f2 0); [done |]. destruct (H2 n) as (_ & ? & _). simpl. set_solver +A1 H0.
      + destruct (f2 =? 0); simpl; set_solver +A2 A3.
      + done.
      + intros [] k' (K1 & K2 & K3). split; [done |]. split; [done |].
        intros Hz2. destruct (H2 Hz2) as (_ & Hne & _ & _ & E). rewrite K3. by rewrite lookup_delete_ne. }
  eapply wp_mono; [exact Hstep |]. clear Hstep. intros [] k1 (K1 & S1 & F1). apply wp_bind.
  assert (wp (if f2 =? 0 then mret tt else kfree_file f2) (fun _ k' => kinv (add_raw p z) k' /\ same_tasks k k') k1) as Hstep.
  { destruct (Z.eqb_spec f2 0) as [-> | Hz2]; [done |]. destruct (H2 Hz2) as (A1 & A2 & A3 & A4 & _).
    eapply wp_mono; [apply (kfree_file_ok (add_raw p z) k1 f2 w2); [done | done | simpl; set_solver +A3 A4 | by apply F1] |].
    intros [] k' (K2 & K3 & _). split; [done |]. by eapply same_tasks_trans. }
  eapply wp_mono; [exact Hstep |]. clear Hstep. intros [] k2 (K2 & S2). apply wp_bind.
  eapply wp_mono; [by apply (kfree_raw_ok z) |]. intros [] k3 (K3 & E3). apply wp_ret.
  split; [done |]. split; [done |]. eapply same_tasks_trans; [done |]. by apply mach_only_same_tasks.
Qed.

Lemma task_register_ok z k a entry parent pgid_req :
  kinv (add_as a z) k -> a ∉ lo_as z -> a <> 0 -> 0 <= parent < 2 ^ 32 -> parent_ok k parent ->
  wp (task_register a entry parent pgid_req) (fun id k' => grows k k' /\
    (id = -1 /\ kinv (add_as a z) k' \/
     id = k_num k /\ id < MAX_TASKS_LIMIT /\ kinv z k' /\
       exists t, k_tasks k' !! znth 0 (k_tab k') id = Some t /\ t_state t = TASK_READY)) k.
Proof.
  intros H Ha Haz Hpar Hpok. unfold task_register. apply wp_bind, wp_gets. destruct (ki_num _ _ H) as [Hn _].
  destruct (Z.leb_spec MAX_TASKS_LIMIT (k_num k)).
  { apply wp_ret. split; [apply grows_refl | by left]. }
  apply wp_bind. eapply wp_mono; [apply (kmalloc_ok (add_as a z)); done |].
  intros p k1 [E1 [[-> H1] | (Hp & Hfr & H1)]].
  { apply wp_ret. split; [by apply same_tasks_grows, mach_only_same_tasks | by left]. }
  destruct (fresh_everywhere _ _ _ H Hfr) as (F1 & _). simpl in F1.
  apply Z.eqb_neq in Hp as Hp'. rewrite Hp'. apply mach_only_same_tasks in E1.
  apply wp_bind. eapply wp_mono; [by apply (file_alloc_console_ok (add_raw p (add_as a z))) |].
  intros f1 k2 [E2%alloc_grows C2]. apply wp_bind.
  assert (kinv (add_raw p (if f1 =? 0 then add_as a z else add_file f1 (add_as a z))) k2) as H2.
  { destruct C2 as [(-> & H2 & _) | (Hz & _ & _ & H2 & _)]; [done |]. apply Z.eqb_neq in Hz as ->. exact H2. }
  eapply wp_mono; [by apply (file_alloc_console_ok (add_raw p (if f1 =? 0 then add_as a z else add_file f1 (add_as a z))) k2 true) |]. intros f2 k3 [E3%alloc_grows C3].
  assert (same_tasks k k3) as S3 by (do 2 (eapply same_tasks_trans; [eassumption |]); done).
  destruct ((f1 =? 0) || (f2 =? 0)) eqn:Ez.
  - eapply wp_mono; [apply (register_undo_ok (add_as a z) k3 p f1 f2 false true) |].
    + destruct C3 as [(-> & H3 & _) | (Hz & _ & _ & H3 & _)].
      * rewrite Z.eqb_refl. destruct (f1 =? 0); exact H3.
      * apply Z.eqb_neq in Hz as ->. destruct (f1 =? 0); exact H3.
    + done.
    + intros Hz1. destruct C2 as [(? & _) | (_ & A1 & A2 & _ & A3)]; [done |]. simpl in A1, A2.
      split; [done |]. split; [set_solver +A2 |]. split; [set_solver +A2 |].
      destruct C3 as [(_ & _ & ->) | (_ & B1 & _ & _ & ->)]; [rewrite A3; apply lookup_insert_eq |].
      apply Z.eqb_neq in Hz1 as Hz1'. rewrite Hz1' in B1. simpl in B1.
      rewrite lookup_insert_ne; [rewrite A3; apply lookup_insert_eq |]. set_solver +B1.
    + intros Hz2. destruct C3 as [(? & _) | (_ & B1 & B2 & _ & B3)]; [done |].
      zbool. destruct Ez as [Ez | Ez]; zbool; [| done]. subst f1. cbn [Z.eqb] in B1, B2. simpl in B1, B2.
      split; [done |]. split; [done |]. split; [set_solver +B2 |]. split; [set_solver +B2 |].
      rewrite B3. apply lookup_insert_eq.
    + intros id k' (-> & HK & S'). split; [by apply same_tasks_grows, (same_tasks_trans k k3) | by left].
  - apply orb_false_iff in Ez as [Ez1%Z.eqb_neq Ez2%Z.eqb_neq]. destruct C2 as [(? & _) | (Hz1 & A1 & A2 & _ & A3)]; [done |].
    destruct C3 as [(? & _) | (Hz2 & B1 & B2 & H3 & B3)]; [done |].
    replace (f1 =? 0) with false in H3, B1, B2 by (symmetry; by apply Z.eqb_neq). simpl in A1, A2, B1, B2.
    destruct S3 as ((N1 & N2 & N3 & N4) & N5 & N6 & N7).
    apply wp_bind, wp_gets. apply wp_bind, wp_modify. apply wp_bind, wp_tab_set; [lia |].
    apply wp_bind, wp_gets. apply wp_bind. simpl k_mach. rewrite u32_small by (unfold MAX_TASKS_LIMIT in *; lia).
    set (k4 := set_tab _ _).
    assert (forall (R : Z -> kernel M -> Prop), (forall g, R g k4) ->
      wp (if pgid_req =? TASK_PGID_NEW then mret (k_num k3)
          else if pgid_req =? TASK_PGID_INHERIT then
            if parent =? TASK_NO_PARENT then mret 0
            else q ← tab_get parent ; pt ← get_task q ; mret (t_pgid pt)
          else mret pgid_req) R k4) as Hpg.
    { intros R HR. destruct (pgid_req =? TASK_PGID_NEW); [apply wp_ret, HR |]. destruct (pgid_req =? TASK_PGID_INHERIT); [| apply wp_ret, HR].
      destruct (Z.eqb_spec parent TASK_NO_PARENT) as [| Hnp]; [apply wp_ret, HR |].
      destruct Hpok as [| (Hpr & pt & Hpt)]; [done |].
      assert (k_tasks k4 !! znth 0 (k_tab k4) parent = Some pt) as Hpt4.
      { unfold k4. simpl. rewrite znth_zset_ne by lia. by rewrite N5, N6. }
      apply wp_bind, wp_tab_get; [lia |]. apply wp_bind. eapply wp_get_task; [exact Hpt4 |]. apply wp_ret, HR. }
    apply Hpg. intros g. apply wp_bind, wp_put_task, wp_ret.
    change (mkTask _ a (m_pml4 (k_mach k3) a) TASK_READY WAIT_NONE (k_num k3) parent 0 g 0 _ 0 false false 0 _ _)
      with (new_task a entry (m_pml4 (k_mach k3) a) (k_num k3) parent g f1 f2).
    set (t := new_task _ _ _ _ _ _ _ _).
    assert (kinv z (set_tasks k4 (<[p := t]> (k_tasks k4)))) as HK.
    { apply (kinv_new_task z k3 p t a f1 f2); try done.
      - unfold add_raw, add_file, add_as in *; simpl in *.
        replace ({[f1]} ∪ ({[f2]} ∪ lo_file z)) with ({[f2]} ∪ ({[f1]} ∪ lo_file z)) by set_solver +. exact H3.
      - set_solver +B1.
      - set_solver +B1.
      - lia.
      - by apply new_task_ok.
      - intros. by eapply new_task_fds. }
    split.
    + unfold k4. do 4 (split; [done |]). simpl. split; [lia |]. split.
      * intros i Hi. rewrite znth_zset_ne, N5 by lia. done.
      * intros q x Hx. exists x. rewrite N6. split; [| apply task_sim_refl]. rewrite lookup_insert_ne; [done |].
        intros <-. rewrite (ki_live _ _ H) in Hfr. apply elem_of_dom_2 in Hx. set_solver +Hfr Hx.
    + right. split; [lia |]. split; [lia |]. split; [done |]. exists t. simpl. destruct (ki_num _ _ H3) as [_ Hlen].
      rewrite znth_zset_eq by lia. split; [apply lookup_insert_eq | done].
Qed.
End Tasks.
