(* ===== verification/KernelCreate.v ===== *)
(** * Creating tasks and pipes

    [task_create_from_file] with the descriptors it duplicates, and
    [pipe_create], keep the invariant of [KernelInv]; every error path
    gives back what it took. *)

From stdpp Require Import base list gmap fin_maps fin_map_dom.
From Stdlib Require Import ZArith Lia Bool.
From S2P Require Import Prelude Frames Ring Kernel Sched KernelInv KernelFiles KernelTasks.

(** A loose file that may be absent. *)
Definition opt_file (d : Z) (z : loose) : loose := if d =? 0 then z else add_file d z.

Lemma opt_file_as d a z : opt_file d (add_as a z) = add_as a (opt_file d z).
Proof. unfold opt_file. by destruct (d =? 0). Qed.

Lemma opt_file_comm d e z : opt_file d (opt_file e z) = opt_file e (opt_file d z).
Proof.
  unfold opt_file. destruct (d =? 0), (e =? 0); try done. unfold add_file; simpl. f_equal. set_solver +.
Qed.

Lemma opt_file_pipe d z : lo_pipe (opt_file d z) = lo_pipe z.
Proof. unfold opt_file. by destruct (d =? 0). Qed.

Section Create.
Context {M : Type} {mach : Machine M} {laws : MachineLaws M}.
Implicit Types k : kernel M.

(** What creation keeps of the machine's way back to ring 3. *)
Definition keeps k k' : Prop :=
  k_running k' = k_running k /\ k_idling k' = k_idling k /\ (in_user k -> in_user k').

Lemma keeps_refl k : keeps k k.
Proof. done. Qed.
Lemma keeps_trans k1 k2 k3 : keeps k1 k2 -> keeps k2 k3 -> keeps k1 k3.
Proof. intros (A1 & A2 & A3) (B1 & B2 & B3). split; [congruence |]. split; [congruence | auto]. Qed.
Lemma keeps_sim k k' : sim_tasks k k' -> keeps k k'.
Proof.
  intros S. pose proof S as ((_ & _ & C3 & C4) & _). split; [done |]. split; [done |].
  by apply in_user_sim.
Qed.
Lemma keeps_same k k' : same_tasks k k' -> keeps k k'.
Proof. intros. by apply keeps_sim, same_tasks_sim. Qed.
Lemma keeps_mach k k' : mach_only k k' -> keeps k k'.
Proof. intros. by apply keeps_same, mach_only_same_tasks. Qed.
Lemma keeps_grows z k k' : kinv z k -> grows k k' -> keeps k k'.
Proof.
  intros H (A1 & A2 & A3 & A4 & A5 & A6 & A7). split; [done |]. split; [done |].
  intros (Hr & t & Ht & Hs). split; [congruence |]. destruct (ki_cur _ _ H Hr) as (Hc & _).
  rewrite A1, A6 by done. destruct (A7 _ _ Ht) as (t' & Ht' & Hsim).
  exists t'. split; [done |]. by apply (task_sim_same _ _ Hsim).
Qed.
Lemma keeps_rest k k' : keeps k k' -> kinv none k' -> at_rest k -> at_rest k'.
Proof. intros (A1 & A2 & A3) H' (H & HU & Hid). split; [done |]. split; [auto | congruence]. Qed.

Lemma in_user_with_fd k p t i f : k_tasks k !! p = Some t -> in_user k -> in_user (with_fd k p t i f).
Proof.
  intros Hp (Hr & tc & Htc & Hs). split; [done |]. unfold with_fd; simpl.
  destruct (decide (znth 0 (k_tab k) (k_current k) = p)) as [E | Hne].
  - rewrite E in *. simplify_eq. rewrite lookup_insert_eq. by eexists.
  - rewrite lookup_insert_ne by done. by exists tc.
Qed.

(** ** Duplicated descriptors *)

Definition files_kept k k' : Prop := forall g, is_Some (k_files k !! g) -> is_Some (k_files k' !! g).

Lemma source_fd_ok k fd w :
  kinv none k -> (fd = -1 \/ in_user k) ->
  wp (source_fd fd w) (fun x k' => k' = k /\
    match x with inl _ => True | inr f => f = 0 \/ is_Some (k_files k !! f) end) k.
Proof.
  intros H Hfd. unfold source_fd. destruct (Z.eqb_spec fd (-1)); [split; [done | by left] |].
  destruct Hfd as [| HU]; [done |]. pose proof HU as (Hr & _). apply wp_bind, (current_task_ok none); [done | done |].
  intros t Ht _ _ _ _. destruct (_ || _) eqn:Eb; [done |]. zbool.
  apply wp_bind. eapply wp_fds_get; [done | lia |].
  destruct (Z.eqb_spec (znth 0 (t_fds t) fd) 0); [done |].
  destruct (ki_own _ _ H (znth 0 (k_tab k) (k_current k)) fd (znth 0 (t_fds t) fd)) as [[x Hx]%elem_of_dom _].
  { exists t. split; [done |]. split; [lia | done]. }
  apply wp_bind. eapply wp_get_file; [done |].
  destruct (Bool.eqb _ _); apply wp_ret; [| done]. split; [done |]. right. by exists x.
Qed.

Lemma dup_source_ok z k src :
  kinv z k -> lo_pipe z = ∅ -> src = 0 \/ is_Some (k_files k !! src) ->
  wp (dup_source src) (fun o k' => same_tasks k k' /\ files_kept k k' /\
    match o with
    | None => kinv z k'
    | Some d => kinv (opt_file d z) k' /\ (d <> 0 -> d ∉ lo_file z)
    end) k.
Proof.
  intros H Hlp Hs. unfold dup_source. destruct (Z.eqb_spec src 0).
  { apply wp_ret. split; [done |]. split; [by intros g |]. done. }
  destruct Hs as [| [s Hs]]; [done |]. apply wp_bind.
  eapply wp_mono; [by apply (file_dup_ok z k src s) |].
  intros d k' [S [(-> & H' & E) | (Hd & Hn & H' & E)]]; apply wp_ret.
  - split; [done |]. split; [intros g Hg; by rewrite E | exact H'].
  - apply Z.eqb_neq in Hd as Hd'. rewrite Hd'. split; [done |]. split; [| unfold opt_file; by rewrite Hd'].
    intros g Hg. rewrite E. destruct (decide (g = d)) as [-> | Hgd]; [rewrite lookup_insert_eq; by eexists |].
    by rewrite lookup_insert_ne.
Qed.

Lemma close_dup_ok z k d :
  kinv (opt_file d z) k -> (d <> 0 -> d ∉ lo_file z) -> lo_pipe z = ∅ ->
  wp (close_dup d) (fun _ k' => kinv z k' /\ sim_tasks k k') k.
Proof.
  unfold opt_file, close_dup. intros H Hd Hlp. destruct (Z.eqb_spec d 0).
  - split; [done | apply sim_tasks_refl].
  - apply file_close_ok; auto.
Qed.

(** The new task has the descriptor that was asked for. *)
Lemma install_dup_ok z k id fd d t :
  kinv (opt_file d z) k -> (d <> 0 -> d ∉ lo_file z) -> lo_pipe z = ∅ ->
  0 <= id < MAX_TASKS_LIMIT -> 0 <= fd < MAX_FDS ->
  k_tasks k !! znth 0 (k_tab k) id = Some t -> t_state t = TASK_READY ->
  wp (install_dup id fd d) (fun _ k' => kinv z k' /\ keeps k k' /\
    exists t', k_tasks k' !! znth 0 (k_tab k') id = Some t' /\ t_state t' = TASK_READY) k.
Proof.
  intros H Hd Hlp Hid Hfd Ht Hst. unfold install_dup, opt_file in *. destruct (Z.eqb_spec d 0) as [| Hz].
  { apply wp_ret. split; [done |]. split; [done |]. by exists t. }
  apply wp_bind, wp_tab_get; [done |]. set (p := znth 0 (k_tab k) id) in *. apply wp_bind.
  eapply wp_mono; [by apply (close_fd_ok (add_file d z) k p t) |]. intros [] k1 [H1 S1].
  pose proof S1 as (_ & Etab & _). simpl in Etab. apply wp_bind, wp_tab_get; [done |].
  rewrite Etab. fold p.
  destruct (task_entry _ _ _ _ H Ht) as (_ & _ & Hok). pose proof (to_fds _ Hok) as Hl.
  destruct (sim_fwd _ _ p (set_fds t (zset (t_fds t) fd 0)) S1) as (t1 & Ht1 & Hsim).
  { unfold with_fd; simpl. apply lookup_insert_eq. }
  assert (t_state t1 = TASK_READY) as Hst1.
  { destruct Hsim as [_ [(E & _) | (E & _)]]; simpl in E; congruence. }
  assert (znth 0 (t_fds t1) fd = 0) as Hz1.
  { destruct (task_sim_same _ _ Hsim) as (_ & -> & _). simpl. rewrite znth_zset_eq by lia. done. }
  eapply wp_fds_set; [exact Ht1 | done |]. fold (with_fd k1 p t1 fd d).
  split; [apply kinv_fd_set; auto; congruence |]. split.
  - eapply keeps_trans; [| eapply keeps_trans; [by apply keeps_sim |]].
    + split; [done |]. split; [done |]. by apply in_user_with_fd.
    + split; [done |]. split; [done |]. by apply in_user_with_fd.
  - eexists. unfold with_fd; simpl. rewrite Etab. fold p. rewrite lookup_insert_eq. split; [reflexivity | done].
Qed.

(** ** Address spaces *)

Lemma kinv_new_as z k m a :
  kinv z k -> m_create_as (k_mach k) = (m, a) ->
  (a = 0 /\ kinv z (set_mach k m) \/ a <> 0 /\ a ∉ lo_as z /\ kinv (add_as a z) (set_mach k m)).
Proof.
  intros H E. destruct (law_create _ _ _ (ki_ok _ _ H) E) as (C1 & C2 & [(-> & C3 & C4) | (Hz & Hfr & C3 & C4)]).
  - left. split; [done |]. apply kinv_quiet; [done |]. done.
  - right. destruct (fresh_everywhere _ _ _ H Hfr) as (F1 & F2 & F3 & F4 & F5 & F6).
    pose proof (ki_loose_as _ _ H) as Hla. split; [done |]. split; [set_solver +Hla F5 |].
    destruct H; split; simpl; rewrite ?C3, ?C4; try done.
    + rewrite ki_live. set_solver +.
    + destruct ki_apart as (P0 & P1 & P2 & P3 & P4). set_solver +P0 P1 P2 P3 P4 F1 F2 F3 F4.
    + intros p t Hp Hpz. destruct (ki_as p t Hp Hpz) as (A1 & A2 & A3). split; [set_solver +A1 |].
      split; [| by rewrite C2]. assert (t_aspace t <> a) as N by congruence. set_solver +A2 N.
    + intros b Hb. apply elem_of_union in Hb as [Hb | Hb]; [left; set_solver +Hb |].
      destruct (ki_as_all b Hb) as [Hl | Hl]; [left; set_solver +Hl | by right].
    + set_solver +ki_loose_as.
Qed.

Lemma kinv_destroy_as z k a :
  kinv (add_as a z) k -> a ∉ lo_as z -> kinv z (set_mach k (m_destroy_as (k_mach k) a)).
Proof.
  intros H Ha. assert (a ∈ m_as (k_mach k)) as Hm by (apply (ki_loose_as _ _ H); simpl; set_solver +).
  destruct (law_destroy _ _ (ki_ok _ _ H) Hm) as (D1 & D2 & D3 & D4).
  set (m' := m_destroy_as (k_mach k) a) in *. clearbody m'.
  assert (forall p t, k_tasks k !! p = Some t -> t_aspace t <> 0 -> t_aspace t <> a) as Hne.
  { intros p t Hp Hz Ea. destruct (ki_as _ _ H p t Hp Hz) as (_ & A2 & _). simpl in A2. set_solver +A2 Ea. }
  destruct H; split; simpl in *; rewrite ?D3, ?D4; try done.
  - rewrite ki_live. destruct ki_apart as (P0 & P1 & P2 & P3 & P4). set_solver +P3 P4 Hm.
  - destruct ki_apart as (P0 & P1 & P2 & P3 & P4). set_solver +P0 P1 P2 P3 P4.
  - intros p t Hp Hz. destruct (ki_as p t Hp Hz) as (A1 & A2 & A3). pose proof (Hne p t Hp Hz) as N.
    split; [set_solver +A1 N |]. split; [set_solver +A2 |]. by rewrite D2.
  - intros b Hb. destruct (ki_as_all b) as [Hl | Hl]; [set_solver +Hb | | by right]. left. set_solver +Hl Hb.
  - set_solver +ki_loose_as Ha.
Qed.

(** The common tail of the error paths. *)
Lemma undo_as_ok z k a :
  kinv (add_as a z) k -> a ∉ lo_as z ->
  wp (m_upd (fun m => m_destroy_as m a) ;; mret (-1)) (fun id k' => id = -1 /\ kinv z k' /\ keeps k k') k.
Proof. intros H Ha. split; [done |]. split; [by apply kinv_destroy_as | done]. Qed.

Lemma kinv_quiet_as z k m a :
  kinv z k -> quiet_on m_ok m_live m_as (k_mach k) m -> a ∈ m_as (k_mach k) -> a ∈ m_as m.
Proof. intros _ (_ & _ & -> & _). done. Qed.

Lemma map_stack_pages_ok z a n : forall k va,
  kinv z k -> a ∈ m_as (k_mach k) -> USER_STACK_BASE <= va -> va mod FRAME_SIZE = 0 ->
  va + Z.of_nat n * FRAME_SIZE <= USER_STACK_TOP ->
  wp (map_stack_pages n a va) (fun _ k' => kinv z k' /\ mach_only k k' /\ a ∈ m_as (k_mach k')) k.
Proof.
  induction n as [|n IH]; intros k va H Ha Hlo Hal Hhi; cbn [map_stack_pages].
  { apply wp_ret. split; [done |]. split; [by destruct k | done]. }
  apply wp_bind. unfold m_op at 1, wp at 1. destruct (m_alloc_frame (k_mach k)) as [m1 f] eqn:E1.
  destruct (Z.eqb_spec f 0) as [-> | Hf].
  { pose proof (law_stack_none _ _ (ki_ok _ _ H) E1) as Q. apply wp_ret.
    split; [by apply kinv_quiet |]. split; [done |]. by eapply kinv_quiet_as. }
  apply wp_bind. unfold m_op at 1, wp at 1. simpl k_mach.
  destruct (m_map_page m1 a va f USER_PAGE_FLAGS) as [m2 rc] eqn:E2.
  assert (quiet_on m_ok m_live m_as (k_mach k) m2) as Q.
  { eapply law_stack_page; try done; [apply (ki_ok _ _ H) |]. unfold FRAME_SIZE in *. lia. }
  change (set_mach (set_mach k m1) m2) with (set_mach k m2).
  pose proof (kinv_quiet _ _ _ H Q) as H2. pose proof (kinv_quiet_as _ _ _ _ H Q Ha) as Ha2.
  destruct (negb (rc =? 0)); [done |].
  eapply wp_mono; [apply (IH (set_mach k m2)); try done |].
  - unfold FRAME_SIZE in *. lia.
  - unfold FRAME_SIZE in *. rewrite <- (Z.mul_1_l 4096) at 1. by rewrite Z.mod_add by lia.
  - unfold FRAME_SIZE in *. lia.
  - intros v k' (K1 & K2 & K3). done.
Qed.

Lemma map_user_stack_ok z a k :
  kinv z k -> a ∈ m_as (k_mach k) ->
  wp (map_user_stack a) (fun _ k' => kinv z k' /\ mach_only k k' /\ a ∈ m_as (k_mach k')) k.
Proof. intros. by apply map_stack_pages_ok. Qed.

(** ** The group a child may join *)

Lemma group_child_ok z k id pgid n : forall i,
  kinv z k -> 0 <= i -> i + Z.of_nat n <= k_num k -> wp (group_child n i id pgid) (fun _ k' => k' = k) k.
Proof.
  induction n as [|n IH]; intros i H Hi Hn; cbn [group_child]; [done |].
  destruct (ki_num _ _ H) as [Hnum _]. apply wp_bind, wp_tab_get; [lia |].
  destruct (Z.eqb_spec (znth 0 (k_tab k) i) 0) as [| Hz]; [apply IH; done || lia |].
  destruct (kinv_entry z k i H ltac:(lia) Hz) as (t & Ht & _).
  apply wp_bind. eapply wp_get_task; [done |].
  destruct (decide _); [apply IH; done || lia |]. destruct (_ && _); [done |]. apply IH; done || lia.
Qed.

Lemma may_use_group_ok z k id pgid :
  kinv z k -> 0 <= id -> wp (may_use_group id pgid) (fun _ k' => k' = k) k.
Proof.
  intros H Hid. destruct (ki_num _ _ H) as [Hn _]. unfold may_use_group. apply wp_bind, wp_gets, wp_bind.
  destruct (Z.ltb_spec id (k_num k)); [apply wp_tab_get; [lia |] | done].
  destruct (Z.eqb_spec (znth 0 (k_tab k) id) 0) as [| Hz]; [done |].
  destruct (kinv_entry z k id H ltac:(lia) Hz) as (t & Ht & _).
  apply wp_bind. eapply wp_get_task; [done |]. destruct (_ =? pgid); [done |].
  apply (group_child_ok z); [done | lia | lia].
Qed.

(** ** The creation of a task *)

Lemma parent_ok_same k k' id : same_tasks k k' -> parent_ok k id -> parent_ok k' id.
Proof.
  intros ((C1 & _) & E1 & E2 & _) [| (Hr & t & Ht)]; [by left |]. right. rewrite C1, E1, E2. split; [done | by exists t].
Qed.

(** Creation fails with -1, or takes the next slot for a task that is ready
    to run. *)
Definition created k (id : Z) k' : Prop :=
  id = -1 \/ id = k_num k /\ id < MAX_TASKS_LIMIT /\
    exists t, k_tasks k' !! znth 0 (k_tab k') id = Some t /\ t_state t = TASK_READY.

Lemma task_attach_ok k a entry parent i o pgid_req :
  kinv (add_as a none) k -> a <> 0 -> 0 <= parent < 2 ^ 32 -> parent_ok k parent ->
  i = 0 \/ is_Some (k_files k !! i) -> o = 0 \/ is_Some (k_files k !! o) ->
  wp (task_attach a entry parent i o pgid_req) (fun id k' => kinv none k' /\ keeps k k' /\ created k id k') k.
Proof.
  intros H Ha Hpar Hp Hi Ho. unfold task_attach. apply wp_bind.
  eapply wp_mono; [by apply (dup_source_ok (add_as a none)) |]. intros [d1|] k1 (S1 & F1 & X1).
  2:{ eapply wp_mono; [by apply (undo_as_ok none) |]. intros id k' (-> & H' & Hk'). split; [done |]. split; [| by left].
      eapply keeps_trans; [by apply keeps_same | done]. }
  destruct X1 as [H1 N1]. apply wp_bind.
  eapply wp_mono; [apply (dup_source_ok (opt_file d1 (add_as a none))); [done | by rewrite opt_file_pipe |] |].
  { destruct Ho as [| Ho]; [by left | right; by apply F1]. }
  intros [d2|] k2 (S2 & F2 & X2).
  2:{ apply wp_bind. eapply wp_mono; [by apply (close_dup_ok (add_as a none)) |]. intros [] k3 [H3 S3].
      eapply wp_mono; [by apply (undo_as_ok none) |]. intros id k' (-> & H' & Hk'). split; [done |]. split; [| by left].
      do 2 (eapply keeps_trans; [by apply keeps_same |]). by eapply keeps_trans; [apply keeps_sim |]. }
  destruct X2 as [H2 N2]. set (z := opt_file d2 (opt_file d1 none)).
  assert (kinv (add_as a z) k2) as H2' by (by rewrite !opt_file_as in H2).
  assert (lo_as z = ∅) as Ez by (unfold z, opt_file; by destruct (d1 =? 0), (d2 =? 0)).
  assert (parent_ok k2 parent) as Hp2 by (by eapply parent_ok_same; [| eapply parent_ok_same]).
  apply wp_bind. eapply wp_mono; [apply (task_register_ok z); try done; rewrite Ez; set_solver +|].
  assert (keeps k k2) as Q2 by (eapply keeps_trans; by apply keeps_same).
  assert (d1 <> 0 -> d1 ∉ lo_file (opt_file d2 none)) as N1'.
  { intros Hd1. unfold opt_file in *. destruct (Z.eqb_spec d2 0) as [| Hd2]; [set_solver +|].
    specialize (N2 Hd2). apply Z.eqb_neq in Hd1 as Hd1'. rewrite Hd1' in N2. simpl in *. set_solver +N2. }
  assert (d2 <> 0 -> d2 ∉ lo_file none) as N2' by (intros _; set_solver +).
  intros id k3 [G [[-> H3] | (Eid & Hid & H3 & t & Ht & Hst)]]; apply (keeps_grows _ _ _ H2') in G.
  - change (-1 <? 0) with true. cbv iota.
    assert (kinv (opt_file d1 (opt_file d2 (add_as a none))) k3) as H3'.
    { rewrite !opt_file_as, (opt_file_comm d1). exact H3. }
    apply wp_bind. eapply wp_mono; [apply (close_dup_ok (opt_file d2 (add_as a none))); [done | | by rewrite opt_file_pipe] |].
    { intros Hd1. rewrite opt_file_as. by apply N1'. }
    intros [] k4 [H4 S4]. apply wp_bind. eapply wp_mono; [by apply (close_dup_ok (add_as a none)) |].
    intros [] k5 [H5 S5]. eapply wp_mono; [by apply (undo_as_ok none) |]. intros id k' (-> & H' & Hk'). split; [done |]. split; [| by left].
    eapply keeps_trans; [exact Q2 |]. eapply keeps_trans; [exact G |].
    do 2 (eapply keeps_trans; [apply keeps_sim; eassumption |]). done.
  - destruct (ki_num _ _ H2') as [Hnum _]. destruct (Z.ltb_spec id 0); [lia |].
    assert (0 <= id < MAX_TASKS_LIMIT) as Hidr by lia.
    apply wp_bind. eapply wp_mono; [apply (install_dup_ok (opt_file d2 none) k3 id 0 d1 t); try done |].
    { unfold z in H3. by rewrite opt_file_comm in H3. }
    { by rewrite opt_file_pipe. }
    intros [] k4 (H4 & Q4 & t4 & Ht4 & Hst4). apply wp_bind.
    eapply wp_mono; [by apply (install_dup_ok none k4 id 1 d2 t4) |]. intros [] k5 (H5 & Q5 & X5). apply wp_ret.
    split; [done |]. split; [by eapply keeps_trans; [| eapply keeps_trans; [| eapply keeps_trans]] |].
    right. destruct S1 as ((C1 & _) & _), S2 as ((C2 & _) & _). split; [congruence | done].
Qed.

Lemma task_create_ok k name parent in_fd out_fd pgid_req :
  kinv none k -> in_user k \/ in_fd = -1 /\ out_fd = -1 -> 0 <= parent < 2 ^ 32 -> parent_ok k parent ->
  wp (task_create_from_file name parent in_fd out_fd pgid_req)
    (fun id k' => kinv none k' /\ keeps k k' /\ created k id k') k.
Proof.
  intros H Hu Hpar Hp. unfold task_create_from_file. apply wp_bind.
  assert (wp (if (pgid_req =? TASK_PGID_INHERIT) || (pgid_req =? TASK_PGID_NEW) then mret true
              else may_use_group parent pgid_req) (fun _ k' => k' = k) k) as Hg.
  { destruct (_ || _); [done |]. apply (may_use_group_ok none); [done | lia]. }
  eapply wp_mono; [exact Hg |]. assert (kinv none k /\ keeps k k /\ created k (-1) k) as Hno by (split; [done |]; split; [done | by left]).
  intros [] k0 ->; [| done]. cbn [negb]. apply wp_bind.
  eapply wp_mono; [apply source_fd_ok; [done | tauto] |]. intros [[] | i] k0 [-> Hi]; [done |].
  apply wp_bind. eapply wp_mono; [apply source_fd_ok; [done | tauto] |]. intros [[] | o] k0 [-> Ho]; [done |].
  apply wp_bind. unfold m_op at 1, wp at 1. destruct (m_create_as (k_mach k)) as [m1 a] eqn:E1.
  destruct (kinv_new_as none k m1 a H E1) as [(-> & H1) | (Haz & _ & H1)];
    [split; [done |]; split; [done | by left] |].
  apply Z.eqb_neq in Haz as Haz'. rewrite Haz'. apply wp_bind. unfold wp at 1. simpl k_mach.
  destruct (m_elf_load_file m1 name a) as [m2 le] eqn:E2. simpl set_mach.
  assert (a ∈ m_as m1) as Ha1 by (apply (ki_loose_as _ _ H1); simpl; set_solver +).
  destruct (law_elf _ _ _ _ _ (ki_ok _ _ H1) Ha1 E2) as [Q2 (rc & entry & ->)]. simpl in Q2.
  pose proof (kinv_quiet _ _ _ H1 Q2) as H2. change (set_mach (set_mach k m1) m2) with (set_mach k m2) in *.
  pose proof (kinv_quiet_as _ _ _ _ H1 Q2 Ha1) as Ha2. cbn [fst snd].
  assert (forall k3, kinv (add_as a none) k3 -> keeps k k3 ->
    wp (m_upd (fun m => m_destroy_as m a) ;; mret (-1)) (fun id k' => kinv none k' /\ keeps k k' /\ created k id k') k3) as Hundo.
  { intros k3 H3 Q3. eapply wp_mono; [by apply (undo_as_ok none) |]. intros id k' (-> & H' & Q'). split; [done |].
    split; [by eapply keeps_trans | by left]. }
  destruct (negb (rc =? 0)); [by apply Hundo |]. apply wp_bind.
  eapply wp_mono; [by apply (map_user_stack_ok (add_as a none)) |]. intros rc3 k3 (H3 & E3 & _).
  assert (same_tasks k k3 /\ k_files k3 = k_files k) as [S3 F3] by (by rewrite E3).
  destruct (negb (rc3 =? 0)); [apply Hundo; [done | by apply keeps_same] |].
  eapply wp_mono; [apply task_attach_ok; rewrite ?F3; try done; by eapply parent_ok_same |].
  intros id k' (H' & Q' & X'). split; [done |]. split; [eapply keeps_trans; [by apply keeps_same | done] |].
  destruct X' as [-> | (-> & X')]; [by left | right]. destruct S3 as ((C3 & _) & _). split; [congruence | by rewrite C3 in X' |- *].
Qed.

(** ** Pipes *)

Definition fresh_pipe : pipe := mkPipe (replicate (Z.to_nat PIPE_SIZE) 0) 0 0 0 0.

Lemma pipe_create_ok z k :
  kinv z k -> wp pipe_create (fun p k' => same_tasks k k' /\
    (p = 0 /\ kinv z k' \/ p <> 0 /\ p ∉ lo_pipe z /\ kinv (add_pipe p z) k' /\
       ends (k_files k') p false = 0 /\ ends (k_files k') p true = 0 /\
       k_pipes k' !! p = Some fresh_pipe)) k.
Proof.
  intros H. unfold pipe_create. apply wp_bind. eapply wp_mono; [apply (kmalloc_ok z); done |].
  intros p k1 [E [[-> H1] | (Hp & Hfr & H1)]].
  { split; [by apply mach_only_same_tasks | by left]. }
  destruct (fresh_everywhere _ _ _ H Hfr) as (F1 & F2 & F3 & F4 & F5 & F6).
  apply Z.eqb_neq in Hp as Hp'. rewrite Hp'. apply wp_bind. unfold put_pipe. apply wp_modify.
  pose proof (ki_loose_pipe _ _ H) as Hlp.
  assert (forall w, ends (k_files k1) p w = 0) as He.
  { intros w. apply ends_none. intros b f Hb Hk Ef. rewrite E in Hb.
    pose proof (ki_fpipe _ _ H b f Hb Hk) as Hd. by rewrite Ef in Hd. }
  assert (k_pipes k1 = k_pipes k /\ k_files k1 = k_files k /\ k_tasks k1 = k_tasks k) as (E1 & E2 & E3) by (by rewrite E).
  split; [by rewrite E |]. right. split; [done |]. split; [set_solver +Hlp F4 |]. simpl.
  split; [| split; [apply He |]; split; [apply He | apply lookup_insert_eq]].
  destruct H1; split; simpl in *; rewrite ?dom_insert_L; try done.
  - intros b f Hb Hk. pose proof (ki_fpipe b f Hb Hk). set_solver.
  - intros q x. destruct (decide (q = p)) as [-> | Hne].
    + rewrite lookup_insert_eq. intros [= <-]. split; [| left; set_solver +].
      split; [by vm_compute | simpl; by rewrite !He].
    + rewrite lookup_insert_ne by done. intros Hx. destruct (ki_pipes q x Hx) as [P1 [P2 | P2]]; split; try done.
      * left. set_solver +P2.
      * by right.
  - set_solver +ki_loose_pipe.
  - rewrite ki_live. set_solver +.
  - rewrite E1, E2, E3 in *. destruct ki_apart as (P0 & P1 & P2 & P3 & P4). set_solver +P0 P1 P2 P3 P4 F1 F2 F3.
Qed.

Lemma alloc_fd_ok k p t :
  k_tasks k !! p = Some t ->
  wp (alloc_fd p) (fun fd k' => k' = k /\
    (fd = -1 \/ 0 <= fd < MAX_FDS /\ znth 0 (t_fds t) fd = 0)) k.
Proof.
  intros Ht. unfold alloc_fd. apply wp_bind. eapply wp_get_task; [done |]. apply wp_ret. split; [done |].
  destruct (scan _ _ _) as [i|] eqn:Es; [right | by left].
  apply scan_Some in Es as (Hr & Hz & _). unfold MAX_FDS in *. split; [lia |]. by apply Z.eqb_eq.
Qed.
End Create.
