(* ===== verification/KernelSafe.v ===== *)
(** * The handlers keep the invariant

    Every system call, the timer tick, a key press and signal delivery,
    started between two instructions of a ring-3 task with any register
    values, have no undefined behaviour and come back to ring 3 with the
    invariant of [KernelInv] re-established. *)

From stdpp Require Import base list gmap fin_maps fin_map_dom.
From Stdlib Require Import ZArith Lia Bool.
From S2P Require Import Prelude Frames Ring Kernel Sched Syscall KernelInv KernelFiles KernelTasks KernelCreate.

(** Register values are 64-bit. *)
Definition regs64 (r : registers) : Prop := Forall (fun w => 0 <= w < 2 ^ 64) (regs_words r).

Lemma regs64_args r : regs64 r -> 0 <= rdi r < 2 ^ 64 /\ 0 <= rsi r < 2 ^ 64 /\ 0 <= rdx r < 2 ^ 64 /\ 0 <= rcx r < 2 ^ 64.
Proof. unfold regs64, regs_words. rewrite !Forall_cons. tauto. Qed.

Lemma user_frame_rax r v : user_frame r -> user_frame (set_rax r v).
Proof. done. Qed.

#[export] Hint Resolve user_frame_rax : core.

(** ** The ring-3 heap slot *)

Lemma round_up_spec n :
  0 < n <= USER_HEAP_LIMIT - USER_HEAP_BASE ->
  n <= round_up_to_page n < n + FRAME_SIZE /\ round_up_to_page n mod FRAME_SIZE = 0 /\
  round_up_to_page n <= USER_HEAP_LIMIT - USER_HEAP_BASE.
Proof.
  unfold round_up_to_page, USER_HEAP_LIMIT, USER_HEAP_BASE, USER_PAGE_SIZE, FRAME_SIZE. intros H.
  rewrite (u64_small (n + _ - _)) by lia. rewrite (land_align_down 12) by lia. change (2 ^ 12) with 4096.
  split; [mlia |]. split; [apply Z.mod_mul; lia | mlia].
Qed.

Lemma region_nth rs i : regions_ok rs -> 0 <= i < MAX_REGIONS ->
  rs !! Z.to_nat i = Some (znth (mkRegion 0 0) rs i) /\ region_ok (znth (mkRegion 0 0) rs i).
Proof.
  intros (Hl & Hok & _) Hi. unfold zlen in Hl. rewrite znth_nonneg by lia.
  destruct (lookup_lt_is_Some_2 rs (Z.to_nat i)) as [g Hg]; [lia |]. rewrite Hg. simpl.
  split; [done |]. by eapply Forall_lookup_1.
Qed.

(** What the scan of [sys_mmap] finds. *)
Lemma region_scan_spec rs slot next total :
  regions_ok rs -> region_scan rs = (slot, next, total) ->
  USER_HEAP_BASE <= next <= USER_HEAP_LIMIT /\ next mod FRAME_SIZE = 0 /\
  (forall i, 0 <= i < MAX_REGIONS -> let g := znth (mkRegion 0 0) rs i in
     reg_length g = 0 \/ reg_base g + reg_length g <= next) /\
  (slot = -1 \/ 0 <= slot < MAX_REGIONS /\ reg_length (znth (mkRegion 0 0) rs slot) = 0).
Proof.
  intros Hok E. unfold region_scan in E.
  pose proof (for_range_ind (fun (n : Z) '((slot, next, total) : Z * Z * Z) =>
    USER_HEAP_BASE <= next <= USER_HEAP_LIMIT /\ next mod FRAME_SIZE = 0 /\
    (forall i, 0 <= i < n -> let g := znth (mkRegion 0 0) rs i in
       reg_length g = 0 \/ reg_base g + reg_length g <= next) /\
    (slot = -1 \/ 0 <= slot < MAX_REGIONS /\ reg_length (znth (mkRegion 0 0) rs slot) = 0))) as IH.
  match type of E with for_range ?n ?i ?f ?s = _ => specialize (IH f n i s) end.
  rewrite E in IH. change (0 + Z.of_nat (Z.to_nat MAX_REGIONS)) with MAX_REGIONS in IH. apply IH; clear E IH.
  - split; [done |]. split; [done |]. split; [intros; lia | by left].
  - intros k [[s1 n1] t1] Hk (I1 & I2 & I3 & I4).
    destruct (region_nth rs k Hok Hk) as [_ Hg]. set (g := znth (mkRegion 0 0) rs k) in *.
    destruct (Z.eqb_spec (reg_length g) 0) as [Ez | Ez].
    + split; [done |]. split; [done |]. split.
      * intros i Hi. destruct (decide (i = k)) as [-> |]; [by left | apply I3; lia].
      * destruct (s1 <? 0); [right; done | done].
    + destruct Hg as [| (G1 & G2 & G3 & G4 & G5)]; [done |].
      assert (0 <= reg_base g + reg_length g < 2 ^ 64) as Hb.
      { unfold USER_HEAP_BASE, USER_HEAP_LIMIT in *. lia. }
      rewrite u64_small by done.
      assert ((reg_base g + reg_length g) mod FRAME_SIZE = 0) as Hm by (unfold FRAME_SIZE in *; mlia).
      destruct (Z.ltb_spec n1 (reg_base g + reg_length g)); (split; [lia |]; split; [done |]; split; [| done]);
        intros i Hi; cbv zeta; (destruct (decide (i = k)) as [-> |]; [right; fold g; lia |]);
        destruct (I3 i ltac:(lia)) as [J | J]; auto; right; lia.
Qed.

(** The new region fits behind all the others. *)
Lemma regions_add rs slot next len :
  regions_ok rs -> 0 <= slot < MAX_REGIONS ->
  (forall i, 0 <= i < MAX_REGIONS -> let g := znth (mkRegion 0 0) rs i in
     reg_length g = 0 \/ reg_base g + reg_length g <= next) ->
  region_ok (mkRegion next len) -> regions_ok (zset rs slot (mkRegion next len)).
Proof.
  intros (Hl & Hok & Hap) Hs Hnext Hg. split; [by rewrite zlen_zset |]. split; [by apply zset_Forall |].
  unfold zlen in Hl. unfold zset. destruct (Z.ltb_spec slot 0); [lia |].
  assert (forall j h, rs !! j = Some h -> reg_length h = 0 \/ reg_base h + reg_length h <= next) as Hb.
  { intros j h Hj. pose proof (lookup_lt_Some _ _ _ Hj). specialize (Hnext (Z.of_nat j)).
    rewrite znth_nonneg, Nat2Z.id, Hj in Hnext by lia. apply Hnext. lia. }
  intros i j g g' Hi Hj Hij. apply list_lookup_insert_Some in Hi as [(<- & <- & _) | [Hn Hi]];
    apply list_lookup_insert_Some in Hj as [(<- & <- & _) | [Hn' Hj]]; [done | | | by eapply Hap].
  - destruct (Hb j g' Hj); unfold region_apart; simpl; auto.
  - destruct (Hb i g Hi); unfold region_apart; simpl; auto.
Qed.

Lemma regions_drop rs i : regions_ok rs -> regions_ok (zset rs i (mkRegion 0 0)).
Proof.
  intros (Hl & Hok & Hap). split; [by rewrite zlen_zset |]. split; [apply zset_Forall; [done | by left] |].
  unfold zset. destruct (i <? 0); [done |]. intros a b g g' Ha Hb Hab.
  apply list_lookup_insert_Some in Ha as [(<- & <- & _) | [Hn Ha]]; [by left |].
  apply list_lookup_insert_Some in Hb as [(<- & <- & _) | [Hn' Hb]]; [right; by left | by eapply Hap].
Qed.

Section Safe.
Context {M : Type} {mach : Machine M} {laws : MachineLaws M}.
Implicit Types k : kernel M.

Lemma rest_kinv k : at_rest k -> kinv none k.
Proof. by intros (H & _). Qed.
Lemma rest_running k : at_rest k -> k_running k = true.
Proof. by intros (_ & (H & _) & _). Qed.

Lemma steady_rest k k' : steady k k' -> kinv none k' -> at_rest k -> at_rest k'.
Proof. intros S H R. by apply (keeps_rest k); [apply keeps_sim, steady_sim | |]. Qed.
Lemma same_rest k k' : same_tasks k k' -> kinv none k' -> at_rest k -> at_rest k'.
Proof. intros S H R. by apply (keeps_rest k); [apply keeps_same | |]. Qed.

(** The current task, from a state at rest. *)
Lemma rest_current k Q :
  at_rest k ->
  (forall p t, p = znth 0 (k_tab k) (k_current k) -> k_tasks k !! p = Some t -> p <> 0 -> task_ok t ->
     t_state t = TASK_RUNNING -> t_aspace t ∈ m_as (k_mach k) -> t_id t = k_current k -> Q p k) ->
  wp scheduler_current_task Q k.
Proof.
  intros R HQ. pose proof R as (H & (Hr & t0 & Ht0 & Hs) & _).
  apply (current_task_ok none); [done | done |]. intros t Ht Hok Eid Ha _.
  eapply HQ; try done; [by apply (kinv_task_nonzero _ _ _ _ H Ht) | congruence |].
  by destruct (ki_as _ _ H _ _ Ht Ha).
Qed.

(** Replacing the current task by one that still runs. *)
Lemma rest_put_current k t t' :
  at_rest k -> k_tasks k !! znth 0 (k_tab k) (k_current k) = Some t -> task_ok t' ->
  t_id t' = t_id t -> t_fds t' = t_fds t -> t_aspace t' = t_aspace t -> t_cr3 t' = t_cr3 t ->
  t_state t' = TASK_RUNNING ->
  at_rest (set_tasks k (<[znth 0 (k_tab k) (k_current k) := t']> (k_tasks k))).
Proof.
  intros (H & (Hr & t0 & Ht0 & Hs) & Hid) Ht Hok E1 E2 E3 E4 Hst. split; [| split; [| done]].
  - eapply kinv_put_task; try done. intros _. apply (ki_run _ _ H _ _ Ht). congruence.
  - split; [done |]. exists t'. simpl. rewrite lookup_insert_eq. done.
Qed.

(** A quiet machine operation between two entries. *)
Lemma rest_quiet k m : at_rest k -> quiet_on m_ok m_live m_as (k_mach k) m -> at_rest (set_mach k m).
Proof.
  intros R Q. apply (mach_only_rest k); [done | | done]. apply kinv_quiet; [by apply rest_kinv | done].
Qed.

Lemma rest_store k va l :
  at_rest k -> (forall i, 0 <= i < zlen l -> ring3_addr (va + i) = true) ->
  wp (u_store_bytes va l) (fun _ k' => at_rest k' /\ mach_only k k') k.
Proof.
  intros R Hva. eapply wp_mono; [apply (u_store_bytes_ok none); [by apply rest_kinv | by apply rest_running | done] |].
  intros [] k' [H' E]. split; [by apply (mach_only_rest k) | done].
Qed.

(** Bytes that fit a checked range. *)
Lemma rest_store_range k ptr len l :
  at_rest k -> user_range_ok ptr len = true -> zlen l <= len ->
  wp (u_store_bytes ptr l) (fun _ k' => at_rest k' /\ mach_only k k') k.
Proof. intros R Hok Hl. apply rest_store; [done |]. intros i Hi. apply (user_range_addr _ len); [done | lia]. Qed.

(** ** Pipes and the console *)

Lemma kinv_put_pipe z k q x y :
  kinv z k -> k_pipes k !! q = Some y -> pipe_ok x -> readers x = readers y -> writers x = writers y ->
  kinv z (set_pipes k (<[q := x]> (k_pipes k))).
Proof.
  intros H Hq Hok Er Ew.
  assert (dom (<[q := x]> (k_pipes k)) = dom (k_pipes k)) as Hdom by (apply dom_insert_lookup_L; by eexists).
  destruct H; split; simpl; rewrite ?Hdom; try done.
  intros q' x'. destruct (decide (q' = q)) as [-> | Hne].
  - rewrite lookup_insert_eq. intros [= <-]. destruct (ki_pipes _ _ Hq) as [(P1 & P2 & P3) P4].
    unfold pipe_sound. by rewrite Er, Ew.
  - rewrite lookup_insert_ne by done. apply ki_pipes.
Qed.

(** What a read or write leaves behind: it blocked or was interrupted, or it
    transferred [n] bytes without a switch. *)
Definition io_done (len n : Z) : Prop := n = FILE_BLOCKED \/ n = FILE_ERR \/ 0 <= n <= len.

Lemma block_io k r reason :
  at_rest k -> user_frame r -> reason <> WAIT_NONE ->
  wp (task_block r reason) (fun b k' => resumed k' b.2 /\
    ((if b.1 =? TASK_BLOCK_INTERRUPTED then FILE_ERR else FILE_BLOCKED) = FILE_ERR \/
     (if b.1 =? TASK_BLOCK_INTERRUPTED then FILE_ERR else FILE_BLOCKED) = FILE_BLOCKED)) k.
Proof.
  intros R Hu Hw. eapply wp_mono; [by apply task_block_ok |]. intros [v r'] k' [HR [-> | ->]]; auto.
Qed.

Lemma pipe_read_ok k q x len r :
  at_rest k -> user_frame r -> k_pipes k !! q = Some x -> 0 <= len ->
  wp (pipe_read q len r) (fun g k' => resumed k' g.2 /\
    (g.1.1 = FILE_BLOCKED \/ g.1.1 = FILE_ERR \/ 0 <= g.1.1 <= len /\ zlen g.1.2 = g.1.1)) k.
Proof.
  intros R Hu Hq Hl. pose proof (rest_kinv _ R) as H. destruct (ki_pipes _ _ H _ _ Hq) as [(Hok & _) _].
  unfold pipe_read. apply wp_bind. eapply wp_get_pipe; [done |]. pose proof (pipe_used_range _ Hok) as Hur.
  destruct (Z.ltb_spec 0 (pipe_used x)) as [Hpos | Hpos].
  - set (n := if pipe_used x <? len then pipe_used x else len).
    assert (0 <= n <= pipe_used x /\ n <= len) as [Hn Hnl] by (unfold n; zcases; lia).
    destruct (pipe_take_spec n x Hok Hn) as (y & E & Y1 & Y2 & Y3 & Y4). cbv zeta. rewrite E.
    apply wp_bind. unfold put_pipe. apply wp_modify. apply wp_bind.
    pose proof (kinv_put_pipe none k q y x H Hq Y1 Y3 Y4) as HK.
    eapply wp_mono; [by apply (scheduler_wake_ok none) |]. intros [] k' [H' S']. apply wp_ret.
    split; [split; [| done]; by eapply steady_rest; [| | apply (same_rest k)] |].
    right. right. split; [simpl; lia |]. simpl. unfold zlen. rewrite length_take.
    pose proof (pipe_list_length _ Hok) as Hll. unfold zlen in Hll. lia.
  - destruct (0 <? writers x).
    + apply wp_bind. eapply wp_mono; [by apply block_io |]. intros [v r'] k' [HR Hc]. apply wp_ret.
      split; [done |]. simpl in *. destruct Hc as [-> | ->]; auto.
    + apply wp_ret. split; [done |]. right. right. split; [simpl; lia | done].
Qed.

Lemma pipe_write_ok k q x buf len r :
  at_rest k -> user_frame r -> k_pipes k !! q = Some x -> 0 <= len <= zlen buf ->
  wp (pipe_write q buf len r) (fun w k' => resumed k' w.2 /\ io_done len w.1) k.
Proof.
  intros R Hu Hq Hl. pose proof (rest_kinv _ R) as H. destruct (ki_pipes _ _ H _ _ Hq) as [(Hok & _) _].
  pose proof (rest_running _ R) as Hr. destruct (ki_cur _ _ H Hr) as [Hc _].
  unfold pipe_write. apply wp_bind. eapply wp_get_pipe; [done |]. pose proof (pipe_used_range _ Hok) as Hur.
  destruct (readers x =? 0).
  { apply wp_bind, wp_gets, wp_bind. eapply wp_mono; [apply (signal_raise_ok none); [done | lia] |].
    intros [] k' [H' S']. apply wp_ret. split; [split; [by eapply steady_rest | done] |]. right. by left. }
  cbv zeta. destruct (Z.eqb_spec (pipe_space x) 0) as [| Hs].
  - apply wp_bind. eapply wp_mono; [by apply block_io |]. intros [v r'] k' [HR Hc']. apply wp_ret.
    split; [done |]. simpl in *. destruct Hc' as [-> | ->]; [right; by left | by left].
  - set (n := if pipe_space x <? len then pipe_space x else len).
    assert (0 <= n <= pipe_space x /\ n <= len) as [Hn Hnl] by (unfold n, pipe_space in *; zcases; lia).
    destruct (pipe_put_spec n buf x Hok Hn ltac:(lia)) as (Y1 & Y2 & Y3 & Y4).
    apply wp_bind. unfold put_pipe. apply wp_modify. apply wp_bind.
    pose proof (kinv_put_pipe none k q _ x H Hq Y1 Y3 Y4) as HK.
    eapply wp_mono; [by apply (scheduler_wake_ok none) |]. intros [] k' [H' S']. apply wp_ret.
    split; [split; [| done]; by eapply steady_rest; [| | apply (same_rest k)] |].
    right. right. simpl. lia.
Qed.

Lemma file_pipe k f x : kinv none k -> k_files k !! f = Some x -> f_kind x <> FD_CONSOLE ->
  exists y, k_pipes k !! f_pipe x = Some y.
Proof.
  intros H Hx Hk. assert (f_kind x = FD_PIPE) as Hp by (by destruct (f_kind x)).
  by apply elem_of_dom, (ki_fpipe _ _ H f x).
Qed.

Lemma file_write_ok k f x buf len r :
  at_rest k -> user_frame r -> k_files k !! f = Some x -> 0 <= len <= zlen buf ->
  wp (file_write f buf len r) (fun w k' => resumed k' w.2 /\ io_done len w.1) k.
Proof.
  intros R Hu Hx Hl. unfold file_write. apply wp_bind. eapply wp_get_file; [done |].
  destruct (decide _) as [| Hk].
  - apply wp_bind, wp_modify, wp_ret. split; [| right; right; simpl; lia]. split; [| done].
    by apply (same_rest k); [| apply kinv_console, rest_kinv |].
  - destruct (file_pipe k f x (rest_kinv _ R) Hx Hk) as [y Hy]. by eapply pipe_write_ok.
Qed.

Lemma console_drain_ok n : forall k,
  at_rest k -> wp (console_drain n) (fun out k' => at_rest k' /\ zlen out <= Z.of_nat n) k.
Proof.
  induction n as [|n IH]; intros k R; cbn [console_drain]; [done |]. apply wp_bind, wp_gets.
  pose proof (keyboard_getchar_spec _ (ki_kbd _ _ (rest_kinv _ R))) as Hs.
  destruct (keyboard_getchar (k_kbd k)) as [b c]. destruct Hs as [Hb _]. apply wp_bind, wp_modify.
  assert (at_rest (set_kbd k b)) as R1.
  { apply (same_rest k); [done | | done]. by apply kinv_set_kbd, Hb; apply rest_kinv. }
  destruct (c =? 0); [apply wp_ret; split; [done | unfold zlen; simpl; lia] |].
  apply wp_bind. eapply wp_mono; [by apply IH |]. intros l k' [R' Hl]. apply wp_ret. split; [done |].
  unfold zlen in *. simpl. lia.
Qed.

Lemma file_read_ok k f x len r :
  at_rest k -> user_frame r -> k_files k !! f = Some x -> 0 <= len ->
  wp (file_read f len r) (fun g k' => resumed k' g.2 /\
    (g.1.1 = FILE_BLOCKED \/ g.1.1 = FILE_ERR \/ 0 <= g.1.1 <= len /\ zlen g.1.2 = g.1.1)) k.
Proof.
  intros R Hu Hx Hl. unfold file_read. apply wp_bind. eapply wp_get_file; [done |].
  destruct (decide _) as [| Hk].
  2:{ destruct (file_pipe k f x (rest_kinv _ R) Hx Hk) as [y Hy]. by eapply pipe_read_ok. }
  apply wp_bind. eapply wp_mono; [by apply console_drain_ok |]. intros out k1 [R1 Ho].
  rewrite Z2Nat.id in Ho by done. destruct (Z.ltb_spec 0 (zlen out)).
  { apply wp_ret. split; [done |]. right. right. split; [simpl; lia | done]. }
  apply wp_bind, wp_gets. pose proof (ki_kbd _ _ (rest_kinv _ R1)) as Hkb.
  destruct (keyboard_console_eof (k_kbd k1)) as [b eof] eqn:Eb. apply wp_bind, wp_modify.
  assert (at_rest (set_kbd k1 b)) as R2.
  { apply (same_rest k1); [done | | done]. apply kinv_set_kbd; [by apply rest_kinv |].
    unfold keyboard_console_eof in Eb. destruct (console_eof _); simplify_eq; done. }
  destruct eof; [apply wp_ret; split; [done |]; right; right; split; [simpl; lia | done] |].
  apply wp_bind. eapply wp_mono; [by apply block_io |]. intros [v r'] k' [HR Hc']. apply wp_ret.
  split; [done |]. simpl in *. destruct Hc' as [-> | ->]; auto.
Qed.

(** The open file in a slot of the current task. *)
Lemma slot_file k p t fd :
  at_rest k -> k_tasks k !! p = Some t -> 0 <= fd < MAX_FDS -> znth 0 (t_fds t) fd <> 0 ->
  exists x, k_files k !! znth 0 (t_fds t) fd = Some x.
Proof.
  intros R Ht Hfd Hz. destruct (ki_own _ _ (rest_kinv _ R) p fd (znth 0 (t_fds t) fd)) as [Hd _].
  - by exists t.
  - by apply elem_of_dom.
Qed.

Lemma io_clamp len :
  0 <= len -> len <> 0 -> let n := if len <? SYSCALL_IO_MAX then len else SYSCALL_IO_MAX in 0 < n <= len /\ n <= SYSCALL_IO_MAX.
Proof. intros. unfold n, SYSCALL_IO_MAX. zcases; lia. Qed.

Lemma sys_write_ok k r :
  at_rest k -> user_frame r -> regs64 r -> wp (sys_write r) (fun r' k' => resumed k' r') k.
Proof.
  intros R Hu (A1 & A2 & A3 & _)%regs64_args. unfold sys_write. apply wp_bind, (rest_current k); [done |].
  intros p t -> Ht _ Hok Hs _ _. destruct (Z.leb_spec MAX_FDS (rdi r)); [by apply wp_ret |].
  apply wp_bind. eapply wp_fds_get; [done | lia |].
  destruct (Z.eqb_spec (znth 0 (t_fds t) (rdi r)) 0) as [| Hz]; [by apply wp_ret |].
  destruct (slot_file k _ t (rdi r) R Ht ltac:(lia) Hz) as [x Hx].
  apply wp_bind. eapply wp_get_file; [done |]. destruct (negb (f_writable x)); [by apply wp_ret |].
  destruct (Z.eqb_spec (rdx r) 0) as [| Hlz]; [by apply wp_ret |].
  pose proof (io_clamp (rdx r) ltac:(lia) Hlz) as Hn. cbv zeta in Hn |- *.
  set (n := if rdx r <? SYSCALL_IO_MAX then rdx r else SYSCALL_IO_MAX) in *.
  destruct (user_range_ok (rsi r) n) eqn:Er; [| by apply wp_ret]. cbn [negb].
  apply wp_bind. eapply wp_mono; [apply u_load_bytes_ok |].
  { intros i Hi. apply (user_range_addr _ n); [done | lia]. }
  intros bs k1 (-> & Hbs & _). apply wp_bind.
  eapply wp_mono; [apply (file_write_ok k _ x); try done; unfold zlen; lia |].
  intros [v r'] k' [[R' Hu'] _]. cbn [fst snd].
  destruct (v =? FILE_BLOCKED); [by apply wp_ret |]. destruct (v <? 0); by apply wp_ret.
Qed.

Lemma sys_read_ok k r :
  at_rest k -> user_frame r -> regs64 r -> wp (sys_read r) (fun r' k' => resumed k' r') k.
Proof.
  intros R Hu (A1 & A2 & A3 & _)%regs64_args. unfold sys_read. apply wp_bind, (rest_current k); [done |].
  intros p t -> Ht _ Hok Hs _ _. destruct (Z.leb_spec MAX_FDS (rdi r)); [by apply wp_ret |].
  apply wp_bind. eapply wp_fds_get; [done | lia |].
  destruct (Z.eqb_spec (znth 0 (t_fds t) (rdi r)) 0) as [| Hz]; [by apply wp_ret |].
  destruct (slot_file k _ t (rdi r) R Ht ltac:(lia) Hz) as [x Hx].
  apply wp_bind. eapply wp_get_file; [done |]. destruct (f_writable x); [by apply wp_ret |].
  destruct (Z.eqb_spec (rdx r) 0) as [| Hlz]; [by apply wp_ret |].
  pose proof (io_clamp (rdx r) ltac:(lia) Hlz) as Hn. cbv zeta in Hn |- *.
  set (n := if rdx r <? SYSCALL_IO_MAX then rdx r else SYSCALL_IO_MAX) in *.
  destruct (user_range_ok (rsi r) n) eqn:Er; [| by apply wp_ret]. cbn [negb].
  apply wp_bind. eapply wp_mono; [apply (file_read_ok k _ x); try done; lia |].
  intros [[v out] r'] k' [[R' Hu'] Hc]. cbn [fst snd] in *.
  destruct (Z.eqb_spec v FILE_BLOCKED); [by apply wp_ret |]. destruct (Z.ltb_spec v 0); [by apply wp_ret |].
  apply wp_bind. destruct (Z.ltb_spec 0 v); [| by apply wp_ret, wp_ret].
  destruct Hc as [-> | [-> | [Hv Hl]]]; [done | done |].
  eapply wp_mono; [apply (rest_store_range k' _ n); [done | done | lia] |].
  intros [] k'' [R'' _]. by apply wp_ret.
Qed.

(** ** Descriptors *)

Lemma sys_close_ok k fd : at_rest k -> 0 <= fd -> wp (sys_close fd) (fun _ k' => at_rest k') k.
Proof.
  intros R Hfd. unfold sys_close. apply wp_bind, (rest_current k); [done |].
  intros p t -> Ht _ Hok Hs _ _. destruct (Z.leb_spec MAX_FDS fd); [done |].
  apply wp_bind. eapply wp_fds_get; [done | lia |]. destruct (_ =? 0); [done |].
  apply wp_bind. eapply wp_mono; [apply (close_fd_ok none _ _ t); [by apply rest_kinv | done | done | lia] |].
  intros [] k' [H' S']. apply wp_ret. apply (keeps_rest k); [| done | done].
  eapply keeps_trans; [| by apply keeps_sim]. split; [done |]. split; [done |]. by apply in_user_with_fd.
Qed.

(** Giving up a pipe with one end installed. *)
Lemma rest_close_fd k p t fd :
  at_rest k -> k_tasks k !! p = Some t -> 0 <= fd < MAX_FDS -> wp (close_fd p fd) (fun _ k' => at_rest k') k.
Proof.
  intros R Ht Hfd. eapply wp_mono; [apply (close_fd_ok none _ _ t); [by apply rest_kinv | done | done | done] |].
  intros [] k' [H' S']. apply (keeps_rest k); [| done | done].
  eapply keeps_trans; [| by apply keeps_sim]. split; [done |]. split; [done |]. by apply in_user_with_fd.
Qed.

(** Freeing a pipe no end was made of. *)
Lemma rest_kfree_pipe k q :
  kinv (add_pipe q none) k -> in_user k -> k_idling k = false ->
  ends (k_files k) q false = 0 -> ends (k_files k) q true = 0 -> wp (kfree_pipe q) (fun _ k' => at_rest k') k.
Proof.
  intros H HU Hid E1 E2. unfold kfree_pipe, kfree_raw. apply wp_bind, wp_modify, wp_modify.
  split; [| split; [exact HU | exact Hid]]. apply (kinv_free_pipe none k q); [done | set_solver + | done | done].
Qed.

Lemma drop_add_pipe q : drop_pipe q (add_pipe q none) = none.
Proof. unfold drop_pipe, add_pipe, none; simpl. f_equal. set_solver +. Qed.

(** An end of pipe [q] goes into a free slot of the current task. *)
Lemma rest_install k p t fd f :
  kinv (add_file f none) k -> in_user k -> k_idling k = false -> f <> 0 ->
  k_tasks k !! p = Some t -> t_state t = TASK_RUNNING -> 0 <= fd < MAX_FDS -> znth 0 (t_fds t) fd = 0 ->
  at_rest (with_fd k p t fd f).
Proof.
  intros H HU Hid Hf Ht Hst Hfd Hz. split; [| split; [by apply in_user_with_fd | done]].
  apply kinv_fd_set; try done; first [congruence | set_solver +].
Qed.

Lemma sys_pipe_ok k out : at_rest k -> wp (sys_pipe out) (fun _ k' => at_rest k') k.
Proof.
  intros R. unfold sys_pipe. destruct (user_range_ok out 8) eqn:Er; [| done]. cbn [negb].
  apply wp_bind, (rest_current k); [done |]. intros p t Ep Ht _ Hok Hs _ _.
  apply wp_bind. eapply wp_mono; [by apply (pipe_create_ok none), rest_kinv |].
  intros q k1 [S1 [[-> H1] | (Hq & _ & H1 & E1 & E2 & Hq1)]].
  { by apply wp_ret, (same_rest k). }
  pose proof (keeps_same _ _ S1) as (K1 & K2 & K3). destruct R as (H & HU & Hid). specialize (K3 HU). rewrite Hid in K2.
  apply Z.eqb_neq in Hq as Hq'. rewrite Hq'. pose proof S1 as (_ & T1 & T2 & _).
  assert (k_tasks k1 !! p = Some t) as Ht1 by congruence.
  apply wp_bind. eapply wp_mono; [by apply (alloc_fd_ok k1 p t) |]. intros rfd k0 [-> Hfd].
  destruct (Z.ltb_spec rfd 0) as [Hneg |]; [apply wp_bind; eapply wp_mono; [by apply rest_kfree_pipe | done] |].
  destruct Hfd as [| [Hfd Hz]]; [lia |].
  apply wp_bind. eapply wp_mono; [by apply (file_alloc_pipe_ok (add_pipe q none) k1 q fresh_pipe false) |].
  intros f k2 [S2 [(-> & H2 & P2) | (Hf & _ & H2 & Q2)]].
  { pose proof (keeps_same _ _ S2) as (L1 & L2 & L3). rewrite <- P2 in Hq1.
    destruct (ki_pipes _ _ H2 q _ Hq1) as [(_ & D1 & D2) _].
    apply wp_bind. eapply wp_mono; [by apply rest_kfree_pipe; [| auto | congruence | |] | done]. }
  rewrite drop_add_pipe in H2. apply Z.eqb_neq in Hf as Hf'. rewrite Hf'.
  pose proof (keeps_same _ _ S2) as (L1 & L2 & L3). specialize (L3 K3). rewrite K2 in L2.
  pose proof S2 as (_ & U1 & U2 & _). assert (k_tasks k2 !! p = Some t) as Ht2 by congruence.
  apply wp_bind. eapply wp_fds_set; [done | done |]. fold (with_fd k2 p t rfd f).
  pose proof (rest_install k2 p t rfd f H2 L3 L2 Hf Ht2 Hs Hfd Hz) as R3.
  set (t3 := set_fds t (zset (t_fds t) rfd f)).
  set (k3 := with_fd k2 p t rfd f) in *. assert (k_tasks k3 !! p = Some t3) as Ht3 by apply lookup_insert_eq.
  apply wp_bind. eapply wp_mono; [by apply (alloc_fd_ok k3 p t3) |]. intros wfd k0 [-> Hwf].
  destruct (Z.ltb_spec wfd 0) as [Hneg |]; [apply wp_bind; eapply wp_mono; [by eapply rest_close_fd | done] |].
  destruct Hwf as [| [Hwf Hwz]]; [lia |].
  apply wp_bind. eapply wp_mono; [apply (file_alloc_pipe_ok none k3 q (count_end fresh_pipe false 1) true); [by apply rest_kinv | exact Q2] |].
  intros g k4 [S4 [(-> & H4 & P4) | (Hg & _ & H4 & _)]].
  { pose proof (same_rest _ _ S4 H4 R3) as R4. destruct S4 as (_ & _ & V2 & _).
    apply wp_bind. eapply wp_mono; [eapply (rest_close_fd k4); [done | by rewrite V2 | done] | done]. }
  assert (drop_pipe q none = none) as E by (unfold drop_pipe, none; simpl; f_equal; set_solver +). rewrite E in H4.
  apply Z.eqb_neq in Hg as Hg'. rewrite Hg'. pose proof (keeps_same _ _ S4) as (V1 & V2 & V3).
  pose proof S4 as (_ & W1 & W2 & _). destruct R3 as (HK3 & HU3 & Hid3).
  assert (k_tasks k4 !! p = Some t3) as Ht4 by congruence.
  apply wp_bind. eapply wp_fds_set; [exact Ht4 | done |]. fold (with_fd k4 p t3 wfd g).
  assert (at_rest (with_fd k4 p t3 wfd g)) as R5 by (apply rest_install; auto; congruence).
  apply wp_bind. eapply wp_mono; [apply (rest_store_range _ out 8); [done | done | done] |]. intros [] k6 [R6 _].
  apply wp_bind. eapply wp_mono; [apply (rest_store k6); [done |] |].
  { intros i Hi. rewrite <- Z.add_assoc. apply (user_range_addr _ 8); [done |].
    unfold zlen in Hi. rewrite le_bytes_length in Hi. lia. }
  intros [] k7 [R7 _]. done.
Qed.

(** ** Names, files and keys *)

Lemma copy_string_loop_ok n : forall k addr,
  USER_REGION_START <= addr -> wp (copy_string_loop n addr) (fun r k' => k' = k /\ forall nm, r = Some nm -> Forall (fun c => 1 <= c < 256) nm) k.
Proof.
  induction n as [|n IH]; intros k addr Ha; cbn [copy_string_loop]; [done |].
  destruct (Z.leb_spec USER_SPACE_END addr); [done |]. apply wp_bind.
  assert (ring3_addr addr = true) as Hr by (unfold ring3_addr; rewrite andb_true_iff, Z.leb_le, Z.ltb_lt; lia).
  unfold u_load, wp at 1. rewrite Hr. destruct (m_load _ _ _) as [c|] eqn:El; [| done]. apply law_load in El.
  destruct (Z.eqb_spec c 0); [split; [done |]; by intros nm [= <-] |]. apply wp_bind. eapply wp_mono; [apply IH; lia |].
  intros o k' [-> Ho]. split; [done |]. destruct o as [l|]; [| done]. intros nm [= <-]. constructor; [lia | auto].
Qed.

Lemma copy_user_string_ok k ptr size :
  wp (copy_user_string ptr size) (fun r k' => k' = k /\ forall nm, r = Some nm -> Forall (fun c => 1 <= c < 256) nm) k.
Proof.
  unfold copy_user_string. destruct (size =? 0); [done |]. destruct (_ || _) eqn:E; [done |]. zbool.
  by apply copy_string_loop_ok.
Qed.

Lemma u32_le n : 0 <= n -> u32 n <= n.
Proof. intros. unfold u32. apply Z.mod_le; lia. Qed.

(** The length of a range of ring-3 space. *)
Lemma range_small buf n : 0 <= n -> user_range_ok buf n = true -> 0 <= u32 n <= USER_SPACE_END.
Proof.
  intros Hn H. pose proof (u32_le n Hn). pose proof (u32_range n). unfold user_range_ok in H. destruct (_ || _) eqn:E; [done |]. zbool.
  unfold USER_SPACE_END, USER_HEAP_LIMIT, USER_REGION_START, USER_CODE_BASE in *. lia.
Qed.

Lemma sys_list_ok k buf size : at_rest k -> 0 <= size -> wp (sys_list buf size) (fun _ k' => at_rest k') k.
Proof.
  intros R Hs. unfold sys_list. destruct (user_range_ok buf size) eqn:Er; [| done]. cbn [negb].
  apply wp_bind. unfold wp at 1. destruct (m_list_names _ _) as [[[m rc] bs] c] eqn:E.
  destruct (law_list _ _ _ _ _ _ (ki_ok _ _ (rest_kinv _ R)) (range_small _ _ Hs Er) E) as [Q Hl]. pose proof (u32_le size Hs).
  apply wp_bind. eapply wp_mono; [apply (rest_store_range _ buf size); [by apply rest_quiet | done | simpl; lia] |].
  by intros [] k' [R' _].
Qed.

Lemma sys_readfile_ok k name buf size :
  at_rest k -> 0 <= size -> wp (sys_readfile name buf size) (fun _ k' => at_rest k') k.
Proof.
  intros R Hs. unfold sys_readfile. apply wp_bind. eapply wp_mono; [apply copy_user_string_ok |].
  intros [nm|] k' [-> Hnm]; [| done]. destruct (user_range_ok buf size) eqn:Er; [| done]. cbn [negb].
  apply wp_bind. unfold wp at 1. destruct (m_read_file _ _ _) as [[[m rc] bs] c] eqn:E.
  destruct (law_read _ _ _ _ _ _ _ (ki_ok _ _ (rest_kinv _ R)) (range_small _ _ Hs Er) E) as [Q Hl]. pose proof (u32_le size Hs).
  apply wp_bind. eapply wp_mono; [apply (rest_store_range _ buf size); [by apply rest_quiet | done | simpl; lia] |].
  by intros [] k' [R' _].
Qed.

Lemma sys_writefile_ok k name buf len :
  at_rest k -> 0 <= len -> wp (sys_writefile name buf len) (fun _ k' => at_rest k') k.
Proof.
  intros R Hs. unfold sys_writefile. apply wp_bind. eapply wp_mono; [apply copy_user_string_ok |].
  intros [nm|] k' [-> Hnm]; [| done]. destruct (user_range_ok buf len) eqn:Er; [| done]. cbn [negb].
  pose proof (u32_le len Hs). pose proof (u32_range len).
  apply wp_bind. eapply wp_mono; [apply u_load_bytes_ok |].
  { intros i Hi. apply (user_range_addr _ len); [done | lia]. }
  intros bs k1 (-> & Hlen & Hbs). apply wp_bind. unfold m_op, wp at 1. destruct (m_write_file _ _ _) as [m rc] eqn:E.
  apply wp_ret, rest_quiet; [done |]. eapply law_write; [apply (ki_ok _ _ (rest_kinv _ R)) | by apply Hnm | done | | exact E].
  pose proof (range_small _ _ Hs Er). unfold zlen. lia.
Qed.

Lemma sys_delete_ok k name : at_rest k -> wp (sys_delete name) (fun _ k' => at_rest k') k.
Proof.
  intros R. unfold sys_delete. apply wp_bind. eapply wp_mono; [apply copy_user_string_ok |].
  intros [nm|] k' [-> Hnm]; [| done]. apply wp_bind. unfold m_op, wp at 1. destruct (m_delete _ _) as [m rc] eqn:E.
  apply wp_ret, rest_quiet; [done |]. by eapply law_delete; [apply (ki_ok _ _ (rest_kinv _ R)) |].
Qed.

Lemma sys_freecount_ok k : at_rest k -> wp sys_freecount (fun _ k' => at_rest k') k.
Proof.
  intros R. unfold sys_freecount, m_op, wp. destruct (m_free_count _) as [m rc] eqn:E.
  apply rest_quiet; [done |]. by eapply law_free_count; [apply (ki_ok _ _ (rest_kinv _ R)) |].
Qed.

Lemma sys_stat_ok k name ptr : at_rest k -> wp (sys_stat name ptr) (fun _ k' => at_rest k') k.
Proof.
  intros R. unfold sys_stat. apply wp_bind. eapply wp_mono; [apply copy_user_string_ok |].
  intros [nm|] k' [-> Hnm]; [| done]. destruct (user_range_ok ptr 8) eqn:Er; [| done]. cbn [negb].
  apply wp_bind. unfold wp at 1. destruct (m_stat _ _) as [[m rc] sz] eqn:E. cbn [fst snd].
  assert (at_rest (set_mach k m)) as R1.
  { apply rest_quiet; [done |]. by eapply law_stat; [apply (ki_ok _ _ (rest_kinv _ R)) |]. }
  destruct (negb _); [done |]. apply wp_bind.
  eapply wp_mono; [apply (rest_store_range _ ptr 8); [done | done | done] |]. by intros [] k' [R' _].
Qed.

Lemma sys_readkey_ok k r : at_rest k -> user_frame r -> wp (sys_readkey r) (fun r' k' => resumed k' r') k.
Proof.
  intros R Hu. unfold sys_readkey. apply wp_bind, wp_gets.
  pose proof (keyboard_getchar_spec _ (ki_kbd _ _ (rest_kinv _ R))) as Hs.
  destruct (keyboard_getchar (k_kbd k)) as [b c]. destruct Hs as [Hb _]. apply wp_bind, wp_modify.
  assert (at_rest (set_kbd k b)) as R1.
  { apply (same_rest k); [done | | done]. apply kinv_set_kbd; [by apply rest_kinv | done]. }
  destruct (negb (c =? 0)); [by apply wp_ret |].
  apply wp_bind. eapply wp_mono; [by apply task_block_ok |]. intros [v r'] k' [[R' Hu'] _]. apply wp_ret.
  split; [done |]. simpl. destruct (_ =? _); auto.
Qed.

(** ** Tasks and groups *)

Lemma rest_parent k : at_rest k -> 0 <= k_current k < 2 ^ 32 /\ parent_ok k (k_current k).
Proof.
  intros (H & (Hr & t & Ht & _) & _). destruct (ki_cur _ _ H Hr) as [Hc _]. destruct (ki_num _ _ H) as [Hn _].
  unfold MAX_TASKS_LIMIT in *. split; [lia |]. right. split; [done |]. by exists t.
Qed.

Lemma sys_run_ok k name i o g : at_rest k -> wp (sys_run name i o g) (fun _ k' => at_rest k') k.
Proof.
  intros R. destruct (rest_parent k R) as [Hr Hp]. unfold sys_run. apply wp_bind.
  eapply wp_mono; [apply copy_user_string_ok |]. intros [nm|] k' [-> Hnm]; [| done].
  apply wp_bind, wp_gets, wp_bind.
  eapply wp_mono; [apply task_create_ok; [by apply rest_kinv | by left; destruct R as (_ & ? & _) | done | done] |].
  intros id k' (H' & K' & _). apply wp_ret. by apply (keeps_rest k).
Qed.

Lemma sys_wait_ok k r : at_rest k -> user_frame r -> wp (sys_wait r) (fun r' k' => resumed k' r') k.
Proof.
  intros R Hu. unfold sys_wait. destruct (negb (rdi r =? 0) && negb (user_range_ok (rdi r) 8)) eqn:E; [by apply wp_ret |].
  apply task_wait_ok; try done. apply andb_false_iff in E as [E | E]; apply negb_false_iff in E; [left; by apply Z.eqb_eq | by right].
Qed.

Lemma sys_setfg_ok k g : at_rest k -> wp (sys_setfg g) (fun _ k' => at_rest k') k.
Proof.
  intros R. destruct (rest_parent k R) as [Hr _]. unfold sys_setfg. apply wp_bind, wp_gets, wp_bind.
  unfold scheduler_set_foreground. apply wp_bind.
  eapply wp_mono; [apply (may_use_group_ok none); [by apply rest_kinv | lia] |]. intros [] k' ->; [| done]. cbn [negb].
  apply wp_bind, wp_modify, wp_ret, wp_ret. apply (same_rest k); [done | | done]. by apply kinv_fg, rest_kinv.
Qed.

Lemma sys_signal_ok k sig h tr : at_rest k -> wp (sys_signal sig h tr) (fun _ k' => at_rest k') k.
Proof.
  intros R. unfold sys_signal. apply wp_bind, (rest_current k); [done |]. intros p t -> Ht _ Hok Hs _ _.
  apply wp_bind. unfold signal_install_handler. destruct (_ || _ || _); [done |].
  destruct (_ && _); [done |]. destruct (negb _); [done |].
  apply wp_bind. eapply wp_get_task; [done |]. apply wp_bind, wp_put_task, wp_ret, wp_ret.
  eapply rest_put_current; try done. destruct Hok; split; simpl; try done. by rewrite zlen_zset.
Qed.

Lemma sys_kill_ok k id sig : at_rest k -> wp (sys_kill id sig) (fun _ k' => at_rest k') k.
Proof.
  intros R. pose proof (rest_kinv _ R) as H. pose proof (u32_range id). unfold sys_kill. apply wp_bind, (task_by_id_ok none); [done | lia | done |].
  intros t Hl Ht Hok _. destruct (_ =? 0); [done |]. apply wp_bind. eapply wp_get_task; [done |].
  destruct (decide _); [done |]. destruct (_ || _); [done |]. apply wp_bind.
  eapply wp_mono; [apply (signal_raise_ok none); [done | lia] |]. intros [] k' [H' S']. apply wp_ret.
  by apply (steady_rest k).
Qed.

Lemma task_info_length t : zlen (task_info t) = SIZEOF_TASK_INFO.
Proof. unfold task_info, zlen. rewrite !length_app, !le_bytes_length. done. Qed.

Lemma tasks_loop_ok fuel : forall k id n cap buf size,
  at_rest k -> 0 <= id -> 0 <= n -> user_range_ok buf size = true -> cap * SIZEOF_TASK_INFO <= size ->
  wp (tasks_loop fuel id n cap buf) (fun _ k' => at_rest k') k.
Proof.
  induction fuel as [|fuel IH]; intros k id n cap buf size R Hid Hn Hb Hc; cbn [tasks_loop]; [done |].
  destruct (Z.ltb_spec n cap); [| done]. pose proof (rest_kinv _ R) as HK.
  apply wp_bind, (task_by_id_ok none); [done | done | eapply IH; eauto; lia |].
  intros t Hl Ht Hok _. destruct (_ =? 0); [eapply IH; eauto; lia |].
  apply wp_bind. eapply wp_get_task; [done |]. apply wp_bind. eapply wp_mono; [apply (rest_store k); [done |] |].
  { intros i Hi. rewrite task_info_length in Hi. rewrite <- Z.add_assoc. apply (user_range_addr _ size); [done |].
    unfold SIZEOF_TASK_INFO in *. lia. }
  intros [] k' [R' _]. eapply IH; eauto; lia.
Qed.

Lemma sys_tasks_ok k buf size : at_rest k -> 0 <= size -> wp (sys_tasks buf size) (fun _ k' => at_rest k') k.
Proof.
  intros R Hs. unfold sys_tasks. destruct (user_range_ok buf size) eqn:Er; [| done]. cbn [negb].
  apply wp_bind, wp_gets. eapply tasks_loop_ok; try done. unfold SIZEOF_TASK_INFO. mlia.
Qed.

(** ** Ring-3 memory regions *)

Lemma sys_mmap_ok k len : at_rest k -> 0 <= len -> wp (sys_mmap len) (fun _ k' => at_rest k') k.
Proof.
  intros R Hl. unfold sys_mmap. apply wp_bind, (rest_current k); [done |]. intros p t -> Ht _ Hok Hs Ha _.
  cbv zeta. destruct (_ || _) eqn:Eb; [done |]. zbool.
  destruct (round_up_spec len ltac:(lia)) as (R1 & R2 & R3). set (n := round_up_to_page len) in *.
  apply wp_bind. eapply wp_get_task; [done |]. pose proof (to_regions _ Hok) as Hreg.
  destruct (region_scan (t_regions t)) as [[slot next] total] eqn:Es.
  destruct (region_scan_spec _ _ _ _ Hreg Es) as (S1 & S2 & S3 & S4).
  destruct (Z.ltb_spec slot 0); [done |]. destruct S4 as [| [S4 S5]]; [lia |].
  destruct (Z.ltb_spec (u64 (USER_HEAP_LIMIT - next)) n) as [| Hfit]; [done |].
  rewrite u64_small in Hfit by (unfold USER_HEAP_BASE, USER_HEAP_LIMIT in *; lia).
  destruct (_ <? _); [done |]. apply wp_bind. unfold m_op, wp at 1.
  destruct (m_map_range _ _ _ _) as [m rc] eqn:Em.
  assert (at_rest (set_mach k m)) as R'.
  { apply rest_quiet; [done |].
    eapply law_map_range; [apply (ki_ok _ _ (rest_kinv _ R)) | exact Ha | | | | | | exact Em]; [lia | lia | lia | done | done]. }
  destruct (negb _); [done |]. apply wp_bind, wp_put_task, wp_ret.
  apply (rest_put_current (set_mach k m) t); try done. destruct Hok; split; simpl; try done.
  apply regions_add; try done. right. simpl. repeat split; done || lia.
Qed.

Lemma sys_munmap_ok k addr len : at_rest k -> 0 <= len -> wp (sys_munmap addr len) (fun _ k' => at_rest k') k.
Proof.
  intros R Hl. unfold sys_munmap. apply wp_bind, (rest_current k); [done |]. intros p t -> Ht _ Hok Hs Ha _.
  destruct (_ || _) eqn:Eb; [done |]. zbool. cbv zeta. set (n := round_up_to_page len).
  apply wp_bind. eapply wp_get_task; [done |]. pose proof (to_regions _ Hok) as Hreg.
  destruct (region_find _ _ _) as [i|] eqn:Ef; [| done]. apply scan_Some in Ef as (Hi & Hf & _). cbv beta zeta in Hf. zbool. subst addr.
  destruct (region_nth (t_regions t) i Hreg ltac:(unfold MAX_REGIONS in *; lia)) as [_ Hg].
  set (g := znth (mkRegion 0 0) (t_regions t) i) in *. destruct Hg as [| (G1 & G2 & G3 & G4 & G5)]; [lia |].
  apply wp_bind. unfold m_upd. apply wp_modify. apply wp_bind, wp_put_task, wp_ret.
  apply (rest_put_current (set_mach k _) t); try done.
  - apply rest_quiet; [done |]. apply law_unmap_range; [apply (ki_ok _ _ (rest_kinv _ R)) | done | done | lia | lia | done | congruence].
  - destruct Hok; split; simpl; try done. by apply regions_drop.
Qed.

(** ** Signals *)

(** The one stack pointer for which the frame is accepted and the return
    address falls below ring-3 space. *)
Definition frame_at_edge (r : registers) : Prop := signal_frame (user_rsp r) = USER_REGION_START.

Lemma signal_frame_aligned rsp : signal_frame rsp mod 16 = 0.
Proof.
  unfold signal_frame, SIZEOF_REGISTERS. rewrite (land_align_down 4) by (try apply u64_range; lia).
  set (x := u64 _ / 2 ^ 4). unfold u64. change (2 ^ 4) with 16. mlia.
Qed.

Lemma regs_bytes_length r : zlen (words_bytes (regs_words r)) = SIZEOF_REGISTERS.
Proof. done. Qed.

Lemma range_below ptr len :
  user_range_ok ptr len = true -> USER_REGION_START <= ptr < USER_SPACE_END /\ ptr + len <= USER_SPACE_END.
Proof. unfold user_range_ok. destruct (_ || _) eqn:E; [done |]. zbool. rewrite Z.leb_le. lia. Qed.

Lemma deliver_ok k r t sig :
  at_rest k -> user_frame r -> ~ frame_at_edge r -> k_tasks k !! znth 0 (k_tab k) (k_current k) = Some t ->
  wp (deliver_to_handler r (znth 0 (k_tab k) (k_current k)) sig) (fun r' k' => resumed k' r') k.
Proof.
  intros R Hu He Ht. unfold deliver_to_handler. cbv zeta.
  pose proof (signal_frame_aligned (user_rsp r)) as Hal.
  unfold frame_at_edge in He. set (sp := signal_frame (user_rsp r)) in *.
  destruct (user_range_ok sp (SIZEOF_REGISTERS + 8)) eqn:Er; cbn [negb]; [| by apply task_exit_ok].
  pose proof (range_below _ _ Er) as [Hsp Hsp2].
  apply wp_bind. eapply wp_mono; [apply (rest_store_range k sp (SIZEOF_REGISTERS + 8)); [done | done |] |].
  { rewrite regs_bytes_length. lia. }
  intros [] k1 [R1 E1]. assert (k_tasks k1 !! znth 0 (k_tab k) (k_current k) = Some t) as Ht1 by (by rewrite E1).
  apply wp_bind. eapply wp_get_task; [done |].
  assert (USER_REGION_START + 8 <= sp) as Hlow by (unfold USER_REGION_START, USER_CODE_BASE in *; mlia).
  rewrite (u64_small (sp - 8)) by (unfold USER_REGION_START, USER_CODE_BASE, USER_SPACE_END, USER_HEAP_LIMIT in *; lia).
  apply wp_bind. eapply wp_mono; [apply (rest_store k1); [done |] |].
  { intros i Hi. unfold zlen in Hi. rewrite le_bytes_length in Hi. unfold ring3_addr.
    rewrite andb_true_iff, Z.leb_le, Z.ltb_lt. unfold SIZEOF_REGISTERS in *. lia. }
  intros [] k2 [R2 E2]. assert (k_tasks k2 !! znth 0 (k_tab k) (k_current k) = Some t) as Ht2 by (by rewrite E2).
  assert (znth 0 (k_tab k) (k_current k) = znth 0 (k_tab k2) (k_current k2)) as Ep by (by rewrite E2, E1).
  rewrite Ep in *. apply wp_bind, wp_put_task, wp_ret. split; [| done].
  destruct (task_entry _ _ _ _ (rest_kinv _ R2) Ht2) as (_ & _ & Hok).
  eapply rest_put_current; try done.
  - destruct Hok; split; simpl; done.
  - destruct R2 as (_ & (_ & t2 & Ht2' & Hs2) & _). simpl. congruence.
Qed.

(** As [wp], but undefined behaviour is allowed when [E] holds. *)
Definition wp_or (E : Prop) {A} (m : K M A) (Q : A -> kernel M -> Prop) k : Prop :=
  match m k with Ret a k' => Q a k' | Stop => True | UB => E end.

Lemma wp_or_wp E {A} (m : K M A) Q k : wp m Q k -> wp_or E m Q k.
Proof. unfold wp, wp_or. by destruct (m k). Qed.
Lemma wp_or_bind E {A B} (m : K M A) (f : A -> K M B) Q k :
  wp m (fun a k' => wp_or E (f a) Q k') k -> wp_or E (m ≫= f) Q k.
Proof. unfold wp, wp_or, mbind, K_bind. by destruct (m k). Qed.

(** At the edge the frame is stored and the return address is not. *)
Lemma deliver_edge k r p sig Q : frame_at_edge r -> wp_or (frame_at_edge r) (deliver_to_handler r p sig) Q k.
Proof.
  intros He. unfold wp_or. destruct (deliver_to_handler r p sig k) as [r' k' | |] eqn:E; [exfalso | done | done].
  revert E. unfold deliver_to_handler. cbv zeta. rewrite He.
  replace (user_range_ok USER_REGION_START (SIZEOF_REGISTERS + 8)) with true by done. cbn [negb].
  unfold mbind, K_bind. destruct (u_store_bytes _ _ k) as [[] k1 | |]; [| done | done].
  unfold get_task. destruct (k_tasks k1 !! p) as [t|]; [| done].
  replace (u64 (USER_REGION_START - 8)) with 0x3FFFF8 by done. simpl u_store_bytes.
  unfold mbind, K_bind, u_store. by replace (ring3_addr 0x3FFFF8) with false by done.
Qed.

Lemma check_signals_ok k r :
  at_rest k -> user_frame r -> wp_or (frame_at_edge r) (check_signals r) (fun r' k' => resumed k' r') k.
Proof.
  intros R Hu. unfold check_signals. destruct (negb _); [done |].
  apply wp_or_bind, (rest_current k); [done |]. intros p t -> Ht Hp Hok Hs _ _.
  apply Z.eqb_neq in Hp as ->. apply wp_or_bind. eapply wp_get_task; [done |].
  destruct (decide _); [done |]. destruct (t_active t); [done |]. destruct (_ =? 0); [done |].
  destruct (lowest_pending _) as [sig|]; [| done]. destruct (_ || _).
  - apply wp_or_bind, wp_put_task, wp_or_wp. apply task_exit_ok; [| done].
    eapply rest_put_current; try done. destruct Hok; split; simpl; done.
  - destruct (decide (signal_frame (user_rsp r) = USER_REGION_START)) as [E | E]; [by apply deliver_edge |].
    apply wp_or_wp. by eapply deliver_ok.
Qed.

Lemma sigreturn_ok k r : at_rest k -> user_frame r -> wp (signal_sigreturn r) (fun r' k' => resumed k' r') k.
Proof.
  intros R Hu. unfold signal_sigreturn. apply wp_bind, (rest_current k); [done |].
  intros p t -> Ht Hp Hok Hs _ _. apply wp_bind. eapply wp_get_task; [done |].
  destruct (negb (t_active t)); [by apply task_exit_ok |].
  destruct (user_range_ok (t_ctx t) SIZEOF_REGISTERS) eqn:Er; cbn [negb]; [| by apply task_exit_ok].
  apply wp_bind. eapply wp_mono; [apply u_load_bytes_ok |].
  { intros i Hi. apply (user_range_addr _ SIZEOF_REGISTERS); [done |]. unfold SIZEOF_REGISTERS in *. lia. }
  intros bs k1 [-> _]. apply wp_bind, wp_put_task, wp_ret. split.
  - eapply rest_put_current; try done. destruct Hok; split; simpl; done.
  - split; [done |]. split; [done |]. intros _. cbn [rflags set_priv]. rewrite Z.lor_spec. by rewrite orb_true_r.
Qed.

(** ** The entry points *)

Lemma returning_ok k r m :
  user_frame r -> wp m (fun _ k' => at_rest k') k -> wp (returning r m) (fun r' k' => resumed k' r') k.
Proof. intros Hu Hm. unfold returning. apply wp_bind. eapply wp_mono; [exact Hm |]. by intros v k' R'. Qed.

Lemma dispatch_ok k r :
  at_rest k -> user_frame r -> regs64 r -> wp (dispatch r) (fun r' k' => resumed k' r') k.
Proof.
  intros R Hu Hw. pose proof (regs64_args _ Hw) as (A1 & A2 & A3 & A4). unfold dispatch. cbv zeta.
  repeat (match goal with |- wp (if ?b then _ else _) _ _ => destruct b end;
    [first [by apply sys_write_ok | by apply sys_read_ok | by apply sys_readkey_ok | by apply sys_wait_ok
           | by apply sigreturn_ok | by apply task_exit_ok | apply returning_ok; [done |]] |]).
  all: try (first [apply sys_list_ok | apply sys_run_ok | apply sys_readfile_ok | apply sys_writefile_ok
    | apply sys_delete_ok | apply sys_freecount_ok | apply sys_stat_ok | apply sys_close_ok | apply sys_pipe_ok
    | apply sys_setfg_ok | apply sys_signal_ok | apply sys_kill_ok | apply sys_tasks_ok | apply sys_mmap_ok
    | apply sys_munmap_ok]; done || lia).
  by apply wp_ret.
Qed.

Lemma timer_callback_ok k r : at_rest k -> user_frame r -> wp (timer_callback r) (fun r' k' => resumed k' r') k.
Proof.
  intros (H & (Hr & HU) & Hid) Hu. unfold timer_callback. apply wp_bind, wp_modify.
  eapply wp_mono; [apply (schedule_ok none); [by apply kinv_tick | done | done | done] |].
  intros r' k' (H' & Hu' & HU' & Hid' & _). done.
Qed.

Lemma keyboard_rest_ok k sc : at_rest k -> wp (keyboard_callback sc) (fun _ k' => at_rest k') k.
Proof.
  intros R. eapply wp_mono; [by apply (keyboard_callback_ok none), rest_kinv |].
  intros [] k' [H' S']. by apply (steady_rest k).
Qed.
End Safe.
