(* ===== verification/RoundRobin.v ===== *)
(** * The timer tick is a fair round robin

    A tick that interrupts a running task saves its frame, hands the
    processor to the first ready task behind it in cyclic order of the task
    table and restores that task's frame.  Hence a ready task runs after at
    most [num_tasks] ticks, whatever the others do. *)

From stdpp Require Import base list gmap fin_maps fin_map_dom.
From Stdlib Require Import ZArith Lia Bool.
From S2P Require Import Prelude Frames Ring Kernel Sched Syscall.
From S2P Require Import KernelInv KernelFiles KernelTasks KernelCreate KernelSafe.

Section Robin.
Context {M : Type} {mach : Machine M}.

(** ** Code that cannot stop the machine *)

Definition never_stops {A} (m : K M A) : Prop := forall k, m k <> Stop.

Lemma ns_ret {A} (a : A) : never_stops (mret a : K M A).
Proof. by intros k. Qed.
Lemma ns_bind {A B} (m : K M A) (f : A -> K M B) :
  never_stops m -> (forall a, never_stops (f a)) -> never_stops (m ≫= f).
Proof. intros Hm Hf k. unfold mbind, K_bind. specialize (Hm k). destruct (m k); [apply Hf | done | done]. Qed.
Lemma ns_gets {A} (f : kernel M -> A) : never_stops (gets f).
Proof. by intros k. Qed.
Lemma ns_modify f : never_stops (modify f).
Proof. by intros k. Qed.
Lemma ns_get_task p : never_stops (get_task p).
Proof. intros k. unfold get_task. by destruct (k_tasks k !! p). Qed.
Lemma ns_tab_get i : never_stops (tab_get i).
Proof. intros k. unfold tab_get. by destruct (_ && _). Qed.
Lemma ns_tab_set i p : never_stops (tab_set i p).
Proof. intros k. unfold tab_set. by destruct (_ && _). Qed.
Lemma ns_kfor n i body : (forall j, never_stops (body j)) -> never_stops (kfor n i body).
Proof. revert i. induction n as [|n IH]; intros i Hb; simpl; [apply ns_ret |]. apply ns_bind; auto. Qed.

Lemma twp_of_wp {A} (m : K M A) Q k : never_stops m -> wp m Q k -> twp m Q k.
Proof. intros Hn. specialize (Hn k). unfold wp, twp. by destruct (m k). Qed.

Create HintDb ns.
Hint Resolve ns_ret ns_bind ns_gets ns_modify ns_get_task ns_tab_get ns_tab_set ns_kfor : ns.

Ltac ns :=
  repeat match goal with
  | |- forall _, _ => intro
  | |- never_stops (if ?b then _ else _) => destruct b
  | |- never_stops (_ ≫= _) => apply ns_bind
  | |- _ => solve [eauto with ns]
  end.

Lemma ns_reap_sweep : never_stops reap_sweep.
Proof. unfold reap_sweep, drop_aspace, parent_alive, kfree_task, kfree_raw, put_task, m_upd. ns. apply ns_kfor. ns. Qed.
Lemma ns_next_ready n : forall i from, never_stops (next_ready n i from).
Proof. induction n as [|n IH]; intros i from; cbn [next_ready]; ns. Qed.
Lemma ns_find_next_ready from : never_stops (find_next_ready from).
Proof. unfold find_next_ready. ns. apply ns_next_ready. Qed.

Context {laws : MachineLaws M}.
Implicit Types k : kernel M.

(** ** Which tasks are ready *)

Lemma ready_iff z k i :
  kinv z k -> ready_at k i <-> exists p t, k_tasks k !! p = Some t /\ t_id t = i /\ t_state t = TASK_READY.
Proof.
  intros H. split.
  - intros (Hi & t & Ht & Hs). exists (znth 0 (k_tab k) i), t. split; [done |]. split; [| done].
    destruct (ki_num _ _ H) as [Hn _].
    destruct (kinv_entry z k i H ltac:(lia)) as (t' & Ht' & E & _); [by apply (kinv_task_nonzero _ _ _ _ H Ht) |].
    congruence.
  - intros (p & t & Ht & <- & Hs). destruct (ki_tasks _ _ H _ _ Ht) as (Hi & E & _).
    split; [done |]. exists t. by rewrite E.
Qed.

Lemma ready_living k k' i :
  kinv none k -> kinv none k' -> same_living k k' -> ready_at k i <-> ready_at k' i.
Proof.
  intros H H' L. rewrite (ready_iff none k), (ready_iff none k') by done.
  split; intros (p & t & Ht & E & Hs); exists p, t; (split; [apply (L p t); congruence | done]).
Qed.

Lemma parked_id t r : t_id (parked t r) = t_id t.
Proof. unfold parked. cbv zeta. by destruct (decide _). Qed.
Lemma parked_regs t r : t_regs (parked t r) = r.
Proof. unfold parked. cbv zeta. by destruct (decide _). Qed.

(** Parking the running task makes it ready and changes no other. *)
Lemma ready_parked k t r i :
  kinv none k -> k_running k = true -> user_frame r ->
  k_tasks k !! znth 0 (k_tab k) (k_current k) = Some t -> t_state t = TASK_RUNNING -> t_id t = k_current k ->
  ready_at (set_tasks k (<[znth 0 (k_tab k) (k_current k) := parked t r]> (k_tasks k))) i <->
  ready_at k i \/ i = k_current k.
Proof.
  intros H Hr Hu Ht Hs Eid. destruct (kinv_park none k t r H Hr Ht Hu) as [H2 _]. cbv zeta in H2.
  set (p := znth 0 (k_tab k) (k_current k)) in *. rewrite (ready_iff none _ i H2), (ready_iff none k i H). simpl.
  assert (t_state (parked t r) = TASK_READY /\ t_id (parked t r) = k_current k) as [P1 P2].
  { unfold parked. cbv zeta. rewrite decide_True by done. done. }
  split.
  - intros (q & x & Hx & E & Hx'). destruct (decide (q = p)) as [-> | Hne].
    + rewrite lookup_insert_eq in Hx. simplify_eq. by right.
    + rewrite lookup_insert_ne in Hx by done. left. by exists q, x.
  - intros [(q & x & Hx & E & Hx') | ->].
    + exists q, x. split; [| done]. rewrite lookup_insert_ne; [done |]. intros <-. congruence.
    + exists p, (parked t r). by rewrite lookup_insert_eq.
Qed.

(** ** One tick *)

(** What a tick does to the machine: the processor goes from the task at
    [k_current k] to the first ready one behind it, or stays. *)
Definition ticked k (r : registers) k' (r' : registers) : Prop :=
  resumed k' r' /\ k_num k' = k_num k /\
  (forall i, ready_at k i -> i <> k_current k' -> ready_at k' i) /\
  exists j, 1 <= j <= k_num k /\ k_current k' = (k_current k + j) mod k_num k /\
    (forall j', 1 <= j' < j -> ~ ready_at k ((k_current k + j') mod k_num k)) /\
    (k_current k' = k_current k /\ r' = r \/
     k_current k' <> k_current k /\ ready_at k' (k_current k) /\
     exists t t', k_tasks k !! znth 0 (k_tab k) (k_current k') = Some t /\ t_state t = TASK_READY /\ r' = t_regs t /\
       k_tasks k' !! znth 0 (k_tab k) (k_current k) = Some t' /\ t_regs t' = r).

(** The state a tick has parked, entered at candidate [c]. *)
Lemma ticked_enter k t r c :
  kinv none k -> k_running k = true -> k_idling k = false -> user_frame r ->
  k_tasks k !! znth 0 (k_tab k) (k_current k) = Some t -> t_state t = TASK_RUNNING -> t_id t = k_current k ->
  let k2 := set_tasks k (<[znth 0 (k_tab k) (k_current k) := parked t r]> (k_tasks k)) in
  forall j tq, 1 <= j <= k_num k -> c = (k_current k + j) mod k_num k -> ready_at k2 c ->
  (forall j', 1 <= j' < j -> ~ ready_at k2 ((k_current k + j') mod k_num k)) ->
  k_tasks k2 !! znth 0 (k_tab k2) c = Some tq -> t_state tq = TASK_READY ->
  ticked k r (entered k2 c tq) (if c =? k_current k then r else t_regs tq).
Proof.
  intros H Hr Hid Hu Ht Hs Eid k2 j tq Hj Ec Hc Hfirst Htq Hsq.
  destruct (kinv_park none k t r H Hr Ht Hu) as [H2 Hnone]. fold k2 in H2, Hnone.
  assert (forall i, ready_at k2 i <-> ready_at k i \/ i = k_current k) as Hrdy by (intros i; by apply ready_parked).
  destruct (kinv_switch none k2 c tq H2 Hr Hnone) as [HK HU]; [by destruct Hc | done | done |].
  change (kinv none (entered k2 c tq)) in HK. change (in_user (entered k2 c tq)) in HU.
  destruct (task_entry _ _ _ _ H2 Htq) as (_ & _ & Hokq).
  assert (t_id tq = c) as Eq.
  { destruct Hc as [Hc _]. destruct (ki_num _ _ H2) as [Hn _].
    destruct (kinv_entry none k2 c H2 ltac:(lia)) as (t' & Ht' & E & _); [by apply (kinv_task_nonzero _ _ _ _ H2 Htq) |].
    congruence. }
  assert (forall i, ready_at k2 i -> i <> c -> ready_at (entered k2 c tq) i) as Hkeep.
  { intros i Hi Hne. rewrite (ready_iff none k2 i H2) in Hi. rewrite (ready_iff none _ i HK).
    destruct Hi as (p & x & Hx & E & Hx'). exists p, x. split; [| done].
    unfold entered; simpl. rewrite lookup_insert_ne; [done |].
    intros Ep. change (znth 0 (k_tab k2) c = p) in Ep. rewrite Ep in Htq. congruence. }
  split; [split; [split; [done |]; split; [done | exact Hid] | destruct (c =? _); [done | exact (to_regs _ Hokq)]] |].
  split; [done |]. split; [intros i Hi Hne; apply Hkeep; [apply Hrdy; by left | done] |].
  exists j. split; [done |]. split; [done |]. split; [intros j' Hj' Hy; apply (Hfirst j' Hj'), Hrdy; by left |].
  simpl. destruct (Z.eqb_spec c (k_current k)) as [E | E]; [by left |]. right. split; [done |].
  split; [apply Hkeep; [apply Hrdy; by right | done] |].
  assert (znth 0 (k_tab k) c <> znth 0 (k_tab k) (k_current k)) as Hne.
  { intros E'. unfold k2 in Htq; simpl in Htq. rewrite E', lookup_insert_eq in Htq. simplify_eq.
    apply E. by rewrite <- Eq, parked_id. }
  exists tq, (parked t r). unfold k2 in Htq; simpl in Htq. rewrite lookup_insert_ne in Htq by done.
  split; [done |]. split; [done |]. split; [done |]. split.
  - rewrite lookup_insert_ne by done. apply lookup_insert_eq.
  - apply parked_regs.
Qed.

(** The relation does not look at dead tasks or the tick count. *)
Lemma ticked_living k k1 r k' r' :
  kinv none k -> kinv none k1 -> same_cpu k k1 -> same_living k k1 -> k_running k = true ->
  (exists t, k_tasks k !! znth 0 (k_tab k) (k_current k) = Some t /\ t_state t = TASK_RUNNING) ->
  ticked k1 r k' r' -> ticked k r k' r'.
Proof.
  intros H H1 (C1 & C2 & C3 & C4) L Hr (tc & Htc & Hsc) (T1 & T2 & T3 & j & T4 & T5 & T6 & T7).
  assert (forall i, ready_at k i <-> ready_at k1 i) as Hrdy by (intros; by apply ready_living).
  assert (forall i t, k_tasks k1 !! znth 0 (k_tab k1) i = Some t -> 0 <= i < k_num k -> t_state t <> TASK_ZOMBIE ->
    k_tasks k !! znth 0 (k_tab k) i = Some t) as Hent.
  { intros i t Hi Hir Hs. pose proof Hi as Hp. apply L in Hp; [| done].
    destruct (ki_num _ _ H1) as [Hn _].
    destruct (kinv_entry none k1 i H1 ltac:(lia)) as (t' & Ht' & E & _); [by apply (kinv_task_nonzero _ _ _ _ H1 Hi) |].
    destruct (ki_tasks _ _ H _ _ Hp) as (_ & E' & _). assert (t_id t = i) as <- by congruence. congruence. }
  destruct (ki_cur _ _ H Hr) as (Hc & _).
  assert (znth 0 (k_tab k1) (k_current k) = znth 0 (k_tab k) (k_current k)) as Etab.
  { pose proof Htc as Hp. apply L in Hp; [| congruence]. destruct (ki_tasks _ _ H _ _ Htc) as (_ & _ & _).
    destruct (ki_tasks _ _ H1 _ _ Hp) as (_ & E & _). destruct (ki_run _ _ H _ _ Htc Hsc) as [_ E2]. by rewrite E2 in E. }
  split; [done |]. split; [congruence |]. split; [intros i Hi; apply T3; by apply Hrdy |].
  exists j. rewrite C1, C2 in *. split; [done |]. split; [done |]. split; [intros j' Hj' Hy; by apply (T6 j' Hj'), Hrdy |].
  destruct T7 as [T7 | (T7 & T8 & t & t' & A1 & A2 & A3 & A4 & A5)]; [by left |]. right. split; [done |].
  split; [done |]. exists t, t'. rewrite Etab in A4. split; [apply Hent; [done | | congruence] | done].
  rewrite T5. apply Z.mod_pos_bound. lia.
Qed.

Lemma schedule_ticked k r :
  at_rest k -> user_frame r -> twp (schedule r) (fun r' k' => ticked k r k' r') k.
Proof.
  intros (H & (Hr & tc & Htc & Hsc) & Hid) Hu. unfold schedule. apply twp_bind. unfold twp at 1, gets. rewrite Hr. cbn [negb].
  apply twp_bind. unfold twp at 1. rewrite Hid. apply twp_bind.
  eapply twp_mono; [apply twp_of_wp; [apply ns_reap_sweep | by apply (reap_sweep_ok none)] |].
  intros [] k1 (H1 & C & L & _). pose proof C as (C1 & C2 & C3 & C4).
  assert (k_running k1 = true) as Hr1 by congruence. destruct (ki_num _ _ H1) as [Hn _].
  destruct (ki_run _ _ H _ _ Htc Hsc) as [_ Eid]. destruct (ki_cur _ _ H1 Hr1) as (Hc & t & Ht & _ & _).
  assert (t = tc) as ->.
  { pose proof Htc as Hp. apply L in Hp; [| congruence]. destruct (ki_tasks _ _ H1 _ _ Hp) as (_ & E & _).
    rewrite Eid, <- C2 in E. congruence. }
  apply twp_bind. unfold twp at 1. apply twp_bind. unfold twp at 1, tab_get.
  replace ((0 <=? k_current k1) && (k_current k1 <? MAX_TASKS_LIMIT)) with true by (zcases; simpl; lia || done).
  destruct (Z.eqb_spec (znth 0 (k_tab k1) (k_current k1)) 0) as [E | _]; [by apply (kinv_task_nonzero _ _ _ _ H1) in Ht |].
  apply twp_bind. unfold twp at 1, get_task at 1. rewrite Ht. unfold twp. rewrite park_eq by done.
  assert (t_id tc = k_current k1) as Eid1 by congruence.
  set (k2 := set_tasks k1 _). destruct (kinv_park none k1 tc r H1 Hr1 Ht Hu) as [H2 Hnone]. fold k2 in H2, Hnone.
  pose proof (find_next_ready_ok none k2 (k_current k1) H2 Hc) as Hfind.
  pose proof (ns_find_next_ready (k_current k1) k2) as Hns.
  unfold mbind at 1, K_bind at 1. unfold wp in Hfind. destruct (find_next_ready (k_current k1) k2) as [c k3 | |]; [| done | done].
  destruct Hfind as [-> Hcase]. assert (ready_at k2 (k_current k1)) as Hself by (apply (ready_parked k1 tc r); auto).
  destruct Hcase as [(_ & Hno) | (j & Hj & Ec & Hrdy & Hfirst)]; [by destruct (Hno _ Hself) |].
  pose proof Hrdy as (Hcr & tq & Htq & Hsq). destruct (Z.ltb_spec c 0); [lia |].
  unfold mbind at 1, K_bind at 1, mret at 1, K_ret at 1. cbv zeta.
  pose proof (enter_eq none k2 c tq r H2 Hr1 Hcr Htq) as Een.
  match goal with |- match ?m with _ => _ end =>
    replace m with (Ret (if c =? k_current k1 then r else t_regs tq) (entered k2 c tq)) by (symmetry; exact Een) end.
  apply (ticked_living k k1); try done; [by exists tc |].
  by apply (ticked_enter k1 tc r c H1 Hr1 ltac:(congruence) Hu Ht Hsc Eid1 j tq).
Qed.

Lemma timer_ticked k r :
  at_rest k -> user_frame r -> twp (timer_callback r) (fun r' k' => ticked k r k' r') k.
Proof.
  intros R Hu. unfold timer_callback. apply twp_bind. unfold twp at 1, modify.
  assert (at_rest (set_tick k (u32 (k_tick k + 1)))) as R1.
  { apply (same_rest k); [done | | done]. by apply kinv_tick, rest_kinv. }
  eapply twp_mono; [by apply schedule_ticked |]. intros r' k' T. exact T.
Qed.

(** ** Many ticks *)

(** [n] ticks in a row; [u i] is what the running task does to its registers
    after tick number [i]. *)
Fixpoint ticks (u : nat -> registers -> registers) (n : nat) (r : registers) : K M registers :=
  match n with
  | O => mret r
  | S n' => r ← timer_callback r ; ticks (fun i => u (S i)) n' (u 0%nat r)
  end.

(** How many candidates the scan passes before it reaches [i]. *)
Definition distance k (i : Z) : Z := (i - k_current k - 1) mod k_num k.

Lemma distance_decreases k r k' r' i :
  0 <= k_current k < k_num k -> ready_at k i -> ticked k r k' r' -> i <> k_current k' ->
  ready_at k' i /\ 0 <= distance k' i < distance k i.
Proof.
  intros Hc Hi (_ & En & Hkeep & j & Hj & Ec & Hfirst & _) Hne. split; [by apply Hkeep |].
  pose proof Hi as [Hir _]. unfold distance. rewrite En. set (n := k_num k) in *. set (c := k_current k) in *.
  split; [apply Z.mod_pos_bound; lia |].
  destruct (cyclic_cover n c i Hc Hir) as (d & Hd & Ed).
  assert (j < d) as Hjd.
  { destruct (Z.lt_trichotomy j d) as [| [-> | Hlt]]; [done | congruence |].
    exfalso. apply (Hfirst d); [lia |]. by rewrite Ed. }
  assert ((i - c - 1) mod n = d - 1) as ->.
  { symmetry. apply (Z.mod_unique _ _ ((i - c - d) / n)); [lia |].
    assert ((i - c - d) mod n = 0) as Hm.
    { rewrite <- Ed. replace ((c + d) mod n - c - d) with ((c + d) mod n - (c + d)) by lia.
      rewrite Zminus_mod, Z.mod_mod, Z.sub_diag by lia. done. }
    pose proof (Z.div_mod (i - c - d) n ltac:(lia)). lia. }
  rewrite Ec. assert ((i - (c + j) mod n - 1) mod n = d - j - 1) as ->; [| lia].
  symmetry. rewrite <- Ed. rewrite <- Zminus_mod_idemp_l, <- Zminus_mod.
  rewrite <- (Z.mod_small (d - j - 1) n) by lia.
  rewrite Zminus_mod_idemp_l. f_equal. lia.
Qed.
End Robin.
