(* ===== verification/System.v ===== *)
(** * The running system

    The boot of [kernel/kernel.c] from the first program on, and the system
    it starts: ring 3 computes, and enters the kernel by a system call, a
    timer tick or a key press ([irq_handler] and the syscall stub of
    [kernel/isr.c], [kernel/isr_stubs.asm]). [reach] is what can happen,
    [system_safe] says that none of it is undefined behaviour, with the one
    exception that [frame_at_edge] names. *)

From stdpp Require Import base list gmap fin_maps fin_map_dom.
From Stdlib Require Import ZArith Lia Bool.
From S2P Require Import Prelude Frames Ring Kernel Sched Syscall.
From S2P Require Import KernelInv KernelFiles KernelTasks KernelCreate KernelSafe.

(** ["SHELL.ELF"] *)
Definition user_program : list Z := [83; 72; 69; 76; 76; 46; 69; 76; 70].

Definition keyboard_zero : kbd := mkKbd (replicate (Z.to_nat KBD_BUFFER_SIZE) 0) 0 0 false false false false.

(** The frame [enter_user_mode] builds. The general registers keep whatever
    the kernel left in them; they are 0 here, and the first ring-3 step may
    replace them. *)
Definition enter_user_mode (entry user_stack_top : Z) : registers :=
  mkRegs 0 0 0 0 0 0 0 0 0 0 0 0 0 0 0 0 0 entry GDT_SELECTOR_USER_CODE USER_MODE_RFLAGS
    user_stack_top GDT_SELECTOR_USER_DATA.

Section System.
Context {M : Type} {mach : Machine M}.

(** The static variables before [kernel_main] starts a program, with the
    scancodes the keyboard will send while the kernel idles. *)
Definition initial_kernel (m : M) (events : list Z) : kernel M :=
  mkKernel (replicate (Z.to_nat MAX_TASKS_LIMIT) 0) ∅ ∅ ∅ 0 0 0 false false keyboard_zero 0 [] events 0 m.

(** [kernel_main] from the loading of the program list on. *)
Definition kernel_main : K M registers :=
  id ← task_create_from_file user_program TASK_NO_PARENT (-1) (-1) TASK_PGID_INHERIT ;
  if id <? 0 then halt
  else x ← scheduler_start ; mret (enter_user_mode x.1 x.2).

(** What ring 3 can make of its registers by computing: they are 64-bit, the
    selectors and the I/O privilege level stay, and the interrupt flag stays
    unless the program has I/O privilege. *)
Definition computes (r r' : registers) : Prop :=
  regs64 r' /\ cs r' = cs r /\ ss r' = ss r /\ Z.land (rflags r') 0x3000 = Z.land (rflags r) 0x3000 /\
  (io_closed r -> Z.testbit (rflags r') 9 = Z.testbit (rflags r) 9).

(** One thing that happens to a machine in ring 3. Interrupts arrive while
    they are on. A program that has got itself I/O privilege (by
    [SYS_SIGRETURN], see [sigreturn_privilege]) can turn them off, and could
    also drive the devices with [in] and [out]: a run here has no such
    instruction. Without the privilege they fault, and a fault of a program
    ends the run, for [isr_handler] halts the machine. *)
Inductive sys_step : kernel M * registers -> kernel M * registers -> Prop :=
| step_compute k r r' : computes r r' -> sys_step (k, r) (k, r')
| step_store k r va b m :
    ring3_addr va = true -> m_store (k_mach k) (k_cr3 k) va b = Some m ->
    sys_step (k, r) (set_mach k m, r)
| step_syscall k r k' r' :
    regs64 r -> syscall_handler r k = Ret r' k' -> sys_step (k, r) (k', r')
| step_timer k r k' r' :
    Z.testbit (rflags r) 9 = true -> timer_irq r k = Ret r' k' -> sys_step (k, r) (k', r')
| step_key k r sc k' r' :
    Z.testbit (rflags r) 9 = true -> keyboard_irq sc r k = Ret r' k' -> sys_step (k, r) (k', r')
| step_event k r ev : sys_step (k, r) (set_events k ev, r).

Inductive reach (m0 : M) : kernel M * registers -> Prop :=
| reach_boot ev k r : kernel_main (initial_kernel m0 ev) = Ret r k -> reach m0 (k, r)
| reach_step s s' : reach m0 s -> sys_step s s' -> reach m0 s'.

Context {laws : MachineLaws M}.
Implicit Types k : kernel M.

Lemma computes_user r r' : user_frame r -> computes r r' -> user_frame r'.
Proof.
  intros (C & S & I) (_ & C' & S' & P & F). split; [congruence |]. split; [congruence |].
  intros Hc. assert (io_closed r) as Hr by (unfold io_closed in *; congruence). rewrite F; auto.
Qed.

(** ** Boot *)

Lemma kinv_initial m ev :
  m_ok m -> m_live m = ∅ -> m_as m = ∅ -> kinv none (initial_kernel m ev).
Proof.
  intros Hok Hl Ha. unfold initial_kernel.
  assert (forall i, znth 0 (replicate (Z.to_nat MAX_TASKS_LIMIT) 0) i = 0) as Hz.
  { intros i. unfold znth. destruct (i <? 0); [done |].
    destruct (replicate _ _ !! _) eqn:E; [| done]. by apply lookup_replicate in E as [-> _]. }
  split; simpl; rewrite ?Hl, ?Ha, ?dom_empty_L; try done; try (intros *; rewrite lookup_empty; done).
  - intros i _ E. destruct (E (Hz i)).
  - intros p i f (t & Ht & _). simpl in Ht. by rewrite lookup_empty in Ht.
  - intros p i p' i' f (t & Ht & _). simpl in Ht. by rewrite lookup_empty in Ht.
  - split; [by vm_compute |]. apply Forall_replicate. lia.
Qed.

(** Entering the first task. *)
Lemma kinv_start k t :
  kinv none k -> k_running k = false -> k_idling k = false -> 0 < k_num k ->
  k_tasks k !! znth 0 (k_tab k) 0 = Some t -> t_state t = TASK_READY ->
  let t' := set_tstate t TASK_RUNNING (t_wait t) in
  at_rest (set_cr3 (set_running (set_tasks (set_current k 0) (<[znth 0 (k_tab k) 0 := t']> (k_tasks k))) true)
             (m_pml4 (k_mach k) (t_aspace t))).
Proof.
  intros H Hr Hid Hn Ht Hst t'.
  assert (forall p x, k_tasks k !! p = Some x -> t_state x <> TASK_RUNNING) as Hno.
  { intros p x Hx Hs. destruct (ki_run _ _ H _ _ Hx Hs). congruence. }
  destruct (ki_num _ _ H) as [Hnum _].
  destruct (kinv_entry none k 0 H) as (t0 & Ht0 & Eid & _ & Hok).
  { unfold MAX_TASKS_LIMIT. lia. } { by apply (kinv_task_nonzero _ _ _ _ H Ht). }
  assert (t0 = t) as -> by congruence.
  assert (t_aspace t <> 0) as Hz by (intros E; pose proof (to_aspace _ Hok E); congruence).
  destruct (ki_as _ _ H _ _ Ht Hz) as (_ & _ & Ecr).
  set (k2 := set_cr3 (set_running (set_current k 0) true) (m_pml4 (k_mach k) (t_aspace t))).
  assert (kinv none k2) as H2.
  { destruct H; split; simpl; try done.
    - intros p x Hx Hs. by destruct (Hno p x Hx).
    - intros _. split; [lia |]. exists t. done. }
  split; [| split; [| exact Hid]].
  - apply (kinv_put_task none k2 (znth 0 (k_tab k) 0) t t' H2 Ht); try done.
    apply ready_state_ok; auto.
  - split; [done |]. exists t'. simpl. rewrite lookup_insert_eq. done.
Qed.

Lemma kernel_main_ok m ev :
  m_ok m -> m_live m = ∅ -> m_as m = ∅ -> wp kernel_main (fun r k => resumed k r) (initial_kernel m ev).
Proof.
  intros Hok Hl Ha. pose proof (kinv_initial m ev Hok Hl Ha) as H. unfold kernel_main. apply wp_bind.
  eapply wp_mono; [apply task_create_ok; [done | by right | done | by left] |].
  intros id k (H1 & (K1 & K2 & _) & [-> | (-> & _ & t & Ht & Hst)]); [done |]. simpl in K1, K2, Ht |- *.
  unfold scheduler_start. apply wp_bind, wp_bind, wp_modify. apply wp_bind, wp_tab_get; [unfold MAX_TASKS_LIMIT; lia |].
  apply wp_bind. eapply wp_get_task; [exact Ht |]. apply wp_bind, wp_put_task. apply wp_bind, wp_modify.
  apply wp_bind, wp_modify, wp_ret, wp_ret. split; [| done].
  apply (kinv_start k t); try done. destruct (kinv_entry none k 0 H1) as (t0 & _ & _ & Hn & _); [| | done].
  - unfold MAX_TASKS_LIMIT. lia.
  - by apply (kinv_task_nonzero _ _ _ _ H1 Ht).
Qed.

(** ** The handlers with signal delivery *)

Lemma wp_then_check (m : K M registers) k :
  wp m (fun r' k' => resumed k' r') k ->
  wp_or (exists r1 k1, m k = Ret r1 k1 /\ frame_at_edge r1) (r' ← m ; check_signals r') (fun r' k' => resumed k' r') k.
Proof.
  unfold wp_or, mbind, K_bind, wp. destruct (m k) as [r1 k1 | |]; [| done | done]. intros [R1 U1].
  pose proof (check_signals_ok k1 r1 R1 U1) as Hc. unfold wp_or in Hc.
  destruct (check_signals r1 k1); [done | done |]. by exists r1, k1.
Qed.

Lemma syscall_handler_ok k r :
  resumed k r -> regs64 r ->
  wp_or (exists r1 k1, dispatch r k = Ret r1 k1 /\ frame_at_edge r1) (syscall_handler r)
    (fun r' k' => resumed k' r') k.
Proof. intros [R U] Hw. by apply wp_then_check, dispatch_ok. Qed.

Lemma timer_irq_ok k r :
  resumed k r ->
  wp_or (exists r1 k1, timer_callback r k = Ret r1 k1 /\ frame_at_edge r1) (timer_irq r)
    (fun r' k' => resumed k' r') k.
Proof. intros [R U]. by apply wp_then_check, timer_callback_ok. Qed.

Lemma keyboard_irq_ok k r sc :
  resumed k r -> wp_or (frame_at_edge r) (keyboard_irq sc r) (fun r' k' => resumed k' r') k.
Proof.
  intros [R U]. unfold keyboard_irq. apply wp_or_bind. eapply wp_mono; [by apply keyboard_rest_ok |].
  intros [] k' R'. by apply check_signals_ok.
Qed.

(** ** Every reachable state *)

Lemma reach_resumed m0 s :
  m_ok m0 -> m_live m0 = ∅ -> m_as m0 = ∅ -> reach m0 s -> resumed s.1 s.2.
Proof.
  intros Hok Hl Ha. induction 1 as [ev k r E | s s' _ IH Hs].
  - pose proof (kernel_main_ok m0 ev Hok Hl Ha) as Hw. unfold wp in Hw. by rewrite E in Hw.
  - destruct Hs as [k r r' C | k r va b m Hva E | k r k' r' W E | k r k' r' _ E | k r sc k' r' _ E | k r ev];
      cbn [fst snd] in *; destruct IH as [R U].
    + split; [done | by apply (computes_user r)].
    + split; [| done]. pose proof R as (H & (Hr & t & Ht & Hst) & _).
      pose proof (u_store_ok none k va b H Hr Hva) as Hw. unfold wp, u_store in Hw. rewrite Hva, E in Hw.
      destruct Hw as [H' E']. by apply (mach_only_rest k).
    + pose proof (syscall_handler_ok k r (conj R U) W) as Hw. unfold wp_or in Hw. by rewrite E in Hw.
    + pose proof (timer_irq_ok k r (conj R U)) as Hw. unfold wp_or in Hw. by rewrite E in Hw.
    + pose proof (keyboard_irq_ok k r sc (conj R U)) as Hw. unfold wp_or in Hw. by rewrite E in Hw.
    + split; [| done]. by apply (same_rest k); [| apply kinv_events, rest_kinv |].
Qed.

Lemma reach_rest m0 k r :
  m_ok m0 -> m_live m0 = ∅ -> m_as m0 = ∅ -> reach m0 (k, r) -> resumed k r.
Proof. intros H1 H2 H3 Hr. exact (reach_resumed m0 (k, r) H1 H2 H3 Hr). Qed.
End System.
