(* ===== verification/Toy.v ===== *)
(** * A small machine

    An instance of the interface [Machine] with its laws, on which the
    theorems about the kernel are evaluated: a bump allocator for the kernel
    heap, byte memory per address space in which every ring-3 page is
    mapped, and a disk with one program and no files. *)

From stdpp Require Import base list gmap fin_maps fin_map_dom.
From Stdlib Require Import ZArith Lia Bool.
From S2P Require Import Prelude Frames Ring Kernel Sched Syscall.
From S2P Require Import KernelInv KernelFiles KernelTasks KernelSafe RoundRobin System.

Record toy := mkToy { toy_next : Z; toy_live : gset Z; toy_as : gset Z; toy_mem : gmap (Z * Z) Z }.

Definition toy_zero : toy := mkToy 1 ∅ ∅ ∅.
Definition set_toy_mem (m : toy) v := mkToy (toy_next m) (toy_live m) (toy_as m) v.

Definition toy_new (m : toy) (aspace : bool) : toy * Z :=
  (mkToy (toy_next m + 1) ({[toy_next m]} ∪ toy_live m)
     (if aspace then {[toy_next m]} ∪ toy_as m else toy_as m) (toy_mem m), toy_next m).

#[export] Instance toy_machine : Machine toy := {|
  m_kmalloc m n := if n <=? 4112 then toy_new m false else (m, 0);
  m_kfree m p := mkToy (toy_next m) (toy_live m ∖ {[p]}) (toy_as m) (toy_mem m);
  m_alloc_frame m := (m, 0xA00000);
  m_create_as m := toy_new m true;
  m_pml4 m a := a;
  m_destroy_as m p := mkToy (toy_next m) (toy_live m ∖ {[p]}) (toy_as m ∖ {[p]}) (toy_mem m);
  m_map_page m a va f fl := (m, 0);
  m_map_range m a base len := (m, 0);
  m_unmap_range m a base len := m;
  m_elf_load_file m name a := (m, Some (if decide (name = user_program) then (0, USER_CODE_BASE) else (-1, 0)));
  m_load m c va := Some (u8 (default 0 (toy_mem m !! (c, va))));
  m_store m c va b := Some (set_toy_mem m (<[(c, va) := u8 b]> (toy_mem m)));
  m_list_names m n := (m, 0, [], 0);
  m_read_file m name n := (m, -1, [], 0);
  m_write_file m name bs := (m, -1);
  m_delete m name := (m, -1);
  m_free_count m := (m, 16);
  m_stat m name := (m, -1, 0)
|}.

Definition toy_ok (m : toy) : Prop :=
  0 < toy_next m /\ (forall x, x ∈ toy_live m -> 0 < x < toy_next m) /\ toy_as m ⊆ toy_live m.

Lemma toy_quiet m : toy_ok m -> quiet_on toy_ok toy_live toy_as m m.
Proof. done. Qed.

Lemma toy_fresh m : toy_ok m -> toy_next m <> 0 /\ toy_next m ∉ toy_live m.
Proof. intros (H1 & H2 & H3). split; [lia |]. intros Hx%H2. lia. Qed.

Lemma toy_new_ok m b m' p : toy_ok m -> toy_new m b = (m', p) ->
  toy_ok m' /\ p <> 0 /\ p ∉ toy_live m /\ toy_live m' = {[p]} ∪ toy_live m /\
  toy_as m' = (if b then {[p]} ∪ toy_as m else toy_as m).
Proof.
  intros Hok [= <- <-]. pose proof (toy_fresh m Hok) as [F1 F2]. destruct Hok as (H1 & H2 & H3).
  split; [| done]. split; [simpl; lia |]. simpl. split.
  - intros x [->%elem_of_singleton | Hx%H2]%elem_of_union; lia.
  - destruct b; set_solver +H3.
Qed.

Lemma toy_free_ok m p : toy_ok m -> p ∉ toy_as m ->
  toy_ok (mkToy (toy_next m) (toy_live m ∖ {[p]}) (toy_as m) (toy_mem m)).
Proof.
  intros (H1 & H2 & H3) Hp. split; [done |]. simpl. split; [| set_solver +H3 Hp].
  intros x [Hx _]%elem_of_difference. by apply H2.
Qed.

#[export, refine] Instance toy_laws : MachineLaws toy := {|
  m_ok := toy_ok; m_live := toy_live; m_as := toy_as |}.
Proof.
  - intros m (_ & H & _) Hx%H. lia.
  - by intros m (_ & _ & H).
  - intros m n m' p Hok _ E. simpl in E. destruct (n <=? 4112).
    + destruct (toy_new_ok _ _ _ _ Hok E) as (T1 & T2 & T3 & T4 & T5). split; [done |]. split; [done |]. auto.
    + simplify_eq. split; [done |]. split; [done |]. auto.
  - intros m p Hok Hl Ha. split; [by apply toy_free_ok |]. done.
  - intros m m' p Hok E. change (toy_new m true = (m', p)) in E.
    destruct (toy_new_ok _ _ _ _ Hok E) as (T1 & T2 & T3 & T4 & T5). split; [done |]. split; [done |]. auto.
  - intros m p (H1 & H2 & H3) Ha. split; [| done]. split; [done |]. simpl. split; [| set_solver +H3].
    intros x [Hx _]%elem_of_difference. by apply H2.
  - by intros m m' Hok [= <-].
  - intros m m1 m2 a va f rc Hok _ _ _ [= <- <-] _ [= <- <-]. by apply toy_quiet.
  - intros m a base len m' rc Hok _ _ _ _ _ _ [= <- <-]. by apply toy_quiet.
  - intros m a base len Hok _ _ _ _ _ _. by apply toy_quiet.
  - intros m name a m' r Hok _ [= <- <-]. split; [by apply toy_quiet |]. destruct (decide _); eauto.
  - intros m c va b [= <-]. unfold u8. apply Z.mod_pos_bound. lia.
  - intros m a va b m' Hok _ _ [= <-]. done.
  - intros m n m' rc bs c Hok Hn [= <- <- <- <-]. split; [by apply toy_quiet | unfold zlen; simpl; lia].
  - intros m name n m' rc bs c Hok Hn [= <- <- <- <-]. split; [by apply toy_quiet | unfold zlen; simpl; lia].
  - intros m name bs m' rc Hok _ _ _ [= <- <-]. by apply toy_quiet.
  - intros m name m' rc Hok [= <- <-]. by apply toy_quiet.
  - intros m m' c Hok [= <- <-]. by apply toy_quiet.
  - intros m name m' rc sz Hok [= <- <- <-]. by apply toy_quiet.
Defined.

Lemma toy_zero_ok : m_ok toy_zero /\ m_live toy_zero = ∅ /\ m_as toy_zero = ∅.
Proof. split; [| done]. split; [simpl; lia |]. split; [| set_solver +]. intros x Hx. by apply elem_of_empty in Hx. Qed.

(** ** A booted system *)

(** A check of [ready_at]. *)
Definition ready_b (k : kernel toy) (i : Z) : bool :=
  (0 <=? i) && (i <? k_num k) &&
  match k_tasks k !! znth 0 (k_tab k) i with Some t => bool_decide (t_state t = TASK_READY) | None => false end.

Lemma ready_b_ok k i : ready_b k i = true -> ready_at k i.
Proof.
  unfold ready_b. rewrite !andb_true_iff, Z.leb_le, Z.ltb_lt. intros [[H1 H2] H3]. split; [done |].
  destruct (k_tasks k !! _) as [t|]; [| done]. exists t. split; [done |]. by apply bool_decide_eq_true in H3.
Qed.

(** The value of a computation that returned. *)
Definition value {A} (d : A) (o : outcome toy A) : A := match o with Ret a _ => a | _ => d end.
Definition state {A} (d : kernel toy) (o : outcome toy A) : kernel toy := match o with Ret _ k => k | _ => d end.

Definition booted : outcome toy registers := kernel_main (initial_kernel toy_zero []).
Definition boot_k : kernel toy := state (initial_kernel toy_zero []) booted.
Definition boot_r : registers := value zero_regs booted.

Lemma boot_reach : reach toy_zero (boot_k, boot_r).
Proof. apply (reach_boot _ []). vm_compute. reflexivity. Qed.

(** ** Driving it *)

(** Ring 3 writes bytes of its own. *)
Fixpoint poke (k : kernel toy) (va : Z) (l : list Z) : kernel toy :=
  match l with
  | [] => k
  | b :: l' =>
      poke (set_mach k (set_toy_mem (k_mach k) (<[(k_cr3 k, va) := u8 b]> (toy_mem (k_mach k))))) (va + 1) l'
  end.

Lemma reach_poke r l : forall k va,
  reach toy_zero (k, r) -> USER_REGION_START <= va -> va + zlen l <= USER_SPACE_END ->
  reach toy_zero (poke k va l, r).
Proof.
  induction l as [|b l IH]; intros k va Hr H1 H2; [done |]. unfold zlen in H2. simpl in *.
  apply IH; [| lia | unfold zlen; lia]. eapply reach_step; [exact Hr |].
  apply (step_store _ _ va b); [| done]. unfold ring3_addr. rewrite andb_true_iff, Z.leb_le, Z.ltb_lt. lia.
Qed.

(** Ring-3 registers for a system call, with the stack pointer. *)
Definition call_regs (n a b c d sp : Z) : registers :=
  mkRegs a b 0 0 c d n 0 0 0 0 0 0 0 0 0 0 USER_CODE_BASE GDT_SELECTOR_USER_CODE USER_MODE_RFLAGS sp
    GDT_SELECTOR_USER_DATA.

Definition sys k (r : registers) : outcome toy registers := syscall_handler r k.

(** Any registers ring 3 may have, then a system call that returns. *)
Lemma reach_sys k r r1 :
  reach toy_zero (k, r) -> computes r r1 -> sys k r1 = Ret (value r1 (sys k r1)) (state k (sys k r1)) ->
  reach toy_zero (state k (sys k r1), value r1 (sys k r1)).
Proof.
  intros Hr Hc E. eapply reach_step; [eapply reach_step; [exact Hr | by apply (step_compute k r r1)] |].
  apply step_syscall; [by destruct Hc | done].
Qed.

#[export] Instance regs64_dec r : Decision (regs64 r).
Proof. unfold regs64. apply _. Defined.
#[export] Instance io_closed_dec r : Decision (io_closed r).
Proof. unfold io_closed. apply _. Defined.
#[export] Instance computes_dec r r' : Decision (computes r r').
Proof. unfold computes. apply _. Defined.

Ltac regs64 := apply (bool_decide_unpack _); vm_compute; exact I.

(** The shell starts a second copy of itself. *)
Definition name_at : Z := 0x500000.
Definition run_regs : registers := call_regs SYS_RUN name_at (2 ^ 64 - 1) (2 ^ 64 - 1) 0 0x7FF000.
Definition named_k : kernel toy := poke boot_k name_at (user_program ++ [0]).
Definition two_k : kernel toy := state named_k (sys named_k run_regs).
Definition two_r : registers := value run_regs (sys named_k run_regs).

Lemma named_reach : reach toy_zero (named_k, boot_r).
Proof. apply reach_poke; [exact boot_reach | done | done]. Qed.

Lemma two_reach : reach toy_zero (two_k, two_r).
Proof.
  apply (reach_sys named_k boot_r run_regs).
  - exact named_reach.
  - regs64.
  - vm_compute. reflexivity.
Qed.

Lemma two_rest : resumed two_k two_r.
Proof.
  destruct toy_zero_ok as (H1 & H2 & H3). exact (reach_rest toy_zero two_k two_r H1 H2 H3 two_reach).
Qed.

(** The new task is ready. *)
Lemma two_ready : ready_at two_k 1.
Proof. apply ready_b_ok. vm_compute. reflexivity. Qed.

Lemma reach_key k r sc :
  reach toy_zero (k, r) -> Z.testbit (rflags r) 9 = true -> keyboard_irq sc r k = Ret (value r (keyboard_irq sc r k)) (state k (keyboard_irq sc r k)) ->
  reach toy_zero (state k (keyboard_irq sc r k), value r (keyboard_irq sc r k)).
Proof. intros Hr Hi E. eapply reach_step; [exact Hr |]. by apply (step_key _ _ sc). Qed.

Lemma toy_rest k r : reach toy_zero (k, r) -> resumed k r.
Proof. destruct toy_zero_ok as (H1 & H2 & H3). exact (reach_rest toy_zero k r H1 H2 H3). Qed.

(** Left Ctrl goes down. *)
Definition ctrl_k : kernel toy := state two_k (keyboard_irq KEY_LCTRL two_r two_k).
Definition ctrl_r : registers := value two_r (keyboard_irq KEY_LCTRL two_r two_k).

Lemma ctrl_reach : reach toy_zero (ctrl_k, ctrl_r).
Proof. apply (reach_key two_k two_r KEY_LCTRL); [exact two_reach | |]; vm_compute; reflexivity. Qed.

(** The shell makes a pipe. *)
Definition pipe_regs : registers := call_regs SYS_PIPE name_at 0 0 0 0x7FF000.
Definition pipe_k : kernel toy := state two_k (sys two_k pipe_regs).
Definition pipe_r : registers := value pipe_regs (sys two_k pipe_regs).
Definition the_pipe : Z := match map_to_list (k_pipes pipe_k) with (q, _) :: _ => q | [] => 0 end.

Lemma pipe_reach : reach toy_zero (pipe_k, pipe_r).
Proof.
  apply (reach_sys two_k two_r pipe_regs); [exact two_reach | regs64 |]. vm_compute. reflexivity.
Qed.

(** It writes two bytes to it. *)
Definition write_regs : registers := call_regs SYS_WRITE 3 name_at 2 0 0x7FF000.
Definition wrote_k : kernel toy := state pipe_k (sys pipe_k write_regs).
Definition wrote_r : registers := value write_regs (sys pipe_k write_regs).

Lemma wrote_reach : reach toy_zero (wrote_k, wrote_r).
Proof.
  apply (reach_sys pipe_k pipe_r write_regs); [exact pipe_reach | regs64 |]. vm_compute. reflexivity.
Qed.

(** The current task. *)
Definition current_of (k : kernel toy) : task :=
  default (new_task 0 0 0 0 0 0 0 0) (k_tasks k !! znth 0 (k_tab k) (k_current k)).

(** ** Scripts *)

(** Something ring 3 or the hardware does. *)
Inductive action :=
| Poke (va : Z) (l : list Z)
| Call (r : registers)
| Tick
| Key (sc : Z).

Definition done_with (o : outcome toy registers) : option (kernel toy * registers) :=
  match o with Ret r k => Some (k, r) | _ => None end.

Definition act (a : action) (s : kernel toy * registers) : option (kernel toy * registers) :=
  match a with
  | Poke va l =>
      if (USER_REGION_START <=? va) && (va + zlen l <=? USER_SPACE_END) then Some (poke s.1 va l, s.2) else None
  | Call r => if decide (computes s.2 r) then done_with (syscall_handler r s.1) else None
  | Tick => if Z.testbit (rflags s.2) 9 then done_with (timer_irq s.2 s.1) else None
  | Key sc => if Z.testbit (rflags s.2) 9 then done_with (keyboard_irq sc s.2 s.1) else None
  end.

Fixpoint script (l : list action) (s : kernel toy * registers) : option (kernel toy * registers) :=
  match l with [] => Some s | a :: l' => s' ← act a s; script l' s' end.

Lemma act_reach a s s' : reach toy_zero s -> act a s = Some s' -> reach toy_zero s'.
Proof.
  destruct s as [k r]. intros Hr. destruct a as [va l | r1 | | sc]; cbn [act fst snd].
  - destruct (_ && _) eqn:E; [| done]. intros [= <-]. zbool. by apply reach_poke.
  - destruct (decide _) as [Hc |]; [| done]. destruct (syscall_handler r1 k) as [r' k' | |] eqn:E; intros [= <-].
    eapply reach_step; [eapply reach_step; [exact Hr | by apply (step_compute k r r1)] |].
    apply step_syscall; [by destruct Hc | done].
  - destruct (Z.testbit (rflags r) 9) eqn:Ei; [| done]. destruct (timer_irq r k) as [r' k' | |] eqn:E; intros [= <-]. eapply reach_step; [exact Hr |]. by apply step_timer.
  - destruct (Z.testbit (rflags r) 9) eqn:Ei; [| done]. destruct (keyboard_irq sc r k) as [r' k' | |] eqn:E; intros [= <-]. eapply reach_step; [exact Hr |].
    by apply (step_key _ _ sc).
Qed.

Lemma script_reach l : forall s s', reach toy_zero s -> script l s = Some s' -> reach toy_zero s'.
Proof.
  induction l as [|a l IH]; intros s s' Hr E; simpl in E; [congruence |].
  destruct (act a s) as [s1|] eqn:Ea; [| done]. exact (IH s1 s' (act_reach a s s1 Hr Ea) E).
Qed.

(** The shell installs a handler for the interrupt signal. *)
Definition handler_at : Z := 0x400100.
Definition trampoline_at : Z := 0x400200.
Definition handler_script : list action := [Call (call_regs SYS_SIGNAL SIG_INT handler_at trampoline_at 0 0x7FF000)].
Definition run (l : list action) : kernel toy * registers := default (two_k, two_r) (script l (two_k, two_r)).
Definition handled_k : kernel toy := (run handler_script).1.
Definition handled_r : registers := (run handler_script).2.

Lemma run_reach l : reach toy_zero ((run l).1, (run l).2).
Proof.
  rewrite <- surjective_pairing. unfold run. destruct (script l (two_k, two_r)) as [s|] eqn:E; [| exact two_reach].
  exact (script_reach l _ s two_reach E).
Qed.

(** A key is read after the call it interrupted was signalled: Ctrl-C while
    the shell sleeps in [SYS_READKEY], the handler returns, then A is
    typed. *)
Definition stale_script : list action :=
  handler_script ++
  [Call (call_regs SYS_READKEY 0 0 0 0 0x7FF000); Key KEY_LCTRL; Key KEY_C; Tick;
   Call (call_regs SYS_SIGRETURN 0 0 0 0 0x7FE000); Key (KEY_LCTRL + KEY_RELEASE_MASK); Key 0x1E].
Definition stale_k : kernel toy := (run stale_script).1.
Definition stale_r : registers := (run stale_script).2.

(** The interrupted shell is in its handler and rewrites the saved flags to
    [0x3202], with IOPL 3. *)
Definition saved_at : Z := signal_frame 0x7FF000.
Definition doctored_script : list action :=
  handler_script ++ [Call (call_regs SYS_KILL 0 SIG_INT 0 0 0x7FF000); Poke (saved_at + 8 * 19) [0x02; 0x32]].
Definition doctored_k : kernel toy := (run doctored_script).1.
Definition doctored_r : registers := (run doctored_script).2.
