(* ===== verification/KernelProps.v ===== *)
(** * Properties of the running kernel

    Safety and accounting over every reachable state, fairness of the
    timer, and the privilege rules of signal delivery and return. *)

From stdpp Require Import base list gmap fin_maps fin_map_dom.
From Stdlib Require Import ZArith Lia Bool.
From S2P Require Import Prelude Frames Ring Kernel Sched Syscall.
From S2P Require Import KernelInv KernelFiles KernelTasks KernelCreate KernelSafe RoundRobin System Toy.

Section Props.
Context {M : Type} {mach : Machine M} {laws : MachineLaws M}.
Implicit Types k : kernel M.

(** C2: From the start of the first program on, whatever ring 3 computes and
    stores (all it can do but [in] and [out], which take an I/O privilege
    that only a forged signal frame gives) and whenever ticks and keys
    arrive, booting, system calls, timer ticks and key presses have no
    undefined behaviour, and when one of them returns it returns to ring 3
    with the ring-3 selectors, and with interrupts on unless the program it
    returns to has the I/O privilege. They need not return: the machine
    stops when every task waits for an event that does not come, and when a
    system call follows a ring-3 address with no page behind it. The one
    exception is a signal delivered on a stack pointer for which
    [deliver_to_handler] puts the saved frame exactly at the start of
    ring-3 space. *)
Theorem system_safe (m0 : M) k r :
  m_ok m0 -> m_live m0 = ∅ -> m_as m0 = ∅ -> reach m0 (k, r) ->
  (forall ev, kernel_main (initial_kernel m0 ev) <> UB) /\
  cs r = GDT_SELECTOR_USER_CODE /\ ss r = GDT_SELECTOR_USER_DATA /\
  (Z.land (rflags r) 0x3000 <> 0x3000 -> Z.testbit (rflags r) 9 = true) /\ kinv none k /\
  (regs64 r -> syscall_handler r k = UB -> exists r1 k1, dispatch r k = Ret r1 k1 /\ frame_at_edge r1) /\
  (timer_irq r k = UB -> exists r1 k1, timer_callback r k = Ret r1 k1 /\ frame_at_edge r1) /\
  (forall sc, keyboard_irq sc r k = UB -> frame_at_edge r).
Proof.
  intros Hok Hl Ha Hr. pose proof (reach_rest m0 k r Hok Hl Ha Hr) as HR.
  split; [intros ev E; pose proof (kernel_main_ok m0 ev Hok Hl Ha) as Hw; unfold wp in Hw; by rewrite E in Hw |].
  destruct (proj2 HR) as (U1 & U2 & U3). split; [done |]. split; [done |]. split; [exact U3 |]. split; [by destruct HR as [(? & _) _] |].
  split; [| split; [| intros sc]]; intros *.
  - intros Hw E. pose proof (syscall_handler_ok k r HR Hw) as H. unfold wp_or in H. by rewrite E in H.
  - intros E. pose proof (timer_irq_ok k r HR) as H. unfold wp_or in H. by rewrite E in H.
  - intros E. pose proof (keyboard_irq_ok k r sc HR) as H. unfold wp_or in H. by rewrite E in H.
Qed.

(** C3: In every reachable state the live blocks of the kernel heap are
    exactly the tasks, open files, pipes and address spaces in use: every
    open file is in exactly one descriptor slot of one task, every pipe has
    an open end and its counts are the numbers of its open ends, and every
    address space belongs to exactly one task. Nothing leaks and nothing is
    freed while it is still referenced. *)
Theorem kernel_never_leaks (m0 : M) k r :
  m_ok m0 -> m_live m0 = ∅ -> m_as m0 = ∅ -> reach m0 (k, r) ->
  m_live (k_mach k) = dom (k_tasks k) ∪ dom (k_files k) ∪ dom (k_pipes k) ∪ m_as (k_mach k) /\
  (forall f, f ∈ dom (k_files k) -> exists p i, owns k p i f /\ forall p' i', owns k p' i' f -> p' = p /\ i' = i) /\
  (forall p i f, owns k p i f -> f ∈ dom (k_files k)) /\
  (forall q x, k_pipes k !! q = Some x -> readers x = ends (k_files k) q false /\
     writers x = ends (k_files k) q true /\ 0 < readers x + writers x) /\
  (forall f x, k_files k !! f = Some x -> f_kind x = FD_PIPE -> f_pipe x ∈ dom (k_pipes k)) /\
  (forall a, a ∈ m_as (k_mach k) -> exists p t, k_tasks k !! p = Some t /\ t_aspace t = a).
Proof.
  intros Hok Hl Ha Hr. destruct (reach_rest m0 k r Hok Hl Ha Hr) as [(H & _) _].
  pose proof (ki_own_uniq _ _ H) as Hu. destruct H. simpl in *.
  split; [rewrite ki_live; set_solver + |]. split.
  { intros f Hf. destruct (ki_own_all f Hf) as [Hx | (p & i & Ho)]; [by apply elem_of_empty in Hx |].
    exists p, i. split; [done |]. intros p' i' Ho'. by apply (Hu p' i' p i f). }
  split; [intros p i f Ho; by apply (ki_own p i f) |]. split.
  { intros q x Hx. destruct (ki_pipes q x Hx) as [(_ & P1 & P2) [P3 | P3]]; [by apply elem_of_empty in P3 | done]. }
  split; [done |]. intros a Hx. destruct (ki_as_all a Hx) as [Hy | Hy]; [by apply elem_of_empty in Hy | done].
Qed.

(** C10: A timer tick in a running task never stops the machine. The
    processor goes to the first ready task behind the current one in cyclic
    order of the task table, or stays when there is none; the preempted
    task is ready and its frame is saved; the frame returned is the one the
    next task was saved with; every other ready task stays ready. *)
Theorem timer_round_robin k r :
  at_rest k -> user_frame r ->
  twp (timer_callback r) (fun r' k' =>
    resumed k' r' /\ k_num k' = k_num k /\
    (forall i, ready_at k i -> i <> k_current k' -> ready_at k' i) /\
    exists j, 1 <= j <= k_num k /\ k_current k' = (k_current k + j) mod k_num k /\
      (forall j', 1 <= j' < j -> ~ ready_at k ((k_current k + j') mod k_num k)) /\
      (k_current k' = k_current k /\ r' = r \/
       k_current k' <> k_current k /\ ready_at k' (k_current k) /\
       exists t t', k_tasks k !! znth 0 (k_tab k) (k_current k') = Some t /\ t_state t = TASK_READY /\
         r' = t_regs t /\
         k_tasks k' !! znth 0 (k_tab k) (k_current k) = Some t' /\ t_regs t' = r)) k.
Proof. exact (timer_ticked k r). Qed.

(** C11: No ready task is starved by tasks that only compute: when no system
    call, key or signal comes between the ticks, whatever the tasks that run
    in between do to their registers, task [i] is the current one after at
    most one tick more than there are table entries behind the current task
    and before it, in cyclic order. *)
Theorem no_starvation (u : nat -> registers -> registers) k r i :
  (forall n r, user_frame r -> user_frame (u n r)) -> at_rest k -> user_frame r -> ready_at k i ->
  exists n, Z.of_nat n <= (i - k_current k - 1) mod k_num k + 1 /\
    twp (ticks u n r) (fun _ k' => k_current k' = i) k.
Proof.
  intros Hu R Hr Hi. change ((i - k_current k - 1) mod k_num k) with (distance k i).
  assert (forall d u k r, (forall n r, user_frame r -> user_frame (u n r)) -> at_rest k -> user_frame r -> ready_at k i ->
    distance k i < Z.of_nat d ->
    exists n, (n <= d)%nat /\ twp (ticks u n r) (fun _ k' => k_current k' = i) k) as Hd.
  { clear u Hu k r R Hr Hi. induction d as [|d IH]; intros u k r Hu R Hr Hi Hd; pose proof R as (H & (Hrun & _) & _);
      destruct (ki_cur _ _ H Hrun) as [Hc _].
    { pose proof (Z.mod_pos_bound (i - k_current k - 1) (k_num k) ltac:(lia)). unfold distance in Hd. lia. }
    pose proof (timer_ticked k r R Hr) as Ht. unfold twp in Ht.
    destruct (timer_callback r k) as [r1 k1 | |] eqn:E; [| done | done].
    destruct (decide (i = k_current k1)) as [-> | Hne].
    { exists 1%nat. split; [lia |]. unfold twp. simpl. unfold mbind, K_bind. by rewrite E. }
    destruct (distance_decreases k r k1 r1 i Hc Hi Ht Hne) as [Hi1 Hd1]. destruct Ht as ([R1 U1] & _).
    destruct (IH (fun n => u (S n)) k1 (u 0%nat r1) (fun n => Hu (S n)) R1 (Hu _ _ U1) Hi1 ltac:(lia)) as (n & Hn & Hw).
    exists (S n). split; [lia |]. unfold twp in *. simpl. unfold mbind, K_bind. by rewrite E. }
  pose proof Hi as [Hir _]. pose proof (Z.mod_pos_bound (i - k_current k - 1) (k_num k) ltac:(lia)) as Hb. fold (distance k i) in Hb.
  destruct (Hd (Z.to_nat (distance k i + 1)) u k r Hu R Hr Hi ltac:(lia)) as (n & Hn & Hw).
  exists n. split; [lia | done].
Qed.

End Props.

Lemma system_safe_witness :
  reach toy_zero (two_k, two_r) /\
  (timer_irq two_r two_k = UB -> exists r1 k1, timer_callback two_r two_k = Ret r1 k1 /\ frame_at_edge r1).
Proof.
  destruct toy_zero_ok as (H1 & H2 & H3). split; [exact two_reach |].
  exact (proj1 (proj2 (proj2 (proj2 (proj2 (proj2 (proj2 (system_safe toy_zero two_k two_r H1 H2 H3 two_reach)))))))).
Defined.

Lemma kernel_never_leaks_witness :
  reach toy_zero (two_k, two_r) /\
  m_live (k_mach two_k) = dom (k_tasks two_k) ∪ dom (k_files two_k) ∪ dom (k_pipes two_k) ∪ m_as (k_mach two_k).
Proof.
  destruct toy_zero_ok as (H1 & H2 & H3). split; [exact two_reach |].
  exact (proj1 (kernel_never_leaks toy_zero two_k two_r H1 H2 H3 two_reach)).
Defined.

Lemma timer_round_robin_witness :
  at_rest two_k /\ twp (timer_callback two_r) (fun r' k' => k_num k' = 2) two_k.
Proof.
  split; [exact (proj1 two_rest) |].
  eapply twp_mono; [exact (timer_round_robin two_k two_r (proj1 two_rest) (proj2 two_rest)) |].
  intros r' k' (_ & E & _). rewrite E. reflexivity.
Defined.

Lemma no_starvation_witness :
  ready_at two_k 1 /\
  exists n, Z.of_nat n <= (1 - k_current two_k - 1) mod k_num two_k + 1 /\ twp (ticks (fun _ r => r) n two_r) (fun _ k' => k_current k' = 1) two_k.
Proof.
  split; [exact two_ready |].
  exact (no_starvation (fun _ r => r) two_k two_r 1 (fun _ r H => H) (proj1 two_rest) (proj2 two_rest) two_ready).
Defined.
