(* ===== verification/KernelSpec.v ===== *)
(** * Exact behaviour of wake-ups, keys, signals to groups and pipes

    Equations and specifications of the operations that change tasks they
    do not run: who is woken, who is signalled, what a pipe holds. *)

From stdpp Require Import base list gmap fin_maps fin_map_dom.
From Stdlib Require Import ZArith Lia Bool.
From S2P Require Import Prelude Frames Ring Kernel Sched Syscall.
From S2P Require Import KernelInv KernelFiles KernelTasks KernelCreate KernelSafe RoundRobin System Toy.

Section Spec.
Context {M : Type} {mach : Machine M} {laws : MachineLaws M}.
Implicit Types k : kernel M.

(** ** Sweeps of the task table *)

(** The tasks once the sweep has done the indices below [i]. *)
Definition swept (g : task -> task) (i : Z) (ts : gmap Z task) : gmap Z task :=
  (fun t => if t_id t <? i then g t else t) <$> ts.

Lemma swept_step z k g i :
  kinv z k -> 0 <= i < k_num k ->
  alter g (znth 0 (k_tab k) i) (swept g i (k_tasks k)) = swept g (i + 1) (k_tasks k).
Proof.
  intros H Hi. destruct (ki_num _ _ H) as [Hn _]. apply map_eq. intros p. unfold swept.
  destruct (decide (p = znth 0 (k_tab k) i)) as [-> | Hne].
  - rewrite lookup_alter_eq, !lookup_fmap. destruct (k_tasks k !! znth 0 (k_tab k) i) as [t|] eqn:Ht; [| done].
    destruct (kinv_entry z k i H ltac:(lia)) as (t' & Ht' & E & _); [by apply (kinv_task_nonzero _ _ _ _ H Ht) |].
    assert (t_id t = i) as Ei by congruence. simpl. rewrite Ei.
    destruct (Z.ltb_spec i i), (Z.ltb_spec i (i + 1)); done || lia.
  - rewrite lookup_alter_ne, !lookup_fmap by done. destruct (k_tasks k !! p) as [t|] eqn:Ht; [| done]. simpl.
    destruct (ki_tasks _ _ H _ _ Ht) as (_ & E & _).
    assert (t_id t <> i) by congruence. destruct (Z.ltb_spec (t_id t) i), (Z.ltb_spec (t_id t) (i + 1)); done || lia.
Qed.

(** A loop that applies [g] to the task at every index applies it to every
    task once. *)
Lemma sweep_eq z k g body :
  kinv z k ->
  (forall i ts, 0 <= i < k_num k -> dom ts = dom (k_tasks k) ->
     body i (set_tasks k ts) = Ret tt (set_tasks k (alter g (znth 0 (k_tab k) i) ts))) ->
  kfor (Z.to_nat (k_num k)) 0 body k = Ret tt (set_tasks k (g <$> k_tasks k)).
Proof.
  intros H Hbody. destruct (ki_num _ _ H) as [Hn _].
  assert (forall n i, 0 <= i -> i + Z.of_nat n = k_num k ->
    kfor n i body (set_tasks k (swept g i (k_tasks k))) = Ret tt (set_tasks k (swept g (k_num k) (k_tasks k)))) as Hloop.
  { induction n as [|n IH]; intros i Hi En; simpl.
    - by replace (k_num k) with i by lia.
    - unfold mbind, K_bind. rewrite Hbody; [| lia | unfold swept; by rewrite dom_fmap_L].
      rewrite (swept_step z) by (done || lia). apply IH; lia. }
  assert (swept g 0 (k_tasks k) = k_tasks k) as E0.
  { apply map_eq. intros p. unfold swept. rewrite lookup_fmap. destruct (k_tasks k !! p) as [t|] eqn:Ht; [| done]. simpl.
    destruct (ki_tasks _ _ H _ _ Ht) as (Hid & _). destruct (Z.ltb_spec (t_id t) 0); done || lia. }
  assert (swept g (k_num k) (k_tasks k) = g <$> k_tasks k) as E1.
  { apply map_eq. intros p. unfold swept. rewrite !lookup_fmap. destruct (k_tasks k !! p) as [t|] eqn:Ht; [| done]. simpl.
    destruct (ki_tasks _ _ H _ _ Ht) as (Hid & _). destruct (Z.ltb_spec (t_id t) (k_num k)); done || lia. }
  specialize (Hloop (Z.to_nat (k_num k)) 0 ltac:(lia) ltac:(lia)). rewrite E0, E1 in Hloop.
  by replace (set_tasks k (k_tasks k)) with k in Hloop by (by destruct k).
Qed.

(** One step of such a loop, from the lookup of the table on. *)
Lemma tab_get_eq i k : 0 <= i < MAX_TASKS_LIMIT -> tab_get i k = Ret (znth 0 (k_tab k) i) k.
Proof. intros Hi. unfold tab_get. by replace ((0 <=? i) && (i <? MAX_TASKS_LIMIT)) with true by (zcases; simpl; lia || done). Qed.

Lemma entry_cases z k i (ts : gmap Z task) :
  kinv z k -> 0 <= i < k_num k -> dom ts = dom (k_tasks k) ->
  (znth 0 (k_tab k) i = 0 /\ forall g : task -> task, alter g 0 ts = ts) \/
  znth 0 (k_tab k) i <> 0 /\ exists t, ts !! znth 0 (k_tab k) i = Some t.
Proof.
  intros H Hi Hd. destruct (ki_num _ _ H) as [Hn _].
  destruct (decide (znth 0 (k_tab k) i = 0)) as [E | E].
  - left. split; [done |]. intros g.
    apply map_eq. intros p. destruct (decide (p = 0)) as [-> | Hne]; [| by rewrite lookup_alter_ne].
    rewrite lookup_alter_eq. assert (ts !! 0 = None) as ->; [| done]. apply not_elem_of_dom. rewrite Hd.
    intros [t Ht]%elem_of_dom. by apply (kinv_task_nonzero _ _ _ _ H Ht).
  - right. split; [done |]. destruct (kinv_entry z k i H ltac:(lia) E) as (t & Ht & _).
    apply elem_of_dom. rewrite Hd. apply elem_of_dom. by exists t.
Qed.

(** ** Wake-ups *)

Definition woken (reason : wait_reason) (t : task) : task :=
  if decide (t_state t = TASK_BLOCKED /\ t_wait t = reason) then set_tstate t TASK_READY WAIT_NONE else t.

Lemma alter_id_at (g : task -> task) p t (ts : gmap Z task) :
  ts !! p = Some t -> g t = t -> alter g p ts = ts.
Proof.
  intros Ht E. apply map_eq. intros q. destruct (decide (q = p)) as [-> |]; [| by rewrite lookup_alter_ne].
  rewrite lookup_alter_eq, Ht. simpl. by rewrite E.
Qed.
Lemma alter_insert_at (g : task -> task) p t (ts : gmap Z task) :
  ts !! p = Some t -> alter g p ts = <[p := g t]> ts.
Proof.
  intros Ht. apply map_eq. intros q. destruct (decide (q = p)) as [-> |].
  - by rewrite lookup_alter_eq, lookup_insert_eq, Ht.
  - by rewrite lookup_alter_ne, lookup_insert_ne.
Qed.

(** Every task blocked for [reason] becomes ready, and nothing else
    changes. *)
Lemma scheduler_wake_eq z k reason :
  kinv z k -> scheduler_wake reason k = Ret tt (set_tasks k (woken reason <$> k_tasks k)).
Proof.
  intros H. destruct (ki_num _ _ H) as [Hn _]. unfold scheduler_wake, mbind, K_bind, gets. apply (sweep_eq z); [done |].
  intros i ts Hi Hd. unfold wake_one, mbind, K_bind. rewrite tab_get_eq by lia. change (k_tab (set_tasks k ts)) with (k_tab k).
  destruct (entry_cases z k i ts H Hi Hd) as [[Ez Ha] | (Hz & t & Ht)]; [rewrite Ez, Ha; reflexivity |].
  apply Z.eqb_neq in Hz as ->. unfold get_task. change (k_tasks (set_tasks k ts)) with ts. rewrite Ht. unfold woken.
  destruct (decide _) as [D | D].
  - rewrite (alter_insert_at _ _ t) by done. by rewrite decide_True.
  - rewrite (alter_id_at _ _ t) by (done || by rewrite decide_False). done.
Qed.

(** ** Signals to a group *)

Definition signalled (sig : Z) (t : task) : task :=
  if decide (t_state t = TASK_ZOMBIE) then t
  else
    let t := set_pending t (Z.lor (t_pending t) (Z.shiftl 1 sig)) in
    if decide (t_state t = TASK_BLOCKED) then set_interrupted (set_tstate t TASK_READY WAIT_NONE) true else t.

Lemma signal_raise_eq k id sig t :
  0 <= id < k_num k -> k_num k <= MAX_TASKS_LIMIT -> 0 < sig < MAX_SIGS ->
  znth 0 (k_tab k) id <> 0 -> k_tasks k !! znth 0 (k_tab k) id = Some t ->
  signal_raise id sig k = Ret tt (set_tasks k (<[znth 0 (k_tab k) id := signalled sig t]> (k_tasks k))).
Proof.
  intros Hid Hn Hsig Hz Ht. unfold signal_raise.
  replace ((sig <=? 0) || (MAX_SIGS <=? sig)) with false by (zcases; simpl; lia || done).
  unfold scheduler_task_by_id, mbind, K_bind, gets. destruct (Z.leb_spec (k_num k) id); [lia |].
  rewrite tab_get_eq by lia. apply Z.eqb_neq in Hz as ->. unfold get_task. rewrite Ht. unfold signalled.
  destruct (decide _) as [D | D].
  - rewrite insert_id by done. by destruct k.
  - cbv zeta. by destruct (decide _).
Qed.

Lemma signal_raise_group_eq z k pgid sig :
  kinv z k -> 0 < sig < MAX_SIGS ->
  signal_raise_group pgid sig k =
  Ret tt (set_tasks k ((fun t => if t_pgid t =? pgid then signalled sig t else t) <$> k_tasks k)).
Proof.
  intros H Hsig. destruct (ki_num _ _ H) as [Hn _]. unfold signal_raise_group, mbind at 1, K_bind at 1, gets.
  apply (sweep_eq z); [done |]. intros i ts Hi Hd.
  unfold mbind, K_bind, scheduler_task_by_id, mbind at 1, K_bind at 1, gets. change (k_num (set_tasks k ts)) with (k_num k).
  destruct (Z.leb_spec (k_num k) i); [lia |]. rewrite tab_get_eq by lia. change (k_tab (set_tasks k ts)) with (k_tab k).
  destruct (entry_cases z k i ts H Hi Hd) as [[Ez Ha] | (Hz & t & Ht)]; [rewrite Ez, Ha; reflexivity |].
  apply Z.eqb_neq in Hz as Hz'. rewrite Hz'. unfold get_task. change (k_tasks (set_tasks k ts)) with ts. rewrite Ht.
  destruct (Z.eqb_spec (t_pgid t) pgid) as [E | E]; cbn [negb].
  - rewrite (signal_raise_eq _ i sig t) by (simpl; done || lia). rewrite (alter_insert_at _ _ t) by done.
    by rewrite E, Z.eqb_refl.
  - rewrite (alter_id_at _ _ t); [done | done |]. by apply Z.eqb_neq in E as ->.
Qed.

(** C15: Ctrl-C signals exactly the foreground group: with Ctrl held, the C
    key adds [SIGINT] to the pending signals of every living task of the
    group, makes those that were blocked ready with the interrupted mark
    set, and changes nothing else at all. *)
Theorem ctrl_c_signals_foreground z k :
  kinv z k -> ctrl_held (k_kbd k) = true ->
  keyboard_callback KEY_C k =
  Ret tt (set_tasks k ((fun t => if t_pgid t =? k_fg k then signalled SIG_INT t else t) <$> k_tasks k)).
Proof.
  intros H Hc. rewrite <- (signal_raise_group_eq z) by done.
  unfold keyboard_callback, mbind, K_bind, gets. cbn -[signal_raise_group]. by rewrite Hc.
Qed.

(** ** The keyboard *)

(** A key that types [c]: pressed, not a modifier, Ctrl up. *)
Definition types (k : kernel M) (sc c : Z) : Prop :=
  Z.land sc KEY_RELEASE_MASK = 0 /\ sc <> KEY_LSHIFT /\ sc <> KEY_RSHIFT /\ sc <> KEY_CAPSLOCK /\ sc <> KEY_LCTRL /\
  ctrl_held (k_kbd k) = false /\ znth 0 (table_for (k_kbd k) sc) sc = c /\ c <> 0.

Lemma key_press_eq z k sc c :
  kinv z k -> types k sc c ->
  exists b, keyboard_callback sc k = Ret tt (set_tasks (set_kbd k b) (woken WAIT_KEY <$> k_tasks k)) /\ kbd_ok b /\
    kbd_list b = (if zlen (kbd_list (k_kbd k)) =? KBD_BUFFER_SIZE - 1 then kbd_list (k_kbd k)
                  else kbd_list (k_kbd k) ++ [c]).
Proof.
  intros H (T1 & T2 & T3 & T4 & T5 & T6 & T7 & T8). exists (kbd_buffer_push (k_kbd k) c).
  pose proof (table_bytes (k_kbd k) sc) as Hc. rewrite T7 in Hc.
  destruct (kbd_push_spec (k_kbd k) c (ki_kbd _ _ H) Hc) as [P1 P2]. split; [| done].
  unfold keyboard_callback, mbind, K_bind, gets. rewrite T1. cbn [Z.eqb negb].
  apply Z.eqb_neq in T2 as ->, T3 as ->, T4 as ->, T5 as ->. cbn [orb]. rewrite T6. cbv zeta. rewrite T7.
  apply Z.eqb_neq in T8 as ->. unfold modify. rewrite (scheduler_wake_eq z) by (by apply kinv_set_kbd). done.
Qed.

(** Reading the console takes the queued characters in order. *)
Lemma console_drain_eq n : forall k,
  kbd_ok (k_kbd k) -> Forall (fun x => x <> 0) (kbd_list (k_kbd k)) ->
  exists b, console_drain n k = Ret (take n (kbd_list (k_kbd k))) (set_kbd k b) /\ kbd_ok b /\
    kbd_list b = drop n (kbd_list (k_kbd k)).
Proof.
  induction n as [|n IH]; intros k Hok Hnz.
  { exists (k_kbd k). split; [by destruct k | done]. }
  cbn [console_drain]. unfold mbind, K_bind, gets. pose proof (keyboard_getchar_spec _ Hok) as Hs.
  destruct (keyboard_getchar (k_kbd k)) as [b c]. destruct Hs as [Hb Hs]. unfold modify.
  destruct (kbd_list (k_kbd k)) as [|x l] eqn:El.
  - destruct Hs as [-> ->]. exists (k_kbd k). split; [done |]. by rewrite El.
  - destruct Hs as [-> Hl]. apply Forall_cons in Hnz as [Hx Hnz]. apply Z.eqb_neq in Hx as ->.
    destruct (IH (set_kbd k b)) as (b' & E & B1 & B2); [done | simpl; by rewrite Hl |].
    rewrite E. exists b'. simpl in *. rewrite Hl in *. done.
Qed.

(** What is typed is what is read: with fewer than 127 characters
    queued, a key press appends its character, and a console read then takes
    the queued characters in the order they were typed. *)
Theorem typed_then_read z k sc c n :
  kinv z k -> types k sc c -> Forall (fun x => x <> 0) (kbd_list (k_kbd k)) ->
  zlen (kbd_list (k_kbd k)) < KBD_BUFFER_SIZE - 1 ->
  exists k', (keyboard_callback sc ;; console_drain n) k = Ret (take n (kbd_list (k_kbd k) ++ [c])) k' /\
    kbd_list (k_kbd k') = drop n (kbd_list (k_kbd k) ++ [c]) /\
    k_tasks k' = woken WAIT_KEY <$> k_tasks k.
Proof.
  intros H Ht Hnz Hlen. destruct (key_press_eq z k sc c H Ht) as (b & E & B1 & B2).
  destruct (Z.eqb_spec (zlen (kbd_list (k_kbd k))) (KBD_BUFFER_SIZE - 1)); [lia |].
  destruct Ht as (_ & _ & _ & _ & _ & _ & _ & Hc).
  unfold mbind, K_bind. rewrite E.
  destruct (console_drain_eq n (set_tasks (set_kbd k b) (woken WAIT_KEY <$> k_tasks k))) as (b' & E' & B3 & B4);
    [done | simpl; rewrite B2; apply Forall_app; auto |].
  rewrite E'. eexists. simpl in *. rewrite B2 in *. split; [reflexivity |]. done.
Qed.

(** ** Pipes *)

(** C16: A write to a pipe with a reader and room appends as many bytes as
    fit, reports their number, wakes exactly the tasks that wait to read
    from a pipe, and changes nothing else; it neither loses, duplicates nor
    reorders bytes. *)
Theorem pipe_write_appends z k q x buf len r :
  kinv z k -> k_pipes k !! q = Some x -> readers x <> 0 -> pipe_space x <> 0 -> 0 <= len <= zlen buf ->
  let n := Z.min (pipe_space x) len in
  exists y, pipe_write q buf len r k =
      Ret (n, r) (set_tasks (set_pipes k (<[q := y]> (k_pipes k))) (woken WAIT_PIPE_READ <$> k_tasks k)) /\
    pipe_list y = pipe_list x ++ take (Z.to_nat n) buf /\ readers y = readers x /\ writers y = writers x.
Proof.
  intros H Hq Hr Hs Hlen n. destruct (ki_pipes _ _ H _ _ Hq) as [(Hok & _) _].
  pose proof (pipe_used_range _ Hok) as Hur. unfold pipe_space in Hs.
  destruct (pipe_put_spec n buf x Hok) as (Y1 & Y2 & Y3 & Y4); [unfold n, pipe_space in *; lia | unfold n; lia |].
  exists (pipe_put n buf x). split; [| done].
  unfold pipe_write, mbind, K_bind, get_pipe. rewrite Hq. apply Z.eqb_neq in Hr as ->. cbv zeta.
  destruct (Z.eqb_spec (pipe_space x) 0) as [E |]; [unfold pipe_space in E; lia |].
  replace (if pipe_space x <? len then pipe_space x else len) with n by (unfold n; zcases; lia).
  unfold put_pipe, modify. rewrite (scheduler_wake_eq z) by (by eapply kinv_put_pipe). done.
Qed.

(** A read from a pipe that holds data takes the oldest bytes, at most
    [len], and wakes exactly the tasks that wait to write; an empty pipe
    with no writer left reads as end of file (0 bytes) without touching
    anything; a write to a pipe with no reader fails, and raises [SIGPIPE]
    on the writer and on nobody else. *)
Theorem pipe_read_takes z k q x buf len r :
  kinv z k -> k_pipes k !! q = Some x -> 0 <= len ->
  (0 < pipe_used x -> exists y,
     pipe_read q len r k =
       Ret (Z.min (pipe_used x) len, take (Z.to_nat (Z.min (pipe_used x) len)) (pipe_list x), r)
         (set_tasks (set_pipes k (<[q := y]> (k_pipes k))) (woken WAIT_PIPE_WRITE <$> k_tasks k)) /\
     pipe_list y = drop (Z.to_nat (Z.min (pipe_used x) len)) (pipe_list x) /\
     readers y = readers x /\ writers y = writers x) /\
  (pipe_used x = 0 -> writers x = 0 -> pipe_read q len r k = Ret (0, [], r) k) /\
  (readers x = 0 -> forall t, 0 <= k_current k < k_num k ->
     k_tasks k !! znth 0 (k_tab k) (k_current k) = Some t ->
     pipe_write q buf len r k =
       Ret (FILE_ERR, r) (set_tasks k (<[znth 0 (k_tab k) (k_current k) := signalled SIG_PIPE t]> (k_tasks k)))).
Proof.
  intros H Hq Hlen. destruct (ki_pipes _ _ H _ _ Hq) as [(Hok & _) _]. pose proof (pipe_used_range _ Hok) as Hur.
  destruct (ki_num _ _ H) as [Hn _].
  unfold pipe_read, pipe_write, mbind, K_bind, get_pipe. rewrite Hq. split; [| split].
  - intros Hpos. set (n := Z.min (pipe_used x) len).
    destruct (pipe_take_spec n x Hok) as (y & E & Y1 & Y2 & Y3 & Y4); [unfold n; lia |]. exists y. split; [| done].
    destruct (Z.ltb_spec 0 (pipe_used x)); [| lia]. cbv zeta.
    replace (if pipe_used x <? len then pipe_used x else len) with n by (unfold n; zcases; lia). rewrite E.
    unfold put_pipe, modify. rewrite (scheduler_wake_eq z) by (by eapply kinv_put_pipe). done.
  - intros -> ->. done.
  - intros Hr t Hc Ht. apply Z.eqb_eq in Hr as ->. unfold gets.
    rewrite (signal_raise_eq k _ SIG_PIPE t); [done | done | lia | done | | done].
    by apply (kinv_task_nonzero _ _ _ _ H Ht).
Qed.
End Spec.

Lemma ctrl_c_signals_foreground_witness :
  kinv none ctrl_k /\
  keyboard_callback KEY_C ctrl_k =
  Ret tt (set_tasks ctrl_k ((fun t => if t_pgid t =? k_fg ctrl_k then signalled SIG_INT t else t) <$> k_tasks ctrl_k)).
Proof.
  pose proof (rest_kinv _ (proj1 (toy_rest _ _ ctrl_reach))) as H. split; [exact H |].
  apply (ctrl_c_signals_foreground none ctrl_k H). vm_compute. reflexivity.
Defined.

(** The A key. *)
Lemma typed_then_read_witness :
  types two_k 0x1E 97 /\
  exists k', (keyboard_callback 0x1E ;; console_drain 5) two_k = Ret (take 5 (kbd_list (k_kbd two_k) ++ [97])) k' /\
    kbd_list (k_kbd k') = drop 5 (kbd_list (k_kbd two_k) ++ [97]) /\
    k_tasks k' = woken WAIT_KEY <$> k_tasks two_k.
Proof.
  assert (types two_k 0x1E 97) as Ht.
  { split; [reflexivity |]. do 4 (split; [discriminate |]). split; [vm_compute; reflexivity |].
    split; [vm_compute; reflexivity | discriminate]. }
  split; [exact Ht |]. apply (typed_then_read none).
  - exact (rest_kinv _ (proj1 two_rest)).
  - exact Ht.
  - replace (kbd_list (k_kbd two_k)) with (@nil Z) by (vm_compute; reflexivity). constructor.
  - replace (kbd_list (k_kbd two_k)) with (@nil Z) by (vm_compute; reflexivity). reflexivity.
Defined.

Definition pipe_x : pipe := default fresh_pipe (k_pipes pipe_k !! the_pipe).

Lemma pipe_x_eq : k_pipes pipe_k !! the_pipe = Some pipe_x.
Proof. vm_compute. reflexivity. Qed.

Lemma pipe_write_appends_witness :
  kinv none pipe_k /\ exists y,
    pipe_write the_pipe [104; 105] 2 pipe_r pipe_k =
      Ret (Z.min (pipe_space pipe_x) 2, pipe_r)
        (set_tasks (set_pipes pipe_k (<[the_pipe := y]> (k_pipes pipe_k))) (woken WAIT_PIPE_READ <$> k_tasks pipe_k)) /\
    pipe_list y = pipe_list pipe_x ++ take (Z.to_nat (Z.min (pipe_space pipe_x) 2)) [104; 105] /\
    readers y = readers pipe_x /\ writers y = writers pipe_x.
Proof.
  pose proof (rest_kinv _ (proj1 (toy_rest _ _ pipe_reach))) as H. split; [exact H |].
  apply (pipe_write_appends none pipe_k the_pipe pipe_x [104; 105] 2 pipe_r H pipe_x_eq).
  - replace (readers pipe_x) with 1 by (vm_compute; reflexivity). discriminate.
  - replace (pipe_space pipe_x) with 4095 by (vm_compute; reflexivity). discriminate.
  - unfold zlen. simpl. lia.
Defined.

Definition wrote_x : pipe := default fresh_pipe (k_pipes wrote_k !! the_pipe).

Lemma wrote_x_eq : k_pipes wrote_k !! the_pipe = Some wrote_x.
Proof. vm_compute. reflexivity. Qed.

Lemma pipe_read_takes_witness :
  pipe_used wrote_x = 2 /\ exists y,
    pipe_read the_pipe 1 wrote_r wrote_k =
      Ret (Z.min (pipe_used wrote_x) 1, take (Z.to_nat (Z.min (pipe_used wrote_x) 1)) (pipe_list wrote_x), wrote_r)
        (set_tasks (set_pipes wrote_k (<[the_pipe := y]> (k_pipes wrote_k))) (woken WAIT_PIPE_WRITE <$> k_tasks wrote_k)) /\
    pipe_list y = drop (Z.to_nat (Z.min (pipe_used wrote_x) 1)) (pipe_list wrote_x) /\
    readers y = readers wrote_x /\ writers y = writers wrote_x.
Proof.
  pose proof (rest_kinv _ (proj1 (toy_rest _ _ wrote_reach))) as H.
  split; [vm_compute; reflexivity |].
  apply (proj1 (pipe_read_takes none wrote_k the_pipe wrote_x [] 1 wrote_r H wrote_x_eq ltac:(lia))).
  replace (pipe_used wrote_x) with 2 by (vm_compute; reflexivity). lia.
Defined.
