(* ===== verification/SignalSpec.v ===== *)
(** * Signal delivery and return

    What a handler sees, that [SYS_SIGRETURN] undoes the delivery, and the
    two places where the code's checks fall short of what its comments say. *)

From stdpp Require Import base list gmap fin_maps fin_map_dom.
From Stdlib Require Import ZArith Lia Bool.
From S2P Require Import Prelude Frames Ring Kernel Sched Syscall.
From S2P Require Import KernelInv KernelFiles KernelTasks KernelCreate KernelSafe RoundRobin System Toy KernelSpec.

(** Ring-3 memory of one address space holds the bytes stored to it. *)
Class MemoryLaws (M : Type) {mach : Machine M} {laws : MachineLaws M} := {
  law_load_store : forall m s va b m' a, m_ok m -> s ∈ m_as m -> ring3_addr va = true -> ring3_addr a = true ->
    m_store m (m_pml4 m s) va b = Some m' ->
    m_load m' (m_pml4 m s) a = if a =? va then Some (u8 b) else m_load m (m_pml4 m s) a
}.

#[export] Instance toy_memory_laws : MemoryLaws toy.
Proof.
  split. intros m c va b m' a _ _ _ _ [= <-]. simpl. destruct (Z.eqb_spec a va) as [-> | Hne].
  - rewrite lookup_insert_eq. simpl. unfold u8. by rewrite Z.mod_mod.
  - rewrite lookup_insert_ne; [done |]. intros [= E]. done.
Defined.

(** ** Words in memory *)


Lemma bytes_of_words w : Forall (fun v => 0 <= v < 2 ^ 64) w -> bytes_words (length w) (words_bytes w) = w.
Proof.
  induction 1 as [|v w Hv _ IH]; [done |].
  assert (words_bytes (v :: w) = le_bytes 8 v ++ words_bytes w) as -> by done. cbn [length bytes_words].
  rewrite take_app_length', drop_app_length' by (by rewrite le_bytes_length).
  rewrite of_le_bytes by done. by rewrite IH.
Qed.

Lemma regs_of_words r : words_regs (regs_words r) = r.
Proof. by destruct r. Qed.


Lemma words_bytes_range w : Forall (fun b => 0 <= b < 256) (words_bytes w).
Proof.
  induction w as [|v w IH]; [done |].
  assert (words_bytes (v :: w) = le_bytes 8 v ++ words_bytes w) as -> by done.
  apply Forall_app. split; [apply le_bytes_range | exact IH].
Qed.

Section Signals.
Context {M : Type} {mach : Machine M} {laws : MachineLaws M} {mem : MemoryLaws M}.
Implicit Types k : kernel M.

(** ** Bytes in ring-3 memory *)

(** The address space that is loaded. *)
Definition in_as k : Prop := m_ok (k_mach k) /\ exists s, s ∈ m_as (k_mach k) /\ k_cr3 k = m_pml4 (k_mach k) s.

Lemma rest_in_as k : at_rest k -> in_as k.
Proof.
  intros R. pose proof (rest_kinv _ R) as H. split; [apply H |].
  destruct (ki_cur _ _ H (rest_running _ R)) as (_ & t & Ht & Hz & Ecr). exists (t_aspace t).
  destruct (ki_as _ _ H _ _ Ht Hz) as (Ha & _ & E). split; [done | congruence].
Qed.

(** What [u_store_bytes] leaves in memory. *)
Lemma u_store_bytes_loads l : forall k va k', in_as k ->
  u_store_bytes va l k = Ret tt k' ->
  mach_only k k' /\ in_as k' /\ forall a, ring3_addr a = true -> m_load (k_mach k') (k_cr3 k) a =
    if (va <=? a) && (a <? va + zlen l) then Some (u8 (znth 0 l (a - va))) else m_load (k_mach k) (k_cr3 k) a.
Proof.
  induction l as [|b l IH]; intros k va k' Hin E; simpl in E.
  { injection E as <-. split; [by destruct k |]. split; [done |]. intros a _. unfold zlen. simpl. zcases; simpl; done || lia. }
  unfold mbind, K_bind, u_store in E. destruct (ring3_addr va) eqn:Hva; [| done].
  destruct (m_store _ _ _ _) as [m|] eqn:Es; [| done]. pose proof Hin as (Hok & s & Hs & Ec). rewrite Ec in Es.
  destruct (law_store _ _ _ _ _ Hok Hs Hva Es) as (Hok' & _ & Ha' & Hp').
  assert (in_as (set_mach k m)) as Hin' by (split; [done |]; exists s; simpl; by rewrite Ha', Hp').
  destruct (IH _ _ _ Hin' E) as (E' & Hin2 & Hl). split; [unfold mach_only in *; rewrite E'; by destruct k |]. split; [done |].
  intros a Ha. simpl in Hl. rewrite Hl, Ec, (law_load_store _ _ _ _ _ a Hok Hs Hva Ha Es) by done. unfold zlen in *. simpl length. rewrite Nat2Z.inj_succ.
  destruct (Z.eqb_spec a va) as [-> | Hne].
  - rewrite Z.sub_diag. zcases; simpl; lia || done.
  - replace (znth 0 (b :: l) (a - va)) with (znth 0 l (a - (va + 1))) by (rewrite znth_cons_ne by lia; f_equal; lia).
    zcases; simpl; lia || done.
Qed.

Lemma u_load_bytes_eq l : forall k va,
  (forall i, 0 <= i < zlen l -> ring3_addr (va + i) = true /\ m_load (k_mach k) (k_cr3 k) (va + i) = Some (znth 0 l i)) ->
  u_load_bytes (length l) va k = Ret l k.
Proof.
  induction l as [|b l IH]; intros k va H; simpl; [done |]. unfold mbind, K_bind, u_load.
  unfold zlen in H. simpl length in H. rewrite Nat2Z.inj_succ in H.
  destruct (H 0 ltac:(lia)) as [H1 H2]. rewrite Z.add_0_r in H1, H2. rewrite H1, H2.
  rewrite IH; [done |]. intros i Hi. unfold zlen in Hi. destruct (H (i + 1) ltac:(lia)) as [H3 H4].
  replace (va + 1 + i) with (va + (i + 1)) by lia. split; [done |]. rewrite H4. f_equal.
  rewrite znth_cons_ne by lia. f_equal. lia.
Qed.

(** ** The place of the frame *)

(** An accepted frame lies below the red zone of the interrupted code. *)
Lemma frame_below_red_zone rsp :
  0 <= rsp < 2 ^ 64 -> user_range_ok (signal_frame rsp) (SIZEOF_REGISTERS + 8) = true ->
  signal_frame rsp + SIZEOF_REGISTERS <= rsp - RED_ZONE_BYTES.
Proof.
  intros Hr Hok. pose proof (range_below _ _ Hok) as [Hlo Hhi]. revert Hlo Hhi. unfold signal_frame.
  rewrite (land_align_down 4) by (try apply u64_range; lia).
  unfold SIZEOF_REGISTERS, RED_ZONE_BYTES, USER_REGION_START, USER_CODE_BASE, USER_SPACE_END, USER_HEAP_LIMIT, u64.
  change (2 ^ 4) with 16. intros Hlo Hhi. mlia.
Qed.

(** The return address goes below the frame. *)
Lemma frame_return_slot rsp :
  user_range_ok (signal_frame rsp) (SIZEOF_REGISTERS + 8) = true ->
  u64 (signal_frame rsp - 8) = signal_frame rsp - 8.
Proof.
  intros Hok. pose proof (range_below _ _ Hok) as [Hlo Hhi]. apply u64_small.
  unfold USER_REGION_START, USER_CODE_BASE, USER_SPACE_END, USER_HEAP_LIMIT in *. lia.
Qed.

Lemma lor_flags_id f : Z.testbit f 1 = true -> Z.testbit f 9 = true -> Z.lor f USER_MODE_RFLAGS = f.
Proof.
  intros H1 H9. apply Z.bits_inj'. intros n Hn. rewrite Z.lor_spec.
  change USER_MODE_RFLAGS with (Z.lor (2 ^ 1) (2 ^ 9)). rewrite Z.lor_spec, !Z.pow2_bits_eqb by lia.
  destruct (Z.eqb_spec 1 n) as [<- |]; [by rewrite H1 |]. destruct (Z.eqb_spec 9 n) as [<- |]; [by rewrite H9 |].
  apply orb_false_r.
Qed.

Lemma set_priv_user r : user_frame r -> Z.testbit (rflags r) 9 = true -> Z.testbit (rflags r) 1 = true ->
  set_priv r GDT_SELECTOR_USER_CODE GDT_SELECTOR_USER_DATA (Z.lor (rflags r) USER_MODE_RFLAGS) = r.
Proof. intros (H1 & H2 & _) H3 H4. rewrite lor_flags_id by done. destruct r; simpl in *. by subst. Qed.

(** The parts of an accepted delivery. *)
Lemma deliver_inv k p r sig t r1 k1 :
  in_as k -> k_tasks k !! p = Some t -> user_range_ok (signal_frame (user_rsp r)) (SIZEOF_REGISTERS + 8) = true ->
  deliver_to_handler r p sig k = Ret r1 k1 ->
  let sp := signal_frame (user_rsp r) in
  exists ka kb, u_store_bytes sp (words_bytes (regs_words r)) k = Ret tt ka /\
    u_store_bytes (sp - 8) (le_bytes 8 (t_trampoline t)) ka = Ret tt kb /\
    r1 = set_entry r (znth 0 (t_handlers t) sig) sig (sp - 8) /\
    k1 = set_tasks kb (<[p := set_active (set_pending t (clear_pending (t_pending t) sig)) true sp]> (k_tasks kb)).
Proof.
  intros Hin Ht Hok E sp. unfold deliver_to_handler in E. cbv zeta in E. rewrite Hok in E. cbn [negb] in E.
  rewrite frame_return_slot in E by done. fold sp in E. unfold mbind, K_bind in E.
  destruct (u_store_bytes sp _ k) as [[] ka | |] eqn:Ea; [| done | done].
  destruct (u_store_bytes_loads _ _ _ _ Hin Ea) as [Ma _]. unfold get_task in E. rewrite Ma in E.
  change (k_tasks (set_mach k (k_mach ka))) with (k_tasks k) in E. rewrite Ht in E. rewrite <- Ma in E.
  destruct (u_store_bytes (sp - 8) _ ka) as [[] kb | |] eqn:Eb; [| done | done].
  exists ka, kb. unfold put_task, modify in E. injection E as <- <-. done.
Qed.

(** [SYS_SIGRETURN] when memory at the context holds the words of [r]. *)
Lemma sigreturn_eq k r2 p t r :
  kinv none k -> k_running k = true -> p = znth 0 (k_tab k) (k_current k) -> k_tasks k !! p = Some t ->
  t_active t = true -> user_range_ok (t_ctx t) SIZEOF_REGISTERS = true -> regs64 r ->
  (forall i, 0 <= i < SIZEOF_REGISTERS ->
     m_load (k_mach k) (k_cr3 k) (t_ctx t + i) = Some (znth 0 (words_bytes (regs_words r)) i)) ->
  signal_sigreturn r2 k =
  Ret (set_priv r GDT_SELECTOR_USER_CODE GDT_SELECTOR_USER_DATA (Z.lor (rflags r) USER_MODE_RFLAGS))
    (set_tasks k (<[p := set_active t false 0]> (k_tasks k))).
Proof.
  intros H Hr Ep Ht Hact Hok Hw Hmem. destruct (ki_cur _ _ H Hr) as [Hc _]. destruct (ki_num _ _ H) as [Hn _].
  unfold signal_sigreturn, scheduler_current_task, mbind, K_bind, gets. rewrite tab_get_eq by lia. rewrite <- Ep.
  unfold get_task. rewrite Ht, Hact, Hok. cbn [negb].
  change (Z.to_nat SIZEOF_REGISTERS) with (length (words_bytes (regs_words r))).
  rewrite u_load_bytes_eq.
  - change 22%nat with (length (regs_words r)). by rewrite bytes_of_words, regs_of_words by exact Hw.
  - rewrite regs_bytes_length. intros i Hi. split; [| by apply Hmem].
    by apply (user_range_addr _ SIZEOF_REGISTERS).
Qed.

(** Memory after a delivery: the frame, the return address, the rest. *)
Lemma deliver_memory k ka kb r t :
  let sp := signal_frame (user_rsp r) in
  in_as k -> (forall a, sp - 8 <= a < sp + SIZEOF_REGISTERS -> ring3_addr a = true) ->
  u_store_bytes sp (words_bytes (regs_words r)) k = Ret tt ka ->
  u_store_bytes (sp - 8) (le_bytes 8 (t_trampoline t)) ka = Ret tt kb ->
  mach_only k kb /\
  (forall i, 0 <= i < SIZEOF_REGISTERS ->
     m_load (k_mach kb) (k_cr3 k) (sp + i) = Some (znth 0 (words_bytes (regs_words r)) i)) /\
  (forall i, 0 <= i < 8 -> m_load (k_mach kb) (k_cr3 k) (sp - 8 + i) = Some (znth 0 (le_bytes 8 (t_trampoline t)) i)) /\
  (forall a, ring3_addr a = true -> sp + SIZEOF_REGISTERS <= a -> m_load (k_mach kb) (k_cr3 k) a = m_load (k_mach k) (k_cr3 k) a).
Proof.
  intros sp Hin Hrange Ea Eb.
  destruct (u_store_bytes_loads _ _ _ _ Hin Ea) as (Ma & Hin2 & La). destruct (u_store_bytes_loads _ _ _ _ Hin2 Eb) as (Mb & _ & Lb).
  assert (k_cr3 ka = k_cr3 k) as C1 by (rewrite Ma; done). rewrite C1 in Lb. rewrite regs_bytes_length in La.
  assert (zlen (le_bytes 8 (t_trampoline t)) = 8) as Hl8 by (unfold zlen; by rewrite le_bytes_length). rewrite Hl8 in Lb.
  unfold SIZEOF_REGISTERS in *. split; [unfold mach_only in *; rewrite Mb, Ma; done |]. split; [| split].
  - intros i Hi. rewrite Lb, La by (apply Hrange; lia).
    replace ((sp - 8 <=? sp + i) && (sp + i <? sp - 8 + 8)) with false by (zcases; simpl; lia || done).
    replace ((sp <=? sp + i) && (sp + i <? sp + 176)) with true by (zcases; simpl; lia || done).
    replace (sp + i - sp) with i by lia. f_equal. apply u8_small.
    apply (znth_Forall (fun b => 0 <= b < 256)); [apply words_bytes_range | rewrite regs_bytes_length; done].
  - intros i Hi. rewrite Lb by (apply Hrange; lia).
    replace ((sp - 8 <=? sp - 8 + i) && (sp - 8 + i <? sp - 8 + 8)) with true by (zcases; simpl; lia || done).
    replace (sp - 8 + i - (sp - 8)) with i by lia. f_equal. apply u8_small.
    apply (znth_Forall (fun b => 0 <= b < 256)); [apply le_bytes_range | rewrite Hl8; lia].
  - intros a Hr Ha. rewrite Lb, La by done. zcases; simpl; lia || done.
Qed.

(** C12: Delivering a signal and returning from its handler is the identity on
    the interrupted program. The handler is entered with the signal number
    as its argument, the stack aligned as after a call and the trampoline as
    its return address; memory from the red zone up is untouched; and
    [SYS_SIGRETURN], made by the handler with whatever registers, restores
    exactly the interrupted registers and makes the task deliverable again. *)
Theorem signal_roundtrip k r r1 k1 r2 t sig :
  at_rest k -> user_frame r -> Z.testbit (rflags r) 9 = true -> regs64 r -> Z.testbit (rflags r) 1 = true ->
  k_tasks k !! znth 0 (k_tab k) (k_current k) = Some t ->
  user_range_ok (signal_frame (user_rsp r)) (SIZEOF_REGISTERS + 8) = true -> ~ frame_at_edge r ->
  deliver_to_handler r (znth 0 (k_tab k) (k_current k)) sig k = Ret r1 k1 ->
  rip r1 = znth 0 (t_handlers t) sig /\ rdi r1 = sig /\ user_rsp r1 mod 16 = 8 /\
  u_load_bytes 8 (user_rsp r1) k1 = Ret (le_bytes 8 (t_trampoline t)) k1 /\
  (forall a, ring3_addr a = true -> user_rsp r - RED_ZONE_BYTES <= a -> m_load (k_mach k1) (k_cr3 k1) a = m_load (k_mach k) (k_cr3 k) a) /\
  exists k2, signal_sigreturn r2 k1 = Ret r k2 /\
    k_tasks k2 !! znth 0 (k_tab k) (k_current k) =
      Some (set_active (set_pending t (clear_pending (t_pending t) sig)) false 0).
Proof.
  intros R Hu HIF Hw Hf Ht Hok Hedge E.
  pose proof (deliver_ok k r t sig R Hu Hedge Ht) as Hrest. unfold wp in Hrest. rewrite E in Hrest.
  pose proof (rest_kinv _ (proj1 Hrest)) as H1. pose proof (rest_running _ (proj1 Hrest)) as Hr1. clear Hrest.
  set (p := znth 0 (k_tab k) (k_current k)) in *.
  destruct (deliver_inv k p r sig t r1 k1 (rest_in_as _ R) Ht Hok E) as (ka & kb & Ea & Eb & -> & ->).
  pose proof (frame_below_red_zone (user_rsp r) (Forall_lookup_1 _ _ 20%nat _ Hw eq_refl) Hok) as Hred.
  pose proof (signal_frame_aligned (user_rsp r)) as Hal. pose proof (range_below _ _ Hok) as [Hlo Hhi].
  unfold frame_at_edge in Hedge. set (sp := signal_frame (user_rsp r)) in *.
  assert (USER_REGION_START + 8 <= sp) as Hlow by (unfold USER_REGION_START, USER_CODE_BASE in *; mlia).
  destruct (deliver_memory k ka kb r t (rest_in_as _ R)) as (Mb & L1 & L2 & L3); [| exact Ea | exact Eb |].
  { intros a Ha. fold sp in Ha. unfold ring3_addr. rewrite andb_true_iff, Z.leb_le, Z.ltb_lt. unfold SIZEOF_REGISTERS in *. lia. }
  assert (k_cr3 kb = k_cr3 k /\ k_tab kb = k_tab k /\ k_current kb = k_current k) as (C2 & C4 & C5) by (rewrite Mb; done).
  split; [done |]. split; [done |]. split; [simpl; mlia |]. split; [| split].
  - rewrite <- (le_bytes_length 8 (t_trampoline t)) at 1. apply u_load_bytes_eq.
    unfold zlen. rewrite le_bytes_length. simpl. intros i Hi. rewrite C2. split; [| apply L2; lia].
    unfold ring3_addr. rewrite andb_true_iff, Z.leb_le, Z.ltb_lt. unfold SIZEOF_REGISTERS in *. lia.
  - intros a Hr Ha. simpl. rewrite C2. apply L3; [done |]. fold sp. lia.
  - eexists. split.
    + erewrite (sigreturn_eq _ r2 p _ r H1 Hr1); [by rewrite set_priv_user | | | | | done |]; simpl.
      * by rewrite C4, C5.
      * apply lookup_insert_eq.
      * done.
      * revert Hok. unfold user_range_ok. simpl. destruct (_ || _); [done |]. rewrite !Z.leb_le. unfold SIZEOF_REGISTERS. lia.
      * rewrite C2. exact L1.
    + simpl. by rewrite lookup_insert_eq.
Qed.

(** C20: What [SYS_SIGRETURN] takes from the task's own memory: whatever frame
    is there, the task resumes in ring 3 with the ring-3 selectors and with
    interrupts on, and with the general registers of that frame. The I/O
    privilege level, bits 12 and 13 of the flags, is not forced: it is
    copied from the task's memory. *)
Theorem sigreturn_privilege k r2 t r :
  at_rest k -> k_tasks k !! znth 0 (k_tab k) (k_current k) = Some t ->
  t_active t = true -> user_range_ok (t_ctx t) SIZEOF_REGISTERS = true -> regs64 r ->
  (forall i, 0 <= i < SIZEOF_REGISTERS ->
     m_load (k_mach k) (k_cr3 k) (t_ctx t + i) = Some (znth 0 (words_bytes (regs_words r)) i)) ->
  exists r' k', signal_sigreturn r2 k = Ret r' k' /\
    cs r' = GDT_SELECTOR_USER_CODE /\ ss r' = GDT_SELECTOR_USER_DATA /\ Z.testbit (rflags r') 9 = true /\
    rip r' = rip r /\ user_rsp r' = user_rsp r /\ rax r' = rax r /\
    Z.land (rflags r') 0x3000 = Z.land (rflags r) 0x3000.
Proof.
  intros R Ht Hact Hok Hw Hmem.
  rewrite (sigreturn_eq k r2 _ t r (rest_kinv _ R) (rest_running _ R) eq_refl Ht Hact Hok Hw Hmem).
  do 2 eexists. split; [reflexivity |]. cbn [cs ss rflags rip user_rsp rax set_priv].
  split; [done |]. split; [done |]. split; [rewrite Z.lor_spec; apply orb_true_r |]. do 3 (split; [done |]).
  rewrite Z.land_lor_distr_l. change (Z.land USER_MODE_RFLAGS 0x3000) with 0. apply Z.lor_0_r.
Qed.

(** [SYS_READKEY] with a key in the buffer, and with none for a task that
    carries the interrupted mark. *)
Lemma readkey_hit k r x l :
  kbd_ok (k_kbd k) -> kbd_list (k_kbd k) = x :: l -> x <> 0 ->
  exists b, sys_readkey r k = Ret (set_rax r x) (set_kbd k b) /\ kbd_ok b /\ kbd_list b = l.
Proof.
  intros Hok Hkb Hx. pose proof (keyboard_getchar_spec _ Hok) as Hs.
  unfold sys_readkey, mbind, K_bind, gets. destruct (keyboard_getchar (k_kbd k)) as [b c].
  rewrite Hkb in Hs. destruct Hs as (Hb & -> & Hl). exists b. apply Z.eqb_neq in Hx as ->. done.
Qed.

Lemma readkey_interrupted k r t :
  kbd_ok (k_kbd k) -> kbd_list (k_kbd k) = [] -> 0 <= k_current k < MAX_TASKS_LIMIT ->
  k_tasks k !! znth 0 (k_tab k) (k_current k) = Some t -> t_interrupted t = true ->
  sys_readkey r k = Ret (set_rax r SYSCALL_ERROR)
    (set_tasks k (<[znth 0 (k_tab k) (k_current k) := set_interrupted t false]> (k_tasks k))).
Proof.
  intros Hok Hkb Hc Ht Hi. pose proof (keyboard_getchar_spec _ Hok) as Hs.
  unfold sys_readkey, mbind, K_bind, gets. destruct (keyboard_getchar (k_kbd k)) as [b c].
  rewrite Hkb in Hs. destruct Hs as (Hb & -> & ->). unfold modify. replace (set_kbd k (k_kbd k)) with k by (by destruct k).
  cbn [Z.eqb negb]. unfold task_block, scheduler_current_task, mbind, K_bind, gets. rewrite tab_get_eq by done.
  unfold get_task. by rewrite Ht, Hi.
Qed.

(** C22: The interrupted mark outlives the call it belongs to. A task whose
    sleeping [SYS_READKEY] was interrupted by a signal, and which then reads
    a key without sleeping, still carries the mark: its next [SYS_READKEY],
    with no signal pending and nothing interrupted, fails instead of waiting
    for a key. *)
Theorem interrupted_mark_outlives_call k r r2 t x :
  at_rest k -> k_tasks k !! znth 0 (k_tab k) (k_current k) = Some t ->
  t_interrupted t = true -> t_pending t = 0 -> kbd_list (k_kbd k) = [x] -> x <> 0 ->
  exists k', (_ ← sys_readkey r ; sys_readkey r2) k = Ret (set_rax r2 SYSCALL_ERROR) k' /\
    kbd_list (k_kbd k') = [] /\
    k_tasks k' !! znth 0 (k_tab k) (k_current k) = Some (set_interrupted t false).
Proof.
  intros R Ht Hi Hp Hkb Hx. pose proof (rest_kinv _ R) as H. destruct (ki_cur _ _ H (rest_running _ R)) as [Hc _].
  destruct (ki_num _ _ H) as [Hn _]. destruct (readkey_hit k r x [] (ki_kbd _ _ H) Hkb Hx) as (b & E & Hb & Hl).
  unfold mbind, K_bind. rewrite E, (readkey_interrupted (set_kbd k b) r2 t) by (simpl; done || lia).
  eexists. split; [reflexivity |]. split; [exact Hl |]. simpl. apply lookup_insert_eq.
Qed.
End Signals.

(** C23: The range check of signal delivery is eight bytes short: a program
    that installs a handler, points its stack at the start of ring-3 space
    and signals itself makes the kernel store the handler's return address
    below ring-3 space, in memory that is not the program's. *)
Theorem delivery_check_misses_return_slot :
  exists k r, reach toy_zero (k, r) /\ user_frame r /\ regs64 r /\ frame_at_edge r /\ syscall_handler r k = UB.
Proof.
  exists handled_k, (call_regs SYS_KILL 0 SIG_INT 0 0 0x400130).
  split; [| split; [done |]; split; [regs64 |]; split; vm_compute; reflexivity].
  apply (reach_step _ (handled_k, handled_r)); [exact (run_reach handler_script) |]. apply step_compute. regs64.
Qed.

(** ** Witnesses *)

Definition deliver_regs : registers := call_regs SYS_WRITE 1 2 3 4 0x7FF000.
Definition handled_p : Z := znth 0 (k_tab handled_k) (k_current handled_k).
Definition delivered_r : registers := value deliver_regs (deliver_to_handler deliver_regs handled_p SIG_INT handled_k).
Definition delivered_k : kernel toy := state handled_k (deliver_to_handler deliver_regs handled_p SIG_INT handled_k).

Lemma delivered_eq :
  deliver_to_handler deliver_regs (znth 0 (k_tab handled_k) (k_current handled_k)) SIG_INT handled_k =
  Ret delivered_r delivered_k.
Proof. vm_compute. reflexivity. Qed.

Lemma handled_rest : resumed handled_k handled_r.
Proof. exact (toy_rest handled_k handled_r (run_reach handler_script)). Qed.

Lemma handled_current : k_tasks handled_k !! znth 0 (k_tab handled_k) (k_current handled_k) = Some (current_of handled_k).
Proof. vm_compute. reflexivity. Qed.

Lemma signal_roundtrip_witness :
  deliver_to_handler deliver_regs (znth 0 (k_tab handled_k) (k_current handled_k)) SIG_INT handled_k =
    Ret delivered_r delivered_k /\
  rip delivered_r = znth 0 (t_handlers (current_of handled_k)) SIG_INT.
Proof.
  split; [exact delivered_eq |].
  refine (proj1 (signal_roundtrip handled_k deliver_regs delivered_r delivered_k zero_regs (current_of handled_k) SIG_INT
    (proj1 handled_rest) _ _ _ _ handled_current _ _ delivered_eq)).
  - split; [reflexivity |]. split; reflexivity.
  - reflexivity.
  - regs64.
  - reflexivity.
  - reflexivity.
  - vm_compute. discriminate.
Defined.

Definition doctored_frame : registers :=
  words_regs (bytes_words 22 (match u_load_bytes 176 saved_at doctored_k with Ret l _ => l | _ => [] end)).

Lemma doctored_memory i :
  0 <= i < SIZEOF_REGISTERS ->
  m_load (k_mach doctored_k) (k_cr3 doctored_k) (t_ctx (current_of doctored_k) + i) =
  Some (znth 0 (words_bytes (regs_words doctored_frame)) i).
Proof.
  assert (forallb (fun j => bool_decide (m_load (k_mach doctored_k) (k_cr3 doctored_k)
    (t_ctx (current_of doctored_k) + j) = Some (znth 0 (words_bytes (regs_words doctored_frame)) j)))
    (seqZ 0 SIZEOF_REGISTERS) = true) as H by (vm_compute; reflexivity).
  intros Hi. rewrite forallb_forall in H. specialize (H i). rewrite bool_decide_eq_true in H. apply H.
  apply list_elem_of_In, elem_of_seqZ. lia.
Qed.

Lemma doctored_rest : resumed doctored_k doctored_r.
Proof. exact (toy_rest doctored_k doctored_r (run_reach doctored_script)). Qed.

Lemma doctored_current : k_tasks doctored_k !! znth 0 (k_tab doctored_k) (k_current doctored_k) = Some (current_of doctored_k).
Proof. vm_compute. reflexivity. Qed.

(** With [0x3202] in its saved flags the task comes back with IOPL 3. *)
Lemma sigreturn_privilege_witness :
  Z.land (rflags doctored_frame) 0x3000 = 0x3000 /\
  exists r' k', signal_sigreturn doctored_r doctored_k = Ret r' k' /\
    cs r' = GDT_SELECTOR_USER_CODE /\ ss r' = GDT_SELECTOR_USER_DATA /\ Z.testbit (rflags r') 9 = true /\
    rip r' = rip doctored_frame /\ user_rsp r' = user_rsp doctored_frame /\ rax r' = rax doctored_frame /\
    Z.land (rflags r') 0x3000 = Z.land (rflags doctored_frame) 0x3000.
Proof.
  split; [vm_compute; reflexivity |].
  apply (sigreturn_privilege doctored_k doctored_r (current_of doctored_k) doctored_frame).
  - exact (proj1 doctored_rest).
  - exact doctored_current.
  - vm_compute. reflexivity.
  - vm_compute. reflexivity.
  - regs64.
  - exact doctored_memory.
Defined.

Lemma stale_reach : reach toy_zero (stale_k, stale_r).
Proof. exact (run_reach stale_script). Qed.

Lemma stale_current : k_tasks stale_k !! znth 0 (k_tab stale_k) (k_current stale_k) = Some (current_of stale_k).
Proof. vm_compute. reflexivity. Qed.

(** The state is one the system reaches. *)
Lemma interrupted_mark_outlives_call_witness :
  reach toy_zero (stale_k, stale_r) /\
  exists k', (_ ← sys_readkey stale_r ; sys_readkey zero_regs) stale_k = Ret (set_rax zero_regs SYSCALL_ERROR) k' /\
    kbd_list (k_kbd k') = [] /\
    k_tasks k' !! znth 0 (k_tab stale_k) (k_current stale_k) = Some (set_interrupted (current_of stale_k) false).
Proof.
  split; [exact stale_reach |].
  apply (interrupted_mark_outlives_call stale_k stale_r zero_regs (current_of stale_k) 97).
  - exact (proj1 (toy_rest _ _ stale_reach)).
  - exact stale_current.
  - vm_compute. reflexivity.
  - vm_compute. reflexivity.
  - vm_compute. reflexivity.
  - discriminate.
Defined.
