(* ===== verification/TaskSpec.v ===== *)
(** * Exit, wait and ring-3 memory regions

    What a task leaves behind when it exits, how its parent collects it, and
    where [SYS_MMAP] puts a region. *)

From stdpp Require Import base list gmap fin_maps fin_map_dom.
From Stdlib Require Import ZArith Lia Bool.
From S2P Require Import Prelude Frames Ring Kernel Sched Syscall.
From S2P Require Import KernelInv KernelFiles KernelTasks KernelCreate KernelSafe RoundRobin System Toy KernelSpec SignalSpec.

Section Tasks.
Context {M : Type} {mach : Machine M} {laws : MachineLaws M}.
Implicit Types k : kernel M.

(** ** Exit *)

(** [t'] is the remains of [t]. *)
Definition remains (t t' : task) : Prop :=
  t_state t' = TASK_ZOMBIE /\ t_id t' = t_id t /\ t_parent t' = t_parent t /\ t_exit t' = t_exit t /\ t_fds t' = t_fds t.

Lemma remains_sim t t' t'' : remains t t' -> task_sim t' t'' -> remains t t''.
Proof.
  intros (A1 & A2 & A3 & A4 & A5) [E Hc]. unfold remains. rewrite E; simpl. split; [| done].
  destruct Hc as [[-> _] | (Hb & _)]; [done | congruence].
Qed.

(** A dead task that calls the scheduler never comes back, and stays in the
    table as it is. *)
Lemma schedule_dead z k r t :
  kinv z k -> k_running k = true -> k_idling k = false -> user_frame r ->
  k_tasks k !! znth 0 (k_tab k) (k_current k) = Some t -> t_state t = TASK_ZOMBIE ->
  wp (schedule r) (fun _ k' => k_current k' <> k_current k /\
    exists t', k_tasks k' !! znth 0 (k_tab k) (k_current k) = Some t' /\ remains t t') k.
Proof.
  intros H Hr Hid Hu Ht Hst. unfold schedule. apply wp_bind, wp_gets. rewrite Hr. cbn [negb].
  apply wp_bind, wp_gets. rewrite Hid. apply wp_bind.
  eapply wp_mono; [by apply (reap_sweep_ok z) |]. intros [] k1 (H1 & (C1 & C2 & C3 & C4) & _ & (K1 & K2)).
  apply wp_bind, wp_gets. assert (k_running k1 = true) as Hr1 by congruence.
  destruct (ki_cur _ _ H1 Hr1) as (Hc & _). destruct (ki_num _ _ H1) as [Hn _].
  assert (k_tasks k1 !! znth 0 (k_tab k1) (k_current k1) = Some t) as Ht1 by (rewrite C2, K1; congruence).
  apply wp_bind, wp_tab_get; [lia |].
  destruct (Z.eqb_spec (znth 0 (k_tab k1) (k_current k1)) 0) as [E | _]; [by apply (kinv_task_nonzero _ _ _ _ H1) in Ht1 |].
  apply wp_bind. eapply wp_get_task; [done |]. unfold wp. rewrite park_eq by done.
  destruct (kinv_park z k1 t r H1 Hr1 Ht1 Hu) as [H2 Hnone]. cbv zeta in H2, Hnone.
  set (p := znth 0 (k_tab k) (k_current k)) in *. rewrite C2, K1 in *.
  set (k2 := set_tasks k1 _) in *.
  assert (k_tasks k2 !! p = Some (parked t r) /\ remains t (parked t r)) as [Ht2 Hrem].
  { split; [apply lookup_insert_eq |]. unfold parked. cbv zeta. rewrite decide_False by (simpl; congruence). done. }
  pose proof (pick_ok z k2 H2 ltac:(simpl; lia) ltac:(simpl; congruence)) as Hpick.
  match goal with |- match ?m k2 with _ => _ end => change (wp m (fun _ k' => k_current k' <> k_current k /\
    exists t', k_tasks k' !! p = Some t' /\ remains t t') k2) end.
  replace (k_current k2) with (k_current k) in Hpick by (simpl; congruence).
  apply wp_assoc, wp_bind. eapply wp_mono; [exact Hpick |]. clear Hpick. intros c k3 (H3 & S3 & (Hcr3 & tq & Htq & Hrdy)).
  destruct (steady_env _ _ S3) as (S4 & S5 & S6 & S7 & S8 & _).
  destruct (steady_fwd _ _ _ _ S3 Ht2) as (t3 & Ht3 & Hsim). pose proof (remains_sim _ _ _ Hrem Hsim) as Hrem3.
  assert (k_current k3 = k_current k) as E3 by (rewrite S6; simpl; congruence).
  assert (znth 0 (k_tab k3) c <> p) as Hne.
  { intros E. rewrite E in Htq. destruct Hrem3 as [Hz _]. congruence. }
  cbv zeta. rewrite <- E3. unfold wp. rewrite (enter_eq z) with (t := tq) by (done || rewrite S7; simpl; congruence).
  unfold entered; simpl. split.
  - intros E. apply Hne. rewrite E, E3, S4. unfold k2; simpl. by rewrite K1.
  - exists t3. by rewrite lookup_insert_ne.
Qed.

Lemma exit_zombie k r status t :
  at_rest k -> user_frame r -> k_tasks k !! znth 0 (k_tab k) (k_current k) = Some t ->
  wp (task_exit r status) (fun r' k' => k_current k' <> k_current k /\
    exists t', k_tasks k' !! znth 0 (k_tab k) (k_current k) = Some t' /\ t_state t' = TASK_ZOMBIE /\
      t_id t' = k_current k /\ t_exit t' = Z.land status 0xFF /\ Forall (eq 0) (t_fds t')) k.
Proof.
  intros R Hu Ht. pose proof R as (H & (Hr & t0 & Ht0 & Hrun) & Hid).
  unfold task_exit. apply wp_bind, (rest_current k); [done |]. intros p t1 -> Ht1 _ _ _ _ Eid.
  assert (t1 = t) as -> by congruence.
  apply wp_bind. eapply wp_mono; [by apply close_all_ok |].
  intros [] k1 ((H1 & HU1 & Hid1) & Etab & (C1 & C2 & C3 & C4) & t2 & Ht2 & Hz).
  set (p := znth 0 (k_tab k) (k_current k)) in *.
  apply wp_bind. eapply wp_get_task; [done |]. apply wp_bind, wp_put_task.
  destruct (task_entry _ _ _ _ H1 Ht2) as (_ & Ep & Hok).
  set (t3 := set_tstate (set_exit t2 (Z.land status 255)) TASK_ZOMBIE WAIT_NONE).
  assert (Forall (eq 0) (t_fds t2)) as Hfds by (apply zeros_Forall; by rewrite (to_fds _ Hok)).
  assert (kinv none (set_tasks k1 (<[p := t3]> (k_tasks k1)))) as HK.
  { eapply kinv_put_task; try done. destruct Hok; split; simpl; try done. }
  apply wp_bind. eapply wp_mono; [apply (wake_parent_ok none); [exact HK | apply (to_parent _ Hok)] |].
  intros [] k2 [H2 S2]. destruct (steady_env _ _ S2) as (E0 & E1' & E2' & E1 & E2 & _). simpl in E0, E2', E1, E2.
  destruct (steady_fwd _ _ p t3 S2) as (t4 & Ht4 & Hsim); [simpl; apply lookup_insert_eq |].
  assert (remains t3 t4) as Hrem by (eapply remains_sim; [| exact Hsim]; done).
  assert (znth 0 (k_tab k2) (k_current k2) = p) as Ep2 by (rewrite E0, E2', Etab, C2; done).
  eapply wp_mono; [apply (schedule_dead none k2 r t4); [done | congruence | congruence | done | by rewrite Ep2 | by destruct Hrem] |].
  rewrite Ep2, E2', C2. intros r' k' (Hcur & t5 & Ht5 & R1 & R2 & R3 & R4 & R5). split; [done |].
  exists t5. split; [done |]. split; [done |]. destruct Hrem as (_ & Q2 & _ & Q4 & Q5).
  split; [| split; [by rewrite R4, Q4 | by rewrite R5, Q5]].
  rewrite R2, Q2. simpl. destruct HU1 as (_ & tc & Htc & Hsc). destruct (ki_run _ _ H1 _ _ Htc Hsc) as [_ Ec].
  rewrite Etab, C2 in Htc. fold p in Htc. congruence.
Qed.

(** Only blocked tasks are woken and a dead task takes no signal. *)
Lemma dead_not_woken z k p t reason :
  kinv z k -> k_tasks k !! p = Some t -> t_state t = TASK_ZOMBIE ->
  exists ts, scheduler_wake reason k = Ret tt (set_tasks k ts) /\ ts !! p = Some t.
Proof.
  intros H Ht Hs. rewrite (scheduler_wake_eq z) by done. eexists. split; [reflexivity |].
  rewrite lookup_fmap, Ht. simpl. unfold woken. rewrite decide_False; [done |]. rewrite Hs. by intros [? _].
Qed.

Lemma dead_not_signalled z k p t id sig :
  kinv z k -> 0 <= id -> k_tasks k !! p = Some t -> t_state t = TASK_ZOMBIE ->
  exists ts, signal_raise id sig k = Ret tt (set_tasks k ts) /\ ts !! p = Some t.
Proof.
  intros H Hid Ht Hs. destruct (ki_num _ _ H) as [Hn _].
  assert (exists ts, Ret tt k = Ret tt (set_tasks k ts) /\ ts !! p = Some t) as Hno by (exists (k_tasks k); by destruct k).
  destruct (decide (0 < sig < MAX_SIGS)) as [Hsig | Hsig].
  2: { unfold signal_raise. by replace ((sig <=? 0) || (MAX_SIGS <=? sig)) with true by (zcases; simpl; lia || done). }
  destruct (decide (id < k_num k)) as [Hlt | Hge].
  2: { unfold signal_raise. replace ((sig <=? 0) || (MAX_SIGS <=? sig)) with false by (zcases; simpl; lia || done).
    unfold scheduler_task_by_id, mbind, K_bind, gets. destruct (Z.leb_spec (k_num k) id); [done | lia]. }
  destruct (decide (znth 0 (k_tab k) id = 0)) as [Ez | Ez].
  { unfold signal_raise. replace ((sig <=? 0) || (MAX_SIGS <=? sig)) with false by (zcases; simpl; lia || done).
    unfold scheduler_task_by_id, mbind, K_bind, gets. destruct (Z.leb_spec (k_num k) id); [lia |].
    rewrite tab_get_eq by lia. by rewrite Ez. }
  destruct (kinv_entry z k id H ltac:(lia) Ez) as (t1 & Ht1 & _). rewrite (signal_raise_eq k id sig t1) by (done || lia).
  eexists. split; [reflexivity |]. destruct (decide (p = znth 0 (k_tab k) id)) as [-> | Hne]; [| by rewrite lookup_insert_ne].
  rewrite lookup_insert_eq. assert (t1 = t) as -> by congruence. unfold signalled. by rewrite decide_True.
Qed.

(** C17: When [task_exit] hands the processor on, another task runs and the
    exited one is still in the task table: a zombie with every descriptor
    closed that holds the low eight bits of its exit status for its parent.
    No wake-up and no signal makes it ready again. *)
Theorem exit_leaves_status k r status t :
  at_rest k -> user_frame r -> k_tasks k !! znth 0 (k_tab k) (k_current k) = Some t ->
  wp (task_exit r status) (fun r' k' => resumed k' r' /\ k_current k' <> k_current k /\
    exists t', k_tasks k' !! znth 0 (k_tab k) (k_current k) = Some t' /\ t_state t' = TASK_ZOMBIE /\
      t_id t' = k_current k /\ t_exit t' = Z.land status 0xFF /\ Forall (eq 0) (t_fds t') /\
      (forall reason, exists ts, scheduler_wake reason k' = Ret tt (set_tasks k' ts) /\
         ts !! znth 0 (k_tab k) (k_current k) = Some t') /\
      (forall id sig, 0 <= id -> exists ts, signal_raise id sig k' = Ret tt (set_tasks k' ts) /\
         ts !! znth 0 (k_tab k) (k_current k) = Some t')) k.
Proof.
  intros R Hu Ht. pose proof (task_exit_ok k r status R Hu) as Hres.
  assert (forall m (P Q : registers -> kernel M -> Prop), wp m P k -> wp m Q k -> wp m (fun r k => P r k /\ Q r k) k) as Hand.
  { intros m P Q. unfold wp. by destruct (m k). }
  eapply wp_mono; [exact (Hand _ _ _ Hres (exit_zombie k r status t R Hu Ht)) |].
  intros r' k' (Hr' & Hc & t' & Ht' & Hs & Hi & He & Hf). pose proof (rest_kinv _ (proj1 Hr')) as HK.
  split; [done |]. split; [done |]. exists t'. do 5 (split; [done |]).
  split; [intros reason; by apply (dead_not_woken none) | intros id sig Hid; by apply (dead_not_signalled none)].
Qed.

(** ** Wait *)

Context {mem : MemoryLaws M}.

(** [i] is a dead child of the current task. *)
Definition dead_child k (i : Z) (t : task) : Prop :=
  0 <= i < k_num k /\ k_tasks k !! znth 0 (k_tab k) i = Some t /\ t_parent t = k_current k /\ t_state t = TASK_ZOMBIE.

(** The scan passes over what is not a dead child. *)
Lemma wait_scan_skip k r n : forall i have,
  kinv none k -> 0 <= i -> i + Z.of_nat n <= k_num k ->
  (forall j t, i <= j < i + Z.of_nat n -> ~ dead_child k j t) ->
  exists have', forall m, wait_scan (n + m) i r have k = wait_scan m (i + Z.of_nat n) r have' k.
Proof.
  induction n as [|n IH]; intros i have H Hi Hn Hno.
  { exists have. intros m. by rewrite Z.add_0_r. }
  destruct (ki_num _ _ H) as [Hnum _].
  assert (exists have1, forall m, wait_scan (S n + m) i r have k = wait_scan (n + m) (i + 1) r have1 k) as [have1 E1].
  { cbn [wait_scan Nat.add]. unfold mbind, K_bind. rewrite tab_get_eq by lia.
    destruct (Z.eqb_spec (znth 0 (k_tab k) i) 0) as [| Hz]; [by eexists |].
    destruct (kinv_entry none k i H ltac:(lia) Hz) as (t & Ht & _). unfold get_task, gets. rewrite Ht.
    destruct (Z.eqb_spec (t_parent t) (k_current k)) as [Ep |]; cbn [negb]; [| by eexists].
    destruct (decide (t_state t <> TASK_ZOMBIE)) as [| Hs%dec_stable]; [by eexists |].
    exfalso. apply (Hno i t); [lia |]. by split; [lia |]. }
  destruct (IH (i + 1) have1 H) as [have2 E2]; [lia | lia | intros j t Hj; apply Hno; lia |].
  exists have2. intros m. rewrite E1, E2. f_equal. lia.
Qed.

(** What collecting the child at [i] leaves. *)
Definition collected k (i : Z) (t : task) : kernel M :=
  let m := if t_aspace t =? 0 then k_mach k else m_destroy_as (k_mach k) (t_aspace t) in
  set_tab (set_mach (set_tasks k (delete (znth 0 (k_tab k) i) (k_tasks k))) (m_kfree m (znth 0 (k_tab k) i)))
    (zset (k_tab k) i 0).

Lemma collect_eq {A} k i t (rest : K M A) :
  0 <= i < MAX_TASKS_LIMIT -> k_tasks k !! znth 0 (k_tab k) i = Some t ->
  (drop_aspace (znth 0 (k_tab k) i) ;; kfree_task (znth 0 (k_tab k) i) ;; tab_set i 0 ;; rest) k =
  rest (collected k i t).
Proof.
  intros Hi Ht. unfold drop_aspace, kfree_task, kfree_raw, m_upd, put_task, mbind, K_bind, modify, get_task. rewrite Ht.
  unfold collected. destruct (t_aspace t =? 0); simpl.
  - unfold tab_set. by replace ((0 <=? i) && (i <? MAX_TASKS_LIMIT)) with true by (zcases; simpl; lia || done).
  - unfold tab_set. replace ((0 <=? i) && (i <? MAX_TASKS_LIMIT)) with true by (zcases; simpl; lia || done).
    simpl. by rewrite delete_insert_eq.
Qed.

Lemma collected_ok k i t :
  at_rest k -> 0 <= i < MAX_TASKS_LIMIT -> k_tasks k !! znth 0 (k_tab k) i = Some t -> t_state t = TASK_ZOMBIE ->
  at_rest (collected k i t) /\ znth 0 (k_tab k) i ∉ m_live (k_mach (collected k i t)) /\
  (t_aspace t <> 0 -> t_aspace t ∉ m_as (k_mach (collected k i t))).
Proof.
  intros R Hi Ht Hst. pose proof R as (H & HU & Hid). split.
  { pose proof (reap_child_ok none k i t H HU Hi Ht Hst) as Hw. cbv zeta in Hw.
    assert ((drop_aspace (znth 0 (k_tab k) i) ;; kfree_task (znth 0 (k_tab k) i) ;; tab_set i 0) k = Ret tt (collected k i t)) as E.
    { pose proof (collect_eq k i t (mret tt) Hi Ht) as E. unfold mbind, K_bind in *.
      destruct (drop_aspace _ k) as [[] ? | |]; [| done | done]. destruct (kfree_task _ k0) as [[] ? | |]; [| done | done].
      destruct (tab_set i 0 k1) as [[] ? | |]; [| done | done]. done. }
    unfold wp in Hw. rewrite E in Hw. destruct Hw as (H1 & (_ & _ & _ & C4) & HU1). split; [done |]. split; [done | congruence]. }
  set (p := znth 0 (k_tab k) i) in *. unfold collected; simpl. fold p.
  assert (p ∈ dom (k_tasks k)) as Hpd by (apply elem_of_dom; by eexists).
  destruct (ki_apart _ _ H) as (_ & _ & _ & P & _). simpl in P.
  assert (p ∉ m_as (k_mach k) /\ p ∈ m_live (k_mach k)) as [Hpa Hpl] by (rewrite (ki_live _ _ H); set_solver +P Hpd).
  destruct (Z.eqb_spec (t_aspace t) 0) as [Ez | Ez].
  - destruct (law_kfree _ _ (ki_ok _ _ H) Hpl Hpa) as (_ & _ & _ & ->). split; [set_solver + | done].
  - destruct (ki_as _ _ H _ _ Ht Ez) as (Ha & _ & _). destruct (law_destroy _ _ (ki_ok _ _ H) Ha) as (D1 & _ & D3 & D4).
    assert (t_aspace t <> p) by congruence.
    destruct (law_kfree (m_destroy_as (k_mach k) (t_aspace t)) p D1) as (_ & -> & _ & ->);
      [rewrite D3; set_solver | rewrite D4; set_solver +Hpa |].
    rewrite D4. split; [set_solver + | intros _; set_solver +].
Qed.

(** Stores to ring 3 leave the heap and the address spaces alone. *)
Lemma store_quiet va l : forall k, at_rest k ->
  (forall i, 0 <= i < zlen l -> ring3_addr (va + i) = true) ->
  wp (u_store_bytes va l) (fun _ k' => at_rest k' /\ mach_only k k' /\
    m_live (k_mach k') = m_live (k_mach k) /\ m_as (k_mach k') = m_as (k_mach k)) k.
Proof.
  revert va. induction l as [|b l IH]; intros va k R Hva; cbn [u_store_bytes].
  { apply wp_ret. split; [done |]. split; [by destruct k | done]. }
  unfold zlen in Hva. simpl in Hva. pose proof (rest_kinv _ R) as H.
  destruct (ki_cur _ _ H (rest_running _ R)) as (_ & t & Ht & Hz & E).
  destruct (ki_as _ _ H _ _ Ht Hz) as (A1 & _ & A3).
  assert (ring3_addr va = true) as Hr by (rewrite <- (Z.add_0_r va); apply Hva; lia).
  apply wp_bind. unfold u_store, wp at 1. rewrite Hr. destruct (m_store _ _ _ _) as [m|] eqn:Es; [| done].
  assert (quiet_on m_ok m_live m_as (k_mach k) m) as Q.
  { eapply law_store; [apply (ki_ok _ _ H) | exact A1 | exact Hr |]. rewrite <- A3, <- E. exact Es. }
  eapply wp_mono; [apply IH; [by apply rest_quiet |] |].
  - intros i Hi. unfold zlen in Hi. replace (va + 1 + i) with (va + (i + 1)) by lia. apply Hva. lia.
  - intros [] k' (R' & E' & EL & EA). destruct Q as (_ & Q1 & Q2 & _). split; [done |]. split; [| simpl in *; split; congruence].
    unfold mach_only in *. rewrite E'. done.
Qed.

(** Bytes stored in ring-3 memory are the ones loaded afterwards. *)
Lemma store_load va l k k' : at_rest k -> Forall (fun b => 0 <= b < 256) l ->
  (forall i, 0 <= i < zlen l -> ring3_addr (va + i) = true) -> u_store_bytes va l k = Ret tt k' ->
  u_load_bytes (length l) va k' = Ret l k'.
Proof.
  intros R Hb Hva E. destruct (u_store_bytes_loads _ _ _ _ (rest_in_as _ R) E) as (Em & _ & Hl).
  assert (k_cr3 k' = k_cr3 k) as Ec by (by rewrite Em). apply u_load_bytes_eq. intros i Hi. split; [by apply Hva |].
  rewrite Ec, Hl by (by apply Hva). replace ((va <=? va + i) && (va + i <? va + zlen l)) with true by (zcases; simpl; lia || done).
  replace (va + i - va) with i by lia. f_equal. unfold u8. apply Z.mod_small.
  rewrite znth_nonneg by lia. unfold zlen in Hi. destruct (lookup_lt_is_Some_2 l (Z.to_nat i)) as [b Eb]; [lia |].
  rewrite Eb. simpl. by apply (Forall_lookup_1 _ _ _ _ Hb Eb).
Qed.

(** What [task_wait] reports and leaves when it collects the child at [i]:
    the status in [RAX], the child's id at the pointer that was passed. *)
Definition collected_post k (r : registers) (i : Z) (t : task) (r' : registers) (k' : kernel M) : Prop :=
  resumed k' r' /\ r' = set_rax r (u64 (t_exit t)) /\
  (rdi r <> 0 -> u_load_bytes 8 (rdi r) k' = Ret (le_bytes 8 (t_id t)) k') /\
  k_tasks k' = delete (znth 0 (k_tab k) i) (k_tasks k) /\ k_tab k' = zset (k_tab k) i 0 /\
  k_files k' = k_files k /\ k_pipes k' = k_pipes k /\
  znth 0 (k_tab k) i ∉ m_live (k_mach k') /\ (t_aspace t <> 0 -> t_aspace t ∉ m_as (k_mach k')).

(** The last steps of the scan, at the child. *)
Lemma wait_scan_hit k r i t n have :
  at_rest k -> user_frame r -> (rdi r = 0 \/ user_range_ok (rdi r) 8 = true) -> dead_child k i t ->
  wp (wait_scan (S n) i r have) (fun x k' => exists r', x = inl r' /\ collected_post k r i t r' k') k.
Proof.
  intros R Hu Hd (Hi & Ht & Hpar & Hst). pose proof (rest_kinv _ R) as H. destruct (ki_num _ _ H) as [Hn _].
  destruct (collected_ok k i t R ltac:(lia) Ht Hst) as (R1 & L1 & L2). cbn [wait_scan].
  apply wp_bind, wp_tab_get; [lia |].
  destruct (Z.eqb_spec (znth 0 (k_tab k) i) 0) as [Ez |]; [by apply (kinv_task_nonzero _ _ _ _ H) in Ht |].
  apply wp_bind. eapply wp_get_task; [done |]. apply wp_bind, wp_gets. rewrite Hpar, Z.eqb_refl. cbn [negb].
  rewrite decide_False by (intros Hs; by apply Hs). unfold wp. rewrite (collect_eq k i t) by (done || lia).
  assert (forall k1, at_rest k1 -> mach_only (collected k i t) k1 ->
    m_live (k_mach k1) = m_live (k_mach (collected k i t)) -> m_as (k_mach k1) = m_as (k_mach (collected k i t)) ->
    (rdi r <> 0 -> u_load_bytes 8 (rdi r) k1 = Ret (le_bytes 8 (t_id t)) k1) ->
    collected_post k r i t (set_rax r (u64 (t_exit t))) k1) as Hfin.
  { intros k1 Rk1 E1 EL EA Hid. split; [done |]. split; [done |]. split; [exact Hid |]. rewrite EL, EA, E1. done. }
  unfold mbind, K_bind. destruct (Z.eqb_spec (rdi r) 0) as [| Hz]; [eexists; split; [done |]; by apply Hfin |].
  destruct Hd as [| Hd]; [done |].
  pose proof (store_quiet (rdi r) (le_bytes 8 (t_id t)) (collected k i t) R1) as Hst2.
  unfold wp in Hst2. destruct (u_store_bytes _ _ _) as [[] k1 | |] eqn:Es; [| done | apply Hst2].
  - destruct Hst2 as (Rk1 & E1 & EL & EA).
    { intros j Hj. unfold zlen in Hj. rewrite le_bytes_length in Hj. by apply (user_range_addr _ 8). }
    eexists. split; [done |]. apply Hfin; try done. intros _.
    rewrite <- (le_bytes_length 8 (t_id t)) at 1. apply (store_load _ _ (collected k i t) k1 R1); [apply le_bytes_range | | done].
    intros j Hj. unfold zlen in Hj. rewrite le_bytes_length in Hj. by apply (user_range_addr _ 8).
  - intros j Hj. unfold zlen in Hj. rewrite le_bytes_length in Hj. by apply (user_range_addr _ 8).
Qed.

(** C18: A parent that waits collects its first dead child: the call returns
    the child's exit status, the child's id goes to the pointer that was
    passed, the child leaves the task table, its task structure and address
    space are freed, and every other task is untouched. *)
Theorem wait_collects_child k r i t :
  at_rest k -> user_frame r -> (rdi r = 0 \/ user_range_ok (rdi r) 8 = true) ->
  dead_child k i t -> (forall j t', 0 <= j < i -> ~ dead_child k j t') ->
  wp (task_wait r) (collected_post k r i t) k.
Proof.
  intros R Hu Hd Hdead Hno. pose proof (rest_kinv _ R) as H. destruct (ki_num _ _ H) as [Hn _].
  pose proof Hdead as [Hi _].
  destruct (wait_scan_skip k r (Z.to_nat i) 0 false H ltac:(lia) ltac:(lia)) as [have E].
  { intros j t' Hj. apply Hno. lia. }
  pose proof (wait_scan_hit k r i t (Z.to_nat (k_num k - i - 1)) have R Hu Hd Hdead) as Hw.
  unfold task_wait. apply wp_bind, wp_gets, wp_bind.
  replace (Z.to_nat (k_num k)) with (Z.to_nat i + S (Z.to_nat (k_num k - i - 1)))%nat by lia.
  unfold wp at 1. rewrite E. replace (0 + Z.of_nat (Z.to_nat i)) with i by lia.
  unfold wp in Hw. destruct (wait_scan _ i r have k) as [x k' | |]; [| done | done].
  destruct Hw as (r' & -> & Hpost). exact Hpost.
Qed.

(** ** Regions *)

(** C19: [SYS_MMAP] either fails and changes no task, or returns the start of a
    whole number of pages, at least as many as asked for, inside the ring-3
    heap slot and apart from every region the task has; the region is
    recorded in a slot that was free, and no other region changes. *)
Theorem mmap_returns_fresh_region k len t :
  at_rest k -> 0 <= len -> k_tasks k !! znth 0 (k_tab k) (k_current k) = Some t ->
  wp (sys_mmap len) (fun v k' => at_rest k' /\
    (v = SYSCALL_ERROR /\ k_tasks k' = k_tasks k \/
     exists n slot, 0 < len <= n /\ n < len + FRAME_SIZE /\ n mod FRAME_SIZE = 0 /\ v mod FRAME_SIZE = 0 /\
       USER_HEAP_BASE <= v /\ v + n <= USER_HEAP_LIMIT /\
       0 <= slot < MAX_REGIONS /\ reg_length (znth (mkRegion 0 0) (t_regions t) slot) = 0 /\
       Forall (fun g => region_apart g (mkRegion v n)) (t_regions t) /\
       k_tasks k' !! znth 0 (k_tab k) (k_current k) =
         Some (set_regions t (zset (t_regions t) slot (mkRegion v n))))) k.
Proof.
  intros R Hl Ht. pose proof (sys_mmap_ok k len R Hl) as Hres.
  assert (forall m (P Q : Z -> kernel M -> Prop), wp m P k -> wp m Q k -> wp m (fun r k => P r k /\ Q r k) k) as Hand.
  { intros m P Q. unfold wp. by destruct (m k). }
  apply Hand; [exact Hres |]. clear Hres Hand.
  unfold sys_mmap. apply wp_bind, (rest_current k); [done |]. intros p t1 -> Ht1 _ Hok Hs Ha _.
  assert (t1 = t) as -> by congruence.
  cbv zeta. destruct (_ || _) eqn:Eb; [by left |]. zbool.
  destruct (round_up_spec len ltac:(lia)) as (R1 & R2 & R3). set (n := round_up_to_page len) in *.
  apply wp_bind. eapply wp_get_task; [done |]. pose proof (to_regions _ Hok) as Hreg.
  destruct (region_scan (t_regions t)) as [[slot next] total] eqn:Es.
  destruct (region_scan_spec _ _ _ _ Hreg Es) as (S1 & S2 & S3 & S4).
  destruct (Z.ltb_spec slot 0); [by left |]. destruct S4 as [| [S4 S5]]; [lia |].
  destruct (Z.ltb_spec (u64 (USER_HEAP_LIMIT - next)) n) as [| Hfit]; [by left |].
  rewrite u64_small in Hfit by (unfold USER_HEAP_BASE, USER_HEAP_LIMIT in *; lia).
  destruct (_ <? _); [by left |]. apply wp_bind. unfold m_op, wp at 1.
  destruct (m_map_range _ _ _ _) as [m rc] eqn:Em. destruct (negb _); [by left |].
  apply wp_bind, wp_put_task, wp_ret. right. exists n, slot.
  do 8 (split; [lia || done |]). split; [| simpl; apply lookup_insert_eq].
  destruct Hreg as (Hlen & _). unfold zlen in Hlen. apply Forall_lookup_2. intros i g Hg.
  pose proof (lookup_lt_Some _ _ _ Hg). specialize (S3 (Z.of_nat i)). rewrite znth_nonneg, Nat2Z.id, Hg in S3 by lia.
  destruct S3 as [S3 | S3]; [lia | by left |]. right. right. left. exact S3.
Qed.
End Tasks.

(** ** Witnesses *)

Lemma exit_leaves_status_witness :
  at_rest two_k /\
  wp (task_exit two_r 300) (fun r' k' => exists t', k_tasks k' !! znth 0 (k_tab two_k) (k_current two_k) = Some t' /\
    t_exit t' = 44) two_k.
Proof.
  split; [exact (proj1 two_rest) |].
  eapply wp_mono.
  - refine (exit_leaves_status two_k two_r 300 (current_of two_k) (proj1 two_rest) (proj2 two_rest) _).
    vm_compute. reflexivity.
  - intros r' k' (_ & _ & t' & Ht' & _ & _ & E & _). exists t'. split; [exact Ht' | exact E].
Defined.

(** The child exits with 7 while the shell is ready. *)
Definition dead_script : list action := [Tick; Call (call_regs SYS_EXIT 7 0 0 0 0x7FF000)].
Definition dead_k : kernel toy := (run dead_script).1.
Definition dead_r : registers := (run dead_script).2.
Definition wait_regs : registers := call_regs SYS_WAIT name_at 0 0 0 0x7FF000.
Definition dead_task : task := default (current_of dead_k) (k_tasks dead_k !! znth 0 (k_tab dead_k) 1).

Lemma dead_rest : resumed dead_k dead_r.
Proof. exact (toy_rest dead_k dead_r (run_reach dead_script)). Qed.

Lemma dead_child_1 : dead_child dead_k 1 dead_task.
Proof. split; [split; vm_compute; done |]. split; [vm_compute; reflexivity |]. split; vm_compute; reflexivity. Qed.

Lemma not_dead_0 t : ~ dead_child dead_k 0 t.
Proof.
  intros (_ & Ht & _ & Hs).
  assert (match k_tasks dead_k !! znth 0 (k_tab dead_k) 0 with Some x => bool_decide (t_state x = TASK_ZOMBIE) | None => false end = false)
    as H by (vm_compute; reflexivity).
  rewrite Ht in H. by rewrite bool_decide_true in H.
Qed.

Lemma wait_collects_child_witness :
  dead_child dead_k 1 dead_task /\ wp (task_wait wait_regs) (collected_post dead_k wait_regs 1 dead_task) dead_k.
Proof.
  split; [exact dead_child_1 |].
  apply (wait_collects_child dead_k wait_regs 1 dead_task (proj1 dead_rest)).
  - split; [reflexivity |]. split; reflexivity.
  - right. reflexivity.
  - exact dead_child_1.
  - intros j t' Hj. replace j with 0 by lia. apply not_dead_0.
Defined.

Lemma mmap_returns_fresh_region_witness :
  at_rest two_k /\ wp (sys_mmap 5000) (fun v k' => v = SYSCALL_ERROR \/ v mod FRAME_SIZE = 0) two_k.
Proof.
  split; [exact (proj1 two_rest) |]. eapply wp_mono.
  - refine (mmap_returns_fresh_region two_k 5000 (current_of two_k) (proj1 two_rest) _ _); [lia |]. vm_compute. reflexivity.
  - intros v k' (_ & [[E _] | (n & slot & _ & _ & _ & E & _)]); [left; exact E | right; exact E].
Defined.
