(* ===== verification/Elf.v ===== *)
(** * The ELF loader

    [kernel/elf.c], over the file system ([Fat]) and the address spaces
    ([Paging]). The file is the list of its bytes; a read outside it is
    undefined behaviour in C and has no result here ([None]). The header and
    the program headers are the packed structs at their offsets. A refusal
    prints its reason and returns -1; the messages are not modelled. *)

From Stdlib Require Import ZArith Lia Bool.
From stdpp Require Import base gmap option list.
From S2P Require Import Prelude Frames Kernel Heap Phys Paging Fat.

Definition EI_NIDENT : Z := 16.
Definition EI_MAG0 : Z := 0.
Definition EI_MAG1 : Z := 1.
Definition EI_MAG2 : Z := 2.
Definition EI_MAG3 : Z := 3.
Definition EI_CLASS : Z := 4.
Definition EI_DATA : Z := 5.
Definition EI_VERSION : Z := 6.
Definition ELF_MAG0 : Z := 0x7F.
Definition ELF_MAG1 : Z := 69.
Definition ELF_MAG2 : Z := 76.
Definition ELF_MAG3 : Z := 70.
Definition ELFCLASS64 : Z := 2.
Definition ELFDATA2LSB : Z := 1.
Definition EV_CURRENT : Z := 1.
Definition ET_EXEC : Z := 2.
Definition EM_X86_64 : Z := 62.
Definition PT_LOAD : Z := 1.
Definition PF_W : Z := 2.
Definition ELF_PAGE_SIZE : Z := FRAME_SIZE.
Definition ELF_MAX_PHNUM : Z := 32.
Definition ELF_LOAD_MIN_VADDR : Z := USER_REGION_START.
Definition ELF_LOAD_MAX_VADDR : Z := USER_STACK_BASE.
Definition ELF64_EHDR_SIZE : Z := 64.
Definition ELF64_PHDR_SIZE : Z := 56.

(** ** Reading the file *)

Definition bytes_at (file : list Z) (o n : Z) : option (list Z) :=
  if (0 <=? o) && (o + n <=? zlen file) then Some (part file o n) else None.

Record elf64_ehdr := mkEhdr {
  e_ident : list Z; e_type : Z; e_machine : Z; e_entry : Z; e_phoff : Z; e_phentsize : Z; e_phnum : Z
}.
Record elf64_phdr := mkPhdr { p_type : Z; p_flags : Z; p_offset : Z; p_vaddr : Z; p_filesz : Z; p_memsz : Z }.

Definition field (bs : list Z) (o n : Z) : Z := of_le (part bs o n).

Definition read_ehdr (file : list Z) : option elf64_ehdr :=
  bs ← bytes_at file 0 ELF64_EHDR_SIZE ;
  Some (mkEhdr (part bs 0 EI_NIDENT) (field bs 16 2) (field bs 18 2) (field bs 24 8) (field bs 32 8) (field bs 54 2) (field bs 56 2)).

(** [phdrs[i]] *)
Definition read_phdr (file : list Z) (phoff i : Z) : option elf64_phdr :=
  bs ← bytes_at file (phoff + i * ELF64_PHDR_SIZE) ELF64_PHDR_SIZE ;
  Some (mkPhdr (field bs 0 4) (field bs 4 4) (field bs 8 8) (field bs 16 8) (field bs 32 8) (field bs 40 8)).

(** ** Validation *)

Definition range_in_file (offset length file_size : Z) : bool :=
  if file_size <? offset then false else length <=? file_size - offset.

Definition is_page_aligned (value : Z) : bool := Z.land value (ELF_PAGE_SIZE - 1) =? 0.

(** The loop over the program headers: the number of loadable ones, or
    [inl tt] for the return of -1. *)
Fixpoint check_phdrs (n : nat) (file : list Z) (phoff i loadable : Z) : option (unit + Z) :=
  match n with
  | O => Some (inr loadable)
  | S n' =>
      ph ← read_phdr file phoff i ;
      if negb (p_type ph =? PT_LOAD) then check_phdrs n' file phoff (i + 1) loadable
      else if negb (range_in_file (p_offset ph) (p_filesz ph) (zlen file)) then Some (inl tt)
      else if p_memsz ph <? p_filesz ph then Some (inl tt)
      else if negb (is_page_aligned (p_vaddr ph)) || negb (is_page_aligned (p_memsz ph)) then Some (inl tt)
      else check_phdrs n' file phoff (i + 1) (loadable + 1)
  end.

(** The checks of the identification and of the table. *)
Definition check_ehdr (header : elf64_ehdr) (file_size : Z) : bool :=
  let ident i := znth 0 (e_ident header) i in
  if negb (ident EI_MAG0 =? ELF_MAG0) || negb (ident EI_MAG1 =? ELF_MAG1) || negb (ident EI_MAG2 =? ELF_MAG2) || negb (ident EI_MAG3 =? ELF_MAG3)
  then false
  else if negb (ident EI_CLASS =? ELFCLASS64) then false
  else if negb (ident EI_DATA =? ELFDATA2LSB) then false
  else if negb (ident EI_VERSION =? EV_CURRENT) then false
  else if negb (e_machine header =? EM_X86_64) then false
  else if negb (e_type header =? ET_EXEC) then false
  else if negb (e_phentsize header =? ELF64_PHDR_SIZE) then false
  else if e_phnum header =? 0 then false
  else if ELF_MAX_PHNUM <? e_phnum header then false
  else range_in_file (e_phoff header) (e_phnum header * e_phentsize header) file_size.

(** [Some None] is the return of -1. *)
Definition elf_validate (file : list Z) : option (option elf64_ehdr) :=
  if zlen file <? ELF64_EHDR_SIZE then Some None
  else
    header ← read_ehdr file ;
    if negb (check_ehdr header (zlen file)) then Some None
    else
      r ← check_phdrs (Z.to_nat (e_phnum header)) file (e_phoff header) 0 0 ;
      match r with
      | inl _ => Some None
      | inr loadable => if loadable =? 0 then Some None else Some (Some header)
      end.

(** ** Loading *)

Definition segment_flags (ph : elf64_phdr) : Z :=
  let flags := Z.lor PG_PRESENT PG_USER in
  if negb (Z.land (p_flags ph) PF_W =? 0) then Z.lor flags PG_WRITABLE else flags.

(** The frame of the page at offset [page]: zeroed, then the part of the file
    that falls on it. *)
Definition fill_page (m : phys) (frame : Z) (ph : elf64_phdr) (file : list Z) (page : Z) : option phys :=
  let m := pfill m frame FRAME_SIZE 0 in
  if page <? p_filesz ph then
    let remaining := p_filesz ph - page in
    let chunk := if remaining <? FRAME_SIZE then remaining else FRAME_SIZE in
    src ← bytes_at file (p_offset ph + page) chunk ;
    Some (pstore m frame src)
  else Some m.

(** The loop over the pages of the segment, with the turns it has left. *)
Fixpoint load_pages (n : nat) (v : space) (ph : elf64_phdr) (file : list Z) (as_ page : Z) : option (space * Z) :=
  match n with
  | O => Some (v, 0)
  | S n' =>
      let '(v, frame) := sp_alloc_frame v in
      if frame =? 0 then Some (v, -1)
      else
        m ← fill_page (sp_mem v) frame ph file page ;
        let '(v, rc) := paging_map_page (set_smem v m) as_ (u64 (p_vaddr ph + page)) frame (segment_flags ph) in
        if negb (rc =? 0) then Some (v, -1) else load_pages n' v ph file as_ (page + FRAME_SIZE)
  end.

Definition load_segment (v : space) (ph : elf64_phdr) (file : list Z) (as_ : Z) : option (space * Z) :=
  let start := p_vaddr ph in
  let end_ := u64 (p_vaddr ph + p_memsz ph) in
  if end_ <? start then Some (v, -1)
  else if (start <? ELF_LOAD_MIN_VADDR) || (ELF_LOAD_MAX_VADDR <? end_) then Some (v, -1)
  else load_pages (Z.to_nat ((p_memsz ph + FRAME_SIZE - 1) / FRAME_SIZE)) v ph file as_ 0.

Fixpoint load_segments (n : nat) (v : space) (file : list Z) (phoff i as_ : Z) : option (space * Z) :=
  match n with
  | O => Some (v, 0)
  | S n' =>
      ph ← read_phdr file phoff i ;
      if negb (p_type ph =? PT_LOAD) then load_segments n' v file phoff (i + 1) as_
      else
        '(v, rc) ← load_segment v ph file as_ ;
        if negb (rc =? 0) then Some (v, -1) else load_segments n' v file phoff (i + 1) as_
  end.

(** The state, the return code and the entry point stored on success. *)
Definition elf_load (v : space) (file : list Z) (as_ : Z) : option (space * Z * Z) :=
  r ← elf_validate file ;
  match r with
  | None => Some (v, -1, 0)
  | Some header =>
      '(v, rc) ← load_segments (Z.to_nat (e_phnum header)) v file (e_phoff header) 0 as_ ;
      if negb (rc =? 0) then Some (v, -1, 0) else Some (v, 0, e_entry header)
  end.
