(* ===== verification/ElfSpec.v ===== *)
(** * What the ELF loader promises

    [user_byte v pa va] is what ring 3 finds at [va] in the address space
    with the page map [pa]: the flags of its page and the byte. Loading a
    file gives the addresses of its segments the bytes of the file, zeros
    after them and the flags of the segment; where segments overlap the last
    one counts ([image]). Whatever the file holds, nothing is read outside
    it, nothing outside the program region is mapped and no other address
    space changes. *)

From Stdlib Require Import ZArith Lia Bool.
From stdpp Require Import base gmap fin_maps option list.
From S2P Require Import Prelude Frames Kernel Heap Phys Paging PagingInv PagingOps PagingLife PagingFree PagingSpec Fat FatBytes Elf.

Definition user_byte (v : space) (pa va : Z) : option (Z * Z) :=
  match walk (sp_mem v) pa va with
  | Some (e, _) => Some (e mod 4096, pld8 (sp_mem v) (pte_addr e + va mod 4096))
  | None => None
  end.

Definition sane (L : list (Z * Z)) (v : space) : Prop := exists T, space_inv T L v.

(** ** One page *)

Section Page.
Implicit Types T : gmap Z tree.

Lemma user_byte_leaf T v b tb vb : trees_ok T v -> T !! b = Some tb -> user_va vb ->
  user_byte v (tr_pml4 tb) vb = (fun e => (e mod 4096, pld8 (sp_mem v) (pte_addr e + vb mod 4096))) <$> leaf_of tb vb.
Proof. intros Ht Hb Hvb. unfold user_byte. rewrite (walk_user T v b tb vb Ht Hb Hvb). by destruct (leaf_of tb vb). Qed.

(** A leaf that stays, with its frame. *)
Lemma user_byte_kept T T' v v' b tb tb' vb : trees_ok T v -> trees_ok T' v' -> T !! b = Some tb -> T' !! b = Some tb' ->
  tr_pml4 tb' = tr_pml4 tb -> user_va vb -> leaf_of tb' vb = leaf_of tb vb ->
  (forall g x, (exists i j, place tb (RLeaf i j) g) -> g <= x < g + 4096 -> pld8 (sp_mem v') x = pld8 (sp_mem v) x) ->
  user_byte v' (tr_pml4 tb) vb = user_byte v (tr_pml4 tb) vb.
Proof.
  intros H H' Hb Hb' Ep Hvb El Hd. rewrite (user_byte_leaf T v b tb vb H Hb Hvb). rewrite <- Ep, (user_byte_leaf T' v' b tb' vb H' Hb' Hvb), El.
  unfold leaf_of. destruct (tr_leaf tb !! _) as [e|] eqn:Ee; [| done]. simpl. do 2 f_equal.
  apply (Hd (pte_addr e)); [exists (PD_INDEX vb), (PT_INDEX vb), e; done |]. pose proof (Z.mod_pos_bound vb 4096). lia.
Qed.

Lemma page_view L v a pa va flags v1 f m v2 rc :
  sane L v -> sp_as v !! a = Some pa -> user_va va -> 0 <= flags < 4096 -> flag flags PG_PRESENT = true ->
  sp_alloc_frame v = (v1, f) -> f <> 0 -> only_frame f (sp_mem v1) m ->
  paging_map_page (set_smem v1 m) a va f flags = (v2, rc) ->
  sane L v2 /\ sp_as v2 = sp_as v /\ (rc = 0 \/ rc = 1) /\
  forall b pb vb, sp_as v !! b = Some pb -> user_va vb ->
    user_byte v2 pb vb = if (rc =? 0) && bool_decide (b = a /\ vb / FRAME_SIZE = va / FRAME_SIZE)
                         then Some (flags, pld8 m (f + vb mod 4096)) else user_byte v pb vb.
Proof.
  intros [T H] Hpa Hva Hfl Hp E1 Hz Ho E2. destruct (space_handle _ _ _ _ _ H Hpa) as (tr & Ha & <- & _). pose proof (si_trees _ _ _ H) as Ht.
  destruct (alloc_spare T v v1 f Ht E1) as [[-> _] | (_ & H1 & Hs & R1 & Em & _ & _)]; [done |]. rewrite Em in Ho.
  pose proof (write_spare T v1 f m H1 Hs ltac:(by rewrite Em)) as H1m.
  assert (sp_as (set_smem v1 m) !! a = Some (tr_pml4 tr)) as Has1 by (simpl; destruct R1 as (_ & E & _); by rewrite E).
  assert (forall g x b tb, T !! b = Some tb -> (exists i j, place tb (RLeaf i j) g) -> g <= x < g + 4096 -> pld8 m x = pld8 (sp_mem v) x) as Hm.
  { intros g x b tb Hb (i & j & Hg) Hx. apply Ho. destruct (tk_place _ _ H1 _ _ _ _ Hb Hg) as [Hg' _]. destruct Hs as (Hf & _ & Hno).
    assert (f <> g) as Hne by (intros <-; by apply (Hno b tb (RLeaf i j))). destruct (frame_at_apart _ _ _ (tk_wf _ _ H1) Hf Hg' Hne); lia. }
  destruct (map_page_ok T (set_smem v1 m) a tr va f flags v2 rc H1m Ha Has1 Hva Hs Hfl Hp E2)
    as [(-> & -> & _) | (-> & R2 & Hd & tr' & Hmp & H2 & _)].
  - split; [exists T; by apply (space_inv_rest T L v) |]. split; [simpl; apply R1 |]. split; [by right |]. intros b pb vb Hb Hvb. simpl.
    destruct (space_handle _ _ _ _ _ H Hb) as (tb & Tb & <- & _). apply (user_byte_kept T T v _ b tb tb vb Ht H1m); try done.
    intros g x Hg Hx. simpl. by apply (Hm g x b tb).
  - destruct (mapped_spine _ _ _ _ _ Hmp) as [(Ep & _) El]. assert (same_rest v v2) as R by (by eapply same_rest_trans).
    split; [exists (<[a := tr']> T); by apply (space_inv_update T L v v2 a tr) |]. split; [apply R |]. split; [by left |].
    intros b pb vb Hb Hvb. simpl. destruct (space_handle _ _ _ _ _ H Hb) as (tb & Tb & <- & _).
    assert (forall g x, (exists i j, place tb (RLeaf i j) g) -> g <= x < g + 4096 -> pld8 (sp_mem v2) x = pld8 (sp_mem v) x) as Hkeep.
    { intros g x Hg Hx. rewrite <- (Hm g x b tb) by done. apply (Hd g x); [| done]. right. destruct Hg as (i & j & Hg). by exists b, tb, i, j. }
    destruct (decide (b = a)) as [-> | Hne].
    2: { rewrite bool_decide_false by tauto. apply (user_byte_kept T (<[a := tr']> T) v v2 b tb tb vb Ht H2); try done. by rewrite lookup_insert_ne. }
    assert (tb = tr) as -> by congruence. destruct (decide (vb / FRAME_SIZE = va / FRAME_SIZE)) as [Epg | Hpg].
    + rewrite bool_decide_true by done. rewrite <- Ep, (user_byte_leaf _ v2 a tr' vb H2 (lookup_insert_eq _ _ _) Hvb). unfold leaf_of. rewrite El.
      assert (PD_INDEX vb = PD_INDEX va /\ PT_INDEX vb = PT_INDEX va) as [-> ->].
      { rewrite !PD_INDEX_eq, !PT_INDEX_eq, Epg. split; [| done]. f_equal. unfold TWO_MB, FRAME_SIZE in *. mlia. }
      rewrite lookup_insert_eq. simpl. destruct (frame_at_bounds _ _ (tk_wf _ _ H1) (proj1 Hs)) as (B1 & B2 & _).
      rewrite pte_addr_add by (done || (unfold USER_SPACE_END, USER_HEAP_LIMIT in B2; lia)). f_equal. f_equal; [mlia |].
      apply (Hd f); [by left |]. pose proof (Z.mod_pos_bound vb 4096). lia.
    + rewrite bool_decide_false by tauto. apply (user_byte_kept T (<[a := tr']> T) v v2 a tr tr' vb Ht H2); try done; [apply lookup_insert_eq |].
      unfold leaf_of. rewrite El, lookup_insert_ne; [done |]. intros [= I1 I2]. apply Hpg. symmetry. by apply page_unique.
Qed.
End Page.

(** ** One segment *)

(** The byte of a segment at offset [o]. *)
Definition seg_byte (ph : elf64_phdr) (file : list Z) (o : Z) : Z := if o <? p_filesz ph then znth 0 file (p_offset ph + o) else 0.

(** What validation establishes of a loadable program header. *)
Record phdr_ok (ph : elf64_phdr) (file : list Z) : Prop := {
  ph_offset : 0 <= p_offset ph;
  ph_filesz : 0 <= p_filesz ph <= p_memsz ph;
  ph_inside : p_offset ph + p_filesz ph <= zlen file;
  ph_vaddr : 0 <= p_vaddr ph < 2 ^ 64;
  ph_memsz : p_memsz ph < 2 ^ 64;
  ph_page : p_vaddr ph mod FRAME_SIZE = 0;
  ph_pages : p_memsz ph mod FRAME_SIZE = 0
}.

Definition in_region (ph : elf64_phdr) : Prop := ELF_LOAD_MIN_VADDR <= p_vaddr ph /\ p_vaddr ph + p_memsz ph <= ELF_LOAD_MAX_VADDR.

Lemma segment_flags_ok ph : 0 <= segment_flags ph < 4096 /\ flag (segment_flags ph) PG_PRESENT = true.
Proof. unfold segment_flags. by destruct (negb _). Qed.

(** The frame of a page, filled. *)
Lemma page_fill m f ph file page : bytes file -> phdr_ok ph file -> 0 <= page ->
  exists m', fill_page m f ph file page = Some m' /\ only_frame f m m' /\ forall o, 0 <= o < 4096 -> pld8 m' (f + o) = seg_byte ph file (page + o).
Proof.
  intros Hb [O1 O2 O3 _ _ _ _] Hp. unfold fill_page, seg_byte, FRAME_SIZE. destruct (Z.ltb_spec page (p_filesz ph)) as [Hlt | Hge].
  - set (chunk := if _ <? _ then _ else _). assert (0 < chunk <= 4096 /\ chunk = Z.min (p_filesz ph - page) 4096) as [C1 C2] by (unfold chunk; zcases; lia).
    unfold bytes_at. destruct (Z.leb_spec 0 (p_offset ph + page)), (Z.leb_spec (p_offset ph + page + chunk) (zlen file)); try lia. cbn [andb mbind option_bind].
    eexists. split; [reflexivity |]. assert (zlen (part file (p_offset ph + page) chunk) = chunk) as El by (unfold zlen; rewrite part_length; lia). split.
    + eapply only_frame_trans; [apply only_frame_fill |]. apply only_frame_store; lia.
    + intros o Ho. rewrite pld8_pstore, El, pld8_pfill by lia. replace (f + o - f) with o by lia.
      destruct (Z.ltb_spec (page + o) (p_filesz ph)).
      * zcases; simpl; try lia. rewrite znth_part by lia. rewrite u8_small; [f_equal; lia |]. by apply znth_byte.
      * zcases; simpl; try lia; done.
  - eexists. split; [reflexivity |]. split; [apply only_frame_fill |]. intros o Ho. rewrite pld8_pfill by lia. zcases; simpl; done || lia.
Qed.

Lemma load_pages_view L ph file a pa n : forall v page, sane L v -> sp_as v !! a = Some pa -> bytes file -> phdr_ok ph file -> in_region ph ->
  0 <= page -> page mod FRAME_SIZE = 0 -> page + Z.of_nat n * FRAME_SIZE <= p_memsz ph ->
  exists v' rc k, load_pages n v ph file a page = Some (v', rc) /\ sane L v' /\ sp_as v' = sp_as v /\ 0 <= k <= Z.of_nat n /\
    (rc = 0 /\ k = Z.of_nat n \/ rc = -1) /\
    forall b pb vb, sp_as v !! b = Some pb -> user_va vb ->
      user_byte v' pb vb = if bool_decide (b = a /\ p_vaddr ph + page <= vb < p_vaddr ph + page + k * FRAME_SIZE)
                           then Some (segment_flags ph, seg_byte ph file (vb - p_vaddr ph)) else user_byte v pb vb.
Proof.
  induction n as [|n IH]; intros v page Hs Ha Hb Hok Hreg Hp Hpm Hn.
  { exists v, 0, 0. do 3 (split; [done |]). split; [lia |]. split; [by left |]. intros b pb vb _ _. by rewrite bool_decide_false by lia. }
  assert (0 <= p_vaddr ph + page /\ user_va (p_vaddr ph + page)) as [Hva0 Hva].
  { destruct Hok as [_ _ _ P1 _ _ _], Hreg as [R1 R2]. unfold user_va, ELF_LOAD_MIN_VADDR, ELF_LOAD_MAX_VADDR, USER_STACK_BASE, USER_STACK_TOP, USER_STACK_SIZE, USER_STACK_LIMIT, USER_SPACE_END, USER_HEAP_LIMIT, FRAME_SIZE in *. lia. }
  cbn [load_pages]. destruct (sp_alloc_frame v) as [v1 f] eqn:E1. destruct (Z.eqb_spec f 0) as [-> | Hf].
  { destruct Hs as [T H]. destruct (alloc_spare T v v1 0 (si_trees _ _ _ H) E1) as [[_ ->] | [? _]]; [| done].
    exists v, (-1), 0. split; [done |]. split; [by exists T |]. split; [done |]. split; [lia |]. split; [by right |].
    intros b pb vb _ _. by rewrite bool_decide_false by lia. }
  destruct (page_fill (sp_mem v1) f ph file page Hb Hok Hp) as (m & Em & Ho & Hm). rewrite Em. cbn [mbind option_bind].
  rewrite u64_small by (unfold user_va, USER_SPACE_END, USER_HEAP_LIMIT in Hva; lia).
  destruct (paging_map_page (set_smem v1 m) a (p_vaddr ph + page) f (segment_flags ph)) as [v2 rc] eqn:E2.
  destruct (segment_flags_ok ph) as [F1 F2].
  destruct (page_view L v a pa (p_vaddr ph + page) (segment_flags ph) v1 f m v2 rc Hs Ha Hva F1 F2 E1 Hf Ho E2) as (Hs2 & Eas & Hrc & Hview).
  destruct Hrc as [-> | ->]; simpl negb; cbv iota.
  2: { exists v2, (-1), 0. split; [done |]. split; [done |]. split; [done |]. split; [lia |]. split; [by right |].
       intros b pb vb Hpb Hvb. rewrite (Hview b pb vb Hpb Hvb). simpl. by rewrite bool_decide_false by lia. }
  destruct (IH v2 (page + FRAME_SIZE) Hs2 ltac:(by rewrite Eas) Hb Hok Hreg) as (v' & rc & k & E & Hs' & Eas' & Hk & Hrc & Hview').
  { unfold FRAME_SIZE; lia. }
  { unfold FRAME_SIZE in *; mlia. }
  { unfold FRAME_SIZE in *; lia. }
  exists v', rc, (k + 1). split; [done |]. split; [done |]. split; [congruence |]. split; [lia |]. split; [destruct Hrc as [[-> ->] | ->]; [left; lia | by right] |].
  intros b pb vb Hpb Hvb. rewrite (Hview' b pb vb ltac:(by rewrite Eas) Hvb), (Hview b pb vb Hpb Hvb). simpl andb.
  pose proof (ph_page _ _ Hok) as Hal. unfold FRAME_SIZE in *. destruct (decide (b = a)) as [-> | Hne].
  2: { by rewrite !bool_decide_false by tauto. }
  destruct (decide (vb / 4096 = (p_vaddr ph + page) / 4096)) as [Epg | Hpg].
  - rewrite bool_decide_false by mlia. rewrite (bool_decide_true (a = a /\ vb / 4096 = _)) by done. rewrite bool_decide_true by mlia.
    do 2 f_equal. rewrite Hm by (apply Z.mod_pos_bound; lia). f_equal. mlia.
  - rewrite (bool_decide_false (a = a /\ vb / 4096 = _)) by tauto.
    destruct (decide (p_vaddr ph + (page + 4096) <= vb < p_vaddr ph + (page + 4096) + k * 4096)).
    + rewrite !bool_decide_true by (split; [done | lia]). done.
    + rewrite !bool_decide_false; [done | | tauto]. intros [_ ?]. mlia.
Qed.

Definition covers (ph : elf64_phdr) (va : Z) : bool := (p_vaddr ph <=? va) && (va <? p_vaddr ph + p_memsz ph).

Lemma load_segment_view L ph file a pa v : sane L v -> sp_as v !! a = Some pa -> bytes file -> phdr_ok ph file ->
  exists v' rc, load_segment v ph file a = Some (v', rc) /\ sane L v' /\ sp_as v' = sp_as v /\ (rc = 0 \/ rc = -1) /\ (rc = 0 -> in_region ph) /\
    forall b pb vb, sp_as v !! b = Some pb -> user_va vb ->
      (b <> a \/ covers ph vb = false -> user_byte v' pb vb = user_byte v pb vb) /\
      (rc = 0 -> b = a -> covers ph vb = true -> user_byte v' pb vb = Some (segment_flags ph, seg_byte ph file (vb - p_vaddr ph))).
Proof.
  intros Hs Ha Hb Hok. pose proof Hok as [_ P2 _ P4 P5 P6 P7]. unfold load_segment.
  assert (exists v' rc, Some (v, -1) = Some (v', rc) /\ sane L v' /\ sp_as v' = sp_as v /\ (rc = 0 \/ rc = -1) /\ (rc = 0 -> in_region ph) /\
    forall b pb vb, sp_as v !! b = Some pb -> user_va vb ->
      (b <> a \/ covers ph vb = false -> user_byte v' pb vb = user_byte v pb vb) /\
      (rc = 0 -> b = a -> covers ph vb = true -> user_byte v' pb vb = Some (segment_flags ph, seg_byte ph file (vb - p_vaddr ph)))) as Hfail.
  { exists v, (-1). split; [done |]. do 2 (split; [done |]). split; [by right |]. done. }
  assert (u64 (p_vaddr ph + p_memsz ph) = p_vaddr ph + p_memsz ph \/ u64 (p_vaddr ph + p_memsz ph) < p_vaddr ph) as Hw by (unfold u64; mlia).
  destruct (Z.ltb_spec (u64 (p_vaddr ph + p_memsz ph)) (p_vaddr ph)) as [|Hge]; [exact Hfail |]. destruct Hw as [-> | ?]; [| lia].
  destruct (Z.ltb_spec (p_vaddr ph) ELF_LOAD_MIN_VADDR), (Z.ltb_spec ELF_LOAD_MAX_VADDR (p_vaddr ph + p_memsz ph)); simpl orb; cbv iota; try exact Hfail.
  assert (in_region ph) as Hreg by done. unfold FRAME_SIZE in P6, P7.
  assert (Z.of_nat (Z.to_nat ((p_memsz ph + FRAME_SIZE - 1) / FRAME_SIZE)) * FRAME_SIZE = p_memsz ph) as Hn by (unfold FRAME_SIZE; mlia).
  destruct (load_pages_view L ph file a pa (Z.to_nat ((p_memsz ph + FRAME_SIZE - 1) / FRAME_SIZE)) v 0) as (v' & rc & k & E & Hs' & Eas & Hk & Hrc & Hview); try done; [lia |].
  exists v', rc. split; [done |]. do 2 (split; [done |]). split; [destruct Hrc as [[-> _] | ->]; auto |]. split; [done |]. rewrite Z.add_0_r in Hview.
  unfold covers. intros b pb vb Hpb Hvb. rewrite (Hview b pb vb Hpb Hvb). split.
  - intros Hout. rewrite bool_decide_false; [done |]. intros [-> ?]. destruct Hout as [? | Hout]; [done |]. zbool. unfold FRAME_SIZE in *. nia.
  - intros -> -> Hin. destruct Hrc as [[_ ->] | ?]; [| done]. rewrite bool_decide_true; [done |]. split; [done |]. zbool. lia.
Qed.

(** ** All segments *)

Fixpoint segments (n : nat) (file : list Z) (phoff i : Z) : list elf64_phdr :=
  match n with
  | O => []
  | S n' =>
      match read_phdr file phoff i with
      | Some ph => if p_type ph =? PT_LOAD then ph :: segments n' file phoff (i + 1) else segments n' file phoff (i + 1)
      | None => []
      end
  end.

(** What the last segment that covers [va] puts there. *)
Fixpoint image (file : list Z) (segs : list elf64_phdr) (va : Z) : option (Z * Z) :=
  match segs with
  | [] => None
  | ph :: rest =>
      match image file rest va with
      | Some x => Some x
      | None => if covers ph va then Some (segment_flags ph, seg_byte ph file (va - p_vaddr ph)) else None
      end
  end.

Lemma read_phdr_inside file phoff i : 0 <= phoff -> 0 <= i -> phoff + (i + 1) * 56 <= zlen file -> exists ph, read_phdr file phoff i = Some ph.
Proof.
  intros H1 H2 H3. unfold read_phdr, bytes_at, ELF64_PHDR_SIZE.
  destruct (Z.leb_spec 0 (phoff + i * 56)), (Z.leb_spec (phoff + i * 56 + 56) (zlen file)); try lia. simpl. eauto.
Qed.

Lemma load_segments_view L file a pa phoff n : forall v i, sane L v -> sp_as v !! a = Some pa -> bytes file ->
  0 <= phoff -> 0 <= i -> phoff + (i + Z.of_nat n) * 56 <= zlen file -> Forall (fun ph => phdr_ok ph file) (segments n file phoff i) ->
  exists v' rc, load_segments n v file phoff i a = Some (v', rc) /\ sane L v' /\ sp_as v' = sp_as v /\ (rc = 0 \/ rc = -1) /\
    (rc = 0 -> Forall in_region (segments n file phoff i)) /\
    forall b pb vb, sp_as v !! b = Some pb -> user_va vb ->
      let img := image file (segments n file phoff i) vb in
      (b <> a \/ img = None -> user_byte v' pb vb = user_byte v pb vb) /\
      (rc = 0 -> b = a -> is_Some img -> user_byte v' pb vb = img).
Proof.
  induction n as [|n IH]; intros v i Hs Ha Hb Hp Hi Hn Hall.
  { exists v, 0. split; [done |]. do 2 (split; [done |]). split; [by left |]. split; [done |]. intros b pb vb _ _ img. split; [done |]. intros _ _ [? ?]. done. }
  cbn [load_segments segments] in *. destruct (read_phdr_inside file phoff i Hp Hi ltac:(lia)) as [ph Eph]. rewrite Eph in *. cbn [mbind option_bind].
  destruct (p_type ph =? PT_LOAD); simpl negb; cbv iota; [| apply IH; done || lia]. apply Forall_cons in Hall as [Hok Hall].
  destruct (load_segment_view L ph file a pa v Hs Ha Hb Hok) as (v1 & rc & E & Hs1 & Eas & Hrc & Hreg & Hview). rewrite E. cbn [mbind option_bind].
  destruct Hrc as [-> | ->]; simpl negb; cbv iota.
  2: { exists v1, (-1). split; [done |]. do 2 (split; [done |]). split; [by right |]. split; [done |]. intros b pb vb Hpb Hvb. cbv zeta. split; [| done].
       intros Hout. apply (Hview b pb vb Hpb Hvb). destruct Hout as [? | Himg]; [by left | right]. cbn [image] in Himg.
       destruct (image file _ vb); [done |]. by destruct (covers ph vb). }
  destruct (IH v1 (i + 1) Hs1 ltac:(by rewrite Eas) Hb Hp ltac:(lia) ltac:(lia) Hall) as (v' & rc & E' & Hs' & Eas' & Hrc & Hreg' & Hview').
  exists v', rc. split; [done |]. split; [done |]. split; [congruence |]. split; [done |]. split; [intros ->; constructor; auto |].
  intros b pb vb Hpb Hvb. cbv zeta. destruct (Hview b pb vb Hpb Hvb) as [V1 V2], (Hview' b pb vb ltac:(by rewrite Eas) Hvb) as [W1 W2]. cbn [image].
  destruct (image file (segments n file phoff (i + 1)) vb) as [x|].
  - split; [intros [? | ?]; [rewrite W1, V1 by (by left); done | done] |]. intros -> -> _. by rewrite W2.
  - destruct (covers ph vb) eqn:Ec.
    + split; [intros [? | ?]; [rewrite W1, V1 by (by left); done | done] |]. intros -> -> _. rewrite W1 by (by right). by apply V2.
    + split; [| by intros _ _ [? ?]]. intros _. by rewrite W1, V1 by (by right).
Qed.

(** ** Validation *)

Lemma of_le_range bs : bytes bs -> 0 <= of_le bs < 256 ^ Z.of_nat (length bs).
Proof.
  induction 1 as [|b bs Hb _ IH]; [done |]. cbn [of_le length]. rewrite Nat2Z.inj_succ, Z.pow_succ_r by lia. lia.
Qed.

Lemma field_range bs o n : bytes bs -> 0 <= n -> 0 <= field bs o n < 256 ^ n.
Proof.
  intros Hb Hn. unfold field. pose proof (of_le_range (part bs o n) (part_bytes _ _ _ Hb)) as [H1 H2]. split; [done |].
  eapply Z.lt_le_trans; [exact H2 |]. apply Z.pow_le_mono_r; [lia |]. unfold part. rewrite length_take. lia.
Qed.

Lemma aligned_mod x : is_page_aligned x = true -> x mod FRAME_SIZE = 0.
Proof. unfold is_page_aligned. change (ELF_PAGE_SIZE - 1) with (Z.ones 12). rewrite Z.land_ones by lia. apply Z.eqb_eq. Qed.

Lemma check_phdrs_ok file phoff n : forall i loadable, bytes file -> 0 <= phoff -> 0 <= i -> phoff + (i + Z.of_nat n) * 56 <= zlen file ->
  exists r, check_phdrs n file phoff i loadable = Some r /\
    forall c, r = inr c -> Forall (fun ph => phdr_ok ph file) (segments n file phoff i) /\ c = loadable + zlen (segments n file phoff i).
Proof.
  induction n as [|n IH]; intros i loadable Hb Hp Hi Hn.
  { exists (inr loadable). split; [done |]. intros c [= <-]. split; [done |]. unfold zlen. simpl. lia. }
  cbn [check_phdrs segments]. destruct (read_phdr_inside file phoff i Hp Hi ltac:(lia)) as [ph Eph]. rewrite Eph. cbn [mbind option_bind].
  destruct (p_type ph =? PT_LOAD); simpl negb; cbv iota; [| apply IH; done || lia].
  assert (0 <= p_offset ph /\ 0 <= p_filesz ph /\ 0 <= p_vaddr ph < 2 ^ 64 /\ 0 <= p_memsz ph < 2 ^ 64) as (R1 & R2 & R3 & R4).
  { unfold read_phdr in Eph. destruct (bytes_at _ _ _) as [bs|] eqn:Ebs; [| done]. injection Eph as <-. cbn [p_offset p_filesz p_vaddr p_memsz].
    assert (bytes bs) as Hbs by (unfold bytes_at in Ebs; destruct (_ && _); [injection Ebs as <-; by apply part_bytes | done]).
    pose proof (field_range bs 8 8 Hbs ltac:(lia)). pose proof (field_range bs 16 8 Hbs ltac:(lia)). pose proof (field_range bs 32 8 Hbs ltac:(lia)).
    pose proof (field_range bs 40 8 Hbs ltac:(lia)). change (256 ^ 8) with (2 ^ 64) in *. lia. }
  assert (forall l, l = inl tt -> exists r, Some l = Some r /\ forall c : Z, r = inr c -> Forall (fun ph => phdr_ok ph file) (ph :: segments n file phoff (i + 1)) /\
    c = loadable + zlen (ph :: segments n file phoff (i + 1))) as Hfail by (intros l ->; exists (inl tt); done).
  unfold range_in_file. destruct (Z.ltb_spec (zlen file) (p_offset ph)); [by apply Hfail |]. destruct (Z.leb_spec (p_filesz ph) (zlen file - p_offset ph)); [| by apply Hfail].
  simpl negb. cbv iota. destruct (Z.ltb_spec (p_memsz ph) (p_filesz ph)); [by apply Hfail |].
  destruct (is_page_aligned (p_vaddr ph)) eqn:A1, (is_page_aligned (p_memsz ph)) eqn:A2; simpl orb; cbv iota; try by apply Hfail.
  destruct (IH (i + 1) (loadable + 1) Hb Hp ltac:(lia) ltac:(lia)) as (r & E & Hr). exists r. split; [done |]. intros c Hc. destruct (Hr c Hc) as [Hall ->].
  split; [constructor; [| done] |].
  - split; try lia; by apply aligned_mod.
  - unfold zlen. cbn [length]. lia.
Qed.

(** The loadable segments of a file. *)
Definition elf_segments (file : list Z) : list elf64_phdr := segments (Z.to_nat (field file 56 2)) file (field file 32 8) 0.

Lemma part_part bs o n o' n' : 0 <= o' -> 0 <= n' -> o' + n' <= n -> 0 <= o -> part (part bs o n) o' n' = part bs (o + o') n'.
Proof. intros H1 H2 H3 H4. unfold part. rewrite skipn_firstn_comm, take_take, drop_drop. f_equal; [lia |]. f_equal. lia. Qed.

Lemma elf_validate_ok file : bytes file -> exists r, elf_validate file = Some r /\
  forall h, r = Some h -> e_phnum h = field file 56 2 /\ e_phoff h = field file 32 8 /\ e_entry h = field file 24 8 /\
    e_phoff h + e_phnum h * 56 <= zlen file /\ 0 <= e_phoff h /\ 0 <= e_phnum h /\
    Forall (fun ph => phdr_ok ph file) (elf_segments file) /\ elf_segments file <> [].
Proof.
  intros Hb. unfold elf_validate, ELF64_EHDR_SIZE. destruct (Z.ltb_spec (zlen file) 64) as [|Hlen]; [by exists None |].
  unfold read_ehdr, bytes_at, ELF64_EHDR_SIZE. destruct (Z.leb_spec (0 + 64) (zlen file)); [| lia]. cbn [Z.leb Z.compare andb mbind option_bind].
  set (h := mkEhdr _ _ _ _ _ _ _).
  assert (forall o n, 0 <= o -> 0 <= n -> o + n <= 64 -> field (part file 0 64) o n = field file o n) as Hfield by (intros; unfold field; by rewrite part_part by lia).
  assert (e_phnum h = field file 56 2 /\ e_phoff h = field file 32 8 /\ e_entry h = field file 24 8) as (N1 & N2 & N3) by (unfold h; simpl; rewrite !Hfield by lia; done).
  clearbody h. destruct (check_ehdr h (zlen file)) eqn:Ec; simpl negb; cbv iota; [| by exists None].
  assert (e_phoff h + e_phnum h * 56 <= zlen file) as Htab.
  { unfold check_ehdr in Ec. repeat match type of Ec with (if ?c then _ else _) = true => destruct c eqn:?; [done |] end.
    match goal with H : negb (e_phentsize h =? _) = false |- _ => apply negb_false_iff, Z.eqb_eq in H; rewrite H in Ec end.
    unfold range_in_file in Ec. destruct (Z.ltb_spec (zlen file) (e_phoff h)); [done |]. apply Z.leb_le in Ec. unfold ELF64_PHDR_SIZE in Ec. lia. }
  pose proof (field_range file 56 2 Hb ltac:(lia)) as R1. pose proof (field_range file 32 8 Hb ltac:(lia)) as R2. rewrite <- N1 in R1. rewrite <- N2 in R2.
  destruct (check_phdrs_ok file (e_phoff h) (Z.to_nat (e_phnum h)) 0 0 Hb ltac:(lia) ltac:(lia) ltac:(lia)) as (r & E & Hr). rewrite E. cbn [mbind option_bind].
  destruct r as [[] | c]; [by exists None |]. destruct (Hr c eq_refl) as [Hall ->]. unfold elf_segments. rewrite <- N1, <- N2.
  set (segs := segments _ _ _ _) in *. destruct (Z.eqb_spec (0 + zlen segs) 0) as [|Hne]; [by exists None |]. exists (Some h). split; [done |].
  intros h' [= <-]. do 3 (split; [done |]). do 3 (split; [lia |]). split; [done |]. intros Hnil. apply Hne. by rewrite Hnil.
Qed.

(** ** The whole file *)

(** What a return of [elf_load] says. *)
Definition loaded (v v' : space) (a : Z) (file : list Z) (rc entry : Z) : Prop :=
  sp_as v' = sp_as v /\ (rc = 0 \/ rc = -1) /\
  (rc = 0 -> Forall in_region (elf_segments file) /\ elf_segments file <> [] /\ entry = field file 24 8) /\
  forall b pb vb, sp_as v !! b = Some pb -> user_va vb ->
    let img := image file (elf_segments file) vb in
    (b <> a \/ img = None -> user_byte v' pb vb = user_byte v pb vb) /\
    (rc = 0 -> b = a -> is_Some img -> user_byte v' pb vb = img).

Lemma elf_load_ok L file a pa v : sane L v -> sp_as v !! a = Some pa -> bytes file ->
  exists v' rc entry, elf_load v file a = Some (v', rc, entry) /\ sane L v' /\ loaded v v' a file rc entry.
Proof.
  intros Hs Ha Hb. unfold elf_load. destruct (elf_validate_ok file Hb) as (r & -> & Hr). cbn [mbind option_bind].
  destruct r as [h|].
  2: { exists v, (-1), 0. split; [done |]. split; [done |]. split; [done |]. split; [by right |]. split; [done |]. intros b pb vb _ _. done. }
  destruct (Hr h eq_refl) as (N1 & N2 & N3 & Htab & P1 & P2 & Hall & Hne).
  assert (elf_segments file = segments (Z.to_nat (e_phnum h)) file (e_phoff h) 0) as Eseg by (unfold elf_segments; by rewrite N1, N2).
  rewrite Eseg in Hall. destruct (load_segments_view L file a pa (e_phoff h) (Z.to_nat (e_phnum h)) v 0 Hs Ha Hb P1 ltac:(lia) ltac:(lia) Hall)
    as (v' & rc & E & Hs' & Eas & Hrc & Hreg & Hview). rewrite E. cbn [mbind option_bind]. unfold loaded. rewrite Eseg in *.
  destruct Hrc as [-> | ->]; simpl negb; cbv iota.
  - exists v', 0, (e_entry h). do 3 (split; [done |]). split; [by left |]. split; [| done]. intros _. split; [by apply Hreg |]. done.
  - exists v', (-1), 0. do 3 (split; [done |]). split; [by right |]. split; [done |]. done.
Qed.

(** C30: Loading a program. Whatever bytes the file holds, [elf_load] reads
    nothing outside it and returns. When it returns 0, every segment lies in
    the region a program may occupy, and at each of its addresses ring 3
    finds the byte of the file, or zero past the file's part, with the flags
    of the last segment that covers the address. Every address outside the
    segments, and every other address space, holds what it held, also when
    loading fails. *)
Theorem elf_load_image tidy v0 v L a pa file : space_reach tidy v0 v L -> sp_as v !! a = Some pa -> bytes file ->
  exists v' rc entry, elf_load v file a = Some (v', rc, entry) /\ sp_as v' = sp_as v /\ (rc = 0 \/ rc = -1) /\
    (rc = 0 -> Forall in_region (elf_segments file) /\ elf_segments file <> [] /\ entry = field file 24 8) /\
    forall b pb vb, sp_as v !! b = Some pb -> user_va vb ->
      let img := image file (elf_segments file) vb in
      (b <> a \/ img = None -> user_byte v' pb vb = user_byte v pb vb) /\
      (rc = 0 -> b = a -> is_Some img -> user_byte v' pb vb = img).
Proof.
  intros Hr Ha Hb. destruct (space_reach_inv _ _ _ _ Hr) as (T & H & _).
  destruct (elf_load_ok L file a pa v (ex_intro _ T H) Ha Hb) as (v' & rc & entry & E & _ & Hl). exists v', rc, entry. split; [exact E | exact Hl].
Qed.

(** ** A small program *)

(** The return code and the entry point. *)
Definition codes (o : option (space * Z * Z)) : option (Z * Z) := match o with Some (_, rc, entry) => Some (rc, entry) | None => None end.
Lemma codes_Some o v rc entry rc' entry' : o = Some (v, rc, entry) -> codes o = Some (rc', entry') -> rc = rc' /\ entry = entry'.
Proof. intros -> [= -> ->]. done. Qed.

Module DemoElf.
Import PagingSpec.Demo.

(** One segment: three bytes of code at the start of the program region, in
    a page of its own. *)
Definition file : list Z :=
  [0x7F; 69; 76; 70; 2; 1; 1; 0; 0; 0; 0; 0; 0; 0; 0; 0] ++ le_bytes 2 2 ++ le_bytes 2 62 ++ le_bytes 4 1 ++ le_bytes 8 USER_CODE_BASE ++ le_bytes 8 64 ++
  le_bytes 8 0 ++ le_bytes 4 0 ++ le_bytes 2 64 ++ le_bytes 2 56 ++ le_bytes 2 1 ++ le_bytes 2 0 ++ le_bytes 2 0 ++ le_bytes 2 0 ++
  le_bytes 4 1 ++ le_bytes 4 5 ++ le_bytes 8 120 ++ le_bytes 8 USER_CODE_BASE ++ le_bytes 8 0 ++ le_bytes 8 3 ++ le_bytes 8 4096 ++ le_bytes 8 4096 ++
  [0xEB; 0xFE; 0x90].

Lemma result_eq : codes (elf_load v2 file 10485792) = Some (0, USER_CODE_BASE).
Proof. vm_compute. reflexivity. Qed.
Lemma file_bytes : forallb (fun b => (0 <=? b) && (b <? 256)) file = true /\ image file (elf_segments file) (USER_CODE_BASE + 1) = Some (5, 0xFE).
Proof. split; vm_compute; reflexivity. Qed.
Lemma user_code1 : user_va (USER_CODE_BASE + 1).
Proof. done. Qed.
End DemoElf.

Lemma elf_load_image_witness : exists v', elf_load Demo.v2 DemoElf.file 10485792 = Some (v', 0, USER_CODE_BASE) /\
  user_byte v' 10551296 (USER_CODE_BASE + 1) = Some (5, 0xFE) /\
  user_byte v' 10563584 (USER_CODE_BASE + 1) = user_byte Demo.v2 10563584 (USER_CODE_BASE + 1).
Proof.
  destruct DemoElf.file_bytes as [Hf Himg].
  assert (bytes DemoElf.file) as Hb.
  { apply Forall_forall. intros x Hx%list_elem_of_In. rewrite forallb_forall in Hf. specialize (Hf x Hx). zbool. lia. }
  destruct (elf_load_image true Demo.v0 Demo.v2 _ 10485792 10551296 DemoElf.file Demo.reach2 (Demo.fact 0 _ _ eq_refl eq_refl) Hb)
    as (v' & rc & entry & E & _ & _ & _ & H).
  destruct (codes_Some _ _ _ _ _ _ E DemoElf.result_eq) as [Erc Een]. clear Hf Hb. subst rc entry.
  exists v'. split; [exact E |]. split.
  - destruct (H 10485792 10551296 (USER_CODE_BASE + 1) (Demo.fact 0 _ _ eq_refl eq_refl) DemoElf.user_code1) as [_ H1]. rewrite Himg in H1.
    exact (H1 eq_refl eq_refl (ex_intro _ _ eq_refl)).
  - destruct (H 10485840 10563584 (USER_CODE_BASE + 1) (Demo.fact 1 _ _ eq_refl eq_refl) DemoElf.user_code1) as [H1 _].
    exact (H1 (or_introl (fun e : 10485840 = 10485792 => ltac:(discriminate e)))).
Defined.
