(* ===== verification/Board.v ===== *)
(** * The file system on the real heap

    [board D] puts the parts under [fs/fat32.c] together: the kernel heap
    with the address spaces ([space]) and a disk ([BlockDev], the interface
    of [drivers/disk.h]). It discharges the laws that the theorems about the
    file system assume of their environment ([board_laws], [board_disk]), so
    these hold for the real heap; and it is where [elf_load_file] of
    [kernel/elf.c] runs. *)

From Stdlib Require Import ZArith Lia Bool.
From stdpp Require Import base gmap fin_maps fin_map_dom option functions list.
From S2P Require Import Prelude Frames Kernel Heap HeapSpec Phys Paging PagingInv PagingOps PagingLife PagingFree PagingSpec.
From S2P Require Import Fat FatBytes FatDisk FatChain FatDir FatFiles FatWrite FatSpec Elf ElfSpec.

(** ** The disk *)

Class BlockDev (D : Type) := {
  blk_read : D -> Z -> Z -> D * option (list Z);
  blk_write : D -> Z -> Z -> list Z -> D * Z
}.

(** A disk that works. *)
Class BlockLaws (D : Type) {dev : BlockDev D} := {
  blk_ok : D -> Prop;
  blk_count : Z;
  blk_sector : D -> Z -> list Z;
  law_blk_sector : forall d b, blk_ok d -> length (blk_sector d b) = 512%nat /\ bytes (blk_sector d b);
  law_blk_read : forall d lba n, blk_ok d -> 0 <= lba -> 0 < n < 256 -> lba + n <= blk_count ->
    exists d', blk_read d lba n = (d', Some (concat (blk_sector d <$> seqZ lba n))) /\ blk_ok d' /\ forall b, blk_sector d' b = blk_sector d b;
  law_blk_write : forall d lba n bs, blk_ok d -> 0 <= lba -> 0 < n < 256 -> lba + n <= blk_count ->
    length bs = Z.to_nat (512 * n) -> bytes bs ->
    exists d', blk_write d lba n bs = (d', 0) /\ blk_ok d' /\
      forall b, blk_sector d' b = if (lba <=? b) && (b <? lba + n) then part bs (512 * (b - lba)) 512 else blk_sector d b
}.

Record board (D : Type) := mkBoard { bd_space : space; bd_disk : D }.
Arguments mkBoard {D}. Arguments bd_space {D}. Arguments bd_disk {D}.

Section Board.
Context {D : Type} {dev : BlockDev D}.

#[export] Instance board_env : FsEnv (board D) := {
  e_kmalloc e n := let '(v, p) := sp_kmalloc (bd_space e) n in (mkBoard v (bd_disk e), p);
  e_kfree e p := mkBoard (sp_kfree (bd_space e) p) (bd_disk e);
  e_disk_read e lba n := let '(d, r) := blk_read (bd_disk e) lba n in (mkBoard (bd_space e) d, r);
  e_disk_write e lba n bs := let '(d, r) := blk_write (bd_disk e) lba n bs in (mkBoard (bd_space e) d, r)
}.

(** ** Loading a program from the disk *)

Definition in_space {A} (f : space -> option (space * A)) : F (board D) (option A) := fun s =>
  match f (bd_space (f_env s)) with
  | Some (v, a) => (mkFat32 (f_vol s) (mkBoard v (bd_disk (f_env s))), Some a)
  | None => (s, None)
  end.

(** The return code and the entry point, or [None] for a read outside the
    file. The buffer holds the file after the read. *)
Definition elf_load_file (name : list Z) (as_ : Z) : F (board D) (option (Z * Z)) :=
  '(rc, size) ← fat32_stat name ;
  if negb (rc =? 0) then mret (Some (-1, 0))
  else if size =? 0 then mret (Some (-1, 0))
  else
    buf ← fs_kmalloc size ;
    if buf =? 0 then mret (Some (-1, 0))
    else
      '(rc, file, read_size) ← fat32_read_file name size ;
      if negb (rc =? 0) then fs_kfree buf ;; mret (Some (-1, 0))
      else
        r ← in_space (fun v => match elf_load v (take (Z.to_nat read_size) file) as_ with
                               | Some (v, rc, entry) => Some (v, (rc, entry))
                               | None => None
                               end) ;
        fs_kfree buf ;; mret r.

(** ** The laws *)

Context {laws : BlockLaws D}.

(** Refusals are not followed here. *)
#[export] Instance board_marks : Marks (board D) := {|
  e_refused _ := True; mark_set _ _ _ _ := I; mark_kmalloc _ _ _ := I; mark_kfree _ _ _ := I;
  mark_read _ _ _ _ := I; mark_write _ _ _ _ _ := I |}.

(** The live blocks that are not address spaces. *)
Definition blocks_of (Ls : list (Z * Z)) (v : space) : gset Z := list_to_set Ls.*1 ∖ dom (sp_as v).

(** A board with the memory [m] and the address spaces [as_]. *)
Record board_ok (m : phys) (as_ : gmap Z Z) (e : board D) (L : gset Z) : Prop := {
  bo_space : exists Ls, sane Ls (bd_space e) /\ L = blocks_of Ls (bd_space e);
  bo_mem : sp_mem (bd_space e) = m;
  bo_as : sp_as (bd_space e) = as_;
  bo_disk : blk_ok (bd_disk e)
}.

Lemma handles_live T Ls v a : space_inv T Ls v -> a ∈ dom (sp_as v) -> a ∈ Ls.*1.
Proof.
  intros H Ha. rewrite (si_as _ _ _ H), dom_fmap_L in Ha. apply elem_of_dom in Ha as [tr Ht]. by apply (si_live _ _ _ H a tr).
Qed.

#[program] Definition board_laws (m : phys) (as_ : gmap Z Z) : EnvLaws (board D) := {| e_ok := board_ok m as_ |}.
Next Obligation.
  intros m as_ e L n e' p [(Ls & [T H] & ->) Hm Has Hd] Hn. simpl. destruct (sp_kmalloc (bd_space e) n) as [v q] eqn:E. intros [= <- <-].
  destruct (sp_kmalloc_ok T Ls (bd_space e) n v q H ltac:(lia) E) as (Hc & E1 & _ & E2 & _).
  destruct Hc as [[-> H'] | (Hq & sz & _ & H')]; [left | right]; (split; [done |]).
  - split; simpl; try congruence. exists Ls. split; [by exists T |]. unfold blocks_of. by rewrite E1.
  - assert (q ∉ Ls.*1) as Hf by (apply (live_fresh _ _ _ _ (si_heap _ _ _ H'))).
    assert (q ∉ dom (sp_as v)) as Hnd by (rewrite E1; intros Hx; by apply Hf, (handles_live T Ls (bd_space e))).
    split; [unfold blocks_of; rewrite elem_of_difference, elem_of_list_to_set; tauto |].
    split; simpl; try congruence. exists ((q, sz) :: Ls). split; [by exists T |]. unfold blocks_of. rewrite E1 in *. simpl.
    apply set_eq. intros x. rewrite elem_of_union, !elem_of_difference, elem_of_union, !elem_of_singleton. destruct (decide (x = q)) as [-> |]; tauto.
Qed.
Next Obligation.
  intros m as_ e L p [(Ls & [T H] & ->) Hm Has Hd] Hp. unfold blocks_of in *. rewrite elem_of_difference, elem_of_list_to_set in Hp. destruct Hp as [Hp Hnd].
  apply list_elem_of_fmap in Hp as ([q sz] & -> & Hin). simpl in *. apply list_elem_of_split in Hin as (L1 & L2 & ->).
  assert (space_inv T ((q, sz) :: L1 ++ L2) (bd_space e)) as H' by (eapply space_inv_perm; [| exact H]; by rewrite Permutation_middle).
  assert (forall a tr, T !! a = Some tr -> a ∈ (L1 ++ L2).*1) as Hsub.
  { intros a tr Ha. pose proof (si_live _ _ _ H' a tr Ha) as Hx. simpl in Hx. apply elem_of_cons in Hx as [-> |]; [| done]. exfalso. apply Hnd.
    rewrite (si_as _ _ _ H), dom_fmap_L. by apply elem_of_dom. }
  destruct (sp_kfree_ok T (L1 ++ L2) (bd_space e) q sz H' Hsub) as [K _].
  split; simpl; [| done..]. exists (L1 ++ L2). split; [by exists T |]. unfold blocks_of. simpl.
  pose proof (live_fresh _ _ _ _ (si_heap _ _ _ H')) as Hf. rewrite fmap_app in *. simpl. rewrite !list_to_set_app_L, list_to_set_cons. set_solver.
Qed.

#[program] Definition board_disk (m : phys) (as_ : gmap Z Z) : DiskLaws (board D) (laws := board_laws m as_) :=
  {| disk_blocks := blk_count; e_sector e b := blk_sector (bd_disk e) b |}.
Next Obligation. intros m as_ e L b H. apply law_blk_sector, H. Qed.
Next Obligation. intros m as_ e L n b H Hn. simpl. by destruct (sp_kmalloc _ _). Qed.
Next Obligation. done. Qed.
Next Obligation.
  intros m as_ e L lba n H Hl Hn Hb. simpl. destruct (law_blk_read (bd_disk e) lba n (bo_disk _ _ _ _ H) Hl Hn Hb) as (d & -> & Hd & Hs).
  eexists. split; [done |]. split; [| done]. by destruct H.
Qed.
Next Obligation.
  intros m as_ e L lba n bs H Hl Hn Hb Hlen Hby. simpl. destruct (law_blk_write (bd_disk e) lba n bs (bo_disk _ _ _ _ H) Hl Hn Hb Hlen Hby) as (d & -> & Hd & Hs).
  eexists. split; [done |]. split; [| done]. by destruct H.
Qed.
End Board.
