(* ===== verification/Ata.v ===== *)
(** * The disk driver

    [drivers/disk.c]: programmed I/O on the primary ATA channel. The
    hardware is a parameter: a device of type [D] with the port instructions
    of [drivers/ports.h] ([Ports]). What the ATA protocol says of a drive
    that works is the class [AtaDrive]; on such a drive [disk_read] and
    [disk_write] transfer sectors, whatever the delays within the bound of
    the polling loops. *)

From Stdlib Require Import ZArith Lia Bool.
From stdpp Require Import base list functions.
From S2P Require Import Prelude Fat FatBytes.

Definition ATA_DATA : Z := 0x1F0.
Definition ATA_SECTOR_COUNT : Z := 0x1F2.
Definition ATA_LBA_LOW : Z := 0x1F3.
Definition ATA_LBA_MID : Z := 0x1F4.
Definition ATA_LBA_HIGH : Z := 0x1F5.
Definition ATA_DRIVE_HEAD : Z := 0x1F6.
Definition ATA_COMMAND : Z := 0x1F7.
Definition ATA_STATUS : Z := 0x1F7.
Definition ATA_ALT_STATUS : Z := 0x3F6.
Definition ATA_DEV_CONTROL : Z := 0x3F6.
Definition ATA_CMD_READ_SECTORS : Z := 0x20.
Definition ATA_CMD_WRITE_SECTORS : Z := 0x30.
Definition ATA_CMD_CACHE_FLUSH : Z := 0xE7.
Definition ATA_STATUS_BSY : Z := 0x80.
Definition ATA_STATUS_DRQ : Z := 0x08.
Definition ATA_STATUS_ERR : Z := 0x01.
Definition ATA_CTRL_NIEN : Z := 0x02.
Definition ATA_DRIVE_MASTER_LBA : Z := 0xE0.
Definition ATA_WORDS_PER_SECTOR : Z := DISK_SECTOR_SIZE / 2.
Definition ATA_FLOATING_BUS : Z := 0xFF.
Definition ATA_POLL_TIMEOUT : positive := 100000000.

(** The port instructions. *)
Class Ports (D : Type) := {
  port_byte_in : D -> Z -> D * Z;
  port_byte_out : D -> Z -> Z -> D;
  port_word_in : D -> Z -> D * Z;
  port_word_out : D -> Z -> Z -> D
}.

(** ** Bounded polling *)

(** [for (i = 0; i < n; i++)] around [f], which ends the loop with [inr]. *)
Fixpoint until {S R : Type} (n : positive) (f : S -> S + R) (s : S) : S + R :=
  match n with
  | xH => f s
  | xO n' => match until n' f s with inl s => until n' f s | inr r => inr r end
  | xI n' =>
      match f s with
      | inr r => inr r
      | inl s => match until n' f s with inl s => until n' f s | inr r => inr r end
      end
  end.

Section Driver.
Context {D : Type} {ports : Ports D}.

Definition ata_400ns_delay (d : D) : D :=
  for_range 4 0 (fun _ d => fst (port_byte_in d ATA_ALT_STATUS)) d.

(** The bodies of the two polling loops. *)
Definition poll_not_busy (d : D) : D + D * Z :=
  let '(d, status) := port_byte_in d ATA_STATUS in
  if Z.land status ATA_STATUS_BSY =? 0 then inr (d, 0) else inl d.

Definition poll_data (d : D) : D + D * Z :=
  let '(d, status) := port_byte_in d ATA_STATUS in
  if negb (Z.land status ATA_STATUS_ERR =? 0) then inr (d, -1)
  else if (Z.land status ATA_STATUS_BSY =? 0) && negb (Z.land status ATA_STATUS_DRQ =? 0) then inr (d, 0)
  else inl d.

Definition ata_wait_not_busy (d : D) : D * Z :=
  match until ATA_POLL_TIMEOUT poll_not_busy d with inl d => (d, -1) | inr r => r end.

Definition ata_wait_for_data (d : D) : D * Z :=
  match until ATA_POLL_TIMEOUT poll_data d with inl d => (d, -1) | inr r => r end.

Definition ata_prepare (d : D) (lba count command : Z) : D * Z :=
  let '(d, rc) := ata_wait_not_busy d in
  if negb (rc =? 0) then (d, -1)
  else
    let d := port_byte_out d ATA_DRIVE_HEAD (u8 (Z.lor ATA_DRIVE_MASTER_LBA (Z.land (Z.shiftr lba 24) 0x0F))) in
    let d := ata_400ns_delay d in
    let d := port_byte_out d ATA_SECTOR_COUNT count in
    let d := port_byte_out d ATA_LBA_LOW (u8 (Z.land lba 0xFF)) in
    let d := port_byte_out d ATA_LBA_MID (u8 (Z.land (Z.shiftr lba 8) 0xFF)) in
    let d := port_byte_out d ATA_LBA_HIGH (u8 (Z.land (Z.shiftr lba 16) 0xFF)) in
    (port_byte_out d ATA_COMMAND command, 0).

(** The words of one sector, as the bytes they are stored as. *)
Fixpoint read_words (n : nat) (d : D) : D * list Z :=
  match n with
  | O => (d, [])
  | S n' =>
      let '(d, w) := port_word_in d ATA_DATA in
      let '(d, rest) := read_words n' d in
      (d, le_bytes 2 w ++ rest)
  end.

Fixpoint read_blocks (n : nat) (d : D) : D * option (list Z) :=
  match n with
  | O => (d, Some [])
  | S n' =>
      let '(d, rc) := ata_wait_for_data d in
      if negb (rc =? 0) then (d, None)
      else
        let '(d, bs) := read_words (Z.to_nat ATA_WORDS_PER_SECTOR) d in
        let '(d, r) := read_blocks n' d in
        (d, match r with Some rest => Some (bs ++ rest) | None => None end)
  end.

(** The bytes read, or [None] for -1. *)
Definition disk_read (d : D) (lba count : Z) : D * option (list Z) :=
  let '(d, rc) := ata_prepare d lba count ATA_CMD_READ_SECTORS in
  if negb (rc =? 0) then (d, None) else read_blocks (Z.to_nat count) d.

Fixpoint write_words (n : nat) (d : D) (bs : list Z) : D :=
  match n with
  | O => d
  | S n' => write_words n' (port_word_out d ATA_DATA (of_le (take 2 bs))) (drop 2 bs)
  end.

Fixpoint write_blocks (n : nat) (d : D) (bs : list Z) : D * Z :=
  match n with
  | O => (d, 0)
  | S n' =>
      let '(d, rc) := ata_wait_for_data d in
      if negb (rc =? 0) then (d, -1)
      else write_blocks n' (write_words (Z.to_nat ATA_WORDS_PER_SECTOR) d bs) (drop (Z.to_nat DISK_SECTOR_SIZE) bs)
  end.

Definition disk_write (d : D) (lba count : Z) (bs : list Z) : D * Z :=
  let '(d, rc) := ata_prepare d lba count ATA_CMD_WRITE_SECTORS in
  if negb (rc =? 0) then (d, -1)
  else
    let '(d, rc) := write_blocks (Z.to_nat count) d bs in
    if negb (rc =? 0) then (d, -1)
    else
      let d := port_byte_out d ATA_COMMAND ATA_CMD_CACHE_FLUSH in
      let '(d, rc) := ata_wait_not_busy d in
      if negb (rc =? 0) then (d, -1) else (d, 0).

(** Whether a drive was detected. *)
Definition disk_init (d : D) : D * bool :=
  let d := port_byte_out d ATA_DEV_CONTROL ATA_CTRL_NIEN in
  let d := port_byte_out d ATA_DRIVE_HEAD ATA_DRIVE_MASTER_LBA in
  let d := ata_400ns_delay d in
  let '(d, status) := port_byte_in d ATA_STATUS in
  (d, negb (status =? ATA_FLOATING_BUS)).
End Driver.

(** ** The protocol of a drive *)

(** Between transfers; [n] sectors from [lba] on still to be read, [k] words
    of the first already; [n] still to be written, the bytes [acc] of the
    first already. *)
Inductive ata_phase := Idle | ReadData (lba n k : Z) | WriteData (lba n : Z) (acc : list Z).

Class AtaDrive (D : Type) {ports : Ports D} := {
  dev_ok : D -> Prop;
  dev_blocks : Z;
  dev_sector : D -> Z -> list Z;
  dev_reg : D -> Z -> Z;
  dev_phase : D -> ata_phase;
  dev_busy : D -> Z;            (* status reads that still find it busy *)
  ata_limits : dev_blocks <= 2 ^ 28;
  ata_sectors : forall d b, dev_ok d -> length (dev_sector d b) = 512%nat /\ bytes (dev_sector d b);
  ata_patience : forall d, dev_ok d -> 0 <= dev_busy d < Z.pos ATA_POLL_TIMEOUT;
  ata_status : forall d d' st, dev_ok d -> port_byte_in d ATA_STATUS = (d', st) ->
    dev_ok d' /\ dev_phase d' = dev_phase d /\ (forall b, dev_sector d' b = dev_sector d b) /\ (forall p, dev_reg d' p = dev_reg d p) /\
    Z.land st ATA_STATUS_ERR = 0 /\
    (0 < dev_busy d -> Z.land st ATA_STATUS_BSY <> 0 /\ dev_busy d' = dev_busy d - 1) /\
    (dev_busy d = 0 -> Z.land st ATA_STATUS_BSY = 0 /\ dev_busy d' = 0 /\ (dev_phase d <> Idle -> Z.land st ATA_STATUS_DRQ <> 0));
  ata_alt_status : forall d d' st, dev_ok d -> port_byte_in d ATA_ALT_STATUS = (d', st) ->
    dev_ok d' /\ dev_phase d' = dev_phase d /\ (forall b, dev_sector d' b = dev_sector d b) /\ (forall p, dev_reg d' p = dev_reg d p) /\ dev_busy d' = dev_busy d;
  ata_register : forall d p v, dev_ok d -> dev_phase d = Idle -> dev_busy d = 0 -> ATA_SECTOR_COUNT <= p <= ATA_DRIVE_HEAD ->
    let d' := port_byte_out d p v in
    dev_ok d' /\ dev_phase d' = Idle /\ dev_busy d' = 0 /\ (forall b, dev_sector d' b = dev_sector d b) /\
    (forall q, dev_reg d' q = if q =? p then v else dev_reg d q);
  ata_command : forall d c, dev_ok d -> dev_phase d = Idle -> dev_busy d = 0 ->
    let n := dev_reg d ATA_SECTOR_COUNT in
    let lba := dev_reg d ATA_LBA_LOW + 2 ^ 8 * dev_reg d ATA_LBA_MID + 2 ^ 16 * dev_reg d ATA_LBA_HIGH + 2 ^ 24 * (dev_reg d ATA_DRIVE_HEAD mod 16) in
    0 < n -> lba + n <= dev_blocks -> c = ATA_CMD_READ_SECTORS \/ c = ATA_CMD_WRITE_SECTORS ->
    let d' := port_byte_out d ATA_COMMAND c in
    dev_ok d' /\ (forall b, dev_sector d' b = dev_sector d b) /\
    dev_phase d' = if c =? ATA_CMD_READ_SECTORS then ReadData lba n 0 else WriteData lba n [];
  ata_flush : forall d, dev_ok d -> dev_phase d = Idle -> dev_busy d = 0 ->
    let d' := port_byte_out d ATA_COMMAND ATA_CMD_CACHE_FLUSH in
    dev_ok d' /\ dev_phase d' = Idle /\ forall b, dev_sector d' b = dev_sector d b;
  ata_data_in : forall d lba n k d' w, dev_ok d -> dev_phase d = ReadData lba n k -> dev_busy d = 0 -> 0 <= k < 256 ->
    port_word_in d ATA_DATA = (d', w) ->
    dev_ok d' /\ (forall b, dev_sector d' b = dev_sector d b) /\ w = of_le (part (dev_sector d lba) (2 * k) 2) /\
    (k < 255 -> dev_busy d' = 0) /\
    dev_phase d' = if k <? 255 then ReadData lba n (k + 1) else if 1 <? n then ReadData (lba + 1) (n - 1) 0 else Idle;
  ata_data_out : forall d lba n acc w, dev_ok d -> dev_phase d = WriteData lba n acc -> dev_busy d = 0 -> 0 <= w < 65536 -> zlen acc < 512 ->
    let d' := port_word_out d ATA_DATA w in
    let acc' := acc ++ le_bytes 2 w in
    dev_ok d' /\ (zlen acc' < 512 -> dev_busy d' = 0) /\
    (forall b, dev_sector d' b = if (zlen acc' =? 512) && (b =? lba) then acc' else dev_sector d b) /\
    dev_phase d' = if zlen acc' <? 512 then WriteData lba n acc' else if 1 <? n then WriteData (lba + 1) (n - 1) [] else Idle
}.

(** A drive that does not act on a CACHE FLUSH written while it is busy. The
    host must not write a command under BSY, and [disk_write] does, right
    after the last word of a sector: what it does to a drive rests on this
    assumption, which QEMU's drives meet, and the flush is lost where the
    assumption is needed. *)
Class BusyIgnores (D : Type) {ports : Ports D} {drive : AtaDrive D} := {
  busy_flush : forall d, dev_ok d -> dev_phase d = Idle -> 0 < dev_busy d ->
    let d' := port_byte_out d ATA_COMMAND ATA_CMD_CACHE_FLUSH in
    dev_ok d' /\ dev_phase d' = Idle /\ dev_busy d' = dev_busy d /\ forall b, dev_sector d' b = dev_sector d b
}.
