(* ===== verification/AtaSpec.v ===== *)
(** * What the disk driver promises

    On a drive that follows the protocol, and ignores a CACHE FLUSH that
    comes while it is busy, the driver is a block device: it discharges the
    interface [BlockLaws] of the file system. *)

From Stdlib Require Import ZArith Lia Bool.
From stdpp Require Import base gmap fin_maps option functions list.
From S2P Require Import Prelude Fat FatBytes Board Ata.

(** ** Polling *)

Section Until.
Context {S R : Type} (f : S -> S + R) (measure : S -> Z) (P : S -> Prop) (Q : R -> Prop).
Context (step : forall s, P s -> 0 <= measure s -> match f s with inl s' => P s' /\ 0 <= measure s' < measure s | inr r => Q r end).

(** A loop of [n] turns that ends after at most [measure] turns. *)
Lemma until_run n : forall s, P s -> 0 <= measure s ->
  match until n f s with inr r => Q r | inl s' => P s' /\ 0 <= measure s' /\ measure s' + Z.pos n <= measure s end.
Proof.
  induction n as [n IH | n IH |]; intros s Hs Hm; cbn [until].
  - pose proof (step s Hs Hm) as H0. destruct (f s) as [s1|r]; [| done]. destruct H0 as [P1 M1]. specialize (IH s1 P1 ltac:(lia)) as H1.
    destruct (until n f s1) as [s2|r]; [| done]. destruct H1 as (P2 & M2 & M3). specialize (IH s2 P2 M2) as H2.
    destruct (until n f s2) as [s3|r]; [| done]. destruct H2 as (P3 & M4 & M5). split; [done |]. lia.
  - specialize (IH s Hs Hm) as H1. destruct (until n f s) as [s2|r]; [| done]. destruct H1 as (P2 & M2 & M3). specialize (IH s2 P2 M2) as H2.
    destruct (until n f s2) as [s3|r]; [| done]. destruct H2 as (P3 & M4 & M5). split; [done |]. lia.
  - pose proof (step s Hs Hm) as H0. destruct (f s) as [s1|r]; [| done]. destruct H0 as [P1 M1]. split; [done |]. lia.
Qed.

Lemma until_stops n s : P s -> 0 <= measure s < Z.pos n -> exists r, until n f s = inr r /\ Q r.
Proof.
  intros Hs Hm. pose proof (until_run n s Hs ltac:(lia)) as H. destruct (until n f s) as [s'|r]; [lia | by exists r].
Qed.
End Until.

Section AtaSpec.
Context {D : Type} {ports : Ports D} {drive : AtaDrive D}.
Implicit Types d : D.

(** [d'] is [d] with the same contents, registers and phase. *)
Record quiet (d d' : D) : Prop := {
  q_ok : dev_ok d';
  q_phase : dev_phase d' = dev_phase d;
  q_sector : forall b, dev_sector d' b = dev_sector d b;
  q_reg : forall p, dev_reg d' p = dev_reg d p
}.

Lemma quiet_trans d d1 d2 : quiet d d1 -> quiet d1 d2 -> quiet d d2.
Proof. intros [] []. split; [done | congruence | congruence | congruence]. Qed.

Lemma status_quiet d d' st : dev_ok d -> port_byte_in d ATA_STATUS = (d', st) -> quiet d d'.
Proof. intros H E. destruct (ata_status d d' st H E) as (? & ? & ? & ? & _). by split. Qed.

Lemma wait_not_busy d : dev_ok d -> exists d', ata_wait_not_busy d = (d', 0) /\ quiet d d' /\ dev_busy d' = 0.
Proof.
  intros Hd. unfold ata_wait_not_busy.
  destruct (until_stops poll_not_busy dev_busy (fun d' => quiet d d') (fun '(d', rc) => rc = 0 /\ quiet d d' /\ dev_busy d' = 0)) with (n := ATA_POLL_TIMEOUT) (s := d)
    as ([d' rc] & -> & -> & Hq & Hb).
  - intros s Hs Hm. unfold poll_not_busy. destruct (port_byte_in s ATA_STATUS) as [s' st] eqn:E. pose proof (status_quiet s s' st (q_ok _ _ Hs) E) as Hq.
    destruct (ata_status s s' st (q_ok _ _ Hs) E) as (_ & _ & _ & _ & _ & H1 & H0). destruct (Z.eqb_spec (Z.land st ATA_STATUS_BSY) 0) as [Hz | Hz].
    + split; [done |]. split; [by eapply quiet_trans |]. destruct (Z.eq_dec (dev_busy s) 0) as [E0 | E0]; [by apply H0 |].
      destruct H1 as [H1 _]; [lia | done].
    + split; [by eapply quiet_trans |]. destruct (Z.eq_dec (dev_busy s) 0) as [E0 | E0]; [by destruct (H0 E0) |].
      destruct H1 as [_ ->]; lia.
  - by split.
  - by apply ata_patience.
  - exists d'. done.
Qed.

Lemma wait_for_data d : dev_ok d -> dev_phase d <> Idle -> exists d', ata_wait_for_data d = (d', 0) /\ quiet d d' /\ dev_busy d' = 0.
Proof.
  intros Hd Hph. unfold ata_wait_for_data.
  destruct (until_stops poll_data dev_busy (fun d' => quiet d d') (fun '(d', rc) => rc = 0 /\ quiet d d' /\ dev_busy d' = 0)) with (n := ATA_POLL_TIMEOUT) (s := d)
    as ([d' rc] & -> & -> & Hq & Hb).
  - intros s Hs Hm. unfold poll_data. destruct (port_byte_in s ATA_STATUS) as [s' st] eqn:E. pose proof (status_quiet s s' st (q_ok _ _ Hs) E) as Hq.
    destruct (ata_status s s' st (q_ok _ _ Hs) E) as (_ & _ & _ & _ & He & H1 & H0). rewrite He. simpl negb. cbv iota.
    destruct (Z.eq_dec (dev_busy s) 0) as [E0 | E0].
    + destruct (H0 E0) as (B0 & B1 & B2). rewrite B0. simpl. destruct (Z.eqb_spec (Z.land st ATA_STATUS_DRQ) 0) as [Hz | Hz].
      * exfalso. apply B2; [| done]. by rewrite (q_phase _ _ Hs).
      * simpl. split; [done |]. split; [by eapply quiet_trans | done].
    + destruct H1 as [B1 B2]; [lia |]. apply Z.eqb_neq in B1 as ->. simpl. split; [by eapply quiet_trans | lia].
  - by split.
  - by apply ata_patience.
  - exists d'. done.
Qed.

(** ** Issuing a command *)

Lemma delay_quiet d : dev_ok d -> quiet d (ata_400ns_delay d) /\ dev_busy (ata_400ns_delay d) = dev_busy d.
Proof.
  intros Hd. unfold ata_400ns_delay. apply (for_range_ind (fun _ d' => quiet d d' /\ dev_busy d' = dev_busy d)); [by split |].
  intros i d' _ [Hq Hb]. destruct (port_byte_in d' ATA_ALT_STATUS) as [d2 st] eqn:E. simpl.
  destruct (ata_alt_status d' d2 st (q_ok _ _ Hq) E) as (H1 & H2 & H3 & H4 & H5). split; [| congruence]. eapply quiet_trans; [exact Hq |]. by split.
Qed.

(** The 28 bits of the block number, through the four registers. *)
Lemma lba_registers lba : 0 <= lba < 2 ^ 28 ->
  u8 (Z.land lba 0xFF) + 2 ^ 8 * u8 (Z.land (Z.shiftr lba 8) 0xFF) + 2 ^ 16 * u8 (Z.land (Z.shiftr lba 16) 0xFF) +
  2 ^ 24 * (u8 (Z.lor ATA_DRIVE_MASTER_LBA (Z.land (Z.shiftr lba 24) 0x0F)) mod 16) = lba.
Proof.
  intros H. pose proof (byte_of lba 0 ltac:(lia)) as B0. rewrite Z.shiftr_0_r in B0. rewrite B0, !byte_of by lia.
  change 0x0F with (Z.ones 4). rewrite Z.land_ones, Z.shiftr_div_pow2 by lia. unfold ATA_DRIVE_MASTER_LBA.
  change 0xE0 with (14 * 2 ^ 4). rewrite lor_low_add by (lia || (apply Z.mod_pos_bound; lia)). rewrite u8_small by (pose proof (Z.mod_pos_bound (lba / 2 ^ 24) (2 ^ 4)); lia).
  change (2 ^ 0) with 1. change (2 ^ 8) with 256. change (2 ^ 16) with 65536. change (2 ^ 24) with 16777216. change (2 ^ 28) with 268435456 in H. change (2 ^ 4) with 16. mlia.
Qed.

Lemma prepare_ok d lba n c : dev_ok d -> dev_phase d = Idle -> 0 <= lba -> 0 < n < 256 -> lba + n <= dev_blocks ->
  c = ATA_CMD_READ_SECTORS \/ c = ATA_CMD_WRITE_SECTORS ->
  exists d', ata_prepare d lba n c = (d', 0) /\ dev_ok d' /\ (forall b, dev_sector d' b = dev_sector d b) /\
    dev_phase d' = if c =? ATA_CMD_READ_SECTORS then ReadData lba n 0 else WriteData lba n [].
Proof.
  intros Hd Hph Hl Hn Hb Hc. pose proof (ata_limits (D := D)) as Hlim. unfold ata_prepare. destruct (wait_not_busy d Hd) as (d0 & -> & Q0 & B0). simpl negb. cbv iota.
  rewrite <- (q_phase _ _ Q0) in Hph. pose proof (q_ok _ _ Q0) as O0.
  destruct (ata_register d0 ATA_DRIVE_HEAD (u8 (Z.lor ATA_DRIVE_MASTER_LBA (Z.land (Z.shiftr lba 24) 0x0F))) O0 Hph B0 ltac:(done)) as (O1 & P1 & B1 & S1 & R1).
  set (d1 := port_byte_out d0 _ _) in *. destruct (delay_quiet d1 O1) as [[O2 P2 S2 R2] B2]. set (d2 := ata_400ns_delay d1) in *. rewrite P1 in P2. rewrite B1 in B2.
  destruct (ata_register d2 ATA_SECTOR_COUNT n O2 P2 B2 ltac:(done)) as (O3 & P3 & B3 & S3 & R3). set (d3 := port_byte_out d2 _ _) in *.
  destruct (ata_register d3 ATA_LBA_LOW (u8 (Z.land lba 0xFF)) O3 P3 B3 ltac:(done)) as (O4 & P4 & B4 & S4 & R4). set (d4 := port_byte_out d3 _ _) in *.
  destruct (ata_register d4 ATA_LBA_MID (u8 (Z.land (Z.shiftr lba 8) 0xFF)) O4 P4 B4 ltac:(done)) as (O5 & P5 & B5 & S5 & R5). set (d5 := port_byte_out d4 _ _) in *.
  destruct (ata_register d5 ATA_LBA_HIGH (u8 (Z.land (Z.shiftr lba 16) 0xFF)) O5 P5 B5 ltac:(done)) as (O6 & P6 & B6 & S6 & R6). set (d6 := port_byte_out d5 _ _) in *.
  assert (dev_reg d6 ATA_SECTOR_COUNT = n) as En by (by rewrite R6, R5, R4, R3).
  assert (dev_reg d6 ATA_LBA_LOW + 2 ^ 8 * dev_reg d6 ATA_LBA_MID + 2 ^ 16 * dev_reg d6 ATA_LBA_HIGH + 2 ^ 24 * (dev_reg d6 ATA_DRIVE_HEAD mod 16) = lba) as El.
  { rewrite !R6, !R5, !R4, !R3, !R2, !R1. apply lba_registers. lia. }
  destruct (ata_command d6 c O6 P6 B6) as (O7 & S7 & P7); [rewrite En; lia | rewrite En, El; lia | done |]. rewrite En, El in P7.
  eexists. split; [reflexivity |]. split; [done |]. split; [| done]. intros b. by rewrite S7, S6, S5, S4, S3, S2, S1, (q_sector _ _ Q0).
Qed.

(** ** Data transfer *)

(** Bytes through a word. *)
Lemma le_of_le bs : bytes bs -> le_bytes (length bs) (of_le bs) = bs.
Proof.
  induction 1 as [| b bs Hb _ IH]; [done |]. simpl. rewrite (Z.mul_comm 256), Z_mod_plus_full, Z_div_plus_full, Z.mod_small, Z.div_small by lia.
  by rewrite Z.add_0_l, IH.
Qed.

Lemma le_word bs : length bs = 2%nat -> bytes bs -> le_bytes 2 (of_le bs) = bs /\ 0 <= of_le bs < 65536.
Proof.
  intros Hl Hb. split; [rewrite <- Hl; by apply le_of_le |]. destruct bs as [| x [| y [|]]]; simplify_eq/=. rewrite !Forall_cons in Hb. lia.
Qed.

Lemma part_split bs o a b : 0 <= o -> 0 <= a -> 0 <= b -> part bs o a ++ part bs (o + a) b = part bs o (a + b).
Proof.
  intros. unfold part. rewrite !Z2Nat.inj_add by lia. rewrite <- drop_drop. by rewrite take_take_drop.
Qed.

Definition next_read (lba m : Z) : ata_phase := if 1 <? m then ReadData (lba + 1) (m - 1) 0 else Idle.
Definition next_write (lba m : Z) : ata_phase := if 1 <? m then WriteData (lba + 1) (m - 1) [] else Idle.

Lemma read_words_ok n : forall d lba m k, dev_ok d -> dev_phase d = ReadData lba m k -> dev_busy d = 0 -> 0 <= k -> k + Z.of_nat (S n) = 256 ->
  exists d', read_words (S n) d = (d', part (dev_sector d lba) (2 * k) (2 * Z.of_nat (S n))) /\ dev_ok d' /\ (forall b, dev_sector d' b = dev_sector d b) /\
    dev_phase d' = next_read lba m.
Proof.
  induction n as [| n IH]; intros d lba m k Hd Hp Hb Hk Hn; cbn [read_words];
    destruct (port_word_in d ATA_DATA) as [d1 w] eqn:E; destruct (ata_data_in d lba m k d1 w Hd Hp Hb ltac:(lia) E) as (H1 & S1 & -> & B1 & P1);
    destruct (ata_sectors d lba Hd) as [Hl Hby];
    (destruct (le_word (part (dev_sector d lba) (2 * k) 2)) as [-> _]; [rewrite part_length by (unfold zlen; lia); done | by apply part_bytes |]).
  - exists d1. rewrite app_nil_r. split; [done |]. do 2 (split; [done |]). rewrite P1. destruct (Z.ltb_spec k 255); [lia | done].
  - destruct (Z.ltb_spec k 255) as [Hk' | Hk']; [| lia]. destruct (IH d1 lba m (k + 1) H1 P1 (B1 Hk') ltac:(lia) ltac:(lia)) as (d2 & E2 & H2 & S2 & P2).
    cbn [read_words] in E2. rewrite E2. exists d2. split; [| split; [done | split; [intros b; by rewrite S2 | done]]].
    f_equal. rewrite S1. replace (2 * (k + 1)) with (2 * k + 2) by lia. rewrite part_split by lia. f_equal. lia.
Qed.

Lemma read_blocks_ok n : forall d lba, dev_ok d -> (n <> 0%nat -> dev_phase d = ReadData lba (Z.of_nat n) 0) -> (n = 0%nat -> dev_phase d = Idle) ->
  exists d', read_blocks n d = (d', Some (concat (dev_sector d <$> seqZ lba (Z.of_nat n)))) /\ dev_ok d' /\ dev_phase d' = Idle /\
    forall b, dev_sector d' b = dev_sector d b.
Proof.
  induction n as [| n IH]; intros d lba Hd Hp H0; cbn [read_blocks]; [exists d; split; [done |]; split; [done |]; by split; [apply H0 |] |].
  specialize (Hp ltac:(lia)). destruct (wait_for_data d Hd) as (d1 & -> & Q1 & B1); [by rewrite Hp |]. simpl negb. cbv iota.
  pose proof (q_phase _ _ Q1) as P1. rewrite Hp in P1. change (Z.to_nat ATA_WORDS_PER_SECTOR) with 256%nat.
  destruct (read_words_ok 255 d1 lba _ 0 (q_ok _ _ Q1) P1 B1 ltac:(lia) ltac:(lia)) as (d2 & -> & O2 & S2 & P2).
  unfold next_read in P2. destruct (IH d2 (lba + 1) O2) as (d3 & -> & O3 & P3 & S3).
  { intros Hn. rewrite P2. destruct (Z.ltb_spec 1 (Z.of_nat (S n))); [f_equal; lia | lia]. }
  { intros ->. by rewrite P2. }
  exists d3. destruct (ata_sectors d lba Hd) as [Hl _]. split; [| split; [done | split; [done |]]].
  - do 2 f_equal. rewrite (seqZ_cons lba) by lia. cbn [fmap list_fmap concat]. f_equal.
    + rewrite (q_sector _ _ Q1). apply part_all. unfold zlen. rewrite Hl. done.
    + f_equal. replace (Z.pred (Z.of_nat (S n))) with (Z.of_nat n) by lia. apply list_fmap_ext. intros i b _. by rewrite S2, (q_sector _ _ Q1).
  - intros b. by rewrite S3, S2, (q_sector _ _ Q1).
Qed.

Lemma write_words_ok n : forall d lba m acc bs, dev_ok d -> dev_phase d = WriteData lba m acc -> dev_busy d = 0 -> zlen acc + 2 * Z.of_nat (S n) = 512 ->
  (2 * S n <= length bs)%nat -> bytes bs ->
  let d' := write_words (S n) d bs in
  dev_ok d' /\ (forall b, dev_sector d' b = if b =? lba then acc ++ take (2 * S n) bs else dev_sector d b) /\ dev_phase d' = next_write lba m.
Proof.
  induction n as [| n IH]; intros d lba m acc bs Hd Hp Hb Hn Hl Hby; cbv zeta; cbn [write_words];
    (destruct (le_word (take 2 bs)) as [Ew Rw]; [rewrite length_take; lia | by apply Forall_take |]);
    destruct (ata_data_out d lba m acc (of_le (take 2 bs)) Hd Hp Hb Rw ltac:(unfold zlen in *; lia)) as (O1 & B1 & S1 & P1); rewrite Ew in B1, S1, P1;
    set (d1 := port_word_out d ATA_DATA (of_le (take 2 bs))) in *;
    assert (zlen (acc ++ take 2 bs) = zlen acc + 2) as El by (rewrite zlen_app; unfold zlen; rewrite length_take; lia); rewrite El in *.
  - rewrite (proj2 (Z.eqb_eq _ _)) in S1 by lia. rewrite (proj2 (Z.ltb_ge _ _)) in P1 by lia. done.
  - destruct (IH d1 lba m (acc ++ take 2 bs) (drop 2 bs)) as (O2 & S2 & P2).
    + done.
    + rewrite P1, (proj2 (Z.ltb_lt _ _)) by lia. done.
    + apply B1. lia.
    + lia.
    + rewrite length_drop. lia.
    + by apply Forall_drop.
    + split; [done |]. split; [| done]. intros b. cbn [write_words] in S2. rewrite S2, S1. rewrite (proj2 (Z.eqb_neq (zlen acc + 2) 512)) by lia. simpl andb. cbv iota.
      destruct (b =? lba); [| done]. rewrite <- app_assoc. f_equal. replace (2 * S (S n))%nat with (2 + 2 * S n)%nat by lia. by rewrite take_take_drop.
Qed.

Lemma write_blocks_ok n : forall d lba bs, dev_ok d -> (n <> 0%nat -> dev_phase d = WriteData lba (Z.of_nat n) []) -> (n = 0%nat -> dev_phase d = Idle) ->
  length bs = (512 * n)%nat -> bytes bs ->
  exists d', write_blocks n d bs = (d', 0) /\ dev_ok d' /\ dev_phase d' = Idle /\
    forall b, dev_sector d' b = if (lba <=? b) && (b <? lba + Z.of_nat n) then part bs (512 * (b - lba)) 512 else dev_sector d b.
Proof.
  induction n as [| n IH]; intros d lba bs Hd Hp H0 Hl Hby; cbn [write_blocks].
  { exists d. split; [done |]. split; [done |]. split; [by apply H0 |]. intros b. destruct (Z.leb_spec lba b), (Z.ltb_spec b (lba + Z.of_nat 0)); simpl; try done. lia. }
  specialize (Hp ltac:(lia)). destruct (wait_for_data d Hd) as (d1 & -> & Q1 & B1); [by rewrite Hp |]. simpl negb. cbv iota.
  pose proof (q_phase _ _ Q1) as P1. rewrite Hp in P1. change (Z.to_nat ATA_WORDS_PER_SECTOR) with 256%nat. change (Z.to_nat DISK_SECTOR_SIZE) with 512%nat.
  destruct (write_words_ok 255 d1 lba _ [] bs (q_ok _ _ Q1) P1 B1 ltac:(done) ltac:(lia) Hby) as (O2 & S2 & P2). set (d2 := write_words 256 d1 bs) in *.
  unfold next_write in P2. destruct (IH d2 (lba + 1) (drop 512 bs) O2) as (d3 & E3 & O3 & P3 & S3).
  { intros Hn. rewrite P2. destruct (Z.ltb_spec 1 (Z.of_nat (S n))); [f_equal; lia | lia]. }
  { intros ->. by rewrite P2. }
  { rewrite length_drop. lia. }
  { by apply Forall_drop. }
  exists d3. split; [done |]. split; [done |]. split; [done |]. intros b. rewrite S3. change ([] ++ take (2 * 256) bs) with (take 512 bs) in S2.
  destruct (Z.leb_spec (lba + 1) b), (Z.leb_spec lba b), (Z.ltb_spec b (lba + 1 + Z.of_nat n)), (Z.ltb_spec b (lba + Z.of_nat (S n))); simpl; try lia.
  - unfold part. rewrite drop_drop. do 2 f_equal. lia.
  - rewrite S2, (proj2 (Z.eqb_neq _ _)), (q_sector _ _ Q1) by lia. done.
  - rewrite S2, (proj2 (Z.eqb_eq _ _)) by lia. unfold part. replace (Z.to_nat (512 * (b - lba))) with 0%nat by lia. done.
  - rewrite S2, (proj2 (Z.eqb_neq _ _)), (q_sector _ _ Q1) by lia. done.
Qed.

(** ** The block device *)

Lemma disk_read_ok d lba n : dev_ok d -> dev_phase d = Idle -> 0 <= lba -> 0 < n < 256 -> lba + n <= dev_blocks ->
  exists d', disk_read d lba n = (d', Some (concat (dev_sector d <$> seqZ lba n))) /\ (dev_ok d' /\ dev_phase d' = Idle) /\
    forall b, dev_sector d' b = dev_sector d b.
Proof.
  intros Hd Hp Hl Hn Hb. unfold disk_read. destruct (prepare_ok d lba n ATA_CMD_READ_SECTORS Hd Hp Hl Hn Hb ltac:(by left)) as (d1 & -> & O1 & S1 & P1).
  simpl negb. cbv iota. rewrite Z.eqb_refl in P1. destruct (read_blocks_ok (Z.to_nat n) d1 lba O1) as (d2 & -> & O2 & P2 & S2).
  { intros _. rewrite P1. f_equal. lia. } { lia. }
  exists d2. split; [| split; [done |]; intros b; by rewrite S2]. do 3 f_equal. rewrite Z2Nat.id by lia. apply list_fmap_ext. done.
Qed.

(** The flush after a write, on a drive that may still be busy with the last
    sector. *)
Lemma flush_keeps {ign : BusyIgnores D} d : dev_ok d -> dev_phase d = Idle ->
  let d' := port_byte_out d ATA_COMMAND ATA_CMD_CACHE_FLUSH in
  dev_ok d' /\ dev_phase d' = Idle /\ forall b, dev_sector d' b = dev_sector d b.
Proof.
  intros Hd Hp. pose proof (ata_patience d Hd) as Hb. destruct (Z.eq_dec (dev_busy d) 0) as [E | E]; [by apply ata_flush |].
  destruct (busy_flush d Hd Hp ltac:(lia)) as (H1 & H2 & _ & H3). done.
Qed.

Lemma disk_write_ok {ign : BusyIgnores D} d lba n bs : dev_ok d -> dev_phase d = Idle -> 0 <= lba -> 0 < n < 256 -> lba + n <= dev_blocks ->
  length bs = Z.to_nat (512 * n) -> bytes bs ->
  exists d', disk_write d lba n bs = (d', 0) /\ (dev_ok d' /\ dev_phase d' = Idle) /\
    forall b, dev_sector d' b = if (lba <=? b) && (b <? lba + n) then part bs (512 * (b - lba)) 512 else dev_sector d b.
Proof.
  intros Hd Hp Hl Hn Hb Hlen Hby. unfold disk_write. destruct (prepare_ok d lba n ATA_CMD_WRITE_SECTORS Hd Hp Hl Hn Hb ltac:(by right)) as (d1 & -> & O1 & S1 & P1).
  simpl negb. cbv iota. change (ATA_CMD_WRITE_SECTORS =? ATA_CMD_READ_SECTORS) with false in P1. cbv iota in P1.
  destruct (write_blocks_ok (Z.to_nat n) d1 lba bs O1) as (d2 & -> & O2 & P2 & S2); [| lia | lia | done |].
  { intros _. rewrite P1. f_equal. lia. }
  simpl negb. cbv iota. destruct (flush_keeps d2 O2 P2) as (O3 & P3 & S3). set (d3 := port_byte_out d2 _ _) in *.
  destruct (wait_not_busy d3 O3) as (d4 & -> & Q4 & _). simpl negb. cbv iota. exists d4. split; [done |].
  split; [split; [apply Q4 | by rewrite (q_phase _ _ Q4)] |]. intros b. rewrite (q_sector _ _ Q4), S3, S2, Z2Nat.id by lia. by rewrite S1.
Qed.
End AtaSpec.

#[export] Instance ata_block {D} {ports : Ports D} : BlockDev D := { blk_read := disk_read; blk_write := disk_write }.

(** The driver discharges what the file system needs of its disk. *)
#[export, program] Instance ata_block_laws {D} {ports : Ports D} {drive : AtaDrive D} {ign : BusyIgnores D} : BlockLaws D :=
  { blk_ok d := dev_ok d /\ dev_phase d = Idle; blk_count := dev_blocks; blk_sector := dev_sector }.
Next Obligation. intros D ports drive ign d b [Hd _]. by apply ata_sectors. Qed.
Next Obligation. intros D ports drive ign d lba n [Hd Hp]. by apply disk_read_ok. Qed.
Next Obligation. intros D ports drive ign d lba n bs [Hd Hp]. by apply disk_write_ok. Qed.

Section AtaProps.
Context {D : Type} {ports : Ports D}.
Implicit Types d : D.

(** C38: on an ATA drive that follows the protocol, and that ignores a CACHE
    FLUSH written while it is still busy with the last sector (the protocol
    forbids the write, and [disk_write] does not wait), however long it stays
    busy below the bound of the polling loops, [disk_write] of [n] sectors
    at [lba] succeeds and a later [disk_read] of any run of sectors succeeds
    and gives, sector by sector, the bytes written where the runs overlap
    and the old contents elsewhere; the drive is left idle both times. What
    the drive has put on the platter is not part of it. *)
Theorem disk_write_read {drive : AtaDrive D} (ign : BusyIgnores D) d lba n bs lba' n' : dev_ok d -> dev_phase d = Idle ->
  0 <= lba -> 0 < n < 256 -> lba + n <= dev_blocks -> length bs = Z.to_nat (512 * n) -> bytes bs ->
  0 <= lba' -> 0 < n' < 256 -> lba' + n' <= dev_blocks ->
  exists d1 d2, disk_write d lba n bs = (d1, 0) /\
    disk_read d1 lba' n' = (d2, Some (concat ((fun b => if (lba <=? b) && (b <? lba + n) then part bs (512 * (b - lba)) 512 else dev_sector d b) <$> seqZ lba' n'))) /\
    dev_ok d2 /\ dev_phase d2 = Idle /\ forall b, dev_sector d2 b = dev_sector d1 b.
Proof.
  intros Hd Hp Hl Hn Hb Hlen Hby Hl' Hn' Hb'. destruct (disk_write_ok d lba n bs Hd Hp Hl Hn Hb Hlen Hby) as (d1 & E1 & [O1 P1] & S1).
  destruct (disk_read_ok d1 lba' n' O1 P1 Hl' Hn' Hb') as (d2 & E2 & [O2 P2] & S2). exists d1, d2. split; [done |]. split; [| done].
  rewrite E2. do 3 f_equal. apply list_fmap_ext. intros i b _. apply S1.
Qed.

(** A polling loop whose body never ends it runs out. *)
Lemma until_never {S R} (f : S -> S + R) (P : S -> Prop) n : (forall s, P s -> exists s', f s = inl s' /\ P s') -> forall s, P s -> exists s', until n f s = inl s' /\ P s'.
Proof.
  intros Hf. induction n as [n IH | n IH |]; intros s Hs; cbn [until]; [| | by apply Hf].
  - destruct (Hf s Hs) as (s1 & -> & H1). destruct (IH s1 H1) as (s2 & -> & H2). by apply IH.
  - destruct (IH s Hs) as (s2 & -> & H2). by apply IH.
Qed.

(** On a bus without a drive, where every status read finds the
    floating value, [disk_init] reports that there is none, and [disk_read]
    and [disk_write] return -1 after the bounded wait, the file system above
    never waiting for ever. *)
Theorem absent_drive (floating : forall d p, (port_byte_in d p).2 = ATA_FLOATING_BUS) d lba n bs :
  (disk_init d).2 = false /\ (disk_read d lba n).2 = None /\ (disk_write d lba n bs).2 = -1.
Proof.
  assert (forall d, exists d', ata_wait_not_busy d = (d', -1)) as Hw.
  { intros x. unfold ata_wait_not_busy. destruct (until_never poll_not_busy (fun _ => True) ATA_POLL_TIMEOUT) with (s := x) as (x' & -> & _); [| done | by exists x'].
    intros s _. unfold poll_not_busy. specialize (floating s ATA_STATUS). destruct (port_byte_in s ATA_STATUS) as [s' st]. simpl in floating. subst st. by exists s'. }
  split; [| destruct (Hw d) as [d' E]; unfold disk_read, disk_write, ata_prepare; by rewrite E].
  unfold disk_init. set (x := ata_400ns_delay _). specialize (floating x ATA_STATUS). destruct (port_byte_in x ATA_STATUS) as [x' st]. simpl in *. by rewrite floating.
Qed.
End AtaProps.

(** ** A simulated drive *)

(** Twelve sectors; busy for three status reads after each command and each
    sector. *)
Module Sim.
Record disk := mkDisk { sd_sector : Z -> list Z; sd_reg : Z -> Z; sd_phase : ata_phase; sd_busy : Z }.
Definition blocks : Z := 12.
Definition delay : Z := 3.

Definition status (d : disk) : Z :=
  if 0 <? sd_busy d then ATA_STATUS_BSY else match sd_phase d with Idle => 0x50 | _ => 0x58 end.
Definition step_busy (d : disk) : disk := mkDisk (sd_sector d) (sd_reg d) (sd_phase d) (Z.max 0 (sd_busy d - 1)).
Definition enter (d : disk) (ph : ata_phase) : disk := mkDisk (sd_sector d) (sd_reg d) ph delay.
Definition reg_lba (r : Z -> Z) : Z := r ATA_LBA_LOW + 2 ^ 8 * r ATA_LBA_MID + 2 ^ 16 * r ATA_LBA_HIGH + 2 ^ 24 * (r ATA_DRIVE_HEAD mod 16).

(** A command that comes while the drive is busy is ignored. *)
Definition command (d : disk) (c : Z) : disk :=
  let lba := reg_lba (sd_reg d) in
  let n := sd_reg d ATA_SECTOR_COUNT in
  if 0 <? sd_busy d then d
  else if c =? ATA_CMD_READ_SECTORS then enter d (ReadData lba n 0)
  else if c =? ATA_CMD_WRITE_SECTORS then enter d (WriteData lba n [])
  else enter d (sd_phase d).

Definition word_in (d : disk) : disk * Z :=
  match sd_phase d with
  | ReadData lba n k =>
      let w := of_le (part (sd_sector d lba) (2 * k) 2) in
      if k <? 255 then (mkDisk (sd_sector d) (sd_reg d) (ReadData lba n (k + 1)) (sd_busy d), w)
      else (enter d (if 1 <? n then ReadData (lba + 1) (n - 1) 0 else Idle), w)
  | _ => (d, 0)
  end.

Definition word_out (d : disk) (w : Z) : disk :=
  match sd_phase d with
  | WriteData lba n acc =>
      let acc := acc ++ le_bytes 2 w in
      if zlen acc <? 512 then mkDisk (sd_sector d) (sd_reg d) (WriteData lba n acc) (sd_busy d)
      else mkDisk (fun b => if (zlen acc =? 512) && (b =? lba) then acc else sd_sector d b) (sd_reg d)
                  (if 1 <? n then WriteData (lba + 1) (n - 1) [] else Idle) delay
  | _ => d
  end.

#[export] Instance ports : Ports disk := {
  port_byte_in d p := if p =? ATA_STATUS then (step_busy d, status d) else (d, status d);
  port_byte_out d p v :=
    if p =? ATA_COMMAND then command d v
    else if p =? ATA_DEV_CONTROL then d
    else mkDisk (sd_sector d) (fun q => if q =? p then v else sd_reg d q) (sd_phase d) (sd_busy d);
  port_word_in d p := word_in d;
  port_word_out d p w := word_out d w
}.

Record disk_ok (d : disk) : Prop := {
  sd_sectors : forall b, length (sd_sector d b) = 512%nat /\ bytes (sd_sector d b);
  sd_patience : 0 <= sd_busy d <= delay;
  sd_acc : match sd_phase d with WriteData _ _ acc => bytes acc | _ => True end
}.

#[export, program] Instance drive : AtaDrive disk :=
  { dev_ok := disk_ok; dev_blocks := blocks; dev_sector := sd_sector; dev_reg := sd_reg; dev_phase := sd_phase; dev_busy := sd_busy }.
Next Obligation. done. Qed.
Next Obligation. intros d b H. apply H. Qed.
Next Obligation. intros d H. destruct H as [_ H _]. unfold delay, ATA_POLL_TIMEOUT in *. lia. Qed.
Next Obligation.
  intros d d' st [H1 H2 H3]. simpl. intros [= <- <-]. split; [split; simpl; [done | lia | done] |]. do 3 (split; [done |]). unfold status.
  destruct (Z.ltb_spec 0 (sd_busy d)) as [Hb | Hb]; simpl.
  - split; [done |]. split; [intros _; split; [done | lia] | lia].
  - split; [by destruct (sd_phase d) |]. split; [lia |]. intros _. split; [by destruct (sd_phase d) |]. split; [lia |]. by destruct (sd_phase d).
Qed.
Next Obligation. intros d d' st H. simpl. intros [= <- <-]. done. Qed.
Next Obligation.
  intros d p v [H1 H2 H3] Hp Hb Hr. cbn. unfold ATA_COMMAND, ATA_DEV_CONTROL, ATA_SECTOR_COUNT, ATA_DRIVE_HEAD in *.
  destruct (Z.eqb_spec p 0x1F7); [lia |]. destruct (Z.eqb_spec p 0x3F6); [lia |]. simpl. done.
Qed.
Next Obligation.
  intros d c [H1 H2 H3] Hp Hb. cbv zeta. intros _ _ Hc. simpl in *. unfold command. rewrite Hb.
  destruct Hc as [-> | ->]; simpl; (split; [split; simpl; [done | unfold delay; lia | done] | done]).
Qed.
Next Obligation. intros d [H1 H2 H3] Hp Hb. simpl in *. unfold command. rewrite Hb. simpl. split; [split; simpl; [done | unfold delay; lia | done] | done]. Qed.
Next Obligation.
  intros d lba n k d' w [H1 H2 H3] Hp Hb Hk. simpl. unfold word_in. rewrite Hp. destruct (Z.ltb_spec k 255); intros [= <- <-]; simpl.
  - split; [by split | done].
  - split; [split; simpl; [done | unfold delay; lia | by destruct (1 <? n)] |]. do 2 (split; [done |]). split; [lia | done].
Qed.
Next Obligation.
  intros d lba n acc w [H1 H2 H3] Hp Hb Hw Hacc. cbv zeta. simpl port_word_out. unfold word_out. rewrite Hp in *.
  assert (bytes (acc ++ le_bytes 2 w)) as Hby by (apply Forall_app; split; [done | apply le_bytes_range]).
  destruct (Z.ltb_spec (zlen (acc ++ le_bytes 2 w)) 512) as [Hl | Hl]; cbn [sd_sector sd_reg sd_phase sd_busy].
  - split; [by split |]. split; [done |]. split; [| done]. intros b. rewrite (proj2 (Z.eqb_neq (zlen (acc ++ le_bytes 2 w)) 512)) by lia. done.
  - split; [| split; [lia | done]]. split; cbn [sd_sector sd_reg sd_phase sd_busy]; [| unfold delay; lia | by destruct (1 <? n)].
    intros b. destruct (Z.eqb_spec (zlen (acc ++ le_bytes 2 w)) 512) as [E | _]; [| apply H1]. destruct (b =? lba); [| apply H1]. simpl. unfold zlen in E. split; [apply Nat2Z.inj; exact E | exact Hby].
Qed.

#[export] Instance ignores : BusyIgnores disk.
Proof.
  split. intros d Hd Hp Hb. simpl in *. unfold command. apply Z.ltb_lt in Hb as ->. done.
Qed.
End Sim.

Module SimRun.
Definition blank : Sim.disk := Sim.mkDisk (fun b => replicate 512 (b mod 256)) (fun _ => 0) Idle 0.

Lemma blank_ok : Sim.disk_ok blank.
Proof.
  split; [| simpl; unfold Sim.delay; lia | done]. intros b. split; [done |]. unfold blank, Sim.sd_sector. apply Forall_replicate, Z.mod_pos_bound. lia.
Qed.

(** Every port of an empty bus. *)
Definition bus : Type := unit.
#[export] Instance bus_ports : Ports bus := {
  port_byte_in d p := (d, 0xFF); port_byte_out d p v := d; port_word_in d p := (d, 0xFFFF); port_word_out d p w := d
}.
End SimRun.

Section AtaRun.
Import Sim SimRun.

(** Two sectors written at 4, three read from 3 on. *)
Lemma disk_write_read_witness : exists d1 d2, disk_write blank 4 2 (replicate 1024 7) = (d1, 0) /\
  disk_read d1 3 3 = (d2, Some (replicate 512 3 ++ replicate 512 7 ++ replicate 512 7 ++ [])).
Proof.
  destruct (disk_write_read (drive := drive) ignores blank 4 2 (replicate 1024 7) 3 3 blank_ok eq_refl) as (d1 & d2 & E1 & E2 & _);
    [lia | lia | simpl; unfold blocks; lia | by rewrite length_replicate | apply Forall_replicate; lia | lia | lia | simpl; unfold blocks; lia |].
  exists d1, d2. split; [exact E1 |]. exact E2.
Defined.

(** The flush of [disk_write] is lost on it: the drive is busy with the last
    sector when the command comes, and takes no notice. *)
Definition after_sector : disk := (write_blocks 1 (ata_prepare blank 4 1 ATA_CMD_WRITE_SECTORS).1 (replicate 512 7)).1.

Lemma flush_lost : sd_busy after_sector = delay /\ port_byte_out after_sector ATA_COMMAND ATA_CMD_CACHE_FLUSH = after_sector.
Proof.
  assert (sd_busy after_sector = delay) as E by (vm_compute; reflexivity). split; [exact E |].
  change (command after_sector ATA_CMD_CACHE_FLUSH = after_sector). unfold command. by rewrite E.
Qed.

Lemma absent_drive_witness : (disk_init (tt : bus)).2 = false /\ (disk_read (tt : bus) 0 1).2 = None.
Proof. destruct (absent_drive (ports := bus_ports) (fun d p => eq_refl) tt 0 1 []) as (H1 & H2 & _). split; [exact H1 | exact H2]. Defined.
End AtaRun.
