(* ===== verification/BoardSpec.v ===== *)
(** * Programs from the disk

    [elf_load_file] on a board: the file system, the heap, the frame
    allocator, the page tables and the loader together. *)

From Stdlib Require Import ZArith Lia Bool.
From stdpp Require Import base gmap fin_maps fin_map_dom option functions list.
From S2P Require Import Prelude Frames Kernel Heap HeapSpec Phys Paging PagingInv PagingOps PagingLife PagingFree PagingSpec.
From S2P Require Import Fat FatBytes FatDisk FatChain FatDir FatFiles FatWrite FatSpec FatProps Elf ElfSpec Board Ata AtaSpec.

Section BoardSpec.
Context {D : Type} {dev : BlockDev D} {laws : BlockLaws D}.
Implicit Types s : fat32 (board D).
Implicit Types L : gset Z.

Notation space_of s := (bd_space (f_env s)).

(** The file system of a board, whatever its memory and address spaces. *)
Definition board_fs (g : volume) s L (files : gmap (list Z) (list Z)) (dirs : gset (list Z)) (free : Z) : Prop :=
  fs_state (laws := board_laws (sp_mem (space_of s)) (sp_as (space_of s))) (disk := board_disk (sp_mem (space_of s)) (sp_as (space_of s)))
    g s L files dirs free.

Definition board_geometry (g : volume) : Prop := geometry (laws := board_laws ∅ ∅) (disk := board_disk ∅ ∅) g.

Lemma geometry_any m as_ g : board_geometry g -> geometry (laws := board_laws m as_) (disk := board_disk m as_) g.
Proof. intros []. by split. Qed.

(** In a state of the file system the memory and the address spaces are
    those of its laws. *)
Lemma fs_fixed m as_ g s L files dirs free :
  fs_state (laws := board_laws m as_) (disk := board_disk m as_) g s L files dirs free -> sp_mem (space_of s) = m /\ sp_as (space_of s) = as_.
Proof. intros [(fat & data & rc & acts & [[] _ _ _] & _)]. done. Qed.

Lemma fs_board m as_ g s L files dirs free :
  fs_state (laws := board_laws m as_) (disk := board_disk m as_) g s L files dirs free -> board_fs g s L files dirs free.
Proof. intros H. unfold board_fs. destruct (fs_fixed m as_ g s L files dirs free H) as [-> ->]. done. Qed.

(** Nothing of an address space changes with the memory unchanged. *)
Lemma loaded_nothing v v' a : sp_mem v' = sp_mem v -> sp_as v' = sp_as v -> loaded v v' a [] (-1) 0.
Proof.
  intros Em Ea. split; [done |]. split; [by right |]. split; [done |]. intros b pb vb _ _. cbv zeta. split; [| done]. intros _. unfold user_byte. by rewrite Em.
Qed.

(** A board after a change of its space that keeps the live blocks. *)
Lemma space_change m as_ g s L files dirs free v' Ls :
  fs_state (laws := board_laws m as_) (disk := board_disk m as_) g s L files dirs free -> L = blocks_of Ls (space_of s) -> sane Ls v' -> sp_as v' = sp_as (space_of s) ->
  board_fs g (mkFat32 (f_vol s) (mkBoard v' (bd_disk (f_env s)))) L files dirs free.
Proof.
  intros [(fat & data & rc & acts & [[B1 B2 B3 B4] H2 H3 H4] & Hr & Ef & Ed & Efree)] HL Hs Ea. split. exists fat, data, rc, acts. split; [| done]. split; simpl; try done.
  split; simpl; try done. exists Ls. split; [done |]. rewrite HL. unfold blocks_of. by rewrite Ea.
Qed.

Lemma live_blocks m as_ g s L files dirs free :
  fs_state (laws := board_laws m as_) (disk := board_disk m as_) g s L files dirs free -> exists Ls, sane Ls (space_of s) /\ L = blocks_of Ls (space_of s).
Proof. intros [(fat & data & rc & acts & [[] _ _ _] & _)]. done. Qed.

Lemma load_file_state g s L files dirs free name a pa : board_geometry g -> board_fs g s L files dirs free -> sp_as (space_of s) !! a = Some pa ->
  fwp (elf_load_file name a) (fun r s' => exists rc entry file, r = Some (rc, entry) /\ board_fs g s' L files dirs free /\
    loaded (space_of s) (space_of s') a file rc entry /\ (rc = 0 -> exists n, name_to_83 name = Some n /\ files !! n = Some file)) s.
Proof.
  intros Hg Hfs Ha. set (m := sp_mem (space_of s)). set (as_ := sp_as (space_of s)). unfold board_fs in Hfs. fold m as_ in Hfs.
  pose proof (geometry_any m as_ g Hg) as Hgm.
  assert (forall s', fs_state (laws := board_laws m as_) (disk := board_disk m as_) g s' L files dirs free -> exists rc entry file,
    Some (-1, 0) = Some (rc, entry) /\ board_fs g s' L files dirs free /\ loaded (space_of s) (space_of s') a file rc entry /\
    (rc = 0 -> exists n, name_to_83 name = Some n /\ files !! n = Some file)) as Hfail.
  { intros s' H'. exists (-1), 0, []. split; [done |]. split; [by eapply fs_board |]. split; [| done].
    destruct (fs_fixed m as_ g s' L files dirs free H') as [E1 E2]. by apply loaded_nothing. }
  unfold elf_load_file. eapply fwp_then; [by apply (stat_state (laws := board_laws m as_) (disk := board_disk m as_) g Hgm s L files dirs free name) |].
  intros [rc size] s1 [H1 [(-> & n & bs & Hn & Hf & ->) | [-> _]]]; simpl negb; cbv iota; [| apply fwp_ret; by apply Hfail].
  destruct (Z.eqb_spec (zlen bs) 0) as [Hz | Hz]; [apply fwp_ret; by apply Hfail |].
  destruct (files_bytes (laws := board_laws m as_) (disk := board_disk m as_) g Hgm _ _ _ _ _ n bs H1 Hf) as [Hb Hlen].
  assert (0 <= zlen bs) by (unfold zlen; lia).
  eapply fwp_then; [apply (kmalloc_state (laws := board_laws m as_) (disk := board_disk m as_) g Hgm s1 L files dirs free (zlen bs) H1); lia |].
  intros p s2 [[-> H2] | (Hp & HpL & H2)]; [apply fwp_ret; by apply Hfail |]. apply Z.eqb_neq in Hp as ->.
  eapply fwp_then; [by apply (read_file_state (laws := board_laws m as_) (disk := board_disk m as_) g Hgm s2 ({[p]} ∪ L) files dirs free name (zlen bs)) |].
  intros [[rc bs'] size'] s3 [H3 [(-> & (n' & Hn' & Hf') & -> & _) | [-> _]]]; simpl negb; cbv iota.
  2: { eapply fwp_then; [by apply (kfree_state (laws := board_laws m as_) (disk := board_disk m as_) g Hgm s3 L files dirs free p) |].
       intros [] s4 H4. apply fwp_ret. by apply Hfail. }
  rewrite Hn in Hn'. injection Hn' as <-. rewrite Hf in Hf'. injection Hf' as <-.
  assert (take (Z.to_nat (zlen bs)) bs = bs) as -> by (apply take_ge; unfold zlen; lia).
  destruct (fs_fixed m as_ g s3 _ files dirs free H3) as [Em3 Ea3]. destruct (live_blocks m as_ g s3 _ files dirs free H3) as (Ls & Hsane & HL).
  destruct (elf_load_ok Ls bs a pa (space_of s3) Hsane ltac:(by rewrite Ea3) Hb) as (v' & rc & entry & El & Hs' & Hload).
  apply fwp_bind. unfold in_space, fwp at 1. rewrite El. split; [| done]. pose proof (space_change m as_ g s3 _ files dirs free v' Ls H3 HL Hs' (proj1 Hload)) as H4.
  set (s4 := mkFat32 _ _) in *. unfold board_fs in H4. change (space_of s4) with v' in H4.
  eapply fwp_then; [by apply (kfree_state (laws := board_laws (sp_mem v') (sp_as v')) (disk := board_disk (sp_mem v') (sp_as v')) g (geometry_any _ _ g Hg) s4 L files dirs free p) |].
  intros [] s5 H5. apply fwp_ret. exists rc, entry, bs. split; [done |]. split; [by eapply fs_board |]. split; [| by exists n].
  destruct (fs_fixed _ _ g s5 L files dirs free H5) as [E1 E2]. destruct Hload as (K1 & K2 & K3 & K4). split; [by rewrite E2, K1, Ea3 |].
  do 2 (split; [done |]). intros b pb vb Hb' Hvb. assert (sp_as (space_of s3) !! b = Some pb) as Hb3 by (by rewrite Ea3). destruct (K4 b pb vb Hb3 Hvb) as [V1 V2].
  assert (user_byte (space_of s5) pb vb = user_byte v' pb vb /\ user_byte (space_of s3) pb vb = user_byte (space_of s) pb vb) as [-> Es]
    by (unfold user_byte; rewrite E1, Em3; done). rewrite <- Es. done.
Qed.

(** C29: [elf_load_file] with the file system, the heap, the address spaces
    and the disk together. It always returns, with 0 or -1; the files, the
    directories, the free clusters and the live heap blocks are afterwards
    what they were, so the buffer of the file is given back on every path.
    With 0 the name is that of a file of the volume, every segment lies in
    the region of programs, the entry point is that of its header, and the
    address space holds the image of the file's bytes; no other address
    space and no other page changes, whatever the result. *)
Theorem elf_load_file_correct g s L files dirs free name a pa : board_geometry g -> board_fs g s L files dirs free -> sp_as (space_of s) !! a = Some pa ->
  exists s' rc entry file, elf_load_file name a s = (s', Some (rc, entry)) /\ board_fs g s' L files dirs free /\
    loaded (space_of s) (space_of s') a file rc entry /\ (rc = 0 -> exists n, name_to_83 name = Some n /\ files !! n = Some file).
Proof.
  intros Hg Hfs Ha. pose proof (load_file_state g s L files dirs free name a pa Hg Hfs Ha) as H. unfold fwp in H.
  destruct (elf_load_file name a s) as [s' r]. destruct H as [(rc & entry & file & -> & H) _]. by exists s', rc, entry, file.
Qed.
End BoardSpec.

(** ** A board with a simulated drive *)

(** The volume of [Demo] with the program of [DemoElf] as its file
    SHELL.ELF. *)
Module DemoBoard.
Import Sim.

Definition name_P : list Z := [83; 72; 69; 76; 76; 46; 69; 76; 70].
Definition raw_P : list Z := [83; 72; 69; 76; 76; 32; 32; 32; 69; 76; 70].
Definition dirent_P : dirent := new_dirent raw_P 3 (zlen DemoElf.file).
Definition fat_P : list Z := Demo.pad (concat (le_bytes 4 <$> [0x0FFFFFF8; 0x0FFFFFFF; 0x0FFFFFF8; 0x0FFFFFF8])).
Definition contents (b : Z) : list Z :=
  if (b =? 1) || (b =? 2) then fat_P else if b =? 3 then Demo.pad dirent_P else if b =? 4 then Demo.pad DemoElf.file else Demo.pad [].
Definition hd0 : disk := mkDisk contents (fun _ => 0) Idle 0.

Notation live2 := [PagingSpec.Demo.cell PagingSpec.Demo.v2 PagingSpec.Demo.b; PagingSpec.Demo.cell PagingSpec.Demo.v1 PagingSpec.Demo.a] (only parsing).
Definition s0 : fat32 (board disk) := mkFat32 Demo.geo (mkBoard PagingSpec.Demo.v2 hd0).
Definition files0 : gmap (list Z) (list Z) := {[ raw_P := DemoElf.file ]}.
Definition fat0 (c : Z) : Z := Z.land (get32 (contents (1 + c / 128)) (c mod 128 * 4)) FAT32_ENTRY_MASK.
Definition data0 (c : Z) : list Z := contents (c + 1).

Lemma sectors_P : Forall (fun l => length l = 512%nat /\ forallb Demo.is_byte l = true) [fat_P; Demo.pad dirent_P; Demo.pad DemoElf.file; Demo.pad []].
Proof. repeat constructor; vm_compute; reflexivity. Qed.

Lemma hd0_ok : disk_ok hd0.
Proof.
  pose proof sectors_P as H. rewrite !Forall_cons in H. destruct H as ([A1 A2] & [B1 B2] & [C1 C2] & [D1 D2] & _).
  split; [| unfold delay; simpl; lia | done]. intros b. change (sd_sector hd0 b) with (contents b). unfold contents.
  destruct (_ || _); [split; [done | by apply Demo.forallb_bytes] |]. destruct (b =? 3); [split; [done | by apply Demo.forallb_bytes] |].
  destruct (b =? 4); (split; [done | by apply Demo.forallb_bytes]).
Qed.

Lemma entry_P : active dirent_P = true /\ d_name dirent_P = raw_P /\ dirent_first_cluster dirent_P = 3 /\ d_size dirent_P = zlen DemoElf.file /\ is_directory dirent_P = false.
Proof. repeat split; vm_compute; reflexivity. Qed.
Lemma fats_P : fat0 2 = 0x0FFFFFF8 /\ fat0 3 = 0x0FFFFFF8.
Proof. split; vm_compute; reflexivity. Qed.
Lemma slots_P : slots Demo.geo data0 [2] = dirent_P :: replicate 15 (replicate 32 0).
Proof. vm_compute. reflexivity. Qed.

Lemma geo_board : board_geometry (D := disk) Demo.geo.
Proof. split; cbn; unfold blocks, FAT32_CLUSTER_BAD; try lia; try done. Qed.

Lemma repr_P : repr Demo.geo fat0 data0 [2] [(dirent_P, [3])] [].
Proof.
  destruct fats_P as (F2 & F3), entry_P as (A1 & A2 & A3 & A4 & A5).
  assert (forall c, 2 <= c < 8 -> fat0 c = 0x0FFFFFF8 -> chain Demo.geo fat0 c [c]) as Hone.
  { intros c Hc Hf. split; [cbn [chained]; rewrite Hf; done | constructor; [| done]; unfold in_range; simpl; lia | apply NoDup_singleton | done]. }
  split.
  - by apply Hone.
  - rewrite slots_P. cbn [fmap list_fmap]. simpl fst. rewrite filter_cons, decide_True by done. rewrite filter_none; [done |]. by apply Forall_replicate.
  - rewrite slots_P. vm_compute. repeat constructor.
  - apply NoDup_singleton.
  - constructor; [| done]. split; simpl fst; simpl snd; rewrite ?A3, ?A4; [by apply Hone | done].
  - done.
  - apply (bool_decide_unpack (NoDup [2; 3])). vm_compute. exact I.
Qed.

Lemma view_P : files0 = files_of data0 [(dirent_P, [3])] /\ (∅ : gset (list Z)) = dirs_of [(dirent_P, [3])] /\ 4 = free_clusters Demo.geo fat0.
Proof. repeat split; vm_compute; reflexivity. Qed.

Lemma volume_P v Ls : sane Ls v -> board_fs Demo.geo (mkFat32 Demo.geo (mkBoard v hd0)) (blocks_of Ls v) files0 ∅ 4.
Proof.
  intros Hs. split. exists fat0, data0, [2], [(dirent_P, [3])]. split; [| split; [apply repr_P | exact view_P]].
  split; [| by exists 2 | |].
  - split; [| done | done | split; [apply hd0_ok | done]]. exists Ls. exact (conj Hs eq_refl).
  - intros k c Hk Hc. assert (k = 0 \/ k = 1) as [-> | ->] by (simpl in Hk; lia); [done |]. unfold in_range in Hc. simpl in Hc.
    assert (c / 128 = 0) as Ed by (apply Z.div_small; lia). unfold fat0, fat_at, fat_sector. rewrite Ed. reflexivity.
  - intros c _. cbn [f_env e_sector board_disk bd_disk blk_sector ata_block_laws dev_sector drive hd0 sd_sector]. unfold data_at. simpl. rewrite app_nil_r. unfold data0. f_equal.
    unfold block_of. simpl. lia.
Qed.

Lemma fs_P : board_fs Demo.geo s0 (blocks_of live2 PagingSpec.Demo.v2) files0 ∅ 4.
Proof.
  destruct (space_reach_inv _ _ _ _ PagingSpec.Demo.reach2) as (T & H & _). exact (volume_P PagingSpec.Demo.v2 live2 (ex_intro _ T H)).
Qed.
End DemoBoard.

Section BoardRun.
Import Sim DemoBoard.

(** The program is loaded through the simulated drive. *)
Lemma run_P : (elf_load_file name_P 10485792 s0).2 = Some (0, USER_CODE_BASE).
Proof. vm_compute. reflexivity. Qed.

Lemma elf_load_file_correct_witness : exists s', elf_load_file name_P 10485792 s0 = (s', Some (0, USER_CODE_BASE)) /\
  board_fs Demo.geo s' (blocks_of [PagingSpec.Demo.cell PagingSpec.Demo.v2 PagingSpec.Demo.b; PagingSpec.Demo.cell PagingSpec.Demo.v1 PagingSpec.Demo.a] PagingSpec.Demo.v2) files0 ∅ 4 /\
  user_byte (bd_space (f_env s')) 10551296 (USER_CODE_BASE + 1) = Some (5, 0xFE).
Proof.
  destruct (elf_load_file_correct Demo.geo s0 _ files0 ∅ 4 name_P 10485792 10551296 geo_board fs_P (PagingSpec.Demo.fact 0 _ _ eq_refl eq_refl))
    as (s' & rc & entry & file & E & Hfs & (_ & _ & _ & Hl) & Hf).
  assert (Some (rc, entry) = Some (0, USER_CODE_BASE)) as E' by (rewrite <- run_P, E; reflexivity). injection E' as -> ->.
  exists s'. split; [exact E |]. split; [exact Hfs |]. destruct (Hf eq_refl) as (n & En & Hn). injection En as <-.
  assert (file = DemoElf.file) as ->.
  { unfold files0 in Hn. apply lookup_singleton_Some in Hn. symmetry. apply Hn. }
  destruct (Hl 10485792 10551296 (USER_CODE_BASE + 1) (PagingSpec.Demo.fact 0 _ _ eq_refl eq_refl) DemoElf.user_code1) as [_ H1].
  rewrite (proj2 DemoElf.file_bytes) in H1. exact (H1 eq_refl eq_refl (ex_intro _ _ eq_refl)).
Defined.
End BoardRun.
