(* ===== verification/Rig.v ===== *)
(** * The real machine

    [rig D] is the interface [Machine] of the kernel ([kernel/]) made of the
    models of its parts: the heap, the frame allocator and the page tables
    ([space]), the file system with the loader on top of it, and a disk. It
    discharges the laws [MachineLaws] that the theorems about the kernel
    assume ([rig_laws]), so these hold for the kernel on its real parts. *)

From Stdlib Require Import ZArith Lia Bool.
From stdpp Require Import base gmap fin_maps fin_map_dom option functions list.
From S2P Require Import Prelude Frames Kernel Sched KernelInv Heap HeapSpec Phys Paging PagingInv PagingOps PagingLife PagingFree PagingSpec.
From S2P Require Import Fat FatBytes FatDisk FatChain FatDir FatFiles FatWrite FatSpec FatProps Elf ElfSpec Board BoardSpec.

(** [rg_live] is a ghost: the live blocks of the heap, which no operation
    reads. *)
Record rig (D : Type) := mkRig { rg_fs : fat32 (board D); rg_live : gset Z }.
Arguments mkRig {D}. Arguments rg_fs {D}. Arguments rg_live {D}.

Section Rig.
Context {D : Type} {dev : BlockDev D}.
Implicit Types m : rig D.

Notation space_of m := (bd_space (f_env (rg_fs m))).

Definition with_space m (v : space) (live : gset Z) : rig D :=
  mkRig (mkFat32 (f_vol (rg_fs m)) (mkBoard v (bd_disk (f_env (rg_fs m))))) live.

Definition on_fs {A} m (f : F (board D) A) : rig D * A := let '(s, a) := f (rg_fs m) in (mkRig s (rg_live m), a).

#[export] Instance rig_machine : Machine (rig D) := {|
  m_kmalloc m n := let '(v, p) := sp_kmalloc (space_of m) n in (with_space m v (if p =? 0 then rg_live m else {[p]} ∪ rg_live m), p);
  m_kfree m p := with_space m (sp_kfree (space_of m) p) (rg_live m ∖ {[p]});
  m_alloc_frame m := let '(v, f) := sp_alloc_frame (space_of m) in (with_space m v (rg_live m), f);
  m_create_as m := let '(v, p) := paging_create_address_space (space_of m) in (with_space m v (if p =? 0 then rg_live m else {[p]} ∪ rg_live m), p);
  m_pml4 m a := pml4_phys (space_of m) a;
  m_destroy_as m a := with_space m (paging_destroy_address_space (space_of m) a) (rg_live m ∖ {[a]});
  m_map_page m a va f fl := let '(v, rc) := paging_map_page (space_of m) a va f fl in (with_space m v (rg_live m), rc);
  m_map_range m a base len := let '(v, rc) := paging_map_user_range (space_of m) a base len in (with_space m v (rg_live m), rc);
  m_unmap_range m a base len := with_space m (paging_unmap_user_range (space_of m) a base len) (rg_live m);
  m_elf_load_file m name a := on_fs m (elf_load_file name a);
  m_load m cr3 va := (fun x => u8 (pld8 (sp_mem (space_of m)) x)) <$> translate (sp_mem (space_of m)) cr3 va;
  m_store m cr3 va b := (fun x => with_space m (set_smem (space_of m) (pst8 (sp_mem (space_of m)) x b)) (rg_live m)) <$> translate (sp_mem (space_of m)) cr3 va;
  m_list_names m n := let '(m, (rc, bs, c)) := on_fs m (fat32_list_names n) in (m, rc, bs, c);
  m_read_file m name n := let '(m, (rc, bs, c)) := on_fs m (fat32_read_file name n) in (m, rc, bs, c);
  m_write_file m name bs := on_fs m (fat32_write_file name bs);
  m_delete m name := on_fs m (fat32_delete name);
  m_free_count m := on_fs m fat32_free_count;
  m_stat m name := let '(m, (rc, size)) := on_fs m (fat32_stat name) in (m, rc, size)
|}.

(** ** The invariant *)

Context {laws : BlockLaws D} (g : volume) (Hg : board_geometry g).

(** The live blocks are those of the heap, and the disk holds a volume with
    the geometry [g]. *)
Definition rig_ok m : Prop := exists files dirs free Ls,
  sane Ls (space_of m) /\ rg_live m = list_to_set Ls.*1 /\ board_fs g (rg_fs m) (blocks_of Ls (space_of m)) files dirs free.
Definition rig_as m : gset Z := dom (sp_as (space_of m)).

Lemma rig_space m v Ls : rig_ok m -> sane Ls v -> rig_ok (with_space m v (list_to_set Ls.*1)).
Proof.
  intros (files & dirs & free & Ls0 & _ & _ & [(fat & data & rc & acts & [[B1 B2 B3 B4] H2 H3 H4] & Hr & Ef & Ed & Efree)]) Hs.
  exists files, dirs, free, Ls. split; [done |]. split; [done |]. split. exists fat, data, rc, acts. split; [| done]. split; simpl; try done.
  split; simpl; try done. by exists Ls.
Qed.

(** The same for a change that keeps the live blocks. *)
Lemma rig_quiet m v live : rig_ok m -> live = rg_live m -> (forall Ls, sane Ls (space_of m) -> sane Ls v) -> sp_as v = sp_as (space_of m) ->
  quiet_on rig_ok rg_live rig_as m (with_space m v live).
Proof.
  intros H -> Hs Ea. pose proof H as (files & dirs & free & Ls & Hsane & El & _). rewrite El. split; [by apply rig_space, Hs |].
  split; [done |]. unfold rig_as, pml4_phys. simpl. unfold pml4_phys. by rewrite Ea.
Qed.

Lemma blocks_eq Ls Ls' v v' : sane Ls v -> sane Ls' v' -> sp_as v' = sp_as v -> blocks_of Ls v = blocks_of Ls' v' ->
  (list_to_set Ls.*1 : gset Z) = list_to_set Ls'.*1.
Proof.
  intros [T H] [T' H'] Ea E. unfold blocks_of in E. rewrite Ea in E. pose proof (handles_live T Ls v) as Hl. pose proof (handles_live T' Ls' v') as Hl'. rewrite Ea in Hl'.
  apply set_eq. intros x. rewrite !elem_of_list_to_set. destruct (decide (x ∈ dom (sp_as v))) as [Hx | Hx]; [split; intros _; [by apply Hl' | by apply Hl] |].
  assert (x ∈ (list_to_set Ls.*1 ∖ dom (sp_as v) : gset Z) <-> x ∈ (list_to_set Ls'.*1 ∖ dom (sp_as v) : gset Z)) as Hiff by (by rewrite E).
  rewrite !elem_of_difference, !elem_of_list_to_set in Hiff. tauto.
Qed.

(** An operation of the file system. *)
Lemma rig_fs_op {A} m (f : F (board D) A) (Q : A -> Prop) m' a : rig_ok m -> on_fs m f = (m', a) ->
  (forall L files dirs free, board_fs g (rg_fs m) L files dirs free ->
     fwp f (fun a s' => Q a /\ sp_as (bd_space (f_env s')) = sp_as (space_of m) /\ exists files' dirs' free', board_fs g s' L files' dirs' free') (rg_fs m)) ->
  quiet_on rig_ok rg_live rig_as m m' /\ Q a.
Proof.
  intros (files & dirs & free & Ls & Hs & El & Hfs) E Hf. specialize (Hf _ files dirs free Hfs). unfold on_fs in E. unfold fwp in Hf.
  destruct (f (rg_fs m)) as [s' a'] eqn:Ef. injection E as <- <-. destruct Hf as [(HQ & Ea & files' & dirs' & free' & H') _].
  split; [| done]. destruct (live_blocks _ _ _ _ _ _ _ _ H') as (Ls' & Hs' & HL). pose proof (blocks_eq Ls Ls' _ _ Hs Hs' Ea HL) as Hb.
  split; [| split; [done |]; unfold rig_as; simpl; unfold pml4_phys; by rewrite Ea].
  exists files', dirs', free', Ls'. split; [done |]. simpl. split; [by rewrite El, Hb |]. by rewrite <- HL.
Qed.

(** The same for one that stays under the laws of a fixed memory. *)
Lemma rig_fs_fixed {A} m (f : F (board D) A) (Q : A -> Prop) m' a : rig_ok m -> on_fs m f = (m', a) ->
  (forall L files dirs free (laws := board_laws (sp_mem (space_of m)) (sp_as (space_of m))) (disk := board_disk (sp_mem (space_of m)) (sp_as (space_of m))),
     geometry g -> fs_state g (rg_fs m) L files dirs free ->
     fwp f (fun a s' => Q a /\ exists files' dirs' free', fs_state g s' L files' dirs' free') (rg_fs m)) ->
  quiet_on rig_ok rg_live rig_as m m' /\ Q a.
Proof.
  intros H E Hf. apply (rig_fs_op m f Q m' a H E). intros L files dirs free Hfs.
  eapply fwp_mono; [apply (Hf L files dirs free); [by apply geometry_any | exact Hfs] |].
  intros a' s' (HQ & files' & dirs' & free' & H'). split; [done |]. destruct (fs_fixed _ _ _ _ _ _ _ _ H') as [_ Ea]. split; [done |].
  exists files', dirs', free'. by eapply fs_board.
Qed.
(** ** The laws *)

Lemma space_live T Ls v x : space_inv T Ls v -> x ∈ Ls.*1 -> x <> 0.
Proof.
  intros H Hx. apply list_elem_of_fmap in Hx as ([p sz] & -> & Hin). apply list_elem_of_split in Hin as (L1 & L2 & ->).
  pose proof (si_heap _ _ _ H) as H2. rewrite <- Permutation_middle in H2.
  destruct (heap_live_inside _ _ _ _ H2) as (Hlo & _). destruct H2 as (bs & al & ul & R & _). destruct (rep_bounds _ _ _ _ R) as (Hpos & _).
  unfold HEAD_BYTES in *. simpl. lia.
Qed.

Lemma rig_tree T Ls m a : space_inv T Ls (space_of m) -> a ∈ rig_as m -> exists tr, T !! a = Some tr /\ a <> NULL /\ pml4_phys (space_of m) a = tr_pml4 tr.
Proof.
  intros H Ha. unfold rig_as in Ha. apply elem_of_dom in Ha as [pa Hpa]. destruct (space_handle _ _ _ _ _ H Hpa) as (tr & Ht & <- & Hz).
  exists tr. split; [done |]. split; [done |]. unfold pml4_phys. by rewrite Hpa.
Qed.

(** A change of the trees of one address space. *)
Lemma rig_tree_quiet m v a : rig_ok m -> a ∈ rig_as m ->
  (forall T Ls tr, space_inv T Ls (space_of m) -> T !! a = Some tr -> same_rest (space_of m) v /\ exists T', space_inv T' Ls v) ->
  quiet_on rig_ok rg_live rig_as m (with_space m v (rg_live m)).
Proof.
  intros H Ha Hstep. apply rig_quiet; [done | done | |].
  - intros Ls [T HT]. destruct (rig_tree _ _ _ _ HT Ha) as (tr & Ht & _). destruct (Hstep T Ls tr HT Ht) as [_ [T' H']]. by exists T'.
  - destruct H as (_ & _ & _ & Ls & [T HT] & _). destruct (rig_tree _ _ _ _ HT Ha) as (tr & Ht & _). destruct (Hstep T Ls tr HT Ht) as [(_ & Ea & _) _]. done.
Qed.

Lemma pages_of len : 0 <= len -> len mod FRAME_SIZE = 0 -> exists n, 0 <= n /\ len = n * FRAME_SIZE.
Proof. intros H1 H2. exists (len / FRAME_SIZE). unfold FRAME_SIZE in *. mlia. Qed.

Lemma rig_kmalloc m n m' p : rig_ok m -> 0 <= n < 2 ^ 32 -> m_kmalloc m n = (m', p) ->
  rig_ok m' /\ rig_as m' = rig_as m /\ (forall a, a ∈ rig_as m -> m_pml4 m' a = m_pml4 m a) /\
  (p = 0 /\ rg_live m' = rg_live m \/ p <> 0 /\ p ∉ rg_live m /\ rg_live m' = {[p]} ∪ rg_live m).
Proof.
  intros H Hn E. pose proof H as (files & dirs & free & Ls & [T HT] & El & _). simpl in E. destruct (sp_kmalloc (space_of m) n) as [v q] eqn:Ek. injection E as <- <-.
  destruct (sp_kmalloc_ok T Ls _ n v q HT ltac:(lia) Ek) as (Hc & Ea & _). unfold rig_as. simpl. unfold pml4_phys. rewrite Ea.
  destruct Hc as [[-> H'] | (Hq & sz & _ & H')]; simpl.
  - rewrite El. split; [apply rig_space; [done | by exists T] |]. split; [done |]. split; [done |]. by left.
  - pose proof (live_fresh _ _ _ _ (si_heap _ _ _ H')) as Hf. rewrite (proj2 (Z.eqb_neq q 0) Hq), El.
    split; [apply (rig_space m v ((q, sz) :: Ls)); [done | by exists T] |]. split; [done |]. split; [done |]. right. split; [done |]. split; [by rewrite elem_of_list_to_set | done].
Qed.

Lemma rig_kfree m p : rig_ok m -> p ∈ rg_live m -> p ∉ rig_as m ->
  let m' := m_kfree m p in
  rig_ok m' /\ rig_as m' = rig_as m /\ (forall a, a ∈ rig_as m -> m_pml4 m' a = m_pml4 m a) /\ rg_live m' = rg_live m ∖ {[p]}.
Proof.
  intros H Hp Hna. pose proof H as (files & dirs & free & Ls & [T HT] & El & _). cbv zeta. simpl. split; [| done]. rewrite El in *.
  rewrite elem_of_list_to_set in Hp. apply list_elem_of_fmap in Hp as ([q sz] & -> & Hin). simpl in *. apply list_elem_of_split in Hin as (L1 & L2 & ->).
  assert (space_inv T ((q, sz) :: L1 ++ L2) (space_of m)) as H' by (eapply space_inv_perm; [| exact HT]; by rewrite Permutation_middle).
  destruct (sp_kfree_ok T (L1 ++ L2) (space_of m) q sz H') as [K _].
  { intros a tr Ha. pose proof (si_live _ _ _ H' a tr Ha) as Hx. simpl in Hx. apply elem_of_cons in Hx as [-> |]; [| done]. exfalso. apply Hna.
    unfold rig_as. rewrite (si_as _ _ _ HT), dom_fmap_L. by apply elem_of_dom. }
  pose proof (live_fresh _ _ _ _ (si_heap _ _ _ H')) as Hf.
  assert ((list_to_set (L1 ++ (q, sz) :: L2).*1 ∖ {[q]} : gset Z) = list_to_set (L1 ++ L2).*1) as ->; [| apply rig_space; [done | by exists T]].
  rewrite !fmap_app in *. simpl. rewrite !list_to_set_app_L, list_to_set_cons. set_solver.
Qed.

Lemma rig_create m m' p : rig_ok m -> m_create_as m = (m', p) ->
  rig_ok m' /\ (forall a, a ∈ rig_as m -> m_pml4 m' a = m_pml4 m a) /\
  (p = 0 /\ rg_live m' = rg_live m /\ rig_as m' = rig_as m \/
   p <> 0 /\ p ∉ rg_live m /\ rg_live m' = {[p]} ∪ rg_live m /\ rig_as m' = {[p]} ∪ rig_as m).
Proof.
  intros H E. pose proof H as (files & dirs & free & Ls & [T HT] & El & _). simpl in E. destruct (paging_create_address_space (space_of m)) as [v q] eqn:Ek. injection E as <- <-.
  destruct (create_ok T Ls _ v q HT Ek) as (_ & _ & [(-> & H' & _) | (Hz & Hf & Hn & sz & pml4 & pdpt & pd & H' & _)]);
    unfold rig_as; simpl; unfold pml4_phys; rewrite (si_as _ _ _ H'), (si_as _ _ _ HT), El, !dom_fmap_L.
  - split; [apply rig_space; [done | by exists T] |]. split; [done |]. by left.
  - rewrite (proj2 (Z.eqb_neq q 0) Hz). split; [apply (rig_space m v ((q, sz) :: Ls)); [done | by eexists] |]. split.
    + intros a Ha. rewrite !lookup_fmap, lookup_insert_ne; [done |]. intros <-. apply elem_of_dom in Ha as [? ?]. congruence.
    + right. split; [done |]. split; [by rewrite elem_of_list_to_set |]. split; [done |]. by rewrite dom_insert_L.
Qed.

Lemma rig_destroy m a : rig_ok m -> a ∈ rig_as m ->
  let m' := m_destroy_as m a in
  rig_ok m' /\ (forall b, b ∈ rig_as m -> b <> a -> m_pml4 m' b = m_pml4 m b) /\ rg_live m' = rg_live m ∖ {[a]} /\ rig_as m' = rig_as m ∖ {[a]}.
Proof.
  intros H Ha. pose proof H as (files & dirs & free & Ls & [T HT] & El & _). destruct (rig_tree _ _ _ _ HT Ha) as (tr & Ht & Hz & _). cbv zeta.
  destruct (destroy_ok T Ls (space_of m) a tr HT Ht Hz) as (sz & L' & HP & H' & _). unfold rig_as. simpl. unfold pml4_phys.
  rewrite (si_as _ _ _ H'), (si_as _ _ _ HT), El, !dom_fmap_L. pose proof (space_inv_perm _ _ _ _ HP HT) as HT2. pose proof (live_fresh _ _ _ _ (si_heap _ _ _ HT2)) as Hf.
  assert ((list_to_set Ls.*1 ∖ {[a]} : gset Z) = list_to_set L'.*1) as ->.
  { apply set_eq. intros x. rewrite elem_of_difference, !elem_of_list_to_set, HP, elem_of_singleton. cbn [fmap list_fmap]. simpl. rewrite elem_of_cons.
    destruct (decide (x = a)) as [-> |]; tauto. }
  split; [apply rig_space; [done | by eexists] |]. split; [| split; [done | by rewrite dom_delete_L]].
  intros b Hb Hne. by rewrite !lookup_fmap, lookup_delete_ne.
Qed.

Lemma rig_stack_page m m1 m2 a va f rc : rig_ok m -> a ∈ rig_as m -> USER_STACK_BASE <= va < USER_STACK_TOP -> va mod FRAME_SIZE = 0 ->
  m_alloc_frame m = (m1, f) -> f <> 0 -> m_map_page m1 a va f USER_PAGE_FLAGS = (m2, rc) -> quiet_on rig_ok rg_live rig_as m m2.
Proof.
  intros H Ha Hva _ E1 Hf E2. simpl in E1, E2. destruct (sp_alloc_frame (space_of m)) as [v1 f1] eqn:Ek. injection E1 as <- <-.
  simpl in E2. destruct (paging_map_page v1 a va f1 USER_PAGE_FLAGS) as [v2 rc2] eqn:Em. injection E2 as <- <-.
  change (quiet_on rig_ok rg_live rig_as m (with_space m v2 (rg_live m))). apply (rig_tree_quiet m v2 a H Ha). intros T Ls tr HT Ht.
  assert (set_smem v1 (sp_mem v1) = v1) as Eid by (by destruct v1).
  destruct (page_step T Ls (space_of m) a tr va USER_PAGE_FLAGS v1 f1 (sp_mem v1) v2 rc2 HT Ht) as (R & [(_ & H' & _) | (_ & tr' & _ & H' & _)]); try done; [| by rewrite Eid | |].
  - unfold user_va, USER_STACK_BASE, USER_STACK_TOP, USER_STACK_SIZE, USER_REGION_START, USER_CODE_BASE, USER_SPACE_END, USER_HEAP_LIMIT in *. lia.
  - split; [done |]. by exists T.
  - split; [done |]. by eexists.
Qed.

Lemma rig_map_range m a base len m' rc : rig_ok m -> a ∈ rig_as m ->
  USER_HEAP_BASE <= base -> 0 <= len -> base + len <= USER_HEAP_LIMIT -> base mod FRAME_SIZE = 0 -> len mod FRAME_SIZE = 0 ->
  m_map_range m a base len = (m', rc) -> quiet_on rig_ok rg_live rig_as m m'.
Proof.
  intros H Ha Hb Hl Hlim Hal Hlen E. destruct (pages_of len Hl Hlen) as (n & Hn & ->). simpl in E.
  destruct (paging_map_user_range (space_of m) a base (n * FRAME_SIZE)) as [v2 rc2] eqn:Em. injection E as <- <-.
  apply (rig_tree_quiet m v2 a H Ha). intros T Ls tr HT Ht.
  destruct (map_range_step T Ls (space_of m) a tr base n v2 rc2 HT Ht Hn) as [(tr' & K1 & K2 & _) [tr2 H2]]; try done.
  - unfold USER_HEAP_BASE, USER_REGION_START, USER_CODE_BASE in *. lia.
  - split; [done |]. by eexists.
Qed.

Lemma rig_unmap_range m a base len : rig_ok m -> a ∈ rig_as m ->
  USER_HEAP_BASE <= base -> 0 <= len -> base + len <= USER_HEAP_LIMIT -> base mod FRAME_SIZE = 0 -> len mod FRAME_SIZE = 0 ->
  quiet_on rig_ok rg_live rig_as m (m_unmap_range m a base len).
Proof.
  intros H Ha Hb Hl Hlim Hal Hlen. destruct (pages_of len Hl Hlen) as (n & Hn & ->). simpl.
  apply (rig_tree_quiet m _ a H Ha). intros T Ls tr HT Ht.
  destruct (unmap_range_step T Ls (space_of m) a tr base n HT Ht Hn) as (R & tr' & _ & H' & _); try done.
  - unfold USER_HEAP_BASE, USER_REGION_START, USER_CODE_BASE in *. lia.
  - split; [done |]. by eexists.
Qed.

Lemma rig_store m a va b m' : rig_ok m -> a ∈ rig_as m -> ring3_addr va = true -> m_store m (m_pml4 m a) va b = Some m' -> quiet_on rig_ok rg_live rig_as m m'.
Proof.
  intros H Ha Hva E. simpl in E. destruct (translate _ _ va) as [x|] eqn:Et; [| done]. injection E as <-.
  apply (rig_tree_quiet m _ a H Ha). intros T Ls tr HT Ht. destruct (rig_tree _ _ _ _ HT Ha) as (tr2 & Ht2 & _ & Ep). rewrite Ht in Ht2. injection Ht2 as <-. rewrite Ep in Et.
  unfold ring3_addr in Hva. zbool. destruct (user_store_step T Ls (space_of m) a tr va x b HT Ht ltac:(done) Et) as (e & _ & _ & H'). split; [done |]. by exists T.
Qed.

Lemma rig_elf m name a m' r : rig_ok m -> a ∈ rig_as m -> m_elf_load_file m name a = (m', r) ->
  quiet_on rig_ok rg_live rig_as m m' /\ exists rc e, r = Some (rc, e).
Proof.
  intros H Ha Eo. unfold rig_as in Ha. apply elem_of_dom in Ha as [pa Hpa].
  apply (rig_fs_op m (elf_load_file name a) (fun r => exists rc e, r = Some (rc, e)) m' r H Eo). intros L files dirs free Hfs.
  eapply fwp_mono; [by apply (load_file_state g _ L files dirs free name a pa Hg) |]. intros r' s' (rc' & entry & file & Er & H' & (Ea & _) & _).
  split; [by exists rc', entry |]. split; [done |]. eauto.
Qed.
Lemma rig_list m n m' rc bs c : rig_ok m -> 0 <= n <= USER_SPACE_END -> m_list_names m n = (m', rc, bs, c) ->
  quiet_on rig_ok rg_live rig_as m m' /\ zlen bs <= n.
Proof.
  intros H Hn E. simpl in E. destruct (on_fs m (fat32_list_names n)) as [m1 [[rc1 bs1] c1]] eqn:Eo. injection E as <- <- <- <-.
  apply (rig_fs_fixed m (fat32_list_names n) (fun r => zlen r.1.2 <= n) m1 (rc1, bs1, c1) H Eo). intros L files dirs free lw dk Hgm Hfs.
  destruct (Z.eq_dec n 0) as [-> | Hz].
  - unfold fat32_list_names. apply fwp_vol. rewrite orb_true_r. apply fwp_ret. split; [done | eauto].
  - unfold USER_SPACE_END, USER_HEAP_LIMIT in Hn. eapply fwp_mono; [apply (list_names_state g Hgm _ L files dirs free n Hfs); lia |].
    intros [[rc bs] c] s' (H' & Hl & _). split; [done | eauto].
Qed.

Lemma rig_read m name n m' rc bs c : rig_ok m -> 0 <= n <= USER_SPACE_END -> m_read_file m name n = (m', rc, bs, c) ->
  quiet_on rig_ok rg_live rig_as m m' /\ zlen bs <= n.
Proof.
  intros H Hn E. simpl in E. destruct (on_fs m (fat32_read_file name n)) as [m1 [[rc1 bs1] c1]] eqn:Eo. injection E as <- <- <- <-.
  apply (rig_fs_fixed m (fat32_read_file name n) (fun r => zlen r.1.2 <= n) m1 (rc1, bs1, c1) H Eo). intros L files dirs free lw dk Hgm Hfs.
  eapply fwp_mono; [by apply (read_file_state g Hgm _ L files dirs free name n) |].
  intros [[rc bs] c] s' (H' & [(_ & _ & _ & Hl) | (_ & -> & _)]); (split; [done || (unfold zlen; simpl; lia) | eauto]).
Qed.

Lemma rig_write m name bs m' rc : rig_ok m -> chars name -> bytes bs -> zlen bs <= USER_SPACE_END -> m_write_file m name bs = (m', rc) ->
  quiet_on rig_ok rg_live rig_as m m'.
Proof.
  intros H Hc Hb Hl E. apply (rig_fs_fixed m (fat32_write_file name bs) (fun _ => True) m' rc H E). intros L files dirs free lw dk Hgm Hfs.
  pose proof (g_bpc _ Hgm). pose proof (g_spc _ Hgm). unfold USER_SPACE_END, USER_HEAP_LIMIT in Hl.
  eapply fwp_mono; [apply (write_any_state g Hgm _ L files dirs free name bs Hfs Hc Hb); lia |]. intros r s' (files' & free' & H'). eauto.
Qed.

Lemma rig_delete m name m' rc : rig_ok m -> m_delete m name = (m', rc) -> quiet_on rig_ok rg_live rig_as m m'.
Proof.
  intros H E. apply (rig_fs_fixed m (fat32_delete name) (fun _ => True) m' rc H E). intros L files dirs free lw dk Hgm Hfs.
  eapply fwp_mono; [by apply (delete_state g Hgm _ L files dirs free name) |]. intros r s' [(_ & n & bs & _ & _ & H') | (_ & H' & _)]; eauto.
Qed.

Lemma rig_free_count m m' c : rig_ok m -> m_free_count m = (m', c) -> quiet_on rig_ok rg_live rig_as m m'.
Proof.
  intros H E. apply (rig_fs_fixed m fat32_free_count (fun _ => True) m' c H E). intros L files dirs free lw dk Hgm [(fat & data & rc & acts & Hh & Hr)].
  eapply fwp_mono; [by apply (free_count_holds g Hgm) |]. intros r s' [H' _]. split; [done |]. exists files, dirs, free. split. by exists fat, data, rc, acts.
Qed.

Lemma rig_stat m name m' rc sz : rig_ok m -> m_stat m name = (m', rc, sz) -> quiet_on rig_ok rg_live rig_as m m'.
Proof.
  intros H E. simpl in E. destruct (on_fs m (fat32_stat name)) as [m1 [rc1 sz1]] eqn:Eo. injection E as <- <- <-.
  apply (rig_fs_fixed m (fat32_stat name) (fun _ => True) m1 (rc1, sz1) H Eo). intros L files dirs free lw dk Hgm Hfs.
  eapply fwp_mono; [by apply (stat_state g Hgm _ L files dirs free name) |]. intros [rc sz] s' [H' _]. eauto.
Qed.

#[refine] Definition rig_laws : MachineLaws (rig D) := {| m_ok := rig_ok; m_live := rg_live; m_as := rig_as |}.
Proof.
  - intros m (_ & _ & _ & Ls & [T HT] & -> & _). rewrite elem_of_list_to_set. intros Hx. by apply (space_live T Ls _ 0 HT Hx).
  - intros m (_ & _ & _ & Ls & [T HT] & -> & _) a Ha. rewrite elem_of_list_to_set. by apply (handles_live T Ls _ a HT).
  - exact rig_kmalloc.
  - exact rig_kfree.
  - exact rig_create.
  - exact rig_destroy.
  - intros m m' H E. simpl in E. destruct (sp_alloc_frame (space_of m)) as [v f] eqn:Ek. injection E as <- ->.
    apply rig_quiet; [done | done | |]; destruct H as (_ & _ & _ & Ls & [T HT] & _); destruct (alloc_spare T _ v 0 (si_trees _ _ _ HT) Ek) as [[_ ->] | [? _]]; done.
  - exact rig_stack_page.
  - exact rig_map_range.
  - exact rig_unmap_range.
  - exact rig_elf.
  - intros m c va b. simpl. destruct (translate _ _ _); [| done]. intros [= <-]. apply Z.mod_pos_bound. lia.
  - exact rig_store.
  - exact rig_list.
  - exact rig_read.
  - exact rig_write.
  - exact rig_delete.
  - exact rig_free_count.
  - exact rig_stat.
Defined.
End Rig.
