(* ===== verification/RigSpec.v ===== *)
(** * The whole system

    The kernel on its real parts: the theorems about the kernel instantiated
    at [rig] over the disk driver, with only the port instructions and the
    drive behind them left as an interface, and a boot of it over a simulated
    ATA drive. *)

From Stdlib Require Import ZArith Lia Bool.
From stdpp Require Import base gmap fin_maps fin_map_dom option functions list.
From S2P Require Import Prelude Frames Kernel Sched Syscall KernelInv KernelSafe System SignalSpec Heap HeapSpec Phys Paging PagingInv PagingOps PagingLife PagingFree PagingSpec.
From S2P Require Import Fat FatBytes FatDisk FatFiles FatProps Elf ElfSpec Board Ata AtaSpec BoardSpec Rig.

Section RigSpec.
Context {D : Type} {ports : Ports D} {drive : AtaDrive D} {ign : BusyIgnores D} (g : volume) (Hg : board_geometry g).
Implicit Types m : rig D.

Notation space_of m := (bd_space (f_env (rg_fs m))).
#[local] Existing Instance rig_laws.

(** A byte stored by ring 3 or for it is the byte loaded afterwards, and no
    other byte of the address space changes. *)
Lemma rig_memory : MemoryLaws (rig D) (laws := rig_laws g Hg).
Proof.
  split. intros m s va b m' a (files & dirs & free & Ls & [T HT] & _) Hs Hva Ha E. destruct (rig_tree _ _ _ _ HT Hs) as (tr & Ht & _ & Ep).
  simpl in E, Ep |- *. rewrite Ep in *. unfold ring3_addr in *. zbool. destruct (translate _ _ va) as [x|] eqn:Ex; [| done]. injection E as <-. simpl.
  destruct (user_store_step T Ls _ s tr va x b HT Ht ltac:(done) Ex) as (e & _ & _ & H'). pose proof (si_trees _ _ _ HT) as Htr.
  assert (translate (pst8 (sp_mem (space_of m)) x b) (tr_pml4 tr) a = translate (sp_mem (space_of m)) (tr_pml4 tr) a) as ->.
  { unfold translate. pose proof (walk_user T _ s tr a (si_trees _ _ _ H') Ht ltac:(done)) as W. simpl in W. by rewrite W, (walk_user T _ s tr a Htr Ht). }
  destruct (Z.eqb_spec a va) as [-> | Hne].
  - rewrite Ex. simpl. rewrite pld8_pst8, Z.eqb_refl. unfold u8. by rewrite Z.mod_mod.
  - destruct (translate (sp_mem (space_of m)) (tr_pml4 tr) a) as [y|] eqn:Ey; [| done]. simpl. rewrite pld8_pst8.
    destruct (Z.eqb_spec y x) as [-> | _]; [| done]. destruct Hne. by apply (translate_inj T (space_of m) s tr a va x).
Qed.

(** The machine when the first program is started: paging is up, the heap is
    empty, and a well-formed volume is mounted. *)
Record booted m : Prop := {
  bt_space : boot_space (space_of m);
  bt_live : rg_live m = ∅;
  bt_fs : exists files dirs free, board_fs g (rg_fs m) ∅ files dirs free
}.

Lemma booted_ok m : booted m -> rig_ok g m /\ rg_live m = ∅ /\ rig_as m = ∅.
Proof.
  intros [Hb Hl (files & dirs & free & Hfs)]. pose proof (boot_space_inv _ Hb) as HT.
  assert (sp_as (space_of m) = ∅) as Ea by (rewrite (si_as _ _ _ HT); apply fmap_empty).
  split; [| split; [done |]; unfold rig_as; by rewrite Ea, dom_empty_L]. exists files, dirs, free, []. split; [by exists ∅ |]. split; [done |].
  assert (blocks_of [] (space_of m) = ∅) as -> by (unfold blocks_of; simpl; set_solver). done.
Qed.

(** C1: TownOS as a whole: the kernel with its heap, frame allocator, page
    tables, file system, loader and disk driver, over a drive that follows
    the ATA protocol and ignores a flush that comes while it is busy, with a
    well-formed volume mounted. From the start of the first program on,
    whatever ring 3 computes and stores (no program uses [in] or [out], for
    which it would need the I/O privilege of a forged signal frame) and
    whenever ticks and keys arrive, nothing is undefined behaviour (but for
    a signal frame exactly at the start of ring-3 space), the loader's reads
    of a program file included; what returns, returns to ring 3, and with
    interrupts on if the program has no I/O privilege. The machine may stop:
    with every task waiting for ever, or on a ring-3 pointer with no page
    behind it. The volume on the disk stays a well-formed file system; the
    live blocks of the heap are exactly the tasks, files, pipes and address
    spaces of the kernel; and no two pages of programs share a frame. *)
Theorem townos_safe m0 k r : booted m0 -> reach m0 (k, r) ->
  let v := space_of (k_mach k) in
  (forall ev, kernel_main (initial_kernel m0 ev) <> UB) /\
  cs r = GDT_SELECTOR_USER_CODE /\ ss r = GDT_SELECTOR_USER_DATA /\
  (Z.land (rflags r) 0x3000 <> 0x3000 -> Z.testbit (rflags r) 9 = true) /\
  (regs64 r -> syscall_handler r k = UB -> exists r1 k1, dispatch r k = Ret r1 k1 /\ frame_at_edge r1) /\
  (timer_irq r k = UB -> exists r1 k1, timer_callback r k = Ret r1 k1 /\ frame_at_edge r1) /\
  (forall sc, keyboard_irq sc r k = UB -> frame_at_edge r) /\
  (exists L files dirs free, board_fs g (rg_fs (k_mach k)) L files dirs free) /\
  (exists Ls, sane Ls v /\ list_to_set Ls.*1 = dom (k_tasks k) ∪ dom (k_files k) ∪ dom (k_pipes k) ∪ dom (sp_as v)) /\
  (forall a pa b pb va vb e e' s s', sp_as v !! a = Some pa -> sp_as v !! b = Some pb -> user_va va -> user_va vb ->
     walk (sp_mem v) pa va = Some (e, s) -> walk (sp_mem v) pb vb = Some (e', s') -> pte_addr e = pte_addr e' ->
     a = b /\ va / FRAME_SIZE = vb / FRAME_SIZE).
Proof.
  intros Hb Hr. cbv zeta. destruct (booted_ok m0 Hb) as (Hok & Hl & Ha). pose proof (reach_rest (laws := rig_laws g Hg) m0 k r Hok Hl Ha Hr) as HR.
  split; [intros ev E; pose proof (kernel_main_ok (laws := rig_laws g Hg) m0 ev Hok Hl Ha) as Hw; unfold wp in Hw; by rewrite E in Hw |].
  pose proof HR as [(Hk & _) (U1 & U2 & U3)]. split; [done |]. split; [done |]. split; [exact U3 |]. split; [| split; [| split; [| split; [| split]]]].
  - intros Hw E. pose proof (syscall_handler_ok (laws := rig_laws g Hg) k r HR Hw) as H. unfold wp_or in H. by rewrite E in H.
  - intros E. pose proof (timer_irq_ok (laws := rig_laws g Hg) k r HR) as H. unfold wp_or in H. by rewrite E in H.
  - intros sc E. pose proof (keyboard_irq_ok (laws := rig_laws g Hg) k r sc HR) as H. unfold wp_or in H. by rewrite E in H.
  - destruct (ki_ok _ _ Hk) as (files & dirs & free & Ls & _ & _ & Hfs). eauto.
  - destruct (ki_ok _ _ Hk) as (files & dirs & free & Ls & Hs & El & _). exists Ls. split; [done |]. pose proof (ki_live _ _ Hk) as Elv.
    cbn [m_live m_as rig_laws] in Elv. unfold rig_as in Elv. rewrite <- El, Elv. simpl. set_solver +.
  - destruct (ki_ok _ _ Hk) as (files & dirs & free & Ls & [T HT] & _). intros a pa b pb va vb e e' s s' Ea Eb Hva Hvb W W' Ee.
    destruct (space_handle _ _ _ _ _ HT Ea) as (ta & Ta & <- & _), (space_handle _ _ _ _ _ HT Eb) as (tb & Tb & <- & _).
    exact (user_pages_apart T _ a ta b tb va vb e e' s s' (si_trees _ _ _ HT) Ta Tb Hva Hvb W W' Ee).
Qed.
End RigSpec.

(** ** A boot *)

(** The first program is loaded from the simulated drive of [DemoBoard] and
    started. *)
Module DemoRig.
Import Sim DemoBoard.

Definition m0 : rig disk := mkRig (mkFat32 FatProps.Demo.geo (mkBoard (PagingSpec.Demo.space_to (USER_HEAP_LIMIT + 160 * FRAME_SIZE)) hd0)) ∅.

Lemma m0_starts : PagingSpec.Demo.starts (USER_HEAP_LIMIT + 160 * FRAME_SIZE) = 0.
Proof. vm_compute. reflexivity. Qed.

Lemma m0_booted : booted FatProps.Demo.geo m0.
Proof.
  assert (boot_space (bd_space (f_env (rg_fs m0)))) as Hb by (apply PagingSpec.Demo.space_to_booted; [by vm_compute | exact m0_starts]).
  split; [exact Hb | done |]. exists files0, ∅, 4. pose proof (boot_space_inv _ Hb) as HT.
  pose proof (volume_P _ [] (ex_intro _ ∅ HT)) as H. assert (blocks_of [] (bd_space (f_env (rg_fs m0))) = ∅) as E by (unfold blocks_of; simpl list_to_set; set_solver).
  rewrite E in H. exact H.
Qed.

Definition entered (o : outcome (rig disk) registers) : option (Z * Z) := match o with Ret r _ => Some (rip r, user_rsp r) | _ => None end.

Lemma runs : entered (kernel_main (initial_kernel m0 [])) = Some (USER_CODE_BASE, USER_STACK_TOP).
Proof. vm_compute. reflexivity. Qed.
End DemoRig.

Section RigRun.
Import Sim DemoBoard DemoRig.

Definition boot_state : kernel (rig disk) * registers :=
  match kernel_main (initial_kernel m0 []) with Ret r k => (k, r) | _ => (initial_kernel m0 [], zero_regs) end.

Lemma boot_state_reach : reach m0 boot_state /\ rip boot_state.2 = USER_CODE_BASE.
Proof.
  pose proof runs as H. unfold boot_state. destruct (kernel_main (initial_kernel m0 [])) as [r k | |] eqn:E; [| done | done].
  split; [by apply (reach_boot m0 []) |]. simpl in H |- *. by injection H as -> _.
Qed.

Lemma townos_safe_witness : cs boot_state.2 = GDT_SELECTOR_USER_CODE /\ (timer_irq boot_state.2 boot_state.1 = UB -> exists r1 k1, timer_callback boot_state.2 boot_state.1 = Ret r1 k1 /\ frame_at_edge r1).
Proof.
  destruct (townos_safe FatProps.Demo.geo geo_board m0 boot_state.1 boot_state.2 m0_booted (eq_ind _ (reach m0) (proj1 boot_state_reach) _ (surjective_pairing boot_state)))
    as (_ & Hu & _ & _ & _ & Ht & _). split; [exact Hu | exact Ht].
Defined.
End RigRun.
