(* ===== verification/Libc.v ===== *)
(** * Memory and strings

    [libc/mem.c] and [libc/string.c]. The functions on memory work on the
    bytes of [Phys]; the copies and comparisons are the loops of the source,
    one byte at a time. A string argument is the list of the bytes from the
    pointer to the end of the object it points into: a function that reads
    past the end, because there is no terminator, has no result ([None]). *)

From Stdlib Require Import ZArith Lia Bool Ascii String.
From stdpp Require Import base gmap fin_maps option list.
From S2P Require Import Prelude Phys.

(** ** Memory *)

Definition copy_byte (dest src i : Z) (m : phys) : phys := pst8 m (dest + i) (pld8 m (src + i)).

Definition memcpy (m : phys) (dest src n : Z) : phys := for_range (Z.to_nat n) 0 (copy_byte dest src) m.

(** [for (i = n; i > 0; i--)] *)
Fixpoint copy_down (n : nat) (dest src : Z) (m : phys) : phys :=
  match n with
  | O => m
  | S n' => copy_down n' dest src (copy_byte dest src (Z.of_nat n') m)
  end.

Definition memmove (m : phys) (dest src n : Z) : phys :=
  if dest <? src then for_range (Z.to_nat n) 0 (copy_byte dest src) m
  else if src <? dest then copy_down (Z.to_nat n) dest src m
  else m.

Definition memset (m : phys) (dest val n : Z) : phys := for_range (Z.to_nat n) 0 (fun i m => pst8 m (dest + i) val) m.

Fixpoint memcmp_from (n : nat) (m : phys) (a b i : Z) : Z :=
  match n with
  | O => 0
  | S n' => if negb (pld8 m (a + i) =? pld8 m (b + i)) then pld8 m (a + i) - pld8 m (b + i) else memcmp_from n' m a b (i + 1)
  end.
Definition memcmp (m : phys) (a b n : Z) : Z := memcmp_from (Z.to_nat n) m a b 0.

(** ** Strings *)

(** [char] is signed. *)
Definition i8 (v : Z) : Z := (v + 128) mod 256 - 128.

Fixpoint strlen (s : list Z) : option Z :=
  match s with
  | [] => None
  | c :: s' => if c =? 0 then Some 0 else n ← strlen s' ; Some (n + 1)
  end.

Fixpoint strcmp (s1 s2 : list Z) : option Z :=
  match s1, s2 with
  | c :: s1', d :: s2' => if negb (c =? 0) && (c =? d) then strcmp s1' s2' else Some (i8 c - i8 d)
  | _, _ => None
  end.

(** The object [dest] points into after the copy. *)
Fixpoint strcpy (dest src : list Z) : option (list Z) :=
  match dest, src with
  | _ :: dest', c :: src' => if c =? 0 then Some (0 :: dest') else r ← strcpy dest' src' ; Some (c :: r)
  | _, _ => None
  end.

(** The index of the pointer returned; [Some None] is the null pointer. *)
Fixpoint strchr (s : list Z) (c : Z) : option (option Z) :=
  match s with
  | [] => None
  | x :: s' => if x =? u8 c then Some (Some 0) else if x =? 0 then Some None else r ← strchr s' c ; Some (option_map (fun i => i + 1) r)
  end.

(** String literals. *)
Definition chars_of (s : string) : list Z := (fun c => Z.of_nat (nat_of_ascii c)) <$> list_ascii_of_string s.
Definition lit (s : string) : list Z := chars_of s ++ [0].
Definition lit_nl (s : string) : list Z := chars_of s ++ [10; 0].

(** The characters are those of a C string. *)
Definition plain_text (s : string) : bool := forallb (fun c => (0 <? c) && (c <? 256)) (chars_of s) && (zlen (chars_of s) <? 1000).

Lemma plain_text_ok s : plain_text s = true -> Forall (fun c => 0 < c < 256) (chars_of s) /\ zlen (chars_of s) < 1000.
Proof.
  unfold plain_text. intros [Hf Hl]%andb_true_iff. split; [| lia]. apply Forall_forall. intros c Hc. rewrite forallb_forall in Hf. specialize (Hf c ltac:(by apply list_elem_of_In)). apply andb_true_iff in Hf as [? ?]. lia.
Qed.

(** ** What they compute *)

(** The bytes of [m] after [n] bytes were moved as a whole. *)
Definition moved (m : phys) (dest src n : Z) (x : Z) : Z :=
  if (dest <=? x) && (x <? dest + n) then u8 (pld8 m (src + (x - dest))) else pld8 m x.

Lemma copy_byte_at dest src i m x : pld8 (copy_byte dest src i m) x = if x =? dest + i then u8 (pld8 m (src + i)) else pld8 m x.
Proof. apply pld8_pst8. Qed.

Lemma pload_length n : forall m a, length (pload n m a) = n.
Proof. induction n as [| n IH]; intros m a; simpl; [done |]. by rewrite IH. Qed.

Lemma znth_pload n : forall m a i, 0 <= i < Z.of_nat n -> znth 0 (pload n m a) i = pld8 m (a + i).
Proof.
  induction n as [| n IH]; intros m a i Hi; [lia |]. cbn [pload]. destruct (Z.eq_dec i 0) as [-> | Hz]; [by rewrite Z.add_0_r |].
  rewrite znth_cons_ne, IH by lia. f_equal. lia.
Qed.

(** Upwards: right when what is read has not been overwritten yet. *)
Lemma copy_up dest src n m x : dest <= src \/ src + Z.of_nat n <= dest -> pld8 (for_range n 0 (copy_byte dest src) m) x = moved m dest src (Z.of_nat n) x.
Proof.
  intros Hd. revert x. apply (for_range_ind (fun i m' => forall x, pld8 m' x = moved m dest src i x)).
  - intros x. unfold moved. zcases; simpl; done || lia.
  - intros i m' Hi IH x. rewrite copy_byte_at, !IH. unfold moved.
    destruct (Z.eqb_spec x (dest + i)) as [-> |]; zcases; simpl; try lia; try done.
    all: replace (dest + i - dest) with i by lia; done.
Qed.

(** Downwards, the other way round. *)
Lemma copy_down_at dest src n : forall m x, src <= dest \/ dest + Z.of_nat n <= src -> pld8 (copy_down n dest src m) x = moved m dest src (Z.of_nat n) x.
Proof.
  induction n as [| n IH]; intros m x Hd; cbn [copy_down].
  - unfold moved. zcases; simpl; done || lia.
  - rewrite IH by lia. unfold moved. rewrite !copy_byte_at.
    destruct (Z.eqb_spec x (dest + Z.of_nat n)) as [Ex | Ex], (Z.eqb_spec (src + (x - dest)) (dest + Z.of_nat n)); zcases; simpl; try lia; try done.
    all: rewrite Ex; replace (dest + Z.of_nat n - dest) with (Z.of_nat n) by lia; done.
Qed.

Lemma memset_at m dest val n x : 0 <= n -> pld8 (memset m dest val n) x = if (dest <=? x) && (x <? dest + n) then u8 val else pld8 m x.
Proof.
  intros Hn. unfold memset. rewrite <- (Z2Nat.id n) at 2 by done. revert x.
  apply (for_range_ind (fun i m' => forall x, pld8 m' x = if (dest <=? x) && (x <? dest + i) then u8 val else pld8 m x)).
  - intros x. zcases; simpl; done || lia.
  - intros i m' Hi IH x. rewrite pld8_pst8, IH. destruct (Z.eqb_spec x (dest + i)); zcases; simpl; done || lia.
Qed.

(** The first difference decides. *)
Lemma memcmp_from_spec n m a b : forall i,
  memcmp_from n m a b i = 0 <-> forall j, i <= j < i + Z.of_nat n -> pld8 m (a + j) = pld8 m (b + j).
Proof.
  induction n as [| n IH]; intros i; cbn [memcmp_from]; [split; [lia | done] |].
  destruct (Z.eqb_spec (pld8 m (a + i)) (pld8 m (b + i))) as [E | E]; simpl negb; cbv iota.
  - rewrite IH. split; intros H j Hj; [| apply H; lia]. destruct (Z.eq_dec j i) as [-> |]; [done | apply H; lia].
  - split; [lia |]. intros H. destruct E. apply H. lia.
Qed.

(** A string of the characters [l] at the start of an object. *)
Definition cstring (l s : list Z) : Prop := Forall (fun c => c <> 0) l /\ exists rest, s = l ++ 0 :: rest.

Lemma strlen_cstring l s : cstring l s -> strlen s = Some (zlen l).
Proof.
  intros [Hl [rest ->]]. induction Hl as [| c l Hc _ IH]; [done |]. cbn [app strlen]. apply Z.eqb_neq in Hc as ->. rewrite IH. simpl. f_equal. unfold zlen. simpl. lia.
Qed.

Lemma i8_inj c d : 0 <= c < 256 -> 0 <= d < 256 -> i8 c = i8 d -> c = d.
Proof. unfold i8. intros Hc Hd E. mlia. Qed.

(** [strcmp] is 0 exactly for equal strings. *)
Lemma strcmp_cstring l1 : forall s1 l2 s2, cstring l1 s1 -> cstring l2 s2 -> Forall (fun c => 0 <= c < 256) l1 -> Forall (fun c => 0 <= c < 256) l2 ->
  exists r, strcmp s1 s2 = Some r /\ (r = 0 <-> l1 = l2).
Proof.
  induction l1 as [| c l1 IH]; intros s1 l2 s2 [H1 [r1 ->]] [H2 [r2 ->]] B1 B2; destruct l2 as [| d l2]; cbn [app strcmp].
  - eexists. split; [done |]. done.
  - apply Forall_cons in H2 as [Hd _]. apply Forall_cons in B2 as [Bd _]. eexists. split; [done |]. split; [| done].
    intros E. destruct Hd. symmetry. apply i8_inj; [lia | done | lia].
  - apply Forall_cons in H1 as [Hc _]. apply Forall_cons in B1 as [Bc _]. pose proof Hc as Hc'. apply Z.eqb_neq in Hc'. rewrite Hc'. simpl. eexists. split; [done |]. split; [| done].
    intros E. destruct Hc. apply i8_inj; [done | lia | lia].
  - apply Forall_cons in H1 as [Hc H1]. apply Forall_cons in H2 as [Hd H2]. apply Forall_cons in B1 as [Bc B1]. apply Forall_cons in B2 as [Bd B2].
    pose proof Hc as Hc'. apply Z.eqb_neq in Hc'. rewrite Hc'. simpl negb. simpl andb. destruct (Z.eqb_spec c d) as [-> | Hne].
    + destruct (IH (l1 ++ 0 :: r1) l2 (l2 ++ 0 :: r2)) as (r & E & Hr); [by split; [| exists r1] | by split; [| exists r2] | done | done |].
      exists r. split; [done |]. rewrite Hr. split; [by intros -> | by intros [= ->]].
    + eexists. split; [done |]. split; [| by intros [= ? ?]]. intros E. destruct Hne. apply i8_inj; [done | done | lia].
Qed.

Lemma strcpy_cstring l : forall dest s, cstring l s -> zlen l < zlen dest -> strcpy dest s = Some (l ++ 0 :: drop (S (length l)) dest).
Proof.
  induction l as [| c l IH]; intros dest s [Hl [rest ->]] Hd; destruct dest as [| x dest]; unfold zlen in Hd; simpl in Hd; try lia; cbn [app strcpy]; [done |].
  apply Forall_cons in Hl as [Hc Hl]. apply Z.eqb_neq in Hc as ->. rewrite (IH dest (l ++ 0 :: rest)); [done | by split; [| exists rest] | unfold zlen; lia].
Qed.

Lemma strchr_cstring l s c : cstring l s -> 0 <= c < 256 -> c <> 0 ->
  exists r, strchr s c = Some r /\ match r with Some i => exists l1 l2, l = l1 ++ c :: l2 /\ c ∉ l1 /\ i = zlen l1 | None => c ∉ l end.
Proof.
  intros [Hl [rest ->]] Hc Hz. assert (u8 c = c) as Ec by (apply u8_small; lia).
  induction Hl as [| x l Hx _ IH]; cbn [app strchr]; rewrite Ec.
  - destruct (Z.eqb_spec 0 c); [lia |]. eexists. split; [done |]. set_solver.
  - destruct (Z.eqb_spec x c) as [-> | Hne]; [eexists; split; [done |]; exists [], l; split; [done |]; split; [set_solver | done] |].
    apply Z.eqb_neq in Hx as ->. destruct IH as (r & -> & Hr). simpl. eexists. split; [done |]. destruct r as [i|]; simpl.
    + destruct Hr as (l1 & l2 & -> & Hn & ->). exists (x :: l1), l2. split; [done |]. split; [set_solver | unfold zlen; simpl; lia].
    + set_solver.
Qed.

(** ** Moving overlapping memory *)

(** [memmove] equals the copy through an intermediate buffer, whatever
    the overlap: afterwards the destination holds the bytes that were at the
    source before the call and every other byte is unchanged. [memcpy]
    computes the same where the destination does not start inside the source
    range. *)
Theorem memmove_equiv m dest src n x : (forall a, 0 <= pld8 m a < 256) -> 0 <= n ->
  pld8 (memmove m dest src n) x = pld8 (pstore m dest (pload (Z.to_nat n) m src)) x /\
  (dest <= src \/ src + n <= dest -> pld8 (memcpy m dest src n) x = pld8 (memmove m dest src n) x).
Proof.
  intros Hb Hn.
  assert (pld8 (memmove m dest src n) x = moved m dest src n x) as ->.
  { unfold memmove. destruct (Z.ltb_spec dest src); [rewrite copy_up by lia; by rewrite Z2Nat.id |].
    destruct (Z.ltb_spec src dest); [rewrite copy_down_at by lia; by rewrite Z2Nat.id |].
    assert (dest = src) as -> by lia. unfold moved. zcases; simpl; try done. rewrite u8_small by apply Hb. f_equal. lia. }
  split.
  - rewrite pld8_pstore. unfold zlen. rewrite pload_length, Z2Nat.id by done. unfold moved. zcases; simpl; try done. by rewrite znth_pload by lia.
  - intros Hd. unfold memcpy. rewrite copy_up by lia. by rewrite Z2Nat.id.
Qed.

(** Five bytes moved up by two: the copy upwards would repeat the first
    two. *)
Definition abcde : phys := pstore ∅ 100 [1; 2; 3; 4; 5].

Lemma abcde_bytes a : 0 <= pld8 abcde a < 256.
Proof.
  unfold abcde. rewrite pld8_pstore. destruct (_ && _); [apply Z.mod_pos_bound; lia |]. unfold pld8. by rewrite lookup_empty.
Qed.

Lemma memmove_equiv_witness : pload 7 (memmove abcde 102 100 5) 100 = [1; 2; 1; 2; 3; 4; 5] /\ pload 7 (memcpy abcde 102 100 5) 100 = [1; 2; 1; 2; 1; 2; 1] /\
  pld8 (memmove abcde 102 100 5) 104 = pld8 (pstore abcde 102 (pload 5 abcde 100)) 104.
Proof.
  split; [vm_compute; reflexivity |]. split; [vm_compute; reflexivity |].
  exact (proj1 (memmove_equiv abcde 102 100 5 104 abcde_bytes ltac:(lia))).
Defined.
