(* ===== verification/Calloc.v ===== *)
(** * calloc

    [calloc] of [libc/malloc.c], over [malloc] and the bytes of memory it
    clears. *)

From Stdlib Require Import ZArith Lia Bool.
From stdpp Require Import base gmap fin_maps option list.
From S2P Require Import Prelude Frames Heap HeapSpec Phys Libc.

Section Calloc.
Context {S : Type} {src : SlabSource S}.

Definition calloc (s : S) (u : uheap) (m : phys) (count size : Z) : option (S * uheap * phys * Z) :=
  if negb (count =? 0) && ((2 ^ 64 - 1) / count <? size) then Some (s, u, m, NULL)
  else
    let total := u64 (count * size) in
    match malloc s u total with
    | None => None
    | Some (s, u, p) => Some (s, u, if negb (p =? NULL) then memset m p 0 total else m, p)
    end.

Lemma overflow_check count size : 0 <= count -> 0 <= size -> negb (count =? 0) && ((2 ^ 64 - 1) / count <? size) = (2 ^ 64 <=? count * size).
Proof.
  intros Hc Hs. destruct (Z.eqb_spec count 0) as [-> | Hn]; [done |]. simpl negb. simpl andb.
  destruct (Z.ltb_spec ((2 ^ 64 - 1) / count) size) as [H | H], (Z.leb_spec (2 ^ 64) (count * size)) as [H' | H']; try done; exfalso.
  - assert (size <= (2 ^ 64 - 1) / count) by (apply Z.div_le_lower_bound; lia). lia.
  - assert (count * size <= 2 ^ 64 - 1); [| lia]. pose proof (Z.mul_div_le (2 ^ 64 - 1) count ltac:(lia)). nia.
Qed.

(** [calloc] refuses a product that does not fit; otherwise it returns null,
    with nothing changed but the heap's own slabs, or a fresh block that
    holds the product, cleared, with every other byte as before. *)
Theorem calloc_correct {laws : SlabLaws S} s u m L count size : slab_ok s -> uheap_ok u L -> 0 <= count -> 0 <= size ->
  (2 ^ 64 <= count * size -> calloc s u m count size = Some (s, u, m, NULL)) /\
  (count * size < 2 ^ 64 - 7 -> exists s' u' m' p, calloc s u m count size = Some (s', u', m', p) /\ slab_ok s' /\
     (p = NULL /\ uheap_ok u' L /\ m' = m \/
      p <> NULL /\ (exists sz, count * size <= sz /\ uheap_ok u' ((p, sz) :: L)) /\
      forall x, pld8 m' x = if (p <=? x) && (x <? p + count * size) then 0 else pld8 m x)).
Proof.
  intros Hs Hu Hc Hz. unfold calloc. rewrite overflow_check by done. split; intros Ht.
  - by rewrite (proj2 (Z.leb_le _ _) Ht).
  - destruct (Z.leb_spec (2 ^ 64) (count * size)); [lia |]. assert (0 <= count * size) by nia. cbv zeta. rewrite u64_small by lia.
    destruct (malloc_correct s u L (count * size) Hs Hu ltac:(lia)) as (s' & u' & p & -> & Hs' & Hcase). eexists _, _, _, _. split; [reflexivity |]. split; [done |].
    destruct Hcase as [(Hp & sz & Hle & Hok & _) | [-> Hok]]; [right | by left].
    split; [done |]. split; [by exists sz |]. intros x. apply Z.eqb_neq in Hp as ->. simpl negb. cbv iota. by rewrite memset_at.
Qed.
End Calloc.

(** With one element of nearly all memory the product does fit, the rounding
    of [malloc] wraps, and the clearing runs over everything behind the
    empty block. *)
Lemma calloc_clears_all {S} {src : SlabSource S} s u m size : 2 ^ 64 - 7 <= size < 2 ^ 64 ->
  calloc s u m 1 size = match malloc s u 0 with None => None | Some (s, u, p) => Some (s, u, if negb (p =? NULL) then memset m p 0 size else m, p) end.
Proof.
  intros Hz. unfold calloc. rewrite overflow_check by lia. rewrite Z.mul_1_l. destruct (Z.leb_spec (2 ^ 64) size); [lia |]. cbv zeta. rewrite u64_small by lia.
  unfold malloc. by rewrite (round8_wraps size Hz).
Qed.
