(* ===== verification/Screen.v ===== *)
(** * The screen

    [drivers/screen.c]: the 80 by 25 text display, a buffer of character and
    attribute bytes in physical memory with the cursor in two registers of
    the display controller. The driver refines a terminal ([term]): a grid of
    characters and a position, where a character is put at the position, a
    newline goes to the next row, a backspace rubs out, and the grid scrolls
    at its end. *)

From Stdlib Require Import ZArith Lia Bool.
From stdpp Require Import base gmap fin_maps option functions list.
From S2P Require Import Prelude Phys Libc.

Definition VIDEO_ADDRESS : Z := 0xB8000.
Definition MAX_ROWS : Z := 25.
Definition MAX_COLS : Z := 80.
Definition WHITE_ON_BLACK : Z := 0x0F.

(** Memory, and the registers of the controller behind the index port 0x3D4
    and the data port 0x3D5. *)
Record screen := mkScreen { s_mem : phys; s_index : Z; s_reg : Z -> Z }.
Definition set_mem (s : screen) (m : phys) : screen := mkScreen m (s_index s) (s_reg s).

Definition crtc_out (s : screen) (port data : Z) : screen :=
  if port =? 0x3D4 then mkScreen (s_mem s) data (s_reg s) else mkScreen (s_mem s) (s_index s) (<[s_index s := data]> (s_reg s)).
Definition crtc_in (s : screen) : Z := s_reg s (s_index s).

Definition get_cursor (s : screen) : screen * Z :=
  let s := crtc_out s 0x3D4 14 in
  let offset := Z.shiftl (crtc_in s) 8 in
  let s := crtc_out s 0x3D4 15 in
  (s, offset + crtc_in s).

Definition set_cursor (s : screen) (offset : Z) : screen :=
  let s := crtc_out s 0x3D4 14 in
  let s := crtc_out s 0x3D5 (u8 (Z.shiftr offset 8)) in
  let s := crtc_out s 0x3D4 15 in
  crtc_out s 0x3D5 (u8 (Z.land offset 0xFF)).

(** A character cell. *)
Definition put_cell (offset c : Z) (m : phys) : phys :=
  pst8 (pst8 m (VIDEO_ADDRESS + offset * 2) c) (VIDEO_ADDRESS + offset * 2 + 1) WHITE_ON_BLACK.

Definition scroll (m : phys) : phys :=
  let m := memmove m VIDEO_ADDRESS (VIDEO_ADDRESS + MAX_COLS * 2) (MAX_COLS * (MAX_ROWS - 1) * 2) in
  for_range (Z.to_nat MAX_COLS) 0 (fun i => put_cell ((MAX_ROWS - 1) * MAX_COLS + i) 32) m.

Definition screen_clear (s : screen) : screen :=
  set_cursor (set_mem s (for_range (Z.to_nat (MAX_ROWS * MAX_COLS)) 0 (fun i => put_cell i 32) (s_mem s))) 0.

Definition print_char (c : Z) (s : screen) : screen :=
  let '(s, offset) := get_cursor s in
  if c =? 8 then
    if 0 <? offset then set_cursor (set_mem s (put_cell (offset - 1) 32 (s_mem s))) (offset - 1) else set_cursor s offset
  else
    let '(s, offset) :=
      if c =? 10 then (s, (offset / MAX_COLS + 1) * MAX_COLS) else (set_mem s (put_cell offset c (s_mem s)), offset + 1) in
    if MAX_ROWS * MAX_COLS <=? offset then set_cursor (set_mem s (scroll (s_mem s))) ((MAX_ROWS - 1) * MAX_COLS)
    else set_cursor s offset.

(** The characters up to the terminator. *)
Fixpoint print_string (str : list Z) (s : screen) : screen :=
  match str with
  | [] => s
  | c :: str' => if c =? 0 then s else print_string str' (print_char c s)
  end.

(** [while (n > 0)]: the digits as they are stored, lowest first. *)
Fixpoint int_digits (fuel : nat) (n : Z) : list Z :=
  match fuel with
  | O => []
  | S f => if 0 <? n then 48 + n mod 10 :: int_digits f (n / 10) else []
  end.
Fixpoint hex_digits (fuel : nat) (n : Z) : list Z :=
  match fuel with
  | O => []
  | S f =>
      if 0 <? n then
        let digit := Z.land n 0xF in
        (if digit <? 10 then 48 + digit else 97 + (digit - 10)) :: hex_digits f (Z.shiftr n 4)
      else []
  end.

(** [while (i > 0) print_char(buf[--i])] *)
Definition print_reversed (buf : list Z) (s : screen) : screen := foldl (fun s c => print_char c s) s (reverse buf).

Definition print_int (n : Z) (s : screen) : screen :=
  if n =? 0 then print_char 48 s else print_reversed (int_digits 11 n) s.

Definition print_hex (n : Z) (s : screen) : screen :=
  let s := print_string [48; 120; 0] s in
  if n =? 0 then print_char 48 s else print_reversed (hex_digits 16 n) s.

(** ** The terminal *)

Record term := mkTerm { t_cells : list Z; t_pos : Z }.

Definition term_put (t : term) (c : Z) : term :=
  if c =? 8 then if 0 <? t_pos t then mkTerm (<[Z.to_nat (t_pos t - 1) := 32]> (t_cells t)) (t_pos t - 1) else t
  else
    let '(cells, pos) := if c =? 10 then (t_cells t, (t_pos t / 80 + 1) * 80) else (<[Z.to_nat (t_pos t) := c]> (t_cells t), t_pos t + 1) in
    if 2000 <=? pos then mkTerm (drop 80 cells ++ replicate 80 32) 1920 else mkTerm cells pos.

(** The screen [s] shows the terminal [t]. *)
Record shows (s : screen) (t : term) : Prop := {
  sh_size : length (t_cells t) = 2000%nat;
  sh_bytes : Forall (fun c => 0 <= c < 256) (t_cells t);
  sh_cells : forall i, 0 <= i < 2000 ->
    pld8 (s_mem s) (VIDEO_ADDRESS + i * 2) = znth 0 (t_cells t) i /\ pld8 (s_mem s) (VIDEO_ADDRESS + i * 2 + 1) = WHITE_ON_BLACK;
  sh_pos : 0 <= t_pos t < 2000;
  sh_cursor : s_reg s 14 = t_pos t / 256 /\ s_reg s 15 = t_pos t mod 256
}.

(** Outside the buffer of the display nothing changes. *)
Definition same_outside (m m' : phys) : Prop := forall a, a < VIDEO_ADDRESS \/ VIDEO_ADDRESS + 4000 <= a -> pld8 m' a = pld8 m a.

(** ** The cursor *)

Lemma get_cursor_shows s t : shows s t -> exists s', get_cursor s = (s', t_pos t) /\ s_mem s' = s_mem s /\ shows s' t.
Proof.
  intros [H1 H2 H3 H4 [H5 H6]]. exists (mkScreen (s_mem s) 15 (s_reg s)). split; [| split; [reflexivity |]].
  - unfold get_cursor, crtc_in, crtc_out. simpl. rewrite H5, H6, Z.shiftl_mul_pow2 by lia. change (2 ^ 8) with 256.
    assert (t_pos t / 256 * 256 + t_pos t mod 256 = t_pos t) as -> by (rewrite Z.mul_comm; symmetry; by apply Z.div_mod). reflexivity.
  - by split.
Qed.

Lemma set_cursor_eq s pos : 0 <= pos < 65536 ->
  s_mem (set_cursor s pos) = s_mem s /\ s_reg (set_cursor s pos) 14 = pos / 256 /\ s_reg (set_cursor s pos) 15 = pos mod 256.
Proof.
  intros Hp. unfold set_cursor, crtc_out. simpl. rewrite fn_lookup_insert, fn_lookup_insert_ne, fn_lookup_insert by done.
  change 0xFF with (Z.ones 8). rewrite Z.land_ones, Z.shiftr_div_pow2 by lia. unfold u8. change (2 ^ 8) with 256. split; [done |]. split; mlia.
Qed.

(** A new grid and a new position. *)
Lemma shows_set s cells pos m : length cells = 2000%nat -> Forall (fun c => 0 <= c < 256) cells -> 0 <= pos < 2000 ->
  (forall i, 0 <= i < 2000 -> pld8 m (VIDEO_ADDRESS + i * 2) = znth 0 cells i /\ pld8 m (VIDEO_ADDRESS + i * 2 + 1) = WHITE_ON_BLACK) ->
  shows (set_cursor (set_mem s m) pos) (mkTerm cells pos).
Proof.
  intros Hl Hb Hp Hc. destruct (set_cursor_eq (set_mem s m) pos ltac:(lia)) as (E1 & E2 & E3). split; simpl; try done.
Qed.

(** ** Cells *)

Lemma put_cell_at o c m i : pld8 (put_cell o c m) (VIDEO_ADDRESS + i * 2) = (if i =? o then u8 c else pld8 m (VIDEO_ADDRESS + i * 2)) /\
  pld8 (put_cell o c m) (VIDEO_ADDRESS + i * 2 + 1) = if i =? o then WHITE_ON_BLACK else pld8 m (VIDEO_ADDRESS + i * 2 + 1).
Proof.
  unfold put_cell. rewrite !pld8_pst8. split; zcases; try lia; done.
Qed.

Lemma put_cell_outside o c m : 0 <= o < 2000 -> same_outside m (put_cell o c m).
Proof. intros Ho a Ha. unfold put_cell. rewrite !pld8_pst8. zcases; done || lia. Qed.

(** A run of blank cells. *)
Lemma blanks_at n o m : let m' := for_range n 0 (fun i => put_cell (o + i) 32) m in
  forall i, (pld8 m' (VIDEO_ADDRESS + i * 2) = (if (o <=? i) && (i <? o + Z.of_nat n) then 32 else pld8 m (VIDEO_ADDRESS + i * 2))) /\
    (pld8 m' (VIDEO_ADDRESS + i * 2 + 1) = if (o <=? i) && (i <? o + Z.of_nat n) then WHITE_ON_BLACK else pld8 m (VIDEO_ADDRESS + i * 2 + 1)).
Proof.
  cbv zeta. apply (for_range_ind (fun k m' => forall i, (pld8 m' (VIDEO_ADDRESS + i * 2) = (if (o <=? i) && (i <? o + k) then 32 else pld8 m (VIDEO_ADDRESS + i * 2))) /\
    (pld8 m' (VIDEO_ADDRESS + i * 2 + 1) = if (o <=? i) && (i <? o + k) then WHITE_ON_BLACK else pld8 m (VIDEO_ADDRESS + i * 2 + 1)))).
  - intros i. zcases; simpl; done || lia.
  - intros k m' Hk IH i. destruct (put_cell_at (o + k) 32 m' i) as [-> ->]. destruct (IH i) as [-> ->]. change (u8 32) with 32. split; zcases; simpl; done || lia.
Qed.

Lemma blanks_outside n o m : 0 <= o -> o + Z.of_nat n <= 2000 -> same_outside m (for_range n 0 (fun i => put_cell (o + i) 32) m).
Proof.
  intros Ho Hn. apply (for_range_ind (fun k m' => same_outside m m')); [done |]. intros k m' Hk IH a Ha. rewrite put_cell_outside by (lia || done). by apply IH.
Qed.

Lemma scroll_moved m x : pld8 (memmove m VIDEO_ADDRESS (VIDEO_ADDRESS + MAX_COLS * 2) (MAX_COLS * (MAX_ROWS - 1) * 2)) x = moved m VIDEO_ADDRESS (VIDEO_ADDRESS + 160) 3840 x.
Proof.
  unfold memmove. change (MAX_COLS * 2) with 160. change (MAX_COLS * (MAX_ROWS - 1) * 2) with 3840. destruct (Z.ltb_spec VIDEO_ADDRESS (VIDEO_ADDRESS + 160)); [| lia].
  rewrite copy_up by lia. by rewrite Z2Nat.id.
Qed.

Lemma znth_cells (l : list Z) i : Forall (fun c => 0 <= c < 256) l -> 0 <= znth 0 l i < 256.
Proof.
  intros H. unfold znth. destruct (i <? 0); [lia |]. destruct (l !! Z.to_nat i) as [b|] eqn:E; simpl; [| lia]. by eapply Forall_lookup_1 in H.
Qed.

(** The rows above the last move up, and the last is blank. *)
Lemma scroll_cells m cells : length cells = 2000%nat -> Forall (fun c => 0 <= c < 256) cells ->
  (forall i, 0 <= i < 2000 -> pld8 m (VIDEO_ADDRESS + i * 2) = znth 0 cells i /\ pld8 m (VIDEO_ADDRESS + i * 2 + 1) = WHITE_ON_BLACK) ->
  same_outside m (scroll m) /\ forall i, 0 <= i < 2000 ->
    pld8 (scroll m) (VIDEO_ADDRESS + i * 2) = znth 0 (drop 80 cells ++ replicate 80 32) i /\ pld8 (scroll m) (VIDEO_ADDRESS + i * 2 + 1) = WHITE_ON_BLACK.
Proof.
  intros Hl Hb Hc. unfold scroll. cbv zeta. set (m1 := memmove _ _ _ _). change ((MAX_ROWS - 1) * MAX_COLS) with 1920. change (Z.to_nat MAX_COLS) with 80%nat. split.
  - intros a Ha. rewrite (blanks_outside 80 1920) by (lia || done). unfold m1. rewrite scroll_moved. unfold moved. zcases; simpl; done || lia.
  - intros i Hi. destruct (blanks_at 80 1920 m1 i) as [-> ->].
    destruct (Z.leb_spec 1920 i), (Z.ltb_spec i (1920 + Z.of_nat 80)); cbn [andb]; try lia.
    + split; [| done]. rewrite znth_nonneg, lookup_app_r, lookup_replicate_2 by (rewrite ?length_drop; lia). done.
    + unfold m1. rewrite !scroll_moved. unfold moved.
      destruct (Hc (i + 80) ltac:(lia)) as [C1 C2].
      replace (VIDEO_ADDRESS + 160 + (VIDEO_ADDRESS + i * 2 - VIDEO_ADDRESS)) with (VIDEO_ADDRESS + (i + 80) * 2) by lia.
      replace (VIDEO_ADDRESS + 160 + (VIDEO_ADDRESS + i * 2 + 1 - VIDEO_ADDRESS)) with (VIDEO_ADDRESS + (i + 80) * 2 + 1) by lia. rewrite C1, C2.
      rewrite u8_small by (by apply znth_cells). zcases; simpl; try lia. split; [| done].
      rewrite !znth_nonneg, lookup_app_l, lookup_drop by (rewrite ?length_drop; lia). do 2 f_equal. lia.
Qed.

(** ** Characters *)

Lemma znth_insert (l : list Z) o c i : 0 <= o < zlen l -> 0 <= i -> znth 0 (<[Z.to_nat o := c]> l) i = if i =? o then c else znth 0 l i.
Proof.
  unfold zlen. intros Ho Hi. rewrite !znth_nonneg by done. destruct (Z.eqb_spec i o) as [-> | Hne].
  - by rewrite list_lookup_insert_eq by lia.
  - by rewrite list_lookup_insert_ne by lia.
Qed.

(** One character of the display and of the terminal. *)
Lemma put_cell_cells m cells o c : length cells = 2000%nat -> 0 <= o < 2000 -> 0 <= c < 256 ->
  (forall i, 0 <= i < 2000 -> pld8 m (VIDEO_ADDRESS + i * 2) = znth 0 cells i /\ pld8 m (VIDEO_ADDRESS + i * 2 + 1) = WHITE_ON_BLACK) ->
  forall i, 0 <= i < 2000 -> pld8 (put_cell o c m) (VIDEO_ADDRESS + i * 2) = znth 0 (<[Z.to_nat o := c]> cells) i /\
    pld8 (put_cell o c m) (VIDEO_ADDRESS + i * 2 + 1) = WHITE_ON_BLACK.
Proof.
  intros Hl Ho Hc H i Hi. destruct (put_cell_at o c m i) as [-> ->]. destruct (H i Hi) as [-> ->].
  rewrite u8_small, znth_insert by (unfold zlen; lia). by destruct (i =? o).
Qed.

Lemma print_char_shows s t c : shows s t -> 0 < c < 256 -> shows (print_char c s) (term_put t c) /\ same_outside (s_mem s) (s_mem (print_char c s)).
Proof.
  intros H Hc. destruct (get_cursor_shows s t H) as (s1 & E1 & Em & H1). unfold print_char. rewrite E1. rewrite <- Em. clear E1 Em H s. destruct H1 as [L B C P R]. unfold term_put.
  change (MAX_ROWS * MAX_COLS) with 2000. change ((MAX_ROWS - 1) * MAX_COLS) with 1920. change MAX_COLS with 80.
  destruct (Z.eqb_spec c 8) as [-> | H8].
  { destruct (Z.ltb_spec 0 (t_pos t)).
    - split; [| destruct (set_cursor_eq (set_mem s1 (put_cell (t_pos t - 1) 32 (s_mem s1))) (t_pos t - 1) ltac:(lia)) as (-> & _); apply put_cell_outside; lia].
      apply shows_set; [by rewrite length_insert | by apply Forall_insert | lia | apply put_cell_cells; (done || lia)].
    - destruct (set_cursor_eq s1 (t_pos t) ltac:(lia)) as (E1 & E2 & E3). split; [| by rewrite E1]. by split. }
  assert (exists m cells pos, (if c =? 10 then (s1, (t_pos t / 80 + 1) * 80) else (set_mem s1 (put_cell (t_pos t) c (s_mem s1)), t_pos t + 1)) = (set_mem s1 m, pos) /\
    (if c =? 10 then (t_cells t, (t_pos t / 80 + 1) * 80) else (<[Z.to_nat (t_pos t) := c]> (t_cells t), t_pos t + 1)) = (cells, pos) /\
    length cells = 2000%nat /\ Forall (fun c => 0 <= c < 256) cells /\ 0 <= pos <= 2000 /\ same_outside (s_mem s1) m /\
    forall i, 0 <= i < 2000 -> pld8 m (VIDEO_ADDRESS + i * 2) = znth 0 cells i /\ pld8 m (VIDEO_ADDRESS + i * 2 + 1) = WHITE_ON_BLACK)
    as (m & cells & pos & -> & -> & L' & B' & P' & O' & C').
  { destruct (Z.eqb_spec c 10).
    - exists (s_mem s1), (t_cells t), ((t_pos t / 80 + 1) * 80). split; [by destruct s1 |]. do 3 (split; [done |]). split; [mlia | done].
    - exists (put_cell (t_pos t) c (s_mem s1)), (<[Z.to_nat (t_pos t) := c]> (t_cells t)), (t_pos t + 1). do 2 (split; [done |]). split; [by rewrite length_insert |].
      split; [apply Forall_insert; [done | lia] |]. split; [lia |]. split; [by apply put_cell_outside | apply put_cell_cells; (done || lia)]. }
  change (s_mem (set_mem s1 m)) with m. destruct (Z.leb_spec 2000 pos).
  - destruct (scroll_cells m cells L' B' C') as [O2 C2]. split.
    + apply shows_set; [rewrite length_app, length_drop, length_replicate; lia | | lia | exact C2].
      apply Forall_app. split; [by apply Forall_drop | by apply Forall_replicate].
    + destruct (set_cursor_eq (set_mem (set_mem s1 m) (scroll m)) 1920 ltac:(lia)) as (-> & _). intros a Ha. simpl. by rewrite O2, O'.
  - split; [apply (shows_set (set_mem s1 m) cells pos m); (done || lia) |]. destruct (set_cursor_eq (set_mem s1 m) pos ltac:(lia)) as (-> & _). done.
Qed.

(** ** Text *)

Definition term_text (t : term) (text : list Z) : term := foldl term_put t text.

Lemma print_text_shows text : forall s t, shows s t -> Forall (fun c => 0 < c < 256) text ->
  shows (foldl (fun s c => print_char c s) s text) (term_text t text) /\ same_outside (s_mem s) (s_mem (foldl (fun s c => print_char c s) s text)).
Proof.
  induction text as [| c text IH]; intros s t H Hc; cbn [foldl term_text]; [done |]. apply Forall_cons in Hc as [Hc Ht].
  destruct (print_char_shows s t c H Hc) as [H1 O1]. destruct (IH _ _ H1 Ht) as [H2 O2]. split; [done |]. intros a Ha. by rewrite O2, O1.
Qed.

Lemma print_string_text text s rest : Forall (fun c => 0 < c < 256) text -> print_string (text ++ 0 :: rest) s = foldl (fun s c => print_char c s) s text.
Proof.
  intros H. revert s. induction H as [| c text Hc _ IH]; intros s; cbn [app print_string foldl]; [done |]. destruct (Z.eqb_spec c 0); [lia |]. apply IH.
Qed.

(** The number that digits, lowest first, stand for. *)
Fixpoint value_of (base : Z) (l : list Z) : Z := match l with [] => 0 | d :: l' => d + base * value_of base l' end.

(** What the loops store: the digits of [n] without leading zeros. *)
Lemma int_digits_spec fuel : forall n, 0 < n < 10 ^ Z.of_nat fuel -> let ds := int_digits fuel n in
  exists l, ds = (fun d => 48 + d) <$> l /\ Forall (fun d => 0 <= d < 10) l /\ value_of 10 l = n /\ last l <> Some 0 /\ 0 < zlen l <= Z.of_nat fuel.
Proof.
  induction fuel as [| f IH]; intros n Hn; [simpl in Hn; lia |]. cbv zeta. cbn [int_digits]. destruct (Z.ltb_spec 0 n); [| lia].
  rewrite Nat2Z.inj_succ, Z.pow_succ_r in Hn by lia. destruct (Z.eq_dec (n / 10) 0) as [E0 | E0].
  - rewrite E0. exists [n mod 10]. assert (int_digits f 0 = []) as -> by (by destruct f). split; [done |]. assert (n mod 10 = n) as Em by mlia. rewrite Em.
    split; [constructor; [mlia | done] |]. split; [simpl; lia |]. split; [simpl; intros [= ?]; lia | unfold zlen; simpl; lia].
  - destruct (IH (n / 10) ltac:(mlia)) as (l & -> & Hl & Hv & Hlast & Hlen). exists (n mod 10 :: l). split; [done |]. split; [constructor; [mlia | done] |].
    split; [simpl; rewrite Hv; mlia |]. split; [destruct l as [| x l]; [unfold zlen in Hlen; simpl in Hlen; lia | done] | unfold zlen in *; simpl; lia].
Qed.

Definition hex_char (d : Z) : Z := if d <? 10 then 48 + d else 97 + (d - 10).

Lemma hex_digits_spec fuel : forall n, 0 < n < 16 ^ Z.of_nat fuel -> let ds := hex_digits fuel n in
  exists l, ds = hex_char <$> l /\ Forall (fun d => 0 <= d < 16) l /\ value_of 16 l = n /\ last l <> Some 0 /\ 0 < zlen l <= Z.of_nat fuel.
Proof.
  induction fuel as [| f IH]; intros n Hn; [simpl in Hn; lia |]. cbv zeta. cbn [hex_digits]. destruct (Z.ltb_spec 0 n); [| lia].
  change 0xF with (Z.ones 4). rewrite Z.land_ones, Z.shiftr_div_pow2 by lia. change (2 ^ 4) with 16. fold (hex_char (n mod 16)).
  rewrite Nat2Z.inj_succ, Z.pow_succ_r in Hn by lia. destruct (Z.eq_dec (n / 16) 0) as [E0 | E0].
  - rewrite E0. exists [n mod 16]. assert (hex_digits f 0 = []) as -> by (by destruct f). split; [done |]. assert (n mod 16 = n) as Em by mlia. rewrite Em.
    split; [constructor; [mlia | done] |]. split; [simpl; lia |]. split; [simpl; intros [= ?]; lia | unfold zlen; simpl; lia].
  - destruct (IH (n / 16) ltac:(mlia)) as (l & -> & Hl & Hv & Hlast & Hlen). exists (n mod 16 :: l). split; [done |]. split; [constructor; [mlia | done] |].
    split; [simpl; rewrite Hv; mlia |]. split; [destruct l as [| x l]; [unfold zlen in Hlen; simpl in Hlen; lia | done] | unfold zlen in *; simpl; lia].
Qed.

(** C40: the display driver refines the terminal. Whatever text is printed,
    the display shows what the terminal shows, scrolled rows included, the
    cursor stays on the screen, and no byte outside the display buffer is
    written. *)
Theorem print_string_refines s t text rest : shows s t -> Forall (fun c => 0 < c < 256) text ->
  shows (print_string (text ++ 0 :: rest) s) (term_text t text) /\ same_outside (s_mem s) (s_mem (print_string (text ++ 0 :: rest) s)).
Proof. intros H Ht. rewrite print_string_text by done. by apply print_text_shows. Qed.

(** The number printers round-trip: [print_int] and [print_hex] print a
    text that starts with no superfluous zero and reads back, digit by
    digit, as the number, within the room of their buffers. *)
Theorem printed_numbers_roundtrip s n : 0 < n < 2 ^ 64 ->
  (n < 2 ^ 32 -> exists l, print_int n s = foldl (fun s c => print_char c s) s ((fun d => 48 + d) <$> reverse l) /\
     Forall (fun d => 0 <= d < 10) l /\ value_of 10 l = n /\ last l <> Some 0 /\ zlen l <= 11) /\
  exists l, print_hex n s = foldl (fun s c => print_char c s) s ([48; 120] ++ (hex_char <$> reverse l)) /\
     Forall (fun d => 0 <= d < 16) l /\ value_of 16 l = n /\ last l <> Some 0 /\ zlen l <= 16.
Proof.
  intros Hn. split.
  - intros Hs. destruct (int_digits_spec 11 n ltac:(lia)) as (l & E & H1 & H2 & H3 & H4). exists l. split; [| split; [done |]; split; [done |]; split; [done | lia]].
    unfold print_int, print_reversed. destruct (Z.eqb_spec n 0); [lia |]. by rewrite E, fmap_reverse.
  - destruct (hex_digits_spec 16 n ltac:(lia)) as (l & E & H1 & H2 & H3 & H4). exists l. split; [| split; [done |]; split; [done |]; split; [done | lia]].
    unfold print_hex, print_reversed. destruct (Z.eqb_spec n 0); [lia |]. by rewrite E, fmap_reverse.
Qed.

Lemma blank_cells n o c : 0 <= o < Z.of_nat n -> znth 0 (replicate n c) o = c.
Proof. intros H. rewrite znth_nonneg, lookup_replicate_2 by lia. done. Qed.

Lemma screen_clear_shows s : shows (screen_clear s) (mkTerm (replicate 2000 32) 0) /\ same_outside (s_mem s) (s_mem (screen_clear s)).
Proof.
  unfold screen_clear. assert (Z.of_nat (Z.to_nat (MAX_ROWS * MAX_COLS)) = 2000) as En by done. set (n := Z.to_nat (MAX_ROWS * MAX_COLS)) in *. clearbody n.
  change (fun i => put_cell i 32) with (fun i => put_cell (0 + i) 32). set (m := for_range n 0 _ _). split.
  - apply shows_set; [by rewrite length_replicate | by apply Forall_replicate | lia |]. intros i Hi. destruct (blanks_at n 0 (s_mem s) i) as [E1 E2]. fold m in E1, E2.
    rewrite E1, E2, En. destruct (Z.leb_spec 0 i), (Z.ltb_spec i (0 + 2000)); try lia. cbn [andb]. by rewrite blank_cells by lia.
  - destruct (set_cursor_eq (set_mem s m) 0 ltac:(lia)) as (-> & _). apply blanks_outside; lia.
Qed.

(** ** A screen *)

Module DemoScreen.
Definition blank : screen := screen_clear (mkScreen ∅ 0 (fun _ => 0)).
Definition grid : list Z := replicate 2000 32.

Lemma blank_shows : shows blank (mkTerm grid 0).
Proof. exact (proj1 (screen_clear_shows _)). Qed.
End DemoScreen.

Lemma print_string_refines_witness : shows (print_string ([104; 105; 10; 33] ++ [0]) DemoScreen.blank) (term_text (mkTerm DemoScreen.grid 0) [104; 105; 10; 33]).
Proof. exact (proj1 (print_string_refines DemoScreen.blank (mkTerm DemoScreen.grid 0) [104; 105; 10; 33] [] DemoScreen.blank_shows ltac:(repeat constructor; done))). Defined.

Lemma printed_numbers_roundtrip_witness : exists l, print_int 4096 DemoScreen.blank = foldl (fun s c => print_char c s) DemoScreen.blank ((fun d => 48 + d) <$> reverse l) /\ value_of 10 l = 4096.
Proof.
  destruct (proj1 (printed_numbers_roundtrip DemoScreen.blank 4096 ltac:(lia)) ltac:(lia)) as (l & E & _ & V & _). exists l. split; [exact E | exact V].
Defined.
