(* ===== verification/Tables.v ===== *)
(** * Descriptor tables and interrupt entry

    [kernel/gdt.c], [kernel/idt.c], the installation of the vectors of
    [kernel/isr.c], the programming of the interrupt controllers and of the
    timer. The tables are bytes in the packed layout of the source; what
    they mean is read back with the layout the processor uses, and the
    controllers are the state machines of the 8259A. *)

From Stdlib Require Import ZArith Lia Bool.
From stdpp Require Import base option list.
From S2P Require Import Prelude Frames Kernel.

(** ** Segments *)

Definition GDT_ACCESS_KCODE : Z := 0x9A.
Definition GDT_ACCESS_KDATA : Z := 0x92.
Definition GDT_ACCESS_UCODE : Z := 0xFA.
Definition GDT_ACCESS_UDATA : Z := 0xF2.
Definition GDT_ACCESS_TSS : Z := 0x89.
Definition GDT_FLAG_LONG : Z := Z.shiftl 1 5.
Definition GDT_FLAGS_KCODE : Z := GDT_FLAG_LONG.
Definition GDT_FLAGS_KDATA : Z := 0.
Definition GDT_SELECTOR_KERNEL_CODE : Z := 0x08.
Definition GDT_SELECTOR_KERNEL_DATA : Z := 0x10.
Definition GDT_SELECTOR_TSS : Z := 0x28.
Definition GDT_ENTRIES : Z := 7.

(** Bytes stored at an offset of a table. *)
Definition store_at (t : list Z) (o : Z) (bs : list Z) : list Z := take (Z.to_nat o) t ++ bs ++ drop (Z.to_nat o + length bs) t.

(** [gdt_entry_t], packed. *)
Definition gdt_entry (base limit access granularity : Z) : list Z :=
  le_bytes 2 (u16 (Z.land limit 0xFFFF)) ++ le_bytes 2 (u16 (Z.land base 0xFFFF)) ++ [u8 (Z.land (Z.shiftr base 16) 0xFF); access; granularity; u8 (Z.land (Z.shiftr base 24) 0xFF)].

Definition gdt_set_entry (gdt : list Z) (i base limit access flags : Z) : list Z :=
  store_at gdt (8 * i) (gdt_entry base limit access (u8 (Z.lor (Z.land (Z.shiftr limit 16) 0x0F) (Z.land flags 0xF0)))).

(** [tss_descriptor_t]: two entries wide. *)
Definition gdt_set_tss (gdt : list Z) (i base limit : Z) : list Z :=
  store_at gdt (8 * i)
    (gdt_entry base limit GDT_ACCESS_TSS (u8 (Z.land (Z.shiftr limit 16) 0x0F)) ++ le_bytes 4 (u32 (Z.land (Z.shiftr base 32) 0xFFFFFFFF)) ++ le_bytes 4 0).

(** [sizeof(tss_t)] *)
Definition TSS_SIZE : Z := 104.

(** [tss_t]: cleared, then [rsp0] at offset 4 and [iomap_base] at 102. *)
Definition tss_init (stack : Z) : list Z :=
  let tss := replicate (Z.to_nat TSS_SIZE) 0 in
  let tss := store_at tss 4 (le_bytes 8 (stack + 16384)) in
  store_at tss 102 (le_bytes 2 (u16 TSS_SIZE)).

(** The table and the task state segment, with the addresses the linker gave
    them. *)
Definition gdt_init (gdt : list Z) (tss_at stack : Z) : list Z * list Z :=
  let tss := tss_init stack in
  let gdt := gdt_set_entry gdt 0 0 0 0 0 in
  let gdt := gdt_set_entry gdt 1 0 0 GDT_ACCESS_KCODE GDT_FLAGS_KCODE in
  let gdt := gdt_set_entry gdt 2 0 0 GDT_ACCESS_KDATA GDT_FLAGS_KDATA in
  let gdt := gdt_set_entry gdt 3 0 0 GDT_ACCESS_UCODE GDT_FLAGS_KCODE in
  let gdt := gdt_set_entry gdt 4 0 0 GDT_ACCESS_UDATA GDT_FLAGS_KDATA in
  let gdt := gdt_set_tss gdt 5 tss_at (TSS_SIZE - 1) in
  (gdt, tss).

(** *** As the processor reads them *)

Record segment := mkSegment { sg_base : Z; sg_limit : Z; sg_present : bool; sg_dpl : Z; sg_system : bool; sg_code : bool; sg_writable : bool; sg_long : bool }.

Definition slice (t : list Z) (o n : Z) : list Z := take (Z.to_nat n) (drop (Z.to_nat o) t).

(** The descriptor a selector names: its index is bits 3 and up. *)
Definition segment_at (gdt : list Z) (selector : Z) : segment :=
  let d := of_le (slice gdt (8 * Z.shiftr selector 3) 8) in
  let bits o n := Z.land (Z.shiftr d o) (2 ^ n - 1) in
  mkSegment (bits 16 24 + 2 ^ 24 * bits 56 8) (bits 0 16 + 2 ^ 16 * bits 48 4) (Z.testbit d 47) (bits 45 2)
    (negb (Z.testbit d 44)) (Z.testbit d 43) (Z.testbit d 41) (Z.testbit d 53).

(** The base of a system descriptor has its upper half in the next eight
    bytes. *)
Definition system_base (gdt : list Z) (selector : Z) : Z :=
  sg_base (segment_at gdt selector) + 2 ^ 32 * of_le (slice gdt (8 * Z.shiftr selector 3 + 8) 4).

(** ** Gates *)

Definition PIC_MASTER_VECTOR_BASE : Z := 0x40.
Definition PIC_SLAVE_VECTOR_BASE : Z := 0x48.
Definition SYSCALL_VECTOR : Z := 0x50.
Definition EXC_COUNT : Z := 32.
Definition IDT_IST_NONE : Z := 0.
Definition KCODE : Z := 0x08.
Definition GATE : Z := 0x8E.
Definition GATE_USER : Z := 0xEE.

(** [idt_entry_t], packed. *)
Definition idt_set_entry (idt : list Z) (index base selector flags : Z) : list Z :=
  store_at idt (16 * index)
    (le_bytes 2 (u16 (Z.land base 0xFFFF)) ++ le_bytes 2 selector ++ [IDT_IST_NONE; flags] ++ le_bytes 2 (u16 (Z.land (Z.shiftr base 16) 0xFFFF)) ++
     le_bytes 4 (u32 (Z.land (Z.shiftr base 32) 0xFFFFFFFF)) ++ le_bytes 4 0).

(** The table as the loop of [idt_init] clears it. *)
Definition idt_clear : list Z := replicate (Z.to_nat (256 * 16)) 0.

(** A run of the calls of [isr_install], with the addresses of the stubs. *)
Definition install_gates (n : nat) (first : Z) (stub : Z -> Z) (idt : list Z) : list Z :=
  for_range n 0 (fun i t => idt_set_entry t (first + i) (stub i) KCODE GATE) idt.

(** *** As the processor reads them *)

Record gate := mkGate { gt_offset : Z; gt_selector : Z; gt_ist : Z; gt_type : Z; gt_dpl : Z; gt_present : bool }.

Definition gate_at (idt : list Z) (v : Z) : gate :=
  let e := slice idt (16 * v) 16 in
  let flags := znth 0 e 5 in
  mkGate (of_le (slice e 0 2) + 2 ^ 16 * of_le (slice e 6 2) + 2 ^ 32 * of_le (slice e 8 4)) (of_le (slice e 2 2)) (Z.land (znth 0 e 4) 7)
    (Z.land flags 0xF) (Z.land (Z.shiftr flags 5) 3) (Z.testbit flags 7).

(** ** The interrupt controllers *)

(** An 8259A: where its initialisation stands, the vector base, the cascade
    word, the mask and the lines in service. *)
Record pic := mkPic { pc_step : Z; pc_base : Z; pc_cascade : Z; pc_mask : Z; pc_service : Z }.

Definition pic_command (p : pic) (v : Z) : pic :=
  if Z.testbit v 4 then mkPic 1 (pc_base p) (pc_cascade p) 0 0
  else if v =? 0x20 then mkPic (pc_step p) (pc_base p) (pc_cascade p) (pc_mask p) (Z.land (pc_service p) (pc_service p - 1))
  else p.
Definition pic_data (p : pic) (v : Z) : pic :=
  if pc_step p =? 1 then mkPic 2 (Z.land v 0xF8) (pc_cascade p) (pc_mask p) (pc_service p)
  else if pc_step p =? 2 then mkPic 3 (pc_base p) v (pc_mask p) (pc_service p)
  else if pc_step p =? 3 then mkPic 0 (pc_base p) (pc_cascade p) (pc_mask p) (pc_service p)
  else mkPic 0 (pc_base p) (pc_cascade p) v (pc_service p).

(** Master and slave behind their ports. *)
Definition pics : Type := pic * pic.
Definition pic_out (ps : pics) (port v : Z) : pics :=
  if port =? 0x20 then (pic_command ps.1 v, ps.2)
  else if port =? 0x21 then (pic_data ps.1 v, ps.2)
  else if port =? 0xA0 then (ps.1, pic_command ps.2 v)
  else if port =? 0xA1 then (ps.1, pic_data ps.2 v)
  else ps.
Definition pic_in (ps : pics) (port : Z) : Z := if port =? 0x21 then pc_mask ps.1 else pc_mask ps.2.

Definition pic_remap (ps : pics) : pics :=
  let mask1 := pic_in ps 0x21 in
  let mask2 := pic_in ps 0xA1 in
  let ps := pic_out ps 0x20 0x11 in
  let ps := pic_out ps 0xA0 0x11 in
  let ps := pic_out ps 0x21 PIC_MASTER_VECTOR_BASE in
  let ps := pic_out ps 0xA1 PIC_SLAVE_VECTOR_BASE in
  let ps := pic_out ps 0x21 0x04 in
  let ps := pic_out ps 0xA1 0x02 in
  let ps := pic_out ps 0x21 0x01 in
  let ps := pic_out ps 0xA1 0x01 in
  let ps := pic_out ps 0x21 mask1 in
  pic_out ps 0xA1 mask2.

(** The table is cleared and the controllers are remapped. *)
Definition idt_init (ps : pics) : list Z * pics := (idt_clear, pic_remap ps).

(** 32 exceptions, 16 lines, the system call. *)
Definition isr_install (isr irq : Z -> Z) (syscall_stub : Z) (ps : pics) : list Z * pics :=
  let '(idt, ps) := idt_init ps in
  let idt := install_gates 32 0 isr idt in
  let idt := install_gates 16 PIC_MASTER_VECTOR_BASE irq idt in
  (idt_set_entry idt SYSCALL_VECTOR syscall_stub KCODE GATE_USER, ps).

(** The acknowledgement of [irq_handler]. *)
Definition irq_acknowledge (ps : pics) (int_no : Z) : pics :=
  let ps := if PIC_SLAVE_VECTOR_BASE <=? int_no then pic_out ps 0xA0 0x20 else ps in
  pic_out ps 0x20 0x20.

(** The processor takes line [n]: in service at its controller, and at the
    master's line 2 for the slave's; the vector it gets. *)
Definition take_line (ps : pics) (n : Z) : pics * Z :=
  let serve p i := mkPic (pc_step p) (pc_base p) (pc_cascade p) (pc_mask p) (Z.lor (pc_service p) (Z.shiftl 1 i)) in
  if n <? 8 then ((serve ps.1 n, ps.2), pc_base ps.1 + n) else ((serve ps.1 2, serve ps.2 (n - 8)), pc_base ps.2 + (n - 8)).

(** ** The timer *)

Definition PIT_BASE_FREQUENCY : Z := 1193180.
Definition PIT_CHANNEL0 : Z := 0x40.
Definition PIT_COMMAND : Z := 0x43.

(** The port writes of [timer_init]. *)
Definition timer_init (frequency : Z) : list (Z * Z) :=
  let divisor := PIT_BASE_FREQUENCY / frequency in
  [(PIT_COMMAND, 0x36); (PIT_CHANNEL0, u8 (Z.land divisor 0xFF)); (PIT_CHANNEL0, u8 (Z.land (Z.shiftr divisor 8) 0xFF))].

(** Channel 0 after the command "low byte, then high byte": the reload
    value. *)
Definition pit_reload (writes : list (Z * Z)) : option Z :=
  match writes with
  | [(c, 0x36); (p, lo); (q, hi)] => if (c =? PIT_COMMAND) && (p =? PIT_CHANNEL0) && (q =? PIT_CHANNEL0) then Some (lo + 256 * hi) else None
  | _ => None
  end.

(** ** Reading back what was stored *)

Lemma store_at_length t o bs : 0 <= o -> o + zlen bs <= zlen t -> length (store_at t o bs) = length t.
Proof. unfold store_at, zlen. intros. rewrite !length_app, length_take, length_drop. lia. Qed.

Lemma slice_store_same t o bs : 0 <= o -> o + zlen bs <= zlen t -> slice (store_at t o bs) o (zlen bs) = bs.
Proof.
  unfold slice, store_at, zlen. intros Ho Hl. rewrite Nat2Z.id. rewrite drop_app_ge by (rewrite length_take; lia). rewrite length_take, Nat.min_l by lia. rewrite Nat.sub_diag, drop_0. apply take_app_length.
Qed.

Lemma lookup_store t o bs i : 0 <= o -> o + zlen bs <= zlen t -> (i < Z.to_nat o \/ Z.to_nat o + length bs <= i)%nat -> store_at t o bs !! i = t !! i.
Proof.
  unfold store_at, zlen. intros Ho Hl Hi. assert (length (take (Z.to_nat o) t) = Z.to_nat o) as Ht by (rewrite length_take; lia). destruct Hi as [Hi | Hi].
  - rewrite lookup_app_l by lia. by apply lookup_take_lt.
  - rewrite lookup_app_r by lia. rewrite lookup_app_r by lia. rewrite lookup_drop. f_equal. lia.
Qed.

Lemma slice_store_other t o bs o' n : 0 <= o -> o + zlen bs <= zlen t -> 0 <= o' -> (o' + n <= o \/ o + zlen bs <= o') -> slice (store_at t o bs) o' n = slice t o' n.
Proof.
  intros Ho Hl Ho' Hd. unfold slice. apply list_eq. intros i. destruct (decide (i < Z.to_nat n)%nat) as [Hi | Hi].
  - rewrite !lookup_take_lt, !lookup_drop by done. apply lookup_store; [done | done |]. unfold zlen in Hd. lia.
  - rewrite !lookup_take_ge by lia. done.
Qed.

Lemma land_mod x n : 0 <= n -> Z.land x (2 ^ n - 1) = x mod 2 ^ n.
Proof. intros Hn. rewrite <- Z.land_ones by done. f_equal. rewrite Z.ones_equiv. lia. Qed.

(** An address cut into fields. *)
Lemma split_address b : 0 <= b < 2 ^ 64 ->
  u16 (Z.land b 0xFFFF) = b mod 2 ^ 16 /\ u16 (Z.land (Z.shiftr b 16) 0xFFFF) = b / 2 ^ 16 mod 2 ^ 16 /\ u32 (Z.land (Z.shiftr b 32) 0xFFFFFFFF) = b / 2 ^ 32 /\
  u8 (Z.land (Z.shiftr b 16) 0xFF) = b / 2 ^ 16 mod 2 ^ 8 /\ u8 (Z.land (Z.shiftr b 24) 0xFF) = b / 2 ^ 24 mod 2 ^ 8.
Proof.
  intros Hb. change 0xFFFF with (2 ^ 16 - 1). change 0xFFFFFFFF with (2 ^ 32 - 1). change 0xFF with (2 ^ 8 - 1). rewrite !land_mod, !Z.shiftr_div_pow2 by lia.
  unfold u16, u32, u8. rewrite !Zmod_mod. rewrite (Z.mod_small (b / 2 ^ 32)) by (split; [apply Z.div_pos; lia | apply Z.div_lt_upper_bound; lia]). done.
Qed.

Lemma idt_entry_gate t i b s f : length t = 4096%nat -> 0 <= i < 256 -> 0 <= b < 2 ^ 64 -> 0 <= s < 2 ^ 16 ->
  gate_at (idt_set_entry t i b s f) i = mkGate b s 0 (Z.land f 0xF) (Z.land (Z.shiftr f 5) 3) (Z.testbit f 7).
Proof.
  intros Ht Hi Hb Hs. unfold idt_set_entry, gate_at. set (e := le_bytes 2 _ ++ _). assert (zlen e = 16) as He by done.
  assert (slice (store_at t (16 * i) e) (16 * i) 16 = e) as -> by (rewrite <- He; apply slice_store_same; unfold zlen in *; lia).
  destruct (split_address b Hb) as (E1 & E2 & E3 & _). unfold e. rewrite E1, E2, E3.
  change (slice _ 0 2) with (le_bytes 2 (b mod 2 ^ 16)). change (slice _ 6 2) with (le_bytes 2 (b / 2 ^ 16 mod 2 ^ 16)). change (slice _ 8 4) with (le_bytes 4 (b / 2 ^ 32)). change (slice _ 2 2) with (le_bytes 2 s).
  rewrite !of_le_bytes by (change (256 ^ Z.of_nat 2) with (2 ^ 16); change (256 ^ Z.of_nat 4) with (2 ^ 32); (apply Z.mod_pos_bound; lia) || (split; [apply Z.div_pos; lia | apply Z.div_lt_upper_bound; lia]) || lia).
  change (znth 0 _ 5) with f. change (znth 0 _ 4) with 0. f_equal. mlia.
Qed.

Lemma idt_entry_other t i j b s f : length t = 4096%nat -> 0 <= i < 256 -> 0 <= j < 256 -> i <> j -> gate_at (idt_set_entry t i b s f) j = gate_at t j.
Proof.
  intros Ht Hi Hj Hne. unfold idt_set_entry, gate_at. set (e := le_bytes 2 _ ++ _). assert (zlen e = 16) as He by done.
  rewrite slice_store_other; [done | lia | unfold zlen in *; lia | lia | rewrite He; lia].
Qed.

Lemma idt_entry_length t i b s f : length t = 4096%nat -> 0 <= i < 256 -> length (idt_set_entry t i b s f) = 4096%nat.
Proof. intros Ht Hi. unfold idt_set_entry. rewrite store_at_length; [done | lia |]. unfold zlen. rewrite Ht. simpl length. lia. Qed.

(** A run of gates of one kind. *)
Lemma gates_range n lo t stub : length t = 4096%nat -> 0 <= lo -> lo + Z.of_nat n <= 256 -> (forall i, 0 <= i < Z.of_nat n -> 0 <= stub i < 2 ^ 64) ->
  length (install_gates n lo stub t) = 4096%nat /\ forall v, 0 <= v < 256 ->
    gate_at (install_gates n lo stub t) v = if (lo <=? v) && (v <? lo + Z.of_nat n) then mkGate (stub (v - lo)) KCODE 0 0xE 0 true else gate_at t v.
Proof.
  intros Ht Hlo Hn Hs. unfold install_gates.
  apply (for_range_ind (fun k t' => length t' = 4096%nat /\ forall v, 0 <= v < 256 ->
    gate_at t' v = if (lo <=? v) && (v <? lo + k) then mkGate (stub (v - lo)) KCODE 0 0xE 0 true else gate_at t v)).
  - split; [done |]. intros v Hv. zcases; simpl; done || lia.
  - intros k t' Hk [Hl IH]. split; [apply idt_entry_length; [done | lia] |]. intros v Hv. destruct (Z.eq_dec v (lo + k)) as [-> | Hne].
    + rewrite (idt_entry_gate _ _ _ _ _ Hl); [| lia | apply Hs; lia | done]. replace (lo + k - lo) with k by lia. zcases; simpl; done || lia.
    + rewrite (idt_entry_other _ _ _ _ _ _ Hl); [| lia | done | congruence]. rewrite (IH v Hv). zcases; simpl; done || lia.
Qed.

Lemma gate_clear v : 0 <= v < 256 -> gate_at idt_clear v = mkGate 0 0 0 0 0 false.
Proof.
  intros Hv. unfold gate_at, idt_clear. assert (slice (replicate (Z.to_nat (256 * 16)) 0) (16 * v) 16 = replicate 16 0) as ->; [| done].
  unfold slice. rewrite drop_replicate, take_replicate. f_equal. lia.
Qed.

(** The vectors of [isr_install]. *)
Definition expected_gate (isr irq : Z -> Z) (syscall_stub v : Z) : gate :=
  if v <? 32 then mkGate (isr v) KCODE 0 0xE 0 true
  else if (0x40 <=? v) && (v <? 0x50) then mkGate (irq (v - 0x40)) KCODE 0 0xE 0 true
  else if v =? SYSCALL_VECTOR then mkGate syscall_stub KCODE 0 0xE 3 true
  else mkGate 0 0 0 0 0 false.

Definition address (a : Z) : Prop := 0 <= a < 2 ^ 64.

Lemma isr_install_gates isr irq stub ps v : (forall i, 0 <= i < 32 -> address (isr i)) -> (forall i, 0 <= i < 16 -> address (irq i)) -> address stub -> 0 <= v < 256 ->
  gate_at (isr_install isr irq stub ps).1 v = expected_gate isr irq stub v.
Proof.
  intros H1 H2 H3 Hv. unfold isr_install, idt_init. cbn [fst]. assert (length idt_clear = 4096%nat) as H0 by (apply length_replicate).
  destruct (gates_range 32 0 idt_clear isr H0 ltac:(lia) ltac:(lia) H1) as [L1 G1]. revert L1 G1. generalize (install_gates 32 0 isr idt_clear). intros t1 L1 G1.
  destruct (gates_range 16 PIC_MASTER_VECTOR_BASE t1 irq L1 ltac:(done) ltac:(done) H2) as [L2 G2]. revert L2 G2. generalize (install_gates 16 PIC_MASTER_VECTOR_BASE irq t1). intros t2 L2 G2.
  unfold expected_gate. destruct (Z.eqb_spec v SYSCALL_VECTOR) as [-> | Hne]; [rewrite (idt_entry_gate _ _ _ _ _ L2); [reflexivity | done | exact H3 | done] |].
  rewrite (idt_entry_other _ _ _ _ _ _ L2); [| done | exact Hv | congruence]. rewrite (G2 v Hv), (G1 v Hv), (gate_clear v Hv).
  unfold PIC_MASTER_VECTOR_BASE. change (0x40 + Z.of_nat 16) with 0x50. change (0 + Z.of_nat 32) with 32. rewrite Z.sub_0_r. zcases; simpl; try lia; reflexivity.
Qed.

(** ** The segments *)

Definition table0 : list Z := replicate (Z.to_nat (8 * GDT_ENTRIES)) 0.

Lemma gdt_segments tss_at stack :
  let gdt := (gdt_init table0 tss_at stack).1 in
  segment_at gdt GDT_SELECTOR_KERNEL_CODE = mkSegment 0 0 true 0 false true true true /\ segment_at gdt GDT_SELECTOR_KERNEL_DATA = mkSegment 0 0 true 0 false false true false /\
  segment_at gdt GDT_SELECTOR_USER_CODE = mkSegment 0 0 true 3 false true true true /\ segment_at gdt GDT_SELECTOR_USER_DATA = mkSegment 0 0 true 3 false false true false.
Proof. split_and!; reflexivity. Qed.

(** The bytes of the descriptor of the task state segment. *)
Lemma gdt_tss tss_at stack : address tss_at ->
  let gdt := (gdt_init table0 tss_at stack).1 in
  system_base gdt GDT_SELECTOR_TSS = tss_at /\ sg_limit (segment_at gdt GDT_SELECTOR_TSS) = TSS_SIZE - 1 /\ sg_present (segment_at gdt GDT_SELECTOR_TSS) = true /\
  sg_system (segment_at gdt GDT_SELECTOR_TSS) = true.
Proof.
  intros Ha. cbv zeta. destruct (split_address tss_at Ha) as (E1 & _ & E3 & E4 & E5). unfold gdt_init, gdt_set_tss, gdt_entry. cbn [fst]. rewrite E1, E3, E4, E5.
  set (lo := tss_at mod 2 ^ 16). set (mid := tss_at / 2 ^ 16 mod 2 ^ 8). set (hi := tss_at / 2 ^ 24 mod 2 ^ 8). set (up := tss_at / 2 ^ 32).
  assert (0 <= lo < 2 ^ 16) by (apply Z.mod_pos_bound; lia). assert (0 <= mid < 2 ^ 8) by (apply Z.mod_pos_bound; lia). assert (0 <= hi < 2 ^ 8) by (apply Z.mod_pos_bound; lia).
  assert (0 <= up < 2 ^ 32) by (unfold address in Ha; split; [apply Z.div_pos; lia | apply Z.div_lt_upper_bound; lia]).
  unfold system_base, segment_at. cbn [sg_base sg_limit sg_present sg_system].
  match goal with |- context [of_le (slice ?g (8 * Z.shiftr GDT_SELECTOR_TSS 3) 8)] => assert (of_le (slice g (8 * Z.shiftr GDT_SELECTOR_TSS 3) 8) = 103 + 2 ^ 16 * lo + 2 ^ 32 * mid + 2 ^ 40 * 0x89 + 2 ^ 56 * hi) as ->;
    [| assert (of_le (slice g (8 * Z.shiftr GDT_SELECTOR_TSS 3 + 8) 4) = up) as ->] end.
  - match goal with |- of_le ?x = _ => change x with (le_bytes 2 103 ++ le_bytes 2 lo ++ [mid; 0x89; 0; hi]) end.
    clearbody lo mid hi up. cbn [le_bytes app of_le]. mlia.
  - match goal with |- of_le ?x = _ => change x with (le_bytes 4 up) end. by apply of_le_bytes.
  - set (d := 103 + _ + _ + _ + _). rewrite !land_mod, !Z.shiftr_div_pow2 by lia.
    assert (d / 2 ^ 16 mod 2 ^ 24 = lo + 2 ^ 16 * mid) as -> by (clearbody lo mid hi up; unfold d; mlia).
    assert (d / 2 ^ 56 mod 2 ^ 8 = hi) as -> by (clearbody lo mid hi up; unfold d; mlia).
    assert (d / 2 ^ 0 mod 2 ^ 16 = 103) as -> by (clearbody lo mid hi up; unfold d; mlia).
    assert (d / 2 ^ 48 mod 2 ^ 4 = 0) as -> by (clearbody lo mid hi up; unfold d; mlia).
    split; [unfold lo, mid, hi, up, address in *; mlia |]. split; [done |]. split.
    + apply Z.testbit_true; [lia |]. clearbody lo mid hi up. unfold d. mlia.
    + apply negb_true_iff, Z.testbit_false; [lia |]. clearbody lo mid hi up. unfold d. mlia.
Qed.

Lemma tss_stack stack : address (stack + 16384) -> of_le (slice (tss_init stack) 4 8) = stack + 16384 /\ of_le (slice (tss_init stack) 102 2) = TSS_SIZE.
Proof.
  intros Ha. unfold tss_init. change (slice _ 4 8) with (le_bytes 8 (stack + 16384)). split; [by apply of_le_bytes | done].
Qed.

(** Every byte of the table is written, so it does not matter what [.bss]
    held. *)
Lemma gdt_init_all gdt tss_at stack : length gdt = Z.to_nat (8 * GDT_ENTRIES) -> gdt_init gdt tss_at stack = gdt_init table0 tss_at stack.
Proof. intros H. do 56 (destruct gdt as [| ? gdt]; [discriminate H |]). destruct gdt; [reflexivity | discriminate H]. Qed.

(** ** The controllers *)

Lemma pic_remap_eq m1 m2 : pic_remap (m1, m2) = (mkPic 0 0x40 4 (pc_mask m1) 0, mkPic 0 0x48 2 (pc_mask m2) 0).
Proof. reflexivity. Qed.

Lemma shiftl_one_clear i : 0 <= i -> Z.land (Z.shiftl 1 i) (Z.shiftl 1 i - 1) = 0.
Proof. intros Hi. rewrite Z.shiftl_1_l, land_mod by done. apply Z.mod_same. lia. Qed.

Lemma line_acknowledged m1 m2 n : 0 <= n < 16 ->
  let ps := pic_remap (m1, m2) in let '(ps', vector) := take_line ps n in vector = PIC_MASTER_VECTOR_BASE + n /\ irq_acknowledge ps' vector = ps.
Proof.
  intros Hn. rewrite pic_remap_eq. cbv zeta. unfold take_line. cbn [fst snd pc_base pc_step pc_cascade pc_mask pc_service]. rewrite !Z.lor_0_l.
  destruct (Z.ltb_spec n 8); (split; [unfold PIC_MASTER_VECTOR_BASE; lia |]); unfold irq_acknowledge, PIC_SLAVE_VECTOR_BASE.
  - destruct (Z.leb_spec 0x48 (0x40 + n)); [lia |]. unfold pic_out, pic_command. simpl. by rewrite shiftl_one_clear by lia.
  - destruct (Z.leb_spec 0x48 (0x48 + (n - 8))); [| lia]. unfold pic_out, pic_command. cbn [fst snd Z.eqb Pos.eqb Z.testbit Pos.testbit pc_base pc_step pc_cascade pc_mask pc_service]. rewrite !shiftl_one_clear by lia. reflexivity.
Qed.

(** ** The entry to the kernel *)

(** C37: The tables are as the kernel relies on them, whatever memory held
    before they were written. Every gate of a vector
    that is used leads through the kernel's code segment to its stub with
    interrupts off; ring 3 can raise the system call and nothing else by an
    instruction, and the remaining vectors are not present. The selectors of
    the kernel and of ring 3 name segments of levels 0 and 3, the task
    segment is where it should be with the top of its stack and without an
    I/O bitmap. After the controllers are remapped, with their masks kept,
    a hardware line arrives at the vector of its own gate, apart from the
    exceptions, and one acknowledgement puts the controllers back. The timer
    gets the divisor of its frequency. *)
Theorem tables_protect isr irq stub gdt0 tss_at stack m1 m2 :
  length gdt0 = Z.to_nat (8 * GDT_ENTRIES) ->
  (forall i, 0 <= i < 32 -> address (isr i)) -> (forall i, 0 <= i < 16 -> address (irq i)) -> address stub -> address tss_at -> address (stack + 16384) ->
  let idt := (isr_install isr irq stub (m1, m2)).1 in
  let gdt := (gdt_init gdt0 tss_at stack).1 in
  let tss := (gdt_init gdt0 tss_at stack).2 in
  let ps := (isr_install isr irq stub (m1, m2)).2 in
  (forall v, 0 <= v < 256 -> gate_at idt v = expected_gate isr irq stub v) /\
  (forall v, 0 <= v < 256 -> gt_present (gate_at idt v) = true -> segment_at gdt (gt_selector (gate_at idt v)) = mkSegment 0 0 true 0 false true true true /\ (gt_dpl (gate_at idt v) = 3 <-> v = SYSCALL_VECTOR)) /\
  sg_dpl (segment_at gdt GDT_SELECTOR_USER_CODE) = 3 /\ sg_code (segment_at gdt GDT_SELECTOR_USER_CODE) = true /\ sg_dpl (segment_at gdt GDT_SELECTOR_USER_DATA) = 3 /\ sg_writable (segment_at gdt GDT_SELECTOR_USER_DATA) = true /\
  system_base gdt GDT_SELECTOR_TSS = tss_at /\ of_le (slice tss 4 8) = stack + 16384 /\ sg_limit (segment_at gdt GDT_SELECTOR_TSS) < of_le (slice tss 102 2) /\
  pc_mask ps.1 = pc_mask m1 /\ pc_mask ps.2 = pc_mask m2 /\
  (forall n, 0 <= n < 16 -> let '(ps', vector) := take_line ps n in gt_offset (gate_at idt vector) = irq n /\ irq_acknowledge ps' vector = ps) /\
  pit_reload (timer_init 100) = Some (PIT_BASE_FREQUENCY / 100).
Proof.
  intros H0 H1 H2 H3 H4 H5. cbv zeta. rewrite (gdt_init_all gdt0) by done. change ((isr_install isr irq stub (m1, m2)).2) with (pic_remap (m1, m2)).
  destruct (gdt_segments tss_at stack) as (S1 & S2 & S3 & S4). destruct (gdt_tss tss_at stack H4) as (T1 & T2 & _). destruct (tss_stack stack H5) as [K1 K2].
  assert (forall v, 0 <= v < 256 -> gate_at (isr_install isr irq stub (m1, m2)).1 v = expected_gate isr irq stub v) as G by (intros v Hv; by apply isr_install_gates).
  split; [exact G |]. split.
  { intros v Hv. rewrite (G v Hv). unfold expected_gate. zcases; simpl; intros Hp; try (discriminate Hp); (split; [exact S1 |]); unfold SYSCALL_VECTOR in *; split; intros; subst; lia. }
  rewrite S3, S4. do 4 (split; [reflexivity |]). split; [exact T1 |]. split; [exact K1 |]. split; [rewrite T2; change ((gdt_init table0 tss_at stack).2) with (tss_init stack); rewrite K2; unfold TSS_SIZE; lia |].
  split; [reflexivity |]. split; [reflexivity |]. split; [| reflexivity].
  intros n Hn. pose proof (line_acknowledged m1 m2 n Hn) as Hl. cbv zeta in Hl. destruct (take_line (pic_remap (m1, m2)) n) as [ps' vector]. destruct Hl as [-> Ha]. split; [| exact Ha].
  rewrite (G _) by (unfold PIC_MASTER_VECTOR_BASE; lia). unfold expected_gate, PIC_MASTER_VECTOR_BASE. replace (0x40 + n - 0x40) with n by lia. zcases; simpl; try lia; reflexivity.
Qed.

(** Stubs one after the other, and the keyboard's line. *)
Lemma tables_protect_witness :
  let idt := (isr_install (fun i => 0x101000 + 16 * i) (fun i => 0x102000 + 16 * i) 0x103000 (mkPic 0 8 0 0xB8 0, mkPic 0 0x70 0 0x8E 0)).1 in
  gate_at idt 14 = mkGate 0x1010E0 8 0 0xE 0 true /\ gate_at idt 0x50 = mkGate 0x103000 8 0 0xE 3 true /\ gate_at idt 0x80 = mkGate 0 0 0 0 0 false /\
  gt_offset (gate_at idt 0x41) = 0x102010.
Proof.
  destruct (tables_protect (fun i => 0x101000 + 16 * i) (fun i => 0x102000 + 16 * i) 0x103000 (replicate 56 7) 0x200000 0x201000 (mkPic 0 8 0 0xB8 0) (mkPic 0 0x70 0 0x8E 0)) as (G & _ & _ & _ & _ & _ & _ & _ & _ & _ & _ & L & _).
  - reflexivity.
  - intros i Hi. unfold address. lia.
  - intros i Hi. unfold address. lia.
  - unfold address. lia.
  - unfold address. lia.
  - unfold address. lia.
  - split; [rewrite G by lia; reflexivity |]. split; [rewrite G by lia; reflexivity |]. split; [rewrite G by lia; reflexivity |]. exact (proj1 (L 1 ltac:(lia))).
Defined.
