(* ===== verification/Faults.v ===== *)
(** * Fault reports

    The exception half of [kernel/isr.c]: what the kernel shows when the
    processor raises one of the vectors 0 to 31, before it halts. The
    functions drive the screen of [Screen]; the theorems say which text comes
    out, that the numbers in it read back, and that nothing but the display
    is written on the way. *)

From Stdlib Require Import ZArith Lia Bool Ascii String.
From stdpp Require Import base option list.
From S2P Require Import Prelude Phys Libc Frames Kernel Screen Tables.

(** ** The reports *)

(** What drives the screen, one statement after the other. *)
Definition action : Type := screen -> screen.
Definition after (f g : action) : action := fun s => g (f s).
Declare Scope action_scope.
Delimit Scope action_scope with action.
Bind Scope action_scope with action.
Notation "f ;; g" := (after f g) (at level 100, g at level 200, right associativity) : action_scope.
Definition skip : action := fun s => s.

Definition EXC_DOUBLE_FAULT : Z := 8.
Definition EXC_GENERAL_PROTECTION : Z := 13.
Definition EXC_PAGE_FAULT : Z := 14.

Definition reserved : string * string := ("reserved", "a vector Intel reserves, this should not fire")%string.

Definition exceptions : list (string * string) :=
  [("divide by zero", "the finger divided a box by nothing");
   ("debug", "a debug trap fired, a single step or a hardware breakpoint");
   ("non-maskable", "an unmaskable hardware line went off, something urgent outside the CPU");
   ("breakpoint", "the finger hit a planted int3 breakpoint");
   ("overflow", "an into instruction ran with the overflow flag set");
   ("bound range", "an index fell outside its bound check");
   ("invalid opcode", "the finger read a box that isn't a real instruction");
   ("device not available", "the FPU or SSE was used while it was switched off");
   ("double fault", "a fault happened while handling a fault");
   ("coprocessor overrun", "a legacy coprocessor segment overrun, unused on this CPU");
   ("invalid TSS", "the CPU followed a task selector into a broken TSS");
   ("segment not present", "a segment was used whose present bit is clear");
   ("stack-segment fault", "a stack access broke its segment limit or hit a not-present stack");
   ("general protection", "the finger tried an operation the rules forbid");
   ("page fault", "the finger reached for a box that isn't mapped");
   reserved;
   ("x87 floating point", "the x87 FPU reported a pending arithmetic error");
   ("alignment check", "a misaligned access happened while alignment checks are on");
   ("machine check", "the hardware reported an internal fault of its own");
   ("SIMD floating point", "an SSE or AVX floating-point operation faulted");
   ("virtualization", "a virtualization (EPT) violation was delivered to the guest");
   ("control protection", "a shadow-stack or CET control-flow violation");
   reserved; reserved; reserved; reserved; reserved; reserved;
   ("hypervisor injection", "a hypervisor injection exception");
   ("VMM communication", "an SEV-ES VMM communication exception");
   ("security", "a security-sensitive event was raised");
   reserved]%string.

(** [digits[...]], the upper-case digits. *)
Definition digits : list Z := chars_of "0123456789ABCDEF".

(** The buffers of 19 and 5 bytes, filled front to back. *)
Definition hex64_buf (value : Z) : list Z :=
  [48; 120] ++ ((fun i => znth 0 digits (Z.land (Z.shiftr value ((15 - i) * 4)) 0xF)) <$> seqZ 0 16) ++ [0].
Definition print_hex64 (value : Z) : action := print_string (hex64_buf value).
Definition hex_byte_buf (value : Z) : list Z :=
  [48; 120; znth 0 digits (Z.land (Z.shiftr value 4) 0xF); znth 0 digits (Z.land value 0xF); 0].
Definition print_hex_byte (value : Z) : action := print_string (hex_byte_buf value).

Definition print_fault_frame (r : registers) : action :=
  (print_string (lit "  the finger (RIP) : ") ;; print_hex64 (rip r) ;; print_char 10 ;;
   print_string (lit "  code seg   (CS)  : ") ;; print_hex64 (cs r) ;; print_char 10 ;;
   print_string (lit "  flags    (RFLAGS): ") ;; print_hex64 (rflags r) ;; print_char 10)%action.

(** [cr2] is the register the source reads. *)
Definition report_page_fault (r : registers) (cr2 : Z) : action :=
  let err := err_code r in
  (print_string (lit_nl "THE FINGER REACHED FOR A BOX THAT ISN'T THERE") ;;
   print_string (lit "  fake address : ") ;; print_hex64 cr2 ;; print_char 10 ;;
   print_string (lit "  it was       : ") ;;
   print_string (if Z.land err 0x2 =? 0 then lit_nl "a read" else lit_nl "a write") ;;
   print_string (lit "  the page     : ") ;;
   print_string (if Z.land err 0x1 =? 0 then lit_nl "not present" else lit_nl "present but the access was forbidden") ;;
   print_string (lit "  came from    : ") ;;
   print_string (if Z.land err 0x4 =? 0 then lit_nl "kernel" else lit_nl "user") ;;
   (if Z.land err 0x8 =? 0 then skip else print_string (lit_nl "  also         : a reserved bit was set in a page table entry")) ;;
   (if Z.land err 0x10 =? 0 then skip else print_string (lit_nl "  also         : the access was an instruction fetch")))%action.

Definition report_general_protection (r : registers) : action :=
  let err := err_code r in
  (print_string (lit_nl "SOMEONE TRIED SOMETHING THEY'RE NOT ALLOWED TO") ;;
   print_string (lit "  CPL was : ") ;; print_int (u32 (Z.land (cs r) 0x3)) ;; print_char 10 ;;
   if err =? 0 then print_string (lit_nl "  selector: none, the error code is zero (not tied to a segment)")
   else
     let index := u32 (Z.land (Z.shiftr err 3) 0x1FFF) in
     let table := Z.land (Z.shiftr err 1) 0x3 in
     print_string (lit "  selector: index ") ;; print_int index ;; print_string (lit " in the ") ;;
     (if table =? 0 then print_string (lit "GDT") else if table =? 2 then print_string (lit "LDT") else print_string (lit "IDT")) ;;
     (if Z.land err 0x1 =? 0 then skip else print_string (lit ", flagged external")) ;;
     print_char 10)%action.

Definition report_double_fault : action :=
  (print_string (lit_nl "A FAULT HAPPENED WHILE HANDLING A FAULT") ;;
   print_string (lit_nl "  the error code is always zero here and carries no information.") ;;
   print_string (lit_nl "  this usually means a broken IDT, a broken GDT, or a stack that") ;;
   print_string (lit_nl "  could not be pushed to."))%action.

(** The screen when the processor halts for good. *)
Definition isr_handler (r : registers) (cr2 : Z) : action :=
  let vec := u8 (int_no r) in
  let info := if vec <? EXC_COUNT then nth (Z.to_nat vec) exceptions reserved else ("unknown", "not a CPU exception")%string in
  (print_char 10 ;;
   print_string (lit "=== CPU EXCEPTION ") ;; print_hex_byte vec ;;
   print_string (lit " (") ;; print_string (lit info.1) ;; print_string (lit_nl ") ===") ;;
   print_string (lit "  what happened: ") ;; print_string (lit info.2) ;; print_char 10 ;;
   (if vec =? EXC_PAGE_FAULT then report_page_fault r cr2
    else if vec =? EXC_GENERAL_PROTECTION then report_general_protection r
    else if vec =? EXC_DOUBLE_FAULT then report_double_fault
    else skip) ;;
   print_fault_frame r ;;
   print_string (lit_nl "halting. nothing to schedule, nothing to kill."))%action.

(** ** The text of an action *)

(** A list of given characters. *)
Ltac plain := repeat (apply Forall_cons; split; [lia |]); apply Forall_nil; done.

(** The action prints this text and does nothing else. *)
Record prints (f : action) (text : list Z) : Prop := {
  pr_does : forall s, f s = foldl (fun s c => print_char c s) s text;
  pr_plain : Forall (fun c => 0 < c < 256) text;
}.

Lemma prints_after f g a b : prints f a -> prints g b -> prints (after f g) (a ++ b).
Proof. intros [F1 F2] [G1 G2]. split; [intros s; unfold after; by rewrite F1, G1, foldl_app | by apply Forall_app]. Qed.

Lemma prints_skip : prints skip [].
Proof. by split. Qed.

Lemma prints_char c : 0 < c < 256 -> prints (print_char c) [c].
Proof. intros Hc. split; [done | plain]. Qed.

Lemma prints_string text : Forall (fun c => 0 < c < 256) text -> prints (print_string (text ++ [0])) text.
Proof. intros H. split; [intros s; by apply print_string_text | done]. Qed.

Lemma prints_lit s : plain_text s = true -> prints (print_string (lit s)) (chars_of s).
Proof. intros [H _]%plain_text_ok. by apply prints_string. Qed.

Lemma prints_lit_nl s : plain_text s = true -> prints (print_string (lit_nl s)) (chars_of s ++ [10]).
Proof.
  intros [H _]%plain_text_ok. unfold lit_nl. change [10; 0] with ([10] ++ [0]). rewrite (app_assoc (chars_of s)).
  apply prints_string, Forall_app. split; [done | plain].
Qed.

Lemma prints_if (b : bool) f g x y : prints f x -> prints g y -> prints (if b then f else g) (if b then x else y).
Proof. by destruct b. Qed.

Lemma prints_string_if (b : bool) f g x y : prints (print_string f) x -> prints (print_string g) y -> prints (print_string (if b then f else g)) (if b then x else y).
Proof. by destruct b. Qed.

(** ** Numbers *)

Definition upper (d : Z) : Z := if d <? 10 then 48 + d else 65 + (d - 10).

(** [text] is [0x] with [w] upper-case digits that read as [n]. *)
Definition hex_text (w : nat) (n : Z) (text : list Z) : Prop :=
  exists l, length l = w /\ Forall (fun d => 0 <= d < 16) l /\ value_of 16 l = n /\ text = [48; 120] ++ (upper <$> reverse l).

(** [text] is the decimal numeral of [n] without superfluous zeros. *)
Definition dec_text (n : Z) (text : list Z) : Prop :=
  (n = 0 /\ text = [48]) \/
  exists l, Forall (fun d => 0 <= d < 10) l /\ value_of 10 l = n /\ last l <> Some 0 /\ text = (fun d => 48 + d) <$> reverse l.

Lemma digits_upper d : 0 <= d < 16 -> znth 0 digits d = upper d.
Proof.
  intros Hd. assert (forallb (fun d => znth 0 digits d =? upper d) (seqZ 0 16) = true) as H by reflexivity.
  rewrite forallb_forall in H. apply Z.eqb_eq, H, list_elem_of_In, elem_of_seqZ. lia.
Qed.

Lemma upper_plain d : 0 <= d < 16 -> 0 < upper d < 256.
Proof. unfold upper. zcases; lia. Qed.

Lemma nibble x k : 0 <= x -> 0 <= k -> Z.land (Z.shiftr x k) 0xF = x / 2 ^ k mod 16.
Proof. intros Hx Hk. change 0xF with (2 ^ 4 - 1). by rewrite land_mod, Z.shiftr_div_pow2. Qed.

Lemma hex_text_plain w n text : hex_text w n text -> Forall (fun c => 0 < c < 256) text.
Proof.
  intros (l & _ & Hl & _ & ->). apply Forall_app. split; [plain |]. apply Forall_fmap, Forall_reverse.
  eapply Forall_impl; [exact Hl |]. intros d Hd. by apply upper_plain.
Qed.

Lemma hex64_text n : 0 <= n < 2 ^ 64 -> exists text, hex64_buf n = text ++ [0] /\ hex_text 16 n text.
Proof.
  intros Hn. pose (l := (fun i => n / 2 ^ (4 * i) mod 16) <$> seqZ 0 16). exists ([48; 120] ++ (upper <$> reverse l)).
  assert (Forall (fun d => 0 <= d < 16) l) as Hl by (apply Forall_fmap, Forall_true; intros i; apply Z.mod_pos_bound; lia). split.
  - unfold hex64_buf. rewrite <- app_assoc. do 2 f_equal. unfold l.
    change (reverse ((fun i => n / 2 ^ (4 * i) mod 16) <$> seqZ 0 16)) with ((fun i => n / 2 ^ ((15 - i) * 4) mod 16) <$> seqZ 0 16).
    rewrite <- list_fmap_compose. apply list_fmap_ext. intros i x Hx. apply list_elem_of_lookup_2, elem_of_seqZ in Hx. simpl.
    rewrite nibble by lia. apply digits_upper, Z.mod_pos_bound. lia.
  - exists l. split; [done |]. split; [done |]. split; [| done]. unfold l. clear -Hn. cbn [seqZ seq fmap list_fmap value_of Z.of_nat Z.to_nat Pos.to_nat Pos.iter_op].
    simpl value_of. mlia.
Qed.

Lemma hex_byte_text n : 0 <= n < 256 -> exists text, hex_byte_buf n = text ++ [0] /\ hex_text 2 n text.
Proof.
  intros Hn. exists [48; 120; upper (n / 16 mod 16); upper (n mod 16)]. split.
  - unfold hex_byte_buf. rewrite nibble by lia. change 0xF with (2 ^ 4 - 1). rewrite land_mod by lia. rewrite !digits_upper by (apply Z.mod_pos_bound; lia). done.
  - exists [n mod 16; n / 16 mod 16]. split; [done |]. split; [repeat constructor; apply Z.mod_pos_bound; lia |]. split; [simpl; mlia | done].
Qed.

Lemma prints_hex64 n : 0 <= n < 2 ^ 64 -> exists text, hex_text 16 n text /\ prints (print_hex64 n) text.
Proof. intros Hn. destruct (hex64_text n Hn) as (text & E & H). exists text. split; [done |]. unfold print_hex64. rewrite E. by apply prints_string, (hex_text_plain 16 n). Qed.

Lemma prints_hex_byte n : 0 <= n < 256 -> exists text, hex_text 2 n text /\ prints (print_hex_byte n) text.
Proof. intros Hn. destruct (hex_byte_text n Hn) as (text & E & H). exists text. split; [done |]. unfold print_hex_byte. rewrite E. by apply prints_string, (hex_text_plain 2 n). Qed.

Lemma prints_int n : 0 <= n < 2 ^ 32 -> exists text, dec_text n text /\ prints (print_int n) text.
Proof.
  intros Hn. unfold print_int. destruct (Z.eqb_spec n 0) as [-> | Hz]; [exists [48]; split; [by left | by apply prints_char] |].
  destruct (int_digits_spec 11 n ltac:(lia)) as (l & E & H1 & H2 & H3 & H4). exists ((fun d => 48 + d) <$> reverse l). split; [right; by exists l |].
  unfold print_reversed. rewrite E, <- fmap_reverse. split; [done |]. apply Forall_fmap, Forall_reverse. eapply Forall_impl; [exact H1 |]. intros d Hd. unfold compose. simpl in Hd |- *. lia.
Qed.

Lemma land_bit x k : 0 <= k -> (Z.land x (2 ^ k) =? 0) = negb (Z.testbit x k).
Proof.
  intros Hk. destruct (Z.testbit x k) eqn:E; simpl.
  - apply Z.eqb_neq. intros H. assert (Z.testbit (Z.land x (2 ^ k)) k = true) as Hb by (rewrite Z.land_spec, E, Z.pow2_bits_true; done). by rewrite H, Z.testbit_0_l in Hb.
  - apply Z.eqb_eq, Z.bits_inj'. intros j Hj. rewrite Z.land_spec, Z.testbit_0_l, Z.pow2_bits_eqb by lia. destruct (Z.eqb_spec k j) as [-> | Hne]; [by rewrite E | apply andb_false_r].
Qed.

(** ** What a report says *)

Definition nl (s : string) : list Z := chars_of s ++ [10].

(** The cause of a page fault, in the bits of its error code. *)
Definition page_fault_text (err : Z) (address : list Z) : list Z :=
  nl "THE FINGER REACHED FOR A BOX THAT ISN'T THERE" ++ chars_of "  fake address : " ++ address ++ [10] ++
  chars_of "  it was       : " ++ (if Z.testbit err 1 then nl "a write" else nl "a read") ++
  chars_of "  the page     : " ++ (if Z.testbit err 0 then nl "present but the access was forbidden" else nl "not present") ++
  chars_of "  came from    : " ++ (if Z.testbit err 2 then nl "user" else nl "kernel") ++
  (if Z.testbit err 3 then nl "  also         : a reserved bit was set in a page table entry" else []) ++
  (if Z.testbit err 4 then nl "  also         : the access was an instruction fetch" else []).

(** The selector of a general protection fault. *)
Definition protection_text (err : Z) (level index : list Z) : list Z :=
  nl "SOMEONE TRIED SOMETHING THEY'RE NOT ALLOWED TO" ++ chars_of "  CPL was : " ++ level ++ [10] ++
  if err =? 0 then nl "  selector: none, the error code is zero (not tied to a segment)"
  else chars_of "  selector: index " ++ index ++ chars_of " in the " ++
       (if err / 2 mod 4 =? 0 then chars_of "GDT" else if err / 2 mod 4 =? 2 then chars_of "LDT" else chars_of "IDT") ++
       (if Z.testbit err 0 then chars_of ", flagged external" else []) ++ [10].

Definition double_fault_text : list Z :=
  nl "A FAULT HAPPENED WHILE HANDLING A FAULT" ++ nl "  the error code is always zero here and carries no information." ++
  nl "  this usually means a broken IDT, a broken GDT, or a stack that" ++ nl "  could not be pushed to.".

(** The part that depends on the vector. *)
Definition fault_detail (r : registers) (cr2 : Z) (text : list Z) : Prop :=
  let vec := u8 (int_no r) in
  if vec =? 14 then exists a, hex_text 16 cr2 a /\ text = page_fault_text (err_code r) a
  else if vec =? 13 then exists l i, dec_text (cs r mod 4) l /\ dec_text (err_code r / 8 mod 2 ^ 13) i /\ text = protection_text (err_code r) l i
  else if vec =? 8 then text = double_fault_text
  else text = [].

(** An action made of printing steps. *)
Ltac printing := repeat (first [ assumption | lazymatch goal with
  | |- prints (after _ _) _ => apply prints_after
  | |- prints skip _ => apply prints_skip
  | |- prints (print_char _) _ => apply prints_char; lia
  | |- prints (print_string (lit _)) _ => apply prints_lit; reflexivity
  | |- prints (print_string (lit_nl _)) _ => apply prints_lit_nl; reflexivity
  | |- prints (print_string (if _ then _ else _)) _ => apply prints_string_if
  | |- prints (if _ then _ else _) _ => apply prints_if
  end ]).

Lemma page_fault_prints r cr2 : 0 <= cr2 < 2 ^ 64 -> exists a, hex_text 16 cr2 a /\ prints (report_page_fault r cr2) (page_fault_text (err_code r) a).
Proof.
  intros Hc. destruct (prints_hex64 cr2 Hc) as (a & Ha & Hp). exists a. split; [done |]. unfold report_page_fault, page_fault_text.
  cbv zeta. rewrite (land_bit (err_code r) 0 ltac:(lia) : (Z.land _ 1 =? 0) = _), (land_bit (err_code r) 1 ltac:(lia) : (Z.land _ 2 =? 0) = _),
    (land_bit (err_code r) 2 ltac:(lia) : (Z.land _ 4 =? 0) = _), (land_bit (err_code r) 3 ltac:(lia) : (Z.land _ 8 =? 0) = _), (land_bit (err_code r) 4 ltac:(lia) : (Z.land _ 16 =? 0) = _).
  destruct (Z.testbit _ 0), (Z.testbit _ 1), (Z.testbit _ 2), (Z.testbit _ 3), (Z.testbit _ 4); cbn [negb]; printing.
Qed.

Lemma protection_prints r : 0 <= cs r -> 0 <= err_code r ->
  exists l i, dec_text (cs r mod 4) l /\ dec_text (err_code r / 8 mod 2 ^ 13) i /\ prints (report_general_protection r) (protection_text (err_code r) l i).
Proof.
  intros Hc He. unfold report_general_protection, protection_text.
  assert (u32 (Z.land (cs r) 0x3) = cs r mod 4) as -> by (change 0x3 with (2 ^ 2 - 1); rewrite land_mod by lia; unfold u32; change (2 ^ 2) with 4; mlia).
  assert (u32 (Z.land (Z.shiftr (err_code r) 3) 0x1FFF) = err_code r / 8 mod 2 ^ 13) as ->
    by (change 0x1FFF with (2 ^ 13 - 1); rewrite land_mod, Z.shiftr_div_pow2 by lia; unfold u32; change (2 ^ 3) with 8; mlia).
  assert (Z.land (Z.shiftr (err_code r) 1) 0x3 = err_code r / 2 mod 4) as -> by (change 0x3 with (2 ^ 2 - 1); rewrite land_mod, Z.shiftr_div_pow2 by lia; done).
  rewrite (land_bit (err_code r) 0 ltac:(lia) : (Z.land _ 1 =? 0) = _).
  destruct (prints_int (cs r mod 4) ltac:(mlia)) as (l & Hl & Pl). destruct (prints_int (err_code r / 8 mod 2 ^ 13) ltac:(mlia)) as (i & Hi & Pi).
  exists l, i. split; [done |]. split; [done |]. destruct (Z.testbit _ 0); cbn [negb]; printing.
Qed.

Lemma detail_prints r cr2 : 0 <= cs r -> 0 <= err_code r -> 0 <= cr2 < 2 ^ 64 -> exists text, fault_detail r cr2 text /\
  prints (if u8 (int_no r) =? EXC_PAGE_FAULT then report_page_fault r cr2 else if u8 (int_no r) =? EXC_GENERAL_PROTECTION then report_general_protection r
    else if u8 (int_no r) =? EXC_DOUBLE_FAULT then report_double_fault else skip) text.
Proof.
  intros Hc He Ha. unfold fault_detail, EXC_PAGE_FAULT, EXC_GENERAL_PROTECTION, EXC_DOUBLE_FAULT. cbv zeta. zcases.
  - destruct (page_fault_prints r cr2 Ha) as (a & H1 & H2). eauto.
  - destruct (protection_prints r Hc He) as (l & i & H1 & H2 & H3). eauto 7.
  - exists double_fault_text. split; [done |]. unfold report_double_fault, double_fault_text. printing.
  - exists []. split; [done | apply prints_skip].
Qed.

Lemma exceptions_plain : forallb (fun e => plain_text (fst e) && plain_text (snd e)) exceptions = true /\ length exceptions = Z.to_nat EXC_COUNT.
Proof. split; reflexivity. Qed.

(** The words for a vector. *)
Definition info_of (vec : Z) : string * string :=
  if vec <? EXC_COUNT then nth (Z.to_nat vec) exceptions reserved else ("unknown", "not a CPU exception")%string.

Lemma info_plain vec : plain_text (info_of vec).1 = true /\ plain_text (info_of vec).2 = true.
Proof.
  unfold info_of. destruct (vec <? EXC_COUNT); [| by split]. destruct exceptions_plain as [H _]. rewrite forallb_forall in H.
  apply andb_true_iff. destruct (Nat.lt_ge_cases (Z.to_nat vec) (length exceptions)) as [Hl | Hl]; [by apply H, nth_In | by rewrite nth_overflow].
Qed.

(** The report of an exception: whatever the registers hold, the display
    shows the vector with its name and explanation, what the error code says,
    and the registers as sixteen digits that read back as their values; no
    byte outside the display buffer is written before the halt. *)
Theorem isr_handler_reports r cr2 s t : shows s t -> 0 <= rip r < 2 ^ 64 -> 0 <= cs r < 2 ^ 64 -> 0 <= rflags r < 2 ^ 64 -> 0 <= err_code r -> 0 <= cr2 < 2 ^ 64 ->
  exists v detail ip code flags,
    hex_text 2 (u8 (int_no r)) v /\ fault_detail r cr2 detail /\ hex_text 16 (rip r) ip /\ hex_text 16 (cs r) code /\ hex_text 16 (rflags r) flags /\
    shows (isr_handler r cr2 s) (term_text t
      ([10] ++ chars_of "=== CPU EXCEPTION " ++ v ++ chars_of " (" ++ chars_of (info_of (u8 (int_no r))).1 ++ nl ") ===" ++
       chars_of "  what happened: " ++ chars_of (info_of (u8 (int_no r))).2 ++ [10] ++ detail ++
       (chars_of "  the finger (RIP) : " ++ ip ++ [10] ++ chars_of "  code seg   (CS)  : " ++ code ++ [10] ++ chars_of "  flags    (RFLAGS): " ++ flags ++ [10]) ++
       nl "halting. nothing to schedule, nothing to kill.")) /\
    same_outside (s_mem s) (s_mem (isr_handler r cr2 s)).
Proof.
  intros Hs Hr Hc Hf He Ha. assert (0 <= u8 (int_no r) < 256) as Hv by (apply Z.mod_pos_bound; lia).
  destruct (prints_hex_byte _ Hv) as (v & V1 & V2). destruct (detail_prints r cr2 ltac:(lia) He Ha) as (detail & D1 & D2).
  destruct (prints_hex64 _ Hr) as (ip & I1 & I2). destruct (prints_hex64 _ Hc) as (code & C1 & C2). destruct (prints_hex64 _ Hf) as (flags & F1 & F2).
  destruct (info_plain (u8 (int_no r))) as [N1 N2].
  exists v, detail, ip, code, flags. do 5 (split; [done |]).
  assert (forall text, prints (isr_handler r cr2) text -> shows (isr_handler r cr2 s) (term_text t text) /\ same_outside (s_mem s) (s_mem (isr_handler r cr2 s))) as Hp.
  { intros text [P1 P2]. rewrite P1. by apply print_text_shows. }
  apply Hp. unfold isr_handler, print_fault_frame. fold (info_of (u8 (int_no r))). cbv zeta. apply prints_lit in N1, N2. printing.
Qed.
