(* ===== verification/User.v ===== *)
(** * The user library

    [user/userlib.h] and [libc/printf.c]: what a ring-3 program is linked
    with. A program is a computation that keeps its own data ([d_globals])
    and talks to the kernel by system calls; what the kernel answers, and
    when a signal reaches the program, is an environment ([Env]) that sees
    all that was said before. The calls made and their answers are recorded
    in the trace.

    A signal handler runs on the program's own side of a call, before it or
    after it, any number of times. The calls it makes itself are marked in
    the trace; a signal that arrives while the handler runs is taken when it
    has returned. *)

From Stdlib Require Import ZArith Lia Bool Ascii String.
From stdpp Require Import base option list.
From S2P Require Import Prelude Phys Libc Frames.

(** ** Calls and answers *)

(** The arguments of a system call, with the bytes a pointer argument points
    to where the kernel reads through it. *)
Inductive call :=
  | C_write (fd : Z) (bs : list Z)
  | C_readkey
  | C_list (size : Z)
  | C_run (name : list Z) (in_fd out_fd pgid : Z)
  | C_readfile (name : list Z) (size : Z)
  | C_wait (out_id : bool)
  | C_writefile (name bs : list Z)
  | C_delete (name : list Z)
  | C_freecount
  | C_stat (name : list Z)
  | C_close (fd : Z)
  | C_pipe
  | C_signal (sig : Z)
  | C_kill (id sig : Z)
  | C_tasks (size : Z)
  | C_setfg (pgid : Z).

(** RAX, and what the kernel stored through the pointer argument, in units
    of what it points to. *)
Record answer := mkAnswer { a_ret : Z; a_data : list Z }.

(** Who made a call: the program, or its handler, before a call of the
    program or after it. *)
Inductive actor := Program | Handler (after : bool).

Record event := mkEvent { by_whom : actor; e_call : call; e_answer : answer }.
Definition by_handler (e : event) : bool := match by_whom e with Program => false | Handler _ => true end.

(** The kernel's answer to a call, and how often the handler runs before the
    call ([false]) and after it ([true]). *)
Class Env := {
  kern : list event -> call -> answer;
  signals : bool -> list event -> nat;
}.

(** [(long)] *)
Definition i64 (v : Z) : Z := (v + 2 ^ 63) mod 2 ^ 64 - 2 ^ 63.

(** [SYS_FAIL]: the value a failed call returns. *)
Definition SYS_FAIL : Z := u64 (-1).

(** What [include/syscalls.h] says of the answers. *)
Definition answer_ok (c : call) (a : answer) : Prop :=
  0 <= a_ret a < 2 ^ 64 /\
  match c with
  | C_write _ bs => i64 (a_ret a) <= zlen bs
  | C_readkey => a_ret a = SYS_FAIL \/ 0 < a_ret a < 256
  | C_list size => (0 <= size -> zlen (a_data a) <= size) /\ (a_ret a = SYS_FAIL \/ exists text, cstring text (a_data a))
  | C_run _ _ _ _ => a_ret a = SYS_FAIL \/ 1 <= a_ret a < 2 ^ 32
  | C_readfile _ size => (0 <= size -> zlen (a_data a) <= size) /\ (a_ret a = SYS_FAIL \/ a_ret a = zlen (a_data a))
  | C_pipe => a_ret a <> 0 \/ exists r w, a_data a = [r; w] /\ 0 <= r < 2 ^ 31 /\ 0 <= w < 2 ^ 31
  | C_tasks size => a_ret a = SYS_FAIL \/ (20 * a_ret a <= size /\ zlen (a_data a) = 5 * a_ret a)
  | _ => True
  end.

Class AnswerLaws `{Env} := { kern_ok t c : answer_ok c (kern t c) }.

(** ** Computations *)

(** [d_handled]: the handler is installed. *)
Record prog (D : Type) := mkProg { d_trace : list event; d_handled : bool; d_globals : D }.
Arguments mkProg {D} _ _ _.
Arguments d_trace {D} _.
Arguments d_handled {D} _.
Arguments d_globals {D} _.

(** A result; a program that has used up the steps it was given and is still
    in its loop; or undefined behaviour. *)
Inductive outcome (D A : Type) :=
  | Got (a : A) (s : prog D)
  | More (s : prog D)
  | Bad.
Arguments Got {D A} _ _.
Arguments More {D A} _.
Arguments Bad {D A}.

Definition U (D A : Type) : Type := prog D -> outcome D A.

Section Computations.
Context {D : Type}.

#[global] Instance U_ret : MRet (U D) := fun A a s => Got a s.
#[global] Instance U_bind : MBind (U D) := fun A B f m s =>
  match m s with
  | Got a s' => f a s'
  | More s' => More s'
  | Bad => Bad
  end.

Definition bad {A} : U D A := fun _ => Bad.
Definition more {A} : U D A := fun s => More s.
Definition get : U D D := fun s => Got (d_globals s) s.
Definition modify (f : D -> D) : U D unit := fun s => Got tt (mkProg (d_trace s) (d_handled s) (f (d_globals s))).
Definition of_option {A} (o : option A) : U D A := match o with Some a => mret a | None => bad end.

Fixpoint times (n : nat) (m : U D unit) : U D unit :=
  match n with
  | O => mret tt
  | S n' => m ;; times n' m
  end.

Context `{Env}.

(** The instruction [int 0x50] alone. *)
Definition trap (w : actor) (c : call) : U D answer := fun s =>
  let a := kern (d_trace s) c in
  Got a (mkProg (d_trace s ++ [mkEvent w c a]) (d_handled s) (d_globals s)).

Definition take_signals (after : bool) (handler : bool -> U D unit) : U D unit := fun s =>
  if d_handled s then times (signals after (d_trace s)) (handler after) s else Got tt s.

(** A system call of the program, with the handler around it. The handler
    gets to know on which side it runs only to mark its calls. *)
Definition syscall (handler : bool -> U D unit) (c : call) : U D answer :=
  take_signals false handler ;;
  a ← trap Program c ;
  take_signals true handler ;;
  mret a.

(** ** The calls

    [do] is the doorbell: [syscall] in the program, [trap] in its handler. A
    string argument is the object it points into, of which the kernel reads
    the bytes before the terminator. *)

Definition c_string (s : list Z) : U D (list Z) :=
  n ← of_option (strlen s) ;
  mret (take (Z.to_nat n) s).

Definition sys_write (do : call -> U D answer) (fd : Z) (bs : list Z) : U D Z :=
  a ← do (C_write fd bs) ;
  mret (i64 (a_ret a)).

Definition sys_close (do : call -> U D answer) (fd : Z) : U D Z :=
  a ← do (C_close fd) ;
  mret (i64 (a_ret a)).

(** The result, and [fds]. *)
Definition sys_pipe (do : call -> U D answer) : U D (Z * list Z) :=
  a ← do C_pipe ;
  mret (i64 (a_ret a), a_data a).

Definition sys_wait (do : call -> U D answer) : U D Z :=
  a ← do (C_wait false) ;
  mret (i64 (a_ret a)).

(** The result, and what [*out_id], which was [who], holds. *)
Definition sys_wait_id (do : call -> U D answer) (who : Z) : U D (Z * Z) :=
  a ← do (C_wait true) ;
  mret (i64 (a_ret a), znth who (a_data a) 0).

Definition sys_readkey (do : call -> U D answer) : U D Z :=
  a ← do C_readkey ;
  mret (a_ret a).

Definition sys_list (do : call -> U D answer) (size : Z) : U D (Z * list Z) :=
  a ← do (C_list size) ;
  mret (a_ret a, a_data a).

Definition SYS_RUN_GROUP_INHERIT : Z := 0.
Definition SYS_RUN_GROUP_NEW : Z := 0xFFFFFFFF.

Definition sys_run_group (do : call -> U D answer) (name : list Z) (in_fd out_fd pgid : Z) : U D Z :=
  name ← c_string name ;
  a ← do (C_run name in_fd out_fd pgid) ;
  mret (a_ret a).
Definition sys_run (do : call -> U D answer) (name : list Z) (in_fd out_fd : Z) : U D Z :=
  name ← c_string name ;
  a ← do (C_run name in_fd out_fd SYS_RUN_GROUP_INHERIT) ;
  mret (a_ret a).

Definition sys_setfg (do : call -> U D answer) (pgid : Z) : U D Z :=
  a ← do (C_setfg pgid) ;
  mret (a_ret a).

Definition sys_readfile (do : call -> U D answer) (name : list Z) (size : Z) : U D (Z * list Z) :=
  name ← c_string name ;
  a ← do (C_readfile name size) ;
  mret (a_ret a, a_data a).

Definition sys_writefile (do : call -> U D answer) (name buf : list Z) (len : Z) : U D Z :=
  name ← c_string name ;
  a ← do (C_writefile name (take (Z.to_nat len) buf)) ;
  mret (a_ret a).

Definition sys_delete (do : call -> U D answer) (name : list Z) : U D Z :=
  name ← c_string name ;
  a ← do (C_delete name) ;
  mret (a_ret a).

Definition sys_freecount (do : call -> U D answer) : U D Z :=
  a ← do C_freecount ;
  mret (a_ret a).

(** The result, and what [*out_size], which was [size], holds. *)
Definition sys_stat (do : call -> U D answer) (name : list Z) (size : Z) : U D (Z * Z) :=
  name ← c_string name ;
  a ← do (C_stat name) ;
  mret (a_ret a, znth size (a_data a) 0).

Definition install (ok : bool) : U D unit := fun s => Got tt (mkProg (d_trace s) (d_handled s || ok) (d_globals s)).

(** From here on the handler is installed, when the kernel says so. *)
Definition sys_signal (do : call -> U D answer) (sig : Z) : U D Z :=
  a ← do (C_signal sig) ;
  install (a_ret a =? 0) ;;
  mret (a_ret a).

(** The signal is an [int] on the way. *)
Definition sys_kill (do : call -> U D answer) (id sig : Z) : U D Z :=
  a ← do (C_kill id (u64 sig)) ;
  mret (a_ret a).

(** ** Output *)

(** [sys_write_all], with the loop bounded by the length: a turn moves at
    least one byte. [do] is the doorbell. *)
Fixpoint write_all_loop (fuel : nat) (do : call -> U D answer) (fd : Z) (buf : list Z) (len done : Z) : U D Z :=
  if done <? len then
    match fuel with
    | O => more
    | S f =>
        w ← sys_write do fd (take (Z.to_nat (len - done)) (drop (Z.to_nat done) buf)) ;
        if w <=? 0 then mret (i64 done) else write_all_loop f do fd buf len (u64 (done + w))
    end
  else mret (i64 done).
Definition sys_write_all (do : call -> U D answer) (fd : Z) (buf : list Z) (len : Z) : U D Z :=
  write_all_loop (Z.to_nat len) do fd buf len 0.

Definition sys_print (do : call -> U D answer) (s : list Z) : U D Z :=
  len ← of_option (strlen s) ;
  sys_write_all do 1 s len.

(** ** printf *)

Definition PRINTF_STAGE : Z := 128.

(** The bytes staged, the bytes written so far, and whether a write came up
    short. *)
Record out_t := mkOut { o_buf : list Z; o_total : Z; o_failed : bool }.

Definition flush (do : call -> U D answer) (o : out_t) : U D out_t :=
  if zlen (o_buf o) =? 0 then mret o
  else
    w ← sys_write_all do 1 (o_buf o) (zlen (o_buf o)) ;
    mret (mkOut [] (if 0 <? w then u64 (o_total o + w) else o_total o) (o_failed o || ((w <? 0) || (u64 w <? zlen (o_buf o))))).

Definition put (do : call -> U D answer) (c : Z) (o : out_t) : U D out_t :=
  o ← (if zlen (o_buf o) =? PRINTF_STAGE then flush do o else mret o) ;
  mret (mkOut (o_buf o ++ [u8 c]) (o_total o) (o_failed o)).

Fixpoint puts (do : call -> U D answer) (cs : list Z) (o : out_t) : U D out_t :=
  match cs with
  | [] => mret o
  | c :: cs' => o ← put do c o ; puts do cs' o
  end.

(** [do ... while (v != 0)]: the digits as they are stored, lowest first. *)
Fixpoint digits_of (fuel : nat) (v base : Z) : list Z :=
  match fuel with
  | O => []
  | S f =>
      let d := v mod base in
      (if d <? 10 then 48 + d else 97 + (d - 10)) :: (if v / base =? 0 then [] else digits_of f (v / base) base)
  end.

Definition put_unsigned (do : call -> U D answer) (v base : Z) (o : out_t) : U D out_t := puts do (reverse (digits_of 21 v base)) o.

Definition user_pointer_ok (a : Z) : bool := (USER_CODE_BASE <=? a) && (a <? USER_SPACE_END).

(** A variable argument: an integer, or a pointer with the bytes from there
    to the end of what it points into. *)
Inductive arg := A_int (v : Z) | A_ptr (a : Z) (bytes : list Z).

(** [va_arg]; reading an argument of the other kind, or one that was not
    passed, is undefined. *)
Definition va_int (args : list arg) : U D (Z * list arg) :=
  match args with
  | A_int v :: args' => mret (v, args')
  | _ => bad
  end.
Definition va_ptr (args : list arg) : U D (Z * list Z * list arg) :=
  match args with
  | A_ptr a bs :: args' => mret (a, bs, args')
  | _ => bad
  end.

(** The loop of [%s]: the pointer, and the bytes it points to. *)
Fixpoint put_string (do : call -> U D answer) (a : Z) (s : list Z) (o : out_t) : U D (bool * out_t) :=
  match s with
  | [] => bad
  | c :: s' =>
      if c =? 0 then mret (false, o)
      else
        o ← put do c o ;
        if USER_SPACE_END <=? a + 1 then mret (true, o) else put_string do (a + 1) s' o
  end.

Definition convert (do : call -> U D answer) (c : Z) (args : list arg) (o : out_t) : U D (bool * list arg * out_t) :=
  if c =? 100 then
    '(v, args) ← va_int args ;
    if i32 v <? 0 then
      o ← put do 45 o ;
      o ← put_unsigned do (u64 (- i32 v)) 10 o ;
      mret (false, args, o)
    else
      o ← put_unsigned do (u64 (i32 v)) 10 o ;
      mret (false, args, o)
  else if c =? 117 then
    '(v, args) ← va_int args ;
    o ← put_unsigned do (u32 v) 10 o ;
    mret (false, args, o)
  else if c =? 120 then
    '(v, args) ← va_int args ;
    o ← put_unsigned do (u32 v) 16 o ;
    mret (false, args, o)
  else if c =? 99 then
    '(v, args) ← va_int args ;
    o ← put do (u8 (i32 v)) o ;
    mret (false, args, o)
  else if c =? 115 then
    '(a, bs, args) ← va_ptr args ;
    if negb (user_pointer_ok a) then mret (true, args, o)
    else
      '(stopped, o) ← put_string do a bs o ;
      mret (stopped, args, o)
  else if c =? 37 then
    o ← put do 37 o ;
    mret (false, args, o)
  else mret (true, args, o).

(** The condition reads the character before it looks at [stopped]. *)
Fixpoint printf_loop (do : call -> U D answer) (p : list Z) (args : list arg) (stopped : bool) (o : out_t) : U D (bool * out_t) :=
  match p with
  | [] => bad
  | c :: p' =>
      if (c =? 0) || stopped then mret (stopped, o)
      else if negb (c =? 37) then
        o ← put do c o ;
        printf_loop do p' args stopped o
      else
        match p' with
        | [] => bad
        | d :: p'' =>
            '(stopped, args, o) ← convert do d args o ;
            printf_loop do p'' args stopped o
        end
  end.

Definition printf (do : call -> U D answer) (fmt : list Z) (args : list arg) : U D Z :=
  '(stopped, o) ← printf_loop do fmt args false (mkOut [] 0 false) ;
  o ← flush do o ;
  mret (if o_failed o || stopped then -1 else i32 (o_total o)).

End Computations.

(** ** Tokens *)

(** The loops of [next_token]: how far [p] goes in the buffer. *)
Fixpoint skip_seps (s : list Z) (sep : Z) : option Z :=
  match s with
  | [] => None
  | c :: s' => if c =? sep then n ← skip_seps s' sep ; Some (n + 1) else Some 0
  end.
Fixpoint token_end (s : list Z) (sep : Z) : option Z :=
  match s with
  | [] => None
  | c :: s' => if negb (c =? 0) && negb (c =? sep) then n ← token_end s' sep ; Some (n + 1) else Some 0
  end.

(** On the buffer, with positions as indices: the buffer afterwards, the new
    position and the token; no result when the reading leaves the buffer. *)
Definition next_token (buf : list Z) (pos sep : Z) : option (list Z * Z * option Z) :=
  n ← skip_seps (drop (Z.to_nat pos) buf) sep ;
  let p := pos + n in
  if znth 0 buf p =? 0 then Some (buf, p, None)
  else
    m ← token_end (drop (Z.to_nat p) buf) sep ;
    let q := p + m in
    if znth 0 buf q =? sep then Some (zset buf q 0, q + 1, Some p) else Some (buf, q, Some p).
