(* ===== verification/UserSpec.v ===== *)
(** * Programs and what they say to the kernel

    A program logic for the computations of [User]: [uwp m W Q s] says that
    [m] from [s] has no undefined behaviour, that its result satisfies [Q],
    and that where it stops for want of steps the state satisfies [W]. On it
    the specifications of the output functions: [sys_write_all] delivers a
    prefix in order, [printf] the text its format stands for. *)

From Stdlib Require Import ZArith Lia Bool.
From stdpp Require Import base option list.
From S2P Require Import Prelude Phys Libc Frames User.

(** ** Weakest preconditions *)

Definition uwp {D A} (m : U D A) (W : prog D -> Prop) (Q : A -> prog D -> Prop) (s : prog D) : Prop :=
  match m s with
  | Got a s' => Q a s'
  | More s' => W s'
  | Bad => False
  end.

Definition never {D} (s : prog D) : Prop := False.

Lemma uwp_ret {D A} (a : A) W (Q : A -> prog D -> Prop) s : Q a s -> uwp (mret a) W Q s.
Proof. done. Qed.

Lemma uwp_bind {D A B} (m : U D A) (f : A -> U D B) W Q s : uwp m W (fun a => uwp (f a) W Q) s -> uwp (m ≫= f) W Q s.
Proof. unfold uwp, mbind, U_bind. by destruct (m s). Qed.

Lemma uwp_mono {D A} (m : U D A) (W W' : prog D -> Prop) (Q Q' : A -> prog D -> Prop) s :
  uwp m W Q s -> (forall s', W s' -> W' s') -> (forall a s', Q a s' -> Q' a s') -> uwp m W' Q' s.
Proof. unfold uwp. intros H HW HQ. destruct (m s); auto. Qed.

Lemma uwp_total {D A} (m : U D A) W (Q Q' : A -> prog D -> Prop) s : uwp m never Q s -> (forall a s', Q a s' -> Q' a s') -> uwp m W Q' s.
Proof. intros H HQ. eapply uwp_mono; [done | done | done]. Qed.

Lemma uwp_get {D} W (Q : D -> prog D -> Prop) s : Q (d_globals s) s -> uwp get W Q s.
Proof. done. Qed.

Lemma uwp_modify {D} (f : D -> D) W (Q : unit -> prog D -> Prop) s : Q tt (mkProg (d_trace s) (d_handled s) (f (d_globals s))) -> uwp (modify f) W Q s.
Proof. done. Qed.

Lemma uwp_of_option {D A} (o : option A) (a : A) W (Q : A -> prog D -> Prop) s : o = Some a -> Q a s -> uwp (of_option o) W Q s.
Proof. by intros ->. Qed.

Lemma uwp_run {D A} (m : U D A) (Q : A -> prog D -> Prop) s : uwp m never Q s -> exists a s', m s = Got a s' /\ Q a s'.
Proof. unfold uwp, never. destruct (m s) as [a s' | s' |]; [eauto | done | done]. Qed.

(** ** Traces *)

Definition is_write (c : call) : bool := match c with C_write _ _ => true | _ => false end.

(** What the program itself asked for, other than output. *)
Definition deed (e : event) : bool := negb (by_handler e) && negb (is_write (e_call e)).
Definition deeds (t : list event) : list event := List.filter deed t.

(** The bytes the program (or, with [true], the handler) got through [fd]. *)
Definition accepted (h : bool) (fd : Z) (e : event) : list Z :=
  match e_call e with
  | C_write fd' bs => if Bool.eqb (by_handler e) h && (fd' =? fd) then take (Z.to_nat (i64 (a_ret (e_answer e)))) bs else []
  | _ => []
  end.
Definition written (h : bool) (fd : Z) (t : list event) : list Z := flat_map (accepted h fd) t.

Lemma deeds_app t u : deeds (t ++ u) = deeds t ++ deeds u.
Proof. apply List.filter_app. Qed.
Lemma written_app h fd t u : written h fd (t ++ u) = written h fd t ++ written h fd u.
Proof. apply flat_map_app. Qed.

(** An event of the handler, which only prints. *)
Definition aside (after : bool) (e : event) : Prop := by_whom e = Handler after /\ is_write (e_call e) = true.

Lemma deeds_aside b t : Forall (aside b) t -> deeds t = [].
Proof. induction 1 as [| e t [He _] _ IH]; [done |]. unfold deeds, deed, by_handler in *. simpl. by rewrite He, IH. Qed.
Lemma written_aside b fd t : Forall (aside b) t -> written false fd t = [].
Proof. induction 1 as [| e t [He _] _ IH]; [done |]. unfold written, accepted, by_handler in *. simpl. rewrite He, IH. by destruct (e_call e). Qed.

(** The events of one call: it and what the handler did around it. *)
Definition around (h : actor) (c : call) (a : answer) (evs : list event) : Prop :=
  exists pre post, evs = pre ++ [mkEvent h c a] ++ post /\ Forall (aside false) pre /\ Forall (aside true) post /\ (h <> Program -> pre = [] /\ post = []).

Lemma around_ne h c a evs : around h c a evs -> evs <> [].
Proof. intros (pre & post & -> & _). by destruct pre. Qed.
Lemma around_deeds c a evs : around Program c a evs -> deeds evs = if is_write c then [] else [mkEvent Program c a].
Proof.
  intros (pre & post & -> & H1 & H2 & _). rewrite !deeds_app, (deeds_aside _ pre H1), (deeds_aside _ post H2), app_nil_r. unfold deeds, deed. simpl. by destruct (is_write c).
Qed.
Lemma around_written fd bs a evs : around Program (C_write fd bs) a evs -> written false fd evs = take (Z.to_nat (i64 (a_ret a))) bs.
Proof.
  intros (pre & post & -> & H1 & H2 & _). rewrite !written_app, (written_aside _ fd pre H1), (written_aside _ fd post H2), app_nil_r.
  unfold written, accepted. simpl. by rewrite Z.eqb_refl, app_nil_r.
Qed.

(** ** One call *)

Section Calls.
Context {D : Type} `{Env} {laws : AnswerLaws} (handler : bool -> U D unit) (touch : D -> D).

(** The trace grew by [evs]; the handler's effect is there when it ran. *)
Definition touched (evs : list event) (g : D) : D := if existsb by_handler evs then touch g else g.
Definition grown (evs : list event) (s s' : prog D) : Prop :=
  d_trace s' = d_trace s ++ evs /\ d_handled s' = d_handled s /\ d_globals s' = touched evs (d_globals s).

Hypothesis touch_idem : forall g, touch (touch g) = touch g.

Lemma touched_app e1 e2 g : touched (e1 ++ e2) g = touched e2 (touched e1 g).
Proof. unfold touched. rewrite existsb_app. destruct (existsb by_handler e1), (existsb by_handler e2); simpl; by rewrite ?touch_idem. Qed.

Lemma grown_nil s : grown [] s s.
Proof. split; [by rewrite app_nil_r | done]. Qed.
Lemma grown_app e1 e2 s1 s2 s3 : grown e1 s1 s2 -> grown e2 s2 s3 -> grown (e1 ++ e2) s1 s3.
Proof. intros (A1 & B1 & C1) (A2 & B2 & C2). split; [by rewrite A2, A1, app_assoc | split; [congruence |]]. by rewrite C2, C1, touched_app. Qed.

(** The handler prints, and has its effect. *)
Hypothesis handler_ok : forall b s, uwp (handler b) never (fun _ s' => exists evs, grown evs s s' /\ Forall (aside b) evs) s.

Lemma times_ok b n : forall s, uwp (times n (handler b)) never (fun _ s' => exists evs, grown evs s s' /\ Forall (aside b) evs) s.
Proof.
  induction n as [| n IH]; intros s; simpl; [exists []; split; [apply grown_nil | done] |].
  apply uwp_bind. eapply uwp_mono; [apply handler_ok | done |]. intros _ s1 (e1 & G1 & A1).
  eapply uwp_mono; [apply IH | done |]. intros _ s2 (e2 & G2 & A2). exists (e1 ++ e2). split; [by eapply grown_app | by apply Forall_app].
Qed.

Lemma take_signals_ok b s : uwp (take_signals b handler) never (fun _ s' => exists evs, grown evs s s' /\ Forall (aside b) evs) s.
Proof. unfold uwp, take_signals. destruct (d_handled s); [apply (times_ok b _ s) |]. exists []. split; [apply grown_nil | done]. Qed.

Definition answered (c : call) (a : answer) : Prop := exists t, a = kern t c.

(** What a doorbell does. *)
Definition rings (do : call -> U D answer) (R : list event -> prog D -> prog D -> Prop) (h : actor) : Prop :=
  (forall s, R [] s s) /\ (forall e1 e2 s1 s2 s3, R e1 s1 s2 -> R e2 s2 s3 -> R (e1 ++ e2) s1 s3) /\
  (forall c s, uwp (do c) never (fun a s' => exists evs, R evs s s' /\ around h c a evs /\ answered c a) s).

Lemma rings_syscall : rings (syscall handler) grown Program.
Proof.
  split; [apply grown_nil |]. split; [apply grown_app |]. intros c s. unfold syscall.
  apply uwp_bind. eapply uwp_mono; [apply take_signals_ok | done |]. intros _ s1 (e1 & G1 & A1).
  apply uwp_bind. unfold trap. cbn [uwp]. unfold uwp at 1. set (a := kern (d_trace s1) c).
  apply uwp_bind. eapply uwp_mono; [apply take_signals_ok | done |]. intros _ s2 (e2 & G2 & A2).
  exists (e1 ++ [mkEvent Program c a] ++ e2). split; [| split; [by exists e1, e2; split_and! | by eexists]].
  eapply grown_app; [done |]. eapply grown_app; [| done]. by split.
Qed.

(** The doorbell alone, as the handler uses it. *)
Definition plain (evs : list event) (s s' : prog D) : Prop :=
  d_trace s' = d_trace s ++ evs /\ d_handled s' = d_handled s /\ d_globals s' = d_globals s.

Lemma rings_trap h : rings (trap h) plain h.
Proof.
  split; [intros s; split; [by rewrite app_nil_r | done] |].
  split; [intros e1 e2 s1 s2 s3 (A1 & B1 & C1) (A2 & B2 & C2); split; [by rewrite A2, A1, app_assoc | split; congruence] |].
  intros c s. unfold trap, uwp. exists [mkEvent h c (kern (d_trace s) c)]. split; [done |]. split; [by exists [], []; split_and! | by eexists].
Qed.

End Calls.

Lemma answered_ok `{Env} {laws : AnswerLaws} c a : answered c a -> answer_ok c a.
Proof. intros [t ->]. apply kern_ok. Qed.

Lemma i64_small v : - 2 ^ 63 <= v < 2 ^ 63 -> i64 v = v.
Proof. unfold i64. intros. mlia. Qed.

Lemma split_take {A} (buf : list A) don len w w' : 0 <= don -> 0 <= w -> don + w <= w' -> w' <= len ->
  take (Z.to_nat w) (take (Z.to_nat (len - don)) (drop (Z.to_nat don) buf)) ++ take (Z.to_nat (w' - (don + w))) (drop (Z.to_nat (don + w)) buf) =
  take (Z.to_nat (w' - don)) (drop (Z.to_nat don) buf).
Proof.
  intros. rewrite take_take, Nat.min_l by lia. replace (Z.to_nat (don + w)) with (Z.to_nat don + Z.to_nat w)%nat by lia. rewrite <- drop_drop.
  rewrite take_take_drop. f_equal. lia.
Qed.

Lemma strlen_nonneg s : forall n, strlen s = Some n -> 0 <= n.
Proof. induction s as [| c s IH]; intros n E; simpl in E; [done |]. destruct (c =? 0); [by injection E as <- |]. destruct (strlen s) as [k|]; [| done]. injection E as <-. specialize (IH k eq_refl). lia. Qed.

(** ** What a format stands for *)

(** Digits from the highest; and the number they stand for. *)
Definition digit_char (d : Z) : Z := if d <? 10 then 48 + d else 87 + d.
Fixpoint numeral_from (fuel : nat) (base v : Z) : list Z :=
  match fuel with
  | O => []
  | S f => (if v <? base then [] else numeral_from f base (v / base)) ++ [digit_char (v mod base)]
  end.
Definition numeral (base v : Z) : list Z := numeral_from 64 base v.

Definition digit_value (c : Z) : Z := if c <? 58 then c - 48 else c - 87.
Definition read_number (base : Z) (cs : list Z) : Z := foldl (fun v c => v * base + digit_value c) 0 cs.

Lemma numeral_reads fuel : forall base v, 2 <= base <= 16 -> 0 <= v < base ^ Z.of_nat fuel -> (0 < fuel)%nat ->
  read_number base (numeral_from fuel base v) = v /\ Forall (fun c => 48 <= c < 103) (numeral_from fuel base v) /\ (0 < v -> head (numeral_from fuel base v) <> Some 48).
Proof.
  induction fuel as [| f IH]; intros base v Hb Hv Hf; [lia |]. cbn [numeral_from]. pose proof (Z.mod_pos_bound v base ltac:(lia)) as Hm.
  assert (digit_value (digit_char (v mod base)) = v mod base /\ 48 <= digit_char (v mod base) < 103 /\ (v mod base <> 0 -> digit_char (v mod base) <> 48)) as (Hd & Hr & Hn)
    by (unfold digit_value, digit_char; zcases; lia).
  destruct (Z.ltb_spec v base) as [Hlt | Hge]; unfold read_number; simpl.
  - rewrite Z.mod_small in * by lia. rewrite Hd. split; [done |]. split; [by apply Forall_singleton |]. intros H0 [= E]. exact (Hn ltac:(lia) E).
  - assert (1 <= v / base) as Hq by (apply Z.div_le_lower_bound; lia).
    assert (0 < f)%nat as Hf' by (destruct f; [simpl in Hv; lia | lia]).
    destruct (IH base (v / base)) as (I1 & I2 & I3); [done | | done |].
    { split; [lia |]. apply Z.div_lt_upper_bound; [lia |]. rewrite <- Z.pow_succ_r by lia. rewrite <- Nat2Z.inj_succ. lia. }
    rewrite foldl_app. simpl. unfold read_number in I1. rewrite I1, Hd. split; [rewrite (Z.div_mod v base) at 3 by lia; lia |].
    split; [apply Forall_app; split; [done | by apply Forall_singleton] |]. intros _. specialize (I3 ltac:(lia)). destruct (numeral_from f base (v / base)); [simpl in I1; lia | done].
Qed.

Lemma digits_numeral n : forall fuel base v, 2 <= base <= 16 -> 0 <= v < base ^ Z.of_nat n -> (n <= fuel)%nat -> (0 < n)%nat ->
  reverse (digits_of n v base) = numeral_from fuel base v.
Proof.
  induction n as [| n IH]; intros fuel base v Hb Hv Hf Hn; [lia |]. destruct fuel as [| fuel]; [lia |]. cbn [digits_of numeral_from].
  rewrite reverse_cons. f_equal; [| unfold digit_char; zcases; f_equal; lia].
  destruct (Z.ltb_spec v base) as [Hlt | Hge]; [by rewrite Z.div_small by lia |].
  assert (1 <= v / base) as Hq by (apply Z.div_le_lower_bound; lia). destruct (Z.eqb_spec (v / base) 0); [lia |].
  destruct n as [| n]; [simpl in Hv; lia |].
  apply IH; [done | | lia | lia]. split; [lia |]. apply Z.div_lt_upper_bound; [lia |]. rewrite <- Z.pow_succ_r by lia. rewrite <- Nat2Z.inj_succ. lia.
Qed.

(** The text of a string argument and whether it ended before the top of the
    address space; none where the bytes are not there. *)
Definition string_text (a : Z) (bs : list Z) : option (bool * list Z) :=
  if negb (user_pointer_ok a) then Some (false, [])
  else
    match strlen bs with
    | Some n => if n <? USER_SPACE_END - a then Some (true, take (Z.to_nat n) bs) else Some (false, take (Z.to_nat (USER_SPACE_END - a)) bs)
    | None => if USER_SPACE_END - a <=? zlen bs then Some (false, take (Z.to_nat (USER_SPACE_END - a)) bs) else None
    end.

(** A conversion: whether the format goes on, the text and the arguments
    left; none where the behaviour is undefined. *)
Definition expand (c : Z) (args : list arg) : option (bool * list Z * list arg) :=
  if c =? 37 then Some (true, [37], args)
  else if negb (bool_decide (c ∈ [100; 117; 120; 99; 115])) then Some (false, [], args)
  else
    match args with
    | [] => None
    | A_int v :: args =>
        if c =? 100 then Some (true, (if i32 v <? 0 then 45 :: numeral 10 (- i32 v) else numeral 10 (i32 v)), args)
        else if c =? 117 then Some (true, numeral 10 (u32 v), args)
        else if c =? 120 then Some (true, numeral 16 (u32 v), args)
        else if c =? 99 then Some (true, [u8 v], args)
        else None
    | A_ptr a bs :: args =>
        if c =? 115 then r ← string_text a bs ; Some (r.1, r.2, args) else None
    end.

(** The text of a format and whether all of it was used. *)
Fixpoint format (fmt : list Z) (args : list arg) : option (bool * list Z) :=
  match fmt with
  | [] => Some (true, [])
  | c :: fmt' =>
      if negb (c =? 37) then r ← format fmt' args ; Some (r.1, c :: r.2)
      else
        match fmt' with
        | [] => None
        | d :: fmt'' =>
            x ← expand d args ;
            let '(ok, text, args) := x in
            if ok : bool then r ← format fmt'' args ; Some (r.1, text ++ r.2) else Some (false, text)
        end
  end.

(** ** Output *)

Section Output.
Context {D : Type} `{Env} {laws : AnswerLaws} (do : call -> U D answer) (R : list event -> prog D -> prog D -> Prop) (h : actor).
Hypothesis Hdo : rings do R h.

(** The events are writes, the handler's where the handler printed, and what
    the program got through is [bs]. *)
Definition only_writes (evs : list event) : Prop := Forall (fun e => is_write (e_call e) = true /\ (h <> Program -> by_whom e = h)) evs.
Definition sends (fd : Z) (bs : list Z) (evs : list event) : Prop := only_writes evs /\ (h = Program -> written false fd evs = bs).

Lemma sends_nil fd : sends fd [] [].
Proof. split; [apply Forall_nil_2 | done]. Qed.
Lemma sends_app fd b1 b2 e1 e2 : sends fd b1 e1 -> sends fd b2 e2 -> sends fd (b1 ++ b2) (e1 ++ e2).
Proof. intros [A1 B1] [A2 B2]. split; [by apply Forall_app |]. intros Hh. by rewrite written_app, B1, B2. Qed.

Lemma around_sends fd bs a evs : around h (C_write fd bs) a evs -> sends fd (take (Z.to_nat (i64 (a_ret a))) bs) evs.
Proof.
  intros Ha. split.
  - destruct Ha as (pre & post & -> & H1 & H2 & H3). unfold only_writes. rewrite !Forall_app, Forall_singleton. destruct h as [| b].
    + split; [| split; [done |]]; (eapply Forall_impl; [eassumption |]); by intros e [? ?].
    + destruct (H3 ltac:(done)) as [-> ->]. split_and!; [apply Forall_nil_2 | done | done | apply Forall_nil_2].
  - intros ->. by apply around_written.
Qed.

(** A descriptor that always takes something. *)
Definition flows (fd : Z) : Prop := forall t bs, bs <> [] -> 0 < i64 (a_ret (kern t (C_write fd bs))).

Lemma uwp_do c s : uwp (do c) never (fun a s' => exists evs, R evs s s' /\ around h c a evs /\ answered c a) s.
Proof. apply Hdo. Qed.
Lemma R_nil s : R [] s s.
Proof. apply Hdo. Qed.
Lemma R_app e1 e2 s1 s2 s3 : R e1 s1 s2 -> R e2 s2 s3 -> R (e1 ++ e2) s1 s3.
Proof. apply Hdo. Qed.

Lemma write_all_loop_ok fd buf len : len <= zlen buf -> len < 2 ^ 63 -> forall fuel don s, 0 <= don <= len -> len - don <= Z.of_nat fuel ->
  uwp (write_all_loop fuel do fd buf len don) never
    (fun w s' => exists evs, R evs s s' /\ sends fd (take (Z.to_nat (w - don)) (drop (Z.to_nat don) buf)) evs /\ don <= w <= len /\ (flows fd -> w = len) /\ (don < len -> evs <> [])) s.
Proof.
  intros Hb Hl. induction fuel as [| f IH]; intros don s Hd Hf; cbn [write_all_loop]; destruct (Z.ltb_spec don len) as [Hlt | Hge].
  - lia.
  - exists []. rewrite i64_small by lia. replace (don - don) with 0 by lia. split; [apply R_nil |]. split; [apply sends_nil | lia].
  - unfold sys_write. apply uwp_bind, uwp_bind. eapply uwp_mono; [apply uwp_do | done |]. intros a s1 (e1 & R1 & A1 & O1). apply uwp_ret.
    set (bs := take _ _) in *. assert (zlen bs = len - don) as Hbs by (unfold bs, zlen in *; rewrite length_take, length_drop; lia).
    pose proof (answered_ok _ _ O1) as [Hr Ho]. simpl in Ho. rewrite Hbs in Ho. destruct (Z.leb_spec (i64 (a_ret a)) 0) as [Hw | Hw].
    + exists e1. rewrite i64_small by lia. split; [done |]. split.
      * replace (don - don) with 0 by lia. apply around_sends in A1. by rewrite (Z2Nat.nonpos (i64 _)) in A1 by lia.
      * split; [lia |]. split; [| by intros _; eapply around_ne]. intros Hfl. destruct O1 as [t ->]. specialize (Hfl t bs). destruct bs; [unfold zlen in Hbs; simpl in Hbs; lia | specialize (Hfl ltac:(done)); lia].
    + rewrite u64_small by lia. eapply uwp_mono; [apply IH; lia | done |]. intros w s2 (e2 & R2 & S2 & Hw2 & Hfl & _). exists (e1 ++ e2).
      split; [by eapply R_app |]. split; [| split; [lia | split; [done |]]]; [| intros _ [E _]%app_eq_nil; by apply (around_ne _ _ _ _ A1)].
      apply around_sends in A1. pose proof (sends_app _ _ _ _ _ A1 S2) as S12. unfold bs in S12. rewrite split_take in S12 by lia. done.
  - exists []. rewrite i64_small by lia. replace (don - don) with 0 by lia. split; [apply R_nil |]. split; [apply sends_nil | lia].
Qed.

Lemma sys_write_all_ok fd buf len s : 0 <= len <= zlen buf -> len < 2 ^ 63 ->
  uwp (sys_write_all do fd buf len) never
    (fun w s' => exists evs, R evs s s' /\ sends fd (take (Z.to_nat w) buf) evs /\ 0 <= w <= len /\ (flows fd -> w = len) /\ (0 < len -> evs <> [])) s.
Proof.
  intros Hl H63. eapply uwp_mono; [apply write_all_loop_ok; lia | done |]. intros w s' (evs & ? & S & ? & ? & ?). exists evs. rewrite Z.sub_0_r in S. by repeat (split; [done |]).
Qed.

Lemma sys_print_ok text obj s : cstring text obj -> zlen text < 2 ^ 63 ->
  uwp (sys_print do obj) never
    (fun w s' => exists evs, R evs s s' /\ sends 1 (take (Z.to_nat w) text) evs /\ 0 <= w <= zlen text /\ (flows 1 -> w = zlen text) /\ (0 < zlen text -> evs <> [])) s.
Proof.
  intros Hc H63. unfold sys_print. apply uwp_bind, (uwp_of_option _ (zlen text)); [by apply strlen_cstring |].
  destruct Hc as [_ [rest ->]]. eapply uwp_mono; [apply sys_write_all_ok; unfold zlen in *; rewrite ?length_app; lia | done |].
  intros w s' (evs & ? & S & ? & ? & ?). exists evs. rewrite take_app_le in S by (unfold zlen in *; lia). by repeat (split; [done |]).
Qed.

(** *** The stage of [printf] *)

(** [o'] is [o] after [bs] was put, with [evs] the writes this took. *)
Definition staged (o : out_t) (bs : list Z) (evs : list event) (o' : out_t) : Prop :=
  only_writes evs /\ zlen (o_buf o') <= PRINTF_STAGE /\
  (flows 1 -> h = Program -> written false 1 evs ++ o_buf o' = o_buf o ++ bs /\
     o_total o' = u64 (o_total o + zlen (written false 1 evs)) /\ o_failed o' = o_failed o).

Definition out_ok (o : out_t) : Prop := zlen (o_buf o) <= PRINTF_STAGE /\ 0 <= o_total o < 2 ^ 64.

Lemma staged_refl o : out_ok o -> staged o [] [] o.
Proof. intros [? ?]. split; [apply Forall_nil_2 |]. split; [done |]. intros _ _. rewrite app_nil_r. split; [done |]. split; [| done]. rewrite Z.add_0_r. by rewrite u64_small. Qed.

Lemma staged_app o1 o2 o3 b1 b2 e1 e2 : staged o1 b1 e1 o2 -> staged o2 b2 e2 o3 -> staged o1 (b1 ++ b2) (e1 ++ e2) o3.
Proof.
  intros (A1 & L1 & F1) (A2 & L2 & F2). split; [by apply Forall_app |]. split; [done |]. intros Hf Hh.
  destruct (F1 Hf Hh) as (W1 & T1 & X1), (F2 Hf Hh) as (W2 & T2 & X2). rewrite written_app. split; [| split; [| congruence]].
  - rewrite <- app_assoc, W2, !app_assoc. by rewrite W1.
  - rewrite T2, T1. unfold zlen. rewrite length_app. unfold u64. rewrite Zplus_mod_idemp_l. f_equal. lia.
Qed.

(** A step of [printf] that puts [bs]. *)
Definition puts_out {A} (m : U D A) (o : out_t) (bs : list Z) (Q : A -> out_t -> Prop) (s : prog D) : Prop :=
  uwp m never (fun r s' => exists evs o', R evs s s' /\ staged o bs evs o' /\ out_ok o' /\ Q r o') s.

Lemma flush_ok o s : out_ok o -> puts_out (flush do o) o [] (fun o1 o' => o1 = o' /\ o_buf o' = []) s.
Proof.
  intros Ho. pose proof Ho as [H1 H2]. unfold puts_out, flush. destruct (Z.eqb_spec (zlen (o_buf o)) 0) as [E | E].
  - assert (o_buf o = []) as Hb by (destruct (o_buf o); [done | unfold zlen in E; simpl in E; lia]).
    exists [], o. split; [apply R_nil |]. split; [by apply staged_refl | done].
  - apply uwp_bind. assert (0 <= zlen (o_buf o)) by (unfold zlen; lia). unfold PRINTF_STAGE in *.
    eapply uwp_mono; [apply (sys_write_all_ok 1 (o_buf o)); lia | done |]. intros w s' (evs & HR & [S1 S2] & Hw & Hf & _). apply uwp_ret.
    eexists evs, _. split; [done |]. split; [| split; [| by split]].
    + split; [done |]. split; [done |]. intros Hfl Hh. rewrite (S2 Hh), (Hf Hfl). simpl. rewrite !app_nil_r.
      assert (zlen (take (Z.to_nat (zlen (o_buf o))) (o_buf o)) = zlen (o_buf o)) as -> by (unfold zlen; rewrite length_take; lia).
      split; [rewrite take_ge; [done | unfold zlen; lia] |]. rewrite (u64_small (zlen (o_buf o))) by lia. zcases; simpl; try lia. by rewrite orb_false_r.
    + split; [done |]. simpl. zcases; [| done]. apply Z.mod_pos_bound. lia.
Qed.

Lemma put_ok c o s : 0 <= c < 256 -> out_ok o -> puts_out (put do c o) o [c] (fun o1 o' => o1 = o') s.
Proof.
  intros Hc Ho. unfold put, puts_out. apply uwp_bind.
  assert (uwp (if zlen (o_buf o) =? PRINTF_STAGE then flush do o else mret o) never
    (fun o1 s' => exists evs, R evs s s' /\ staged o [] evs o1 /\ out_ok o1 /\ zlen (o_buf o1) < PRINTF_STAGE) s) as Hm.
  { pose proof Ho as [H1 H2]. destruct (Z.eqb_spec (zlen (o_buf o)) PRINTF_STAGE) as [E | E].
    - eapply uwp_mono; [by apply flush_ok | done |]. intros o1 s1 (evs & o' & HR & HS & Hok & -> & Hb). exists evs. rewrite Hb. by repeat (split; [done |]).
    - exists []. split; [apply R_nil |]. split; [by apply staged_refl |]. split; [done | lia]. }
  eapply uwp_mono; [apply Hm | done |]. intros o1 s1 (evs & HR & HS & [H1 H2] & Hlt). apply uwp_ret. rewrite (u8_small c) by lia.
  eexists evs, _. split; [done |]. split; [| split; [| done]].
  - rewrite <- (app_nil_r evs). change [c] with ([] ++ [c]). eapply staged_app; [done |]. split; [apply Forall_nil_2 |].
    split; [simpl; unfold zlen in *; rewrite length_app; simpl; lia |]. intros _ _. split; [done |]. split; [| done]. simpl. rewrite Z.add_0_r. by rewrite u64_small.
  - split; [| done]. simpl. unfold zlen in *. rewrite length_app. simpl. lia.
Qed.

Lemma puts_out_bind {A B} (m : U D A) (f : A -> U D B) o b1 b2 Q1 Q2 s :
  puts_out m o b1 Q1 s -> (forall a o1 s1, Q1 a o1 -> out_ok o1 -> puts_out (f a) o1 b2 Q2 s1) -> puts_out (m ≫= f) o (b1 ++ b2) Q2 s.
Proof.
  intros H1 H2. apply uwp_bind. eapply uwp_mono; [apply H1 | done |]. intros a s1 (e1 & o1 & R1 & S1 & K1 & Q1a).
  eapply uwp_mono; [by apply (H2 a o1 s1) | done |]. intros r s2 (e2 & o2 & R2 & S2 & K2 & Q2r).
  exists (e1 ++ e2), o2. split; [by eapply R_app |]. split; [by eapply staged_app | done].
Qed.

Lemma puts_out_ret {A} (a : A) o (Q : A -> out_t -> Prop) s : out_ok o -> Q a o -> puts_out (mret a) o [] Q s.
Proof. intros Ho HQ. exists [], o. split; [apply R_nil |]. split; [by apply staged_refl | done]. Qed.

Lemma puts_ok cs : Forall (fun c => 0 <= c < 256) cs -> forall o s, out_ok o -> puts_out (puts do cs o) o cs (fun o1 o' => o1 = o') s.
Proof.
  induction 1 as [| c cs Hc _ IH]; intros o s Ho; simpl; [by apply puts_out_ret |].
  change (c :: cs) with ([c] ++ cs). eapply puts_out_bind; [by apply put_ok |]. intros ? o1 s1 -> H1. by apply IH.
Qed.

Lemma puts_numeral v base o s : 2 <= base <= 16 -> 0 <= v < base ^ 21 -> out_ok o -> puts_out (put_unsigned do v base o) o (numeral base v) (fun o1 o' => o1 = o') s.
Proof.
  intros Hb Hv Ho. unfold put_unsigned, numeral. rewrite (digits_numeral 21 64) by (done || lia). apply puts_ok; [| done].
  assert (base ^ 21 <= base ^ 64) by (apply Z.pow_le_mono_r; lia).
  destruct (numeral_reads 64 base v) as (_ & Hr & _); [done | simpl; lia | lia |]. eapply Forall_impl; [done |]. simpl. lia.
Qed.

Lemma ten_21 v : 0 <= v < 2 ^ 64 -> 0 <= v < 10 ^ 21.
Proof. intros. assert (2 ^ 64 < 10 ^ 21) by done. lia. Qed.

(** The string loop from the pointer [a]. *)
Lemma put_string_ok bs : Forall (fun c => 0 <= c < 256) bs -> forall a ok text o s, a < USER_SPACE_END -> out_ok o ->
  match strlen bs with
  | Some n => if n <? USER_SPACE_END - a then Some (true, take (Z.to_nat n) bs) else Some (false, take (Z.to_nat (USER_SPACE_END - a)) bs)
  | None => if USER_SPACE_END - a <=? zlen bs then Some (false, take (Z.to_nat (USER_SPACE_END - a)) bs) else None
  end = Some (ok, text) ->
  puts_out (put_string do a bs o) o text (fun r o' => r = (negb ok, o')) s.
Proof.
  induction 1 as [| c bs Hc Hbs IH]; intros a ok text o s Ha Ho E; cbn [put_string]; [cbn [strlen] in E; change (zlen (@nil Z)) with 0 in E; destruct (Z.leb_spec (USER_SPACE_END - a) 0); [lia | done] |].
  cbn [strlen] in E. destruct (Z.eqb_spec c 0) as [-> | Hz].
  - destruct (Z.ltb_spec 0 (USER_SPACE_END - a)); [| lia]. injection E as <- <-. by apply puts_out_ret.
  - assert (exists t, text = [c] ++ t /\ (USER_SPACE_END <= a + 1 -> ok = false /\ t = []) /\ (a + 1 < USER_SPACE_END ->
      match strlen bs with
      | Some n => if n <? USER_SPACE_END - (a + 1) then Some (true, take (Z.to_nat n) bs) else Some (false, take (Z.to_nat (USER_SPACE_END - (a + 1))) bs)
      | None => if USER_SPACE_END - (a + 1) <=? zlen bs then Some (false, take (Z.to_nat (USER_SPACE_END - (a + 1))) bs) else None
      end = Some (ok, t))) as (t & -> & Ht1 & Ht2).
    { assert (Z.to_nat (USER_SPACE_END - a) = S (Z.to_nat (USER_SPACE_END - (a + 1)))) as Er by lia. rewrite Er in E. cbn [take] in E.
      destruct (strlen bs) as [n|] eqn:En; simpl in E.
      - pose proof (strlen_nonneg _ _ En) as Hn. replace (Z.to_nat (n + 1)) with (S (Z.to_nat n)) in E by lia. cbn [take] in E.
        destruct (Z.ltb_spec (n + 1) (USER_SPACE_END - a)); injection E as <- <-; eexists; (split; [done |]); split; intros.
        + lia.
        + zcases; [done | lia].
        + split; [done |]. by rewrite Z2Nat.nonpos by lia.
        + zcases; [lia | done].
      - assert (zlen (c :: bs) = 1 + zlen bs) as Ez by (unfold zlen; simpl; lia). rewrite Ez in E. destruct (Z.leb_spec (USER_SPACE_END - a) (1 + zlen bs)); [| done]. injection E as <- <-; eexists; (split; [done |]); split; intros.
        + split; [done |]. by rewrite Z2Nat.nonpos by lia.
        + zcases; [done | lia]. }
    eapply puts_out_bind; [apply put_ok; [lia | done] |]. intros ? o1 s1 -> H1.
    destruct (Z.leb_spec USER_SPACE_END (a + 1)) as [Hge | Hlt].
    + destruct (Ht1 Hge) as [-> ->]. by apply puts_out_ret.
    + apply IH; [done | done | by apply Ht2].
Qed.

Lemma puts_out_val {A B} (a : A) (f : A -> U D B) o bs Q s : puts_out (f a) o bs Q s -> puts_out (mret a ≫= f) o bs Q s.
Proof. done. Qed.

(** A last step that only returns. *)
Lemma puts_out_end {A B} (m : U D A) (f : A -> U D B) o bs Q1 (Q2 : B -> out_t -> Prop) s :
  puts_out m o bs Q1 s -> (forall a o1 s1, Q1 a o1 -> out_ok o1 -> puts_out (f a) o1 [] Q2 s1) -> puts_out (m ≫= f) o bs Q2 s.
Proof. intros H1 H2. rewrite <- (app_nil_r bs). by eapply puts_out_bind. Qed.

Definition arg_ok (x : arg) : Prop := match x with A_int _ => True | A_ptr _ bs => Forall (fun c => 0 <= c < 256) bs end.

Lemma convert_ok c args ok text args' o s : expand c args = Some (ok, text, args') -> Forall arg_ok args -> out_ok o ->
  puts_out (convert do c args o) o text (fun r o' => r = (negb ok, args', o')) s.
Proof.
  intros E Hargs Ho. unfold expand in E. unfold convert.
  assert (forall v, 0 <= u32 v < 2 ^ 64) as Hu by (intros v; pose proof (Z.mod_pos_bound v (2 ^ 32) ltac:(lia)); unfold u32; lia).
  destruct (Z.eqb_spec c 37) as [-> | H37].
  { injection E as <- <- <-. change (37 =? 100) with false. change (37 =? 117) with false. change (37 =? 120) with false. change (37 =? 99) with false. change (37 =? 115) with false. cbv iota.
    eapply puts_out_end; [apply put_ok; [lia | done] |]. intros ? o1 s1 -> H1. by apply puts_out_ret. }
  destruct (bool_decide_reflect (c ∈ [100; 117; 120; 99; 115])) as [Hin | Hin]; simpl negb in E; cbv iota in E.
  2: { injection E as <- <- <-. rewrite !not_elem_of_cons in Hin. destruct Hin as (N1 & N2 & N3 & N4 & N5 & _).
    apply Z.eqb_neq in N1 as ->, N2 as ->, N3 as ->, N4 as ->, N5 as ->. by apply puts_out_ret. }
  destruct args as [| [v | a bs] args]; [done | |]; apply Forall_cons in Hargs as [Ha Hargs]; cbn [va_int va_ptr].
  - assert (- 2 ^ 31 <= i32 v < 2 ^ 31) as Hi by (unfold i32; pose proof (Z.mod_pos_bound (v + 2 ^ 31) (2 ^ 32) ltac:(lia)); lia).
    destruct (c =? 100).
    { injection E as <- <- <-. apply puts_out_val. destruct (Z.ltb_spec (i32 v) 0).
      - change (45 :: numeral 10 (- i32 v)) with ([45] ++ numeral 10 (- i32 v)). eapply puts_out_bind; [apply put_ok; [lia | done] |]. intros ? o1 s1 -> H1.
        rewrite u64_small by lia. eapply puts_out_end; [apply puts_numeral; [lia | apply ten_21; lia | done] |]. intros ? o2 s2 -> H2. by apply puts_out_ret.
      - rewrite u64_small by lia. eapply puts_out_end; [apply puts_numeral; [lia | apply ten_21; lia | done] |]. intros ? o2 s2 -> H2. by apply puts_out_ret. }
    destruct (c =? 117).
    { injection E as <- <- <-. apply puts_out_val. eapply puts_out_end; [apply puts_numeral; [lia | by apply ten_21 | done] |]. intros ? o2 s2 -> H2. by apply puts_out_ret. }
    destruct (c =? 120).
    { injection E as <- <- <-. apply puts_out_val. eapply puts_out_end; [apply puts_numeral; [lia | | done] |].
      { specialize (Hu v). assert (2 ^ 64 < 16 ^ 21) by done. lia. }
      intros ? o2 s2 -> H2. by apply puts_out_ret. }
    destruct (c =? 99); [| done].
    injection E as <- <- <-. apply puts_out_val. assert (u8 (i32 v) = u8 v) as -> by (unfold i32, u8; mlia).
    eapply puts_out_end; [apply put_ok; [apply Z.mod_pos_bound; lia | done] |]. intros ? o2 s2 -> H2. by apply puts_out_ret.
  - destruct (Z.eqb_spec c 115) as [-> |]; [| done]. change (115 =? 100) with false. change (115 =? 117) with false. change (115 =? 120) with false. change (115 =? 99) with false. cbv iota.
    apply puts_out_val. destruct (string_text a bs) as [[ok' text']|] eqn:Es; [| done]. simpl in E. injection E as <- <- <-.
    unfold string_text in Es. destruct (user_pointer_ok a) eqn:Ep; simpl negb in Es |- *; cbv iota in Es |- *.
    + unfold user_pointer_ok in Ep. eapply puts_out_end; [apply put_string_ok; [done | zbool; lia | done | done] |]. intros [st ?] o2 s2 [= -> ->] H2. by apply puts_out_ret.
    + injection Es as <- <-. by apply puts_out_ret.
Qed.

Lemma expand_args c args ok text args' : expand c args = Some (ok, text, args') -> Forall arg_ok args -> Forall arg_ok args'.
Proof.
  intros E Ha. unfold expand in E. repeat case_match; simplify_eq; try done; try (by apply Forall_cons in Ha as [_ Ha]).
  destruct (string_text _ _) as [[? ?]|]; simpl in E; [| done]. injection E as <- <- <-. by apply Forall_cons in Ha as [_ Ha].
Qed.

Lemma printf_loop_ok rest n : forall fmt args ok text o s, (length fmt <= n)%nat -> format fmt args = Some (ok, text) -> Forall (fun c => 0 < c < 256) fmt -> Forall arg_ok args -> out_ok o ->
  puts_out (printf_loop do (fmt ++ 0 :: rest) args false o) o text (fun r o' => r = (negb ok, o')) s.
Proof.
  induction n as [| n IH]; intros fmt args ok text o s Hn E Hf Ha Ho; (destruct fmt as [| c fmt]; [cbn in E; injection E as <- <-; by apply puts_out_ret |]); [simpl in Hn; lia |].
  cbn [format] in E. cbn [app printf_loop]. apply Forall_cons in Hf as [Hc Hf]. destruct (Z.eqb_spec c 0); [lia |]. simpl orb. cbv iota.
  destruct (Z.eqb_spec c 37) as [-> | H37]; simpl negb in E |- *; cbv iota in E |- *.
  - destruct fmt as [| d fmt]; [done |]. cbn [app]. apply Forall_cons in Hf as [Hd Hf].
    destruct (expand d args) as [[[ok1 t1] args1]|] eqn:Ex; simpl in E; [| done]. pose proof (expand_args _ _ _ _ _ Ex Ha) as Ha1. destruct ok1.
    + destruct (format fmt args1) as [[ok2 t2]|] eqn:Ef; simpl in E; [| done]. injection E as <- <-.
      eapply puts_out_bind; [by eapply convert_ok |]. intros [[st ?] ?] o1 s1 [= -> -> ->] H1. apply IH; [simpl in Hn; lia | done..].
    + injection E as <- <-. eapply puts_out_end; [by eapply convert_ok |]. intros [[st ?] ?] o1 s1 [= -> -> ->] H1.
      destruct fmt; cbn [app printf_loop]; rewrite orb_true_r; by apply puts_out_ret.
  - destruct (format fmt args) as [[ok2 t2]|] eqn:Ef; simpl in E; [| done]. injection E as <- <-. change (c :: t2) with ([c] ++ t2).
    eapply puts_out_bind; [apply put_ok; [lia | done] |]. intros ? o1 s1 -> H1. apply IH; [simpl in Hn; lia | done..].
Qed.

(** No undefined behaviour, and the text where it can be written. *)
Lemma printf_ok fmt rest args ok text s : format fmt args = Some (ok, text) -> Forall (fun c => 0 < c < 256) fmt -> Forall arg_ok args ->
  uwp (printf do (fmt ++ 0 :: rest) args) never
    (fun r s' => exists evs, R evs s s' /\ only_writes evs /\ (flows 1 -> h = Program -> written false 1 evs = text /\ r = if ok then i32 (zlen text) else -1)) s.
Proof.
  intros E Hf Ha. unfold printf. apply uwp_bind. set (o0 := mkOut [] 0 false).
  eapply uwp_mono; [apply (printf_loop_ok rest (length fmt) fmt args ok text o0 s); [done | done | done | done | done] | done |].
  intros [st o] s1 (e1 & o' & R1 & S1 & K1 & [= -> ->]). apply uwp_bind. eapply uwp_mono; [by apply flush_ok | done |].
  intros o2 s2 (e2 & ? & R2 & S2 & K2 & <- & Hb). apply uwp_ret. exists (e1 ++ e2). split; [by eapply R_app |].
  destruct (staged_app _ _ _ _ _ _ _ S1 S2) as (A & _ & F). split; [done |]. intros Hfl Hh. destruct (F Hfl Hh) as (W & T & X).
  rewrite Hb, !app_nil_r in W. simpl in W. split; [done |]. rewrite X, T, W. simpl. destruct ok; simpl; [| done].
  unfold i32, u64. mlia.
Qed.
End Output.

(** ** The text of a format *)

(** C34: [printf] writes exactly the text its format and arguments stand for
    ([format]: the six conversions with numbers in their shortest form,
    stopped at an unknown conversion or a string outside ring-3 space), in
    order and however the kernel cuts up the writes, and returns its length
    as an [int], or -1 when it was stopped. It does so over a stage of 128
    bytes and with signals handled in between; it makes no other call. The
    numbers read back as the values printed. *)
Theorem printf_equiv {D} `{Env} {laws : AnswerLaws} (handler : bool -> U D unit) (touch : D -> D) fmt rest args ok text s :
  (forall g, touch (touch g) = touch g) ->
  (forall b s, uwp (handler b) never (fun _ s' => exists evs, grown touch evs s s' /\ Forall (aside b) evs) s) ->
  flows 1 -> Forall (fun c => 0 < c < 256) fmt -> Forall arg_ok args -> format fmt args = Some (ok, text) ->
  (exists s' evs, printf (syscall handler) (fmt ++ 0 :: rest) args s = Got (if ok then i32 (zlen text) else -1) s' /\
     grown touch evs s s' /\ deeds evs = [] /\ written false 1 evs = text) /\
  (forall base v, 2 <= base <= 16 -> 0 <= v < 2 ^ 64 -> read_number base (numeral base v) = v).
Proof.
  intros Hi Hh Hfl Hf Ha E. split.
  - pose proof (rings_syscall handler touch Hi Hh) as Hr.
    destruct (uwp_run _ _ _ (printf_ok _ _ _ Hr fmt rest args ok text s E Hf Ha)) as (r & s' & Er & evs & HR & Hw & HF).
    destruct (HF Hfl eq_refl) as [W ->]. exists s', evs. split; [done |]. split; [done |]. split; [| done].
    clear - Hw. induction Hw as [| e t [He _] _ IH]; [done |]. unfold deeds, deed in *. simpl. by rewrite He, andb_false_r, IH.
  - intros base v Hb Hv. apply numeral_reads; [done | | lia]. assert (2 ^ 64 <= base ^ 64) by (apply Z.pow_le_mono_l; lia). simpl Z.of_nat. lia.
Qed.

(** A terminal that takes five bytes at a time, and fails all else. *)
Module DemoUser.
Definition fives (c : call) : answer :=
  match c with
  | C_write _ bs => mkAnswer (Z.min 5 (zlen bs)) []
  | _ => mkAnswer SYS_FAIL []
  end.
#[export] Instance env : Env := { kern _ c := fives c; signals _ _ := 0%nat }.
Lemma fives_ok c : answer_ok c (fives c).
Proof.
  assert (0 <= SYS_FAIL < 2 ^ 64) by done. assert (SYS_FAIL <> 0) by done. unfold answer_ok. destruct c; simpl; try (by auto).
  - assert (0 <= zlen bs) by (unfold zlen; lia). rewrite i64_small by lia. lia.
Qed.
#[export] Instance laws : AnswerLaws := { kern_ok _ c := fives_ok c }.
Definition start : prog unit := mkProg [] false tt.
End DemoUser.
Import DemoUser.

(** printf("%s is %d, %x", "zero-sum", -2147483648, 48879) and printf("%q"). *)
Lemma printf_equiv_witness :
  (exists s' evs, printf (syscall (fun _ => mret tt)) ([37; 115; 32; 105; 115; 32; 37; 100; 44; 32; 37; 120] ++ 0 :: [])
     [A_ptr USER_CODE_BASE [122; 101; 114; 111; 45; 115; 117; 109; 0]; A_int 2147483648; A_int 48879] DemoUser.start = Got 29 s' /\
     written false 1 evs = [122; 101; 114; 111; 45; 115; 117; 109; 32; 105; 115; 32; 45; 50; 49; 52; 55; 52; 56; 51; 54; 52; 56; 44; 32; 98; 101; 101; 102]) /\
  read_number 16 (numeral 16 48879) = 48879.
Proof.
  assert (flows 1) as Hfl.
  { intros t [| c bs] Hb; [done |]. cbn [kern DemoUser.env DemoUser.fives a_ret]. assert (0 < zlen (c :: bs)) by (unfold zlen; simpl; lia). rewrite i64_small; lia. }
  assert (forall b (s : prog unit), uwp (mret tt) never (fun _ s' => exists evs, grown id evs s s' /\ Forall (aside b) evs) s) as Hh.
  { intros b s. exists []. split; [| constructor]. split; [by rewrite app_nil_r | done]. }
  destruct (printf_equiv (fun _ => mret tt) id [37; 115; 32; 105; 115; 32; 37; 100; 44; 32; 37; 120] []
     [A_ptr USER_CODE_BASE [122; 101; 114; 111; 45; 115; 117; 109; 0]; A_int 2147483648; A_int 48879] true
     [122; 101; 114; 111; 45; 115; 117; 109; 32; 105; 115; 32; 45; 50; 49; 52; 55; 52; 56; 51; 54; 52; 56; 44; 32; 98; 101; 101; 102] DemoUser.start (fun _ => eq_refl) Hh Hfl) as [(s' & evs & E & _ & _ & W) Hn].
  - repeat constructor; lia.
  - repeat constructor; simpl; lia.
  - vm_compute. reflexivity.
  - split; [exists s', evs; exact (conj E W) |]. apply Hn; lia.
Defined.

(** A format that ends in a percent sign: the loop reads one byte past the
    terminator. *)
Lemma printf_trailing_percent {D} (do : call -> U D answer) args s : printf do [37; 0] args s = Bad.
Proof. reflexivity. Qed.
