(* ===== verification/Shell.v ===== *)
(** * The shell

    [user/shell.c], the first program: it reads a line a key at a time,
    splits it in place, and runs a command or a pipeline. Its data are the
    static buffers of the source; pointers into [line] are indices. The
    definitions are those of the source; [ShellSpec] has the theorems. *)

From Stdlib Require Import ZArith Lia Bool Ascii String.
From stdpp Require Import base option list.
From S2P Require Import Prelude Phys Libc Frames Kernel User.

Definition SHELL_LINE_MAX : Z := 128.
Definition SHELL_LIST_MAX : Z := 512.
Definition SHELL_FILE_MAX : Z := 32768.
Definition SHELL_CLEAR_LINES : Z := 25.
Definition SHELL_MAX_SEGS : Z := 4.
Definition SHELL_MAX_TASKS : Z := 64.
Definition SHELL_PGID : Z := 0.

Definition TASK_INFO_READY : Z := 1.
Definition TASK_INFO_RUNNING : Z := 2.
Definition TASK_INFO_BLOCKED : Z := 3.
Definition TASK_INFO_ZOMBIE : Z := 4.

Record shell := mkShell { line : list Z; line_abandoned : bool; list_buf : list Z; file_buf : list Z }.
Definition set_line (l : list Z) (g : shell) : shell := mkShell l (line_abandoned g) (list_buf g) (file_buf g).
Definition set_abandoned (b : bool) (g : shell) : shell := mkShell (line g) b (list_buf g) (file_buf g).
Definition set_list_buf (l : list Z) (g : shell) : shell := mkShell (line g) (line_abandoned g) l (file_buf g).
Definition set_file_buf (l : list Z) (g : shell) : shell := mkShell (line g) (line_abandoned g) (list_buf g) l.

(** The static data at the start. *)
Definition shell_zero : shell :=
  mkShell (replicate (Z.to_nat SHELL_LINE_MAX) 0) false (replicate (Z.to_nat SHELL_LIST_MAX) 0) (replicate (Z.to_nat SHELL_FILE_MAX) 0).

(** The bytes the kernel stored at the start of a buffer. *)
Definition over (buf data : list Z) : list Z := data ++ drop (length data) buf.

(** Where the linker put [line] and the read-only strings. *)
Class Layout := { line_at : Z; text_at : Z }.

Definition name_is_83_base : list Z -> Z -> option (Z * list Z) :=
  fix go name base :=
  match name with
  | [] => None
  | c :: name' =>
      if (c =? 0) || (c =? 46) then Some (base, name)
      else if 8 <? base + 1 then Some (base + 1, name) else go name' (base + 1)
  end.
Definition name_is_83_ext : list Z -> Z -> option bool :=
  fix go name ext :=
  match name with
  | [] => None
  | c :: name' => if c =? 0 then Some true else if 3 <? ext + 1 then Some false else go name' (ext + 1)
  end.

(** [None]: the string has no terminator. *)
Definition name_is_83 (name : list Z) : option bool :=
  r ← name_is_83_base name 0 ;
  let '(base, rest) := r in
  if 8 <? base then Some false
  else if base =? 0 then Some false
  else match rest with
       | 46 :: ext => name_is_83_ext ext 0
       | _ => Some true
       end.

(** The value and [*ok]. *)
Fixpoint parse_digits (s : list Z) (v : Z) (digits : Z) : option (Z * bool) :=
  match s with
  | [] => None
  | c :: s' =>
      if c =? 0 then Some (v, 0 <? digits)
      else if (i8 c <? 48) || (57 <? i8 c) then Some (0, false)
      else parse_digits s' (u64 (v * 10 + (i8 c - 48))) (digits + 1)
  end.
Definition parse_uint (s : list Z) : option (Z * bool) := parse_digits s 0 0.

Definition state_name (state : Z) : list Z :=
  if state =? TASK_INFO_READY then lit "ready"
  else if state =? TASK_INFO_RUNNING then lit "running"
  else if state =? TASK_INFO_BLOCKED then lit "blocked"
  else if state =? TASK_INFO_ZOMBIE then lit "zombie"
  else lit "?".

Section Shell.
Context `{Env} `{Layout}.
Notation SH := (U shell).

(** The handler of [SIG_INT]. *)
Definition on_interrupt (after : bool) : SH unit :=
  modify (set_abandoned true) ;;
  sys_print (trap (Handler after)) [10; 62; 32; 0] ;;
  mret tt.

Definition sys : call -> SH answer := syscall on_interrupt.
Definition print (s : list Z) : SH unit := sys_print sys s ;; mret tt.
Definition say (fmt : list Z) (args : list arg) : SH unit := printf sys fmt args ;; mret tt.

(** The string at [p] of [line], and as an argument of [printf]. *)
Definition at_line (p : Z) : SH (list Z) := g ← get ; mret (drop (Z.to_nat p) (line g)).
Definition line_arg (p : Z) (s : list Z) : arg := A_ptr (line_at + p) s.

(** [line[i] = c] *)
Definition store_line (i c : Z) : SH unit :=
  if (0 <=? i) && (i <? SHELL_LINE_MAX) then modify (fun g => set_line (zset (line g) i c) g) else bad.

(** [next_token] on [line]. *)
Definition token (pos sep : Z) : SH (Z * option Z) :=
  g ← get ;
  '(buf, pos, tok) ← of_option (next_token (line g) pos sep) ;
  modify (set_line buf) ;;
  mret (pos, tok).

Definition print_help : SH unit :=
  print (lit_nl "commands:") ;;
  print (lit_nl "  list                 list files in the root directory") ;;
  print (lit_nl "  read <file>          print a file's contents") ;;
  print (lit_nl "  write <file> <text>  write the rest of the line to a file (creates/replaces)") ;;
  print (lit_nl "  delete <file>        delete a file") ;;
  print (lit_nl "  free                 how many clusters on the volume are free") ;;
  print (lit_nl "  run <file>           run a program and wait for it to finish") ;;
  print (lit_nl "  help                 show this list") ;;
  print (lit_nl "  clear                clear the screen") ;;
  print (lit_nl "  return <text>        print the text back") ;;
  print (lit_nl "  ps                   list the running tasks") ;;
  print (lit_nl "  kill <id> [sig]      send a signal to a task (default 2, interrupt)").

(** [tasks[i]]: its five words. *)
Definition task_row (data : list Z) (i : Z) : SH (Z * Z * Z * Z * Z) :=
  match drop (Z.to_nat (5 * i)) data with
  | id :: parent_id :: pgid :: state :: exit_status :: _ => mret (id, parent_id, pgid, state, exit_status)
  | _ => bad
  end.

(** The loop of [ps]; the array has [SHELL_MAX_TASKS] entries. *)
Fixpoint ps_rows (room : nat) (data : list Z) (i n : Z) : SH unit :=
  if i <? n then
    match room with
    | O => bad
    | S room' =>
        '(id, parent_id, pgid, state, exit_status) ← task_row data i ;
        say (lit "  %u   ") [A_int id] ;;
        (if parent_id =? 0xFFFFFFFF then say (lit "-") [] else say (lit "%u") [A_int parent_id]) ;;
        say (lit "       %u     %s") [A_int pgid; A_ptr text_at (state_name state)] ;;
        (if state =? TASK_INFO_ZOMBIE then say (lit "   %d") [A_int exit_status] else mret tt) ;;
        say [10; 0] [] ;;
        ps_rows room' data (i + 1) n
    end
  else mret tt.

Definition cmd_ps : SH unit :=
  a ← sys (C_tasks (SHELL_MAX_TASKS * 20)) ;
  let n := a_ret a in
  if n =? SYS_FAIL then print (lit_nl "ps: could not read the task table")
  else
    say (lit_nl "  id  parent  pgid  state    status") [] ;;
    ps_rows (Z.to_nat SHELL_MAX_TASKS) (a_data a) 0 n.

Definition cmd_kill (id_tok sig_tok : option Z) : SH unit :=
  match id_tok with
  | None => print (lit_nl "kill: missing task id (try 'ps')")
  | Some p =>
      s ← at_line p ;
      '(id, ok) ← of_option (parse_uint s) ;
      if negb ok then print (lit_nl "kill: task id must be a number")
      else
        '(sig, ok) ← match sig_tok with
                     | None => mret (SIG_INT, true)
                     | Some q => s ← at_line q ; of_option (parse_uint s)
                     end ;
        if negb ok then print (lit_nl "kill: signal must be a number")
        else
          r ← sys_kill sys id (i32 sig) ;
          if r =? SYS_FAIL then print (lit_nl "kill: no such task, or not a signal this kernel has") else mret tt
  end.

Definition cmd_list : SH unit :=
  '(r, data) ← sys_list sys SHELL_LIST_MAX ;
  modify (fun g => set_list_buf (over (list_buf g) data) g) ;;
  if r =? SYS_FAIL then print (lit_nl "list: could not read the directory")
  else
    g ← get ;
    print (list_buf g).

(** A message with a name of the line in it. *)
Definition print_about (before : list Z) (p : Z) (after : list Z) : SH unit :=
  print before ;;
  name ← at_line p ;
  print name ;;
  print after.

Definition cmd_read (name : option Z) : SH unit :=
  match name with
  | None => print (lit_nl "read: missing filename")
  | Some p =>
      s ← at_line p ;
      '(r, size) ← sys_stat sys s 0 ;
      if r =? SYS_FAIL then print_about (lit "read: no such file: ") p [10; 0]
      else if SHELL_FILE_MAX - 1 <? size then
        s ← at_line p ;
        say (lit_nl "read: %s is %u bytes, the buffer holds %u") [line_arg p s; A_int (u32 size); A_int (SHELL_FILE_MAX - 1)]
      else
        s ← at_line p ;
        '(n, data) ← sys_readfile sys s (SHELL_FILE_MAX - 1) ;
        modify (fun g => set_file_buf (over (file_buf g) data) g) ;;
        if n =? SYS_FAIL then print_about (lit "read: cannot read ") p [10; 0]
        else if SHELL_FILE_MAX <=? n then bad
        else
          modify (fun g => set_file_buf (zset (file_buf g) n 0) g) ;;
          g ← get ;
          print (file_buf g) ;;
          print [10; 0]
  end.

Definition not_83 : list Z := lit_nl " is not an 8.3 name (max 8 chars, dot, 3 chars)".

Definition cmd_write (name : option Z) (content : Z) : SH unit :=
  match name with
  | None => print (lit_nl "write: missing filename")
  | Some p =>
      s ← at_line p ;
      ok ← of_option (name_is_83 s) ;
      if negb ok then print_about (lit "write: ") p not_83
      else
        text ← at_line content ;
        len ← of_option (strlen text) ;
        r ← sys_writefile sys s text len ;
        if negb (r =? 0) then print_about (lit "write: could not write ") p [10; 0] else mret tt
  end.

Definition cmd_free : SH unit :=
  n ← sys_freecount sys ;
  say (lit_nl "%u clusters free") [A_int (u32 n)].

Definition cmd_delete (name : option Z) : SH unit :=
  match name with
  | None => print (lit_nl "delete: missing filename")
  | Some p =>
      s ← at_line p ;
      ok ← of_option (name_is_83 s) ;
      if negb ok then print_about (lit "delete: ") p not_83
      else
        r ← sys_delete sys s ;
        if negb (r =? 0) then print_about (lit "delete: could not delete ") p [10; 0] else mret tt
  end.

Definition cmd_run (name : option Z) : SH unit :=
  match name with
  | None => print (lit_nl "run: missing filename")
  | Some p =>
      s ← at_line p ;
      id ← sys_run_group sys s (-1) (-1) SYS_RUN_GROUP_NEW ;
      if id =? SYS_FAIL then print_about (lit "run: could not start ") p [10; 0]
      else
        print_about (lit "run: started ") p [10; 0] ;;
        sys_setfg sys id ;;
        status ← sys_wait sys ;
        sys_setfg sys SHELL_PGID ;;
        if status <? 0 then print (lit_nl "run: no child to wait for")
        else
          s ← at_line p ;
          say (lit_nl "run: %s exited with status %d") [line_arg p s; A_int (i32 status)]
  end.

Definition cmd_clear : SH unit := times (Z.to_nat SHELL_CLEAR_LINES) (print [10; 0]).

Definition cmd_return (rest : Z) : SH unit :=
  s ← at_line rest ;
  n ← of_option (skip_seps s 32) ;
  s ← at_line (rest + n) ;
  print s ;;
  print [10; 0].

(** One key at a time; [fuel] bounds the keys. *)
Fixpoint read_keys (fuel : nat) (len : Z) : SH unit :=
  match fuel with
  | O => more
  | S f =>
      key ← sys_readkey sys ;
      if key =? SYS_FAIL then read_keys f len
      else
        g ← get ;
        len ← (if line_abandoned g then modify (set_abandoned false) ;; mret 0 else mret len) ;
        let c := u8 key in
        if c =? 10 then
          print [10; 0] ;;
          store_line len 0
        else if c =? 8 then
          if 0 <? len then
            print [8; 0] ;;
            read_keys f (len - 1)
          else read_keys f len
        else if len <? SHELL_LINE_MAX - 1 then
          store_line len c ;;
          print [c; 0] ;;
          read_keys f (len + 1)
        else read_keys f len
  end.
Definition read_line (fuel : nat) : SH unit := read_keys fuel 0.

(** The child's task id, or -1. *)
Definition start_segment (seg in_fd out_fd pgid : Z) : SH Z :=
  '(pos, cmd) ← token seg 32 ;
  is_run ← match cmd with
           | None => mret false
           | Some p => s ← at_line p ; r ← of_option (strcmp s (lit "run")) ; mret (r =? 0)
           end ;
  if negb is_run then
    print (lit_nl "pipe: each stage must be 'run <file>'") ;;
    mret (-1)
  else
    '(pos, name) ← token pos 32 ;
    match name with
    | None =>
        print (lit_nl "pipe: run needs a filename") ;;
        mret (-1)
    | Some p =>
        s ← at_line p ;
        ret ← sys_run_group sys s in_fd out_fd pgid ;
        if ret =? SYS_FAIL then
          print_about (lit "pipe: could not start ") p [10; 0] ;;
          mret (-1)
        else mret (i64 ret)
    end.

(** The stages of the line, or none after the message. A turn stores a stage
    or is the last. *)
Fixpoint split_line (room : nat) (pos : Z) (seg : list Z) : SH (option (list Z)) :=
  '(pos, s) ← token pos 124 ;
  match s with
  | None => mret (Some seg)
  | Some s =>
      match room with
      | O =>
          print (lit_nl "pipe: too many stages (max 4)") ;;
          mret None
      | S room' => split_line room' pos (seg ++ [s])
      end
  end.

Definition close_if (fd : Z) : SH unit :=
  if negb (fd =? -1) then sys_close sys fd ;; mret tt else mret tt.

(** The loop over the stages: [job_pgid], [started] and [last_id] at
    [drain]. *)
Fixpoint run_stages (segs : list Z) (in_fd job_pgid : Z) (started : nat) : SH (Z * nat * Z) :=
  match segs with
  | [] => mret (job_pgid, started, -1)
  | seg :: rest =>
      ends ← (if negb (bool_decide (rest = [])) then
                '(r, p) ← sys_pipe sys ;
                if negb (r =? 0) then
                  print (lit_nl "pipe: could not create a pipe") ;;
                  close_if in_fd ;;
                  mret None
                else
                  match p with
                  | [p0; p1] => mret (Some (p1, p0))
                  | _ => bad
                  end
              else mret (Some (-1, -1))) ;
      match ends with
      | None => mret (job_pgid, started, -1)
      | Some (out_fd, next_in) =>
          id ← start_segment seg in_fd out_fd (if job_pgid =? 0 then SYS_RUN_GROUP_NEW else job_pgid) ;
          close_if in_fd ;;
          close_if out_fd ;;
          if id <? 0 then
            close_if next_in ;;
            mret (job_pgid, started, -1)
          else
            let job_pgid := if job_pgid =? 0 then u64 id else job_pgid in
            if bool_decide (rest = []) then mret (job_pgid, S started, id)
            else run_stages rest next_in job_pgid (S started)
      end
  end.

Fixpoint reap (started : nat) (last_id last_status : Z) : SH Z :=
  match started with
  | O => mret last_status
  | S n =>
      '(st, who) ← sys_wait_id sys 0 ;
      reap n last_id (if (0 <=? st) && (i64 who =? last_id) then st else last_status)
  end.

Definition run_pipeline : SH unit :=
  segs ← split_line (Z.to_nat SHELL_MAX_SEGS) 0 [] ;
  match segs with
  | None => mret tt
  | Some segs =>
      if zlen segs <? 2 then print (lit_nl "pipe: each side of | needs a command")
      else
        '(job_pgid, started, last_id) ← run_stages segs (-1) 0 0 ;
        (if negb (job_pgid =? 0) then sys_setfg sys job_pgid ;; mret tt else mret tt) ;;
        last_status ← reap started last_id (-1) ;
        (if (0 <=? last_id) && (0 <=? last_status) then
           say (lit_nl "pipeline exited with status %d") [A_int (i32 last_status)]
         else mret tt) ;;
        sys_setfg sys SHELL_PGID ;;
        mret tt
  end.

(** [strcmp(cmd, "...") == 0] *)
Definition is_cmd (cmd : Z) (name : string) : SH bool :=
  s ← at_line cmd ;
  r ← of_option (strcmp s (lit name)) ;
  mret (r =? 0).

Fixpoint dispatch_cmd (table : list (string * SH unit)) (cmd : Z) (otherwise : SH unit) : SH unit :=
  match table with
  | [] => otherwise
  | (name, body) :: table' =>
      is_cmd cmd name ≫= fun b : bool => if b then body else dispatch_cmd table' cmd otherwise
  end.

(** The commands, by name, in the order of the comparisons. *)
Definition with_token (pos : Z) (f : Z -> option Z -> SH unit) : SH unit :=
  t ← token pos 32 ;
  f (fst t) (snd t).
Definition commands (pos : Z) : list (string * SH unit) :=
  [ ("list"%string, cmd_list);
    ("read"%string, with_token pos (fun _ name => cmd_read name));
    ("write"%string, with_token pos (fun pos wname => cmd_write wname pos));
    ("delete"%string, with_token pos (fun _ name => cmd_delete name));
    ("free"%string, cmd_free);
    ("run"%string, with_token pos (fun _ name => cmd_run name));
    ("help"%string, print_help);
    ("clear"%string, cmd_clear);
    ("return"%string, cmd_return pos);
    ("ps"%string, cmd_ps);
    ("kill"%string, with_token pos (fun pos id_tok => with_token pos (fun _ sig_tok => cmd_kill id_tok sig_tok))) ].

(** The command of a line without a bar. *)
Definition run_command : SH unit :=
  '(pos, cmd) ← token 0 32 ;
  match cmd with
  | None => mret tt
  | Some cmd => dispatch_cmd (commands pos) cmd (print_about (lit "unknown command: ") cmd [10; 0])
  end.

(** One turn of the loop. *)
Definition shell_turn (keys : nat) : SH unit :=
  print (lit "> ") ;;
  read_line keys ;;
  g ← get ;
  bar ← of_option (strchr (line g) 124) ;
  match bar with
  | Some _ => run_pipeline
  | None => run_command
  end.

Fixpoint shell_loop (turns keys : nat) : SH unit :=
  match turns with
  | O => more
  | S t => shell_turn keys ;; shell_loop t keys
  end.

Definition _start (turns keys : nat) : SH unit :=
  print (lit_nl "TownOS shell. type 'help'.") ;;
  sys_signal sys SIG_INT ;;
  shell_loop turns keys.

End Shell.
