(* ===== verification/Words.v ===== *)
(** * Words of a line

    What the pure functions of the shell compute: [next_token] splits a
    buffer in place into its words, [name_is_83] accepts what the file
    system accepts, [parse_uint] reads a number modulo 2^64. *)

From Stdlib Require Import ZArith Lia Bool.
From stdpp Require Import base option list.
From S2P Require Import Prelude Phys Libc Frames Fat User Shell.

(** ** A string inside a buffer *)

(** There is a terminator at [k]. *)
Definition ends_at (buf : list Z) (k : Z) : Prop := 0 <= k /\ buf !! Z.to_nat k = Some 0.

Lemma cstring_at n : forall buf : list Z, buf !! n = Some 0 -> exists text, cstring text buf /\ (length text <= n)%nat.
Proof.
  induction n as [| n IH]; intros [| c buf] E; [done | | done |]; simpl in E.
  - injection E as ->. exists []. split; [| done]. split; [apply Forall_nil_2 | by exists buf].
  - destruct (Z.eq_dec c 0) as [-> | Hc]; [exists []; split; [split; [apply Forall_nil_2 | by exists buf] | simpl; lia] |].
    destruct (IH buf E) as (text & [Ht [rest ->]] & Hl). exists (c :: text). split; [split; [by constructor | by exists rest] | simpl; lia].
Qed.

Lemma ends_at_cstring buf k p : ends_at buf k -> 0 <= p <= k -> exists text, cstring text (drop (Z.to_nat p) buf) /\ p + zlen text <= k.
Proof.
  intros [Hk E] Hp. destruct (cstring_at (Z.to_nat (k - p)) (drop (Z.to_nat p) buf)) as (text & Hc & Hl).
  - rewrite lookup_drop. by replace (Z.to_nat p + Z.to_nat (k - p))%nat with (Z.to_nat k) by lia.
  - exists text. split; [done |]. unfold zlen. lia.
Qed.

Lemma ends_at_set buf k q : ends_at buf k -> ends_at (zset buf q 0) k.
Proof.
  intros [Hk E]. split; [done |]. unfold zset. zcases; [done |]. destruct (decide (Z.to_nat q = Z.to_nat k)) as [-> | Hne].
  - apply list_lookup_insert_eq. by eapply lookup_lt_Some.
  - by rewrite list_lookup_insert_ne.
Qed.

(** ** Splitting *)

(** The maximal runs without a separator. *)
Fixpoint words_from (sep : Z) (text cur : list Z) : list (list Z) :=
  match text with
  | [] => if bool_decide (cur = []) then [] else [cur]
  | c :: text' =>
      if c =? sep then (if bool_decide (cur = []) then [] else [cur]) ++ words_from sep text' []
      else words_from sep text' (cur ++ [c])
  end.
Definition words (sep : Z) (text : list Z) : list (list Z) := words_from sep text [].

Lemma words_skip sep n text : words sep (replicate n sep ++ text) = words sep text.
Proof. induction n as [| n IH]; [done |]. unfold words in *. simpl. by rewrite Z.eqb_refl, IH. Qed.

Lemma words_from_end sep w : sep ∉ w -> forall cur, cur ++ w <> [] -> words_from sep w cur = [cur ++ w].
Proof.
  induction w as [| c w IH]; intros Hs cur Hn; simpl.
  - rewrite app_nil_r in *. by rewrite bool_decide_eq_false_2.
  - apply not_elem_of_cons in Hs as [Hc Hs]. destruct (Z.eqb_spec c sep); [congruence |]. rewrite IH; [by rewrite <- app_assoc | done | by destruct cur].
Qed.
Lemma words_from_sep sep w t : sep ∉ w -> forall cur, cur ++ w <> [] -> words_from sep (w ++ sep :: t) cur = (cur ++ w) :: words sep t.
Proof.
  induction w as [| c w IH]; intros Hs cur Hn; simpl.
  - rewrite app_nil_r in *. by rewrite Z.eqb_refl, bool_decide_eq_false_2.
  - apply not_elem_of_cons in Hs as [Hc Hs]. destruct (Z.eqb_spec c sep); [congruence |]. rewrite IH; [by rewrite <- app_assoc | done | by destruct cur].
Qed.

(** A text is separators, a word, and what follows. *)
Lemma skip_seps_spec sep text rest : sep <> 0 -> Forall (fun c => c <> 0) text -> exists n t,
  text = replicate n sep ++ t /\ skip_seps (text ++ 0 :: rest) sep = Some (Z.of_nat n) /\ head t <> Some sep.
Proof.
  intros Hs. induction 1 as [| c text Hc _ IH]; cbn [app skip_seps].
  - exists 0%nat, []. split; [done |]. destruct (Z.eqb_spec 0 sep); [congruence | done].
  - destruct (Z.eqb_spec c sep) as [-> | Hne].
    + destruct IH as (n & t & -> & E & Ht). exists (S n), t. split; [done |]. rewrite E. simpl. split; [f_equal; lia | done].
    + exists 0%nat, (c :: text). split; [done |]. split; [done |]. simpl. congruence.
Qed.
Lemma token_end_spec sep t rest : sep <> 0 -> Forall (fun c => c <> 0) t -> exists w,
  sep ∉ w /\ token_end (t ++ 0 :: rest) sep = Some (zlen w) /\ (t = w \/ exists t', t = w ++ sep :: t').
Proof.
  intros Hs. induction 1 as [| c t Hc _ IH]; cbn [app token_end].
  - exists []. split; [apply not_elem_of_nil | by split; [| left]].
  - apply Z.eqb_neq in Hc as ->. simpl. destruct (Z.eqb_spec c sep) as [-> | Hne]; simpl.
    + exists []. split; [apply not_elem_of_nil |]. split; [done |]. right. by exists t.
    + destruct IH as (w & Hw & -> & Ht). exists (c :: w). split; [by apply not_elem_of_cons |]. split; [simpl; f_equal; unfold zlen; simpl; lia |].
      destruct Ht as [-> | [t' ->]]; [by left | right; by exists t'].
Qed.

(** One call. *)
Lemma next_token_spec sep pre text rest : sep <> 0 -> Forall (fun c => c <> 0) text ->
  (exists n, text = replicate n sep /\ next_token (pre ++ text ++ 0 :: rest) (zlen pre) sep = Some (pre ++ text ++ 0 :: rest, zlen pre + zlen text, None)) \/
  (exists n w, text = replicate n sep ++ w /\ w <> [] /\ sep ∉ w /\
     next_token (pre ++ text ++ 0 :: rest) (zlen pre) sep = Some (pre ++ text ++ 0 :: rest, zlen pre + zlen text, Some (zlen pre + Z.of_nat n))) \/
  (exists n w t, text = replicate n sep ++ w ++ sep :: t /\ w <> [] /\ sep ∉ w /\
     next_token (pre ++ text ++ 0 :: rest) (zlen pre) sep =
       Some ((pre ++ replicate n sep ++ w ++ [0]) ++ t ++ 0 :: rest, zlen (pre ++ replicate n sep ++ w ++ [0]), Some (zlen pre + Z.of_nat n))).
Proof.
  intros Hs Ht. destruct (skip_seps_spec sep text rest Hs Ht) as (n & t & Et & Esk & Hh).
  unfold next_token. assert (drop (Z.to_nat (zlen pre)) (pre ++ text ++ 0 :: rest) = text ++ 0 :: rest) as -> by (unfold zlen; rewrite Nat2Z.id; apply drop_app_length).
  rewrite Esk. simpl. subst text. set (pre' := pre ++ replicate n sep).
  assert (pre ++ (replicate n sep ++ t) ++ 0 :: rest = pre' ++ t ++ 0 :: rest) as -> by (unfold pre'; by rewrite <- !app_assoc).
  assert (zlen pre + Z.of_nat n = zlen pre') as Hpn by (unfold pre', zlen; rewrite length_app, length_replicate; lia). rewrite Hpn.
  assert (forall l, drop (Z.to_nat (zlen pre')) (pre' ++ l) = l) as Hdrop by (intros l; unfold zlen; rewrite Nat2Z.id; apply drop_app_length).
  assert (forall w c l, znth 0 (pre' ++ w ++ c :: l) (zlen pre' + zlen w) = c) as Hnth.
  { intros w c l. unfold znth, zlen. zcases; [lia |]. rewrite app_assoc, list_lookup_middle; [done |]. rewrite length_app. lia. }
  assert (zlen pre + zlen (replicate n sep ++ t) = zlen pre' + zlen t) as Hz by (unfold pre', zlen; rewrite !length_app, length_replicate; lia).
  rewrite Hz. apply Forall_app in Ht as [_ Ht]. destruct t as [| c t].
  - left. exists n. split; [by rewrite app_nil_r |]. pose proof (Hnth [] 0 rest) as E. unfold zlen in E at 2. rewrite Z.add_0_r in E. cbn [app] in E |- *. rewrite E. simpl. unfold zlen at 3. by rewrite Z.add_0_r.
  - right. destruct (token_end_spec sep (c :: t) rest Hs Ht) as (w & Hw & Ew & Hcase). rewrite Hdrop, Ew.
    pose proof (Hnth [] c (t ++ 0 :: rest)) as E. unfold zlen in E at 2. rewrite Z.add_0_r in E. cbn [app] in E |- *. rewrite E.
    apply Forall_cons in Ht as [Hc _]. apply Z.eqb_neq in Hc as ->. simpl mbind. unfold mbind, option_bind. cbv beta iota.
    assert (w <> []) as Hwn by (intros ->; destruct Hcase as [E0 | [t' E0]]; [discriminate E0 | injection E0 as -> _; by apply Hh]).
    destruct Hcase as [<- | [t' Et]].
    + left. exists n, (c :: t). split; [done |]. split; [done |]. split; [done |]. pose proof (Hnth (c :: t) 0 rest) as E0. cbn [app] in E0. rewrite E0. destruct (Z.eqb_spec 0 sep); [congruence |]. by rewrite Hpn.
    + right. exists n, w, t'. split; [by rewrite Et |]. split; [done |]. split; [done |]. change (c :: t ++ 0 :: rest) with ((c :: t) ++ 0 :: rest). rewrite Et, <- app_assoc. cbn [app].
      rewrite Hnth, Z.eqb_refl, Hpn.
      match goal with |- Some (?a, ?b, _) = Some (?a', ?b', _) => assert (a = a') as ->; [| assert (b = b') as ->; [| done]] end.
      * unfold zset. zcases; [unfold zlen in *; lia |]. rewrite (app_assoc pre'). replace (Z.to_nat (zlen pre' + zlen w)) with (length (pre' ++ w) + 0)%nat by (rewrite length_app; unfold zlen; lia).
        rewrite insert_app_r. unfold pre'. simpl. by rewrite <- !app_assoc.
      * unfold pre', zlen. rewrite !length_app. simpl. lia.
Qed.

(** Call after call to the end of the string: the buffer left behind and the
    pointers returned. *)
Fixpoint all_tokens (fuel : nat) (buf : list Z) (pos sep : Z) : option (list Z * list Z) :=
  match fuel with
  | O => None
  | S f =>
      r ← next_token buf pos sep ;
      let '(buf, pos, tok) := r in
      match tok with
      | None => Some (buf, [])
      | Some p => x ← all_tokens f buf pos sep ; Some (x.1, p :: x.2)
      end
  end.

Lemma all_tokens_S f buf pos sep buf' pos' tok : next_token buf pos sep = Some (buf', pos', tok) ->
  all_tokens (S f) buf pos sep = match tok with None => Some (buf', []) | Some p => x ← all_tokens f buf' pos' sep ; Some (x.1, p :: x.2) end.
Proof. intros E. cbn [all_tokens]. by rewrite E. Qed.

(** The string a pointer into the buffer points to. *)
Definition word_at (buf : list Z) (p : Z) : option (list Z) :=
  n ← strlen (drop (Z.to_nat p) buf) ;
  Some (take (Z.to_nat n) (drop (Z.to_nat p) buf)).

Lemma word_at_text pre w l : Forall (fun c => c <> 0) w -> word_at (pre ++ w ++ 0 :: l) (zlen pre) = Some w.
Proof.
  intros Hw. unfold word_at. assert (drop (Z.to_nat (zlen pre)) (pre ++ w ++ 0 :: l) = w ++ 0 :: l) as -> by (unfold zlen; rewrite Nat2Z.id; apply drop_app_length).
  rewrite (strlen_cstring w) by (by split; [| exists l]). simpl. unfold zlen. by rewrite Nat2Z.id, take_app_length.
Qed.

(** What splitting in place does to a text. *)
Definition cut (sep c c' : Z) : Prop := c' = c \/ (c = sep /\ c' = 0).

Lemma cut_same sep text : Forall2 (cut sep) text text.
Proof. induction text; constructor; [by left | done]. Qed.

(** C35: Calling [next_token] until it returns null yields the words of the
    string in order, each a terminated string inside the buffer: runs of
    separators, also at both ends, give no empty words. The buffer is changed
    only by separators of the string that become terminators, nothing before
    or after it is touched or read, and there are at most as many calls as
    characters and one more. *)
Theorem next_token_words sep pre text rest : sep <> 0 -> Forall (fun c => c <> 0) text -> exists text' toks,
  all_tokens (S (length text)) (pre ++ text ++ 0 :: rest) (zlen pre) sep = Some (pre ++ text' ++ 0 :: rest, toks) /\
  word_at (pre ++ text' ++ 0 :: rest) <$> toks = Some <$> words sep text /\ Forall2 (cut sep) text text'.
Proof.
  intros Hs. remember (length text) as k eqn:Ek. assert (length text <= k)%nat as Hk by lia. clear Ek. revert pre text Hk. induction k as [| k IH]; intros pre text Hk Ht.
  - destruct text; [| simpl in Hk; lia]. destruct (next_token_spec sep pre [] rest Hs Ht) as [(n & E & ->%(all_tokens_S 0)) | [(n & w & E & Hw & _) | (n & w & t & E & _)]].
    + exists [], []. by repeat split.
    + by destruct n, w.
    + by destruct n, w.
  - destruct (next_token_spec sep pre text rest Hs Ht) as [(n & -> & ->%(all_tokens_S (S k))) | [(n & w & -> & Hw & Hsw & ->%(all_tokens_S (S k))) | (n & w & t & -> & Hw & Hsw & ->%(all_tokens_S (S k)))]].
    + exists (replicate n sep), []. split; [done |]. split; [| apply cut_same]. rewrite <- (app_nil_r (replicate n sep)), words_skip. done.
    + apply Forall_app in Ht as [_ Hw0]. set (text := replicate n sep ++ w).
      destruct (next_token_spec sep (pre ++ text) [] rest Hs (Forall_nil_2 _)) as [(n' & E' & Et) | [(n' & w' & E' & Hw' & _) | (n' & w' & t' & E' & _)]]; [| by destruct n', w' | by destruct n', w'].
      rewrite app_nil_l in Et. rewrite <- app_assoc in Et. replace (zlen (pre ++ text)) with (zlen pre + zlen text) in Et by (unfold zlen; rewrite length_app; lia).
      assert (all_tokens (S k) (pre ++ text ++ 0 :: rest) (zlen pre + zlen text) sep = Some (pre ++ text ++ 0 :: rest, [])) as -> by (by rewrite (all_tokens_S k _ _ _ _ _ _ Et)).
      exists text, [zlen pre + Z.of_nat n]. split; [done |]. split; [| apply cut_same].
      assert (zlen pre + Z.of_nat n = zlen (pre ++ replicate n sep)) as -> by (unfold zlen; rewrite length_app, length_replicate; lia).
      unfold text. rewrite words_skip. unfold words. rewrite (words_from_end _ _ Hsw) by done. cbn [fmap list_fmap app]. f_equal.
      rewrite <- app_assoc, (app_assoc pre). by apply word_at_text.
    + set (pre' := pre ++ replicate n sep ++ w ++ [0]). assert (Forall (fun c => c <> 0) w /\ Forall (fun c => c <> 0) t) as [Hw0 Ht0] by (rewrite !Forall_app, Forall_cons in Ht; tauto).
      destruct (IH pre' t) as (t' & toks & E & Hwords & Hcut); [| done |].
      { rewrite !length_app in Hk. simpl in Hk. destruct w; [done |]. simpl in Hk. lia. }
      rewrite E.
      assert (pre' ++ t' ++ 0 :: rest = pre ++ (replicate n sep ++ w ++ 0 :: t') ++ 0 :: rest) as Eb by (unfold pre'; by rewrite <- !app_assoc).
      exists (replicate n sep ++ w ++ 0 :: t'), (zlen pre + Z.of_nat n :: toks). rewrite <- Eb. split; [done |]. split.
      * rewrite words_skip. unfold words. rewrite (words_from_sep _ _ _ Hsw) by done. rewrite app_nil_l. rewrite !fmap_cons, Hwords. f_equal.
        assert (zlen pre + Z.of_nat n = zlen (pre ++ replicate n sep)) as -> by (unfold zlen; rewrite length_app, length_replicate; lia).
        rewrite Eb, <- !app_assoc, (app_assoc pre). cbn [app]. by apply word_at_text.
      * apply Forall2_app; [apply cut_same |]. apply Forall2_app; [apply cut_same |]. constructor; [by right | done].
Qed.

(** "  run  A.ELF " *)
Lemma next_token_words_witness : exists text' toks,
  all_tokens 14 ([] ++ [32; 32; 114; 117; 110; 32; 32; 65; 46; 69; 76; 70; 32] ++ 0 :: [99]) (zlen (@nil Z)) 32 = Some ([] ++ text' ++ 0 :: [99], toks) /\
  word_at ([] ++ text' ++ 0 :: [99]) <$> toks = [Some [114; 117; 110]; Some [65; 46; 69; 76; 70]].
Proof.
  destruct (next_token_words 32 [] [32; 32; 114; 117; 110; 32; 32; 65; 46; 69; 76; 70; 32] [99]) as (text' & toks & E & W & _).
  - lia.
  - repeat constructor; lia.
  - exists text', toks. exact (conj E W).
Defined.

(** ** 8.3 names *)

Lemma is_83_base rest name : Forall (fun c => c <> 0) name -> forall w out, 0 <= w <= 8 ->
  match base_83 name w out with
  | None => exists r, name_is_83_base (name ++ 0 :: rest) w = Some (9, r)
  | Some (rst, w', _) => name_is_83_base (name ++ 0 :: rest) w = Some (w', rst ++ 0 :: rest) /\ 0 <= w' <= 8 /\ (rst = [] \/ exists ext, rst = 46 :: ext /\ Forall (fun c => c <> 0) ext)
  end.
Proof.
  induction 1 as [| c name Hc Hn IH]; intros w out Hw; cbn [base_83 app name_is_83_base]; [by auto |].
  apply Z.eqb_neq in Hc as ->. simpl orb. destruct (Z.eqb_spec c 46) as [-> | Hd]; [by eauto 10 |].
  destruct (Z.ltb_spec 8 (w + 1)), (Z.leb_spec FAT32_BASE_LENGTH w) as [Hf | Hf]; unfold FAT32_BASE_LENGTH in Hf; try lia.
  - assert (w = 8) as -> by lia. by eexists.
  - apply IH. lia.
Qed.

Lemma is_83_ext rest ext : Forall (fun c => c <> 0) ext -> forall w out, 0 <= w <= 3 ->
  name_is_83_ext (ext ++ 0 :: rest) w = Some (bool_decide (is_Some (ext_83 ext w out))).
Proof.
  induction 1 as [| c ext Hc Hn IH]; intros w out Hw; cbn [ext_83 app name_is_83_ext]; [by rewrite bool_decide_eq_true_2 |].
  apply Z.eqb_neq in Hc as ->. destruct (Z.ltb_spec 3 (w + 1)), (Z.leb_spec FAT32_EXT_LENGTH w) as [Hf | Hf]; unfold FAT32_EXT_LENGTH in Hf; try lia.
  - rewrite bool_decide_eq_false_2; [done | by intros [? ?]].
  - apply IH. lia.
Qed.

(** C36: The shell's check of a file name accepts exactly the names the file
    system accepts: [name_is_83] of a terminated string is true when
    [name_to_83] can store it and false when it cannot. *)
Theorem name_is_83_equiv name rest : Forall (fun c => c <> 0) name ->
  name_is_83 (name ++ 0 :: rest) = Some (bool_decide (is_Some (name_to_83 name))).
Proof.
  intros Hn. unfold name_is_83, name_to_83. set (blank := replicate _ _). pose proof (is_83_base rest name Hn 0 blank ltac:(lia)) as Hb.
  destruct (base_83 name 0 blank) as [[[rst w] out]|].
  - destruct Hb as (-> & Hw & Hl). simpl mbind. unfold mbind, option_bind. cbv beta iota. destruct (Z.ltb_spec 8 w); [lia |].
    destruct (Z.eqb_spec w 0); [reflexivity |]. destruct Hl as [-> | (ext & -> & He)]; cbn [app].
    + reflexivity.
    + by apply is_83_ext.
  - destruct Hb as [r ->]. reflexivity.
Qed.

(** "NOTES.TXT" and "NOTES.TEXT" *)
Lemma name_is_83_equiv_witness :
  name_is_83 ([78; 79; 84; 69; 83; 46; 84; 88; 84] ++ 0 :: []) = Some true /\ name_is_83 ([78; 79; 84; 69; 83; 46; 84; 69; 88; 84] ++ 0 :: []) = Some false.
Proof.
  split.
  - rewrite (name_is_83_equiv [78; 79; 84; 69; 83; 46; 84; 88; 84] []) by (repeat constructor; lia). vm_compute. reflexivity.
  - rewrite (name_is_83_equiv [78; 79; 84; 69; 83; 46; 84; 69; 88; 84] []) by (repeat constructor; lia). vm_compute. reflexivity.
Defined.

(** ** Numbers *)

Definition decimal (ds : list Z) : Z := foldl (fun v c => v * 10 + (c - 48)) 0 ds.

Lemma decimal_acc ds : forall v, foldl (fun v c => v * 10 + (c - 48)) v ds = v * 10 ^ zlen ds + decimal ds.
Proof.
  unfold decimal. induction ds as [| d ds IH] using rev_ind; intros v; [simpl; change (zlen (@nil Z)) with 0; rewrite Z.pow_0_r; lia |]. rewrite !foldl_app. simpl. rewrite IH. unfold zlen. rewrite length_app, Nat2Z.inj_add, Z.pow_add_r by lia. change (10 ^ Z.of_nat (length [d])) with 10. ring.
Qed.

Lemma i8_digit c : 48 <= c <= 57 -> i8 c = c.
Proof. unfold i8. intros. mlia. Qed.

Lemma parse_digits_run rest ds : Forall (fun c => 48 <= c <= 57) ds -> forall v n, 0 <= v < 2 ^ 64 -> 0 <= n ->
  parse_digits (ds ++ 0 :: rest) v n = Some (u64 (foldl (fun v c => v * 10 + (c - 48)) v ds), 0 <? n + zlen ds).
Proof.
  induction 1 as [| c ds Hc _ IH]; intros v n Hv Hn; cbn [app parse_digits foldl]; [change (zlen (@nil Z)) with 0; rewrite Z.eqb_refl, Z.add_0_r, u64_small by lia; done |].
  rewrite i8_digit by done. destruct (Z.eqb_spec c 0), (Z.ltb_spec c 48), (Z.ltb_spec 57 c); try lia. simpl orb. cbv iota.
  rewrite IH; [| apply Z.mod_pos_bound; lia | lia]. f_equal. f_equal; [| f_equal; unfold zlen; simpl; lia].
  rewrite !decimal_acc. unfold u64. rewrite (Zplus_mod (_ mod _ * _)), Zmult_mod_idemp_l, <- Zplus_mod. done.
Qed.

Lemma parse_digits_total name rest : Forall (fun c => 0 < c < 256) name -> exists v ok, parse_uint (name ++ 0 :: rest) = Some (v, ok).
Proof.
  intros Hn. unfold parse_uint. enough (forall v n, exists v' ok, parse_digits (name ++ 0 :: rest) v n = Some (v', ok)) as Hx by apply Hx.
  induction Hn as [| c name Hc Hn IH]; intros v n; cbn [app parse_digits]; [by eexists _, _ |]. destruct (Z.eqb_spec c 0); [lia |]. destruct (_ || _); [by eexists _, _ | apply IH].
Qed.

(** [parse_uint] accepts exactly the non-empty strings of digits, and
    its value is the number modulo 2^64, without notice when it is larger:
    the decimal of 2^64 reads as task 0. *)
Theorem parse_uint_wraps name rest : Forall (fun c => 0 < c < 256) name -> exists v ok,
  parse_uint (name ++ 0 :: rest) = Some (v, ok) /\
  (ok = true <-> name <> [] /\ Forall (fun c => 48 <= c <= 57) name) /\ (ok = true -> v = decimal name mod 2 ^ 64) /\
  parse_uint [49; 56; 52; 52; 54; 55; 52; 52; 48; 55; 51; 55; 48; 57; 53; 53; 49; 54; 49; 54; 0] = Some (0, true).
Proof.
  intros Hn. destruct (decide (Forall (fun c => 48 <= c <= 57) name)) as [Hd | Hd].
  - exists (u64 (decimal name)), (0 <? zlen name). split; [| split; [| done]].
    + unfold parse_uint. by rewrite parse_digits_run by (done || lia).
    + rewrite Z.ltb_lt. unfold zlen. destruct name; simpl; [split; [lia | by intros [? _]] |]. split; [done | lia].
  - assert (exists v, parse_uint (name ++ 0 :: rest) = Some (v, false)) as [v E].
    { enough (forall v n, exists v', parse_digits (name ++ 0 :: rest) v n = Some (v', false)) as Hx by apply Hx. clear - Hn Hd. induction Hn as [| c name Hc Hn IH]; intros v n; [by destruct Hd |].
      cbn [app parse_digits]. destruct (Z.eqb_spec c 0); [lia |]. destruct ((i8 c <? 48) || (57 <? i8 c)) eqn:E; [by eexists |].
      apply IH. intros Hf. apply Hd. constructor; [| done]. apply orb_false_iff in E as [E1 E2]. zbool. unfold i8 in *. mlia. }
    exists v, false. split; [done |]. split; [split; [done | by intros [_ ?]] | done].
Qed.

(** "4294967296" is a task id to the shell, and task 0 to the kernel, which
    takes 32 bits of it. *)
Lemma parse_uint_wraps_witness : exists v ok, parse_uint ([52; 50; 57; 52; 57; 54; 55; 50; 57; 54] ++ 0 :: []) = Some (v, ok) /\ ok = true /\ v = 2 ^ 32 /\ u32 v = 0.
Proof.
  destruct (parse_uint_wraps [52; 50; 57; 52; 57; 54; 55; 50; 57; 54] []) as (v & ok & E & Hok & Hv & _); [repeat constructor; lia |].
  assert (ok = true) as Ht by (apply Hok; split; [discriminate | repeat constructor; lia]).
  exists v, ok. split; [exact E |]. split; [exact Ht |]. rewrite (Hv Ht). split; vm_compute; reflexivity.
Defined.
