(* ===== verification/ShellLogic.v ===== *)
(** * Reasoning about the shell

    The rules the shell keeps towards the kernel as an automaton over its
    calls ([mon_step]): what it may do with descriptors, children and the
    foreground, and that it does other things only when it is done with
    them. The automaton follows what the shell asks for, whatever the kernel
    answers to a wait, a close or a change of the foreground; [world] follows
    what the kernel granted. [acts] threads the automaton through the shell's computations; the
    flag the interrupt handler sets is left out of the state it speaks of. *)

From Stdlib Require Import ZArith Lia Bool Ascii String.
From stdpp Require Import base option sets list.
From S2P Require Import Prelude Phys Libc Frames Kernel User UserSpec Shell Words.

(** ** The rules *)

(** The pipe ends the shell has not closed yet, the group of the job under
    way, the children it has made no wait call for, and the group it asked
    last to have the keyboard. *)
Record mon := mkMon { held : list Z; group : option Z; unwaited : Z; fg : Z }.
Definition idle : mon := mkMon [] None 0 SHELL_PGID.

Fixpoint remove1 (x : Z) (l : list Z) : list Z :=
  match l with
  | [] => []
  | y :: l' => if y =? x then l' else y :: remove1 x l'
  end.

Definition is_end (m : mon) (fd : Z) : bool := (fd =? -1) || bool_decide (fd ∈ held m).

(** No rule is broken by the call: a pipe is made with at most one end in
    hand; a child is given ends the shell holds, is put in the job's group,
    and is started before any other child is waited for; only ends in hand
    are closed; a wait is called with all ends closed, for a child not yet
    waited for and after the keyboard was asked for the job; the keyboard goes to the job or, with no child
    left, back to the shell; every other call is made with nothing under
    way. *)
Definition mon_step (m : mon) (e : event) : option mon :=
  let r := a_ret (e_answer e) in
  match e_call e with
  | C_pipe =>
      if (zlen (held m) <=? 1) && (negb (r =? 0) || (zlen (a_data (e_answer e)) =? 2))
      then Some (if r =? 0 then mkMon (a_data (e_answer e) ++ held m) (group m) (unwaited m) (fg m) else m)
      else None
  | C_close fd => if bool_decide (fd ∈ held m) then Some (mkMon (remove1 fd (held m)) (group m) (unwaited m) (fg m)) else None
  | C_run _ in_fd out_fd pgid =>
      if is_end m in_fd && is_end m out_fd && (pgid =? default SYS_RUN_GROUP_NEW (group m)) && (fg m =? SHELL_PGID)
      then Some (if r =? SYS_FAIL then m else mkMon (held m) (Some (default r (group m))) (unwaited m + 1) (fg m))
      else None
  | C_wait _ =>
      if bool_decide (held m = []) && (0 <? unwaited m) && bool_decide (group m = Some (fg m))
      then Some (mkMon [] (group m) (unwaited m - 1) (fg m)) else None
  | C_setfg pgid =>
      if (pgid =? SHELL_PGID) && bool_decide (held m = []) && (unwaited m =? 0) then Some idle
      else if bool_decide (group m = Some pgid) then Some (mkMon (held m) (group m) (unwaited m) pgid) else None
  | _ => if bool_decide (held m = []) && bool_decide (group m = None) && (unwaited m =? 0) && (fg m =? SHELL_PGID) then Some m else None
  end.

Fixpoint obeys (m : mon) (ds : list event) : option mon :=
  match ds with
  | [] => Some m
  | e :: ds' => m' ← mon_step m e ; obeys m' ds'
  end.

Lemma obeys_app ds1 ds2 : forall m, obeys m (ds1 ++ ds2) = m' ← obeys m ds1 ; obeys m' ds2.
Proof. induction ds1 as [| e ds1 IH]; intros m; simpl; [done |]. destruct (mon_step m e); simpl; [apply IH | done]. Qed.

(** Counting: the ends made are the ends closed and held, the children
    started are the children waited for and left. *)
Definition made (e : event) : bool := match e_call e with C_pipe => a_ret (e_answer e) =? 0 | _ => false end.
Definition closed (e : event) : bool := match e_call e with C_close _ => true | _ => false end.
Definition started_run (e : event) : bool := match e_call e with C_run _ _ _ _ => negb (a_ret (e_answer e) =? SYS_FAIL) | _ => false end.
Definition waited (e : event) : bool := match e_call e with C_wait _ => true | _ => false end.
Definition count (p : event -> bool) (t : list event) : Z := zlen (List.filter p t).

Lemma count_cons p e t : count p (e :: t) = (if p e then 1 else 0) + count p t.
Proof. unfold count, zlen. simpl. destruct (p e); simpl; lia. Qed.

Lemma remove1_length x l : x ∈ l -> zlen (remove1 x l) = zlen l - 1.
Proof.
  induction l as [| y l IH]; intros Hin; [set_solver |]. simpl. destruct (Z.eqb_spec y x) as [-> | Hne]; [unfold zlen; simpl; lia |].
  apply elem_of_cons in Hin as [-> | Hin]; [done |]. specialize (IH Hin). unfold zlen in *. simpl. lia.
Qed.

Lemma mon_step_counts m e m' : mon_step m e = Some m' ->
  zlen (held m') = zlen (held m) + 2 * (if made e then 1 else 0) - (if closed e then 1 else 0) /\
  unwaited m' = unwaited m + (if started_run e then 1 else 0) - (if waited e then 1 else 0).
Proof.
  unfold mon_step, made, closed, started_run, waited. intros E. destruct (e_call e); try (destruct (_ && _) eqn:?; [| done]; injection E as <-; lia).
  - destruct (_ && _); [| done]. destruct (_ =? SYS_FAIL); injection E as <-; simpl; lia.
  - destruct (_ && _) eqn:Eg; [| done]. rewrite !andb_true_iff, !bool_decide_eq_true in Eg. destruct Eg as [[Eh _] _]. injection E as <-. rewrite Eh. simpl. change (zlen (@nil Z)) with 0. lia.
  - destruct (bool_decide (fd ∈ held m)) eqn:Eb; [| done]. apply bool_decide_eq_true in Eb. injection E as <-. simpl. rewrite remove1_length by done. lia.
  - destruct (_ && _) eqn:Eg; [| done]. apply andb_true_iff in Eg as [_ Eg]. injection E as <-. destruct (_ =? 0); simpl in *; [| lia]. unfold zlen in *. rewrite length_app. lia.
  - destruct (_ && _ && _) eqn:Eg.
    + rewrite !andb_true_iff, bool_decide_eq_true in Eg. destruct Eg as [[_ Eh] Eu]. injection E as <-. rewrite Eh. simpl. change (zlen (@nil Z)) with 0. lia.
    + clear Eg. destruct (bool_decide _); [| done]. injection E as <-. simpl. lia.
Qed.

Lemma obeys_counts ds : forall m m', obeys m ds = Some m' ->
  zlen (held m') = zlen (held m) + 2 * count made ds - count closed ds /\ unwaited m' = unwaited m + count started_run ds - count waited ds.
Proof.
  induction ds as [| e ds IH]; intros m m' E; simpl in E; [injection E as <-; unfold count; simpl; change (zlen (@nil event)) with 0; lia |].
  destruct (mon_step m e) as [m1|] eqn:E1; [| done]. destruct (mon_step_counts _ _ _ E1), (IH _ _ E). rewrite !count_cons. lia.
Qed.

(** ** What the kernel granted *)

(** The children started and not collected, the pipe ends made and not
    closed, and the group that has the keyboard, by the kernel's answers: a
    call that failed changes nothing. *)
Record world := mkWorld { children : Z; open_ends : Z; front : Z }.

Definition granted (e : event) : bool := negb (a_ret (e_answer e) =? SYS_FAIL).

Definition grant (w : world) (e : event) : world :=
  match e_call e with
  | C_run _ _ _ _ => if granted e then mkWorld (children w + 1) (open_ends w) (front w) else w
  | C_wait _ => if granted e then mkWorld (children w - 1) (open_ends w) (front w) else w
  | C_pipe => if a_ret (e_answer e) =? 0 then mkWorld (children w) (open_ends w + 2) (front w) else w
  | C_close _ => if granted e then mkWorld (children w) (open_ends w - 1) (front w) else w
  | C_setfg pgid => if granted e then mkWorld (children w) (open_ends w) pgid else w
  | _ => w
  end.

Definition world_after (ds : list event) : world := foldl grant (mkWorld 0 0 SHELL_PGID) ds.

(** Calls of a kind that failed. *)
Definition wait_failed (e : event) : bool := waited e && negb (granted e).
Definition close_failed (e : event) : bool := closed e && negb (granted e).
Definition setfg_failed (e : event) : bool := match e_call e with C_setfg _ => negb (granted e) | _ => false end.

(** One call: the two views differ by what failed. *)
Lemma grant_step m w e m' : mon_step m e = Some m' ->
  children (grant w e) - unwaited m' = children w - unwaited m + (if wait_failed e then 1 else 0) /\
  open_ends (grant w e) - zlen (held m') = open_ends w - zlen (held m) + (if close_failed e then 1 else 0) /\
  (setfg_failed e = false -> front w = fg m -> front (grant w e) = fg m').
Proof.
  intros Es. pose proof (mon_step_counts _ _ _ Es) as [C1 C2]. split; [| split].
  - rewrite C2. unfold grant, wait_failed, waited, started_run, granted. destruct (e_call e); simpl; try lia; destruct (_ =? _); simpl; lia.
  - rewrite C1. unfold grant, close_failed, made, closed, granted. destruct (e_call e); simpl; try lia; destruct (_ =? _); simpl; lia.
  - intros Hs Hf. unfold mon_step in Es. unfold grant, setfg_failed in *.
    destruct (e_call e); try (destruct (_ && _) eqn:?; [| done]; injection Es as <-; exact Hf).
    + destruct (_ && _) eqn:?; [| done]. injection Es as <-. destruct (granted e), (_ =? SYS_FAIL); exact Hf.
    + destruct (_ && _) eqn:?; [| done]. injection Es as <-. destruct (granted e); exact Hf.
    + destruct (bool_decide (fd ∈ held m)) eqn:?; [| done]. injection Es as <-. destruct (granted e); exact Hf.
    + destruct (_ && _) eqn:?; [| done]. injection Es as <-. destruct (_ =? 0); exact Hf.
    + apply negb_false_iff in Hs. rewrite Hs. destruct (_ && _ && _) eqn:Eg.
      * rewrite !andb_true_iff in Eg. destruct Eg as [[Eg _] _]. apply Z.eqb_eq in Eg as ->. by injection Es as <-.
      * clear Eg. destruct (bool_decide _); [| done]. by injection Es as <-.
Qed.

Lemma grant_run ds : forall m w m', obeys m ds = Some m' ->
  children (foldl grant w ds) - unwaited m' = children w - unwaited m + count wait_failed ds /\
  open_ends (foldl grant w ds) - zlen (held m') = open_ends w - zlen (held m) + count close_failed ds /\
  (count setfg_failed ds = 0 -> front w = fg m -> front (foldl grant w ds) = fg m').
Proof.
  induction ds as [| e ds IH]; intros m w m' Eo; simpl in Eo; [injection Eo as <-; unfold count; simpl; change (zlen (@nil event)) with 0; split; [lia |]; split; [lia | done] |].
  destruct (mon_step m e) as [m1|] eqn:E1; [| done]. destruct (grant_step m w e m1 E1) as (G1 & G2 & G3). destruct (IH m1 (grant w e) m' Eo) as (I1 & I2 & I3).
  rewrite !count_cons. cbn [foldl]. split; [lia |]. split; [lia |]. intros Hc Hf.
  assert (0 <= count setfg_failed ds) by (unfold count, zlen; lia). destruct (setfg_failed e); [lia |]. apply I3; [lia | auto].
Qed.

(** When the shell has nothing under way, what is left in the kernel are the
    children whose wait failed and the ends whose close failed, and the
    keyboard is the shell's if it was never refused. *)
Lemma world_idle ds : obeys idle ds = Some idle ->
  children (world_after ds) = count wait_failed ds /\ open_ends (world_after ds) = count close_failed ds /\
  (count setfg_failed ds = 0 -> front (world_after ds) = SHELL_PGID).
Proof.
  intros Ho. destruct (grant_run ds idle (mkWorld 0 0 SHELL_PGID) idle Ho) as (G1 & G2 & G3). cbn [idle held unwaited children open_ends front fg] in *.
  change (zlen (@nil Z)) with 0 in G2. split; [unfold world_after; lia |]. split; [unfold world_after; lia |]. intros Hc. by apply G3.
Qed.

Lemma remove1_perm x l hs : l ≡ₚ x :: hs -> remove1 x l ≡ₚ hs.
Proof.
  intros Hp. assert (l ≡ₚ x :: remove1 x l) as Hr.
  { assert (x ∈ l) as Hin by (rewrite Hp; set_solver). clear Hp. induction l as [| y l IH]; [set_solver |]. simpl. destruct (Z.eqb_spec y x) as [-> | Hne]; [done |].
    apply elem_of_cons in Hin as [-> | Hin]; [done |]. rewrite (IH Hin) at 1. constructor. }
  apply (Permutation_cons_inv (a := x)). by rewrite <- Hr.
Qed.

(** ** The handler *)

Definition core (g : shell) : shell := set_abandoned false g.

Section Logic.
Context `{Env} {laws : AnswerLaws} `{Layout}.

Lemma on_interrupt_ok b s : uwp (on_interrupt b) never (fun _ s' => exists evs, grown (set_abandoned true) evs s s' /\ Forall (aside b) evs /\ evs <> []) s.
Proof.
  unfold on_interrupt. apply uwp_bind, uwp_modify, uwp_bind.
  eapply uwp_mono; [apply (sys_print_ok (trap (Handler b)) plain (Handler b) (rings_trap (Handler b)) [10; 62; 32]) | done |].
  - split; [repeat constructor; lia | by exists []].
  - done.
  - intros w s1 (evs & (T & Hh & G) & [A _] & _ & _ & Hn). apply uwp_ret. specialize (Hn ltac:(done)). exists evs. split; [split; [done | split; [done |]] | split; [| done]].
    + rewrite G. simpl. unfold touched. destruct evs as [| e evs]; [done |]. apply Forall_cons in A as [[_ He] _]. simpl. unfold by_handler. by rewrite (He ltac:(done)).
    + eapply Forall_impl; [done |]. intros e [? ?]. split; auto.
Qed.

Lemma rings_sys : rings sys (grown (set_abandoned true)) Program.
Proof. apply rings_syscall; [done |]. intros b s. eapply uwp_mono; [apply on_interrupt_ok | done |]. intros _ s' (evs & ? & ? & _). by exists evs. Qed.

Lemma core_touched evs g : core (touched (set_abandoned true) evs g) = core g.
Proof. unfold touched. by destruct (existsb _ _). Qed.

(** ** The rules, threaded through a computation *)

(** With [wait], the computation may stop for want of keys, with nothing
    under way. *)
Definition acts {A} (wait : bool) (m : U shell A) (g : shell) (mo : mon) (Q : A -> mon -> shell -> Prop) : Prop :=
  forall s, core (d_globals s) = core g ->
  uwp m (fun s' => wait = true /\ exists evs, d_trace s' = d_trace s ++ evs /\ obeys mo (deeds evs) = Some idle)
    (fun a s' => exists evs mo', d_trace s' = d_trace s ++ evs /\ obeys mo (deeds evs) = Some mo' /\ Q a mo' (core (d_globals s'))) s.

Lemma acts_bind {A B} b (m : U shell A) (f : A -> U shell B) g mo Q : acts b m g mo (fun a mo1 g1 => acts b (f a) g1 mo1 Q) -> acts b (m ≫= f) g mo Q.
Proof.
  intros Hm s Hg. apply uwp_bind. eapply uwp_mono; [by apply Hm | done |]. intros a s1 (e1 & mo1 & T1 & O1 & H1).
  eapply uwp_mono; [apply H1; done | |].
  - intros s2 (Hb & e2 & T2 & O2). split; [done |]. exists (e1 ++ e2). split; [by rewrite T2, T1, app_assoc |]. by rewrite deeds_app, obeys_app, O1.
  - intros r s2 (e2 & mo2 & T2 & O2 & HQ). exists (e1 ++ e2), mo2. split; [by rewrite T2, T1, app_assoc |]. split; [by rewrite deeds_app, obeys_app, O1 | done].
Qed.

Lemma acts_mono {A} b (m : U shell A) g mo (Q Q' : A -> mon -> shell -> Prop) : acts b m g mo Q -> (forall a mo' g', Q a mo' g' -> Q' a mo' g') -> acts b m g mo Q'.
Proof. intros Hm HQ s Hg. eapply uwp_mono; [by apply Hm | done |]. intros a s' (evs & mo' & ? & ? & ?). exists evs, mo'. auto. Qed.

Lemma acts_ret {A} b (a : A) g mo (Q : A -> mon -> shell -> Prop) : Q a mo (core g) -> acts b (mret a) g mo Q.
Proof. intros HQ s Hg. exists [], mo. rewrite app_nil_r, Hg. done. Qed.

Lemma acts_core {A} b (m : U shell A) g mo Q : acts b m (core g) mo Q -> acts b m g mo Q.
Proof. intros Hm s Hg. apply Hm. by rewrite Hg. Qed.

Lemma acts_at_line b p g mo (Q : list Z -> mon -> shell -> Prop) : Q (drop (Z.to_nat p) (line g)) mo (core g) -> acts b (at_line p) g mo Q.
Proof. intros HQ s Hg. exists [], mo. rewrite app_nil_r, Hg. split; [done |]. split; [done |]. replace (line (d_globals s)) with (line g); [done |]. change (line (core g) = line (core (d_globals s))). by rewrite Hg. Qed.

Lemma acts_of_option {A} b (o : option A) a g mo (Q : A -> mon -> shell -> Prop) : o = Some a -> Q a mo (core g) -> acts b (of_option o) g mo Q.
Proof. intros -> HQ. by apply acts_ret. Qed.

(** A change of the data that does not look at the flag. *)
Lemma acts_modify b f g mo (Q : unit -> mon -> shell -> Prop) : (forall g', core (f g') = f (core g')) -> Q tt mo (f (core g)) -> acts b (modify f) g mo Q.
Proof. intros Hf HQ s Hg. exists [], mo. rewrite app_nil_r. split; [done |]. split; [done |]. simpl. by rewrite Hf, Hg. Qed.

Lemma acts_call b c g mo (Q : answer -> mon -> shell -> Prop) : is_write c = false ->
  (forall a, answered c a -> exists mo', mon_step mo (mkEvent Program c a) = Some mo' /\ Q a mo' (core g)) -> acts b (sys c) g mo Q.
Proof.
  intros Hc HQ s Hg. eapply uwp_total; [apply rings_sys |]. intros a s' (evs & (T & _ & G) & Ha & O). destruct (HQ a O) as (mo' & E & Hq).
  exists evs, mo'. split; [done |]. rewrite (around_deeds _ _ _ Ha), Hc. simpl. rewrite E. split; [done |]. by rewrite G, core_touched, Hg.
Qed.

Lemma deeds_writes evs : only_writes Program evs -> deeds evs = [].
Proof. induction 1 as [| e t [He _] _ IH]; [done |]. unfold deeds, deed in *. simpl. by rewrite He, andb_false_r, IH. Qed.

Lemma acts_print b obj g mo (Q : unit -> mon -> shell -> Prop) : (exists text, cstring text obj /\ zlen text < 2 ^ 63) -> Q tt mo (core g) -> acts b (print obj) g mo Q.
Proof.
  intros (text & Hc & Hl) HQ s Hg. unfold print. apply uwp_bind. eapply uwp_total; [by apply (sys_print_ok _ _ _ rings_sys text) |].
  intros w s' (evs & (T & _ & G) & [A _] & _). apply uwp_ret. exists evs, mo. split; [done |]. rewrite (deeds_writes _ A). split; [done |]. by rewrite G, core_touched, Hg.
Qed.

Lemma acts_say b fmt args g mo (Q : unit -> mon -> shell -> Prop) :
  (exists fmt0 rest r, fmt = fmt0 ++ 0 :: rest /\ format fmt0 args = Some r /\ Forall (fun c => 0 < c < 256) fmt0) -> Forall arg_ok args ->
  Q tt mo (core g) -> acts b (say fmt args) g mo Q.
Proof.
  intros (f0 & rest & [ok text] & -> & E & Hf) Ha HQ s Hg. unfold say. apply uwp_bind. eapply uwp_total; [by apply (printf_ok _ _ _ rings_sys f0 rest args ok text) |].
  intros w s' (evs & (T & _ & G) & A & _). apply uwp_ret. exists evs, mo. split; [done |]. rewrite (deeds_writes _ A). split; [done |]. by rewrite G, core_touched, Hg.
Qed.

End Logic.
