(* ===== verification/LineEdit.v ===== *)
(** * Typing a line

    [read_line] against a line editor: a text, a key read but not yet
    looked at, and whether the interrupt handler has run since the last look.
    The editor is a function of the trace alone. *)

From Stdlib Require Import ZArith Lia Bool.
From stdpp Require Import base option list.
From S2P Require Import Prelude Phys Libc Frames Kernel User UserSpec Shell Words ShellLogic.

(** ** The editor *)

Record editor := mkEd { ed_text : list Z; ed_flag : bool; ed_key : option Z }.

(** What a key does to the text: backspace removes the last character, a
    character that does not fit is dropped. *)
Definition type_key (c : Z) (text : list Z) : list Z :=
  if c =? 10 then text
  else if c =? 8 then take (length text - 1) text
  else if zlen text <? SHELL_LINE_MAX - 1 then text ++ [c] else text.

(** The key is looked at: after an interrupt it starts a new text. *)
Definition settle (ed : editor) : editor :=
  match ed_key ed with
  | None => ed
  | Some c => mkEd (type_key c (if ed_flag ed then [] else ed_text ed)) false None
  end.

Definition ed_step (ed : editor) (e : event) : editor :=
  match by_whom e with
  | Handler true => mkEd (ed_text ed) true (ed_key ed)
  | Handler false => mkEd (ed_text (settle ed)) true None
  | Program =>
      match e_call e with
      | C_readkey =>
          if a_ret (e_answer e) =? SYS_FAIL then settle ed
          else mkEd (ed_text (settle ed)) (ed_flag (settle ed)) (Some (u8 (a_ret (e_answer e))))
      | _ => settle ed
      end
  end.

(** A key event that is, or is not, the end of the line. *)
Definition newline (e : event) : bool :=
  match e_call e with
  | C_readkey => negb (a_ret (e_answer e) =? SYS_FAIL) && (u8 (a_ret (e_answer e)) =? 10)
  | _ => false
  end.
Definition typed (e : event) : Prop := e_call e = C_readkey /\ newline e = false.

Lemma settle_key ed : ed_key (settle ed) = None.
Proof. unfold settle. by destruct (ed_key ed) eqn:E. Qed.
Lemma settle_settle ed : settle (settle ed) = settle ed.
Proof. unfold settle at 1. by rewrite settle_key. Qed.

(** The handler's events set the flag; before a call the pending key has
    been looked at. *)
Lemma ed_before ed t : Forall (aside false) t -> settle (foldl ed_step ed t) = mkEd (ed_text (settle ed)) (ed_flag (settle ed) || existsb by_handler t) None.
Proof.
  intros Ht. revert ed. induction Ht as [| e t [He _] _ IH]; intros ed.
  - simpl. rewrite orb_false_r. pose proof (settle_key ed). destruct (settle ed). simpl in *. congruence.
  - simpl. rewrite IH. unfold ed_step, by_handler. rewrite He. simpl. by rewrite orb_true_r.
Qed.
Lemma ed_after ed t : Forall (aside true) t -> foldl ed_step ed t = mkEd (ed_text ed) (ed_flag ed || existsb by_handler t) (ed_key ed).
Proof.
  intros Ht. revert ed. induction Ht as [| e t [He _] _ IH]; intros ed; simpl.
  - rewrite orb_false_r. by destruct ed.
  - rewrite IH. unfold ed_step, by_handler. rewrite He. simpl. by rewrite orb_true_r.
Qed.

(** The events of printing: they begin with a call or the handler before
    it. *)
Definition clean (t : list event) : Prop := match t with [] => True | e :: _ => by_whom e <> Handler true end.

Lemma ed_write ed e : is_write (e_call e) = true -> (ed_key ed = None \/ by_whom e <> Handler true) ->
  settle (ed_step ed e) = mkEd (ed_text (settle ed)) (ed_flag (settle ed) || by_handler e) None /\ ed_key (ed_step ed e) = None.
Proof.
  intros Hw Hk. unfold ed_step, by_handler. destruct (by_whom e) as [| [|]].
  - destruct (e_call e); try done. rewrite settle_settle, settle_key, orb_false_r. pose proof (settle_key ed). destruct (settle ed). simpl in *. by subst.
  - destruct Hk as [Hk |]; [| done]. rewrite Hk. unfold settle. simpl. rewrite Hk. by rewrite orb_true_r.
  - by rewrite orb_true_r.
Qed.

Lemma ed_writes t : only_writes Program t -> clean t -> forall ed, settle (foldl ed_step ed t) = mkEd (ed_text (settle ed)) (ed_flag (settle ed) || existsb by_handler t) None.
Proof.
  intros Ht Hc ed. destruct Ht as [| e t [He _] Ht]; [by apply ed_before |]. simpl in Hc. simpl foldl. simpl existsb.
  destruct (ed_write ed e He (or_intror Hc)) as [E1 K1]. revert E1 K1. generalize (ed_step ed e). generalize (by_handler e). clear He Hc. induction Ht as [| e' t [He _] _ IH]; intros b ed' E1 K1; simpl.
  - rewrite E1. simpl. by rewrite orb_false_r.
  - destruct (ed_write ed' e' He (or_introl K1)) as [E2 K2]. rewrite (IH (b || by_handler e') _); [by rewrite <- orb_assoc | | done]. rewrite E2, E1. simpl. by rewrite orb_assoc.
Qed.

Section Typing.
Context `{Env} {laws : AnswerLaws} `{Layout}.

Definition orderly (evs : list event) (s s' : prog shell) : Prop := grown (set_abandoned true) evs s s' /\ clean evs.

Lemma around_clean c a evs : around Program c a evs -> clean evs.
Proof. intros (pre & post & -> & H1 & _). destruct H1 as [| e pre [He _] _]; simpl; [done |]. by rewrite He. Qed.

Lemma rings_orderly : rings sys orderly Program.
Proof.
  destruct rings_sys as (R1 & R2 & R3). split; [by intros s; split |]. split.
  - intros e1 e2 s1 s2 s3 [G1 C1] [G2 C2]. split; [by eapply R2 |]. by destruct e1.
  - intros c s. eapply uwp_mono; [apply R3 | done |]. intros a s' (evs & G & A & O). exists evs. split; [split; [done | by eapply around_clean] | done].
Qed.

(** The state of the program and the editor agree. *)
Definition synced (ed : editor) (len : Z) (g : shell) : Prop :=
  settle ed = mkEd (take (Z.to_nat len) (line g)) (line_abandoned g) None /\ length (line g) = 128%nat /\ 0 <= len <= 127.

Lemma touched_flag evs g : touched (set_abandoned true) evs g = mkShell (line g) (line_abandoned g || existsb by_handler evs) (list_buf g) (file_buf g).
Proof. unfold touched. destruct g, (existsb by_handler evs); simpl; by rewrite ?orb_true_r, ?orb_false_r. Qed.

Lemma print_edit text obj s : cstring text obj -> zlen text < 2 ^ 63 ->
  uwp (print obj) never (fun _ s' => exists evs, d_trace s' = d_trace s ++ evs /\ deeds evs = [] /\ core (d_globals s') = core (d_globals s) /\
    forall ed len, synced ed len (d_globals s) -> synced (foldl ed_step ed evs) len (d_globals s')) s.
Proof.
  intros Hc Hl. unfold print. apply uwp_bind. eapply uwp_mono; [by apply (sys_print_ok _ _ _ rings_orderly text) | done |].
  intros w s' (evs & [(T & _ & G) C] & [A _] & _). apply uwp_ret. exists evs. split; [done |]. split; [by apply deeds_writes |].
  rewrite G. split; [apply core_touched |]. intros ed len (Hs & Hn & Hlen). rewrite touched_flag. split; [| done]. rewrite ed_writes, Hs by done. done.
Qed.

Lemma ed_readkey ed a : ed_step ed (mkEvent Program C_readkey a) =
  if a_ret a =? SYS_FAIL then settle ed else mkEd (ed_text (settle ed)) (ed_flag (settle ed)) (Some (u8 (a_ret a))).
Proof. done. Qed.

(** Reading a key: the key is pending. *)
Lemma readkey_edit s : uwp (sys_readkey sys) never (fun key s' => exists evs e, d_trace s' = d_trace s ++ evs /\ deeds evs = [e] /\ e_call e = C_readkey /\ a_ret (e_answer e) = key /\
    (key = SYS_FAIL \/ 0 < key < 256) /\ core (d_globals s') = core (d_globals s) /\
    forall ed len, synced ed len (d_globals s) ->
      (key = SYS_FAIL -> synced (foldl ed_step ed evs) len (d_globals s')) /\
      (key <> SYS_FAIL -> settle (foldl ed_step ed evs) = mkEd (type_key (u8 key) (if line_abandoned (d_globals s') then [] else take (Z.to_nat len) (line (d_globals s')))) false None)) s.
Proof.
  unfold sys_readkey. apply uwp_bind. eapply uwp_mono; [apply rings_sys | done |]. intros a s' (evs & (T & _ & G) & Ha & O). apply uwp_ret.
  pose proof (answered_ok _ _ O) as [_ Hr]. simpl in Hr. exists evs, (mkEvent Program C_readkey a). split; [done |]. split; [by apply around_deeds in Ha |]. split; [done |]. split; [done |]. split; [done |].
  rewrite G. split; [apply core_touched |]. intros ed len (Hs & Hn & Hlen). rewrite touched_flag. simpl line. simpl line_abandoned.
  destruct Ha as (pre & post & -> & Hpre & Hpost & _). rewrite !foldl_app, !existsb_app. simpl existsb. rewrite (ed_after _ _ Hpost). cbn [foldl].
  pose proof (ed_before ed pre Hpre) as Eb. rewrite Hs in Eb. cbn [ed_text ed_flag] in Eb. rewrite ed_readkey, Eb. cbn [ed_text ed_flag ed_key].
  split; intros Hk.
  - rewrite (proj2 (Z.eqb_eq _ _) Hk). cbn [ed_text ed_flag ed_key]. split; [| done]. unfold settle. simpl. by rewrite <- orb_assoc.
  - rewrite (proj2 (Z.eqb_neq _ _) Hk). cbn [ed_text ed_flag ed_key]. unfold settle. simpl. by rewrite <- orb_assoc.
Qed.

(** ** The loop *)

Definition is_byte (c : Z) : Prop := 0 <= c < 256.

(** Out of steps: every step was a key, none of them the end of the line. *)
Definition still_typing (fuel : nat) (s s' : prog shell) : Prop :=
  exists evs, d_trace s' = d_trace s ++ evs /\ Forall typed (deeds evs) /\ length (deeds evs) = fuel.

(** The line is the editor's text. *)
Definition line_typed (fuel : nat) (ed : editor) (s s' : prog shell) : Prop :=
  exists evs ds e, d_trace s' = d_trace s ++ evs /\ deeds evs = ds ++ [e] /\ Forall typed ds /\ e_call e = C_readkey /\ newline e = true /\ (length ds < fuel)%nat /\
  (exists tl, line (d_globals s') = ed_text (settle (foldl ed_step ed evs)) ++ 0 :: tl) /\ zlen (ed_text (settle (foldl ed_step ed evs))) <= SHELL_LINE_MAX - 1 /\
  length (line (d_globals s')) = 128%nat /\ list_buf (d_globals s') = list_buf (d_globals s) /\ file_buf (d_globals s') = file_buf (d_globals s) /\
  (Forall is_byte (line (d_globals s)) -> Forall is_byte (line (d_globals s'))).

(** A turn that typed a key, and the rest. *)
Definition turn (ed : editor) (s s1 : prog shell) (ed1 : editor) (len : Z) : Prop :=
  exists evs e, d_trace s1 = d_trace s ++ evs /\ deeds evs = [e] /\ typed e /\ ed1 = foldl ed_step ed evs /\ synced ed1 len (d_globals s1) /\
  list_buf (d_globals s1) = list_buf (d_globals s) /\ file_buf (d_globals s1) = file_buf (d_globals s) /\ (Forall is_byte (line (d_globals s)) -> Forall is_byte (line (d_globals s1))).

Lemma still_typing_turn fuel ed s s1 s2 ed1 len : turn ed s s1 ed1 len -> still_typing fuel s1 s2 -> still_typing (S fuel) s s2.
Proof.
  intros (e1 & e & T1 & D1 & K1 & _) (e2 & T2 & A2 & L2). exists (e1 ++ e2). rewrite deeds_app, D1. split; [by rewrite T2, T1, app_assoc |]. split; [by constructor | simpl; lia].
Qed.
Lemma line_typed_turn fuel ed s s1 s2 ed1 len : turn ed s s1 ed1 len -> line_typed fuel ed1 s1 s2 -> line_typed (S fuel) ed s s2.
Proof.
  intros (e1 & e & T1 & D1 & K1 & -> & _ & B1 & F1 & Y1) (e2 & ds & k & T2 & D2 & A2 & C2 & N2 & L2 & Hl & Hz & Hn & B2 & F2 & Y2).
  exists (e1 ++ e2), (e :: ds), k. rewrite deeds_app, D1, D2, foldl_app. split; [by rewrite T2, T1, app_assoc |]. split; [done |]. split; [by constructor |]. split; [done |]. split; [done |]. split; [simpl; lia |].
  split; [done |]. split; [done |]. split; [done |]. split; [congruence |]. split; [congruence | auto].
Qed.

Lemma take_set (l : list Z) len c : 0 <= len -> len < zlen l -> take (Z.to_nat (len + 1)) (zset l len c) = take (Z.to_nat len) l ++ [c].
Proof.
  intros H1 H2. unfold zset, zlen in *. zcases; [lia |]. replace (Z.to_nat (len + 1)) with (S (Z.to_nat len)) by lia.
  rewrite (take_S_r _ _ c); [| apply list_lookup_insert_eq; lia]. by rewrite take_insert_ge by lia.
Qed.
Lemma set_split (l : list Z) len c : 0 <= len -> len < zlen l -> zset l len c = take (Z.to_nat len) l ++ c :: drop (S (Z.to_nat len)) l.
Proof. intros H1 H2. unfold zset, zlen in *. zcases; [lia |]. apply insert_take_drop. lia. Qed.
Lemma set_bytes l len c : Forall is_byte l -> is_byte c -> Forall is_byte (zset l len c).
Proof. intros Hl Hc. unfold zset. zcases; [done |]. by apply Forall_insert. Qed.

(** The look at the flag. *)
Lemma look_flag {A} (F : Z -> U shell A) W Q len s :
  uwp (F (if line_abandoned (d_globals s) then 0 else len)) W Q (mkProg (d_trace s) (d_handled s) (core (d_globals s))) ->
  uwp (g ← get ; len ← (if line_abandoned g then modify (set_abandoned false) ;; mret 0 else mret len) ; F len) W Q s.
Proof. intros HQ. apply uwp_bind, uwp_get. destruct s as [t h [l a lb fb]]. simpl in *. destruct a; exact HQ. Qed.

Lemma core_eq g g' : core g = core g' -> line g = line g' /\ list_buf g = list_buf g' /\ file_buf g = file_buf g'.
Proof. destruct g, g'. unfold core, set_abandoned. simpl. by intros [= -> -> ->]. Qed.

Lemma cstring_one c : c <> 0 -> cstring [c] [c; 0] /\ zlen [c] < 2 ^ 63.
Proof. intros Hc. split; [| done]. split; [by apply Forall_singleton | by exists []]. Qed.

(** A step of the program on the way, with the events so far. *)
Definition reached (ed : editor) (s : prog shell) (e : event) (ed1 : editor) (s1 : prog shell) : Prop :=
  exists evs, d_trace s1 = d_trace s ++ evs /\ deeds evs = [e] /\ ed1 = foldl ed_step ed evs /\
  list_buf (d_globals s1) = list_buf (d_globals s) /\ file_buf (d_globals s1) = file_buf (d_globals s) /\ (Forall is_byte (line (d_globals s)) -> Forall is_byte (line (d_globals s1))).

Lemma reached_turn ed s e ed1 s1 len : reached ed s e ed1 s1 -> typed e -> synced ed1 len (d_globals s1) -> turn ed s s1 ed1 len.
Proof. intros (evs & ? & ? & ? & ? & ? & ?) ? ?. exists evs, e. by repeat (split; [done |]). Qed.

(** The echo. *)
Lemma reached_print c ed s e ed1 s1 : reached ed s e ed1 s1 -> c <> 0 ->
  uwp (print [c; 0]) never (fun _ s2 => exists ed2, reached ed s e ed2 s2 /\ core (d_globals s2) = core (d_globals s1) /\ forall len, synced ed1 len (d_globals s1) -> synced ed2 len (d_globals s2)) s1.
Proof.
  intros (evs & T & D & -> & B & F & Y) Hc. destruct (cstring_one c Hc). eapply uwp_mono; [by apply (print_edit [c]) | done |].
  intros _ s2 (e2 & T2 & D2 & C2 & S2). exists (foldl ed_step (foldl ed_step ed evs) e2). destruct (core_eq _ _ C2) as (L2 & B2 & F2). split; [| split; [done | by apply S2]].
  exists (evs ++ e2). rewrite deeds_app, D, D2, foldl_app, T2, T, app_assoc, L2, B2, F2. by repeat (split; [done |]).
Qed.

Lemma read_keys_edit fuel : forall len ed s, synced ed len (d_globals s) -> uwp (read_keys fuel len) (still_typing fuel s) (fun _ => line_typed fuel ed s) s.
Proof.
  induction fuel as [| f IH]; intros len ed s Hs; cbn [read_keys]; [exists []; by rewrite app_nil_r |].
  apply uwp_bind. eapply uwp_total; [apply readkey_edit |]. intros key s1 (evs & e & T & D & C & Ek & Hk & Hc & Hed).
  destruct (Hed ed len Hs) as [HF HN]. destruct (core_eq _ _ Hc) as (L1 & B1 & F1). destruct (Hs) as (_ & Hlen & Hr).
  assert (forall s1', d_trace s1' = d_trace s1 -> core (d_globals s1') = core (d_globals s1) -> reached ed s e (foldl ed_step ed evs) s1') as Hreach.
  { intros s1' T' C'. destruct (core_eq _ _ C') as (L' & B' & F'). exists evs. rewrite T', T, L', B', F', L1, B1, F1. by repeat (split; [done |]). }
  assert (forall s2 ed2 len2, reached ed s e ed2 s2 -> typed e -> synced ed2 len2 (d_globals s2) -> uwp (read_keys f len2) (still_typing (S f) s) (fun _ => line_typed (S f) ed s) s2) as Hgo.
  { intros s2 ed2 len2 R2 K2 S2. pose proof (reached_turn _ _ _ _ _ _ R2 K2 S2) as Ht. eapply uwp_mono; [by apply IH | |]; [by intros; eapply still_typing_turn | by intros; eapply line_typed_turn]. }
  destruct (Z.eqb_spec key SYS_FAIL) as [Ef | Ef].
  { apply (Hgo s1 (foldl ed_step ed evs)); [by apply Hreach | | by apply HF]. split; [done |]. unfold newline. by rewrite C, Ek, (proj2 (Z.eqb_eq _ _) Ef). }
  apply look_flag. specialize (HN Ef). set (c := u8 key) in *. assert (0 < c < 256) as Hcb by (unfold c; destruct Hk; [done |]; rewrite u8_small by lia; lia).
  set (len2 := if line_abandoned (d_globals s1) then 0 else len). set (s2 := mkProg (d_trace s1) (d_handled s1) (core (d_globals s1))).
  assert (0 <= len2 <= 127) as Hl2 by (unfold len2; destruct (line_abandoned _); lia).
  assert ((if line_abandoned (d_globals s1) then [] else take (Z.to_nat len) (line (d_globals s1))) = take (Z.to_nat len2) (line (d_globals s2))) as Et by (unfold len2; by destruct (line_abandoned _)).
  rewrite Et in HN. clear Et. assert (zlen (take (Z.to_nat len2) (line (d_globals s2))) = len2) as Hzt by (unfold zlen; rewrite length_take; simpl; rewrite L1, Hlen; lia).
  assert (length (line (d_globals s2)) = 128%nat) as Hn2 by (simpl; by rewrite L1). pose proof (Hreach s2 eq_refl eq_refl) as R2.
  assert (line_abandoned (d_globals s2) = false) as Ha2 by done.
  assert (newline e = (c =? 10)) as Hnl by (unfold newline, c; rewrite C, Ek; by rewrite (proj2 (Z.eqb_neq _ _) Ef)).
  assert (forall len3 g3, type_key c (take (Z.to_nat len2) (line (d_globals s2))) = take (Z.to_nat len3) (line g3) -> length (line g3) = 128%nat -> line_abandoned g3 = false -> 0 <= len3 <= 127 -> synced (foldl ed_step ed evs) len3 g3) as Hsync
    by (intros len3 g3 E3 N3 A3 B3; split; [by rewrite HN, E3, A3 | done]).
  clearbody s2 len2 c. clear Hreach HF HN. set (ed1 := foldl ed_step ed evs) in *. clearbody ed1. unfold type_key in Hsync. rewrite Hzt in Hsync.
  cbv zeta. destruct (Z.eqb_spec c 10) as [-> | Hc10]; [| assert (typed e) as Hty by (by split)].
  - apply uwp_bind. eapply uwp_total; [by apply (reached_print 10 _ _ _ _ _ R2) |]. intros _ s3 (ed3 & (evs3 & T3 & D3 & -> & B3 & F3 & Y3) & C3 & S3).
    destruct (S3 len2 (Hsync len2 _ eq_refl Hn2 Ha2 Hl2)) as (Hs3 & Hn3 & _). unfold store_line, SHELL_LINE_MAX. destruct (Z.leb_spec 0 len2), (Z.ltb_spec len2 128); try lia. simpl andb. cbv iota. apply uwp_modify.
    assert (len2 < zlen (line (d_globals s3))) as Hlt by (unfold zlen; lia).
    exists evs3, [], e. rewrite Hs3. simpl. split; [done |]. split; [done |]. split; [apply Forall_nil_2 |]. split; [done |]. split; [done |]. split; [lia |].
    split; [rewrite set_split by lia; by eexists |]. split; [unfold zlen, SHELL_LINE_MAX; rewrite length_take; lia |]. split; [unfold zset; destruct (_ <? _); [done | by rewrite length_insert] |].
    split; [done |]. split; [done |]. intros Hy. apply set_bytes; [auto | by split].
  - destruct (Z.eqb_spec c 8) as [-> | Hc8].
    + destruct (Z.ltb_spec 0 len2).
      * apply uwp_bind. eapply uwp_total; [by apply (reached_print 8 _ _ _ _ _ R2) |]. intros _ s3 (ed3 & R3 & C3 & S3). apply (Hgo s3 ed3); [done | done |]. apply S3.
        apply Hsync; [| done | done | lia]. rewrite take_take. f_equal. rewrite length_take. lia.
      * apply (Hgo s2 ed1); [done | done |]. apply Hsync; [| done | done | lia]. rewrite take_take. f_equal. lia.
    + unfold SHELL_LINE_MAX in *. change (128 - 1) with 127 in *. destruct (Z.ltb_spec len2 127).
      * apply uwp_bind. unfold store_line, SHELL_LINE_MAX. destruct (Z.leb_spec 0 len2), (Z.ltb_spec len2 128); try lia. simpl andb. cbv iota. apply uwp_modify.
        set (s3 := mkProg _ _ _). assert (reached ed s e ed1 s3) as R3.
        { destruct R2 as (evs2 & T2 & D2 & E2 & B2 & F2 & Y2). exists evs2. simpl. repeat (split; [done |]). intros Hy. apply set_bytes; [auto | unfold is_byte; lia]. }
        apply uwp_bind. eapply uwp_total; [by apply (reached_print c _ _ _ _ _ R3); lia |]. intros _ s4 (ed4 & R4 & C4 & S4). apply (Hgo s4 ed4); [done | done |]. apply S4.
        apply Hsync; [simpl; by rewrite take_set by (unfold zlen; lia) | simpl; unfold zset; destruct (_ <? _); [done | by rewrite length_insert] | done | lia].
      * apply (Hgo s2 ed1); [done | done |]. by apply Hsync.
Qed.
End Typing.

(** C33: [read_line] against the editor, for every behaviour of the kernel
    and every arrival of signals. When a newline is among the keys it was
    given it returns after the first one, and [line] then holds the editor's
    text, at most 127 characters, with its terminator: backspace removes a
    character, characters that do not fit are dropped, calls cut short by a
    signal are no keys, and what was typed before an interrupt is gone.
    Otherwise it is still waiting. It never reads or writes outside the
    buffer and leaves the rest of the data alone. *)
Theorem read_line_edits `{Env} {laws : AnswerLaws} `{Layout} fuel s : length (line (d_globals s)) = 128%nat ->
  match read_line fuel s with
  | Got _ s' => line_typed fuel (mkEd [] (line_abandoned (d_globals s)) None) s s'
  | More s' => still_typing fuel s s'
  | Bad => False
  end.
Proof. intros Hn. apply (read_keys_edit fuel 0). split; [done | lia]. Qed.

(** Keys typed one after the other; the terminal takes two bytes at a time
    and an interrupt comes after the second key. *)
Module DemoKeys.
Definition keys : list Z := [120; 121; 108; 115; 115; 8; 10; 122].
Definition reads (t : list event) : nat := length (deeds t).
Definition reply (t : list event) (c : call) : answer :=
  match c with
  | C_write _ bs => mkAnswer (Z.min 2 (zlen bs)) []
  | C_readkey => mkAnswer (nth (reads t) keys SYS_FAIL) []
  | _ => mkAnswer SYS_FAIL []
  end.
#[export] Instance env : Env := { kern := reply; signals after t := if after && Nat.eqb (reads t) 2 && Nat.eqb (length t) 4 then 1%nat else 0%nat }.
Lemma typed_keys_ok n : nth n keys SYS_FAIL = SYS_FAIL \/ 0 < nth n keys SYS_FAIL < 256.
Proof. do 8 (destruct n as [| n]; [right; simpl; lia |]). left. by destruct n. Qed.
Lemma typed_reply_ok t c : answer_ok c (reply t c).
Proof.
  assert (0 <= SYS_FAIL < 2 ^ 64) by done. assert (SYS_FAIL <> 0) by done. unfold answer_ok. destruct c; cbn [reply a_ret a_data]; try (by auto).
  - assert (0 <= zlen bs) by (unfold zlen; lia). rewrite i64_small by lia. lia.
  - destruct (typed_keys_ok (reads t)) as [-> |]; [by auto |]. split; [lia | by right].
Qed.
#[export] Instance laws : AnswerLaws := { kern_ok := typed_reply_ok }.
#[export] Instance layout : Layout := { line_at := USER_CODE_BASE; text_at := USER_CODE_BASE }.
Definition start : prog shell := mkProg [] true shell_zero.
Definition typed_line (o : outcome shell unit) : option (list Z) := match o with Got _ s => Some (take 4 (line (d_globals s))) | _ => None end.
Lemma runs_typing : typed_line (read_line 8 start) = Some [108; 115; 0; 0].
Proof. vm_compute. reflexivity. Qed.
End DemoKeys.
Import DemoKeys.

Lemma read_line_edits_witness : exists s', read_line 8 start = Got tt s' /\ take 4 (line (d_globals s')) = [108; 115; 0; 0] /\ line_typed 8 (mkEd [] false None) start s'.
Proof.
  pose proof (read_line_edits 8 start eq_refl) as Hl. pose proof runs_typing as Hr. destruct (read_line 8 start) as [[] s' | s' |].
  - exists s'. split; [reflexivity |]. injection Hr as Hr. exact (conj Hr Hl).
  - discriminate Hr.
  - discriminate Hr.
Defined.
