(* ===== verification/ShellSpec.v ===== *)
(** * The shell keeps its promises

    Every command, the pipeline and the main loop, for every behaviour of the
    kernel that [include/syscalls.h] allows and every arrival of interrupts:
    no undefined behaviour, and the rules of [ShellLogic] are kept. *)

From Stdlib Require Import ZArith Lia Bool Ascii String.
From stdpp Require Import base option sets list.
From S2P Require Import Prelude Phys Libc Frames Kernel User UserSpec Shell Words ShellLogic LineEdit.

(** ** The data *)

(** The buffers have their sizes, and there is a terminator at [k] of the
    line. *)
Definition fit (k : Z) (g : shell) : Prop :=
  length (line g) = 128%nat /\ Forall is_byte (line g) /\ ends_at (line g) k /\ k < 128 /\ length (list_buf g) = 512%nat /\ zlen (file_buf g) = SHELL_FILE_MAX.

Lemma next_token_fit buf k pos sep : ends_at buf k -> Forall is_byte buf -> 0 <= pos <= k -> sep <> 0 -> exists buf' pos' tok,
  next_token buf pos sep = Some (buf', pos', tok) /\ ends_at buf' k /\ Forall is_byte buf' /\ length buf' = length buf /\ 0 <= pos' <= k /\ (forall p, tok = Some p -> 0 <= p <= k).
Proof.
  intros He Hb Hp Hs. destruct (ends_at_cstring buf k pos He Hp) as (text & [Ht [rest Ed]] & Hk).
  assert (forall buf' pos' tok, next_token buf pos sep = Some (buf', pos', tok) -> buf' = buf \/ exists q, buf' = zset buf q 0) as Hbuf.
  { intros buf' pos' tok E. unfold next_token in E. destruct (skip_seps _ _); [| done]. simpl in E. destruct (_ =? 0); [injection E as <- _ _; by left |].
    destruct (token_end _ _); [| done]. simpl in E. destruct (_ =? sep); injection E as <- _ _; [right; by eexists | by left]. }
  assert (zlen (take (Z.to_nat pos) buf) = pos) as Hz.
  { destruct He as [_ He%lookup_lt_Some]. unfold zlen. rewrite length_take. lia. }
  pose proof (next_token_spec sep (take (Z.to_nat pos) buf) text rest Hs Ht) as Hn. rewrite Hz in Hn. rewrite <- Ed, take_drop in Hn.
  assert (exists buf' pos' tok, next_token buf pos sep = Some (buf', pos', tok) /\ 0 <= pos' <= k /\ (forall p, tok = Some p -> 0 <= p <= k)) as (buf' & pos' & tok & E & Hr).
  { assert (0 <= zlen text) by (unfold zlen; lia). destruct Hn as [(n & _ & E) | [(n & w & -> & _ & _ & E) | (n & w & t & -> & _ & _ & E)]]; eexists _, _, _; (split; [exact E |]).
    - split; [lia | done].
    - split; [lia |]. intros p [= <-]. unfold zlen in *. rewrite length_app, length_replicate in *. lia.
    - unfold zlen in *. rewrite ?length_app, ?length_replicate, ?length_app in *. simpl in *. rewrite ?length_app in *. simpl in *. split; [lia |]. intros p [= <-]. lia. }
  exists buf', pos', tok. split; [done |]. destruct (Hbuf _ _ _ E) as [-> | [q ->]]; [by repeat (split; [done |]) |].
  split; [by apply ends_at_set |]. split; [by apply set_bytes |]. split; [| done]. unfold zset. destruct (_ <? _); [done | by rewrite length_insert].
Qed.

(** Formats whose conversions match the kinds of the arguments ([true]: a
    string). *)
Fixpoint good_format (fmt : list Z) (kinds : list bool) : bool :=
  match fmt with
  | [] => true
  | c :: fmt' =>
      if negb (c =? 37) then good_format fmt' kinds
      else
        match fmt' with
        | [] => false
        | d :: fmt'' =>
            if d =? 37 then good_format fmt'' kinds
            else if negb (bool_decide (d ∈ [100; 117; 120; 99; 115])) then true
            else match kinds with [] => false | k :: kinds => Bool.eqb (d =? 115) k && good_format fmt'' kinds end
        end
  end.

Definition arg_kind (x : arg) : bool := match x with A_int _ => false | A_ptr _ _ => true end.
Definition arg_ends (x : arg) : Prop := match x with A_int _ => True | A_ptr _ bs => exists n, strlen bs = Some n end.

Lemma expand_good d args k : bool_decide (d ∈ [100; 117; 120; 99; 115]) = true -> d <> 37 -> Bool.eqb (d =? 115) (arg_kind k) = true -> arg_ends k ->
  exists ok text, expand d (k :: args) = Some (ok, text, args).
Proof.
  intros Hd H37 Hk Ha. unfold expand. apply Z.eqb_neq in H37 as ->. rewrite Hd. simpl negb. cbv iota. apply bool_decide_eq_true in Hd. apply eqb_prop in Hk. destruct k as [v | a bs]; simpl in Hk.
  - apply Z.eqb_neq in Hk. rewrite !elem_of_cons, elem_of_nil in Hd.
    destruct (Z.eqb_spec d 100); [by eauto |]. destruct (Z.eqb_spec d 117); [by eauto |]. destruct (Z.eqb_spec d 120); [by eauto |]. destruct (Z.eqb_spec d 99); [by eauto | tauto].
  - rewrite Hk. destruct Ha as [n Hn]. unfold string_text. rewrite Hn. destruct (negb _); [simpl; by eauto |]. destruct (n <? _); simpl; by eauto.
Qed.

Lemma good_format_ok n : forall fmt args, (length fmt <= n)%nat -> good_format fmt (arg_kind <$> args) = true -> Forall arg_ends args -> exists r, format fmt args = Some r.
Proof.
  induction n as [| n IH]; intros [| c fmt] args Hn Hg Ha; try (by eexists); [simpl in Hn; lia |]. cbn [good_format format] in *.
  destruct (c =? 37) eqn:Ec; simpl negb in *; cbv iota in *.
  - destruct fmt as [| d fmt]; [done |]. simpl in Hn. destruct (Z.eqb_spec d 37) as [-> | Hd].
    + destruct (IH fmt args) as [r E]; [lia | done | done |]. simpl. rewrite E. simpl. by eexists.
    + destruct (bool_decide (d ∈ [100; 117; 120; 99; 115])) eqn:Hin; simpl negb in Hg; cbv iota in Hg.
      * destruct args as [| k args]; [done |]. rewrite fmap_cons in Hg. apply andb_true_iff in Hg as [Hk Hg]. apply Forall_cons in Ha as [Hak Ha].
        destruct (expand_good d args k Hin Hd Hk Hak) as (ok & text & ->). simpl. destruct ok; [| by eexists]. destruct (IH fmt args) as [r ->]; [lia | done | done |]. simpl. by eexists.
      * unfold expand. apply Z.eqb_neq in Hd as ->. rewrite Hin. simpl. by eexists.
  - destruct (IH fmt args) as [r ->]; [simpl in Hn; lia | done | done |]. simpl. by eexists.
Qed.

(** ** Strings *)

Definition printable (obj : list Z) : Prop := exists text, cstring text obj /\ zlen text < 2 ^ 63.

Lemma lit_printable s : plain_text s = true -> printable (lit s).
Proof. intros [Hf Hl]%plain_text_ok. exists (chars_of s). split; [| lia]. split; [eapply Forall_impl; [done |]; simpl; lia | by exists []]. Qed.
Lemma lit_nl_printable s : plain_text s = true -> printable (lit_nl s).
Proof.
  intros [Hf Hl]%plain_text_ok. exists (chars_of s ++ [10]). split; [| unfold zlen in *; rewrite length_app; simpl; lia].
  split; [apply Forall_app; split; [eapply Forall_impl; [done |]; simpl; lia | by apply Forall_singleton] | exists []; unfold lit_nl; by rewrite <- app_assoc].
Qed.
Lemma char_printable c : c <> 0 -> printable [c; 0].
Proof. intros Hc. exists [c]. by apply cstring_one. Qed.

Lemma line_printable k g p : fit k g -> 0 <= p <= k -> printable (drop (Z.to_nat p) (line g)).
Proof.
  intros (Hn & _ & He & Hk & _) Hp. destruct (ends_at_cstring _ _ _ He Hp) as (text & Hc & Hl). exists text. split; [done |]. lia.
Qed.
Lemma line_strlen k g p : fit k g -> 0 <= p <= k -> exists n, strlen (drop (Z.to_nat p) (line g)) = Some n.
Proof. intros Hf Hp. destruct (line_printable _ _ _ Hf Hp) as (text & Hc & _). eexists. by apply strlen_cstring. Qed.

(** A string of a buffer with a terminator. *)
Lemma buf_printable (buf : list Z) n : buf !! n = Some 0 -> zlen buf < 100000 -> printable buf.
Proof. intros E Hl. destruct (cstring_at _ _ E) as (text & Hc & Hn). exists text. split; [done |]. apply lookup_lt_Some in E. unfold zlen in *. lia. Qed.

Section Commands.
Context `{Env} {laws : AnswerLaws} `{Layout}.

Lemma acts_token b k pos sep g mo (Q : Z * option Z -> mon -> shell -> Prop) : fit k g -> 0 <= pos <= k -> sep <> 0 ->
  (forall g' pos' tok, fit k g' -> 0 <= pos' <= k -> (forall p, tok = Some p -> 0 <= p <= k) -> Q (pos', tok) mo g') -> acts b (token pos sep) g mo Q.
Proof.
  intros (Hn & Hb & He & Hk & Hl & Hf) Hp Hs HQ s Hg. unfold token. apply uwp_bind, uwp_get.
  assert (line (d_globals s) = line g) as El by (change (line (core (d_globals s)) = line (core g)); by rewrite Hg).
  destruct (next_token_fit (line g) k pos sep He Hb Hp Hs) as (buf & pos' & tok & E & He' & Hb' & Hn' & Hp' & Ht).
  apply uwp_bind, (uwp_of_option _ (buf, pos', tok)); [by rewrite El |]. apply uwp_bind, uwp_modify, uwp_ret. exists [], mo. rewrite app_nil_r. split; [done |]. split; [done |].
  apply HQ; [| done | done]. destruct (core_eq _ _ Hg) as (_ & El' & Ef'). unfold fit. simpl. rewrite El', Ef', Hn'. by repeat (split; [done |]).
Qed.

Lemma acts_say_lit b s args g mo (Q : unit -> mon -> shell -> Prop) : plain_text s = true -> good_format (chars_of s) (arg_kind <$> args) = true -> Forall arg_ends args -> Forall arg_ok args ->
  Q tt mo (core g) -> acts b (say (lit s) args) g mo Q.
Proof.
  intros [Hf _]%plain_text_ok Hg He Ha HQ. apply acts_say; [| done | done]. destruct (good_format_ok _ _ args (le_n _) Hg He) as [r Er]. by exists (chars_of s), [], r.
Qed.
Lemma acts_say_lit_nl b s args g mo (Q : unit -> mon -> shell -> Prop) : plain_text s = true -> good_format (chars_of s ++ [10]) (arg_kind <$> args) = true -> Forall arg_ends args -> Forall arg_ok args ->
  Q tt mo (core g) -> acts b (say (lit_nl s) args) g mo Q.
Proof.
  intros [Hf _]%plain_text_ok Hg He Ha HQ. apply acts_say; [| done | done]. destruct (good_format_ok _ _ args (le_n _) Hg He) as [r Er]. exists (chars_of s ++ [10]), [], r.
  split; [unfold lit_nl; by rewrite <- app_assoc |]. split; [done |]. apply Forall_app. split; [done | by apply Forall_singleton].
Qed.

(** A call the rules allow when nothing is under way. *)
Definition free_call (c : call) : bool :=
  match c with C_write _ _ | C_pipe | C_close _ | C_run _ _ _ _ | C_wait _ | C_setfg _ => false | _ => true end.
Lemma acts_free b c g (Q : answer -> mon -> shell -> Prop) : free_call c = true -> (forall a, answered c a -> Q a idle (core g)) -> acts b (sys c) g idle Q.
Proof. intros Hc HQ. apply acts_call; [by destruct c |]. intros a Ha. exists idle. split; [by destruct c | auto]. Qed.

Lemma acts_c_string b s g mo (Q : list Z -> mon -> shell -> Prop) : printable s -> (forall t, Q t mo (core g)) -> acts b (c_string s) g mo Q.
Proof. intros (text & Hc & _) HQ. apply acts_bind. eapply acts_of_option; [by apply strlen_cstring |]. apply acts_ret, HQ. Qed.

(** What a command leaves behind. *)
Definition keeps (m : U shell unit) : Prop := forall k g, fit k g -> acts false m g idle (fun _ mo g' => mo = idle /\ fit k g').

Lemma fit_core k g : fit k (core g) <-> fit k g.
Proof. done. Qed.

Lemma acts_about b k p before after g mo (Q : unit -> mon -> shell -> Prop) : fit k g -> 0 <= p <= k -> printable before -> printable after -> Q tt mo (core g) -> acts b (print_about before p after) g mo Q.
Proof.
  intros Hf Hp Hb Ha HQ. unfold print_about. apply acts_bind, acts_print; [done |]. apply acts_bind, acts_at_line, acts_bind, acts_print; [by eapply line_printable |]. by apply acts_print.
Qed.

End Commands.

(** A printing step; what is left are the strings of the line. *)
Ltac printed := first [ apply lit_printable; reflexivity | apply lit_nl_printable; reflexivity | apply char_printable; lia | by eapply line_printable ].
Ltac prints := apply acts_print; [printed |].
Ltac abouts := eapply acts_about; [eassumption | eassumption || lia | printed | printed |].

Section Simple.
Context `{Env} {laws : AnswerLaws} `{Layout}.

Lemma print_help_keeps : keeps print_help.
Proof. intros k g Hf. unfold print_help. repeat (apply acts_bind; prints). by prints. Qed.

Lemma times_keeps n m : keeps m -> keeps (times n m).
Proof.
  intros Hm. induction n as [| n IH]; intros k g Hf; simpl; [by apply acts_ret |]. apply acts_bind. eapply acts_mono; [by apply Hm |]. intros _ mo g' [-> Hf']. by apply IH.
Qed.

Lemma cmd_clear_keeps : keeps cmd_clear.
Proof. apply times_keeps. intros k g Hf. by prints. Qed.

Lemma cmd_free_keeps : keeps cmd_free.
Proof.
  intros k g Hf. unfold cmd_free, sys_freecount. apply acts_bind, acts_bind, acts_free; [done |]. intros a _. apply acts_ret.
  apply acts_say_lit_nl; [done | done | by repeat constructor | by repeat constructor | done].
Qed.

Lemma over_length buf data : zlen data <= zlen buf -> zlen (over buf data) = zlen buf.
Proof. unfold over, zlen. rewrite length_app, length_drop. lia. Qed.

Lemma cmd_list_keeps : keeps cmd_list.
Proof.
  intros k g Hf. unfold cmd_list, sys_list. apply acts_bind, acts_bind, acts_free; [done |]. intros a Ha. apply acts_ret. cbn [fst snd]. apply acts_bind.
  destruct (answered_ok _ _ Ha) as (_ & Hsz & Hl). unfold SHELL_LIST_MAX in *. specialize (Hsz ltac:(lia)).
  destruct Hf as (Hn & Hb & He & Hk & Hlb & Hfb). apply acts_modify; [done |]. set (g' := set_list_buf _ _).
  assert (length (list_buf g') = 512%nat) as Hlb' by (pose proof (over_length (list_buf g) (a_data a) ltac:(unfold zlen in *; lia)) as Ho; unfold zlen in *; simpl; lia).
  assert (fit k g') as Hf' by (by repeat (split; [done |])). destruct (Z.eqb_spec (a_ret a) SYS_FAIL) as [Ef | Ef]; [by prints |].
  destruct Hl as [? | [text Hc]]; [done |]. apply acts_bind. intros s Hg. apply uwp_get. exists [], idle. rewrite app_nil_r. split; [done |]. split; [done |].
  assert (list_buf (d_globals s) = list_buf g') as -> by (by destruct (core_eq _ _ Hg) as (_ & -> & _)).
  apply acts_core. rewrite Hg. apply acts_print; [| done]. exists text. destruct Hc as [Ht [rest Er]]. split.
  - split; [done |]. simpl. unfold over. rewrite Er. exists (rest ++ drop (length (text ++ 0 :: rest)) (list_buf g)). by rewrite <- app_assoc.
  - rewrite Er in Hsz. unfold zlen in *. rewrite length_app in Hsz. lia.
Qed.
End Simple.

(** ** Commands with arguments of the line *)

Section Arguments.
Context `{Env} {laws : AnswerLaws} `{Layout}.

Definition within (k : Z) (tok : option Z) : Prop := forall p, tok = Some p -> 0 <= p <= k.

Lemma acts_get b g mo (Q : shell -> mon -> shell -> Prop) : (forall g0, core g0 = core g -> Q g0 mo (core g)) -> acts b get g mo Q.
Proof. intros HQ s Hg. apply uwp_get. exists [], mo. rewrite app_nil_r, Hg. auto. Qed.

(** A call with a name of the line. *)
Lemma acts_named b k p c g (Q : answer -> mon -> shell -> Prop) : fit k g -> 0 <= p <= k -> (forall t, free_call (c t) = true) -> (forall t a, answered (c t) a -> Q a idle (core g)) ->
  acts b (name ← c_string (drop (Z.to_nat p) (line g)) ; sys (c name)) g idle Q.
Proof. intros Hf Hp Hc HQ. apply acts_bind, acts_c_string; [by eapply line_printable |]. intros t. apply acts_free; [done |]. apply HQ. Qed.

Lemma cmd_delete_ok k name g : fit k g -> within k name -> acts false (cmd_delete name) g idle (fun _ mo g' => mo = idle /\ fit k g').
Proof.
  intros Hf Hw. destruct name as [p|]; simpl; [| by prints]. specialize (Hw p eq_refl). apply acts_bind, acts_at_line.
  destruct (line_printable k g p Hf Hw) as (text & [Ht [rest Er]] & _).
  apply acts_bind. eapply acts_of_option; [rewrite Er; by apply name_is_83_equiv |]. destruct (bool_decide _); simpl; [| by abouts].
  unfold sys_delete. apply acts_bind, acts_bind, acts_c_string; [by eapply line_printable |]. intros t. apply acts_bind, acts_free; [done |]. intros a _. apply acts_ret.
  destruct (negb _); [by abouts | by apply acts_ret].
Qed.

Lemma cmd_write_ok k name content g : fit k g -> within k name -> 0 <= content <= k -> acts false (cmd_write name content) g idle (fun _ mo g' => mo = idle /\ fit k g').
Proof.
  intros Hf Hw Hc. destruct name as [p|]; simpl; [| by prints]. specialize (Hw p eq_refl). apply acts_bind, acts_at_line.
  destruct (line_printable k g p Hf Hw) as (text & [Ht [rest Er]] & _).
  apply acts_bind. eapply acts_of_option; [rewrite Er; by apply name_is_83_equiv |]. destruct (bool_decide _); simpl; [| by abouts].
  apply acts_bind, acts_at_line, acts_bind. destruct (line_strlen k g content Hf Hc) as [n Hn]. apply (acts_of_option _ _ n); [done |].
  unfold sys_writefile. apply acts_bind, acts_bind, acts_c_string; [by eapply line_printable |]. intros t. apply acts_bind, acts_free; [done |]. intros a _. apply acts_ret.
  destruct (negb _); [by abouts | by apply acts_ret].
Qed.

Lemma cmd_return_ok k rest g : fit k g -> 0 <= rest <= k -> acts false (cmd_return rest) g idle (fun _ mo g' => mo = idle /\ fit k g').
Proof.
  intros Hf Hr. unfold cmd_return. apply acts_bind, acts_at_line. pose proof Hf as (Hn & _ & He & _). destruct (ends_at_cstring _ _ _ He Hr) as (text & [Ht [tl Er]] & Hk).
  destruct (skip_seps_spec 32 text tl ltac:(done) Ht) as (n & t & Et & Es & _).
  apply acts_bind, (acts_of_option _ _ (Z.of_nat n)); [by rewrite Er |]. apply acts_bind, acts_at_line, acts_bind. apply acts_print; [| by prints].
  apply (line_printable k (core g)); [done |]. split; [lia |]. rewrite Et in Hk. unfold zlen in Hk. rewrite length_app, length_replicate in Hk. lia.
Qed.

Lemma parse_line k g p : fit k g -> 0 <= p <= k -> exists v ok, parse_uint (drop (Z.to_nat p) (line g)) = Some (v, ok).
Proof.
  intros Hf Hp. pose proof Hf as (_ & Hb & _). destruct (line_printable k g p Hf Hp) as (text & [Ht [tl Er]] & _). rewrite Er.
  destruct (parse_digits_total text tl) as (v & ok & E); [| by exists v, ok]. apply (Forall_drop _ (Z.to_nat p)) in Hb. rewrite Er in Hb. apply Forall_app in Hb as [Hb _].
  rewrite Forall_forall in *. intros c Hc. specialize (Ht c Hc). specialize (Hb c Hc). unfold is_byte in Hb. lia.
Qed.

Lemma cmd_kill_ok k id_tok sig_tok g : fit k g -> within k id_tok -> within k sig_tok -> acts false (cmd_kill id_tok sig_tok) g idle (fun _ mo g' => mo = idle /\ fit k g').
Proof.
  intros Hf Hi Hs. destruct id_tok as [p|]; simpl; [| by prints]. specialize (Hi p eq_refl). apply acts_bind, acts_at_line. destruct (parse_line k g p Hf Hi) as (id & ok & E).
  apply acts_bind, (acts_of_option _ _ (id, ok)); [done |]. destruct ok; simpl; [| by prints].
  assert (exists sig ok', acts false (match sig_tok with None => mret (SIG_INT, true) | Some q => s ← at_line q ; of_option (parse_uint s) end) (core g) idle (fun r mo g' => r = (sig, ok') /\ mo = idle /\ g' = core g)) as (sig & ok' & Hsig).
  { destruct sig_tok as [q|]; [| exists SIG_INT, true; by apply acts_ret]. destruct (parse_line k g q Hf (Hs q eq_refl)) as (sig & ok' & E'). exists sig, ok'.
    apply acts_bind, acts_at_line. by apply (acts_of_option _ _ (sig, ok')). }
  apply acts_bind. eapply acts_mono; [exact Hsig |]. intros r mo g' (-> & -> & ->). destruct ok'; simpl; [| by prints].
  unfold sys_kill. apply acts_bind, acts_bind, acts_free; [done |]. intros a _. apply acts_ret. destruct (_ =? SYS_FAIL); [by prints | by apply acts_ret].
Qed.
End Arguments.

Section Rest.
Context `{Env} {laws : AnswerLaws} `{Layout}.

Lemma line_arg_ok k g p : fit k g -> 0 <= p <= k -> arg_ends (line_arg p (drop (Z.to_nat p) (line g))) /\ arg_ok (line_arg p (drop (Z.to_nat p) (line g))).
Proof. intros Hf Hp. split; [by eapply line_strlen |]. destruct Hf as (_ & Hb & _). simpl. by apply Forall_drop. Qed.

Lemma file_over_ok k g data : fit k g -> zlen data <= SHELL_FILE_MAX - 1 -> fit k (set_file_buf (over (file_buf g) data) g).
Proof. intros (Hn & Hb & He & Hk & Hl & Hf) Hd. repeat (split; [done |]). simpl. rewrite over_length by lia. done. Qed.

Lemma cmd_read_ok k name g : fit k g -> within k name -> acts false (cmd_read name) g idle (fun _ mo g' => mo = idle /\ fit k g').
Proof.
  intros Hf Hw. destruct name as [p|]; simpl; [| by prints]. specialize (Hw p eq_refl). apply acts_bind, acts_at_line.
  unfold sys_stat. apply acts_bind, acts_bind, acts_c_string; [by eapply line_printable |]. intros t. apply acts_bind, acts_free; [done |]. intros a _. apply acts_ret.
  destruct (_ =? SYS_FAIL); [by abouts |]. destruct (_ <? _).
  - apply acts_bind, acts_at_line. destruct (line_arg_ok k g p Hf Hw). apply acts_say_lit_nl; [done | done | by repeat constructor | by repeat constructor | done].
  - apply acts_bind, acts_at_line. unfold sys_readfile. apply acts_bind, acts_bind, acts_c_string; [by eapply line_printable |]. intros t'. apply acts_bind, acts_free; [done |]. intros a' Ha. apply acts_ret. cbn [fst snd].
    destruct (answered_ok _ _ Ha) as (_ & Hsz & Hn). specialize (Hsz ltac:(done)). apply acts_bind, acts_modify; [done |].
    pose proof (file_over_ok k (core g) (a_data a') Hf Hsz) as Hf'. set (g' := set_file_buf _ _) in *. destruct (Z.eqb_spec (a_ret a') SYS_FAIL) as [Ef | Ef]; [by abouts |].
    destruct Hn as [? | Hn]; [done |]. rewrite Hn. destruct (Z.leb_spec SHELL_FILE_MAX (zlen (a_data a'))); [lia |]. apply acts_bind, acts_modify; [done |].
    set (n := zlen (a_data a')) in *. pose proof Hf' as (F1 & F2 & F3 & F4 & F5 & F6). assert (0 <= n) by (unfold n, zlen; lia).
    assert (zlen (zset (file_buf g') n 0) = SHELL_FILE_MAX) as Hz by (by rewrite zlen_zset).
    apply acts_bind, acts_get. intros g0 Hg0. destruct (core_eq _ _ Hg0) as (_ & _ & Ef0). rewrite Ef0. apply acts_bind, acts_print.
    { apply (buf_printable _ (Z.to_nat n)); [| change (zlen (zset (file_buf g') n 0) < 100000); rewrite Hz; done]. change (zset (file_buf g') n 0 !! Z.to_nat n = Some 0). unfold zset. destruct (Z.ltb_spec n 0); [lia |]. apply list_lookup_insert_eq. unfold zlen in *. lia. }
    prints. split; [done |]. by repeat (split; [done |]).
Qed.

Lemma cmd_run_ok k name g : fit k g -> within k name -> acts false (cmd_run name) g idle (fun _ mo g' => mo = idle /\ fit k g').
Proof.
  intros Hf Hw. destruct name as [p|]; simpl; [| by prints]. specialize (Hw p eq_refl). apply acts_bind, acts_at_line.
  unfold sys_run_group. apply acts_bind, acts_bind, acts_c_string; [by eapply line_printable |]. intros t. apply acts_bind, acts_call; [done |]. intros a Ha.
  destruct (answered_ok _ _ Ha) as (_ & Hr). eexists. split; [reflexivity |]. apply acts_ret. cbn [e_answer]. destruct (Z.eqb_spec (a_ret a) SYS_FAIL) as [Ef | Ef]; [by abouts |].
  destruct Hr as [? | Hr]; [done |]. set (id := a_ret a) in *. cbn [idle held group unwaited fg default]. apply acts_bind. abouts.
  unfold sys_setfg. apply acts_bind, acts_bind, acts_call; [done |]. intros a1 _. exists (mkMon [] (Some id) 1 id). split.
  { unfold mon_step. cbn [e_call group held]. destruct (Z.eqb_spec id SHELL_PGID) as [E0 |]; [unfold SHELL_PGID in E0; lia |]. cbn [andb]. by rewrite bool_decide_eq_true_2. }
  apply acts_ret. unfold sys_wait. apply acts_bind, acts_bind, acts_call; [done |]. intros a2 _. exists (mkMon [] (Some id) 0 id). split.
  { unfold mon_step. cbn [e_call group held fg unwaited]. by rewrite !bool_decide_eq_true_2. }
  apply acts_ret. apply acts_bind, acts_bind, acts_call; [done |]. intros a3 _. exists idle. split; [done |]. apply acts_ret.
  destruct (_ <? 0); [by prints |]. apply acts_bind, acts_at_line. destruct (line_arg_ok k g p Hf Hw). apply acts_say_lit_nl; [done | done | by repeat constructor | by repeat constructor | done].
Qed.

Lemma state_name_ok st : arg_ends (A_ptr text_at (state_name st)) /\ arg_ok (A_ptr text_at (state_name st)).
Proof. unfold state_name. repeat case_match; (split; [by eexists | by repeat constructor]). Qed.

Lemma ps_rows_ok k data n room : forall i g, fit k g -> zlen data = 5 * n -> 0 <= i -> n - i <= Z.of_nat room ->
  acts false (ps_rows room data i n) g idle (fun _ mo g' => mo = idle /\ fit k g').
Proof.
  induction room as [| room IH]; intros i g Hf Hd Hi Hr; cbn [ps_rows]; (destruct (Z.ltb_spec i n) as [Hlt | Hge]; [| by apply acts_ret]); [lia |].
  assert (5 <= length (drop (Z.to_nat (5 * i)) data))%nat as Hrow by (rewrite length_drop; unfold zlen in Hd; lia).
  unfold task_row. destruct (drop (Z.to_nat (5 * i)) data) as [| w0 [| w1 [| w2 [| w3 [| w4 l]]]]]; simpl in Hrow; try lia. apply acts_bind, acts_ret.
  apply acts_bind, acts_say_lit; [done | done | by repeat constructor | by repeat constructor |].
  apply acts_bind. eapply (acts_mono _ _ _ _ (fun _ mo g' => mo = idle /\ g' = core g)).
  { destruct (_ =? 0xFFFFFFFF); (apply acts_say_lit; [done | done | by repeat constructor | by repeat constructor | done]). }
  intros _ mo g' [-> ->]. destruct (state_name_ok w3). apply acts_bind, acts_say_lit; [done | done | by repeat constructor | by repeat constructor |].
  apply acts_bind. eapply (acts_mono _ _ _ _ (fun _ mo g' => mo = idle /\ g' = core g)).
  { destruct (_ =? TASK_INFO_ZOMBIE); [| by apply acts_ret]. apply acts_say_lit; [done | done | by repeat constructor | by repeat constructor | done]. }
  intros _ mo g' [-> ->]. apply acts_bind, acts_say; [exists [10], [], (true, [10]); by repeat constructor | constructor |]. apply IH; [done | done | lia | lia].
Qed.

Lemma cmd_ps_keeps : keeps cmd_ps.
Proof.
  intros k g Hf. unfold cmd_ps. apply acts_bind, acts_free; [done |]. intros a Ha. destruct (answered_ok _ _ Ha) as (Hr & Hd). cbv zeta. destruct (Z.eqb_spec (a_ret a) SYS_FAIL) as [Ef | Ef]; [by prints |].
  destruct Hd as [E | [H1 H2]]; [by destruct (Ef E) |]. apply acts_bind, acts_say_lit_nl; [done | done | by repeat constructor | by repeat constructor |]. unfold SHELL_MAX_TASKS in *. apply ps_rows_ok; [done | done | lia | lia].
Qed.
End Rest.

(** ** Pipelines *)

Section Pipeline.
Context `{Env} {laws : AnswerLaws} `{Layout}.

(** The state of the rules, with the ends in any order. *)
Definition under (mo : mon) (hs : list Z) (grp : option Z) (n f : Z) : Prop := held mo ≡ₚ hs /\ group mo = grp /\ unwaited mo = n /\ fg mo = f.
Definition ends (fd : Z) : list Z := if fd =? -1 then [] else [fd].
Definition job_group (job : Z) : option Z := if job =? 0 then None else Some job.

Lemma under_idle mo f : under mo [] None 0 f -> f = SHELL_PGID -> mo = idle.
Proof. intros (Hh & Hg & Hn & Hf) ->. apply Permutation_nil_r in Hh. destruct mo. simpl in *. by subst. Qed.

Lemma is_end_under mo hs grp n f fd : under mo hs grp n f -> fd = -1 \/ fd ∈ hs -> is_end mo fd = true.
Proof. intros (Hh & _) [-> | Hin]; [done |]. unfold is_end. apply orb_true_iff. right. apply bool_decide_eq_true. by rewrite Hh. Qed.

Lemma acts_close_if b fd hs hs' grp n f g mo (Q : unit -> mon -> shell -> Prop) : under mo hs grp n f -> hs ≡ₚ ends fd ++ hs' ->
  (forall mo', under mo' hs' grp n f -> Q tt mo' (core g)) -> acts b (close_if fd) g mo Q.
Proof.
  intros (Hh & Hg & Hn & Hf) Hp HQ. unfold close_if, ends in *. destruct (fd =? -1); simpl negb; cbv iota.
  - apply acts_ret, HQ. split; [by rewrite Hh | done].
  - unfold sys_close. apply acts_bind, acts_bind, acts_call; [done |]. intros a _. eexists. split; [unfold mon_step; cbn [e_call]; rewrite bool_decide_eq_true_2 by (rewrite Hh, Hp; apply list_elem_of_here); reflexivity |].
    apply acts_ret, acts_ret, HQ. split; [| done]. simpl. apply remove1_perm. by rewrite Hh.
Qed.

Lemma strcmp_line k g p s : fit k g -> 0 <= p <= k -> plain_text s = true -> exists r, strcmp (drop (Z.to_nat p) (line g)) (lit s) = Some r.
Proof.
  intros Hf Hp [Hs _]%plain_text_ok. pose proof Hf as (_ & Hb & _). destruct (line_printable k g p Hf Hp) as (text & Hc & _).
  destruct (strcmp_cstring text (drop (Z.to_nat p) (line g)) (chars_of s) (lit s)) as (r & E & _); [done | | | | by exists r].
  - split; [eapply Forall_impl; [done |]; simpl; lia | by exists []].
  - apply (Forall_drop _ (Z.to_nat p)) in Hb. destruct Hc as [_ [tl Er]]. rewrite Er in Hb. by apply Forall_app in Hb as [Hb _].
  - eapply Forall_impl; [done |]. simpl. lia.
Qed.

(** A stage is started under the rules, or not at all. *)
Lemma start_segment_ok k seg in_fd out_fd pgid hs grp n g mo (Q : Z -> mon -> shell -> Prop) : fit k g -> 0 <= seg <= k ->
  under mo hs grp n SHELL_PGID -> (in_fd = -1 \/ in_fd ∈ hs) -> (out_fd = -1 \/ out_fd ∈ hs) -> pgid = default SYS_RUN_GROUP_NEW grp ->
  (forall id mo' g', fit k g' -> (id = -1 /\ under mo' hs grp n SHELL_PGID) \/ (1 <= id < 2 ^ 32 /\ under mo' hs (Some (default id grp)) (n + 1) SHELL_PGID) -> Q id mo' g') ->
  acts false (start_segment seg in_fd out_fd pgid) g mo Q.
Proof.
  intros Hf Hs Hu Hi Ho -> HQ. unfold start_segment. apply acts_bind. eapply acts_token; [done | done | done |]. intros g1 pos cmd Hf1 Hp1 Hc1. cbv beta iota.
  apply acts_bind. eapply (acts_mono _ _ _ _ (fun _ mo' g' => mo' = mo /\ g' = core g1)).
  { destruct cmd as [p|]; [| by apply acts_ret]. apply acts_bind, acts_at_line. destruct (strcmp_line k g1 p "run" Hf1 (Hc1 p eq_refl) eq_refl) as [r Er]. apply acts_bind, (acts_of_option _ _ r); [done |]. by apply acts_ret. }
  intros is_run mo1 g2 [-> ->]. destruct is_run; simpl negb; cbv iota.
  2: { apply acts_bind. prints. apply acts_ret, HQ; [done | by left]. }
  apply acts_bind. apply (acts_token _ k); [done | done | done |]. intros g3 pos' name Hf3 Hp3 Hn3. cbv beta iota. destruct name as [p|].
  2: { apply acts_bind. prints. apply acts_ret, HQ; [done | by left]. }
  specialize (Hn3 p eq_refl). apply acts_bind, acts_at_line. unfold sys_run_group. apply acts_bind, acts_bind, acts_c_string; [by eapply line_printable |]. intros t. apply acts_bind, acts_call; [done |]. intros a Ha.
  destruct (answered_ok _ _ Ha) as (_ & Hr). pose proof Hu as (Hh & Hg & Hn & Hfg). eexists. split.
  { unfold mon_step. cbn [e_call]. rewrite (is_end_under _ _ _ _ _ _ Hu Hi), (is_end_under _ _ _ _ _ _ Hu Ho), Hg, Z.eqb_refl, Hfg. reflexivity. }
  apply acts_ret. cbn [e_answer]. destruct (Z.eqb_spec (a_ret a) SYS_FAIL) as [Ef | Ef].
  - apply acts_bind. abouts. apply acts_ret, HQ; [done | by left].
  - destruct Hr as [E | Hr]; [by destruct (Ef E) |]. apply acts_ret. rewrite i64_small by lia. apply HQ; [done |]. right. split; [done |]. split; [done |]. simpl. rewrite Hn. done.
Qed.

(** The loop over the stages. *)
Definition stage_inv (mo : mon) (in_fd job : Z) (started : nat) : Prop :=
  under mo (ends in_fd) (job_group job) (Z.of_nat started) SHELL_PGID /\ (job = 0 <-> started = 0%nat) /\ 0 <= job < 2 ^ 32.
Definition drained (k : Z) (r : Z * nat * Z) (mo : mon) (g : shell) : Prop :=
  let '(job, started, _) := r in stage_inv mo (-1) job started /\ fit k g.

Lemma job_group_new job : (if job =? 0 then SYS_RUN_GROUP_NEW else job) = default SYS_RUN_GROUP_NEW (job_group job).
Proof. unfold job_group. by destruct (job =? 0). Qed.

(** A stage with its ends: [hs] is what the shell holds beside the carried
    read end. *)
Lemma stage_ok (last : bool) k seg rest in_fd out_fd next_in job started g mo :
  (forall in_fd job started g mo, fit k g -> stage_inv mo in_fd job started -> rest <> [] -> acts false (run_stages rest in_fd job started) g mo (drained k)) ->
  fit k g -> 0 <= seg <= k -> Forall (fun s => 0 <= s <= k) rest -> under mo (ends next_in ++ ends out_fd ++ ends in_fd) (job_group job) (Z.of_nat started) SHELL_PGID -> (job = 0 <-> started = 0%nat) -> 0 <= job < 2 ^ 32 ->
  (if last then next_in = -1 else rest <> []) ->
  acts false (id ← start_segment seg in_fd out_fd (if job =? 0 then SYS_RUN_GROUP_NEW else job) ;
     close_if in_fd ;; close_if out_fd ;;
     if id <? 0 then close_if next_in ;; mret (job, started, -1)
     else
       let job := if job =? 0 then u64 id else job in
       if last then mret (job, S started, id) else run_stages rest next_in job (S started)) g mo (drained k).
Proof.
  intros IH Hf Hs Hr Hu Hj Hb Hlast.
  assert (forall fd, fd = -1 \/ fd ∈ ends fd) as Hend by (intros fd; unfold ends; destruct (Z.eqb_spec fd (-1)); [by left | right; apply list_elem_of_here]).
  apply acts_bind. apply (start_segment_ok k seg in_fd out_fd _ _ _ _ g mo _ Hf Hs Hu).
  { destruct (Hend in_fd) as [-> | ?]; [by left | right]. rewrite !elem_of_app. auto. }
  { destruct (Hend out_fd) as [-> | ?]; [by left | right]. rewrite !elem_of_app. auto. }
  { apply job_group_new. }
  intros id mo1 g1 Hf1 Hcase.
  assert (exists grp n, under mo1 (ends next_in ++ ends out_fd ++ ends in_fd) grp n SHELL_PGID /\
    ((id = -1 /\ grp = job_group job /\ n = Z.of_nat started) \/ (1 <= id < 2 ^ 32 /\ grp = Some (default id (job_group job)) /\ n = Z.of_nat started + 1))) as (grp & n & Hu1 & Hid).
  { destruct Hcase as [[-> Hu1] | [Hid Hu1]]; eexists _, _; (split; [exact Hu1 |]); [by left | by right]. }
  apply acts_bind. eapply (acts_close_if _ in_fd); [exact Hu1 | by rewrite app_assoc, Permutation_app_comm |]. intros mo2 Hu2.
  apply acts_bind. eapply (acts_close_if _ out_fd); [exact Hu2 | by rewrite Permutation_app_comm |]. intros mo3 Hu3.
  destruct Hid as [(-> & -> & ->) | (Hid & -> & ->)].
  - apply acts_bind. eapply (acts_close_if _ next_in _ []); [exact Hu3 | by rewrite app_nil_r |]. intros mo4 Hu4. apply acts_ret. by split.
  - destruct (Z.ltb_spec id 0); [lia |]. cbv zeta. rewrite (u64_small id) by lia. set (job' := if job =? 0 then id else job).
    assert (Some (default id (job_group job)) = job_group job') as Ej by (unfold job', job_group; destruct (Z.eqb_spec job 0); simpl; [destruct (Z.eqb_spec id 0); [lia | done] | by destruct (Z.eqb_spec job 0)]).
    assert (1 <= job' < 2 ^ 32) as Hj' by (unfold job'; destruct (Z.eqb_spec job 0); lia).
    assert (stage_inv mo3 next_in job' (S started)) as Hinv.
    { rewrite Ej in Hu3. replace (Z.of_nat started + 1) with (Z.of_nat (S started)) in Hu3 by lia. split; [done |]. lia. }
    destruct last; [| by apply IH]. apply acts_ret. rewrite Hlast in Hinv. by split.
Qed.

Lemma run_stages_ok k segs : forall in_fd job started g mo, fit k g -> stage_inv mo in_fd job started -> segs <> [] \/ in_fd = -1 -> Forall (fun s => 0 <= s <= k) segs ->
  acts false (run_stages segs in_fd job started) g mo (drained k).
Proof.
  induction segs as [| seg rest IH]; intros in_fd job started g mo Hf (Hu & Hj & Hb) Hne Hs; cbn [run_stages].
  { destruct Hne as [? | ->]; [done |]. apply acts_ret. by split. }
  apply Forall_cons in Hs as [Hseg Hs].
  assert (forall in_fd job started g mo, fit k g -> stage_inv mo in_fd job started -> rest <> [] -> acts false (run_stages rest in_fd job started) g mo (drained k)) as IH' by (intros; apply IH; auto).
  apply acts_bind. destruct (bool_decide_reflect (rest = [])) as [E | E]; simpl negb; cbv iota.
  - apply acts_ret. apply (stage_ok true k seg rest in_fd (-1) (-1)); [done | done | done | done | by simpl | done | done | done].
  - unfold sys_pipe. apply acts_bind, acts_bind, acts_call; [done |]. intros a Ha. destruct (answered_ok _ _ Ha) as (Hr0 & Hp). pose proof Hu as (Hh & Hg & Hn & Hfg).
    eexists. split.
    { unfold mon_step. cbn [e_call]. assert (zlen (held mo) <= 1) as Hl by (unfold zlen; rewrite Hh; unfold ends; destruct (_ =? _); simpl; lia). rewrite (proj2 (Z.leb_le _ _) Hl). cbn [andb e_answer].
      assert (negb (a_ret a =? 0) || (zlen (a_data a) =? 2) = true) as -> by (destruct (Z.eqb_spec (a_ret a) 0); [| done]; destruct Hp as [? | (r & w & -> & _)]; done). reflexivity. }
    apply acts_ret. cbn [e_answer]. destruct (Z.eqb_spec (a_ret a) 0) as [E0 | E0].
    + rewrite E0. change (i64 0 =? 0) with true. simpl negb. cbv iota. destruct Hp as [? | (r & w & Ed & Hr & Hw)]; [done |]. rewrite Ed. apply acts_ret.
      apply (stage_ok false k seg rest in_fd w r); [intros; by apply IH' | done | done | done | | done | done | done].
      split; [| done]. simpl. unfold ends at 1 2. destruct (Z.eqb_spec r (-1)), (Z.eqb_spec w (-1)); try lia. simpl. by rewrite Hh.
    + assert (i64 (a_ret a) <> 0) as Hne' by (unfold i64; mlia). apply Z.eqb_neq in Hne' as ->. simpl negb. cbv iota. apply acts_bind. prints. apply acts_bind.
      eapply (acts_close_if _ in_fd _ []); [exact Hu | by rewrite app_nil_r |]. intros mo' Hu'. apply acts_ret, acts_ret. by split.
Qed.

Lemma split_line_ok k room : forall pos seg g, fit k g -> 0 <= pos <= k -> Forall (fun s => 0 <= s <= k) seg ->
  acts false (split_line room pos seg) g idle (fun r mo g' => mo = idle /\ fit k g' /\ forall segs, r = Some segs -> Forall (fun s => 0 <= s <= k) segs).
Proof.
  induction room as [| room IH]; intros pos seg g Hf Hp Hs; cbn [split_line]; (apply acts_bind; eapply acts_token; [done | done | done |]; intros g' pos' [t|] Hf' Hp' Ht; cbv beta iota).
  - apply acts_bind. prints. apply acts_ret. split; [done |]. by split.
  - apply acts_ret. split; [done |]. split; [done |]. by intros segs [= <-].
  - apply IH; [done | done |]. apply Forall_app. split; [done |]. apply Forall_singleton. by apply Ht.
  - apply acts_ret. split; [done |]. split; [done |]. by intros segs [= <-].
Qed.

Lemma reap_ok k job n : forall last_id last_status g mo, fit k g -> under mo [] (Some job) (Z.of_nat n) job ->
  acts false (reap n last_id last_status) g mo (fun _ mo' g' => under mo' [] (Some job) 0 job /\ fit k g').
Proof.
  induction n as [| n IH]; intros last_id st g mo Hf Hu; cbn [reap]; [by apply acts_ret |]. pose proof Hu as (Hh & Hg & Hn & Hfg). apply Permutation_nil_r in Hh.
  unfold sys_wait_id. apply acts_bind, acts_bind, acts_call; [done |]. intros a _. eexists. split.
  { unfold mon_step. cbn [e_call]. rewrite Hh, Hg, Hn, Hfg, !bool_decide_eq_true_2 by done. rewrite (proj2 (Z.ltb_lt _ _)) by lia. reflexivity. }
  apply acts_ret. cbv beta iota. apply IH; [done |]. split; [done |]. simpl. split; [done |]. split; [lia | done].
Qed.

Lemma acts_setfg_back b mo grp f g (Q : answer -> mon -> shell -> Prop) : under mo [] grp 0 f -> (forall a, Q a idle (core g)) -> acts b (sys (C_setfg SHELL_PGID)) g mo Q.
Proof.
  intros (Hh & Hg & Hn & Hf) HQ. apply Permutation_nil_r in Hh. apply acts_call; [done |]. intros a _. exists idle. split; [| auto]. unfold mon_step. cbn [e_call]. rewrite Hh, Hn, bool_decide_eq_true_2 by done. done.
Qed.

Lemma run_pipeline_keeps : keeps run_pipeline.
Proof.
  intros k g Hf. unfold run_pipeline. assert (0 <= k) by (destruct Hf as (_ & _ & [? _] & _); done). apply acts_bind. eapply acts_mono; [apply (split_line_ok k); [done | lia | constructor] |].
  intros [segs|] mo g1 (-> & Hf1 & Hsegs); [| by apply acts_ret]. destruct (Z.ltb_spec (zlen segs) 2) as [Hz | Hz]; [by prints |].
  apply acts_bind. eapply acts_mono; [apply (run_stages_ok k segs (-1) 0 0 g1 idle) |].
  { done. } { by repeat split. } { left. destruct segs; [unfold zlen in Hz; simpl in Hz; lia | done]. } { by apply Hsegs. }
  intros [[job started] last_id] mo g2 ((Hu & Hj & Hb) & Hf2). cbv beta iota.
  assert (exists job' , under mo [] (job_group job) (Z.of_nat started) SHELL_PGID /\ acts false (if negb (job =? 0) then sys_setfg sys job ;; mret tt else mret tt) g2 mo
    (fun _ mo' g' => g' = core g2 /\ (started = 0%nat /\ under mo' [] None 0 SHELL_PGID \/ under mo' [] (Some job') (Z.of_nat started) job'))) as (job' & _ & Hset).
  { exists job. split; [done |]. unfold job_group in Hu. destruct (Z.eqb_spec job 0) as [E | E]; simpl negb; cbv iota.
    - apply acts_ret. split; [done |]. left. assert (started = 0%nat) as -> by tauto. by split.
    - pose proof Hu as (Hh & Hg & Hn & Hfg). unfold sys_setfg. apply acts_bind, acts_bind, acts_call; [done |]. intros a _. eexists. split.
      { unfold mon_step. cbn [e_call]. unfold SHELL_PGID. rewrite (proj2 (Z.eqb_neq _ _) E), Hg. cbn [andb]. rewrite bool_decide_eq_true_2 by done. reflexivity. }
      apply acts_ret, acts_ret. split; [done |]. right. by split. }
  apply acts_bind. eapply acts_mono; [exact Hset |]. intros _ mo1 g' [-> Hcase].
  apply acts_bind. eapply (acts_mono _ _ _ _ (fun _ mo2 g3 => (exists grp f, under mo2 [] grp 0 f) /\ fit k g3)).
  { destruct Hcase as [[-> Hu1] | Hu1]; [apply acts_ret; split; [by eexists _, _ | done] |]. eapply acts_mono; [by apply (reap_ok k job') |]. intros st mo2 g3 [Hu2 Hf3]. split; [by eexists _, _ | done]. }
  intros last_status mo2 g3 [(grp & f & Hu2) Hf3]. apply acts_bind. eapply (acts_mono _ _ _ _ (fun _ mo3 g4 => mo3 = mo2 /\ g4 = core g3)).
  { destruct (_ && _); [| by apply acts_ret]. apply acts_say_lit_nl; [done | done | by repeat constructor | by repeat constructor | done]. }
  intros _ mo3 g4 [-> ->]. unfold sys_setfg. apply acts_bind, acts_bind. eapply acts_setfg_back; [exact Hu2 |]. intros a. apply acts_ret. by apply acts_ret.
Qed.
End Pipeline.

(** ** The session *)

Section Session.
Context `{Env} {laws : AnswerLaws} `{Layout}.

Lemma acts_is_cmd b k cmd s g mo (Q : bool -> mon -> shell -> Prop) : fit k g -> 0 <= cmd <= k -> plain_text s = true -> (forall r, Q r mo (core g)) -> acts b (is_cmd cmd s) g mo Q.
Proof. intros Hf Hc Hs HQ. unfold is_cmd. apply acts_bind, acts_at_line. destruct (strcmp_line k g cmd s Hf Hc Hs) as [r Er]. apply acts_bind, (acts_of_option _ _ r); [done |]. by apply acts_ret. Qed.

Lemma dispatch_cmd_ok k cmd otherwise table : Forall (fun e : string * U shell unit => plain_text e.1 = true /\ forall g, fit k g -> acts false e.2 g idle (fun _ mo g' => mo = idle /\ fit k g')) table ->
  (forall g, fit k g -> acts false otherwise g idle (fun _ mo g' => mo = idle /\ fit k g')) -> 0 <= cmd <= k -> forall g, fit k g ->
  acts false (dispatch_cmd table cmd otherwise) g idle (fun _ mo g' => mo = idle /\ fit k g').
Proof.
  intros Ht Ho Hc. induction Ht as [| [s body] table [Hs Hb] Ht IH]; intros g Hf; cbn [dispatch_cmd]; [by apply Ho |].
  apply acts_bind, (acts_is_cmd _ k); [done | done | done |]. intros [|]; [by apply Hb | by apply IH].
Qed.

Lemma with_token_ok k pos f g : fit k g -> 0 <= pos <= k -> (forall g' pos' tok, fit k g' -> 0 <= pos' <= k -> within k tok -> acts false (f pos' tok) g' idle (fun _ mo g'' => mo = idle /\ fit k g'')) ->
  acts false (with_token pos f) g idle (fun _ mo g' => mo = idle /\ fit k g').
Proof. intros Hf Hp Hg. unfold with_token. apply acts_bind. eapply acts_token; [done | done | done |]. intros g' pos' tok Hf' Hp' Ht. by apply Hg. Qed.

Lemma run_command_keeps : keeps run_command.
Proof.
  intros k g Hf. unfold run_command. assert (0 <= k) by (destruct Hf as (_ & _ & [? _] & _); done). apply acts_bind. eapply acts_token; [done | lia | done |]. intros g1 pos [cmd|] Hf1 Hp Hc; cbv beta iota; [| by apply acts_ret].
  specialize (Hc cmd eq_refl). apply dispatch_cmd_ok; [| intros g' Hf'; by abouts | done | done]. clear - Hp laws. unfold commands.
  repeat (apply Forall_cons; split; [split; [reflexivity |]; intros g Hf; cbn [snd] |]); [| | | | | | | | | | | constructor].
  - by apply cmd_list_keeps.
  - apply with_token_ok; [done | done |]. intros. by apply cmd_read_ok.
  - apply with_token_ok; [done | done |]. intros. by apply cmd_write_ok.
  - apply with_token_ok; [done | done |]. intros. by apply cmd_delete_ok.
  - by apply cmd_free_keeps.
  - apply with_token_ok; [done | done |]. intros. by apply cmd_run_ok.
  - by apply print_help_keeps.
  - by apply cmd_clear_keeps.
  - by apply cmd_return_ok.
  - by apply cmd_ps_keeps.
  - apply with_token_ok; [done | done |]. intros g1 pos1 t1 Hf1 Hp1 Ht1. apply with_token_ok; [done | done |]. intros. by apply cmd_kill_ok.
Qed.

Lemma acts_wait {A} (m : U shell A) g mo Q : acts false m g mo Q -> acts true m g mo Q.
Proof. intros Hm s Hg. eapply uwp_mono; [by apply Hm | by intros ? [? _] | done]. Qed.

Lemma obeys_reads ds : Forall (fun e => e_call e = C_readkey) ds -> obeys idle ds = Some idle.
Proof. induction 1 as [| e ds He _ IH]; [done |]. simpl. unfold mon_step. rewrite He. done. Qed.

Lemma typed_reads ds : Forall typed ds -> Forall (fun e => e_call e = C_readkey) ds.
Proof. intros Ht. eapply Forall_impl; [done |]. by intros e [? _]. Qed.

Lemma read_line_acts k keys g : fit k g -> acts true (read_line keys) g idle (fun _ mo g' => mo = idle /\ exists k', fit k' g').
Proof.
  intros (Hn & Hb & _ & _ & Hl & Hf) s Hg. destruct (core_eq _ _ Hg) as (El & Ell & Elf).
  assert (synced (mkEd [] (line_abandoned (d_globals s)) None) 0 (d_globals s)) as Hs by (split; [done |]; rewrite El; split; [done | lia]).
  eapply uwp_mono; [by apply (read_keys_edit keys 0 _ s Hs) | |].
  - intros s' (evs & T & Ht & _). split; [done |]. exists evs. split; [done |]. by apply obeys_reads, typed_reads.
  - intros _ s' (evs & ds & e & T & D & Ht & Hk & _ & _ & [tl Etl] & Hz & Hn' & Hl' & Hf' & Hb'). exists evs, idle. split; [done |]. split.
    { apply obeys_reads. rewrite D. apply Forall_app. split; [by apply typed_reads | by apply Forall_singleton]. }
    split; [done |]. unfold SHELL_LINE_MAX in Hz. set (text := ed_text _) in *. exists (zlen text). split; [done |]. split; [apply Hb'; by rewrite El |].
    split; [| split; [lia |]; simpl; rewrite Hl', Hf', Ell, Elf; done]. split; [unfold zlen; lia |]. simpl. rewrite Etl. unfold zlen. rewrite Nat2Z.id. by apply list_lookup_middle.
Qed.

Lemma shell_turn_acts k keys g : fit k g -> acts true (shell_turn keys) g idle (fun _ mo g' => mo = idle /\ exists k', fit k' g').
Proof.
  intros Hf. unfold shell_turn. apply acts_bind. prints. apply acts_bind. eapply acts_mono; [by apply (read_line_acts k) |]. intros _ mo g1 [-> [k1 Hf1]].
  apply acts_bind, acts_get. intros g0 Hg0. destruct (core_eq _ _ Hg0) as (El & _ & _). rewrite El.
  assert (0 <= k1) as Hk1 by (destruct Hf1 as (_ & _ & [? _] & _); done).
  destruct (line_printable k1 g1 0 Hf1 ltac:(lia)) as (text & Hc & _). rewrite drop_0 in Hc. destruct (strchr_cstring text (line g1) 124 Hc) as (r & Er & _); [lia | lia |].
  apply acts_bind, (acts_of_option _ _ r); [done |]. apply acts_wait. destruct r as [i|]; (eapply acts_mono; [by apply run_pipeline_keeps || by apply run_command_keeps |]); intros _ mo g2 [-> Hf2]; (split; [done | by exists k1]).
Qed.

Lemma shell_loop_acts keys turns : forall k g, fit k g -> acts true (shell_loop turns keys) g idle (fun _ _ _ => False).
Proof.
  induction turns as [| t IH]; intros k g Hf; cbn [shell_loop].
  - intros s Hg. split; [done |]. exists []. by rewrite app_nil_r.
  - apply acts_bind. eapply acts_mono; [by apply (shell_turn_acts k) |]. intros _ mo g' [-> [k' Hf']]. by apply (IH k').
Qed.

Lemma shell_zero_fit : fit 0 shell_zero.
Proof. repeat split; try done; try lia. apply Forall_replicate. done. Qed.
End Session.

(** C32: A pipeline cleans up after itself, whatever the line and whatever the
    kernel answers: [run_pipeline] returns, every call keeps the rules
    ([mon_step]: at most three pipe ends in hand, children get only ends the
    shell holds and all join the first one's group, no waiting with an end
    still open), it closes as many ends as its pipes gave it, waits as often
    as it started a child, and leaves nothing under way, having asked for
    the keyboard back. *)
Theorem pipeline_cleans_up `{Env} {laws : AnswerLaws} `{Layout} k s : fit k (d_globals s) -> exists s' evs,
  run_pipeline s = Got tt s' /\ d_trace s' = d_trace s ++ evs /\ fit k (d_globals s') /\ obeys idle (deeds evs) = Some idle /\
  count closed (deeds evs) = 2 * count made (deeds evs) /\ count waited (deeds evs) = count started_run (deeds evs).
Proof.
  intros Hf. destruct (uwp_run run_pipeline (fun _ s' => exists evs mo', d_trace s' = d_trace s ++ evs /\ obeys idle (deeds evs) = Some mo' /\ mo' = idle /\ fit k (core (d_globals s'))) s) as ([] & s' & E & evs & mo' & T & O & -> & Hf').
  { eapply uwp_mono; [by apply (run_pipeline_keeps k (d_globals s)) | by intros s' [? _] | done]. }
  exists s', evs. destruct (obeys_counts _ _ _ O) as [C1 C2]. cbn [idle held unwaited] in C1, C2. change (zlen (@nil Z)) with 0 in C1. split; [done |]. split; [done |]. split; [done |]. split; [done | lia].
Qed.

(** C31: The shell never fails. For every kernel that answers as documented,
    every sequence of keys and every arrival of interrupts it has no
    undefined behaviour - no access outside its buffers, no unterminated
    string, no mismatched format - and never ends: it is always found waiting
    for keys or for the next turn. On the way every call kept the rules
    ([mon_step]), and there it has asked the kernel to close every pipe end
    it was given, to wait once for every child it started and to give the
    keyboard back. By the kernel's answers, then, the children left are
    exactly those whose wait failed (one cut short by a signal), the ends
    left open those whose close failed, and the keyboard is the shell's if
    no request for it was refused. *)
Theorem shell_session `{Env} {laws : AnswerLaws} `{Layout} turns keys s : d_trace s = [] -> d_globals s = shell_zero -> exists s',
  _start turns keys s = More s' /\ obeys idle (deeds (d_trace s')) = Some idle /\
  let ds := deeds (d_trace s') in
  children (world_after ds) = count wait_failed ds /\ open_ends (world_after ds) = count close_failed ds /\
  (count setfg_failed ds = 0 -> front (world_after ds) = SHELL_PGID).
Proof.
  intros Ht Hg. assert (acts true (_start turns keys) shell_zero idle (fun _ _ _ => False)) as Ha.
  { unfold _start. apply acts_bind. prints. unfold sys_signal. apply acts_bind, acts_bind, acts_free; [done |]. intros a _. apply acts_bind.
    intros s1 Hs1. exists [], idle. rewrite app_nil_r. split; [done |]. split; [done |]. simpl. rewrite Hs1. apply acts_ret. apply (shell_loop_acts _ _ 0). apply shell_zero_fit. }
  specialize (Ha s). rewrite Hg in Ha. specialize (Ha eq_refl). unfold uwp in Ha. destruct (_start turns keys s) as [a s' | s' |]; [by destruct Ha as (? & ? & _ & _ & ?) | | done].
  destruct Ha as (_ & evs & T & O). exists s'. split; [done |]. rewrite T, Ht. split; [done |]. by apply world_idle.
Qed.

(** A kernel for two programs: descriptors 3 and 4, task ids from 1 on, and
    two interrupts. The user types a pipeline. *)
Module DemoShell.
Definition keys : list Z := chars_of "run a|run b" ++ [10].
Definition is_read (e : event) : bool := match e_call e with C_readkey => true | _ => false end.
Definition reply (t : list event) (c : call) : answer :=
  match c with
  | C_write _ bs => mkAnswer (Z.min 7 (zlen bs)) []
  | C_readkey => mkAnswer (nth (length (List.filter is_read t)) keys SYS_FAIL) []
  | C_pipe => mkAnswer 0 [3; 4]
  | C_run _ _ _ _ => mkAnswer (1 + zlen (List.filter started_run t) mod 60) []
  | C_wait _ => mkAnswer 0 [1 + zlen (List.filter waited t) mod 60]
  | C_close _ | C_setfg _ | C_signal _ => mkAnswer 0 []
  | _ => mkAnswer SYS_FAIL []
  end.
#[export] Instance env : Env := { kern := reply; signals after t := if after && (Nat.eqb (length t) 3 || Nat.eqb (length t) 35) then 1%nat else 0%nat }.
Lemma shell_keys_ok n : nth n keys SYS_FAIL = SYS_FAIL \/ 0 < nth n keys SYS_FAIL < 256.
Proof. do 12 (destruct n as [| n]; [right; vm_compute; done |]). left. by destruct n. Qed.
Lemma shell_reply_ok t c : answer_ok c (reply t c).
Proof.
  assert (0 <= SYS_FAIL < 2 ^ 64) by done. assert (SYS_FAIL <> 0) by done. unfold answer_ok. destruct c; cbn [reply a_ret a_data]; try (by auto).
  - assert (0 <= zlen bs) by (unfold zlen; lia). rewrite i64_small by lia. lia.
  - destruct (shell_keys_ok (length (List.filter is_read t))) as [-> |]; [by auto |]. split; [lia | by right].
  - pose proof (Z.mod_pos_bound (zlen (List.filter started_run t)) 60 ltac:(lia)). split; [lia |]. right. lia.
  - split; [lia |]. right. exists 3, 4. split; [done | lia].
Qed.
#[export] Instance laws : AnswerLaws := { kern_ok := shell_reply_ok }.
#[export] Instance layout : Layout := { line_at := USER_CODE_BASE; text_at := USER_CODE_BASE }.

Definition start : prog shell := mkProg [] false shell_zero.
(** The line as if typed. *)
Definition typed_start : prog shell := mkProg [] true (set_line (over (line shell_zero) (chars_of "run a|run b")) shell_zero).
Definition counts (t : list event) : Z * Z := (count made (deeds t), count started_run (deeds t)).
Definition piped (o : outcome shell unit) : option (Z * Z) := match o with Got _ s | More s => Some (counts (d_trace s)) | Bad => None end.

Lemma runs_pipe : piped (run_pipeline typed_start) = Some (1, 2).
Proof. vm_compute. reflexivity. Qed.
Lemma runs_session : piped (_start 2 20 start) = Some (1, 2).
Proof. vm_compute. reflexivity. Qed.
Lemma typed_fit : fit 11 (d_globals typed_start).
Proof.
  split; [reflexivity |]. split; [| split; [split; [lia | reflexivity] |]; split; [lia |]; split; reflexivity].
  apply Forall_app. split; [vm_compute; repeat constructor; done | by repeat constructor].
Qed.
End DemoShell.
Import DemoShell.

Lemma pipeline_cleans_up_witness : exists s' evs, run_pipeline typed_start = Got tt s' /\ d_trace s' = evs /\ count made (deeds evs) = 1 /\ count closed (deeds evs) = 2 /\ count waited (deeds evs) = 2.
Proof.
  destruct (pipeline_cleans_up 11 typed_start typed_fit) as (s' & evs & E & T & _ & _ & C1 & C2). pose proof runs_pipe as Hr. rewrite E in Hr. simpl piped in Hr. unfold counts in Hr. rewrite T in Hr.
  change (d_trace typed_start ++ evs) with evs in *. injection Hr as H1 H2. exists s', evs. split; [exact E |]. split; [exact T |]. split; [exact H1 |]. split; [rewrite C1, H1; reflexivity | rewrite C2; exact H2].
Defined.

Lemma shell_session_witness : exists s', _start 2 20 start = More s' /\ obeys idle (deeds (d_trace s')) = Some idle /\ count started_run (deeds (d_trace s')) = 2 /\
  children (world_after (deeds (d_trace s'))) = count wait_failed (deeds (d_trace s')).
Proof.
  destruct (shell_session 2 20 start eq_refl eq_refl) as (s' & E & O & W & _). pose proof runs_session as Hr. rewrite E in Hr. injection Hr as H1 H2. exists s'. exact (conj E (conj O (conj H2 W))).
Defined.
